(* ===== verification/_CoqProject ===== *)
-Q . S2P
Prelude.v
CText.v
Ring.v
Spsc.v
Heap.v
CsvLog.v
CsvRing.v
StatsCollector.v
Double.v
StatsAnalysis.v
PpsStats.v
Wire.v
TxStamps.v
MainLoop.v
CorrArray.v
ServerQueue.v
ServerCorr.v
ServerRx.v
ServerRt.v
ServerTrace.v
Tsc.v
Client.v
RoundTrip.v
Process.v
Timing.v
Threads.v
Report.v
TxThread.v
ClientRun.v
ServerRun.v
JoinParse.v
JoinSeq.v
JoinTable.v
JoinOut.v
Join.v
Measurement.v
MeasurementRt.v
MeasurementFull.v
JoinArgs.v
XdpFilter.v
Logging.v
Signals.v
Frame.v
Batch.v
Arp.v
NetIf.v
Xsk.v
Kernel.v
KernelDemo.v
XskLife.v
Control.v
Replicator.v
Template.v
Pool.v
Deploy.v
Moves.v
DeployFilter.v
MarketData.v
EndToEnd.v
Bench.v
Tools.v
Hft.v
HftMain.v
Args.v
