(* ===== verification/Prelude.v ===== *)
(** * Verification of the latency benchmark

    The repository measures the latency of a network path.  It holds three groups
    of programs, and the development models their C and C++ sources.

    ** The programs

    1. src/ec2_timestamping_programs: the timestamping client and server with
       their CSV join.  timestamp_client.c sends numbered packets (one-way or
       round-trip); timestamp_server.c stamps what it receives and, in round-trip
       mode, echoes the number through a queue to a second thread; both correlate
       stamps from the kernel and from the cycle counter by sequence number, log
       them through a ring to a writer thread and collect statistics
       (timestamp_common.c, timestamp_common.h, timestamp_logging.c);
       timestamp_csvjoin.c joins the logs of the two ends into one table.
    2. src/af_xdp_zero_copy_perf_benchmark: a packet replicator on AF_XDP.
       unicast_filter.c redirects the packets of one address and port to a socket
       (AFXDPSocket.cpp); PacketReplicator.cpp sends the payload of each to the
       destinations that a control protocol registers (ControlClient.cpp), and
       MarketDataProviderClient.cpp measures the round trip through it.
    3. The exchange client hft_client/cpp-client: orders and cancels over a
       websocket, with a histogram of their round trips.

    ** Files and the code they model

    Shared: Prelude.v (machine integers, lists), CText.v (libc text functions),
    Ring.v (the interface of power-of-two rings, a class with three instances),
    Spsc.v (its two-thread interleavings as a step relation), Heap.v (live
    allocations), Double.v (binary64), Wire.v (stamps, addresses, packet bytes,
    control messages), MainLoop.v (the loop client and server share).

    Timestamping programs:
    - CsvLog.v, CsvRing.v: csv_entry_t, its constructors and formatter; the log
      ring csv_ring_buffer_t and the writer thread (timestamp_common.c).
    - StatsCollector.v, StatsAnalysis.v, PpsStats.v: stats_collector_t and its
      updates; process_buffer_for_analysis and the report; the packet rates.
    - TxStamps.v, TxThread.v: process_tx_timestamps_in_main_thread of both
      programs, in the part they share, over the error queue; the thread that calls
      it, with its polls, its look at the health of the queue and its drain.
    - CorrArray.v, ServerCorr.v, ServerQueue.v: correlation arrays and the queue of
      return packets (timestamp_server.c).
    - ServerRx.v, ServerRt.v: the two modes of the server; the receive handler,
      the TX thread and the interleavings of the threads.
    - Tsc.v, Timing.v, Client.v: cycle counts as times; the counter, its
      calibration, the busy-wait and the pacing it gives; sending loops, receive thread and
      TX timestamps of the client.
    - Batch.v: the batches of both ends as they lie in memory, behind the message
      headers of sendmmsg; Threads.v: the receiving thread of the client and the
      sending thread of the server as whole functions, with the totals they return.
    - RoundTrip.v: client and server composed.
    - Process.v, Report.v, ClientRun.v, ServerRun.v: a monad of programs with early
      return that acquire and release resources and start threads, with rules in
      the style of weakest preconditions; thread creation and the timestamp
      thread's start and stop; the socket options; the statistics at exit; run_client_oneway,
      run_client_roundtrip, run_server_oneway and run_server_roundtrip from the
      first socket to the exit code.
    - JoinParse.v, JoinSeq.v, JoinTable.v, JoinOut.v, Join.v, JoinArgs.v: the join,
      from the text of a line to the whole operation and its command line.
    - ServerTrace.v: the threads of the round-trip server with the history of what
      they received, stored, sent and logged, and what the correlation arrays hold.
    - Measurement.v, MeasurementRt.v, MeasurementFull.v: a measurement from the
      sockets to the joined table, composed from the loops, the error queue, the log
      rings with their writer threads and the join; in round-trip mode over the
      interleavings of the sending and the receiving thread of the client, and over
      those of all threads at both ends.
    - Logging.v, Signals.v, Args.v: the logging filter, the signal handlers and
      what delivers a signal to them, and the command lines.

    Packet replicator: XdpFilter.v (unicast_filter), Frame.v (extraction of the
    payload and creation of frames, with the IPv4 checksum), Arp.v and NetIf.v (the address
    table, the addresses of the interface), Xsk.v (the socket's frames and rings), Control.v (destinations, control
    protocol, its client), Replicator.v (the data path), and what nothing calls: Pool.v
    (the buffer pool), Template.v (packet templates, the zero-copy send, the copies
    of the destinations) and Moves.v (moving a replicator).
    Its life: Kernel.v (the calls to the kernel and libxdp with their documented
    effect on the resources and BPF maps of the process, the state between calls,
    and a monad with exceptions), KernelDemo.v (a kernel that behaves so, for the
    witnesses), XskLife.v (AFXDPSocket and the XDP program, from creation to
    destruction), Deploy.v (initialize, start, stop, the destructor and main),
    DeployFilter.v (initialize composed with the filter of XdpFilter.v).
    Beside it: MarketData.v (the benchmark's messages, counters and statistics),
    Bench.v (the benchmark from its command line to its exit), EndToEnd.v (the
    benchmark, the control protocol, the filter, the data path and the frames
    composed), Tools.v (the test client and the interface configurator).

    Exchange client: Hft.v (messages, configuration, handler), HftMain.v (the
    connection as calls on the websocket endpoint and events from it, the file of
    the histogram, main).

    ** How state and operations correspond

    A C struct is a Record with the same fields, an enum an Inductive or its
    numbers.  A function is a Definition of the same name that takes the state it
    changes and returns it; what it gets from outside (clock, kernel results,
    received messages, allocation results) is an argument.  Failure is None or
    the error value of the code.  Integers are Z with the wrap-around of their
    width written out (u8, u16, u32, u64, s32, s64).  Threads are step relations
    (Spsc.spsc_step, ServerRt.rt_step), and theorems about them quantify over every
    reachable state; memory is sequentially consistent there.

    Recursion is structural on a list or on a number of iterations the code bounds
    itself (batch sizes, counts).  Where the code loops until something happens,
    the definition has fuel, taken from the data so that it suffices: 20 digits for
    a 64-bit number, the length of the buffer for trimming, splitting and reading
    lines, the number of records for the binary search, 32 doublings for the next
    power of two, the length of the error queue for the drains, the 1021 descriptors
    searched for the configuration map.  The theorems give
    the result itself, which an exhausted fuel would not.  Loops that run until
    shutdown consume the list of their inputs, one element per iteration.

    ** What the theorems show

    - The whole measurement: every row of the joined table holds the stamps of one
      packet, whatever is lost, repeated or reordered on the way
      (oneway_latency_table, roundtrip_latency_table, full_latency_table).
    - Logging: in any interleaving the ring is a FIFO (spsc_interleavings_linear,
      csv_ring_refines_queue), and the log file is the header followed by the lines
      of what was accepted, but for the batches the final flush leaves
      (csv_log_file_content).
    - Statistics: the collector keeps the most recent entries
      (stats_keeps_most_recent; update_changes_most_recent), and the analysis
      accounts for each entry collected (analysis_accounts_for_entries).
    - Server: replies are echoes of what was received, in order
      (return_packets_are_echoes), every packet is logged
      (oneway_logs_every_packet, tx_iteration_sends_and_logs,
      server_timestamp_thread_logs_all).
    - Client: numbers are consecutive (client_sequence_numbers), replies find the
      stamps of their packets (replies_find_their_stamps), but for replies faster
      than the store (reply_before_store_is_stale); the timestamp thread logs
      every stamp but those its peeks take, none where a peek leaves the queue alone
      (timestamp_thread_logs_all), and batches are at least their interval
      apart (precise_delay_spec, pacing_bounds_rate); round_trip_replies composes
      both ends.
    - Memory and threads: the loops over buffers, vectors and message headers send
      the packets the loops over packets speak of (sending_loops_in_memory, and
      return_batch_in_memory for the server's replies); the totals reported at exit
      are exact (received_total_exact, sent_total_exact).
    - Signals: once the handlers are in place no signal of the three ends the
      process, the shutdown flag is set exactly when one asked for it, and the alarm
      keeps coming until reporting is switched off (signals_handled).
    - Start to exit: client_start_to_exit and server_start_to_exit say, for every
      combination of failing calls and every end of the waits for threads, what is
      released, what is left, which thread is left running and what is released
      wrongly.
    - Join: process_join_correct characterises the output file of any input files;
      csv_line_roundtrip, logged_columns_agree, output_row_matches_header and
      delta_column_exact are its parts.
    - Replicator: the filter passes on exactly the packets configured
      (unicast_filter_exact); frames are well formed (created_frame_correct), reads
      stay in bounds (extract_payload_in_bounds) and the fast extraction agrees
      with the careful one up to padding (extract_fast_agrees); frames are neither
      lost nor duplicated (rx_frames_conserved, tx_accounting); the data path sends
      every payload to every destination (queue_pass_replicates) while the TX ring
      has room (full_ring_send_overwrites says what happens otherwise); the control
      protocol implements a set (control_refines_set, control_client_server).
    - Replicator from start to exit: initialize_filters gives what the filter, the
      maps and the sockets do together after initialize, and
      truncated_info_hides_config the one way in which it silently does nothing;
      start_stop_lifecycle is the state machine of start and stop;
      replicator_main_cleans_up says what is released on every path of main, a
      detach that fails included.
    - Composition: trade_through_replicator follows one message of the benchmark
      from its subscription through filter, queue thread and frame back to its
      counters.
    - Buffer pool: no buffer has two owners, in any interleaving of any number of
      threads (pool_exclusive); one thread alone gets a buffer exactly when one is
      free (get_buffer_finds_free).  A completed template is a valid frame
      (completed_template_correct), and a thread's copy of the destinations is at
      most 100 ms old (cached_destinations_recent).
    - Market data and exchange client: messages, counters and termination
      (trade_message_roundtrip, benchmark_accounting, benchmark_sends_paced,
      order_messages_fit, uuid_shape, handler_accounting, test_completes);
      exchange_main_accounts follows the exchange client from its configuration to
      its exit, for any sequence of well-formed messages; what the histogram takes
      is a parameter there.
    - Command lines and log filter: client_main_correct, logging_filter_correct,
      parse_log_components_exact.

    ** Not modelled

    System calls whose effect is outside the programs (memory locking, priorities)
    are calls with any result; text printed for the user only, other than the
    statistics report and the log records, is left out, and so are the usage texts.
    The kernel's side of the rings is a parameter with its documented bounds.  The
    websocket, TLS, the JSON parser and the histogram are libraries: what the
    exchange client asks of them is modelled as calls and events.  A wait for a
    thread without time limit is taken to return.  The socket for
    output of the replicator is set up (Deploy.v) without its buffer sizes.  *)

From stdpp Require Export base tactics list numbers option gmap sets strings sorting.
From Stdlib Require Export ZArith Lia Ascii.

#[global] Open Scope Z_scope.

(** ** Machine integers

    A C integer of width w is a Z in its range; every operation that can leave
    the range is followed by one of these conversions. *)

Definition u8 (z : Z) : Z := z mod 256.
Definition u16 (z : Z) : Z := z mod 65536.
Definition u32 (z : Z) : Z := z mod 4294967296.
Definition u64 (z : Z) : Z := z mod 18446744073709551616.
(** Conversion to a signed type of the same width (two's complement). *)
Definition s32 (z : Z) : Z := (z + 2147483648) mod 4294967296 - 2147483648.
Definition s64 (z : Z) : Z :=
  (z + 9223372036854775808) mod 18446744073709551616 - 9223372036854775808.

Definition UINT32_MAX : Z := 4294967295.
Definition LONG_MAX : Z := 9223372036854775807.
Definition LONG_MIN : Z := -9223372036854775808.
Definition ULONG_MAX : Z := 18446744073709551615.

Create HintDb cint discriminated.

(** [lia] for goals with division or modulus by constants. *)
Ltac zlia := Z.to_euclidean_division_equations; lia.

Lemma u8_range z : 0 <= u8 z < 256.
Proof. unfold u8. zlia. Qed.
Lemma u16_range z : 0 <= u16 z < 65536.
Proof. unfold u16. zlia. Qed.
Lemma u32_range z : 0 <= u32 z < 4294967296.
Proof. unfold u32. zlia. Qed.
Lemma u64_range z : 0 <= u64 z < 18446744073709551616.
Proof. unfold u64. zlia. Qed.
Lemma u16_small z : 0 <= z < 65536 -> u16 z = z.
Proof. intros. apply Z.mod_small. lia. Qed.
Lemma u32_small z : 0 <= z < 4294967296 -> u32 z = z.
Proof. intros. apply Z.mod_small. lia. Qed.
Lemma u64_small z : 0 <= z < 18446744073709551616 -> u64 z = z.
Proof. intros. apply Z.mod_small. lia. Qed.
Lemma s32_small z : -2147483648 <= z < 2147483648 -> s32 z = z.
Proof. intros. unfold s32. rewrite Z.mod_small; lia. Qed.
Lemma s64_small z :
  -9223372036854775808 <= z < 9223372036854775808 -> s64 z = z.
Proof. intros. unfold s64. rewrite Z.mod_small; lia. Qed.

#[export] Hint Resolve u8_range u16_range u32_range u64_range : cint.
#[export] Hint Rewrite u16_small u32_small u64_small s32_small s64_small
  using lia : cint.

(** Rewrite every conversion whose argument is provably in range. *)
Ltac cint := autorewrite with cint.

(** Case analysis on the matches and ifs of the goal or of a hypothesis. *)
Ltac case_goal :=
  repeat match goal with
         | |- context [ match ?x with _ => _ end ] => destruct x eqn:?; simplify_eq/=
         end.
Ltac case_hyp H :=
  repeat match type of H with
         | context [ match ?x with _ => _ end ] => destruct x eqn:?; simplify_eq/=
         end.
(** Turn boolean tests of Z in the context into inequalities. *)
Ltac zb :=
  repeat match goal with
  | H : (_ =? _) = true |- _ => apply Z.eqb_eq in H
  | H : (_ =? _) = false |- _ => apply Z.eqb_neq in H
  | H : (_ <? _) = true |- _ => apply Z.ltb_lt in H
  | H : (_ <? _) = false |- _ => apply Z.ltb_ge in H
  | H : (_ <=? _) = true |- _ => apply Z.leb_le in H
  | H : (_ <=? _) = false |- _ => apply Z.leb_gt in H
  | H : (_ && _)%bool = true |- _ => apply andb_true_iff in H as [? ?]
  | H : (_ || _)%bool = false |- _ => apply orb_false_iff in H as [? ?]
  | H : negb _ = true |- _ => apply negb_true_iff in H
  | H : negb _ = false |- _ => apply negb_false_iff in H
  end.

(** ** Bit masks

    The rings index their arrays with [x & (2^k - 1)]. *)

Definition is_mask (m : Z) : Prop := exists k, 0 <= k <= 32 /\ m = 2 ^ k - 1.

Lemma land_mask x k : 0 <= k -> Z.land x (2 ^ k - 1) = x mod 2 ^ k.
Proof.
  intros Hk. rewrite <- Z.land_ones by lia. f_equal.
  rewrite Z.ones_equiv. lia.
Qed.

Lemma is_mask_land x m : is_mask m -> Z.land x m = x mod (m + 1).
Proof.
  intros (k & Hk & ->). rewrite land_mask by lia. f_equal. lia.
Qed.

Lemma is_mask_bounds m : is_mask m -> 0 <= m < 4294967296.
Proof.
  intros (k & Hk & ->).
  assert (1 <= 2 ^ k) by (apply (Z.pow_le_mono_r 2 0 k); lia).
  assert (2 ^ k <= 2 ^ 32) by (apply Z.pow_le_mono_r; lia). lia.
Qed.

(** Wrapping to 32 bits first does not change a masked value. *)
Lemma is_mask_u32 x m : is_mask m -> u32 x mod (m + 1) = x mod (m + 1).
Proof.
  intros Hm. pose proof (is_mask_bounds m Hm).
  destruct Hm as (k & Hk & ->). unfold u32.
  replace (2 ^ k - 1 + 1) with (2 ^ k) by lia.
  replace 4294967296 with (2 ^ k * 2 ^ (32 - k)).
  2:{ rewrite <- Z.pow_add_r by lia. replace (k + (32 - k)) with 32 by lia. reflexivity. }
  rewrite Z.rem_mul_r by (try apply Z.pow_nonzero; try apply Z.pow_pos_nonneg; lia).
  rewrite Z.mul_comm, Z.mod_add by (apply Z.pow_nonzero; lia).
  apply Z.mod_mod. apply Z.pow_nonzero; lia.
Qed.

(** The test [x & (x - 1)] of the programs accepts exactly the powers of two. *)
Lemma land_pred_power x : 0 < x -> Z.land x (x - 1) = 0 -> x = 2 ^ Z.log2 x.
Proof.
  intros Hx H. pose proof (Z.log2_spec x Hx) as [Hl Hu].
  destruct (decide (x = 2 ^ Z.log2 x)) as [|Hne]; [done|exfalso].
  assert (Z.log2 (x - 1) = Z.log2 x) as E.
  { apply Z.log2_unique; [apply Z.log2_nonneg|lia]. }
  assert (Z.testbit (Z.land x (x - 1)) (Z.log2 x) = true) as B.
  { rewrite Z.land_spec, Z.bit_log2 by done. rewrite <- E at 1. apply Z.bit_log2.
    assert (1 <= 2 ^ Z.log2 x) by (apply (Z.pow_le_mono_r 2 0); [lia|apply Z.log2_nonneg]). lia. }
  by rewrite H, Z.bits_0 in B.
Qed.

Lemma land_pred_of_power k : 0 <= k -> Z.land (2 ^ k) (2 ^ k - 1) = 0.
Proof.
  intros. rewrite land_mask by lia. apply Z.mod_same. apply Z.pow_nonzero; lia.
Qed.

Lemma is_mask_pred x : 0 < x < 4294967296 -> Z.land x (x - 1) = 0 -> is_mask (x - 1).
Proof.
  intros Hx H. apply land_pred_power in H; [|lia]. exists (Z.log2 x). split; [|lia].
  split; [apply Z.log2_nonneg|]. assert (Z.log2 x < 32); [|lia].
  apply Z.log2_lt_pow2; lia.
Qed.

(** Two numbers below N that differ by a multiple of N are equal. *)
Lemma small_multiple N k k' q :
  0 < N -> 0 <= k < N -> 0 <= k' < N -> k - k' = q * N -> k = k'.
Proof.
  intros. assert (q = 0 \/ 1 <= q \/ q <= -1) as [->|[?|?]] by lia; nia.
Qed.

(** ** Arrays indexed by Z *)

Definition zget {A} (l : list A) (i : Z) : option A :=
  if i <? 0 then None else l !! Z.to_nat i.
Definition zset {A} (l : list A) (i : Z) (x : A) : list A :=
  if i <? 0 then l else <[Z.to_nat i := x]> l.
Definition zlen {A} (l : list A) : Z := Z.of_nat (length l).

Lemma zlen_zset {A} (l : list A) i x : zlen (zset l i x) = zlen l.
Proof. unfold zset, zlen. case_match; [done|]. by rewrite length_insert. Qed.
Lemma zlen_nonneg {A} (l : list A) : 0 <= zlen l.
Proof. unfold zlen. lia. Qed.
Lemma zlen_app {A} (l k : list A) : zlen (l ++ k) = zlen l + zlen k.
Proof. unfold zlen. rewrite length_app. lia. Qed.
Lemma zget_zset_eq {A} (l : list A) i x : 0 <= i < zlen l -> zget (zset l i x) i = Some x.
Proof.
  unfold zget, zset, zlen. intros. case_match; zb; [lia|].
  apply list_lookup_insert_eq. lia.
Qed.
Lemma zget_zset_ne {A} (l : list A) i j x : i <> j -> zget (zset l i x) j = zget l j.
Proof.
  unfold zget, zset. intros. repeat case_match; zb; try done.
  apply list_lookup_insert_ne. lia.
Qed.
Lemma zget_lt {A} (l : list A) i : 0 <= i < zlen l -> exists x, zget l i = Some x.
Proof.
  unfold zget, zlen. intros. case_match; zb; [lia|].
  destruct (l !! Z.to_nat i) eqn:E; eauto. apply lookup_ge_None in E. lia.
Qed.

Lemma zget_range {A} (l : list A) i x : zget l i = Some x -> 0 <= i < zlen l.
Proof.
  unfold zget, zlen. case_match; [done|]. zb. intros Hl%lookup_lt_Some. lia.
Qed.

(** ** omap, one element at a time *)

Lemma omap_cons_some {A B} (f : A -> option B) x l y :
  f x = Some y -> omap f (x :: l) = y :: omap f l.
Proof. intros H. simpl. by rewrite H. Qed.
Lemma omap_cons_none {A B} (f : A -> option B) x l :
  f x = None -> omap f (x :: l) = omap f l.
Proof. intros H. simpl. by rewrite H. Qed.

(** A relation every step of a fold respects. *)
Lemma fold_left_rel {A B} (R : A -> A -> Prop) `{!PreOrder R} (f : A -> B -> A) l s :
  (forall s x, R s (f s x)) -> R s (fold_left f l s).
Proof.
  intros Hf. revert s. induction l as [|x l IH]; intros s; [done|]. cbn [fold_left]. etrans; [apply Hf|apply IH].
Qed.

(** ** C strings

    A C string is the list of its characters before the terminating NUL; a
    char array in memory is a list that may hold NULs. *)

Abbreviation cstr := (list ascii).
Definition lit (s : string) : cstr := String.list_ascii_of_string s.
Definition NUL : ascii := Ascii.zero.
(** The C string that starts at the beginning of a memory area. *)
Fixpoint c_str (mem : list ascii) : cstr :=
  match mem with
  | [] => []
  | c :: mem => if decide (c = NUL) then [] else c :: c_str mem
  end.
Definition COMMA : ascii := ascii_of_nat 44.
Definition DQUOTE : ascii := ascii_of_nat 34.
Definition DOT : ascii := ascii_of_nat 46.
Definition CR : ascii := ascii_of_nat 13.
Definition NL : ascii := ascii_of_nat 10.
