(* ===== verification/CText.v ===== *)
(** The parts of the C library's string handling the programs use: character
    classes, number parsing (strtol, strtoul, atoi, atoll), number printing
    (the %u and %0Nllu conversions), searching and tokenising, and line input
    with fgets.  Strings are NUL-free character lists. *)

From S2P Require Import Prelude.

(** ** Characters *)

Definition code (c : ascii) : Z := Z.of_N (N_of_ascii c).
Definition isspace (c : ascii) : bool :=
  (code c =? 32) || ((9 <=? code c) && (code c <=? 13)).
Definition isdigit (c : ascii) : bool := (48 <=? code c) && (code c <=? 57).
Definition digit_val (c : ascii) : Z := code c - 48.
Definition digit_chr (d : Z) : ascii := ascii_of_N (Z.to_N (48 + d)).

Lemma code_digit_chr d : 0 <= d <= 9 -> code (digit_chr d) = 48 + d.
Proof.
  intros. unfold code, digit_chr. rewrite N_ascii_embedding; lia.
Qed.
Lemma isdigit_digit_chr d : 0 <= d <= 9 -> isdigit (digit_chr d) = true.
Proof. intros. unfold isdigit. rewrite code_digit_chr; lia. Qed.
Lemma digit_val_chr d : 0 <= d <= 9 -> digit_val (digit_chr d) = d.
Proof. intros. unfold digit_val. rewrite code_digit_chr; lia. Qed.

(** ** Parsing numbers *)

Fixpoint skip_spaces (s : cstr) : cstr :=
  match s with
  | c :: t => if isspace c then skip_spaces t else s
  | [] => []
  end.

Fixpoint digits_acc (acc : Z) (s : cstr) : Z * cstr :=
  match s with
  | c :: t => if isdigit c then digits_acc (acc * 10 + digit_val c) t else (acc, s)
  | [] => (acc, [])
  end.

(** The optional sign of a number. *)
Definition take_sign (s : cstr) : bool * cstr :=
  match s with
  | c :: t =>
      if code c =? 45 then (true, t) else if code c =? 43 then (false, t) else (false, s)
  | [] => (false, [])
  end.

Definition starts_with_digit (s : cstr) : bool :=
  match s with c :: _ => isdigit c | [] => false end.

(** strtol(s, &end, 10): the value saturated to long, and the rest at [end];
    with no digits the result is 0 and [end] is the start of the string. *)
Definition strtol (s : cstr) : Z * cstr :=
  let '(neg, s2) := take_sign (skip_spaces s) in
  if starts_with_digit s2 then
    let '(v, rest) := digits_acc 0 s2 in
    (Z.max LONG_MIN (Z.min LONG_MAX (if neg then - v else v)), rest)
  else (0, s).

(** strtoul(s, &end, 10): saturates to ULONG_MAX; a minus sign negates modulo 2^64. *)
Definition strtoul (s : cstr) : Z * cstr :=
  let '(neg, s2) := take_sign (skip_spaces s) in
  if starts_with_digit s2 then
    let '(v, rest) := digits_acc 0 s2 in
    (if ULONG_MAX <? v then ULONG_MAX else if neg then u64 (- v) else v, rest)
  else (0, s).

Definition atoi (s : cstr) : Z := s32 (fst (strtol s)).
(** std::stoi: an int, or an exception. *)
Definition stoi (s : cstr) : option Z :=
  let '(v, rest) := strtol s in
  if decide (rest = s) then None
  else if (-2147483648 <=? v) && (v <=? 2147483647) then Some v else None.

(** Text written with an apostrophe for each double quote. *)
Definition quoted (s : string) : cstr := map (fun c => if decide (c = "'"%char) then DQUOTE else c) (lit s).
Definition atoll (s : cstr) : Z := fst (strtol s).

(** ** Printing numbers *)

Fixpoint dec_rev (fuel : nat) (n : Z) : cstr :=
  match fuel with
  | O => []
  | S f => if n <? 10 then [digit_chr n]
           else digit_chr (n mod 10) :: dec_rev f (n / 10)
  end.
(** %u and %llu: 20 digits are enough for any 64-bit value. *)
Definition fmt_u (n : Z) : cstr := rev (dec_rev 20 n).
(** %0[w]llu *)
Definition fmt_u0 (w : nat) (n : Z) : cstr :=
  let s := fmt_u n in replicate (w - length s) (digit_chr 0) ++ s.

(** ** Searching and cutting *)

(** strchr: the suffix that starts at the first occurrence. *)
Fixpoint strchr (s : cstr) (ch : ascii) : option cstr :=
  match s with
  | [] => None
  | c :: t => if decide (c = ch) then Some s else strchr t ch
  end.
(** The offset strrchr(s, ch) - s of the last occurrence. *)
Fixpoint strrchr_off (s : cstr) (ch : ascii) : option nat :=
  match s with
  | [] => None
  | c :: t => match strrchr_off t ch with
              | Some i => Some (S i)
              | None => if decide (c = ch) then Some O else None
              end
  end.
(** s[strcspn(s, reject)] = NUL *)
Fixpoint cut_at (reject : list ascii) (s : cstr) : cstr :=
  match s with
  | [] => []
  | c :: t => if decide (c ∈ reject) then [] else c :: cut_at reject t
  end.
(** strncmp(s, p, strlen(p)) == 0 *)
Fixpoint starts_with (p s : cstr) : bool :=
  match p, s with
  | [], _ => true
  | a :: p, b :: s => bool_decide (a = b) && starts_with p s
  | _ :: _, [] => false
  end.
(** strstr(s, p) != NULL *)
Fixpoint strstr (s p : cstr) : bool :=
  starts_with p s || match s with [] => false | _ :: t => strstr t p end.
(** strncpy(dst, src, n); dst[n] = NUL *)
Definition strncpy (src : cstr) (n : nat) : cstr := take n src.
(** What snprintf(dst, size, ...) leaves in dst of the formatted text. *)
Definition snprintf_dst (size : Z) (text : cstr) : cstr := take (Z.to_nat (size - 1)) text.

(** strtok(s, delim) called until it returns NULL: the maximal non-empty runs
    of characters other than the delimiter. *)
Fixpoint strtok_go (d : ascii) (cur : cstr) (s : cstr) : list cstr :=
  match s with
  | [] => match cur with [] => [] | _ => [rev cur] end
  | c :: t => if decide (c = d)
              then match cur with [] => strtok_go d [] t | _ => rev cur :: strtok_go d [] t end
              else strtok_go d (c :: cur) t
  end.
Definition strtok_all (d : ascii) (s : cstr) : list cstr := strtok_go d [] s.

Lemma strtok_go_run d a cur rest :
  d ∉ a -> strtok_go d cur (a ++ rest) = strtok_go d (rev a ++ cur) rest.
Proof.
  revert cur. induction a as [|c a IH]; intros cur H; simpl; [done|].
  rewrite decide_False by set_solver. rewrite IH by set_solver. by rewrite <- app_assoc.
Qed.

Lemma strtok_go_piece d a rest :
  d ∉ a -> a <> [] -> strtok_go d [] (a ++ d :: rest) = a :: strtok_go d [] rest.
Proof.
  intros Hd Ha. rewrite strtok_go_run, app_nil_r by done. cbn [strtok_go]. rewrite decide_True by done.
  destruct (rev a) eqn:E; [by rewrite <- (rev_involutive a), E in Ha|]. by rewrite <- E, rev_involutive.
Qed.
Lemma strtok_go_last d a : d ∉ a -> a <> [] -> strtok_go d [] a = [a].
Proof.
  intros Hd Ha. rewrite <- (app_nil_r a) at 1. rewrite strtok_go_run, app_nil_r by done. cbn [strtok_go].
  destruct (rev a) eqn:E; [by rewrite <- (rev_involutive a), E in Ha|]. by rewrite <- E, rev_involutive.
Qed.

(** ** Line input *)

(** One fgets(buf, n, fp) on the rest of a file: at most n - 1 characters, up to
    and including the first newline; None at the end of the file. *)
Fixpoint fgets_take (k : nat) (s : list ascii) : list ascii * list ascii :=
  match k, s with
  | S k, c :: t => if decide (c = NL) then ([c], t)
                   else let '(l, r) := fgets_take k t in (c :: l, r)
  | _, _ => ([], s)
  end.
Definition fgets (n : nat) (s : list ascii) : option (list ascii * list ascii) :=
  match s with [] => None | _ => Some (fgets_take (n - 1) s) end.
(** while (fgets(line, n, fp)): the successive buffers. *)
Fixpoint fgets_loop (fuel : nat) (n : nat) (s : list ascii) : list (list ascii) :=
  match fuel with
  | O => []
  | S f => match fgets n s with
           | None => []
           | Some (l, r) => l :: fgets_loop f n r
           end
  end.
Definition fgets_all (n : nat) (s : list ascii) : list (list ascii) :=
  fgets_loop (S (length s)) n s.

(** ** Digits: values and shapes *)

Definition all_digits (s : cstr) : Prop := Forall (fun c => isdigit c = true) s.
Definition digits_value (s : cstr) : Z := fold_left (fun a c => a * 10 + digit_val c) s 0.

Lemma digits_acc_app ds rest acc :
  all_digits ds -> starts_with_digit rest = false ->
  digits_acc acc (ds ++ rest) = (fold_left (fun a c => a * 10 + digit_val c) ds acc, rest).
Proof.
  intros Hds Hr. revert acc. induction Hds as [|c ds Hc _ IH]; intros acc; simpl.
  - destruct rest as [|c t]; simpl in *; [done|]. by rewrite Hr.
  - by rewrite Hc.
Qed.

Lemma digits_value_app a b :
  digits_value (a ++ b) = fold_left (fun a c => a * 10 + digit_val c) b (digits_value a).
Proof. apply fold_left_app. Qed.

Lemma dec_rev_digits fuel n : 0 <= n -> all_digits (dec_rev fuel n).
Proof.
  revert n. induction fuel as [|f IH]; intros n Hn; simpl; [constructor|].
  case_match; zb.
  - repeat constructor. apply isdigit_digit_chr; lia.
  - constructor; [apply isdigit_digit_chr; zlia | apply IH; zlia].
Qed.

Lemma dec_rev_value fuel n :
  0 <= n < 10 ^ Z.of_nat fuel -> digits_value (rev (dec_rev fuel n)) = n.
Proof.
  revert n. induction fuel as [|f IH]; intros n Hn; simpl.
  - rewrite Z.pow_0_r in Hn. unfold digits_value. simpl. lia.
  - rewrite Nat2Z.inj_succ, Z.pow_succ_r in Hn by lia. case_match; zb.
    + unfold digits_value. simpl. rewrite digit_val_chr; lia.
    + simpl. rewrite digits_value_app, IH by zlia. simpl. rewrite digit_val_chr; zlia.
Qed.

Lemma dec_rev_length fuel n k :
  0 <= n < 10 ^ Z.of_nat k -> (1 <= k)%nat -> (length (dec_rev fuel n) <= k)%nat.
Proof.
  revert n k. induction fuel as [|f IH]; intros n k Hn Hk; simpl; [lia|].
  case_match; zb; simpl; [lia|].
  destruct k as [|k]; [lia|]. rewrite Nat2Z.inj_succ, Z.pow_succ_r in Hn by lia.
  destruct k as [|k]; [simpl in Hn; lia|].
  assert (length (dec_rev f (n / 10)) <= S k)%nat by (apply IH; [zlia|lia]). lia.
Qed.

Lemma fmt_u_digits n : 0 <= n -> all_digits (fmt_u n).
Proof. intros. apply Forall_rev. by apply dec_rev_digits. Qed.
Lemma fmt_u_value n : 0 <= n < 10 ^ 20 -> digits_value (fmt_u n) = n.
Proof. intros. by apply dec_rev_value. Qed.
Lemma fmt_u_length n k :
  0 <= n < 10 ^ Z.of_nat k -> (1 <= k)%nat -> (length (fmt_u n) <= k)%nat.
Proof. intros. unfold fmt_u. rewrite length_rev. by apply dec_rev_length. Qed.
Lemma fmt_u_nonempty n : fmt_u n <> [].
Proof.
  unfold fmt_u. intros H. apply (f_equal (@length _)) in H. rewrite length_rev in H.
  cbn in H. by case_match.
Qed.

Lemma fmt_u0_digits w n : 0 <= n -> all_digits (fmt_u0 w n).
Proof.
  intros. unfold fmt_u0. apply Forall_app. split; [|by apply fmt_u_digits].
  apply Forall_replicate. by apply isdigit_digit_chr.
Qed.
Lemma digits_value_zeros k s :
  digits_value (replicate k (digit_chr 0) ++ s) = digits_value s.
Proof. induction k; simpl; [done|]. exact IHk. Qed.
Lemma fmt_u0_value w n : 0 <= n < 10 ^ 20 -> digits_value (fmt_u0 w n) = n.
Proof. intros. unfold fmt_u0. rewrite digits_value_zeros. by apply fmt_u_value. Qed.
Lemma fmt_u0_length w n :
  0 <= n < 10 ^ Z.of_nat w -> (1 <= w)%nat -> length (fmt_u0 w n) = w.
Proof.
  intros Hn Hw. unfold fmt_u0. rewrite length_app, length_replicate.
  pose proof (fmt_u_length n w Hn Hw). lia.
Qed.

(** Digits are neither blanks nor signs. *)
Lemma isdigit_not_space c : isdigit c = true -> isspace c = false.
Proof. unfold isdigit, isspace. lia. Qed.
Lemma isdigit_not_sign c :
  isdigit c = true -> (code c =? 45) = false /\ (code c =? 43) = false.
Proof. unfold isdigit. lia. Qed.

Lemma number_prefix s rest :
  all_digits s -> s <> [] ->
  take_sign (skip_spaces (s ++ rest)) = (false, s ++ rest) /\
  starts_with_digit (s ++ rest) = true.
Proof.
  intros Hs Hne. destruct s as [|c s]; [done|]. simpl.
  apply Forall_cons in Hs as [Hc _]. rewrite (isdigit_not_space c Hc). simpl.
  destruct (isdigit_not_sign c Hc) as [-> ->]. by rewrite Hc.
Qed.

(** strtol reads back a run of digits and stops at the first other character. *)
Lemma strtol_digits s rest :
  all_digits s -> s <> [] -> starts_with_digit rest = false ->
  0 <= digits_value s <= LONG_MAX ->
  strtol (s ++ rest) = (digits_value s, rest).
Proof.
  intros Hs Hne Hr Hv. unfold strtol.
  destruct (number_prefix s rest Hs Hne) as [-> ->].
  rewrite digits_acc_app by done. fold (digits_value s). f_equal.
  unfold LONG_MAX, LONG_MIN in *. lia.
Qed.

Lemma strtol_fmt_u n rest :
  0 <= n <= LONG_MAX -> starts_with_digit rest = false ->
  strtol (fmt_u n ++ rest) = (n, rest).
Proof.
  intros Hn Hr. unfold LONG_MAX in *.
  assert (digits_value (fmt_u n) = n) as E by (apply fmt_u_value; lia).
  rewrite strtol_digits; rewrite ?E; try done.
  - apply fmt_u_digits; lia.
  - apply fmt_u_nonempty.
Qed.

Lemma strtol_fmt_u_end n : 0 <= n <= LONG_MAX -> strtol (fmt_u n) = (n, []).
Proof. intros. rewrite <- (app_nil_r (fmt_u n)). by apply strtol_fmt_u. Qed.

Lemma strtoul_fmt_u n rest :
  0 <= n <= LONG_MAX -> starts_with_digit rest = false ->
  strtoul (fmt_u n ++ rest) = (n, rest).
Proof.
  intros Hn Hr. unfold LONG_MAX in *.
  assert (digits_value (fmt_u n) = n) as Hv by (apply fmt_u_value; lia).
  unfold strtoul. destruct (number_prefix (fmt_u n) rest) as [-> ->]; [apply fmt_u_digits; lia|apply fmt_u_nonempty|].
  rewrite digits_acc_app by (done || apply fmt_u_digits; lia). fold (digits_value (fmt_u n)). rewrite Hv.
  destruct (Z.ltb_spec ULONG_MAX n); [unfold ULONG_MAX in *; lia|done].
Qed.
Lemma digits_no_char ch s : isdigit ch = false -> all_digits s -> ch ∉ s.
Proof. intros Hc Hs Hin. eapply Forall_forall in Hs; [|done]. simpl in Hs. congruence. Qed.

Lemma atoll_digits s : all_digits s -> s <> [] -> 0 <= digits_value s <= LONG_MAX ->
  atoll s = digits_value s.
Proof.
  intros. unfold atoll. rewrite <- (app_nil_r s) at 1. by rewrite strtol_digits.
Qed.

(** ** fgets reads the whole file, in order, in chunks of at most n - 1. *)

Lemma fgets_take_spec k s l r : fgets_take k s = (l, r) -> s = l ++ r /\ (length l <= k)%nat.
Proof.
  revert s l r. induction k as [|k IH]; intros s l r H; simpl in H.
  - simplify_eq. simpl. split; [done|lia].
  - destruct s as [|c t]; simplify_eq/=; [split; [done|lia]|].
    case_decide; simplify_eq/=; [split; [done|lia]|].
    destruct (fgets_take k t) as [l' r'] eqn:E. apply IH in E as [-> ?].
    simplify_eq/=. split; [done|lia].
Qed.

Lemma fgets_progress n s l r :
  (2 <= n)%nat -> fgets n s = Some (l, r) -> s = l ++ r /\ (length r < length s)%nat.
Proof.
  intros Hn. unfold fgets. destruct s as [|c t]; [done|]. intros [= H].
  destruct (fgets_take_spec _ _ _ _ H) as [E _]. split; [done|].
  rewrite E, length_app. destruct l; simpl; [|lia]. exfalso.
  destruct n as [|[|n]]; [lia..|]. simpl in H. case_decide; [done|].
  by destruct (fgets_take n t).
Qed.

Lemma fgets_loop_concat fuel n s :
  (2 <= n)%nat -> (length s < fuel)%nat -> concat (fgets_loop fuel n s) = s.
Proof.
  intros Hn. revert s. induction fuel as [|f IH]; intros s Hs; [lia|]. simpl.
  destruct (fgets n s) as [[l r]|] eqn:E.
  - apply fgets_progress in E as [-> ?]; [|done]. simpl. by rewrite IH by lia.
  - destruct s; [done|]. by unfold fgets in E.
Qed.

Lemma fgets_all_concat n s : (2 <= n)%nat -> concat (fgets_all n s) = s.
Proof. intros. apply fgets_loop_concat; [done|lia]. Qed.

Lemma fgets_take_line k l rest :
  NL ∉ l -> (length l < k)%nat -> fgets_take k (l ++ NL :: rest) = (l ++ [NL], rest).
Proof.
  revert k. induction l as [|c l IH]; intros k Hnl Hk; destruct k as [|k]; simpl in *; try lia.
  - done.
  - rewrite decide_False by set_solver. rewrite IH by (set_solver || lia). done.
Qed.

(** A file made of short lines is read back line by line. *)
Lemma fgets_loop_lines fuel n ls :
  Forall (fun l => NL ∉ l /\ (length l < n - 1)%nat) ls -> (length ls < fuel)%nat ->
  fgets_loop fuel n (concat (map (fun l => l ++ [NL]) ls)) = map (fun l => l ++ [NL]) ls.
Proof.
  intros Hls. revert fuel. induction Hls as [|l ls [Hl Hlen] _ IH]; intros fuel Hf.
  - destruct fuel; [simpl in *; lia|done].
  - destruct fuel as [|f]; simpl in *; [lia|].
    assert (fgets n ((l ++ [NL]) ++ concat (map (λ l0, l0 ++ [NL]) ls)) =
            Some (l ++ [NL], concat (map (λ l0, l0 ++ [NL]) ls))) as ->.
    { rewrite <- app_assoc. simpl. unfold fgets.
      rewrite fgets_take_line by done. by destruct l. }
    by rewrite IH by lia.
Qed.

Lemma concat_lines_length (ls : list cstr) :
  (length ls <= length (concat (map (fun l => l ++ [NL]) ls)))%nat.
Proof. induction ls; simpl; [lia|]. rewrite !length_app. simpl. lia. Qed.

Lemma fgets_all_lines n ls :
  Forall (fun l => NL ∉ l /\ (length l < n - 1)%nat) ls ->
  fgets_all n (concat (map (fun l => l ++ [NL]) ls)) = map (fun l => l ++ [NL]) ls.
Proof.
  intros. apply fgets_loop_lines; [done|]. pose proof (concat_lines_length ls). lia.
Qed.
