(* ===== verification/Ring.v ===== *)
(** The ring interface.  Three components keep a power-of-two array with a
  producer and a consumer index: the CSV log ring, the statistics ring and the
  server's return-packet queue.  A [Ring] instance names the four fields; the
  contents of a ring is the list from the consumer to the producer index, and
  the lemmas say what a push, a pop and an overwriting push do to it. *)

From S2P Require Import Prelude.

Class Ring (R E : Type) := {
ring_buf : R -> list E;
ring_prod : R -> Z;
ring_cons : R -> Z;
ring_mask : R -> Z;
}.

(** ** Windows of a circular array *)

Section Window.
Context {E : Type}.
Implicit Types (buf : list E) (N c : Z) (n : nat).

(** The [n] elements from index [c] on, modulo [N]. *)
Fixpoint window buf N c n : list E :=
  match n with
  | O => []
  | S n => match zget buf (c mod N) with
           | Some e => e :: window buf N (c + 1) n
           | None => []
           end
  end.

Lemma window_length buf N c n :
  0 < N -> zlen buf = N -> length (window buf N c n) = n.
Proof.
  intros HN Hl. revert c. induction n as [|n IH]; intros c; simpl; [done|].
  destruct (zget_lt buf (c mod N)) as [e ->]; [|simpl; by rewrite IH].
  rewrite Hl. apply Z.mod_pos_bound. lia.
Qed.

Lemma window_lookup buf N c n (k : nat) :
  0 < N -> zlen buf = N -> (k < n)%nat ->
  window buf N c n !! k = zget buf ((c + Z.of_nat k) mod N).
Proof.
  intros HN Hl. revert c k. induction n as [|n IH]; intros c k Hk; [lia|]. simpl.
  destruct (zget_lt buf (c mod N)) as [e He].
  { rewrite Hl. apply Z.mod_pos_bound. lia. }
  rewrite He. destruct k as [|k]; simpl.
  - by rewrite Z.add_0_r, He.
  - rewrite IH by lia. do 2 f_equal. lia.
Qed.

Lemma window_ext buf buf' N c n :
  (forall k, (k < n)%nat ->
     zget buf' ((c + Z.of_nat k) mod N) = zget buf ((c + Z.of_nat k) mod N)) ->
  window buf' N c n = window buf N c n.
Proof.
  revert c. induction n as [|n IH]; intros c H; simpl; [done|].
  pose proof (H O ltac:(lia)) as H0. rewrite Z.add_0_r in H0. rewrite H0.
  destruct (zget buf (c mod N)); [|done]. f_equal. apply IH. intros k Hk.
  replace (c + 1 + Z.of_nat k) with (c + Z.of_nat (S k)) by lia. apply H. lia.
Qed.

Lemma window_mod buf N c n : 0 < N -> window buf N (c mod N) n = window buf N c n.
Proof.
  intros HN. revert c. induction n as [|n IH]; intros c; simpl; [done|].
  rewrite Z.mod_mod by lia. destruct (zget _ _); [|done]. f_equal.
  rewrite <- IH, <- (IH (c + 1)). f_equal. by rewrite Z.add_mod_idemp_l by lia.
Qed.

Lemma window_snoc buf N c n e :
  0 < N -> zlen buf = N -> zget buf ((c + Z.of_nat n) mod N) = Some e ->
  window buf N c (S n) = window buf N c n ++ [e].
Proof.
  intros HN Hl. revert c. induction n as [|n IH]; intros c He.
  - rewrite Z.add_0_r in He. simpl. by rewrite He.
  - assert (c + 1 + Z.of_nat n = c + Z.of_nat (S n)) as Hc by lia.
    specialize (IH (c + 1)). rewrite Hc in IH. specialize (IH He).
    change (window buf N c (S (S n))) with
      (match zget buf (c mod N) with
       | Some e => e :: window buf N (c + 1) (S n) | None => [] end).
    rewrite IH. simpl. destruct (zget_lt buf (c mod N)) as [x ->]; [|done].
    rewrite Hl. apply Z.mod_pos_bound. lia.
Qed.

(** Distinct offsets below N are distinct indices. *)
Lemma mod_offset_inj N c k k' :
  0 < N -> 0 <= k < N -> 0 <= k' < N -> (c + k) mod N = (c + k') mod N -> k = k'.
Proof.
  intros HN Hk Hk' H.
  assert (((c + k) - (c + k')) mod N = 0) as D.
  { rewrite Zminus_mod, H, Z.sub_diag. apply Z.mod_0_l. lia. }
  replace (c + k - (c + k')) with (k - k') in D by lia.
  apply Z.mod_divide in D as [q D]; [|lia]. by eapply small_multiple.
Qed.

Lemma window_zset_out buf N c n j e :
  0 < N -> Z.of_nat n <= j < N ->
  window (zset buf ((c + j) mod N) e) N c n = window buf N c n.
Proof.
  intros HN Hj. apply window_ext. intros k Hk. apply zget_zset_ne. intros H.
  apply mod_offset_inj in H; lia.
Qed.

(** Writing inside the window writes that element of it. *)
Lemma window_zset_in buf N c n (k : nat) e :
  0 < N -> zlen buf = N -> Z.of_nat n <= N -> (k < n)%nat ->
  window (zset buf ((c + Z.of_nat k) mod N) e) N c n = <[k := e]> (window buf N c n).
Proof.
  intros HN Hl Hn Hk. apply list_eq. intros j. destruct (decide (j < n)%nat) as [Hj|Hj].
  - rewrite window_lookup by (rewrite ?zlen_zset; done).
    destruct (decide (j = k)) as [->|Hne].
    + rewrite list_lookup_insert_eq by (rewrite window_length; done).
      apply zget_zset_eq. rewrite Hl. by apply Z.mod_pos_bound.
    + rewrite list_lookup_insert_ne, window_lookup by done. apply zget_zset_ne.
      intros E1. apply mod_offset_inj in E1; lia.
  - rewrite !lookup_ge_None_2; [done|rewrite ?length_insert, window_length; rewrite ?zlen_zset; lia..].
Qed.
End Window.

(** ** Contents and steps of a ring *)

Section Ring.
Context `{RI : Ring R E}.
Implicit Types (r : R) (e : E).

Definition ring_size r : Z := ring_mask r + 1.
Definition ring_wf r : Prop :=
  is_mask (ring_mask r) /\ zlen (ring_buf r) = ring_size r /\
  0 <= ring_prod r < ring_size r /\ 0 <= ring_cons r < ring_size r.
Definition ring_count r : Z := (ring_prod r - ring_cons r) mod ring_size r.
Definition ring_contents r : list E :=
  window (ring_buf r) (ring_size r) (ring_cons r) (Z.to_nat (ring_count r)).
(** One slot stays free to tell a full ring from an empty one. *)
Definition ring_full r : Prop := (ring_prod r + 1) mod ring_size r = ring_cons r.

Definition ring_pushed e r r' : Prop :=
  ring_mask r' = ring_mask r /\ ring_cons r' = ring_cons r /\
  ring_prod r' = (ring_prod r + 1) mod ring_size r /\
  ring_buf r' = zset (ring_buf r) (ring_prod r) e.
Definition ring_popped r r' : Prop :=
  ring_mask r' = ring_mask r /\ ring_prod r' = ring_prod r /\
  ring_cons r' = (ring_cons r + 1) mod ring_size r /\ ring_buf r' = ring_buf r.

Lemma ring_size_pos r : ring_wf r -> 0 < ring_size r.
Proof. intros (Hm & _). apply is_mask_bounds in Hm. unfold ring_size. lia. Qed.

Lemma ring_count_range r : ring_wf r -> 0 <= ring_count r < ring_size r.
Proof. intros H. apply Z.mod_pos_bound. by apply ring_size_pos. Qed.

Lemma ring_contents_length r : ring_wf r -> zlen (ring_contents r) = ring_count r.
Proof.
  intros H. unfold zlen, ring_contents.
  rewrite window_length; [|by apply ring_size_pos|apply H].
  pose proof (ring_count_range r H). lia.
Qed.

Lemma ring_empty_iff r : ring_wf r -> (ring_cons r = ring_prod r <-> ring_contents r = []).
Proof.
  intros H. pose proof (ring_contents_length r H) as L.
  pose proof (ring_size_pos r H). destruct H as (_ & _ & Hp & Hc). unfold ring_count in L.
  split; intros E0.
  - rewrite E0, Z.sub_diag, Z.mod_0_l in L by lia. unfold zlen in L.
    apply length_zero_iff_nil. lia.
  - rewrite E0 in L. unfold zlen in L. simpl in L. symmetry in L.
    apply Z.mod_divide in L as [q L]; [|lia]. symmetry. by eapply small_multiple.
Qed.

Lemma ring_full_iff r :
  ring_wf r -> (ring_full r <-> zlen (ring_contents r) = ring_mask r).
Proof.
  intros H. rewrite ring_contents_length by done. pose proof (ring_size_pos r H) as Hs.
  destruct H as (_ & _ & Hp & Hc). unfold ring_full, ring_count.
  assert (ring_mask r = ring_size r - 1) as Hm by (unfold ring_size; lia).
  set (N := ring_size r) in *. set (p := ring_prod r) in *. set (c := ring_cons r) in *.
  rewrite Hm. clearbody N p c. split; intros F.
  - destruct (decide (p + 1 = N)) as [Ep|Np].
    + rewrite Ep, Z.mod_same in F by lia. subst c.
      rewrite Z.mod_small; lia.
    + rewrite Z.mod_small in F by lia. subst c.
      replace (p - (p + 1)) with (N - 1 + (-1) * N) by lia.
      rewrite Z.mod_add by lia. apply Z.mod_small. lia.
  - destruct (decide (c <= p)).
    + rewrite Z.mod_small in F by lia. assert (c = 0 /\ p = N - 1) as [-> ->] by lia.
      replace (N - 1 + 1) with N by lia. apply Z.mod_same. lia.
    + replace (p - c) with (p - c + N + (-1) * N) in F by lia.
      rewrite Z.mod_add, Z.mod_small in F by lia. rewrite Z.mod_small; lia.
Qed.

Lemma ring_prod_offset r :
  ring_wf r -> (ring_cons r + ring_count r) mod ring_size r = ring_prod r.
Proof.
  intros H. pose proof (ring_size_pos r H). destruct H as (_ & _ & Hp & Hc).
  unfold ring_count. rewrite Z.add_mod_idemp_r by lia.
  replace (ring_cons r + (ring_prod r - ring_cons r)) with (ring_prod r) by lia.
  apply Z.mod_small. lia.
Qed.

Lemma ring_not_full_count r :
  ring_wf r -> ~ ring_full r -> ring_count r < ring_size r - 1.
Proof.
  intros H F. rewrite ring_full_iff in F by done. rewrite ring_contents_length in F by done.
  pose proof (ring_count_range r H). unfold ring_size in *. lia.
Qed.

Lemma ring_pushed_wf e r r' : ring_wf r -> ring_pushed e r r' -> ring_wf r'.
Proof.
  intros H (Em & Ec & Ep & Eb). pose proof (ring_size_pos r H).
  destruct H as (Hm & Hl & Hp & Hc). unfold ring_wf, ring_size in *.
  rewrite Em, Ec, Ep, Eb, zlen_zset. pose proof (Z.mod_pos_bound (ring_prod r + 1) (ring_mask r + 1)).
  repeat split; try done; lia.
Qed.

Lemma ring_popped_wf r r' : ring_wf r -> ring_popped r r' -> ring_wf r'.
Proof.
  intros H (Em & Ep & Ec & Eb). pose proof (ring_size_pos r H).
  destruct H as (Hm & Hl & Hp & Hc). unfold ring_wf, ring_size in *.
  rewrite Em, Ec, Ep, Eb. pose proof (Z.mod_pos_bound (ring_cons r + 1) (ring_mask r + 1)).
  repeat split; try done; lia.
Qed.

(** Pushing into a ring that is not full appends to its contents. *)
Lemma ring_pushed_contents e r r' :
  ring_wf r -> ~ ring_full r -> ring_pushed e r r' ->
  ring_contents r' = ring_contents r ++ [e].
Proof.
  intros H F (Em & Ec & Ep & Eb). pose proof (ring_size_pos r H) as Hs.
  pose proof (ring_not_full_count r H F) as Hn. pose proof (ring_count_range r H) as Hcr.
  pose proof (ring_prod_offset r H) as Ho.
  assert (ring_size r' = ring_size r) as Es by (unfold ring_size; by rewrite Em).
  assert (ring_count r' = ring_count r + 1) as En.
  { unfold ring_count at 1. rewrite Es, Ec, Ep.
    rewrite Zminus_mod_idemp_l.
    replace (ring_prod r + 1 - ring_cons r) with (ring_prod r - ring_cons r + 1) by lia.
    rewrite <- Z.add_mod_idemp_l by lia. fold (ring_count r). apply Z.mod_small. lia. }
  unfold ring_contents. rewrite En, Es, Ec, Eb.
  replace (Z.to_nat (ring_count r + 1)) with (S (Z.to_nat (ring_count r))) by lia.
  assert (Z.of_nat (Z.to_nat (ring_count r)) = ring_count r) as EZ by lia.
  destruct H as (Hm & Hl & Hp & Hc).
  rewrite (window_snoc _ _ _ _ e); [f_equal|done|by rewrite zlen_zset|].
  - rewrite <- Ho. apply window_zset_out; lia.
  - rewrite EZ, Ho. apply zget_zset_eq. lia.
Qed.

(** Popping a ring that is not empty removes the element at the consumer index. *)
Lemma ring_popped_contents r r' :
  ring_wf r -> ring_cons r <> ring_prod r -> ring_popped r r' ->
  exists e, zget (ring_buf r) (ring_cons r) = Some e /\
            ring_contents r = e :: ring_contents r'.
Proof.
  intros H Hne (Em & Ep & Ec & Eb). pose proof (ring_size_pos r H) as Hs.
  assert (ring_size r' = ring_size r) as Es by (unfold ring_size; by rewrite Em).
  assert (0 < ring_count r) as Hpos.
  { pose proof (ring_count_range r H). destruct (decide (ring_count r = 0)) as [E0|]; [|lia].
    exfalso. apply Hne. apply ring_empty_iff; [done|]. apply length_zero_iff_nil.
    pose proof (ring_contents_length r H). unfold zlen in *. lia. }
  assert (ring_count r' = ring_count r - 1) as En.
  { pose proof (ring_count_range r H). unfold ring_count at 1. rewrite Es, Ec, Ep.
    rewrite Zminus_mod_idemp_r.
    replace (ring_prod r - (ring_cons r + 1)) with (ring_prod r - ring_cons r + (-1)) by lia.
    rewrite <- Z.add_mod_idemp_l by lia. fold (ring_count r). apply Z.mod_small. lia. }
  destruct H as (Hm & Hl & Hp & Hc).
  destruct (zget_lt (ring_buf r) (ring_cons r)) as [e He]; [lia|]. exists e. split; [done|].
  unfold ring_contents. rewrite En, Es, Ec, Eb.
  replace (Z.to_nat (ring_count r)) with (S (Z.to_nat (ring_count r - 1))) by lia.
  cbn [window]. rewrite Z.mod_small, He by lia. f_equal. symmetry. by apply window_mod.
Qed.
End Ring.

#[export] Hint Resolve ring_pushed_wf ring_popped_wf : cint.
