(* ===== verification/Spsc.v ===== *)
(** Interleavings of one producer and one consumer on a shared ring.

  csv_enqueue_fast/csv_dequeue_batch (CSV log) and
  enqueue_return_packet_request/dequeue_return_packet_request (server) run in
  two threads without a lock.  [spsc_step] takes one atomic action of either
  thread: load an index, test it, copy the entry, store the index.  Memory is
  sequentially consistent.  The invariant gives the linear FIFO behaviour for
  every interleaving and separates the slot being written from the slot being
  read. *)

From S2P Require Import Prelude Ring.

Section Spsc.
Context {E : Type}.

(** The shared fields of the ring. *)
Record raw_ring := RawRing { rr_buf : list E; rr_prod : Z; rr_cons : Z; rr_mask : Z }.

#[export] Instance raw_ring_ring : Ring raw_ring E := {|
  ring_buf := rr_buf; ring_prod := rr_prod; ring_cons := rr_cons; ring_mask := rr_mask |}.

(** Where the producer is in its enqueue of an entry. *)
Inductive prod_pc :=
  | PIdle
  | PLoaded (e : E) (current next : Z)
  | PChecked (e : E) (current next : Z)
  | PWritten (e : E) (current next : Z).
(** Where the consumer is in its dequeue. *)
Inductive cons_pc :=
  | CIdle
  | CLoaded (current : Z)
  | CChecked (current : Z)
  | CCopied (current : Z) (e : E).

(** [published] and [consumed] record the completed operations. *)
Record spsc := Spsc {
  sp_ring : raw_ring; sp_prod : prod_pc; sp_cons : cons_pc;
  sp_published : list E; sp_consumed : list E }.

Inductive spsc_step : spsc -> spsc -> Prop :=
  | step_p_load b p c m cp pub con e :
      spsc_step (Spsc (RawRing b p c m) PIdle cp pub con)
                (Spsc (RawRing b p c m) (PLoaded e p (Z.land (u32 (p + 1)) m)) cp pub con)
  | step_p_full b p c m cp pub con e h n :
      n = c ->
      spsc_step (Spsc (RawRing b p c m) (PLoaded e h n) cp pub con)
                (Spsc (RawRing b p c m) PIdle cp pub con)
  | step_p_check b p c m cp pub con e h n :
      n <> c ->
      spsc_step (Spsc (RawRing b p c m) (PLoaded e h n) cp pub con)
                (Spsc (RawRing b p c m) (PChecked e h n) cp pub con)
  | step_p_write b p c m cp pub con e h n :
      spsc_step (Spsc (RawRing b p c m) (PChecked e h n) cp pub con)
                (Spsc (RawRing (zset b h e) p c m) (PWritten e h n) cp pub con)
  | step_p_publish b p c m cp pub con e h n :
      spsc_step (Spsc (RawRing b p c m) (PWritten e h n) cp pub con)
                (Spsc (RawRing b n c m) PIdle cp (pub ++ [e]) con)
  | step_c_load b p c m pp pub con :
      spsc_step (Spsc (RawRing b p c m) pp CIdle pub con)
                (Spsc (RawRing b p c m) pp (CLoaded c) pub con)
  | step_c_empty b p c m pp pub con t :
      t = p ->
      spsc_step (Spsc (RawRing b p c m) pp (CLoaded t) pub con)
                (Spsc (RawRing b p c m) pp CIdle pub con)
  | step_c_check b p c m pp pub con t :
      t <> p ->
      spsc_step (Spsc (RawRing b p c m) pp (CLoaded t) pub con)
                (Spsc (RawRing b p c m) pp (CChecked t) pub con)
  | step_c_copy b p c m pp pub con t e :
      zget b t = Some e ->
      spsc_step (Spsc (RawRing b p c m) pp (CChecked t) pub con)
                (Spsc (RawRing b p c m) pp (CCopied t e) pub con)
  | step_c_advance b p c m pp pub con t e :
      spsc_step (Spsc (RawRing b p c m) pp (CCopied t e) pub con)
                (Spsc (RawRing b p (Z.land (u32 (t + 1)) m) m) pp CIdle pub (con ++ [e])).

Definition prod_ok (r : raw_ring) (pp : prod_pc) : Prop :=
  match pp with
  | PIdle => True
  | PLoaded _ h n => h = rr_prod r /\ n = (rr_prod r + 1) mod ring_size r
  | PChecked _ h n => h = rr_prod r /\ n = (rr_prod r + 1) mod ring_size r /\ ~ ring_full r
  | PWritten e h n => h = rr_prod r /\ n = (rr_prod r + 1) mod ring_size r /\ ~ ring_full r /\
                      zget (rr_buf r) (rr_prod r) = Some e
  end.
Definition cons_ok (r : raw_ring) (cp : cons_pc) : Prop :=
  match cp with
  | CIdle => True
  | CLoaded t => t = rr_cons r
  | CChecked t => t = rr_cons r /\ rr_cons r <> rr_prod r
  | CCopied t e => t = rr_cons r /\ rr_cons r <> rr_prod r /\ zget (rr_buf r) (rr_cons r) = Some e
  end.
Definition spsc_inv (s : spsc) : Prop :=
  ring_wf (sp_ring s) /\ prod_ok (sp_ring s) (sp_prod s) /\ cons_ok (sp_ring s) (sp_cons s) /\
  sp_published s = sp_consumed s ++ ring_contents (sp_ring s).

(** Writing the free slot changes neither the contents nor the slot to read. *)
Lemma write_free_slot r e :
  ring_wf r -> ~ ring_full r ->
  ring_contents (RawRing (zset (rr_buf r) (rr_prod r) e) (rr_prod r) (rr_cons r) (rr_mask r))
  = ring_contents r.
Proof.
  intros H F. pose proof (ring_prod_offset r H) as Ho. pose proof (ring_size_pos r H).
  pose proof (ring_count_range r H). unfold ring_contents, ring_count, ring_size in *. simpl in *.
  rewrite <- Ho at 1. apply window_zset_out; [lia|].
  rewrite Z2Nat.id by lia. lia.
Qed.

Lemma wf_write r e :
  ring_wf r ->
  ring_wf (RawRing (zset (rr_buf r) (rr_prod r) e) (rr_prod r) (rr_cons r) (rr_mask r)).
Proof.
  intros (? & ? & ? & ?). unfold ring_wf, ring_size in *. simpl in *.
  rewrite zlen_zset. done.
Qed.

Lemma next_index r x :
  ring_wf r -> Z.land (u32 (x + 1)) (rr_mask r) = (x + 1) mod ring_size r.
Proof.
  intros (Hm & _). rewrite is_mask_land by done. by apply is_mask_u32.
Qed.

Lemma spsc_step_inv s s' : spsc_inv s -> spsc_step s s' -> spsc_inv s'.
Proof.
  intros (Hw & Hp & Hc & Hh) Hs. pose proof (ring_size_pos _ Hw) as Hsz.
  destruct Hs; unfold spsc_inv; simpl in *.
  - pose proof (next_index _ p Hw) as Hn. simpl in Hn. by rewrite Hn.
  - done.
  - destruct Hp as [-> ->]. done.
  - destruct Hp as (-> & -> & F). pose proof (wf_write _ e Hw) as Hw'.
    pose proof (write_free_slot _ e Hw F) as Hwc. simpl in *.
    split_and!; try done.
    + apply zget_zset_eq. destruct Hw as (_ & Hl & ? & ?). simpl in *. lia.
    + destruct cp; simpl in *; try done. destruct Hc as (-> & Hne & Hg).
      split_and!; try done. by rewrite zget_zset_ne by done.
    + by rewrite Hwc.
  - destruct Hp as (-> & -> & F & Hg).
    assert (ring_pushed e (RawRing b p c m) (RawRing b ((p + 1) mod (m + 1)) c m)) as Hpush.
    { repeat split; simpl. unfold zset, zget in *. case_match; [done|].
      by rewrite list_insert_id. }
    pose proof (ring_pushed_wf _ _ _ Hw Hpush) as Hw'.
    pose proof (ring_pushed_contents _ _ _ Hw F Hpush) as Hct.
    unfold ring_size in *. simpl in *. split_and!; try done.
    + unfold ring_full, ring_size in F. simpl in F.
      destruct cp; simpl in *; naive_solver.
    + by rewrite Hct, Hh, app_assoc.
  - done.
  - done.
  - subst t. done.
  - destruct Hc as [-> Hne]. done.
  - destruct Hc as (-> & Hne & Hg).
    pose proof (next_index _ c Hw) as Hn. simpl in Hn. rewrite Hn.
    assert (ring_popped (RawRing b p c m) (RawRing b p ((c + 1) mod (m + 1)) m)) as Hpop.
    { by repeat split. }
    pose proof (ring_popped_wf _ _ Hw Hpop) as Hw'.
    destruct (ring_popped_contents _ _ Hw Hne Hpop) as (x & Hx & Hct).
    unfold ring_size in *. simpl in *. simplify_eq. split_and!; try done.
    + assert ((p + 1) mod (m + 1) <> (c + 1) mod (m + 1)) as Hnf.
      { intros Heq. apply Hne. destruct Hw as (_ & _ & ? & ?). unfold ring_size in *. simpl in *.
        symmetry. apply (mod_offset_inj (m + 1) 1); try lia.
        rewrite (Z.add_comm 1 p), (Z.add_comm 1 c). exact Heq. }
      unfold ring_full, ring_size in *. destruct pp; simpl in *; naive_solver.
    + by rewrite Hct, <- app_assoc.
Qed.

Definition spsc_init (r : raw_ring) : spsc := Spsc r PIdle CIdle (ring_contents r) [].

Lemma spsc_reachable_inv r s :
  ring_wf r -> rtc spsc_step (spsc_init r) s -> spsc_inv s.
Proof.
  intros Hw Hr. assert (spsc_inv (spsc_init r)) as H0 by (split_and!; done).
  revert H0. induction Hr; [done|]. intros H0. apply IHHr. by eapply spsc_step_inv.
Qed.

(** The slot the producer is about to write and the slot the consumer reads. *)
Definition writing (pp : prod_pc) : option Z :=
  match pp with PChecked _ h _ => Some h | _ => None end.
Definition reading (cp : cons_pc) : option Z :=
  match cp with CChecked t | CCopied t _ => Some t | _ => None end.

Lemma spsc_inv_disjoint s h t :
  spsc_inv s -> writing (sp_prod s) = Some h -> reading (sp_cons s) = Some t -> h <> t.
Proof.
  intros (_ & Hp & Hc & _) Hw Hr.
  destruct s as [r [| | |] [|?|?|? ?] pub con]; simplify_eq/=; intros ->; naive_solver.
Qed.

Lemma spsc_inv_read s t :
  spsc_inv s -> sp_cons s = CChecked t -> exists e, head (ring_contents (sp_ring s)) = Some e /\ zget (rr_buf (sp_ring s)) t = Some e.
Proof.
  intros (Hw & _ & Hc & _) Hs. rewrite Hs in Hc. destruct Hc as [-> Hne].
  pose (r' := RawRing (rr_buf (sp_ring s)) (rr_prod (sp_ring s))
                ((rr_cons (sp_ring s) + 1) mod ring_size (sp_ring s)) (rr_mask (sp_ring s))).
  assert (ring_popped (sp_ring s) r') as Hpop by (by repeat split).
  destruct (ring_popped_contents _ _ Hw Hne Hpop) as (x & Hx & Hct).
  exists x. by rewrite Hct.
Qed.

(** C10: in every interleaving of the atomic actions of one producer and one
    consumer, the entries published are those consumed followed by the contents
    of the ring, in order (nothing is lost, duplicated or reordered); the
    indices stay in range; the slot being written is never the slot being read,
    so an entry is never torn; and the slot the consumer reads holds the oldest
    entry. *)
Theorem spsc_interleavings_linear (r : raw_ring) (s : spsc) :
  ring_wf r -> rtc spsc_step (spsc_init r) s ->
  ring_wf (sp_ring s) /\
  sp_published s = sp_consumed s ++ ring_contents (sp_ring s) /\
  (forall h t, writing (sp_prod s) = Some h -> reading (sp_cons s) = Some t -> h <> t) /\
  (forall t, sp_cons s = CChecked t ->
     exists e, head (ring_contents (sp_ring s)) = Some e /\ zget (rr_buf (sp_ring s)) t = Some e).
Proof.
  intros Hw Hr. pose proof (spsc_reachable_inv r s Hw Hr) as Hi.
  split; [apply Hi|]. split; [apply Hi|]. split; intros *.
  - by apply spsc_inv_disjoint.
  - by apply spsc_inv_read.
Qed.
End Spsc.

(** A ring of four slots: an entry is published, and while the consumer reads it
    the producer is about to write the next one. *)
Definition demo_raw (prod : Z) (buf : list Z) : raw_ring := RawRing buf prod 0 3.

Lemma spsc_interleavings_linear_witness :
  let s := Spsc (demo_raw 1 [7; 0; 0; 0]) (PChecked 8 1 2) (CChecked 0) [7] [] in
  rtc spsc_step (spsc_init (demo_raw 0 [0; 0; 0; 0])) s /\ sp_published s = sp_consumed s ++ ring_contents (sp_ring s).
Proof.
  intros s.
  assert (rtc spsc_step (spsc_init (demo_raw 0 [0; 0; 0; 0])) s) as Hr.
  { eapply rtc_l; [exact (step_p_load _ _ _ _ _ _ _ 7)|].
    eapply rtc_l; [apply step_p_check; vm_compute; discriminate|].
    eapply rtc_l; [apply step_p_write|]. eapply rtc_l; [apply step_p_publish|].
    eapply rtc_l; [apply step_c_load|].
    eapply rtc_l; [apply step_c_check; vm_compute; discriminate|].
    eapply rtc_l; [exact (step_p_load _ _ _ _ _ _ _ 8)|].
    eapply rtc_l; [apply step_p_check; vm_compute; discriminate|]. apply rtc_refl. }
  assert (ring_wf (demo_raw 0 [0; 0; 0; 0])) as Hw.
  { split; [by exists 2|]. split; [reflexivity|]. split; vm_compute; split; congruence. }
  split; [exact Hr|]. exact (proj1 (proj2 (spsc_interleavings_linear _ _ Hw Hr))).
Defined.
