(* ===== verification/Heap.v ===== *)
(** Dynamic memory as the programs use it: the blocks that are live.

    A pointer is the number of the allocation call that returned it; [ok n]
    says whether the n-th call succeeds. *)

From S2P Require Import Prelude.

Record heap := Heap { hp_calls : nat; hp_live : list nat }.

(** malloc, calloc or aligned_alloc; None is NULL. *)
Definition halloc (ok : nat -> bool) (h : heap) : option nat * heap :=
  if ok (hp_calls h) then (Some (hp_calls h), Heap (S (hp_calls h)) (hp_calls h :: hp_live h))
  else (None, Heap (S (hp_calls h)) (hp_live h)).
Definition hfree (p : nat) (h : heap) : heap :=
  Heap (hp_calls h) (base.filter (fun q => q <> p) (hp_live h)).

(** Live blocks are distinct and older than the next call. *)
Definition heap_wf (h : heap) : Prop :=
  NoDup (hp_live h) /\ Forall (fun p => (p < hp_calls h)%nat) (hp_live h).

Lemma halloc_wf ok h : heap_wf h -> heap_wf (snd (halloc ok h)).
Proof.
  intros [Hn Hf]. unfold halloc, heap_wf.
  assert (Forall (fun p => (p < S (hp_calls h))%nat) (hp_live h)) as Hf'.
  { eapply Forall_impl; [exact Hf|]. simpl. lia. }
  destruct (ok (hp_calls h)); simpl; [|done]. split.
  - constructor; [|done]. intros Hin. eapply Forall_forall in Hf; [|exact Hin]. simpl in Hf. lia.
  - constructor; [lia|done].
Qed.

Lemma hfree_wf p h : heap_wf h -> heap_wf (hfree p h).
Proof.
  intros [Hn Hf]. split; simpl; [by apply NoDup_filter|]. 
  apply Forall_forall. intros q [_ Hq]%list_elem_of_filter. by eapply Forall_forall in Hf.
Qed.

(** Blocks older than the call counter are not touched by a free of a newer one. *)
Lemma filter_fresh p (l : list nat) : Forall (fun q => (q < p)%nat) l -> base.filter (fun q => q <> p) l = l.
Proof.
  induction 1 as [|q l Hq _ IH]; [done|]. rewrite filter_cons, decide_True by lia. by rewrite IH.
Qed.
Lemma filter_out_head p (l : list nat) :
  Forall (fun q => (q < p)%nat) l -> base.filter (fun q => q <> p) (p :: l) = l.
Proof.
  intros H. rewrite filter_cons, decide_False by (intros Hp; by apply Hp). by apply filter_fresh.
Qed.

(** An aligned allocation with calloc as the fallback. *)
Definition alloc_with_fallback (ok : nat -> bool) (h : heap) : option nat * heap :=
  let '(p, h) := halloc ok h in
  match p with Some _ => (p, h) | None => halloc ok h end.


Lemma alloc_with_fallback_spec ok h :
  heap_wf h ->
  let '(p, h') := alloc_with_fallback ok h in
  heap_wf h' /\
  match p with
  | None => hp_live h' = hp_live h
  | Some p => hp_live h' = p :: hp_live h /\ Forall (fun q => (q < p)%nat) (hp_live h)
  end.
Proof.
  intros Hw. unfold alloc_with_fallback, halloc. pose proof (halloc_wf ok h Hw) as H1.
  pose proof (halloc_wf ok (snd (halloc ok h)) H1) as H2. unfold halloc in *. destruct Hw as [_ Hf].
  destruct (ok (hp_calls h)); simpl in *; [done|].
  destruct (ok (S (hp_calls h))); simpl in *; [|done]. split_and!; try done.
  eapply Forall_impl; [done|]. simpl. lia.
Qed.

(** A heap array: its block and its elements. *)
Definition harray (A : Type) : Type := nat * list A.
