(* ===== verification/CsvLog.v ===== *)
(** CSV log records (timestamp_common.h, timestamp_common.c): the record type,
    the six constructors the hot paths use, the column headers and the batch
    formatter.  The theorems: the formatter never truncates a batch of well
    formed records, and its output is the concatenation of their lines. *)

From S2P Require Import Prelude CText.

Inductive csv_type_t :=
  | CSV_CLIENT_MAIN_ONEWAY
  | CSV_CLIENT_MAIN_ROUNDTRIP
  | CSV_CLIENT_TX
  | CSV_SERVER_MAIN_ONEWAY
  | CSV_SERVER_MAIN_ROUNDTRIP
  | CSV_SERVER_TX.

#[export] Instance csv_type_eq_dec : EqDecision csv_type_t.
Proof. solve_decision. Defined.

(** struct csv_entry_t; timestamp_ns has 12 elements, src_ip is a C string of at
    most 15 characters. *)
Record csv_entry_t := CsvEntry {
  ce_seq_num : Z;
  ce_timestamp_ns : list Z;
  ce_src_ip : cstr;
  ce_src_port : Z;
  ce_csv_type : csv_type_t;
}.

(** memset(csv->timestamp_ns, 0, sizeof(csv->timestamp_ns)) *)
Definition ts_zero : list Z := replicate 12 0.
(** Assignments csv->timestamp_ns[i] = v, in order. *)
Definition ts_set (assigns : list (Z * Z)) (ts : list Z) : list Z :=
  fold_left (fun ts '(i, v) => zset ts i v) assigns ts.

Definition create_csv_client_oneway_tx (seq_num : Z) (src_ip : cstr) (src_port : Z)
    (kernel_tx_ts_ns : Z) : csv_entry_t :=
  CsvEntry seq_num (ts_set [(2, kernel_tx_ts_ns)] ts_zero) (strncpy src_ip 15) src_port
    CSV_CLIENT_TX.

Definition create_csv_client_oneway_main (seq_num : Z) (src_ip : cstr) (src_port : Z)
    (app_tx_ts_ns : Z) : csv_entry_t :=
  CsvEntry seq_num (ts_set [(1, app_tx_ts_ns)] ts_zero) (strncpy src_ip 15) src_port
    CSV_CLIENT_MAIN_ONEWAY.

Definition create_csv_client_roundtrip_rx (seq_num : Z) (src_ip : cstr) (src_port : Z)
    (tx_tsc_ns app_tx_ns hw_rx_ns ker_rx_ns rx_tsc_ns app_rx_ns : Z) : csv_entry_t :=
  CsvEntry seq_num
    (ts_set [(0, tx_tsc_ns); (1, app_tx_ns); (3, hw_rx_ns); (4, ker_rx_ns);
             (5, rx_tsc_ns); (6, app_rx_ns)] ts_zero)
    (strncpy src_ip 15) src_port CSV_CLIENT_MAIN_ROUNDTRIP.

Definition create_csv_server_oneway_main (seq_num : Z) (src_ip : cstr) (src_port : Z)
    (hw_rx_ns ker_rx_ns app_rx_ns : Z) : csv_entry_t :=
  CsvEntry seq_num (ts_set [(7, hw_rx_ns); (8, ker_rx_ns); (9, app_rx_ns)] ts_zero)
    (strncpy src_ip 15) src_port CSV_SERVER_MAIN_ONEWAY.

Definition create_csv_server_roundtrip_main (seq_num : Z) (src_ip : cstr) (src_port : Z)
    (hw_rx_ns ker_rx_ns app_rx_ns app_tx_ns : Z) : csv_entry_t :=
  CsvEntry seq_num
    (ts_set [(7, hw_rx_ns); (8, ker_rx_ns); (9, app_rx_ns); (10, app_tx_ns)] ts_zero)
    (strncpy src_ip 15) src_port CSV_SERVER_MAIN_ROUNDTRIP.

Definition create_csv_server_tx (seq_num : Z) (src_ip : cstr) (src_port : Z)
    (ker_tx_ts_ns : Z) : csv_entry_t :=
  CsvEntry seq_num (ts_set [(11, ker_tx_ts_ns)] ts_zero) (strncpy src_ip 15) src_port
    CSV_SERVER_TX.

(** The header line without its newline. *)
Definition csv_header_columns (type : csv_type_t) : cstr :=
  match type with
  | CSV_CLIENT_MAIN_ONEWAY => lit "clt_src_ip,clt_src_port,seq_num,clt_app_tx_ts"
  | CSV_CLIENT_MAIN_ROUNDTRIP => lit "clt_src_ip,clt_src_port,seq_num,clt_app_tx_tsc_ts,clt_app_tx_ts,clt_hw_rx_ts,clt_ker_rx_ts,clt_app_rx_tsc_ts,clt_app_rx_ts"
  | CSV_CLIENT_TX => lit "clt_src_ip,clt_src_port,seq_num,clt_ker_tx_ts"
  | CSV_SERVER_MAIN_ONEWAY => lit "clt_src_ip,clt_src_port,seq_num,svr_hw_rx_ts,svr_ker_rx_ts,svr_app_rx_ts"
  | CSV_SERVER_MAIN_ROUNDTRIP => lit "clt_src_ip,clt_src_port,seq_num,svr_hw_rx_ts,svr_ker_rx_ts,svr_app_rx_ts,svr_app_tx_ts"
  | CSV_SERVER_TX => lit "clt_src_ip,clt_src_port,seq_num,svr_ker_tx_ts"
  end.
Definition get_csv_header (type : csv_type_t) : cstr := csv_header_columns type ++ [NL].

(** "%llu.%09llu" of ts / 1000000000ULL and ts % 1000000000ULL *)
Definition fmt_ts (ns : Z) : cstr := fmt_u (ns / 1000000000) ++ DOT :: fmt_u0 9 (ns mod 1000000000).

(** The timestamps a CSV type prints, in column order (the switch of csv_format_batch). *)
Definition csv_ts_columns (csv_type : csv_type_t) : list Z :=
  match csv_type with
  | CSV_CLIENT_MAIN_ONEWAY => [1]
  | CSV_CLIENT_MAIN_ROUNDTRIP => [0; 1; 3; 4; 5; 6]
  | CSV_SERVER_MAIN_ONEWAY => [7; 8; 9]
  | CSV_SERVER_MAIN_ROUNDTRIP => [7; 8; 9; 10]
  | CSV_CLIENT_TX => [2]
  | CSV_SERVER_TX => [11]
  end.
Definition ts_at (entry : csv_entry_t) (i : Z) : Z := default 0 (zget (ce_timestamp_ns entry) i).

(** "%s,%u,%u" then ",%llu.%09llu" per timestamp column. *)
Definition format_csv_columns (csv_type : csv_type_t) (entry : csv_entry_t) : cstr :=
  ce_src_ip entry ++ COMMA :: fmt_u (ce_src_port entry) ++ COMMA :: fmt_u (ce_seq_num entry) ++
  concat (map (fun i => COMMA :: fmt_ts (ts_at entry i)) (csv_ts_columns csv_type)).
Definition format_csv_entry (csv_type : csv_type_t) (entry : csv_entry_t) : cstr :=
  format_csv_columns csv_type entry ++ [NL].

(** The loop of csv_format_batch: [buf] holds the text written so far, and
    snprintf writes at most buffer_size - offset - 1 characters at [offset]. *)
Fixpoint csv_format_loop (csv_type : csv_type_t) (buffer_size : Z) (batch : list csv_entry_t)
    (buf : cstr) (offset : Z) : cstr * Z :=
  match batch with
  | [] => (buf, offset)
  | entry :: batch =>
      if offset <? u64 (buffer_size - 256) then
        let text := format_csv_entry csv_type entry in
        csv_format_loop csv_type buffer_size batch
          (take (Z.to_nat offset) buf ++ snprintf_dst (buffer_size - offset) text)
          (offset + zlen text)
      else (buf, offset)
  end.
(** The C string left in the write buffer. *)
Definition csv_format_batch (batch : list csv_entry_t) (buffer_size : Z)
    (csv_type : csv_type_t) : cstr :=
  let '(buf, offset) := csv_format_loop csv_type buffer_size batch [] 0 in
  if offset <? buffer_size then take (Z.to_nat offset) buf
  else take (Z.to_nat (buffer_size - 1)) buf.

(** ** Well-formed records *)

Definition ts_wf (ts : list Z) : Prop :=
  length ts = 12%nat /\ Forall (fun t => 0 <= t < 18446744073709551616) ts.
Record csv_entry_wf (e : csv_entry_t) : Prop := {
  cew_seq : 0 <= ce_seq_num e < 4294967296;
  cew_ts : ts_wf (ce_timestamp_ns e);
  cew_ip_len : (length (ce_src_ip e) <= 15)%nat;
  cew_port : 0 <= ce_src_port e < 65536;
}.

Lemma ts_wf_set assigns ts :
  ts_wf ts -> Forall (fun '(i, v) => 0 <= v < 18446744073709551616) assigns ->
  ts_wf (ts_set assigns ts).
Proof.
  intros Ht Ha. revert ts Ht. induction Ha as [|[i v] l Hv _ IH]; intros ts [Hl Hf]; [done|].
  simpl. apply IH. split.
  - pose proof (zlen_zset ts i v). unfold zlen in *. lia.
  - unfold zset. case_match; [done|]. by apply Forall_insert.
Qed.
Lemma ts_wf_zero : ts_wf ts_zero.
Proof. split; [done|]. apply Forall_replicate. lia. Qed.

Lemma ts_at_range e i : csv_entry_wf e -> 0 <= ts_at e i < 18446744073709551616.
Proof.
  intros [_ [_ Hf] _ _]. unfold ts_at, zget. case_match; simpl; [lia|].
  destruct (ce_timestamp_ns e !! Z.to_nat i) eqn:E; simpl; [|lia].
  by eapply Forall_lookup_1 in Hf.
Qed.

Lemma fmt_ts_length ns : 0 <= ns < 18446744073709551616 -> (length (fmt_ts ns) <= 21)%nat.
Proof.
  intros. unfold fmt_ts. rewrite length_app. simpl.
  pose proof (fmt_u_length (ns / 1000000000) 11). rewrite fmt_u0_length by zlia.
  assert (length (fmt_u (ns / 1000000000)) <= 11)%nat by (apply H0; [zlia|lia]). lia.
Qed.

(** A line is at most 165 characters, well below the 256 reserved per record. *)
Lemma format_csv_entry_length ty e : csv_entry_wf e -> zlen (format_csv_entry ty e) <= 165.
Proof.
  intros Hw. destruct (Hw) as [Hs _ Hip Hp]. unfold zlen, format_csv_entry, format_csv_columns.
  rewrite !length_app. simpl. rewrite !length_app. simpl. rewrite !length_app.
  assert (length (fmt_u (ce_src_port e)) <= 5)%nat by (apply fmt_u_length; lia).
  assert (length (fmt_u (ce_seq_num e)) <= 10)%nat by (apply fmt_u_length; lia).
  assert (forall l, length (concat (map (fun i => COMMA :: fmt_ts (ts_at e i)) l)) <= 22 * length l)%nat.
  { induction l as [|i l IH]; simpl; [lia|]. rewrite length_app.
    pose proof (fmt_ts_length (ts_at e i) (ts_at_range e i Hw)). lia. }
  specialize (H1 (csv_ts_columns ty)).
  assert (length (csv_ts_columns ty) <= 6)%nat by (destruct ty; simpl; lia). lia.
Qed.

Definition csv_lines (ty : csv_type_t) (batch : list csv_entry_t) : cstr :=
  concat (map (format_csv_entry ty) batch).

Lemma csv_format_loop_spec ty size batch buf :
  Forall csv_entry_wf batch -> 256 <= size < 4294967296 ->
  zlen buf + 165 * zlen batch <= size - 92 -> (batch <> [] -> zlen buf < size - 256) ->
  csv_format_loop ty size batch buf (zlen buf) =
    (buf ++ csv_lines ty batch, zlen (buf ++ csv_lines ty batch)).
Proof.
  intros Hw Hsz. revert buf. induction Hw as [|e l He Hl IH]; intros buf Hb Hlt.
  - unfold csv_lines. simpl. by rewrite app_nil_r.
  - cbn [csv_format_loop]. rewrite u64_small by lia.
    pose proof (format_csv_entry_length ty e He) as Hlen.
    specialize (Hlt ltac:(done)).
    destruct (Z.ltb_spec (zlen buf) (size - 256)); [|lia].
    unfold snprintf_dst. rewrite (take_ge buf), (take_ge (format_csv_entry ty e)).
    2-3: unfold zlen in *; lia.
    assert (zlen buf + zlen (format_csv_entry ty e) = zlen (buf ++ format_csv_entry ty e)) as ->.
    { unfold zlen. rewrite length_app. lia. }
    rewrite IH.
    + unfold csv_lines. simpl. by rewrite <- !app_assoc.
    + unfold zlen in *. rewrite length_app. simpl in *. lia.
    + intros Hne. unfold zlen in *. rewrite length_app. destruct l; [done|]. simpl in *. lia.
Qed.

(** Formatting a batch of at least two slots: nothing is truncated or skipped. *)
Lemma csv_format_batch_lines ty batch batch_size :
  Forall csv_entry_wf batch -> 2 <= batch_size <= 16777215 -> zlen batch <= batch_size ->
  csv_format_batch batch (batch_size * 256) ty = csv_lines ty batch.
Proof.
  intros Hw Hbs Hn. unfold csv_format_batch.
  change (csv_format_loop ty (batch_size * 256) batch [] 0)
    with (csv_format_loop ty (batch_size * 256) batch [] (zlen (@nil ascii))).
  rewrite csv_format_loop_spec; [|done|lia|unfold zlen in *; cbn [length]; lia|intros _; unfold zlen; cbn [length]; lia].
  rewrite app_nil_l. destruct (Z.ltb_spec (zlen (csv_lines ty batch)) (batch_size * 256)) as [|Hge].
  - apply take_ge. unfold zlen. lia.
  - exfalso. assert (zlen (csv_lines ty batch) <= 165 * zlen batch); [|lia].
    clear -Hw. induction Hw as [|e l He _ IH]; unfold csv_lines, zlen in *; simpl in *; [lia|].
    rewrite length_app. pose proof (format_csv_entry_length ty e He). unfold zlen in *. lia.
Qed.
