(* ===== verification/CsvRing.v ===== *)
(** The CSV log ring (timestamp_common.h, timestamp_common.c): creation and
    destruction with their resources, the lock-free enqueue and batch dequeue,
    and the writer thread that turns batches into lines of the log file. *)

From S2P Require Import Prelude CText Ring Spsc CsvLog.

(** struct csv_ring_buffer_t; the pthread handle and the scratch text of
    write_buffer are not state that outlives an operation. *)
Record csv_ring_buffer_t := CsvRing {
  cb_entries : list csv_entry_t;
  cb_head : Z;
  cb_tail : Z;
  cb_size_mask : Z;
  cb_batch_size : Z;
  cb_fd : Z;
  cb_running : bool;
  cb_write_buffer_size : Z;
  cb_csv_type : csv_type_t;
  cb_log_cpu : Z;
}.

Definition cb_set_ring (b : csv_ring_buffer_t) (entries : list csv_entry_t) (head tail : Z)
  : csv_ring_buffer_t :=
  CsvRing entries head tail (cb_size_mask b) (cb_batch_size b) (cb_fd b) (cb_running b)
    (cb_write_buffer_size b) (cb_csv_type b) (cb_log_cpu b).
Definition cb_stop (b : csv_ring_buffer_t) : csv_ring_buffer_t :=
  CsvRing (cb_entries b) (cb_head b) (cb_tail b) (cb_size_mask b) (cb_batch_size b) (cb_fd b)
    false (cb_write_buffer_size b) (cb_csv_type b) (cb_log_cpu b).

#[export] Instance csv_ring : Ring csv_ring_buffer_t csv_entry_t := {|
  ring_buf := cb_entries; ring_prod := cb_head; ring_cons := cb_tail; ring_mask := cb_size_mask |}.

(** ** Creation and destruction *)

(** The resources csv_buffer_create acquires. *)
Inductive csv_resource := RBuffer | REntries | RWriteBuffer | RFile (fd : Z) | RThread.
Inductive csv_effect :=
  | Acquire (r : csv_resource)
  | Release (r : csv_resource)
  | WriteText (fd : Z) (text : cstr)
  | Fsync (fd : Z).

(** What the system answers to the calls of csv_buffer_create. *)
Record csv_create_env := CsvCreateEnv {
  ce_alloc_buffer : bool;
  ce_alloc_entries : bool;
  ce_alloc_write_buffer : bool;
  ce_open_fd : Z;
  ce_thread_created : bool;
}.

(** The array content that aligned_alloc leaves is unspecified: [garbage]. *)
Definition csv_buffer_create (env : csv_create_env) (garbage : csv_entry_t) (size : Z)
    (csv_type : csv_type_t) (batch_size log_cpu : Z)
  : option csv_ring_buffer_t * list csv_effect :=
  if (size =? 0) || negb (Z.land size (u32 (size - 1)) =? 0) then (None, [])
  else if negb (ce_alloc_buffer env) then (None, [])
  else if negb (ce_alloc_entries env) then (None, [Acquire RBuffer; Release RBuffer])
  else
    let write_buffer_size := u32 (batch_size * 256) in
    let got := [Acquire RBuffer; Acquire REntries] in
    if negb (ce_alloc_write_buffer env) then (None, got ++ [Release REntries; Release RBuffer])
    else
      let got := got ++ [Acquire RWriteBuffer] in
      let fd := ce_open_fd env in
      if fd <? 0 then
        (None, got ++ [Release RWriteBuffer; Release REntries; Release RBuffer])
      else
        let got := got ++ [Acquire (RFile fd); WriteText fd (get_csv_header csv_type)] in
        if negb (ce_thread_created env) then
          (None, got ++ [Release (RFile fd); Release RWriteBuffer; Release REntries; Release RBuffer])
        else
          (Some (CsvRing (replicate (Z.to_nat size) garbage) 0 0 (size - 1) batch_size fd true
                   write_buffer_size csv_type log_cpu), got ++ [Acquire RThread]).

(** running = 0, pthread_join (the writer thread flushes and ends), then release. *)
Definition csv_buffer_destroy (buffer : option csv_ring_buffer_t) : list csv_effect :=
  match buffer with
  | None => []
  | Some b =>
      [Release RThread] ++
      (if 0 <=? cb_fd b then [Fsync (cb_fd b); Release (RFile (cb_fd b))] else []) ++
      [Release RWriteBuffer; Release REntries; Release RBuffer]
  end.

(** ** Enqueue and dequeue *)

(** Returns the buffer and the C result: 0 when stored, -1 when full. *)
Definition csv_enqueue_fast (buffer : csv_ring_buffer_t) (entry : csv_entry_t)
  : csv_ring_buffer_t * Z :=
  let current_head := cb_head buffer in
  let next_head := Z.land (u32 (current_head + 1)) (cb_size_mask buffer) in
  if next_head =? cb_tail buffer then (buffer, -1)
  else (cb_set_ring buffer (zset (cb_entries buffer) current_head entry) next_head (cb_tail buffer), 0).

(** The hot paths ignore the result, and log nothing without a buffer. *)
Definition log_csv (b : option csv_ring_buffer_t) (e : csv_entry_t) : option csv_ring_buffer_t :=
  match b with Some b => Some (fst (csv_enqueue_fast b e)) | None => None end.

Fixpoint csv_dequeue_loop (todo : nat) (buffer : csv_ring_buffer_t)
  : csv_ring_buffer_t * list csv_entry_t :=
  match todo with
  | O => (buffer, [])
  | S todo =>
      let current_tail := cb_tail buffer in
      let current_head := cb_head buffer in
      if current_tail =? current_head then (buffer, [])
      else match zget (cb_entries buffer) current_tail with
           | None => (buffer, [])
           | Some e =>
               let next := Z.land (u32 (current_tail + 1)) (cb_size_mask buffer) in
               let '(buffer', batch) :=
                 csv_dequeue_loop todo (cb_set_ring buffer (cb_entries buffer) current_head next) in
               (buffer', e :: batch)
           end
  end.
(** The batch array holds the returned count of entries. *)
Definition csv_dequeue_batch (buffer : csv_ring_buffer_t) (max_entries : Z)
  : csv_ring_buffer_t * list csv_entry_t :=
  csv_dequeue_loop (Z.to_nat (s32 max_entries)) buffer.

(** ** The writer thread *)

(** The outcome of one write(2) of a batch: all bytes, the first [n], or an error. *)
Inductive write_outcome := WriteAll | WriteShort (n : nat) | WriteFailed.
Definition fd_write (outcome : write_outcome) (file data : cstr) : cstr :=
  match outcome with
  | WriteAll => file ++ data
  | WriteShort n => file ++ take n data
  | WriteFailed => file
  end.

(** The shared ring and the content of the log file. *)
Record csv_log := CsvLogState { cl_buffer : csv_ring_buffer_t; cl_file : cstr }.

(** Dequeue one batch and write its lines (the body of the loop of
    csv_writer_thread, and the final flush after it). *)
Definition csv_write_batch (outcome : write_outcome) (st : csv_log) : csv_log :=
  let b := cl_buffer st in
  let '(b', batch) := csv_dequeue_batch b (cb_batch_size b) in
  match batch with
  | [] => CsvLogState b' (cl_file st)
  | _ => CsvLogState b' (fd_write outcome (cl_file st)
           (csv_format_batch batch (cb_write_buffer_size b) (cb_csv_type b)))
  end.

Inductive csv_event := EvEnqueue (entry : csv_entry_t) | EvWrite (outcome : write_outcome).
Definition csv_log_step (st : csv_log) (ev : csv_event) : csv_log :=
  match ev with
  | EvEnqueue e => CsvLogState (fst (csv_enqueue_fast (cl_buffer st) e)) (cl_file st)
  | EvWrite o => csv_write_batch o st
  end.
(** The life of a log: producer calls and writer iterations in any order while
    [running], then csv_buffer_destroy stops the thread, which flushes once. *)
Definition csv_writer_thread (st : csv_log) (evs : list csv_event) (final : write_outcome)
  : csv_log :=
  let st := fold_left csv_log_step evs st in
  csv_write_batch final (CsvLogState (cb_stop (cl_buffer st)) (cl_file st)).

(** The entries whose enqueue returned 0. *)
Fixpoint csv_accepted (st : csv_log) (evs : list csv_event) : list csv_entry_t :=
  match evs with
  | [] => []
  | ev :: evs =>
      match ev with
      | EvEnqueue e => if snd (csv_enqueue_fast (cl_buffer st) e) =? 0 then [e] else []
      | EvWrite _ => []
      end ++ csv_accepted (csv_log_step st ev) evs
  end.

(** ** Lemmas *)

Lemma cb_next_index (b : csv_ring_buffer_t) x :
  ring_wf b -> Z.land (u32 (x + 1)) (cb_size_mask b) = (x + 1) mod ring_size b.
Proof.
  intros (Hm & _). simpl in Hm. rewrite is_mask_land by done. by apply is_mask_u32.
Qed.

Lemma csv_enqueue_cases b e :
  ring_wf b ->
  (ring_full b /\ csv_enqueue_fast b e = (b, -1)) \/
  (~ ring_full b /\ exists b', csv_enqueue_fast b e = (b', 0) /\ ring_pushed e b b').
Proof.
  intros Hw. unfold csv_enqueue_fast. rewrite (cb_next_index b _ Hw). unfold ring_full. simpl.
  destruct (Z.eqb_spec ((cb_head b + 1) mod ring_size b) (cb_tail b)); [by left|right].
  split; [done|]. eexists. split; [done|]. by repeat split.
Qed.

Lemma csv_dequeue_loop_spec n b :
  ring_wf b ->
  exists b' batch, csv_dequeue_loop n b = (b', batch) /\ ring_wf b' /\
    ring_contents b = batch ++ ring_contents b' /\
    length batch = Nat.min n (length (ring_contents b)) /\
    b' = cb_set_ring b (cb_entries b) (cb_head b) (cb_tail b').
Proof.
  revert b. induction n as [|n IH]; intros b Hw; simpl.
  - exists b, []. destruct b; done.
  - pose proof (ring_empty_iff b Hw) as He. simpl in He.
    destruct (Z.eqb_spec (cb_tail b) (cb_head b)) as [Eq|Ne].
    + exists b, []. apply He in Eq. rewrite Eq. destruct b; done.
    + rewrite (cb_next_index b _ Hw).
      set (b1 := cb_set_ring b (cb_entries b) (cb_head b) ((cb_tail b + 1) mod ring_size b)).
      assert (ring_popped b b1) as Hpop by (by repeat split).
      destruct (ring_popped_contents b b1 Hw Ne Hpop) as (e & Hg & Hc). simpl in Hg. rewrite Hg.
      destruct (IH b1 (ring_popped_wf _ _ Hw Hpop)) as (b' & batch & -> & Hw' & Hc' & Hl & Hb).
      exists b', (e :: batch). split_and!; try done.
      * by rewrite Hc, Hc'.
      * rewrite Hc. simpl. by rewrite Hl.
Qed.

(** Enqueues without a consumer: the entries that fit, in order. *)
Definition csv_enqueue_all (b : csv_ring_buffer_t) (es : list csv_entry_t) : csv_ring_buffer_t :=
  fold_left (fun b e => fst (csv_enqueue_fast b e)) es b.

Lemma csv_enqueue_all_spec es b :
  ring_wf b ->
  ring_wf (csv_enqueue_all b es) /\ cb_size_mask (csv_enqueue_all b es) = cb_size_mask b /\
  ring_contents (csv_enqueue_all b es) = take (Z.to_nat (cb_size_mask b)) (ring_contents b ++ es).
Proof.
  revert b. induction es as [|e es IH]; intros b Hw; cbn [csv_enqueue_all fold_left].
  - rewrite app_nil_r. split_and!; try done. symmetry. apply take_ge.
    pose proof (ring_contents_length b Hw) as Hl. pose proof (ring_count_range b Hw) as Hr.
    unfold ring_size in Hr. simpl in Hr. unfold zlen in Hl. lia.
  - destruct (csv_enqueue_cases b e Hw) as [[Hf ->]|(Hf & b' & -> & Hp)]; cbn [fst].
    + destruct (IH b Hw) as (H1 & H2 & H3). split_and!; try done. unfold csv_enqueue_all in H3. rewrite H3.
      apply (ring_full_iff b Hw) in Hf. unfold zlen in Hf. simpl in Hf.
      rewrite !take_app_le by lia. done.
    + pose proof (ring_pushed_wf _ _ _ Hw Hp) as Hw'. destruct (IH b' Hw') as (H1 & H2 & H3).
      unfold csv_enqueue_all in *. assert (cb_size_mask b' = cb_size_mask b) as Hm by apply Hp.
      rewrite H2, H3, Hm, (ring_pushed_contents e b b' Hw Hf Hp), <- app_assoc. done.
Qed.

Lemma csv_dequeue_batch_spec b n :
  ring_wf b -> 0 <= n < 2147483648 ->
  exists b' batch, csv_dequeue_batch b n = (b', batch) /\ ring_wf b' /\
    batch = take (Z.to_nat n) (ring_contents b) /\
    ring_contents b' = drop (Z.to_nat n) (ring_contents b) /\
    b' = cb_set_ring b (cb_entries b) (cb_head b) (cb_tail b').
Proof.
  intros Hw Hn. unfold csv_dequeue_batch. rewrite s32_small by lia.
  destruct (csv_dequeue_loop_spec (Z.to_nat n) b Hw) as (b' & batch & -> & Hw' & Hc & Hl & Hb).
  exists b', batch. split_and!; try done; rewrite Hc.
  - destruct (decide (Z.to_nat n <= length (ring_contents b))%nat).
    + rewrite take_app_length'; [done|lia].
    + assert (ring_contents b' = []) as ->.
      { apply (f_equal length) in Hc. rewrite length_app in Hc. apply length_zero_iff_nil. lia. }
      rewrite app_nil_r, take_ge; [done|lia].
  - destruct (decide (Z.to_nat n <= length (ring_contents b))%nat).
    + rewrite drop_app_length'; [done|lia].
    + assert (ring_contents b' = []) as ->.
      { apply (f_equal length) in Hc. rewrite length_app in Hc. apply length_zero_iff_nil. lia. }
      rewrite app_nil_r, drop_ge; [done|lia].
Qed.

(** ** Properties *)

(** The bounded FIFO queue the ring implements; it holds [cap] entries. *)
Definition queue_enqueue {A} (cap : Z) (q : list A) (x : A) : list A * Z :=
  if zlen q <? cap then (q ++ [x], 0) else (q, -1).

(** C20: csv_enqueue_fast and csv_dequeue_batch implement a bounded FIFO queue of
    size_mask = size - 1 entries: an enqueue appends, or is refused with -1 and
    changes nothing when the queue is full; a dequeue removes the oldest
    entries, at most max_entries of them, in order; the ring stays well formed. *)
Theorem csv_ring_refines_queue b e n :
  ring_wf b -> 0 <= n < 2147483648 ->
  (let '(b', r) := csv_enqueue_fast b e in
   ring_wf b' /\
   (ring_contents b', r) = queue_enqueue (cb_size_mask b) (ring_contents b) e) /\
  (let '(b', batch) := csv_dequeue_batch b n in
   ring_wf b' /\
   (ring_contents b', batch) = (drop (Z.to_nat n) (ring_contents b), take (Z.to_nat n) (ring_contents b))).
Proof.
  intros Hw Hn. split.
  - pose proof (ring_full_iff b Hw) as Hf. unfold queue_enqueue. simpl in Hf.
    destruct (csv_enqueue_cases b e Hw) as [[F ->]|(F & b' & -> & Hp)].
    + split; [done|]. apply Hf in F. rewrite F, Z.ltb_irrefl. done.
    + split; [by eapply ring_pushed_wf|]. rewrite (ring_pushed_contents e b b') by done.
      pose proof (ring_not_full_count b Hw F) as Hc. rewrite <- ring_contents_length in Hc by done.
      unfold ring_size in Hc. simpl in Hc.
      destruct (Z.ltb_spec (zlen (ring_contents b)) (cb_size_mask b)); [done|lia].
  - destruct (csv_dequeue_batch_spec b n Hw Hn) as (b' & batch & -> & Hw' & -> & -> & _). done.
Qed.

Definition sample_entry (k : Z) : csv_entry_t :=
  create_csv_client_oneway_main k (lit "10.0.0.1") 9000 (1700000000000000000 + k).
(** A ring of [size] slots with the given batch size. *)
Definition sample_ring (size batch_size : Z) : csv_ring_buffer_t :=
  CsvRing (replicate (Z.to_nat size) (sample_entry 0)) 0 0 (size - 1) batch_size 3 true
    (u32 (batch_size * 256)) CSV_CLIENT_MAIN_ONEWAY 0.

Lemma sample_ring_wf k bs : 0 <= k <= 20 -> ring_wf (sample_ring (2 ^ k) bs).
Proof.
  intros. assert (1 <= 2 ^ k) by (apply (Z.pow_le_mono_r 2 0 k); lia).
  unfold ring_wf, ring_size, sample_ring. simpl. split_and!; try lia.
  - exists k. lia.
  - unfold zlen. rewrite length_replicate. lia.
Qed.

Lemma csv_ring_refines_queue_witness :
  ring_wf (sample_ring (2 ^ 3) 2) /\
  snd (csv_dequeue_batch (fst (csv_enqueue_fast (sample_ring (2 ^ 3) 2) (sample_entry 5))) 2)
    = [sample_entry 5] /\
  (let '(b', r) := csv_enqueue_fast (sample_ring (2 ^ 3) 2) (sample_entry 5) in
   ring_wf b' /\
   (ring_contents b', r) =
     queue_enqueue (cb_size_mask (sample_ring (2 ^ 3) 2)) (ring_contents (sample_ring (2 ^ 3) 2)) (sample_entry 5)).
Proof.
  split; [apply sample_ring_wf; lia|]. split; [vm_compute; reflexivity|].
  exact (proj1 (csv_ring_refines_queue (sample_ring (2 ^ 3) 2) (sample_entry 5) 2
                  (sample_ring_wf 3 2 ltac:(lia)) ltac:(lia))).
Defined.

(** Resources acquired and not released, oldest first. *)
Definition csv_resource_eqb (a b : csv_resource) : bool :=
  match a, b with
  | RBuffer, RBuffer | REntries, REntries | RWriteBuffer, RWriteBuffer | RThread, RThread => true
  | RFile x, RFile y => x =? y
  | _, _ => false
  end.
Fixpoint csv_leaked (held : list csv_resource) (effs : list csv_effect) : list csv_resource :=
  match effs with
  | [] => held
  | Acquire r :: effs => csv_leaked (held ++ [r]) effs
  | Release r :: effs => csv_leaked (List.filter (fun x => negb (csv_resource_eqb x r)) held) effs
  | _ :: effs => csv_leaked held effs
  end.

(** Csv_buffer_create succeeds only for a power-of-two size and then returns
    a well-formed empty ring with a scratch buffer of 256 bytes per batch slot
    (modulo 2^32); whichever call fails, everything acquired before is released;
    and csv_buffer_destroy releases everything a successful creation acquired. *)
Theorem csv_buffer_lifecycle env garbage size ty batch_size log_cpu :
  0 <= size < 4294967296 ->
  match csv_buffer_create env garbage size ty batch_size log_cpu with
  | (None, effs) => csv_leaked [] effs = []
  | (Some b, effs) =>
      (exists k, 0 <= k /\ size = 2 ^ k) /\ ring_wf b /\ ring_contents b = [] /\
      cb_size_mask b = size - 1 /\ cb_write_buffer_size b = u32 (batch_size * 256) /\
      cb_running b = true /\ csv_leaked [] (effs ++ csv_buffer_destroy (Some b)) = []
  end.
Proof.
  intros Hs. unfold csv_buffer_create.
  destruct ((size =? 0) || _) eqn:Hz; [done|].
  apply orb_false_iff in Hz as [Hz Hp]. zb. rewrite u32_small in Hp by lia.
  destruct (ce_alloc_buffer env); [|done]. destruct (ce_alloc_entries env); [|done].
  destruct (ce_alloc_write_buffer env); [|done]. simpl.
  destruct (Z.ltb_spec (ce_open_fd env) 0); [done|].
  destruct (ce_thread_created env); simpl.
  2:{ by rewrite Z.eqb_refl. }
  assert (is_mask (size - 1)) as Hm by (apply is_mask_pred; lia).
  split; [|split; [|split_and!; try done]].
  - exists (Z.log2 size). split; [apply Z.log2_nonneg|]. apply land_pred_power; lia.
  - unfold ring_wf, ring_size, zlen. simpl. rewrite length_replicate.
    split; [done|]. lia.
  - destruct (Z.leb_spec 0 (ce_open_fd env)); [|lia]. simpl. by rewrite Z.eqb_refl.
Qed.

Lemma csv_buffer_lifecycle_witness :
  fst (csv_buffer_create (CsvCreateEnv true true true 3 true) (sample_entry 0) 8 CSV_CLIENT_TX 2 0) <> None /\
  match csv_buffer_create (CsvCreateEnv true true true 3 true) (sample_entry 0) 8 CSV_CLIENT_TX 2 0 with
  | (None, effs) => csv_leaked [] effs = []
  | (Some b, effs) =>
      (exists k, 0 <= k /\ 8 = 2 ^ k) /\ ring_wf b /\ ring_contents b = [] /\
      cb_size_mask b = 8 - 1 /\ cb_write_buffer_size b = u32 (2 * 256) /\
      cb_running b = true /\ csv_leaked [] (effs ++ csv_buffer_destroy (Some b)) = []
  end.
Proof.
  split; [by vm_compute|].
  exact (csv_buffer_lifecycle (CsvCreateEnv true true true 3 true) (sample_entry 0) 8
           CSV_CLIENT_TX 2 0 ltac:(lia)).
Defined.

(** ** The log file *)

(** All writes are complete. *)
Definition ev_ok (ev : csv_event) : Prop :=
  match ev with EvEnqueue e => csv_entry_wf e | EvWrite o => o = WriteAll end.

(** A running log: well-formed ring and entries, and the scratch buffer the
    creation computes for a batch size below 2^24. *)
Record csv_log_wf (st : csv_log) : Prop := {
  clw_ring : ring_wf (cl_buffer st);
  clw_entries : Forall csv_entry_wf (ring_contents (cl_buffer st));
  clw_batch : 2 <= cb_batch_size (cl_buffer st) <= 16777215;
  clw_size : cb_write_buffer_size (cl_buffer st) = cb_batch_size (cl_buffer st) * 256;
}.

Lemma csv_write_batch_spec st :
  csv_log_wf st ->
  let n := Z.to_nat (cb_batch_size (cl_buffer st)) in
  let st' := csv_write_batch WriteAll st in
  csv_log_wf st' /\
  cb_csv_type (cl_buffer st') = cb_csv_type (cl_buffer st) /\
  cb_batch_size (cl_buffer st') = cb_batch_size (cl_buffer st) /\
  ring_contents (cl_buffer st') = drop n (ring_contents (cl_buffer st)) /\
  cl_file st' = cl_file st ++ csv_lines (cb_csv_type (cl_buffer st)) (take n (ring_contents (cl_buffer st))).
Proof.
  intros [Hw He Hb Hs] n st'. subst n st'. unfold csv_write_batch.
  destruct (csv_dequeue_batch_spec (cl_buffer st) (cb_batch_size (cl_buffer st)) Hw ltac:(lia))
    as (b' & batch & -> & Hw' & Eb & Ec & Ef).
  assert (csv_entry_wf <$> batch = csv_entry_wf <$> batch) by done.
  assert (Forall csv_entry_wf batch) as Hbw by (rewrite Eb; by apply Forall_take).
  assert (Forall csv_entry_wf (ring_contents b')) as Hcw by (rewrite Ec; by apply Forall_drop).
  assert (csv_log_wf (CsvLogState b' (cl_file st)) /\ cb_csv_type b' = cb_csv_type (cl_buffer st) /\
          cb_batch_size b' = cb_batch_size (cl_buffer st)) as (Hwf & Et & Ebs).
  { rewrite Ef. simpl. split_and!; [|done|done]. rewrite Ef in Hw', Hcw. by split. }
  destruct batch as [|e l] eqn:Hbatch; simpl.
  - rewrite <- Eb. unfold csv_lines. simpl. rewrite app_nil_r. by split_and!.
  - split_and!; try done.
    + destruct Hwf as [? ? ? ?]. by split.
    + rewrite Hs, csv_format_batch_lines; [by rewrite Eb|done|lia|].
      rewrite Eb. unfold zlen. rewrite length_take. lia.
Qed.

Lemma csv_enqueue_log st e :
  csv_log_wf st -> csv_entry_wf e ->
  let st' := csv_log_step st (EvEnqueue e) in
  let acc := if snd (csv_enqueue_fast (cl_buffer st) e) =? 0 then [e] else [] in
  csv_log_wf st' /\
  cb_csv_type (cl_buffer st') = cb_csv_type (cl_buffer st) /\
  cb_batch_size (cl_buffer st') = cb_batch_size (cl_buffer st) /\
  ring_contents (cl_buffer st') = ring_contents (cl_buffer st) ++ acc /\
  cl_file st' = cl_file st.
Proof.
  intros [Hw Hes Hb Hs] He. simpl.
  assert (forall b', fst (csv_enqueue_fast (cl_buffer st) e) = b' ->
            cb_csv_type b' = cb_csv_type (cl_buffer st) /\
            cb_batch_size b' = cb_batch_size (cl_buffer st) /\
            cb_write_buffer_size b' = cb_write_buffer_size (cl_buffer st)) as Hfr.
  { intros b' <-. unfold csv_enqueue_fast. by case_match. }
  destruct (csv_enqueue_cases (cl_buffer st) e Hw) as [[F E]|(F & b' & E & Hp)]; rewrite E in *; simpl in *.
  - rewrite app_nil_r. split_and!; try done.
  - destruct (Hfr b' eq_refl) as (-> & -> & Hz).
    assert (ring_contents b' = ring_contents (cl_buffer st) ++ [e]) as Hc
      by (by apply ring_pushed_contents).
    destruct (Hfr b' eq_refl) as (? & Hbs & _).
    split_and!; try done. split; simpl; try (rewrite ?Hbs, ?Hz; done).
    + by eapply ring_pushed_wf.
    + rewrite Hc. apply Forall_app. split; [done|by constructor].
Qed.

(** While the writer runs, the file followed by the pending lines is the
    initial file followed by the lines of everything accepted. *)
Lemma csv_log_run st evs :
  csv_log_wf st -> Forall ev_ok evs ->
  let st' := fold_left csv_log_step evs st in
  csv_log_wf st' /\ cb_csv_type (cl_buffer st') = cb_csv_type (cl_buffer st) /\
  cb_batch_size (cl_buffer st') = cb_batch_size (cl_buffer st) /\
  exists written, ring_contents (cl_buffer st) ++ csv_accepted st evs =
                  written ++ ring_contents (cl_buffer st') /\
                  cl_file st' = cl_file st ++ csv_lines (cb_csv_type (cl_buffer st)) written.
Proof.
  intros Hw Hev. revert st Hw. induction Hev as [|ev evs Hok _ IH]; intros st Hw.
  - simpl. split_and!; try done. exists []. unfold csv_lines. simpl. by rewrite !app_nil_r.
  - destruct ev as [e|o]; simpl in Hok.
    + destruct (csv_enqueue_log st e Hw Hok) as (Hw' & Ht & Hbs & Hc & Hf).
      destruct (IH _ Hw') as (Hw2 & Ht2 & Hb2 & written & Ha & Hfile).
      cbn [fold_left csv_accepted] in *. rewrite Ht, Hc, Hf, Hbs in *.
      split_and!; try done. exists written. split; [|done]. by rewrite app_assoc.
    + subst o. destruct (csv_write_batch_spec st Hw) as (Hw' & Ht & Hbs & Hc & Hf).
      destruct (IH _ Hw') as (Hw2 & Ht2 & Hb2 & written & Ha & Hfile).
      cbn [fold_left csv_accepted csv_log_step] in *. rewrite Ht, Hc, Hf, Hbs in *.
      split_and!; try done.
      exists (take (Z.to_nat (cb_batch_size (cl_buffer st))) (ring_contents (cl_buffer st)) ++ written).
      split; [by rewrite app_nil_l, <- app_assoc, <- Ha, app_assoc, take_drop|].
      rewrite Hfile. unfold csv_lines. by rewrite map_app, concat_app, app_assoc.
Qed.

Lemma csv_flush_file st evs :
  csv_log_wf st -> Forall ev_ok evs ->
  let pending := ring_contents (cl_buffer (fold_left csv_log_step evs st)) in
  exists written, ring_contents (cl_buffer st) ++ csv_accepted st evs = written ++ pending /\
    cl_file (csv_writer_thread st evs WriteAll) =
      cl_file st ++ csv_lines (cb_csv_type (cl_buffer st)) (written ++ take (Z.to_nat (cb_batch_size (cl_buffer st))) pending).
Proof.
  intros Hw Hev pending. unfold pending. clear pending. destruct (csv_log_run st evs Hw Hev) as (Hw' & Ht & Hb & written & Ha & Hf).
  exists written. split; [exact Ha|].
  unfold csv_writer_thread. set (st1 := fold_left csv_log_step evs st) in *.
  assert (csv_log_wf (CsvLogState (cb_stop (cl_buffer st1)) (cl_file st1))) as Hws.
  { destruct Hw' as [? ? ? ?]. by split. }
  destruct (csv_write_batch_spec _ Hws) as (_ & _ & _ & _ & ->). simpl. rewrite Hf, Ht, Hb.
  unfold csv_lines. by rewrite map_app, concat_app, app_assoc.
Qed.

(** C3: what the log file holds when csv_buffer_destroy returns, when every
    write completes.  The entries accepted by csv_enqueue_fast reach the file in
    order, one line each, up to the final flush; the flush writes one batch
    only, so of the entries still in the ring when the writer is stopped those
    beyond batch_size are lost. *)
Theorem csv_log_file_content st evs :
  csv_log_wf st -> ring_contents (cl_buffer st) = [] -> Forall ev_ok evs ->
  exists written pending,
    csv_accepted st evs = written ++ pending /\
    pending = ring_contents (cl_buffer (fold_left csv_log_step evs st)) /\
    cl_file (csv_writer_thread st evs WriteAll) =
      cl_file st ++ csv_lines (cb_csv_type (cl_buffer st))
        (written ++ take (Z.to_nat (cb_batch_size (cl_buffer st))) pending).
Proof.
  intros Hw He Hev. destruct (csv_flush_file st evs Hw Hev) as (written & Ha & Hf). rewrite He in Ha. eauto.
Qed.

Definition sample_log : csv_log :=
  CsvLogState (sample_ring (2 ^ 3) 2) (get_csv_header CSV_CLIENT_MAIN_ONEWAY).

Lemma sample_entry_wf k : 0 <= k < 4294967296 -> csv_entry_wf (sample_entry k).
Proof.
  intros. split; [simpl; lia| |simpl; lia|simpl; lia].
  apply ts_wf_set; [apply ts_wf_zero|]. repeat constructor; lia.
Qed.

Lemma sample_log_wf : csv_log_wf sample_log.
Proof. split; [apply (sample_ring_wf 3 2); lia|constructor|simpl; lia|done]. Qed.

(** Three accepted entries, batch size two, stopped before the writer ran: the
    third line never reaches the file. *)
Lemma csv_log_file_content_witness :
  (length (csv_accepted sample_log (EvEnqueue <$> (sample_entry <$> [1; 2; 3]))) = 3%nat /\
   cl_file (csv_writer_thread sample_log (EvEnqueue <$> (sample_entry <$> [1; 2; 3])) WriteAll) =
     get_csv_header CSV_CLIENT_MAIN_ONEWAY ++
     csv_lines CSV_CLIENT_MAIN_ONEWAY (sample_entry <$> [1; 2])) /\
  exists written pending,
    csv_accepted sample_log (EvEnqueue <$> (sample_entry <$> [1; 2; 3])) = written ++ pending /\
    pending = ring_contents (cl_buffer (fold_left csv_log_step (EvEnqueue <$> (sample_entry <$> [1; 2; 3])) sample_log)) /\
    cl_file (csv_writer_thread sample_log (EvEnqueue <$> (sample_entry <$> [1; 2; 3])) WriteAll) =
      cl_file sample_log ++ csv_lines (cb_csv_type (cl_buffer sample_log))
        (written ++ take (Z.to_nat (cb_batch_size (cl_buffer sample_log))) pending).
Proof.
  split; [split; vm_compute; reflexivity|].
  refine (csv_log_file_content sample_log (EvEnqueue <$> (sample_entry <$> [1; 2; 3])) sample_log_wf eq_refl _).
  repeat (apply List.Forall_cons; [apply sample_entry_wf; lia|]). apply List.Forall_nil.
Defined.
