(* ===== verification/StatsCollector.v ===== *)
(** The statistics collector (timestamp_common.h, timestamp_common.c): a rolling
    ring of packet entries that drops its oldest entry when full, and the searches
    that complete an entry with timestamps that arrive later.

    The ring is proved to keep the last capacity - 1 entries pushed, and the
    searches to change the most recent entry of a sequence number only. *)

From S2P Require Import Prelude Ring Heap.

Inductive stats_mode_type_t :=
  | STATS_CLIENT_ONEWAY | STATS_CLIENT_ROUNDTRIP | STATS_SERVER_ONEWAY | STATS_SERVER_ROUNDTRIP.
#[export] Instance stats_mode_eq_dec : EqDecision stats_mode_type_t.
Proof. solve_decision. Defined.
Definition stats_mode_code (m : stats_mode_type_t) : Z :=
  match m with
  | STATS_CLIENT_ONEWAY => 1 | STATS_CLIENT_ROUNDTRIP => 2
  | STATS_SERVER_ONEWAY => 3 | STATS_SERVER_ROUNDTRIP => 4
  end.
Inductive timestamp_mode_t :=
  | TIMESTAMP_MODE_CLIENT_ONEWAY | TIMESTAMP_MODE_CLIENT_ROUNDTRIP
  | TIMESTAMP_MODE_SERVER_ONEWAY | TIMESTAMP_MODE_SERVER_ROUNDTRIP.
Definition timestamp_mode_code (m : timestamp_mode_t) : Z :=
  match m with
  | TIMESTAMP_MODE_CLIENT_ONEWAY => 1 | TIMESTAMP_MODE_CLIENT_ROUNDTRIP => 2
  | TIMESTAMP_MODE_SERVER_ONEWAY => 3 | TIMESTAMP_MODE_SERVER_ROUNDTRIP => 4
  end.

Record stats_config_t := StatsConfig {
  sf_enabled : bool; sf_buffer_size : Z; sf_bin_width_us : Z; sf_max_bins : Z }.

Record stats_entry_t := StatsEntry {
  se_seq_num : Z; se_timestamp_ns : list Z; se_src_port : Z; se_entry_type : Z; se_timestamp_mask : Z }.

(** [st_self] and [st_buffer_ptr] are the two heap blocks; the buffer of a
    collector that exists is never NULL. *)
Record stats_collector_t := StatsCollector {
  st_self : nat; st_buffer_ptr : nat;
  st_buffer : list stats_entry_t; st_head : Z; st_tail : Z; st_size_mask : Z; st_capacity : Z;
  st_program_mode : Z; st_total_entries : Z; st_dropped_entries : Z }.

#[export] Instance stats_ring : Ring stats_collector_t stats_entry_t := {|
  ring_buf := st_buffer; ring_prod := st_head; ring_cons := st_tail; ring_mask := st_size_mask |}.

(** ** Creation *)

Fixpoint next_power_loop (fuel : nat) (power n : Z) : option Z :=
  match fuel with
  | O => None
  | S f =>
      if power <? n then
        let power := u32 (Z.shiftl power 1) in
        if power =? 0 then Some 0 else next_power_loop f power n
      else Some power
  end.
(** 33 rounds are enough: [next_power_of_2_spec]. *)
Definition next_power_of_2 (n : Z) : Z :=
  if n =? 0 then 1
  else if Z.land n (u32 (n - 1)) =? 0 then n
  else default 0 (next_power_loop 33 1 n).

Definition zero_entry : stats_entry_t := StatsEntry 0 (replicate 12 0) 0 0 0.

Definition create_stats_collector (ok : nat -> bool) (h : heap) (buffer_size : Z) (mode : stats_mode_type_t)
    : option stats_collector_t * heap :=
  if buffer_size =? 0 then (None, h)
  else
    let '(stats, h) := alloc_with_fallback ok h in
    match stats with
    | None => (None, h)
    | Some self =>
        let actual_size := next_power_of_2 buffer_size in
        if actual_size =? 0 then (None, hfree self h)
        else
          let '(buffer, h) := alloc_with_fallback ok h in
          match buffer with
          | None => (None, hfree self h)
          | Some b =>
              (Some (StatsCollector self b (replicate (Z.to_nat actual_size) zero_entry) 0 0
                       (u32 (actual_size - 1)) actual_size (stats_mode_code mode) 0 0), h)
          end
    end.
Definition destroy_stats_collector (stats : stats_collector_t) (h : heap) : heap :=
  hfree (st_self stats) (hfree (st_buffer_ptr stats) h).

(** ** The ring *)

Definition st_set (s : stats_collector_t) (buffer : list stats_entry_t) (head tail total dropped : Z) : stats_collector_t :=
  StatsCollector (st_self s) (st_buffer_ptr s) buffer head tail (st_size_mask s) (st_capacity s)
    (st_program_mode s) total dropped.

(** Always succeeds: a full ring loses its oldest entry. *)
Definition stats_enqueue (stats : stats_collector_t) (entry : stats_entry_t) : stats_collector_t :=
  let current_head := st_head stats in
  let next_head := Z.land (u32 (current_head + 1)) (st_size_mask stats) in
  let '(tail, dropped) :=
    if next_head =? st_tail stats
    then (Z.land (u32 (st_tail stats + 1)) (st_size_mask stats), u64 (st_dropped_entries stats + 1))
    else (st_tail stats, st_dropped_entries stats) in
  st_set stats (zset (st_buffer stats) current_head entry) next_head tail
    (u64 (st_total_entries stats + 1)) dropped.

Definition get_buffer_count (stats : stats_collector_t) : Z :=
  Z.land (u32 (st_head stats - st_tail stats)) (st_size_mask stats).
Definition buffer_has_data (stats : stats_collector_t) : bool := 0 <? get_buffer_count stats.

(** ** Updates of a recorded entry *)

(** stats_config.enabled and global_stats_collector *)
Record stats_globals := StatsGlobals { sg_enabled : bool; sg_collector : option stats_collector_t }.

(** The search of the update functions: [n] entries from the most recent on;
    [i] counts the entries already seen. *)
Fixpoint update_search (n : nat) (i : Z) (seq_num : Z) (update : stats_entry_t -> stats_entry_t)
    (head mask : Z) (buffer : list stats_entry_t) : list stats_entry_t :=
  match n with
  | O => buffer
  | S n =>
      let index := Z.land (u32 (head - 1 - i)) mask in
      match zget buffer index with
      | None => buffer
      | Some entry =>
          if se_seq_num entry =? seq_num then zset buffer index (update entry)
          else update_search n (i + 1) seq_num update head mask buffer
      end
  end.
Definition update_stats_buffer (g : stats_globals) (seq_num : Z) (update : stats_entry_t -> stats_entry_t)
    : stats_globals :=
  match sg_collector g with
  | Some s =>
      if sg_enabled g then
        let buffer := update_search (Z.to_nat (get_buffer_count s)) 0 seq_num update (st_head s)
                        (st_size_mask s) (st_buffer s) in
        StatsGlobals true
          (Some (st_set s buffer (st_head s) (st_tail s) (st_total_entries s) (st_dropped_entries s)))
      else g
  | None => g
  end.

Definition se_put (i v : Z) (e : stats_entry_t) : stats_entry_t :=
  StatsEntry (se_seq_num e) (zset (se_timestamp_ns e) i v) (se_src_port e) (se_entry_type e) (se_timestamp_mask e).

Definition tx_update (ker_tx_ts_ns : Z) (mode : stats_mode_type_t) (e : stats_entry_t) : stats_entry_t :=
  match mode with
  | STATS_CLIENT_ONEWAY | STATS_CLIENT_ROUNDTRIP => se_put 2 ker_tx_ts_ns e
  | STATS_SERVER_ONEWAY => e
  | STATS_SERVER_ROUNDTRIP => se_put 11 ker_tx_ts_ns e
  end.
Definition app_tx_update (app_tx_ts_ns tsc_tx_ts_ns : Z) (mode : stats_mode_type_t) (e : stats_entry_t)
    : stats_entry_t :=
  match mode with
  | STATS_CLIENT_ONEWAY => se_put 1 app_tx_ts_ns e
  | STATS_CLIENT_ROUNDTRIP =>
      let e := if 0 <? tsc_tx_ts_ns then se_put 0 tsc_tx_ts_ns e else e in
      se_put 1 app_tx_ts_ns e
  | STATS_SERVER_ONEWAY => e
  | STATS_SERVER_ROUNDTRIP => se_put 10 app_tx_ts_ns e
  end.
Definition rx_update (hw_rx_ts_ns ker_rx_ts_ns app_rx_ts_ns tsc_rx_ts_ns : Z) (mode : stats_mode_type_t)
    (e : stats_entry_t) : stats_entry_t :=
  match mode with
  | STATS_CLIENT_ONEWAY => e
  | STATS_CLIENT_ROUNDTRIP =>
      let e := se_put 4 ker_rx_ts_ns (se_put 3 hw_rx_ts_ns e) in
      let e := if 0 <? tsc_rx_ts_ns then se_put 5 tsc_rx_ts_ns e else e in
      se_put 6 app_rx_ts_ns e
  | STATS_SERVER_ONEWAY | STATS_SERVER_ROUNDTRIP =>
      se_put 9 app_rx_ts_ns (se_put 8 ker_rx_ts_ns (se_put 7 hw_rx_ts_ns e))
  end.

Definition update_stats_buffer_with_tx_timestamp (g : stats_globals) (seq_num ker_tx_ts_ns : Z)
    (mode : stats_mode_type_t) : stats_globals :=
  update_stats_buffer g seq_num (tx_update ker_tx_ts_ns mode).
Definition update_stats_buffer_with_app_tx_timestamp (g : stats_globals) (seq_num app_tx_ts_ns tsc_tx_ts_ns : Z)
    (mode : stats_mode_type_t) : stats_globals :=
  update_stats_buffer g seq_num (app_tx_update app_tx_ts_ns tsc_tx_ts_ns mode).
Definition update_stats_buffer_with_rx_timestamps (g : stats_globals)
    (seq_num hw_rx_ts_ns ker_rx_ts_ns app_rx_ts_ns tsc_rx_ts_ns : Z) (mode : stats_mode_type_t) : stats_globals :=
  update_stats_buffer g seq_num (rx_update hw_rx_ts_ns ker_rx_ts_ns app_rx_ts_ns tsc_rx_ts_ns mode).

Definition get_timestamp_mask_for_mode (entry_type : timestamp_mode_t) : Z :=
  match entry_type with
  | TIMESTAMP_MODE_CLIENT_ONEWAY => 7
  | TIMESTAMP_MODE_CLIENT_ROUNDTRIP => 127
  | TIMESTAMP_MODE_SERVER_ONEWAY => 128
  | TIMESTAMP_MODE_SERVER_ROUNDTRIP => 248
  end.
Definition create_minimal_stats_entry (g : stats_globals) (seq_num src_port : Z)
    (entry_type : timestamp_mode_t) : stats_globals :=
  match sg_collector g with
  | Some s =>
      if sg_enabled g then
        StatsGlobals true (Some (stats_enqueue s
          (StatsEntry seq_num (replicate 12 0) src_port (timestamp_mode_code entry_type)
             (get_timestamp_mask_for_mode entry_type))))
      else g
  | None => g
  end.

(** ** Creation: proofs *)

Lemma next_power_loop_spec fuel k n :
  0 <= k <= 31 -> 2 ^ k < 2 * n -> 0 < n < 4294967296 -> 33 - k <= Z.of_nat fuel ->
  next_power_loop fuel (2 ^ k) n = Some (if n <=? 2147483648 then 2 ^ Z.log2_up n else 0).
Proof.
  revert k. induction fuel as [|f IH]; intros k Hk Hlt Hn Hf; [lia|]. cbn [next_power_loop].
  destruct (Z.ltb_spec (2 ^ k) n) as [Hl|Hge].
  - rewrite Z.shiftl_mul_pow2 by lia. rewrite <- Z.pow_add_r by lia.
    destruct (decide (k = 31)) as [->|].
    + change (u32 (2 ^ (31 + 1)) =? 0) with true. simpl in Hl.
      destruct (Z.leb_spec n 2147483648); [lia|done].
    + assert (2 ^ (k + 1) <= 2 ^ 31) as Hp by (apply Z.pow_le_mono_r; lia).
      assert (0 < 2 ^ (k + 1)) by (apply Z.pow_pos_nonneg; lia).
      rewrite u32_small by lia. rewrite (proj2 (Z.eqb_neq _ _)) by lia.
      apply IH; try lia. rewrite Z.pow_add_r by lia. lia.
  - assert (2 ^ k <= 2 ^ 31) by (apply Z.pow_le_mono_r; lia).
    destruct (Z.leb_spec n 2147483648); [|lia]. do 2 f_equal.
    destruct (decide (n = 1)) as [->|].
    + rewrite Z.log2_up_1. destruct (decide (k = 0)); [done|].
      assert (2 ^ 1 <= 2 ^ k) by (apply Z.pow_le_mono_r; lia). lia.
    + symmetry. destruct (decide (k = 0)) as [->|]; [simpl in *; lia|].
      apply Z.log2_up_unique; [lia|]. split; [|done].
      replace k with (Z.succ (Z.pred k)) in Hlt by lia. rewrite Z.pow_succ_r in Hlt by lia. lia.
Qed.

Lemma next_power_of_2_eq n :
  0 < n < 4294967296 ->
  next_power_of_2 n = if n <=? 2147483648 then 2 ^ Z.log2_up n else 0.
Proof.
  intros Hn. unfold next_power_of_2. rewrite (proj2 (Z.eqb_neq _ _)), u32_small by lia.
  destruct (Z.eqb_spec (Z.land n (n - 1)) 0) as [Hp|].
  - apply land_pred_power in Hp; [|lia].
    assert (Z.log2 n <= 31) as Hl by (apply Z.lt_succ_r, Z.log2_lt_pow2; lia).
    assert (2 ^ Z.log2 n <= 2 ^ 31) by (apply Z.pow_le_mono_r; lia).
    destruct (Z.leb_spec n 2147483648); [|lia].
    rewrite Hp at 2. rewrite Z.log2_up_pow2 by apply Z.log2_nonneg. done.
  - change 1 with (2 ^ 0). rewrite next_power_loop_spec; [done|lia..].
Qed.

(** ** The ring: proofs *)

(** The last [k] elements. *)
Definition lastn {A} (k : nat) (l : list A) : list A := drop (length l - k) l.

Lemma lastn_app_lastn {A} k (a b : list A) : lastn k (lastn k a ++ b) = lastn k (a ++ b).
Proof.
  unfold lastn. rewrite !length_app, length_drop.
  destruct (decide (length a <= k)%nat).
  - replace (length a - k)%nat with O by lia. cbn [drop]. by rewrite Nat.sub_0_r.
  - destruct (decide (length b <= k)%nat).
    + replace (length a - (length a - k) + length b - k)%nat with (length b)%nat by lia.
      replace (length a + length b - k)%nat with ((length a - k) + length b)%nat by lia.
      rewrite <- drop_drop. f_equal. rewrite drop_app_le by lia. done.
    + rewrite !drop_app_ge by (rewrite ?length_drop; lia). f_equal. rewrite length_drop. lia.
Qed.
Lemma lastn_all {A} k (l : list A) : (length l <= k)%nat -> lastn k l = l.
Proof. intros. unfold lastn. by replace (length l - k)%nat with O by lia. Qed.

Lemma st_next_index (s : stats_collector_t) x :
  ring_wf s -> Z.land (u32 (x + 1)) (st_size_mask s) = (x + 1) mod ring_size s.
Proof. intros (Hm & _). simpl in Hm. rewrite is_mask_land by done. by apply is_mask_u32. Qed.

Lemma stats_enqueue_spec s e :
  ring_wf s ->
  let s' := stats_enqueue s e in
  ring_wf s' /\ st_size_mask s' = st_size_mask s /\
  ring_contents s' = lastn (Z.to_nat (st_size_mask s)) (ring_contents s ++ [e]) /\
  st_total_entries s' = u64 (st_total_entries s + 1) /\
  st_dropped_entries s' =
    (if zlen (ring_contents s) <? st_size_mask s then st_dropped_entries s else u64 (st_dropped_entries s + 1)).
Proof.
  intros Hw. pose proof (ring_size_pos s Hw) as Hs. pose proof (ring_contents_length s Hw) as Hl.
  pose proof (ring_count_range s Hw) as Hr. pose proof (ring_full_iff s Hw) as Hfull.
  assert (ring_size s = st_size_mask s + 1) as Hsz by done. unfold zlen in *.
  unfold stats_enqueue. rewrite !(st_next_index s _ Hw). cbn zeta.
  destruct (Z.eqb_spec ((st_head s + 1) mod ring_size s) (st_tail s)) as [F|F].
  - assert (ring_full s) as F' by exact F. apply Hfull in F'. simpl in F'.
    set (s1 := st_set s (st_buffer s) (st_head s) ((st_tail s + 1) mod ring_size s) 0 0).
    assert (ring_popped s s1) as Hpop by (by repeat split).
    pose proof (ring_popped_wf _ _ Hw Hpop) as Hw1.
    set (s' := st_set s _ _ _ _ _).
    assert (ring_pushed e s1 s') as Hpush by (by repeat split).
    pose proof (ring_pushed_wf _ _ _ Hw1 Hpush) as Hw'. split_and!; try done.
    + destruct (decide (st_size_mask s = 0)) as [H0|Hn0].
      * pose proof (ring_contents_length s' Hw') as L'. pose proof (ring_count_range s' Hw') as R'.
        assert (ring_size s' = 1) as Hs1 by (change (st_size_mask s + 1 = 1); lia).
        rewrite H0. unfold zlen in L'. assert (ring_contents s' = []) as -> by (apply length_zero_iff_nil; lia).
        unfold lastn. rewrite drop_ge; [done|]. simpl. lia.
      * assert (ring_cons s <> ring_prod s) as Hne.
        { intros E. apply (ring_empty_iff s Hw) in E. rewrite E in F'. simpl in F'. lia. }
        destruct (ring_popped_contents s s1 Hw Hne Hpop) as (x & _ & Hc).
        assert (length (ring_contents s) = S (length (ring_contents s1))) as Hlen by (by rewrite Hc).
        rewrite (ring_pushed_contents e s1 s'); [|done| |done].
        -- rewrite Hc. unfold lastn. rewrite length_app. cbn [length app].
           replace (S (length (ring_contents s1)) + 1 - Z.to_nat (st_size_mask s))%nat with 1%nat by lia. done.
        -- rewrite (ring_full_iff s1 Hw1). unfold zlen. change (ring_mask s1) with (st_size_mask s). lia.
    + destruct (Z.ltb_spec (Z.of_nat (length (ring_contents s))) (st_size_mask s)); [lia|done].
  - set (s' := st_set s _ _ _ _ _).
    assert (ring_pushed e s s') as Hpush by (by repeat split).
    pose proof (ring_not_full_count s Hw F). split_and!; try done.
    + by eapply ring_pushed_wf.
    + rewrite (ring_pushed_contents e s s' Hw F Hpush). symmetry. apply lastn_all.
      rewrite length_app. simpl. lia.
    + destruct (Z.ltb_spec (Z.of_nat (length (ring_contents s))) (st_size_mask s)); [done|lia].
Qed.

Lemma stats_enqueue_all_spec es s :
  ring_wf s -> 0 <= st_total_entries s -> 0 <= st_dropped_entries s ->
  st_total_entries s + zlen es < 18446744073709551616 -> st_dropped_entries s + zlen es < 18446744073709551616 ->
  let s' := fold_left stats_enqueue es s in
  ring_wf s' /\ st_size_mask s' = st_size_mask s /\
  ring_contents s' = lastn (Z.to_nat (st_size_mask s)) (ring_contents s ++ es) /\
  st_total_entries s' = st_total_entries s + zlen es /\
  st_dropped_entries s' =
    st_dropped_entries s + Z.max 0 (zlen (ring_contents s) + zlen es - st_size_mask s).
Proof.
  revert s. induction es as [|e es IH]; intros s Hw Ht Hd Hbt Hbd; cbn [fold_left].
  - pose proof (ring_contents_length s Hw) as Hl. pose proof (ring_count_range s Hw) as Hr.
    unfold ring_size in Hr. simpl in Hr. rewrite app_nil_r. unfold zlen in *. simpl.
    split_and!; try done; try lia. symmetry. apply lastn_all. lia.
  - destruct (stats_enqueue_spec s e Hw) as (Hw1 & Hm1 & Hc1 & Ht1 & Hd1).
    pose proof (ring_contents_length _ Hw1) as Hl1.
    pose proof (ring_contents_length s Hw) as Hl. pose proof (ring_count_range s Hw) as Hr.
    assert (ring_size s = st_size_mask s + 1) as Hsz by done.
    assert (zlen (e :: es) = zlen es + 1) as El by (unfold zlen; simpl; lia). rewrite El in *.
    pose proof (zlen_nonneg es).
    rewrite u64_small in Ht1 by lia.
    assert (st_dropped_entries (stats_enqueue s e) =
      if zlen (ring_contents s) <? st_size_mask s then st_dropped_entries s else st_dropped_entries s + 1) as Hd1'.
    { rewrite Hd1. case_match; [done|]. rewrite u64_small; lia. }
    destruct (IH (stats_enqueue s e) Hw1) as (H1 & H2 & H3 & H4 & H5); try lia.
    1-2: destruct (zlen (ring_contents s) <? st_size_mask s); lia.
    rewrite Hm1 in H2, H3, H5. split_and!; try done; try lia.
    + rewrite H3, Hc1, lastn_app_lastn, <- app_assoc. done.
    + rewrite H5, Hd1', Hc1. unfold lastn, zlen in *. rewrite length_drop, length_app. simpl.
      destruct (Z.ltb_spec (Z.of_nat (length (ring_contents s))) (st_size_mask s)); lia.
Qed.

(** ** Updates: proofs *)

(** Change the first element that satisfies [p]. *)
Fixpoint update_first {A} (p : A -> bool) (f : A -> A) (l : list A) : list A :=
  match l with
  | [] => []
  | x :: l => if p x then f x :: l else x :: update_first p f l
  end.
(** Change the most recent entry of a sequence number. *)
Definition update_recent (seq_num : Z) (f : stats_entry_t -> stats_entry_t) (l : list stats_entry_t) : list stats_entry_t :=
  rev (update_first (fun e => se_seq_num e =? seq_num) f (rev l)).

Lemma zlen_update_search n i seq f head mask buffer :
  zlen (update_search n i seq f head mask buffer) = zlen buffer.
Proof.
  revert i. induction n as [|n IH]; intros i; simpl; [done|]. case_match; [|done].
  case_match; [apply zlen_zset|apply IH].
Qed.

Lemma search_index s n :
  ring_wf s -> (n < Z.to_nat (ring_count s))%nat ->
  Z.land (u32 (st_head s - 1 - (ring_count s - Z.of_nat (S n)))) (st_size_mask s) =
  (st_tail s + Z.of_nat n) mod ring_size s.
Proof.
  intros Hw Hn. pose proof (ring_size_pos s Hw) as Hs.
  rewrite is_mask_land, is_mask_u32 by (apply Hw). change (st_size_mask s + 1) with (ring_size s).
  replace (st_head s - 1 - (ring_count s - Z.of_nat (S n))) with (st_head s + (Z.of_nat n - ring_count s)) by lia.
  pose proof (ring_prod_offset s Hw) as Ho. simpl in Ho. rewrite <- Ho at 1.
  rewrite Z.add_mod_idemp_l by lia. f_equal. lia.
Qed.

Lemma update_search_spec s seq f n :
  ring_wf s -> (n <= Z.to_nat (ring_count s))%nat ->
  window (update_search n (ring_count s - Z.of_nat n) seq f (st_head s) (st_size_mask s) (st_buffer s))
    (ring_size s) (st_tail s) (Z.to_nat (ring_count s)) =
  update_recent seq f (take n (ring_contents s)) ++ drop n (ring_contents s).
Proof.
  intros Hw. pose proof (ring_size_pos s Hw) as Hs. pose proof (ring_count_range s Hw) as Hr.
  pose proof (ring_contents_length s Hw) as Hl. unfold zlen in Hl.
  assert (zlen (st_buffer s) = ring_size s) as Hb by (apply Hw).
  induction n as [|n IH]; intros Hn; cbn [update_search]; [done|].
  rewrite search_index by (done || lia).
  assert (ring_contents s !! n = zget (st_buffer s) ((st_tail s + Z.of_nat n) mod ring_size s)) as Hlk.
  { unfold ring_contents. simpl. rewrite window_lookup by (done || lia). done. }
  destruct (lookup_lt_is_Some_2 (ring_contents s) n) as [e He]; [lia|].
  rewrite <- Hlk, He. rewrite (take_S_r _ _ _ He). unfold update_recent. rewrite rev_app_distr. cbn [rev app update_first].
  destruct (Z.eqb_spec (se_seq_num e) seq) as [E|E].
  - rewrite window_zset_in by (done || lia). change (window _ _ _ _) with (ring_contents s).
    cbn [rev]. rewrite rev_involutive, <- app_assoc. cbn [app].
    rewrite insert_take_drop by lia. done.
  - replace (ring_count s - Z.of_nat (S n) + 1) with (ring_count s - Z.of_nat n) by lia.
    rewrite IH by lia. unfold update_recent. cbn [rev]. rewrite <- app_assoc. cbn [app].
    rewrite (drop_S _ _ _ He). done.
Qed.

Lemma get_buffer_count_eq s : ring_wf s -> get_buffer_count s = ring_count s.
Proof.
  intros Hw. unfold get_buffer_count. rewrite is_mask_land, is_mask_u32 by (apply Hw). done.
Qed.

Lemma update_stats_buffer_spec s seq f :
  ring_wf s ->
  exists s', update_stats_buffer (StatsGlobals true (Some s)) seq f = StatsGlobals true (Some s') /\
    ring_wf s' /\ ring_contents s' = update_recent seq f (ring_contents s).
Proof.
  intros Hw. unfold update_stats_buffer. cbn [sg_collector sg_enabled]. rewrite get_buffer_count_eq by done.
  pose proof (ring_count_range s Hw) as Hr. pose proof (ring_contents_length s Hw) as Hl. unfold zlen in Hl.
  eexists. split; [done|]. split.
  - destruct Hw as (H1 & H2 & H3 & H4). refine (conj H1 (conj _ (conj H3 H4))).
    simpl. rewrite zlen_update_search. exact H2.
  - pose proof (update_search_spec s seq f (Z.to_nat (ring_count s)) Hw (le_n _)) as H.
    rewrite Z2Nat.id, Z.sub_diag in H by lia. rewrite take_ge, drop_ge, app_nil_r in H by lia. exact H.
Qed.

Lemma update_stats_buffer_mask s seq f s' :
  update_stats_buffer (StatsGlobals true (Some s)) seq f = StatsGlobals true (Some s') ->
  st_size_mask s' = st_size_mask s.
Proof. unfold update_stats_buffer. cbn [sg_collector sg_enabled]. by intros [= <-]. Qed.

Lemma lastn_snoc {A} k (l : list A) x : lastn (S k) (l ++ [x]) = lastn k l ++ [x].
Proof.
  unfold lastn. rewrite length_app. cbn [length]. replace (length l + 1 - S k)%nat with (length l - k)%nat by lia.
  apply drop_app_le. lia.
Qed.
Lemma length_lastn {A} k (l : list A) : (length (lastn k l) <= k)%nat.
Proof. unfold lastn. rewrite length_drop. lia. Qed.

Lemma update_recent_snoc seq f l e :
  se_seq_num e = seq -> update_recent seq f (l ++ [e]) = l ++ [f e].
Proof.
  intros E. unfold update_recent. rewrite rev_unit. cbn [update_first]. rewrite E, Z.eqb_refl. cbn [rev].
  by rewrite rev_involutive.
Qed.

(** A new entry and its first update: the updated entry is the newest. *)
Lemma stats_record_spec s seq port type f :
  ring_wf s ->
  exists s', update_stats_buffer (create_minimal_stats_entry (StatsGlobals true (Some s)) seq port type) seq f =
      StatsGlobals true (Some s') /\
    ring_wf s' /\ st_size_mask s' = st_size_mask s /\
    ring_contents s' = lastn (Z.to_nat (st_size_mask s)) (ring_contents s ++
      [f (StatsEntry seq (replicate 12 0) port (timestamp_mode_code type) (get_timestamp_mask_for_mode type))]).
Proof.
  intros Hw. unfold create_minimal_stats_entry. cbn [sg_collector sg_enabled].
  set (e := StatsEntry _ _ _ _ _). destruct (stats_enqueue_spec s e Hw) as (Hw1 & Hm1 & Hc1 & _).
  destruct (update_stats_buffer_spec (stats_enqueue s e) seq f Hw1) as (s' & E & Hw' & Hc').
  exists s'. split; [done|]. split; [done|]. split; [apply update_stats_buffer_mask in E; congruence|].
  rewrite Hc', Hc1. destruct (Z.to_nat (st_size_mask s)) as [|k].
  - unfold lastn. rewrite !drop_ge by lia. done.
  - rewrite !lastn_snoc. by rewrite update_recent_snoc.
Qed.

(** ** Properties *)

(** C13: the collector keeps a sliding window: after any entries are pushed, its
    contents are the last capacity - 1 of all entries pushed so far, in order;
    total_entries counts them all and dropped_entries those that fell out. *)
Theorem stats_keeps_most_recent (s : stats_collector_t) (es : list stats_entry_t) :
  ring_wf s -> ring_contents s = [] -> st_total_entries s = 0 -> st_dropped_entries s = 0 ->
  zlen es < 18446744073709551616 ->
  let s' := fold_left stats_enqueue es s in
  ring_wf s' /\ ring_contents s' = lastn (Z.to_nat (st_size_mask s)) es /\
  st_total_entries s' = zlen es /\ st_dropped_entries s' = Z.max 0 (zlen es - st_size_mask s) /\
  get_buffer_count s' = Z.min (zlen es) (st_size_mask s).
Proof.
  intros Hw Hc Ht Hd Hn.
  destruct (stats_enqueue_all_spec es s Hw ltac:(lia) ltac:(lia) ltac:(lia) ltac:(lia)) as (H1 & H2 & H3 & H4 & H5).
  rewrite Hc in H3, H5. cbn [app] in H3. pose proof (is_mask_bounds _ (proj1 Hw)) as Hb. simpl in Hb.
  split_and!; [done|done|lia|unfold zlen in *; simpl in *; lia|].
  rewrite get_buffer_count_eq, <- ring_contents_length, H3 by done. unfold lastn, zlen. rewrite length_drop. lia.
Qed.

Definition sample_collector (size : Z) : stats_collector_t :=
  StatsCollector 0 1 (replicate (Z.to_nat size) zero_entry) 0 0 (size - 1) size 1 0 0.
Lemma sample_collector_wf k : 0 <= k <= 20 -> ring_wf (sample_collector (2 ^ k)).
Proof.
  intros. assert (1 <= 2 ^ k) by (apply (Z.pow_le_mono_r 2 0 k); lia).
  unfold ring_wf, ring_size, sample_collector. simpl. split_and!; try lia.
  - exists k. lia.
  - unfold zlen. rewrite length_replicate. lia.
Qed.
Definition numbered (n : Z) : stats_entry_t := StatsEntry n (replicate 12 0) 9000 1 7.

Lemma stats_keeps_most_recent_witness :
  map se_seq_num (ring_contents (fold_left stats_enqueue (map numbered [1; 2; 3; 4; 5]) (sample_collector (2 ^ 2)))) = [3; 4; 5] /\
  st_dropped_entries (fold_left stats_enqueue (map numbered [1; 2; 3; 4; 5]) (sample_collector (2 ^ 2))) = 2.
Proof.
  destruct (stats_keeps_most_recent (sample_collector (2 ^ 2)) (map numbered [1; 2; 3; 4; 5])
    (sample_collector_wf 2 ltac:(lia)) eq_refl eq_refl eq_refl ltac:(unfold zlen; simpl; lia)) as (_ & Hc & _ & Hd & _).
  split; [rewrite Hc; reflexivity|rewrite Hd; reflexivity].
Defined.

(** Each of the three update functions changes the most recent entry with
    the given sequence number, and no other, by the assignments of its mode; with
    no such entry, or with statistics off or no collector, nothing changes. *)
Theorem update_changes_most_recent (s : stats_collector_t) (seq ker_tx app_tx tsc hw_rx ker_rx app_rx : Z)
    (mode : stats_mode_type_t) :
  ring_wf s ->
  (exists s', update_stats_buffer_with_tx_timestamp (StatsGlobals true (Some s)) seq ker_tx mode = StatsGlobals true (Some s') /\
     ring_wf s' /\ ring_contents s' = update_recent seq (tx_update ker_tx mode) (ring_contents s)) /\
  (exists s', update_stats_buffer_with_app_tx_timestamp (StatsGlobals true (Some s)) seq app_tx tsc mode = StatsGlobals true (Some s') /\
     ring_wf s' /\ ring_contents s' = update_recent seq (app_tx_update app_tx tsc mode) (ring_contents s)) /\
  (exists s', update_stats_buffer_with_rx_timestamps (StatsGlobals true (Some s)) seq hw_rx ker_rx app_rx tsc mode = StatsGlobals true (Some s') /\
     ring_wf s' /\ ring_contents s' = update_recent seq (rx_update hw_rx ker_rx app_rx tsc mode) (ring_contents s)) /\
  (forall g, sg_enabled g = false \/ sg_collector g = None ->
     update_stats_buffer_with_tx_timestamp g seq ker_tx mode = g /\
     update_stats_buffer_with_app_tx_timestamp g seq app_tx tsc mode = g /\
     update_stats_buffer_with_rx_timestamps g seq hw_rx ker_rx app_rx tsc mode = g).
Proof.
  intros Hw. split; [by apply update_stats_buffer_spec|]. split; [by apply update_stats_buffer_spec|].
  split; [by apply update_stats_buffer_spec|].
  intros [en [c|]] [H|H]; simpl in H; simplify_eq; done.
Qed.

Lemma update_changes_most_recent_witness :
  exists s', update_stats_buffer_with_tx_timestamp
      (StatsGlobals true (Some (fold_left stats_enqueue (map numbered [4; 7; 4]) (sample_collector (2 ^ 3))))) 4 99 STATS_CLIENT_ONEWAY
      = StatsGlobals true (Some s') /\
    map (fun e => default 0 (zget (se_timestamp_ns e) 2)) (ring_contents s') = [0; 0; 99].
Proof.
  set (s := fold_left stats_enqueue (map numbered [4; 7; 4]) (sample_collector (2 ^ 3))).
  assert (ring_wf s) as Hw.
  { apply (stats_enqueue_all_spec (map numbered [4; 7; 4]) (sample_collector (2 ^ 3)) (sample_collector_wf 3 ltac:(lia)));
      unfold zlen; simpl; lia. }
  destruct (proj1 (update_changes_most_recent s 4 99 0 0 0 0 0 STATS_CLIENT_ONEWAY Hw)) as (s' & E & _ & Hc).
  exists s'. split; [exact E|]. rewrite Hc. reflexivity.
Defined.

(** A collector is created exactly for sizes 1 to 2^31 when its two
    allocations succeed (each has a fallback).  It is then an empty ring whose
    capacity is the least power of two not below the size asked for, and its two
    blocks are all that was added to the live memory; destroying it frees both.
    A failed creation leaves the live memory as it was. *)
Theorem stats_collector_lifecycle (ok : nat -> bool) (h : heap) (buffer_size : Z) (mode : stats_mode_type_t) :
  heap_wf h -> 0 <= buffer_size < 4294967296 ->
  match create_stats_collector ok h buffer_size mode with
  | (None, h') => hp_live h' = hp_live h
  | (Some s, h') =>
      1 <= buffer_size <= 2147483648 /\ ring_wf s /\ ring_contents s = [] /\
      st_capacity s = 2 ^ Z.log2_up buffer_size /\ st_size_mask s = st_capacity s - 1 /\
      st_total_entries s = 0 /\ st_dropped_entries s = 0 /\
      hp_live h' = st_buffer_ptr s :: st_self s :: hp_live h /\
      hp_live (destroy_stats_collector s h') = hp_live h
  end /\
  (1 <= buffer_size <= 2147483648 -> (forall n, ok n = true) ->
   exists s, fst (create_stats_collector ok h buffer_size mode) = Some s).
Proof.
  intros Hw Hs. unfold create_stats_collector.
  destruct (Z.eqb_spec buffer_size 0); [split; [done|lia]|].
  pose proof (alloc_with_fallback_spec ok h Hw) as H1.
  assert ((forall n, ok n = true) -> forall h, exists p, fst (alloc_with_fallback ok h) = Some p) as Hok.
  { intros Hok h0. unfold alloc_with_fallback, halloc. rewrite Hok. eauto. }
  pose proof (fun H => Hok H h) as Hok1.
  destruct (alloc_with_fallback ok h) as [[self|] h1]; [|split; [apply H1|]; intros _ H; by destruct (Hok1 H)].
  destruct H1 as (Hw1 & Hl1 & Hf1). rewrite next_power_of_2_eq by lia.
  assert (hp_live (hfree self h1) = hp_live h) as Hfree.
  { simpl. rewrite Hl1. by apply filter_out_head. }
  destruct (Z.leb_spec buffer_size 2147483648); cycle 1.
  { rewrite Z.eqb_refl. split; [done|lia]. }
  assert (1 <= 2 ^ Z.log2_up buffer_size) as Hp1.
  { apply (Z.pow_le_mono_r 2 0); [lia|apply Z.log2_up_nonneg]. }
  assert (Z.log2_up buffer_size <= 31) as Hp2.
  { change 31 with (Z.log2_up 2147483648). by apply Z.log2_up_le_mono. }
  assert (2 ^ Z.log2_up buffer_size <= 2 ^ 31) by (apply Z.pow_le_mono_r; lia).
  rewrite (proj2 (Z.eqb_neq _ _)) by lia.
  pose proof (alloc_with_fallback_spec ok h1 Hw1) as H2. pose proof (fun H => Hok H h1) as Hok2.
  destruct (alloc_with_fallback ok h1) as [[b|] h2].
  2:{ destruct H2 as [_ H2]. split; [simpl in *; by rewrite H2|]. intros _ Hk. by destruct (Hok2 Hk). }
  destruct H2 as (Hw2 & Hl2 & Hf2). split; [|by eauto].
  cbn [st_capacity st_size_mask st_total_entries st_dropped_entries st_buffer_ptr st_self]. rewrite u32_small by lia.
  split_and!; try done; try lia.
  - unfold ring_wf, ring_size. simpl. unfold zlen. rewrite length_replicate. split_and!; try lia.
    exists (Z.log2_up buffer_size). pose proof (Z.log2_up_nonneg buffer_size). lia.
  - by rewrite Hl2, Hl1.
  - unfold destroy_stats_collector. simpl. rewrite Hl2.
    rewrite filter_out_head by done. rewrite Hl1 in *. by apply filter_out_head.
Qed.

Lemma stats_collector_lifecycle_witness :
  exists s, fst (create_stats_collector (fun _ => true) (Heap 0 []) 1000 STATS_CLIENT_ONEWAY) = Some s /\
            st_capacity s = 1024.
Proof.
  destruct (stats_collector_lifecycle (fun _ => true) (Heap 0 []) 1000 STATS_CLIENT_ONEWAY
    ltac:(split; constructor) ltac:(lia)) as [H1 H2].
  destruct (H2 ltac:(lia) (fun _ => eq_refl)) as [s Hs]. exists s. split; [exact Hs|].
  destruct (create_stats_collector (fun _ => true) (Heap 0 []) 1000 STATS_CLIENT_ONEWAY) as [[s0|] h'];
    [|discriminate Hs]. injection Hs as <-. destruct H1 as (_ & _ & _ & Hcap & _). exact Hcap.
Defined.
