(* ===== verification/Double.v ===== *)
(** C doubles: binary64 arithmetic, conversions and the %.3f format, on the
    Standard Library's specification of IEEE 754. *)

From S2P Require Import Prelude CText.
From Stdlib Require Export SpecFloat.

Abbreviation double := spec_float.
(** Integer to double, rounded to nearest even. *)
Definition of_Z (z : Z) : double := binary_normalize 53 1024 z 0 false.
Definition ddiv : double -> double -> double := SFdiv 53 1024.
Definition dmul : double -> double -> double := SFmul 53 1024.
Definition dadd : double -> double -> double := SFadd 53 1024.
Definition dsub : double -> double -> double := SFsub 53 1024.
Definition dlt (a b : double) : bool := SFltb a b.

(** The cast to an integer: towards zero. *)
Definition trunc (f : double) : Z :=
  match f with
  | S754_finite s m e =>
      let v := if 0 <=? e then Z.pos m * 2 ^ e else Z.pos m / 2 ^ (- e) in
      if s then - v else v
  | _ => 0
  end.
(** floor and ceil of a number that is not negative. *)
Definition dfloor (f : double) : Z := trunc f.
Definition dceil (f : double) : Z :=
  match f with
  | S754_finite _ m e =>
      if 0 <=? e then Z.pos m * 2 ^ e
      else if Z.pos m mod 2 ^ (- e) =? 0 then Z.pos m / 2 ^ (- e) else Z.pos m / 2 ^ (- e) + 1
  | _ => 0
  end.

(** Nearest integer of m * 2^e, ties to even. *)
Definition round_half_even (m e : Z) : Z :=
  if 0 <=? e then m * 2 ^ e
  else
    let d := 2 ^ (- e) in
    let q := m / d in
    let r := m mod d in
    if 2 * r <? d then q
    else if d <? 2 * r then q + 1
    else if Z.even q then q else q + 1.
(** %.3f of a number that is not negative. *)
Definition fmt_f3 (f : double) : cstr :=
  let n := match f with S754_finite _ m e => round_half_even (Z.pos m * 1000) e | _ => 0 end in
  fmt_u (n / 1000) ++ DOT :: fmt_u0 3 (n mod 1000).

(** The order of compare_double_deltas: a is not above b. *)
Definition dle (a b : double) : Prop := dlt b a = false.
#[export] Instance dle_dec a b : Decision (dle a b).
Proof. unfold dle. apply _. Defined.

Lemma dlt_asym a b : dlt a b = true -> dlt b a = false.
Proof.
  unfold dlt, SFltb, SFcompare.
  destruct a as [sa|sa| |sa ma ea], b as [sb|sb| |sb mb eb]; try (destruct sa); try (destruct sb); try done.
  - rewrite (Z.compare_antisym ea eb). change (PosDef.Pos.compare_cont Eq) with Pos.compare.
    rewrite (Pos.compare_antisym ma mb). destruct (ea ?= eb); simpl; [|done..]. by destruct (ma ?= mb)%positive.
  - rewrite (Z.compare_antisym ea eb). change (PosDef.Pos.compare_cont Eq) with Pos.compare.
    rewrite (Pos.compare_antisym ma mb). destruct (ea ?= eb); simpl; [|done..]. by destruct (ma ?= mb)%positive.
Qed.
#[export] Instance dle_total : Total dle.
Proof.
  intros a b. unfold dle. destruct (dlt b a) eqn:E; [|by left]. right. by apply dlt_asym.
Qed.
(** qsort with compare_double_deltas *)
Definition qsort_double (l : list double) : list double := merge_sort dle l.
Lemma qsort_double_spec l : Sorted dle (qsort_double l) /\ qsort_double l ≡ₚ l.
Proof. split; [apply Sorted_merge_sort; apply _|apply merge_sort_Permutation]. Qed.
