(* ===== verification/StatsAnalysis.v ===== *)
(** The statistical analysis (timestamp_common.h, timestamp_common.c): the deltas
    of each mode, the arrays of the analysis and their memory, classification of
    the collected entries, percentiles, and the text of the report.

    The theorems account for every collected entry and follow the memory from
    initialisation to cleanup. *)

From S2P Require Import Prelude CText Ring Heap StatsCollector Double.

(** ** How full the ring is *)

Definition get_buffer_utilization_percent (stats : option stats_collector_t) : double :=
  match stats with
  | None => of_Z 0
  | Some stats => if st_capacity stats =? 0 then of_Z 0 else dmul (ddiv (of_Z (get_buffer_count stats)) (of_Z (st_capacity stats))) (of_Z 100)
  end.
Definition is_buffer_near_full (stats : option stats_collector_t) : bool := dlt (of_Z 90) (get_buffer_utilization_percent stats).

(** ** Deltas *)

Record delta_definition_t := DeltaDefinition {
  dl_abbreviation : cstr; dl_description : cstr; dl_a : Z; dl_b : Z; dl_mode_mask : Z }.

Definition ALL_DELTAS : list delta_definition_t :=
  [ DeltaDefinition (lit "D1: CAT (T1) -> CKT (T2)") (lit "Client Application TX (T1) -> Client Kernel TX (T2)") 1 2 3;
    DeltaDefinition (lit "D6: CHR (T8) -> CKR (T9)") (lit "Client Hardware RX (T8) -> Client Kernel RX (T9)") 3 4 2;
    DeltaDefinition (lit "D7: CKR (T9) -> CAR (T10)") (lit "Client Kernel RX (T9) -> Client Application RX (T10)") 4 6 2;
    DeltaDefinition (lit "RTT D2: CAT (T1) -> CAR (T10)") (lit "Client Application TX (T1) -> Client Application RX (T10)") 1 6 2;
    DeltaDefinition (lit "RTT D3: CATT (T1) -> CART (T10)") (lit "Client Application TX TSC (T1) -> Client Application RX TSC (T10)") 0 5 2;
    DeltaDefinition (lit "RTT D1: CAT (T1) -> CHR (T8)") (lit "Client Application TX (T1) -> Client Hardware RX (T8)") 1 3 2;
    DeltaDefinition (lit "D2: SHR (T3) -> SKR (T4)") (lit "Server Hardware RX (T3) -> Server Kernel RX (T4)") 7 8 12;
    DeltaDefinition (lit "D3: SKR (T4) -> SAR (T5)") (lit "Server Kernel RX (T4) -> Server Application RX (T5)") 8 9 12;
    DeltaDefinition (lit "D4: SAR (T5) -> SAT (T6)") (lit "Server Application RX (T5) -> Server Application TX (T6)") 9 10 8;
    DeltaDefinition (lit "D5: SAT (T6) -> SKT (T7)") (lit "Server Application TX (T6) -> Server Kernel TX (T7)") 10 11 8;
    DeltaDefinition (lit "TT D2: SHR (T3) -> SKT (T7)") (lit "Server Hardware RX (T3) -> Server Kernel TX (T7)") 7 11 8;
    DeltaDefinition (lit "TT D1: SHR (T3) -> SAR (T5)") (lit "Server Hardware RX (T3) -> Server Application RX (T5)") 7 9 12 ].

(** The indices of the deltas of a mode, in the order of the report. *)
Definition mode_deltas (mode : stats_mode_type_t) : list Z :=
  match mode with
  | STATS_CLIENT_ONEWAY => [0]
  | STATS_CLIENT_ROUNDTRIP => [0; 1; 2; 5; 3; 4]
  | STATS_SERVER_ONEWAY => [6; 7; 11]
  | STATS_SERVER_ROUNDTRIP => [6; 7; 8; 9; 11; 10]
  end.
Definition delta_at (delta_idx : Z) : delta_definition_t :=
  default (DeltaDefinition [] [] 0 0 0) (zget ALL_DELTAS delta_idx).

(** ** Analysis state *)

Record delta_analysis_t := DeltaAnalysis {
  da_packet_count : Z;
  da_delta_values : option (harray double);
  da_delta_capacity : Z;
  da_exact_percentiles : list double;
  da_percentiles_calculated : bool;
  da_histogram : option (harray Z);
  da_outlier_count : Z;
  da_used_bins : Z }.

(** The active deltas are the first delta_count elements of active_deltas. *)
Record stats_analysis_result_t := AnalysisResult {
  ar_deltas : list delta_analysis_t;
  ar_active_deltas : list Z;
  ar_mode : stats_mode_type_t;
  ar_config : stats_config_t }.
Definition ar_delta_count (r : stats_analysis_result_t) : Z := zlen (ar_active_deltas r).

Definition dzero : double := S754_zero false.
Definition da_zero : delta_analysis_t := DeltaAnalysis 0 None 0 (replicate 5 dzero) false None 0 0.
Definition da_at (r : stats_analysis_result_t) (idx : Z) : delta_analysis_t :=
  default da_zero (zget (ar_deltas r) idx).
Definition ar_put (r : stats_analysis_result_t) (idx : Z) (a : delta_analysis_t) : stats_analysis_result_t :=
  AnalysisResult (zset (ar_deltas r) idx a) (ar_active_deltas r) (ar_mode r) (ar_config r).

(** ** Percentile arrays *)

(** The returned array holds unspecified values, here zeros; it is read only
    below packet_count. *)
Definition exact_percentiles_init (ok : nat -> bool) (a : delta_analysis_t) (capacity : Z) (h : heap)
    : delta_analysis_t * Z * heap :=
  if capacity =? 0 then (a, -1, h)
  else
    let '(p, h) := halloc ok h in
    match p with
    | None =>
        (DeltaAnalysis (da_packet_count a) None 0 (da_exact_percentiles a) (da_percentiles_calculated a)
           (da_histogram a) (da_outlier_count a) (da_used_bins a), -1, h)
    | Some p =>
        (DeltaAnalysis 0 (Some (p, replicate (Z.to_nat capacity) dzero)) capacity (replicate 5 dzero) false
           (da_histogram a) (da_outlier_count a) (da_used_bins a), 0, h)
    end.

Definition exact_percentiles_add_value (a : delta_analysis_t) (delta_us : double) : delta_analysis_t :=
  match da_delta_values a with
  | None => a
  | Some (p, values) =>
      if da_packet_count a <? da_delta_capacity a then
        DeltaAnalysis (da_packet_count a + 1) (Some (p, zset values (da_packet_count a) delta_us))
          (da_delta_capacity a) (da_exact_percentiles a) false (da_histogram a) (da_outlier_count a) (da_used_bins a)
      else
        DeltaAnalysis (da_packet_count a) (da_delta_values a) (da_delta_capacity a) (da_exact_percentiles a)
          (da_percentiles_calculated a) (da_histogram a) (u32 (da_outlier_count a + 1)) (da_used_bins a)
  end.

Definition exact_percentiles_cleanup (a : delta_analysis_t) (h : heap) : delta_analysis_t * heap :=
  (DeltaAnalysis 0 None 0 (da_exact_percentiles a) false (da_histogram a) (da_outlier_count a) (da_used_bins a),
   match da_delta_values a with Some (p, _) => hfree p h | None => h end).

Definition percentile_positions : list Z := [25; 50; 75; 90; 95].
(** One percentile of the sorted values by linear interpolation. *)
Definition percentile_of (values : list double) (packet_count : Z) (position : Z) : double :=
  let pos := dmul (ddiv (of_Z position) (of_Z 100)) (of_Z (u32 (packet_count - 1))) in
  let lower_idx := u32 (dfloor pos) in
  let upper_idx := u32 (dceil pos) in
  if (lower_idx =? upper_idx) || (packet_count <=? upper_idx) then default dzero (zget values lower_idx)
  else
    let fraction := dsub pos (of_Z lower_idx) in
    let lower_val := default dzero (zget values lower_idx) in
    let upper_val := default dzero (zget values upper_idx) in
    dadd lower_val (dmul fraction (dsub upper_val lower_val)).
Definition exact_percentiles_calculate (a : delta_analysis_t) : delta_analysis_t :=
  match da_delta_values a with
  | None => a
  | Some (p, values) =>
      if (da_packet_count a =? 0) || da_percentiles_calculated a then a
      else
        let n := Z.to_nat (da_packet_count a) in
        let values := qsort_double (take n values) ++ drop n values in
        DeltaAnalysis (da_packet_count a) (Some (p, values)) (da_delta_capacity a)
          (map (percentile_of values (da_packet_count a)) percentile_positions) true
          (da_histogram a) (da_outlier_count a) (da_used_bins a)
  end.
Definition exact_percentiles_get (a : delta_analysis_t) (percentile : Z) : double * delta_analysis_t :=
  let a := if da_percentiles_calculated a then a else exact_percentiles_calculate a in
  let at_ i := default dzero (zget (da_exact_percentiles a) i) in
  ((if percentile =? 25 then at_ 0 else if percentile =? 50 then at_ 1 else if percentile =? 75 then at_ 2
    else if percentile =? 90 then at_ 3 else if percentile =? 95 then at_ 4 else dzero), a).

(** ** Memory of the analysis *)

Definition configure_analysis_for_mode (ok : nat -> bool) (mode : stats_mode_type_t) (config : stats_config_t) (h : heap)
    : stats_analysis_result_t * heap :=
  let result := AnalysisResult (replicate 12 da_zero) (mode_deltas mode) mode config in
  fold_left (fun '(r, h) idx =>
      let a := da_at r idx in
      let a := DeltaAnalysis 0 (da_delta_values a) (da_delta_capacity a) (da_exact_percentiles a)
                 (da_percentiles_calculated a) None 0 0 in
      let '(a, _, h) := exact_percentiles_init ok a (sf_buffer_size config) h in
      (ar_put r idx a, h))
    (ar_active_deltas result) (result, h).

Definition free_histogram (a : delta_analysis_t) (h : heap) : delta_analysis_t * heap :=
  match da_histogram a with
  | Some (p, _) =>
      (DeltaAnalysis (da_packet_count a) (da_delta_values a) (da_delta_capacity a) (da_exact_percentiles a)
         (da_percentiles_calculated a) None (da_outlier_count a) (da_used_bins a), hfree p h)
  | None => (a, h)
  end.

Definition cleanup_delta (a : delta_analysis_t) (h : heap) : delta_analysis_t * heap :=
  let '(a, h) := free_histogram a h in
  let a := DeltaAnalysis 0 (da_delta_values a) (da_delta_capacity a) (da_exact_percentiles a)
             (da_percentiles_calculated a) (da_histogram a) 0 0 in
  exact_percentiles_cleanup a h.
Definition cleanup_analysis_result (result : stats_analysis_result_t) (h : heap) : stats_analysis_result_t * heap :=
  let '(r, h) := fold_left (fun '(r, h) idx =>
      let '(a, h) := cleanup_delta (da_at r idx) h in (ar_put r idx a, h))
    (ar_active_deltas result) (result, h) in
  (AnalysisResult (ar_deltas r) [] (ar_mode r) (ar_config r), h).

Definition allocate_analysis_structures_for_delta (ok : nat -> bool) (a : delta_analysis_t)
    (max_bins buffer_capacity : Z) (h : heap) : delta_analysis_t * Z * heap :=
  if max_bins =? 0 then (a, -1, h)
  else
    let '(a, _, h) := exact_percentiles_init ok a buffer_capacity h in
    let '(a, h) := free_histogram a h in
    let '(p, h) := halloc ok h in
    match p with
    | None => (a, -1, h)
    | Some p =>
        (DeltaAnalysis 0 (da_delta_values a) (da_delta_capacity a) (da_exact_percentiles a)
           (da_percentiles_calculated a) (Some (p, replicate (Z.to_nat max_bins) 0)) 0 0, 0, h)
    end.

(** The loop over the active deltas; [done] are those already allocated, whose
    histograms are freed when a later one fails. *)
Fixpoint allocate_loop (ok : nat -> bool) (done todo : list Z) (r : stats_analysis_result_t) (h : heap)
    : stats_analysis_result_t * Z * heap :=
  match todo with
  | [] => (r, 0, h)
  | idx :: todo =>
      let '(a, code, h) :=
        allocate_analysis_structures_for_delta ok (da_at r idx) (sf_max_bins (ar_config r))
          (sf_buffer_size (ar_config r)) h in
      let r := ar_put r idx a in
      if code =? 0 then allocate_loop ok (done ++ [idx]) todo r h
      else
        let '(r, h) := fold_left (fun '(r, h) j =>
            let '(a, h) := free_histogram (da_at r j) h in (ar_put r j a, h)) done (r, h) in
        (r, -1, h)
  end.
Definition allocate_analysis_histograms (ok : nat -> bool) (result : stats_analysis_result_t) (h : heap)
    : stats_analysis_result_t * Z * heap :=
  allocate_loop ok [] (ar_active_deltas result) result h.

(** 0 or -1 *)
Definition validate_analysis_result (result : stats_analysis_result_t) : Z :=
  if ar_delta_count result =? 0 then -1
  else if 10 <? ar_delta_count result then -1
  else if sf_max_bins (ar_config result) =? 0 then -1
  else if sf_bin_width_us (ar_config result) =? 0 then -1
  else if existsb (fun delta_idx => 12 <=? delta_idx) (ar_active_deltas result) then -1
  else 0.

Definition initialize_analysis_result (ok : nat -> bool) (mode : stats_mode_type_t) (config : stats_config_t) (h : heap)
    : stats_analysis_result_t * Z * heap :=
  let '(r, h) := configure_analysis_for_mode ok mode config h in
  if negb (validate_analysis_result r =? 0) then (r, -1, h)
  else
    let '(r, code, h) := allocate_analysis_histograms ok r h in
    if negb (code =? 0) then let '(r, h) := cleanup_analysis_result r h in (r, -1, h)
    else (r, 0, h).

Definition reset_delta (max_bins : Z) (a : delta_analysis_t) : delta_analysis_t :=
  DeltaAnalysis 0 (da_delta_values a) (da_delta_capacity a) (da_exact_percentiles a) (da_percentiles_calculated a)
    (match da_histogram a with
     | Some (p, bins) => Some (p, replicate (Z.to_nat max_bins) 0 ++ drop (Z.to_nat max_bins) bins)
     | None => None
     end) 0 0.
Definition reset_analysis_counters (result : stats_analysis_result_t) : stats_analysis_result_t :=
  fold_left (fun r idx => ar_put r idx (reset_delta (sf_max_bins (ar_config r)) (da_at r idx)))
    (ar_active_deltas result) result.

(** ** Classification of entries *)

(** The sample an entry gives for a pair of timestamps: nothing, a delta above
    one second, or a value in microseconds. *)
Inductive delta_sample := NoSample | TooLarge | Sample (delta_us : double).
Definition delta_sample_of (ts_a ts_b : Z) : delta_sample :=
  if (ts_a =? 0) || (ts_b =? 0) then NoSample
  else
    let delta_ns := s64 (s64 ts_b - s64 ts_a) in
    if delta_ns <? 0 then NoSample
    else
      let delta_us := ddiv (of_Z delta_ns) (of_Z 1000) in
      if dlt delta_us (ddiv (of_Z 1) (of_Z 1000)) then NoSample
      else if dlt (of_Z 1000000) delta_us then TooLarge
      else Sample delta_us.

Definition add_outlier (a : delta_analysis_t) : delta_analysis_t :=
  DeltaAnalysis (da_packet_count a) (da_delta_values a) (da_delta_capacity a) (da_exact_percentiles a)
    (da_percentiles_calculated a) (da_histogram a) (u32 (da_outlier_count a + 1)) (da_used_bins a).
(** histogram[bin]++ and used_bins; nothing without a histogram. *)
Definition count_in_bin (a : delta_analysis_t) (bin : Z) : delta_analysis_t :=
  match da_histogram a with
  | None => a
  | Some (p, bins) =>
      DeltaAnalysis (da_packet_count a) (da_delta_values a) (da_delta_capacity a) (da_exact_percentiles a)
        (da_percentiles_calculated a) (Some (p, zset bins bin (u32 (default 0 (zget bins bin) + 1))))
        (da_outlier_count a) (if da_used_bins a <=? bin then bin + 1 else da_used_bins a)
  end.
Definition bin_of (config : stats_config_t) (delta_us : double) : Z :=
  u32 (trunc (ddiv delta_us (of_Z (sf_bin_width_us config)))).

Definition process_entry_for_delta (entry : stats_entry_t) (a : delta_analysis_t) (delta_idx : Z)
    (config : stats_config_t) : delta_analysis_t :=
  if 12 <=? delta_idx then a
  else
    let def := delta_at delta_idx in
    let ts_a := default 0 (zget (se_timestamp_ns entry) (dl_a def)) in
    let ts_b := default 0 (zget (se_timestamp_ns entry) (dl_b def)) in
    match delta_sample_of ts_a ts_b with
    | NoSample => a
    | TooLarge => add_outlier a
    | Sample delta_us =>
        let a := exact_percentiles_add_value a delta_us in
        let bin := bin_of config delta_us in
        if bin <? sf_max_bins config then count_in_bin a bin else add_outlier a
    end.

Definition process_entry (r : stats_analysis_result_t) (entry : stats_entry_t) : stats_analysis_result_t :=
  fold_left (fun r delta_idx =>
      ar_put r delta_idx (process_entry_for_delta entry (da_at r delta_idx) delta_idx (ar_config r)))
    (ar_active_deltas r) r.

(** The entries the loop visits: [n] from index [tail] on. *)
Fixpoint buffer_entries (stats : stats_collector_t) (tail : Z) (i n : nat) : list stats_entry_t :=
  match n with
  | O => []
  | S n =>
      match zget (st_buffer stats) (Z.land (u32 (tail + Z.of_nat i)) (st_size_mask stats)) with
      | Some e => e :: buffer_entries stats tail (S i) n
      | None => []
      end
  end.
Definition process_buffer_for_analysis (ok : nat -> bool) (stats : stats_collector_t)
    (result : stats_analysis_result_t) (h : heap) : stats_analysis_result_t * heap :=
  let entry_count := get_buffer_count stats in
  if entry_count =? 0 then (result, h)
  else
    let '(r, code, h) := allocate_analysis_histograms ok result h in
    if negb (code =? 0) then (r, h)
    else (fold_left process_entry (buffer_entries stats (st_tail stats) 0 (Z.to_nat entry_count)) r, h).

(** ** Report *)

(** The lines display_delta_block prints; the histogram line has no newline. *)
Definition histogram_cells (a : delta_analysis_t) : list cstr :=
  omap (fun bin =>
    match da_histogram a with
    | Some (_, bins) =>
        let c := default 0 (zget bins (Z.of_nat bin)) in
        if 0 <? c then Some (fmt_u (Z.of_nat bin + 1) ++ lit ":" ++ fmt_u c) else None
    | None => None
    end) (seq 0 (Z.to_nat (da_used_bins a))).
Fixpoint comma_sep (cells : list cstr) : cstr :=
  match cells with
  | [] => []
  | [c] => c
  | c :: cells => c ++ COMMA :: comma_sep cells
  end.
Definition display_delta_block (a : delta_analysis_t) (delta_idx : Z) (config : stats_config_t)
    : list cstr * delta_analysis_t :=
  if 12 <=? delta_idx then ([], a)
  else
    let head_lines :=
      [dl_abbreviation (delta_at delta_idx) ++ lit ":"; lit "Packets Evaluated: " ++ fmt_u (da_packet_count a)] in
    if da_packet_count a =? 0 then (head_lines, a)
    else
      let a := exact_percentiles_calculate a in
      let p q := fmt_f3 (fst (exact_percentiles_get a q)) in
      (head_lines ++
       [lit "Percentiles (us): P25=" ++ p 25 ++ lit ",P50=" ++ p 50 ++ lit ",P75=" ++ p 75 ++
          lit ",P90=" ++ p 90 ++ lit ",P95=" ++ p 95;
        lit "Histograms: (bin width=" ++ fmt_u (sf_bin_width_us config) ++ lit "us) " ++
          comma_sep (histogram_cells a ++
            (if 0 <? da_outlier_count a then [lit "outliers:" ++ fmt_u (da_outlier_count a)] else []))], a).

(** The totals lines, the blocks in order, and the key. *)
Definition display_totals (mode : stats_mode_type_t) (packets_sent packets_received : Z) : list cstr :=
  match mode with
  | STATS_CLIENT_ONEWAY => [lit "Total packets sent: " ++ fmt_u packets_sent]
  | STATS_CLIENT_ROUNDTRIP =>
      [lit "Total packets sent: " ++ fmt_u packets_sent; lit "Total return packets received: " ++ fmt_u packets_received]
  | STATS_SERVER_ONEWAY => [lit "Total packets received: " ++ fmt_u packets_received]
  | STATS_SERVER_ROUNDTRIP =>
      [lit "Total packets received: " ++ fmt_u packets_received; lit "Total return packets sent: " ++ fmt_u packets_sent]
  end.
Definition display_analysis_results (result : stats_analysis_result_t) (packets_sent packets_received : Z) : list cstr :=
  [lit "STATS ANALYSIS RESULTS"; lit "======================"] ++
  display_totals (ar_mode result) packets_sent packets_received ++
  concat (map (fun i => fst (display_delta_block (da_at result i) i (ar_config result))) (ar_active_deltas result)) ++
  lit "Key: Deltas and trip times:" ::
  map (fun i => dl_abbreviation (delta_at i) ++ lit ": " ++ dl_description (delta_at i)) (ar_active_deltas result).

(** ** One delta at a time *)

Lemma buffer_entries_contents s : ring_wf s ->
  buffer_entries s (st_tail s) 0 (Z.to_nat (get_buffer_count s)) = ring_contents s.
Proof.
  intros Hw. rewrite get_buffer_count_eq by done. unfold ring_contents. simpl.
  assert (forall n i, buffer_entries s (st_tail s) i n =
    window (st_buffer s) (ring_size s) (st_tail s + Z.of_nat i) n) as H.
  { induction n as [|n IH]; intros i; simpl; [done|].
    rewrite is_mask_land, is_mask_u32 by (apply Hw). change (st_size_mask s + 1) with (ring_size s).
    destruct (zget _ _); [|done]. f_equal. rewrite IH. f_equal. lia. }
  rewrite H. f_equal. lia.
Qed.

(** Results whose deltas array has its 12 elements and whose active deltas are
    distinct indices of it. *)
Definition ar_wf (r : stats_analysis_result_t) : Prop :=
  length (ar_deltas r) = 12%nat /\ NoDup (ar_active_deltas r) /\
  Forall (fun i => 0 <= i < 12) (ar_active_deltas r).

Lemma mode_deltas_wf mode : NoDup (mode_deltas mode) /\ Forall (fun i => 0 <= i < 12) (mode_deltas mode).
Proof.
  split.
  - apply (bool_decide_unpack _). by destruct mode.
  - destruct mode; repeat constructor; lia.
Qed.

Lemma da_at_put_eq r i a : ar_wf r -> 0 <= i < 12 -> da_at (ar_put r i a) i = a.
Proof.
  intros (Hl & _) Hi. unfold da_at, ar_put. simpl. by rewrite zget_zset_eq by (unfold zlen; lia).
Qed.
Lemma da_at_put_ne r i j a : i <> j -> da_at (ar_put r i a) j = da_at r j.
Proof. intros. unfold da_at, ar_put. simpl. by rewrite zget_zset_ne. Qed.
Lemma ar_put_wf r i a : ar_wf r -> ar_wf (ar_put r i a).
Proof.
  intros (Hl & H). split; [|done]. simpl. pose proof (zlen_zset (ar_deltas r) i a). unfold zlen in *. lia.
Qed.

(** A loop over distinct deltas that updates each one from its own state. *)
Lemma fold_deltas_spec (F : Z -> delta_analysis_t -> delta_analysis_t) ids r :
  ar_wf r -> NoDup ids -> Forall (fun i => 0 <= i < 12) ids ->
  let r' := fold_left (fun r i => ar_put r i (F i (da_at r i))) ids r in
  ar_wf r' /\ ar_active_deltas r' = ar_active_deltas r /\ ar_config r' = ar_config r /\ ar_mode r' = ar_mode r /\
  (forall i, i ∈ ids -> da_at r' i = F i (da_at r i)) /\
  (forall i, i ∉ ids -> da_at r' i = da_at r i).
Proof.
  intros Hw Hn Hf. revert r Hw. induction ids as [|i ids IH]; intros r Hw; cbn [fold_left].
  - split_and!; try done. intros i Hi. by apply not_elem_of_nil in Hi.
  - apply NoDup_cons in Hn as [Hi Hn]. apply Forall_cons in Hf as [Hr Hf].
    destruct (IH Hn Hf (ar_put r i (F i (da_at r i))) (ar_put_wf _ _ _ Hw)) as (H1 & H2 & H3 & H4 & H5 & H6).
    split_and!; try done.
    + intros j [->|Hj]%elem_of_cons.
      * rewrite H6 by done. by apply da_at_put_eq.
      * rewrite H5 by done. rewrite da_at_put_ne; [done|]. by intros ->.
    + intros j Hj. rewrite H6 by set_solver. apply da_at_put_ne. set_solver.
Qed.

Definition process_delta (config : stats_config_t) (idx : Z) (a : delta_analysis_t) (es : list stats_entry_t) : delta_analysis_t :=
  fold_left (fun a e => process_entry_for_delta e a idx config) es a.

Lemma process_entries_spec es r :
  ar_wf r ->
  let r' := fold_left process_entry es r in
  ar_wf r' /\ ar_active_deltas r' = ar_active_deltas r /\ ar_config r' = ar_config r /\
  forall i, i ∈ ar_active_deltas r -> da_at r' i = process_delta (ar_config r) i (da_at r i) es.
Proof.
  revert r. induction es as [|e es IH]; intros r Hw; cbn [fold_left].
  - done.
  - pose proof Hw as (_ & Hn & Hf).
    pose proof (fold_deltas_spec (fun i a => process_entry_for_delta e a i (ar_config r)) (ar_active_deltas r) r Hw Hn Hf)
      as (H1 & H2 & H3 & _ & H5 & _).
    assert (process_entry r e = fold_left (fun r' i => ar_put r' i (process_entry_for_delta e (da_at r' i) i (ar_config r)))
       (ar_active_deltas r) r) as E.
    { unfold process_entry. assert (forall ids r0, ar_config r0 = ar_config r ->
        fold_left (fun r' i => ar_put r' i (process_entry_for_delta e (da_at r' i) i (ar_config r'))) ids r0 =
        fold_left (fun r' i => ar_put r' i (process_entry_for_delta e (da_at r' i) i (ar_config r))) ids r0) as Hext.
      { induction ids as [|i ids IHi]; intros r0 H0; [done|]. cbn [fold_left]. rewrite IHi by done. by rewrite H0. }
      by apply Hext. }
    rewrite <- E in *. destruct (IH (process_entry r e) H1) as (I1 & I2 & I3 & I4).
    split_and!; [done|congruence|congruence|]. intros i Hi. rewrite I4 by (by rewrite H2). rewrite H3, H5 by done. done.
Qed.

(** ** Classification of a list of entries *)

Definition entry_sample (idx : Z) (e : stats_entry_t) : delta_sample :=
  delta_sample_of (default 0 (zget (se_timestamp_ns e) (dl_a (delta_at idx))))
                  (default 0 (zget (se_timestamp_ns e) (dl_b (delta_at idx)))).
Definition samples (idx : Z) (es : list stats_entry_t) : list double :=
  omap (fun e => match entry_sample idx e with Sample d => Some d | _ => None end) es.
Definition too_large (idx : Z) (es : list stats_entry_t) : list stats_entry_t :=
  List.filter (fun e => match entry_sample idx e with TooLarge => true | _ => false end) es.
(** The samples that fall in a bin, and those beyond the histogram. *)
Definition in_bin (config : stats_config_t) (bin : Z) (l : list double) : Z :=
  zlen (List.filter (fun d => bin_of config d =? bin) l).
Definition beyond (config : stats_config_t) (l : list double) : Z :=
  zlen (List.filter (fun d => sf_max_bins config <=? bin_of config d) l).

(** What the analysis of one delta holds after the entries [es]. *)
Record accounts (config : stats_config_t) (idx : Z) (es : list stats_entry_t) (a : delta_analysis_t) : Prop := {
  acc_count : da_packet_count a = Z.min (sf_buffer_size config) (zlen (samples idx es));
  acc_values : exists p vs, da_delta_values a = Some (p, vs) /\ zlen vs = sf_buffer_size config /\
    take (Z.to_nat (da_packet_count a)) vs = take (Z.to_nat (sf_buffer_size config)) (samples idx es);
  acc_cap : da_delta_capacity a = sf_buffer_size config;
  acc_hist : exists p bins, da_histogram a = Some (p, bins) /\ zlen bins = sf_max_bins config /\
    forall b, 0 <= b < sf_max_bins config -> zget bins b = Some (in_bin config b (samples idx es));
  acc_outliers : da_outlier_count a =
    zlen (too_large idx es) + beyond config (samples idx es) +
    Z.max 0 (zlen (samples idx es) - sf_buffer_size config);
  acc_used : 0 <= da_used_bins a <= sf_max_bins config /\
    (forall b, da_used_bins a <= b < sf_max_bins config -> in_bin config b (samples idx es) = 0) /\
    (0 < da_used_bins a -> 0 < in_bin config (da_used_bins a - 1) (samples idx es));
  acc_percentiles : da_percentiles_calculated a = false }.

Lemma zlen_filter_le {A} (p : A -> bool) l : zlen (List.filter p l) <= zlen l.
Proof. unfold zlen. induction l as [|x l IH]; simpl; [lia|]. case_match; simpl; lia. Qed.

Lemma samples_snoc idx es e :
  samples idx (es ++ [e]) = samples idx es ++ match entry_sample idx e with Sample d => [d] | _ => [] end.
Proof. unfold samples. rewrite omap_app. simpl. by destruct (entry_sample idx e). Qed.
Lemma too_large_snoc idx es e :
  too_large idx (es ++ [e]) = too_large idx es ++ match entry_sample idx e with TooLarge => [e] | _ => [] end.
Proof. unfold too_large. rewrite List.filter_app. simpl. by destruct (entry_sample idx e). Qed.
Lemma in_bin_snoc config b l d :
  in_bin config b (l ++ [d]) = in_bin config b l + (if bin_of config d =? b then 1 else 0).
Proof. unfold in_bin. rewrite List.filter_app, zlen_app. simpl. by case_match. Qed.
Lemma beyond_snoc config l d :
  beyond config (l ++ [d]) = beyond config l + (if sf_max_bins config <=? bin_of config d then 1 else 0).
Proof. unfold beyond. rewrite List.filter_app, zlen_app. simpl. by case_match. Qed.
Lemma in_bin_nonneg config b l : 0 <= in_bin config b l.
Proof. apply zlen_nonneg. Qed.

Lemma zlen_samples_le idx es : zlen (samples idx es) + zlen (too_large idx es) <= zlen es.
Proof.
  induction es as [|e es IH] using rev_ind; [done|]. rewrite samples_snoc, too_large_snoc, !zlen_app.
  destruct (entry_sample idx e); unfold zlen in *; simpl; lia.
Qed.

Lemma take_S_zset {A} (vs s : list A) (n : nat) d :
  take n vs = s -> length s = n -> (n < length vs)%nat -> take (S n) (zset vs (Z.of_nat n) d) = s ++ [d].
Proof.
  intros Ht Hl Hn. unfold zset. rewrite (proj2 (Z.ltb_ge _ _)), Nat2Z.id by lia.
  rewrite (take_S_r _ _ d) by (by apply list_lookup_insert_eq). by rewrite take_insert_ge, Ht by lia.
Qed.

(** Adding a value to the percentile array. *)
Lemma add_value_accounts config idx es a d :
  accounts config idx es a -> 0 < sf_buffer_size config -> da_outlier_count a + 1 < 4294967296 ->
  let a' := exact_percentiles_add_value a d in
  let s := samples idx es ++ [d] in
  da_packet_count a' = Z.min (sf_buffer_size config) (zlen s) /\
  (exists p vs, da_delta_values a' = Some (p, vs) /\ zlen vs = sf_buffer_size config /\
     take (Z.to_nat (da_packet_count a')) vs = take (Z.to_nat (sf_buffer_size config)) s) /\
  da_delta_capacity a' = sf_buffer_size config /\ da_histogram a' = da_histogram a /\
  da_outlier_count a' = zlen (too_large idx es) + beyond config (samples idx es) +
    Z.max 0 (zlen s - sf_buffer_size config) /\
  da_used_bins a' = da_used_bins a /\ da_percentiles_calculated a' = false.
Proof.
  intros [Hc (p & vs & Hv & Hvl & Ht) Hcap _ Ho _ Hp] Hpos Hwrap a' s.
  assert (zlen s = zlen (samples idx es) + 1) as Hs by (unfold s; rewrite zlen_app; unfold zlen; simpl; lia).
  pose proof (zlen_nonneg (samples idx es)) as Hn. pose proof (zlen_nonneg (too_large idx es)).
  pose proof (zlen_nonneg (List.filter (fun d => sf_max_bins config <=? bin_of config d) (samples idx es))) as Hbe.
  fold (beyond config (samples idx es)) in Hbe.
  subst a'. unfold exact_percentiles_add_value. rewrite Hv, Hcap.
  destruct (Z.ltb_spec (da_packet_count a) (sf_buffer_size config)); cbn [da_packet_count da_delta_values
    da_delta_capacity da_histogram da_outlier_count da_used_bins da_percentiles_calculated].
  - split_and!; try done; try lia. exists p, (zset vs (da_packet_count a) d). rewrite zlen_zset.
    split_and!; [done..|]. assert (da_packet_count a = zlen (samples idx es)) as Hpc by lia. rewrite Hpc in *.
    unfold zlen in *. rewrite Nat2Z.id in Ht.
    replace (Z.to_nat (Z.of_nat (length (samples idx es)) + 1)) with (S (length (samples idx es))) by lia.
    rewrite (take_S_zset _ (samples idx es)); [|rewrite Ht; apply take_ge; lia|done|lia].
    symmetry. apply take_ge. unfold s. rewrite length_app. simpl. lia.
  - rewrite u32_small by lia. split_and!; try done; try lia. exists p, vs. split_and!; [done..|].
    rewrite Ht. unfold s. rewrite take_app_le; [done|]. unfold zlen in *. lia.
Qed.

Lemma accounts_step config idx es e a :
  accounts config idx es a -> 0 <= idx < 12 -> 0 < sf_buffer_size config -> zlen es < 2147483647 ->
  accounts config idx (es ++ [e]) (process_entry_for_delta e a idx config).
Proof.
  intros Ha Hidx Hpos Hlen. pose proof (zlen_samples_le idx es) as Hle.
  pose proof (zlen_filter_le (fun d => sf_max_bins config <=? bin_of config d) (samples idx es)) as Hbe.
  fold (beyond config (samples idx es)) in Hbe.
  pose proof (zlen_nonneg (samples idx es)). pose proof (zlen_nonneg (too_large idx es)).
  pose proof (acc_outliers _ _ _ _ Ha) as Ho. pose proof (zlen_nonneg (List.filter (fun d => sf_max_bins config <=? bin_of config d) (samples idx es))) as Hb0.
  fold (beyond config (samples idx es)) in Hb0.
  unfold process_entry_for_delta. rewrite (proj2 (Z.leb_gt _ _)) by lia.
  fold (entry_sample idx e). pose proof (samples_snoc idx es e) as Es. pose proof (too_large_snoc idx es e) as Et.
  destruct (entry_sample idx e) as [| |d].
  - rewrite app_nil_r in Es, Et. destruct Ha. split; rewrite ?Es, ?Et; done.
  - rewrite app_nil_r in Es. destruct Ha. split; rewrite ?Es, ?Et; try done.
    simpl. rewrite u32_small by lia. rewrite zlen_app. unfold zlen at 2. simpl. lia.
  - rewrite app_nil_r in Et.
    destruct (add_value_accounts config idx es a d Ha Hpos ltac:(lia)) as (H1 & H2 & H3 & H4 & H5 & H6 & H7).
    set (a' := exact_percentiles_add_value a d) in *. rewrite <- Es in *.
    pose proof (u32_range (trunc (ddiv d (of_Z (sf_bin_width_us config))))) as Hbr. fold (bin_of config d) in Hbr.
    assert (zlen (samples idx (es ++ [e])) = zlen (samples idx es) + 1) as Hsl
      by (rewrite Es, zlen_app; unfold zlen; simpl; lia).
    destruct (acc_hist _ _ _ _ Ha) as (q & bins & Hq & Hql & Hbin). destruct (acc_used _ _ _ _ Ha) as (U1 & U2 & U3).
    destruct (Z.ltb_spec (bin_of config d) (sf_max_bins config)) as [Hin|Hout].
    + unfold count_in_bin. rewrite H4, Hq, H6. split; try done; cbn [da_packet_count da_delta_values
        da_delta_capacity da_histogram da_outlier_count da_used_bins da_percentiles_calculated].
      * exists q. eexists. split; [done|]. rewrite zlen_zset. split; [done|]. intros b Hb.
        rewrite Es, in_bin_snoc. destruct (Z.eqb_spec (bin_of config d) b) as [->|Hne].
        -- rewrite zget_zset_eq by lia. rewrite Hbin by lia. cbn [default from_option id]. f_equal. apply u32_small.
           pose proof (zlen_filter_le (fun d => bin_of config d =? b) (samples idx es)). unfold in_bin.
           pose proof (zlen_nonneg (List.filter (fun d => bin_of config d =? b) (samples idx es))). lia.
        -- rewrite zget_zset_ne by done. rewrite Hbin by done. f_equal. lia.
      * rewrite H5, Et. rewrite (f_equal (beyond config) Es), beyond_snoc. rewrite (proj2 (Z.leb_gt _ _)) by lia. lia.
      * destruct (Z.leb_spec (da_used_bins a) (bin_of config d)).
        -- split; [lia|]. split.
           ++ intros b Hb. rewrite Es, in_bin_snoc, U2 by lia. rewrite (proj2 (Z.eqb_neq _ _)) by lia. done.
           ++ intros _. rewrite Z.add_simpl_r, Es, in_bin_snoc, Z.eqb_refl.
              pose proof (in_bin_nonneg config (bin_of config d) (samples idx es)). lia.
        -- split; [lia|]. split.
           ++ intros b Hb. rewrite Es, in_bin_snoc, U2 by lia. rewrite (proj2 (Z.eqb_neq _ _)) by lia. done.
           ++ intros Hu. specialize (U3 Hu). rewrite Es, in_bin_snoc. case_match; lia.
    + split; try done; cbn [add_outlier da_packet_count da_delta_values
        da_delta_capacity da_histogram da_outlier_count da_used_bins da_percentiles_calculated].
      * rewrite H4. exists q, bins. split_and!; [done..|]. intros b Hb. rewrite Es, in_bin_snoc, Hbin by lia.
        rewrite (proj2 (Z.eqb_neq _ _)) by lia. f_equal. lia.
      * rewrite H5, Et. rewrite (f_equal (beyond config) Es), beyond_snoc. rewrite (proj2 (Z.leb_le _ _)) by lia.
        rewrite u32_small by lia. lia.
      * rewrite H6. split; [lia|]. split.
        -- intros b Hb. rewrite Es, in_bin_snoc, U2 by lia. rewrite (proj2 (Z.eqb_neq _ _)) by lia. done.
        -- intros Hu. specialize (U3 Hu). rewrite Es, in_bin_snoc. case_match; lia.
Qed.

(** ** Allocation *)

Definition allocated (config : stats_config_t) (a : delta_analysis_t) : Prop :=
  exists p q, a = DeltaAnalysis 0 (Some (p, replicate (Z.to_nat (sf_buffer_size config)) dzero))
                    (sf_buffer_size config) (replicate 5 dzero) false
                    (Some (q, replicate (Z.to_nat (sf_max_bins config)) 0)) 0 0.

Definition sizes_ok (config : stats_config_t) : Prop :=
  0 < sf_buffer_size config /\ 0 < sf_max_bins config.

Lemma allocate_delta_ok ok a config h :
  (forall n, ok n = true) -> sizes_ok config ->
  exists a' h', allocate_analysis_structures_for_delta ok a (sf_max_bins config) (sf_buffer_size config) h = (a', 0, h') /\
    allocated config a'.
Proof.
  intros Hok [Hb Hm]. unfold allocate_analysis_structures_for_delta, exact_percentiles_init, halloc, free_histogram.
  rewrite (proj2 (Z.eqb_neq _ 0)), (proj2 (Z.eqb_neq _ 0)), !Hok by lia. cbn [da_histogram].
  destruct (da_histogram a) as [[q bins]|]; cbn [hp_calls]; rewrite Hok; eexists _, _; (split; [done|]); by eexists _, _.
Qed.

Lemma allocate_loop_ok ok done_ todo r h :
  (forall n, ok n = true) -> sizes_ok (ar_config r) -> ar_wf r -> NoDup todo -> Forall (fun i => 0 <= i < 12) todo ->
  exists r' h', allocate_loop ok done_ todo r h = (r', 0, h') /\ ar_wf r' /\
    ar_active_deltas r' = ar_active_deltas r /\ ar_config r' = ar_config r /\ ar_mode r' = ar_mode r /\
    (forall i, i ∈ todo -> allocated (ar_config r) (da_at r' i)) /\ (forall i, i ∉ todo -> da_at r' i = da_at r i).
Proof.
  intros Hok Hs. revert done_ r h Hs. induction todo as [|i todo IH]; intros done_ r h Hs Hw Hn Hf; cbn [allocate_loop].
  - eexists _, _. split; [done|]. split_and!; try done. intros i Hi. by apply not_elem_of_nil in Hi.
  - apply NoDup_cons in Hn as [Hi Hn]. apply Forall_cons in Hf as [Hr Hf].
    destruct (allocate_delta_ok ok (da_at r i) (ar_config r) h Hok Hs) as (a' & h' & -> & Ha). cbn [Z.eqb].
    destruct (IH (done_ ++ [i]) (ar_put r i a') h' Hs (ar_put_wf _ _ _ Hw) Hn Hf)
      as (r' & h'' & -> & Hw' & H1 & H2 & H3 & H4 & H5).
    eexists _, _. split; [done|]. split_and!; try done.
    + intros j [->|Hj]%elem_of_cons; [|by apply H4]. rewrite H5 by done. by rewrite da_at_put_eq.
    + intros j Hj. rewrite H5 by set_solver. apply da_at_put_ne. set_solver.
Qed.

Lemma accounts_nil config idx a : sizes_ok config -> allocated config a -> accounts config idx [] a.
Proof.
  intros [Hb Hm] (p & q & ->). split; cbn [da_packet_count da_delta_values
        da_delta_capacity da_histogram da_outlier_count da_used_bins da_percentiles_calculated]; try done.
  - unfold samples, zlen. simpl. lia.
  - eexists _, _. split; [done|]. unfold zlen. rewrite length_replicate. split; [lia|]. change (samples idx []) with (@nil double). by rewrite take_nil.
  - eexists _, _. split; [done|]. unfold zlen at 1. rewrite length_replicate. split; [lia|]. intros b Hb'.
    unfold zget. rewrite (proj2 (Z.ltb_ge _ _)) by lia. rewrite lookup_replicate_2 by lia. done.
  - change (0 = 0 + 0 + Z.max 0 (0 - sf_buffer_size config)). lia.
  - split; [lia|]. split; [done|lia].
Qed.

Lemma process_delta_accounts config idx es a :
  sizes_ok config -> 0 <= idx < 12 -> zlen es < 2147483648 -> allocated config a ->
  accounts config idx es (process_delta config idx a es).
Proof.
  intros Hs Hi Hlen Ha. induction es as [|e es IH] using rev_ind.
  - by apply accounts_nil.
  - unfold process_delta. rewrite fold_left_app. cbn [fold_left]. fold (process_delta config idx a es).
    rewrite zlen_app in Hlen. unfold zlen at 2 in Hlen. simpl in Hlen.
    apply accounts_step; [apply IH; lia|done|apply Hs|lia].
Qed.

(** ** Properties *)

(** C27: the analysis accounts for every entry of the buffer.  For each active
    delta, an entry without the two timestamps, or whose delta is negative or
    rounds below a nanosecond, is skipped; a delta above one second is an outlier;
    every other one is a sample.  packet_count is the number of samples up to the
    buffer size, and delta_values holds those samples in buffer order; bin b
    counts the samples that fall in it and used_bins is one more than the highest
    bin in use; outlier_count adds the samples beyond the last bin and those
    beyond the array. *)
Theorem analysis_accounts_for_entries (ok : nat -> bool) (stats : stats_collector_t)
    (result : stats_analysis_result_t) (h : heap) :
  (forall n, ok n = true) -> ar_wf result -> sizes_ok (ar_config result) ->
  ring_wf stats -> ring_contents stats <> [] -> zlen (ring_contents stats) < 2147483648 ->
  let '(result', h') := process_buffer_for_analysis ok stats result h in
  ar_active_deltas result' = ar_active_deltas result /\
  forall i, i ∈ ar_active_deltas result ->
    accounts (ar_config result) i (ring_contents stats) (da_at result' i).
Proof.
  intros Hok Hr Hs Hw Hne Hlen. unfold process_buffer_for_analysis.
  pose proof (ring_contents_length stats Hw) as Hl. rewrite buffer_entries_contents by done.
  rewrite (get_buffer_count_eq stats Hw), (proj2 (Z.eqb_neq _ 0)).
  2:{ rewrite <- Hl. unfold zlen. by destruct (ring_contents stats). }
  pose proof Hr as (_ & Hn & Hf). unfold allocate_analysis_histograms.
  destruct (allocate_loop_ok ok [] (ar_active_deltas result) result h Hok Hs Hr Hn Hf)
    as (r1 & h1 & -> & Hw1 & Ha1 & Hc1 & _ & Hall & _). cbn [Z.eqb negb].
  destruct (process_entries_spec (ring_contents stats) r1 Hw1) as (_ & Ha2 & _ & Hd).
  split; [congruence|]. intros i Hi. rewrite Hd by (by rewrite Ha1). rewrite Hc1.
  apply process_delta_accounts; [done| |done|by apply Hall]. by eapply Forall_forall in Hf.
Qed.

(** Two client entries: one delta of 2.5 microseconds, one without timestamps. *)
Definition demo_stats : stats_collector_t :=
  fold_left stats_enqueue
    [StatsEntry 1 [0; 1000; 3500; 0; 0; 0; 0; 0; 0; 0; 0; 0] 9000 1 7; numbered 2] (sample_collector (2 ^ 3)).
Definition demo_result (mode : stats_mode_type_t) : stats_analysis_result_t :=
  AnalysisResult (replicate 12 da_zero) (mode_deltas mode) mode (StatsConfig true 8 1 10).

Lemma demo_stats_wf : ring_wf demo_stats.
Proof.
  apply (stats_enqueue_all_spec _ (sample_collector (2 ^ 3)) (sample_collector_wf 3 ltac:(lia)));
    unfold zlen; simpl; lia.
Qed.
Lemma demo_result_wf mode : ar_wf (demo_result mode).
Proof. split; [done|]. apply mode_deltas_wf. Qed.

Lemma analysis_accounts_for_entries_witness :
  da_packet_count (da_at (fst (process_buffer_for_analysis (fun _ => true) demo_stats (demo_result STATS_CLIENT_ONEWAY) (Heap 0 []))) 0) = 1 /\
  samples 0 (ring_contents demo_stats) = [ddiv (of_Z 2500) (of_Z 1000)].
Proof.
  split; [|vm_compute; reflexivity].
  pose proof (analysis_accounts_for_entries (fun _ => true) demo_stats (demo_result STATS_CLIENT_ONEWAY) (Heap 0 [])
    (fun _ => eq_refl) (demo_result_wf _) ltac:(split; reflexivity) demo_stats_wf ltac:(vm_compute; discriminate) ltac:(vm_compute; reflexivity)) as H.
  destruct (process_buffer_for_analysis (fun _ => true) demo_stats (demo_result STATS_CLIENT_ONEWAY) (Heap 0 [])) as [r' h'].
  destruct H as [_ H]. specialize (H 0 ltac:(left)). destruct H as [H _ _ _ _ _ _]. cbn [fst]. rewrite H. vm_compute. reflexivity.
Defined.

(** Computing the percentiles sorts the collected values, keeping each of
    them, sets the five percentiles from the sorted values, and is done once:
    until a value is added, a second call changes nothing. *)
Theorem percentiles_sort_once (a : delta_analysis_t) (p : nat) (vs : list double) :
  da_delta_values a = Some (p, vs) -> 0 < da_packet_count a <= zlen vs -> da_percentiles_calculated a = false ->
  exists sorted, da_delta_values (exact_percentiles_calculate a) =
      Some (p, sorted ++ drop (Z.to_nat (da_packet_count a)) vs) /\
    sorted ≡ₚ take (Z.to_nat (da_packet_count a)) vs /\ Sorted dle sorted /\
    da_exact_percentiles (exact_percentiles_calculate a) =
      map (percentile_of (sorted ++ drop (Z.to_nat (da_packet_count a)) vs) (da_packet_count a)) [25; 50; 75; 90; 95] /\
    exact_percentiles_calculate (exact_percentiles_calculate a) = exact_percentiles_calculate a /\
    da_packet_count (exact_percentiles_calculate a) = da_packet_count a /\
    da_histogram (exact_percentiles_calculate a) = da_histogram a.
Proof.
  intros Hv Hc Hp. exists (qsort_double (take (Z.to_nat (da_packet_count a)) vs)).
  destruct (qsort_double_spec (take (Z.to_nat (da_packet_count a)) vs)) as [Hs Hperm].
  assert (exact_percentiles_calculate a =
    let values := qsort_double (take (Z.to_nat (da_packet_count a)) vs) ++ drop (Z.to_nat (da_packet_count a)) vs in
    DeltaAnalysis (da_packet_count a) (Some (p, values)) (da_delta_capacity a)
      (map (percentile_of values (da_packet_count a)) percentile_positions) true
      (da_histogram a) (da_outlier_count a) (da_used_bins a)) as ->.
  { unfold exact_percentiles_calculate. by rewrite Hv, Hp, (proj2 (Z.eqb_neq _ 0)) by lia. }
  cbn zeta. split_and!; try done. unfold exact_percentiles_calculate.
  cbn [da_delta_values da_packet_count da_percentiles_calculated]. by rewrite orb_true_r.
Qed.

Lemma percentiles_sort_once_witness :
  let a := DeltaAnalysis 3 (Some (0%nat, map of_Z [30; 10; 20; 0])) 4 (replicate 5 dzero) false None 0 0 in
  fst <$> da_delta_values (exact_percentiles_calculate a) = Some 0%nat /\
  map trunc (da_exact_percentiles (exact_percentiles_calculate a)) = [15; 20; 25; 28; 29].
Proof.
  intros a. split; [|vm_compute; reflexivity].
  assert (0 < 3 <= 4) as Hr by lia.
  destruct (percentiles_sort_once a 0%nat (map of_Z [30; 10; 20; 0]) eq_refl Hr eq_refl) as (sorted & E & _).
  exact (f_equal (fmap fst) E).
Defined.

(** ** Memory over a whole analysis *)

(** The heap effect of cleanup depends on the blocks the deltas point to. *)
Definition delta_blocks (a : delta_analysis_t) : option nat * option nat :=
  (fst <$> da_histogram a, fst <$> da_delta_values a).
Definition free_blocks (b : option nat * option nat) (h : heap) : heap :=
  let h := match fst b with Some p => hfree p h | None => h end in
  match snd b with Some p => hfree p h | None => h end.

Lemma cleanup_delta_heap a h : snd (cleanup_delta a h) = free_blocks (delta_blocks a) h.
Proof.
  unfold cleanup_delta, free_histogram, exact_percentiles_cleanup, free_blocks, delta_blocks.
  destruct (da_histogram a) as [[p bins]|]; simpl; by destruct (da_delta_values a) as [[q vs]|].
Qed.

Lemma cleanup_heap ids r h :
  ar_wf r -> NoDup ids ->
  snd (fold_left (fun '(r, h) idx => let '(a, h) := cleanup_delta (da_at r idx) h in (ar_put r idx a, h)) ids (r, h)) =
  fold_left (fun h idx => free_blocks (delta_blocks (da_at r idx)) h) ids h.
Proof.
  intros Hw Hn. revert r h Hw. induction ids as [|i ids IH]; intros r h Hw; [done|].
  apply NoDup_cons in Hn as [Hi Hn]. cbn [fold_left].
  pose proof (cleanup_delta_heap (da_at r i) h) as Hc. destruct (cleanup_delta (da_at r i) h) as [a h']. simpl in Hc.
  rewrite (IH Hn (ar_put r i a) h' (ar_put_wf _ _ _ Hw)), Hc. clear -Hi.
  generalize (free_blocks (delta_blocks (da_at r i)) h). intros h0. revert h0.
  induction ids as [|j ids IH]; intros h0; [done|]. cbn [fold_left].
  rewrite da_at_put_ne by set_solver. apply IH. set_solver.
Qed.

Lemma process_entry_blocks e a i config : delta_blocks (process_entry_for_delta e a i config) = delta_blocks a.
Proof.
  assert (forall a d, delta_blocks (exact_percentiles_add_value a d) = delta_blocks a) as Hadd.
  { intros a' d. unfold exact_percentiles_add_value, delta_blocks. destruct (da_delta_values a') as [[p vs]|] eqn:E; [|by rewrite ?E].
    case_match; simpl; [done|]. by rewrite ?E. }
  unfold process_entry_for_delta. case_match; [done|]. case_match; [done|done|].
  case_match; [|by rewrite <- (Hadd a delta_us)].
  rewrite <- (Hadd a delta_us). unfold count_in_bin, delta_blocks.
  destruct (da_histogram (exact_percentiles_add_value a delta_us)) as [[q bins]|] eqn:E; simpl; by rewrite ?E.
Qed.
Lemma process_delta_blocks es i config a : delta_blocks (process_delta config i a es) = delta_blocks a.
Proof.
  unfold process_delta. revert a. induction es as [|e es IH]; intros a; [done|]. cbn [fold_left].
  by rewrite IH, process_entry_blocks.
Qed.

(** The same loops on the blocks alone, every allocation succeeding. *)
Definition block_pair : Type := option nat * option nat.
Definition init_blocks (b : block_pair) (h : heap) : block_pair * heap :=
  ((fst b, Some (hp_calls h)), Heap (S (hp_calls h)) (hp_calls h :: hp_live h)).
Definition configure_blocks (b : block_pair) (h : heap) : block_pair * heap := init_blocks (None, snd b) h.
Definition allocate_blocks (b : block_pair) (h : heap) : block_pair * heap :=
  let '(b, h) := init_blocks b h in
  let h := match fst b with Some p => hfree p h | None => h end in
  ((Some (hp_calls h), snd b), Heap (S (hp_calls h)) (hp_calls h :: hp_live h)).
Fixpoint blocks_loop (f : block_pair -> heap -> block_pair * heap) (bs : list block_pair) (h : heap)
    : list block_pair * heap :=
  match bs with
  | [] => ([], h)
  | b :: bs => let '(b, h) := f b h in let '(bs, h) := blocks_loop f bs h in (b :: bs, h)
  end.
Definition blocks_of (ids : list Z) (r : stats_analysis_result_t) : list block_pair :=
  map (fun i => delta_blocks (da_at r i)) ids.

Lemma allocate_delta_blocks a config h :
  sizes_ok config ->
  let '(a', code, h') := allocate_analysis_structures_for_delta (fun _ => true) a (sf_max_bins config) (sf_buffer_size config) h in
  code = 0 /\ (delta_blocks a', h') = allocate_blocks (delta_blocks a) h.
Proof.
  intros [Hb Hm]. unfold allocate_analysis_structures_for_delta, exact_percentiles_init, halloc, free_histogram.
  rewrite (proj2 (Z.eqb_neq _ 0)), (proj2 (Z.eqb_neq _ 0)) by lia. cbn [da_histogram].
  unfold allocate_blocks, init_blocks, delta_blocks. by destruct (da_histogram a) as [[q bins]|].
Qed.

Lemma blocks_of_put ids r i a : i ∉ ids -> blocks_of ids (ar_put r i a) = blocks_of ids r.
Proof.
  intros Hi. apply map_ext_in. intros j Hj%list_elem_of_In. by rewrite da_at_put_ne by (intros ->; done).
Qed.

Lemma allocate_loop_blocks done_ todo r h :
  sizes_ok (ar_config r) -> ar_wf r -> NoDup todo -> Forall (fun i => 0 <= i < 12) todo ->
  let '(r', _, h') := allocate_loop (fun _ => true) done_ todo r h in
  (blocks_of todo r', h') = blocks_loop allocate_blocks (blocks_of todo r) h.
Proof.
  intros Hs. revert done_ r h Hs. induction todo as [|i todo IH]; intros done_ r h Hs Hw Hn Hf; cbn [allocate_loop]; [done|].
  apply NoDup_cons in Hn as [Hi Hn]. apply Forall_cons in Hf as [Hr Hf].
  pose proof (allocate_delta_blocks (da_at r i) (ar_config r) h Hs) as Ha.
  destruct (allocate_analysis_structures_for_delta _ _ _ _ h) as [[a' code] h']. destruct Ha as [-> Ha]. cbn [Z.eqb].
  pose proof (allocate_loop_ok (fun _ => true) (done_ ++ [i]) todo (ar_put r i a') h' (fun _ => eq_refl) Hs
    (ar_put_wf _ _ _ Hw) Hn Hf) as (r' & h'' & E & _ & _ & _ & _ & _ & Hsame).
  specialize (IH (done_ ++ [i]) (ar_put r i a') h' Hs (ar_put_wf _ _ _ Hw) Hn Hf). rewrite E in *.
  cbn [blocks_of map blocks_loop]. rewrite <- Ha. fold (blocks_of todo r).
  rewrite blocks_of_put in IH by done. rewrite <- IH. rewrite Hsame by done. by rewrite da_at_put_eq.
Qed.

(** configure_analysis_for_mode from a zeroed result. *)
Lemma configure_loop_blocks ids config r h :
  sizes_ok config -> ar_wf r -> NoDup ids -> Forall (fun i => 0 <= i < 12) ids ->
  let '(r', h') := fold_left (fun '(r, h) idx =>
      let a := da_at r idx in
      let a := DeltaAnalysis 0 (da_delta_values a) (da_delta_capacity a) (da_exact_percentiles a)
                 (da_percentiles_calculated a) None 0 0 in
      let '(a, _, h) := exact_percentiles_init (fun _ => true) a (sf_buffer_size config) h in
      (ar_put r idx a, h)) ids (r, h) in
  ar_wf r' /\ ar_active_deltas r' = ar_active_deltas r /\ ar_config r' = ar_config r /\
  (blocks_of ids r', h') = blocks_loop configure_blocks (blocks_of ids r) h /\
  (forall i, i ∉ ids -> da_at r' i = da_at r i).
Proof.
  intros [Hb Hm]. revert r h. induction ids as [|i ids IH]; intros r h Hw Hn Hf; cbn [fold_left]; [done|].
  apply NoDup_cons in Hn as [Hi Hn]. apply Forall_cons in Hf as [Hr Hf].
  unfold exact_percentiles_init at 2, halloc. rewrite (proj2 (Z.eqb_neq _ 0)) by lia.
  set (a := DeltaAnalysis _ _ _ _ _ _ _ _). set (h1 := Heap _ _).
  specialize (IH (ar_put r i a) h1 (ar_put_wf _ _ _ Hw) Hn Hf).
  destruct (fold_left _ ids (ar_put r i a, h1)) as [r' h'].
  destruct IH as (H1 & H2 & H3 & H4 & H5). split_and!; try done.
  - rewrite blocks_of_put in H4 by done. cbn [blocks_of map blocks_loop]. fold (blocks_of ids r) (blocks_of ids r').
    rewrite H5, da_at_put_eq by done. unfold configure_blocks at 1, init_blocks. fold h1. by rewrite <- H4.
  - intros j Hj. rewrite H5 by set_solver. apply da_at_put_ne. set_solver.
Qed.

Lemma cleanup_result_heap r h :
  ar_wf r ->
  snd (cleanup_analysis_result r h) = fold_left (fun h b => free_blocks b h) (blocks_of (ar_active_deltas r) r) h.
Proof.
  intros Hw. pose proof (cleanup_heap (ar_active_deltas r) r h Hw (proj1 (proj2 Hw))) as H.
  unfold cleanup_analysis_result. destruct (fold_left _ (ar_active_deltas r) (r, h)) as [r' h']. cbn [snd] in *. subst h'.
  unfold blocks_of. generalize h. induction (ar_active_deltas r) as [|i ids IH]; intros h0; [done|]. apply IH.
Qed.

Lemma process_buffer_blocks stats r h :
  sizes_ok (ar_config r) -> ar_wf r -> ring_wf stats -> ring_contents stats <> [] ->
  let '(r', h') := process_buffer_for_analysis (fun _ => true) stats r h in
  ar_wf r' /\ ar_active_deltas r' = ar_active_deltas r /\
  (blocks_of (ar_active_deltas r) r', h') = blocks_loop allocate_blocks (blocks_of (ar_active_deltas r) r) h.
Proof.
  intros Hs Hr Hw Hne. unfold process_buffer_for_analysis.
  pose proof (ring_contents_length stats Hw) as Hl. rewrite buffer_entries_contents by done.
  rewrite (get_buffer_count_eq stats Hw), (proj2 (Z.eqb_neq _ 0)).
  2:{ rewrite <- Hl. unfold zlen. by destruct (ring_contents stats). }
  pose proof Hr as (_ & Hn & Hf). unfold allocate_analysis_histograms.
  pose proof (allocate_loop_blocks [] (ar_active_deltas r) r h Hs Hr Hn Hf) as Hb.
  destruct (allocate_loop_ok (fun _ => true) [] (ar_active_deltas r) r h (fun _ => eq_refl) Hs Hr Hn Hf)
    as (r1 & h1 & E & Hw1 & Ha1 & Hc1 & _). rewrite E in *. cbn [Z.eqb negb].
  destruct (process_entries_spec (ring_contents stats) r1 Hw1) as (Hw2 & Ha2 & _ & Hd).
  split; [done|]. split; [congruence|]. rewrite <- Hb. f_equal. apply map_ext_in. intros i Hi%list_elem_of_In.
  rewrite Hd by (by rewrite Ha1). apply process_delta_blocks.
Qed.

Lemma initialize_blocks mode config h :
  sizes_ok config -> 0 < sf_bin_width_us config ->
  exists r h0 h', initialize_analysis_result (fun _ => true) mode config h = (r, 0, h') /\ ar_wf r /\
    ar_active_deltas r = mode_deltas mode /\ ar_config r = config /\
    (blocks_of (mode_deltas mode) r, h') = blocks_loop allocate_blocks
       (fst (blocks_loop configure_blocks (replicate (length (mode_deltas mode)) (None, None)) h)) h0 /\
    h0 = snd (blocks_loop configure_blocks (replicate (length (mode_deltas mode)) (None, None)) h).
Proof.
  intros Hs Hw. destruct (mode_deltas_wf mode) as [Hn Hf].
  unfold initialize_analysis_result, configure_analysis_for_mode.
  set (r0 := AnalysisResult _ _ _ _). assert (ar_wf r0) as Hw0 by (by split).
  pose proof (configure_loop_blocks (mode_deltas mode) config r0 h Hs Hw0 Hn Hf) as Hc.
  change (ar_active_deltas r0) with (mode_deltas mode). destruct (fold_left _ (mode_deltas mode) (r0, h)) as [r1 h1].
  destruct Hc as (Hw1 & Ha1 & Hc1 & Hb1 & _). change (ar_active_deltas r0) with (mode_deltas mode) in Ha1.
  change (ar_config r0) with config in Hc1.
  assert (blocks_of (mode_deltas mode) r0 = replicate (length (mode_deltas mode)) (None, None)) as Hb0 by (by destruct mode).
  rewrite Hb0 in Hb1.
  assert (validate_analysis_result r1 = 0) as ->.
  { destruct Hs. unfold validate_analysis_result, ar_delta_count. rewrite Ha1, Hc1.
    rewrite (proj2 (Z.eqb_neq (sf_max_bins config) 0)), (proj2 (Z.eqb_neq (sf_bin_width_us config) 0)) by lia.
    by destruct mode. }
  cbn [Z.eqb negb]. unfold allocate_analysis_histograms. rewrite Ha1.
  assert (sizes_ok (ar_config r1)) as Hs1 by (by rewrite Hc1).
  pose proof (allocate_loop_blocks [] (mode_deltas mode) r1 h1 Hs1 Hw1 Hn Hf) as Hb2.
  destruct (allocate_loop_ok (fun _ => true) [] (mode_deltas mode) r1 h1 (fun _ => eq_refl) Hs1 Hw1 Hn Hf)
    as (r2 & h2 & E & Hw2 & Ha2 & Hc2 & _). rewrite E in *. cbn [Z.eqb negb].
  exists r2, h1, h2. rewrite <- Hb1. split_and!; try done; congruence.
Qed.

(** Memory of an analysis run from start to end with every allocation
    succeeding.  Cleanup leaves one percentile array per active delta live after
    initialisation alone, and two after the buffer has been processed: each
    initialisation overwrites the pointer to the array the previous one made. *)
Theorem analysis_leaks_percentile_arrays (mode : stats_mode_type_t) (config : stats_config_t) (stats : stats_collector_t) :
  sizes_ok config -> 0 < sf_bin_width_us config -> ring_wf stats -> ring_contents stats <> [] ->
  let ok := fun _ => true in
  let '(r, code, h) := initialize_analysis_result ok mode config (Heap 0 []) in
  let '(r', h') := process_buffer_for_analysis ok stats r h in
  code = 0 /\
  length (hp_live (snd (cleanup_analysis_result r h))) = length (mode_deltas mode) /\
  length (hp_live (snd (cleanup_analysis_result r' h'))) = (2 * length (mode_deltas mode))%nat.
Proof.
  intros Hs Hbw Hw Hne ok. subst ok.
  destruct (initialize_blocks mode config (Heap 0 []) Hs Hbw) as (r & h0 & h & -> & Hr & Ha & Hc & Hb & ->).
  assert (sizes_ok (ar_config r)) as Hs' by (by rewrite Hc).
  pose proof (process_buffer_blocks stats r h Hs' Hr Hw Hne) as Hp.
  destruct (process_buffer_for_analysis (fun _ => true) stats r h) as [r' h'].
  destruct Hp as (Hr' & Ha' & Hb'). rewrite Ha in Hb'.
  rewrite !cleanup_result_heap by done. rewrite Ha', Ha. split; [done|].
  revert Hb'. rewrite (f_equal fst Hb : blocks_of _ r = _), (f_equal snd Hb : h = _). intros Hb'.
  rewrite (f_equal fst Hb' : blocks_of _ r' = _), (f_equal snd Hb' : h' = _).
  clear. destruct mode; vm_compute; (split; reflexivity).
Qed.

Lemma analysis_leaks_percentile_arrays_witness :
  let '(r, code, h) := initialize_analysis_result (fun _ => true) STATS_SERVER_ONEWAY (StatsConfig true 8 1 10) (Heap 0 []) in
  length (hp_live (snd (cleanup_analysis_result r h))) = 3%nat.
Proof.
  pose proof (analysis_leaks_percentile_arrays STATS_SERVER_ONEWAY (StatsConfig true 8 1 10) demo_stats
    ltac:(split; reflexivity) eq_refl demo_stats_wf ltac:(vm_compute; discriminate)) as H.
  cbn zeta in H. destruct (initialize_analysis_result _ _ _ _) as [[r code] h].
  destruct (process_buffer_for_analysis _ _ r h) as [r' h']. exact (proj1 (proj2 H)).
Defined.
