(* ===== verification/PpsStats.v ===== *)
(** Packets-per-second reporting (timestamp_common.c): the SIGALRM handler that
    computes rates from the packet counters, and the display in the main loop. *)

From S2P Require Import Prelude CText.

(** stats_state_t; times are time_t seconds. *)
Record stats_state_t := StatsState {
  pp_last_sent : Z; pp_last_received : Z; pp_last_time : Z;
  pp_current_sent_pps : Z; pp_current_received_pps : Z; pp_stats_ready : bool }.

Definition setup_stats_reporting_hotpath (now : Z) : stats_state_t := StatsState 0 0 now 0 0 false.

(** stats_signal_handler_hotpath at time [current_time] with the counters
    g_packets_sent and g_packets_received. *)
Definition stats_signal_handler_hotpath (current_sent current_received current_time : Z) (s : stats_state_t)
    : stats_state_t :=
  let time_diff := current_time - pp_last_time s in
  let '(sent_pps, received_pps, ready) :=
    if (0 <? time_diff) && (0 <? pp_last_time s) then
      let sent_diff := u64 (current_sent - pp_last_sent s) in
      let received_diff := u64 (current_received - pp_last_received s) in
      if (0 <? sent_diff) || (0 <? received_diff) then (sent_diff / time_diff, received_diff / time_diff, true)
      else (pp_current_sent_pps s, pp_current_received_pps s, pp_stats_ready s)
    else (pp_current_sent_pps s, pp_current_received_pps s, pp_stats_ready s) in
  StatsState current_sent current_received current_time sent_pps received_pps ready.

(** The line printed, if any, and the state. *)
Definition display_stats_if_ready (elapsed : Z) (s : stats_state_t) : option cstr * stats_state_t :=
  if pp_stats_ready s then
    let sent_pps := pp_current_sent_pps s in
    let received_pps := pp_current_received_pps s in
    let line :=
      if (0 <? sent_pps) || (0 <? received_pps) then
        Some (lit "Duration: [" ++ fmt_u elapsed ++ lit "] - " ++
          (if (0 <? sent_pps) && (0 <? received_pps) then
             lit "TX PPS: " ++ fmt_u sent_pps ++ lit " - RX PPS: " ++ fmt_u received_pps
           else if 0 <? sent_pps then lit "TX PPS: " ++ fmt_u sent_pps
           else lit "RX PPS: " ++ fmt_u received_pps))
      else None in
    (line, StatsState (pp_last_sent s) (pp_last_received s) (pp_last_time s) sent_pps received_pps false)
  else (None, s).

Lemma display_once e s : fst (display_stats_if_ready e (snd (display_stats_if_ready e s))) = None.
Proof. unfold display_stats_if_ready. by destruct s as [? ? ? ? ? []]. Qed.

(** ** Properties *)

(** Over a run of alarms whose clock advances and whose counters grow without
    wrapping, each computed rate is the packets since the previous alarm divided
    by the seconds since then, rounded down; a display reports a rate once. *)
Theorem pps_rates_exact (sent received now sent' received' now' : Z) (s : stats_state_t) :
  0 < now < now' -> 0 <= sent <= sent' -> sent' < 18446744073709551616 ->
  0 <= received <= received' -> received' < 18446744073709551616 ->
  let s1 := stats_signal_handler_hotpath sent received now s in
  let s2 := stats_signal_handler_hotpath sent' received' now' s1 in
  pp_last_sent s2 = sent' /\ pp_last_received s2 = received' /\ pp_last_time s2 = now' /\
  (sent < sent' \/ received < received' ->
     pp_stats_ready s2 = true /\
     pp_current_sent_pps s2 * (now' - now) <= sent' - sent < (pp_current_sent_pps s2 + 1) * (now' - now) /\
     pp_current_received_pps s2 * (now' - now) <= received' - received <
       (pp_current_received_pps s2 + 1) * (now' - now)) /\
  (sent = sent' /\ received = received' ->
     pp_stats_ready s2 = pp_stats_ready s1 /\ pp_current_sent_pps s2 = pp_current_sent_pps s1) /\
  (forall e, fst (display_stats_if_ready e (snd (display_stats_if_ready e s2))) = None).
Proof.
  intros Hn Hs Hs' Hr Hr' s1 s2.
  assert (pp_last_sent s1 = sent /\ pp_last_received s1 = received /\ pp_last_time s1 = now) as (E1 & E2 & E3).
  { subst s1. unfold stats_signal_handler_hotpath. cbn zeta. by repeat case_match. }
  assert (s2 = let time_diff := now' - now in
    let '(sp, rp, ready) :=
      if (0 <? time_diff) && (0 <? now) then
        if (0 <? sent' - sent) || (0 <? received' - received)
        then ((sent' - sent) / time_diff, (received' - received) / time_diff, true)
        else (pp_current_sent_pps s1, pp_current_received_pps s1, pp_stats_ready s1)
      else (pp_current_sent_pps s1, pp_current_received_pps s1, pp_stats_ready s1) in
    StatsState sent' received' now' sp rp ready) as ->.
  { subst s2. unfold stats_signal_handler_hotpath. rewrite E1, E2, E3, !u64_small by lia. done. }
  cbn zeta. clearbody s1.
  rewrite (proj2 (Z.ltb_lt 0 (now' - now))), (proj2 (Z.ltb_lt 0 now)) by lia. cbn [andb].
  destruct (Z.ltb_spec 0 (sent' - sent)), (Z.ltb_spec 0 (received' - received)); cbn [orb pp_last_sent pp_last_received
    pp_last_time pp_stats_ready pp_current_sent_pps pp_current_received_pps].
  all: pose proof (Z.mul_div_le (sent' - sent) (now' - now) ltac:(lia));
    pose proof (Z.mul_succ_div_gt (sent' - sent) (now' - now) ltac:(lia));
    pose proof (Z.mul_div_le (received' - received) (now' - now) ltac:(lia));
    pose proof (Z.mul_succ_div_gt (received' - received) (now' - now) ltac:(lia)).
  all: split_and!; try (intros e; apply display_once); try done; try (intros; lia); try (intros _; split_and!; try done; nia).
Qed.

Lemma pps_rates_exact_witness :
  let s2 := stats_signal_handler_hotpath 350 7 102 (stats_signal_handler_hotpath 100 7 100 (setup_stats_reporting_hotpath 99)) in
  pp_stats_ready s2 = true /\ pp_current_sent_pps s2 = 125.
Proof.
  destruct (pps_rates_exact 100 7 100 350 7 102 (setup_stats_reporting_hotpath 99) ltac:(lia) ltac:(lia) ltac:(lia) ltac:(lia) ltac:(lia))
    as (_ & _ & _ & H & _).
  destruct (H (or_introl (eq_refl : 100 < 350))) as (Hr & _). split; [exact Hr|vm_compute; reflexivity].
Defined.
