(* ===== verification/Wire.v ===== *)
(** What the programs exchange with the kernel and the network: timespecs,
    addresses, packet bytes and control messages.

    A received message is its bytes and its control messages; the kernel's part
    (which messages arrive, with which stamps) is input. *)

From S2P Require Import Prelude CText.

Record timespec := Timespec { tv_sec : Z; tv_nsec : Z }.
Definition ts_zero_spec : timespec := Timespec 0 0.
(** tv_sec * 1000000000ULL + tv_nsec *)
Definition ts_ns (t : timespec) : Z := u64 (tv_sec t * 1000000000 + tv_nsec t).
(** timespec_diff_ns: long long arithmetic *)
Definition timespec_diff_ns (later earlier : timespec) : Z :=
  s64 (s64 (tv_sec later * 1000000000 + tv_nsec later) - s64 (tv_sec earlier * 1000000000 + tv_nsec earlier)).

(** An IPv4 socket address in host byte order. *)
Record sockaddr_in := SockAddr { sin_addr : Z; sin_port : Z }.

(** inet_ntop(AF_INET, ...) *)
Definition inet_ntop (a : Z) : cstr :=
  fmt_u (u8 (a / 16777216)) ++ DOT :: fmt_u (u8 (a / 65536)) ++ DOT ::
  fmt_u (u8 (a / 256)) ++ DOT :: fmt_u (u8 a).

(** ntohl( *(uint32_t * )(buf + off)) on bytes; a missing byte reads as 0. *)
Definition byte_at (buf : list Z) (i : nat) : Z := default 0 (buf !! i).
Definition ntohl_at (buf : list Z) (off : nat) : Z :=
  byte_at buf off * 16777216 + byte_at buf (off + 1) * 65536 + byte_at buf (off + 2) * 256 +
  byte_at buf (off + 3).
(** The bytes of htonl(v). *)
Definition htonl_bytes (v : Z) : list Z :=
  [u8 (v / 16777216); u8 (v / 65536); u8 (v / 256); u8 v].

Definition bytes_wf (buf : list Z) : Prop := Forall (fun b => 0 <= b < 256) buf.

Lemma ntohl_htonl v rest : 0 <= v < 4294967296 -> ntohl_at (htonl_bytes v ++ rest) 0 = v.
Proof. intros. unfold ntohl_at, byte_at, htonl_bytes, u8. simpl. zlia. Qed.

Lemma byte_at_range buf i : bytes_wf buf -> 0 <= byte_at buf i < 256.
Proof.
  intros H. unfold byte_at. destruct (buf !! i) eqn:E; simpl; [|lia]. by eapply Forall_lookup_1 in H.
Qed.
Lemma ntohl_at_range buf off : bytes_wf buf -> 0 <= ntohl_at buf off < 4294967296.
Proof.
  intros H. unfold ntohl_at. pose proof (byte_at_range buf off H). pose proof (byte_at_range buf (off + 1) H).
  pose proof (byte_at_range buf (off + 2) H). pose proof (byte_at_range buf (off + 3) H). lia.
Qed.

(** Only the first four bytes matter. *)
Lemma ntohl_take4 buf : ntohl_at (take 4 buf) 0 = ntohl_at buf 0.
Proof. unfold ntohl_at, byte_at. rewrite !lookup_take_lt by lia. done. Qed.

(** Packets per sendmmsg call. *)
Definition BATCH_SIZE : Z := 128.

(** ** Control messages *)

Inductive cmsg :=
  | CmsgTimestamping (ts0 ts1 ts2 : timespec)   (* SOL_SOCKET, SO_TIMESTAMPING_NEW *)
  | CmsgRecvErr (ee_data : Z)                   (* SOL_IP, IP_RECVERR *)
  | CmsgOther.

(** extract_rx_timestamps: the first timestamping message sets both stamps;
    without one they keep their values.  The result is found, hw, kernel. *)
Fixpoint extract_rx_timestamps (cmsgs : list cmsg) (hw_rx_ts ker_rx_ts : timespec) : bool * timespec * timespec :=
  match cmsgs with
  | [] => (false, hw_rx_ts, ker_rx_ts)
  | CmsgTimestamping ts0 _ ts2 :: _ => (true, ts2, ts0)
  | _ :: cmsgs => extract_rx_timestamps cmsgs hw_rx_ts ker_rx_ts
  end.

Definition MAX_SEQUENCE_NUMBERS : Z := 50000.
Definition get_circular_index (seq_num : Z) : Z := seq_num mod MAX_SEQUENCE_NUMBERS.

Lemma get_circular_index_range s : 0 <= get_circular_index s < MAX_SEQUENCE_NUMBERS.
Proof. unfold get_circular_index, MAX_SEQUENCE_NUMBERS. zlia. Qed.

(** ** TX timestamps from the error queue *)

(** One recvmsg on the error queue: data with its control messages, nothing
    queued (EAGAIN), or another error. *)
Inductive errq_recv :=
  | ErrqMsg (packet : list Z) (cmsgs : list cmsg)
  | ErrqEmpty
  | ErrqError.

(** The walk over the control messages of a TX timestamp: the payload sequence
    number is read behind the 42 header bytes of a returned frame, or at the start
    of a shorter one; a shorter message falls back to the kernel's id. *)
Fixpoint scan_tx_cmsgs (packet : list Z) (cmsgs : list cmsg) (seq_num : Z) (kernel_tx_ts : timespec) : Z * timespec :=
  match cmsgs with
  | [] => (seq_num, kernel_tx_ts)
  | CmsgRecvErr ee_data :: cmsgs =>
      let ret := zlen packet in
      let seq_num :=
        if 46 <=? ret then ntohl_at packet 42
        else if 4 <=? ret then ntohl_at packet 0
        else ee_data in
      scan_tx_cmsgs packet cmsgs seq_num kernel_tx_ts
  | CmsgTimestamping ts0 _ _ :: cmsgs => scan_tx_cmsgs packet cmsgs seq_num ts0
  | CmsgOther :: cmsgs => scan_tx_cmsgs packet cmsgs seq_num kernel_tx_ts
  end.
