(* ===== verification/TxStamps.v ===== *)
(** Kernel TX timestamps from a socket's error queue, as client and server read
    them: batches of at most 256 messages per call, and the drain loops that call
    until a batch counts nothing.

    What a program does with one timestamp is the section's [handle]; the queue
    is the list of results of the successive recvmsg calls, and an exhausted
    list answers EAGAIN. *)

From S2P Require Import Prelude Wire.

Definition TX_TIMESTAMP_BATCH_SIZE : nat := 256.

(** The sequence number and the TX time in nanoseconds of one message. *)
Definition tx_stamp_of (packet : list Z) (cmsgs : list cmsg) : Z * Z :=
  let '(seq_num, kernel_tx_ts) := scan_tx_cmsgs packet cmsgs 0 ts_zero_spec in (seq_num, ts_ns kernel_tx_ts).

(** The stamps of a prefix of the results. *)
Definition tx_stamps (queue : list errq_recv) : list (Z * Z) :=
  omap (fun r => match r with ErrqMsg p c => Some (tx_stamp_of p c) | _ => None end) queue.

Section TxStamps.
Context {St : Type}.
Variable handle : St -> Z -> Z -> St * Z.

(** The for loop of process_tx_timestamps_in_main_thread: the state, the count
    returned, and the results not yet consumed. *)
Fixpoint errq_batch (n : nat) (st : St) (processed : Z) (queue : list errq_recv) : St * Z * list errq_recv :=
  match n with
  | O => (st, processed, queue)
  | S n =>
      match queue with
      | [] => (st, processed, [])
      | ErrqEmpty :: queue => (st, processed, queue)
      | ErrqError :: queue => errq_batch n st processed queue
      | ErrqMsg packet cmsgs :: queue =>
          let '(seq_num, ns) := tx_stamp_of packet cmsgs in
          let '(st, counted) := handle st seq_num ns in
          errq_batch n st (processed + counted) queue
      end
  end.

(** do processed = ... while (processed > 0), for any batch function. *)
Variable batch : St -> list errq_recv -> St * Z * list errq_recv.
Fixpoint errq_drain (fuel : nat) (st : St) (queue : list errq_recv) : option (St * list errq_recv) :=
  match fuel with
  | O => None
  | S fuel =>
      let '(st, processed, queue) := batch st queue in
      if 0 <? processed then errq_drain fuel st queue else Some (st, queue)
  end.

(** ** Lemmas *)

Definition handle_all (st : St) (stamps : list (Z * Z)) : St :=
  fold_left (fun st '(seq_num, ns) => fst (handle st seq_num ns)) stamps st.

Definition is_msg (r : errq_recv) : Prop := match r with ErrqMsg _ _ => True | _ => False end.

(** [P] is kept by the handler, which counts [c] under it. *)
Definition counts (P : St -> Prop) (c : Z) : Prop :=
  forall st s ns, P st -> P (fst (handle st s ns)) /\ snd (handle st s ns) = c.

Lemma handle_all_inv P c st stamps : counts P c -> P st -> P (handle_all st stamps).
Proof.
  intros Hc. revert st. induction stamps as [|[s ns] stamps IH]; intros st Hp; [done|].
  unfold handle_all. cbn [fold_left]. apply IH. by apply (Hc st s ns).
Qed.

(** A batch over messages only: it takes the first [n] of them. *)
Lemma errq_batch_msgs P n st processed queue (c : Z) :
  Forall is_msg queue -> counts P c -> P st ->
  errq_batch n st processed queue =
    (handle_all st (tx_stamps (take n queue)), processed + c * Z.of_nat (Nat.min n (length queue)), drop n queue).
Proof.
  intros Hq Hc. revert n st processed. induction Hq as [|r queue Hr Hq IH]; intros [|n] st processed Hp.
  - cbn. do 2 f_equal. lia.
  - cbn. do 2 f_equal. lia.
  - cbn [errq_batch Nat.min take drop]. unfold tx_stamps. cbn. do 2 f_equal. lia.
  - destruct r as [p cs| |]; [|done..]. cbn [errq_batch take drop].
    unfold tx_stamps in *. rewrite (omap_cons_some _ _ _ (tx_stamp_of p cs)) by done.
    destruct (tx_stamp_of p cs) as [s ns]. destruct (Hc st s ns Hp) as [Hp' Hcs].
    unfold handle_all. cbn [fold_left]. destruct (handle st s ns) as [st' k] eqn:Eh. simpl in Hcs, Hp'. subst k.
    rewrite IH by done. cbn [fst length]. unfold handle_all. f_equal. f_equal. lia.
Qed.

(** Each call consumes at least as many results as it counts. *)
Lemma errq_batch_consumes n st processed queue :
  (forall st s ns, 0 <= snd (handle st s ns) <= 1) ->
  let '(_, p, rest) := errq_batch n st processed queue in
  processed <= p <= processed + Z.of_nat (length queue) - Z.of_nat (length rest).
Proof.
  intros Hc. revert st processed queue. induction n as [|n IH]; intros st processed queue; cbn [errq_batch]; [lia|].
  destruct queue as [|[p cs| |] queue]; [cbn; lia| | |].
  - destruct (tx_stamp_of p cs) as [s ns]. pose proof (Hc st s ns). destruct (handle st s ns) as [st' k].
    specialize (IH st' (processed + k) queue). destruct (errq_batch n st' (processed + k) queue) as [[? ?] ?].
    simpl in *. lia.
  - cbn [length]. lia.
  - specialize (IH st processed queue). destruct (errq_batch n st processed queue) as [[? ?] ?]. simpl in *. lia.
Qed.

(** One more round than there are results is enough fuel. *)
Lemma errq_drain_terminates fuel st queue :
  (forall st queue, let '(_, p, rest) := batch st queue in
     p <= Z.of_nat (length queue) - Z.of_nat (length rest)) ->
  (length queue < fuel)%nat -> exists st' rest, errq_drain fuel st queue = Some (st', rest).
Proof.
  intros Hb. revert st queue. induction fuel as [|fuel IH]; intros st queue Hf; [lia|]. cbn [errq_drain].
  specialize (Hb st queue). destruct (batch st queue) as [[st' p] rest].
  destruct (Z.ltb_spec 0 p); [|eauto]. apply IH. lia.
Qed.

(** A counting drain over messages handles all of them. *)
Lemma errq_drain_all P fuel st queue :
  (forall st queue, P st -> batch st queue = errq_batch TX_TIMESTAMP_BATCH_SIZE st 0 queue) ->
  Forall is_msg queue -> counts P 1 -> P st -> (length queue < fuel)%nat ->
  errq_drain fuel st queue = Some (handle_all st (tx_stamps queue), []).
Proof.
  intros Hb Hq Hc. revert st queue Hq. induction fuel as [|fuel IH]; intros st queue Hq Hp Hf; [lia|].
  cbn [errq_drain]. rewrite Hb, (errq_batch_msgs P _ _ _ _ 1 Hq Hc) by done.
  assert (TX_TIMESTAMP_BATCH_SIZE = 256%nat) as Hn by done.
  destruct (Z.ltb_spec 0 (0 + 1 * Z.of_nat (Nat.min TX_TIMESTAMP_BATCH_SIZE (length queue)))) as [H0|H0].
  - rewrite IH; [|by apply Forall_drop|by eapply handle_all_inv|rewrite length_drop; lia].
    do 2 f_equal. unfold handle_all. rewrite <- fold_left_app. f_equal. unfold tx_stamps.
    rewrite <- omap_app, take_drop. done.
  - assert (queue = []) as -> by (destruct queue; [done|simpl length in *; lia]). rewrite take_nil, drop_nil. done.
Qed.

(** A drain that counts nothing stops after its first batch. *)
Lemma errq_drain_uncounted P fuel st queue :
  (forall st queue, P st -> batch st queue = errq_batch TX_TIMESTAMP_BATCH_SIZE st 0 queue) ->
  Forall is_msg queue -> counts P 0 -> P st -> (0 < fuel)%nat ->
  errq_drain fuel st queue =
    Some (handle_all st (tx_stamps (take TX_TIMESTAMP_BATCH_SIZE queue)), drop TX_TIMESTAMP_BATCH_SIZE queue).
Proof.
  intros Hb Hq Hc Hp Hf. destruct fuel as [|fuel]; [lia|]. cbn [errq_drain].
  rewrite Hb, (errq_batch_msgs P _ _ _ _ 0 Hq Hc) by done. done.
Qed.
End TxStamps.
