(* ===== verification/MainLoop.v ===== *)
(** The main loop that client and server share in shape: a shutdown flag, a time
    check every fifty iterations or a tenth of a second of cycles, and one step of
    work per iteration.

    The clock, the cycle counter and the step's input are read from a list of
    ticks, one per iteration. *)

From S2P Require Import Prelude.

Definition MAX_ITERATION_CHECK_INTERVAL : Z := 50.

Section Loop.
Context {St In : Type}.
(** The work of an iteration: None breaks. *)
Variable step : St -> In -> option St.
(** Whether a run time is set, and whether it is over at a monotonic time. *)
Variable timed : bool.
Variable time_over : Z -> bool.
Variable max_cycles_between_checks : Z.

(** What one iteration reads: the shutdown flag, the cycle counter (at the test and
    after a check), the monotonic clock and the input of the work. *)
Record loop_tick := LoopTick { lt_shutdown : bool; lt_tsc : Z; lt_now_ns : Z; lt_tsc_after : Z; lt_input : In }.
Record loop_state := LoopState { ls_counter : Z; ls_last_check : Z }.

(** One iteration: None breaks. *)
Definition loop_iteration (l : loop_state) (s : St) (t : loop_tick) : option (loop_state * St) :=
  if lt_shutdown t then None
  else
    let counter := u64 (ls_counter l + 1) in
    let should_check_time :=
      (counter mod MAX_ITERATION_CHECK_INTERVAL =? 0) ||
      (max_cycles_between_checks <=? u64 (lt_tsc t - ls_last_check l)) in
    if should_check_time && timed && time_over (lt_now_ns t) then None
    else
      let last_check := if should_check_time && timed then lt_tsc_after t else ls_last_check l in
      match step s (lt_input t) with
      | Some s => Some (LoopState counter last_check, s)
      | None => None
      end.

(** The state when the loop breaks; None while it is still running. *)
Fixpoint main_loop (l : loop_state) (s : St) (ticks : list loop_tick) : option St :=
  match ticks with
  | [] => None
  | t :: ticks =>
      match loop_iteration l s t with
      | None => Some s
      | Some (l, s) => main_loop l s ticks
      end
  end.
(** The inputs worked on before the loop breaks. *)
Fixpoint loop_inputs (l : loop_state) (s : St) (ticks : list loop_tick) : list In :=
  match ticks with
  | [] => []
  | t :: ticks =>
      match loop_iteration l s t with
      | None => []
      | Some (l, s) => lt_input t :: loop_inputs l s ticks
      end
  end.
Fixpoint run_steps (s : St) (inputs : list In) : option St :=
  match inputs with
  | [] => Some s
  | i :: inputs => match step s i with Some s => run_steps s inputs | None => None end
  end.

Lemma loop_iteration_step l s t l' s' :
  loop_iteration l s t = Some (l', s') ->
  step s (lt_input t) = Some s' /\ ls_counter l' = u64 (ls_counter l + 1).
Proof.
  unfold loop_iteration. destruct (lt_shutdown t); [done|]. cbv zeta.
  destruct (_ && _ && _)%bool; [done|]. destruct (step s (lt_input t)); [|done]. by intros [= <- <-].
Qed.

Lemma main_loop_runs l s ticks s' :
  main_loop l s ticks = Some s' -> run_steps s (loop_inputs l s ticks) = Some s'.
Proof.
  revert l s. induction ticks as [|t ticks IH]; intros l s; cbn [main_loop loop_inputs]; [done|].
  destruct (loop_iteration l s t) as [[l' s1]|] eqn:E; [|by intros [= <-]].
  intros H. apply loop_iteration_step in E as [E _]. cbn [run_steps]. rewrite E. by apply IH.
Qed.

Lemma loop_inputs_prefix l s ticks : loop_inputs l s ticks `prefix_of` map lt_input ticks.
Proof.
  revert l s. induction ticks as [|t ticks IH]; intros l s; cbn [loop_inputs map]; [done|].
  destruct (loop_iteration l s t) as [[l' s']|]; [by apply prefix_cons|apply prefix_nil].
Qed.

(** Fifty iterations from any counter contain a multiple of fifty. *)
Lemma main_loop_stops l s ticks :
  timed = true -> 0 <= ls_counter l -> ls_counter l - ls_counter l mod 50 + 50 < 18446744073709551616 ->
  Forall (fun t => time_over (lt_now_ns t) = true) ticks ->
  50 - ls_counter l mod 50 <= zlen ticks -> exists s', main_loop l s ticks = Some s'.
Proof.
  intros Hd. revert l s. induction ticks as [|t ticks IH]; intros l s Hc Hm Ht Hn.
  { unfold zlen in Hn. simpl in Hn. pose proof (Z.mod_pos_bound (ls_counter l) 50). lia. }
  apply Forall_cons in Ht as [Ht Hts]. cbn [main_loop].
  destruct (loop_iteration l s t) as [[l' s1]|] eqn:E; [|eauto].
  destruct (loop_iteration_step _ _ _ _ _ E) as [_ Ec].
  assert (0 <= ls_counter l mod 50 < 50) as Hmod by (apply Z.mod_pos_bound; lia).
  rewrite u64_small in Ec by lia.
  assert ((ls_counter l + 1) mod 50 <> 0) as Hne.
  { intros H0. unfold loop_iteration in E. destruct (lt_shutdown t); [done|]. cbv zeta in E.
    rewrite u64_small in E by lia. unfold MAX_ITERATION_CHECK_INTERVAL in E.
    by rewrite H0, Hd, Ht in E. }
  assert (ls_counter l' mod 50 = ls_counter l mod 50 + 1) as Em by (rewrite Ec; clear -Hne; zlia).
  unfold zlen in *. cbn [length] in Hn. apply IH; try done; lia.
Qed.
End Loop.

(** A loop whose step does more, seen through [f], runs the same way. *)
Section Simulation.
Context {St St' In : Type} (step : St -> In -> option St) (step' : St' -> In -> option St') (f : St' -> St) (Inv : St' -> Prop).
Context (Hstep : forall s i, Inv s -> match step' s i with
                                      | Some s' => step (f s) i = Some (f s') /\ Inv s'
                                      | None => step (f s) i = None
                                      end).
Lemma main_loop_sim timed over max_cycles ticks : forall l s, Inv s ->
  match main_loop step' timed over max_cycles l s ticks with
  | Some s' => main_loop step timed over max_cycles l (f s) ticks = Some (f s') /\ Inv s'
  | None => main_loop step timed over max_cycles l (f s) ticks = None
  end.
Proof.
  induction ticks as [|t ticks IH]; intros l s Hi; cbn [main_loop]; [done|]. unfold loop_iteration.
  destruct (lt_shutdown t); [done|]. cbv zeta. destruct (_ && timed && over _)%bool; [done|].
  pose proof (Hstep s (lt_input t) Hi) as H. destruct (step' s (lt_input t)) as [s1|].
  - destruct H as [-> H1]. by apply IH.
  - by rewrite H.
Qed.
End Simulation.

Arguments loop_tick In : clear implicits.
Arguments LoopTick {In}.
