(* ===== verification/CorrArray.v ===== *)
(** Arrays indexed by the sequence number modulo MAX_SEQUENCE_NUMBERS, which
    client and server use to correlate a packet's timestamps: allocation, release
    and element update. *)

From S2P Require Import Prelude Ring Heap Wire.

Definition free_array {A} (a : option (harray A)) (h : heap) : heap :=
  match a with Some (p, _) => hfree p h | None => h end.
(** One array of MAX_SEQUENCE_NUMBERS zeroed elements. *)
Definition alloc_array {A} (ok : nat -> bool) (zero : A) (h : heap) : option (harray A) * heap :=
  let '(p, h) := alloc_with_fallback ok h in
  (match p with Some p => Some (p, replicate (Z.to_nat MAX_SEQUENCE_NUMBERS) zero) | None => None end, h).

Definition array_put {A} (a : harray A) (index : Z) (x : A) : harray A := (fst a, zset (snd a) index x).

(** An array that exists, with all its elements. *)
Definition array_full {A} (a : option (harray A)) : Prop :=
  exists p l, a = Some (p, l) /\ zlen l = MAX_SEQUENCE_NUMBERS.

Lemma zget_put {A} (l : list A) i j (x : A) :
  zlen l = MAX_SEQUENCE_NUMBERS -> 0 <= i < MAX_SEQUENCE_NUMBERS ->
  zget (zset l i x) j = if decide (j = i) then Some x else zget l j.
Proof.
  intros Hl Hi. case_decide as Hd.
  - subst j. apply zget_zset_eq. lia.
  - apply zget_zset_ne. done.
Qed.

Lemma alloc_array_spec {A} ok (zero : A) h :
  heap_wf h ->
  let '(a, h') := alloc_array ok zero h in
  heap_wf h' /\
  match a with
  | None => hp_live h' = hp_live h
  | Some (p, l) => hp_live h' = p :: hp_live h /\ Forall (fun q => (q < p)%nat) (hp_live h) /\
                   zlen l = MAX_SEQUENCE_NUMBERS
  end.
Proof.
  intros Hw. unfold alloc_array. pose proof (alloc_with_fallback_spec ok h Hw) as Ha.
  destruct (alloc_with_fallback ok h) as [[p|] h']; destruct Ha as [? Ha]; split; try done.
  split_and!; try apply Ha. unfold zlen. rewrite length_replicate. done.
Qed.

(** The block of an array. *)
Definition array_block {A} (a : option (harray A)) : list nat := match a with Some (p, _) => [p] | None => [] end.

Lemma free_array_spec {A} (a : option (harray A)) k l h :
  heap_wf h /\ hp_live h ≡ₚ k ++ array_block a ++ l ->
  heap_wf (free_array a h) /\ hp_live (free_array a h) ≡ₚ k ++ l.
Proof.
  intros [Hw Hl]. destruct a as [[p x]|]; [|done]. split; [by apply hfree_wf|]. simpl in *.
  destruct Hw as [Hn _]. rewrite Hl in Hn.
  rewrite <- Permutation_middle in Hl, Hn. apply NoDup_cons in Hn as [Hp Hn].
  rewrite Hl, filter_cons, decide_False by (intros Hx; by apply Hx).
  replace (base.filter (fun q => q <> p) (k ++ l)) with (k ++ l); [done|].
  symmetry. clear -Hp. induction (k ++ l) as [|q m IH]; [done|].
  rewrite filter_cons, decide_True by set_solver. rewrite IH by set_solver. done.
Qed.

(** ** Reading and writing an array that may be missing *)

Definition array_at {A} (a : option (harray A)) (index : Z) : option A :=
  match a with Some (_, l) => zget l index | None => None end.
Definition array_store {A} (a : option (harray A)) (index : Z) (x : A) : option (harray A) :=
  match a with Some a => Some (array_put a index x) | None => None end.

Lemma array_store_full {A} (a : option (harray A)) i x : array_full a -> array_full (array_store a i x).
Proof. intros (p & l & -> & Hl). exists p, (zset l i x). by rewrite zlen_zset. Qed.
Lemma array_at_store {A} (a : option (harray A)) i j x :
  array_full a -> 0 <= i < MAX_SEQUENCE_NUMBERS ->
  array_at (array_store a i x) j = if decide (j = i) then Some x else array_at a j.
Proof. intros (p & l & -> & Hl) Hi. by apply zget_put. Qed.
Lemma array_at_full {A} (a : option (harray A)) i :
  array_full a -> 0 <= i < MAX_SEQUENCE_NUMBERS -> exists x, array_at a i = Some x.
Proof. intros (p & l & -> & Hl) Hi. apply zget_lt. lia. Qed.

(** Successive sequence numbers [first], [first + 1], ... stored in turn: the last
    MAX_SEQUENCE_NUMBERS of them can be read back. *)
Definition store_run {A} (a : option (harray A)) (first : Z) (f : nat -> A) (n : nat) : option (harray A) :=
  fold_left (fun a i => array_store a (get_circular_index (u32 (first + Z.of_nat i))) (f i)) (seq 0 n) a.

Lemma store_run_S {A} (a : option (harray A)) first f n :
  store_run a first f (S n) = array_store (store_run a first f n) (get_circular_index (u32 (first + Z.of_nat n))) (f n).
Proof. unfold store_run. by rewrite seq_S, fold_left_app. Qed.
Lemma store_run_full {A} (a : option (harray A)) first f n : array_full a -> array_full (store_run a first f n).
Proof. intros Ha. induction n as [|n IH]; [done|]. rewrite store_run_S. by apply array_store_full. Qed.

(** Without a wrap of the sequence number the window is exact. *)
Lemma store_run_at {A} (a : option (harray A)) first f n (k : nat) :
  array_full a -> 0 <= first -> first + Z.of_nat n <= 4294967296 -> (k < n)%nat -> Z.of_nat n - Z.of_nat k <= 50000 ->
  array_at (store_run a first f n) (get_circular_index (first + Z.of_nat k)) = Some (f k).
Proof.
  intros Ha Hf Hb Hk Hw. induction n as [|n IH]; [lia|].
  rewrite store_run_S, array_at_store by (try apply store_run_full; try apply get_circular_index_range; done).
  assert (u32 (first + Z.of_nat n) = first + Z.of_nat n) as Hu by (apply u32_small; lia). rewrite Hu.
  destruct (decide (k = n)) as [->|Hne].
  - by rewrite decide_True.
  - rewrite decide_False; [apply IH; lia|].
    intros E. unfold get_circular_index, MAX_SEQUENCE_NUMBERS in E.
    assert (0 = Z.of_nat (n - k)); [|lia].
    apply (mod_offset_inj 50000 (first + Z.of_nat k)); [lia..|]. rewrite Z.add_0_r, E.
    by replace (first + Z.of_nat k + Z.of_nat (n - k)) with (first + Z.of_nat n) by lia.
Qed.
