(* ===== verification/ServerQueue.v ===== *)
(** The server's queue of return packets (timestamp_server.c): one ring between
    the receive loop and the TX thread, with its creation and destruction. *)

From S2P Require Import Prelude Ring Spsc Heap Wire.

Record ReturnPacketRequest := ReturnRequest {
  rq_seq_num : Z; rq_return_addr : sockaddr_in; rq_packet_data : list Z; rq_packet_size : Z;
  rq_original_client_src_port : Z }.

Record ReturnPacketQueue := ReturnQueue {
  rp_self : nat; rp_requests_ptr : nat;
  rp_requests : list ReturnPacketRequest; rp_head : Z; rp_tail : Z; rp_size_mask : Z }.

(** The producer moves tail and the consumer head. *)
#[export] Instance return_ring : Ring ReturnPacketQueue ReturnPacketRequest := {|
  ring_buf := rp_requests; ring_prod := rp_tail; ring_cons := rp_head; ring_mask := rp_size_mask |}.

Definition rp_set (q : ReturnPacketQueue) (requests : list ReturnPacketRequest) (head tail : Z) : ReturnPacketQueue :=
  ReturnQueue (rp_self q) (rp_requests_ptr q) requests head tail (rp_size_mask q).

(** A size that is not a power of two becomes 4096.  The array's first content
    is unspecified: [garbage]. *)
Definition create_return_packet_queue (ok : nat -> bool) (garbage : ReturnPacketRequest) (size : Z) (h : heap)
    : option ReturnPacketQueue * heap :=
  let size := if (size =? 0) || negb (Z.land size (u32 (size - 1)) =? 0) then 4096 else size in
  let '(queue, h) := halloc ok h in
  match queue with
  | None => (None, h)
  | Some self =>
      let '(requests, h) := halloc ok h in
      match requests with
      | None => (None, hfree self h)
      | Some r => (Some (ReturnQueue self r (replicate (Z.to_nat size) garbage) 0 0 (u32 (size - 1))), h)
      end
  end.
Definition destroy_return_packet_queue (queue : option ReturnPacketQueue) (h : heap) : heap :=
  match queue with
  | None => h
  | Some q => hfree (rp_self q) (hfree (rp_requests_ptr q) h)
  end.

Definition enqueue_return_packet_request (queue : ReturnPacketQueue) (req : ReturnPacketRequest)
    : ReturnPacketQueue * bool :=
  let current_tail := rp_tail queue in
  let next_tail := Z.land (u32 (current_tail + 1)) (rp_size_mask queue) in
  if next_tail =? rp_head queue then (queue, false)
  else (rp_set queue (zset (rp_requests queue) current_tail req) (rp_head queue) next_tail, true).

Definition dequeue_return_packet_request (queue : ReturnPacketQueue)
    : ReturnPacketQueue * option ReturnPacketRequest :=
  let current_head := rp_head queue in
  if current_head =? rp_tail queue then (queue, None)
  else (rp_set queue (rp_requests queue) (Z.land (u32 (current_head + 1)) (rp_size_mask queue)) (rp_tail queue),
        zget (rp_requests queue) current_head).

(** At most [batch_size] requests, oldest first. *)
Fixpoint dequeue_return_packet_batch (queue : ReturnPacketQueue) (batch_size : nat)
    : ReturnPacketQueue * list ReturnPacketRequest :=
  match batch_size with
  | O => (queue, [])
  | S n =>
      match dequeue_return_packet_request queue with
      | (queue, None) => (queue, [])
      | (queue, Some req) =>
          let '(queue, reqs) := dequeue_return_packet_batch queue n in (queue, req :: reqs)
      end
  end.

(** ** Lemmas *)

Lemma rp_next_index (q : ReturnPacketQueue) x :
  ring_wf q -> Z.land (u32 (x + 1)) (rp_size_mask q) = (x + 1) mod ring_size q.
Proof. intros (Hm & _). simpl in Hm. rewrite is_mask_land by done. by apply is_mask_u32. Qed.

Lemma enqueue_request_spec q req :
  ring_wf q ->
  let '(q', ok) := enqueue_return_packet_request q req in
  ring_wf q' /\ rp_size_mask q' = rp_size_mask q /\
  ok = (zlen (ring_contents q) <? rp_size_mask q) /\
  ring_contents q' = if ok then ring_contents q ++ [req] else ring_contents q.
Proof.
  intros Hw. pose proof (ring_full_iff q Hw) as Hf. unfold enqueue_return_packet_request.
  rewrite (rp_next_index q _ Hw). unfold ring_full in Hf. simpl in Hf.
  pose proof (ring_contents_length q Hw) as Hl. pose proof (ring_count_range q Hw) as Hr.
  unfold ring_size in Hr. simpl in Hr.
  destruct (Z.eqb_spec ((rp_tail q + 1) mod ring_size q) (rp_head q)) as [F|F].
  - split_and!; try done. apply Hf in F. symmetry. apply Z.ltb_ge. lia.
  - set (q' := rp_set q _ _ _). assert (ring_pushed req q q') as Hp by (by repeat split).
    split_and!; [by eapply ring_pushed_wf|done| |by apply (ring_pushed_contents req q q')].
    symmetry. apply Z.ltb_lt. assert (zlen (ring_contents q) <> rp_size_mask q); [|lia].
    intros E. by apply Hf in E.
Qed.

Lemma dequeue_request_spec q :
  ring_wf q ->
  let '(q', r) := dequeue_return_packet_request q in
  ring_wf q' /\ rp_size_mask q' = rp_size_mask q /\
  match r with
  | None => q' = q /\ ring_contents q = []
  | Some req => ring_contents q = req :: ring_contents q'
  end.
Proof.
  intros Hw. unfold dequeue_return_packet_request. pose proof (ring_empty_iff q Hw) as He. simpl in He.
  destruct (Z.eqb_spec (rp_head q) (rp_tail q)) as [E|E].
  - split_and!; try done. by apply He.
  - rewrite (rp_next_index q _ Hw). set (q' := rp_set q _ _ _).
    assert (ring_popped q q') as Hp by (by repeat split).
    destruct (ring_popped_contents q q' Hw E Hp) as (req & Hg & Hc). simpl in Hg. rewrite Hg.
    split_and!; [by eapply ring_popped_wf|done|done].
Qed.

Lemma dequeue_batch_spec n q :
  ring_wf q ->
  let '(q', reqs) := dequeue_return_packet_batch q n in
  ring_wf q' /\ rp_size_mask q' = rp_size_mask q /\
  reqs = take n (ring_contents q) /\ ring_contents q' = drop n (ring_contents q).
Proof.
  revert q. induction n as [|n IH]; intros q Hw; cbn [dequeue_return_packet_batch]; [done|].
  pose proof (dequeue_request_spec q Hw) as Hd.
  destruct (dequeue_return_packet_request q) as [q1 [req|]].
  - destruct Hd as (Hw1 & Hm1 & Hc). specialize (IH q1 Hw1).
    destruct (dequeue_return_packet_batch q1 n) as [q' reqs]. destruct IH as (H1 & H2 & -> & H4).
    rewrite Hc. cbn [take drop]. split_and!; try done. congruence.
  - destruct Hd as (_ & _ & -> & Hc). rewrite Hc. done.
Qed.

(** ** Properties *)

(** The return queue is a bounded FIFO queue of size_mask requests: an enqueue
    appends and answers true, or answers false and changes nothing when the queue
    is full; a batch dequeue takes the oldest requests in order, as many as are
    asked for and present. *)
Theorem return_queue_refines_fifo (q : ReturnPacketQueue) (req : ReturnPacketRequest) (n : nat) :
  ring_wf q ->
  (let '(q', ok) := enqueue_return_packet_request q req in
   ring_wf q' /\ ok = (zlen (ring_contents q) <? rp_size_mask q) /\
   ring_contents q' = if ok then ring_contents q ++ [req] else ring_contents q) /\
  (let '(q', reqs) := dequeue_return_packet_batch q n in
   ring_wf q' /\ reqs = take n (ring_contents q) /\ ring_contents q' = drop n (ring_contents q)).
Proof.
  intros Hw. pose proof (enqueue_request_spec q req Hw) as He. pose proof (dequeue_batch_spec n q Hw) as Hd.
  destruct (enqueue_return_packet_request q req), (dequeue_return_packet_batch q n).
  naive_solver.
Qed.

Definition demo_request (s : Z) : ReturnPacketRequest :=
  ReturnRequest s (SockAddr 167772161 9000) (htonl_bytes s ++ htonl_bytes 0) 8 9000.
Definition demo_queue : ReturnPacketQueue := ReturnQueue 0 1 (replicate 4 (demo_request 0)) 0 0 3.
Lemma demo_queue_wf : ring_wf demo_queue.
Proof. unfold ring_wf. split_and!; [exists 2; split; [lia|reflexivity]|reflexivity|vm_compute; intuition discriminate..]. Qed.

Lemma return_queue_refines_fifo_witness :
  snd (enqueue_return_packet_request demo_queue (demo_request 5)) = true /\
  ring_contents (fst (enqueue_return_packet_request demo_queue (demo_request 5))) = [demo_request 5].
Proof.
  pose proof (proj1 (return_queue_refines_fifo demo_queue (demo_request 5) 1 demo_queue_wf)) as H.
  destruct H as (_ & Hok & Hc). split; [reflexivity|exact Hc].
Defined.
