(* ===== verification/ServerCorr.v ===== *)
(** The server's correlation arrays (timestamp_server.c): five arrays indexed by
    the sequence number modulo MAX_SEQUENCE_NUMBERS, with their allocation,
    release and update, and the sequential state of the server. *)

From S2P Require Import Prelude CText Ring Heap Wire CsvLog CsvRing StatsCollector ServerQueue CorrArray.

(** ** Correlation arrays *)

Record server_correlation := ServerCorrelation {
  server_client_ips : option (harray cstr);
  server_client_ports : option (harray Z);
  server_hw_rx_timestamps : option (harray timespec);
  server_ker_rx_timestamps : option (harray timespec);
  server_app_rx_timestamps : option (harray timespec) }.
Definition no_correlation : server_correlation := ServerCorrelation None None None None None.

Definition cleanup_server_tx_correlation (c : server_correlation) (h : heap) : server_correlation * heap :=
  let h := free_array (server_client_ips c) h in
  let h := free_array (server_client_ports c) h in
  let h := free_array (server_hw_rx_timestamps c) h in
  let h := free_array (server_ker_rx_timestamps c) h in
  let h := free_array (server_app_rx_timestamps c) h in
  (no_correlation, h).

(** The arrays are static variables that start NULL; 0 or -1. *)
Definition init_server_tx_correlation (ok : nat -> bool) (c : server_correlation) (h : heap)
    : server_correlation * Z * heap :=
  let fail c h := let '(c, h) := cleanup_server_tx_correlation c h in (c, -1, h) in
  let '(ips, h) := alloc_array ok [] h in
  let c := ServerCorrelation ips (server_client_ports c) (server_hw_rx_timestamps c)
             (server_ker_rx_timestamps c) (server_app_rx_timestamps c) in
  match ips with
  | None => fail c h
  | Some _ =>
      let '(ports, h) := alloc_array ok 0 h in
      let c := ServerCorrelation ips ports (server_hw_rx_timestamps c) (server_ker_rx_timestamps c)
                 (server_app_rx_timestamps c) in
      match ports with
      | None => fail c h
      | Some _ =>
          let '(hw, h) := alloc_array ok ts_zero_spec h in
          let c := ServerCorrelation ips ports hw (server_ker_rx_timestamps c) (server_app_rx_timestamps c) in
          match hw with
          | None => fail c h
          | Some _ =>
              let '(ker, h) := alloc_array ok ts_zero_spec h in
              let c := ServerCorrelation ips ports hw ker (server_app_rx_timestamps c) in
              match ker with
              | None => fail c h
              | Some _ =>
                  let '(app, h) := alloc_array ok ts_zero_spec h in
                  let c := ServerCorrelation ips ports hw ker app in
                  match app with
                  | None => fail c h
                  | Some _ => (c, 0, h)
                  end
              end
          end
      end
  end.

(** The address is copied with strncpy, 15 characters at most. *)
Definition store_server_rx_timestamps (c : server_correlation) (seq_num : Z) (hw_rx_ts ker_rx_ts app_rx_ts : timespec)
    (client_ip : cstr) (client_port : Z) : server_correlation :=
  match c with
  | ServerCorrelation (Some ips) (Some ports) (Some hw) (Some ker) (Some app) =>
      let index := get_circular_index seq_num in
      ServerCorrelation (Some (array_put ips index (strncpy client_ip 15))) (Some (array_put ports index client_port))
        (Some (array_put hw index hw_rx_ts)) (Some (array_put ker index ker_rx_ts)) (Some (array_put app index app_rx_ts))
  | _ => c
  end.

(** What the readers see at an index; None when an array is missing. *)
Record server_slot := ServerSlot { sl_ip : cstr; sl_port : Z; sl_hw : timespec; sl_ker : timespec; sl_app : timespec }.
Definition server_slot_at (c : server_correlation) (index : Z) : option server_slot :=
  match c with
  | ServerCorrelation (Some (_, ips)) (Some (_, ports)) (Some (_, hw)) (Some (_, ker)) (Some (_, app)) =>
      match zget ips index, zget ports index, zget hw index, zget ker index, zget app index with
      | Some ip, Some port, Some hw, Some ker, Some app => Some (ServerSlot ip port hw ker app)
      | _, _, _, _, _ => None
      end
  | _ => None
  end.

(** All five arrays exist with all their elements. *)
Definition corr_full (c : server_correlation) : Prop :=
  array_full (server_client_ips c) /\ array_full (server_client_ports c) /\ array_full (server_hw_rx_timestamps c) /\
  array_full (server_ker_rx_timestamps c) /\ array_full (server_app_rx_timestamps c).

Lemma store_full c seq hw ker app ip port :
  corr_full c -> corr_full (store_server_rx_timestamps c seq hw ker app ip port).
Proof.
  intros ((?&?&E1&?) & (?&?&E2&?) & (?&?&E3&?) & (?&?&E4&?) & (?&?&E5&?)). destruct c; simpl in *; subst.
  unfold corr_full, array_full, array_put. simpl. split_and!; do 2 eexists; (split; [done|]); by rewrite zlen_zset.
Qed.

(** A store changes its own slot and no other. *)
Lemma slot_after_store c seq hw ker app ip port index :
  corr_full c -> 
  server_slot_at (store_server_rx_timestamps c seq hw ker app ip port) index =
    if decide (index = get_circular_index seq) then Some (ServerSlot (take 15 ip) port hw ker app)
    else server_slot_at c index.
Proof.
  pose proof (get_circular_index_range seq) as Hi.
  intros ((?&?&E1&?) & (?&?&E2&?) & (?&?&E3&?) & (?&?&E4&?) & (?&?&E5&?)). destruct c; simpl in *; subst.
  unfold server_slot_at, store_server_rx_timestamps, array_put. cbn [fst snd].
  rewrite !(zget_put _ _ index) by done. case_decide; done.
Qed.

Lemma slot_full c index :
  corr_full c -> 0 <= index < MAX_SEQUENCE_NUMBERS -> exists sl, server_slot_at c index = Some sl.
Proof.
  intros ((?&?&E1&?) & (?&?&E2&?) & (?&?&E3&?) & (?&?&E4&?) & (?&?&E5&?)) Hi. destruct c; simpl in *; subst.
  unfold server_slot_at.
  do 5 match goal with |- context [ match zget ?l index with _ => _ end ] =>
    let E := fresh in destruct (zget_lt l index) as [? E]; [lia|rewrite E; clear E] end. eauto.
Qed.

(** The blocks of the arrays, newest first. *)
Definition corr_blocks (c : server_correlation) : list nat :=
  array_block (server_app_rx_timestamps c) ++ array_block (server_ker_rx_timestamps c) ++
  array_block (server_hw_rx_timestamps c) ++ array_block (server_client_ports c) ++ array_block (server_client_ips c).

Lemma cleanup_spec c h l :
  heap_wf h -> hp_live h ≡ₚ corr_blocks c ++ l ->
  let '(c', h') := cleanup_server_tx_correlation c h in
  c' = no_correlation /\ heap_wf h' /\ hp_live h' ≡ₚ l.
Proof.
  intros Hw Hl. unfold corr_blocks in Hl. rewrite <- !app_assoc in Hl. split; [done|].
  apply (free_array_spec (server_app_rx_timestamps c) []). cbn [app].
  apply (free_array_spec (server_ker_rx_timestamps c)).
  rewrite app_assoc. apply (free_array_spec (server_hw_rx_timestamps c)).
  rewrite app_assoc. apply (free_array_spec (server_client_ports c)).
  rewrite app_assoc. apply (free_array_spec (server_client_ips c)).
  split; [done|]. rewrite <- !app_assoc. done.
Qed.

Ltac live_blocks :=
  destruct_and?; repeat match goal with H : hp_live ?x = _ |- context [ hp_live ?x ] => rewrite H; clear H end; done.
(** The branch of a failed allocation: the cleanup released what was taken. *)
Ltac init_failed Hfail HK Hw :=
  lazymatch goal with |- context [ cleanup_server_tx_correlation ?c ?h ] =>
    let F := fresh "F" in
    pose proof (Hfail c h Hw) as F; destruct (cleanup_server_tx_correlation c h);
    unfold corr_blocks in F; cbn in F; destruct F as (?F1 & ?F2 & ?F3 & ?F4); [live_blocks|];
    split_and!; [done|right; done|intros Hall; exfalso; by apply (HK Hall)]
  end.

(** ** Properties *)

(** What initialising the arrays from their unset state does to the memory. *)
Lemma init_corr_spec (ok : nat -> bool) (h : heap) :
  heap_wf h ->
  let '(c, code, h') := init_server_tx_correlation ok no_correlation h in
  heap_wf h' /\
  (code = 0 /\ corr_full c /\ hp_live h' ≡ₚ corr_blocks c ++ hp_live h
   \/ code = -1 /\ c = no_correlation /\ hp_live h' ≡ₚ hp_live h) /\
  ((forall n, ok n = true) -> code = 0).
Proof.
  intros Hw. unfold init_server_tx_correlation.
  assert (forall c h', heap_wf h' -> hp_live h' ≡ₚ corr_blocks c ++ hp_live h ->
    let '(c, code, h') := (let '(c, h) := cleanup_server_tx_correlation c h' in (c, -1, h)) in
    heap_wf h' /\ code = -1 /\ c = no_correlation /\ hp_live h' ≡ₚ hp_live h) as Hfail.
  { intros c h' Hw' Hl. pose proof (cleanup_spec c h' _ Hw' Hl) as Hs.
    destruct (cleanup_server_tx_correlation c h'). naive_solver. }
  assert (forall A (zero : A) h0, (forall n, ok n = true) -> fst (alloc_array ok zero h0) <> None) as Hok.
  { intros A zero h0 H. unfold alloc_array, alloc_with_fallback, halloc. rewrite H. done. }
  cbn [server_client_ports server_hw_rx_timestamps server_ker_rx_timestamps server_app_rx_timestamps no_correlation].
  pose proof (alloc_array_spec ok ([] : cstr) h Hw) as S1. pose proof (Hok _ ([] : cstr) h) as K1.
  destruct (alloc_array ok ([] : cstr) h) as [[[p1 l1]|] h1]; destruct S1 as [W1 L1]; [|init_failed Hfail K1 W1].
  pose proof (alloc_array_spec ok 0 h1 W1) as S2. pose proof (Hok _ 0 h1) as K2.
  destruct (alloc_array ok 0 h1) as [[[p2 l2]|] h2]; destruct S2 as [W2 L2]; [|init_failed Hfail K2 W2].
  pose proof (alloc_array_spec ok ts_zero_spec h2 W2) as S3. pose proof (Hok _ ts_zero_spec h2) as K3.
  destruct (alloc_array ok ts_zero_spec h2) as [[[p3 l3]|] h3]; destruct S3 as [W3 L3]; [|init_failed Hfail K3 W3].
  pose proof (alloc_array_spec ok ts_zero_spec h3 W3) as S4. pose proof (Hok _ ts_zero_spec h3) as K4.
  destruct (alloc_array ok ts_zero_spec h3) as [[[p4 l4]|] h4]; destruct S4 as [W4 L4]; [|init_failed Hfail K4 W4].
  pose proof (alloc_array_spec ok ts_zero_spec h4 W4) as S5. pose proof (Hok _ ts_zero_spec h4) as K5.
  destruct (alloc_array ok ts_zero_spec h4) as [[[p5 l5]|] h5]; destruct S5 as [W5 L5]; [|init_failed Hfail K5 W5].
  split_and!; [done| |done]. left. split_and!; [done| |].
  - split_and!; do 2 eexists; (split; [done|]); apply L1 || apply L2 || apply L3 || apply L4 || apply L5.
  - unfold corr_blocks. cbn. live_blocks.
Qed.

(** Initialising the correlation arrays from their unset state succeeds with all
    five arrays at their full size, or fails with none and with every block it
    took released; it succeeds when memory lasts; and the cleanup afterwards
    releases exactly the five blocks. *)
Theorem server_correlation_lifecycle (ok : nat -> bool) (h : heap) :
  heap_wf h ->
  let '(c, code, h') := init_server_tx_correlation ok no_correlation h in
  heap_wf h' /\
  (code = 0 /\ corr_full c /\
     hp_live (snd (cleanup_server_tx_correlation c h')) ≡ₚ hp_live h /\ length (hp_live h') = (5 + length (hp_live h))%nat
   \/ code = -1 /\ c = no_correlation /\ hp_live h' ≡ₚ hp_live h) /\
  ((forall n, ok n = true) -> code = 0).
Proof.
  intros Hw. pose proof (init_corr_spec ok h Hw) as H.
  destruct (init_server_tx_correlation ok no_correlation h) as [[c code] h'].
  destruct H as (Hw' & [(-> & Hf & Hl)|H] & Hok); (split_and!; [done| |done]); [left|by right].
  pose proof (cleanup_spec c h' (hp_live h) Hw' Hl) as Hc.
  destruct (cleanup_server_tx_correlation c h'). split_and!; [done|done|apply Hc|]. rewrite Hl, length_app.
  destruct Hf as ((?&?&E1&_) & (?&?&E2&_) & (?&?&E3&_) & (?&?&E4&_) & (?&?&E5&_)).
  unfold corr_blocks. by rewrite E1, E2, E3, E4, E5.
Qed.

Lemma server_correlation_lifecycle_witness :
  let ok := fun n => negb (Nat.eqb n 4) in
  let '(c, code, h') := init_server_tx_correlation ok no_correlation (Heap 0 []) in
  code = 0 /\ hp_live (snd (cleanup_server_tx_correlation c h')) ≡ₚ [].
Proof.
  assert (heap_wf (Heap 0 [])) as Hw by (split; constructor).
  pose proof (server_correlation_lifecycle (fun n => negb (Nat.eqb n 4)) (Heap 0 []) Hw) as H. cbn zeta.
  destruct (init_server_tx_correlation _ no_correlation (Heap 0 [])) as [[c code] h'] eqn:E.
  assert (code = 0) as ->.
  { change code with (snd (fst (c, code, h'))). rewrite <- E. clear E H. vm_compute. reflexivity. }
  destruct H as (_ & [(_ & _ & H & _)|[? _]] & _); [split; [reflexivity|exact H]|discriminate].
Defined.
