(* ===== verification/ServerRx.v ===== *)
(** The server's state, its one-way receive handler and its main loop with the
    duration check (timestamp_server.c). *)

From S2P Require Import Prelude CText Ring Heap Wire CsvLog CsvRing StatsCollector ServerQueue CorrArray ServerCorr TxStamps MainLoop.

(** The globals and the variables of the run functions that the handlers share.
    [sv_wire] records the packets given to the kernel, oldest first. *)
Record server := Server {
  sv_queue : ReturnPacketQueue;
  sv_corr : server_correlation;
  sv_csv_enabled : bool;
  sv_csv_buffer : option csv_ring_buffer_t;
  sv_tx_csv_buffer : option csv_ring_buffer_t;
  sv_stats : stats_globals;
  sv_pkt_hw_rx : timespec;           (* pkt_data.svr_hw_rx_ts *)
  sv_pkt_ker_rx : timespec;          (* pkt_data.svr_ker_rx_ts *)
  sv_packets_received : Z;           (* g_packets_received *)
  sv_packets_sent : Z;               (* g_packets_sent *)
  sv_total_received : Z;
  sv_local_sent : Z;                 (* local_packets_sent of the TX thread *)
  sv_wire : list (list Z * sockaddr_in) }.

Definition with_queue (s : server) (q : ReturnPacketQueue) : server :=
  Server q (sv_corr s) (sv_csv_enabled s) (sv_csv_buffer s) (sv_tx_csv_buffer s) (sv_stats s) (sv_pkt_hw_rx s)
    (sv_pkt_ker_rx s) (sv_packets_received s) (sv_packets_sent s) (sv_total_received s) (sv_local_sent s) (sv_wire s).
Definition with_corr (s : server) (c : server_correlation) : server :=
  Server (sv_queue s) c (sv_csv_enabled s) (sv_csv_buffer s) (sv_tx_csv_buffer s) (sv_stats s) (sv_pkt_hw_rx s)
    (sv_pkt_ker_rx s) (sv_packets_received s) (sv_packets_sent s) (sv_total_received s) (sv_local_sent s) (sv_wire s).
Definition with_csv (s : server) (b : option csv_ring_buffer_t) : server :=
  Server (sv_queue s) (sv_corr s) (sv_csv_enabled s) b (sv_tx_csv_buffer s) (sv_stats s) (sv_pkt_hw_rx s)
    (sv_pkt_ker_rx s) (sv_packets_received s) (sv_packets_sent s) (sv_total_received s) (sv_local_sent s) (sv_wire s).
Definition with_tx_csv (s : server) (b : option csv_ring_buffer_t) : server :=
  Server (sv_queue s) (sv_corr s) (sv_csv_enabled s) (sv_csv_buffer s) b (sv_stats s) (sv_pkt_hw_rx s)
    (sv_pkt_ker_rx s) (sv_packets_received s) (sv_packets_sent s) (sv_total_received s) (sv_local_sent s) (sv_wire s).
Definition with_stats (s : server) (g : stats_globals) : server :=
  Server (sv_queue s) (sv_corr s) (sv_csv_enabled s) (sv_csv_buffer s) (sv_tx_csv_buffer s) g (sv_pkt_hw_rx s)
    (sv_pkt_ker_rx s) (sv_packets_received s) (sv_packets_sent s) (sv_total_received s) (sv_local_sent s) (sv_wire s).
(** A received packet: its stamps stay in pkt_data, and both counters move. *)
Definition with_received (s : server) (hw ker : timespec) : server :=
  Server (sv_queue s) (sv_corr s) (sv_csv_enabled s) (sv_csv_buffer s) (sv_tx_csv_buffer s) (sv_stats s) hw ker
    (u64 (sv_packets_received s + 1)) (sv_packets_sent s) (u64 (sv_total_received s + 1)) (sv_local_sent s) (sv_wire s).
Definition with_sent (s : server) (packets : list (list Z * sockaddr_in)) : server :=
  Server (sv_queue s) (sv_corr s) (sv_csv_enabled s) (sv_csv_buffer s) (sv_tx_csv_buffer s) (sv_stats s)
    (sv_pkt_hw_rx s) (sv_pkt_ker_rx s) (sv_packets_received s) (u64 (sv_packets_sent s + zlen packets))
    (sv_total_received s) (u64 (sv_local_sent s + zlen packets)) (sv_wire s ++ packets).

(** A datagram as recvmsg returns it, and the clock read right after. *)
Record rx_datagram := RxDatagram {
  rd_bytes : list Z; rd_src : sockaddr_in; rd_cmsgs : list cmsg; rd_app_rx_ts : timespec }.
Definition datagram_wf (d : rx_datagram) : Prop :=
  bytes_wf (rd_bytes d) /\ zlen (rd_bytes d) <= 1500 /\ 0 <= sin_port (rd_src d) < 65536.

(** ** One-way mode *)

(** pkt_data.seq_num is a uint32_t: -1 is 4294967295. *)
Definition oneway_seq (bytes : list Z) : Z := if 4 <=? zlen bytes then ntohl_at bytes 0 else u32 (-1).
Definition oneway_stamps (d : rx_datagram) : Z * Z * Z :=
  let '(_, hw, ker) := extract_rx_timestamps (rd_cmsgs d) ts_zero_spec ts_zero_spec in
  (ts_ns hw, ts_ns ker, ts_ns (rd_app_rx_ts d)).

(** The body of the loop after recvmsg; pkt_data is zeroed for each packet. *)
Definition oneway_receive (s : server) (d : rx_datagram) : server :=
  let '(_, hw, ker) := extract_rx_timestamps (rd_cmsgs d) ts_zero_spec ts_zero_spec in
  let seq_num := oneway_seq (rd_bytes d) in
  let src_ip_str := inet_ntop (sin_addr (rd_src d)) in
  let client_src_port := sin_port (rd_src d) in
  let s := with_received s hw ker in
  let hw_rx_ns := ts_ns hw in
  let ker_rx_ns := ts_ns ker in
  let app_rx_ns := ts_ns (rd_app_rx_ts d) in
  let s :=
    if sv_csv_enabled s then
      with_csv s (log_csv (sv_csv_buffer s)
        (create_csv_server_oneway_main seq_num src_ip_str (u16 client_src_port) hw_rx_ns ker_rx_ns app_rx_ns))
    else s in
  let g := create_minimal_stats_entry (sv_stats s) seq_num (u16 client_src_port) TIMESTAMP_MODE_SERVER_ONEWAY in
  let g := update_stats_buffer_with_rx_timestamps g seq_num hw_rx_ns ker_rx_ns app_rx_ns 0 STATS_SERVER_ONEWAY in
  with_stats s g.

(** ** The main loop *)

Inductive recv_outcome := RecvEmpty | RecvError | RecvDatagram (d : rx_datagram).
(** The recvmsg call and what follows it, for the handler of a mode. *)
Definition server_step (receive : server -> rx_datagram -> server) (s : server) (r : recv_outcome) : option server :=
  match r with
  | RecvEmpty => Some s
  | RecvError => None
  | RecvDatagram d => Some (receive s d)
  end.
Definition server_loop (receive : server -> rx_datagram -> server)
    (program_duration_ns start_time max_cycles_between_checks : Z)
    (l : loop_state) (s : server) (ticks : list (loop_tick recv_outcome)) : option server :=
  main_loop (server_step receive) (0 <? program_duration_ns) (fun now => program_duration_ns <=? now - start_time)
    max_cycles_between_checks l s ticks.

Definition datagrams (inputs : list recv_outcome) : list rx_datagram :=
  omap (fun r => match r with RecvDatagram d => Some d | _ => None end) inputs.

Lemma server_run_steps receive inputs s s' :
  run_steps (server_step receive) s inputs = Some s' -> s' = fold_left receive (datagrams inputs) s.
Proof.
  revert s. induction inputs as [|r inputs IH]; intros s; cbn [run_steps]; [by intros [= <-]|].
  unfold datagrams. destruct r as [| |d]; cbn [server_step]; [apply IH|done|apply IH].
Qed.

(** ** One-way packets in the logs *)

Definition oneway_csv_entry (d : rx_datagram) : csv_entry_t :=
  let '(hw, ker, app) := oneway_stamps d in
  create_csv_server_oneway_main (oneway_seq (rd_bytes d)) (inet_ntop (sin_addr (rd_src d)))
    (sin_port (rd_src d)) hw ker app.
Definition oneway_stats_entry (d : rx_datagram) : stats_entry_t :=
  let '(hw, ker, app) := oneway_stamps d in
  StatsEntry (oneway_seq (rd_bytes d)) [0; 0; 0; 0; 0; 0; 0; hw; ker; app; 0; 0] (sin_port (rd_src d)) 3 128.

Lemma oneway_receive_spec s d b st :
  datagram_wf d -> sv_csv_enabled s = true -> sv_csv_buffer s = Some b ->
  sv_stats s = StatsGlobals true (Some st) -> ring_wf b -> ring_wf st ->
  let s' := oneway_receive s d in
  sv_csv_enabled s' = true /\ sv_total_received s' = u64 (sv_total_received s + 1) /\
  sv_csv_buffer s' = Some (fst (csv_enqueue_fast b (oneway_csv_entry d))) /\
  exists st', sv_stats s' = StatsGlobals true (Some st') /\ ring_wf st' /\ st_size_mask st' = st_size_mask st /\
    ring_contents st' = lastn (Z.to_nat (st_size_mask st)) (ring_contents st ++ [oneway_stats_entry d]).
Proof.
  intros (_ & _ & Hp) Hen Hb Hst Hwb Hws. unfold oneway_receive, oneway_csv_entry, oneway_stats_entry, oneway_stamps.
  destruct (extract_rx_timestamps (rd_cmsgs d) ts_zero_spec ts_zero_spec) as [[f hw] ker].
  cbv zeta. simpl sv_csv_enabled. simpl sv_csv_buffer. rewrite Hen, Hb. rewrite (u16_small (sin_port (rd_src d))) by lia.
  simpl. split_and!; try done. rewrite Hst. unfold update_stats_buffer_with_rx_timestamps.
  apply stats_record_spec. exact Hws.
Qed.

Lemma oneway_receive_all ds s b st :
  Forall datagram_wf ds -> sv_csv_enabled s = true -> sv_csv_buffer s = Some b ->
  sv_stats s = StatsGlobals true (Some st) -> ring_wf b -> ring_wf st ->
  let s' := fold_left oneway_receive ds s in
  u64 (sv_total_received s') = u64 (sv_total_received s + zlen ds) /\
  sv_csv_buffer s' = Some (csv_enqueue_all b (map oneway_csv_entry ds)) /\
  exists st', sv_stats s' = StatsGlobals true (Some st') /\ ring_wf st' /\
    ring_contents st' = lastn (Z.to_nat (st_size_mask st)) (ring_contents st ++ map oneway_stats_entry ds).
Proof.
  intros Hds. revert s b st. induction Hds as [|d ds Hd _ IH]; intros s b st Hen Hb Hst Hwb Hws; cbn [fold_left map].
  - split_and!; [by rewrite Z.add_0_r|done|]. exists st. split_and!; [done..|]. rewrite app_nil_r. symmetry.
    apply lastn_all. pose proof (ring_contents_length st Hws) as Hl. pose proof (ring_count_range st Hws) as Hr.
    unfold ring_size, zlen in *. simpl in Hr. lia.
  - destruct (oneway_receive_spec s d b st Hd Hen Hb Hst Hwb Hws) as (H1 & H2 & H3 & st' & H4 & H5 & H6 & H7).
    destruct (csv_enqueue_all_spec [oneway_csv_entry d] b Hwb) as (Hwb' & _). cbn [csv_enqueue_all fold_left] in Hwb'.
    destruct (IH _ _ _ H1 H3 H4 Hwb' H5) as (I1 & I2 & st'' & I3 & I4 & I5). split_and!; [|exact I2|].
    + rewrite I1, H2. unfold u64, zlen. cbn [length]. rewrite Z.add_mod_idemp_l by lia. f_equal. lia.
    + exists st''. split_and!; try done. rewrite I5, H6, H7. rewrite lastn_app_lastn, <- app_assoc. done.
Qed.

(** ** Properties *)

(** In one-way mode every received datagram is counted, logged and recorded: the
    CSV ring gains, in order and up to its capacity, one entry per datagram with
    the decoded sequence number, the source address and port and the three RX
    stamps; the statistics ring keeps the entries of the most recent datagrams
    with the same stamps. *)
Theorem oneway_logs_every_packet (ds : list rx_datagram) (s : server) (b : csv_ring_buffer_t) (st : stats_collector_t) :
  Forall datagram_wf ds -> sv_csv_enabled s = true -> sv_csv_buffer s = Some b ->
  sv_stats s = StatsGlobals true (Some st) -> ring_wf b -> ring_wf st ->
  let s' := fold_left oneway_receive ds s in
  u64 (sv_total_received s') = u64 (sv_total_received s + zlen ds) /\
  (exists b', sv_csv_buffer s' = Some b' /\ ring_wf b' /\
     ring_contents b' = take (Z.to_nat (cb_size_mask b)) (ring_contents b ++ map oneway_csv_entry ds)) /\
  (exists st', sv_stats s' = StatsGlobals true (Some st') /\ ring_wf st' /\
     ring_contents st' = lastn (Z.to_nat (st_size_mask st)) (ring_contents st ++ map oneway_stats_entry ds)).
Proof.
  intros Hds Hen Hb Hst Hwb Hws. destruct (oneway_receive_all ds s b st Hds Hen Hb Hst Hwb Hws) as (H1 & H2 & H3).
  destruct (csv_enqueue_all_spec (map oneway_csv_entry ds) b Hwb) as (Hw' & _ & Hc).
  split_and!; [done| |done]. eexists. by split_and!.
Qed.

(** A server with both logs on and small rings, and the datagram number [k]
    received from port 9000 with a hardware and a kernel stamp. *)
Definition demo_server : server :=
  Server demo_queue no_correlation true (Some (sample_ring (2 ^ 3) 2)) (Some (sample_ring (2 ^ 3) 2))
    (StatsGlobals true (Some (sample_collector (2 ^ 2)))) ts_zero_spec ts_zero_spec 0 0 0 0 [].
Definition demo_datagram (k : Z) : rx_datagram :=
  RxDatagram (htonl_bytes k ++ htonl_bytes 7000 ++ [0; 0; 0; 0]) (SockAddr 167772161 9000)
    [CmsgOther; CmsgTimestamping (Timespec 5 20) ts_zero_spec (Timespec 5 10)] (Timespec 5 (30 + k)).
Lemma demo_datagram_wf k : 0 <= k -> datagram_wf (demo_datagram k).
Proof.
  intros. split_and!; [|unfold zlen; simpl; lia|simpl; lia|simpl; lia]. unfold demo_datagram, bytes_wf, htonl_bytes. simpl.
  repeat (apply Forall_cons; split; [apply u8_range || lia|]). constructor.
Qed.

Lemma demo_datagrams_wf j k : 0 <= j -> 0 <= k -> Forall datagram_wf [demo_datagram j; demo_datagram k].
Proof. intros. by repeat (apply Forall_cons; split; [by apply demo_datagram_wf|]). Qed.

Lemma oneway_logs_every_packet_witness :
  exists b', sv_csv_buffer (fold_left oneway_receive [demo_datagram 1; demo_datagram 2] demo_server) = Some b' /\
    map ce_seq_num (ring_contents b') = [1; 2].
Proof.
  destruct (oneway_logs_every_packet [demo_datagram 1; demo_datagram 2] demo_server (sample_ring (2 ^ 3) 2)
    (sample_collector (2 ^ 2))
    (demo_datagrams_wf 1 2 ltac:(lia) ltac:(lia)) eq_refl eq_refl eq_refl
    (sample_ring_wf 3 2 ltac:(lia)) (sample_collector_wf 2 ltac:(lia))) as (_ & (b' & Hb & _ & Hc) & _).
  exists b'. split; [exact Hb|]. rewrite Hc. vm_compute. reflexivity.
Defined.

(** Once the run time is over the main loop ends within fifty iterations, for
    either mode's handler, and its final state is that handler applied in order
    to the datagrams received before. *)
Theorem server_loop_stops (receive : server -> rx_datagram -> server)
    (program_duration_ns start_time max_cycles_between_checks : Z) (l : loop_state) (s : server)
    (ticks : list (loop_tick recv_outcome)) :
  0 < program_duration_ns -> 0 <= ls_counter l < 18446744073709551516 ->
  Forall (fun t => program_duration_ns <= lt_now_ns t - start_time) ticks -> 50 <= zlen ticks ->
  exists inputs, inputs `prefix_of` map lt_input ticks /\
    server_loop receive program_duration_ns start_time max_cycles_between_checks l s ticks =
      Some (fold_left receive (datagrams inputs) s).
Proof.
  intros Hd Hl Ht Hn. pose proof (Z.mod_pos_bound (ls_counter l) 50 ltac:(lia)). unfold server_loop.
  set (over := fun now => program_duration_ns <=? now - start_time).
  destruct (main_loop_stops (server_step receive) (0 <? program_duration_ns) over max_cycles_between_checks l s ticks)
    as (s' & E); [by apply Z.ltb_lt|lia|lia| |lia|].
  { eapply Forall_impl; [exact Ht|]. intros t. apply Z.leb_le. }
  exists (loop_inputs (server_step receive) (0 <? program_duration_ns) over max_cycles_between_checks l s ticks).
  split; [apply loop_inputs_prefix|]. rewrite E. f_equal. apply server_run_steps. by apply main_loop_runs.
Qed.

Definition late_tick (d : rx_datagram) : loop_tick recv_outcome := LoopTick false 1000 5000 1000 (RecvDatagram d).
Lemma server_loop_stops_witness :
  let ticks := map (fun k => late_tick (demo_datagram (Z.of_nat k))) (seq 0 60) in
  exists s', server_loop oneway_receive 100 0 2000 (LoopState 47 0) demo_server ticks = Some s' /\
    sv_total_received s' = 2.
Proof.
  pose (ticks := map (fun k => late_tick (demo_datagram (Z.of_nat k))) (seq 0 60)).
  assert (Forall (fun t => 100 <= lt_now_ns t - 0) ticks) as Ht.
  { apply Forall_forall. intros t (k & -> & _)%list_elem_of_fmap. simpl. lia. }
  destruct (server_loop_stops oneway_receive 100 0 2000 (LoopState 47 0) demo_server ticks) as (inputs & _ & E);
    [lia|simpl; lia|exact Ht|vm_compute; discriminate|].
  eexists. split; [exact E|].
  assert (option_map sv_total_received (Some (fold_left oneway_receive (datagrams inputs) demo_server)) = Some 2) as E2.
  { rewrite <- E. vm_compute. reflexivity. }
  by injection E2.
Defined.
