(* ===== verification/ServerRt.v ===== *)
(** The server's round-trip mode (timestamp_server.c): the receive handler in its
    four parts, the iteration of the TX thread, the processing of TX timestamps,
    and the interleavings of the three threads. *)

From S2P Require Import Prelude CText Ring Heap Wire CsvLog CsvRing StatsCollector ServerQueue CorrArray ServerCorr TxStamps ServerRx.

(** ** Receiving *)

(** The decoded packet: pkt_data and the local variables of the loop body. *)
Record rt_packet := RtPacket {
  rk_bytes : list Z; rk_seq_num : Z; rk_client_rx_port : Z; rk_src : sockaddr_in;
  rk_hw : timespec; rk_ker : timespec; rk_app : timespec }.

(** The part up to the counters.  pkt_data is not zeroed here: without a
    timestamping control message the stamps of the previous packet remain. *)
Definition rt_decode (s : server) (d : rx_datagram) : server * rt_packet :=
  let '(_, hw, ker) := extract_rx_timestamps (rd_cmsgs d) (sv_pkt_hw_rx s) (sv_pkt_ker_rx s) in
  let num_bytes := zlen (rd_bytes d) in
  let '(seq_num, client_rx_port) :=
    if 8 <=? num_bytes then (ntohl_at (rd_bytes d) 0, s32 (ntohl_at (rd_bytes d) 4))
    else if 4 <=? num_bytes then (ntohl_at (rd_bytes d) 0, 0)
    else (u32 (-1), 0) in
  (with_received s hw ker, RtPacket (rd_bytes d) seq_num client_rx_port (rd_src d) hw ker (rd_app_rx_ts d)).

(** The request for the TX thread; htons keeps the low 16 bits of the port. *)
Definition rt_request (p : rt_packet) : ReturnPacketRequest :=
  let client_src_port := sin_port (rk_src p) in
  let return_port := if 0 <? rk_client_rx_port p then rk_client_rx_port p else client_src_port in
  ReturnRequest (rk_seq_num p) (SockAddr (sin_addr (rk_src p)) (u16 return_port)) (take 8 (rk_bytes p))
    (zlen (rk_bytes p)) client_src_port.
Definition rt_enqueue (s : server) (p : rt_packet) : server :=
  if 8 <=? zlen (rk_bytes p) then with_queue s (fst (enqueue_return_packet_request (sv_queue s) (rt_request p))) else s.
Definition rt_store (s : server) (p : rt_packet) : server :=
  with_corr s (store_server_rx_timestamps (sv_corr s) (rk_seq_num p) (rk_hw p) (rk_ker p) (rk_app p)
                 (inet_ntop (sin_addr (rk_src p))) (sin_port (rk_src p))).
Definition rt_stats (s : server) (p : rt_packet) : server :=
  let g := create_minimal_stats_entry (sv_stats s) (rk_seq_num p) (u16 (sin_port (rk_src p))) TIMESTAMP_MODE_SERVER_ROUNDTRIP in
  with_stats s (update_stats_buffer_with_rx_timestamps g (rk_seq_num p) (ts_ns (rk_hw p)) (ts_ns (rk_ker p))
                  (ts_ns (rk_app p)) 0 STATS_SERVER_ROUNDTRIP).

Definition roundtrip_receive (s : server) (d : rx_datagram) : server :=
  let '(s, p) := rt_decode s d in
  rt_stats (rt_store (rt_enqueue s p) p) p.

(** ** The TX thread *)

(** construct_return_packet: the first four bytes of the packet. *)
Definition construct_return_packet (original_packet : list Z) : list Z := take 4 original_packet.

(** What sendmmsg returned; after an error other than EAGAIN each packet is given
    to sendto, which succeeds or not. *)
Inductive send_outcome := SendCount (n : nat) | SendAgain | SendError (individual : list bool).

Definition queue_depth (q : ReturnPacketQueue) : Z := Z.land (u32 (rp_tail q - rp_head q)) (rp_size_mask q).
Definition target_batch_size (q : ReturnPacketQueue) : Z :=
  Z.max (if 0 <? queue_depth q then s32 (Z.min BATCH_SIZE (queue_depth q)) else 1) 1.

(** Statistics and CSV entry of one packet sent. *)
Definition tx_record (s : server) (req : ReturnPacketRequest) (app_tx : timespec) : server :=
  let s := with_stats s (update_stats_buffer_with_app_tx_timestamp (sv_stats s) (rq_seq_num req) (ts_ns app_tx) 0
                           STATS_SERVER_ROUNDTRIP) in
  if sv_csv_enabled s then
    match server_slot_at (sv_corr s) (get_circular_index (rq_seq_num req)) with
    | Some sl =>
        with_csv s (log_csv (sv_csv_buffer s)
          (create_csv_server_roundtrip_main (rq_seq_num req) (sl_ip sl) (u16 (rq_original_client_src_port req))
             (ts_ns (sl_hw sl)) (ts_ns (sl_ker sl)) (ts_ns (sl_app sl)) (ts_ns app_tx)))
    | None => s
    end
  else s.

Definition return_packet (req : ReturnPacketRequest) : list Z * sockaddr_in :=
  (construct_return_packet (rq_packet_data req), rq_return_addr req).
(** The requests whose sendto succeeded. *)
Definition kept (flags : list bool) (batch : list ReturnPacketRequest) : list ReturnPacketRequest :=
  map snd (List.filter (fun x => fst x) (zip flags batch)).

(** One iteration of the loop of tx_thread_func; [clock] are the stamps taken for
    the batch. *)
Definition tx_iteration (s : server) (clock : nat -> timespec) (outcome : send_outcome) : server :=
  let target := target_batch_size (sv_queue s) in
  let '(q, batch) := dequeue_return_packet_batch (sv_queue s) (Z.to_nat target) in
  let s := with_queue s q in
  match batch with
  | [] => s
  | _ =>
      match outcome with
      | SendCount sent =>
          let s := with_sent s (map return_packet (take sent batch)) in
          fold_left (fun s '(req, i) => tx_record s req (clock i)) (zip (take sent batch) (seq 0 sent)) s
      | SendAgain => s
      | SendError individual => with_sent s (map return_packet (kept individual batch))
      end
  end.

(** ** TX timestamps *)

Definition tx_stamp_handle (s : server) (seq_num ns : Z) : server * Z :=
  match server_slot_at (sv_corr s) (get_circular_index seq_num) with
  | None => (s, 0)
  | Some sl =>
      let '(s, counted) :=
        match sv_tx_csv_buffer s with
        | Some b =>
            if sv_csv_enabled s then
              (with_tx_csv s (log_csv (Some b) (create_csv_server_tx seq_num (sl_ip sl) (u16 (sl_port sl)) ns)), 1)
            else (s, 0)
        | None => (s, 0)
        end in
      (with_stats s (update_stats_buffer_with_tx_timestamp (sv_stats s) seq_num ns STATS_SERVER_ROUNDTRIP), counted)
  end.
Definition process_tx_timestamps_in_main_thread (s : server) (queue : list errq_recv) : server * Z * list errq_recv :=
  match sv_tx_csv_buffer s with
  | None => if sg_enabled (sv_stats s) then errq_batch tx_stamp_handle TX_TIMESTAMP_BATCH_SIZE s 0 queue else (s, 0, queue)
  | Some _ => errq_batch tx_stamp_handle TX_TIMESTAMP_BATCH_SIZE s 0 queue
  end.
(** The drain loops at the end of the timestamp thread and of the main thread. *)
Definition drain_tx_timestamps (s : server) (queue : list errq_recv) : option (server * list errq_recv) :=
  errq_drain process_tx_timestamps_in_main_thread (S (length queue)) s queue.

(** ** Interleavings *)

(** Where the receive loop is; the other two threads act in whole iterations. *)
Inductive rt_pc := RxIdle | RxDecoded (p : rt_packet) | RxQueued (p : rt_packet) | RxStored (p : rt_packet).
Record rt_system := RtSystem { rs_pc : rt_pc; rs_server : server; rs_received : list rx_datagram }.

Inductive rt_step : rt_system -> rt_system -> Prop :=
  | rt_step_receive s got d :
      datagram_wf d ->
      rt_step (RtSystem RxIdle s got) (RtSystem (RxDecoded (snd (rt_decode s d))) (fst (rt_decode s d)) (got ++ [d]))
  | rt_step_enqueue s got p : rt_step (RtSystem (RxDecoded p) s got) (RtSystem (RxQueued p) (rt_enqueue s p) got)
  | rt_step_store s got p : rt_step (RtSystem (RxQueued p) s got) (RtSystem (RxStored p) (rt_store s p) got)
  | rt_step_stats s got p : rt_step (RtSystem (RxStored p) s got) (RtSystem RxIdle (rt_stats s p) got)
  | rt_step_tx pc s got clock outcome : rt_step (RtSystem pc s got) (RtSystem pc (tx_iteration s clock outcome) got)
  | rt_step_stamps pc s got queue :
      rt_step (RtSystem pc s got) (RtSystem pc (fst (fst (process_tx_timestamps_in_main_thread s queue))) got).

(** ** Lemmas: the traffic *)

(** Steps that log leave the queue, the packets sent and the counters alone. *)
Definition same_traffic (s s' : server) : Prop :=
  sv_queue s' = sv_queue s /\ sv_wire s' = sv_wire s /\ sv_packets_sent s' = sv_packets_sent s /\
  sv_packets_received s' = sv_packets_received s /\ sv_local_sent s' = sv_local_sent s /\
  sv_total_received s' = sv_total_received s.
#[export] Instance same_traffic_preorder : PreOrder same_traffic.
Proof. split; unfold same_traffic; [done|intros ? ? ? ? ?; intuition congruence]. Qed.

Lemma tx_record_traffic s req ts : same_traffic s (tx_record s req ts).
Proof. unfold tx_record. cbv zeta. repeat case_match; by repeat split. Qed.
Lemma errq_batch_traffic n s k queue : same_traffic s (fst (fst (errq_batch tx_stamp_handle n s k queue))).
Proof.
  revert s k queue. induction n as [|n IH]; intros s k queue; [done|]. cbn [errq_batch].
  destruct queue as [|[p c| |] queue]; try done.
  destruct (tx_stamp_of p c) as [seq ns]. destruct (tx_stamp_handle s seq ns) as [s' c'] eqn:E.
  etrans; [|apply IH]. unfold tx_stamp_handle in E. cbv zeta in E. repeat case_match; simplify_eq/=; by repeat split.
Qed.
Lemma process_stamps_traffic s queue : same_traffic s (fst (fst (process_tx_timestamps_in_main_thread s queue))).
Proof.
  unfold process_tx_timestamps_in_main_thread. destruct (sv_tx_csv_buffer s); [apply errq_batch_traffic|].
  destruct (sg_enabled _); [apply errq_batch_traffic|done].
Qed.

(** A TX iteration sends a subsequence of the batch it takes from the queue. *)
Lemma kept_sublist flags batch : kept flags batch `sublist_of` batch.
Proof.
  unfold kept. revert batch. induction flags as [|f flags IH]; intros [|r batch]; simpl; try apply sublist_nil_l.
  destruct f; simpl; [by apply sublist_skip|by apply sublist_cons].
Qed.

Lemma tx_iteration_traffic s clock outcome :
  ring_wf (sv_queue s) ->
  let s' := tx_iteration s clock outcome in
  exists n sent, sent `sublist_of` take n (ring_contents (sv_queue s)) /\
    sv_wire s' = sv_wire s ++ map return_packet sent /\
    ring_wf (sv_queue s') /\ ring_contents (sv_queue s') = drop n (ring_contents (sv_queue s)) /\
    u64 (sv_packets_sent s') = u64 (sv_packets_sent s + zlen sent) /\
    sv_packets_received s' = sv_packets_received s.
Proof.
  intros Hw. cbn zeta. unfold tx_iteration. exists (Z.to_nat (target_batch_size (sv_queue s))).
  pose proof (dequeue_batch_spec (Z.to_nat (target_batch_size (sv_queue s))) (sv_queue s) Hw) as Hd.
  destruct (dequeue_return_packet_batch _ _) as [q batch]. destruct Hd as (Hw' & _ & -> & Hc).
  set (batch := take _ _). clearbody batch.
  assert (forall (s1 : server) sent, s1 = with_sent (with_queue s q) (map return_packet sent) ->
    sv_wire s1 = sv_wire s ++ map return_packet sent /\ sv_queue s1 = q /\
    u64 (sv_packets_sent s1) = u64 (sv_packets_sent s + zlen sent) /\
    sv_packets_received s1 = sv_packets_received s) as Hsent.
  { intros s1 sent ->. simpl. split_and!; try done. unfold u64, zlen. rewrite length_map.
    by rewrite Z.mod_mod by lia. }
  destruct batch as [|r batch].
  { exists []. rewrite app_nil_r, Z.add_0_r. by split_and!. }
  destruct outcome as [sent| |flags].
  - exists (take sent (r :: batch)). set (s1 := with_sent _ _). destruct (Hsent s1 _ eq_refl) as (H1 & H2 & H3 & H4).
    set (f := fun s '(req, i) => _). set (l := zip _ _).
    destruct (fold_left_rel same_traffic f l s1) as (T1 & T2 & T3 & T4 & _); [intros ? []; apply tx_record_traffic|].
    rewrite T1, T2, T3, T4, H1, H2, H3, H4. split_and!; try done. apply sublist_take.
  - exists []. rewrite app_nil_r, Z.add_0_r. split_and!; try done; apply sublist_nil_l.
  - exists (kept flags (r :: batch)). destruct (Hsent _ (kept flags (r :: batch)) eq_refl) as (H1 & H2 & H3 & H4).
    rewrite H2. split_and!; try done. apply kept_sublist.
Qed.

(** ** Echoes *)

(** The return packet a datagram asks for: its first four bytes, to the address it
    came from and the port it names. *)
Definition echo_of (d : rx_datagram) : option (list Z * sockaddr_in) :=
  if 8 <=? zlen (rd_bytes d) then
    let port := s32 (ntohl_at (rd_bytes d) 4) in
    Some (take 4 (rd_bytes d),
          SockAddr (sin_addr (rd_src d)) (if 0 <? port then u16 port else sin_port (rd_src d)))
  else None.

Definition pending (pc : rt_pc) : list (list Z * sockaddr_in) :=
  match pc with
  | RxDecoded p => if 8 <=? zlen (rk_bytes p) then [return_packet (rt_request p)] else []
  | _ => []
  end.

Definition rt_inv (x : rt_system) : Prop :=
  let s := rs_server x in
  ring_wf (sv_queue s) /\
  (exists pre, omap echo_of (rs_received x) = pre ++ pending (rs_pc x) /\
     (sv_wire s ++ map return_packet (ring_contents (sv_queue s))) `sublist_of` pre) /\
  u64 (sv_packets_sent s) = u64 (zlen (sv_wire s)) /\
  u64 (sv_packets_received s) = u64 (zlen (rs_received x)).

Lemma decode_echo s d : datagram_wf d -> omap echo_of [d] = pending (RxDecoded (snd (rt_decode s d))).
Proof.
  intros (_ & _ & Hp). unfold rt_decode. destruct (extract_rx_timestamps _ _ _) as [[f hw] ker].
  unfold echo_of, pending, return_packet, rt_request. cbn.
  destruct (Z.leb_spec 8 (zlen (rd_bytes d))) as [H8|H8]; cbn.
  - rewrite (proj2 (Z.leb_le _ _) H8). unfold construct_return_packet. rewrite take_take.
    do 3 f_equal. destruct (0 <? _); [done|]. by rewrite u16_small.
  - destruct (4 <=? _); cbn; by rewrite (proj2 (Z.leb_gt _ _) H8).
Qed.

Lemma rt_inv_traffic pc pc' s s' got :
  same_traffic s s' -> pending pc = pending pc' -> rt_inv (RtSystem pc s got) -> rt_inv (RtSystem pc' s' got).
Proof.
  intros (E1 & E2 & E3 & E4 & _) Ep. unfold rt_inv. cbn [rs_server rs_pc rs_received].
  by rewrite E1, E2, E3, E4, Ep.
Qed.

Lemma u64_succ a b : u64 a = u64 b -> u64 (u64 (a + 1)) = u64 (b + 1).
Proof.
  unfold u64. intros H. rewrite Z.mod_mod by lia. rewrite <- Z.add_mod_idemp_l, H by lia. apply Z.add_mod_idemp_l. lia.
Qed.

Lemma rt_step_inv x x' : rt_inv x -> rt_step x x' -> rt_inv x'.
Proof.
  intros Hi Hs. destruct Hs as [s got d Hd|s got p|s got p|s got p|pc s got clock outcome|pc s got queue].
  - pose proof (decode_echo s d Hd) as He. unfold rt_inv in *.
    cbn [rs_server rs_pc rs_received] in *. destruct Hi as (Hw & (pre & Hp & Hsub) & Hsent & Hrecv).
    assert (fst (rt_decode s d) = with_received s (rk_hw (snd (rt_decode s d))) (rk_ker (snd (rt_decode s d)))) as ->.
    { unfold rt_decode. destruct (extract_rx_timestamps _ _ _) as [[f hw] ker]. by repeat case_match. }
    split_and!; try done.
    + exists (pre ++ []). rewrite omap_app, Hp, He. cbn [pending]. split; [done|]. by rewrite app_nil_r.
    + simpl. rewrite (u64_succ _ _ Hrecv). unfold zlen. rewrite length_app. f_equal. simpl. lia.
  - unfold rt_inv, rt_enqueue in *. cbn [rs_server rs_pc rs_received pending] in *.
    destruct Hi as (Hw & (pre & Hp & Hsub) & Hsent & Hrecv).
    destruct (8 <=? zlen (rk_bytes p)); cbn [sv_queue sv_wire with_queue]; [|split_and!; try done; by exists pre].
    pose proof (enqueue_request_spec (sv_queue s) (rt_request p) Hw) as Hq.
    destruct (enqueue_return_packet_request _ _) as [q ok]. destruct Hq as (Hw' & _ & _ & Hc).
    split_and!; try done. exists (pre ++ [return_packet (rt_request p)]). rewrite app_nil_r. split; [done|].
    cbn [fst]. rewrite Hc. destruct ok.
    + rewrite map_app, app_assoc. by apply sublist_app.
    + by apply sublist_inserts_r.
  - eapply rt_inv_traffic; [|done|exact Hi]. by repeat split.
  - eapply rt_inv_traffic; [|done|exact Hi]. by repeat split.
  - unfold rt_inv in *. cbn [rs_server rs_pc rs_received] in *. destruct Hi as (Hw & (pre & Hp & Hsub) & Hsent & Hrecv).
    destruct (tx_iteration_traffic s clock outcome Hw) as (n & sent & Hs & Ew & Hw' & Ec & Es & Er).
    rewrite Ew, Ec, Es, Er. split_and!; try done.
    + exists pre. split; [done|]. etrans; [|exact Hsub]. rewrite <- app_assoc. apply sublist_app; [done|].
      rewrite <- (take_drop n (ring_contents (sv_queue s))) at 2. rewrite map_app. apply sublist_app; [|done].
      clear -Hs. induction Hs; simpl; by constructor.
    + unfold u64, zlen in *. rewrite length_app, length_map, Nat2Z.inj_add.
      rewrite <- Z.add_mod_idemp_l, Hsent by lia. apply Z.add_mod_idemp_l. lia.
  - eapply rt_inv_traffic; [apply process_stamps_traffic|done|exact Hi].
Qed.

Lemma reachable_inv s x :
  ring_wf (sv_queue s) -> ring_contents (sv_queue s) = [] -> sv_wire s = [] ->
  sv_packets_sent s = 0 -> sv_packets_received s = 0 -> rtc rt_step (RtSystem RxIdle s []) x -> rt_inv x.
Proof.
  intros Hw Hc Hwire Hs Hr Hx.
  assert (rt_inv (RtSystem RxIdle s [])) as Hi.
  { unfold rt_inv. cbn [rs_server rs_pc rs_received]. rewrite Hc, Hwire, Hs, Hr. split_and!; try done. by exists []. }
  revert Hi. clear -Hx. induction Hx; [done|]. intros Hi. apply IHHx. by eapply rt_step_inv.
Qed.
Lemma echoes_of_reachable s x :
  ring_wf (sv_queue s) -> ring_contents (sv_queue s) = [] -> sv_wire s = [] ->
  sv_packets_sent s = 0 -> sv_packets_received s = 0 -> rtc rt_step (RtSystem RxIdle s []) x ->
  sv_wire (rs_server x) `sublist_of` omap echo_of (rs_received x).
Proof.
  intros Hw Hc Hwire Hs Hr Hx. destruct (reachable_inv s x Hw Hc Hwire Hs Hr Hx) as (_ & (pre & Hp & Hsub) & _).
  rewrite Hp. apply sublist_inserts_r. etrans; [|exact Hsub]. by apply sublist_inserts_r.
Qed.

(** ** Lemmas: the logs *)

(** The entry of a request sent at [ts], from the slot as it is then. *)
Definition tx_csv_entry (c : server_correlation) (req : ReturnPacketRequest) (ts : timespec) : csv_entry_t :=
  let sl := default (ServerSlot [] 0 ts_zero_spec ts_zero_spec ts_zero_spec)
              (server_slot_at c (get_circular_index (rq_seq_num req))) in
  create_csv_server_roundtrip_main (rq_seq_num req) (sl_ip sl) (u16 (rq_original_client_src_port req))
    (ts_ns (sl_hw sl)) (ts_ns (sl_ker sl)) (ts_ns (sl_app sl)) (ts_ns ts).

Lemma tx_record_logs s req ts b :
  sv_csv_enabled s = true -> sv_csv_buffer s = Some b -> corr_full (sv_corr s) ->
  let s' := tx_record s req ts in
  sv_csv_enabled s' = true /\ sv_csv_buffer s' = Some (fst (csv_enqueue_fast b (tx_csv_entry (sv_corr s) req ts))) /\
  sv_corr s' = sv_corr s.
Proof.
  intros He Hb Hc. unfold tx_record, tx_csv_entry. cbv zeta. simpl sv_csv_enabled. rewrite He.
  simpl sv_corr. simpl sv_csv_buffer.
  destruct (slot_full (sv_corr s) (get_circular_index (rq_seq_num req)) Hc (get_circular_index_range _)) as [sl ->].
  rewrite Hb. done.
Qed.

Lemma tx_record_all_log l s b :
  sv_csv_enabled s = true -> sv_csv_buffer s = Some b -> corr_full (sv_corr s) ->
  forall clock : nat -> timespec,
  sv_csv_buffer (fold_left (fun s '(req, i) => tx_record s req (clock i)) l s) =
    Some (csv_enqueue_all b (map (fun '(req, i) => tx_csv_entry (sv_corr s) req (clock i)) l)).
Proof.
  intros He Hb Hc clock. revert s b He Hb Hc. induction l as [|[req i] l IH]; intros s b He Hb Hc; [done|].
  cbn [fold_left map]. destruct (tx_record_logs s req (clock i) b He Hb Hc) as (H1 & H2 & H3).
  rewrite (IH _ _ H1 H2) by (by rewrite H3). by rewrite H3.
Qed.

Lemma target_batch_size_eq q :
  ring_wf q -> target_batch_size q = Z.max 1 (Z.min 128 (zlen (ring_contents q))).
Proof.
  intros Hw. rewrite ring_contents_length by done. pose proof (ring_count_range q Hw).
  assert (queue_depth q = ring_count q) as Hd.
  { unfold queue_depth, ring_count. destruct Hw as (Hm & _). rewrite is_mask_land by exact Hm. by apply is_mask_u32. }
  unfold target_batch_size. rewrite Hd. unfold BATCH_SIZE. destruct (Z.ltb_spec 0 (ring_count q)); [|lia].
  rewrite s32_small by lia. lia.
Qed.

(** One iteration that sends [sent] of the packets waiting. *)
Lemma tx_iteration_logs s clock b sent :
  ring_wf (sv_queue s) -> sv_csv_enabled s = true -> sv_csv_buffer s = Some b -> corr_full (sv_corr s) ->
  let batch := take 128 (ring_contents (sv_queue s)) in
  let s' := tx_iteration s clock (SendCount sent) in
  sv_csv_buffer s' =
    Some (csv_enqueue_all b (map (fun '(req, i) => tx_csv_entry (sv_corr s) req (clock i))
                               (zip (take sent batch) (seq 0 sent)))) /\
  sv_wire s' = sv_wire s ++ map return_packet (take sent batch) /\
  ring_contents (sv_queue s') = drop 128 (ring_contents (sv_queue s)).
Proof.
  intros Hw He Hb Hc. cbn zeta. unfold tx_iteration. pose proof (target_batch_size_eq _ Hw) as Ht.
  pose proof (dequeue_batch_spec (Z.to_nat (target_batch_size (sv_queue s))) (sv_queue s) Hw) as Hd.
  destruct (dequeue_return_packet_batch _ _) as [q batch]. destruct Hd as (Hw' & _ & Eb & Ec).
  unfold zlen in Ht. set (c := ring_contents (sv_queue s)) in *.
  assert (batch = take 128 c /\ ring_contents q = drop 128 c) as [-> Eq].
  { rewrite Eb, Ec. destruct (decide (length c <= 128)%nat).
    - rewrite !take_ge, !drop_ge by lia. done.
    - replace (Z.to_nat (target_batch_size (sv_queue s))) with 128%nat by lia. done. }
  clear Eb Ec. rewrite <- Eq. clear Eq. clearbody c. set (batch := take 128 c). clearbody batch.
  destruct batch as [|r batch]. { rewrite take_nil. cbn. by rewrite app_nil_r, Hb. }
  set (s1 := with_sent _ _). rewrite (tx_record_all_log _ s1 b) by done.
  set (f := fun s '(req, i) => _). set (l := zip _ _).
  destruct (fold_left_rel same_traffic f l s1) as (T1 & T2 & _); [intros ? []; apply tx_record_traffic|].
  rewrite T1, T2. done.
Qed.

(** ** Properties *)

(** C9: whatever the interleaving of the receive loop, the TX thread and the TX
    timestamp thread, the packets the server sends are, in order and at most once
    each, echoes of datagrams it received: the first four bytes, to the source
    address and to the port the datagram names, or its source port; and the
    counters count the datagrams received and the packets sent. *)
Theorem return_packets_are_echoes (s : server) (x : rt_system) :
  ring_wf (sv_queue s) -> ring_contents (sv_queue s) = [] -> sv_wire s = [] ->
  sv_packets_sent s = 0 -> sv_packets_received s = 0 ->
  rtc rt_step (RtSystem RxIdle s []) x ->
  sv_wire (rs_server x) `sublist_of` omap echo_of (rs_received x) /\
  u64 (sv_packets_sent (rs_server x)) = u64 (zlen (sv_wire (rs_server x))) /\
  u64 (sv_packets_received (rs_server x)) = u64 (zlen (rs_received x)).
Proof.
  intros Hw Hc Hwire Hs Hr Hx. destruct (reachable_inv s x Hw Hc Hwire Hs Hr Hx) as (_ & _ & ? & ?).
  split_and!; try done. by eapply echoes_of_reachable.
Qed.

Definition demo_rt_server : server := with_corr demo_server
  (ServerCorrelation (Some (10%nat, replicate (Z.to_nat 50000) [])) (Some (11%nat, replicate (Z.to_nat 50000) 0))
     (Some (12%nat, replicate (Z.to_nat 50000) ts_zero_spec)) (Some (13%nat, replicate (Z.to_nat 50000) ts_zero_spec))
     (Some (14%nat, replicate (Z.to_nat 50000) ts_zero_spec))).
Lemma demo_rt_corr_full : corr_full (sv_corr demo_rt_server).
Proof. split_and!; do 2 eexists; (split; [reflexivity|]); unfold zlen; rewrite length_replicate; reflexivity. Qed.

(** The system after a received datagram was queued and the TX thread sent it. *)
Definition demo_rt_end : rt_system :=
  let '(s, p) := rt_decode demo_server (demo_datagram 5) in
  RtSystem (RxQueued p) (tx_iteration (rt_enqueue s p) (fun _ => ts_zero_spec) (SendCount 1)) [demo_datagram 5].
Lemma return_packets_are_echoes_witness :
  sv_wire (rs_server demo_rt_end) = [(htonl_bytes 5, SockAddr 167772161 7000)] /\
  sv_wire (rs_server demo_rt_end) `sublist_of` omap echo_of (rs_received demo_rt_end).
Proof.
  split; [vm_compute; reflexivity|].
  refine (proj1 (return_packets_are_echoes demo_server demo_rt_end demo_queue_wf eq_refl eq_refl eq_refl eq_refl _)).
  eapply rtc_l; [apply (rt_step_receive demo_server [] (demo_datagram 5)); apply demo_datagram_wf; lia|].
  eapply rtc_l; [apply rt_step_enqueue|].
  eapply rtc_l; [apply (rt_step_tx _ _ _ (fun _ => ts_zero_spec) (SendCount 1))|]. apply rtc_refl.
Defined.

(** One iteration of the TX thread with [sent] packets accepted by the kernel
    sends the oldest waiting packets, at most 128, and logs one entry for each
    packet sent, built from the RX stamps stored at that moment; the packets of
    the batch that were not sent leave the queue without a trace. *)
Theorem tx_iteration_sends_and_logs (s : server) (clock : nat -> timespec) (b : csv_ring_buffer_t) (sent : nat) :
  ring_wf (sv_queue s) -> sv_csv_enabled s = true -> sv_csv_buffer s = Some b -> ring_wf b -> corr_full (sv_corr s) ->
  let batch := take 128 (ring_contents (sv_queue s)) in
  let s' := tx_iteration s clock (SendCount sent) in
  sv_wire s' = sv_wire s ++ map return_packet (take sent batch) /\
  ring_contents (sv_queue s') = drop 128 (ring_contents (sv_queue s)) /\
  exists b', sv_csv_buffer s' = Some b' /\ ring_wf b' /\
    ring_contents b' = take (Z.to_nat (cb_size_mask b)) (ring_contents b ++
      map (fun '(req, i) => tx_csv_entry (sv_corr s) req (clock i)) (zip (take sent batch) (seq 0 sent))).
Proof.
  intros Hw He Hb Hwb Hc. destruct (tx_iteration_logs s clock b sent Hw He Hb Hc) as (H1 & H2 & H3).
  split_and!; [done..|]. eexists. split; [exact H1|].
  destruct (csv_enqueue_all_spec (map (fun '(req, i) => tx_csv_entry (sv_corr s) req (clock i))
    (zip (take sent (take 128 (ring_contents (sv_queue s)))) (seq 0 sent))) b Hwb) as (? & _ & ?). done.
Qed.

Definition loaded_queue (k : Z) : ReturnPacketQueue := fst (enqueue_return_packet_request demo_queue (demo_request k)).
Lemma loaded_queue_wf k : ring_wf (loaded_queue k).
Proof.
  pose proof (enqueue_request_spec demo_queue (demo_request k) demo_queue_wf) as H.
  unfold loaded_queue. destruct (enqueue_return_packet_request demo_queue (demo_request k)). apply H.
Qed.

Lemma tx_iteration_sends_and_logs_witness :
  let s' := tx_iteration (with_queue demo_rt_server (loaded_queue 6)) (fun _ => Timespec 7 8) (SendCount 1) in
  sv_wire s' = [(htonl_bytes 6, SockAddr 167772161 9000)] /\
  exists b', sv_csv_buffer s' = Some b' /\ map ce_seq_num (ring_contents b') = [6].
Proof.
  destruct (tx_iteration_sends_and_logs (with_queue demo_rt_server (loaded_queue 6)) (fun _ => Timespec 7 8)
    (sample_ring (2 ^ 3) 2) 1 (loaded_queue_wf 6) eq_refl eq_refl (sample_ring_wf 3 2 ltac:(lia)) demo_rt_corr_full)
    as (Hw & _ & b' & Hb & _ & Hc).
  split; [rewrite Hw; vm_compute; reflexivity|]. exists b'. split; [exact Hb|]. rewrite Hc. vm_compute. reflexivity.
Defined.

(** A datagram whose RX stamps are stored before the TX thread sends its return
    packet is logged with its own address and stamps; when the TX thread runs
    between the enqueue and the store, the entry is logged with what the slot held
    before, and the stamps arrive too late. *)
Theorem log_entry_depends_on_store_order (s : server) (d : rx_datagram) (clock : nat -> timespec) (b : csv_ring_buffer_t) :
  datagram_wf d -> 8 <= zlen (rd_bytes d) -> ring_wf (sv_queue s) -> ring_contents (sv_queue s) = [] ->
  0 < rp_size_mask (sv_queue s) ->
  sv_csv_enabled s = true -> sv_csv_buffer s = Some b -> ring_wf b -> corr_full (sv_corr s) ->
  let '(s1, p) := rt_decode s d in
  let queued := rt_enqueue s1 p in
  let index := get_circular_index (rk_seq_num p) in
  let entry ip hw ker app := create_csv_server_roundtrip_main (ntohl_at (rd_bytes d) 0) ip (sin_port (rd_src d))
                               (ts_ns hw) (ts_ns ker) (ts_ns app) (ts_ns (clock 0%nat)) in
  let logs s' e := exists b', sv_csv_buffer s' = Some b' /\
                     ring_contents b' = take (Z.to_nat (cb_size_mask b)) (ring_contents b ++ [e]) in
  logs (tx_iteration (rt_store queued p) clock (SendCount 1))
       (entry (inet_ntop (sin_addr (rd_src d))) (rk_hw p) (rk_ker p) (rd_app_rx_ts d)) /\
  (exists sl, server_slot_at (sv_corr s) index = Some sl /\
     logs (rt_store (tx_iteration queued clock (SendCount 1)) p) (entry (sl_ip sl) (sl_hw sl) (sl_ker sl) (sl_app sl))).
Proof.
  intros (_ & _ & Hp) H8 Hw Hc0 Hm He Hb Hwb Hcorr. unfold rt_decode.
  destruct (extract_rx_timestamps _ _ _) as [[f hw] ker]. rewrite (proj2 (Z.leb_le _ _) H8).
  set (p := RtPacket _ _ _ _ _ _ _). cbn zeta.
  set (s1 := with_received s hw ker). set (queued := rt_enqueue s1 p).
  assert (ring_wf (sv_queue queued) /\ ring_contents (sv_queue queued) = [rt_request p] /\ sv_corr queued = sv_corr s /\
    sv_csv_enabled queued = true /\ sv_csv_buffer queued = Some b) as (Hw1 & Hc1 & Hcorr1 & He1 & Hb1).
  { unfold queued, rt_enqueue. change (rk_bytes p) with (rd_bytes d). rewrite (proj2 (Z.leb_le _ _) H8).
    pose proof (enqueue_request_spec (sv_queue s1) (rt_request p) Hw) as Hq. change (sv_queue s1) with (sv_queue s) in *.
    destruct (enqueue_return_packet_request (sv_queue s) (rt_request p)) as [q ok]. destruct Hq as (? & _ & Hok & Hq).
    rewrite Hc0 in *. assert (ok = true) as -> by (rewrite Hok; apply Z.ltb_lt; unfold zlen; simpl; lia). done. }
  clearbody queued.
  assert (forall s2, ring_wf (sv_queue s2) -> ring_contents (sv_queue s2) = [rt_request p] -> sv_csv_enabled s2 = true ->
    sv_csv_buffer s2 = Some b -> corr_full (sv_corr s2) ->
    sv_csv_buffer (tx_iteration s2 clock (SendCount 1)) =
      Some (csv_enqueue_all b [tx_csv_entry (sv_corr s2) (rt_request p) (clock O)])) as Htx.
  { intros s2 ? Hc2 ? ? ?. destruct (tx_iteration_logs s2 clock b 1) as (-> & _); try done. by rewrite Hc2. }
  assert (forall e, exists b', Some (csv_enqueue_all b [e]) = Some b' /\
    ring_contents b' = take (Z.to_nat (cb_size_mask b)) (ring_contents b ++ [e])) as Hlog.
  { intros e. destruct (csv_enqueue_all_spec [e] b Hwb) as (_ & _ & H). by eexists. }
  assert (u16 (rq_original_client_src_port (rt_request p)) = sin_port (rd_src d)) as Hport by (simpl; apply u16_small; lia).
  split.
  - assert (corr_full (sv_corr (rt_store queued p))) as Hcf by (apply store_full; by rewrite Hcorr1).
    rewrite (Htx (rt_store queued p)) by done. unfold tx_csv_entry. rewrite Hport. cbn [rq_seq_num rt_request].
    unfold rt_store. cbn [sv_corr with_corr]. rewrite slot_after_store, decide_True by (try done; by rewrite Hcorr1).
    cbn [default]. match goal with |- exists b', Some (csv_enqueue_all b [?e]) = _ /\ _ => destruct (Hlog e) as (b' & H1 & H2) end.
    exists b'. split; [exact H1|]. rewrite H2. unfold create_csv_server_roundtrip_main, strncpy.
    cbn [sl_ip sl_hw sl_ker sl_app from_option id]. by rewrite take_take.
  - destruct (slot_full (sv_corr s) (get_circular_index (rk_seq_num p)) Hcorr (get_circular_index_range _)) as (sl & Hsl).
    exists sl. split; [done|]. change (sv_csv_buffer (rt_store ?x p)) with (sv_csv_buffer x).
    rewrite (Htx queued) by (try done; by rewrite Hcorr1). unfold tx_csv_entry. rewrite Hport, Hcorr1.
    cbn [rq_seq_num rt_request]. rewrite Hsl. cbn [default]. apply Hlog.
Qed.

Lemma log_entry_depends_on_store_order_witness :
  let '(s1, p) := rt_decode demo_rt_server (demo_datagram 6) in
  (exists b', sv_csv_buffer (tx_iteration (rt_store (rt_enqueue s1 p) p) (fun _ => Timespec 7 8) (SendCount 1)) = Some b' /\
    map ce_src_ip (ring_contents b') = [lit "10.0.0.1"]) /\
  (exists b', sv_csv_buffer (rt_store (tx_iteration (rt_enqueue s1 p) (fun _ => Timespec 7 8) (SendCount 1)) p) = Some b' /\
    map ce_src_ip (ring_contents b') = [[]]).
Proof.
  pose proof (log_entry_depends_on_store_order demo_rt_server (demo_datagram 6) (fun _ => Timespec 7 8)
    (sample_ring (2 ^ 3) 2) (demo_datagram_wf 6 ltac:(lia)) ltac:(unfold zlen; simpl; lia) demo_queue_wf eq_refl ltac:(simpl; lia)
    eq_refl eq_refl (sample_ring_wf 3 2 ltac:(lia)) demo_rt_corr_full) as H.
  destruct (rt_decode demo_rt_server (demo_datagram 6)) as [s1 p] eqn:E.
  destruct H as [(b1 & Hb1 & Hc1) (sl & Hsl & b2 & Hb2 & Hc2)].
  assert (sl_ip sl = []) as Hip.
  { change p with (snd (s1, p)) in Hsl. rewrite <- E in Hsl. clear -Hsl. revert Hsl. cbn [rt_decode].
    intros Hsl. assert (option_map sl_ip (Some sl) = Some []) as Hs by (rewrite <- Hsl; vm_compute; reflexivity).
    by injection Hs. }
  split.
  - exists b1. split; [exact Hb1|]. rewrite Hc1. vm_compute. reflexivity.
  - exists b2. split; [exact Hb2|]. rewrite Hc2, Hip. vm_compute. reflexivity.
Defined.

(** ** TX timestamps *)

Definition server_tx_entry (c : server_correlation) (stamp : Z * Z) : csv_entry_t :=
  let sl := default (ServerSlot [] 0 ts_zero_spec ts_zero_spec ts_zero_spec)
              (server_slot_at c (get_circular_index (fst stamp))) in
  create_csv_server_tx (fst stamp) (sl_ip sl) (u16 (sl_port sl)) (snd stamp).

Definition tx_csv_on (c : server_correlation) (s : server) : Prop :=
  sv_corr s = c /\ sv_csv_enabled s = true /\ exists b, sv_tx_csv_buffer s = Some b.
Definition tx_csv_off (c : server_correlation) (s : server) : Prop :=
  sv_corr s = c /\ sv_tx_csv_buffer s = None /\ sg_enabled (sv_stats s) = true.

Lemma stamp_handle_on c : corr_full c -> counts tx_stamp_handle (tx_csv_on c) 1.
Proof.
  intros Hc s seq ns (Es & He & b & Hb). unfold tx_stamp_handle. rewrite Es, He, Hb.
  destruct (slot_full c (get_circular_index seq) Hc (get_circular_index_range _)) as [sl ->].
  split; [|done]. split_and!; try done. simpl. by eexists.
Qed.
Lemma stamp_handle_off c : counts tx_stamp_handle (tx_csv_off c) 0.
Proof.
  intros s seq ns (Es & Hb & Hg). unfold tx_stamp_handle. rewrite Hb.
  destruct (server_slot_at _ _); (split; [|done]); [|by split_and!]. split_and!; try done. simpl.
  unfold update_stats_buffer_with_tx_timestamp, update_stats_buffer. by repeat case_match.
Qed.

Lemma handle_all_tx_csv stamps c s b :
  corr_full c -> sv_corr s = c -> sv_csv_enabled s = true -> sv_tx_csv_buffer s = Some b ->
  sv_tx_csv_buffer (handle_all tx_stamp_handle s stamps) = Some (csv_enqueue_all b (map (server_tx_entry c) stamps)).
Proof.
  intros Hc. revert s b. induction stamps as [|[seq ns] stamps IH]; intros s b Es He Hb; [done|].
  unfold handle_all. cbn [fold_left map].
  destruct (slot_full c (get_circular_index seq) Hc (get_circular_index_range _)) as [sl Hsl].
  assert (fst (tx_stamp_handle s seq ns) =
    with_stats (with_tx_csv s (log_csv (Some b) (server_tx_entry c (seq, ns))))
      (update_stats_buffer_with_tx_timestamp (sv_stats s) seq ns STATS_SERVER_ROUNDTRIP)) as ->.
  { unfold tx_stamp_handle, server_tx_entry. cbn [fst snd]. rewrite Es, Hsl, Hb, He. done. }
  by apply IH.
Qed.

(** Draining the error queue terminates.  With the TX log open every message
    queued is consumed and logged, in order, with its sequence number, the address
    and port of its slot and its kernel time; with statistics alone the drain
    stops after the first 256 messages and leaves the rest unread. *)
Theorem server_drain_tx_timestamps (s : server) (queue : list errq_recv) :
  corr_full (sv_corr s) -> Forall is_msg queue ->
  (forall b, sv_csv_enabled s = true -> sv_tx_csv_buffer s = Some b -> ring_wf b ->
     exists s' b', drain_tx_timestamps s queue = Some (s', []) /\ sv_tx_csv_buffer s' = Some b' /\
       ring_contents b' = take (Z.to_nat (cb_size_mask b))
                            (ring_contents b ++ map (server_tx_entry (sv_corr s)) (tx_stamps queue))) /\
  (sv_tx_csv_buffer s = None -> sg_enabled (sv_stats s) = true ->
     exists s', drain_tx_timestamps s queue = Some (s', drop 256 queue)).
Proof.
  intros Hc Hq. split.
  - intros b He Hb Hwb. unfold drain_tx_timestamps.
    rewrite (errq_drain_all tx_stamp_handle _ (tx_csv_on (sv_corr s))).
    + do 2 eexists. split; [done|]. split; [by apply (handle_all_tx_csv _ (sv_corr s) s b)|].
      by destruct (csv_enqueue_all_spec (map (server_tx_entry (sv_corr s)) (tx_stamps queue)) b Hwb) as (_ & _ & ->).
    + intros st q (_ & _ & b' & Hb'). unfold process_tx_timestamps_in_main_thread. by rewrite Hb'.
    + done.
    + by apply stamp_handle_on.
    + split_and!; try done. by eexists.
    + lia.
  - intros Hb Hg. unfold drain_tx_timestamps.
    rewrite (errq_drain_uncounted tx_stamp_handle _ (tx_csv_off (sv_corr s))); [by eexists| |done| |by split_and!|lia].
    + intros st q (_ & Hb' & Hg'). unfold process_tx_timestamps_in_main_thread. by rewrite Hb', Hg'.
    + apply stamp_handle_off.
Qed.

Definition demo_stamp (k : Z) : errq_recv :=
  ErrqMsg (replicate 42 0 ++ htonl_bytes k) [CmsgRecvErr 0; CmsgTimestamping (Timespec 9 k) ts_zero_spec ts_zero_spec].
Lemma server_drain_tx_timestamps_witness :
  exists s' b', drain_tx_timestamps demo_rt_server [demo_stamp 3; demo_stamp 4] = Some (s', []) /\
    sv_tx_csv_buffer s' = Some b' /\ map ce_seq_num (ring_contents b') = [3; 4].
Proof.
  destruct (server_drain_tx_timestamps demo_rt_server [demo_stamp 3; demo_stamp 4] demo_rt_corr_full
    ltac:(repeat constructor)) as [H _].
  destruct (H _ eq_refl eq_refl (sample_ring_wf 3 2 ltac:(lia))) as (s' & b' & Hd & Hb & Hc).
  exists s', b'. split; [exact Hd|]. split; [exact Hb|]. rewrite Hc. vm_compute. reflexivity.
Defined.
