(* ===== verification/ServerTrace.v ===== *)
(** The round-trip server with its history: the steps of ServerRt.v as a function,
    and beside the state what was received, the packets whose stamps were stored,
    the requests sent with their stamps and the TX timestamps handled, with what was
    logged for each and the number of packets stored then. *)

From S2P Require Import Prelude CText Ring Heap Wire CsvLog CsvRing StatsCollector ServerQueue CorrArray ServerCorr TxStamps MainLoop ServerRx ServerRt.

Record sv_trace := SvTrace {
  tc_pc : rt_pc; tc_server : server; tc_received : list rx_datagram; tc_stored : list rt_packet;
  tc_sent : list (ReturnPacketRequest * timespec * nat * csv_entry_t); tc_stamped : list (Z * Z * nat * csv_entry_t) }.
(** The parts of the receive handler, an iteration of the TX thread, and a call of
    process_tx_timestamps_in_main_thread. *)
Inductive sv_event :=
  | SvReceive (d : rx_datagram) | SvEnqueue | SvStore | SvStats
  | SvSend (clock : nat -> timespec) (outcome : send_outcome) | SvStamps (queue : list errq_recv).

(** The requests that an iteration takes from the queue and sends. *)
Definition sent_requests (s : server) (outcome : send_outcome) : list ReturnPacketRequest :=
  match outcome with
  | SendCount sent => take sent (snd (dequeue_return_packet_batch (sv_queue s) (Z.to_nat (target_batch_size (sv_queue s)))))
  | _ => []
  end.
Definition sv_trace_step (t : sv_trace) (ev : sv_event) : option sv_trace :=
  let '(SvTrace pc s received stored sent stamped) := t in
  match ev, pc with
  | SvReceive d, RxIdle => let '(s, p) := rt_decode s d in Some (SvTrace (RxDecoded p) s (received ++ [d]) stored sent stamped)
  | SvEnqueue, RxDecoded p => Some (SvTrace (RxQueued p) (rt_enqueue s p) received stored sent stamped)
  | SvStore, RxQueued p => Some (SvTrace (RxStored p) (rt_store s p) received (stored ++ [p]) sent stamped)
  | SvStats, RxStored p => Some (SvTrace RxIdle (rt_stats s p) received stored sent stamped)
  | SvSend clock outcome, _ =>
      let requests := sent_requests s outcome in
      Some (SvTrace pc (tx_iteration s clock outcome) received stored
        (sent ++ map (fun '(req, i) => (req, clock i, length stored, tx_csv_entry (sv_corr s) req (clock i))) (zip requests (seq 0 (length requests)))) stamped)
  | SvStamps queue, _ =>
      Some (SvTrace pc (fst (fst (process_tx_timestamps_in_main_thread s queue))) received stored sent
        (stamped ++ map (fun x => (x, length stored, server_tx_entry (sv_corr s) x)) (tx_stamps (take TX_TIMESTAMP_BATCH_SIZE queue))))
  | _, _ => None
  end.

(** Without the history these are the steps of the system. *)
Lemma sv_trace_rt_step t ev t' : match ev with SvReceive d => datagram_wf d | _ => True end -> sv_trace_step t ev = Some t' ->
  rt_step (RtSystem (tc_pc t) (tc_server t) (tc_received t)) (RtSystem (tc_pc t') (tc_server t') (tc_received t')).
Proof.
  destruct t as [pc s received stored sent stamped]. intros Hd.
  destruct ev as [d| | | |clock outcome|queue], pc as [|p|p|p]; cbn [sv_trace_step]; try done;
    try (destruct (rt_decode s d) as [s1 p1] eqn:E); intros [= <-]; cbn [tc_pc tc_server tc_received]; try constructor.
  pose proof (rt_step_receive s received d Hd) as H. by rewrite E in H.
Qed.

(** ** What the correlation arrays hold *)

Definition index_of (p : rt_packet) : Z := get_circular_index (rk_seq_num p).
(** The last packet stored at an index. *)
Definition last_stored (stored : list rt_packet) (index : Z) : option rt_packet :=
  last (base.filter (fun p => index_of p = index) stored).
Definition packet_slot (p : rt_packet) : server_slot :=
  ServerSlot (take 15 (inet_ntop (sin_addr (rk_src p)))) (sin_port (rk_src p)) (rk_hw p) (rk_ker p) (rk_app p).

Lemma last_stored_snoc stored p index :
  last_stored (stored ++ [p]) index = if decide (index_of p = index) then Some p else last_stored stored index.
Proof.
  unfold last_stored. rewrite filter_app, filter_cons, filter_nil. case_decide; [by rewrite last_snoc|by rewrite app_nil_r].
Qed.

(** A packet decoded from a datagram; without a timestamping message its RX stamps
    are those of the packet before. *)
Definition decoded_from (p : rt_packet) (d : rx_datagram) : Prop :=
  rk_bytes p = rd_bytes d /\ rk_src p = rd_src d /\ rk_app p = rd_app_rx_ts d /\
  rk_seq_num p = (if 4 <=? zlen (rd_bytes d) then ntohl_at (rd_bytes d) 0 else u32 (-1)) /\
  forall hw ker hw0 ker0, extract_rx_timestamps (rd_cmsgs d) hw0 ker0 = (true, hw, ker) -> rk_hw p = hw /\ rk_ker p = ker.
Lemma extract_found cmsgs hw0 ker0 hw1 ker1 hw ker :
  extract_rx_timestamps cmsgs hw0 ker0 = (true, hw, ker) -> extract_rx_timestamps cmsgs hw1 ker1 = (true, hw, ker).
Proof. induction cmsgs as [|[]]; cbn; [done|congruence|done..]. Qed.
Lemma rt_decode_from s d : decoded_from (snd (rt_decode s d)) d.
Proof.
  unfold rt_decode, decoded_from. destruct (extract_rx_timestamps _ (sv_pkt_hw_rx s) (sv_pkt_ker_rx s)) as [[f hw] ker] eqn:E.
  destruct (if 8 <=? zlen (rd_bytes d) then _ else _) as [seq port] eqn:Es.
  cbn [snd rk_bytes rk_src rk_app rk_seq_num rk_hw rk_ker]. split_and!; [done..| |].
  - destruct (Z.leb_spec 8 (zlen (rd_bytes d))), (Z.leb_spec 4 (zlen (rd_bytes d))); try lia; by injection Es.
  - intros hw' ker' hw0 ker0 H. apply (extract_found _ _ _ (sv_pkt_hw_rx s) (sv_pkt_ker_rx s)) in H. rewrite E in H. by injection H.
Qed.

(** ** The invariant *)

Definition sent_entry (req : ReturnPacketRequest) (sl : server_slot) (ts : timespec) : csv_entry_t :=
  create_csv_server_roundtrip_main (rq_seq_num req) (sl_ip sl) (u16 (rq_original_client_src_port req))
    (ts_ns (sl_hw sl)) (ts_ns (sl_ker sl)) (ts_ns (sl_app sl)) (ts_ns ts).
Definition stamped_entry (stamp : Z * Z) (sl : server_slot) : csv_entry_t :=
  create_csv_server_tx (fst stamp) (sl_ip sl) (u16 (sl_port sl)) (snd stamp).
Definition pc_packet (pc : rt_pc) : list rt_packet := match pc with RxDecoded p | RxQueued p => [p] | _ => [] end.
Record sv_inv (b bt : csv_ring_buffer_t) (t : sv_trace) : Prop := {
  si_full : corr_full (sv_corr (tc_server t));
  si_slots : forall index p, last_stored (tc_stored t) index = Some p -> server_slot_at (sv_corr (tc_server t)) index = Some (packet_slot p);
  si_csv : sv_csv_enabled (tc_server t) = true;
  si_ring : sv_csv_buffer (tc_server t) = Some (csv_enqueue_all b (map snd (tc_sent t)));
  si_tx_ring : sv_tx_csv_buffer (tc_server t) = Some (csv_enqueue_all bt (map snd (tc_stamped t)));
  si_sent : Forall (fun '(req, ts, n, e) => (n <= length (tc_stored t))%nat /\ forall p,
    last_stored (take n (tc_stored t)) (get_circular_index (rq_seq_num req)) = Some p -> e = sent_entry req (packet_slot p) ts) (tc_sent t);
  si_stamped : Forall (fun '(stamp, n, e) => (n <= length (tc_stored t))%nat /\ 0 <= snd stamp < 18446744073709551616 /\ forall p,
    last_stored (take n (tc_stored t)) (get_circular_index (fst stamp)) = Some p -> e = stamped_entry stamp (packet_slot p)) (tc_stamped t);
  si_origin : Forall (fun p => exists d, d ∈ tc_received t /\ decoded_from p d) (pc_packet (tc_pc t) ++ tc_stored t) }.

Lemma sv_inv_start s b bt : corr_full (sv_corr s) -> sv_csv_enabled s = true -> sv_csv_buffer s = Some b -> sv_tx_csv_buffer s = Some bt ->
  sv_inv b bt (SvTrace RxIdle s [] [] [] []).
Proof. intros. split; try done; by constructor. Qed.

(** Steps that leave arrays and logs alone. *)
Lemma sv_inv_quiet b bt pc s received stored sent stamped pc' s' received' :
  sv_inv b bt (SvTrace pc s received stored sent stamped) ->
  sv_corr s' = sv_corr s -> sv_csv_enabled s' = sv_csv_enabled s -> sv_csv_buffer s' = sv_csv_buffer s -> sv_tx_csv_buffer s' = sv_tx_csv_buffer s ->
  (forall d, d ∈ received -> d ∈ received') ->
  Forall (fun p => exists d, d ∈ received' /\ decoded_from p d) (pc_packet pc') ->
  sv_inv b bt (SvTrace pc' s' received' stored sent stamped).
Proof.
  intros [H1 H2 H3 H4 H5 H6 H7 H8] E1 E2 E3 E4 Hr Hp. cbn [tc_pc tc_server tc_received tc_stored tc_sent tc_stamped] in *.
  split; cbn [tc_pc tc_server tc_received tc_stored tc_sent tc_stamped]; rewrite ?E1, ?E2, ?E3, ?E4; try done.
  apply Forall_app in H8 as [_ H8]. apply Forall_app. split; [exact Hp|]. eapply Forall_impl; [exact H8|].
  intros p (d & Hd & Hf). exists d. auto.
Qed.
Lemma sv_inv_store b bt s received stored sent stamped p :
  sv_inv b bt (SvTrace (RxQueued p) s received stored sent stamped) ->
  sv_inv b bt (SvTrace (RxStored p) (rt_store s p) received (stored ++ [p]) sent stamped).
Proof.
  intros [H1 H2 H3 H4 H5 H6 H7 H8]. cbn [tc_pc tc_server tc_received tc_stored tc_sent tc_stamped] in *.
  assert (forall n, (n <= length stored)%nat -> take n (stored ++ [p]) = take n stored) as Htake by (intros n Hn; by apply take_app_le).
  split; cbn [tc_pc tc_server tc_received tc_stored tc_sent tc_stamped]; try done.
  - by apply store_full.
  - intros index q. rewrite last_stored_snoc. unfold rt_store. cbn [sv_corr with_corr]. rewrite slot_after_store by done.
    unfold index_of. case_decide as Hi; [intros [= <-]; by rewrite decide_True|]. rewrite decide_False by congruence. apply H2.
  - eapply Forall_impl; [exact H6|]. intros [[[req ts] n] e] (Hn & He). rewrite length_app. split; [lia|]. by rewrite Htake.
  - eapply Forall_impl; [exact H7|]. intros [[st n] e] (Hn & Hr & He). rewrite length_app. split; [lia|]. split; [done|]. by rewrite Htake.
  - cbn [pc_packet app] in *. apply Forall_cons in H8 as [Hp H8]. apply Forall_app. split; [done|]. by constructor.
Qed.
Lemma sv_inv_send b bt pc s received stored sent stamped clock outcome :
  sv_inv b bt (SvTrace pc s received stored sent stamped) ->
  sv_inv b bt (SvTrace pc (tx_iteration s clock outcome) received stored
    (sent ++ map (fun '(req, i) => (req, clock i, length stored, tx_csv_entry (sv_corr s) req (clock i)))
       (zip (sent_requests s outcome) (seq 0 (length (sent_requests s outcome))))) stamped).
Proof.
  intros [H1 H2 H3 H4 H5 H6 H7 H8]. cbn [tc_pc tc_server tc_received tc_stored tc_sent tc_stamped] in *.
  set (l := zip (sent_requests s outcome) (seq 0 (length (sent_requests s outcome)))).
  assert (sv_corr (tx_iteration s clock outcome) = sv_corr s /\ sv_csv_enabled (tx_iteration s clock outcome) = true /\
    sv_tx_csv_buffer (tx_iteration s clock outcome) = sv_tx_csv_buffer s /\
    sv_csv_buffer (tx_iteration s clock outcome) =
      Some (csv_enqueue_all (csv_enqueue_all b (map snd sent)) (map (fun '(req, i) => tx_csv_entry (sv_corr s) req (clock i)) l)))
    as (E1 & E2 & E3 & E4).
  { unfold l, sent_requests, tx_iteration. destruct (dequeue_return_packet_batch _ _) as [q batch]. cbn [snd].
    destruct batch as [|r batch]; [destruct outcome; rewrite ?take_nil; done|]. destruct outcome as [n| |flags]; [|done|done].
    set (s1 := with_sent _ _).
    assert (forall l s0 b0, sv_csv_enabled s0 = true -> sv_csv_buffer s0 = Some b0 -> corr_full (sv_corr s0) ->
      let s' := fold_left (fun s '(req, i) => tx_record s req (clock i)) l s0 in
      sv_corr s' = sv_corr s0 /\ sv_csv_enabled s' = true /\ sv_tx_csv_buffer s' = sv_tx_csv_buffer s0) as Hk.
    { clear. induction l as [|[req i] l IH]; intros s0 b0 He Hb Hc; [done|]. cbn [fold_left].
      destruct (tx_record_logs s0 req (clock i) b0 He Hb Hc) as (G1 & G2 & G3).
      destruct (IH _ _ G1 G2 ltac:(by rewrite G3)) as (I1 & I2 & I3). rewrite I1, I3, G3. split; [done|]. split; [exact I2|].
      unfold tx_record. cbv zeta. by repeat case_match. }
    assert (zip (take n (r :: batch)) (seq 0 n) = zip (take n (r :: batch)) (seq 0 (length (take n (r :: batch))))) as Hz.
    { generalize 0%nat. generalize (r :: batch). clear. induction n as [|n IH]; intros [|x l] k; cbn; try done. by rewrite IH. }
    rewrite Hz. destruct (Hk (zip (take n (r :: batch)) (seq 0 (length (take n (r :: batch))))) s1 _ H3 H4 H1) as (K1 & K2 & K3).
    split; [exact K1|]. split; [exact K2|]. split; [exact K3|]. by apply (tx_record_all_log _ s1). }
  split; cbn [tc_pc tc_server tc_received tc_stored tc_sent tc_stamped]; rewrite ?E1, ?E2, ?E3; try done.
  - rewrite E4, map_app. unfold csv_enqueue_all. rewrite fold_left_app, map_map. do 2 f_equal. apply map_ext. by intros [req i].
  - apply Forall_app. split; [exact H6|]. apply Forall_map, Forall_forall. intros [req i] _. split; [done|].
    intros p Hp. rewrite take_ge in Hp by done. unfold tx_csv_entry. by rewrite (H2 _ _ Hp).
Qed.
Lemma sv_inv_stamps b bt pc s received stored sent stamped queue : Forall is_msg queue ->
  sv_inv b bt (SvTrace pc s received stored sent stamped) ->
  sv_inv b bt (SvTrace pc (fst (fst (process_tx_timestamps_in_main_thread s queue))) received stored sent
    (stamped ++ map (fun x => (x, length stored, server_tx_entry (sv_corr s) x)) (tx_stamps (take TX_TIMESTAMP_BATCH_SIZE queue)))).
Proof.
  intros Hq [H1 H2 H3 H4 H5 H6 H7 H8]. cbn [tc_pc tc_server tc_received tc_stored tc_sent tc_stamped] in *.
  set (stamps := tx_stamps (take TX_TIMESTAMP_BATCH_SIZE queue)).
  assert (fst (fst (process_tx_timestamps_in_main_thread s queue)) = handle_all tx_stamp_handle s stamps) as ->.
  { unfold process_tx_timestamps_in_main_thread. rewrite H5.
    rewrite (errq_batch_msgs tx_stamp_handle (tx_csv_on (sv_corr s)) _ _ _ _ 1); [done|done|by apply stamp_handle_on|].
    split; [done|]. split; [done|]. by eexists. }
  pose proof (handle_all_tx_csv stamps (sv_corr s) s _ H1 eq_refl H3 H5) as Ht.
  assert (sv_corr (handle_all tx_stamp_handle s stamps) = sv_corr s /\ sv_csv_enabled (handle_all tx_stamp_handle s stamps) = sv_csv_enabled s /\
    sv_csv_buffer (handle_all tx_stamp_handle s stamps) = sv_csv_buffer s) as (E1 & E2 & E3).
  { clear. revert s. induction stamps as [|[q ns] stamps IH]; intros s; [done|]. unfold handle_all in *. cbn [fold_left].
    destruct (IH (fst (tx_stamp_handle s q ns))) as (-> & -> & ->). unfold tx_stamp_handle. by repeat case_match; simplify_eq/=. }
  split; cbn [tc_pc tc_server tc_received tc_stored tc_sent tc_stamped]; rewrite ?E1, ?E2, ?E3; try done.
  - rewrite Ht, map_app. unfold csv_enqueue_all. rewrite fold_left_app, map_map. done.
  - apply Forall_app. split; [exact H7|]. apply Forall_map, Forall_forall. intros x ([pk cs| |] & _ & Hx)%list_elem_of_omap; [|done..]. split; [done|].
    split; [injection Hx as <-; unfold tx_stamp_of; destruct (scan_tx_cmsgs _ _ _ _); apply u64_range|].
    intros p Hp. rewrite take_ge in Hp by done. unfold server_tx_entry. by rewrite (H2 _ _ Hp).
Qed.

Definition event_ok (ev : sv_event) : Prop := match ev with SvStamps queue => Forall is_msg queue | _ => True end.
Lemma sv_inv_step b bt t ev t' : event_ok ev -> sv_inv b bt t -> sv_trace_step t ev = Some t' -> sv_inv b bt t'.
Proof.
  destruct t as [pc s received stored sent stamped]. intros Hev Hi. pose proof (si_origin _ _ _ Hi) as Ho. apply Forall_app in Ho as [Ho _].
  cbn [tc_pc tc_received] in Ho.
  destruct ev as [d| | | |clock outcome|queue], pc as [|p|p|p]; cbn [sv_trace_step]; try done;
    try (pose proof (rt_decode_from s d) as Hd; destruct (rt_decode s d) as [s1 p1] eqn:E); intros [= <-];
    try (by apply sv_inv_send); try (by apply sv_inv_stamps).
  - assert (sv_corr s1 = sv_corr s /\ sv_csv_enabled s1 = sv_csv_enabled s /\ sv_csv_buffer s1 = sv_csv_buffer s /\ sv_tx_csv_buffer s1 = sv_tx_csv_buffer s)
      as (E1 & E2 & E3 & E4).
    { unfold rt_decode in E. destruct (extract_rx_timestamps _ _ _) as [[f hw] ker].
      destruct (if 8 <=? zlen (rd_bytes d) then _ else _) as [q port]. by injection E as <- _. }
    eapply sv_inv_quiet; [exact Hi|done..| |].
    + intros d' Hd'. apply elem_of_app. by left.
    + constructor; [|done]. exists d. split; [apply elem_of_app; right; by left|exact Hd].
  - eapply sv_inv_quiet; [exact Hi|unfold rt_enqueue; by case_match..|done|exact Ho].
  - by apply sv_inv_store.
  - eapply sv_inv_quiet; [exact Hi|done..].
Qed.
Lemma sv_inv_run b bt evs : forall t t', Forall event_ok evs -> sv_inv b bt t -> run_steps sv_trace_step t evs = Some t' -> sv_inv b bt t'.
Proof.
  induction evs as [|ev evs IH]; intros t t' Hev Hi; cbn [run_steps]; [by intros [= <-]|].
  apply Forall_cons in Hev as [He Hev].
  destruct (sv_trace_step t ev) as [t1|] eqn:E; [|done]. intros H. eapply IH; [done| |exact H]. by eapply sv_inv_step.
Qed.

Lemma last_stored_in stored n index p : last_stored (take n stored) index = Some p -> p ∈ stored.
Proof. intros H%last_Some_elem_of. apply list_elem_of_filter in H as [_ H]. eapply elem_of_sublist; [exact H|apply sublist_take]. Qed.
