(* ===== verification/Tsc.v ===== *)
(** Conversion of a cycle count to a wall-clock time (tsc_to_timespec of
    timestamp_common.c), in the doubles of the program. *)

From S2P Require Import Prelude Wire Double.

(** The reference is read during the call: the clock, then the cycle counter.
    A quotient that is not a number of a long long is undefined in C; [trunc]
    gives 0 for it. *)
Definition tsc_to_timespec (cpu_freq_ghz : double) (ref_time : timespec) (ref_tsc tsc_cycles : Z) : timespec :=
  if tsc_cycles =? 0 then ts_zero_spec
  else
    let tsc_diff := s64 (tsc_cycles - ref_tsc) in
    let time_diff_ns := ddiv (of_Z tsc_diff) cpu_freq_ghz in
    let total_ns := s64 (tv_sec ref_time * 1000000000 + tv_nsec ref_time + trunc time_diff_ns) in
    let total_ns := if total_ns <? 0 then 0 else total_ns in
    Timespec (total_ns / 1000000000) (total_ns mod 1000000000).

Definition timespec_normal (t : timespec) : Prop := 0 <= tv_sec t /\ 0 <= tv_nsec t < 1000000000.

Lemma s64_range z : -9223372036854775808 <= s64 z < 9223372036854775808.
Proof. unfold s64. zlia. Qed.

Lemma tsc_normal freq ref_time ref_tsc tsc :
  timespec_normal (tsc_to_timespec freq ref_time ref_tsc tsc) /\
  tv_sec (tsc_to_timespec freq ref_time ref_tsc tsc) <= 9223372036.
Proof.
  unfold tsc_to_timespec, timespec_normal. destruct (tsc =? 0); [simpl; lia|]. cbv zeta.
  pose proof (s64_range (tv_sec ref_time * 1000000000 + tv_nsec ref_time + trunc (ddiv (of_Z (s64 (tsc - ref_tsc))) freq))).
  set (t := s64 (tv_sec ref_time * _ + _ + _)) in *. clearbody t.
  cbn [tv_sec tv_nsec]. destruct (Z.ltb_spec t 0); zlia.
Qed.

Lemma tsc_at_reference freq ref_time ref_tsc :
  timespec_normal ref_time -> tv_sec ref_time < 9000000000 -> ref_tsc <> 0 -> (exists s m e, freq = S754_finite s m e) ->
  tsc_to_timespec freq ref_time ref_tsc ref_tsc = ref_time.
Proof.
  intros [Hs Hn] Hb Ht (s & m & e & ->). unfold tsc_to_timespec. rewrite (proj2 (Z.eqb_neq _ _) Ht), Z.sub_diag.
  assert (trunc (ddiv (of_Z (s64 0)) (S754_finite s m e)) = 0) as -> by (vm_compute; reflexivity).
  cbv zeta. rewrite Z.add_0_r, s64_small by lia. rewrite (proj2 (Z.ltb_ge _ _)) by lia.
  destruct ref_time as [sec nsec]. cbn [tv_sec tv_nsec] in *. f_equal; zlia.
Qed.

(** ** Properties *)

(** A converted cycle count is a normalised time that is not negative, whatever
    the clock and the frequency; zero, the mark of a disabled counter, gives the
    zero time; and the count read with the reference gives the reference. *)
Theorem tsc_to_timespec_correct (freq : double) (ref_time : timespec) (ref_tsc tsc_cycles : Z) :
  timespec_normal ref_time -> tv_sec ref_time < 9000000000 -> ref_tsc <> 0 -> (exists s m e, freq = S754_finite s m e) ->
  timespec_normal (tsc_to_timespec freq ref_time ref_tsc tsc_cycles) /\
  tv_sec (tsc_to_timespec freq ref_time ref_tsc tsc_cycles) <= 9223372036 /\
  tsc_to_timespec freq ref_time ref_tsc 0 = ts_zero_spec /\
  tsc_to_timespec freq ref_time ref_tsc ref_tsc = ref_time.
Proof.
  intros Hn Hb Ht Hf. destruct (tsc_normal freq ref_time ref_tsc tsc_cycles).
  split_and!; try done. by apply tsc_at_reference.
Qed.

Lemma tsc_to_timespec_correct_witness :
  tsc_to_timespec (ddiv (of_Z 5) (of_Z 2)) (Timespec 1700000000 999999990) 1000000 1000000 = Timespec 1700000000 999999990 /\
  tsc_to_timespec (ddiv (of_Z 5) (of_Z 2)) (Timespec 1700000000 999999990) 1000000 1000050 = Timespec 1700000001 10.
Proof.
  split; [|vm_compute; reflexivity].
  refine (proj2 (proj2 (proj2 (tsc_to_timespec_correct (ddiv (of_Z 5) (of_Z 2)) (Timespec 1700000000 999999990) 1000000 1000000 _ _ _ _)))).
  - split; simpl; lia.
  - simpl. lia.
  - lia.
  - do 3 eexists. vm_compute. reflexivity.
Defined.
