(* ===== verification/Client.v ===== *)
(** The client (timestamp_client.c): its correlation arrays, the two sending
    loops, the thread that receives return packets, and its TX timestamps. *)

From S2P Require Import Prelude CText Ring Heap Wire Double CsvLog CsvRing StatsCollector TxStamps MainLoop CorrArray Tsc.

Record client := Client {
  ct_src_ip : cstr;                    (* client_src_ip *)
  ct_src_port : Z;                     (* client_src_port *)
  ct_csv_enabled : bool;
  ct_csv_buffer : option csv_ring_buffer_t;
  ct_tx_csv_buffer : option csv_ring_buffer_t;
  ct_stats : stats_globals;
  app_tx_timestamps : option (harray timespec);
  app_tx_tsc_values : option (harray Z);
  ct_seq_num : Z;
  ct_total_sent : Z;
  ct_packets_sent : Z;                 (* g_packets_sent *)
  ct_packets_received : Z;             (* g_packets_received *)
  ct_local_received : Z;               (* local_packets_received of the RX thread *)
  ct_wire : list (list Z) }.           (* the packets given to the kernel *)

Definition ct_with_csv (c : client) (b : option csv_ring_buffer_t) : client :=
  Client (ct_src_ip c) (ct_src_port c) (ct_csv_enabled c) b (ct_tx_csv_buffer c) (ct_stats c) (app_tx_timestamps c)
    (app_tx_tsc_values c) (ct_seq_num c) (ct_total_sent c) (ct_packets_sent c) (ct_packets_received c)
    (ct_local_received c) (ct_wire c).
Definition ct_with_tx_csv (c : client) (b : option csv_ring_buffer_t) : client :=
  Client (ct_src_ip c) (ct_src_port c) (ct_csv_enabled c) (ct_csv_buffer c) b (ct_stats c) (app_tx_timestamps c)
    (app_tx_tsc_values c) (ct_seq_num c) (ct_total_sent c) (ct_packets_sent c) (ct_packets_received c)
    (ct_local_received c) (ct_wire c).
Definition ct_with_stats (c : client) (g : stats_globals) : client :=
  Client (ct_src_ip c) (ct_src_port c) (ct_csv_enabled c) (ct_csv_buffer c) (ct_tx_csv_buffer c) g (app_tx_timestamps c)
    (app_tx_tsc_values c) (ct_seq_num c) (ct_total_sent c) (ct_packets_sent c) (ct_packets_received c)
    (ct_local_received c) (ct_wire c).
Definition ct_with_arrays (c : client) (ts : option (harray timespec)) (tsc : option (harray Z)) : client :=
  Client (ct_src_ip c) (ct_src_port c) (ct_csv_enabled c) (ct_csv_buffer c) (ct_tx_csv_buffer c) (ct_stats c) ts
    tsc (ct_seq_num c) (ct_total_sent c) (ct_packets_sent c) (ct_packets_received c)
    (ct_local_received c) (ct_wire c).
(** The packets accepted by sendmmsg, given to the network. *)
Definition ct_with_wire (c : client) (packets : list (list Z)) : client :=
  Client (ct_src_ip c) (ct_src_port c) (ct_csv_enabled c) (ct_csv_buffer c) (ct_tx_csv_buffer c) (ct_stats c)
    (app_tx_timestamps c) (app_tx_tsc_values c) (ct_seq_num c) (ct_total_sent c) (ct_packets_sent c)
    (ct_packets_received c) (ct_local_received c) (ct_wire c ++ packets).
(** seq_num += sent and the counters, after the batch is processed. *)
Definition ct_with_sent (c : client) (sent : Z) : client :=
  Client (ct_src_ip c) (ct_src_port c) (ct_csv_enabled c) (ct_csv_buffer c) (ct_tx_csv_buffer c) (ct_stats c)
    (app_tx_timestamps c) (app_tx_tsc_values c) (u32 (ct_seq_num c + sent)) (u64 (ct_total_sent c + sent))
    (u64 (ct_packets_sent c + sent)) (ct_packets_received c) (ct_local_received c) (ct_wire c).
Definition ct_with_received (c : client) : client :=
  Client (ct_src_ip c) (ct_src_port c) (ct_csv_enabled c) (ct_csv_buffer c) (ct_tx_csv_buffer c) (ct_stats c)
    (app_tx_timestamps c) (app_tx_tsc_values c) (ct_seq_num c) (ct_total_sent c) (ct_packets_sent c)
    (u64 (ct_packets_received c + 1)) (u64 (ct_local_received c + 1)) (ct_wire c).

(** ** Correlation arrays *)

(** The static pointers start NULL; the two arrays and 0 or -1. *)
Definition init_tx_correlation (ok : nat -> bool) (h : heap) : option (harray timespec) * option (harray Z) * Z * heap :=
  let '(ts, h) := alloc_array ok ts_zero_spec h in
  match ts with
  | None => (None, None, -1, h)
  | Some _ =>
      let '(tsc, h) := alloc_array ok 0 h in
      match tsc with
      | None => (None, None, -1, free_array ts h)
      | Some _ => (ts, tsc, 0, h)
      end
  end.
Definition cleanup_tx_correlation (ts : option (harray timespec)) (tsc : option (harray Z)) (h : heap)
    : option (harray timespec) * option (harray Z) * heap :=
  (None, None, free_array tsc (free_array ts h)).

Definition store_tx_timestamp (c : client) (seq_num : Z) (app_tx_ts : timespec) : client :=
  ct_with_arrays c (array_store (app_tx_timestamps c) (get_circular_index seq_num) app_tx_ts) (app_tx_tsc_values c).
Definition store_tx_timestamps (c : client) (seq_num : Z) (app_tx_ts : timespec) (tsc_value : Z) : client :=
  match app_tx_timestamps c, app_tx_tsc_values c with
  | Some ts, Some tsc =>
      let index := get_circular_index seq_num in
      ct_with_arrays c (Some (array_put ts index app_tx_ts)) (Some (array_put tsc index tsc_value))
  | _, _ => c
  end.

(** ** Sending *)

(** Packets of the batch [seq_num], [seq_num + 1], ...; the buffers are zeroed once
    and only the sequence number and, in round-trip mode, the port of the
    receiving socket are written into them. *)
Definition oneway_packet (packet_size seq_num : Z) : list Z :=
  htonl_bytes seq_num ++ replicate (Z.to_nat (packet_size - 4)) 0.
Definition roundtrip_packet (packet_size rx_port seq_num : Z) : list Z :=
  htonl_bytes seq_num ++ htonl_bytes (u32 rx_port) ++ replicate (Z.to_nat (packet_size - 8)) 0.
Definition batch_seq (c : client) (i : nat) : Z := u32 (ct_seq_num c + Z.of_nat i).
Definition client_batch_count (pps : Z) : nat := Z.to_nat (if BATCH_SIZE <=? pps then BATCH_SIZE else 1).

(** What sendmmsg answered: a number of packets, EAGAIN, or an error. *)
Inductive sendmmsg_result := SentCount (n : nat) | SentAgain | SentError.

(** The stamps taken for packet [i] of the batch, and the clock and counter read by
    the two conversions of its cycle count. *)
Record tx_clocks := TxClocks {
  tk_time : nat -> timespec; tk_tsc : nat -> Z; tk_ref1 : nat -> timespec * Z; tk_ref2 : nat -> timespec * Z }.

Definition oneway_record (c0 : client) (clocks : tx_clocks) (c : client) (i : nat) : client :=
  let current_seq := batch_seq c0 i in
  let ns := ts_ns (tk_time clocks i) in
  let g := create_minimal_stats_entry (ct_stats c) current_seq (u16 (ct_src_port c)) TIMESTAMP_MODE_CLIENT_ONEWAY in
  let g := update_stats_buffer_with_app_tx_timestamp g current_seq ns 0 STATS_CLIENT_ONEWAY in
  let c := ct_with_stats c g in
  if ct_csv_enabled c then
    ct_with_csv c (log_csv (ct_csv_buffer c)
      (create_csv_client_oneway_main current_seq (ct_src_ip c) (u16 (ct_src_port c)) ns))
  else c.

(** After the kernel has accepted [sent] of the packets. *)
Definition oneway_accepted (clocks : tx_clocks) (c : client) (packets : list (list Z)) (sent : nat) : client :=
  let c1 := ct_with_wire c (take sent packets) in
  let c2 := fold_left (oneway_record c clocks) (seq 0 sent) c1 in
  let c3 := fold_left (fun c' i => store_tx_timestamp c' (batch_seq c i) (tk_time clocks i)) (seq 0 sent) c2 in
  ct_with_sent c3 (Z.of_nat sent).
(** The part of the loop body from the batch to the counters; None breaks. *)
Definition oneway_send (pps packet_size : Z) (c : client) (input : tx_clocks * sendmmsg_result) : option client :=
  let '(clocks, result) := input in
  let packets := map (fun i => oneway_packet packet_size (batch_seq c i)) (seq 0 (client_batch_count pps)) in
  match result with
  | SentError => None
  | SentAgain => Some c
  | SentCount sent => Some (oneway_accepted clocks c packets sent)
  end.

(** The two uses of TSC_TO_TIMESPEC convert the count twice, with two readings of
    the clock: seconds from the first, nanoseconds from the second. *)
Definition tsc_ns (freq : double) (clocks : tx_clocks) (i : nat) : Z :=
  let conv r := tsc_to_timespec freq (fst r) (snd r) (tk_tsc clocks i) in
  u64 (tv_sec (conv (tk_ref1 clocks i)) * 1000000000 + tv_nsec (conv (tk_ref2 clocks i))).
Definition roundtrip_record (freq : double) (c0 : client) (clocks : tx_clocks) (c : client) (i : nat) : client :=
  let current_seq := batch_seq c0 i in
  let g := create_minimal_stats_entry (ct_stats c) current_seq (u16 (ct_src_port c)) TIMESTAMP_MODE_CLIENT_ROUNDTRIP in
  ct_with_stats c (update_stats_buffer_with_app_tx_timestamp g current_seq (ts_ns (tk_time clocks i))
                     (tsc_ns freq clocks i) STATS_CLIENT_ROUNDTRIP).

(** Sending and recording are separate steps: the RX thread can run in between. *)
Definition roundtrip_transmit (pps packet_size rx_port : Z) (c : client) (sent : nat) : client :=
  let packets := map (fun i => roundtrip_packet packet_size rx_port (batch_seq c i)) (seq 0 (client_batch_count pps)) in
  ct_with_wire c (take sent packets).
Definition roundtrip_stores (clocks : tx_clocks) (sent : nat) (c : client) : client :=
  fold_left (fun c' i => store_tx_timestamps c' (batch_seq c i) (tk_time clocks i) (tk_tsc clocks i)) (seq 0 sent) c.
Definition roundtrip_records (freq : double) (clocks : tx_clocks) (sent : nat) (c : client) : client :=
  ct_with_sent (fold_left (roundtrip_record freq c clocks) (seq 0 sent) c) (Z.of_nat sent).
Definition roundtrip_send (freq : double) (pps packet_size rx_port : Z) (c : client)
    (input : tx_clocks * sendmmsg_result) : option client :=
  let '(clocks, result) := input in
  match result with
  | SentError => None
  | SentAgain => Some c
  | SentCount sent =>
      Some (roundtrip_records freq clocks sent (roundtrip_stores clocks sent (roundtrip_transmit pps packet_size rx_port c sent)))
  end.

(** The sending loop: end_time is 0 without a duration. *)
Definition client_loop {St} (send : St -> tx_clocks * sendmmsg_result -> option St)
    (duration_seconds start_time max_cycles_between_checks : Z)
    (l : loop_state) (c : St) (ticks : list (loop_tick (tx_clocks * sendmmsg_result))) : option St :=
  let end_time := if 0 <? duration_seconds then s64 (start_time + duration_seconds * 1000000000) else 0 in
  main_loop send (0 <? end_time) (fun now => end_time <=? now) max_cycles_between_checks l c ticks.
(** The loops of run_client_oneway and run_client_roundtrip, with the counters they
    start from. *)
Definition oneway_loop (pps packet_size duration_seconds start_time max_cycles_between_checks tsc : Z) :
    client -> list (loop_tick (tx_clocks * sendmmsg_result)) -> option client :=
  client_loop (oneway_send pps packet_size) duration_seconds start_time max_cycles_between_checks (LoopState 0 tsc).
Definition roundtrip_loop (freq : double) (pps packet_size rx_port duration_seconds start_time max_cycles_between_checks tsc : Z) :
    client -> list (loop_tick (tx_clocks * sendmmsg_result)) -> option client :=
  client_loop (roundtrip_send freq pps packet_size rx_port) duration_seconds start_time max_cycles_between_checks (LoopState 0 tsc).

(** client_src_ip and client_src_port, from what getsockname says. *)
Definition client_source (name : option (cstr * Z)) (c : client) : client :=
  let '(ip, port) := match name with Some (ip, port) => (ip, port) | None => (lit "unknown", 0) end in
  Client ip port (ct_csv_enabled c) (ct_csv_buffer c) (ct_tx_csv_buffer c) (ct_stats c) (app_tx_timestamps c)
    (app_tx_tsc_values c) (ct_seq_num c) (ct_total_sent c) (ct_packets_sent c) (ct_packets_received c)
    (ct_local_received c) (ct_wire c).

(** The round-trip client's identical copy. *)
Definition roundtrip_client_source : option (cstr * Z) -> client -> client := client_source.

(** ** Receiving *)

(** A return packet: its bytes, stamps, the cycle counter and clock read after
    recvmsg, and the readings of the two conversions. *)
Record rx_input := RxInput {
  ri_bytes : list Z; ri_cmsgs : list cmsg; ri_tsc : Z; ri_app_rx_ts : timespec;
  ri_ref_tx : timespec * Z; ri_ref_rx : timespec * Z }.

(** What the RX thread learns of a packet: its six stamps in nanoseconds. *)
Record rt_times := RtTimes {
  rtt_tx_tsc : Z; rtt_app_tx : Z; rtt_hw_rx : Z; rtt_ker_rx : Z; rtt_rx_tsc : Z; rtt_app_rx : Z }.
Definition rx_times (freq : double) (tsc_reliable : bool) (c : client) (r : rx_input) (seq_num : Z) : rt_times :=
  let '(_, hw, ker) := extract_rx_timestamps (ri_cmsgs r) ts_zero_spec ts_zero_spec in
  let index := get_circular_index seq_num in
  let '(tx_ts, tx_tsc_ts) :=
    match array_at (app_tx_timestamps c) index, array_at (app_tx_tsc_values c) index with
    | Some tx_ts, Some tx_tsc => (tx_ts, tsc_to_timespec freq (fst (ri_ref_tx r)) (snd (ri_ref_tx r)) tx_tsc)
    | _, _ => (ts_zero_spec, ts_zero_spec)
    end in
  let rx_tsc := if tsc_reliable then ri_tsc r else 0 in
  let rx_tsc_ts := tsc_to_timespec freq (fst (ri_ref_rx r)) (snd (ri_ref_rx r)) rx_tsc in
  RtTimes (ts_ns tx_tsc_ts) (ts_ns tx_ts) (ts_ns hw) (ts_ns ker) (ts_ns rx_tsc_ts) (ts_ns (ri_app_rx_ts r)).

(** The body of the loop of rx_thread_func for a packet received; the buffer has
    RETURN_PACKET_SIZE = 4 bytes. *)
Definition rx_receive (freq : double) (tsc_reliable : bool) (c : client) (r : rx_input) : client :=
  let packet := take 4 (ri_bytes r) in
  if 4 <=? zlen packet then
    let seq_num := ntohl_at packet 0 in
    let t := rx_times freq tsc_reliable c r seq_num in
    let c := ct_with_stats c (update_stats_buffer_with_rx_timestamps (ct_stats c) seq_num (rtt_hw_rx t) (rtt_ker_rx t)
                                (rtt_app_rx t) (rtt_rx_tsc t) STATS_CLIENT_ROUNDTRIP) in
    let c :=
      if ct_csv_enabled c then
        ct_with_csv c (log_csv (ct_csv_buffer c)
          (create_csv_client_roundtrip_rx seq_num (ct_src_ip c) (u16 (ct_src_port c)) (rtt_tx_tsc t) (rtt_app_tx t)
             (rtt_hw_rx t) (rtt_ker_rx t) (rtt_rx_tsc t) (rtt_app_rx t)))
      else c in
    ct_with_received c
  else c.

(** One recvmsg of the RX thread: an empty datagram returns 0 and leaves errno as
    it was, so that the thread goes on or ends by chance. *)
Inductive rx_recv := RxPacket (r : rx_input) | RxEmptyDatagram (errno_transient : bool) | RxAgain | RxInterrupted | RxError.
(** None ends the thread. *)
Definition rx_thread_step (freq : double) (tsc_reliable : bool) (c : client) (r : rx_recv) : option client :=
  match r with
  | RxPacket r => Some (rx_receive freq tsc_reliable c r)
  | RxAgain | RxInterrupted => Some c
  | RxEmptyDatagram transient => if transient then Some c else None
  | RxError => None
  end.

(** ** TX timestamps *)

Definition tx_stamp_handle (c : client) (seq_num ns : Z) : client * Z :=
  let '(c, counted) :=
    match ct_tx_csv_buffer c with
    | Some b =>
        if ct_csv_enabled c then
          (ct_with_tx_csv c (log_csv (Some b) (create_csv_client_oneway_tx seq_num (ct_src_ip c) (u16 (ct_src_port c)) ns)), 1)
        else (c, 0)
    | None => (c, 0)
    end in
  let correlation_mode :=
    match sg_collector (ct_stats c) with
    | Some st => if st_program_mode st =? stats_mode_code STATS_CLIENT_ONEWAY then STATS_CLIENT_ONEWAY else STATS_CLIENT_ROUNDTRIP
    | None => STATS_CLIENT_ROUNDTRIP
    end in
  (ct_with_stats c (update_stats_buffer_with_tx_timestamp (ct_stats c) seq_num ns correlation_mode), counted).
Definition process_tx_timestamps_in_main_thread (c : client) (queue : list errq_recv) : client * Z * list errq_recv :=
  match ct_tx_csv_buffer c with
  | None => if sg_enabled (ct_stats c) then errq_batch tx_stamp_handle TX_TIMESTAMP_BATCH_SIZE c 0 queue else (c, 0, queue)
  | Some _ => errq_batch tx_stamp_handle TX_TIMESTAMP_BATCH_SIZE c 0 queue
  end.
Definition drain_tx_timestamps (c : client) (queue : list errq_recv) : option (client * list errq_recv) :=
  errq_drain process_tx_timestamps_in_main_thread (S (length queue)) c queue.

(** ** Lemmas: what is sent *)

(** Steps that log or store leave the packets sent and the counters alone. *)
Definition same_sent (c c' : client) : Prop :=
  ct_wire c' = ct_wire c /\ ct_seq_num c' = ct_seq_num c /\ ct_total_sent c' = ct_total_sent c /\
  ct_packets_sent c' = ct_packets_sent c.
#[export] Instance same_sent_preorder : PreOrder same_sent.
Proof. split; unfold same_sent; [done|intros ? ? ? ? ?; intuition congruence]. Qed.
Lemma oneway_record_sent c0 clocks c i : same_sent c (oneway_record c0 clocks c i).
Proof. unfold oneway_record. cbv zeta. case_match; by repeat split. Qed.
Lemma store_sent c s t v : same_sent c (store_tx_timestamps c s t v).
Proof. unfold store_tx_timestamps. repeat case_match; by repeat split. Qed.
Lemma roundtrip_record_sent freq c0 clocks c i : same_sent c (roundtrip_record freq c0 clocks c i).
Proof. by repeat split. Qed.

Lemma take_map_seq {A} (f : nat -> A) n b : (n <= b)%nat -> take n (map f (seq 0 b)) = map f (seq 0 n).
Proof.
  intros H. replace b with (n + (b - n))%nat by lia. rewrite seq_app, map_app.
  rewrite take_app_le, take_ge by (rewrite length_map, length_seq; lia). done.
Qed.

(** The packets of a whole run: [packet] of consecutive numbers. *)
Definition result_count (r : sendmmsg_result) : nat := match r with SentCount n => n | _ => O end.
Definition sent_total (inputs : list (tx_clocks * sendmmsg_result)) : nat :=
  sum_list (map (fun i => result_count (snd i)) inputs).
Definition results_ok (pps : Z) (inputs : list (tx_clocks * sendmmsg_result)) : Prop :=
  Forall (fun i => (result_count (snd i) <= client_batch_count pps)%nat) inputs.

Definition sent_by (packet : Z -> list Z) (c : client) (n : nat) (c' : client) : Prop :=
  ct_wire c' = ct_wire c ++ map (fun k => packet (u32 (ct_seq_num c + Z.of_nat k))) (seq 0 n) /\
  u32 (ct_seq_num c') = u32 (ct_seq_num c + Z.of_nat n) /\
  u64 (ct_total_sent c') = u64 (ct_total_sent c + Z.of_nat n) /\
  u64 (ct_packets_sent c') = u64 (ct_packets_sent c + Z.of_nat n).

Lemma u64_add a b k : u64 a = u64 b -> u64 (a + k) = u64 (b + k).
Proof. unfold u64. intros H. rewrite <- Z.add_mod_idemp_l, H, Z.add_mod_idemp_l by lia. done. Qed.
Lemma u32_add a b k : u32 a = u32 b -> u32 (a + k) = u32 (b + k).
Proof. unfold u32. intros H. rewrite <- Z.add_mod_idemp_l, H, Z.add_mod_idemp_l by lia. done. Qed.
Lemma u64_u64 a : u64 (u64 a) = u64 a.
Proof. unfold u64. apply Z.mod_mod. lia. Qed.
Lemma u32_u32 a : u32 (u32 a) = u32 a.
Proof. unfold u32. apply Z.mod_mod. lia. Qed.

Lemma sent_by_trans packet c n c' m c'' :
  sent_by packet c n c' -> sent_by packet c' m c'' -> sent_by packet c (n + m) c''.
Proof.
  intros (W & S & T & P) (W' & S' & T' & P'). unfold sent_by. rewrite Nat2Z.inj_add, !Z.add_assoc. split_and!.
  - rewrite W', W, <- app_assoc. f_equal. rewrite seq_app, map_app. f_equal. rewrite Nat.add_0_l.
    assert (seq n m = map (Nat.add n) (seq 0 m)) as ->.
    { pose proof (fmap_add_seq n 0 m) as H. rewrite Nat.add_0_r in H. by rewrite <- H. }
    rewrite map_map. apply map_ext. intros k.
    rewrite (u32_add _ _ _ S). do 2 f_equal. lia.
  - rewrite S'. by apply u32_add.
  - rewrite T'. by apply u64_add.
  - rewrite P'. by apply u64_add.
Qed.

Lemma sent_by_step packet c c1 n :
  ct_wire c1 = ct_wire c ++ map (fun k => packet (u32 (ct_seq_num c + Z.of_nat k))) (seq 0 n) ->
  ct_seq_num c1 = ct_seq_num c -> ct_total_sent c1 = ct_total_sent c -> ct_packets_sent c1 = ct_packets_sent c ->
  sent_by packet c n (ct_with_sent c1 (Z.of_nat n)).
Proof. intros W S T P. unfold sent_by. simpl. rewrite W, S, T, P, u32_u32, !u64_u64. done. Qed.

Lemma run_sends packet (send : client -> tx_clocks * sendmmsg_result -> option client) inputs c c' :
  Forall (fun i => forall c c', send c i = Some c' -> sent_by packet c (result_count (snd i)) c') inputs ->
  run_steps send c inputs = Some c' -> sent_by packet c (sent_total inputs) c'.
Proof.
  intros Hi. revert c. induction Hi as [|i inputs Hi _ IH]; intros c; cbn [run_steps].
  - intros [= <-]. unfold sent_by. rewrite Z.add_0_r. cbn. rewrite app_nil_r, !Z.add_0_r. done.
  - destruct (send c i) as [c1|] eqn:E; [|done]. intros H. by eapply sent_by_trans; [apply Hi|apply IH].
Qed.

Lemma oneway_send_sent pps size c c' i :
  (result_count (snd i) <= client_batch_count pps)%nat -> oneway_send pps size c i = Some c' ->
  sent_by (oneway_packet size) c (result_count (snd i)) c'.
Proof.
  destruct i as [clocks [n| |]]; cbn [oneway_send snd result_count]; intros Hn E; [unfold oneway_accepted in E|injection E as <-|done].
  - injection E as <-.
    set (c1 := ct_with_wire c _). set (c2 := fold_left (oneway_record c clocks) _ c1). set (c3 := fold_left _ _ c2).
    assert (same_sent c1 c3) as (W & S & T & P).
    { transitivity c2; unfold c3, c2; apply (fold_left_rel same_sent); intros; [apply oneway_record_sent|by repeat split]. }
    apply sent_by_step; [|done..]. rewrite W. unfold c1. cbn [ct_wire ct_with_wire]. by rewrite take_map_seq.
  - unfold sent_by. cbn. rewrite app_nil_r, !Z.add_0_r. done.
Qed.

Lemma roundtrip_send_sent freq pps size port c c' i :
  (result_count (snd i) <= client_batch_count pps)%nat -> roundtrip_send freq pps size port c i = Some c' ->
  sent_by (roundtrip_packet size port) c (result_count (snd i)) c'.
Proof.
  destruct i as [clocks [n| |]]; cbn [roundtrip_send snd result_count]; intros Hn E; [|injection E as <-|done].
  - injection E as <-. unfold roundtrip_records.
    set (c1 := roundtrip_transmit _ _ _ c n). set (c2 := roundtrip_stores clocks n c1).
    set (c3 := fold_left (roundtrip_record freq c2 clocks) _ c2).
    assert (same_sent c1 c3) as (W & S & T & P).
    { transitivity c2; unfold c3, c2, roundtrip_stores; apply (fold_left_rel same_sent); intros;
        [apply store_sent|apply roundtrip_record_sent]. }
    apply sent_by_step; [|done..]. rewrite W. unfold c1, roundtrip_transmit. cbn [ct_wire ct_with_wire].
    by rewrite take_map_seq.
  - unfold sent_by. cbn. rewrite app_nil_r, !Z.add_0_r. done.
Qed.

(** ** Lemmas: what is logged *)

(** [c'] is [c] with the entries [es] and [ses] added to its two logs. *)
Definition logged (c : client) (b : csv_ring_buffer_t) (st : stats_collector_t) (es : list csv_entry_t)
    (ses : list stats_entry_t) (c' : client) : Prop :=
  ct_csv_enabled c' = true /\ ct_src_ip c' = ct_src_ip c /\ ct_src_port c' = ct_src_port c /\
  ct_csv_buffer c' = Some (csv_enqueue_all b es) /\
  exists st', ct_stats c' = StatsGlobals true (Some st') /\ ring_wf st' /\ st_size_mask st' = st_size_mask st /\
    ring_contents st' = lastn (Z.to_nat (st_size_mask st)) (ring_contents st ++ ses).
Definition logging (c : client) (b : csv_ring_buffer_t) (st : stats_collector_t) : Prop :=
  ct_csv_enabled c = true /\ ct_csv_buffer c = Some b /\ ct_stats c = StatsGlobals true (Some st) /\
  ring_wf b /\ ring_wf st.

Lemma logged_refl c b st : logging c b st -> logged c b st [] [] c.
Proof.
  intros (H1 & H2 & H3 & H4 & H5). unfold logged. split_and!; try done. exists st. split_and!; try done.
  rewrite app_nil_r. symmetry. apply lastn_all. pose proof (ring_contents_length st H5) as Hl.
  pose proof (ring_count_range st H5) as Hr. unfold ring_size, zlen in *. simpl in Hr. lia.
Qed.
Lemma logged_logging c b st es ses c' :
  ring_wf b -> logged c b st es ses c' -> exists st', logging c' (csv_enqueue_all b es) st' /\
    st_size_mask st' = st_size_mask st /\
    ring_contents st' = lastn (Z.to_nat (st_size_mask st)) (ring_contents st ++ ses).
Proof.
  intros Hw (H1 & _ & _ & H2 & st' & H3 & H4 & H5 & H6). exists st'. split_and!; try done. split_and!; try done.
  by apply csv_enqueue_all_spec.
Qed.
Lemma logged_trans c b st es ses c' es' ses' c'' :
  ring_wf b -> logged c b st es ses c' ->
  (forall st', logging c' (csv_enqueue_all b es) st' -> logged c' (csv_enqueue_all b es) st' es' ses' c'') ->
  logged c b st (es ++ es') (ses ++ ses') c''.
Proof.
  intros Hw H1 H2. destruct (logged_logging _ _ _ _ _ _ Hw H1) as (st' & Hl & Hm & Hc).
  destruct H1 as (_ & I1 & P1 & _). destruct (H2 st' Hl) as (E & I2 & P2 & B2 & st'' & S2 & W2 & M2 & C2).
  unfold logged. split_and!; try congruence.
  - rewrite B2. unfold csv_enqueue_all. by rewrite fold_left_app.
  - exists st''. split_and!; try done; [congruence|]. rewrite C2, Hc, Hm, lastn_app_lastn, <- app_assoc. done.
Qed.

Lemma log_map {A} (f : client -> A -> client) (e : A -> csv_entry_t) (se : A -> stats_entry_t) l c b st :
  (forall c' b' st' x, logging c' b' st' -> ct_src_ip c' = ct_src_ip c -> ct_src_port c' = ct_src_port c ->
     logged c' b' st' [e x] [se x] (f c' x)) ->
  logging c b st -> logged c b st (map e l) (map se l) (fold_left f l c).
Proof.
  intros Hf. assert (forall c', ct_src_ip c' = ct_src_ip c -> ct_src_port c' = ct_src_port c -> forall b st,
    logging c' b st -> logged c' b st (map e l) (map se l) (fold_left f l c')) as H; [|by apply H].
  clear b st. induction l as [|x l IH]; intros c' Hi Hp b st Hl; [by apply logged_refl|]. cbn [fold_left map].
  change (e x :: map e l) with ([e x] ++ map e l). change (se x :: map se l) with ([se x] ++ map se l).
  pose proof (Hf c' b st x Hl Hi Hp) as H1.
  eapply logged_trans; [apply Hl|exact H1|]. intros st' Hl'. apply IH; [| |done]; destruct H1 as (_ & ? & ? & _); congruence.
Qed.

(** Steps that do not log. *)
Definition same_logs (c c' : client) : Prop :=
  ct_csv_enabled c' = ct_csv_enabled c /\ ct_csv_buffer c' = ct_csv_buffer c /\ ct_stats c' = ct_stats c /\
  ct_src_ip c' = ct_src_ip c /\ ct_src_port c' = ct_src_port c.
#[export] Instance same_logs_preorder : PreOrder same_logs.
Proof. split; unfold same_logs; [done|intros ? ? ? ? ?; intuition congruence]. Qed.

(** One-way: an entry in each log for each packet. *)
Definition oneway_csv (ip : cstr) (port first : Z) (k : nat) (t : timespec) : csv_entry_t :=
  create_csv_client_oneway_main (u32 (first + Z.of_nat k)) ip (u16 port) (ts_ns t).
Definition oneway_stat (port first : Z) (k : nat) (t : timespec) : stats_entry_t :=
  StatsEntry (u32 (first + Z.of_nat k)) [0; ts_ns t; 0; 0; 0; 0; 0; 0; 0; 0; 0; 0] (u16 port) 1 7.
(** The application stamps of the packets of a run. *)
Definition sent_stamps {A} (f : tx_clocks -> nat -> A) (inputs : list (tx_clocks * sendmmsg_result)) : list A :=
  concat (map (fun i => map (f (fst i)) (seq 0 (result_count (snd i)))) inputs).

Lemma oneway_record_logs c0 clocks c b st i :
  logging c b st ->
  logged c b st [oneway_csv (ct_src_ip c) (ct_src_port c) (ct_seq_num c0) i (tk_time clocks i)]
    [oneway_stat (ct_src_port c) (ct_seq_num c0) i (tk_time clocks i)] (oneway_record c0 clocks c i).
Proof.
  intros (H1 & H2 & H3 & H4 & H5). unfold oneway_record. cbv zeta. simpl ct_csv_enabled. rewrite H1.
  unfold logged. simpl. rewrite H2. split_and!; try done. rewrite H3.
  unfold update_stats_buffer_with_app_tx_timestamp. by apply stats_record_spec.
Qed.

Lemma imap_seq {A B} (f : nat -> A -> B) (g : nat -> A) n : imap f (map g (seq 0 n)) = map (fun i => f i (g i)) (seq 0 n).
Proof.
  apply list_eq. intros k. rewrite list_lookup_imap.
  change (map g (seq 0 n)) with (g <$> seq 0 n). change (map ?h (seq 0 n)) with (h <$> seq 0 n).
  rewrite !list_lookup_fmap. destruct (seq 0 n !! k) as [j|] eqn:E; [|done].
  apply lookup_seq in E as [-> _]. done.
Qed.

Lemma oneway_send_logs pps size c b st c' i :
  logging c b st -> oneway_send pps size c i = Some c' ->
  let ts := sent_stamps tk_time [i] in
  logged c b st (imap (oneway_csv (ct_src_ip c) (ct_src_port c) (ct_seq_num c)) ts)
    (imap (oneway_stat (ct_src_port c) (ct_seq_num c)) ts) c'.
Proof.
  intros Hl E. cbn zeta. unfold sent_stamps. destruct i as [clocks [n| |]]; cbn in E |- *; [|injection E as <-|done].
  - injection E as <-. unfold oneway_accepted. rewrite app_nil_r, !imap_seq.
    set (c1 := ct_with_wire c _). set (c2 := fold_left (oneway_record c clocks) _ c1). set (c3 := fold_left _ _ c2).
    assert (logged c1 b st (map (fun i => oneway_csv (ct_src_ip c) (ct_src_port c) (ct_seq_num c) i (tk_time clocks i)) (seq 0 n))
      (map (fun i => oneway_stat (ct_src_port c) (ct_seq_num c) i (tk_time clocks i)) (seq 0 n)) c2) as H2.
    { unfold c2. apply log_map; [|done]. intros c' b' st' k Hl' Hi Hp. rewrite <- (eq_refl : ct_src_ip c1 = ct_src_ip c).
      change (ct_src_port c) with (ct_src_port c1). rewrite <- Hi, <- Hp. by apply oneway_record_logs. }
    assert (same_logs c2 c3) as (F1 & F2 & F3 & F4 & F5) by (apply (fold_left_rel same_logs); by repeat split).
    destruct H2 as (G1 & G2 & G3 & G4 & G5). unfold logged. cbn [ct_with_sent ct_csv_enabled ct_src_ip ct_src_port ct_csv_buffer ct_stats].
    rewrite F1, F2, F3, F4, F5. by split_and!.
  - by apply logged_refl.
Qed.

Lemma sent_stamps_cons {A} (f : tx_clocks -> nat -> A) i inputs :
  sent_stamps f (i :: inputs) = sent_stamps f [i] ++ sent_stamps f inputs.
Proof. unfold sent_stamps. cbn. by rewrite app_nil_r. Qed.
Lemma sent_stamps_length {A} (f : tx_clocks -> nat -> A) inputs : length (sent_stamps f inputs) = sent_total inputs.
Proof.
  unfold sent_stamps, sent_total. induction inputs as [|i inputs IH]; [done|]. cbn.
  by rewrite length_app, IH, length_map, length_seq.
Qed.

Lemma oneway_csv_shift ip port first first' n k t :
  u32 first' = u32 (first + Z.of_nat n) -> oneway_csv ip port first' k t = oneway_csv ip port first (n + k) t.
Proof.
  intros H. unfold oneway_csv. f_equal. rewrite Nat2Z.inj_add, Z.add_assoc. by apply u32_add.
Qed.
Lemma oneway_stat_shift port first first' n k t :
  u32 first' = u32 (first + Z.of_nat n) -> oneway_stat port first' k t = oneway_stat port first (n + k) t.
Proof. intros H. unfold oneway_stat. f_equal. rewrite Nat2Z.inj_add, Z.add_assoc. by apply u32_add. Qed.

Lemma oneway_run_logs pps size inputs c b st c' :
  results_ok pps inputs -> logging c b st -> run_steps (oneway_send pps size) c inputs = Some c' ->
  let ts := sent_stamps tk_time inputs in
  logged c b st (imap (oneway_csv (ct_src_ip c) (ct_src_port c) (ct_seq_num c)) ts)
    (imap (oneway_stat (ct_src_port c) (ct_seq_num c)) ts) c'.
Proof.
  intros Hok. revert c b st. induction Hok as [|i inputs Hi _ IH]; intros c b st Hl; cbn [run_steps].
  { intros [= <-]. by apply logged_refl. }
  destruct (oneway_send pps size c i) as [c1|] eqn:E; [|done]. intros H. cbn zeta.
  rewrite sent_stamps_cons, !imap_app. pose proof (oneway_send_logs pps size c b st c1 i Hl E) as H1.
  destruct (oneway_send_sent pps size c c1 i Hi E) as (_ & Hseq & _ & _).
  eapply logged_trans; [apply Hl|exact H1|]. intros st' Hl'. specialize (IH c1 _ st' Hl' H). cbn zeta in IH.
  destruct H1 as (_ & I1 & P1 & _). rewrite I1, P1 in IH.
  assert (length (sent_stamps tk_time [i]) = result_count (snd i)) as -> .
  { rewrite sent_stamps_length. unfold sent_total. cbn. lia. }
  rewrite (imap_ext (oneway_csv (ct_src_ip c) (ct_src_port c) (ct_seq_num c1)) (fun k => oneway_csv (ct_src_ip c) (ct_src_port c) (ct_seq_num c) (result_count (snd i) + k)%nat)) in IH
    by (intros k t _; by apply oneway_csv_shift).
  rewrite (imap_ext (oneway_stat (ct_src_port c) (ct_seq_num c1)) (fun k => oneway_stat (ct_src_port c) (ct_seq_num c) (result_count (snd i) + k)%nat)) in IH
    by (intros k t _; by apply oneway_stat_shift).
  exact IH.
Qed.

(** ** Lemmas: correlation *)

Definition arrays_full (c : client) : Prop := array_full (app_tx_timestamps c) /\ array_full (app_tx_tsc_values c).

(** The arrays after the stores of a run, packet by packet. *)
Definition arrays_after (c : client) (ts : nat -> timespec) (tsc : nat -> Z) (n : nat) (c' : client) : Prop :=
  app_tx_timestamps c' = store_run (app_tx_timestamps c) (ct_seq_num c) ts n /\
  app_tx_tsc_values c' = store_run (app_tx_tsc_values c) (ct_seq_num c) tsc n.

Lemma store_run_ext {A} (a : option (harray A)) first f g n :
  (forall k, (k < n)%nat -> f k = g k) -> store_run a first f n = store_run a first g n.
Proof.
  induction n as [|n IH]; intros H; [done|]. rewrite !store_run_S, (H n) by lia. rewrite IH; [done|].
  intros k Hk. apply H. lia.
Qed.
Lemma store_run_app {A} (a : option (harray A)) first first' f n m :
  u32 first' = u32 (first + Z.of_nat n) ->
  store_run (store_run a first f n) first' (fun k => f (n + k)%nat) m = store_run a first f (n + m).
Proof.
  intros H. induction m as [|m IH]; [by rewrite Nat.add_0_r|].
  rewrite Nat.add_succ_r, !store_run_S, IH. do 2 f_equal. rewrite Nat2Z.inj_add, Z.add_assoc. by apply u32_add.
Qed.

Lemma stores_arrays clocks n c c1 :
  arrays_full c1 -> ct_seq_num c1 = ct_seq_num c ->
  arrays_after c1 (tk_time clocks) (tk_tsc clocks) n
    (fold_left (fun c' i => store_tx_timestamps c' (batch_seq c i) (tk_time clocks i) (tk_tsc clocks i)) (seq 0 n) c1).
Proof.
  intros [Hf1 Hf2] Hseq. induction n as [|n [IH1 IH2]]; [done|].
  rewrite seq_S, fold_left_app. cbn [fold_left Nat.add]. set (c2 := fold_left _ _ c1) in *.
  unfold arrays_after, store_tx_timestamps. rewrite !store_run_S, IH1, IH2.
  destruct (store_run_full _ (ct_seq_num c1) (tk_time clocks) n Hf1) as (p1 & l1 & E1 & _).
  destruct (store_run_full _ (ct_seq_num c1) (tk_tsc clocks) n Hf2) as (p2 & l2 & E2 & _).
  rewrite E1, E2. unfold batch_seq. by rewrite Hseq.
Qed.

Lemma roundtrip_send_arrays freq pps size port c c' i :
  arrays_full c -> roundtrip_send freq pps size port c i = Some c' ->
  arrays_after c (tk_time (fst i)) (tk_tsc (fst i)) (result_count (snd i)) c'.
Proof.
  intros Hf. destruct i as [clocks [n| |]]; cbn [roundtrip_send fst snd result_count]; intros E; [|by injection E as <-|done].
  injection E as <-. unfold roundtrip_records, roundtrip_stores. set (c1 := roundtrip_transmit _ _ _ c n).
  pose proof (stores_arrays clocks n c1 c1 Hf eq_refl) as [H1 H2]. set (c2 := fold_left _ _ c1) in *.
  assert (forall l d, app_tx_timestamps (fold_left (roundtrip_record freq c2 clocks) l d) = app_tx_timestamps d /\
    app_tx_tsc_values (fold_left (roundtrip_record freq c2 clocks) l d) = app_tx_tsc_values d) as Hr.
  { induction l as [|k l IH]; intros d; [done|]. cbn [fold_left]. destruct (IH (roundtrip_record freq c2 clocks d k)) as [-> ->]. done. }
  destruct (Hr (seq 0 n) c2) as [E1 E2]. unfold arrays_after, ct_with_sent. cbn [app_tx_timestamps app_tx_tsc_values].
  by rewrite E1, E2, H1, H2.
Qed.

Definition stamp_at (inputs : list (tx_clocks * sendmmsg_result)) (k : nat) : timespec :=
  default ts_zero_spec (sent_stamps tk_time inputs !! k).
Definition tsc_at (inputs : list (tx_clocks * sendmmsg_result)) (k : nat) : Z :=
  default 0 (sent_stamps tk_tsc inputs !! k).

Lemma roundtrip_run_arrays freq pps size port inputs c c' :
  results_ok pps inputs -> arrays_full c -> run_steps (roundtrip_send freq pps size port) c inputs = Some c' ->
  arrays_after c (stamp_at inputs) (tsc_at inputs) (sent_total inputs) c'.
Proof.
  intros Hok. revert c. induction Hok as [|i inputs Hi _ IH]; intros c Hf; cbn [run_steps]; [by intros [= <-]|].
  destruct (roundtrip_send freq pps size port c i) as [c1|] eqn:E; [|done]. intros H.
  destruct (roundtrip_send_arrays _ _ _ _ _ _ _ Hf E) as [A1 A2].
  destruct (roundtrip_send_sent _ _ _ _ _ _ _ Hi E) as (_ & Hseq & _ & _).
  assert (arrays_full c1) as Hf1 by (unfold arrays_full; rewrite A1, A2; split; apply store_run_full; apply Hf).
  destruct (IH c1 Hf1 H) as [B1 B2]. clear IH H.
  change (sent_total (i :: inputs)) with (result_count (snd i) + sent_total inputs)%nat.
  assert (forall A (f : tx_clocks -> nat -> A) d k, (k < result_count (snd i))%nat ->
    default d (sent_stamps f (i :: inputs) !! k) = f (fst i) k) as Hlow.
  { intros A f d k Hk. rewrite sent_stamps_cons. unfold sent_stamps at 1. cbn. rewrite app_nil_r, lookup_app_l
      by (rewrite length_map, length_seq; done).
    change (map ?g (seq 0 ?n)) with (g <$> seq 0 n). rewrite list_lookup_fmap, lookup_seq_lt by done. done. }
  assert (forall A (f : tx_clocks -> nat -> A) d k,
    default d (sent_stamps f (i :: inputs) !! (result_count (snd i) + k)%nat) = default d (sent_stamps f inputs !! k)) as Hhigh.
  { intros A f d k. rewrite sent_stamps_cons, lookup_app_r by (rewrite sent_stamps_length; unfold sent_total; cbn; lia).
    do 2 f_equal. rewrite sent_stamps_length. unfold sent_total. cbn. lia. }
  split; [rewrite B1, A1|rewrite B2, A2].
  - rewrite <- (store_run_app _ _ (ct_seq_num c1) (stamp_at (i :: inputs)) _ _ Hseq).
    rewrite (store_run_ext _ _ (tk_time (fst i)) (stamp_at (i :: inputs))) by (intros k Hk; symmetry; by apply Hlow).
    apply store_run_ext. intros k _. symmetry. apply Hhigh.
  - rewrite <- (store_run_app _ _ (ct_seq_num c1) (tsc_at (i :: inputs)) _ _ Hseq).
    rewrite (store_run_ext _ _ (tk_tsc (fst i)) (tsc_at (i :: inputs))) by (intros k Hk; symmetry; by apply Hlow).
    apply store_run_ext. intros k _. symmetry. apply Hhigh.
Qed.

Lemma rx_receive_logs freq rel c b r :
  ct_csv_enabled c = true -> ct_csv_buffer c = Some b -> 4 <= zlen (ri_bytes r) ->
  let seq := ntohl_at (ri_bytes r) 0 in
  let t := rx_times freq rel c r seq in
  ct_csv_buffer (rx_receive freq rel c r) =
    Some (fst (csv_enqueue_fast b
      (create_csv_client_roundtrip_rx seq (ct_src_ip c) (u16 (ct_src_port c)) (rtt_tx_tsc t) (rtt_app_tx t)
         (rtt_hw_rx t) (rtt_ker_rx t) (rtt_rx_tsc t) (rtt_app_rx t)))) /\
  ct_stats (rx_receive freq rel c r) =
    update_stats_buffer_with_rx_timestamps (ct_stats c) seq (rtt_hw_rx t) (rtt_ker_rx t) (rtt_app_rx t)
      (rtt_rx_tsc t) STATS_CLIENT_ROUNDTRIP.
Proof.
  intros He Hb H4. cbn zeta. unfold rx_receive. rewrite ntohl_take4.
  assert (zlen (take 4 (ri_bytes r)) = 4) as -> by (unfold zlen in *; rewrite length_take; lia).
  cbv zeta. change (4 <=? 4) with true. cbn [ct_with_stats ct_csv_enabled]. rewrite He. cbn. by rewrite Hb.
Qed.

(** The entry of a reply: [tx] and [tsc] are what the correlation slot holds. *)
Definition reply_entry (freq : double) (rel : bool) (c : client) (r : rx_input) (tx : timespec) (tsc : Z) : csv_entry_t :=
  let conv ref v := ts_ns (tsc_to_timespec freq (fst ref) (snd ref) v) in
  let '(_, hw, ker) := extract_rx_timestamps (ri_cmsgs r) ts_zero_spec ts_zero_spec in
  create_csv_client_roundtrip_rx (ntohl_at (ri_bytes r) 0) (ct_src_ip c) (u16 (ct_src_port c))
    (conv (ri_ref_tx r) tsc) (ts_ns tx) (ts_ns hw) (ts_ns ker)
    (conv (ri_ref_rx r) (if rel then ri_tsc r else 0)) (ts_ns (ri_app_rx_ts r)).

Lemma rx_receive_entry freq rel c b r tx tsc :
  ct_csv_enabled c = true -> ct_csv_buffer c = Some b -> ring_wf b -> 4 <= zlen (ri_bytes r) ->
  array_at (app_tx_timestamps c) (get_circular_index (ntohl_at (ri_bytes r) 0)) = Some tx ->
  array_at (app_tx_tsc_values c) (get_circular_index (ntohl_at (ri_bytes r) 0)) = Some tsc ->
  exists b', ct_csv_buffer (rx_receive freq rel c r) = Some b' /\ ring_wf b' /\
    ring_contents b' = take (Z.to_nat (cb_size_mask b)) (ring_contents b ++ [reply_entry freq rel c r tx tsc]).
Proof.
  intros He Hb Hw H4 Htx Htsc. destruct (rx_receive_logs freq rel c b r He Hb H4) as [E _]. cbn zeta in E.
  unfold rx_times in E. rewrite Htx, Htsc in E. rewrite E. unfold reply_entry.
  destruct (extract_rx_timestamps _ _ _) as [[f hw] ker]. cbn [rtt_tx_tsc rtt_app_tx rtt_hw_rx rtt_ker_rx rtt_rx_tsc rtt_app_rx].
  match goal with |- exists b', Some (fst (csv_enqueue_fast b ?e)) = _ /\ _ =>
    destruct (csv_enqueue_all_spec [e] b Hw) as (H1 & _ & H3) end.
  eexists. split; [done|]. split; [exact H1|exact H3].
Qed.

(** ** Properties *)

(** Whatever the kernel accepts, batch by batch, the packets sent in either mode
    carry consecutive sequence numbers without a gap or a repetition (modulo
    2^32), each in the layout of its mode, and the counters count them. *)
Theorem client_sequence_numbers (freq : double) (pps packet_size rx_port : Z)
    (inputs : list (tx_clocks * sendmmsg_result)) (c c1 c2 : client) :
  results_ok pps inputs ->
  run_steps (oneway_send pps packet_size) c inputs = Some c1 ->
  run_steps (roundtrip_send freq pps packet_size rx_port) c inputs = Some c2 ->
  sent_by (oneway_packet packet_size) c (sent_total inputs) c1 /\
  sent_by (roundtrip_packet packet_size rx_port) c (sent_total inputs) c2.
Proof.
  intros Hok H1 H2. split.
  - eapply run_sends; [|exact H1]. eapply Forall_impl; [exact Hok|]. intros i Hi d d' E. exact (oneway_send_sent pps packet_size d d' i Hi E).
  - eapply run_sends; [|exact H2]. eapply Forall_impl; [exact Hok|]. intros i Hi d d' E. exact (roundtrip_send_sent freq pps packet_size rx_port d d' i Hi E).
Qed.

(** A client with both logs on and small rings, and a batch of [n] packets. *)
Definition demo_client : client :=
  Client (lit "10.0.0.7") 5000 true (Some (sample_ring (2 ^ 3) 2)) (Some (sample_ring (2 ^ 3) 2))
    (StatsGlobals true (Some (sample_collector (2 ^ 2))))
    (Some (10%nat, replicate (Z.to_nat 50000) ts_zero_spec)) (Some (11%nat, replicate (Z.to_nat 50000) 0)) 0 0 0 0 0 [].
Definition demo_batch (n : nat) : tx_clocks * sendmmsg_result :=
  (TxClocks (fun i => Timespec 8 (Z.of_nat i)) (fun i => 100 + Z.of_nat i) (fun _ => (Timespec 8 0, 100)) (fun _ => (Timespec 8 0, 100)),
   SentCount n).
Definition demo_freq : double := ddiv (of_Z 5) (of_Z 2).
Definition demo_inputs : list (tx_clocks * sendmmsg_result) := [demo_batch 3; (fst (demo_batch 0), SentAgain); demo_batch 2].
Lemma demo_inputs_ok : results_ok 1000 demo_inputs.
Proof. unfold results_ok, demo_inputs. repeat (apply Forall_cons; split; [vm_compute; lia|]). constructor. Qed.
Lemma demo_arrays_full : arrays_full demo_client.
Proof. split; do 2 eexists; (split; [reflexivity|]); unfold zlen; rewrite length_replicate; reflexivity. Qed.
Lemma demo_client_logging : logging demo_client (sample_ring (2 ^ 3) 2) (sample_collector (2 ^ 2)).
Proof.
  exact (conj eq_refl (conj eq_refl (conj eq_refl
    (conj (sample_ring_wf 3 2 ltac:(lia)) (sample_collector_wf 2 ltac:(lia)))))).
Qed.

Lemma client_sequence_numbers_witness :
  exists c2, run_steps (roundtrip_send demo_freq 1000 12 7000) demo_client demo_inputs = Some c2 /\
    map (fun p => ntohl_at p 0) (ct_wire c2) = [0; 1; 2; 3; 4].
Proof.
  destruct (run_steps (oneway_send 1000 12) demo_client demo_inputs) as [c1|] eqn:E1; [|discriminate].
  destruct (run_steps (roundtrip_send demo_freq 1000 12 7000) demo_client demo_inputs) as [c2|] eqn:E2; [|discriminate].
  exists c2. split; [reflexivity|].
  destruct (client_sequence_numbers demo_freq 1000 12 7000 demo_inputs demo_client c1 c2 demo_inputs_ok E1 E2) as [_ (W & _)].
  rewrite W. vm_compute. reflexivity.
Defined.

(** In one-way mode every packet the kernel accepted has, in order and up to the
    capacity of the logs, one CSV entry and one statistics entry with its sequence
    number and the application stamp taken for it; refused packets have none. *)
Theorem oneway_client_logs_every_packet (pps packet_size : Z) (inputs : list (tx_clocks * sendmmsg_result))
    (c c' : client) (b : csv_ring_buffer_t) (st : stats_collector_t) :
  results_ok pps inputs -> logging c b st -> run_steps (oneway_send pps packet_size) c inputs = Some c' ->
  let stamps := sent_stamps tk_time inputs in
  length stamps = sent_total inputs /\
  (exists b', ct_csv_buffer c' = Some b' /\ ring_wf b' /\
     ring_contents b' = take (Z.to_nat (cb_size_mask b)) (ring_contents b ++
       imap (fun k t => create_csv_client_oneway_main (u32 (ct_seq_num c + Z.of_nat k)) (ct_src_ip c)
                          (u16 (ct_src_port c)) (ts_ns t)) stamps)) /\
  (exists st', ct_stats c' = StatsGlobals true (Some st') /\
     ring_contents st' = lastn (Z.to_nat (st_size_mask st)) (ring_contents st ++
       imap (oneway_stat (ct_src_port c) (ct_seq_num c)) stamps)).
Proof.
  intros Hok Hl Hrun. destruct (oneway_run_logs pps packet_size inputs c b st c' Hok Hl Hrun) as (_ & _ & _ & Hb & st' & Hs & _ & _ & Hc).
  split; [apply sent_stamps_length|]. split; [|by exists st'].
  eexists. split; [exact Hb|].
  destruct (csv_enqueue_all_spec (imap (oneway_csv (ct_src_ip c) (ct_src_port c) (ct_seq_num c)) (sent_stamps tk_time inputs)) b)
    as (H1 & _ & H3); [apply Hl|]. split; [exact H1|exact H3].
Qed.

Lemma oneway_client_logs_every_packet_witness :
  exists c' b', run_steps (oneway_send 1000 12) demo_client demo_inputs = Some c' /\ ct_csv_buffer c' = Some b' /\
    map ce_seq_num (ring_contents b') = [0; 1; 2; 3; 4].
Proof.
  destruct (run_steps (oneway_send 1000 12) demo_client demo_inputs) as [c1|] eqn:E1; [|discriminate].
  destruct (oneway_client_logs_every_packet 1000 12 demo_inputs demo_client c1 _ _ demo_inputs_ok demo_client_logging E1)
    as (_ & (b' & Hb & _ & Hc) & _).
  exists c1, b'. split; [reflexivity|]. split; [exact Hb|]. rewrite Hc. vm_compute. reflexivity.
Defined.

(** C15: after any round-trip run, the reply to any of the last 50000 packets sent is
    logged with the application stamp and the cycle count taken for that very
    packet, as long as the sequence number has not wrapped. *)
Theorem replies_find_their_stamps (freq : double) (pps packet_size rx_port : Z) (tsc_reliable : bool)
    (inputs : list (tx_clocks * sendmmsg_result)) (c c' : client) (b : csv_ring_buffer_t) (k : nat) (r : rx_input) :
  results_ok pps inputs -> arrays_full c ->
  0 <= ct_seq_num c -> ct_seq_num c + Z.of_nat (sent_total inputs) <= 4294967296 ->
  run_steps (roundtrip_send freq pps packet_size rx_port) c inputs = Some c' ->
  (k < sent_total inputs)%nat -> Z.of_nat (sent_total inputs) - Z.of_nat k <= 50000 ->
  4 <= zlen (ri_bytes r) -> ntohl_at (ri_bytes r) 0 = ct_seq_num c + Z.of_nat k ->
  ct_csv_enabled c' = true -> ct_csv_buffer c' = Some b -> ring_wf b ->
  exists b', ct_csv_buffer (rx_receive freq tsc_reliable c' r) = Some b' /\ ring_wf b' /\
    ring_contents b' = take (Z.to_nat (cb_size_mask b))
      (ring_contents b ++ [reply_entry freq tsc_reliable c' r (stamp_at inputs k) (tsc_at inputs k)]).
Proof.
  intros Hok Hf H0 Hmax Hrun Hk Hw H4 Hseq He Hb Hwb.
  destruct (roundtrip_run_arrays freq pps packet_size rx_port inputs c c' Hok Hf Hrun) as [A1 A2].
  apply rx_receive_entry; try done; rewrite Hseq.
  - rewrite A1. apply store_run_at; (apply Hf || done).
  - rewrite A2. apply store_run_at; (apply Hf || done).
Qed.

Definition demo_reply (k : Z) : rx_input :=
  RxInput (htonl_bytes k) [CmsgTimestamping (Timespec 9 1) ts_zero_spec (Timespec 9 0)] 500 (Timespec 9 2)
    (Timespec 9 2, 500) (Timespec 9 2, 500).
Lemma replies_find_their_stamps_witness :
  exists c' b', run_steps (roundtrip_send demo_freq 1000 12 7000) demo_client demo_inputs = Some c' /\
    ct_csv_buffer (rx_receive demo_freq true c' (demo_reply 4)) = Some b' /\
    map (fun e => (ce_seq_num e, take 2 (ce_timestamp_ns e))) (ring_contents b') = [(4, [8999999843; 8000000001])].
Proof.
  destruct (run_steps (roundtrip_send demo_freq 1000 12 7000) demo_client demo_inputs) as [c2|] eqn:E2; [|discriminate].
  assert (ct_csv_enabled c2 = true /\ ct_csv_buffer c2 = Some (sample_ring (2 ^ 3) 2)) as [He Hb].
  { injection E2 as <-. split; vm_compute; reflexivity. }
  assert (ct_src_ip c2 = lit "10.0.0.7" /\ ct_src_port c2 = 5000) as [Hi Hp] by (injection E2 as <-; split; vm_compute; reflexivity).
  destruct (replies_find_their_stamps demo_freq 1000 12 7000 true demo_inputs demo_client c2 (sample_ring (2 ^ 3) 2) 4 (demo_reply 4)
    demo_inputs_ok demo_arrays_full ltac:(simpl; lia) ltac:(vm_compute; discriminate) E2 ltac:(vm_compute; lia)
    ltac:(vm_compute; discriminate) ltac:(vm_compute; discriminate) ltac:(vm_compute; reflexivity) He Hb
    (sample_ring_wf 3 2 ltac:(lia))) as (b' & Hb' & _ & Hc).
  exists c2, b'. split; [reflexivity|]. split; [exact Hb'|]. rewrite Hc. unfold reply_entry. rewrite Hi, Hp. vm_compute. reflexivity.
Defined.

(** C32: a reply handled before the sending thread has stored the packet's stamps is
    logged with what the slot held before, and its RX stamps find no statistics
    entry: the statistics do not change. *)
Theorem reply_before_store_is_stale (freq : double) (pps packet_size rx_port : Z) (tsc_reliable : bool)
    (c : client) (b : csv_ring_buffer_t) (st : stats_collector_t) (sent : nat) (r : rx_input) :
  arrays_full c -> logging c b st -> 4 <= zlen (ri_bytes r) ->
  Forall (fun e => se_seq_num e <> ntohl_at (ri_bytes r) 0) (ring_contents st) ->
  let early := rx_receive freq tsc_reliable (roundtrip_transmit pps packet_size rx_port c sent) r in
  let index := get_circular_index (ntohl_at (ri_bytes r) 0) in
  (exists tx tsc, array_at (app_tx_timestamps c) index = Some tx /\ array_at (app_tx_tsc_values c) index = Some tsc /\
     exists b', ct_csv_buffer early = Some b' /\
       ring_contents b' = take (Z.to_nat (cb_size_mask b)) (ring_contents b ++ [reply_entry freq tsc_reliable c r tx tsc])) /\
  (exists st', ct_stats early = StatsGlobals true (Some st') /\ ring_contents st' = ring_contents st).
Proof.
  intros [Hf1 Hf2] (He & Hb & Hs & Hwb & Hws) H4 Hno. cbn zeta. set (c1 := roundtrip_transmit pps packet_size rx_port c sent).
  split.
  - destruct (array_at_full _ (get_circular_index (ntohl_at (ri_bytes r) 0)) Hf1 (get_circular_index_range _)) as [tx Htx].
    destruct (array_at_full _ (get_circular_index (ntohl_at (ri_bytes r) 0)) Hf2 (get_circular_index_range _)) as [tsc Htsc].
    exists tx, tsc. split_and!; [done..|].
    destruct (rx_receive_entry freq tsc_reliable c1 b r tx tsc He Hb Hwb H4 Htx Htsc) as (b' & H1 & _ & H2).
    exists b'. split; [exact H1|exact H2].
  - destruct (rx_receive_logs freq tsc_reliable c1 b r He Hb H4) as [_ E]. cbn zeta in E.
    change (ct_stats c1) with (ct_stats c) in E. rewrite Hs in E.
    unfold update_stats_buffer_with_rx_timestamps in E.
    match type of E with _ = update_stats_buffer _ ?s ?f =>
      destruct (update_stats_buffer_spec st s f Hws) as (st' & E' & _ & Hc) end.
    exists st'. split; [by rewrite E, E'|]. rewrite Hc. unfold update_recent.
    rewrite <- (rev_involutive (ring_contents st)) at 2. f_equal.
    assert (Forall (fun e => se_seq_num e <> ntohl_at (ri_bytes r) 0) (rev (ring_contents st))) as Hr by (by apply Forall_rev).
    clear -Hr. induction Hr as [|e l He _ IH]; [done|]. cbn [update_first]. by rewrite (proj2 (Z.eqb_neq _ _) He), IH.
Qed.

Lemma reply_before_store_is_stale_witness :
  exists b', ct_csv_buffer (rx_receive demo_freq true (roundtrip_transmit 1000 12 7000 demo_client 2) (demo_reply 1)) = Some b' /\
    map (fun e => (ce_seq_num e, take 2 (ce_timestamp_ns e))) (ring_contents b') = [(1, [0; 0])].
Proof.
  destruct (reply_before_store_is_stale demo_freq 1000 12 7000 true demo_client _ _ 2 (demo_reply 1) demo_arrays_full
    demo_client_logging ltac:(vm_compute; discriminate) ltac:(constructor)) as [(tx & tsc & Htx & Htsc & b' & Hb & Hc) _].
  exists b'. split; [exact Hb|]. rewrite Hc.
  assert (tx = ts_zero_spec) as -> by (assert (Some tx = Some ts_zero_spec) as H by (rewrite <- Htx; vm_compute; reflexivity); by injection H).
  assert (tsc = 0) as -> by (assert (Some tsc = Some 0) as H by (rewrite <- Htsc; vm_compute; reflexivity); by injection H).
  vm_compute. reflexivity.
Defined.

(** ** TX timestamps *)

Definition client_tx_entry (c : client) (stamp : Z * Z) : csv_entry_t :=
  create_csv_client_oneway_tx (fst stamp) (ct_src_ip c) (u16 (ct_src_port c)) (snd stamp).
Definition tx_csv_on (c c' : client) : Prop :=
  ct_src_ip c' = ct_src_ip c /\ ct_src_port c' = ct_src_port c /\ ct_csv_enabled c' = true /\
  exists b, ct_tx_csv_buffer c' = Some b.
Definition tx_csv_off (c : client) : Prop := ct_tx_csv_buffer c = None /\ sg_enabled (ct_stats c) = true.

Lemma client_handle_on c : counts tx_stamp_handle (tx_csv_on c) 1.
Proof.
  intros d seq ns (Hi & Hp & He & b & Hb). unfold tx_stamp_handle. rewrite Hb, He. split; [|done].
  split_and!; try done. by eexists.
Qed.
Lemma client_handle_off : counts tx_stamp_handle tx_csv_off 0.
Proof.
  intros d seq ns (Hb & Hg). unfold tx_stamp_handle. rewrite Hb. split; [|done]. split; [done|]. simpl.
  unfold update_stats_buffer_with_tx_timestamp, update_stats_buffer. by repeat case_match.
Qed.
Lemma client_handle_all stamps c d b :
  tx_csv_on c d -> ct_tx_csv_buffer d = Some b ->
  ct_tx_csv_buffer (handle_all tx_stamp_handle d stamps) = Some (csv_enqueue_all b (map (client_tx_entry c) stamps)).
Proof.
  revert d b. induction stamps as [|[seq ns] stamps IH]; intros d b Hon Hb; [done|].
  unfold handle_all. cbn [fold_left map]. pose proof (client_handle_on c d seq ns Hon) as [Hon' _].
  apply IH; [done|]. destruct Hon as (Hi & Hp & He & _). unfold tx_stamp_handle, client_tx_entry. cbn [fst snd].
  rewrite Hb, He. simpl. by rewrite Hi, Hp.
Qed.

(** Draining the client's error queue terminates.  With the TX log open every
    message queued is consumed and logged, in order, with its sequence number and
    kernel time; with statistics alone the drain stops after the first 256
    messages and leaves the rest unread. *)
Theorem client_drain_tx_timestamps (c : client) (queue : list errq_recv) :
  Forall is_msg queue ->
  (forall b, ct_csv_enabled c = true -> ct_tx_csv_buffer c = Some b -> ring_wf b ->
     exists c' b', drain_tx_timestamps c queue = Some (c', []) /\ ct_tx_csv_buffer c' = Some b' /\
       ring_contents b' = take (Z.to_nat (cb_size_mask b)) (ring_contents b ++ map (client_tx_entry c) (tx_stamps queue))) /\
  (ct_tx_csv_buffer c = None -> sg_enabled (ct_stats c) = true ->
     exists c', drain_tx_timestamps c queue = Some (c', drop 256 queue)).
Proof.
  intros Hq. split.
  - intros b He Hb Hwb. assert (tx_csv_on c c) as Hon by (split_and!; try done; by eexists).
    unfold drain_tx_timestamps. rewrite (errq_drain_all tx_stamp_handle _ (tx_csv_on c)).
    + do 2 eexists. split; [done|]. split; [by apply (client_handle_all _ c c b)|].
      by destruct (csv_enqueue_all_spec (map (client_tx_entry c) (tx_stamps queue)) b Hwb) as (_ & _ & ->).
    + intros d q (_ & _ & _ & b' & Hb'). unfold process_tx_timestamps_in_main_thread. by rewrite Hb'.
    + done.
    + apply client_handle_on.
    + done.
    + lia.
  - intros Hb Hg. unfold drain_tx_timestamps.
    rewrite (errq_drain_uncounted tx_stamp_handle _ tx_csv_off); [by eexists| |done| |done|lia].
    + intros d q (Hb' & Hg'). unfold process_tx_timestamps_in_main_thread. by rewrite Hb', Hg'.
    + apply client_handle_off.
Qed.

Definition demo_tx_message (k : Z) : errq_recv :=
  ErrqMsg (replicate 42 0 ++ htonl_bytes k) [CmsgTimestamping (Timespec 9 k) ts_zero_spec ts_zero_spec; CmsgRecvErr 0].
Lemma client_drain_tx_timestamps_witness :
  exists c', drain_tx_timestamps (ct_with_tx_csv demo_client None) (map (fun k => demo_tx_message (Z.of_nat k)) (seq 0 300)) =
      Some (c', map (fun k => demo_tx_message (Z.of_nat k)) (seq 256 44)).
Proof.
  destruct (client_drain_tx_timestamps (ct_with_tx_csv demo_client None) (map (fun k => demo_tx_message (Z.of_nat k)) (seq 0 300))) as [_ H].
  - apply Forall_forall. by intros m (k & -> & _)%list_elem_of_fmap.
  - exact (H eq_refl eq_refl).
Defined.

(** Initialising the client's two arrays succeeds with both or fails with none
    and nothing leaked; cleanup releases exactly what was taken. *)
Theorem client_correlation_lifecycle (ok : nat -> bool) (h : heap) :
  heap_wf h ->
  let '(ts, tsc, code, h') := init_tx_correlation ok h in
  heap_wf h' /\
  (code = 0 /\ array_full ts /\ array_full tsc /\ hp_live (snd (cleanup_tx_correlation ts tsc h')) ≡ₚ hp_live h
   \/ code = -1 /\ ts = None /\ tsc = None /\ hp_live h' ≡ₚ hp_live h) /\
  ((forall n, ok n = true) -> code = 0).
Proof.
  intros Hw. unfold init_tx_correlation.
  assert (forall A (zero : A) h0, (forall n, ok n = true) -> fst (alloc_array ok zero h0) <> None) as Hok.
  { intros A zero h0 H. unfold alloc_array, alloc_with_fallback, halloc. by rewrite H. }
  pose proof (alloc_array_spec ok ts_zero_spec h Hw) as S1. pose proof (Hok _ ts_zero_spec h) as K1.
  destruct (alloc_array ok ts_zero_spec h) as [[[p1 l1]|] h1]; destruct S1 as [W1 L1].
  2:{ split_and!; [done|right; by rewrite L1|intros H; by destruct (K1 H)]. }
  pose proof (alloc_array_spec ok 0 h1 W1) as S2. pose proof (Hok _ 0 h1) as K2.
  destruct (alloc_array ok 0 h1) as [[[p2 l2]|] h2]; destruct S2 as [W2 L2].
  - destruct L1 as (L1 & _ & N1), L2 as (L2 & _ & N2).
    split_and!; [done| |done]. left. split_and!; [done|by exists p1, l1|by exists p2, l2|].
    apply (free_array_spec (Some (p2, l2)) []). cbn [array_block app].
    apply (free_array_spec (Some (p1, l1)) [p2]). split; [done|]. by rewrite L2, L1.
  - destruct L1 as (L1 & _ & N1). destruct (free_array_spec (Some (p1, l1)) [] (hp_live h) h2) as [W L].
    { split; [done|]. by rewrite L2, L1. }
    split_and!; [exact W|right; by split_and!|intros H; by destruct (K2 H)].
Qed.

Lemma client_correlation_lifecycle_witness :
  let '(ts, tsc, code, h') := init_tx_correlation (fun n => Nat.ltb n 1) (Heap 0 []) in
  code = -1 /\ hp_live h' ≡ₚ [].
Proof.
  assert (heap_wf (Heap 0 [])) as Hw by (split; constructor).
  pose proof (client_correlation_lifecycle (fun n => Nat.ltb n 1) (Heap 0 []) Hw) as H.
  destruct (init_tx_correlation _ (Heap 0 [])) as [[[ts tsc] code] h'] eqn:E.
  assert (code = -1) as ->.
  { change code with (snd (fst (ts, tsc, code, h'))). rewrite <- E. clear E H. vm_compute. reflexivity. }
  destruct H as (_ & [(H & _)|(_ & _ & _ & H)] & _); [discriminate|]. split; [reflexivity|exact H].
Defined.
