(* ===== verification/RoundTrip.v ===== *)
(** Client and server together: the packets of the round-trip client, the echoes
    of the server, and what the client reads in them. *)

From S2P Require Import Prelude CText Ring Wire Double CsvRing ServerQueue ServerRx ServerRt Client.

(** A datagram that carries packet [seq] of a client sending from [addr]. *)
Definition carries (packet_size rx_port addr seq : Z) (d : rx_datagram) : Prop :=
  rd_bytes d = roundtrip_packet packet_size rx_port seq /\ sin_addr (rd_src d) = addr.

Lemma ntohl_at_4 seq v rest : 0 <= v < 4294967296 -> ntohl_at (htonl_bytes seq ++ htonl_bytes v ++ rest) 4 = v.
Proof. intros H. exact (ntohl_htonl v rest H). Qed.

Lemma echo_of_client_packet packet_size rx_port addr seq d :
  1 <= rx_port <= 65535 -> carries packet_size rx_port addr seq d ->
  echo_of d = Some (htonl_bytes seq, SockAddr addr rx_port).
Proof.
  intros Hp [Hb Ha]. unfold echo_of. rewrite Hb, Ha. unfold roundtrip_packet.
  rewrite u32_small by lia. rewrite ntohl_at_4 by lia. rewrite s32_small by lia.
  rewrite (proj2 (Z.leb_le 8 _)) by (unfold zlen; rewrite !length_app; simpl; lia).
  rewrite (proj2 (Z.ltb_lt 0 rx_port)) by lia. by rewrite u16_small by lia.
Qed.

(** C25: when the datagrams the server receives are the packets of a round-trip client,
    then in every interleaving of the server's threads each packet it sends goes
    to the client's address and RX port, the client reads in it the sequence
    number of a packet it sent, and the sequence numbers come back in the order
    the server received them, each at most once. *)
Theorem round_trip_replies (s : server) (x : rt_system) (packet_size rx_port addr : Z) (seqs : list Z) :
  ring_wf (sv_queue s) -> ring_contents (sv_queue s) = [] -> sv_wire s = [] ->
  sv_packets_sent s = 0 -> sv_packets_received s = 0 ->
  rtc rt_step (RtSystem RxIdle s []) x ->
  1 <= rx_port <= 65535 -> Forall (fun q => 0 <= q < 4294967296) seqs ->
  Forall2 (carries packet_size rx_port addr) seqs (rs_received x) ->
  Forall (fun p => snd p = SockAddr addr rx_port) (sv_wire (rs_server x)) /\
  map (fun p => ntohl_at (take 4 (fst p)) 0) (sv_wire (rs_server x)) `sublist_of` seqs.
Proof.
  intros Hw Hc Hwire Hs Hr Hx Hp Hq Hd.
  assert (omap echo_of (rs_received x) = map (fun q => (htonl_bytes q, SockAddr addr rx_port)) seqs) as He.
  { clear -Hp Hd. induction Hd as [|q d seqs ds Hd _ IH]; [done|]. cbn [map].
    rewrite (omap_cons_some _ _ _ _ (echo_of_client_packet _ _ _ _ _ Hp Hd)). by rewrite IH. }
  assert (sv_wire (rs_server x) `sublist_of` map (fun q => (htonl_bytes q, SockAddr addr rx_port)) seqs) as Hsub.
  { rewrite <- He. by eapply echoes_of_reachable. }
  split.
  - apply Forall_forall. intros p Hin. eapply elem_of_sublist in Hin; [|exact Hsub].
    by apply list_elem_of_fmap in Hin as (q & -> & _).
  - assert (map (fun p : list Z * sockaddr_in => ntohl_at (take 4 (fst p)) 0) (map (fun q => (htonl_bytes q, SockAddr addr rx_port)) seqs) = seqs) as Hid.
    { rewrite map_map. clear -Hq. induction Hq as [|q seqs Hq _ IH]; [done|]. cbn [map]. f_equal; [|exact IH].
      cbn [fst]. rewrite ntohl_take4. rewrite <- (app_nil_r (htonl_bytes q)). by apply ntohl_htonl. }
    rewrite <- Hid. clear -Hsub. induction Hsub; simpl; by constructor.
Qed.

Definition demo_client_datagram (q : Z) : rx_datagram :=
  RxDatagram (roundtrip_packet 12 7000 q) (SockAddr 167772161 9000) [] (Timespec 5 0).
Lemma demo_client_datagram_wf q : datagram_wf (demo_client_datagram q).
Proof.
  split_and!; [|unfold zlen; simpl; lia|simpl; lia|simpl; lia].
  unfold bytes_wf, demo_client_datagram, roundtrip_packet, htonl_bytes. simpl.
  repeat (apply Forall_cons; split; [apply u8_range || lia|]). constructor.
Qed.

(** Packets 5 and 6 arrive; the TX thread runs when both are queued. *)
Definition demo_two_packets : rt_system :=
  let '(s, p) := rt_decode demo_server (demo_client_datagram 5) in
  let s := rt_stats (rt_store (rt_enqueue s p) p) p in
  let '(s, p) := rt_decode s (demo_client_datagram 6) in
  RtSystem (RxQueued p) (tx_iteration (rt_enqueue s p) (fun _ => ts_zero_spec) (SendCount 2))
    [demo_client_datagram 5; demo_client_datagram 6].
Lemma round_trip_replies_witness :
  map (fun p => ntohl_at (take 4 (fst p)) 0) (sv_wire (rs_server demo_two_packets)) = [5; 6] /\
  Forall (fun p => snd p = SockAddr 167772161 7000) (sv_wire (rs_server demo_two_packets)).
Proof.
  split; [vm_compute; reflexivity|].
  refine (proj1 (round_trip_replies demo_server demo_two_packets 12 7000 167772161 [5; 6] demo_queue_wf
    eq_refl eq_refl eq_refl eq_refl _ ltac:(lia) ltac:(repeat constructor; lia) ltac:(repeat constructor))).
  eapply rtc_l; [apply (rt_step_receive demo_server [] (demo_client_datagram 5)); apply demo_client_datagram_wf|].
  eapply rtc_l; [apply rt_step_enqueue|]. eapply rtc_l; [apply rt_step_store|]. eapply rtc_l; [apply rt_step_stats|].
  eapply rtc_l; [eapply (rt_step_receive _ _ (demo_client_datagram 6)); apply demo_client_datagram_wf|].
  eapply rtc_l; [apply rt_step_enqueue|].
  eapply rtc_l; [apply (rt_step_tx _ _ _ (fun _ => ts_zero_spec) (SendCount 2))|]. apply rtc_refl.
Defined.
