(* ===== verification/Process.v ===== *)
(** A program from start to exit, as a monad with early return: what it acquires
    and releases, the threads it runs, and the faults it commits.

    A resource is a memory block, socket, thread or log; it is named by the number
    of the call that acquired it, and the live ones are those of Heap.v.  A thread
    is listed with the resources it uses.  Releasing a resource that is not live or
    that a running thread uses is recorded as a fault. *)

From S2P Require Import Prelude Heap CsvLog CsvRing.

(** How waiting for a thread ends; NotJoined is an error of the call. *)
Inductive join_answer := Joined | TimedOut | NotJoined.

(** What the system answers: to the n-th acquisition, to the n-th of the other
    calls that can fail, to the calls of the creation of log n, to waiting for
    thread n for a time, and whether thread n can be cancelled, and joined by a wait
    without end, which answers at last. *)
Record sys_answers := Answers {
  an_ok : nat -> bool; an_call : nat -> bool; an_csv : nat -> csv_create_env; an_join : nat -> join_answer;
  an_cancel : nat -> bool; an_reap : nat -> bool }.

Record proc := Proc {
  pr_heap : heap; pr_calls : nat; pr_threads : list (nat * list nat); pr_faults : list nat }.
Definition pr_live (p : proc) : list nat := hp_live (pr_heap p).

(** Either a value, or the code with which the function returned. *)
Definition prog (A : Type) : Type := proc -> (A + Z) * proc.
#[export] Instance run_ret : MRet prog := fun A a p => (inl a, p).
#[export] Instance run_bind : MBind prog := fun A B f m p =>
  match m p with (inl a, p) => f a p | (inr code, p) => (inr code, p) end.
Definition exit {A} (code : Z) : prog A := fun p => (inr code, p).
Definition EXIT_FAILURE : Z := 1.
Definition EXIT_SUCCESS : Z := 0.

(** A guard: prog the cleanup and return EXIT_FAILURE unless the condition holds. *)
Definition or_exit (cond : bool) (cleanup : prog unit) : prog unit :=
  if cond then mret tt else (cleanup;; exit EXIT_FAILURE).

(** ** Resources *)

Definition uses (ts : list (nat * list nat)) : list nat := concat (map snd ts).

Definition tids (ts : list (nat * list nat)) : list nat := map fst ts.

Definition with_heap {A} (f : heap -> A * heap) : prog A := fun p =>
  let '(a, h) := f (pr_heap p) in (inl a, Proc h (pr_calls p) (pr_threads p) (pr_faults p)).
(** Release of the blocks [bs], which [f] takes out of the live ones. *)
Definition release_all (bs : list nat) (f : heap -> heap) : prog unit := fun p =>
  let bad r := r ∉ pr_live p \/ r ∈ uses (pr_threads p) in
  (inl tt, Proc (f (pr_heap p)) (pr_calls p) (pr_threads p) (pr_faults p ++ base.filter bad bs)).
Definition release (r : nat) : prog unit := release_all [r] (hfree r).
Definition release_opt (r : option nat) : prog unit :=
  match r with Some r => release r | None => mret tt end.

Definition not_null (r : option nat) : bool := match r with Some _ => true | None => false end.

Section system.
  Context (an : sys_answers).

Definition acquire : prog (option nat) := with_heap (halloc (an_ok an)).
(** aligned_alloc with calloc as the fallback. *)
Definition acquire_aligned : prog (option nat) := with_heap (alloc_with_fallback (an_ok an)).
Definition call : prog bool := fun p =>
  (inl (an_call an (pr_calls p)), Proc (pr_heap p) (S (pr_calls p)) (pr_threads p) (pr_faults p)).

(** csv_buffer_create as the programs call it; the log with its ring, file and
    writer thread is one resource. *)
Definition csv_created (env : csv_create_env) (csv_type : csv_type_t) (log_cpu : Z) : bool :=
  match fst (csv_buffer_create env (CsvEntry 0 ts_zero [] 0 csv_type) 1048576 csv_type 10000 log_cpu) with
  | Some _ => true
  | None => false
  end.
Definition create_csv (csv_type : csv_type_t) (log_cpu : Z) : prog (option nat) :=
  with_heap (halloc (fun n => csv_created (an_csv an n) csv_type log_cpu)).
Definition destroy_csv : option nat -> prog unit := release_opt.
(** The conditional creation: no log unless it is configured; failure runs the cleanup. *)
Definition csv_if_enabled (enabled : bool) (csv_type : csv_type_t) (log_cpu : Z) (cleanup : prog unit) : prog (option nat) :=
  if enabled then
    log ← create_csv csv_type log_cpu;
    or_exit (not_null log) cleanup;;
    mret log
  else mret None.

(** ** Threads *)

Definition pthread_create (used : list nat) : prog (option nat) := fun p =>
  let '(t, h) := halloc (an_ok an) (pr_heap p) in
  (inl t, Proc h (pr_calls p) (match t with Some t => (t, used) :: pr_threads p | None => pr_threads p end) (pr_faults p)).
(** The thread has ended and is reaped. *)
Definition reap (t : nat) : prog unit := fun p =>
  (inl tt, Proc (hfree t (pr_heap p)) (pr_calls p) (base.filter (fun x => fst x <> t) (pr_threads p)) (pr_faults p)).
(** A thread that could not be joined runs on, as far as the program knows. *)
Definition pthread_join (t : nat) : prog bool :=
  if an_reap an t then (reap t;; mret true) else mret false.
Definition pthread_timedjoin (t : nat) : prog join_answer :=
  match an_join an t with
  | Joined => reap t;; mret Joined
  | answer => mret answer
  end.
Definition pthread_cancel (t : nat) : prog bool := mret (an_cancel an t).

(** The initialised attributes, or None (-1). *)
Definition setup_realtime_thread_attributes : prog (option nat) :=
  attr ← acquire;
  match attr with
  | None => mret None
  | Some a =>
      policy ← call;
      if negb policy then release a;; mret None else
      priority ← call;
      if negb priority then release a;; mret None else
      inherit ← call;
      if negb inherit then release a;; mret None else
      mret (Some a)
  end.
(** Setting the affinity can only fail with a warning. *)
Definition create_realtime_thread (used : list nat) : prog (option nat) :=
  attr ← setup_realtime_thread_attributes;
  match attr with
  | None => mret None
  | Some a =>
      thread ← pthread_create used;
      release a;;
      mret thread
  end.

(** The thread and its data; the thread uses [used] and the data. *)
Definition start_tx_timestamp_processing_thread (used : list nat) : prog (option (nat * nat)) :=
  thread_data ← acquire;
  match thread_data with
  | None => mret None
  | Some data =>
      thread ← create_realtime_thread (data :: used);
      match thread with
      | None => release data;; mret None
      | Some t => mret (Some (t, data))
      end
  end.
(** A thread that does not end within two seconds is cancelled and joined; whether
    that works is not looked at, and the data is released in any case. *)
Definition stop_tx_timestamp_processing_thread (thread data : nat) : prog unit :=
  join_result ← pthread_timedjoin thread;
  match join_result with
  | TimedOut => _ ← pthread_cancel thread; _ ← pthread_join thread; release data
  | _ => release data
  end.

(** ** Sockets *)

Definition status (ok : bool) : Z := if ok then 0 else -1.
Definition socket : prog (option nat) := acquire.
Definition close : nat -> prog unit := release.
(** The options of a socket with their values, in the order in which they are set. *)
Inductive socket_option :=
  | SO_SNDBUF | SO_RCVBUF | SO_REUSEADDR | SO_REUSEPORT | SO_PRIORITY | SO_INCOMING_CPU | SO_BUSY_POLL | SO_ZEROCOPY.
Definition MAX_SOCKET_BUFFER : Z := 16777216.
Definition socket_options (cpu_id : Z) (is_tx_socket : bool) : list (socket_option * Z) :=
  [(SO_SNDBUF, MAX_SOCKET_BUFFER); (SO_RCVBUF, MAX_SOCKET_BUFFER); (SO_REUSEADDR, 1); (SO_REUSEPORT, 1); (SO_PRIORITY, 7);
   (SO_INCOMING_CPU, cpu_id); (SO_BUSY_POLL, 50)] ++ (if is_tx_socket then [(SO_ZEROCOPY, 1)] else []).
(** An option that cannot be set is only reported. *)
Fixpoint set_options (options : list (socket_option * Z)) : prog unit :=
  match options with
  | [] => mret tt
  | _ :: options => _ ← call; set_options options
  end.
(** The options, O_NONBLOCK and FD_CLOEXEC; 0 or -1. *)
Definition optimize_socket_performance (cpu_id : Z) (is_tx_socket : bool) : prog Z :=
  set_options (socket_options cpu_id is_tx_socket);;
  flags ← call;
  if negb flags then mret (-1) else
  nonblocking ← call;
  if negb nonblocking then mret (-1) else
  _ ← call;
  mret 0.
Definition setup_tx_timestamping : prog Z := option_set ← call; mret (status option_set).
Definition setup_timestamping : prog Z := option_set ← call; mret (status option_set).

(** How a wait for thread [t] can fail. *)
Definition unjoined (t : nat) : Prop :=
  an_join an t = NotJoined \/ an_reap an t = false \/ (an_join an t = TimedOut /\ an_cancel an t = false).

Definition option_list (r : option nat) : list nat := match r with Some r => [r] | None => [] end.

(** SO_BINDTODEVICE, when an interface is given. *)
Definition bind_to_device (wanted : bool) (cleanup : prog unit) : prog unit :=
  if wanted then bound ← call; or_exit bound cleanup else mret tt.

End system.

(** ** Rules

    [wp m Q E p] says that [m] run in [p] ends with a value and [Q], or returns
    early with a code and [E]. *)

Definition wp {A} (m : prog A) (Q : A -> proc -> Prop) (E : Z -> proc -> Prop) (p : proc) : Prop :=
  match m p with (inl a, p') => Q a p' | (inr code, p') => E code p' end.

(** Exactly the resources [l] are live and exactly the threads [ts] run. *)
Record owns (l : list nat) (ts : list (nat * list nat)) (fs : list nat) (p : proc) : Prop := Owns {
  ow_wf : heap_wf (pr_heap p);
  ow_live : pr_live p ≡ₚ l;
  ow_threads : pr_threads p = ts;
  ow_faults : pr_faults p = fs }.

(** Every call of a start succeeds. *)
Definition all_good (an : sys_answers) : Prop :=
  (forall n, an_ok an n = true) /\ (forall n, an_call an n = true) /\
  (forall n ty cpu, csv_created (an_csv an n) ty cpu = true).

Lemma csv_created_good fd ty cpu : 0 <= fd -> csv_created (CsvCreateEnv true true true fd true) ty cpu = true.
Proof.
  intros Hfd. unfold csv_created, csv_buffer_create.
  change ((1048576 =? 0) || negb (Z.land 1048576 (u32 (1048576 - 1)) =? 0)) with false.
  cbn [ce_alloc_buffer ce_alloc_entries ce_alloc_write_buffer ce_open_fd ce_thread_created negb].
  by rewrite (proj2 (Z.ltb_ge fd 0)).
Qed.
(** A system in which everything succeeds. *)
Definition good_answers : sys_answers :=
  Answers (fun _ => true) (fun _ => true) (fun _ => CsvCreateEnv true true true 3 true) (fun _ => Joined) (fun _ => true) (fun _ => true).
Lemma good_answers_good : all_good good_answers.
Proof. split_and!; [done|done|]. intros n ty cpu. by apply csv_created_good. Qed.
Definition new_proc : proc := Proc (Heap 0 []) 0 [] [].
Lemma new_proc_owns : owns [] [] [] new_proc.
Proof. split; [split; constructor|done|done|done]. Qed.

Lemma owns_perm l l' ts fs p : l ≡ₚ l' -> owns l ts fs p -> owns l' ts fs p.
Proof. intros Hl [Hw He Ht Hf]. split; try done. by rewrite <- Hl. Qed.
Lemma owns_nodup l ts fs p : owns l ts fs p -> NoDup l.
Proof. intros [[Hn _] He _ _]. by rewrite <- He. Qed.

Section rules.
  Context (E : Z -> proc -> Prop) (an : sys_answers).

Lemma wp_bind {A B} (m : prog A) (f : A -> prog B) Q p :
  wp m (fun a p => wp (f a) Q E p) E p -> wp (m ≫= f) Q E p.
Proof. unfold wp, mbind, run_bind. by destruct (m p) as [[a|code] p']. Qed.
Lemma wp_mono {A} (m : prog A) (Q Q' : A -> proc -> Prop) p :
  wp m Q E p -> (forall a p, Q a p -> Q' a p) -> wp m Q' E p.
Proof. unfold wp. destruct (m p) as [[a|code] p']; auto. Qed.

Lemma wp_with_heap {A} (f : heap -> A * heap) Q l ts fs p :
  owns l ts fs p ->
  (forall a h', heap_wf (pr_heap p) -> pr_live p ≡ₚ l -> f (pr_heap p) = (a, h') ->
    exists l', heap_wf h' /\ hp_live h' ≡ₚ l' /\ forall p', owns l' ts fs p' -> Q a p') ->
  wp (with_heap f) Q E p.
Proof.
  intros [Hw Hl Ht Hf] H. unfold wp, with_heap. destruct (f (pr_heap p)) as [a h'] eqn:Ef.
  destruct (H a h' Hw Hl eq_refl) as (l' & Hw' & Hl' & HQ). apply HQ. by split.
Qed.

Lemma wp_call Q l ts fs p :
  owns l ts fs p ->
  (forall p', owns l ts fs p' -> Q true p') -> (~ all_good an -> forall p', owns l ts fs p' -> Q false p') ->
  wp (call an) Q E p.
Proof.
  intros [Hw Hl Ht Hf] H1 H2. unfold wp, call. destruct (an_call an (pr_calls p)) eqn:Ec; [by apply H1|].
  apply H2; [|by split]. intros (_ & Hc & _). by rewrite Hc in Ec.
Qed.

Lemma halloc_owns (ok : nat -> bool) Q l ts fs p :
  owns l ts fs p ->
  (forall r p', owns (r :: l) ts fs p' -> Q (Some r) p') ->
  (ok (hp_calls (pr_heap p)) = false -> forall p', owns l ts fs p' -> Q None p') ->
  wp (with_heap (halloc ok)) Q E p.
Proof.
  intros Ho H1 H2. eapply wp_with_heap; [exact Ho|]. intros a h' Hw Hl Eh.
  pose proof (halloc_wf ok _ Hw) as Hw'. rewrite Eh in Hw'. unfold halloc in Eh.
  destruct (ok (hp_calls (pr_heap p))) eqn:Eok; simplify_eq; simpl in *.
  - exists (hp_calls (pr_heap p) :: l). split; [done|]. split; [by apply Permutation_cons|]. intros p' Hp. by apply H1.
  - exists l. split; [done|]. split; [done|]. intros p' Hp. by apply H2.
Qed.


(** Memory functions that release the blocks [bs]. *)
Definition frees (bs : list nat) (f : heap -> heap) : Prop := forall h l,
  heap_wf h -> hp_live h ≡ₚ bs ++ l -> heap_wf (f h) /\ hp_live (f h) ≡ₚ l.

Lemma frees_hfree r : frees [r] (hfree r).
Proof.
  intros h l Hw Hl. split; [by apply hfree_wf|]. simpl in *. destruct Hw as [Hn _].
  rewrite Hl in *. apply NoDup_cons in Hn as [Hr _].
  rewrite filter_cons, decide_False by (intros Hx; by apply Hx). cut (base.filter (fun q => q <> r) l = l); [by intros ->|].
  clear -Hr. induction l as [|q l IH]; [done|]. rewrite filter_cons, decide_True by set_solver. by rewrite IH by set_solver.
Qed.

Lemma wp_release_all bs f Q l ts fs p :
  frees bs f -> owns (bs ++ l) ts fs p -> uses ts ⊆ l -> (forall p', owns l ts fs p' -> Q tt p') ->
  wp (release_all bs f) Q E p.
Proof.
  intros Hf [Hw Hl Ht Hfs] Hu H. unfold wp, release_all. apply H. unfold pr_live in *.
  destruct (Hf (pr_heap p) l Hw Hl) as [Hw' Hl'].
  split; simpl; [done|done|done|]. rewrite Ht, Hfs.
  destruct (base.filter _ bs) as [|r bad] eqn:Eb; [apply app_nil_r|]. exfalso.
  assert (r ∈ r :: bad) as Hr by set_solver. rewrite <- Eb in Hr. apply list_elem_of_filter in Hr as [Hbad Hr].
  destruct Hw as [Hn _]. rewrite Hl in Hn. apply NoDup_app in Hn as (_ & Hd & _).
  destruct Hbad as [Hx|Hx]; [apply Hx; rewrite Hl; set_solver|]. by apply (Hd r Hr), Hu.
Qed.
Lemma wp_release r Q l ts fs p :
  owns (r :: l) ts fs p -> uses ts ⊆ l -> (forall p', owns l ts fs p' -> Q tt p') -> wp (release r) Q E p.
Proof. apply (wp_release_all [r]). apply frees_hfree. Qed.
(** A release with a fault: the resource is in use by a running thread. *)
Lemma wp_release_fault r Q l ts fs p :
  owns (r :: l) ts fs p -> r ∈ uses ts -> (forall p', owns l ts (fs ++ [r]) p' -> Q tt p') -> wp (release r) Q E p.
Proof.
  intros [Hw Hl Ht Hfs] Hu H. unfold wp, release, release_all. apply H.
  destruct (frees_hfree r (pr_heap p) l Hw Hl) as [Hw' Hl'].
  split; [exact Hw'|exact Hl'|exact Ht|]. cbn [pr_faults]. rewrite Ht, Hfs, filter_cons, decide_True by (by right). done.
Qed.

(** What a failure leaves that comes after a thread was started: the thread still
    runs, and a resource it uses has been released under it. *)
Definition stranded (p : proc) : Prop :=
  exists t used r, pr_threads p = [(t, used)] /\ r ∈ used /\ r ∈ pr_faults p.

Lemma wp_release_stranded bs f Q p : stranded p -> (forall p', stranded p' -> Q tt p') -> wp (release_all bs f) Q E p.
Proof.
  intros (t & used & r & Ht & Hr & Hf) H. unfold wp, release_all. apply H. exists t, used, r.
  split; [done|]. split; [done|]. simpl. set_solver.
Qed.
(** The first such release. *)
Lemma wp_release_strands r Q l t used fs p :
  owns (r :: l) [(t, used)] fs p -> r ∈ used -> (forall p', stranded p' -> Q tt p') -> wp (release r) Q E p.
Proof.
  intros Ho Hu H. eapply wp_release_fault; [exact Ho|unfold uses; set_solver|]. intros p' [_ _ Ht Hf]. apply H.
  exists t, used, r. split; [done|]. split; [done|]. rewrite Hf. set_solver.
Qed.

Lemma wp_acquire Q l ts fs p :
  owns l ts fs p ->
  (forall r p', owns (r :: l) ts fs p' -> Q (Some r) p') ->
  (~ all_good an -> forall p', owns l ts fs p' -> Q None p') ->
  wp (acquire an) Q E p.
Proof. intros Ho H1 H2. eapply halloc_owns; [done|done|]. intros Hok. apply H2. intros (Hg & _). by rewrite Hg in Hok. Qed.
Lemma wp_create_csv ty cpu Q l ts fs p :
  owns l ts fs p ->
  (forall r p', owns (r :: l) ts fs p' -> Q (Some r) p') ->
  (~ all_good an -> forall p', owns l ts fs p' -> Q None p') ->
  wp (create_csv an ty cpu) Q E p.
Proof. intros Ho H1 H2. eapply halloc_owns; [done|done|]. intros Hok. apply H2. intros (_ & _ & Hg). by rewrite Hg in Hok. Qed.
Lemma wp_acquire_aligned Q l ts fs p :
  owns l ts fs p ->
  (forall r p', owns (r :: l) ts fs p' -> Q (Some r) p') ->
  (~ all_good an -> forall p', owns l ts fs p' -> Q None p') ->
  wp (acquire_aligned an) Q E p.
Proof.
  intros Ho H1 H2. eapply wp_with_heap; [exact Ho|]. intros a h' Hw Hl Ea.
  pose proof (alloc_with_fallback_spec (an_ok an) _ Hw) as Hs. rewrite Ea in Hs. destruct Hs as [Hw' Hs].
  destruct a as [r|].
  - exists (r :: l). split; [done|]. split; [rewrite (proj1 Hs); by apply Permutation_cons|]. intros p' Hp. by apply H1.
  - exists l. split; [done|]. split; [by rewrite Hs|]. intros p' Hp. apply H2; [|done].
    intros (Hg & _). unfold alloc_with_fallback, halloc in Ea. by rewrite Hg in Ea.
Qed.

Lemma wp_pthread_create used Q l ts fs p :
  owns l ts fs p ->
  (forall t p', owns (t :: l) ((t, used) :: ts) fs p' -> Q (Some t) p') ->
  (~ all_good an -> forall p', owns l ts fs p' -> Q None p') ->
  wp (pthread_create an used) Q E p.
Proof.
  intros [Hw Hl Ht Hf] H1 H2. unfold wp, pthread_create. pose proof (halloc_wf (an_ok an) _ Hw) as Hw'.
  unfold halloc, pr_live in *. destruct (an_ok an (hp_calls (pr_heap p))) eqn:Eok; simpl in *.
  - apply H1. split; simpl; [done| |by rewrite Ht|done]. by apply Permutation_cons.
  - apply H2; [|by split]. intros (Hg & _). by rewrite Hg in Eok.
Qed.
(** The joined thread may be anywhere among the running ones. *)
Lemma wp_reap t u ts1 ts2 Q l fs p :
  owns (t :: l) (ts1 ++ (t, u) :: ts2) fs p -> tids (ts1 ++ ts2) ⊆ l ->
  (forall p', owns l (ts1 ++ ts2) fs p' -> Q tt p') -> wp (reap t) Q E p.
Proof.
  intros Ho Hs H. pose proof (owns_nodup _ _ _ _ Ho) as Hn. apply NoDup_cons in Hn as [Hn _].
  destruct Ho as [Hw Hl Ht Hf]. unfold wp, reap. apply H.
  destruct (frees_hfree t (pr_heap p) l Hw Hl) as [Hw' Hl']. split; [exact Hw'|exact Hl'| |exact Hf].
  simpl. rewrite Ht, filter_app, filter_cons, decide_False by (simpl; intros Hx; by apply Hx).
  assert (forall ts, tids ts ⊆ l -> base.filter (fun x => fst x <> t) ts = ts) as Hk.
  { induction ts as [|x ts IH]; intros Hx; [done|]. simpl in Hx.
    rewrite filter_cons, decide_True by set_solver. by rewrite IH by set_solver. }
  unfold tids in Hs. rewrite map_app in Hs. by rewrite !Hk by (unfold tids; set_solver).
Qed.

End rules.

Lemma sub_cons_l (x : nat) l k : x ∈ k -> l ⊆ k -> x :: l ⊆ k.
Proof. set_solver. Qed.
Lemma sub_app_l (l1 l2 k : list nat) : l1 ⊆ k -> l2 ⊆ k -> l1 ++ l2 ⊆ k.
Proof. set_solver. Qed.
Lemma sub_here (l k : list nat) : l ⊆ l ++ k.
Proof. set_solver. Qed.
Lemma sub_cons_r (x : nat) l k : l ⊆ k -> l ⊆ x :: k.
Proof. set_solver. Qed.
Lemma sub_app_r (l k1 k2 : list nat) : l ⊆ k2 -> l ⊆ k1 ++ k2.
Proof. set_solver. Qed.

(** One step of a run: a rule for the call at its head, chosen by its shape; the
    continuation is simplified, and the resources to release are searched for in
    the live ones. *)
Ltac run_simpl := lazy beta iota; cbn [negb not_null status or_exit Z.eqb Z.leb Z.compare Z.ltb app].
Ltac without r L :=
  lazymatch L with
  | r :: ?L' => constr:(L')
  | r ++ ?L' => constr:(L')
  | ?x :: ?L' => let R := without r L' in constr:(x :: R)
  | ?c ++ ?L' => let R := without r L' in constr:(c ++ R)
  end.
Ltac owned H := first [exact H | eapply owns_perm; [|exact H]; solve_Permutation].
(** Inclusion of the resources in use in the live ones, piece by piece. *)
Ltac in_live :=
  first [apply list_elem_of_here | apply list_elem_of_further; in_live | rewrite elem_of_app; right; in_live].
Ltac part_of_live :=
  first [eassumption | reflexivity | apply sub_here | apply sub_cons_r; part_of_live | apply sub_app_r; part_of_live].
Ltac all_live :=
  lazymatch goal with
  | |- [] ⊆ _ => apply list_subseteq_nil
  | |- _ :: _ ⊆ _ => apply sub_cons_l; [in_live|all_live]
  | |- _ ++ _ ⊆ _ => apply sub_app_l; [all_live|all_live]
  | _ => part_of_live
  end.
Ltac unused := unfold uses, tids; simpl; rewrite <- ?app_assoc; first [all_live | set_solver].
Ltac run_release r p :=
  lazymatch goal with
  | H : stranded p |- _ => eapply (wp_release_stranded _ [r] (hfree r)); [exact H|intros ? ?]
  | H : owns ?L ?ts _ p |- _ =>
    let R := without r L in
    lazymatch ts with
    | context [ r ] => eapply (wp_release_strands _ r _ R); [owned H|unused|intros ? ?]
    | _ => eapply (wp_release _ r _ R); [owned H|unused|intros ? ?]
    end end.
Ltac run_step :=
  lazymatch goal with
  | |- wp (mbind _ _) _ _ _ => apply wp_bind
  | |- wp (mret ?a) ?Q _ ?p => change (Q a p)
  | |- wp (exit ?code) _ ?E ?p => change (E code p)
  | |- wp (call _) _ _ _ => eapply wp_call; [eassumption|intros ? ?|intros ? ? ?]
  | |- wp (acquire _) _ _ _ => eapply wp_acquire; [eassumption|intros ? ? ?|intros ? ? ?]
  | |- wp (socket _) _ _ _ => eapply wp_acquire; [eassumption|intros ? ? ?|intros ? ? ?]
  | |- wp (acquire_aligned _) _ _ _ => eapply wp_acquire_aligned; [eassumption|intros ? ? ?|intros ? ? ?]
  | |- wp (create_csv _ _ _) _ _ _ => eapply wp_create_csv; [eassumption|intros ? ? ?|intros ? ? ?]
  | |- wp (pthread_create _ _) _ _ _ => eapply wp_pthread_create; [eassumption|intros ? ? ?|intros ? ? ?]
  | |- wp (release ?r) _ _ ?p => run_release r p
  | |- wp (close ?r) _ _ ?p => run_release r p
  end; run_simpl.

Section composed.
  Context (E : Z -> proc -> Prop) (an : sys_answers).

Lemma wp_setup_attributes Q l ts fs p :
  owns l ts fs p -> uses ts ⊆ l ->
  (forall a p', owns (a :: l) ts fs p' -> Q (Some a) p') ->
  (~ all_good an -> forall p', owns l ts fs p' -> Q None p') ->
  wp (setup_realtime_thread_attributes an) Q E p.
Proof.
  intros Ho Hu H1 H2. unfold setup_realtime_thread_attributes. do 2 run_step; [|by apply H2].
  repeat run_step; eauto.
Qed.
Lemma wp_create_realtime_thread used Q l ts fs p :
  owns l ts fs p -> uses ts ⊆ l -> used ⊆ l ->
  (forall t p', owns (t :: l) ((t, used) :: ts) fs p' -> Q (Some t) p') ->
  (~ all_good an -> forall p', owns l ts fs p' -> Q None p') ->
  wp (create_realtime_thread an used) Q E p.
Proof.
  intros Ho Hu Hused H1 H2. unfold create_realtime_thread. run_step.
  eapply wp_setup_attributes; [exact Ho|done| |]; [intros a p1 H|intros Hg p1 H]; run_simpl.
  - repeat run_step; eauto.
  - run_step. by apply H2.
Qed.
Lemma wp_start_tx used Q l ts fs p :
  owns l ts fs p -> uses ts ⊆ l -> used ⊆ l ->
  (forall t d p', owns (t :: d :: l) ((t, d :: used) :: ts) fs p' -> Q (Some (t, d)) p') ->
  (~ all_good an -> forall p', owns l ts fs p' -> Q None p') ->
  wp (start_tx_timestamp_processing_thread an used) Q E p.
Proof.
  intros Ho Hu Hused H1 H2. unfold start_tx_timestamp_processing_thread. do 2 run_step; [|by apply H2].
  run_step. eapply wp_create_realtime_thread; [eassumption|set_solver|set_solver| |]; intros; run_simpl; repeat run_step; eauto.
Qed.
Lemma wp_pthread_join t u ts1 ts2 Q l fs p :
  owns (t :: l) (ts1 ++ (t, u) :: ts2) fs p -> tids (ts1 ++ ts2) ⊆ l ->
  (forall p', owns l (ts1 ++ ts2) fs p' -> Q true p') ->
  (an_reap an t = false -> forall p', owns (t :: l) (ts1 ++ (t, u) :: ts2) fs p' -> Q false p') ->
  wp (pthread_join an t) Q E p.
Proof.
  intros Ho Hs H1 H2. unfold pthread_join. destruct (an_reap an t) eqn:Er; [|by apply H2].
  run_step. eapply wp_reap; [exact Ho|exact Hs|]. intros p1 Ho1. by apply H1.
Qed.
(** Stopping the timestamp thread: it has ended, or its data is released under it. *)
Lemma wp_stop_tx t d used ts1 ts2 Q l fs p :
  owns (t :: d :: l) (ts1 ++ (t, d :: used) :: ts2) fs p -> tids (ts1 ++ ts2) ⊆ l -> uses (ts1 ++ ts2) ⊆ l ->
  (forall p', owns l (ts1 ++ ts2) fs p' -> Q tt p') ->
  (unjoined an t -> forall p', owns (t :: l) (ts1 ++ (t, d :: used) :: ts2) (fs ++ [d]) p' -> Q tt p') ->
  wp (stop_tx_timestamp_processing_thread an t d) Q E p.
Proof.
  intros Ho Ht Hu H1 H2.
  assert (unjoined an t -> forall p1, owns (t :: d :: l) (ts1 ++ (t, d :: used) :: ts2) fs p1 -> wp (release d) Q E p1) as Hkept.
  { intros Hj p1 Ho1. apply (wp_release_fault _ d _ (t :: l) (ts1 ++ (t, d :: used) :: ts2) fs); [eapply owns_perm; [|exact Ho1]; solve_Permutation| |by apply H2].
    unfold uses. rewrite map_app, concat_app. set_solver. }
  assert (forall p1, owns (d :: l) (ts1 ++ ts2) fs p1 -> wp (release d) Q E p1) as Hended.
  { intros p1 Ho1. by eapply wp_release. }
  unfold stop_tx_timestamp_processing_thread, pthread_timedjoin. run_step. unfold unjoined in *. destruct (an_join an t).
  - run_step. eapply wp_reap; [exact Ho|set_solver|]. intros p1 Ho1. run_step. by apply Hended.
  - do 2 run_step. change (wp (_ ← pthread_join an t; release d) Q E p). run_step.
    eapply wp_pthread_join; [exact Ho|set_solver|intros p1 Ho1; by apply Hended|intros Hr p1 Ho1; apply Hkept; auto].
  - run_step. apply Hkept; auto.
Qed.

Lemma wp_csv_if_enabled enabled ty cpu cleanup Q l ts fs p :
  owns l ts fs p ->
  (forall log p', owns (option_list log ++ l) ts fs p' -> Q log p') ->
  (~ all_good an -> forall p', owns l ts fs p' -> wp cleanup (fun _ p => E EXIT_FAILURE p) E p') ->
  wp (csv_if_enabled an enabled ty cpu cleanup) Q E p.
Proof.
  intros Ho H1 H2. unfold csv_if_enabled. destruct enabled; [|by apply (H1 None)].
  do 2 run_step; repeat run_step; [by apply (H1 (Some _))|].
  eapply wp_mono; [by apply H2|]. intros a p2 HE. exact HE.
Qed.
Lemma wp_release_opt r Q l ts fs p :
  owns (option_list r ++ l) ts fs p -> uses ts ⊆ l -> (forall p', owns l ts fs p' -> Q tt p') -> wp (release_opt r) Q E p.
Proof. destruct r; [apply wp_release|]. intros Ho _ H. by apply H. Qed.

Lemma wp_set_options options Q l ts fs p :
  owns l ts fs p -> (forall p', owns l ts fs p' -> Q tt p') -> wp (set_options an options) Q E p.
Proof. revert p. induction options as [|o options IH]; intros p Ho HQ; cbn [set_options]; [by apply HQ|].
  repeat run_step; by apply IH. Qed.
Lemma wp_optimize cpu_id is_tx Q l ts fs p :
  owns l ts fs p -> (forall p', owns l ts fs p' -> Q 0 p') -> (~ all_good an -> forall p', owns l ts fs p' -> Q (-1) p') ->
  wp (optimize_socket_performance an cpu_id is_tx) Q E p.
Proof.
  intros Ho H1 H2. unfold optimize_socket_performance. apply wp_bind. eapply wp_set_options; [exact Ho|]. intros p1 Ho1.
  repeat run_step; eauto.
Qed.
Lemma wp_setup_timestamping Q l ts fs p :
  owns l ts fs p -> (forall p', owns l ts fs p' -> Q 0 p') -> (~ all_good an -> forall p', owns l ts fs p' -> Q (-1) p') ->
  wp (setup_timestamping an) Q E p.
Proof. intros Ho H1 H2. unfold setup_timestamping. repeat run_step; eauto. Qed.
Lemma wp_setup_tx_timestamping Q l ts fs p :
  owns l ts fs p -> (forall p', owns l ts fs p' -> Q 0 p') -> (~ all_good an -> forall p', owns l ts fs p' -> Q (-1) p') ->
  wp (setup_tx_timestamping an) Q E p.
Proof. exact (wp_setup_timestamping Q l ts fs p). Qed.
Lemma wp_bind_to_device wanted cleanup Q l ts fs p :
  owns l ts fs p -> (forall p', owns l ts fs p' -> Q tt p') ->
  (~ all_good an -> forall p', owns l ts fs p' -> wp cleanup (fun _ p => E EXIT_FAILURE p) E p') ->
  wp (bind_to_device an wanted cleanup) Q E p.
Proof.
  intros Ho H1 H2. unfold bind_to_device. destruct wanted; [|by apply H1].
  do 2 run_step; repeat run_step; [by apply H1|]. eapply wp_mono; [by apply H2|]. intros a p2 HE. exact HE.
Qed.

End composed.

(** ** The shut-down

    Releases while threads that could not be joined are still running: the resources
    [l] are live, the threads [ts] run, [rel] has been released, and the faults are
    [fs] and what was released of the resources these threads use. *)

Definition shutting (ts : list (nat * list nat)) (fs rel l : list nat) (p : proc) : Prop :=
  exists fs', owns l ts fs' p /\ forall r, r ∈ fs' <-> r ∈ fs \/ r ∈ rel /\ r ∈ uses ts.

Lemma shutting_start l ts fs p : owns l ts fs p -> shutting ts fs [] l p.
Proof. intros H. exists fs. split; [done|]. set_solver. Qed.
(** Without running threads. *)
Lemma shutting_clean rel l p : shutting [] [] rel l p -> owns l [] [] p.
Proof.
  intros (fs & Ho & Hr). destruct fs as [|r fs]; [done|]. destruct (proj1 (Hr r) (list_elem_of_here _ _)) as [H|[_ H]]; set_solver.
Qed.
Lemma elem_of_uses_middle r ts1 t u ts2 : r ∈ uses (ts1 ++ (t, u) :: ts2) <-> r ∈ u \/ r ∈ uses (ts1 ++ ts2).
Proof. unfold uses. rewrite !map_app, !concat_app. cbn [map concat snd]. rewrite !elem_of_app. tauto. Qed.
(** Everything the threads use has been released: it is all there is in the faults. *)
Lemma shutting_all ts fs rel l p : shutting ts fs rel l p -> fs ⊆ uses ts -> uses ts ⊆ fs ++ rel ->
  exists fs', owns l ts fs' p /\ forall r, r ∈ fs' <-> r ∈ uses ts.
Proof.
  intros (fs' & Ho & Hr) H1 H2. exists fs'. split; [done|]. intros r. rewrite Hr. split; [set_solver|].
  intros Hu. specialize (H2 r Hu). set_solver.
Qed.
Lemma shutting_perm ts fs rel l l' p : l ≡ₚ l' -> shutting ts fs rel l p -> shutting ts fs rel l' p.
Proof. intros Hl (fs' & H1 & H2). exists fs'. split; [by eapply owns_perm|done]. Qed.

Lemma wp_shed E bs f Q ts fs rel l p :
  frees bs f -> shutting ts fs rel (bs ++ l) p -> (forall p', shutting ts fs (rel ++ bs) l p' -> Q tt p') ->
  wp (release_all bs f) Q E p.
Proof.
  intros Hf (fs' & [Hw Hl Ht Hfs] & Hr) H. unfold wp, release_all. apply H. unfold pr_live in *.
  destruct (Hf (pr_heap p) l Hw Hl) as [Hw' Hl']. eexists. split; [split; [exact Hw'|exact Hl'|exact Ht|reflexivity]|].
  intros r. cbn [pr_faults]. rewrite Hfs, elem_of_app, Hr, list_elem_of_filter, Ht, elem_of_app, Hl, elem_of_app. tauto.
Qed.
Lemma wp_shed_opt E r Q ts fs rel l p :
  shutting ts fs rel (option_list r ++ l) p -> (forall p', shutting ts fs (rel ++ option_list r) l p' -> Q tt p') ->
  wp (release_opt r) Q E p.
Proof.
  destruct r as [r|]; cbn [option_list release_opt]; intros Hs H; [by eapply (wp_shed _ [r]); [apply frees_hfree|..]|].
  apply H. by rewrite app_nil_r.
Qed.
Ltac shed_perm H := eapply shutting_perm; [|exact H]; solve_Permutation.
Ltac shed_step :=
  lazymatch goal with
  | |- wp (mbind _ _) _ _ _ => apply wp_bind
  | |- wp (mret ?a) ?Q _ ?p => change (Q a p)
  | H : shutting _ _ _ ?L ?p |- wp (release ?r) _ _ ?p =>
      let R := without r L in eapply (wp_shed _ [r] (hfree r) _ _ _ _ R); [apply frees_hfree|shed_perm H|clear H; intros ? ?]
  | H : shutting _ _ _ ?L ?p |- wp (close ?r) _ _ ?p =>
      let R := without r L in eapply (wp_shed _ [r] (hfree r) _ _ _ _ R); [apply frees_hfree|shed_perm H|clear H; intros ? ?]
  | H : shutting _ _ _ ?L ?p |- wp (release_opt ?r) _ _ ?p =>
      let R := without (option_list r) L in eapply (wp_shed_opt _ r _ _ _ _ R); [shed_perm H|clear H; intros ? ?]
  end; run_simpl.

(** The same for the calls composed of others. *)
Ltac run_release_opt r p :=
  lazymatch goal with H : owns ?L _ _ p |- _ =>
    let R := without (option_list r) L in eapply (wp_release_opt _ r _ R); [owned H|unused|intros ? ?] end.
Ltac run_composed :=
  lazymatch goal with
  | |- wp (optimize_socket_performance _ _ _) _ _ _ => eapply wp_optimize; [eassumption|intros ? ?|intros ? ? ?]
  | |- wp (setup_timestamping _) _ _ _ => eapply wp_setup_timestamping; [eassumption|intros ? ?|intros ? ? ?]
  | |- wp (setup_tx_timestamping _) _ _ _ => eapply wp_setup_tx_timestamping; [eassumption|intros ? ?|intros ? ? ?]
  | |- wp (bind_to_device _ _ _) _ _ _ => eapply wp_bind_to_device; [eassumption|intros ? ?|intros ? ? ?]
  | |- wp (csv_if_enabled _ _ _ _ _) _ _ _ => eapply wp_csv_if_enabled; [eassumption|intros ? ? ?|intros ? ? ?]
  | |- wp (release_opt ?r) _ _ ?p => run_release_opt r p
  | |- wp (destroy_csv ?r) _ _ ?p => run_release_opt r p
  | _ => run_step
  end; run_simpl.
