(* ===== verification/Timing.v ===== *)
(** Clocks, cycle counters and pacing of the timestamping programs
    (timestamp_common.h, timestamp_common.c): the cycle counter and its
    calibration, the busy-wait, the intervals of the sending loops, and the
    optimisation of the process. *)

From Stdlib Require Import Sorted.
From S2P Require Import Prelude Double Wire Heap Process.

(** ** Counters and clocks *)

(** The two halves of the counter. *)
Definition rdtsc (low high : Z) : Z := Z.lor (Z.shiftl high 32) low.
Definition check_tsc_invariant (edx : Z) : bool := negb (Z.land edx (Z.shiftl 1 8) =? 0).
(** g_tsc_reliable *)
Definition validate_tsc_for_operation (edx : Z) : Z := if check_tsc_invariant edx then 1 else 0.
Definition monotonic_time_ns (ts : timespec) : Z := s64 (tv_sec ts * 1000000000 + tv_nsec ts).

Lemma rdtsc_value low high : 0 <= low < 4294967296 -> 0 <= high < 4294967296 ->
  rdtsc low high = high * 4294967296 + low /\ 0 <= rdtsc low high < 18446744073709551616.
Proof.
  intros Hl Hh. assert (rdtsc low high = high * 4294967296 + low) as ->; [|lia].
  unfold rdtsc. rewrite <- Z.lxor_lor, <- Z.add_nocarry_lxor; rewrite ?Z.shiftl_mul_pow2 by lia; try lia.
  all: apply Z.bits_inj'; intros n Hn; rewrite Z.land_spec, Z.bits_0.
  all: destruct (Z.lt_ge_cases n 32).
  all: try (rewrite Z.mul_pow2_bits_low by lia; done).
  all: apply andb_false_iff; right; destruct (decide (low = 0)) as [->|]; [apply Z.bits_0|]; apply Z.bits_above_log2; [lia|];
    assert (Z.log2 low < 32) by (apply Z.log2_lt_pow2; [lia|change (2 ^ 32) with 4294967296; lia]); lia.
Qed.
Lemma tsc_invariant_bit edx : check_tsc_invariant edx = Z.testbit edx 8.
Proof.
  unfold check_tsc_invariant. destruct (Z.testbit edx 8) eqn:E.
  - apply negb_true_iff, Z.eqb_neq. intros H. apply (f_equal (fun z => Z.testbit z 8)) in H.
    rewrite Z.land_spec, E, Z.bits_0 in H. done.
  - apply negb_false_iff, Z.eqb_eq, Z.bits_inj'. intros n Hn. rewrite Z.land_spec, Z.shiftl_1_l, Z.bits_0, Z.pow2_bits_eqb by lia.
    destruct (Z.eqb_spec 8 n) as [<-|]; [by rewrite E|apply andb_false_r].
Qed.

Definition BILLION : double := of_Z 1000000000.
(** The clock and the counter, before and after a sleep of 100 ms. *)
Definition calibrate_cpu_freq (start stop : timespec) (cycles_start cycles_end : Z) : double :=
  let time_diff := dadd (of_Z (tv_sec stop - tv_sec start)) (ddiv (of_Z (tv_nsec stop - tv_nsec start)) BILLION) in
  let cycles_diff := u64 (cycles_end - cycles_start) in
  ddiv (ddiv (of_Z cycles_diff) time_diff) BILLION.
Example calibrated :
  calibrate_cpu_freq (Timespec 5 0) (Timespec 5 100000000) 1000 250001000 = ddiv (of_Z 5) (of_Z 2).
Proof. vm_compute. reflexivity. Qed.

(** ** The busy-wait *)

(** The readings of the loop's condition, from the start on; the reading that ends
    it, or None while it goes on. *)
Fixpoint delay_loop (start cycles : Z) (readings : list Z) : option Z :=
  match readings with
  | [] => None
  | now :: readings => if u64 (now - start) <? cycles then delay_loop start cycles readings else Some now
  end.
Definition precise_delay_cycles (cycles : Z) (readings : list Z) : option Z :=
  match readings with start :: readings => delay_loop start cycles readings | [] => None end.

(** The counter counts on [ts]; the program reads it modulo 2^64.  The wait ends at
    the first reading at least [cycles] later, wherever the counter wraps, and it
    does end when there is one. *)
Lemma precise_delay_spec cycles t0 ts : 0 <= cycles ->
  Forall (fun t => t0 <= t < t0 + 18446744073709551616) ts ->
  match precise_delay_cycles cycles (map u64 (t0 :: ts)) with
  | Some r => exists before t after, ts = before ++ t :: after /\ r = u64 t /\ t0 + cycles <= t /\ Forall (fun t => t < t0 + cycles) before
  | None => Forall (fun t => t < t0 + cycles) ts
  end.
Proof.
  intros Hc. unfold precise_delay_cycles. cbn [map]. induction 1 as [|t ts Ht Hts IH]; [by cbn; constructor|]. cbn [map delay_loop].
  assert (u64 (u64 t - u64 t0) = t - t0) as -> by (unfold u64; zlia).
  destruct (Z.ltb_spec (t - t0) cycles).
  - revert IH. destruct (delay_loop (u64 t0) cycles (map u64 ts)) as [r|]; intros IH; [|constructor; [lia|exact IH]].
    destruct IH as (before & t' & after & -> & -> & H1 & H2). exists (t :: before), t', after.
    split; [done|]. split; [done|]. split; [done|]. constructor; [lia|done].
  - exists [], t, ts. split; [done|]. split; [done|]. split; [lia|done].
Qed.

(** ** Pacing *)

(** Cycles for one packet at a rate, and for a tenth of a second; the casts to
    64 bits. *)
Definition interval_cycles (cpu_freq_ghz : double) (pps : Z) : Z := u64 (trunc (ddiv (dmul cpu_freq_ghz BILLION) (of_Z pps))).
Definition max_cycles_between_checks (cpu_freq_ghz : double) : Z :=
  u64 (trunc (dmul (dmul cpu_freq_ghz BILLION) (ddiv (of_Z 1) (of_Z 10)))).
Definition target_delay_cycles (interval batch_count : Z) : Z := if 1 <? batch_count then u64 (interval * batch_count) else interval.

(** The waits of successive batches, each with its readings of the counter. *)
Fixpoint paced (target : Z) (waits : list (list Z)) : Prop :=
  match waits with
  | [] => True
  | wait :: waits => is_Some (precise_delay_cycles target (map u64 wait)) /\ paced target waits
  end.

(** Batches are at least the target apart: when [n] waits are over, the counter has
    advanced by [n] targets, so no more than one packet is sent per interval. *)
Lemma pacing_bounds_rate target waits first last : 0 <= target ->
  StronglySorted Z.le (first :: concat waits ++ [last]) -> last < first + 18446744073709551616 -> paced target waits ->
  first + target * zlen waits <= last.
Proof.
  intros Ht. revert first. induction waits as [|wait waits IH]; intros first Hs Hl Hp.
  { apply StronglySorted_inv in Hs as [_ H%Forall_inv]. unfold zlen. cbn in *. lia. }
  destruct Hp as [[r Hr] Hp]. destruct wait as [|t0 ts]; [done|]. cbn [concat app] in Hs.
  apply StronglySorted_inv in Hs as [Hs Hf]. pose proof (Forall_inv Hf) as H0. apply StronglySorted_inv in Hs as [Hs Hf0].
  rewrite <- app_assoc in Hs, Hf0.
  assert (Forall (fun t => t0 <= t) (concat waits ++ [last])) as Hle by (by apply Forall_app in Hf0 as [_ ?]).
  assert (t0 <= last) as Hl0 by (apply Forall_app in Hle as [_ H%Forall_inv]; done).
  assert (forall before x after, StronglySorted Z.le (before ++ x :: after) -> Forall (Z.le x) after) as Hafter.
  { induction before as [|y before IHb]; intros x after H; [by apply StronglySorted_inv in H as [_ ?]|].
    apply StronglySorted_inv in H as [H _]. by apply IHb. }
  pose proof (precise_delay_spec target t0 ts Ht) as Hd. rewrite Hr in Hd.
  destruct Hd as (before & t & after & -> & _ & H1 & _).
  { apply Forall_forall. intros t Hin. split.
    - apply Forall_app in Hf0 as [Hf0 _]. by apply (proj1 (Forall_forall _ _) Hf0).
    - apply list_elem_of_split in Hin as (l1 & l2 & ->). rewrite <- app_assoc in Hs. cbn [app] in Hs.
      apply Hafter in Hs. rewrite !Forall_app in Hs. destruct Hs as (_ & _ & H%Forall_inv). lia. }
  specialize (IH t).
  assert (t + target * zlen waits <= last) as Hrest; [|unfold zlen in *; cbn [length]; lia].
  apply IH; [|lia|done]. rewrite <- app_assoc in Hs. cbn [app] in Hs.
  clear -Hs. induction before as [|y before IHb]; [|by apply StronglySorted_inv in Hs as [Hs _]; apply IHb].
  cbn [app] in Hs. apply StronglySorted_inv in Hs as [Hs Hf]. apply Forall_app in Hf as [_ Hf]. constructor; [|done].
  clear Hf. induction after as [|z after IHa]; [done|]. cbn [app] in Hs. apply StronglySorted_inv in Hs as [Hs _]. by apply IHa.
Qed.

(** ** The process *)

Section process.
  Context (an : sys_answers).

(** Affinity, real-time priority (99, or 50 when that is refused), locked memory,
    the name, and PR_SET_SECCOMP; failures are only reported. *)
Definition optimize_process_scheduling : prog Z :=
  _ ← call an;
  fifo ← call an;
  (if negb (fifo : bool) then _ ← call an; mret tt else mret tt);;
  _ ← call an;
  _ ← call an;
  _ ← call an;
  mret 0.
(** It always succeeds, and holds nothing. *)
Lemma wp_optimize_process_scheduling E Q l ts fs p : owns l ts fs p ->
  (forall p', owns l ts fs p' -> Q 0 p') -> wp optimize_process_scheduling Q E p.
Proof.
  intros Ho HQ. unfold optimize_process_scheduling. do 3 run_step; (do 2 run_step; repeat run_step; by apply HQ).
Qed.
End process.
