(* ===== verification/Threads.v ===== *)
(** The threads of client and server that move packets, as whole functions
    (rx_thread_func of timestamp_client.c, tx_thread_func of timestamp_server.c),
    and the totals that the main threads read when they have joined them. *)

From S2P Require Import Prelude CText Ring Wire Double CsvLog CsvRing StatsCollector TxStamps CorrArray ServerQueue ServerCorr ServerRx ServerRt Tsc Client Process.

(** A thread that returned, with its result, or that was cancelled while it ran. *)
Inductive thread_end (St : Type) := Returned (s : St) (result : Z) | Cancelled (s : St).
Arguments Returned {St} _ _.
Arguments Cancelled {St} _.

(** ** The receiving thread of the client *)

(** local_packets_received starts at 0. *)
Definition rx_thread_start (c : client) : client :=
  Client (ct_src_ip c) (ct_src_port c) (ct_csv_enabled c) (ct_csv_buffer c) (ct_tx_csv_buffer c) (ct_stats c) (app_tx_timestamps c)
    (app_tx_tsc_values c) (ct_seq_num c) (ct_total_sent c) (ct_packets_sent c) (ct_packets_received c) 0 (ct_wire c).
(** Each turn reads [running] and calls recvmsg, where a cancellation takes effect;
    the inputs end with the cancellation. *)
Fixpoint rx_loop (freq : double) (tsc_reliable : bool) (c : client) (turns : list (bool * rx_recv)) : thread_end client :=
  match turns with
  | [] => Cancelled c
  | (running, r) :: turns =>
      if (running : bool) then
        match rx_thread_step freq tsc_reliable c r with
        | Some c => rx_loop freq tsc_reliable c turns
        | None => Returned c (ct_local_received c)
        end
      else Returned c (ct_local_received c)
  end.
Definition rx_thread_func (freq : double) (tsc_reliable : bool) (c : client) (turns : list (bool * rx_recv)) : thread_end client :=
  rx_loop freq tsc_reliable (rx_thread_start c) turns.
(** What the cleanup handler stores in final_rx_count. *)
Definition rx_cleanup_handler (local_count : Z) : Z := local_count.

(** total_packets_received: the result of the thread when it was joined, the stored
    count when it had to be cancelled, and 0 when that fails. *)
Definition client_total_received (join_result : join_answer) (cancel_ok : bool) (t : thread_end client) : Z :=
  match join_result, t with
  | Joined, Returned _ result => result
  | TimedOut, Cancelled c => if cancel_ok then rx_cleanup_handler (ct_local_received c) else 0
  | _, _ => 0
  end.

(** The datagrams that hold a sequence number, up to where the thread ends. *)
Fixpoint rx_handled (turns : list (bool * rx_recv)) : nat :=
  match turns with
  | [] => 0
  | (running, r) :: turns =>
      if (running : bool) then
        match r with
        | RxPacket r => (if (4 <=? zlen (ri_bytes r))%Z then 1 else 0) + rx_handled turns
        | RxAgain | RxInterrupted | RxEmptyDatagram true => rx_handled turns
        | _ => 0
        end
      else 0
  end%nat.

Lemma rx_receive_counts freq rel c r :
  let c' := rx_receive freq rel c r in
  let n := if 4 <=? zlen (ri_bytes r) then 1 else 0 in
  u64 (ct_local_received c') = u64 (ct_local_received c + n) /\ u64 (ct_packets_received c') = u64 (ct_packets_received c + n) /\
  (0 <= ct_local_received c < 18446744073709551616 -> 0 <= ct_local_received c' < 18446744073709551616).
Proof.
  cbv zeta. unfold rx_receive.
  assert ((4 <=? zlen (take 4 (ri_bytes r))) = (4 <=? zlen (ri_bytes r))) as ->.
  { unfold zlen. rewrite length_take. destruct (Z.leb_spec 4 (Z.of_nat (length (ri_bytes r)))); [apply Z.leb_le|apply Z.leb_gt]; lia. }
  destruct (4 <=? zlen (ri_bytes r)); [|by rewrite !Z.add_0_r].
  unfold ct_with_received. cbn. rewrite !u64_u64.
  destruct (ct_csv_enabled c); cbn; (split; [done|split; [done|intros _; apply u64_range]]).
Qed.

Definition end_state {St} (t : thread_end St) : St := match t with Returned s _ => s | Cancelled s => s end.
Lemma rx_loop_counts freq rel turns : forall c, 0 <= ct_local_received c < 18446744073709551616 ->
  let t := rx_loop freq rel c turns in
  u64 (ct_local_received (end_state t)) = u64 (ct_local_received c + Z.of_nat (rx_handled turns)) /\
  u64 (ct_packets_received (end_state t)) = u64 (ct_packets_received c + Z.of_nat (rx_handled turns)) /\
  0 <= ct_local_received (end_state t) < 18446744073709551616 /\
  match t with Returned c' result => result = ct_local_received c' | Cancelled _ => True end.
Proof.
  induction turns as [|[running r] turns IH]; intros c Hc; cbn [rx_loop rx_handled end_state]; [by rewrite !Z.add_0_r|].
  destruct running; [|by cbn [end_state]; rewrite !Z.add_0_r].
  destruct r as [r|transient| | |]; cbn [rx_thread_step]; [| |by apply IH..|by cbn [end_state]; rewrite !Z.add_0_r].
  2: { destruct transient; [by apply IH|]. cbn [end_state]. by rewrite !Z.add_0_r. }
  destruct (rx_receive_counts freq rel c r) as (H1 & H2 & H3). destruct (IH (rx_receive freq rel c r) (H3 Hc)) as (I1 & I2 & I3 & I4).
  rewrite I1, I2. split; [|split; [|done]].
  - rewrite (u64_add _ _ _ H1). f_equal. destruct (4 <=? zlen (ri_bytes r)); lia.
  - rewrite (u64_add _ _ _ H2). f_equal. destruct (4 <=? zlen (ri_bytes r)); lia.
Qed.

(** The count reported at the end of a round-trip run is the number of replies
    handled, whether the thread was joined or had to be cancelled, and the count
    for the packet rate moves by the same. *)
Theorem received_total_exact freq rel c turns :
  let t := rx_thread_func freq rel c turns in
  let n := Z.of_nat (rx_handled turns) in
  (forall c' result, t = Returned c' result -> client_total_received Joined true t = u64 n) /\
  (forall c', t = Cancelled c' -> client_total_received TimedOut true t = u64 n) /\
  u64 (ct_packets_received (end_state t)) = u64 (ct_packets_received c + n).
Proof.
  intros t n. unfold t, rx_thread_func. destruct (rx_loop_counts freq rel turns (rx_thread_start c) ltac:(cbn; lia)) as (H1 & H2 & H3 & H4).
  split; [|split; [|exact H2]].
  - intros c' result E. rewrite E in *. cbn in *. subst result. rewrite (u64_small (ct_local_received c')) in H1 by done. exact H1.
  - intros c' E. rewrite E in *. cbn in *. unfold rx_cleanup_handler. rewrite (u64_small (ct_local_received c')) in H1 by done. exact H1.
Qed.

(** ** The sending thread of the server *)

Definition tx_thread_start (s : server) : server :=
  Server (sv_queue s) (sv_corr s) (sv_csv_enabled s) (sv_csv_buffer s) (sv_tx_csv_buffer s) (sv_stats s) (sv_pkt_hw_rx s) (sv_pkt_ker_rx s)
    (sv_packets_received s) (sv_packets_sent s) (sv_total_received s) 0 (sv_wire s).
(** The turns while [running] is set; in between the main thread fills the queue
    ([other] is what it does to the state before a turn). *)
Record tx_turn := TxTurn { tt_other : server -> server; tt_clock : nat -> timespec; tt_outcome : send_outcome }.
Definition tx_turn_step (s : server) (t : tx_turn) : server := tx_iteration (tt_other t s) (tt_clock t) (tt_outcome t).
Definition tx_thread_func (s : server) (turns : list tx_turn) : thread_end server :=
  let s := fold_left tx_turn_step turns (tx_thread_start s) in
  Returned s (sv_local_sent s).
(** total_packets_sent; a thread that cannot be joined leaves it 0. *)
Definition server_total_sent (join_ok : bool) (t : thread_end server) : Z :=
  match t with Returned _ result => if join_ok then result else 0 | Cancelled _ => 0 end.

(** What the main thread does leaves the packets sent alone. *)
Definition receives (f : server -> server) : Prop :=
  forall s, sv_wire (f s) = sv_wire s /\ sv_local_sent (f s) = sv_local_sent s /\ sv_packets_sent (f s) = sv_packets_sent s.
Lemma tx_iteration_local s clock outcome :
  let s' := tx_iteration s clock outcome in
  exists packets, sv_wire s' = sv_wire s ++ packets /\ u64 (sv_local_sent s') = u64 (sv_local_sent s + zlen packets) /\
    u64 (sv_packets_sent s') = u64 (sv_packets_sent s + zlen packets) /\
    (0 <= sv_local_sent s < 18446744073709551616 -> 0 <= sv_local_sent s' < 18446744073709551616).
Proof.
  cbv zeta. unfold tx_iteration. destruct (dequeue_return_packet_batch _ _) as [q batch].
  assert (forall s', same_traffic (with_queue s q) s' -> exists packets, sv_wire s' = sv_wire s ++ packets /\
    u64 (sv_local_sent s') = u64 (sv_local_sent s + zlen packets) /\ u64 (sv_packets_sent s') = u64 (sv_packets_sent s + zlen packets) /\
    (0 <= sv_local_sent s < 18446744073709551616 -> 0 <= sv_local_sent s' < 18446744073709551616)) as Hnone.
  { intros s' (_ & H1 & H2 & _ & H3 & _). exists []. rewrite H1, H2, H3, app_nil_r. unfold zlen. cbn. by rewrite !Z.add_0_r. }
  assert (forall packets s', same_traffic (with_sent (with_queue s q) packets) s' -> exists packets, sv_wire s' = sv_wire s ++ packets /\
    u64 (sv_local_sent s') = u64 (sv_local_sent s + zlen packets) /\ u64 (sv_packets_sent s') = u64 (sv_packets_sent s + zlen packets) /\
    (0 <= sv_local_sent s < 18446744073709551616 -> 0 <= sv_local_sent s' < 18446744073709551616)) as Hsent.
  { intros packets s' (_ & H1 & H2 & _ & H3 & _). exists packets. rewrite H1, H2, H3. cbn. rewrite !u64_u64.
    split; [done|]. split; [done|]. split; [done|]. intros _. apply u64_range. }
  destruct batch as [|req batch]; [by apply Hnone|]. destruct outcome as [sent| |individual]; [|by apply Hnone|by eapply Hsent].
  eapply Hsent. apply (fold_left_rel same_traffic). intros s1 [r i]. apply tx_record_traffic.
Qed.
Lemma tx_thread_counts turns : forall s, 0 <= sv_local_sent s < 18446744073709551616 -> Forall (fun t => receives (tt_other t)) turns ->
  let s' := fold_left tx_turn_step turns s in
  exists packets, sv_wire s' = sv_wire s ++ packets /\ u64 (sv_local_sent s') = u64 (sv_local_sent s + zlen packets) /\
    u64 (sv_packets_sent s') = u64 (sv_packets_sent s + zlen packets) /\ 0 <= sv_local_sent s' < 18446744073709551616.
Proof.
  induction turns as [|t turns IH]; intros s Hs Hr; cbn [fold_left].
  { exists []. rewrite app_nil_r. unfold zlen. cbn. by rewrite !Z.add_0_r. }
  apply Forall_cons in Hr as [Hr Hrs]. destruct (Hr s) as (W & L & P).
  destruct (tx_iteration_local (tt_other t s) (tt_clock t) (tt_outcome t)) as (p1 & H1 & H2 & H3 & H4). fold (tx_turn_step s t) in *.
  destruct (IH (tx_turn_step s t) ltac:(apply H4; by rewrite L) Hrs) as (p2 & I1 & I2 & I3 & I4).
  exists (p1 ++ p2). rewrite zlen_app, I1, I2, I3. split; [by rewrite H1, W, app_assoc|]. split; [|split; [|exact I4]].
  - rewrite (u64_add _ _ _ H2), L. f_equal. lia.
  - rewrite (u64_add _ _ _ H3), P. f_equal. lia.
Qed.

(** The total the server reports is the number of return packets the network has
    accepted during the run, whatever else happens to the queue meanwhile. *)
Theorem sent_total_exact s turns : Forall (fun t => receives (tt_other t)) turns ->
  let t := tx_thread_func s turns in
  exists packets, sv_wire (end_state t) = sv_wire s ++ packets /\ server_total_sent true t = u64 (zlen packets) /\
    u64 (sv_packets_sent (end_state t)) = u64 (sv_packets_sent s + zlen packets).
Proof.
  intros Hr. destruct (tx_thread_counts turns (tx_thread_start s) ltac:(cbn; lia) Hr) as (packets & H1 & H2 & H3 & H4).
  exists packets. unfold tx_thread_func. cbn [end_state server_total_sent]. split; [exact H1|]. split; [|exact H3].
  rewrite u64_small in H2 by done. rewrite H2. done.
Qed.
