(* ===== verification/Report.v ===== *)
(** The statistics at the end of a program: the analysis of what was collected,
    its report, and the release of the collector.

    Whatever the analysis leaks, it releases no block that was live before it. *)

From S2P Require Import Prelude CText Ring Heap Double CsvLog CsvRing StatsCollector StatsAnalysis Process.

(** The mode a collector was created with. *)
Definition stats_mode_of (code : Z) : option stats_mode_type_t :=
  find (fun m => stats_mode_code m =? code)
    [STATS_CLIENT_ONEWAY; STATS_CLIENT_ROUNDTRIP; STATS_SERVER_ONEWAY; STATS_SERVER_ROUNDTRIP].

(** The text of the report and the memory after it.  A mode that is none of the
    four has no deltas and fails to initialise, as does a failed allocation. *)
Definition analyse (ok : nat -> bool) (config : stats_config_t) (stats : stats_collector_t) (sent received : Z)
    (h : heap) : list cstr * heap :=
  let '(result, h) := halloc ok h in
  match result with
  | None => ([], h)
  | Some p =>
      let '(texts, h) :=
        match stats_mode_of (st_program_mode stats) with
        | None => ([], h)
        | Some mode =>
            let '(r, code, h) := initialize_analysis_result ok mode config h in
            if code =? 0 then
              let '(r, h) := process_buffer_for_analysis ok stats r h in
              let texts := display_analysis_results r sent received in
              let '(_, h) := cleanup_analysis_result r h in
              (texts, h)
            else ([], h)
        end in
      (texts, hfree p h)
  end.

Definition collector_blocks (collector : option stats_collector_t) : list nat :=
  match collector with Some s => [st_self s; st_buffer_ptr s] | None => [] end.
(** The statistics part of the shut-down: with or without statistics enabled, a
    collector that exists is destroyed. *)
Definition finish_statistics (an : sys_answers) (config : stats_config_t) (collector : option stats_collector_t)
    (sent received : Z) : prog (list cstr) :=
  match collector with
  | None => mret []
  | Some stats =>
      texts ← (if sf_enabled config && buffer_has_data stats
               then with_heap (analyse (an_ok an) config stats sent received)
               else mret []);
      release_all (collector_blocks collector) (destroy_stats_collector stats);;
      mret texts
  end.

(** ** What the analysis does to the memory *)

Section frame.
  Context (ok : nat -> bool) (n0 : nat) (l : list nat).

(** The live blocks are those of [l] and blocks allocated from call [n0] on. *)
Definition grown (h : heap) : Prop :=
  heap_wf h /\ (n0 <= hp_calls h)%nat /\
  exists extra, hp_live h ≡ₚ extra ++ l /\ Forall (fun p => (n0 <= p)%nat) extra.
Definition fresh_opt (p : option nat) : Prop := match p with Some p => (n0 <= p)%nat | None => True end.
Definition fresh_delta (a : delta_analysis_t) : Prop :=
  fresh_opt (fst (delta_blocks a)) /\ fresh_opt (snd (delta_blocks a)).
Definition fresh_result (r : stats_analysis_result_t) : Prop := Forall fresh_delta (ar_deltas r).

  Context (Hl : Forall (fun p => (p < n0)%nat) l).

Lemma grown_halloc h : grown h -> let '(p, h') := halloc ok h in fresh_opt p /\ grown h'.
Proof.
  intros (Hw & Hn & extra & He & Hf). pose proof (halloc_wf ok h Hw) as Hw'. unfold halloc in *.
  destruct (ok (hp_calls h)); (split; [done|]); (split; [done|]); simpl; (split; [lia|]).
  - exists (hp_calls h :: extra). split; [by rewrite He|by constructor].
  - by exists extra.
Qed.
Lemma grown_hfree p h : grown h -> (n0 <= p)%nat -> grown (hfree p h).
Proof.
  intros (Hw & Hn & extra & He & Hf) Hp. split; [by apply hfree_wf|]. split; [done|].
  exists (base.filter (fun q => q <> p) extra).
  split; [|apply Forall_forall; intros q [_ Hq]%list_elem_of_filter; by eapply Forall_forall in Hf].
  simpl. rewrite He, filter_app. f_equiv. rewrite filter_fresh; [done|]. eapply Forall_impl; [exact Hl|]. simpl. lia.
Qed.
Lemma grown_free_opt p h : grown h -> fresh_opt p -> grown (match p with Some p => hfree p h | None => h end).
Proof. destruct p; [apply grown_hfree|done]. Qed.

Lemma fresh_at r i : fresh_result r -> fresh_delta (da_at r i).
Proof.
  intros H. unfold da_at, zget. destruct (i <? 0); [by split|]. destruct (ar_deltas r !! _) as [a|] eqn:E; [|by split].
  by eapply Forall_lookup in E.
Qed.
Lemma fresh_put r i a : fresh_result r -> fresh_delta a -> fresh_result (ar_put r i a).
Proof. intros Hr Ha. unfold fresh_result, ar_put, zset. simpl. destruct (i <? 0); [done|by apply Forall_insert]. Qed.

Definition good (x : stats_analysis_result_t * heap) : Prop := fresh_result (fst x) /\ grown (snd x).
Lemma fold_good (g : stats_analysis_result_t * heap -> Z -> stats_analysis_result_t * heap) ids x :
  (forall x i, good x -> good (g x i)) -> good x -> good (fold_left g ids x).
Proof. intros Hg. revert x. induction ids as [|i ids IH]; intros x Hx; [done|]. apply IH. by apply Hg. Qed.

Lemma percentiles_init_grown a capacity h :
  fresh_delta a -> grown h ->
  let '(a', _, h') := exact_percentiles_init ok a capacity h in fresh_delta a' /\ grown h'.
Proof.
  intros [Ha1 Ha2] Hk. unfold exact_percentiles_init. destruct (capacity =? 0); [done|].
  pose proof (grown_halloc h Hk) as Hh. destruct (halloc ok h) as [[p|] h']; destruct Hh;
    unfold fresh_delta, delta_blocks in *; simpl in *; by split_and!.
Qed.
Lemma free_histogram_grown a h :
  fresh_delta a -> grown h -> let '(a', h') := free_histogram a h in fresh_delta a' /\ grown h'.
Proof.
  intros Ha Hk. unfold free_histogram. destruct (da_histogram a) as [[p bins]|] eqn:E; [|done].
  destruct Ha as [Ha1 Ha2]. unfold fresh_delta, delta_blocks in *. rewrite E in Ha1. simpl in *.
  split; [done|]. by apply grown_hfree.
Qed.
Lemma cleanup_delta_grown a h :
  fresh_delta a -> grown h -> let '(a', h') := cleanup_delta a h in fresh_delta a' /\ grown h'.
Proof.
  intros Ha Hk. unfold cleanup_delta. pose proof (free_histogram_grown a h Ha Hk) as Hf.
  destruct (free_histogram a h) as [a1 h1]. destruct Hf as [[H1 H2] Hk1]. unfold exact_percentiles_cleanup. simpl.
  split; [split; [exact H1|done]|]. revert H2. unfold delta_blocks. simpl.
  destruct (da_delta_values a1) as [[q vs]|]; simpl; [by apply grown_hfree|done].
Qed.
Lemma cleanup_result_grown r h : good (r, h) -> good (cleanup_analysis_result r h).
Proof.
  intros H. unfold cleanup_analysis_result.
  match goal with |- context [ fold_left ?g ?ids _ ] => assert (good (fold_left g ids (r, h))) as Hg end.
  { apply fold_good; [|done]. intros [r1 h1] i [Hr1 Hk1]. simpl in *.
    pose proof (cleanup_delta_grown (da_at r1 i) h1 (fresh_at r1 i Hr1) Hk1) as Hc.
    destruct (cleanup_delta (da_at r1 i) h1) as [a h2]. destruct Hc. split; [by apply fresh_put|done]. }
  by destruct (fold_left _ (ar_active_deltas r) (r, h)).
Qed.

Lemma allocate_structures_grown a bins capacity h :
  fresh_delta a -> grown h ->
  let '(a', _, h') := allocate_analysis_structures_for_delta ok a bins capacity h in fresh_delta a' /\ grown h'.
Proof.
  intros Ha Hk. unfold allocate_analysis_structures_for_delta. destruct (bins =? 0); [done|].
  pose proof (percentiles_init_grown a capacity h Ha Hk) as H1.
  destruct (exact_percentiles_init ok a capacity h) as [[a1 c1] h1]. destruct H1 as [Ha1 Hk1].
  pose proof (free_histogram_grown a1 h1 Ha1 Hk1) as H2. destruct (free_histogram a1 h1) as [a2 h2]. destruct H2 as [Ha2 Hk2].
  pose proof (grown_halloc h2 Hk2) as H3. destruct (halloc ok h2) as [[p|] h3]; destruct H3; [|done].
  split; [|done]. split; [done|exact (proj2 Ha2)].
Qed.
Lemma allocate_loop_grown done_ todo r h :
  good (r, h) -> let '(r', _, h') := allocate_loop ok done_ todo r h in good (r', h').
Proof.
  revert done_ r h. induction todo as [|i todo IH]; intros done_ r h [Hr Hk]; cbn [allocate_loop]; [done|].
  pose proof (allocate_structures_grown (da_at r i) (sf_max_bins (ar_config r)) (sf_buffer_size (ar_config r)) h
    (fresh_at r i Hr) Hk) as Ha.
  destruct (allocate_analysis_structures_for_delta _ _ _ _ _) as [[a code] h1]. destruct Ha as [Ha Hk1].
  assert (good (ar_put r i a, h1)) as Hg by (split; [by apply fresh_put|done]).
  destruct (code =? 0); [by apply IH|].
  match goal with |- context [ fold_left ?g ?ids ?x ] => assert (good (fold_left g ids x)) as Hf end.
  { apply fold_good; [|exact Hg]. intros [r1 h2] j [Hr1 Hk2]. simpl in *.
    pose proof (free_histogram_grown (da_at r1 j) h2 (fresh_at r1 j Hr1) Hk2) as Hc.
    destruct (free_histogram (da_at r1 j) h2) as [b h3]. destruct Hc. split; [by apply fresh_put|done]. }
  by destruct (fold_left _ done_ _).
Qed.

Lemma initialize_grown mode config h :
  grown h -> let '(r, _, h') := initialize_analysis_result ok mode config h in good (r, h').
Proof.
  intros Hk. unfold initialize_analysis_result, configure_analysis_for_mode.
  match goal with |- context [ fold_left ?g ?ids ?x ] => assert (good (fold_left g ids x)) as Hg end.
  { apply fold_good; [|split; [|done]; by repeat constructor].
    intros [r1 h1] i [Hr1 Hk1]. simpl in *. destruct (fresh_at r1 i Hr1) as [_ H2].
    set (a := DeltaAnalysis _ _ _ _ _ _ _ _). assert (fresh_delta a) as Ha by (split; [done|exact H2]).
    pose proof (percentiles_init_grown a (sf_buffer_size config) h1 Ha Hk1) as Hc.
    destruct (exact_percentiles_init ok a _ h1) as [[b c] h2]. destruct Hc. split; [by apply fresh_put|done]. }
  destruct (fold_left _ (mode_deltas mode) _) as [r1 h1]. destruct (negb _); [done|].
  unfold allocate_analysis_histograms. pose proof (allocate_loop_grown [] (ar_active_deltas r1) r1 h1 Hg) as Ha.
  destruct (allocate_loop ok [] _ r1 h1) as [[r2 code] h2]. destruct (negb (code =? 0)); [|done].
  pose proof (cleanup_result_grown r2 h2 Ha) as Hc. by destruct (cleanup_analysis_result r2 h2).
Qed.

Lemma process_entry_fresh r e : fresh_result r -> fresh_result (process_entry r e).
Proof.
  unfold process_entry. generalize (ar_active_deltas r). intros ids. revert r.
  induction ids as [|i ids IH]; intros r Hr; cbn [fold_left]; [done|]. apply IH. apply fresh_put; [done|].
  pose proof (fresh_at r i Hr) as Ha. unfold fresh_delta in *. by rewrite process_entry_blocks.
Qed.
Lemma process_buffer_grown stats r h :
  good (r, h) -> good (process_buffer_for_analysis ok stats r h).
Proof.
  intros Hg. unfold process_buffer_for_analysis. destruct (get_buffer_count stats =? 0); [done|].
  unfold allocate_analysis_histograms. pose proof (allocate_loop_grown [] (ar_active_deltas r) r h Hg) as Ha.
  destruct (allocate_loop ok [] _ r h) as [[r1 code] h1]. destruct (negb (code =? 0)); [done|].
  destruct Ha as [Hr1 Hk1]. split; [|done]. simpl in *. clear -Hr1. revert r1 Hr1.
  induction (buffer_entries stats _ 0 _) as [|e es IH]; intros r1 Hr1; [done|]. apply IH. by apply process_entry_fresh.
Qed.

Lemma analyse_grown config stats sent received h : grown h -> grown (snd (analyse ok config stats sent received h)).
Proof.
  intros Hk. unfold analyse. pose proof (grown_halloc h Hk) as H1.
  destruct (halloc ok h) as [[p|] h1]; [|apply H1]. destruct H1 as [Hp Hk1].
  destruct (stats_mode_of _) as [mode|]; [|by apply grown_hfree].
  pose proof (initialize_grown mode config h1 Hk1) as Hi.
  destruct (initialize_analysis_result ok mode config h1) as [[r code] h2].
  destruct (code =? 0); [|apply grown_hfree; [apply Hi|done]].
  pose proof (process_buffer_grown stats r h2 Hi) as Hb.
  destruct (process_buffer_for_analysis ok stats r h2) as [r3 h3].
  pose proof (cleanup_result_grown r3 h3 Hb) as Hc.
  destruct (cleanup_analysis_result r3 h3) as [r4 h4]. apply grown_hfree; [apply Hc|done].
Qed.

End frame.

(** ** Rules *)

Lemma frees_collector s : frees (collector_blocks (Some s)) (destroy_stats_collector s).
Proof.
  intros h l Hw Hl. unfold destroy_stats_collector.
  destruct (frees_hfree (st_buffer_ptr s) h (st_self s :: l) Hw) as [Hw1 Hl1].
  { rewrite Hl. simpl. solve_Permutation. }
  by apply frees_hfree.
Qed.

(** The analysis can leave more blocks, none of which was live before. *)
Lemma wp_analyse E an config stats sent received Q l ts fs p :
  owns l ts fs p -> (forall texts leaked p', owns (leaked ++ l) ts fs p' -> Q texts p') ->
  wp (with_heap (analyse (an_ok an) config stats sent received)) Q E p.
Proof.
  intros Ho H. eapply wp_with_heap; [exact Ho|]. intros texts h' Hw Hl Ha.
  assert (Forall (fun q => (q < hp_calls (pr_heap p))%nat) l) as Hlt by (rewrite <- Hl; apply Hw).
  pose proof (analyse_grown (an_ok an) (hp_calls (pr_heap p)) _ Hlt config stats sent received (pr_heap p)) as Hk.
  rewrite Ha in Hk. destruct Hk as (Hw' & _ & leaked & Hl' & _).
  { split; [done|]. split; [done|]. exists []. by split. }
  exists (leaked ++ l). split; [done|]. split; [done|]. intros p' Hp. by eapply H.
Qed.
(** Finishing the statistics releases the collector, while threads may be running. *)
Lemma wp_finish_shed E an config collector sent received Q ts fs rel l p :
  shutting ts fs rel (collector_blocks collector ++ l) p ->
  (forall texts leaked p', shutting ts fs (rel ++ collector_blocks collector) (leaked ++ l) p' ->
     (collector = None -> leaked = []) -> Q texts p') ->
  wp (finish_statistics an config collector sent received) Q E p.
Proof.
  intros Hs H. unfold finish_statistics. destruct collector as [stats|].
  2:{ apply (H [] []); [by rewrite app_nil_r|done]. }
  assert (forall texts leaked p', shutting ts fs rel (leaked ++ collector_blocks (Some stats) ++ l) p' ->
    wp (release_all (collector_blocks (Some stats)) (destroy_stats_collector stats);; mret texts) Q E p') as Hend.
  { intros texts leaked p1 H1. apply wp_bind. eapply (wp_shed _ _ _ _ _ _ _ (leaked ++ l)).
    - apply frees_collector.
    - eapply shutting_perm; [|exact H1]. solve_Permutation.
    - intros p2 H2. change (Q texts p2). by eapply H. }
  apply wp_bind. destruct (sf_enabled config && _); [|by apply (Hend [] [])].
  destruct Hs as (fs' & Ho & Hr). eapply wp_analyse; [exact Ho|]. intros texts leaked p1 H1.
  apply (Hend texts leaked). by exists fs'.
Qed.
