(* ===== verification/TxThread.v ===== *)
(** The thread that reads TX timestamps (tx_timestamp_processing_thread,
    timestamp_common.c): it polls the error queue until it is told to stop, asks
    for the health of the queue after every batch, and drains the queue at the end.

    What a batch does is the section's [process]; client and server each have
    theirs.  Messages arrive before a batch and between the batch and the peek at
    the queue. *)

From S2P Require Import Prelude Ring Wire CsvLog CsvRing TxStamps StatsCollector CorrArray ServerCorr ServerRx ServerRt Client.

Definition ENOBUFS : Z := 105.

Record tx_timestamp_thread_data_t := TxTimestampThreadData {
  td_sockfd : Z; td_running : bool; td_cpu_core : Z; td_polling_interval_us : Z }.
(** What start_tx_timestamp_processing_thread hands to the thread. *)
Definition new_thread_data (sockfd cpu_core : Z) : tx_timestamp_thread_data_t := TxTimestampThreadData sockfd true cpu_core 500.

(** One turn of the loop: what arrives, what getsockopt answers (None when it
    fails), and the errno of a peek that fails. *)
Record poll := Poll {
  po_arrived : list errq_recv; po_between : list errq_recv; po_so_error : option Z; po_peek_errno : Z }.

(** The program's state, the error queue, g_packets_tx_timestamp_processed and the
    number of warnings about the queue. *)
Record thread_state (St : Type) := ThreadState {
  ts_state : St; ts_queue : list errq_recv; ts_processed : Z; ts_warnings : nat }.
Arguments ThreadState {St} _ _ _ _.
Arguments ts_state {St} _.
Arguments ts_queue {St} _.
Arguments ts_processed {St} _.
Arguments ts_warnings {St} _.

Section thread.
Context {St : Type}.
Variable process : St -> list errq_recv -> St * Z * list errq_recv.
(** What the kernel leaves of a queue that was read with MSG_PEEK: Linux takes a
    message off an error queue all the same, where recvmsg(2) says that it stays. *)
Variable after_peek : list errq_recv -> list errq_recv.

Definition peek_error_queue (peek_errno : Z) (queue : list errq_recv) : Z * list errq_recv :=
  match queue with
  | ErrqMsg _ _ :: _ => (0, after_peek queue)
  | [] => (0, [])
  | ErrqEmpty :: queue => (0, queue)
  | ErrqError :: queue => (if peek_errno =? ENOBUFS then -1 else 0, queue)
  end.
Definition monitor_error_queue_health (so_error : option Z) (peek_errno : Z) (queue : list errq_recv) : Z * list errq_recv :=
  match so_error with
  | Some error =>
      if error =? ENOBUFS then (-1, queue)
      else if negb (error =? 0) then (-2, queue)
      else peek_error_queue peek_errno queue
  | None => peek_error_queue peek_errno queue
  end.

Definition poll_step (sockfd : Z) (s : thread_state St) (p : poll) : thread_state St :=
  let queue := ts_queue s ++ po_arrived p in
  if 0 <=? sockfd then
    let '(st, processed, queue) := process (ts_state s) queue in
    let total := if 0 <? processed then u64 (ts_processed s + processed) else ts_processed s in
    let '(queue_health, queue) := monitor_error_queue_health (po_so_error p) (po_peek_errno p) (queue ++ po_between p) in
    ThreadState st queue total (if queue_health <? 0 then S (ts_warnings s) else ts_warnings s)
  else ThreadState (ts_state s) (queue ++ po_between p) (ts_processed s) (ts_warnings s).

(** The whole thread: the turns while [running] is set, then the drain, before
    which [last] arrives.  None is a drain that is out of fuel. *)
Definition tx_timestamp_processing_thread (data : option tx_timestamp_thread_data_t) (s : thread_state St)
    (polls : list poll) (last : list errq_recv) : option (thread_state St) :=
  match data with
  | None => Some s
  | Some data =>
      let s := fold_left (poll_step (td_sockfd data)) polls s in
      let queue := ts_queue s ++ last in
      if 0 <=? td_sockfd data then
        '(st, rest) ← errq_drain process (S (length queue)) (ts_state s) queue;
        Some (ThreadState st rest (ts_processed s) (ts_warnings s))
      else Some (ThreadState (ts_state s) queue (ts_processed s) (ts_warnings s))
  end.

(** ** Lemmas *)

(** Everything that arrives while the thread polls. *)
Definition arrived (polls : list poll) : list errq_recv := concat (map (fun p => po_arrived p ++ po_between p) polls).

(** A peek leaves the queue as it is or takes its first message. *)
Definition peeks : Prop := after_peek [] = [] /\ forall r queue, after_peek (r :: queue) = queue \/ after_peek (r :: queue) = r :: queue.
(** What becomes of the messages while the thread polls: in each turn up to 256 are
    handled; then, unless the socket reports an error, the peek may take one. *)
Record fate := Fate { ft_handled : list errq_recv; ft_lost : list errq_recv; ft_waiting : list errq_recv }.
Definition looks (p : poll) : bool := match po_so_error p with Some error => error =? 0 | None => true end.
Fixpoint fate_of (queue : list errq_recv) (polls : list poll) : fate :=
  match polls with
  | [] => Fate [] [] queue
  | p :: polls =>
      let seen := drop 256 (queue ++ po_arrived p) ++ po_between p in
      let kept := if looks p then after_peek seen else seen in
      let f := fate_of kept polls in
      Fate (take 256 (queue ++ po_arrived p) ++ ft_handled f) (take (length seen - length kept) seen ++ ft_lost f) (ft_waiting f)
  end.
(** What is not lost, [last] included, which arrives before the drain. *)
Definition kept_of (f : fate) (last : list errq_recv) : list errq_recv := ft_handled f ++ ft_waiting f ++ last.

Context (Hpeek : peeks).

Lemma after_peek_drop queue : exists n, (n <= 1)%nat /\ (n <= length queue)%nat /\ after_peek queue = drop n queue.
Proof.
  destruct Hpeek as [H0 H1]. destruct queue as [|r queue]; [by exists 0%nat; split; [lia|split; [cbn; lia|]]|].
  destruct (H1 r queue) as [->| ->]; [exists 1%nat|exists 0%nat]; cbn [length drop]; (split; [lia|split; [lia|done]]).
Qed.
Lemma seen_split (looks : bool) seen : let kept := if looks then after_peek seen else seen in
  seen = take (length seen - length kept) seen ++ kept /\ (length (take (length seen - length kept) seen) <= 1)%nat.
Proof.
  cbv zeta. destruct (after_peek_drop seen) as (n & Hn & Hl & ->). destruct looks.
  - rewrite length_drop. replace (length seen - (length seen - n))%nat with n by lia. rewrite take_drop, length_take. split; [done|lia].
  - rewrite Nat.sub_diag. split; [done|]. rewrite length_take. lia.
Qed.

(** Every message is handled, waits, or was taken by a peek, at most one in a turn;
    those that are not lost stay in order. *)
Lemma fate_spec polls : forall queue, let f := fate_of queue polls in
  ft_handled f ++ ft_waiting f `sublist_of` queue ++ arrived polls /\
  queue ++ arrived polls ≡ₚ ft_handled f ++ ft_waiting f ++ ft_lost f /\ (length (ft_lost f) <= length polls)%nat.
Proof.
  induction polls as [|p polls IH]; intros queue; cbn [fate_of ft_handled ft_lost ft_waiting].
  { unfold arrived. cbn. by rewrite !app_nil_r. }
  set (q := queue ++ po_arrived p). set (seen := drop 256 q ++ po_between p). set (kept := if looks p then _ else _).
  destruct (seen_split (looks p) seen) as [E L]. fold kept in E, L. specialize (IH kept). cbn zeta in IH. destruct IH as (I1 & I2 & I3).
  set (taken := take (length seen - length kept) seen) in *. set (f := fate_of kept polls) in *.
  assert (queue ++ arrived (p :: polls) = take 256 q ++ taken ++ kept ++ arrived polls) as Hall.
  { unfold arrived at 1. cbn [map concat]. fold (arrived polls). rewrite (app_assoc taken), <- E. unfold seen.
    rewrite <- (app_assoc (drop 256 q)), (app_assoc (take 256 q) (drop 256 q)), (take_drop 256 q). unfold q. by rewrite <- !app_assoc. }
  rewrite Hall. split; [|split].
  - rewrite <- app_assoc. apply sublist_app; [done|]. by apply sublist_inserts_l.
  - rewrite I2. solve_Permutation.
  - rewrite length_app. cbn [length]. lia.
Qed.
Lemma fate_true_peek polls : (forall queue, after_peek queue = queue) -> forall queue, ft_lost (fate_of queue polls) = [].
Proof.
  intros Ha. induction polls as [|p polls IH]; intros queue; [done|]. cbn [fate_of ft_lost]. rewrite IH, Ha.
  replace (if looks p then _ else _) with (drop 256 (queue ++ po_arrived p) ++ po_between p) by by destruct (looks p).
  by rewrite Nat.sub_diag.
Qed.
Lemma fate_msgs polls : forall queue, Forall is_msg (queue ++ arrived polls) ->
  Forall is_msg (ft_handled (fate_of queue polls)) /\ Forall is_msg (ft_waiting (fate_of queue polls)).
Proof.
  intros queue H. destruct (fate_spec polls queue) as (_ & Hp & _). cbv zeta in Hp. rewrite Hp, !Forall_app in H. tauto.
Qed.

Lemma health_leaves p queue : Forall is_msg queue ->
  snd (monitor_error_queue_health (po_so_error p) (po_peek_errno p) queue) = if looks p then after_peek queue else queue.
Proof.
  intros Hq. assert (snd (peek_error_queue (po_peek_errno p) queue) = after_peek queue) as Hs.
  { destruct Hq as [|r q Hr Hq]; [by rewrite (proj1 Hpeek)|]. by destruct r. }
  unfold monitor_error_queue_health, looks. destruct (po_so_error p) as [e|]; [|done].
  destruct (Z.eqb_spec e 0) as [->|He]; [done|]. destruct (e =? ENOBUFS); done.
Qed.

Variable handle : St -> Z -> Z -> St * Z.
Lemma handle_all_app st s1 s2 : handle_all handle st (s1 ++ s2) = handle_all handle (handle_all handle st s1) s2.
Proof. apply fold_left_app. Qed.
Lemma tx_stamps_app q1 q2 : tx_stamps (q1 ++ q2) = tx_stamps q1 ++ tx_stamps q2.
Proof. apply omap_app. Qed.

Context (P : St -> Prop) (c : Z) (Hc : counts handle P c) (Hc01 : 0 <= c).
Context (Hb : forall st queue, P st -> process st queue = errq_batch handle TX_TIMESTAMP_BATCH_SIZE st 0 queue).

(** The polls do with the messages what their fate says. *)
Lemma polls_fate sockfd polls : 0 <= sockfd -> forall st queue total warnings, P st -> Forall is_msg (queue ++ arrived polls) ->
  let f := fate_of queue polls in
  exists warnings', fold_left (poll_step sockfd) polls (ThreadState st queue (u64 total) warnings) =
    ThreadState (handle_all handle st (tx_stamps (ft_handled f))) (ft_waiting f) (u64 (total + c * Z.of_nat (length (ft_handled f)))) warnings'.
Proof.
  intros Hs. induction polls as [|p polls IH]; intros st queue total warnings Hp Hq; cbn [fold_left fate_of ft_handled ft_waiting].
  { exists warnings. cbn [length tx_stamps omap list_omap handle_all fold_left]. by rewrite Z.mul_0_r, Z.add_0_r. }
  set (q := queue ++ po_arrived p). set (seen := drop 256 q ++ po_between p). set (kept := if looks p then _ else _).
  assert (Forall is_msg q /\ Forall is_msg (po_between p) /\ Forall is_msg (arrived polls)) as (Hq1 & Hq2 & Hq3).
  { unfold arrived in Hq. cbn [map concat] in Hq. unfold q. rewrite !Forall_app in *. tauto. }
  assert (Forall is_msg seen) as Hseen by (apply Forall_app; split; [by apply Forall_drop|done]).
  unfold poll_step at 2. cbn [ts_queue ts_state ts_processed ts_warnings]. rewrite (proj2 (Z.leb_le _ _) Hs), Hb by done.
  fold q. rewrite (errq_batch_msgs handle P _ _ _ _ c Hq1 Hc Hp). change TX_TIMESTAMP_BATCH_SIZE with 256%nat. fold seen.
  destruct (monitor_error_queue_health _ _ _) as [health left] eqn:Eh.
  apply (f_equal snd) in Eh. rewrite (health_leaves p seen Hseen) in Eh. fold kept in Eh. cbn [snd] in Eh. subst left.
  set (n := Nat.min 256 (length q)).
  assert ((if 0 <? 0 + c * Z.of_nat n then u64 (u64 total + (0 + c * Z.of_nat n)) else u64 total) = u64 (total + c * Z.of_nat n)) as ->.
  { destruct (Z.ltb_spec 0 (0 + c * Z.of_nat n)); unfold u64; zlia. }
  set (warnings1 := if health <? 0 then S warnings else warnings).
  destruct (IH (handle_all handle st (tx_stamps (take 256 q))) kept (total + c * Z.of_nat n) warnings1) as (w & Hw).
  { by eapply handle_all_inv. }
  { apply Forall_app. split; [|done]. destruct (seen_split (looks p) seen) as [E _]. fold kept in E. rewrite E, Forall_app in Hseen. tauto. }
  exists w. rewrite Hw, length_app, length_take, tx_stamps_app, handle_all_app. fold n. do 2 f_equal. lia.
Qed.

(** The whole thread. *)
Lemma thread_runs data st queue total polls last : 0 <= td_sockfd data -> P st -> Forall is_msg ((queue ++ arrived polls) ++ last) ->
  let f := fate_of queue polls in
  exists warnings, tx_timestamp_processing_thread (Some data) (ThreadState st queue (u64 total) 0) polls last =
    ('(st, rest) ← errq_drain process (S (length (ft_waiting f ++ last))) (handle_all handle st (tx_stamps (ft_handled f))) (ft_waiting f ++ last);
     Some (ThreadState st rest (u64 (total + c * Z.of_nat (length (ft_handled f)))) warnings)) /\
    Forall is_msg (ft_waiting f ++ last) /\ P (handle_all handle st (tx_stamps (ft_handled f))).
Proof.
  intros Hs Hp Hq f. apply Forall_app in Hq as [Hq Hlast]. destruct (fate_msgs polls queue Hq) as [Hh Hw].
  destruct (polls_fate (td_sockfd data) polls Hs st queue total 0 Hp Hq) as (w & E). exists w.
  unfold tx_timestamp_processing_thread. rewrite E, (proj2 (Z.leb_le _ _) Hs). split; [done|].
  split; [by apply Forall_app|]. by eapply handle_all_inv.
Qed.
(** When handling counts, all that is not lost is handled, in order. *)
Lemma thread_handles_kept data st queue total polls last :
  c = 1 -> 0 <= td_sockfd data -> P st -> Forall is_msg ((queue ++ arrived polls) ++ last) ->
  let f := fate_of queue polls in
  exists warnings, tx_timestamp_processing_thread (Some data) (ThreadState st queue (u64 total) 0) polls last =
    Some (ThreadState (handle_all handle st (tx_stamps (kept_of f last))) [] (u64 (total + Z.of_nat (length (ft_handled f)))) warnings).
Proof.
  intros Hc1 Hs Hp Hq f. destruct (thread_runs data st queue total polls last Hs Hp Hq) as (w & -> & Hr & Hp').
  exists w. subst c. fold f in Hr, Hp' |- *. rewrite (errq_drain_all handle process P _ _ _ Hb Hr Hc Hp') by lia.
  cbn [mbind option_bind]. unfold kept_of. by rewrite (tx_stamps_app (ft_handled f)), handle_all_app, Z.mul_1_l.
Qed.
(** When handling does not count, the drain stops after one batch. *)
Lemma thread_uncounted data st queue total polls last :
  c = 0 -> 0 <= td_sockfd data -> P st -> Forall is_msg ((queue ++ arrived polls) ++ last) ->
  let f := fate_of queue polls in
  exists warnings st', tx_timestamp_processing_thread (Some data) (ThreadState st queue (u64 total) 0) polls last =
    Some (ThreadState st' (drop 256 (ft_waiting f ++ last)) (u64 total) warnings).
Proof.
  intros Hc0 Hs Hp Hq f. destruct (thread_runs data st queue total polls last Hs Hp Hq) as (w & -> & Hr & Hp').
  exists w. subst c. fold f in Hr, Hp' |- *. rewrite (errq_drain_uncounted handle process P _ _ _ Hb Hr Hc Hp') by lia.
  cbn [mbind option_bind]. rewrite Z.mul_0_l, Z.add_0_r. by eexists.
Qed.
End thread.

(** ** The client's thread *)

Definition client_thread : (list errq_recv -> list errq_recv) -> option tx_timestamp_thread_data_t -> thread_state client ->
    list poll -> list errq_recv -> option (thread_state client) :=
  tx_timestamp_processing_thread process_tx_timestamps_in_main_thread.

(** C39: the client's timestamp thread, on a valid socket, ends, whatever messages
    arrive and whenever (no receive fails but on the empty queue), and whether a peek
    at the error queue leaves it alone or, as on Linux, takes a message off it.  With the TX log open, what was queued before the start, what
    arrived before or after each batch and what arrived before the final drain is
    logged in that order, once, with sequence number and kernel time, up to the room
    of the log's ring, except for the messages taken by the peeks: at most one for
    each turn of the loop, and none when a peek leaves the queue alone.  The error
    queue is empty then, and the count of timestamps has grown by the number handled
    before the drain, which does not count.  With statistics alone nothing is
    counted, and the drain leaves what lies beyond one batch of 256 messages. *)
Theorem timestamp_thread_logs_all (after_peek : list errq_recv -> list errq_recv) (c : client)
    (sockfd cpu : Z) (queue : list errq_recv) (polls : list poll) (last : list errq_recv) (total : Z)
    (Hpeek : peeks after_peek) (Hs : 0 <= sockfd) :
  let all := (queue ++ arrived polls) ++ last in
  let run := client_thread after_peek (Some (new_thread_data sockfd cpu)) (ThreadState c queue (u64 total) 0) polls last in
  let f := fate_of after_peek queue polls in
  Forall is_msg all ->
  (kept_of f last `sublist_of` all /\ all ≡ₚ kept_of f last ++ ft_lost f /\ (length (ft_lost f) <= length polls)%nat /\
   ((forall q, after_peek q = q) -> ft_lost f = [])) /\
  (forall b, ct_csv_enabled c = true -> ct_tx_csv_buffer c = Some b -> ring_wf b ->
     exists s b', run = Some s /\ ts_queue s = [] /\ ct_tx_csv_buffer (ts_state s) = Some b' /\
       ring_contents b' = take (Z.to_nat (cb_size_mask b)) (ring_contents b ++ map (client_tx_entry c) (tx_stamps (kept_of f last))) /\
       ts_processed s = u64 (total + Z.of_nat (length (ft_handled f)))) /\
  (ct_tx_csv_buffer c = None -> sg_enabled (ct_stats c) = true ->
     exists s, run = Some s /\ ts_queue s = drop 256 (ft_waiting f ++ last) /\ ts_processed s = u64 total).
Proof.
  intros all run f Hq. split; [|split].
  - destruct (fate_spec after_peek Hpeek polls queue) as (H1 & H2 & H3). fold f in H1, H2, H3. unfold kept_of, all. split_and!.
    + rewrite (app_assoc (ft_handled f)). by apply sublist_app.
    + rewrite H2. solve_Permutation.
    + done.
    + intros Ha. by apply fate_true_peek.
  - intros b He Hb Hwb. assert (tx_csv_on c c) as Hon by (split_and!; try done; by eexists).
    destruct (thread_handles_kept process_tx_timestamps_in_main_thread after_peek Hpeek tx_stamp_handle (tx_csv_on c) 1
      (client_handle_on c) ltac:(lia)) with (data := new_thread_data sockfd cpu) (st := c) (queue := queue) (total := total)
      (polls := polls) (last := last) as (w & Hrun); try done.
    { intros d q (_ & _ & _ & b' & Hb'). unfold process_tx_timestamps_in_main_thread. by rewrite Hb'. }
    do 2 eexists. split; [exact Hrun|]. split; [done|]. split; [by apply (client_handle_all _ c c b)|].
    split; [|done].
    exact (proj2 (proj2 (csv_enqueue_all_spec (map (client_tx_entry c) (tx_stamps (kept_of f last))) b Hwb))).
  - intros Hb Hg.
    destruct (thread_uncounted process_tx_timestamps_in_main_thread after_peek Hpeek tx_stamp_handle tx_csv_off 0
      client_handle_off ltac:(lia)) with (data := new_thread_data sockfd cpu) (st := c) (queue := queue) (total := total)
      (polls := polls) (last := last) as (w & st' & Hrun); try done.
    { intros d q (Hb' & Hg'). unfold process_tx_timestamps_in_main_thread. by rewrite Hb', Hg'. }
    eexists. split; [exact Hrun|]. done.
Qed.

(** A kernel whose peek takes the message.  Three messages: one is queued at the
    start, one arrives between a batch and the peek, whose stamp is lost, and one
    before the drain. *)
Lemma tail_peeks : peeks tail.
Proof. split; [done|]. intros r q. by left. Qed.
Definition demo_polls : list poll := [Poll [] [demo_tx_message 2] (Some 0) 11; Poll [] [] (Some ENOBUFS) 11].
Lemma timestamp_thread_logs_all_witness :
  exists s b', client_thread tail (Some (new_thread_data 4 0)) (ThreadState demo_client [demo_tx_message 1] (u64 0) 0) demo_polls [demo_tx_message 3] = Some s /\
    ts_queue s = [] /\ ct_tx_csv_buffer (ts_state s) = Some b' /\ map ce_seq_num (ring_contents b') = [1; 3] /\
    ft_lost (fate_of tail [demo_tx_message 1] demo_polls) = [demo_tx_message 2].
Proof.
  destruct (timestamp_thread_logs_all tail demo_client 4 0 [demo_tx_message 1] demo_polls [demo_tx_message 3] 0
    tail_peeks ltac:(lia) ltac:(repeat constructor)) as (_ & H & _).
  destruct (H _ eq_refl eq_refl (sample_ring_wf 3 2 ltac:(lia))) as (s & b' & Hr & Hq & Hb & Hc & _).
  exists s, b'. split; [exact Hr|]. split; [exact Hq|]. split; [exact Hb|]. rewrite Hc. split; vm_compute; reflexivity.
Defined.

(** ** The server's thread *)

Definition server_thread : (list errq_recv -> list errq_recv) -> option tx_timestamp_thread_data_t -> thread_state server ->
    list poll -> list errq_recv -> option (thread_state server) :=
  tx_timestamp_processing_thread ServerRt.process_tx_timestamps_in_main_thread.

(** The same for the server, whose entries carry the address and port of the slot
    of the packet; the slots are taken as they are when the thread runs alone. *)
Theorem server_timestamp_thread_logs_all (after_peek : list errq_recv -> list errq_recv) (s : server) (b : csv_ring_buffer_t)
    (sockfd cpu : Z) (queue : list errq_recv) (polls : list poll) (last : list errq_recv) (total : Z)
    (Hpeek : peeks after_peek) (Hs : 0 <= sockfd) (Hc : corr_full (sv_corr s))
    (He : sv_csv_enabled s = true) (Hb : sv_tx_csv_buffer s = Some b) (Hwb : ring_wf b) :
  let f := fate_of after_peek queue polls in
  Forall is_msg ((queue ++ arrived polls) ++ last) ->
  exists t b', server_thread after_peek (Some (new_thread_data sockfd cpu)) (ThreadState s queue (u64 total) 0) polls last = Some t /\
    ts_queue t = [] /\ sv_tx_csv_buffer (ts_state t) = Some b' /\
    ring_contents b' = take (Z.to_nat (cb_size_mask b)) (ring_contents b ++ map (server_tx_entry (sv_corr s)) (tx_stamps (kept_of f last))).
Proof.
  intros f Hq.
  destruct (thread_handles_kept ServerRt.process_tx_timestamps_in_main_thread after_peek Hpeek ServerRt.tx_stamp_handle
    (ServerRt.tx_csv_on (sv_corr s)) 1 (stamp_handle_on _ Hc) ltac:(lia))
    with (data := new_thread_data sockfd cpu) (st := s) (queue := queue) (total := total) (polls := polls) (last := last)
    as (w & Hrun); try done.
  { intros d q (_ & _ & b' & Hb'). unfold ServerRt.process_tx_timestamps_in_main_thread. by rewrite Hb'. }
  { split_and!; try done. by eexists. }
  do 2 eexists. split; [exact Hrun|]. split; [done|]. split; [by apply (handle_all_tx_csv _ (sv_corr s) s b)|].
  exact (proj2 (proj2 (csv_enqueue_all_spec (map (server_tx_entry (sv_corr s)) (tx_stamps (kept_of f last))) b Hwb))).
Qed.
