(* ===== verification/ClientRun.v ===== *)
(** The client from its start to its exit (run_client_oneway and
    run_client_roundtrip of timestamp_client.c): what is acquired in which order,
    what each failure releases, and the shut-down.

    The sending loops are those of Client.v; here only what they leave is an
    input.  Messages are left out. *)

From S2P Require Import Prelude CText Ring Heap Wire Double CsvLog CsvRing StatsCollector StatsAnalysis CorrArray Client Process Timing Report.

(** The arguments and settings the control flow depends on. *)
Record client_settings := ClientSettings {
  cs_tx_interface : bool; cs_rx_interface : bool; cs_csv_enabled : bool; cs_log_cpu : Z; cs_stats : stats_config_t;
  cs_tx_cpu : Z; cs_rx_cpu : Z }.
(** The packets sent; those received, as the receive thread returns them and as its
    cleanup handler leaves them in final_rx_count; the collector with what it then
    holds. *)
Record loop_end := LoopEnd { le_sent : Z; le_received : Z; le_final_count : Z; le_collector : option stats_collector_t }.

Definition tx_arrays_t : Type := option (harray timespec) * option (harray Z).
Definition arrays_blocks (a : tx_arrays_t) : list nat := array_block (snd a) ++ array_block (fst a).

(** The sending side: socket, log of TX timestamps, correlation arrays, and the
    timestamp thread with its data. *)
Record client_tx := ClientTx {
  tx_sock : nat; tx_csv : option nat; tx_arrays : tx_arrays_t; tx_thread : nat; tx_data : nat }.

Section client.
  Context (an : sys_answers) (s : client_settings) (collector : option stats_collector_t).

(** The timestamp thread writes the log and the collector, which are static. *)
Definition client_stamp_uses (sockfd : nat) (tx_csv_buffer : option nat) : list nat :=
  sockfd :: option_list tx_csv_buffer ++ collector_blocks collector.
Definition cleanup_arrays (a : tx_arrays_t) : prog unit :=
  release_all (arrays_blocks a) (fun h => snd (cleanup_tx_correlation (fst a) (snd a) h)).

Definition init_arrays : prog (tx_arrays_t * Z) :=
  with_heap (fun h => let '(ts, tsc, code, h) := init_tx_correlation (an_ok an) h in (((ts, tsc), code), h)).

(** From the socket to the timestamp thread, in both modes. *)
Definition client_setup_tx : prog client_tx :=
  sock ← socket an;
  match sock with
  | None => exit EXIT_FAILURE
  | Some sockfd =>
      optimized ← optimize_socket_performance an (cs_tx_cpu s) true;
      or_exit (0 <=? optimized) (close sockfd);;
      bind_to_device an (cs_tx_interface s) (close sockfd);;
      stamping ← setup_tx_timestamping an;
      or_exit (0 <=? stamping) (close sockfd);;
      tx_csv_buffer ← csv_if_enabled an (cs_csv_enabled s) CSV_CLIENT_TX (cs_log_cpu s) (close sockfd);
      '(arrays, code) ← init_arrays;
      or_exit (0 <=? code) (destroy_csv tx_csv_buffer;; close sockfd);;
      started ← start_tx_timestamp_processing_thread an (client_stamp_uses sockfd tx_csv_buffer);
      match started with
      | None =>
          destroy_csv tx_csv_buffer;;
          cleanup_arrays arrays;;
          close sockfd;;
          exit EXIT_FAILURE
      | Some (t, d) => mret (ClientTx sockfd tx_csv_buffer arrays t d)
      end
  end.

(** The log and the connection of the one-way client. *)
Definition client_oneway_open (sockfd : nat) : prog (option nat) :=
  csv_buffer ← csv_if_enabled an (cs_csv_enabled s) CSV_CLIENT_MAIN_ONEWAY (cs_log_cpu s) (close sockfd);
  address ← call an;
  or_exit address (destroy_csv csv_buffer;; close sockfd);;
  connected ← call an;
  or_exit connected (destroy_csv csv_buffer;; close sockfd);;
  mret csv_buffer.

(** Packet buffers, messages and IO vectors. *)
Definition client_buffers (sockfd : nat) : prog (nat * nat * nat) :=
  packet_buffers ← acquire_aligned an;
  match packet_buffers with
  | None => close sockfd;; exit EXIT_FAILURE
  | Some packet_buffers =>
      msgs ← acquire_aligned an;
      match msgs with
      | None => release packet_buffers;; close sockfd;; exit EXIT_FAILURE
      | Some msgs =>
          iovecs ← acquire_aligned an;
          match iovecs with
          | None => release packet_buffers;; release msgs;; close sockfd;; exit EXIT_FAILURE
          | Some iovecs => mret (packet_buffers, msgs, iovecs)
          end
      end
  end.

(** The round-trip client's identical copy. *)
Definition roundtrip_buffers : nat -> prog (nat * nat * nat) := client_buffers.

(** The end of both modes: report, sockets, logs, buffers and arrays. *)
Definition client_finish (tx : client_tx) (csv_buffer : option nat) (buffers : nat * nat * nat) (le : loop_end)
    (received : Z) : prog Z :=
  let '(packet_buffers, msgs, iovecs) := buffers in
  _ ← finish_statistics an (cs_stats s) (le_collector le) (le_sent le) received;
  close (tx_sock tx);;
  release_opt (tx_csv tx);;
  release_opt csv_buffer;;
  release packet_buffers;;
  release msgs;;
  release iovecs;;
  cleanup_arrays (tx_arrays tx);;
  mret EXIT_SUCCESS.

Definition run_client_oneway (le : loop_end) : prog Z :=
  _ ← optimize_process_scheduling an;
  tx ← client_setup_tx;
  csv_buffer ← client_oneway_open (tx_sock tx);
  buffers ← client_buffers (tx_sock tx);
  stop_tx_timestamp_processing_thread an (tx_thread tx) (tx_data tx);;
  client_finish tx csv_buffer buffers le 0.

(** The receiving socket of the round-trip client. *)
Definition client_rx_socket (sockfd : nat) : prog nat :=
  sock ← socket an;
  match sock with
  | None => close sockfd;; exit EXIT_FAILURE
  | Some rx_sockfd =>
      optimized ← optimize_socket_performance an (cs_rx_cpu s) false;
      or_exit (0 <=? optimized) (close sockfd;; close rx_sockfd);;
      stamping ← setup_timestamping an;
      or_exit (0 <=? stamping) (close sockfd;; close rx_sockfd);;
      bind_to_device an (cs_rx_interface s) (close sockfd;; close rx_sockfd);;
      bound ← call an;
      or_exit bound (close sockfd;; close rx_sockfd);;
      mret rx_sockfd
  end.
Definition client_roundtrip_open (sockfd rx_sockfd : nat) : prog (option nat) :=
  csv_buffer ← csv_if_enabled an (cs_csv_enabled s) CSV_CLIENT_MAIN_ROUNDTRIP (cs_log_cpu s)
                 (close sockfd;; close rx_sockfd);
  address ← call an;
  or_exit address (close rx_sockfd;; close sockfd);;
  connected ← call an;
  or_exit connected (close rx_sockfd;; close sockfd);;
  mret csv_buffer.

(** The receive thread; without it the client goes on sending (None). *)
Definition rx_uses (rx_sockfd : nat) (csv_buffer : option nat) (arrays : tx_arrays_t) : list nat :=
  rx_sockfd :: option_list csv_buffer ++ arrays_blocks arrays ++ collector_blocks collector.
(** The socket is closed before the thread is joined; a thread that does not end
    within a second is cancelled, and then joined.  The result is the number of
    packets received, 0 when it is not known. *)
Definition stop_rx_thread (rx_sockfd : nat) (rx_thread : option nat) (le : loop_end) : prog Z :=
  match rx_thread with
  | None => mret 0
  | Some t =>
      close rx_sockfd;;
      join_result ← pthread_timedjoin an t;
      match join_result with
      | Joined => mret (le_received le)
      | TimedOut =>
          cancelled ← pthread_cancel an t;
          if (cancelled : bool) then (_ ← pthread_join an t; mret (le_final_count le)) else mret 0
      | NotJoined => mret 0
      end
  end.

Definition run_client_roundtrip (le : loop_end) : prog Z :=
  _ ← optimize_process_scheduling an;
  tx ← client_setup_tx;
  rx_sockfd ← client_rx_socket (tx_sock tx);
  csv_buffer ← client_roundtrip_open (tx_sock tx) rx_sockfd;
  buffers ← roundtrip_buffers (tx_sock tx);
  rx_thread ← create_realtime_thread an (rx_uses rx_sockfd csv_buffer (tx_arrays tx));
  stop_tx_timestamp_processing_thread an (tx_thread tx) (tx_data tx);;
  received ← stop_rx_thread rx_sockfd rx_thread le;
  client_finish tx csv_buffer buffers le received.

End client.

(** ** Lemmas *)

Lemma init_arrays_spec (ok : nat -> bool) h l :
  heap_wf h -> hp_live h ≡ₚ l ->
  let '(ts, tsc, code, h') := init_tx_correlation ok h in
  heap_wf h' /\
  (code = 0 /\ hp_live h' ≡ₚ arrays_blocks (ts, tsc) ++ l \/ code = -1 /\ hp_live h' ≡ₚ l /\ ~ (forall n, ok n = true)).
Proof.
  intros Hw Hl. unfold init_tx_correlation, arrays_blocks.
  assert (forall A (zero : A) h0, (forall n, ok n = true) -> fst (alloc_array ok zero h0) <> None) as Hok.
  { intros A zero h0 H. unfold alloc_array, alloc_with_fallback, halloc. by rewrite H. }
  pose proof (alloc_array_spec ok ts_zero_spec h Hw) as S1. pose proof (Hok _ ts_zero_spec h) as K1.
  destruct (alloc_array ok ts_zero_spec h) as [[[p1 l1]|] h1]; destruct S1 as [W1 L1].
  2:{ split; [done|]. right. split_and!; [done|by rewrite L1|]. intros H. by apply K1. }
  pose proof (alloc_array_spec ok 0 h1 W1) as S2. pose proof (Hok _ 0 h1) as K2.
  destruct (alloc_array ok 0 h1) as [[[p2 l2]|] h2]; destruct S2 as [W2 L2]; destruct L1 as (L1 & _ & _).
  - split; [done|]. left. split; [done|]. simpl. by rewrite (proj1 L2), L1, Hl.
  - destruct (free_array_spec (Some (p1, l1)) [] l h2) as [W L].
    { split; [done|]. simpl. by rewrite L2, L1, Hl. }
    split; [exact W|]. right. split_and!; [done|exact L|]. intros H. by apply K2.
Qed.
Lemma frees_arrays (a : tx_arrays_t) : frees (arrays_blocks a) (fun h => snd (cleanup_tx_correlation (fst a) (snd a) h)).
Proof.
  intros h l Hw Hl. unfold arrays_blocks in Hl. rewrite <- app_assoc in Hl. simpl.
  apply (free_array_spec (snd a) []). cbn [app]. apply (free_array_spec (fst a)). done.
Qed.

Definition tx_owned (tx : client_tx) : list nat :=
  tx_sock tx :: option_list (tx_csv tx) ++ arrays_blocks (tx_arrays tx).

Section proofs.
  Context (an : sys_answers) (s : client_settings) (collector : option stats_collector_t).
  Context (E : Z -> proc -> Prop).

Lemma wp_init_arrays Q l ts fs p :
  owns l ts fs p ->
  (forall a p', owns (arrays_blocks a ++ l) ts fs p' -> Q (a, 0) p') ->
  (~ all_good an -> forall a p', owns l ts fs p' -> Q (a, -1) p') ->
  wp (init_arrays an) Q E p.
Proof.
  intros Ho H1 H2. eapply wp_with_heap; [exact Ho|]. intros [a code] h' Hw Hl Ea.
  pose proof (init_arrays_spec (an_ok an) (pr_heap p) l Hw Hl) as Hi.
  destruct (init_tx_correlation _ _) as [[[ts1 tsc] c] h1]. simplify_eq.
  destruct Hi as [Hw' [[-> Hi]|(-> & Hi & Hn)]]; eexists; (split; [done|]); (split; [exact Hi|]); intros p' Hp.
  - by apply H1.
  - apply H2; [|done]. intros (Hg & _). by apply Hn.
Qed.
Lemma wp_cleanup_arrays a Q l ts fs p :
  owns (arrays_blocks a ++ l) ts fs p -> uses ts ⊆ l -> (forall p', owns l ts fs p' -> Q tt p') ->
  wp (cleanup_arrays a) Q E p.
Proof. apply wp_release_all, frees_arrays. Qed.

Ltac client_step :=
  lazymatch goal with
  | |- wp (init_arrays _) _ _ _ => eapply wp_init_arrays; [eassumption|intros ? ? ?|intros ? ? ? ?]; run_simpl
  | |- wp (cleanup_arrays ?a) _ _ ?p =>
      lazymatch goal with H : owns ?L _ _ p |- _ =>
        let R := without (arrays_blocks a) L in
        eapply (wp_cleanup_arrays a _ R); [owned H|unused|intros ? ?]; run_simpl end
  | |- wp (start_tx_timestamp_processing_thread _ _) _ _ _ =>
      eapply wp_start_tx; [eassumption|unused|unfold client_stamp_uses; set_solver|intros ? ? ? ?|intros ? ? ?]; run_simpl
  | _ => run_composed
  end.

Lemma wp_client_setup_tx Q base p :
  collector_blocks collector ⊆ base -> owns base [] [] p ->
  (forall tx p', owns (tx_thread tx :: tx_data tx :: tx_owned tx ++ base)
     [(tx_thread tx, tx_data tx :: client_stamp_uses collector (tx_sock tx) (tx_csv tx))] [] p' -> Q tx p') ->
  (~ all_good an -> forall p', owns base [] [] p' -> E EXIT_FAILURE p') ->
  wp (client_setup_tx an s collector) Q E p.
Proof.
  intros Hc Ho HQ HE. unfold client_setup_tx. repeat client_step; try by apply HE.
  apply HQ. eapply owns_perm; [|eassumption]. unfold tx_owned. simpl. solve_Permutation.
Qed.

Definition tx_all (tx : client_tx) : list nat := tx_thread tx :: tx_data tx :: tx_owned tx.
Definition tx_running (tx : client_tx) : list (nat * list nat) :=
  [(tx_thread tx, tx_data tx :: client_stamp_uses collector (tx_sock tx) (tx_csv tx))].
Ltac phase tx := destruct tx as [sock csv arrays t d]; unfold tx_all, tx_running, tx_owned in *; simpl in *.

Lemma wp_oneway_open tx Q base p :
  collector_blocks collector ⊆ base -> owns (tx_all tx ++ base) (tx_running tx) [] p ->
  (forall log p', owns (option_list log ++ tx_all tx ++ base) (tx_running tx) [] p' -> Q log p') ->
  (~ all_good an -> forall p', stranded p' -> E EXIT_FAILURE p') ->
  wp (client_oneway_open an s (tx_sock tx)) Q E p.
Proof.
  intros Hc Ho HQ HE. phase tx. unfold client_oneway_open. repeat client_step; first [by apply HQ|by apply HE].
Qed.

Lemma wp_client_buffers tx extra Q base p :
  collector_blocks collector ⊆ base -> owns (extra ++ tx_all tx ++ base) (tx_running tx) [] p ->
  (forall pb ms io p', owns (io :: ms :: pb :: extra ++ tx_all tx ++ base) (tx_running tx) [] p' -> Q (pb, ms, io) p') ->
  (~ all_good an -> forall p', stranded p' -> E EXIT_FAILURE p') ->
  wp (client_buffers an (tx_sock tx)) Q E p.
Proof.
  intros Hc Ho HQ HE. phase tx. unfold client_buffers.
  repeat client_step; first [by apply HQ|by apply HE].
Qed.

Lemma wp_client_rx_socket tx Q base p :
  collector_blocks collector ⊆ base -> owns (tx_all tx ++ base) (tx_running tx) [] p ->
  (forall rx p', owns (rx :: tx_all tx ++ base) (tx_running tx) [] p' -> Q rx p') ->
  (~ all_good an -> forall p', stranded p' -> E EXIT_FAILURE p') ->
  wp (client_rx_socket an s (tx_sock tx)) Q E p.
Proof.
  intros Hc Ho HQ HE. phase tx. unfold client_rx_socket.
  repeat client_step; first [by apply HQ|by apply HE].
Qed.
Lemma wp_roundtrip_open tx rx Q base p :
  collector_blocks collector ⊆ base -> owns (rx :: tx_all tx ++ base) (tx_running tx) [] p ->
  (forall log p', owns (option_list log ++ rx :: tx_all tx ++ base) (tx_running tx) [] p' -> Q log p') ->
  (~ all_good an -> forall p', stranded p' -> E EXIT_FAILURE p') ->
  wp (client_roundtrip_open an s (tx_sock tx) rx) Q E p.
Proof.
  intros Hc Ho HQ HE. phase tx. unfold client_roundtrip_open.
  repeat client_step; first [by apply HQ|by apply HE].
Qed.

(** The shut-down, with the threads that could not be joined. *)
Lemma wp_client_finish tx csv_buffer pb ms io le received Q ts fs rest p :
  collector_blocks (le_collector le) = collector_blocks collector ->
  let held := io :: ms :: pb :: option_list csv_buffer ++ tx_owned tx ++ collector_blocks collector in
  owns (held ++ rest) ts fs p ->
  (forall leaked fs' p', owns (leaked ++ rest) ts fs' p' -> (forall r, r ∈ fs' <-> r ∈ fs \/ r ∈ held /\ r ∈ uses ts) ->
     (collector = None -> leaked = []) -> Q EXIT_SUCCESS p') ->
  wp (client_finish an s tx csv_buffer (pb, ms, io) le received) Q E p.
Proof.
  intros Hc held Ho HQ. unfold held in *. clear held. destruct tx as [sock csv arrays t d]. unfold tx_owned in *. simpl in *.
  unfold client_finish. run_step. cbn [tx_sock tx_csv tx_arrays].
  eapply (wp_finish_shed _ _ _ _ _ _ _ ts fs [] (io :: ms :: pb :: option_list csv_buffer ++ sock :: option_list csv ++ arrays_blocks arrays ++ rest)).
  - rewrite Hc. eapply shutting_perm; [|by apply shutting_start]. solve_Permutation.
  - intros texts leaked p1 H1 Hn. rewrite Hc in H1. do 13 shed_step.
    eapply (wp_shed _ _ _ _ _ _ _ (leaked ++ rest)); [apply frees_arrays|shed_perm H|].
    intros p2 (fs' & H2 & Hr). shed_step. eapply HQ; [exact H2| |].
    + intros r. rewrite Hr. repeat first [rewrite elem_of_app|rewrite elem_of_cons|rewrite list_elem_of_singleton|rewrite elem_of_nil]. tauto.
    + intros ->. apply Hn. destruct (le_collector le); [discriminate|done].
Qed.

(** Stopping the receive thread: its socket is closed under it, and it is joined or
    left. *)
Lemma wp_stop_rx_thread rx t used ts2 le l fs Q p :
  rx ∈ used -> tids ts2 ⊆ l -> owns (rx :: t :: l) ((t, used) :: ts2) fs p ->
  (forall n p', owns l ts2 (fs ++ [rx]) p' -> Q n p') ->
  (unjoined an t -> forall n p', owns (t :: l) ((t, used) :: ts2) (fs ++ [rx]) p' -> Q n p') ->
  wp (stop_rx_thread an rx (Some t) le) Q E p.
Proof.
  intros Hu Ht Ho H1 H2. unfold stop_rx_thread. apply wp_bind.
  eapply wp_release_fault; [exact Ho|unfold uses; cbn [map concat snd]; apply elem_of_app; by left|].
  intros p1 Ho1. apply wp_bind. unfold pthread_timedjoin, unjoined in *. destruct (an_join an t).
  - run_step. eapply (wp_reap _ t used [] ts2); [exact Ho1|exact Ht|]. intros p2 Ho2. run_step. by apply H1.
  - run_step. run_step. change (wp (if an_cancel an t then (_ ← pthread_join an t; mret (le_final_count le)) else mret 0) Q E p1).
    destruct (an_cancel an t); [|run_step; apply H2; auto]. run_step.
    eapply (wp_pthread_join _ _ t used [] ts2); [exact Ho1|exact Ht|..]; [intros p2 Ho2|intros Hr p2 Ho2]; run_step; [by apply H1|apply H2; auto].
  - run_step. apply H2; auto.
Qed.
End proofs.

(** ** Properties *)

(** What a failed start leaves: nothing but what was there before, or a stranded
    timestamp thread. *)
Definition client_failed (an : sys_answers) (l : list nat) (code : Z) (p : proc) : Prop :=
  code = EXIT_FAILURE /\ ~ all_good an /\ (owns l [] [] p \/ stranded p).

(** The end: the threads [ts] may be left that could not be joined; what was released
    wrongly is then just what they use. *)
Definition client_ended (an : sys_answers) (collector : option stats_collector_t) (base : list nat) (code : Z) (p : proc) : Prop :=
  code = EXIT_SUCCESS /\ exists ts leaked fs, owns (leaked ++ tids ts ++ base) ts fs p /\ (collector = None -> leaked = []) /\
    Forall (fun x => unjoined an (fst x)) ts /\ (forall r, r ∈ fs <-> r ∈ uses ts).
(** In round-trip mode also the receiving socket, closed under its thread; without
    that thread it is left open. *)
Definition roundtrip_ended (an : sys_answers) (collector : option stats_collector_t) (base : list nat) (code : Z) (p : proc) : Prop :=
  code = EXIT_SUCCESS /\ exists rx ts leaked fs, (collector = None -> leaked = []) /\ Forall (fun x => unjoined an (fst x)) ts /\
    (owns (leaked ++ tids ts ++ base) ts fs p /\ (forall r, r ∈ fs <-> r = rx \/ r ∈ uses ts) \/
     ~ all_good an /\ owns (leaked ++ tids ts ++ rx :: base) ts fs p /\ (forall r, r ∈ fs <-> r ∈ uses ts)).

Lemma oneway_client_run an s collector le base p :
  collector_blocks (le_collector le) = collector_blocks collector ->
  owns (collector_blocks collector ++ base) [] [] p ->
  wp (run_client_oneway an s collector le) (client_ended an collector base)
    (client_failed an (collector_blocks collector ++ base)) p.
Proof.
  intros Hc Ho. set (start := collector_blocks collector ++ base) in *.
  assert (collector_blocks collector ⊆ start) as Hs by set_solver.
  unfold run_client_oneway. run_step.
  eapply wp_optimize_process_scheduling; [exact Ho|]. intros p0 H0. run_step.
  eapply (wp_client_setup_tx an s collector _ _ start); [done|exact H0| |by intros Hg p' Hp; split_and!; [| |left]].
  intros tx p1 H1. run_step.
  eapply (wp_oneway_open an s collector _ _ _ start); [done|exact H1| |by intros Hg p' Hp; split_and!; [| |right]].
  intros log p2 H2. run_step.
  eapply (wp_client_buffers an collector _ _ _ _ start); [done|exact H2| |by intros Hg p' Hp; split_and!; [| |right]].
  intros pb ms io p3 H3. run_step. unfold tx_running in H3.
  set (held := io :: ms :: pb :: option_list log ++ tx_owned tx ++ collector_blocks collector).
  set (stamp := client_stamp_uses collector (tx_sock tx) (tx_csv tx)) in *.
  assert (stamp ⊆ held) as Hstamp by (unfold stamp, client_stamp_uses, held, tx_owned; unused).
  eapply (wp_stop_tx _ _ _ _ stamp [] [] _ (held ++ base)).
  { eapply owns_perm; [|exact H3]. unfold held, tx_all, start. solve_Permutation. }
  { apply list_subseteq_nil. } { apply list_subseteq_nil. }
  - intros p4 H4. eapply (wp_client_finish _ _ collector _ _ _ _ _ _ _ _ _ _ _ base); [exact Hc|exact H4|].
    intros leaked fs p5 H5 Hf Hn. split; [done|]. exists [], leaked, fs. split; [exact H5|]. split; [exact Hn|]. split; [constructor|].
    intros r. rewrite Hf. unfold uses. cbn [map concat]. rewrite !elem_of_nil. tauto.
  - intros Hj p4 H4. eapply (wp_client_finish _ _ collector _ _ _ _ _ _ _ _ _ _ _ (tids [(tx_thread tx, tx_data tx :: stamp)] ++ base)); [exact Hc| |].
    { eapply owns_perm; [|exact H4]. cbn [tids map fst app]. unfold held. solve_Permutation. }
    intros leaked fs p5 H5 Hf Hn. split; [done|]. exists [(tx_thread tx, tx_data tx :: stamp)], leaked, fs.
    split; [exact H5|]. split; [exact Hn|]. split; [constructor; [exact Hj|constructor]|].
    intros r. rewrite Hf. unfold uses. cbn [map concat snd app]. rewrite app_nil_r. fold held. rewrite !elem_of_cons, elem_of_nil.
    specialize (Hstamp r). tauto.
Qed.

(** From the creation of the receive thread to the end, with what is left of each
    thread. *)
Lemma roundtrip_client_end an s collector le tx t rx log pb ms io base E p :
  collector_blocks (le_collector le) = collector_blocks collector ->
  owns (t :: io :: ms :: pb :: (option_list log ++ [rx]) ++ tx_all tx ++ collector_blocks collector ++ base)
    ((t, rx_uses collector rx log (tx_arrays tx)) :: tx_running collector tx) [] p ->
  wp (stop_tx_timestamp_processing_thread an (tx_thread tx) (tx_data tx);;
      received ← stop_rx_thread an rx (Some t) le;
      client_finish an s tx log (pb, ms, io) le received) (roundtrip_ended an collector base) E p.
Proof.
  intros Hc Ho. set (held := io :: ms :: pb :: option_list log ++ tx_owned tx ++ collector_blocks collector).
  unfold tx_running in Ho. set (used := rx_uses collector rx log (tx_arrays tx)) in *.
  set (stamp := client_stamp_uses collector (tx_sock tx) (tx_csv tx)) in *.
  assert (stamp ⊆ held) as Hstamp by (unfold stamp, client_stamp_uses, held, tx_owned; unused).
  assert (used ⊆ rx :: held) as Hused by (unfold used, rx_uses, held, tx_owned; unused).
  assert (rx ∈ used) as Hrx by apply list_elem_of_here.
  assert (forall ts fs received p1, owns (held ++ tids ts ++ base) ts (fs ++ [rx]) p1 -> Forall (fun x => unjoined an (fst x)) ts ->
    fs ⊆ uses ts -> uses ts ⊆ rx :: fs ++ held ->
    wp (client_finish an s tx log (pb, ms, io) le received) (roundtrip_ended an collector base) E p1) as Hend.
  { intros ts fs received p1 H1 Hts H2 H3.
    eapply (wp_client_finish _ _ collector _ _ _ _ _ _ _ _ _ _ _ (tids ts ++ base)); [exact Hc|exact H1|].
    intros leaked fs' p2 H4 H5 Hn. split; [done|]. exists rx, ts, leaked, fs'. split; [exact Hn|]. split; [exact Hts|]. left.
    split; [exact H4|]. intros r. rewrite H5, elem_of_app, list_elem_of_singleton. specialize (H2 r). specialize (H3 r).
    rewrite elem_of_cons, elem_of_app in H3. fold held. tauto. }
  assert (forall ts fs p1, owns (rx :: t :: held ++ tids ts ++ base) ((t, used) :: ts) fs p1 ->
    Forall (fun x => unjoined an (fst x)) ts -> fs ⊆ uses ts -> uses ts ⊆ fs ++ held ->
    wp (received ← stop_rx_thread an rx (Some t) le; client_finish an s tx log (pb, ms, io) le received)
      (roundtrip_ended an collector base) E p1) as Hrecv.
  { intros ts fs p1 H1 Hts H2 H3. run_step.
    eapply (wp_stop_rx_thread _ _ rx t used ts _ (held ++ tids ts ++ base)); [exact Hrx|unused|exact H1| |].
    - intros n p2 H4. eapply Hend; [exact H4|exact Hts|exact H2|]. by apply sub_cons_r.
    - intros Hj n p2 H4. eapply (Hend ((t, used) :: ts)).
      + eapply owns_perm; [|exact H4]. cbn [tids map fst]. solve_Permutation.
      + constructor; [exact Hj|exact Hts].
      + intros r Hr. apply (elem_of_uses_middle r [] t used ts). right. by apply H2.
      + intros r [Hr|Hr]%(elem_of_uses_middle r [] t used ts).
        * specialize (Hused r Hr). rewrite elem_of_cons, elem_of_app in *. tauto.
        * apply list_elem_of_further. by apply H3. }
  run_step. eapply (wp_stop_tx _ _ _ _ stamp [(t, used)] [] _ (rx :: t :: held ++ base)).
  { eapply owns_perm; [|exact Ho]. unfold held, tx_all. solve_Permutation. }
  { unused. }
  { intros r [Hr|Hr]%(elem_of_uses_middle r [] t used []); [|by apply not_elem_of_nil in Hr].
    specialize (Hused r Hr). rewrite !elem_of_cons, elem_of_app in *. tauto. }
  - intros p1 H1. apply (Hrecv [] []); [exact H1|constructor|apply list_subseteq_nil|apply list_subseteq_nil].
  - intros Hj p1 H1. apply (Hrecv [(tx_thread tx, tx_data tx :: stamp)] [tx_data tx]).
    + eapply owns_perm; [|exact H1]. cbn [app tids map fst]. solve_Permutation.
    + constructor; [exact Hj|constructor].
    + unfold uses. cbn [app map concat snd]. intros r ->%list_elem_of_singleton. apply list_elem_of_here.
    + unfold uses. cbn [app map concat snd]. rewrite app_nil_r. apply sub_cons_l; [apply list_elem_of_here|]. by apply sub_cons_r.
Qed.
(** The same without a receive thread. *)
Lemma roundtrip_client_end_alone an s collector le tx rx log pb ms io base E p :
  collector_blocks (le_collector le) = collector_blocks collector -> ~ all_good an ->
  owns (io :: ms :: pb :: (option_list log ++ [rx]) ++ tx_all tx ++ collector_blocks collector ++ base) (tx_running collector tx) [] p ->
  wp (stop_tx_timestamp_processing_thread an (tx_thread tx) (tx_data tx);;
      received ← stop_rx_thread an rx None le;
      client_finish an s tx log (pb, ms, io) le received) (roundtrip_ended an collector base) E p.
Proof.
  intros Hc Hg Ho. set (held := io :: ms :: pb :: option_list log ++ tx_owned tx ++ collector_blocks collector).
  unfold tx_running in Ho. set (stamp := client_stamp_uses collector (tx_sock tx) (tx_csv tx)) in *.
  assert (stamp ⊆ held) as Hstamp by (unfold stamp, client_stamp_uses, held, tx_owned; unused).
  run_step. eapply (wp_stop_tx _ _ _ _ stamp [] [] _ (held ++ rx :: base)).
  { eapply owns_perm; [|exact Ho]. unfold held, tx_all. solve_Permutation. }
  { apply list_subseteq_nil. } { apply list_subseteq_nil. }
  - intros p1 H1. run_step. unfold stop_rx_thread. run_step. eapply (wp_client_finish _ _ collector _ _ _ _ _ _ _ _ _ _ _ (rx :: base)); [exact Hc|exact H1|].
    intros leaked fs p5 H5 Hf Hn. split; [done|]. exists rx, [], leaked, fs. split; [exact Hn|]. split; [constructor|]. right.
    split; [exact Hg|]. split; [exact H5|]. intros r. rewrite Hf. unfold uses. cbn [map concat]. rewrite !elem_of_nil. tauto.
  - intros Hj p1 H1. run_step. unfold stop_rx_thread. run_step.
    eapply (wp_client_finish _ _ collector _ _ _ _ _ _ _ _ _ _ _ (tids [(tx_thread tx, tx_data tx :: stamp)] ++ rx :: base)); [exact Hc| |].
    { eapply owns_perm; [|exact H1]. cbn [tids map fst app]. unfold held. solve_Permutation. }
    intros leaked fs p5 H5 Hf Hn. split; [done|]. exists rx, [(tx_thread tx, tx_data tx :: stamp)], leaked, fs.
    split; [exact Hn|]. split; [constructor; [exact Hj|constructor]|]. right. split; [exact Hg|]. split; [exact H5|].
    intros r. rewrite Hf. unfold uses. cbn [map concat snd app]. rewrite app_nil_r. fold held. rewrite !elem_of_cons, elem_of_nil.
    specialize (Hstamp r). tauto.
Qed.

Lemma roundtrip_client_run an s collector le base p :
  collector_blocks (le_collector le) = collector_blocks collector ->
  owns (collector_blocks collector ++ base) [] [] p ->
  wp (run_client_roundtrip an s collector le)
    (roundtrip_ended an collector base)
    (client_failed an (collector_blocks collector ++ base)) p.
Proof.
  intros Hc Ho. set (start := collector_blocks collector ++ base) in *.
  assert (collector_blocks collector ⊆ start) as Hs by set_solver.
  unfold run_client_roundtrip. run_step.
  eapply wp_optimize_process_scheduling; [exact Ho|]. intros p0 H0. run_step.
  eapply (wp_client_setup_tx an s collector _ _ start); [done|exact H0| |by intros Hg p' Hp; split_and!; [| |left]].
  intros tx p1 H1. run_step.
  eapply (wp_client_rx_socket an s collector _ _ _ start); [done|exact H1| |by intros Hg p' Hp; split_and!; [| |right]].
  intros rx p2 H2. run_step.
  eapply (wp_roundtrip_open an s collector _ _ _ _ start); [done|exact H2| |by intros Hg p' Hp; split_and!; [| |right]].
  intros log p3 H3. run_step.
  eapply (wp_client_buffers an collector _ _ (option_list log ++ [rx]) _ start); [done| | |by intros Hg p' Hp; split_and!; [| |right]].
  { eapply owns_perm; [|exact H3]. solve_Permutation. }
  intros pb ms io p4 H4. run_step.
  eapply (wp_create_realtime_thread _ _ (rx_uses collector rx log (tx_arrays tx))); [exact H4| | | |].
  - unfold tx_running, tx_all, tx_owned, client_stamp_uses. unused.
  - unfold rx_uses, tx_all, tx_owned. unused.
  - intros t p5 H5. eapply roundtrip_client_end; [exact Hc|exact H5].
  - intros Hg p5 H5. eapply roundtrip_client_end_alone; [exact Hc|exact Hg|exact H5].
Qed.

(** C17: the client from start to exit, in both modes, whatever call fails and however
    the waits for its threads end, from a state without threads in which the collector
    is live, which the loop leaves where it is.  A failed start returns EXIT_FAILURE and leaves
    nothing acquired, or, once the timestamp thread was started, leaves it running on
    a closed socket.  Otherwise the run ends with EXIT_SUCCESS and no resource left
    but what the analysis leaks.  When its threads can be joined none is left, and
    nothing was released in use or twice, except that the round-trip client closes
    its receiving socket under the running receive thread, or never, when that
    thread could not be created.  A thread that cannot be joined is left, and all
    that it uses has been released under it.  A wait without end that never returns
    is not considered. *)
Theorem client_start_to_exit (an : sys_answers) (s : client_settings) (collector : option stats_collector_t) (le : loop_end)
    (base : list nat) (p : proc) :
  collector_blocks (le_collector le) = collector_blocks collector ->
  owns (collector_blocks collector ++ base) [] [] p ->
  match run_client_oneway an s collector le p with
  | (inl code, p') => client_ended an collector base code p'
  | (inr code, p') => client_failed an (collector_blocks collector ++ base) code p'
  end /\
  match run_client_roundtrip an s collector le p with
  | (inl code, p') => roundtrip_ended an collector base code p'
  | (inr code, p') => client_failed an (collector_blocks collector ++ base) code p'
  end.
Proof.
  intros Hc Ho. split.
  - exact (oneway_client_run an s collector le base p Hc Ho).
  - exact (roundtrip_client_run an s collector le base p Hc Ho).
Qed.

(** When every thread can be joined, none is left. *)
Lemma client_roundtrip_joined an collector base code p :
  all_good an -> (forall t, ~ unjoined an t) -> roundtrip_ended an collector base code p ->
  code = EXIT_SUCCESS /\ exists rx leaked fs, owns (leaked ++ base) [] fs p /\ (collector = None -> leaked = []) /\ (forall r, r ∈ fs <-> r = rx).
Proof.
  intros Hg Hj (-> & rx & ts & leaked & fs & Hn & Hts & [(Ho & Hf)|(Hb & _)]); [|done]. split; [done|]. exists rx, leaked, fs.
  destruct Hts as [|[t used] ts H _]; [|by destruct (Hj t)]. split; [exact Ho|]. split; [exact Hn|].
  intros r. rewrite Hf. unfold uses. cbn [map concat]. rewrite elem_of_nil. tauto.
Qed.
Definition demo_client_settings : client_settings := ClientSettings true true true 3 (StatsConfig false 8 1 10) 4 5.
(** A system in which threads do not end in time and cannot be cancelled. *)
Definition stuck_client_answers : sys_answers :=
  Answers (fun _ => true) (fun _ => true) (fun _ => CsvCreateEnv true true true 3 true) (fun _ => TimedOut) (fun _ => false) (fun _ => true).
(** All threads end; or the receive thread, which is not joined, is left. *)
Lemma client_start_to_exit_witness :
  (exists p' rx fs, run_client_roundtrip good_answers demo_client_settings None (LoopEnd 5 4 4 None) new_proc = (inl EXIT_SUCCESS, p') /\
     pr_live p' ≡ₚ [] /\ pr_threads p' = [] /\ pr_faults p' = fs /\ forall r, r ∈ fs <-> r = rx) /\
  (exists p' t used, run_client_roundtrip stuck_client_answers demo_client_settings None (LoopEnd 5 4 4 None) new_proc = (inl EXIT_SUCCESS, p') /\
     pr_threads p' = [(t, used)] /\ pr_live p' ≡ₚ [t] /\ forall r, r ∈ used -> r ∈ pr_faults p').
Proof.
  split.
  - destruct (client_start_to_exit good_answers demo_client_settings None (LoopEnd 5 4 4 None) [] new_proc eq_refl new_proc_owns) as [_ H].
    destruct (run_client_roundtrip _ _ _ _ _) as [[code|code] p'].
    + assert (forall t, ~ unjoined good_answers t) as Hj by (by intros t [Hx|[Hx|[Hx _]]]).
      destruct (client_roundtrip_joined _ _ _ _ _ good_answers_good Hj H) as (-> & rx & leaked & fs & [_ Hl Ht Hf] & Hn & Hr).
      rewrite (Hn eq_refl) in Hl. exists p', rx, fs. exact (conj eq_refl (conj Hl (conj Ht (conj Hf Hr)))).
    + destruct H as (_ & Hg & _). destruct (Hg good_answers_good).
  - pose proof (client_start_to_exit stuck_client_answers demo_client_settings None (LoopEnd 5 4 4 None) [] new_proc eq_refl new_proc_owns) as [_ H].
    remember (run_client_roundtrip stuck_client_answers demo_client_settings None (LoopEnd 5 4 4 None) new_proc) as run eqn:Er.
    assert (exists t used p', run = (inl EXIT_SUCCESS, p') /\ pr_threads p' = [(t, used)]) as (t & used & p' & -> & Ht).
    { rewrite Er. vm_compute. do 3 eexists. split; reflexivity. }
    destruct H as (_ & rx & ts & leaked & fs & Hn & _ & [([_ Hl Ht' Hf] & Hfs)|(Hg & _)]).
    2: { exfalso. apply Hg. split; [intros n; exact eq_refl|]. split; [intros n; exact eq_refl|]. intros n ty cpu. by apply csv_created_good. }
    rewrite Ht in Ht'. subst ts. rewrite (Hn eq_refl) in Hl. exists p', t, used. split; [exact eq_refl|]. split; [exact Ht|]. split; [exact Hl|].
    intros r Hr. rewrite Hf. apply Hfs. right. unfold uses. cbn [map concat snd]. by rewrite app_nil_r.
Defined.
