(* ===== verification/ServerRun.v ===== *)
(** The server from its start to its exit (run_server_oneway and
    run_server_roundtrip of timestamp_server.c): what is acquired in which order,
    what each failure releases, and the shut-down.

    The receive loops are those of ServerRx.v and ServerRt.v; here only what they
    leave is an input.  Messages are left out. *)

From S2P Require Import Prelude CText Ring Heap Wire Double CsvLog CsvRing StatsCollector StatsAnalysis CorrArray.
From S2P Require Import ServerQueue ServerCorr Process Timing Report.

Record server_settings := ServerSettings { ss_csv_enabled : bool; ss_log_cpu : Z; ss_stats : stats_config_t; ss_rx_cpu : Z; ss_tx_cpu : Z }.
(** The counters of the two threads after the loop, and the collector with what it
    then holds. *)
Record server_end := ServerEnd { se_received : Z; se_sent : Z; se_collector : option stats_collector_t }.

(** The two sockets, the log of TX timestamps, the arrays, and the timestamp thread. *)
Record server_tx := ServerTx {
  sx_sock : nat; sx_tx_sock : nat; sx_tx_csv : option nat; sx_corr : server_correlation;
  sx_thread : nat; sx_data : nat }.
(** The TX thread with its queue and its message structures. *)
Record server_sender := ServerSender {
  sn_queue : ReturnPacketQueue; sn_msgs : nat; sn_iovecs : nat; sn_buffers : nat; sn_thread : nat }.
Definition queue_blocks (q : ReturnPacketQueue) : list nat := [rp_self q; rp_requests_ptr q].

Section server.
  Context (an : sys_answers) (s : server_settings) (collector : option stats_collector_t) (garbage : ReturnPacketRequest).

(** ** One-way mode *)

(** After a failure to set up timestamps the socket is closed twice. *)
Definition server_oneway_open : prog (nat * option nat) :=
  sock ← socket an;
  match sock with
  | None => exit EXIT_FAILURE
  | Some sockfd =>
      optimized ← optimize_socket_performance an (ss_rx_cpu s) false;
      or_exit (0 <=? optimized) (close sockfd);;
      stamping ← setup_timestamping an;
      or_exit (0 <=? stamping) (close sockfd;; close sockfd);;
      device ← call an;
      or_exit device (close sockfd);;
      bound ← call an;
      or_exit bound (close sockfd);;
      csv_buffer ← csv_if_enabled an (ss_csv_enabled s) CSV_SERVER_MAIN_ONEWAY (ss_log_cpu s) (close sockfd);
      mret (sockfd, csv_buffer)
  end.
Definition run_server_oneway (se : server_end) : prog Z :=
  '(sockfd, csv_buffer) ← server_oneway_open;
  _ ← optimize_process_scheduling an;
  _ ← finish_statistics an (ss_stats s) (se_collector se) 0 (se_received se);
  close sockfd;;
  release_opt csv_buffer;;
  mret EXIT_SUCCESS.

(** ** Round-trip mode *)

Definition server_stamp_uses (tx_sockfd : nat) (tx_csv_buffer : option nat) (c : server_correlation) : list nat :=
  tx_sockfd :: option_list tx_csv_buffer ++ corr_blocks c ++ collector_blocks collector.
Definition init_corr : prog (server_correlation * Z) :=
  with_heap (fun h => init_server_tx_correlation (an_ok an) no_correlation h).
Definition cleanup_corr (c : server_correlation) : prog unit :=
  release_all (corr_blocks c) (fun h => snd (cleanup_server_tx_correlation c h)).

Definition server_setup_tx : prog server_tx :=
  sock ← socket an;
  match sock with
  | None => exit EXIT_FAILURE
  | Some sockfd =>
  sock ← socket an;
  match sock with
  | None => close sockfd;; exit EXIT_FAILURE
  | Some tx_sockfd =>
      let close_both := (close sockfd;; close tx_sockfd) in
      device ← call an;
      or_exit device close_both;;
      optimized_tx ← optimize_socket_performance an (ss_tx_cpu s) true;
      or_exit (0 <=? optimized_tx) close_both;;
      optimized_rx ← optimize_socket_performance an (ss_rx_cpu s) false;
      or_exit (0 <=? optimized_rx) close_both;;
      stamping ← setup_tx_timestamping an;
      or_exit (0 <=? stamping) close_both;;
      tx_csv_buffer ← csv_if_enabled an (ss_csv_enabled s) CSV_SERVER_TX (ss_log_cpu s) close_both;
      '(c, code) ← init_corr;
      or_exit (0 <=? code) (destroy_csv tx_csv_buffer;; close sockfd;; close tx_sockfd);;
      started ← start_tx_timestamp_processing_thread an (server_stamp_uses tx_sockfd tx_csv_buffer c);
      match started with
      | None =>
          destroy_csv tx_csv_buffer;;
          cleanup_corr c;;
          close sockfd;;
          close tx_sockfd;;
          exit EXIT_FAILURE
      | Some (t, d) => mret (ServerTx sockfd tx_sockfd tx_csv_buffer c t d)
      end
  end end.

(** The receiving socket's options and the main log.  A failure to set up
    timestamps closes the receiving socket twice and the sending one not at all. *)
Definition server_setup_rx (sockfd tx_sockfd : nat) : prog (option nat) :=
  stamping ← setup_timestamping an;
  or_exit (0 <=? stamping) (close sockfd;; close sockfd);;
  device ← call an;
  or_exit device (close sockfd;; close tx_sockfd);;
  bound ← call an;
  or_exit bound (close sockfd;; close tx_sockfd);;
  csv_if_enabled an (ss_csv_enabled s) CSV_SERVER_MAIN_ROUNDTRIP (ss_log_cpu s) (close sockfd;; close tx_sockfd).

Definition create_queue : prog (option ReturnPacketQueue) :=
  with_heap (create_return_packet_queue (an_ok an) garbage 4096).
Definition destroy_queue (q : ReturnPacketQueue) : prog unit :=
  release_all (queue_blocks q) (destroy_return_packet_queue (Some q)).
Definition sender_uses (tx_sockfd : nat) (csv_buffer : option nat) (c : server_correlation) (q : ReturnPacketQueue)
    (msgs iovecs buffers : nat) : list nat :=
  tx_sockfd :: msgs :: iovecs :: buffers :: queue_blocks q ++ option_list csv_buffer ++ corr_blocks c ++
  collector_blocks collector.

(** The queue, the message structures and the TX thread.  When the thread cannot be
    created the message structures are not released. *)
Definition server_start_sender (sockfd tx_sockfd : nat) (c : server_correlation) (csv_buffer : option nat)
    : prog server_sender :=
  let abandon := (destroy_csv csv_buffer;; close sockfd;; close tx_sockfd;; exit EXIT_FAILURE) in
  tx_queue ← create_queue;
  match tx_queue with
  | None => abandon
  | Some q =>
      tx_msgs ← acquire_aligned an;
      match tx_msgs with
      | None => destroy_queue q;; abandon
      | Some msgs =>
          tx_iovecs ← acquire_aligned an;
          match tx_iovecs with
          | None => release msgs;; destroy_queue q;; abandon
          | Some iovecs =>
              tx_packet_buffers ← acquire_aligned an;
              match tx_packet_buffers with
              | None => release msgs;; release iovecs;; destroy_queue q;; abandon
              | Some buffers =>
                  thread ← create_realtime_thread an (sender_uses tx_sockfd csv_buffer c q msgs iovecs buffers);
                  match thread with
                  | None => destroy_queue q;; abandon
                  | Some t => mret (ServerSender q msgs iovecs buffers t)
                  end
              end
          end
      end
  end.

(** The TX thread returns the packets it sent; 0 when it cannot be joined. *)
Definition stop_sender (t : nat) (sent : Z) : prog Z :=
  joined ← pthread_join an t;
  mret (if (joined : bool) then sent else 0).
(** The report is given the counters in the wrong order, as in the code. *)
Definition server_finish (tx : server_tx) (sn : server_sender) (csv_buffer : option nat) (se : server_end) (sent : Z) : prog Z :=
  _ ← finish_statistics an (ss_stats s) (se_collector se) (se_received se) sent;
  release (sn_msgs sn);;
  release (sn_iovecs sn);;
  release (sn_buffers sn);;
  close (sx_sock tx);;
  close (sx_tx_sock tx);;
  destroy_queue (sn_queue sn);;
  cleanup_corr (sx_corr tx);;
  release_opt csv_buffer;;
  release_opt (sx_tx_csv tx);;
  mret EXIT_SUCCESS.

Definition run_server_roundtrip (se : server_end) : prog Z :=
  tx ← server_setup_tx;
  csv_buffer ← server_setup_rx (sx_sock tx) (sx_tx_sock tx);
  sn ← server_start_sender (sx_sock tx) (sx_tx_sock tx) (sx_corr tx) csv_buffer;
  _ ← optimize_process_scheduling an;
  stop_tx_timestamp_processing_thread an (sx_thread tx) (sx_data tx);;
  sent ← stop_sender (sn_thread sn) (se_sent se);
  server_finish tx sn csv_buffer se sent.

End server.

(** ** Lemmas *)

Lemma frees_corr c : frees (corr_blocks c) (fun h => snd (cleanup_server_tx_correlation c h)).
Proof.
  intros h l Hw Hl. pose proof (cleanup_spec c h l Hw Hl) as H. destruct (cleanup_server_tx_correlation c h). apply H.
Qed.
Lemma frees_queue q : frees (queue_blocks q) (destroy_return_packet_queue (Some q)).
Proof.
  intros h l Hw Hl. simpl. destruct (frees_hfree (rp_requests_ptr q) h (rp_self q :: l) Hw) as [Hw1 Hl1].
  { rewrite Hl. unfold queue_blocks. simpl. solve_Permutation. }
  by apply frees_hfree.
Qed.
Definition sx_owned (tx : server_tx) : list nat :=
  sx_sock tx :: sx_tx_sock tx :: option_list (sx_tx_csv tx) ++ corr_blocks (sx_corr tx).
Definition sx_all (tx : server_tx) : list nat := sx_thread tx :: sx_data tx :: sx_owned tx.
Definition sx_running (collector : option stats_collector_t) (tx : server_tx) : list (nat * list nat) :=
  [(sx_thread tx, sx_data tx :: server_stamp_uses collector (sx_tx_sock tx) (sx_tx_csv tx) (sx_corr tx))].
Definition sn_owned (sn : server_sender) : list nat :=
  sn_buffers sn :: sn_iovecs sn :: sn_msgs sn :: queue_blocks (sn_queue sn).

(** A failure that closes one socket twice while the timestamp thread runs. *)
Definition closed_twice (p : proc) : Prop :=
  exists t used l sock, owns l [(t, used)] [sock] p /\ sock ∉ l.

Section proofs.
  Context (an : sys_answers) (s : server_settings) (collector : option stats_collector_t) (garbage : ReturnPacketRequest).
  Context (E : Z -> proc -> Prop).

Lemma wp_close_twice r Q l ts fs p :
  owns (r :: l) ts fs p -> uses ts ⊆ l -> (forall p', r ∉ l -> owns l ts (fs ++ [r]) p' -> Q tt p') ->
  wp (close r;; close r) Q E p.
Proof.
  intros Ho Hu H. assert (r ∉ l) as Hr by (apply owns_nodup in Ho; by apply NoDup_cons in Ho as [? _]).
  apply wp_bind. eapply wp_release; [exact Ho|exact Hu|]. intros p1 [Hw Hl Ht Hf]. unfold wp, close, release, release_all.
  apply H; [done|]. unfold pr_live in *. split; simpl; [by apply hfree_wf| |done|].
  - unfold pr_live. simpl. rewrite Hl. cut (base.filter (fun q => q <> r) l = l); [by intros ->|]. clear -Hr.
    induction l as [|q l IH]; [done|]. rewrite filter_cons, decide_True by set_solver. by rewrite IH by set_solver.
  - rewrite Hf, filter_cons, decide_True; [done|]. left. by rewrite Hl.
Qed.

Lemma wp_init_corr Q l ts fs p :
  owns l ts fs p ->
  (forall c p', owns (corr_blocks c ++ l) ts fs p' -> Q (c, 0) p') ->
  (~ all_good an -> forall c p', owns l ts fs p' -> Q (c, -1) p') ->
  wp (init_corr an) Q E p.
Proof.
  intros Ho H1 H2. eapply wp_with_heap; [exact Ho|]. intros [c code] h' Hw Hl Ec.
  pose proof (init_corr_spec (an_ok an) (pr_heap p) Hw) as Hi. rewrite Ec in Hi.
  destruct Hi as (Hw' & [(-> & _ & Hi)|(-> & _ & Hi)] & Hg).
  - exists (corr_blocks c ++ l). split; [done|]. unfold pr_live in Hl. split; [by rewrite Hi, Hl|]. intros p' Hp. by apply H1.
  - exists l. split; [done|]. split; [by rewrite Hi|]. intros p' Hp. apply H2; [|done].
    intros (Hok & _). by apply Hg in Hok.
Qed.
Lemma wp_create_queue Q l ts fs p :
  owns l ts fs p ->
  (forall q p', owns (queue_blocks q ++ l) ts fs p' -> Q (Some q) p') ->
  (~ all_good an -> forall p', owns l ts fs p' -> Q None p') ->
  wp (create_queue an garbage) Q E p.
Proof.
  intros Ho H1 H2. eapply wp_with_heap; [exact Ho|]. intros a h' Hw Hl Eq.
  unfold create_return_packet_queue in Eq.
  change ((4096 =? 0) || negb (Z.land 4096 (u32 (4096 - 1)) =? 0)) with false in Eq. cbv iota in Eq.
  pose proof (halloc_wf (an_ok an) (pr_heap p) Hw) as Hw1. unfold halloc in Eq, Hw1.
  destruct (an_ok an (hp_calls (pr_heap p))) eqn:E1; cbn [hp_calls] in Eq.
  2:{ simplify_eq. exists l. split; [done|]. split; [done|]. intros p' Hp. apply H2; [|done]. intros (Hg & _). by rewrite Hg in E1. }
  pose proof (halloc_wf (an_ok an) _ Hw1) as Hw2. unfold halloc in Hw2. cbn [hp_calls] in Hw2. simpl in Hw2.
  destruct (an_ok an (S (hp_calls (pr_heap p)))) eqn:E2; simplify_eq; simpl in Hw2.
  - exists (S (hp_calls (pr_heap p)) :: hp_calls (pr_heap p) :: l). split; [done|]. split; [simpl; unfold pr_live in Hl; by rewrite Hl|].
    intros p' Hp. apply H1. eapply owns_perm; [|exact Hp]. unfold queue_blocks. simpl. solve_Permutation.
  - exists l. split; [by apply hfree_wf|]. split.
    + destruct (frees_hfree (hp_calls (pr_heap p)) (Heap (S (S (hp_calls (pr_heap p)))) (hp_calls (pr_heap p) :: hp_live (pr_heap p))) l Hw2)
        as [_ Hf]; [simpl; unfold pr_live in Hl; by rewrite Hl|exact Hf].
    + intros p' Hp. apply H2; [|done]. intros (Hg & _). by rewrite Hg in E2.
Qed.

Lemma wp_cleanup_corr c Q l ts fs p :
  owns (corr_blocks c ++ l) ts fs p -> uses ts ⊆ l -> (forall p', owns l ts fs p' -> Q tt p') -> wp (cleanup_corr c) Q E p.
Proof. apply wp_release_all, frees_corr. Qed.
Lemma wp_destroy_queue q Q l ts fs p :
  owns (queue_blocks q ++ l) ts fs p -> uses ts ⊆ l -> (forall p', owns l ts fs p' -> Q tt p') -> wp (destroy_queue q) Q E p.
Proof. apply wp_release_all, frees_queue. Qed.

Ltac server_step :=
  lazymatch goal with
  | |- wp (mbind (fun _ => close ?r) (close ?r)) _ _ ?p =>
      lazymatch goal with H : owns ?L _ _ p |- _ =>
        let R := without r L in eapply (wp_close_twice r _ R); [owned H|unused|intros ? ? ?]; run_simpl end
  | |- wp (init_corr _) _ _ _ => eapply wp_init_corr; [eassumption|intros ? ? ?|intros ? ? ? ?]; run_simpl
  | |- wp (create_queue _ _) _ _ _ => eapply wp_create_queue; [eassumption|intros ? ? ?|intros ? ? ?]; run_simpl
  | |- wp (cleanup_corr ?c) _ _ ?p =>
      lazymatch goal with H : owns ?L _ _ p |- _ =>
        let R := without (corr_blocks c) L in eapply (wp_cleanup_corr c _ R); [owned H|unused|intros ? ?]; run_simpl end
  | |- wp (destroy_queue ?q) _ _ ?p =>
      lazymatch goal with H : owns ?L _ _ p |- _ =>
        let R := without (queue_blocks q) L in eapply (wp_destroy_queue q _ R); [owned H|unused|intros ? ?]; run_simpl end
  | |- wp (start_tx_timestamp_processing_thread _ _) _ _ _ =>
      eapply wp_start_tx; [eassumption|unused|unfold server_stamp_uses; set_solver|intros ? ? ? ?|intros ? ? ?]; run_simpl
  | _ => run_composed
  end.

Lemma wp_server_oneway_open Q base p :
  owns base [] [] p ->
  (forall sock log p', owns (option_list log ++ sock :: base) [] [] p' -> Q (sock, log) p') ->
  (~ all_good an -> forall p', owns base [] [] p' -> E EXIT_FAILURE p') ->
  (~ all_good an -> forall sock p', owns base [] [sock] p' -> E EXIT_FAILURE p') ->
  wp (server_oneway_open an s) Q E p.
Proof. intros Ho HQ HE HE2. unfold server_oneway_open. repeat server_step; first [by apply HQ|by apply HE|by eapply HE2]. Qed.

Lemma wp_server_setup_tx Q base p :
  collector_blocks collector ⊆ base -> owns base [] [] p ->
  (forall tx p', owns (sx_all tx ++ base) (sx_running collector tx) [] p' -> Q tx p') ->
  (~ all_good an -> forall p', owns base [] [] p' -> E EXIT_FAILURE p') ->
  wp (server_setup_tx an s collector) Q E p.
Proof.
  intros Hc Ho HQ HE. unfold server_setup_tx. cbv zeta. repeat server_step; try by apply HE.
  apply HQ. eapply owns_perm; [|eassumption]. unfold sx_all, sx_owned. simpl. solve_Permutation.
Qed.

Ltac phase tx := destruct tx as [sock tx_sock csv c t d]; unfold sx_all, sx_running, sx_owned in *; simpl in *;
  rewrite <- ?app_assoc in *.
Lemma wp_server_setup_rx tx Q base p :
  collector_blocks collector ⊆ base -> owns (sx_all tx ++ base) (sx_running collector tx) [] p ->
  (forall log p', owns (option_list log ++ sx_all tx ++ base) (sx_running collector tx) [] p' -> Q log p') ->
  (~ all_good an -> forall p', stranded p' \/ closed_twice p' -> E EXIT_FAILURE p') ->
  wp (server_setup_rx an s (sx_sock tx) (sx_tx_sock tx)) Q E p.
Proof.
  intros Hc Ho HQ HE. phase tx. unfold server_setup_rx.
  repeat server_step; first [by apply HQ|by (apply HE; [done|left])|apply HE; [done|right; by do 4 eexists]].
Qed.

Lemma wp_start_sender tx log Q base p :
  collector_blocks collector ⊆ base ->
  owns (option_list log ++ sx_all tx ++ base) (sx_running collector tx) [] p ->
  (forall sn p', owns (sn_thread sn :: sn_owned sn ++ option_list log ++ sx_all tx ++ base)
     ((sn_thread sn, sender_uses collector (sx_tx_sock tx) log (sx_corr tx) (sn_queue sn) (sn_msgs sn) (sn_iovecs sn) (sn_buffers sn))
      :: sx_running collector tx) [] p' -> Q sn p') ->
  (~ all_good an -> forall p', stranded p' -> E EXIT_FAILURE p') ->
  wp (server_start_sender an collector garbage (sx_sock tx) (sx_tx_sock tx) (sx_corr tx) log) Q E p.
Proof.
  intros Hc Ho HQ HE. phase tx. unfold server_start_sender, server_stamp_uses in *. cbv zeta. repeat server_step; try by apply HE.
  eapply wp_create_realtime_thread; [eassumption|unused|unfold sender_uses; set_solver| |];
    [intros t9 p9 H9|intros Hg p9 H9]; run_simpl; repeat server_step; [|by apply HE].
  apply HQ. eapply owns_perm; [|exact H9]. unfold sn_owned. simpl. solve_Permutation.
Qed.

Lemma wp_server_finish tx sn log se sent Q ts fs rest p :
  collector_blocks (se_collector se) = collector_blocks collector ->
  let held := sn_owned sn ++ option_list log ++ sx_owned tx ++ collector_blocks collector in
  owns (held ++ rest) ts fs p -> fs ⊆ uses ts -> uses ts ⊆ fs ++ held ->
  (forall leaked fs' p', owns (leaked ++ rest) ts fs' p' -> (forall r, r ∈ fs' <-> r ∈ uses ts) ->
     (collector = None -> leaked = []) -> Q EXIT_SUCCESS p') ->
  wp (server_finish an s tx sn log se sent) Q E p.
Proof.
  intros Hc held Ho Hf Hu HQ. unfold held in *. clear held. destruct tx as [sock tx_sock csv c t d], sn as [q ms io bu st].
  unfold sn_owned, sx_owned in *. simpl in *. unfold server_finish.
  cbn [sn_msgs sn_iovecs sn_buffers sn_queue sx_sock sx_tx_sock sx_corr sx_tx_csv]. run_step.
  eapply (wp_finish_shed _ _ _ _ _ _ _ ts fs []
    (bu :: io :: ms :: queue_blocks q ++ option_list log ++ sock :: tx_sock :: option_list csv ++ corr_blocks c ++ rest)).
  - rewrite Hc. eapply shutting_perm; [|by apply shutting_start]. solve_Permutation.
  - intros texts leaked p1 H1 Hn. rewrite Hc in H1. do 11 shed_step.
    eapply (wp_shed _ _ _ _ _ _ _ (leaked ++ option_list log ++ option_list csv ++ corr_blocks c ++ rest)); [apply frees_queue|shed_perm H|].
    intros p2 H2. shed_step.
    eapply (wp_shed _ _ _ _ _ _ _ (leaked ++ option_list log ++ option_list csv ++ rest)); [apply frees_corr|shed_perm H2|].
    intros p3 H3. repeat shed_step.
    edestruct shutting_all as (fs' & H4 & H5); [eassumption|exact Hf| |].
    { clear -Hu. intros r Hr. specialize (Hu r Hr). set_solver. }
    eapply HQ; [exact H4|exact H5|]. intros ->. apply Hn. destruct (se_collector se); [discriminate|done].
Qed.
End proofs.

(** ** Properties *)

(** What a failed start leaves: nothing but what was there before, but for a socket
    closed twice; or, once the timestamp thread was started, that thread. *)
Definition server_failed (an : sys_answers) (l : list nat) (code : Z) (p : proc) : Prop :=
  code = EXIT_FAILURE /\ ~ all_good an /\
  (owns l [] [] p \/ (exists sock, owns l [] [sock] p) \/ stranded p \/ closed_twice p).
Definition server_ended (collector : option stats_collector_t) (base : list nat) (code : Z) (p : proc) : Prop :=
  code = EXIT_SUCCESS /\ exists leaked, owns (leaked ++ base) [] [] p /\ (collector = None -> leaked = []).
(** In round-trip mode the threads [ts] may be left that could not be joined; what was
    released wrongly is then just what they use. *)
Definition server_roundtrip_ended (an : sys_answers) (collector : option stats_collector_t) (base : list nat) (code : Z) (p : proc) : Prop :=
  code = EXIT_SUCCESS /\ exists ts leaked fs, owns (leaked ++ tids ts ++ base) ts fs p /\ (collector = None -> leaked = []) /\
    Forall (fun x => unjoined an (fst x)) ts /\ (forall r, r ∈ fs <-> r ∈ uses ts).

Lemma oneway_server_run an s collector se base p :
  collector_blocks (se_collector se) = collector_blocks collector ->
  owns (collector_blocks collector ++ base) [] [] p ->
  wp (run_server_oneway an s se) (server_ended collector base) (server_failed an (collector_blocks collector ++ base)) p.
Proof.
  intros Hc Ho. unfold run_server_oneway. run_step.
  eapply wp_server_oneway_open; [exact Ho| |by intros Hg p' Hp; split_and!; [| |left]
    |by intros Hg sock p' Hp; split_and!; [| |right; left; exists sock]].
  intros sock log p1' H1'. run_step. eapply wp_optimize_process_scheduling; [exact H1'|]. intros p1 H1. run_step.
  eapply (wp_finish_shed _ _ _ _ _ _ _ [] [] [] (option_list log ++ sock :: base)).
  - rewrite Hc. eapply shutting_perm; [|by apply shutting_start]. solve_Permutation.
  - intros texts leaked p2 H2 Hn. repeat shed_step. split; [done|]. exists leaked. split; [by eapply shutting_clean|].
    intros ->. apply Hn. destruct (se_collector se); [discriminate|done].
Qed.

(** From the end of the loops to the exit, with what is left of each thread. *)
Lemma server_shutdown an s collector se tx sn log base E p :
  collector_blocks (se_collector se) = collector_blocks collector ->
  let start := collector_blocks collector ++ base in
  let used := sender_uses collector (sx_tx_sock tx) log (sx_corr tx) (sn_queue sn) (sn_msgs sn) (sn_iovecs sn) (sn_buffers sn) in
  owns (sn_thread sn :: sn_owned sn ++ option_list log ++ sx_all tx ++ start) ((sn_thread sn, used) :: sx_running collector tx) [] p ->
  wp (stop_tx_timestamp_processing_thread an (sx_thread tx) (sx_data tx);;
      sent ← stop_sender an (sn_thread sn) (se_sent se);
      server_finish an s tx sn log se sent) (server_roundtrip_ended an collector base) E p.
Proof.
  intros Hc start used Ho. set (held := sn_owned sn ++ option_list log ++ sx_owned tx ++ collector_blocks collector).
  assert (forall ts fs sent p1, owns (held ++ tids ts ++ base) ts fs p1 -> Forall (fun x => unjoined an (fst x)) ts ->
    fs ⊆ uses ts -> uses ts ⊆ fs ++ held ->
    wp (server_finish an s tx sn log se sent) (server_roundtrip_ended an collector base) E p1) as Hend.
  { intros ts fs sent p1 H1 Hts H2 H3. eapply (wp_server_finish _ _ collector _ _ _ _ _ _ _ _ fs (tids ts ++ base)); [exact Hc|exact H1|exact H2|exact H3|].
    intros leaked fs' p2 H4 H5 Hn. split; [done|]. by exists ts, leaked, fs'. }
  set (stamp := server_stamp_uses collector (sx_tx_sock tx) (sx_tx_csv tx) (sx_corr tx)) in *.
  assert (used ⊆ held) as Hused by (unfold used, sender_uses, held, sn_owned, sx_owned; unused).
  assert (stamp ⊆ held) as Hstamp by (unfold stamp, server_stamp_uses, held, sn_owned, sx_owned; unused).
  assert (sx_data tx :: stamp ⊆ [sx_data tx] ++ held) as Hstamp'.
  { apply sub_cons_l; [apply list_elem_of_here|]. by apply sub_app_r. }
  assert (forall ts1 ts2 fs p1, owns (sn_thread sn :: held ++ tids (ts1 ++ ts2) ++ base) (ts1 ++ (sn_thread sn, used) :: ts2) fs p1 ->
    Forall (fun x => unjoined an (fst x)) (ts1 ++ ts2) -> fs ⊆ uses (ts1 ++ ts2) -> uses (ts1 ++ ts2) ⊆ fs ++ held ->
    wp (sent ← stop_sender an (sn_thread sn) (se_sent se); server_finish an s tx sn log se sent)
      (server_roundtrip_ended an collector base) E p1) as Hsender.
  { intros ts1 ts2 fs p1 H1 Hts Hf Hu. unfold stop_sender. do 2 run_step.
    eapply wp_pthread_join; [exact H1|by apply sub_app_r, sub_here| |].
    - intros p2 H2. run_step. by eapply (Hend (ts1 ++ ts2)).
    - intros Hr p2 H2. run_step. eapply (Hend (ts1 ++ (sn_thread sn, used) :: ts2)).
      + eapply owns_perm; [|exact H2]. unfold tids. rewrite !map_app. cbn [map fst]. solve_Permutation.
      + apply Forall_app in Hts as [H3 H4]. apply Forall_app. split; [done|]. constructor; [right; by left|done].
      + intros r Hr'. apply elem_of_uses_middle. right. by apply Hf.
      + intros r [Hr'|Hr']%elem_of_uses_middle; [|by apply Hu]. apply elem_of_app. right. by apply Hused. }
  run_step. unfold sx_running in Ho.
  eapply (wp_stop_tx _ _ _ _ stamp [(sn_thread sn, used)] [] _ (sn_thread sn :: held ++ base)).
  { eapply owns_perm; [|exact Ho]. unfold held, sx_all, start. solve_Permutation. }
  { unused. }
  { unfold uses. cbn [app map concat snd]. rewrite app_nil_r. intros r Hr. apply list_elem_of_further, elem_of_app. left. by apply Hused. }
  - intros p1 H1. apply (Hsender [] [] []); [exact H1|constructor|apply list_subseteq_nil|apply list_subseteq_nil].
  - intros Hj p1 H1. eapply (Hsender [] [(sx_thread tx, sx_data tx :: stamp)] [sx_data tx]); [| | |].
    + eapply owns_perm; [|exact H1]. cbn [app tids map fst]. solve_Permutation.
    + constructor; [exact Hj|constructor].
    + unfold uses. cbn [app map concat snd]. intros r ->%list_elem_of_singleton. apply list_elem_of_here.
    + unfold uses. cbn [app map concat snd]. rewrite app_nil_r. exact Hstamp'.
Qed.

Lemma roundtrip_server_run an s collector garbage se base p :
  collector_blocks (se_collector se) = collector_blocks collector ->
  owns (collector_blocks collector ++ base) [] [] p ->
  wp (run_server_roundtrip an s collector garbage se) (server_roundtrip_ended an collector base)
    (server_failed an (collector_blocks collector ++ base)) p.
Proof.
  intros Hc Ho. set (start := collector_blocks collector ++ base) in *.
  assert (collector_blocks collector ⊆ start) as Hs by set_solver.
  unfold run_server_roundtrip. run_step.
  eapply (wp_server_setup_tx an s collector _ _ start); [done|exact Ho| |by intros Hg p' Hp; split_and!; [| |left]].
  intros tx p1 H1. run_step.
  eapply (wp_server_setup_rx an s collector _ _ _ start); [done|exact H1| |by intros Hg p' Hp; split_and!; [| |right; right]].
  intros log p2 H2. run_step.
  eapply (wp_start_sender an collector garbage _ _ _ _ start); [done|exact H2| |
    by intros Hg p' Hp; split_and!; [| |right; right; left]].
  intros sn p3' H3'. run_step. eapply wp_optimize_process_scheduling; [exact H3'|]. intros p3 H3.
  eapply server_shutdown; [exact Hc|exact H3].
Qed.

(** C16: the server from start to exit, in both modes, whatever call fails and however
    the waits for its threads end, from a state without threads in which the collector
    is live, which the loops leave where it is.  A failed start returns EXIT_FAILURE and leaves
    nothing acquired, but for a socket closed twice, or, once the timestamp thread was
    started, leaves that thread running on a closed socket or after closing the
    other socket twice.  Otherwise the run ends with EXIT_SUCCESS.  In one-way mode
    no thread and no resource is left then but what the analysis leaks, and nothing
    was released in use or twice.  In round-trip mode the same holds when both threads
    can be joined; a thread that cannot be joined is left, and all that it uses has
    been released under it, which is all that was released wrongly.  A wait without
    end that never returns is not considered. *)
Theorem server_start_to_exit (an : sys_answers) (s : server_settings) (collector : option stats_collector_t)
    (garbage : ReturnPacketRequest) (se : server_end) (base : list nat) (p : proc) :
  collector_blocks (se_collector se) = collector_blocks collector ->
  owns (collector_blocks collector ++ base) [] [] p ->
  match run_server_oneway an s se p with
  | (inl code, p') => server_ended collector base code p'
  | (inr code, p') => server_failed an (collector_blocks collector ++ base) code p'
  end /\
  match run_server_roundtrip an s collector garbage se p with
  | (inl code, p') => server_roundtrip_ended an collector base code p'
  | (inr code, p') => server_failed an (collector_blocks collector ++ base) code p'
  end.
Proof.
  intros Hc Ho. split.
  - exact (oneway_server_run an s collector se base p Hc Ho).
  - exact (roundtrip_server_run an s collector garbage se base p Hc Ho).
Qed.

(** When every thread can be joined, none is left. *)
Lemma server_roundtrip_joined an collector base code p :
  (forall t, ~ unjoined an t) -> server_roundtrip_ended an collector base code p -> server_ended collector base code p.
Proof.
  intros Hj (-> & ts & leaked & fs & Ho & Hn & Hts & Hf). split; [done|]. exists leaked. split; [|done].
  destruct Hts as [|[t used] ts H _]; [|by destruct (Hj t)]. destruct fs as [|r fs]; [done|].
  by destruct (not_elem_of_nil r (proj1 (Hf r) (list_elem_of_here _ _))).
Qed.
Lemma good_joined t : ~ unjoined good_answers t.
Proof. by intros [H|[H|[H _]]]. Qed.
(** A system in which the sending thread cannot be joined. *)
Definition stuck_answers : sys_answers :=
  Answers (fun _ => true) (fun _ => true) (fun _ => CsvCreateEnv true true true 3 true) (fun _ => Joined) (fun _ => true) (fun _ => false).
Definition demo_server_settings : server_settings := ServerSettings true 3 (StatsConfig false 8 1 10) 4 5.
Lemma server_start_to_exit_witness :
  (exists p', run_server_roundtrip good_answers demo_server_settings None (demo_request 0) (ServerEnd 5 5 None) new_proc = (inl EXIT_SUCCESS, p') /\
     pr_live p' ≡ₚ [] /\ pr_threads p' = [] /\ pr_faults p' = []) /\
  (exists p' t used, run_server_roundtrip stuck_answers demo_server_settings None (demo_request 0) (ServerEnd 5 5 None) new_proc = (inl EXIT_SUCCESS, p') /\
     pr_threads p' = [(t, used)] /\ pr_live p' ≡ₚ [t] /\ forall r, r ∈ pr_faults p' <-> r ∈ used).
Proof.
  split.
  - destruct (server_start_to_exit good_answers demo_server_settings None (demo_request 0) (ServerEnd 5 5 None) [] new_proc
      eq_refl new_proc_owns) as [_ H].
    destruct (run_server_roundtrip _ _ _ _ _ _) as [[code|code] p'].
    + destruct (server_roundtrip_joined _ _ _ _ _ good_joined H) as (-> & leaked & [_ Hl Ht Hf] & Hn). rewrite (Hn eq_refl) in Hl.
      exists p'. exact (conj eq_refl (conj Hl (conj Ht Hf))).
    + destruct H as (_ & Hg & _). destruct (Hg good_answers_good).
  - pose proof (server_start_to_exit stuck_answers demo_server_settings None (demo_request 0) (ServerEnd 5 5 None) [] new_proc
      eq_refl new_proc_owns) as [_ H].
    remember (run_server_roundtrip stuck_answers demo_server_settings None (demo_request 0) (ServerEnd 5 5 None) new_proc) as run eqn:Er.
    assert (exists t used p', run = (inl EXIT_SUCCESS, p') /\ pr_threads p' = [(t, used)]) as (t & used & p' & -> & Ht).
    { rewrite Er. vm_compute. do 3 eexists. split; reflexivity. }
    destruct H as (_ & ts & leaked & fs & [_ Hl Ht' Hf] & Hn & _ & Hfs). rewrite Ht in Ht'. subst ts. rewrite (Hn eq_refl) in Hl.
    exists p', t, used. split; [exact eq_refl|]. split; [exact Ht|]. split; [exact Hl|].
    intros r. rewrite Hf, Hfs. unfold uses. cbn [map concat snd]. by rewrite app_nil_r.
Defined.
