(* ===== verification/JoinParse.v ===== *)
(** CSV reading in timestamp_csvjoin.c: whitespace trimming and field splitting
    by writing NULs into the line buffer, timestamps as nanoseconds, record
    matching and file type detection.

    [parse_csv_line] works on the characters of the line buffer and returns
    offsets into it, as the code returns pointers; [split_trim] is the pure
    reading of a line it is proved equal to. *)

From S2P Require Import Prelude CText CsvLog.

Definition MAX_LINE_LENGTH : nat := 2048.
Definition MAX_CSV_FIELDS : nat := 20.

Inductive file_type_t :=
  | FILE_CLIENT_ONEWAY_MAIN
  | FILE_CLIENT_ONEWAY_TX
  | FILE_CLIENT_ROUNDTRIP_MAIN
  | FILE_CLIENT_ROUNDTRIP_TX
  | FILE_SERVER_ONEWAY_MAIN
  | FILE_SERVER_ROUNDTRIP_MAIN
  | FILE_SERVER_ROUNDTRIP_TX
  | FILE_TYPE_UNKNOWN.
#[export] Instance file_type_eq_dec : EqDecision file_type_t.
Proof. solve_decision. Defined.

(** ** Line buffers *)

Definition mem_get (buf : list ascii) (i : nat) : ascii := default NUL (buf !! i).

(** while (isspace( *str)) str++ *)
Fixpoint trim_start (fuel : nat) (buf : list ascii) (str : nat) : nat :=
  match fuel with
  | O => str
  | S f => if isspace (mem_get buf str) then trim_start f buf (S str) else str
  end.
(** while (end > str && isspace( *end)) end-- *)
Fixpoint trim_end (fuel : nat) (buf : list ascii) (str e : nat) : nat :=
  match fuel with
  | O => e
  | S f => if (str <? e)%nat && isspace (mem_get buf e) then trim_end f buf str (e - 1) else e
  end.
(** Returns the buffer, with a NUL after the last character kept, and the
    offset of the first one. *)
Definition trim_whitespace (buf : list ascii) (str : nat) : list ascii * nat :=
  let str := trim_start (length buf) buf str in
  if decide (mem_get buf str = NUL) then (buf, str)
  else
    let e := (str + length (c_str (drop str buf)) - 1)%nat in
    let e := trim_end (length buf) buf str e in
    (<[S e := NUL]> buf, str).

Record csv_scan := CsvScan {
  sc_buf : list ascii;
  sc_current : nat;
  sc_field_start : nat;
  sc_in_quotes : bool;
  sc_fields : list nat;
}.

Definition csv_scan_char (s : csv_scan) : csv_scan :=
  let '(CsvScan buf cur start q fields) := s in
  let c := mem_get buf cur in
  if bool_decide (c = DQUOTE) && ((cur =? 0)%nat || bool_decide (mem_get buf (cur - 1) = COMMA)) then
    CsvScan buf (S cur) start (negb q) fields
  else if bool_decide (c = COMMA) && negb q then
    let '(buf', off) := trim_whitespace (<[cur := NUL]> buf) start in
    CsvScan buf' (S cur) (S cur) q (fields ++ [off])
  else CsvScan buf (S cur) start q fields.

(** while ( *current && field_count < max_fields) *)
Fixpoint csv_scan_loop (fuel max_fields : nat) (s : csv_scan) : csv_scan :=
  match fuel with
  | O => s
  | S f =>
      if bool_decide (mem_get (sc_buf s) (sc_current s) = NUL)
         || (max_fields <=? length (sc_fields s))%nat then s
      else csv_scan_loop f max_fields (csv_scan_char s)
  end.

(** The field after the last comma. *)
Definition csv_scan_last (max_fields : nat) (s : csv_scan) : list ascii * list nat :=
  if (length (sc_fields s) <? max_fields)%nat && (sc_field_start s <=? sc_current s)%nat then
    let '(buf', off) := trim_whitespace (sc_buf s) (sc_field_start s) in
    (buf', sc_fields s ++ [off])
  else (sc_buf s, sc_fields s).
Definition parse_csv_offsets (line : cstr) (max_fields : nat) : list ascii * list nat :=
  csv_scan_last max_fields
    (csv_scan_loop (S (length line)) max_fields (CsvScan (line ++ [NUL]) 0 0 false [])).

(** The strings the field pointers denote once parsing is done. *)
Definition fields_of (buf : list ascii) (offs : list nat) : list cstr :=
  map (fun o => c_str (drop o buf)) offs.
Definition parse_csv_line (line : cstr) (max_fields : nat) : list cstr :=
  let '(buf, offs) := parse_csv_offsets line max_fields in fields_of buf offs.

(** ** Timestamps and deltas *)

Definition parse_timestamp_ns (ts_str : cstr) : Z :=
  if decide (ts_str = lit "NULL") then 0
  else match strchr ts_str DOT with
       | None => u64 (u64 (atoll ts_str) * 1000000000)
       | Some dot =>
           let seconds := u64 (atoll ts_str) in
           let frac_str := take 15 (tail dot) in
           let frac_str := if (9 <? length frac_str)%nat then take 9 frac_str else frac_str in
           let frac_str := frac_str ++ replicate (9 - length frac_str) (digit_chr 0) in
           let nanoseconds := u64 (atoll frac_str) in
           u64 (seconds * 1000000000 + nanoseconds)
       end.

Record delta_result_t := DeltaResult {
  delta_whole_us : Z; delta_frac_ns : Z; delta_valid : bool }.

Definition calculate_delta_fast (ts_a_ns ts_b_ns : Z) : delta_result_t :=
  if (ts_a_ns =? 0) || (ts_b_ns =? 0) || (ts_b_ns <=? ts_a_ns) then DeltaResult 0 0 false
  else
    let delta_ns := u64 (ts_b_ns - ts_a_ns) in
    DeltaResult (u32 (delta_ns / 1000)) (u32 (delta_ns mod 1000)) true.

(** The text put in the buffer and the return value; None when the arguments
    are refused and the buffer is left alone. *)
Definition format_delta_to_buffer (delta : delta_result_t) (max_len : Z) : option (cstr * Z) :=
  if max_len <? 8 then None
  else if negb (delta_valid delta) then Some (lit "NULL", 4)
  else
    let text := fmt_u (delta_whole_us delta) ++ DOT :: fmt_u0 3 (delta_frac_ns delta) in
    Some (snprintf_dst max_len text, zlen text).

(** ** Lines and files *)

(** line[strcspn(line, CR NL)] = NUL on the C string of an fgets buffer. *)
Definition chomp (mem : list ascii) : cstr := cut_at [CR; NL] (c_str mem).

(** The type a header line denotes, tested in the order of the code. *)
Definition header_file_type (line : cstr) : file_type_t :=
  if strstr line (lit "clt_src_ip,clt_src_port,seq_num,clt_app_tx_tsc_ts,clt_app_tx_ts,clt_hw_rx_ts,clt_ker_rx_ts,clt_app_rx_tsc_ts,clt_app_rx_ts") then FILE_CLIENT_ROUNDTRIP_MAIN
  else if strstr line (lit "clt_src_ip,clt_src_port,seq_num,svr_hw_rx_ts,svr_ker_rx_ts,svr_app_rx_ts,svr_app_tx_ts") then FILE_SERVER_ROUNDTRIP_MAIN
  else if strstr line (lit "clt_src_ip,clt_src_port,seq_num,svr_hw_rx_ts,svr_ker_rx_ts,svr_app_rx_ts") then FILE_SERVER_ONEWAY_MAIN
  else if strstr line (lit "clt_src_ip,clt_src_port,seq_num,clt_app_tx_ts") then FILE_CLIENT_ONEWAY_MAIN
  else if strstr line (lit "clt_src_ip,clt_src_port,seq_num,clt_ker_tx_ts") then FILE_CLIENT_ONEWAY_TX
  else if strstr line (lit "clt_src_ip,clt_src_port,seq_num,svr_ker_tx_ts") then FILE_SERVER_ROUNDTRIP_TX
  else FILE_TYPE_UNKNOWN.

(** The name of a type in messages. *)
Definition get_file_type_name (type : file_type_t) : cstr :=
  match type with
  | FILE_CLIENT_ONEWAY_MAIN => lit "CLIENT_ONEWAY_MAIN"
  | FILE_CLIENT_ONEWAY_TX => lit "CLIENT_ONEWAY_TX"
  | FILE_CLIENT_ROUNDTRIP_MAIN => lit "CLIENT_ROUNDTRIP_MAIN"
  | FILE_CLIENT_ROUNDTRIP_TX => lit "CLIENT_ROUNDTRIP_TX"
  | FILE_SERVER_ONEWAY_MAIN => lit "SERVER_ONEWAY_MAIN"
  | FILE_SERVER_ROUNDTRIP_MAIN => lit "SERVER_ROUNDTRIP_MAIN"
  | FILE_SERVER_ROUNDTRIP_TX => lit "SERVER_ROUNDTRIP_TX"
  | FILE_TYPE_UNKNOWN => lit "UNKNOWN"
  end.
#[export] Instance get_file_type_name_inj : Inj (=) (=) get_file_type_name.
Proof. by intros [] []. Qed.

(** A file system maps names to contents; fopen of an absent name fails. *)
Definition detect_file_type (fs : gmap cstr cstr) (filename : cstr) : file_type_t :=
  match fs !! filename with
  | None => FILE_TYPE_UNKNOWN
  | Some content =>
      match fgets MAX_LINE_LENGTH content with
      | None => FILE_TYPE_UNKNOWN
      | Some (line, _) => header_file_type (chomp line)
      end
  end.

Definition field (fields : list cstr) (i : nat) : cstr := default [] (fields !! i).

Definition validate_record_match (fields : list cstr) (target_ip : cstr) (target_port : Z) : bool :=
  if (length fields <? 3)%nat then false
  else if negb (bool_decide (field fields 0 = target_ip)) then false
  else if negb (u16 (atoi (field fields 1)) =? target_port) then false
  else true.

(** None is the result -1. *)
Definition extract_sequence_number (fields : list cstr) : option Z :=
  if (length fields <? 3)%nat then None
  else
    let '(seq, endptr) := strtol (field fields 2) in
    if negb (bool_decide (endptr = [])) || (seq <? 0) || (UINT32_MAX <? seq) then None
    else Some (u32 seq).

(** ** What the line parser computes *)

Definition nul_free (s : cstr) : Prop := NUL ∉ s.

Fixpoint rtrim_rev (s : cstr) : cstr :=
  match s with c :: t => if isspace c then rtrim_rev t else s | [] => [] end.
Definition trim (s : cstr) : cstr := rev (rtrim_rev (rev (skip_spaces s))).
(** Split at every comma; [cur] is the field read so far. *)
Fixpoint split_commas (cur s : cstr) : list cstr :=
  match s with
  | [] => [cur]
  | c :: t => if decide (c = COMMA) then cur :: split_commas [] t
              else split_commas (cur ++ [c]) t
  end.
Definition split_trim (line : cstr) (max_fields : nat) : list cstr :=
  take max_fields (map trim (split_commas [] line)).

Lemma c_str_nul_free s post : nul_free s -> c_str (s ++ NUL :: post) = s.
Proof.
  unfold nul_free. induction s as [|c s IH]; intros H; simpl.
  - done.
  - rewrite decide_False by set_solver. by rewrite IH by set_solver.
Qed.

Lemma c_str_app_nul a b : NUL ∈ a -> c_str (a ++ b) = c_str a.
Proof.
  induction a as [|c a IH]; intros H; [by apply not_elem_of_nil in H|]. simpl.
  case_decide; [done|]. rewrite IH; [done|set_solver].
Qed.

Lemma isspace_nul : isspace NUL = false.
Proof. done. Qed.

Lemma mem_get_app_r pre l i : mem_get (pre ++ l) (length pre + i) = mem_get l i.
Proof. unfold mem_get. by rewrite lookup_app_r, Nat.add_comm, Nat.add_sub by lia. Qed.
Lemma mem_get_len pre l : mem_get (pre ++ l) (length pre) = mem_get l 0.
Proof. by rewrite <- (Nat.add_0_r (length pre)), mem_get_app_r. Qed.
Lemma mem_get_app_l pre l i : (i < length pre)%nat -> mem_get (pre ++ l) i = mem_get pre i.
Proof. intros. unfold mem_get. by rewrite lookup_app_l. Qed.

Lemma skip_spaces_suffix s : exists w, s = w ++ skip_spaces s /\ Forall (fun c => isspace c = true) w.
Proof.
  induction s as [|c s (w & E & Hw)]; simpl; [by exists []|].
  destruct (isspace c) eqn:Hc; [|by exists []].
  exists (c :: w). split; [by rewrite E at 1|by constructor].
Qed.

Lemma skip_spaces_head s c t : skip_spaces s = c :: t -> isspace c = false.
Proof.
  induction s as [|x s IH]; simpl; [done|]. destruct (isspace x) eqn:Hx; [done|]. congruence.
Qed.

Lemma trim_start_skip fuel pre s post :
  nul_free s -> (length s < fuel)%nat ->
  trim_start fuel (pre ++ s ++ NUL :: post) (length pre) =
    (length pre + (length s - length (skip_spaces s)))%nat.
Proof.
  revert pre s. induction fuel as [|f IH]; intros pre s Hn Hf; [lia|].
  cbn [trim_start]. rewrite <- (Nat.add_0_r (length pre)), mem_get_app_r.
  destruct s as [|c s]; simpl.
  - unfold mem_get. simpl. lia.
  - change (mem_get (c :: s ++ NUL :: post) 0) with c. destruct (isspace c) eqn:Hc; [|simpl; lia].
    specialize (IH (pre ++ [c]) s). rewrite length_app, <- app_assoc in IH. simpl in IH, Hf.
    rewrite Nat.add_0_r. replace (length pre + 1)%nat with (S (length pre)) in IH by lia.
    rewrite IH; [|unfold nul_free in *; set_solver|lia].
    destruct (skip_spaces_suffix s) as (w & E & _). apply (f_equal length) in E.
    rewrite length_app in E. lia.
Qed.

(** Trimming from the end keeps at least the first character. *)
Lemma trim_end_rtrim fuel pre a s post :
  isspace a = false -> (length s < fuel)%nat ->
  trim_end fuel (pre ++ (a :: s) ++ post) (length pre) (length pre + length s) =
    (length pre + length (rtrim_rev (rev (a :: s))) - 1)%nat.
Proof.
  intros Ha. revert post fuel. induction s as [|c s IH] using rev_ind; intros post fuel Hf.
  - destruct fuel; [lia|]. simpl. rewrite Nat.add_0_r, Nat.ltb_irrefl. simpl. rewrite Ha. simpl. lia.
  - destruct fuel as [|f]; [lia|]. rewrite length_app in *. simpl in Hf. cbn [trim_end length].
    destruct (Nat.ltb_spec (length pre) (length pre + (length s + 1))); [|lia].
    rewrite mem_get_app_r.
    assert (mem_get ((a :: s ++ [c]) ++ post) (length s + 1) = c) as ->.
    { unfold mem_get. rewrite Nat.add_1_r. simpl. rewrite <- app_assoc, lookup_app_r, Nat.sub_diag by lia.
      done. }
    cbn [andb rev]. rewrite rev_app_distr. simpl. destruct (isspace c) eqn:Hc.
    + specialize (IH (c :: post) f ltac:(lia)). simpl in IH.
      rewrite <- app_assoc. simpl.
      replace (length pre + (length s + 1) - 1)%nat with (length pre + length s)%nat by lia.
      exact IH.
    + cbn [length]. rewrite length_app, length_rev. simpl. lia.
Qed.

Lemma rtrim_rev_suffix s : exists w, s = w ++ rtrim_rev s.
Proof.
  induction s as [|c s (w & E)]; simpl; [by exists []|].
  destruct (isspace c); [|by exists []]. exists (c :: w). by rewrite E at 1.
Qed.

(** Ending the string [kept] inside a field. *)
Lemma write_end pre kept x post :
  exists y, <[(length pre + length kept)%nat := NUL]> (pre ++ (kept ++ x) ++ NUL :: post) =
              pre ++ kept ++ (NUL :: y) ++ post /\
            length y = length x /\ last (NUL :: y) = Some NUL.
Proof.
  assert (forall l i, <[(length pre + length kept)%nat := NUL]> (pre ++ kept ++ i :: l) =
            pre ++ kept ++ NUL :: l) as Hins.
  { intros l i. rewrite !app_assoc, <- length_app, <- (Nat.add_0_r (length (pre ++ kept))).
    by rewrite insert_app_r. }
  rewrite <- app_assoc. destruct x as [|c t]; simpl.
  - exists []. by rewrite Hins.
  - exists (t ++ [NUL]). rewrite Hins, <- app_assoc, length_app. split_and!; [done|simpl; lia|].
    by rewrite app_comm_cons, last_snoc.
Qed.

(** Trimming a field that ends at a NUL leaves the trimmed string there, and
    touches nothing outside the field and its NUL. *)
Lemma trim_whitespace_spec pre s post :
  nul_free s ->
  exists s' off,
    trim_whitespace (pre ++ s ++ NUL :: post) (length pre) = (pre ++ s' ++ post, (length pre + off)%nat) /\
    length s' = S (length s) /\ (off <= length s)%nat /\ NUL ∈ drop off s' /\
    c_str (drop off s') = trim s /\ last s' = Some NUL.
Proof.
  intros Hn. unfold trim_whitespace.
  assert (length s < length (pre ++ s ++ NUL :: post))%nat as Hlen
    by (rewrite !length_app; simpl; lia).
  rewrite trim_start_skip by done.
  destruct (skip_spaces_suffix s) as (w & E & Hw).
  destruct (skip_spaces s) as [|a u] eqn:Hs; simpl in E.
  - rewrite app_nil_r in E. subst w. simpl. rewrite Nat.sub_0_r, mem_get_app_r.
    assert (mem_get (s ++ NUL :: post) (length s) = NUL) as ->.
    { unfold mem_get. by rewrite lookup_app_r, Nat.sub_diag by lia. }
    rewrite decide_True by done. exists (s ++ [NUL]), (length s).
    rewrite <- !app_assoc, length_app, drop_app_length. simpl.
    split_and!; try done; try lia; [set_solver| |by rewrite last_snoc].
    unfold trim. by rewrite Hs.
  - pose proof (skip_spaces_head s a u Hs) as Ha.
    assert (length s - length (a :: u) = length w)%nat as ->.
    { rewrite E, length_app. simpl. lia. }
    assert (nul_free (a :: u)) as Hnu by (unfold nul_free in *; rewrite E in Hn; set_solver).
    rewrite E. rewrite <- app_assoc. cbn [app]. rewrite mem_get_app_r.
    assert (mem_get (w ++ a :: u ++ NUL :: post) (length w) = a) as ->.
    { unfold mem_get. by rewrite lookup_app_r, Nat.sub_diag by lia. }
    rewrite decide_False by (unfold nul_free in Hnu; set_solver).
    rewrite (app_assoc pre w). replace (length pre + length w)%nat with (length (pre ++ w))
      by (rewrite length_app; lia).
    rewrite drop_app_length.
    assert (c_str (a :: u ++ NUL :: post) = a :: u) as -> by (by apply (c_str_nul_free (a :: u))).
    replace (length (pre ++ w) + length (a :: u) - 1)%nat with (length (pre ++ w) + length u)%nat
      by (simpl; lia).
    change (a :: u ++ NUL :: post) with ((a :: u) ++ NUL :: post).
    rewrite trim_end_rtrim; [|done|rewrite !length_app; simpl; lia].
    set (kept := rtrim_rev (rev (a :: u))).
    destruct (rtrim_rev_suffix (rev (a :: u))) as (x & Ex). fold kept in Ex.
    assert (a :: u = rev kept ++ rev x) as Eau by (rewrite <- rev_app_distr, <- Ex; by rewrite rev_involutive).
    assert (kept <> []) as Hk.
    { intros Hk. assert (a ∈ rev (a :: u)) as Hin by (apply list_elem_of_In; apply (proj1 (in_rev _ _)); by left).
      clear -Hk Hin Ha. unfold kept in Hk. revert Hk Hin. generalize (rev (a :: u)).
      intros l. induction l as [|c l IH]; [set_solver|]. simpl.
      destruct (isspace c) eqn:Hc; [|done]. intros Hk [->|Hin]%elem_of_cons; [congruence|auto]. }
    assert (1 <= length kept)%nat by (destruct kept; [done|simpl; lia]).
    replace (S (length (pre ++ w) + length kept - 1)) with (length (pre ++ w) + length (rev kept))%nat
      by (rewrite length_rev; lia).
    rewrite Eau. destruct (write_end (pre ++ w) (rev kept) (rev x) post) as (y & -> & Hy & Hly).
    rewrite length_rev in Hy.
    exists (w ++ rev kept ++ NUL :: y), (length w).
    pose proof Eau as Eau'. apply (f_equal length) in Eau. rewrite length_app, !length_rev in Eau. simpl in Eau.
    split_and!.
    + rewrite length_app, <- !app_assoc. done.
    + rewrite !length_app. cbn [length]. rewrite !length_rev. lia.
    + rewrite length_app. lia.
    + rewrite drop_app_length. set_solver.
    + rewrite drop_app_length. unfold trim. rewrite <- Eau', <- E, Hs. fold kept.
      apply c_str_nul_free. unfold nul_free in *. intros Hin. apply Hnu.
      assert (a :: u = rev kept ++ rev x) as -> by (rewrite <- rev_app_distr, <- Ex; by rewrite rev_involutive).
      set_solver.
    + by rewrite !last_app, Hly.
Qed.

(** The offsets of the fields already cut denote [fs], within [pre]. *)
Definition decodes (pre : list ascii) (offs : list nat) (fs : list cstr) : Prop :=
  Forall2 (fun o f => NUL ∈ drop o pre /\ c_str (drop o pre) = f) offs fs.

Lemma drop_app_elem (pre x : list ascii) o : NUL ∈ drop o pre -> drop o (pre ++ x) = drop o pre ++ x.
Proof.
  intros H. apply drop_app_le. destruct (decide (o <= length pre)%nat); [done|].
  rewrite drop_ge in H by lia. by apply not_elem_of_nil in H.
Qed.

Lemma decodes_app pre x offs fs : decodes pre offs fs -> decodes (pre ++ x) offs fs.
Proof.
  intros H. eapply Forall2_impl; [done|]. intros o f [Hn Hc]. simpl in *.
  rewrite drop_app_elem by done. split; [set_solver|]. by rewrite c_str_app_nul.
Qed.
Lemma decodes_snoc pre offs fs o f :
  decodes pre offs fs -> NUL ∈ drop o pre -> c_str (drop o pre) = f ->
  decodes pre (offs ++ [o]) (fs ++ [f]).
Proof. intros. apply Forall2_app; [done|]. by constructor. Qed.
Lemma decodes_fields pre offs fs : decodes pre offs fs -> fields_of pre offs = fs.
Proof. unfold fields_of. induction 1 as [|o f offs fs [_ Hc] _ IH]; simpl; by f_equal. Qed.

Lemma mem_get_at pre fld l : mem_get (pre ++ fld ++ l) (length pre + length fld) = mem_get l 0.
Proof. by rewrite app_assoc, <- length_app, <- (Nat.add_0_r (length (pre ++ fld))), mem_get_app_r. Qed.

(** What precedes the character being read, unless the line starts there. *)
Definition no_open_quote (pre fld rest : list ascii) : Prop :=
  match last (pre ++ fld) with
  | Some c => c <> COMMA
  | None => head rest <> Some DQUOTE
  end.

Lemma mem_get_prev pre fld l :
  (length pre + length fld <> 0)%nat ->
  last (pre ++ fld) = Some (mem_get (pre ++ fld ++ l) (length pre + length fld - 1)).
Proof.
  intros H. rewrite app_assoc, <- length_app. rewrite <- length_app in H. generalize dependent (pre ++ fld).
  intros p H. rewrite last_lookup. unfold mem_get.
  rewrite lookup_app_l by lia. replace (pred (length p)) with (length p - 1)%nat by lia.
  destruct (lookup_lt_is_Some_2 p (length p - 1)) as [c ->]; [lia|done].
Qed.

(** One character of an unquoted line. *)
Lemma csv_scan_char_spec pre fld c rest offs :
  no_open_quote pre fld (c :: rest) ->
  csv_scan_char (CsvScan (pre ++ fld ++ (c :: rest) ++ [NUL]) (length pre + length fld) (length pre) false offs) =
  if decide (c = COMMA) then
    let '(buf', off) := trim_whitespace (pre ++ fld ++ NUL :: rest ++ [NUL]) (length pre) in
    CsvScan buf' (S (length pre + length fld)) (S (length pre + length fld)) false (offs ++ [off])
  else CsvScan (pre ++ fld ++ (c :: rest) ++ [NUL]) (S (length pre + length fld)) (length pre) false offs.
Proof.
  intros Hq. unfold csv_scan_char. rewrite mem_get_at.
  change (mem_get ((c :: rest) ++ [NUL]) 0) with c.
  rewrite (andb_comm (bool_decide (c = DQUOTE))).
  assert (((length pre + length fld =? 0)%nat
    || bool_decide (mem_get (pre ++ fld ++ (c :: rest) ++ [NUL]) (length pre + length fld - 1) = COMMA))
    && bool_decide (c = DQUOTE) = false) as ->.
  { unfold no_open_quote in Hq. apply andb_false_iff.
    destruct (Nat.eqb_spec (length pre + length fld) 0) as [H0|H0].
    - right. destruct pre, fld; simpl in *; try lia. apply bool_decide_eq_false. congruence.
    - left. rewrite (mem_get_prev pre fld ((c :: rest) ++ [NUL]) H0) in Hq.
      simpl. by apply bool_decide_eq_false. }
  rewrite andb_true_r. case_decide as Hc; case_bool_decide; try done.
  rewrite app_assoc, <- length_app, <- (Nat.add_0_r (length (pre ++ fld))), insert_app_r.
  by rewrite Nat.add_0_r, <- app_assoc.
Qed.

Lemma csv_scan_loop_spec rest fuel max pre fld offs fs :
  nul_free (fld ++ rest) -> COMMA ∉ fld -> no_open_quote pre fld rest ->
  decodes pre offs fs -> (length fs <= max)%nat -> (length rest < fuel)%nat ->
  let '(buf, offs') := csv_scan_last max (csv_scan_loop fuel max
        (CsvScan (pre ++ fld ++ rest ++ [NUL]) (length pre + length fld) (length pre) false offs)) in
  fields_of buf offs' = take max (fs ++ map trim (split_commas fld rest)).
Proof.
  revert fuel pre fld offs fs. induction rest as [|c rest IH];
    intros fuel pre fld offs fs Hn Hcf Hq Hd Hm Hf; destruct fuel as [|fuel]; simpl in Hf; try lia;
    cbn [csv_scan_loop sc_buf sc_current sc_fields]; rewrite mem_get_at;
    pose proof (Forall2_length _ _ _ Hd) as Hlo.
  - rewrite bool_decide_eq_true_2 by done. cbn [orb]. unfold csv_scan_last.
    cbn [sc_buf sc_current sc_fields sc_field_start]. rewrite (proj2 (Nat.leb_le _ _)) by lia. rewrite andb_true_r.
    rewrite app_nil_r in Hn. destruct (Nat.ltb_spec (length offs) max).
    + destruct (trim_whitespace_spec pre fld [] Hn) as (s' & off & E & Hl & Ho & Hin & Hc & Hlast).
      cbn [app]. rewrite E, !app_nil_r. rewrite take_ge by (rewrite length_app; simpl; lia).
      apply decodes_fields. apply decodes_snoc; [by apply decodes_app| |].
      * by rewrite drop_app_add'. * by rewrite drop_app_add'.
    + rewrite (decodes_fields _ _ fs) by (by apply decodes_app).
      rewrite take_app_le by lia. by rewrite take_ge by lia.
  - change (mem_get ((c :: rest) ++ [NUL]) 0) with c. rewrite bool_decide_eq_false_2 by (unfold nul_free in Hn; set_solver).
    cbn [orb]. destruct (Nat.leb_spec max (length offs)).
    + unfold csv_scan_last. cbn [sc_buf sc_current sc_fields sc_field_start].
      rewrite (proj2 (Nat.ltb_ge _ _)) by lia. cbn [andb].
      rewrite (decodes_fields _ _ fs) by (by apply decodes_app).
      rewrite take_app_le by lia. by rewrite take_ge by lia.
    + rewrite csv_scan_char_spec by done. cbn [split_commas]. case_decide as Hc.
      * subst c. assert (nul_free fld) as Hnf by (unfold nul_free in *; set_solver).
        destruct (trim_whitespace_spec pre fld (rest ++ [NUL]) Hnf) as (s' & off & E & Hl & Ho & Hin & Hcs & Hlast).
        rewrite E. specialize (IH fuel (pre ++ s') [] (offs ++ [(length pre + off)%nat]) (fs ++ [trim fld])).
        rewrite (length_app pre s'), Hl, <- !(app_assoc pre s'), <- (app_assoc fs) in IH. cbn [length app] in IH.
        replace (length pre + S (length fld) + 0)%nat with (S (length pre + length fld)) in IH by lia.
        replace (length pre + S (length fld))%nat with (S (length pre + length fld)) in IH by lia.
        cbn [map]. apply IH; clear IH.
        -- unfold nul_free in *. set_solver.
        -- set_solver.
        -- unfold no_open_quote. by rewrite app_nil_r, last_app, Hlast.
        -- apply decodes_snoc; [by apply decodes_app| |]; by rewrite drop_app_add'.
        -- rewrite length_app. simpl. lia.
        -- lia.
      * specialize (IH fuel pre (fld ++ [c]) offs fs). rewrite (length_app fld), <- !(app_assoc fld) in IH.
        cbn [length app] in IH. replace (length pre + (length fld + 1))%nat with (S (length pre + length fld)) in IH by lia.
        cbn [app]. apply IH; clear IH; try done; [set_solver| |lia].
        unfold no_open_quote. by rewrite app_assoc, last_snoc.
Qed.

Lemma parse_csv_line_split line max :
  nul_free line -> head line <> Some DQUOTE -> parse_csv_line line max = split_trim line max.
Proof.
  intros Hn Hq. unfold parse_csv_line, parse_csv_offsets, split_trim.
  pose proof (csv_scan_loop_spec line (S (length line)) max [] [] [] []) as H. cbn [app length Nat.add] in H.
  destruct (csv_scan_last _ _) as [buf offs]. apply H; try done; [set_solver|constructor|lia|lia].
Qed.

(** ** Fields the loggers write *)

(** No comma, blank or NUL: such a field survives writing and reading. *)
Definition clean (s : cstr) : Prop :=
  Forall (fun c => c <> COMMA /\ c <> NUL /\ isspace c = false) s.

Lemma clean_isspace s : clean s -> Forall (fun c => isspace c = false) s.
Proof. intros H. eapply Forall_impl; [done|]. naive_solver. Qed.
Lemma clean_nul_free s : clean s -> nul_free s.
Proof. intros H Hin. eapply Forall_forall in H; [|done]. naive_solver. Qed.
Lemma clean_no_comma s : clean s -> COMMA ∉ s.
Proof. intros H Hin. eapply Forall_forall in H; [|done]. naive_solver. Qed.

Lemma rtrim_rev_clean s : Forall (fun c => isspace c = false) s -> rtrim_rev s = s.
Proof. by destruct 1 as [|c s Hc _]; simpl; [|rewrite Hc]. Qed.
Lemma skip_spaces_clean s : Forall (fun c => isspace c = false) s -> skip_spaces s = s.
Proof. by destruct 1 as [|c s Hc _]; simpl; [|rewrite Hc]. Qed.
Lemma trim_clean s : clean s -> trim s = s.
Proof.
  intros H%clean_isspace. unfold trim. rewrite (skip_spaces_clean s H).
  rewrite rtrim_rev_clean by (apply Forall_rev; exact H). apply rev_involutive.
Qed.

Lemma split_commas_app cur a r :
  COMMA ∉ a -> split_commas cur (a ++ COMMA :: r) = (cur ++ a) :: split_commas [] r.
Proof.
  revert cur. induction a as [|c a IH]; intros cur H; simpl.
  - by rewrite app_nil_r.
  - rewrite decide_False by set_solver. rewrite IH by set_solver. by rewrite <- app_assoc.
Qed.
Lemma split_commas_end cur a : COMMA ∉ a -> split_commas cur a = [cur ++ a].
Proof.
  revert cur. induction a as [|c a IH]; intros cur H; simpl.
  - by rewrite app_nil_r.
  - rewrite decide_False by set_solver. rewrite IH by set_solver. by rewrite <- app_assoc.
Qed.

Definition join_commas (f : cstr) (fs : list cstr) : cstr := f ++ concat (map (cons COMMA) fs).

Lemma split_join_commas f fs :
  Forall clean (f :: fs) -> split_commas [] (join_commas f fs) = f :: fs.
Proof.
  unfold join_commas. revert f. induction fs as [|g fs IH]; intros f [Hf Hfs]%Forall_cons; simpl.
  - rewrite app_nil_r. apply split_commas_end. by apply clean_no_comma.
  - rewrite split_commas_app by (by apply clean_no_comma). f_equal. by apply IH.
Qed.

Lemma join_commas_nul_free f fs : Forall clean (f :: fs) -> nul_free (join_commas f fs).
Proof.
  unfold nul_free, join_commas. revert f.
  induction fs as [|g fs IH]; intros f [Hf Hfs]%Forall_cons; simpl.
  - rewrite app_nil_r. by apply clean_nul_free.
  - rewrite not_elem_of_app, not_elem_of_cons. split_and!; [by apply clean_nul_free|done|by apply IH].
Qed.

Lemma parse_join_commas f fs max :
  Forall clean (f :: fs) -> f <> [] -> head f <> Some DQUOTE -> (length (f :: fs) <= max)%nat ->
  parse_csv_line (join_commas f fs) max = f :: fs.
Proof.
  intros Hc Hne Hh Hm. rewrite parse_csv_line_split.
  - unfold split_trim. rewrite split_join_commas by done.
    rewrite take_ge by (by rewrite length_map).
    rewrite <- (map_id (f :: fs)) at 2. apply map_ext_in. intros g Hg%list_elem_of_In.
    apply trim_clean. by eapply Forall_forall in Hc.
  - by apply join_commas_nul_free.
  - unfold join_commas. by destruct f.
Qed.

Lemma all_digits_clean s : all_digits s -> clean s.
Proof.
  intros H. eapply Forall_impl; [done|]. simpl. intros c Hc.
  split_and!; [intros ->; done|intros ->; done|by apply isdigit_not_space].
Qed.
Lemma clean_app a b : clean (a ++ b) <-> clean a /\ clean b.
Proof. apply Forall_app. Qed.
Lemma fmt_ts_clean t : 0 <= t -> clean (fmt_ts t).
Proof.
  intros. unfold fmt_ts. apply clean_app. split.
  - apply all_digits_clean, fmt_u_digits. zlia.
  - constructor; [done|]. apply all_digits_clean, fmt_u0_digits. zlia.
Qed.

Lemma strchr_app_dot ds r : all_digits ds -> strchr (ds ++ DOT :: r) DOT = Some (DOT :: r).
Proof.
  induction 1 as [|c ds Hc _ IH]; simpl; [done|].
  rewrite decide_False; [done|]. intros ->. done.
Qed.

(** The join program reads back the nanoseconds the loggers printed. *)
Lemma parse_fmt_ts t : 0 <= t < 18446744073709551616 -> parse_timestamp_ns (fmt_ts t) = t.
Proof.
  intros Ht. unfold parse_timestamp_ns.
  assert (all_digits (fmt_u (t / 1000000000))) as Hd by (apply fmt_u_digits; zlia).
  assert (length (fmt_u0 9 (t mod 1000000000)) = 9%nat) as Hl by (apply fmt_u0_length; [zlia|lia]).
  rewrite decide_False.
  2:{ unfold fmt_ts. pose proof (fmt_u_nonempty (t / 1000000000)). destruct Hd as [|c l Hc]; [done|].
      intros [= -> _]. done. }
  unfold fmt_ts at 1. rewrite strchr_app_dot by done. cbn [tail]. rewrite take_ge by lia.
  rewrite (proj2 (Nat.ltb_ge _ _)) by lia. rewrite Hl. cbn [Nat.sub replicate]. rewrite app_nil_r.
  assert (atoll (fmt_ts t) = t / 1000000000) as ->.
  { unfold atoll, fmt_ts. rewrite strtol_fmt_u; [done|unfold LONG_MAX; zlia|done]. }
  assert (digits_value (fmt_u0 9 (t mod 1000000000)) = t mod 1000000000) as Hv
    by (apply fmt_u0_value; zlia).
  rewrite atoll_digits; rewrite ?Hv.
  - rewrite (u64_small (t / _)), (u64_small (t mod _)), u64_small; zlia.
  - apply fmt_u0_digits. zlia.
  - intros E. by rewrite E in Hl.
  - unfold LONG_MAX. zlia.
Qed.

Lemma cut_at_line s r :
  CR ∉ s -> NL ∉ s -> cut_at [CR; NL] (s ++ NL :: r) = s.
Proof.
  induction s as [|c s IH]; simpl; intros; [done|].
  rewrite decide_False by set_solver. rewrite IH by set_solver. done.
Qed.
Lemma c_str_id s : nul_free s -> c_str s = s.
Proof.
  unfold nul_free. induction s as [|c s IH]; simpl; intros; [done|].
  rewrite decide_False by set_solver. by rewrite IH by set_solver.
Qed.
Lemma chomp_line s : nul_free s -> CR ∉ s -> NL ∉ s -> chomp (s ++ [NL]) = s.
Proof.
  intros. unfold chomp. rewrite c_str_id; [by apply cut_at_line|].
  unfold nul_free in *. rewrite not_elem_of_app, list_elem_of_singleton. done.
Qed.

Lemma join_commas_not_in c f fs :
  isspace c = true -> Forall clean (f :: fs) -> c ∉ join_commas f fs.
Proof.
  intros Hc. unfold join_commas. revert f.
  assert (forall f, clean f -> c ∉ f) as Hf.
  { intros f Hf Hin. eapply Forall_forall in Hf; [|done]. destruct Hf as (_ & _ & Hs). congruence. }
  induction fs as [|g fs IH]; intros f [Hcf Hfs]%Forall_cons; simpl.
  - rewrite app_nil_r. by apply Hf.
  - rewrite not_elem_of_app, not_elem_of_cons. split_and!; [by apply Hf|intros E; rewrite E in Hc; discriminate Hc|by apply IH].
Qed.

(** ** Lines that open with a quote *)

(** A quote that follows a comma in [s]. *)
Fixpoint quote_after_comma (s : cstr) : bool :=
  match s with
  | a :: (b :: _) as t => (bool_decide (a = COMMA) && bool_decide (b = DQUOTE)) || quote_after_comma t
  | _ => false
  end.

Lemma quoted_scan_loop fuel max done_ a rest :
  nul_free rest -> quote_after_comma (a :: rest) = false -> (0 < max)%nat -> (length rest < fuel)%nat ->
  csv_scan_loop fuel max
    (CsvScan ((done_ ++ [a]) ++ rest ++ [NUL]) (length (done_ ++ [a])) 0 true []) =
  CsvScan ((done_ ++ [a]) ++ rest ++ [NUL]) (length (done_ ++ [a]) + length rest) 0 true [].
Proof.
  revert fuel done_ a. induction rest as [|c rest IH]; intros fuel done_ a Hn Hq Hm Hf;
    destruct fuel as [|fuel]; simpl in Hf; try lia; cbn [csv_scan_loop sc_buf sc_current sc_fields];
    rewrite mem_get_len.
  - rewrite bool_decide_eq_true_2 by done. by rewrite Nat.add_0_r.
  - change (mem_get ((c :: rest) ++ [NUL]) 0) with c. unfold nul_free in Hn.
    rewrite bool_decide_eq_false_2 by set_solver. cbn [orb length].
    rewrite (proj2 (Nat.leb_gt max 0)) by lia.
    assert (csv_scan_char (CsvScan ((done_ ++ [a]) ++ (c :: rest) ++ [NUL]) (length (done_ ++ [a])) 0 true []) =
      CsvScan (((done_ ++ [a]) ++ [c]) ++ rest ++ [NUL]) (length ((done_ ++ [a]) ++ [c])) 0 true []) as ->.
    { unfold csv_scan_char. rewrite mem_get_len. change (mem_get ((c :: rest) ++ [NUL]) 0) with c.
      assert (mem_get ((done_ ++ [a]) ++ (c :: rest) ++ [NUL]) (length (done_ ++ [a]) - 1) = a) as ->.
      { rewrite length_app. cbn [length]. rewrite Nat.add_sub, <- app_assoc.
        by rewrite mem_get_len. }
      rewrite (proj2 (Nat.eqb_neq _ _)) by (rewrite length_app; simpl; lia).
      simpl in Hq. apply orb_false_iff in Hq as [Hq _]. rewrite andb_comm in Hq. cbn [orb]. rewrite Hq.
      rewrite andb_false_r. rewrite <- !app_assoc, !length_app. cbn [length app]. f_equal. lia. }
    rewrite IH; [| unfold nul_free; set_solver| |done|lia].
    + rewrite <- !app_assoc, !length_app. cbn [length app]. f_equal. lia.
    + simpl in Hq. apply orb_false_iff in Hq as [_ Hq]. done.
Qed.

(** ** Properties *)

(** The in-place parser returns the first [max_fields] comma separated
    pieces of the line, each trimmed of blanks on both sides.  Quotes act only at
    the start of a line: a line that opens with one is a single field, commas
    included, unless a comma is directly followed by another quote. *)
Theorem parse_csv_line_fields (line : cstr) (max_fields : nat) :
  nul_free line -> (0 < max_fields)%nat ->
  (head line <> Some DQUOTE -> parse_csv_line line max_fields = split_trim line max_fields) /\
  (head line = Some DQUOTE -> quote_after_comma line = false ->
   parse_csv_line line max_fields = [trim line]).
Proof.
  intros Hn Hm. split; [by apply parse_csv_line_split|]. intros Hq Hnq.
  destruct line as [|c rest]; [done|]. injection Hq as ->.
  unfold parse_csv_line, parse_csv_offsets.
  assert (csv_scan_loop (S (length (DQUOTE :: rest))) max_fields
            (CsvScan ((DQUOTE :: rest) ++ [NUL]) 0 0 false []) =
          CsvScan (([] ++ [DQUOTE]) ++ rest ++ [NUL]) (1 + length rest) 0 true []) as ->.
  { cbn [csv_scan_loop sc_buf sc_current sc_fields length]. rewrite (proj2 (Nat.leb_gt max_fields 0)) by lia.
    rewrite bool_decide_eq_false_2 by done. cbn [orb].
    apply (quoted_scan_loop (S (length rest)) max_fields [] DQUOTE rest); [unfold nul_free in *; set_solver|done|lia..]. }
  unfold csv_scan_last. cbn [sc_buf sc_current sc_fields sc_field_start length].
  rewrite (proj2 (Nat.ltb_lt 0 max_fields)) by lia. cbn [andb Nat.leb].
  destruct (trim_whitespace_spec [] (DQUOTE :: rest) [] Hn) as (s' & off & E & _ & _ & _ & Hc & _).
  cbn [app length] in *. rewrite E. unfold fields_of. cbn [map app Nat.add]. by rewrite app_nil_r, Hc.
Qed.

Lemma parse_csv_line_fields_witness :
  parse_csv_line (lit "1.2.3.4, 80 ,7") 20 = [lit "1.2.3.4"; lit "80"; lit "7"] /\
  parse_csv_line (DQUOTE :: lit "a,b" ++ DQUOTE :: lit ",c") 20 = [DQUOTE :: lit "a,b" ++ DQUOTE :: lit ",c"].
Proof.
  split.
  - rewrite (proj1 (parse_csv_line_fields (lit "1.2.3.4, 80 ,7") 20
      ltac:(apply (bool_decide_unpack _); vm_compute; exact I) ltac:(lia)) ltac:(done)). reflexivity.
  - rewrite (proj2 (parse_csv_line_fields (DQUOTE :: lit "a,b" ++ DQUOTE :: lit ",c") 20
      ltac:(apply (bool_decide_unpack _); vm_compute; exact I) ltac:(lia)) eq_refl eq_refl). reflexivity.
Defined.

Lemma format_csv_columns_join ty e :
  format_csv_columns ty e =
  join_commas (ce_src_ip e) (fmt_u (ce_src_port e) :: fmt_u (ce_seq_num e) ::
    map (fun i => fmt_ts (ts_at e i)) (csv_ts_columns ty)).
Proof.
  unfold format_csv_columns, join_commas. cbn [map concat]. rewrite map_map.
  rewrite <- !app_comm_cons. done.
Qed.

Lemma entry_fields_clean ty e :
  csv_entry_wf e -> clean (ce_src_ip e) ->
  Forall clean (ce_src_ip e :: fmt_u (ce_src_port e) :: fmt_u (ce_seq_num e) ::
    map (fun i => fmt_ts (ts_at e i)) (csv_ts_columns ty)).
Proof.
  intros Hw Hip. destruct (Hw) as [Hs _ _ Hp]. repeat apply Forall_cons_2; [done|..].
  1-2: apply all_digits_clean, fmt_u_digits; lia.
  apply Forall_map, Forall_forall. intros i _. apply fmt_ts_clean.
  by pose proof (ts_at_range e i Hw) as [? _].
Qed.

(** C21: the line the client or server logs for a record, as the join program
    reads it: its address, port and sequence number are recognised, and every
    timestamp column gives back the logged nanoseconds. *)
Theorem csv_line_roundtrip (ty : csv_type_t) (e : csv_entry_t) :
  csv_entry_wf e -> clean (ce_src_ip e) -> ce_src_ip e <> [] -> head (ce_src_ip e) <> Some DQUOTE ->
  let fields := parse_csv_line (chomp (format_csv_entry ty e)) MAX_CSV_FIELDS in
  validate_record_match fields (ce_src_ip e) (ce_src_port e) = true /\
  extract_sequence_number fields = Some (ce_seq_num e) /\
  map parse_timestamp_ns (drop 3 fields) = map (ts_at e) (csv_ts_columns ty).
Proof.
  intros Hw Hip Hne Hq. pose proof (entry_fields_clean ty e Hw Hip) as Hc.
  pose proof Hw as [Hs _ _ Hp].
  assert (chomp (format_csv_entry ty e) = format_csv_columns ty e) as ->.
  { unfold chomp, format_csv_entry. rewrite format_csv_columns_join.
    apply chomp_line; [by apply join_commas_nul_free|by apply join_commas_not_in..]. }
  rewrite format_csv_columns_join, parse_join_commas; [|done..|].
  2:{ cbn [length]. rewrite length_map. unfold MAX_CSV_FIELDS. destruct ty; simpl; lia. }
  cbn zeta. split_and!.
  - unfold validate_record_match, field. cbn [length Nat.ltb Nat.leb lookup list_lookup default].
    rewrite bool_decide_eq_true_2 by done. cbn [negb default option_map from_option id].
    unfold atoi. rewrite strtol_fmt_u_end by (unfold LONG_MAX; lia). cbn [fst].
    rewrite s32_small, u16_small, Z.eqb_refl by lia. done.
  - unfold extract_sequence_number, field. cbn [length Nat.ltb Nat.leb lookup list_lookup default from_option id].
    rewrite strtol_fmt_u_end by (unfold LONG_MAX; lia). rewrite bool_decide_eq_true_2 by done.
    rewrite (proj2 (Z.ltb_ge _ _)) by lia. rewrite (proj2 (Z.ltb_ge _ _)) by (unfold UINT32_MAX; lia).
    cbn [negb orb]. by rewrite u32_small by lia.
  - change (map parse_timestamp_ns (map (fun i => fmt_ts (ts_at e i)) (csv_ts_columns ty)) = map (ts_at e) (csv_ts_columns ty)).
    rewrite map_map. apply map_ext. intros i. apply parse_fmt_ts. by apply ts_at_range.
Qed.

Lemma csv_line_roundtrip_witness :
  let e := create_csv_client_oneway_main 7 (lit "10.0.0.1") 5000 1700000000000000042 in
  let fields := parse_csv_line (chomp (format_csv_entry CSV_CLIENT_MAIN_ONEWAY e)) MAX_CSV_FIELDS in
  validate_record_match fields (lit "10.0.0.1") 5000 = true /\
  extract_sequence_number fields = Some 7 /\
  map parse_timestamp_ns (drop 3 fields) = [1700000000000000042].
Proof.
  intros e. refine (csv_line_roundtrip CSV_CLIENT_MAIN_ONEWAY e _ _ _ _); [|..|done|done].
  - split; [simpl; lia| |simpl; lia|simpl; lia]. apply (ts_wf_set _ _ ts_wf_zero).
    repeat constructor; lia.
  - apply (bool_decide_unpack _). vm_compute. exact I.
Defined.

(** The file type of the file the loggers write with each header. *)
Definition logged_file_type (ty : csv_type_t) : file_type_t :=
  match ty with
  | CSV_CLIENT_MAIN_ONEWAY => FILE_CLIENT_ONEWAY_MAIN
  | CSV_CLIENT_MAIN_ROUNDTRIP => FILE_CLIENT_ROUNDTRIP_MAIN
  | CSV_CLIENT_TX => FILE_CLIENT_ONEWAY_TX
  | CSV_SERVER_MAIN_ONEWAY => FILE_SERVER_ONEWAY_MAIN
  | CSV_SERVER_MAIN_ROUNDTRIP => FILE_SERVER_ROUNDTRIP_MAIN
  | CSV_SERVER_TX => FILE_SERVER_ROUNDTRIP_TX
  end.

Lemma header_line ty : NL ∉ csv_header_columns ty /\ (length (csv_header_columns ty) < 2047)%nat.
Proof.
  destruct ty; (split; [apply (bool_decide_unpack _); vm_compute; exact I|apply Nat.ltb_lt; reflexivity]).
Qed.

Lemma detect_logged_file fs name ty rest :
  fs !! name = Some (get_csv_header ty ++ rest) -> detect_file_type fs name = logged_file_type ty.
Proof.
  intros Hf. unfold detect_file_type. rewrite Hf. destruct (header_line ty) as [Hnl Hlen].
  assert (fgets MAX_LINE_LENGTH (get_csv_header ty ++ rest) = Some (get_csv_header ty, rest)) as ->.
  { unfold get_csv_header, fgets. rewrite <- app_assoc. cbn [app].
    rewrite fgets_take_line by (done || (unfold MAX_LINE_LENGTH; lia)). by destruct ty. }
  destruct ty; vm_compute; reflexivity.
Qed.

(** The join program recognises each of the six kinds of file the client
    and the server write, whatever follows the header line; a file that cannot
    be opened or is empty is of unknown type. *)
Theorem detect_file_type_of_logs (fs : gmap cstr cstr) (name : cstr) :
  (forall ty rest, fs !! name = Some (get_csv_header ty ++ rest) ->
     detect_file_type fs name = logged_file_type ty /\ detect_file_type fs name <> FILE_TYPE_UNKNOWN) /\
  (fs !! name = None \/ fs !! name = Some [] -> detect_file_type fs name = FILE_TYPE_UNKNOWN).
Proof.
  split.
  - intros ty rest Hf. rewrite (detect_logged_file fs name ty rest Hf). by destruct ty.
  - unfold detect_file_type. by intros [-> | ->].
Qed.

Lemma detect_file_type_of_logs_witness :
  detect_file_type {[ lit "a.csv" := get_csv_header CSV_CLIENT_TX ++ lit "1.2.3.4,80,1,0.5" ]} (lit "a.csv")
    = FILE_CLIENT_ONEWAY_TX /\
  detect_file_type ∅ (lit "a.csv") = FILE_TYPE_UNKNOWN.
Proof.
  split.
  - exact (proj1 (proj1 (detect_file_type_of_logs
      {[ lit "a.csv" := get_csv_header CSV_CLIENT_TX ++ lit "1.2.3.4,80,1,0.5" ]} (lit "a.csv"))
      CSV_CLIENT_TX (lit "1.2.3.4,80,1,0.5") eq_refl)).
  - exact (proj2 (detect_file_type_of_logs ∅ (lit "a.csv")) (or_introl eq_refl)).
Defined.

(** The text of a valid delta. *)
Definition delta_text (ns : Z) : cstr := fmt_u (ns / 1000) ++ DOT :: fmt_u0 3 (ns mod 1000).

Lemma delta_text_length ns : 0 <= ns < 4294967296000 -> zlen (delta_text ns) <= 14.
Proof.
  intros. unfold delta_text, zlen. rewrite length_app. cbn [length].
  rewrite fmt_u0_length by zlia. pose proof (fmt_u_length (ns / 1000) 10 ltac:(zlia) ltac:(lia)). lia.
Qed.

Lemma delta_wrap x :
  0 <= x ->
  u32 (x / 1000) = (x mod 4294967296000) / 1000 /\ u32 (x mod 1000) = (x mod 4294967296000) mod 1000.
Proof.
  intros Hx. pose proof (Z.rem_mul_r x 1000 4294967296 ltac:(lia) ltac:(lia)) as E.
  change (1000 * 4294967296) with 4294967296000 in E. rewrite E.
  pose proof (Z.mod_pos_bound x 1000 ltac:(lia)).
  rewrite (u32_small (x mod 1000)) by lia. unfold u32. generalize dependent (x mod 1000). intros r _ Hr.
  generalize ((x / 1000) mod 4294967296). intros q. split; zlia.
Qed.

(** The text of the delta of two logged timestamps. *)
Definition delta_column (a b : Z) : cstr :=
  if (a =? 0) || (b <=? a) then lit "NULL" else delta_text ((b - a) mod 4294967296000).
Lemma delta_column_text a b :
  0 <= a < 18446744073709551616 -> 0 <= b < 18446744073709551616 ->
  format_delta_to_buffer (calculate_delta_fast (parse_timestamp_ns (fmt_ts a)) (parse_timestamp_ns (fmt_ts b))) 16 =
    Some (delta_column a b, zlen (delta_column a b)).
Proof.
  intros Ha Hb. rewrite !parse_fmt_ts by done. unfold calculate_delta_fast, delta_column.
  destruct (Z.eqb_spec a 0), (Z.eqb_spec b 0), (Z.leb_spec b a); cbn [orb]; try done; try lia.
  rewrite u64_small by lia.
  unfold format_delta_to_buffer. cbn [delta_valid negb delta_whole_us delta_frac_ns Z.ltb Z.compare Pos.compare Pos.compare_cont].
  pose proof (delta_text_length ((b - a) mod 4294967296000) ltac:(zlia)) as Hl.
  assert (fmt_u (u32 ((b - a) / 1000)) ++ DOT :: fmt_u0 3 (u32 ((b - a) mod 1000)) =
          delta_text ((b - a) mod 4294967296000)) as ->.
  { unfold delta_text. destruct (delta_wrap (b - a) ltac:(lia)) as [<- <-]. done. }
  unfold snprintf_dst. rewrite take_ge; [done|]. unfold zlen in Hl. lia.
Qed.

(** The delta column of two logged timestamps.  It is NULL when the first is
    0 or not before the second; otherwise it is the exact difference in
    microseconds with three decimals, untruncated by the 16 byte buffer, as long
    as the difference stays below 2^32 microseconds; beyond that the whole
    microseconds are reduced modulo 2^32. *)
Theorem delta_column_exact (a b : Z) :
  0 <= a < 18446744073709551616 -> 0 <= b < 18446744073709551616 ->
  let d := calculate_delta_fast (parse_timestamp_ns (fmt_ts a)) (parse_timestamp_ns (fmt_ts b)) in
  (a = 0 \/ b <= a -> format_delta_to_buffer d 16 = Some (lit "NULL", 4)) /\
  (0 < a < b ->
   format_delta_to_buffer d 16 =
     Some (delta_text ((b - a) mod 4294967296000), zlen (delta_text ((b - a) mod 4294967296000))) /\
   (b - a < 4294967296000 -> delta_whole_us d * 1000 + delta_frac_ns d = b - a)).
Proof.
  intros Ha Hb d. unfold d. rewrite delta_column_text by done. unfold delta_column. split.
  - intros H. destruct (Z.eqb_spec a 0), (Z.leb_spec b a); try done; lia.
  - intros H. destruct (Z.eqb_spec a 0), (Z.leb_spec b a); try lia. split; [done|]. intros Hs.
    rewrite !parse_fmt_ts by done. unfold calculate_delta_fast.
    destruct (Z.eqb_spec a 0), (Z.eqb_spec b 0), (Z.leb_spec b a); try lia. cbn [orb].
    rewrite u64_small by lia. cbn [delta_whole_us delta_frac_ns]. rewrite !u32_small by zlia. zlia.
Qed.

Lemma delta_column_exact_witness :
  format_delta_to_buffer (calculate_delta_fast (parse_timestamp_ns (fmt_ts 1000))
    (parse_timestamp_ns (fmt_ts 3456))) 16 = Some (delta_text 2456, zlen (delta_text 2456)) /\
  delta_text 2456 = lit "2.456".
Proof.
  split; [|reflexivity].
  exact (proj1 (proj2 (delta_column_exact 1000 3456 ltac:(lia) ltac:(lia)) ltac:(lia))).
Defined.
