(* ===== verification/JoinSeq.v ===== *)
(** Sequence numbers in timestamp_csvjoin.c: the set of sequence numbers of each
    input file and their intersection.

    [load_sequences_from_file] and [find_common_sequences] are related to
    [file_seqs], the sequence numbers of the records of one client address and
    port in a file. *)

From S2P Require Import Prelude CText CsvLog JoinParse.

Definition MAX_FILES : nat := 10.

(** [ss_count] is the length of [ss_sequences]; elements beyond it are not
    represented. *)
Record sequence_set_t := SequenceSet { ss_sequences : list Z; ss_capacity : Z }.
Definition ss_zero : sequence_set_t := SequenceSet [] 0.

(** The linear search of a sequence number. *)
Fixpoint seq_mem (seq_num : Z) (l : list Z) : bool :=
  match l with
  | [] => false
  | x :: l => if x =? seq_num then true else seq_mem seq_num l
  end.

(** [realloc_ok] is the answer of realloc if the call needs it.  The result is
    the set and the return value. *)
Definition sequence_set_add (set : sequence_set_t) (seq_num : Z) (realloc_ok : bool)
    : sequence_set_t * Z :=
  if seq_mem seq_num (ss_sequences set) then (set, 0)
  else if ss_capacity set <=? zlen (ss_sequences set) then
    let new_capacity := if ss_capacity set =? 0 then 1024 else ss_capacity set * 2 in
    if realloc_ok then (SequenceSet (ss_sequences set ++ [seq_num]) new_capacity, 0)
    else (set, -1)
  else (SequenceSet (ss_sequences set ++ [seq_num]) (ss_capacity set), 0).

(** The lines of a file after the first one, as fgets delivers them. *)
Definition data_lines (content : cstr) : list (list ascii) := tail (fgets_all MAX_LINE_LENGTH content).

(** The checks both passes make on a line: the fields and the sequence number
    of a record of the wanted client, or None when the line is skipped. *)
Definition read_record (target_ip : cstr) (target_port : Z) (buf : list ascii)
    : option (list cstr * Z) :=
  let line := chomp buf in
  if (length line =? 0)%nat then None
  else
    let fields := parse_csv_line line MAX_CSV_FIELDS in
    if (length fields <? 3)%nat then None
    else if negb (validate_record_match fields target_ip target_port) then None
    else match extract_sequence_number fields with
         | None => None
         | Some seq_num => Some (fields, seq_num)
         end.

(** The reading loop: [realloc_ok n] answers the realloc made for the n-th line. *)
Fixpoint load_loop (target_ip : cstr) (target_port : Z) (realloc_ok : nat -> bool)
    (line_num : nat) (lines : list (list ascii)) (seq_set : sequence_set_t)
    (sequences_found : Z) : sequence_set_t * Z :=
  match lines with
  | [] => (seq_set, sequences_found)
  | buf :: lines =>
      let line_num := S line_num in
      match read_record target_ip target_port buf with
      | None => load_loop target_ip target_port realloc_ok line_num lines seq_set sequences_found
      | Some (_, seq_num) =>
          let '(seq_set, r) := sequence_set_add seq_set seq_num (realloc_ok line_num) in
          load_loop target_ip target_port realloc_ok line_num lines seq_set
            (if r =? 0 then sequences_found + 1 else sequences_found)
      end
  end.

(** None is the result -1; otherwise the set and the number reported. *)
Definition load_sequences_from_file (fs : gmap cstr cstr) (realloc_ok : nat -> bool)
    (filename target_ip : cstr) (target_port : Z) (seq_set : sequence_set_t)
    : option (sequence_set_t * Z) :=
  match fs !! filename with
  | None => None
  | Some content =>
      Some (load_loop target_ip target_port realloc_ok 1 (data_lines content) seq_set 0)
  end.

(** The first loop of find_common_sequences: one set per file, None at the first
    file that cannot be opened.  [realloc_ok] gets the file's index first. *)
Fixpoint load_all (fs : gmap cstr cstr) (realloc_ok : nat -> nat -> bool) (i : nat)
    (files : list cstr) (target_ip : cstr) (target_port : Z) : option (list sequence_set_t) :=
  match files with
  | [] => Some []
  | f :: files =>
      match load_sequences_from_file fs (realloc_ok i) f target_ip target_port ss_zero with
      | None => None
      | Some (set, _) =>
          match load_all fs realloc_ok (S i) files target_ip target_port with
          | None => None
          | Some sets => Some (set :: sets)
          end
      end
  end.

(** Is [seq] in every other file's set?  Stops at the first that lacks it. *)
Fixpoint found_in_all (seq : Z) (others : list sequence_set_t) : bool :=
  match others with
  | [] => true
  | set :: others => if seq_mem seq (ss_sequences set) then found_in_all seq others else false
  end.

(** qsort with compare_uint32 *)
Definition qsort_u32 (l : list Z) : list Z := merge_sort Z.le l.

(** None is the result -1; otherwise the sequence numbers in common_seqs.
    [malloc_ok] answers the allocation of common_seqs. *)
Definition find_common_sequences (fs : gmap cstr cstr) (realloc_ok : nat -> nat -> bool)
    (malloc_ok : bool) (files : list cstr) (target_ip : cstr) (target_port : Z)
    : option (list Z) :=
  match load_all fs realloc_ok 0 files target_ip target_port with
  | None => None
  | Some file_sequences =>
      let first := ss_sequences (default ss_zero (head file_sequences)) in
      if (length first =? 0)%nat then Some []
      else if negb malloc_ok then None
      else Some (qsort_u32 (base.filter (fun seq => found_in_all seq (tail file_sequences) = true) first))
  end.

(** ** Specification *)

(** The records of the wanted client in a file, in order. *)
Definition file_rows (target_ip : cstr) (target_port : Z) (content : cstr) : list (list cstr * Z) :=
  omap (read_record target_ip target_port) (data_lines content).
Definition file_seqs (target_ip : cstr) (target_port : Z) (content : cstr) : list Z :=
  map snd (file_rows target_ip target_port content).

Lemma seq_mem_spec x l : seq_mem x l = true <-> x ∈ l.
Proof.
  induction l as [|y l IH]; simpl.
  - rewrite elem_of_nil. done.
  - rewrite elem_of_cons. destruct (Z.eqb_spec y x); rewrite ?IH; naive_solver.
Qed.
Lemma seq_mem_false x l : seq_mem x l = false <-> x ∉ l.
Proof. rewrite <- seq_mem_spec. by destruct (seq_mem x l). Qed.

Definition ss_wf (s : sequence_set_t) : Prop :=
  NoDup (ss_sequences s) /\ zlen (ss_sequences s) <= ss_capacity s.

(** Adding keeps the elements distinct and within the capacity; it fails only
    when the allocation does, and then changes nothing. *)
Lemma sequence_set_add_spec s x ok s' r :
  ss_wf s -> sequence_set_add s x ok = (s', r) ->
  ss_wf s' /\ (ok = true -> r = 0) /\
  (r = 0 -> forall y, y ∈ ss_sequences s' <-> y = x \/ y ∈ ss_sequences s) /\
  (r <> 0 -> r = -1 /\ s' = s).
Proof.
  intros (Hn & Hc) H. unfold sequence_set_add in H.
  destruct (seq_mem x (ss_sequences s)) eqn:Hm.
  - simplify_eq. apply seq_mem_spec in Hm. split_and!; [done..| |done]. naive_solver.
  - apply seq_mem_false in Hm.
    assert (NoDup (ss_sequences s ++ [x])) as Hn'.
    { apply NoDup_app. split_and!; [done|set_solver|apply NoDup_singleton]. }
    assert (zlen (ss_sequences s ++ [x]) = zlen (ss_sequences s) + 1) as Hl.
    { unfold zlen. rewrite length_app. simpl. lia. }
    pose proof (zlen_nonneg (ss_sequences s)).
    destruct (Z.leb_spec (ss_capacity s) (zlen (ss_sequences s))); [destruct ok|]; simplify_eq;
      unfold ss_wf; cbn [ss_sequences ss_capacity]; rewrite ?Hl; split_and!; try done; try lia.
    + destruct (Z.eqb_spec (ss_capacity s) 0); lia.
    + intros _ y. set_solver.
    + intros _ y. set_solver.
Qed.

Lemma load_loop_spec ip port ok n lines set found :
  ss_wf set -> (forall i, ok i = true) ->
  let '(set', found') := load_loop ip port ok n lines set found in
  ss_wf set' /\
  (forall y, y ∈ ss_sequences set' <-> y ∈ map snd (omap (read_record ip port) lines) \/ y ∈ ss_sequences set) /\
  found' = found + zlen (omap (read_record ip port) lines).
Proof.
  intros Hw Hok. revert n set found Hw. induction lines as [|buf lines IH]; intros n set found Hw; simpl.
  - split_and!; [done| |unfold zlen; simpl; lia]. intros y. set_solver.
  - destruct (read_record ip port buf) as [[fields x]|]; [|by apply IH].
    destruct (sequence_set_add set x (ok (S n))) as [set' r] eqn:E.
    destruct (sequence_set_add_spec _ _ _ _ _ Hw E) as (Hw' & Hr & Hy & _).
    rewrite Hok in Hr. specialize (Hr eq_refl). subst r. specialize (Hy eq_refl).
    specialize (IH (S n) set' (found + 1) Hw'). cbn [Z.eqb].
    destruct (load_loop ip port ok (S n) lines set' (found + 1)) as [set'' found''].
    destruct IH as (H1 & H2 & H3). split_and!; [done| |].
2:{ rewrite H3; unfold zlen; cbn [length]. unfold omap. lia. }
    intros y. rewrite H2, Hy. simpl. set_solver.
Qed.

Lemma load_all_spec fs ok i files ip port contents :
  mapM (fun f => fs !! f) files = Some contents -> (forall i n, ok i n = true) ->
  exists sets, load_all fs ok i files ip port = Some sets /\
    Forall2 (fun set c => NoDup (ss_sequences set) /\ forall y, y ∈ ss_sequences set <-> y ∈ file_seqs ip port c) sets contents.
Proof.
  intros Hm%mapM_Some Hok. revert i. induction Hm as [|f c files contents Hf _ IH]; intros i; simpl.
  - by exists [].
  - unfold load_sequences_from_file. rewrite Hf.
    assert (ss_wf ss_zero) as Hz by (split; [constructor|done]).
    pose proof (load_loop_spec ip port (ok i) 1 (data_lines c) ss_zero 0 Hz (Hok i)) as H.
    destruct (load_loop ip port (ok i) 1 (data_lines c) ss_zero 0) as [set found].
    destruct H as ([Hn _] & Hy & _). destruct (IH (S i)) as (sets & -> & Hs).
    eexists. split; [done|]. constructor; [|done]. split; [done|].
    intros y. rewrite Hy. unfold file_seqs, file_rows, ss_zero. set_solver.
Qed.

Lemma load_all_none fs ok i files ip port f :
  f ∈ files -> fs !! f = None -> load_all fs ok i files ip port = None.
Proof.
  intros Hin Hf. revert i. induction Hin as [|g f files _ IH]; intros i; simpl.
  - unfold load_sequences_from_file. by rewrite Hf.
  - unfold load_sequences_from_file. destruct (fs !! f); [|done].
    destruct (load_loop _ _ _ _ _ _ _). by rewrite IH.
Qed.

Lemma found_in_all_spec x sets :
  found_in_all x sets = true <-> Forall (fun s => x ∈ ss_sequences s) sets.
Proof.
  induction sets as [|s sets IH]; simpl; [split; constructor|].
  rewrite Forall_cons, <- seq_mem_spec, <- IH. by destruct (seq_mem x (ss_sequences s)); naive_solver.
Qed.

Lemma sorted_nodup_lt (l : list Z) : StronglySorted Z.le l -> NoDup l -> StronglySorted Z.lt l.
Proof.
  induction 1 as [|x l Hl IH Hx]; intros Hn; inversion_clear Hn as [|? ? Hx' Hn']; constructor; [auto|].
  rewrite Forall_forall in *. intros y Hy. pose proof (Hx y Hy).
  assert (x <> y) by (intros ->; done). lia.
Qed.

Lemma qsort_u32_spec l :
  NoDup l -> StronglySorted Z.lt (qsort_u32 l) /\ forall y, y ∈ qsort_u32 l <-> y ∈ l.
Proof.
  intros Hn. pose proof (merge_sort_Permutation Z.le l) as Hp. unfold qsort_u32. split.
  - apply sorted_nodup_lt; [apply (StronglySorted_merge_sort Z.le)|by rewrite Hp].
  - intros y. by rewrite Hp.
Qed.

(** The common sequence numbers: those of every file, in increasing order. *)
Definition is_common (ip : cstr) (port : Z) (contents : list cstr) (l : list Z) : Prop :=
  StronglySorted Z.lt l /\
  forall y, y ∈ l <-> contents <> [] /\ Forall (fun c => y ∈ file_seqs ip port c) contents.

Lemma find_common_spec fs ok files ip port contents :
  mapM (fun f => fs !! f) files = Some contents -> (forall i n, ok i n = true) ->
  exists l, find_common_sequences fs ok true files ip port = Some l /\ is_common ip port contents l.
Proof.
  intros Hm Hok. unfold find_common_sequences.
  destruct (load_all_spec fs ok 0 files ip port contents Hm Hok) as (sets & -> & Hs).
  destruct Hs as [|set c sets contents [Hn Hy] Hs]; simpl.
  - eexists. split; [done|]. split; [constructor|]. set_solver.
  - assert (forall y, Forall (fun s => y ∈ ss_sequences s) sets <-> Forall (fun c => y ∈ file_seqs ip port c) contents) as Ht.
    { intros y. clear Hm. induction Hs as [|s c' sets' contents' [_ Hs] _ IH]; [split; constructor|]. rewrite !Forall_cons, (Hs y), IH. done. }
    destruct (Nat.eqb_spec (length (ss_sequences set)) 0) as [H0|H0].
    + apply nil_length_inv in H0. rewrite H0 in Hy. eexists. split; [done|]. split; [constructor|].
      intros y. rewrite Forall_cons, <- Hy. set_solver.
    + cbn [negb]. eexists. split; [done|].
      destruct (qsort_u32_spec (base.filter (fun seq => found_in_all seq sets = true) (ss_sequences set))) as [H1 H2].
      { by apply NoDup_filter. }
      split; [done|]. intros y. rewrite H2, list_elem_of_filter, found_in_all_spec, Ht, Forall_cons, Hy. naive_solver.
Qed.

(** ** Properties *)

(** Loading a file whose allocations succeed yields, without duplicates and
    within the allocated capacity, exactly the sequence numbers of the records of
    the wanted client, and reports the number of those records; a file that
    cannot be opened is an error. *)
Theorem load_sequences_complete (fs : gmap cstr cstr) (ok : nat -> bool) (name ip : cstr) (port : Z) :
  (forall i, ok i = true) ->
  match fs !! name with
  | None => load_sequences_from_file fs ok name ip port ss_zero = None
  | Some content =>
      exists set, load_sequences_from_file fs ok name ip port ss_zero =
                    Some (set, zlen (file_rows ip port content)) /\
        ss_wf set /\ (forall y, y ∈ ss_sequences set <-> y ∈ file_seqs ip port content)
  end.
Proof.
  intros Hok. unfold load_sequences_from_file. destruct (fs !! name) as [content|]; [|done].
  assert (ss_wf ss_zero) as Hz by (split; [constructor|done]).
  pose proof (load_loop_spec ip port ok 1 (data_lines content) ss_zero 0 Hz Hok) as H.
  destruct (load_loop ip port ok 1 (data_lines content) ss_zero 0) as [set found].
  destruct H as (Hw & Hy & Hf). exists set. split_and!.
  - do 2 f_equal. exact Hf.
  - done.
  - intros y. rewrite Hy. unfold file_seqs, file_rows, ss_zero. set_solver.
Qed.

Lemma load_sequences_complete_witness :
  exists set, load_sequences_from_file {[ lit "f" := lit "h" ++ NL :: lit "1.1.1.1,9,5" ++ NL :: lit "1.1.1.1,9,5" ]}
                (fun _ => true) (lit "f") (lit "1.1.1.1") 9 ss_zero = Some (set, 2) /\
    ss_wf set /\ (forall y, y ∈ ss_sequences set <-> y ∈ [5; 5]).
Proof.
  exact (load_sequences_complete {[ lit "f" := lit "h" ++ NL :: lit "1.1.1.1,9,5" ++ NL :: lit "1.1.1.1,9,5" ]}
                (fun _ => true) (lit "f") (lit "1.1.1.1") 9 (fun _ => eq_refl)).
Defined.

(** Find_common_sequences returns, in strictly increasing order, exactly the
    sequence numbers the wanted client has in every input file; it fails when an
    input file cannot be opened, or when there is something to intersect and the
    result cannot be allocated. *)
Theorem find_common_sequences_correct (fs : gmap cstr cstr) (ok : nat -> nat -> bool) (malloc_ok : bool)
    (files : list cstr) (ip : cstr) (port : Z) :
  (forall i n, ok i n = true) ->
  match mapM (fun f => fs !! f) files with
  | None => find_common_sequences fs ok malloc_ok files ip port = None
  | Some contents =>
      (malloc_ok = true \/ file_seqs ip port (default [] (head contents)) = [] ->
       exists l, find_common_sequences fs ok malloc_ok files ip port = Some l /\ is_common ip port contents l) /\
      (malloc_ok = false -> contents <> [] -> file_seqs ip port (default [] (head contents)) <> [] ->
       find_common_sequences fs ok malloc_ok files ip port = None)
  end.
Proof.
  intros Hok. destruct (mapM (fun f => fs !! f) files) as [contents|] eqn:Hm.
  - pose proof (find_common_spec fs ok files ip port contents Hm Hok) as Ht.
    destruct (load_all_spec fs ok 0 files ip port contents Hm Hok) as (sets & E & Hs).
    destruct malloc_ok; split; try done; unfold find_common_sequences in *; rewrite E in *.
    + intros [?|H0]; [done|]. destruct Hs as [|set c sets contents [Hn Hy] Hs]; [done|]. simpl in *.
      rewrite H0 in Hy. assert (ss_sequences set = []) as Es.
      { destruct (ss_sequences set) as [|z l]; [done|]. exfalso. specialize (Hy z). set_solver. }
      rewrite Es in *. done.
    + intros _ Hne H0. destruct Hs as [|set c sets contents [Hn Hy] Hs]; [done|]. simpl in *.
      destruct (Nat.eqb_spec (length (ss_sequences set)) 0) as [H1|]; [|done].
      apply nil_length_inv in H1. rewrite H1 in Hy. exfalso. apply H0.
      destruct (file_seqs ip port c) as [|z l]; [done|]. exfalso. specialize (Hy z). set_solver.
  - apply mapM_None in Hm. apply Exists_exists in Hm as (f & Hin & Hf).
    unfold find_common_sequences. by rewrite (load_all_none fs ok 0 files ip port f).
Qed.

Lemma find_common_sequences_correct_witness :
  exists l, find_common_sequences
      (<[ lit "f" := lit "h" ++ NL :: lit "1.1.1.1,9,5" ++ NL :: lit "1.1.1.1,9,2" ]>
         {[ lit "g" := lit "h" ++ NL :: lit "1.1.1.1,9,2" ]})
      (fun _ _ => true) true [lit "f"; lit "g"] (lit "1.1.1.1") 9 = Some l /\
    is_common (lit "1.1.1.1") 9
      [lit "h" ++ NL :: lit "1.1.1.1,9,5" ++ NL :: lit "1.1.1.1,9,2"; lit "h" ++ NL :: lit "1.1.1.1,9,2"] l.
Proof.
  exact (proj1 (find_common_sequences_correct
      (<[ lit "f" := lit "h" ++ NL :: lit "1.1.1.1,9,5" ++ NL :: lit "1.1.1.1,9,2" ]>
         {[ lit "g" := lit "h" ++ NL :: lit "1.1.1.1,9,2" ]})
      (fun _ _ => true) true [lit "f"; lit "g"] (lit "1.1.1.1") 9 (fun _ _ => eq_refl)) (or_introl eq_refl)).
Defined.
