(* ===== verification/JoinTable.v ===== *)
(** The record table of timestamp_csvjoin.c: one record per common sequence
    number, found by binary search and filled from the input files.

    The table pass is proved equal to [fill_record], which treats each record
    on its own: it applies the matching rows of a file, in order. *)

From S2P Require Import Prelude CText CsvLog JoinParse JoinSeq.

Definition FIELD_CLT_APP_TX_TSC_TS : Z := 0.
Definition FIELD_CLT_APP_TX_TS : Z := 1.
Definition FIELD_CLT_KER_TX_TS : Z := 2.
Definition FIELD_SVR_HW_RX_TS : Z := 3.
Definition FIELD_SVR_KER_RX_TS : Z := 4.
Definition FIELD_SVR_APP_RX_TS : Z := 5.
Definition FIELD_SVR_APP_TX_TS : Z := 6.
Definition FIELD_SVR_KER_TX_TS : Z := 7.
Definition FIELD_CLT_HW_RX_TS : Z := 8.
Definition FIELD_CLT_KER_RX_TS : Z := 9.
Definition FIELD_CLT_APP_RX_TSC_TS : Z := 10.
Definition FIELD_CLT_APP_RX_TS : Z := 11.
Definition MAX_TIMESTAMP_FIELDS : nat := 20.

Record record_t := MkRecord { r_seq_num : Z; r_timestamps : list cstr; r_field_mask : Z }.

(** None for NULL: no sequences, or calloc failed. *)
Definition create_record_table (common_seqs : list Z) (calloc_ok : bool) : option (list record_t) :=
  if (length common_seqs =? 0)%nat then None
  else if negb calloc_ok then None
  else Some (map (fun seq => MkRecord seq (replicate MAX_TIMESTAMP_FIELDS (lit "NULL")) 0) common_seqs).

(** while (left <= right): None only when the fuel runs out. *)
Fixpoint bsearch (fuel : nat) (records : list record_t) (seq_num left right : Z) : option Z :=
  match fuel with
  | O => None
  | S f =>
      if left <=? right then
        let mid := left + (right - left) / 2 in
        let s := default 0 (r_seq_num <$> zget records mid) in
        if s =? seq_num then Some mid
        else if s <? seq_num then bsearch f records seq_num (mid + 1) right
        else bsearch f records seq_num left (mid - 1)
      else Some (-1)
  end.
Definition find_record_by_seq (records : list record_t) (seq_num : Z) : Z :=
  default (-1) (bsearch (S (length records)) records seq_num 0 (zlen records - 1)).

(** safe_strncpy(records[idx].timestamps[field], s, 32) *)
Definition put_ts (fld : Z) (s : cstr) (r : record_t) : record_t :=
  MkRecord (r_seq_num r) (zset (r_timestamps r) fld (strncpy s 31)) (r_field_mask r).
(** records[idx].field_mask |= 1 << field *)
Definition put_mask (fld : Z) (r : record_t) : record_t :=
  MkRecord (r_seq_num r) (r_timestamps r) (u16 (Z.lor (r_field_mask r) (Z.shiftl 1 fld))).
Definition put_all (assigns : list (Z * nat)) (fields : list cstr) (r : record_t) : record_t :=
  fold_left (fun r a => put_mask (fst a) r) assigns
    (fold_left (fun r a => put_ts (fst a) (field fields (snd a)) r) assigns r).

(** The columns a file type provides: record field and CSV column. *)
Definition file_columns (file_type : file_type_t) : list (Z * nat) :=
  match file_type with
  | FILE_CLIENT_ONEWAY_MAIN => [(FIELD_CLT_APP_TX_TS, 3%nat)]
  | FILE_CLIENT_ONEWAY_TX | FILE_CLIENT_ROUNDTRIP_TX => [(FIELD_CLT_KER_TX_TS, 3%nat)]
  | FILE_CLIENT_ROUNDTRIP_MAIN =>
      [(FIELD_CLT_APP_TX_TSC_TS, 3%nat); (FIELD_CLT_APP_TX_TS, 4%nat); (FIELD_CLT_HW_RX_TS, 5%nat);
       (FIELD_CLT_KER_RX_TS, 6%nat); (FIELD_CLT_APP_RX_TSC_TS, 7%nat); (FIELD_CLT_APP_RX_TS, 8%nat)]
  | FILE_SERVER_ONEWAY_MAIN =>
      [(FIELD_SVR_HW_RX_TS, 3%nat); (FIELD_SVR_KER_RX_TS, 4%nat); (FIELD_SVR_APP_RX_TS, 5%nat)]
  | FILE_SERVER_ROUNDTRIP_MAIN =>
      [(FIELD_SVR_HW_RX_TS, 3%nat); (FIELD_SVR_KER_RX_TS, 4%nat); (FIELD_SVR_APP_RX_TS, 5%nat);
       (FIELD_SVR_APP_TX_TS, 6%nat)]
  | FILE_SERVER_ROUNDTRIP_TX => [(FIELD_SVR_KER_TX_TS, 3%nat)]
  | FILE_TYPE_UNKNOWN => []
  end.
(** The field_count a row needs to be used. *)
Definition file_min_fields (file_type : file_type_t) : nat :=
  match file_type with
  | FILE_CLIENT_ONEWAY_MAIN | FILE_CLIENT_ONEWAY_TX | FILE_CLIENT_ROUNDTRIP_TX
  | FILE_SERVER_ROUNDTRIP_TX => 4
  | FILE_CLIENT_ROUNDTRIP_MAIN => 9
  | FILE_SERVER_ONEWAY_MAIN => 6
  | FILE_SERVER_ROUNDTRIP_MAIN => 7
  | FILE_TYPE_UNKNOWN => 0
  end.
(** The switch on the file type. *)
Definition populate_record (file_type : file_type_t) (fields : list cstr) (r : record_t) : record_t :=
  if (file_min_fields file_type <=? length fields)%nat then put_all (file_columns file_type) fields r
  else r.

Fixpoint populate_loop (file_type : file_type_t) (target_ip : cstr) (target_port : Z)
    (lines : list (list ascii)) (records : list record_t) (records_populated : Z)
    : list record_t * Z :=
  match lines with
  | [] => (records, records_populated)
  | buf :: lines =>
      match read_record target_ip target_port buf with
      | None => populate_loop file_type target_ip target_port lines records records_populated
      | Some (fields, seq_num) =>
          let record_idx := find_record_by_seq records seq_num in
          if record_idx =? -1 then
            populate_loop file_type target_ip target_port lines records records_populated
          else
            let records := match zget records record_idx with
                           | Some r => zset records record_idx (populate_record file_type fields r)
                           | None => records
                           end in
            populate_loop file_type target_ip target_port lines records (records_populated + 1)
      end
  end.

(** None is the result -1. *)
Definition populate_timestamps_from_file (fs : gmap cstr cstr) (filename : cstr)
    (file_type : file_type_t) (target_ip : cstr) (target_port : Z) (records : list record_t)
    : option (list record_t * Z) :=
  match fs !! filename with
  | None => None
  | Some content =>
      Some (populate_loop file_type target_ip target_port (data_lines content) records 0)
  end.

(** ** Binary search *)

Definition table_sorted (records : list record_t) : Prop :=
  StronglySorted Z.lt (map r_seq_num records).

Lemma sorted_lookup_lt (l : list Z) i j x y :
  StronglySorted Z.lt l -> l !! i = Some x -> l !! j = Some y -> (i < j)%nat -> x < y.
Proof.
  intros H. revert i j. induction H as [|z l Hl IH Hz]; intros i j Hi Hj Hij; [done|].
  destruct j as [|j]; [lia|]. destruct i as [|i]; simpl in *.
  - simplify_eq. eapply Forall_lookup_1 in Hz; done.
  - eapply IH; eauto. lia.
Qed.

Lemma table_lookup_lt records i j r r' :
  table_sorted records -> zget records i = Some r -> zget records j = Some r' -> i < j ->
  r_seq_num r < r_seq_num r'.
Proof.
  unfold zget. intros Hs Hi Hj Hij. case_match; [done|]. case_match; [done|]. zb.
  eapply (sorted_lookup_lt _ (Z.to_nat i) (Z.to_nat j)); [exact Hs|..|lia];
    rewrite list_lookup_fmap; [by rewrite Hi|by rewrite Hj].
Qed.
Lemma table_lookup_inj records i j r r' :
  table_sorted records -> zget records i = Some r -> zget records j = Some r' ->
  r_seq_num r = r_seq_num r' -> i = j.
Proof.
  intros Hs Hi Hj E. destruct (Z.lt_total i j) as [H|[H|H]]; [|done|].
  - pose proof (table_lookup_lt _ _ _ _ _ Hs Hi Hj H). lia.
  - pose proof (table_lookup_lt _ _ _ _ _ Hs Hj Hi H). lia.
Qed.

(** The range halves, so [right - left + 2] rounds are enough. *)
Lemma bsearch_spec fuel records seq left right :
  table_sorted records -> 0 <= left -> right < zlen records ->
  (Z.to_nat (right - left + 1) < fuel)%nat ->
  (forall i r, zget records i = Some r -> r_seq_num r = seq -> left <= i <= right) ->
  exists i, bsearch fuel records seq left right = Some i /\
    ((i = -1 /\ forall j r, zget records j = Some r -> r_seq_num r <> seq) \/
     (left <= i <= right /\ exists r, zget records i = Some r /\ r_seq_num r = seq)).
Proof.
  intros Hs. revert left right. induction fuel as [|f IH]; intros left right Hl Hr Hf Hin; [lia|].
  cbn [bsearch]. destruct (Z.leb_spec left right) as [Hle|Hgt].
  2:{ exists (-1). split; [done|left]. split; [done|]. intros j r Hj E. specialize (Hin j r Hj E). lia. }
  set (mid := left + (right - left) / 2). assert (left <= mid <= right) as Hm by (unfold mid; zlia).
  destruct (zget_lt records mid) as [rm Hrm]; [lia|]. fold mid. rewrite Hrm. cbn zeta. change (default 0 (r_seq_num <$> Some rm)) with (r_seq_num rm).
  destruct (Z.eqb_spec (r_seq_num rm) seq) as [E|Hne].
  - exists mid. split; [done|right]. split; [done|by exists rm].
  - destruct (Z.ltb_spec (r_seq_num rm) seq).
    + destruct (IH (mid + 1) right) as (i & Hi & Hspec); [lia|lia|lia| |].
      { intros j r Hj E. specialize (Hin j r Hj E).
        destruct (Z.lt_total j mid) as [Hlt|[->|Hlt]]; [|congruence|lia].
        pose proof (table_lookup_lt _ _ _ _ _ Hs Hj Hrm Hlt). lia. }
      exists i. split; [done|]. destruct Hspec as [?|[? ?]]; [by left|right]. split; [lia|done].
    + destruct (IH left (mid - 1)) as (i & Hi & Hspec); [lia|lia|lia| |].
      { intros j r Hj E. specialize (Hin j r Hj E).
        destruct (Z.lt_total j mid) as [Hlt|[->|Hlt]]; [lia|congruence|].
        pose proof (table_lookup_lt _ _ _ _ _ Hs Hrm Hj Hlt). lia. }
      exists i. split; [done|]. destruct Hspec as [?|[? ?]]; [by left|right]. split; [lia|done].
Qed.

Lemma find_record_spec records seq :
  table_sorted records ->
  (find_record_by_seq records seq = -1 /\ forall r, r ∈ records -> r_seq_num r <> seq) \/
  (exists i r, find_record_by_seq records seq = Z.of_nat i /\ records !! i = Some r /\ r_seq_num r = seq).
Proof.
  intros Hs. unfold find_record_by_seq.
  destruct (bsearch_spec (S (length records)) records seq 0 (zlen records - 1) Hs
    ltac:(lia) ltac:(lia) ltac:(unfold zlen; lia)) as (i & -> & Hi).
  { intros i r Hi _. apply zget_range in Hi. lia. }
  simpl. destruct Hi as [[-> Hn]|(Hr & r & Hg & E)]; [left|right].
  - split; [done|]. intros r Hin. apply list_elem_of_lookup in Hin as (k & Hk).
      apply (Hn (Z.of_nat k)). unfold zget. case_match; zb; [lia|]. by rewrite Nat2Z.id.
  - exists (Z.to_nat i), r. unfold zget in Hg. case_match; [done|]. zb.
      rewrite Z2Nat.id by lia. done.
Qed.

(** ** One file *)

Definition fill_record (ft : file_type_t) (rows : list (list cstr * Z)) (r : record_t) : record_t :=
  fold_left (fun r row => if snd row =? r_seq_num r then populate_record ft (fst row) r else r) rows r.

Lemma put_all_seq assigns fields r : r_seq_num (put_all assigns fields r) = r_seq_num r.
Proof.
  unfold put_all.
  assert (forall r, r_seq_num (fold_left (fun r (a : Z * nat) => put_mask (fst a) r) assigns r) = r_seq_num r) as ->.
  { induction assigns as [|a l IH]; intros r'; simpl; [done|]. by rewrite IH. }
  revert r. induction assigns as [|a l IH]; intros r; simpl; [done|]. by rewrite IH.
Qed.
Lemma populate_record_seq ft fields r : r_seq_num (populate_record ft fields r) = r_seq_num r.
Proof. unfold populate_record. case_match; [apply put_all_seq|done]. Qed.
Lemma fill_record_seq ft rows r : r_seq_num (fill_record ft rows r) = r_seq_num r.
Proof.
  unfold fill_record. revert r. induction rows as [|row rows IH]; intros r; simpl; [done|].
  rewrite IH. case_match; [apply populate_record_seq|done].
Qed.

(** Updating the found slot is updating the records with that number. *)
Lemma update_by_seq (f : record_t -> record_t) records i r :
  table_sorted records -> records !! i = Some r ->
  <[i := f r]> records =
  map (fun x => if r_seq_num r =? r_seq_num x then f x else x) records.
Proof.
  intros Hs Hi. apply list_eq. intros j. rewrite list_lookup_fmap.
  destruct (decide (i = j)) as [->|Hne].
  - rewrite list_lookup_insert_eq by (by eapply lookup_lt_Some). rewrite Hi. simpl. by rewrite Z.eqb_refl.
  - rewrite list_lookup_insert_ne by done. destruct (records !! j) as [x|] eqn:Hj; [|done]. simpl.
    destruct (Z.eqb_spec (r_seq_num r) (r_seq_num x)) as [E|]; [|done]. exfalso. apply Hne.
    apply Nat2Z.inj. eapply (table_lookup_inj records); [done| | |exact E];
      unfold zget; case_match; zb; try lia; by rewrite Nat2Z.id.
Qed.

Lemma table_sorted_map f records :
  (forall r, r_seq_num (f r) = r_seq_num r) -> table_sorted records -> table_sorted (map f records).
Proof.
  unfold table_sorted. intros Hf. rewrite map_map. by rewrite (map_ext (fun r => r_seq_num (f r)) r_seq_num).
Qed.

Lemma populate_loop_spec ft ip port lines records n :
  table_sorted records ->
  fst (populate_loop ft ip port lines records n) =
    map (fill_record ft (omap (read_record ip port) lines)) records.
Proof.
  revert records n. induction lines as [|buf lines IH]; intros records n Hs.
  - simpl. symmetry. apply map_id.
  - cbn [populate_loop]. destruct (read_record ip port buf) as [[fields seq]|] eqn:E.
    + rewrite (omap_cons_some _ _ _ _ E). cbn [fill_record].
      assert (forall recs, map (fill_record ft ((fields, seq) :: omap (read_record ip port) lines)) recs =
        map (fill_record ft (omap (read_record ip port) lines))
          (map (fun x => if seq =? r_seq_num x then populate_record ft fields x else x) recs)) as Hstep.
      { intros recs. by rewrite map_map. }
      rewrite Hstep. destruct (find_record_spec records seq Hs) as [[-> Hno]|(i & r & -> & Hi & Eq)].
      * rewrite Z.eqb_refl, IH by done. f_equal. symmetry.
        rewrite <- (map_id records) at 2. apply map_ext_in. intros x Hx%list_elem_of_In.
        destruct (Z.eqb_spec seq (r_seq_num x)) as [->|]; [|done]. by destruct (Hno x).
      * rewrite (proj2 (Z.eqb_neq (Z.of_nat i) (-1))) by lia. unfold zget, zset.
        rewrite (proj2 (Z.ltb_ge (Z.of_nat i) 0)) by lia. rewrite Nat2Z.id, Hi.
        rewrite <- Eq. rewrite (update_by_seq (populate_record ft fields) records i r Hs Hi).
        apply IH. apply table_sorted_map; [|done]. intros x. case_match; [apply populate_record_seq|done].
    + rewrite (omap_cons_none _ _ _ E). by apply IH.
Qed.

(** ** Where a record's timestamps come from *)

(** The values the rows of one file offer for a record's column. *)
Definition offers (ft : file_type_t) (rows : list (list cstr * Z)) (seq col : Z) : list cstr :=
  concat (map (fun row =>
    if (snd row =? seq) && (file_min_fields ft <=? length (fst row))%nat then
      map (fun a => strncpy (field (fst row) (snd a)) 31)
          (base.filter (fun a => fst a = col) (file_columns ft))
    else []) rows).
Definition record_ts (r : record_t) (col : Z) : cstr := default [] (zget (r_timestamps r) col).

Definition record_wf (r : record_t) : Prop :=
  length (r_timestamps r) = MAX_TIMESTAMP_FIELDS /\
  Forall (fun s => (length s <= 31)%nat) (r_timestamps r).

Lemma put_ts_wf fld s r : record_wf r -> record_wf (put_ts fld s r).
Proof.
  intros [Hl Hf]. unfold record_wf, put_ts, zset in *. cbn [r_timestamps]. case_match; [done|].
  rewrite length_insert. split; [done|]. apply Forall_insert; [done|].
  unfold strncpy. rewrite length_take. lia.
Qed.

Lemma fold_put_ts assigns fields r :
  record_wf r ->
  record_wf (fold_left (fun r a => put_ts (fst a) (field fields (snd a)) r) assigns r) /\
  forall col, 0 <= col < 20 ->
    record_ts (fold_left (fun r a => put_ts (fst a) (field fields (snd a)) r) assigns r) col =
    default (record_ts r col)
      (last (map (fun a => strncpy (field fields (snd a)) 31) (base.filter (fun a => fst a = col) assigns))).
Proof.
  revert r. induction assigns as [|[fld k] assigns IH]; intros r Hw; [by split|].
  cbn [fold_left fst snd]. destruct (IH _ (put_ts_wf fld (field fields k) r Hw)) as [IHw IHts].
  split; [done|]. intros col Hcol. rewrite IHts by done. rewrite filter_cons. cbn [fst].
  destruct Hw as [Hl _]. unfold MAX_TIMESTAMP_FIELDS in Hl.
  case_decide as Hc.
  - subst fld. cbn [map snd]. rewrite last_cons. unfold record_ts at 1, put_ts. cbn [r_timestamps].
    rewrite zget_zset_eq by (unfold zlen; lia). by destruct (last _).
  - unfold record_ts at 1, put_ts. cbn [r_timestamps]. rewrite zget_zset_ne by done. done.
Qed.

Lemma fold_put_mask assigns r :
  r_timestamps (fold_left (fun r (a : Z * nat) => put_mask (fst a) r) assigns r) = r_timestamps r.
Proof. revert r. induction assigns as [|a l IH]; intros r; simpl; [done|]. by rewrite IH. Qed.

Lemma put_all_ts assigns fields r :
  record_wf r ->
  record_wf (put_all assigns fields r) /\
  forall col, 0 <= col < 20 ->
    record_ts (put_all assigns fields r) col =
    default (record_ts r col)
      (last (map (fun a => strncpy (field fields (snd a)) 31) (base.filter (fun a => fst a = col) assigns))).
Proof.
  intros Hw. unfold put_all, record_wf, record_ts at 1. rewrite fold_put_mask.
  exact (fold_put_ts assigns fields r Hw).
Qed.

Lemma fill_record_ts ft rows r :
  record_wf r ->
  record_wf (fill_record ft rows r) /\
  forall col, 0 <= col < 20 ->
    record_ts (fill_record ft rows r) col =
    default (record_ts r col) (last (offers ft rows (r_seq_num r) col)).
Proof.
  unfold fill_record, offers. revert r. induction rows as [|[fields seq] rows IH]; intros r Hw; [by split|].
  cbn [fold_left map concat fst snd].
  destruct (Z.eqb_spec seq (r_seq_num r)) as [->|]; cbn [andb]; [|by apply IH].
  assert (populate_record ft fields r = if (file_min_fields ft <=? length fields)%nat
            then put_all (file_columns ft) fields r else r) as -> by done.
  destruct (file_min_fields ft <=? length fields)%nat; [|by apply IH].
  destruct (put_all_ts (file_columns ft) fields r Hw) as [Hw' Hts].
  destruct (IH _ Hw') as [H1 H2]. split; [done|]. intros col Hcol.
  rewrite H2, Hts, put_all_seq, last_app by done. by destruct (last (concat _)).
Qed.

Definition fresh_record (seq : Z) : record_t :=
  MkRecord seq (replicate MAX_TIMESTAMP_FIELDS (lit "NULL")) 0.
Lemma fresh_record_wf seq : record_wf (fresh_record seq).
Proof. split; [done|]. apply Forall_replicate. simpl. lia. Qed.
Lemma fresh_record_ts seq col : 0 <= col < 20 -> record_ts (fresh_record seq) col = lit "NULL".
Proof.
  intros. unfold record_ts, fresh_record, zget. cbn [r_timestamps].
  rewrite (proj2 (Z.ltb_ge _ _)) by lia. rewrite lookup_replicate_2; [done|]. unfold MAX_TIMESTAMP_FIELDS. lia.
Qed.

(** ** Properties *)

(** In a table sorted by sequence number the binary search ends within
    its fuel, returns the index of the record with the number asked for when
    there is one, and -1 when there is none. *)
Theorem find_record_by_seq_correct (records : list record_t) (seq_num : Z) :
  table_sorted records ->
  (exists i, bsearch (S (length records)) records seq_num 0 (zlen records - 1) = Some i) /\
  ((forall r, r ∈ records -> r_seq_num r <> seq_num) -> find_record_by_seq records seq_num = -1) /\
  (forall i r, records !! i = Some r -> r_seq_num r = seq_num ->
     find_record_by_seq records seq_num = Z.of_nat i).
Proof.
  intros Hs. split_and!.
  - destruct (bsearch_spec (S (length records)) records seq_num 0 (zlen records - 1) Hs
      ltac:(lia) ltac:(lia) ltac:(unfold zlen; lia)) as (i & -> & _); [|by eauto].
    intros i r Hi _. apply zget_range in Hi. lia.
  - intros Hno. destruct (find_record_spec records seq_num Hs) as [[? _]|(i & r & _ & Hi & E)]; [done|].
    destruct (Hno r); [by eapply list_elem_of_lookup_2|done].
  - intros i r Hi E. destruct (find_record_spec records seq_num Hs) as [[_ Hno]|(j & r' & -> & Hj & E')].
    + destruct (Hno r); [by eapply list_elem_of_lookup_2|done].
    + apply (table_lookup_inj records _ _ r' r); [done| | |congruence];
        unfold zget; case_match; zb; try lia; by rewrite Nat2Z.id.
Qed.

Lemma find_record_by_seq_correct_witness :
  find_record_by_seq (map fresh_record [3; 8; 21; 40]) 21 = Z.of_nat 2.
Proof.
  refine (proj2 (proj2 (find_record_by_seq_correct (map fresh_record [3; 8; 21; 40]) 21 _)) 2%nat (fresh_record 21) eq_refl eq_refl).
  unfold table_sorted. simpl. repeat constructor.
Defined.

(** Populating a sorted table from a file applies, to each record, the rows
    of the file that carry its sequence number, in order: a column takes the value
    of the last row that offers it (cut to 31 characters) and keeps its old value
    when no row does; sequence numbers and order are kept. *)
Theorem populate_from_file_correct (fs : gmap cstr cstr) (name : cstr) (ft : file_type_t) (ip : cstr)
    (port : Z) (records : list record_t) :
  table_sorted records -> Forall record_wf records ->
  match fs !! name with
  | None => populate_timestamps_from_file fs name ft ip port records = None
  | Some content =>
      exists records' n, populate_timestamps_from_file fs name ft ip port records = Some (records', n) /\
        map r_seq_num records' = map r_seq_num records /\ table_sorted records' /\ Forall record_wf records' /\
        forall i r r' col, records !! i = Some r -> records' !! i = Some r' -> 0 <= col < 20 ->
          record_ts r' col =
            default (record_ts r col) (last (offers ft (file_rows ip port content) (r_seq_num r) col))
  end.
Proof.
  intros Hs Hw. unfold populate_timestamps_from_file. destruct (fs !! name) as [content|]; [|done].
  pose proof (populate_loop_spec ft ip port (data_lines content) records 0 Hs) as H.
  destruct (populate_loop _ _ _ _ _ _) as [records' n]. cbn [fst] in H. subst records'.
  eexists _, n. split; [done|]. split_and!.
  - rewrite map_map. apply map_ext. intros r. apply fill_record_seq.
  - apply table_sorted_map; [|done]. intros r. apply fill_record_seq.
  - apply Forall_map. eapply Forall_impl; [done|]. intros r Hr. by apply fill_record_ts.
  - intros i r r' col Hi Hi' Hcol. rewrite list_lookup_fmap, Hi in Hi'. simplify_eq/=.
    apply fill_record_ts; [|done]. by eapply Forall_lookup_1 in Hw.
Qed.

Lemma populate_from_file_correct_witness :
  let fs : gmap cstr cstr := {[ lit "f" := lit "h" ++ NL :: lit "1.1.1.1,9,5,0.25" ++ NL :: lit "1.1.1.1,9,5,0.75" ]} in
  exists records' n,
    populate_timestamps_from_file fs (lit "f") FILE_CLIENT_ONEWAY_TX (lit "1.1.1.1") 9 (map fresh_record [5; 6])
      = Some (records', n) /\ map r_seq_num records' = [5; 6].
Proof.
  intros fs.
  destruct (populate_from_file_correct fs (lit "f") FILE_CLIENT_ONEWAY_TX (lit "1.1.1.1") 9 (map fresh_record [5; 6])
    ltac:(unfold table_sorted; simpl; repeat constructor)
    ltac:(repeat constructor; try (simpl; lia))) as (records' & n & E & Hseq & _).
  exists records', n. split; [exact E|exact Hseq].
Defined.
