(* ===== verification/JoinOut.v ===== *)
(** Output of timestamp_csvjoin.c: delta tables, headers, rows and the output
    file.  A row is written piece by piece at an offset of a fixed line buffer;
    the theorems show that nothing is cut off and that the columns are those the
    header names. *)

From S2P Require Import Prelude CText CsvLog JoinParse JoinSeq JoinTable.

Inductive operation_mode_t := MODE_ONE_WAY | MODE_ROUND_TRIP.
Inductive target_type_t := TARGET_CLIENT | TARGET_SERVER | TARGET_CLIENT_SERVER.
#[export] Instance operation_mode_eq_dec : EqDecision operation_mode_t.
Proof. solve_decision. Defined.
#[export] Instance target_type_eq_dec : EqDecision target_type_t.
Proof. solve_decision. Defined.

(** ** Deltas *)

Record delta_definition_t := DeltaDef {
  dd_ts_a_field : Z; dd_ts_b_field : Z; dd_column_name : cstr; dd_mode_mask : Z }.

Definition ALL_DELTA_DEFINITIONS : list delta_definition_t :=
  [ DeltaDef FIELD_CLT_APP_TX_TS FIELD_CLT_KER_TX_TS (lit "delta_d1_clt_app_tx_to_ker_tx_us") 15;
    DeltaDef FIELD_CLT_HW_RX_TS FIELD_CLT_KER_RX_TS (lit "delta_d6_clt_hw_rx_to_ker_rx_us") 2;
    DeltaDef FIELD_CLT_KER_RX_TS FIELD_CLT_APP_RX_TS (lit "delta_d7_clt_ker_rx_to_app_rx_us") 2;
    DeltaDef FIELD_CLT_APP_TX_TS FIELD_CLT_HW_RX_TS (lit "delta_rtt_d1_clt_app_tx_to_hw_rx_us") 2;
    DeltaDef FIELD_CLT_APP_TX_TS FIELD_CLT_APP_RX_TS (lit "delta_rtt_d2_clt_app_tx_to_app_rx_us") 2;
    DeltaDef FIELD_CLT_APP_TX_TSC_TS FIELD_CLT_APP_RX_TSC_TS (lit "delta_rtt_d3_clt_app_tx_tsc_to_app_rx_tsc_us") 2;
    DeltaDef FIELD_SVR_HW_RX_TS FIELD_SVR_KER_RX_TS (lit "delta_d2_svr_hw_rx_to_ker_rx_us") 12;
    DeltaDef FIELD_SVR_KER_RX_TS FIELD_SVR_APP_RX_TS (lit "delta_d3_svr_ker_rx_to_app_rx_us") 12;
    DeltaDef FIELD_SVR_APP_RX_TS FIELD_SVR_APP_TX_TS (lit "delta_d4_svr_app_rx_to_app_tx_us") 8;
    DeltaDef FIELD_SVR_APP_TX_TS FIELD_SVR_KER_TX_TS (lit "delta_d5_svr_app_tx_to_ker_tx_us") 8;
    DeltaDef FIELD_SVR_HW_RX_TS FIELD_SVR_APP_RX_TS (lit "delta_tt_d1_svr_hw_rx_to_app_rx_us") 12;
    DeltaDef FIELD_SVR_HW_RX_TS FIELD_SVR_KER_TX_TS (lit "delta_tt_d2_svr_hw_rx_to_ker_tx_us") 8;
    DeltaDef FIELD_CLT_KER_TX_TS FIELD_SVR_HW_RX_TS (lit "delta_net_clt_ker_tx_to_svr_hw_rx_us") 12;
    DeltaDef FIELD_SVR_KER_TX_TS FIELD_CLT_HW_RX_TS (lit "delta_net_svr_ker_tx_to_clt_hw_rx_us") 2;
    DeltaDef 0 0 [] 0 ].

Definition MODE_DELTA_CONFIGS : list (list nat) :=
  [ [0%nat]; [0; 1; 2; 3; 4; 5]%nat; [6; 7; 10]%nat; [6; 7; 8; 9; 10; 11]%nat; [0; 6; 7; 10; 12]%nat;
    [0; 1; 2; 3; 4; 5; 6; 7; 8; 9; 10; 11; 12; 13]%nat ].

(** Every mode and target has a configuration, so NULL is not a result. *)
Definition get_mode_delta_config (mode : operation_mode_t) (target : target_type_t) : list nat :=
  let config_index :=
    match mode, target with
    | MODE_ONE_WAY, TARGET_CLIENT => 0
    | MODE_ROUND_TRIP, TARGET_CLIENT => 1
    | MODE_ONE_WAY, TARGET_SERVER => 2
    | MODE_ROUND_TRIP, TARGET_SERVER => 3
    | MODE_ONE_WAY, TARGET_CLIENT_SERVER => 4
    | MODE_ROUND_TRIP, TARGET_CLIENT_SERVER => 5
    end in
  default [] (zget MODE_DELTA_CONFIGS config_index).

Definition delta_def (delta_idx : nat) : delta_definition_t :=
  default (DeltaDef 0 0 [] 0) (ALL_DELTA_DEFINITIONS !! delta_idx).

Definition calculate_mode_deltas (record : record_t) (mode : operation_mode_t) (target : target_type_t)
    : list delta_result_t :=
  map (fun delta_idx =>
         let def := delta_def delta_idx in
         let ts_a_ns := parse_timestamp_ns (record_ts record (dd_ts_a_field def)) in
         let ts_b_ns := parse_timestamp_ns (record_ts record (dd_ts_b_field def)) in
         calculate_delta_fast ts_a_ns ts_b_ns)
      (get_mode_delta_config mode target).

(** ** Header *)

Definition get_output_header_with_deltas (mode : operation_mode_t) (target : target_type_t) : cstr :=
  match mode with
  | MODE_ONE_WAY =>
      match target with
      | TARGET_CLIENT =>
          lit "clt_src_ip,clt_src_port,seq_num,clt_app_tx_ts,clt_ker_tx_ts,delta_d1_clt_app_tx_to_ker_tx_us"
      | TARGET_SERVER =>
          lit "clt_src_ip,clt_src_port,seq_num,svr_hw_rx_ts,svr_ker_rx_ts,svr_app_rx_ts,delta_d2_svr_hw_rx_to_ker_rx_us," ++
          lit "delta_d3_svr_ker_rx_to_app_rx_us,delta_tt_d1_svr_hw_rx_to_app_rx_us"
      | TARGET_CLIENT_SERVER =>
          lit "clt_src_ip,clt_src_port,seq_num,clt_app_tx_ts,clt_ker_tx_ts,svr_hw_rx_ts,svr_ker_rx_ts,svr_app_rx_ts," ++
          lit "delta_d1_clt_app_tx_to_ker_tx_us,delta_d2_svr_hw_rx_to_ker_rx_us,delta_d3_svr_ker_rx_to_app_rx_us," ++
          lit "delta_tt_d1_svr_hw_rx_to_app_rx_us,delta_net_clt_ker_tx_to_svr_hw_rx_us"
      end
  | MODE_ROUND_TRIP =>
      match target with
      | TARGET_CLIENT =>
          lit "clt_src_ip,clt_src_port,seq_num,clt_app_tx_tsc_ts,clt_app_tx_ts,clt_ker_tx_ts,clt_hw_rx_ts," ++
          lit "clt_ker_rx_ts,clt_app_rx_tsc_ts,clt_app_rx_ts,delta_d1_clt_app_tx_to_ker_tx_us,delta_d6_clt_hw_rx_to_ker_rx_us," ++
          lit "delta_d7_clt_ker_rx_to_app_rx_us,delta_rtt_d1_clt_app_tx_to_hw_rx_us,delta_rtt_d2_clt_app_tx_to_app_rx_us," ++
          lit "delta_rtt_d3_clt_app_tx_tsc_to_app_rx_tsc_us"
      | TARGET_SERVER =>
          lit "clt_src_ip,clt_src_port,seq_num,svr_hw_rx_ts,svr_ker_rx_ts,svr_app_rx_ts,svr_app_tx_ts,svr_ker_tx_ts," ++
          lit "delta_d2_svr_hw_rx_to_ker_rx_us,delta_d3_svr_ker_rx_to_app_rx_us,delta_d4_svr_app_rx_to_app_tx_us," ++
          lit "delta_d5_svr_app_tx_to_ker_tx_us,delta_tt_d1_svr_hw_rx_to_app_rx_us,delta_tt_d2_svr_hw_rx_to_ker_tx_us"
      | TARGET_CLIENT_SERVER =>
          lit "clt_src_ip,clt_src_port,seq_num,clt_app_tx_tsc_ts,clt_app_tx_ts,clt_ker_tx_ts,svr_hw_rx_ts," ++
          lit "svr_ker_rx_ts,svr_app_rx_ts,svr_app_tx_ts,svr_ker_tx_ts,clt_hw_rx_ts,clt_ker_rx_ts,clt_app_rx_tsc_ts," ++
          lit "clt_app_rx_ts,delta_d1_clt_app_tx_to_ker_tx_us,delta_d6_clt_hw_rx_to_ker_rx_us,delta_d7_clt_ker_rx_to_app_rx_us," ++
          lit "delta_rtt_d1_clt_app_tx_to_hw_rx_us,delta_rtt_d2_clt_app_tx_to_app_rx_us,delta_rtt_d3_clt_app_tx_tsc_to_app_rx_tsc_us," ++
          lit "delta_d2_svr_hw_rx_to_ker_rx_us,delta_d3_svr_ker_rx_to_app_rx_us,delta_d4_svr_app_rx_to_app_tx_us," ++
          lit "delta_d5_svr_app_tx_to_ker_tx_us,delta_tt_d1_svr_hw_rx_to_app_rx_us,delta_tt_d2_svr_hw_rx_to_ker_tx_us," ++
          lit "delta_net_clt_ker_tx_to_svr_hw_rx_us,delta_net_svr_ker_tx_to_clt_hw_rx_us"
      end
  end.
Definition get_output_header := get_output_header_with_deltas.

(** ** Rows *)

(** written += snprintf(output_line + written, max_len - written, ...): the
    length argument is a size_t, so it wraps when [written] exceeds [max_len]. *)
Definition emit (max_len : Z) (text : cstr) (out : cstr * Z) : cstr * Z :=
  let '(output_line, written) := out in
  (take (Z.to_nat written) output_line ++ snprintf_dst (u64 (max_len - written)) text,
   written + zlen text).

(** The timestamp fields of the snprintf call of each mode and target. *)
Definition output_fields (mode : operation_mode_t) (target : target_type_t) : list Z :=
  match mode with
  | MODE_ONE_WAY =>
      match target with
      | TARGET_CLIENT => [FIELD_CLT_APP_TX_TS; FIELD_CLT_KER_TX_TS]
      | TARGET_SERVER => [FIELD_SVR_HW_RX_TS; FIELD_SVR_KER_RX_TS; FIELD_SVR_APP_RX_TS]
      | TARGET_CLIENT_SERVER =>
          [FIELD_CLT_APP_TX_TS; FIELD_CLT_KER_TX_TS; FIELD_SVR_HW_RX_TS; FIELD_SVR_KER_RX_TS; FIELD_SVR_APP_RX_TS]
      end
  | MODE_ROUND_TRIP =>
      match target with
      | TARGET_CLIENT =>
          [FIELD_CLT_APP_TX_TSC_TS; FIELD_CLT_APP_TX_TS; FIELD_CLT_KER_TX_TS; FIELD_CLT_HW_RX_TS;
           FIELD_CLT_KER_RX_TS; FIELD_CLT_APP_RX_TSC_TS; FIELD_CLT_APP_RX_TS]
      | TARGET_SERVER =>
          [FIELD_SVR_HW_RX_TS; FIELD_SVR_KER_RX_TS; FIELD_SVR_APP_RX_TS; FIELD_SVR_APP_TX_TS; FIELD_SVR_KER_TX_TS]
      | TARGET_CLIENT_SERVER =>
          [FIELD_CLT_APP_TX_TSC_TS; FIELD_CLT_APP_TX_TS; FIELD_CLT_KER_TX_TS; FIELD_SVR_HW_RX_TS;
           FIELD_SVR_KER_RX_TS; FIELD_SVR_APP_RX_TS; FIELD_SVR_APP_TX_TS; FIELD_SVR_KER_TX_TS;
           FIELD_CLT_HW_RX_TS; FIELD_CLT_KER_RX_TS; FIELD_CLT_APP_RX_TSC_TS; FIELD_CLT_APP_RX_TS]
      end
  end.

(** The char delta_buffer[16] of one delta. *)
Definition delta_cell (d : delta_result_t) : cstr :=
  default [] (fst <$> format_delta_to_buffer d 16).

(** The line buffer and the value returned. *)
Definition format_output_record (record : record_t) (target_ip : cstr) (target_port : Z)
    (mode : operation_mode_t) (target : target_type_t) (max_len : Z) : cstr * Z :=
  let text := target_ip ++ COMMA :: fmt_u target_port ++ COMMA :: fmt_u (r_seq_num record) in
  let out := (snprintf_dst max_len text, zlen text) in
  let out := emit max_len (concat (map (fun f => COMMA :: record_ts record f) (output_fields mode target))) out in
  fold_left (fun out d => emit max_len (COMMA :: delta_cell d) out)
    (calculate_mode_deltas record mode target) out.

(** The content of the output file. *)
Definition output_content (target_ip : cstr) (target_port : Z) (mode : operation_mode_t)
    (target : target_type_t) (records : list record_t) : cstr :=
  get_output_header mode target ++ [NL] ++
  concat (map (fun r =>
    let '(output_line, written) :=
      format_output_record r target_ip target_port mode target (Z.of_nat MAX_LINE_LENGTH) in
    if 0 <? written then output_line ++ [NL] else []) records).
(** None is the result -1; [create_ok] is the answer of fopen(filename, w). *)
Definition write_output_csv (fs : gmap cstr cstr) (create_ok : bool) (filename : cstr)
    (records : list record_t) (target_ip : cstr) (target_port : Z) (mode : operation_mode_t)
    (target : target_type_t) : option (gmap cstr cstr) :=
  if create_ok then Some (<[filename := output_content target_ip target_port mode target records]> fs)
  else None.

(** ** No truncation *)

Lemma emit_fits max_len text line :
  zlen line + zlen text < max_len < 4294967296 ->
  emit max_len text (line, zlen line) = (line ++ text, zlen (line ++ text)).
Proof.
  intros H. pose proof (zlen_nonneg line). pose proof (zlen_nonneg text).
  unfold emit. rewrite u64_small by lia. f_equal.
  - unfold snprintf_dst. rewrite !take_ge; [done|unfold zlen in *; lia..].
  - unfold zlen. rewrite length_app. lia.
Qed.

Lemma emit_fold max_len (cells : list cstr) line :
  zlen line + zlen (concat (map (cons COMMA) cells)) < max_len < 4294967296 ->
  fold_left (fun out c => emit max_len (COMMA :: c) out) cells (line, zlen line) =
    (line ++ concat (map (cons COMMA) cells), zlen (line ++ concat (map (cons COMMA) cells))).
Proof.
  revert line. induction cells as [|c cells IH]; intros line H; cbn [fold_left map concat] in *.
  - by rewrite app_nil_r.
  - assert (zlen ((COMMA :: c) ++ concat (map (cons COMMA) cells)) =
      zlen (COMMA :: c) + zlen (concat (map (cons COMMA) cells))) as E by (unfold zlen; rewrite length_app; lia).
    rewrite E in H. pose proof (zlen_nonneg (concat (map (cons COMMA) cells))).
    rewrite emit_fits by lia. rewrite IH; [by rewrite <- !app_assoc|].
    unfold zlen in *. rewrite length_app. lia.
Qed.

Lemma delta_cell_length a b : (length (delta_cell (calculate_delta_fast a b)) <= 14)%nat.
Proof.
  unfold delta_cell, calculate_delta_fast. case_match; [simpl; lia|].
  change (length (snprintf_dst 16 (fmt_u (u32 (u64 (b - a) / 1000)) ++
            DOT :: fmt_u0 3 (u32 (u64 (b - a) mod 1000)))) <= 14)%nat.
  unfold snprintf_dst. rewrite length_take, length_app. cbn [length].
  pose proof (u32_range (u64 (b - a) / 1000)).
  pose proof (fmt_u_length (u32 (u64 (b - a) / 1000)) 10 ltac:(lia) ltac:(lia)).
  rewrite (u32_small (_ mod _)) by (pose proof (u64_range (b - a)); zlia).
  rewrite fmt_u0_length by zlia. lia.
Qed.

Lemma concat_cells_length k (cells : list cstr) :
  Forall (fun c => (length c <= k)%nat) cells ->
  (length (concat (map (cons COMMA) cells)) <= (k + 1) * length cells)%nat.
Proof.
  induction 1 as [|c cells Hc _ IH]; simpl; [lia|]. rewrite length_app. lia.
Qed.

Lemma record_ts_length r col : record_wf r -> (length (record_ts r col) <= 31)%nat.
Proof.
  intros [_ Hf]. unfold record_ts, zget. case_match; [simpl; lia|].
  destruct (r_timestamps r !! Z.to_nat col) eqn:E; [|simpl; lia]. by eapply Forall_lookup_1 in Hf.
Qed.

(** The cells of an output row after the address. *)
Definition row_cells (record : record_t) (port : Z) (mode : operation_mode_t) (target : target_type_t) : list cstr :=
  fmt_u port :: fmt_u (r_seq_num record) ::
  map (record_ts record) (output_fields mode target) ++
  map delta_cell (calculate_mode_deltas record mode target).

Lemma format_output_record_spec record ip port mode target :
  record_wf record -> 0 <= r_seq_num record < 4294967296 -> 0 <= port < 65536 -> (length ip <= 15)%nat ->
  format_output_record record ip port mode target 2048 =
    (join_commas ip (row_cells record port mode target), zlen (join_commas ip (row_cells record port mode target))) /\
  zlen (join_commas ip (row_cells record port mode target)) < 2048.
Proof.
  intros Hw Hseq Hp Hip.
  pose proof (fmt_u_length port 5 ltac:(lia) ltac:(lia)) as Lp.
  pose proof (fmt_u_length (r_seq_num record) 10 ltac:(lia) ltac:(lia)) as Ls.
  set (head_text := ip ++ COMMA :: fmt_u port ++ COMMA :: fmt_u (r_seq_num record)).
  assert (zlen head_text <= 32) as Lh.
  { unfold head_text, zlen. rewrite length_app. cbn [length]. rewrite length_app. cbn [length]. lia. }
  set (ts := map (record_ts record) (output_fields mode target)).
  set (ds := map delta_cell (calculate_mode_deltas record mode target)).
  assert (zlen (concat (map (cons COMMA) ts)) <= 384) as Lts.
  { unfold zlen. pose proof (concat_cells_length 31 ts) as H.
    assert (length ts <= 12)%nat by (unfold ts; rewrite length_map; destruct mode, target; simpl; lia).
    assert (Forall (fun c => length c <= 31)%nat ts); [|specialize (H ltac:(done)); lia].
    apply Forall_map, Forall_forall. intros col _. by apply record_ts_length. }
  assert (zlen (concat (map (cons COMMA) ds)) <= 210) as Lds.
  { unfold zlen. pose proof (concat_cells_length 14 ds) as H.
    assert (length ds <= 14)%nat
      by (unfold ds, calculate_mode_deltas; rewrite !length_map; destruct mode, target; simpl; lia).
    assert (Forall (fun c => length c <= 14)%nat ds); [|specialize (H ltac:(done)); lia].
    apply Forall_map, Forall_map, Forall_forall. intros i _. apply delta_cell_length. }
  assert (join_commas ip (row_cells record port mode target) =
          head_text ++ concat (map (cons COMMA) ts) ++ concat (map (cons COMMA) ds)) as ->.
  { unfold join_commas, row_cells, head_text. cbn [map concat]. rewrite map_app, concat_app.
    fold ts ds. by rewrite <- !app_assoc, <- !app_comm_cons, <- !app_assoc. }
  split; [|unfold zlen in *; rewrite !length_app; lia].
  unfold format_output_record. fold head_text.
  assert (snprintf_dst 2048 head_text = head_text) as -> by (apply take_ge; unfold zlen in *; lia).
  rewrite <- (map_map (record_ts record) (cons COMMA)). fold ts.
  rewrite emit_fits by lia.
  assert (forall ds' out, fold_left (fun out d => emit 2048 (COMMA :: delta_cell d) out) ds' out =
    fold_left (fun out c => emit 2048 (COMMA :: c) out) (map delta_cell ds') out) as ->.
  { intros ds'. induction ds' as [|d ds' IH]; intros out; [done|]. cbn [fold_left map]. apply IH. }
  fold ds. rewrite emit_fold.
  - by rewrite <- app_assoc.
  - unfold zlen in *. rewrite length_app. lia.
Qed.

(** ** Properties *)

(** The header name of a timestamp field. *)
Definition field_name (f : Z) : cstr :=
  default [] (zget
    [ lit "clt_app_tx_tsc_ts"; lit "clt_app_tx_ts"; lit "clt_ker_tx_ts"; lit "svr_hw_rx_ts";
      lit "svr_ker_rx_ts"; lit "svr_app_rx_ts"; lit "svr_app_tx_ts"; lit "svr_ker_tx_ts";
      lit "clt_hw_rx_ts"; lit "clt_ker_rx_ts"; lit "clt_app_rx_tsc_ts"; lit "clt_app_rx_ts" ] f).

(** C33: an output row holds, uncut, the client address and port, the sequence
    number, the timestamps of the mode and the deltas of the mode, separated by
    commas, and fits the 2048 byte line buffer; each cell stands under the header
    column that names its field or its delta. *)
Theorem output_row_matches_header (record : record_t) (ip : cstr) (port : Z)
    (mode : operation_mode_t) (target : target_type_t) :
  record_wf record -> 0 <= r_seq_num record < 4294967296 -> 0 <= port < 65536 -> (length ip <= 15)%nat ->
  let names := map field_name (output_fields mode target) ++
               map (fun i => dd_column_name (delta_def i)) (get_mode_delta_config mode target) in
  let cells := map (record_ts record) (output_fields mode target) ++
               map (fun i => delta_cell (calculate_delta_fast
                      (parse_timestamp_ns (record_ts record (dd_ts_a_field (delta_def i))))
                      (parse_timestamp_ns (record_ts record (dd_ts_b_field (delta_def i))))))
                   (get_mode_delta_config mode target) in
  let row := join_commas ip (fmt_u port :: fmt_u (r_seq_num record) :: cells) in
  get_output_header mode target = join_commas (lit "clt_src_ip") (lit "clt_src_port" :: lit "seq_num" :: names) /\
  length names = length cells /\
  format_output_record record ip port mode target (Z.of_nat MAX_LINE_LENGTH) = (row, zlen row) /\
  zlen row < Z.of_nat MAX_LINE_LENGTH.
Proof.
  intros Hw Hseq Hp Hip names cells row.
  change (Z.of_nat MAX_LINE_LENGTH) with 2048.
  assert (row = join_commas ip (row_cells record port mode target)) as ->.
  { unfold row, cells, row_cells, calculate_mode_deltas. by rewrite map_map. }
  destruct (format_output_record_spec record ip port mode target Hw Hseq Hp Hip) as [H1 H2].
  split_and!; [|unfold names, cells; by rewrite !length_app, !length_map|done..].
  unfold names. destruct mode, target; reflexivity.
Qed.

Lemma output_row_matches_header_witness :
  format_output_record (fresh_record 7) (lit "10.0.0.1") 5000 MODE_ONE_WAY TARGET_CLIENT (Z.of_nat MAX_LINE_LENGTH)
    = (lit "10.0.0.1,5000,7,NULL,NULL,NULL", 30).
Proof.
  exact (proj1 (proj2 (proj2 (output_row_matches_header (fresh_record 7) (lit "10.0.0.1") 5000 MODE_ONE_WAY TARGET_CLIENT
    (fresh_record_wf 7) ltac:(simpl; lia) ltac:(lia) ltac:(simpl; lia))))).
Defined.
