(* ===== verification/Join.v ===== *)
(** The join operation of timestamp_csvjoin.c from the files to the output, and
    its agreement with the files the client and the server log. *)

From S2P Require Import Prelude CText CsvLog JoinParse JoinSeq JoinTable JoinOut.

Record config_t := Config {
  cfg_target_ip : cstr; cfg_target_port : Z; cfg_mode : operation_mode_t; cfg_target : target_type_t;
  cfg_input_files : list cstr; cfg_output_file : cstr; cfg_detected_types : list file_type_t }.

(** Answers of the C library: allocations and the creation of the output. *)
Record join_env := JoinEnv {
  je_realloc : nat -> nat -> bool; je_malloc : bool; je_calloc : bool; je_create : bool }.
Definition env_ok (env : join_env) : Prop :=
  (forall i n, je_realloc env i n = true) /\ je_malloc env = true /\ je_calloc env = true /\
  je_create env = true.

(** The loop over the input files of process_join_operation. *)
Fixpoint populate_all (fs : gmap cstr cstr) (files : list (cstr * file_type_t)) (target_ip : cstr)
    (target_port : Z) (records : list record_t) : option (list record_t) :=
  match files with
  | [] => Some records
  | (file, type) :: files =>
      match populate_timestamps_from_file fs file type target_ip target_port records with
      | None => None
      | Some (records, _) => populate_all fs files target_ip target_port records
      end
  end.

(** None is the result -1; otherwise the file system after the operation. *)
Definition process_join_operation (env : join_env) (fs : gmap cstr cstr) (config : config_t)
    : option (gmap cstr cstr) :=
  match find_common_sequences fs (je_realloc env) (je_malloc env) (cfg_input_files config)
          (cfg_target_ip config) (cfg_target_port config) with
  | None => None
  | Some common_seqs =>
      if (length common_seqs =? 0)%nat then Some fs
      else match create_record_table common_seqs (je_calloc env) with
           | None => None
           | Some records =>
               match populate_all fs (zip (cfg_input_files config) (cfg_detected_types config))
                       (cfg_target_ip config) (cfg_target_port config) records with
               | None => None
               | Some records =>
                   write_output_csv fs (je_create env) (cfg_output_file config) records
                     (cfg_target_ip config) (cfg_target_port config) (cfg_mode config) (cfg_target config)
               end
           end
  end.

(** ** Specification *)

(** The record of a sequence number after all files: the last row that offers a
    column decides it. *)
Definition joined_record (ip : cstr) (port : Z) (files : list (cstr * file_type_t)) (seq : Z) : record_t :=
  fold_left (fun r f => fill_record (snd f) (file_rows ip port (fst f)) r) files (fresh_record seq).

Lemma read_record_range ip port buf fields seq :
  read_record ip port buf = Some (fields, seq) -> 0 <= seq < 4294967296.
Proof.
  unfold read_record. cbn zeta. intros H. destruct (length (chomp buf) =? 0)%nat; [done|].
  destruct (length (parse_csv_line _ _) <? 3)%nat; [done|]. destruct (negb _); [done|].
  destruct (extract_sequence_number _) as [s|] eqn:E; simplify_eq.
  unfold extract_sequence_number in E. destruct (length _ <? 3)%nat; [done|]. destruct (strtol _) as [v rest].
  destruct (_ || _); simplify_eq. apply u32_range.
Qed.

Lemma file_seqs_range ip port content seq : seq ∈ file_seqs ip port content -> 0 <= seq < 4294967296.
Proof.
  unfold file_seqs, file_rows. intros ([fields s] & -> & Hin)%list_elem_of_fmap.
  apply list_elem_of_omap in Hin as (buf & _ & H). by eapply read_record_range.
Qed.

Lemma populate_all_spec fs files types contents ip port records :
  mapM (fun f => fs !! f) files = Some contents -> length types = length files -> table_sorted records ->
  populate_all fs (zip files types) ip port records =
    Some (map (fun r => fold_left (fun r f => fill_record (snd f) (file_rows ip port (fst f)) r) (zip contents types) r) records).
Proof.
  intros Hm%mapM_Some. revert types records. induction Hm as [|f c files contents Hf _ IH]; intros types records Hl Hs.
  - destruct types; [|done]. simpl. by rewrite map_id.
  - destruct types as [|ty types]; [done|]. injection Hl as Hl. simpl.
    unfold populate_timestamps_from_file. rewrite Hf.
    pose proof (populate_loop_spec ty ip port (data_lines c) records 0 Hs) as Hp.
    destruct (populate_loop _ _ _ _ _ _) as [records' n]. cbn [fst] in Hp. subst records'.
    rewrite IH; [by rewrite map_map|done|].
    apply table_sorted_map; [|done]. intros r. apply fill_record_seq.
Qed.

Lemma joined_record_seq ip port files seq : r_seq_num (joined_record ip port files seq) = seq.
Proof.
  unfold joined_record. change seq with (r_seq_num (fresh_record seq)) at 2.
  generalize (fresh_record seq). induction files as [|f files IH]; intros r; simpl; [done|].
  by rewrite IH, fill_record_seq.
Qed.

Lemma joined_record_ts ip port files seq :
  record_wf (joined_record ip port files seq) /\
  forall col, 0 <= col < 20 ->
    record_ts (joined_record ip port files seq) col =
    default (lit "NULL") (last (concat (map (fun f => offers (snd f) (file_rows ip port (fst f)) seq col) files))).
Proof.
  unfold joined_record.
  assert (forall r, record_wf r -> r_seq_num r = seq ->
    let r' := fold_left (fun r f => fill_record (snd f) (file_rows ip port (fst f)) r) files r in
    record_wf r' /\ forall col, 0 <= col < 20 -> record_ts r' col =
      default (record_ts r col) (last (concat (map (fun f => offers (snd f) (file_rows ip port (fst f)) seq col) files)))) as H.
  { induction files as [|f files IH]; intros r Hw Hseq; simpl; [done|].
    destruct (fill_record_ts (snd f) (file_rows ip port (fst f)) r Hw) as [Hw' Hts].
    destruct (IH _ Hw' ltac:(by rewrite fill_record_seq)) as [H1 H2]. split; [done|].
    intros col Hcol. rewrite H2, Hts, Hseq, last_app by done. by destruct (last (concat _)). }
  destruct (H (fresh_record seq) (fresh_record_wf seq) eq_refl) as [H1 H2].
  split; [done|]. intros col Hcol. by rewrite H2, fresh_record_ts by done.
Qed.

(** The row of a sequence number. *)
Definition joined_row (config : config_t) (contents : list cstr) (seq : Z) : cstr :=
  join_commas (cfg_target_ip config)
    (row_cells (joined_record (cfg_target_ip config) (cfg_target_port config)
                  (zip contents (cfg_detected_types config)) seq)
       (cfg_target_port config) (cfg_mode config) (cfg_target config)).

Definition config_wf (config : config_t) : Prop :=
  0 <= cfg_target_port config < 65536 /\ (length (cfg_target_ip config) <= 15)%nat /\
  length (cfg_detected_types config) = length (cfg_input_files config).

Lemma join_commas_nonempty f c cs : 0 < zlen (join_commas f (c :: cs)).
Proof. unfold zlen, join_commas. cbn [map concat]. rewrite !length_app. cbn [length]. lia. Qed.

Lemma output_content_rows config contents l :
  config_wf config -> Forall (fun s => 0 <= s < 4294967296) l ->
  output_content (cfg_target_ip config) (cfg_target_port config) (cfg_mode config) (cfg_target config)
    (map (joined_record (cfg_target_ip config) (cfg_target_port config) (zip contents (cfg_detected_types config))) l) =
  get_output_header (cfg_mode config) (cfg_target config) ++ [NL] ++
    concat (map (fun s => joined_row config contents s ++ [NL]) l).
Proof.
  intros (Hp & Hip & _) Hl. unfold output_content. do 3 f_equal. rewrite map_map.
  apply map_ext_in. intros s Hs%list_elem_of_In. eapply Forall_forall in Hl; [|done].
  change (Z.of_nat MAX_LINE_LENGTH) with 2048.
  set (r := joined_record _ _ _ s).
  destruct (format_output_record_spec r (cfg_target_ip config) (cfg_target_port config) (cfg_mode config)
    (cfg_target config)) as [-> _].
  - apply joined_record_ts. - unfold r. by rewrite joined_record_seq. - done. - done.
  - rewrite (proj2 (Z.ltb_lt _ _)); [done|]. apply join_commas_nonempty.
Qed.

Lemma process_join_spec (env : join_env) (fs : gmap cstr cstr) (config : config_t) (contents : list cstr) :
  env_ok env -> config_wf config -> mapM (fun f => fs !! f) (cfg_input_files config) = Some contents ->
  exists seqs, is_common (cfg_target_ip config) (cfg_target_port config) contents seqs /\
    process_join_operation env fs config =
      Some (if (length seqs =? 0)%nat then fs else
            <[cfg_output_file config :=
                get_output_header (cfg_mode config) (cfg_target config) ++ [NL] ++
                concat (map (fun s => joined_row config contents s ++ [NL]) seqs)]> fs).
Proof.
  intros (Hre & Hma & Hca & Hcr) Hw Hm. unfold process_join_operation. rewrite Hma.
  destruct (find_common_spec fs (je_realloc env) _ (cfg_target_ip config) (cfg_target_port config) contents Hm Hre)
    as (seqs & -> & Hc).
  exists seqs. split; [done|].
  destruct (Nat.eqb_spec (length seqs) 0) as [H0|H0]; [done|].
  unfold create_record_table. rewrite (proj2 (Nat.eqb_neq _ _) H0), Hca. cbn [negb].
  change (map (fun seq => MkRecord seq _ 0) seqs) with (map fresh_record seqs).
  rewrite (populate_all_spec fs _ _ contents).
  - unfold write_output_csv. rewrite Hcr, map_map. do 2 f_equal.
    apply (output_content_rows config contents seqs Hw).
    apply Forall_forall. intros s Hs. destruct Hc as [_ Hc]. apply Hc in Hs as [Hne Hall].
    destruct contents as [|c contents]; [done|]. apply Forall_cons in Hall as [Hall _].
    by eapply file_seqs_range.
  - done.
  - apply Hw.
  - unfold table_sorted. rewrite map_map, map_id. apply Hc.
Qed.

(** ** Properties *)

(** C6: a join whose input files exist and whose allocations succeed computes the
    sequence numbers common to all files.  With none it writes nothing; otherwise
    the output file is the header and one row per common sequence number, in
    increasing order, holding for each timestamp field the value of the last row,
    over the files in order, that offers it, or NULL; no other file changes. *)
Theorem process_join_correct (env : join_env) (fs : gmap cstr cstr) (config : config_t) (contents : list cstr) :
  env_ok env -> config_wf config -> mapM (fun f => fs !! f) (cfg_input_files config) = Some contents ->
  exists seqs, is_common (cfg_target_ip config) (cfg_target_port config) contents seqs /\
    process_join_operation env fs config =
      Some (if (length seqs =? 0)%nat then fs else
            <[cfg_output_file config :=
                get_output_header (cfg_mode config) (cfg_target config) ++ [NL] ++
                concat (map (fun s => joined_row config contents s ++ [NL]) seqs)]> fs) /\
    forall s col, s ∈ seqs -> 0 <= col < 20 ->
      record_ts (joined_record (cfg_target_ip config) (cfg_target_port config)
                   (zip contents (cfg_detected_types config)) s) col =
      default (lit "NULL") (last (concat (map (fun f =>
        offers (snd f) (file_rows (cfg_target_ip config) (cfg_target_port config) (fst f)) s col)
        (zip contents (cfg_detected_types config))))).
Proof.
  intros He Hw Hm. destruct (process_join_spec env fs config contents He Hw Hm) as (seqs & H1 & H2).
  exists seqs. split; [done|]. split; [done|]. intros s col _ Hcol. by apply joined_record_ts.
Qed.

(** Two client files with one common sequence number. *)
Definition demo_entry : csv_entry_t :=
  create_csv_client_oneway_main 7 (lit "10.0.0.1") 5000 1000000001500.
Definition demo_tx_entry : csv_entry_t :=
  create_csv_client_oneway_tx 7 (lit "10.0.0.1") 5000 1000000004750.
Definition demo_main : cstr :=
  get_csv_header CSV_CLIENT_MAIN_ONEWAY ++ csv_lines CSV_CLIENT_MAIN_ONEWAY [demo_entry].
Definition demo_tx : cstr := get_csv_header CSV_CLIENT_TX ++ csv_lines CSV_CLIENT_TX [demo_tx_entry].
Definition demo_fs : gmap cstr cstr := <[lit "main.csv" := demo_main]> {[ lit "tx.csv" := demo_tx ]}.
Definition demo_config : config_t :=
  Config (lit "10.0.0.1") 5000 MODE_ONE_WAY TARGET_CLIENT [lit "main.csv"; lit "tx.csv"] (lit "out.csv")
    [FILE_CLIENT_ONEWAY_MAIN; FILE_CLIENT_ONEWAY_TX].
Definition demo_env : join_env := JoinEnv (fun _ _ => true) true true true.

Lemma process_join_correct_witness :
  (exists seqs, is_common (lit "10.0.0.1") 5000 [demo_main; demo_tx] seqs) /\
  process_join_operation demo_env demo_fs demo_config =
    Some (<[lit "out.csv" := get_output_header MODE_ONE_WAY TARGET_CLIENT ++ [NL] ++
            lit "10.0.0.1,5000,7,1000.000001500,1000.000004750,3.250" ++ [NL]]> demo_fs).
Proof.
  split; [|vm_compute; reflexivity].
  destruct (process_join_correct demo_env demo_fs demo_config [demo_main; demo_tx]
    ltac:(repeat split) ltac:(split; [simpl; lia|split; [simpl; lia|reflexivity]]) eq_refl) as (seqs & H & _).
  exists seqs. exact H.
Defined.

(** ** Files written by the loggers *)

(** The element of csv_entry_t.timestamp_ns that becomes each output field. *)
Definition field_ts_index (col : Z) : Z :=
  default 0 (zget [0; 1; 2; 7; 8; 9; 10; 11; 3; 4; 5; 6] col).

Definition loggable (e : csv_entry_t) : Prop :=
  csv_entry_wf e /\ clean (ce_src_ip e) /\ ce_src_ip e <> [] /\ head (ce_src_ip e) <> Some DQUOTE.
Definition from_client (ip : cstr) (port : Z) (e : csv_entry_t) : Prop :=
  ce_src_ip e = ip /\ ce_src_port e = port.
#[export] Instance from_client_dec ip port e : Decision (from_client ip port e).
Proof. unfold from_client. apply _. Defined.

Definition entry_fields (ty : csv_type_t) (e : csv_entry_t) : list cstr :=
  ce_src_ip e :: fmt_u (ce_src_port e) :: fmt_u (ce_seq_num e) ::
  map (fun i => fmt_ts (ts_at e i)) (csv_ts_columns ty).

Lemma read_record_entry ty e ip port :
  loggable e ->
  read_record ip port (format_csv_entry ty e) =
    if decide (from_client ip port e) then Some (entry_fields ty e, ce_seq_num e) else None.
Proof.
  intros (Hw & Hip & Hne & Hq). pose proof (entry_fields_clean ty e Hw Hip) as Hc.
  pose proof Hw as [Hs _ _ Hp]. unfold read_record.
  assert (chomp (format_csv_entry ty e) = format_csv_columns ty e) as ->.
  { unfold chomp, format_csv_entry. rewrite format_csv_columns_join.
    apply chomp_line; [by apply join_commas_nul_free|by apply join_commas_not_in..]. }
  rewrite format_csv_columns_join.
  assert (length (join_commas (ce_src_ip e) (fmt_u (ce_src_port e) :: fmt_u (ce_seq_num e) ::
    map (fun i => fmt_ts (ts_at e i)) (csv_ts_columns ty))) <> 0%nat) as Hl.
  { unfold join_commas. rewrite length_app. by destruct (ce_src_ip e). }
  rewrite (proj2 (Nat.eqb_neq _ _) Hl). rewrite parse_join_commas; [|done..|].
  2:{ cbn [length]. rewrite length_map. unfold MAX_CSV_FIELDS. destruct ty; simpl; lia. }
  fold (entry_fields ty e). cbn zeta.
  assert ((length (entry_fields ty e) <? 3)%nat = false) as H3.
  { unfold entry_fields. cbn [length]. by apply Nat.ltb_ge; lia. }
  assert (extract_sequence_number (entry_fields ty e) = Some (ce_seq_num e)) as ->.
  { unfold extract_sequence_number. rewrite H3. unfold field. change (entry_fields ty e !! 2%nat) with (Some (fmt_u (ce_seq_num e))).
    cbn [default from_option id]. rewrite strtol_fmt_u_end by (unfold LONG_MAX; lia).
    rewrite bool_decide_eq_true_2 by done. rewrite (proj2 (Z.ltb_ge _ _)) by lia.
    rewrite (proj2 (Z.ltb_ge _ _)) by (unfold UINT32_MAX; lia). cbn [negb orb]. by rewrite u32_small by lia. }
  unfold validate_record_match. rewrite H3. unfold field.
  change (entry_fields ty e !! 0%nat) with (Some (ce_src_ip e)).
  change (entry_fields ty e !! 1%nat) with (Some (fmt_u (ce_src_port e))). cbn [default from_option id].
  unfold atoi. rewrite strtol_fmt_u_end by (unfold LONG_MAX; lia). cbn [fst]. rewrite s32_small, u16_small by lia.
  unfold from_client. case_bool_decide as H1; cbn [negb].
  - destruct (Z.eqb_spec (ce_src_port e) port); case_decide; naive_solver.
  - case_decide; naive_solver.
Qed.

Lemma entry_line_short ty e :
  loggable e -> NL ∉ format_csv_columns ty e /\ (length (format_csv_columns ty e) < MAX_LINE_LENGTH - 1)%nat.
Proof.
  intros (Hw & Hip & _). pose proof (entry_fields_clean ty e Hw Hip) as Hc. split.
  - rewrite format_csv_columns_join. by apply join_commas_not_in.
  - pose proof (format_csv_entry_length ty e Hw) as H. unfold zlen, format_csv_entry in H.
    rewrite length_app in H. unfold MAX_LINE_LENGTH. lia.
Qed.

(** The join program finds the logged records of a client, and only those. *)
Lemma file_rows_of_log ty es ip port :
  Forall loggable es ->
  file_rows ip port (get_csv_header ty ++ csv_lines ty es) =
    map (fun e => (entry_fields ty e, ce_seq_num e)) (base.filter (from_client ip port) es).
Proof.
  intros He. unfold file_rows, data_lines.
  assert (get_csv_header ty ++ csv_lines ty es =
    concat (map (fun l => l ++ [NL]) (csv_header_columns ty :: map (format_csv_columns ty) es))) as ->.
  { unfold get_csv_header, csv_lines. cbn [map concat]. by rewrite map_map. }
  rewrite fgets_all_lines.
  - cbn [map tail]. rewrite map_map. change (fun x => format_csv_columns ty x ++ [NL]) with (format_csv_entry ty).
    induction He as [|e es He _ IH]; [done|]. cbn [map]. rewrite filter_cons.
    pose proof (read_record_entry ty e ip port He) as Hr. case_decide.
    + rewrite (omap_cons_some _ _ _ _ Hr). cbn [map]. by rewrite IH.
    + rewrite (omap_cons_none _ _ _ Hr). done.
  - constructor.
    + destruct (header_line ty) as [? ?]. split; [done|]. unfold MAX_LINE_LENGTH. lia.
    + apply Forall_map. eapply Forall_impl; [done|]. intros e H. by apply entry_line_short.
Qed.

Lemma entry_fields_offer ty e col :
  csv_entry_wf e -> 0 <= col < 12 ->
  (file_min_fields (logged_file_type ty) <=? length (entry_fields ty e))%nat = true /\
  map (fun a => strncpy (field (entry_fields ty e) (snd a)) 31)
      (base.filter (fun a => fst a = col) (file_columns (logged_file_type ty))) =
  if bool_decide (field_ts_index col ∈ csv_ts_columns ty) then [fmt_ts (ts_at e (field_ts_index col))] else [].
Proof.
  intros Hw Hcol. assert (forall i, strncpy (fmt_ts (ts_at e i)) 31 = fmt_ts (ts_at e i)) as Hcut.
  { intros i. apply take_ge. pose proof (fmt_ts_length _ (ts_at_range e i Hw)). lia. }
  split; [by destruct ty|].
  assert (col = 0 \/ col = 1 \/ col = 2 \/ col = 3 \/ col = 4 \/ col = 5 \/ col = 6 \/ col = 7 \/ col = 8 \/
          col = 9 \/ col = 10 \/ col = 11) as Hc by lia.
  destruct ty; repeat (destruct Hc as [->|Hc]; [first [reflexivity|exact (f_equal (fun x => [x]) (Hcut _))]|]);
    subst col; first [reflexivity|exact (f_equal (fun x => [x]) (Hcut _))].
Qed.

(** Loggers and join agree on the columns.  In a file of logged entries, the
    values the join program finds for an output field and a sequence number are
    the printed timestamps of the client's entries with that number, taken from
    the timestamp the field is named after, when the log has that column, and
    nothing otherwise. *)
Theorem logged_columns_agree (ty : csv_type_t) (es : list csv_entry_t) (ip : cstr) (port seq col : Z) :
  Forall loggable es -> 0 <= col < 12 ->
  offers (logged_file_type ty) (file_rows ip port (get_csv_header ty ++ csv_lines ty es)) seq col =
    if bool_decide (field_ts_index col ∈ csv_ts_columns ty)
    then map (fun e => fmt_ts (ts_at e (field_ts_index col)))
             (base.filter (fun e => from_client ip port e /\ ce_seq_num e = seq) es)
    else [].
Proof.
  intros He Hcol. rewrite file_rows_of_log by done. unfold offers. rewrite map_map. cbn [fst snd].
  induction He as [|e es (Hw & _) _ IH]; [by case_bool_decide|]. rewrite !filter_cons.
  destruct (entry_fields_offer ty e col Hw Hcol) as [Hmin Hoff].
  destruct (decide (from_client ip port e)) as [Hf|Hf].
  - cbn [map concat]. rewrite IH, Hmin, andb_true_r, Hoff.
    destruct (Z.eqb_spec (ce_seq_num e) seq) as [E|E].
    + rewrite decide_True by done. by case_bool_decide.
    + rewrite decide_False by (by intros [_ ?]). done.
  - rewrite IH. rewrite decide_False by (by intros [? _]). done.
Qed.

Lemma demo_loggable : loggable demo_entry.
Proof.
  split; [|split_and!; [|done|done]].
  - split; [simpl; lia| |simpl; lia|simpl; lia]. apply (ts_wf_set _ _ ts_wf_zero). repeat constructor; lia.
  - apply (bool_decide_unpack _). vm_compute. exact I.
Qed.

Lemma logged_columns_agree_witness :
  offers FILE_CLIENT_ONEWAY_MAIN (file_rows (lit "10.0.0.1") 5000 demo_main) 7 FIELD_CLT_APP_TX_TS =
    [lit "1000.000001500"].
Proof.
  exact (logged_columns_agree CSV_CLIENT_MAIN_ONEWAY [demo_entry] (lit "10.0.0.1") 5000 7 1
    (Forall_cons_2 _ _ _ demo_loggable (Forall_nil_2 _)) ltac:(lia)).
Defined.
