(* ===== verification/Measurement.v ===== *)
(** A one-way measurement from the sockets to the joined table: the client's
    sending loop and its TX timestamps, the server's receive loop, the three log
    files that their writer threads leave, and the table that the join makes of
    them. *)

From S2P Require Import Prelude CText Ring Wire CsvLog CsvRing StatsCollector TxStamps MainLoop ServerRx Client JoinParse JoinSeq JoinTable JoinOut Join.

(** ** A log from its enqueues to its file *)

(** The life of a log file: the state after its creation, and the calls of
    csv_enqueue_fast with the turns of the writer thread in between. *)
Record log_run := LogRun { lr_start : csv_log; lr_events : list csv_event }.
Definition enqueued (evs : list csv_event) : list csv_entry_t :=
  omap (fun ev => match ev with EvEnqueue e => Some e | EvWrite _ => None end) evs.
Definition run_file (r : log_run) : cstr := cl_file (csv_writer_thread (lr_start r) (lr_events r) WriteAll).
(** What reaches the file: the entries accepted, but for those that the last flush
    leaves. *)
Definition written (r : log_run) : list csv_entry_t :=
  let accepted := csv_accepted (lr_start r) (lr_events r) in
  let pending := ring_contents (cl_buffer (fold_left csv_log_step (lr_events r) (lr_start r))) in
  take (length accepted - (length pending - Z.to_nat (cb_batch_size (cl_buffer (lr_start r))))) accepted.
(** A log of type [ty], new, whose producer enqueues [es]; no write fails. *)
Record log_of (ty : csv_type_t) (es : list csv_entry_t) (r : log_run) : Prop := {
  lo_wf : csv_log_wf (lr_start r);
  lo_empty : ring_contents (cl_buffer (lr_start r)) = [];
  lo_type : cb_csv_type (cl_buffer (lr_start r)) = ty;
  lo_file : cl_file (lr_start r) = get_csv_header ty;
  lo_events : Forall (fun ev => match ev with EvEnqueue _ => True | EvWrite o => o = WriteAll end) (lr_events r);
  lo_entries : enqueued (lr_events r) = es }.

Definition log_text (ty : csv_type_t) (es : list csv_entry_t) : cstr := get_csv_header ty ++ csv_lines ty es.

Lemma accepted_sublist st evs : csv_accepted st evs `sublist_of` enqueued evs.
Proof.
  revert st. induction evs as [|[e|o] evs IH]; intros st; cbn [csv_accepted enqueued omap list_omap]; [done| |exact (IH _)].
  destruct (_ =? 0); [by apply sublist_skip, IH|by apply sublist_cons, IH].
Qed.
Lemma written_sublist ty es r : log_of ty es r -> written r `sublist_of` es.
Proof. intros [_ _ _ _ _ <-]. etrans; [apply sublist_take|apply accepted_sublist]. Qed.
Lemma run_file_text ty es r : log_of ty es r -> Forall csv_entry_wf es -> run_file r = log_text ty (written r).
Proof.
  intros [Hw He Ht Hf Hev Hes] Hwf. unfold run_file, log_text, written.
  assert (Forall ev_ok (lr_events r)) as Hok.
  { subst es. clear -Hev Hwf. induction Hev as [|[e|o] evs Ho _ IH]; [done|..]; cbn in Hwf; [|by constructor; auto].
    apply Forall_cons in Hwf as [? ?]. constructor; [done|by apply IH]. }
  destruct (csv_flush_file _ _ Hw Hok) as (w & Ha & ->). rewrite He in Ha. cbn [app] in Ha.
  set (pending := ring_contents (cl_buffer (fold_left csv_log_step (lr_events r) (lr_start r)))) in *.
  rewrite Ht, Hf. do 2 f_equal. rewrite Ha, length_app, take_app.
  rewrite (take_ge w) by lia. f_equal.
  replace (length w + length pending - (length pending - Z.to_nat (cb_batch_size (cl_buffer (lr_start r)))) - length w)%nat
    with (Nat.min (Z.to_nat (cb_batch_size (cl_buffer (lr_start r)))) (length pending)) by lia.
  destruct (Nat.min_spec (Z.to_nat (cb_batch_size (cl_buffer (lr_start r)))) (length pending)) as [[_ ->]|[? ->]]; [done|].
  by rewrite !take_ge by lia.
Qed.

(** ** Joining logs *)

Definition log_files (logs : list (csv_type_t * list csv_entry_t)) : list (cstr * file_type_t) :=
  map (fun l => (log_text (fst l) (snd l), logged_file_type (fst l))) logs.
(** The entries of one client for a sequence number. *)
Definition of_client (ip : cstr) (port seq : Z) (es : list csv_entry_t) : list csv_entry_t :=
  base.filter (fun e => from_client ip port e /\ ce_seq_num e = seq) es.
Definition has_column (col : Z) (l : csv_type_t * list csv_entry_t) : Prop := field_ts_index col ∈ csv_ts_columns (fst l).
#[export] Instance has_column_dec col l : Decision (has_column col l).
Proof. unfold has_column. apply _. Defined.

Lemma file_seqs_of_log ty es ip port seq : Forall loggable es -> seq ∈ file_seqs ip port (log_text ty es) <-> of_client ip port seq es <> [].
Proof.
  intros He. unfold file_seqs, log_text. rewrite file_rows_of_log, map_map by done. cbn [snd]. split.
  - intros (e & -> & [Hf Hin]%list_elem_of_filter)%list_elem_of_fmap Hn.
    assert (e ∈ of_client ip port (ce_seq_num e) es) as H by (by apply list_elem_of_filter).
    rewrite Hn in H. by apply not_elem_of_nil in H.
  - destruct (of_client ip port seq es) as [|e l] eqn:E; [done|]. intros _.
    assert (e ∈ of_client ip port seq es) as [[Hf Hs] Hin]%list_elem_of_filter by (rewrite E; left).
    apply list_elem_of_fmap. exists e. split; [done|]. by apply list_elem_of_filter.
Qed.

(** A timestamp of the joined record: that of the last entry written with the
    sequence number, from the only log that has the column. *)
Lemma joined_column ip port logs seq col i ty es e :
  Forall (fun l => Forall loggable (snd l)) logs -> 0 <= col < 12 ->
  logs !! i = Some (ty, es) -> has_column col (ty, es) -> (forall j l, logs !! j = Some l -> has_column col l -> j = i) ->
  last (of_client ip port seq es) = Some e ->
  record_ts (joined_record ip port (log_files logs) seq) col = fmt_ts (ts_at e (field_ts_index col)).
Proof.
  intros Hl Hc Hi Hcol Hu He. destruct (joined_record_ts ip port (log_files logs) seq) as [_ Hts].
  rewrite Hts by lia. clear Hts.
  unfold log_files. rewrite map_map. cbn [fst snd].
  assert (concat (map (fun l => offers (logged_file_type (fst l)) (file_rows ip port (log_text (fst l) (snd l))) seq col) logs) =
    map (fun e => fmt_ts (ts_at e (field_ts_index col))) (of_client ip port seq es)) as ->; [|by rewrite (fmap_last _ _ : last (map _ _) = _), He].
  assert (forall l, Forall loggable (snd l) -> offers (logged_file_type (fst l)) (file_rows ip port (log_text (fst l) (snd l))) seq col =
    if decide (has_column col l) then map (fun e => fmt_ts (ts_at e (field_ts_index col))) (of_client ip port seq (snd l)) else []) as Ho.
  { intros l H. unfold log_text. rewrite logged_columns_agree by done. unfold has_column. by case_bool_decide; case_decide. }
  clear He. revert i Hi Hu. induction Hl as [|l logs H Hl IH]; intros [|i] Hi Hu; [done..| |]; cbn [map concat]; rewrite (Ho l H).
  - injection Hi as ->. rewrite decide_True by done. cbn [snd]. rewrite <- (app_nil_r (map _ _)) at 2. f_equal.
    assert (forall j l, logs !! j = Some l -> ~ has_column col l) as Hn.
    { intros j l Hj Hh. by specialize (Hu (S j) l Hj Hh). }
    clear -Ho Hl Hn. induction Hl as [|l logs H Hl IH]; [done|]. cbn [map concat]. rewrite (Ho l H), decide_False by (by apply (Hn 0%nat)).
    apply IH. intros j l' Hj. by apply (Hn (S j)).
  - rewrite decide_False by (intros Hh; by specialize (Hu 0%nat l eq_refl Hh)). apply (IH i); [done|].
    intros j l' Hj Hh. specialize (Hu (S j) l' Hj Hh). lia.
Qed.

(** The same, with the logs told apart by computation. *)
Lemma joined_value ip port logs seq col i ty es e :
  Forall (fun l => Forall loggable (snd l)) logs -> 0 <= col < 12 -> logs !! i = Some (ty, es) -> last (of_client ip port seq es) = Some e ->
  map (fun l => bool_decide (has_column col l)) logs = map (Nat.eqb i) (List.seq 0 (length logs)) ->
  record_ts (joined_record ip port (log_files logs) seq) col = fmt_ts (ts_at e (field_ts_index col)).
Proof.
  intros Hl Hc Hi He Hb.
  assert (forall j l, logs !! j = Some l -> bool_decide (has_column col l) = Nat.eqb i j) as Hj.
  { intros j l Hj. apply (f_equal (fun x => x !! j)) in Hb. pose proof (lookup_lt_Some _ _ _ Hj).
    change (map ?f ?x) with (f <$> x) in Hb. rewrite !list_lookup_fmap, Hj, lookup_seq_lt in Hb by done. by injection Hb. }
  apply (joined_column ip port logs seq col i ty es e Hl Hc Hi); [| |done].
  - apply (bool_decide_unpack _). by rewrite (Hj _ _ Hi), Nat.eqb_refl.
  - intros j l Hl' Hh%(bool_decide_pack _). rewrite (Hj _ _ Hl') in Hh. symmetry. by apply Nat.eqb_eq, Is_true_true.
Qed.
Lemma kept_last ip port seq es e : last (of_client ip port seq es) = Some e -> e ∈ es /\ from_client ip port e /\ ce_seq_num e = seq.
Proof.
  intros H%last_Some_elem_of. unfold of_client in H. apply list_elem_of_filter in H as [[? ?] ?]. done.
Qed.
Lemma kept_ts_range ip port seq es e i : Forall loggable es -> last (of_client ip port seq es) = Some e -> 0 <= ts_at e i < 18446744073709551616.
Proof. intros Hl (He & _)%kept_last. apply ts_at_range. apply (proj1 (Forall_forall _ _) Hl e He). Qed.

(** ** Addresses *)

Lemma inet_ntop_loggable a : clean (inet_ntop a) /\ inet_ntop a <> [] /\ head (inet_ntop a) <> Some DQUOTE /\ (length (inet_ntop a) <= 15)%nat.
Proof.
  unfold inet_ntop. assert (forall x, all_digits (fmt_u (u8 x))) as Hd by (intros x; apply fmt_u_digits, u8_range).
  assert (forall x, (length (fmt_u (u8 x)) <= 3)%nat) as Hl by (intros x; pose proof (u8_range x); apply fmt_u_length; lia).
  split; [|split; [|split]].
  - assert (forall s t, clean s -> clean t -> clean (s ++ DOT :: t)) as Hc by (intros; apply clean_app; split; [done|by constructor]).
    repeat apply Hc; by apply all_digits_clean.
  - intros [E _]%app_eq_nil. by apply fmt_u_nonempty in E.
  - pose proof (fmt_u_nonempty (u8 (a / 16777216))) as Hn. specialize (Hd (a / 16777216)).
    generalize dependent (fmt_u (u8 (a / 16777216))). intros [|c s] Hd Hn; [congruence|].
    apply Forall_cons in Hd as [Hc _]. cbn [app head]. intros [= ->]. discriminate.
  - repeat (rewrite ?length_app; cbn [length]).
    pose proof (Hl (a / 16777216)). pose proof (Hl (a / 65536)). pose proof (Hl (a / 256)). pose proof (Hl a). lia.
Qed.
Lemma loggable_entry seq assigns a port ty :
  0 <= seq < 4294967296 -> Forall (fun '(i, v) => 0 <= v < 18446744073709551616) assigns -> 0 <= port < 65536 ->
  loggable (CsvEntry seq (ts_set assigns ts_zero) (strncpy (inet_ntop a) 15) port ty).
Proof.
  intros Hs Ha Hp. destruct (inet_ntop_loggable a) as (H1 & H2 & H3 & H4).
  assert (strncpy (inet_ntop a) 15 = inet_ntop a) as -> by (by apply take_ge).
  split; [|done]. split; [done|apply ts_wf_set; [apply ts_wf_zero|done]|done|done].
Qed.

(** The join of log files: its rows are those of the numbers that every log has for
    the client. *)
Lemma joined_logs env fs config logs a :
  env_ok env -> logs <> [] -> Forall (fun l => Forall loggable (snd l)) logs ->
  mapM (fun f => fs !! f) (cfg_input_files config) = Some (map (fun l => log_text (fst l) (snd l)) logs) ->
  cfg_detected_types config = map (detect_file_type fs) (cfg_input_files config) ->
  cfg_target_ip config = inet_ntop a -> 0 <= cfg_target_port config < 65536 ->
  let ip := cfg_target_ip config in
  let port := cfg_target_port config in
  exists seqs,
    process_join_operation env fs config =
      Some (if (length seqs =? 0)%nat then fs else
            <[cfg_output_file config :=
                get_output_header (cfg_mode config) (cfg_target config) ++ [NL] ++
                concat (map (fun row => row ++ [NL]) (map (fun s => join_commas ip
                  (row_cells (joined_record ip port (log_files logs) s) port (cfg_mode config) (cfg_target config))) seqs))]> fs) /\
    StronglySorted Z.lt seqs /\ forall s, s ∈ seqs <-> Forall (fun l => is_Some (last (of_client ip port s (snd l)))) logs.
Proof.
  intros He Hne Hl Hf Hty Hip Hp ip port.
  assert (cfg_detected_types config = map (fun l => logged_file_type (fst l)) logs) as Ht.
  { rewrite Hty. apply mapM_Some in Hf. clear -Hf. revert Hf. generalize (cfg_input_files config). induction logs as [|l logs IH]; intros files Hf; inversion Hf as [|f ? fl ? F Hfl]; subst; [done|].
    cbn [map]. rewrite (IH _ Hfl). by rewrite (detect_logged_file _ _ _ _ F). }
  assert (config_wf config) as Hwf.
  { split; [done|]. split; [rewrite Hip; apply inet_ntop_loggable|]. rewrite Hty. apply length_map. }
  destruct (process_join_spec env fs config _ He Hwf Hf) as (seqs & [Hs Hc] & Hj).
  exists seqs. split; [|split; [exact Hs|]].
  - rewrite Hj, map_map. unfold joined_row. rewrite Ht.
    assert (zip (map (fun l => log_text (fst l) (snd l)) logs) (map (fun l => logged_file_type (fst l)) logs) = log_files logs) as ->; [|done].
    unfold log_files. clear. induction logs as [|l logs IH]; [done|]. cbn [map]. cbn. by f_equal.
  - intros s. rewrite Hc. unfold ip, port. rewrite Forall_map. split.
    + intros [_ H]. apply Forall_forall. intros l Hin. rewrite last_is_Some.
      apply (file_seqs_of_log (fst l)); [by apply (proj1 (Forall_forall _ _) Hl)|]. by apply (proj1 (Forall_forall _ _) H).
    + intros H. split; [by destruct logs|]. apply Forall_forall. intros l Hin. apply file_seqs_of_log; [by apply (proj1 (Forall_forall _ _) Hl)|].
      rewrite <- last_is_Some. by apply (proj1 (Forall_forall _ _) H).
Qed.

(** ** The three logs of a one-way measurement *)

Definition client_log (c : client) (inputs : list (tx_clocks * sendmmsg_result)) : list csv_entry_t :=
  imap (oneway_csv (ct_src_ip c) (ct_src_port c) (ct_seq_num c)) (sent_stamps tk_time inputs).
Definition client_tx_log (c : client) (queue : list errq_recv) : list csv_entry_t := map (client_tx_entry c) (tx_stamps queue).
Definition server_log (ds : list rx_datagram) : list csv_entry_t := map oneway_csv_entry ds.

(** They are what the three loops enqueue. *)
Lemma logs_of_the_run pps packet_size inputs c c' queue ds s b bt bs st ss :
  results_ok pps inputs -> logging c b st -> run_steps (oneway_send pps packet_size) c inputs = Some c' ->
  Forall is_msg queue -> ct_tx_csv_buffer c = Some bt ->
  Forall datagram_wf ds -> sv_csv_enabled s = true -> sv_csv_buffer s = Some bs -> sv_stats s = StatsGlobals true (Some ss) ->
  ring_wf bs -> ring_wf ss ->
  ct_csv_buffer c' = Some (csv_enqueue_all b (client_log c inputs)) /\
  (exists c2, drain_tx_timestamps c queue = Some (c2, []) /\ ct_tx_csv_buffer c2 = Some (csv_enqueue_all bt (client_tx_log c queue))) /\
  sv_csv_buffer (fold_left oneway_receive ds s) = Some (csv_enqueue_all bs (server_log ds)).
Proof.
  intros Hok Hl Hrun Hq Hbt Hds Hen Hbs Hss Hw1 Hw2. split; [|split].
  - apply (oneway_run_logs pps packet_size inputs c b st c' Hok Hl Hrun).
  - assert (tx_csv_on c c) as Hon by (split_and!; [done|done|apply Hl|by eexists]).
    unfold drain_tx_timestamps. rewrite (errq_drain_all tx_stamp_handle _ (tx_csv_on c)).
    + eexists. split; [done|]. by apply client_handle_all.
    + intros d q (_ & _ & _ & b' & Hb'). unfold process_tx_timestamps_in_main_thread. by rewrite Hb'.
    + done.
    + apply client_handle_on.
    + done.
    + lia.
  - by apply (oneway_receive_all ds s bs ss Hds Hen Hbs Hss Hw1 Hw2).
Qed.

(** A datagram from the client with this address. *)
Definition from_address (ip : cstr) (port : Z) (d : rx_datagram) : Prop :=
  inet_ntop (sin_addr (rd_src d)) = ip /\ sin_port (rd_src d) = port.

Lemma tx_stamp_range queue seq ns : (seq, ns) ∈ tx_stamps queue -> 0 <= ns < 18446744073709551616.
Proof.
  intros ([p cs| |] & _ & H)%list_elem_of_omap; simplify_eq. unfold tx_stamp_of in H.
  destruct (scan_tx_cmsgs _ _ _ _) as [q t]. simplify_eq. apply u64_range.
Qed.
Lemma oneway_seq_range bytes : bytes_wf bytes -> 0 <= oneway_seq bytes < 4294967296.
Proof. intros H. unfold oneway_seq. destruct (_ <=? _); [by apply ntohl_at_range|apply u32_range]. Qed.
Lemma strncpy_ntop a : strncpy (inet_ntop a) 15 = inet_ntop a.
Proof. apply take_ge, inet_ntop_loggable. Qed.

Section logs.
Context (c : client) (addr : Z) (Hip : ct_src_ip c = inet_ntop addr) (Hport : 0 <= ct_src_port c < 65536).

Lemma client_log_loggable inputs : Forall loggable (client_log c inputs).
Proof.
  apply Forall_lookup. intros k e. unfold client_log. rewrite list_lookup_imap, Hip, fmap_Some.
  intros (t & _ & ->). apply loggable_entry; [apply u32_range|by repeat constructor; apply u64_range|by apply u16_range].
Qed.
Lemma client_log_entry inputs e : ct_seq_num c = 0 -> Z.of_nat (sent_total inputs) <= 4294967296 -> e ∈ client_log c inputs ->
  exists k t, sent_stamps tk_time inputs !! k = Some t /\ ce_seq_num e = Z.of_nat k /\ ts_at e 1 = ts_ns t /\
    from_client (inet_ntop addr) (ct_src_port c) e.
Proof.
  intros H0 Hn (k & Hk)%list_elem_of_lookup. unfold client_log in Hk. rewrite list_lookup_imap, fmap_Some in Hk.
  destruct Hk as (t & Ht & ->). exists k, t. pose proof (lookup_lt_Some _ _ _ Ht) as Hl. rewrite sent_stamps_length in Hl.
  split; [done|]. unfold oneway_csv, create_csv_client_oneway_main, from_client. cbn [ce_seq_num ce_src_ip ce_src_port].
  rewrite H0, u32_small, Hip, strncpy_ntop, u16_small by lia. by split_and!; [lia|..].
Qed.

Lemma client_tx_log_loggable queue : Forall (fun x => 0 <= fst x < 4294967296) (tx_stamps queue) -> Forall loggable (client_tx_log c queue).
Proof.
  intros Hq. apply Forall_map, Forall_forall. intros [seq ns] Hin. unfold client_tx_entry, create_csv_client_oneway_tx. rewrite Hip.
  apply loggable_entry; [by eapply Forall_forall in Hq|repeat constructor; by eapply tx_stamp_range|by apply u16_range].
Qed.
Lemma client_tx_log_entry queue e : e ∈ client_tx_log c queue ->
  (ce_seq_num e, ts_at e 2) ∈ tx_stamps queue /\ from_client (inet_ntop addr) (ct_src_port c) e.
Proof.
  intros ([seq ns] & -> & Hin)%list_elem_of_fmap. split; [exact Hin|].
  unfold client_tx_entry, create_csv_client_oneway_tx, from_client. cbn [ce_src_ip ce_src_port].
  by rewrite Hip, strncpy_ntop, u16_small.
Qed.
End logs.

Lemma oneway_stamps_range d : let '(hw, ker, app) := oneway_stamps d in
  0 <= hw < 18446744073709551616 /\ 0 <= ker < 18446744073709551616 /\ 0 <= app < 18446744073709551616.
Proof. unfold oneway_stamps. destruct (extract_rx_timestamps _ _ _) as [[f hw] ker]. split_and!; apply u64_range. Qed.
Lemma server_log_loggable ds : Forall datagram_wf ds -> Forall loggable (server_log ds).
Proof.
  intros Hds. apply Forall_map. eapply Forall_impl; [done|]. intros d (Hb & _ & Hp). unfold oneway_csv_entry.
  pose proof (oneway_stamps_range d) as H. destruct (oneway_stamps d) as [[hw ker] app].
  apply loggable_entry; [by apply oneway_seq_range|by repeat (apply Forall_cons_2; [tauto|])|lia].
Qed.
Lemma server_log_entry ds e : e ∈ server_log ds ->
  exists d, d ∈ ds /\ ce_seq_num e = oneway_seq (rd_bytes d) /\ oneway_stamps d = (ts_at e 7, ts_at e 8, ts_at e 9) /\
    ce_src_ip e = inet_ntop (sin_addr (rd_src d)) /\ ce_src_port e = sin_port (rd_src d).
Proof.
  intros (d & -> & Hin)%list_elem_of_fmap. exists d. split; [done|]. unfold oneway_csv_entry.
  destruct (oneway_stamps d) as [[hw ker] app]. unfold create_csv_server_oneway_main. cbn [ce_seq_num ce_src_ip ce_src_port].
  by rewrite strncpy_ntop.
Qed.

(** ** The joined table *)

(** The cells of a row: the numbers, the five stamps and the five deltas. *)
Definition oneway_cells (port seq app_tx ker_tx : Z) (rx : Z * Z * Z) : list cstr :=
  let '(hw_rx, ker_rx, app_rx) := rx in
  [fmt_u port; fmt_u seq; fmt_ts app_tx; fmt_ts ker_tx; fmt_ts hw_rx; fmt_ts ker_rx; fmt_ts app_rx;
   delta_column app_tx ker_tx; delta_column hw_rx ker_rx; delta_column ker_rx app_rx; delta_column hw_rx app_rx; delta_column ker_tx hw_rx].
Definition oneway_logs (main tx server : list csv_entry_t) : list (csv_type_t * list csv_entry_t) :=
  [(CSV_CLIENT_MAIN_ONEWAY, main); (CSV_CLIENT_TX, tx); (CSV_SERVER_MAIN_ONEWAY, server)].

Lemma oneway_joined_row ip port wc wt ws seq ec et es :
  Forall loggable wc -> Forall loggable wt -> Forall loggable ws ->
  last (of_client ip port seq wc) = Some ec -> last (of_client ip port seq wt) = Some et -> last (of_client ip port seq ws) = Some es ->
  row_cells (joined_record ip port (log_files (oneway_logs wc wt ws)) seq) port MODE_ONE_WAY TARGET_CLIENT_SERVER =
    oneway_cells port seq (ts_at ec 1) (ts_at et 2) (ts_at es 7, ts_at es 8, ts_at es 9).
Proof.
  intros Hwc Hwt Hws Hc Ht Hs. set (r := joined_record _ _ _ _).
  assert (Forall (fun l => Forall loggable (snd l)) (oneway_logs wc wt ws)) as Hl by (by repeat constructor).
  pose proof (fun col => joined_value ip port _ seq col 0 CSV_CLIENT_MAIN_ONEWAY wc ec Hl) as Vc. pose proof (fun col => joined_value ip port _ seq col 1 CSV_CLIENT_TX wt et Hl) as Vt.
  pose proof (fun col => joined_value ip port _ seq col 2 CSV_SERVER_MAIN_ONEWAY ws es Hl) as Vs.
  assert (record_ts r 1 = fmt_ts (ts_at ec 1)) as V1 by exact (Vc 1 ltac:(lia) eq_refl Hc eq_refl). assert (record_ts r 2 = fmt_ts (ts_at et 2)) as V2 by exact (Vt 2 ltac:(lia) eq_refl Ht eq_refl).
  assert (record_ts r 3 = fmt_ts (ts_at es 7)) as V3 by exact (Vs 3 ltac:(lia) eq_refl Hs eq_refl). assert (record_ts r 4 = fmt_ts (ts_at es 8)) as V4 by exact (Vs 4 ltac:(lia) eq_refl Hs eq_refl).
  assert (record_ts r 5 = fmt_ts (ts_at es 9)) as V5 by exact (Vs 5 ltac:(lia) eq_refl Hs eq_refl).
  unfold row_cells, calculate_mode_deltas. unfold r at 1. rewrite joined_record_seq, map_map.
  cbn [output_fields map app]. change (get_mode_delta_config MODE_ONE_WAY TARGET_CLIENT_SERVER) with [0; 6; 7; 10; 12]%nat. cbn [map].
  cbn [delta_def ALL_DELTA_DEFINITIONS lookup list_lookup default from_option id dd_ts_a_field dd_ts_b_field].
  change FIELD_CLT_APP_TX_TS with 1. change FIELD_CLT_KER_TX_TS with 2. change FIELD_SVR_HW_RX_TS with 3.
  change FIELD_SVR_KER_RX_TS with 4. change FIELD_SVR_APP_RX_TS with 5. rewrite V1, V2, V3, V4, V5.
  unfold delta_cell, oneway_cells. rewrite !delta_column_text by first [exact (kept_ts_range _ _ _ _ _ _ Hwc Hc)|exact (kept_ts_range _ _ _ _ _ _ Hwt Ht)|exact (kept_ts_range _ _ _ _ _ _ Hws Hs)]. done.
Qed.

(** What happened: the results of the sending loop and the state it ends with, the
    messages of the error queue, the datagrams the server received, and the lives of
    the three logs. *)
Record measurement := Measurement {
  ms_pps : Z; ms_packet_size : Z; ms_inputs : list (tx_clocks * sendmmsg_result); ms_client : client; ms_client_end : client;
  ms_queue : list errq_recv; ms_datagrams : list rx_datagram; ms_main : log_run; ms_tx : log_run; ms_server : log_run }.
(** The client is new and has its address; the network delivers from that address
    only what the client sent, in any order and number, or not at all. *)
Record measured (addr : Z) (m : measurement) : Prop := {
  md_results : results_ok (ms_pps m) (ms_inputs m);
  md_new : ct_seq_num (ms_client m) = 0 /\ ct_wire (ms_client m) = [];
  md_ip : ct_src_ip (ms_client m) = inet_ntop addr;
  md_port : 0 <= ct_src_port (ms_client m) < 65536;
  md_run : run_steps (oneway_send (ms_pps m) (ms_packet_size m)) (ms_client m) (ms_inputs m) = Some (ms_client_end m);
  md_total : Z.of_nat (sent_total (ms_inputs m)) <= 4294967296;
  md_queue : Forall (fun x => 0 <= fst x < 4294967296) (tx_stamps (ms_queue m));
  md_datagrams : Forall datagram_wf (ms_datagrams m);
  md_network : Forall (fun d => from_address (inet_ntop addr) (ct_src_port (ms_client m)) d -> rd_bytes d ∈ ct_wire (ms_client_end m)) (ms_datagrams m);
  md_main : log_of CSV_CLIENT_MAIN_ONEWAY (client_log (ms_client m) (ms_inputs m)) (ms_main m);
  md_tx : log_of CSV_CLIENT_TX (client_tx_log (ms_client m) (ms_queue m)) (ms_tx m);
  md_server : log_of CSV_SERVER_MAIN_ONEWAY (server_log (ms_datagrams m)) (ms_server m) }.
(** The join is given the three files and the client. *)
Record joins (fs : gmap cstr cstr) (config : config_t) (m : measurement) : Prop := {
  jn_files : mapM (fun f => fs !! f) (cfg_input_files config) = Some [run_file (ms_main m); run_file (ms_tx m); run_file (ms_server m)];
  jn_types : cfg_detected_types config = map (detect_file_type fs) (cfg_input_files config);
  jn_ip : cfg_target_ip config = ct_src_ip (ms_client m);
  jn_port : cfg_target_port config = ct_src_port (ms_client m);
  jn_mode : cfg_mode config = MODE_ONE_WAY;
  jn_target : cfg_target config = TARGET_CLIENT_SERVER }.

(** A datagram from the client that carries packet [seq] of the client. *)
Definition delivered (m : measurement) (seq : Z) (d : rx_datagram) : Prop :=
  d ∈ ms_datagrams m /\ from_address (ct_src_ip (ms_client m)) (ct_src_port (ms_client m)) d /\ rd_bytes d = oneway_packet (ms_packet_size m) seq.
(** A row that tells the truth about packet [seq]. *)
Definition true_row (m : measurement) (seq : Z) (row : cstr) : Prop :=
  exists t ns d, 0 <= seq /\ sent_stamps tk_time (ms_inputs m) !! Z.to_nat seq = Some t /\ (seq, ns) ∈ tx_stamps (ms_queue m) /\ delivered m seq d /\
    row = join_commas (ct_src_ip (ms_client m)) (oneway_cells (ct_src_port (ms_client m)) seq (ts_ns t) ns (oneway_stamps d)).
(** Nothing was lost in the logs. *)
Definition all_written (m : measurement) : Prop :=
  written (ms_main m) = client_log (ms_client m) (ms_inputs m) /\ written (ms_tx m) = client_tx_log (ms_client m) (ms_queue m) /\
  written (ms_server m) = server_log (ms_datagrams m).

Lemma oneway_packet_seq size seq : 0 <= seq < 4294967296 -> oneway_seq (oneway_packet size seq) = seq.
Proof.
  intros H. unfold oneway_seq, oneway_packet. rewrite ntohl_htonl by done. unfold zlen. rewrite length_app. cbn [length htonl_bytes].
  destruct (Z.leb_spec 4 (Z.of_nat (4 + length (replicate (Z.to_nat (size - 4)) 0)))); [done|lia].
Qed.
Lemma measured_wire addr m bytes : measured addr m -> bytes ∈ ct_wire (ms_client_end m) ->
  exists k, (k < sent_total (ms_inputs m))%nat /\ bytes = oneway_packet (ms_packet_size m) (Z.of_nat k) /\ oneway_seq bytes = Z.of_nat k.
Proof.
  intros [Hok [H0 Hw] _ _ Hrun Hn _ _ _ _ _ _] Hin.
  assert (sent_by (oneway_packet (ms_packet_size m)) (ms_client m) (sent_total (ms_inputs m)) (ms_client_end m)) as (W & _).
  { eapply run_sends; [|exact Hrun]. eapply Forall_impl; [exact Hok|]. intros i Hi c1 c2. by apply oneway_send_sent. }
  rewrite W, Hw, H0 in Hin. apply list_elem_of_fmap in Hin as (k & -> & Hk%elem_of_seq%proj2). cbn [Nat.add] in Hk.
  exists k. rewrite Z.add_0_l, u32_small by lia. split_and!; [done|done|]. apply oneway_packet_seq. lia.
Qed.

Lemma Forall_in_sublist {A} (P : A -> Prop) k l : k `sublist_of` l -> Forall P l -> Forall P k.
Proof. intros Hs Hl. apply Forall_forall. intros x Hx. eapply Forall_forall in Hl; [done|]. by eapply elem_of_sublist. Qed.
Lemma measured_loggable addr m : measured addr m ->
  Forall loggable (written (ms_main m)) /\ Forall loggable (written (ms_tx m)) /\ Forall loggable (written (ms_server m)) /\
  run_file (ms_main m) = log_text CSV_CLIENT_MAIN_ONEWAY (written (ms_main m)) /\
  run_file (ms_tx m) = log_text CSV_CLIENT_TX (written (ms_tx m)) /\
  run_file (ms_server m) = log_text CSV_SERVER_MAIN_ONEWAY (written (ms_server m)).
Proof.
  intros [_ _ Hip Hp _ _ Hq Hds _ Lc Lt Ls].
  pose proof (client_log_loggable _ addr Hip (ms_inputs m)) as Wc. pose proof (client_tx_log_loggable _ addr Hip _ Hq) as Wt.
  pose proof (server_log_loggable _ Hds) as Ws.
  assert (forall l, Forall loggable l -> Forall csv_entry_wf l) as Hwf by (intros l H; eapply Forall_impl; [exact H|]; by intros e [? _]).
  split_and!; try (eapply Forall_in_sublist; [by eapply written_sublist|done]); eapply run_file_text; eauto.
Qed.
Lemma joined_by_all addr m seq : measured addr m ->
  let of_client w := of_client (ct_src_ip (ms_client m)) (ct_src_port (ms_client m)) seq w in
  is_Some (last (of_client (written (ms_main m)))) -> is_Some (last (of_client (written (ms_tx m)))) -> is_Some (last (of_client (written (ms_server m)))) ->
  true_row m seq (join_commas (ct_src_ip (ms_client m))
    (row_cells (joined_record (ct_src_ip (ms_client m)) (ct_src_port (ms_client m))
      (log_files (oneway_logs (written (ms_main m)) (written (ms_tx m)) (written (ms_server m)))) seq)
      (ct_src_port (ms_client m)) MODE_ONE_WAY TARGET_CLIENT_SERVER)).
Proof.
  intros Hm client_entries [ec Hc] [et Ht] [es Hs]. pose proof Hm as [_ [H0 _] Hip Hp _ Hn Hq Hds Hnet Lc Lt Ls].
  pose proof (written_sublist _ _ _ Lc) as Sc. pose proof (written_sublist _ _ _ Lt) as St. pose proof (written_sublist _ _ _ Ls) as Ss.
  destruct (measured_loggable addr m Hm) as (Wc & Wt & Ws & _). rewrite (oneway_joined_row _ _ _ _ _ _ ec et es) by done.
  destruct (kept_last _ _ _ _ _ Hc) as (Ic & Fc & Qc). destruct (kept_last _ _ _ _ _ Ht) as (It & Ft & Qt).
  destruct (kept_last _ _ _ _ _ Hs) as (Is & Fs & Qs).
  eapply elem_of_sublist in Ic, It, Is; [|eassumption..].
  destruct (client_log_entry _ addr Hip Hp _ _ H0 Hn Ic) as (k & t & Hk & Ek & Tk & _).
  destruct (client_tx_log_entry _ addr Hip Hp _ _ It) as (Hin & _).
  destruct (server_log_entry _ _ Is) as (d & Hd & Ed & Td & Id & Pd).
  assert (from_address (ct_src_ip (ms_client m)) (ct_src_port (ms_client m)) d) as Hfrom.
  { destruct Fs as [<- <-]. by split. }
  assert (rd_bytes d ∈ ct_wire (ms_client_end m)) as Hw.
  { eapply Forall_forall in Hnet; [|exact Hd]. apply Hnet. by rewrite <- Hip. }
  destruct (measured_wire addr m _ Hm Hw) as (j & _ & Hb & Hj).
  exists t, (ts_at et 2), d. subst seq. rewrite Ek, Nat2Z.id. split_and!; [lia|done|by rewrite <- Ek, <- Qt|..].
  - split; [done|]. split; [done|]. rewrite Hb. f_equal. congruence.
  - by rewrite Tk, Td.
Qed.

Lemma kept_nonempty ip port s es : is_Some (last (of_client ip port s es)) <-> exists e, e ∈ es /\ from_client ip port e /\ ce_seq_num e = s.
Proof.
  split.
  - intros [e He]. exists e. by apply kept_last.
  - intros (e & He & Hf & Hs). apply last_is_Some. intros E. apply (not_elem_of_nil e). rewrite <- E. by apply list_elem_of_filter.
Qed.
(** Without losses these are the packets that arrived and whose transmission was
    reported. *)
Lemma all_written_common addr m s : measured addr m -> all_written m ->
  let client_entries w := of_client (ct_src_ip (ms_client m)) (ct_src_port (ms_client m)) s w in
  is_Some (last (client_entries (written (ms_main m)))) /\ is_Some (last (client_entries (written (ms_tx m)))) /\ is_Some (last (client_entries (written (ms_server m)))) <->
  (exists ns, (s, ns) ∈ tx_stamps (ms_queue m)) /\ exists d, delivered m s d.
Proof.
  intros Hm (Ac & At & As) client_entries. pose proof Hm as [_ [H0 _] Hip Hp _ Hn Hq Hds Hnet _ _ _]. unfold client_entries.
  rewrite Ac, At, As, !kept_nonempty. split.
  - intros (_ & (et & It & _ & Et) & (es & Is & Fs & Es)). split.
    + destruct (client_tx_log_entry _ addr Hip Hp _ _ It) as [Hin _]. exists (ts_at et 2). by rewrite <- Et.
    + destruct (server_log_entry _ _ Is) as (d & Hd & Ed & _ & Id & Pd). exists d.
      assert (from_address (ct_src_ip (ms_client m)) (ct_src_port (ms_client m)) d) as Hf by (destruct Fs as [<- <-]; by split).
      split; [done|]. split; [done|]. eapply Forall_forall in Hnet; [|exact Hd].
      destruct (measured_wire addr m _ Hm ltac:(apply Hnet; by rewrite <- Hip)) as (j & _ & Hb & Hj). rewrite Hb. f_equal. congruence.
  - intros [[ns Hns] (d & Hd & Hf & Hb)]. eapply Forall_forall in Hnet as Hw; [|exact Hd].
    destruct (measured_wire addr m _ Hm ltac:(apply Hw; by rewrite <- Hip)) as (k & Hk & Hbk & Hsk).
    assert (s = Z.of_nat k) as ->.
    { rewrite <- Hsk, Hb, oneway_packet_seq; [done|]. by eapply Forall_forall in Hq; [|exact Hns]. }
    split_and!.
    + destruct (lookup_lt_is_Some_2 (sent_stamps tk_time (ms_inputs m)) k ltac:(by rewrite sent_stamps_length)) as [t Ht].
      assert (oneway_csv (ct_src_ip (ms_client m)) (ct_src_port (ms_client m)) (ct_seq_num (ms_client m)) k t ∈ client_log (ms_client m) (ms_inputs m)) as Hin.
      { apply list_elem_of_lookup. exists k. unfold client_log. by rewrite list_lookup_imap, Ht. }
      eexists. split; [exact Hin|]. unfold from_client, oneway_csv, create_csv_client_oneway_main. cbn [ce_src_ip ce_src_port ce_seq_num].
      rewrite Hip, strncpy_ntop, H0, u16_small, u32_small by lia. split; [done|lia].
    + eexists. split; [by apply list_elem_of_fmap_2|]. unfold from_client, client_tx_entry, create_csv_client_oneway_tx.
      cbn [ce_src_ip ce_src_port ce_seq_num fst]. by rewrite Hip, strncpy_ntop, u16_small.
    + eexists. split; [by apply list_elem_of_fmap_2|]. unfold oneway_csv_entry. destruct (oneway_stamps d) as [[hw sk] sa].
      unfold from_client, create_csv_server_oneway_main. cbn [ce_src_ip ce_src_port ce_seq_num].
      rewrite strncpy_ntop, Hb, oneway_packet_seq by lia. by destruct Hf.
Qed.

(** C2: the table of a one-way measurement tells the truth.  Whatever the kernel, the
    network and the log rings lose, repeat or reorder, each row of the joined file
    belongs to a packet that the client sent and that arrived, and holds the
    application stamp taken for that packet, a kernel stamp reported for it, the
    three stamps of one of its arrivals, and the five differences of these stamps;
    rows are in the order of the numbers, one for each.  When the logs lost nothing,
    exactly the packets that arrived and whose transmission was reported have a
    row. *)
Theorem oneway_latency_table (env : join_env) (fs : gmap cstr cstr) (config : config_t) (addr : Z) (m : measurement) :
  env_ok env -> measured addr m -> joins fs config m ->
  exists seqs rows,
    process_join_operation env fs config =
      Some (if (length seqs =? 0)%nat then fs else
            <[cfg_output_file config :=
                get_output_header MODE_ONE_WAY TARGET_CLIENT_SERVER ++ [NL] ++ concat (map (fun row => row ++ [NL]) rows)]> fs) /\
    StronglySorted Z.lt seqs /\ Forall2 (true_row m) seqs rows /\
    (all_written m -> forall s, s ∈ seqs <-> (exists ns, (s, ns) ∈ tx_stamps (ms_queue m)) /\ exists d, delivered m s d).
Proof.
  intros He Hm [Hf Hty Hi Hp Hmode Htar]. pose proof (measured_loggable addr m Hm) as (Wc & Wt & Ws & E1 & E2 & E3).
  rewrite E1, E2, E3 in Hf.
  destruct (joined_logs env fs config (oneway_logs (written (ms_main m)) (written (ms_tx m)) (written (ms_server m))) addr)
    as (seqs & Hj & Hs & Hc); [done|done|by repeat constructor|exact Hf|exact Hty|rewrite Hi; apply Hm|rewrite Hp; apply Hm|].
  rewrite Hi, Hp, Hmode, Htar in *. eexists seqs, _. split; [exact Hj|]. split; [exact Hs|]. split.
  - apply Forall2_fmap_r, Forall_Forall2_diag, Forall_forall. intros s (Sc & (St & (Ss & _)%Forall_cons)%Forall_cons)%Hc%Forall_cons.
    by apply (joined_by_all addr).
  - intros Ha s. rewrite Hc, <- (all_written_common addr m s Hm Ha). unfold oneway_logs. rewrite !Forall_cons, Forall_nil. tauto.
Qed.

(** Five packets; the transmission of 3 is not reported, 0 and 4 arrive (4 twice),
    3 arrives too, and another client's packet in between. *)
Definition demo_log_run (ty : csv_type_t) (es : list csv_entry_t) : log_run :=
  LogRun (CsvLogState (CsvRing (replicate 8 (sample_entry 0)) 0 0 7 2 3 true 512 ty 0) (get_csv_header ty))
    (concat (map (fun e => [EvEnqueue e; EvWrite WriteAll]) es)).
Definition demo_arrival (k ns : Z) : rx_datagram :=
  RxDatagram (oneway_packet 12 k) (SockAddr 167772167 5000) [CmsgTimestamping (Timespec 9 (ns + 500)) ts_zero_spec (Timespec 9 ns)] (Timespec 9 (ns + 2000)).
Definition demo_datagrams : list rx_datagram :=
  [demo_arrival 0 4000; RxDatagram (oneway_packet 12 77) (SockAddr 167772168 5000) [] ts_zero_spec; demo_arrival 4 5000; demo_arrival 3 6000; demo_arrival 4 7000].
Definition demo_errq : list errq_recv := map demo_tx_message [1; 0; 2; 4].
Definition demo_client_end : client := default demo_client (run_steps (oneway_send 1000 12) demo_client demo_inputs).
Definition demo_measurement : measurement :=
  Measurement 1000 12 demo_inputs demo_client demo_client_end demo_errq demo_datagrams
    (demo_log_run CSV_CLIENT_MAIN_ONEWAY (client_log demo_client demo_inputs)) (demo_log_run CSV_CLIENT_TX (client_tx_log demo_client demo_errq))
    (demo_log_run CSV_SERVER_MAIN_ONEWAY (server_log demo_datagrams)).

Lemma demo_log_of ty es : log_of ty es (demo_log_run ty es).
Proof.
  split; try done.
  - split; [|constructor|cbn; lia|done]. unfold ring_wf, ring_size. cbn. split_and!; try lia; [exists 3; lia|done].
  - cbn [demo_log_run lr_events]. induction es; constructor; [done|by constructor].
  - cbn [demo_log_run lr_events]. induction es as [|e es IH]; [done|]. cbn [map concat app]. unfold enqueued in *. cbn. by f_equal.
Qed.
Lemma demo_measured : measured 167772167 demo_measurement.
Proof.
  assert (run_steps (oneway_send 1000 12) demo_client demo_inputs = Some demo_client_end) as E.
  { unfold demo_client_end. destruct (run_steps _ _ _) eqn:E; [done|discriminate E]. }
  assert (ct_wire demo_client_end = map (oneway_packet 12) [0; 1; 2; 3; 4]) as W.
  { assert (sent_by (oneway_packet 12) demo_client (sent_total demo_inputs) demo_client_end) as (W & _).
    { eapply run_sends; [|exact E]. eapply Forall_impl; [exact demo_inputs_ok|]. intros i Hi c1 c2. by apply oneway_send_sent. }
    rewrite W. reflexivity. }
  split; try apply demo_log_of; try exact E; cbn [demo_measurement ms_pps ms_inputs ms_client ms_client_end ms_datagrams ms_queue].
  - exact demo_inputs_ok.
  - split; reflexivity.
  - vm_compute. reflexivity.
  - cbn. lia.
  - vm_compute. discriminate.
  - apply (bool_decide_unpack _). vm_compute. exact I.
  - unfold datagram_wf, bytes_wf. apply (bool_decide_unpack _). vm_compute. exact I.
  - rewrite W. unfold demo_datagrams, demo_arrival. apply Forall_cons_2; [intros _; left|].
    apply Forall_cons_2; [intros [Ha _]; vm_compute in Ha; congruence|].
    repeat (apply Forall_cons_2; [intros _; cbn [rd_bytes map]; repeat (first [left|right])|]). apply Forall_nil_2.
Qed.

Definition demo_measured_fs : gmap cstr cstr :=
  <[lit "main.csv" := run_file (ms_main demo_measurement)]>
    (<[lit "tx.csv" := run_file (ms_tx demo_measurement)]> {[ lit "server.csv" := run_file (ms_server demo_measurement) ]}).
Definition demo_oneway_config : config_t :=
  Config (lit "10.0.0.7") 5000 MODE_ONE_WAY TARGET_CLIENT_SERVER [lit "main.csv"; lit "tx.csv"; lit "server.csv"] (lit "out.csv")
    [FILE_CLIENT_ONEWAY_MAIN; FILE_CLIENT_ONEWAY_TX; FILE_SERVER_ONEWAY_MAIN].
Lemma oneway_latency_table_witness :
  (exists seqs rows, StronglySorted Z.lt seqs /\ Forall2 (true_row demo_measurement) seqs rows) /\
  process_join_operation demo_env demo_measured_fs demo_oneway_config =
    Some (<[lit "out.csv" := get_output_header MODE_ONE_WAY TARGET_CLIENT_SERVER ++ [NL] ++
            lit "10.0.0.7,5000,0,8.000000000,9.000000000,9.000004000,9.000004500,9.000006000,1000000.000,0.500,1.500,2.000,4.000" ++ [NL] ++
            lit "10.0.0.7,5000,4,8.000000001,9.000000004,9.000007000,9.000007500,9.000009000,1000000.003,0.500,1.500,2.000,6.996" ++ [NL]]> demo_measured_fs).
Proof.
  split; [|vm_compute; reflexivity].
  destruct (oneway_latency_table demo_env demo_measured_fs demo_oneway_config 167772167 demo_measurement) as (seqs & rows & _ & H1 & H2 & _).
  - repeat split.
  - exact demo_measured.
  - split; [vm_compute; reflexivity..].
  - by exists seqs, rows.
Defined.
