(* ===== verification/MeasurementRt.v ===== *)
(** A round-trip measurement of the client: the sending thread step by step, the
    receiving thread in between, the logs of both and the table the join makes of
    them.

    In the state two histories go along: the stamps stored so far, and the replies
    logged, each with the number of stamps stored when it was handled. *)

From S2P Require Import Prelude CText Ring Heap Wire Double CsvLog CsvRing StatsCollector TxStamps MainLoop CorrArray Tsc Client.
From S2P Require Import JoinParse JoinSeq JoinTable JoinOut Join Measurement.

(** Where the sending thread is in the body of its loop, after [sent] packets were
    accepted: it stores the stamps one by one, then updates the statistics. *)
Inductive sender_pc := Ready | Storing (clocks : tx_clocks) (sent i : nat) | Recording (clocks : tx_clocks) (sent i : nat).
Record rt_state := RtState {
  rt_client : client; rt_pc : sender_pc; rt_stored : list (timespec * Z); rt_replies : list (rx_input * nat * csv_entry_t) }.
Inductive rt_event := EvBatch (input : tx_clocks * sendmmsg_result) | EvSender | EvReply (r : rx_input).

Section threads.
Context (freq : double) (tsc_reliable : bool) (pps packet_size rx_port : Z).

(** The entry that rx_receive logs. *)
Definition logged_reply (c : client) (r : rx_input) : csv_entry_t :=
  let seq_num := ntohl_at (ri_bytes r) 0 in
  let t := rx_times freq tsc_reliable c r seq_num in
  create_csv_client_roundtrip_rx seq_num (ct_src_ip c) (u16 (ct_src_port c)) (rtt_tx_tsc t) (rtt_app_tx t)
    (rtt_hw_rx t) (rtt_ker_rx t) (rtt_rx_tsc t) (rtt_app_rx t).
Definition rt_client_step (s : rt_state) (ev : rt_event) : option rt_state :=
  let '(RtState c pc stored replies) := s in
  match ev, pc with
  | EvReply r, _ =>
      Some (RtState (rx_receive freq tsc_reliable c r) pc stored
        (if 4 <=? zlen (ri_bytes r) then replies ++ [(r, length stored, logged_reply c r)] else replies))
  | EvBatch (clocks, SentCount n), Ready => Some (RtState (roundtrip_transmit pps packet_size rx_port c n) (Storing clocks n 0) stored replies)
  | EvBatch (_, SentAgain), Ready => Some s
  | EvSender, Storing clocks n i =>
      if (i <? n)%nat then
        Some (RtState (store_tx_timestamps c (batch_seq c i) (tk_time clocks i) (tk_tsc clocks i)) (Storing clocks n (S i))
          (stored ++ [(tk_time clocks i, tk_tsc clocks i)]) replies)
      else Some (RtState c (Recording clocks n 0) stored replies)
  | EvSender, Recording clocks n i =>
      if (i <? n)%nat then Some (RtState (roundtrip_record freq c clocks c i) (Recording clocks n (S i)) stored replies)
      else Some (RtState (ct_with_sent c (Z.of_nat n)) Ready stored replies)
  | _, _ => None
  end.

(** ** The sending thread alone *)

Lemma sender_stores clocks n replies : forall k c stored i, n = (i + k)%nat ->
  run_steps rt_client_step (RtState c (Storing clocks n i) stored replies) (replicate k EvSender) =
    Some (RtState (fold_left (fun c' j => store_tx_timestamps c' (batch_seq c j) (tk_time clocks j) (tk_tsc clocks j)) (seq i k) c)
      (Storing clocks n n) (stored ++ map (fun j => (tk_time clocks j, tk_tsc clocks j)) (seq i k)) replies).
Proof.
  induction k as [|k IH]; intros c stored i Hn; cbn [replicate run_steps seq fold_left map]; [by rewrite app_nil_r, Hn, Nat.add_0_r|].
  unfold rt_client_step at 1. rewrite (proj2 (Nat.ltb_lt i n)) by lia. rewrite IH, <- app_assoc by lia. cbn [app].
  assert (forall l c1 c2, ct_seq_num c1 = ct_seq_num c2 -> forall d,
    fold_left (fun c' j => store_tx_timestamps c' (batch_seq c1 j) (tk_time clocks j) (tk_tsc clocks j)) l d =
    fold_left (fun c' j => store_tx_timestamps c' (batch_seq c2 j) (tk_time clocks j) (tk_tsc clocks j)) l d) as Hext.
  { intros l c1 c2 E. unfold batch_seq. by rewrite E. }
  do 2 f_equal. apply Hext. unfold store_tx_timestamps. by repeat case_match.
Qed.
Lemma sender_records clocks n stored replies : forall k c i, n = (i + k)%nat ->
  run_steps rt_client_step (RtState c (Recording clocks n i) stored replies) (replicate k EvSender) =
    Some (RtState (fold_left (roundtrip_record freq c clocks) (seq i k) c) (Recording clocks n n) stored replies).
Proof.
  induction k as [|k IH]; intros c i Hn; cbn [replicate run_steps seq fold_left]; [by rewrite Hn, Nat.add_0_r|].
  unfold rt_client_step at 1. rewrite (proj2 (Nat.ltb_lt i n)) by lia. rewrite IH by lia. done.
Qed.
Lemma run_steps_app {S I} (f : S -> I -> option S) l1 l2 s : run_steps f s (l1 ++ l2) = s' ← run_steps f s l1; run_steps f s' l2.
Proof. revert s. induction l1 as [|i l1 IH]; intros s; [done|]. cbn [app run_steps]. by destruct (f s i). Qed.

(** Undisturbed, the steps are the body of the loop in Client.v. *)
Lemma sender_alone clocks n c stored replies :
  run_steps rt_client_step (RtState c Ready stored replies) (EvBatch (clocks, SentCount n) :: replicate (2 * n + 2) EvSender) =
    (fun c' => RtState c' Ready (stored ++ map (fun j => (tk_time clocks j, tk_tsc clocks j)) (seq 0 n)) replies) <$>
      roundtrip_send freq pps packet_size rx_port c (clocks, SentCount n).
Proof.
  replace (2 * n + 2)%nat with (n + (1 + (n + 1)))%nat by lia. rewrite !replicate_add.
  change (run_steps rt_client_step ?s (?e :: ?l)) with (s' ← rt_client_step s e; run_steps rt_client_step s' l).
  cbn [rt_client_step mbind option_bind]. rewrite run_steps_app, (sender_stores clocks n replies n) by lia. cbn [mbind option_bind].
  rewrite run_steps_app. cbn [replicate run_steps rt_client_step]. rewrite Nat.ltb_irrefl. cbn [mbind option_bind].
  rewrite run_steps_app, (sender_records clocks n _ replies n) by lia. cbn [mbind option_bind replicate run_steps].
  cbn [rt_client_step]. rewrite Nat.ltb_irrefl. done.
Qed.

(** ** The invariant of the two threads *)

Definition stored_at (s : rt_state) (k : nat) : timespec * Z := default (ts_zero_spec, 0) (rt_stored s !! k).
(** A reply handled when its packet was among the last 50000 stored. *)
Definition in_time (r : rx_input) (n k : nat) : Prop :=
  ntohl_at (ri_bytes r) 0 = Z.of_nat k /\ (k < n)%nat /\ Z.of_nat n - Z.of_nat k <= 50000 /\ Z.of_nat n <= 4294967296.
Record threads_inv (c0 : client) (b : csv_ring_buffer_t) (s : rt_state) : Prop := {
  ri_stamps : app_tx_timestamps (rt_client s) = store_run (app_tx_timestamps c0) 0 (fun k => fst (stored_at s k)) (length (rt_stored s));
  ri_counts : app_tx_tsc_values (rt_client s) = store_run (app_tx_tsc_values c0) 0 (fun k => snd (stored_at s k)) (length (rt_stored s));
  ri_seq : exists base, ct_seq_num (rt_client s) = u32 (Z.of_nat base) /\
    length (rt_stored s) = (base + match rt_pc s with Ready => 0 | Storing _ _ i => i | Recording _ n _ => n end)%nat /\
    match rt_pc s with Storing _ n i => (i <= n)%nat | _ => True end;
  ri_ip : ct_src_ip (rt_client s) = ct_src_ip c0;
  ri_port : ct_src_port (rt_client s) = ct_src_port c0;
  ri_csv : ct_csv_enabled (rt_client s) = true;
  ri_ring : ct_csv_buffer (rt_client s) = Some (csv_enqueue_all b (map snd (rt_replies s)));
  ri_replies : Forall (fun '(r, n, e) => 4 <= zlen (ri_bytes r) /\ (n <= length (rt_stored s))%nat /\
    forall k, in_time r n k -> e = reply_entry freq tsc_reliable c0 r (fst (stored_at s k)) (snd (stored_at s k))) (rt_replies s) }.

Lemma threads_inv_start c b : ct_seq_num c = 0 -> ct_csv_enabled c = true -> ct_csv_buffer c = Some b -> threads_inv c b (RtState c Ready [] []).
Proof. intros H1 H2 H3. split; try done. exists 0%nat. cbn. by rewrite H1. Qed.

(** A step that keeps the logs, the address and the arrays. *)
Lemma threads_inv_quiet c0 b c pc c' pc' stored replies :
  threads_inv c0 b (RtState c pc stored replies) ->
  ct_csv_enabled c' = ct_csv_enabled c -> ct_csv_buffer c' = ct_csv_buffer c -> ct_src_ip c' = ct_src_ip c -> ct_src_port c' = ct_src_port c ->
  app_tx_timestamps c' = app_tx_timestamps c -> app_tx_tsc_values c' = app_tx_tsc_values c ->
  (exists base, ct_seq_num c' = u32 (Z.of_nat base) /\
    length stored = (base + match pc' with Ready => 0 | Storing _ _ i => i | Recording _ n _ => n end)%nat /\
    match pc' with Storing _ n i => (i <= n)%nat | _ => True end) ->
  threads_inv c0 b (RtState c' pc' stored replies).
Proof.
  intros [H1 H2 _ H4 H5 H6 H7 H8] E1 E2 E3 E4 E5 E6 Hs. split; cbn [rt_client rt_stored rt_pc rt_replies] in *.
  - rewrite E5. exact H1. - rewrite E6. exact H2. - exact Hs. - congruence. - congruence. - congruence. - congruence. - exact H8.
Qed.

Lemma threads_inv_store c0 b c clocks n i stored replies :
  arrays_full c0 -> (i < n)%nat -> threads_inv c0 b (RtState c (Storing clocks n i) stored replies) ->
  threads_inv c0 b (RtState (store_tx_timestamps c (batch_seq c i) (tk_time clocks i) (tk_tsc clocks i)) (Storing clocks n (S i))
    (stored ++ [(tk_time clocks i, tk_tsc clocks i)]) replies).
Proof.
  intros [Hf1 Hf2] Hi [H1 H2 (base & H3 & H3' & _) H4 H5 H6 H7 H8]. cbn [rt_client rt_stored rt_pc rt_replies] in *.
  destruct (store_run_full _ 0 (fun k => fst (stored_at (RtState c (Storing clocks n i) stored replies) k)) (length stored) Hf1) as (p1 & l1 & E1 & _).
  destruct (store_run_full _ 0 (fun k => snd (stored_at (RtState c (Storing clocks n i) stored replies) k)) (length stored) Hf2) as (p2 & l2 & E2 & _).
  set (c' := store_tx_timestamps c (batch_seq c i) (tk_time clocks i) (tk_tsc clocks i)).
  set (stored' := stored ++ [(tk_time clocks i, tk_tsc clocks i)]).
  assert (forall k, (k < length stored)%nat -> stored' !! k = stored !! k) as Hold by (intros k Hk; by apply lookup_app_l).
  assert (stored' !! length stored = Some (tk_time clocks i, tk_tsc clocks i)) as Hnew.
  { unfold stored'. by rewrite lookup_app_r, Nat.sub_diag by lia. }
  assert (batch_seq c i = u32 (0 + Z.of_nat (length stored))) as Hseq.
  { unfold batch_seq. rewrite Z.add_0_l, H3', Nat2Z.inj_add. apply u32_add. by rewrite H3, u32_u32. }
  assert (app_tx_timestamps c' = array_store (app_tx_timestamps c) (get_circular_index (batch_seq c i)) (tk_time clocks i) /\
    app_tx_tsc_values c' = array_store (app_tx_tsc_values c) (get_circular_index (batch_seq c i)) (tk_tsc clocks i) /\
    ct_seq_num c' = ct_seq_num c /\ same_logs c c') as (A1 & A2 & A3 & L1 & L2 & _ & L3 & L4).
  { unfold c', store_tx_timestamps. rewrite H1, H2, E1, E2. cbn. by repeat split. }
  split; cbn [rt_client rt_stored rt_pc rt_replies]; try congruence.
  - unfold stored'. rewrite length_app, Nat.add_1_r, store_run_S, A1, H1, Hseq. f_equal.
    + apply store_run_ext. intros k Hk. unfold stored_at. cbn [rt_stored]. fold stored'. by rewrite Hold.
    + unfold stored_at. cbn [rt_stored]. fold stored'. by rewrite Hnew.
  - unfold stored'. rewrite length_app, Nat.add_1_r, store_run_S, A2, H2, Hseq. f_equal.
    + apply store_run_ext. intros k Hk. unfold stored_at. cbn [rt_stored]. fold stored'. by rewrite Hold.
    + unfold stored_at. cbn [rt_stored]. fold stored'. by rewrite Hnew.
  - exists base. rewrite A3. split; [done|]. unfold stored'. rewrite length_app. cbn [length]. lia.
  - eapply Forall_impl; [exact H8|]. intros [[r m] e] (P1 & P2 & P3). unfold stored'. rewrite length_app. split; [done|]. split; [lia|].
    intros k Hk. rewrite (P3 k Hk). unfold stored_at. cbn [rt_stored]. fold stored'. rewrite Hold; [done|]. destruct Hk as (_ & Hk & _). lia.
Qed.

Lemma threads_inv_reply c0 b c pc stored replies r :
  arrays_full c0 -> threads_inv c0 b (RtState c pc stored replies) ->
  threads_inv c0 b (RtState (rx_receive freq tsc_reliable c r) pc stored
    (if 4 <=? zlen (ri_bytes r) then replies ++ [(r, length stored, logged_reply c r)] else replies)).
Proof.
  intros [Hf1 Hf2] [H1 H2 H3 H4 H5 H6 H7 H8]. cbn [rt_client rt_stored rt_pc rt_replies] in *.
  destruct (Z.leb_spec 4 (zlen (ri_bytes r))) as [H|H].
  2:{ assert (rx_receive freq tsc_reliable c r = c) as ->.
      { unfold rx_receive. destruct (Z.leb_spec 4 (zlen (take 4 (ri_bytes r)))) as [Hz|]; [|done]. unfold zlen in *. rewrite length_take in Hz. lia. }
      by split. }
  destruct (rx_receive_logs freq tsc_reliable c _ r H6 H7 H) as [E _]. cbn zeta in E.
  assert (app_tx_timestamps (rx_receive freq tsc_reliable c r) = app_tx_timestamps c /\ app_tx_tsc_values (rx_receive freq tsc_reliable c r) = app_tx_tsc_values c /\
    ct_seq_num (rx_receive freq tsc_reliable c r) = ct_seq_num c /\ ct_src_ip (rx_receive freq tsc_reliable c r) = ct_src_ip c /\
    ct_src_port (rx_receive freq tsc_reliable c r) = ct_src_port c /\ ct_csv_enabled (rx_receive freq tsc_reliable c r) = ct_csv_enabled c)
    as (A1 & A2 & A3 & A4 & A5 & A6).
  { unfold rx_receive. destruct (4 <=? _); [|done]. cbv zeta. cbn [ct_with_stats ct_csv_enabled]. rewrite H6. by repeat split. }
  split; cbn [rt_client rt_stored rt_pc rt_replies]; try congruence.
  - rewrite A1. exact H1.
  - rewrite A2. exact H2.
  - by rewrite A3.
  - rewrite E, map_app. unfold csv_enqueue_all. by rewrite fold_left_app.
  - apply Forall_app. split; [exact H8|]. apply Forall_cons_2; [|done]. split; [done|]. split; [done|].
    intros k (K1 & K2 & K3 & K4).
    assert (forall A (a : option (harray A)) (f : nat -> A), array_full a ->
      array_at (store_run a 0 f (length stored)) (get_circular_index (ntohl_at (ri_bytes r) 0)) = Some (f k)) as Hat.
    { intros A a f Ha. rewrite K1. apply (store_run_at a 0 f (length stored) k Ha); lia. }
    unfold logged_reply, rx_times. rewrite H1, H2, !Hat by done. unfold reply_entry.
    destruct (extract_rx_timestamps _ _ _) as [[f hw] ker]. cbn [rtt_tx_tsc rtt_app_tx rtt_hw_rx rtt_ker_rx rtt_rx_tsc rtt_app_rx].
    by rewrite H4, H5.
Qed.

Lemma threads_inv_step c0 b s ev s' : arrays_full c0 -> threads_inv c0 b s -> rt_client_step s ev = Some s' -> threads_inv c0 b s'.
Proof.
  intros Hf Hi. destruct s as [c pc stored replies]. pose proof (ri_seq _ _ _ Hi) as (base & B1 & B2 & B3). cbn [rt_client rt_stored rt_pc] in *.
  destruct ev as [[clocks [n| |]]| |r]; destruct pc as [|clocks' m i|clocks' m i]; cbn [rt_client_step]; try done.
  - intros [= <-]. eapply threads_inv_quiet; [exact Hi|done..|]. exists base. repeat split; [done|lia|lia].
  - by intros [= <-].
  - destruct (Nat.ltb_spec i m) as [H|H]; intros [= <-]; [by apply threads_inv_store|].
    eapply threads_inv_quiet; [exact Hi|done..|]. exists base. repeat split; [done|lia].
  - destruct (Nat.ltb_spec i m) as [H|H]; intros [= <-]; (eapply threads_inv_quiet; [exact Hi|done..|]).
    + by exists base.
    + exists (base + m)%nat. cbn [ct_with_sent ct_seq_num]. split; [|split; [lia|done]].
      rewrite B1, Nat2Z.inj_add. apply u32_add. by rewrite u32_u32.
  - intros [= <-]. by apply threads_inv_reply.
  - intros [= <-]. by apply threads_inv_reply.
  - intros [= <-]. by apply threads_inv_reply.
Qed.
Lemma threads_inv_run c0 b evs : forall s s', arrays_full c0 -> threads_inv c0 b s -> run_steps rt_client_step s evs = Some s' -> threads_inv c0 b s'.
Proof.
  induction evs as [|ev evs IH]; intros s s' Hf Hi; cbn [run_steps]; [by intros [= <-]|].
  destruct (rt_client_step s ev) as [s1|] eqn:E; [|done]. intros H. eapply IH; [done| |exact H]. by eapply threads_inv_step.
Qed.
End threads.

(** ** The table *)

Definition roundtrip_cells (port seq ker_tx : Z) (t : rt_times) : list cstr :=
  [fmt_u port; fmt_u seq; fmt_ts (rtt_tx_tsc t); fmt_ts (rtt_app_tx t); fmt_ts ker_tx; fmt_ts (rtt_hw_rx t); fmt_ts (rtt_ker_rx t);
   fmt_ts (rtt_rx_tsc t); fmt_ts (rtt_app_rx t);
   delta_column (rtt_app_tx t) ker_tx; delta_column (rtt_hw_rx t) (rtt_ker_rx t); delta_column (rtt_ker_rx t) (rtt_app_rx t);
   delta_column (rtt_app_tx t) (rtt_hw_rx t); delta_column (rtt_app_tx t) (rtt_app_rx t); delta_column (rtt_tx_tsc t) (rtt_rx_tsc t)].
(** The times of a reply to a packet with these two stamps. *)
Definition reply_times (freq : double) (tsc_reliable : bool) (r : rx_input) (tx : timespec) (tsc : Z) : rt_times :=
  let conv ref v := ts_ns (tsc_to_timespec freq (fst ref) (snd ref) v) in
  let '(_, hw, ker) := extract_rx_timestamps (ri_cmsgs r) ts_zero_spec ts_zero_spec in
  RtTimes (conv (ri_ref_tx r) tsc) (ts_ns tx) (ts_ns hw) (ts_ns ker) (conv (ri_ref_rx r) (if tsc_reliable then ri_tsc r else 0)) (ts_ns (ri_app_rx_ts r)).
Definition entry_times (e : csv_entry_t) : rt_times := RtTimes (ts_at e 0) (ts_at e 1) (ts_at e 3) (ts_at e 4) (ts_at e 5) (ts_at e 6).
Definition roundtrip_logs (main tx : list csv_entry_t) : list (csv_type_t * list csv_entry_t) :=
  [(CSV_CLIENT_MAIN_ROUNDTRIP, main); (CSV_CLIENT_TX, tx)].

Lemma roundtrip_joined_row ip port wm wt seq em et :
  Forall loggable wm -> Forall loggable wt -> last (of_client ip port seq wm) = Some em -> last (of_client ip port seq wt) = Some et ->
  row_cells (joined_record ip port (log_files (roundtrip_logs wm wt)) seq) port MODE_ROUND_TRIP TARGET_CLIENT =
    roundtrip_cells port seq (ts_at et 2) (entry_times em).
Proof.
  intros Hwm Hwt Hm Ht. set (r := joined_record _ _ _ _).
  assert (Forall (fun l => Forall loggable (snd l)) (roundtrip_logs wm wt)) as Hl by (by repeat constructor).
  pose proof (fun col => joined_value ip port _ seq col 0 CSV_CLIENT_MAIN_ROUNDTRIP wm em Hl) as Vm.
  pose proof (joined_value ip port _ seq 2 1 CSV_CLIENT_TX wt et Hl ltac:(lia) eq_refl Ht eq_refl : record_ts r 2 = fmt_ts (ts_at et 2)) as V2.
  pose proof (Vm 0 ltac:(lia) eq_refl Hm eq_refl : record_ts r 0 = fmt_ts (ts_at em 0)) as V0.
  pose proof (Vm 1 ltac:(lia) eq_refl Hm eq_refl : record_ts r 1 = fmt_ts (ts_at em 1)) as V1.
  pose proof (Vm 8 ltac:(lia) eq_refl Hm eq_refl : record_ts r 8 = fmt_ts (ts_at em 3)) as V8.
  pose proof (Vm 9 ltac:(lia) eq_refl Hm eq_refl : record_ts r 9 = fmt_ts (ts_at em 4)) as V9.
  pose proof (Vm 10 ltac:(lia) eq_refl Hm eq_refl : record_ts r 10 = fmt_ts (ts_at em 5)) as V10.
  pose proof (Vm 11 ltac:(lia) eq_refl Hm eq_refl : record_ts r 11 = fmt_ts (ts_at em 6)) as V11.
  unfold row_cells, calculate_mode_deltas. unfold r at 1. rewrite joined_record_seq, map_map.
  cbn [output_fields map app]. change (get_mode_delta_config MODE_ROUND_TRIP TARGET_CLIENT) with [0; 1; 2; 3; 4; 5]%nat. cbn [map].
  cbn [delta_def ALL_DELTA_DEFINITIONS lookup list_lookup default from_option id dd_ts_a_field dd_ts_b_field].
  change FIELD_CLT_APP_TX_TSC_TS with 0. change FIELD_CLT_APP_TX_TS with 1. change FIELD_CLT_KER_TX_TS with 2. change FIELD_CLT_HW_RX_TS with 8.
  change FIELD_CLT_KER_RX_TS with 9. change FIELD_CLT_APP_RX_TSC_TS with 10. change FIELD_CLT_APP_RX_TS with 11.
  rewrite V0, V1, V2, V8, V9, V10, V11. unfold delta_cell, roundtrip_cells.
  rewrite !delta_column_text by first [exact (kept_ts_range _ _ _ _ _ _ Hwm Hm)|exact (kept_ts_range _ _ _ _ _ _ Hwt Ht)]. done.
Qed.

(** What happened: the events of the two threads, the error queue, the logs. *)
Record rt_measurement := RtMeasurement {
  rm_freq : double; rm_tsc_reliable : bool; rm_pps : Z; rm_packet_size : Z; rm_rx_port : Z;
  rm_client : client; rm_ring : csv_ring_buffer_t; rm_events : list rt_event; rm_end : rt_state;
  rm_queue : list errq_recv; rm_main : log_run; rm_tx : log_run }.
(** The client is new; every reply holds the number of a packet whose stamps were
    among the last 50000 stored. *)
Record rt_measured (addr : Z) (m : rt_measurement) : Prop := {
  rd_new : ct_seq_num (rm_client m) = 0;
  rd_arrays : arrays_full (rm_client m);
  rd_ip : ct_src_ip (rm_client m) = inet_ntop addr;
  rd_port : 0 <= ct_src_port (rm_client m) < 65536;
  rd_log : ct_csv_enabled (rm_client m) = true /\ ct_csv_buffer (rm_client m) = Some (rm_ring m);
  rd_run : run_steps (rt_client_step (rm_freq m) (rm_tsc_reliable m) (rm_pps m) (rm_packet_size m) (rm_rx_port m))
             (RtState (rm_client m) Ready [] []) (rm_events m) = Some (rm_end m);
  rd_replies : Forall (fun '(r, n, _) => bytes_wf (ri_bytes r) /\ exists k, in_time r n k) (rt_replies (rm_end m));
  rd_queue : Forall (fun x => 0 <= fst x < 4294967296) (tx_stamps (rm_queue m));
  rd_main : log_of CSV_CLIENT_MAIN_ROUNDTRIP (map snd (rt_replies (rm_end m))) (rm_main m);
  rd_tx : log_of CSV_CLIENT_TX (client_tx_log (rm_client m) (rm_queue m)) (rm_tx m) }.
Record rt_joins (fs : gmap cstr cstr) (config : config_t) (m : rt_measurement) : Prop := {
  rj_files : mapM (fun f => fs !! f) (cfg_input_files config) = Some [run_file (rm_main m); run_file (rm_tx m)];
  rj_types : cfg_detected_types config = map (detect_file_type fs) (cfg_input_files config);
  rj_ip : cfg_target_ip config = ct_src_ip (rm_client m);
  rj_port : cfg_target_port config = ct_src_port (rm_client m);
  rj_mode : cfg_mode config = MODE_ROUND_TRIP;
  rj_target : cfg_target config = TARGET_CLIENT }.

(** The reply was handled and its packet had the stamps [p]. *)
Definition replied (m : rt_measurement) (seq : Z) (r : rx_input) (p : timespec * Z) : Prop :=
  0 <= seq /\ ntohl_at (ri_bytes r) 0 = seq /\ (exists n e, (r, n, e) ∈ rt_replies (rm_end m)) /\ rt_stored (rm_end m) !! Z.to_nat seq = Some p.
Definition true_rt_row (m : rt_measurement) (seq : Z) (row : cstr) : Prop :=
  exists r p ns, replied m seq r p /\ (seq, ns) ∈ tx_stamps (rm_queue m) /\
    row = join_commas (ct_src_ip (rm_client m))
      (roundtrip_cells (ct_src_port (rm_client m)) seq ns (reply_times (rm_freq m) (rm_tsc_reliable m) r (fst p) (snd p))).

Lemma rt_measured_inv addr m : rt_measured addr m ->
  threads_inv (rm_freq m) (rm_tsc_reliable m) (rm_client m) (rm_ring m) (rm_end m).
Proof.
  intros [H0 Ha _ _ [He Hb] Hrun _ _ _ _]. eapply threads_inv_run; [exact Ha| |exact Hrun]. by apply threads_inv_start.
Qed.
(** A logged reply and what it says. *)
Lemma reply_logged addr m e : rt_measured addr m -> e ∈ map snd (rt_replies (rm_end m)) ->
  loggable e /\ from_client (ct_src_ip (rm_client m)) (ct_src_port (rm_client m)) e /\
  exists r p, replied m (ce_seq_num e) r p /\ entry_times e = reply_times (rm_freq m) (rm_tsc_reliable m) r (fst p) (snd p).
Proof.
  intros Hm (((r & n) & e') & -> & Hin)%list_elem_of_fmap. cbn [snd]. pose proof (rt_measured_inv addr m Hm) as [_ _ _ _ _ _ _ Hr].
  pose proof Hm as [_ _ Hip Hp _ _ Hrep _ _ _].
  destruct (proj1 (Forall_forall _ _) Hrep _ Hin) as (Hb & k & Hk). destruct (proj1 (Forall_forall _ _) Hr _ Hin) as (H4 & Hn & He).
  specialize (He k Hk). pose proof Hk as (Hseq & Hkn & _).
  destruct (lookup_lt_is_Some_2 (rt_stored (rm_end m)) k ltac:(lia)) as [p Hp'].
  assert (stored_at (rm_end m) k = p) as Hs by (unfold stored_at; by rewrite Hp').
  rewrite Hs in He. unfold reply_entry, reply_times in *. pose proof (ntohl_at_range (ri_bytes r) 0 Hb) as Hrange.
  destruct (extract_rx_timestamps (ri_cmsgs r) ts_zero_spec ts_zero_spec) as [[f hw] ker] eqn:Ex. cbn zeta in *.
  unfold create_csv_client_roundtrip_rx in He. rewrite Hip in He. split; [|split].
  - rewrite He. apply loggable_entry; [done| |by apply u16_range]. repeat (apply Forall_cons_2; [apply u64_range|]). apply Forall_nil_2.
  - rewrite He. unfold from_client. cbn [ce_src_ip ce_src_port]. by rewrite Hip, strncpy_ntop, u16_small.
  - exists r, p. rewrite He. cbn [ce_seq_num]. split.
    + unfold replied. rewrite Hseq, Nat2Z.id. split; [lia|]. split; [done|]. split; [by exists n, e'|done].
    + rewrite Ex. done.
Qed.

(** C28: the table of a round-trip measurement tells the truth.  The two threads of
    the client may interleave in any way in which no reply overtakes the store of its
    packet's stamps; the logs may lose entries, replies may be lost, repeated or out of
    order.  Then each row of the joined file belongs to a packet that was answered, and
    holds the application stamp and the cycle count taken for that packet, a kernel
    stamp reported for it, the four stamps of one of its replies, and the six
    differences; rows are in the order of the numbers, one for each.  What the receiving
    thread enqueued is what was logged. *)
Theorem roundtrip_latency_table (env : join_env) (fs : gmap cstr cstr) (config : config_t) (addr : Z) (m : rt_measurement) :
  env_ok env -> rt_measured addr m -> rt_joins fs config m ->
  ct_csv_buffer (rt_client (rm_end m)) = Some (csv_enqueue_all (rm_ring m) (map snd (rt_replies (rm_end m)))) /\
  exists seqs rows,
    process_join_operation env fs config =
      Some (if (length seqs =? 0)%nat then fs else
            <[cfg_output_file config :=
                get_output_header MODE_ROUND_TRIP TARGET_CLIENT ++ [NL] ++ concat (map (fun row => row ++ [NL]) rows)]> fs) /\
    StronglySorted Z.lt seqs /\ Forall2 (true_rt_row m) seqs rows.
Proof.
  intros He Hm [Hf Hty Hi Hp Hmode Htar]. split; [apply (rt_measured_inv addr m Hm)|].
  pose proof Hm as [_ _ Hip Hport _ _ _ Hq Lm Lt].
  assert (Forall loggable (map snd (rt_replies (rm_end m)))) as Gm.
  { apply Forall_forall. intros e Hin. by apply (reply_logged addr m e Hm Hin). }
  pose proof (client_tx_log_loggable _ addr Hip _ Hq) as Gt.
  assert (forall l, Forall loggable l -> Forall csv_entry_wf l) as Hwf by (intros l H; eapply Forall_impl; [exact H|]; by intros e [? _]).
  pose proof (written_sublist _ _ _ Lm) as Sm. pose proof (written_sublist _ _ _ Lt) as St.
  pose proof (Forall_in_sublist _ _ _ Sm Gm) as Wm. pose proof (Forall_in_sublist _ _ _ St Gt) as Wt.
  rewrite (run_file_text _ _ _ Lm (Hwf _ Gm)), (run_file_text _ _ _ Lt (Hwf _ Gt)) in Hf.
  destruct (joined_logs env fs config (roundtrip_logs (written (rm_main m)) (written (rm_tx m))) addr)
    as (seqs & Hj & Hs & Hc); [done|done|by repeat constructor|exact Hf|exact Hty|by rewrite Hi|by rewrite Hp|].
  rewrite Hi, Hp, Hmode, Htar in *. eexists seqs, _. split; [exact Hj|]. split; [exact Hs|].
  apply Forall2_fmap_r, Forall_Forall2_diag, Forall_forall. intros s ([em Hem] & ([et Het] & _)%Forall_cons)%Hc%Forall_cons. cbn [snd] in *.
  unfold compose. rewrite (roundtrip_joined_row _ _ _ _ _ em et Wm Wt Hem Het).
  destruct (kept_last _ _ _ _ _ Hem) as (Im & _ & Qm). destruct (kept_last _ _ _ _ _ Het) as (It & _ & Qt).
  eapply elem_of_sublist in Im, It; [|eassumption..].
  destruct (reply_logged addr m em Hm Im) as (_ & _ & r & p & Hr & Ht).
  destruct (client_tx_log_entry _ addr Hip Hport _ _ It) as (Hin & _).
  exists r, p, (ts_at et 2). rewrite Qm in Hr. rewrite Qt in Hin. by rewrite Ht.
Qed.

(** Two packets; the reply to the first comes before the second is stored, and once
    more at the end. *)
Definition demo_rt_events : list rt_event :=
  [EvBatch (demo_batch 2); EvSender; EvReply (demo_reply 0); EvSender; EvSender; EvReply (demo_reply 1); EvSender; EvSender; EvSender; EvReply (demo_reply 0)].
Definition demo_threads_end : rt_state :=
  default (RtState demo_client Ready [] []) (run_steps (rt_client_step demo_freq true 1000 12 7000) (RtState demo_client Ready [] []) demo_rt_events).
Definition demo_rt_measurement : rt_measurement :=
  RtMeasurement demo_freq true 1000 12 7000 demo_client (sample_ring (2 ^ 3) 2) demo_rt_events demo_threads_end demo_errq
    (demo_log_run CSV_CLIENT_MAIN_ROUNDTRIP (map snd (rt_replies demo_threads_end))) (demo_log_run CSV_CLIENT_TX (client_tx_log demo_client demo_errq)).
Lemma demo_rt_measured : rt_measured 167772167 demo_rt_measurement.
Proof.
  assert (map fst (rt_replies demo_threads_end) = [(demo_reply 0, 1%nat); (demo_reply 1, 2%nat); (demo_reply 0, 2%nat)]) as Hr by (vm_compute; reflexivity).
  split; try apply demo_log_of; cbn [demo_rt_measurement rm_client rm_ring rm_events rm_end rm_queue rm_freq rm_tsc_reliable rm_pps rm_packet_size rm_rx_port].
  - reflexivity.
  - exact demo_arrays_full.
  - vm_compute. reflexivity.
  - cbn. lia.
  - split; reflexivity.
  - unfold demo_threads_end. destruct (run_steps _ _ _) eqn:E; [reflexivity|discriminate E].
  - assert (Forall (fun x : rx_input * nat => bytes_wf (ri_bytes (fst x)) /\ exists k, in_time (fst x) (snd x) k) (map fst (rt_replies demo_threads_end))) as H.
    { rewrite Hr. clear Hr. unfold bytes_wf.
      repeat (apply Forall_cons_2; [split; [apply (bool_decide_unpack _); vm_compute; exact I|]|]); [exists 0%nat|exists 1%nat|exists 0%nat|apply Forall_nil_2];
        (split; [vm_compute; reflexivity|cbn [fst snd]; lia]). }
    apply Forall_map in H. eapply Forall_impl; [exact H|]. by intros [[r n] e].
  - apply (bool_decide_unpack _). vm_compute. exact I.
Qed.
Definition demo_rt_fs : gmap cstr cstr :=
  <[lit "main.csv" := run_file (rm_main demo_rt_measurement)]> {[ lit "tx.csv" := run_file (rm_tx demo_rt_measurement) ]}.
Definition demo_rt_config : config_t :=
  Config (lit "10.0.0.7") 5000 MODE_ROUND_TRIP TARGET_CLIENT [lit "main.csv"; lit "tx.csv"] (lit "out.csv")
    [FILE_CLIENT_ROUNDTRIP_MAIN; FILE_CLIENT_ONEWAY_TX].
Lemma roundtrip_latency_table_witness :
  (exists seqs rows, StronglySorted Z.lt seqs /\ Forall2 (true_rt_row demo_rt_measurement) seqs rows) /\
  process_join_operation demo_env demo_rt_fs demo_rt_config =
    Some (<[lit "out.csv" := get_output_header MODE_ROUND_TRIP TARGET_CLIENT ++ [NL] ++
            lit "10.0.0.7,5000,0,8.999999842,8.000000000,9.000000000,9.000000000,9.000000001,9.000000002,9.000000002,1000000.000,0.001,0.001,1000000.000,1000000.002,0.160" ++ [NL] ++
            lit "10.0.0.7,5000,1,8.999999843,8.000000001,9.000000001,9.000000000,9.000000001,9.000000002,9.000000002,1000000.000,0.001,0.001,999999.999,1000000.001,0.159" ++ [NL]]> demo_rt_fs).
Proof.
  split; [|vm_compute; reflexivity].
  destruct (roundtrip_latency_table demo_env demo_rt_fs demo_rt_config 167772167 demo_rt_measurement) as (_ & seqs & rows & _ & H1 & H2).
  - repeat split.
  - exact demo_rt_measured.
  - split; [vm_compute; reflexivity..].
  - by exists seqs, rows.
Defined.
