(* ===== verification/MeasurementFull.v ===== *)
(** A round-trip measurement of client and server: the two threads of the client
    (MeasurementRt.v), the three threads of the server (ServerTrace.v), their four
    logs and the table the join makes of them. *)

From S2P Require Import Prelude CText Ring Heap Wire CsvLog CsvRing StatsCollector CorrArray TxStamps MainLoop ServerQueue ServerCorr ServerRx ServerRt ServerTrace.
From S2P Require Import Client JoinParse JoinSeq JoinTable JoinOut Join Measurement MeasurementRt.

(** ** A row *)

(** The stamps of the server for one packet. *)
Record server_times := ServerTimes { svt_hw : Z; svt_ker : Z; svt_app : Z; svt_app_tx : Z; svt_ker_tx : Z }.
Definition full_cells (port seq clt_ker_tx : Z) (t : rt_times) (v : server_times) : list cstr :=
  [fmt_u port; fmt_u seq; fmt_ts (rtt_tx_tsc t); fmt_ts (rtt_app_tx t); fmt_ts clt_ker_tx;
   fmt_ts (svt_hw v); fmt_ts (svt_ker v); fmt_ts (svt_app v); fmt_ts (svt_app_tx v); fmt_ts (svt_ker_tx v);
   fmt_ts (rtt_hw_rx t); fmt_ts (rtt_ker_rx t); fmt_ts (rtt_rx_tsc t); fmt_ts (rtt_app_rx t);
   delta_column (rtt_app_tx t) clt_ker_tx; delta_column (rtt_hw_rx t) (rtt_ker_rx t); delta_column (rtt_ker_rx t) (rtt_app_rx t);
   delta_column (rtt_app_tx t) (rtt_hw_rx t); delta_column (rtt_app_tx t) (rtt_app_rx t); delta_column (rtt_tx_tsc t) (rtt_rx_tsc t);
   delta_column (svt_hw v) (svt_ker v); delta_column (svt_ker v) (svt_app v); delta_column (svt_app v) (svt_app_tx v);
   delta_column (svt_app_tx v) (svt_ker_tx v); delta_column (svt_hw v) (svt_app v); delta_column (svt_hw v) (svt_ker_tx v);
   delta_column clt_ker_tx (svt_hw v); delta_column (svt_ker_tx v) (rtt_hw_rx t)].
Definition full_logs (main tx server_main server_tx : list csv_entry_t) : list (csv_type_t * list csv_entry_t) :=
  [(CSV_CLIENT_MAIN_ROUNDTRIP, main); (CSV_CLIENT_TX, tx); (CSV_SERVER_MAIN_ROUNDTRIP, server_main); (CSV_SERVER_TX, server_tx)].

Lemma full_joined_row ip port wm wt sm st seq em et es ev :
  Forall loggable wm -> Forall loggable wt -> Forall loggable sm -> Forall loggable st ->
  last (of_client ip port seq wm) = Some em -> last (of_client ip port seq wt) = Some et ->
  last (of_client ip port seq sm) = Some es -> last (of_client ip port seq st) = Some ev ->
  row_cells (joined_record ip port (log_files (full_logs wm wt sm st)) seq) port MODE_ROUND_TRIP TARGET_CLIENT_SERVER =
    full_cells port seq (ts_at et 2) (entry_times em) (ServerTimes (ts_at es 7) (ts_at es 8) (ts_at es 9) (ts_at es 10) (ts_at ev 11)).
Proof.
  intros Gm Gt Gs Gv Hm Ht Hs Hv. set (r := joined_record _ _ _ _).
  assert (Forall (fun l => Forall loggable (snd l)) (full_logs wm wt sm st)) as Hl by (by repeat constructor).
  pose proof (fun col => joined_value ip port _ seq col 0 CSV_CLIENT_MAIN_ROUNDTRIP wm em Hl) as Vm.
  pose proof (fun col => joined_value ip port _ seq col 1 CSV_CLIENT_TX wt et Hl) as Vt.
  pose proof (fun col => joined_value ip port _ seq col 2 CSV_SERVER_MAIN_ROUNDTRIP sm es Hl) as Vs.
  pose proof (fun col => joined_value ip port _ seq col 3 CSV_SERVER_TX st ev Hl) as Vv.
  pose proof (Vm 0 ltac:(lia) eq_refl Hm eq_refl : record_ts r 0 = fmt_ts (ts_at em 0)) as V0.
  pose proof (Vm 1 ltac:(lia) eq_refl Hm eq_refl : record_ts r 1 = fmt_ts (ts_at em 1)) as V1.
  pose proof (Vt 2 ltac:(lia) eq_refl Ht eq_refl : record_ts r 2 = fmt_ts (ts_at et 2)) as V2.
  pose proof (Vs 3 ltac:(lia) eq_refl Hs eq_refl : record_ts r 3 = fmt_ts (ts_at es 7)) as V3.
  pose proof (Vs 4 ltac:(lia) eq_refl Hs eq_refl : record_ts r 4 = fmt_ts (ts_at es 8)) as V4.
  pose proof (Vs 5 ltac:(lia) eq_refl Hs eq_refl : record_ts r 5 = fmt_ts (ts_at es 9)) as V5.
  pose proof (Vs 6 ltac:(lia) eq_refl Hs eq_refl : record_ts r 6 = fmt_ts (ts_at es 10)) as V6.
  pose proof (Vv 7 ltac:(lia) eq_refl Hv eq_refl : record_ts r 7 = fmt_ts (ts_at ev 11)) as V7.
  pose proof (Vm 8 ltac:(lia) eq_refl Hm eq_refl : record_ts r 8 = fmt_ts (ts_at em 3)) as V8.
  pose proof (Vm 9 ltac:(lia) eq_refl Hm eq_refl : record_ts r 9 = fmt_ts (ts_at em 4)) as V9.
  pose proof (Vm 10 ltac:(lia) eq_refl Hm eq_refl : record_ts r 10 = fmt_ts (ts_at em 5)) as V10.
  pose proof (Vm 11 ltac:(lia) eq_refl Hm eq_refl : record_ts r 11 = fmt_ts (ts_at em 6)) as V11.
  unfold row_cells, calculate_mode_deltas. unfold r at 1. rewrite joined_record_seq, map_map.
  cbn [output_fields map app]. change (get_mode_delta_config MODE_ROUND_TRIP TARGET_CLIENT_SERVER) with [0; 1; 2; 3; 4; 5; 6; 7; 8; 9; 10; 11; 12; 13]%nat. cbn [map].
  cbn [delta_def ALL_DELTA_DEFINITIONS lookup list_lookup default from_option id dd_ts_a_field dd_ts_b_field].
  change FIELD_CLT_APP_TX_TSC_TS with 0. change FIELD_CLT_APP_TX_TS with 1. change FIELD_CLT_KER_TX_TS with 2.
  change FIELD_SVR_HW_RX_TS with 3. change FIELD_SVR_KER_RX_TS with 4. change FIELD_SVR_APP_RX_TS with 5.
  change FIELD_SVR_APP_TX_TS with 6. change FIELD_SVR_KER_TX_TS with 7. change FIELD_CLT_HW_RX_TS with 8.
  change FIELD_CLT_KER_RX_TS with 9. change FIELD_CLT_APP_RX_TSC_TS with 10. change FIELD_CLT_APP_RX_TS with 11.
  rewrite V0, V1, V2, V3, V4, V5, V6, V7, V8, V9, V10, V11. unfold delta_cell, full_cells.
  rewrite !delta_column_text by first [exact (kept_ts_range _ _ _ _ _ _ Gm Hm)|exact (kept_ts_range _ _ _ _ _ _ Gt Ht)
    |exact (kept_ts_range _ _ _ _ _ _ Gs Hs)|exact (kept_ts_range _ _ _ _ _ _ Gv Hv)]. done.
Qed.

(** ** The logs of the server *)

(** The packet in a slot when the entry for it was made: the request or the stamp is
    for that packet. *)
Definition slot_of (t : sv_trace) (seq : Z) (n : nat) (p : rt_packet) : Prop :=
  last_stored (take n (tc_stored t)) (get_circular_index seq) = Some p /\ rk_seq_num p = seq.
Record server_history (b bt : csv_ring_buffer_t) (s : server) (evs : list sv_event) (t : sv_trace) : Prop := {
  sr_arrays : corr_full (sv_corr s);
  sr_logs : sv_csv_enabled s = true /\ sv_csv_buffer s = Some b /\ sv_tx_csv_buffer s = Some bt;
  sr_events : Forall event_ok evs;
  sr_steps : run_steps sv_trace_step (SvTrace RxIdle s [] [] [] []) evs = Some t;
  sr_datagrams : Forall datagram_wf (tc_received t);
  sr_sent : Forall (fun '(req, _, n, _) => exists p, slot_of t (rq_seq_num req) n p /\ sin_port (rk_src p) = rq_original_client_src_port req) (tc_sent t);
  sr_stamped : Forall (fun '(stamp, n, _) => exists p, slot_of t (fst stamp) n p) (tc_stamped t) }.
(** A packet of the client with this number, and the datagram it was. *)
Definition packet_from (t : sv_trace) (ip : cstr) (port seq : Z) (p : rt_packet) : Prop :=
  rk_seq_num p = seq /\ inet_ntop (sin_addr (rk_src p)) = ip /\ sin_port (rk_src p) = port /\ exists d, d ∈ tc_received t /\ decoded_from p d.
(** The client's packet was answered, with this stamp; and the kernel reported the
    transmission of an answer to it. *)
Definition answered (t : sv_trace) (ip : cstr) (port seq : Z) (p : rt_packet) (ts : timespec) : Prop :=
  packet_from t ip port seq p /\ exists req n e, (req, ts, n, e) ∈ tc_sent t /\ rq_seq_num req = seq /\ slot_of t seq n p.
Definition reported (t : sv_trace) (ip : cstr) (port seq ns : Z) : Prop :=
  exists p n e, packet_from t ip port seq p /\ ((seq, ns), n, e) ∈ tc_stamped t /\ slot_of t seq n p.

Section server.
Context (b bt : csv_ring_buffer_t) (s : server) (evs : list sv_event) (t : sv_trace) (Hrun : server_history b bt s evs t).

Lemma server_inv : sv_inv b bt t.
Proof using Hrun. destruct Hrun as [H1 (H2 & H3 & H4) H5 H6 _ _ _]. eapply sv_inv_run; [exact H5| |exact H6]. by apply sv_inv_start. Qed.
Lemma slot_packet seq n p : slot_of t seq n p ->
  packet_from t (inet_ntop (sin_addr (rk_src p))) (sin_port (rk_src p)) seq p /\ 0 <= seq < 4294967296 /\ 0 <= sin_port (rk_src p) < 65536.
Proof using Hrun.
  intros [Hl Hs]. pose proof (si_origin _ _ _ server_inv) as Ho. apply Forall_app in Ho as [_ Ho].
  destruct (proj1 (Forall_forall _ _) Ho p (last_stored_in _ _ _ _ Hl)) as (d & Hd & Hf).
  destruct (proj1 (Forall_forall _ _) (sr_datagrams _ _ _ _ _ Hrun) d Hd) as (Hb & _ & Hp).
  split; [split_and!; try done; by exists d|]. destruct Hf as (_ & E & _ & Eq & _). rewrite E. split; [|lia].
  rewrite <- Hs, Eq. destruct (4 <=? _); [by apply ntohl_at_range|apply u32_range].
Qed.

Lemma server_main_entry e : e ∈ map snd (tc_sent t) -> loggable e /\
  exists p ts, answered t (ce_src_ip e) (ce_src_port e) (ce_seq_num e) p ts /\
    ts_at e 7 = ts_ns (rk_hw p) /\ ts_at e 8 = ts_ns (rk_ker p) /\ ts_at e 9 = ts_ns (rk_app p) /\ ts_at e 10 = ts_ns ts.
Proof using Hrun.
  intros ((((req & ts) & n) & e') & -> & Hin)%list_elem_of_fmap. cbn [snd].
  destruct (proj1 (Forall_forall _ _) (sr_sent _ _ _ _ _ Hrun) _ Hin) as (p & Hp & Hport).
  destruct (proj1 (Forall_forall _ _) (si_sent _ _ _ server_inv) _ Hin) as (_ & He). rewrite (He p (proj1 Hp)).
  destruct (slot_packet _ _ _ Hp) as (Hpk & Hr & Hr'). unfold sent_entry, create_csv_server_roundtrip_main, packet_slot.
  cbn [sl_ip sl_port sl_hw sl_ker sl_app]. change (take 15 (inet_ntop ?a)) with (strncpy (inet_ntop a) 15). rewrite strncpy_ntop. split.
  - apply loggable_entry; [done|repeat (apply Forall_cons_2; [apply u64_range|]); apply Forall_nil_2|apply u16_range].
  - exists p, ts. cbn [ce_src_ip ce_src_port ce_seq_num]. rewrite strncpy_ntop, <- Hport, u16_small by done. split; [|done].
    split; [done|]. by exists req, n, e'.
Qed.
Lemma server_tx_entries e : e ∈ map snd (tc_stamped t) -> loggable e /\ reported t (ce_src_ip e) (ce_src_port e) (ce_seq_num e) (ts_at e 11).
Proof using Hrun.
  intros ((([seq ns] & n) & e') & -> & Hin)%list_elem_of_fmap. cbn [snd].
  destruct (proj1 (Forall_forall _ _) (sr_stamped _ _ _ _ _ Hrun) _ Hin) as (p & Hp).
  destruct (proj1 (Forall_forall _ _) (si_stamped _ _ _ server_inv) _ Hin) as (_ & Hns & He). rewrite (He p (proj1 Hp)).
  destruct (slot_packet _ _ _ Hp) as (Hpk & Hr & Hr'). unfold stamped_entry, create_csv_server_tx, packet_slot.
  cbn [sl_ip sl_port fst snd] in *. change (take 15 (inet_ntop ?a)) with (strncpy (inet_ntop a) 15). rewrite strncpy_ntop, u16_small by done. split.
  - apply loggable_entry; [done|apply Forall_cons_2; [exact Hns|apply Forall_nil_2]|done].
  - exists p, n, e'. cbn [ce_src_ip ce_src_port ce_seq_num]. by rewrite strncpy_ntop.
Qed.
End server.

(** ** The measurement *)

(** What happened: at the client (MeasurementRt.v), at the server, and to the logs of
    the server. *)
Record full_measurement := FullMeasurement {
  fm_client : rt_measurement; fm_server : server; fm_ring : csv_ring_buffer_t; fm_tx_ring : csv_ring_buffer_t;
  fm_events : list sv_event; fm_end : sv_trace; fm_main : log_run; fm_tx : log_run }.
Record full_measured (addr : Z) (m : full_measurement) : Prop := {
  fd_client : rt_measured addr (fm_client m);
  fd_server : server_history (fm_ring m) (fm_tx_ring m) (fm_server m) (fm_events m) (fm_end m);
  fd_main : log_of CSV_SERVER_MAIN_ROUNDTRIP (map snd (tc_sent (fm_end m))) (fm_main m);
  fd_tx : log_of CSV_SERVER_TX (map snd (tc_stamped (fm_end m))) (fm_tx m) }.
Record full_joins (fs : gmap cstr cstr) (config : config_t) (m : full_measurement) : Prop := {
  fj_files : mapM (fun f => fs !! f) (cfg_input_files config) =
    Some [run_file (rm_main (fm_client m)); run_file (rm_tx (fm_client m)); run_file (fm_main m); run_file (fm_tx m)];
  fj_types : cfg_detected_types config = map (detect_file_type fs) (cfg_input_files config);
  fj_ip : cfg_target_ip config = ct_src_ip (rm_client (fm_client m));
  fj_port : cfg_target_port config = ct_src_port (rm_client (fm_client m));
  fj_mode : cfg_mode config = MODE_ROUND_TRIP;
  fj_target : cfg_target config = TARGET_CLIENT_SERVER }.

Definition true_full_row (m : full_measurement) (seq : Z) (row : cstr) : Prop :=
  exists r stamps ns p ts ns',
    replied (fm_client m) seq r stamps /\ (seq, ns) ∈ tx_stamps (rm_queue (fm_client m)) /\
    answered (fm_end m) (ct_src_ip (rm_client (fm_client m))) (ct_src_port (rm_client (fm_client m))) seq p ts /\
    reported (fm_end m) (ct_src_ip (rm_client (fm_client m))) (ct_src_port (rm_client (fm_client m))) seq ns' /\
    row = join_commas (ct_src_ip (rm_client (fm_client m)))
      (full_cells (ct_src_port (rm_client (fm_client m))) seq ns
         (reply_times (rm_freq (fm_client m)) (rm_tsc_reliable (fm_client m)) r (fst stamps) (snd stamps))
         (ServerTimes (ts_ns (rk_hw p)) (ts_ns (rk_ker p)) (ts_ns (rk_app p)) (ts_ns ts) ns')).

(** What a log keeps of loggable entries. *)
Lemma log_kept ty es r : log_of ty es r -> Forall loggable es -> run_file r = log_text ty (written r) /\ Forall loggable (written r) /\ written r `sublist_of` es.
Proof.
  intros L G. pose proof (written_sublist _ _ _ L) as S. split; [|by split; [eapply Forall_in_sublist|]].
  apply (run_file_text _ _ _ L). eapply Forall_impl; [exact G|]. by intros e [? _].
Qed.
Lemma full_logs_kept addr m : full_measured addr m ->
  let c := fm_client m in
  let kept r ty es := run_file r = log_text ty (written r) /\ Forall loggable (written r) /\ written r `sublist_of` es in
  kept (rm_main c) CSV_CLIENT_MAIN_ROUNDTRIP (map snd (rt_replies (rm_end c))) /\ kept (rm_tx c) CSV_CLIENT_TX (client_tx_log (rm_client c) (rm_queue c)) /\
  kept (fm_main m) CSV_SERVER_MAIN_ROUNDTRIP (map snd (tc_sent (fm_end m))) /\ kept (fm_tx m) CSV_SERVER_TX (map snd (tc_stamped (fm_end m))).
Proof.
  intros [Hc Hs Lm Lt]. pose proof Hc as [_ _ Hip _ _ _ _ Hq Cm Ct]. split; [|split; [|split]]; (apply log_kept; [done|]).
  - apply Forall_forall. intros e He. by apply (reply_logged addr _ e Hc He).
  - by apply (client_tx_log_loggable _ addr).
  - apply Forall_forall. intros e He. by apply (server_main_entry _ _ _ _ _ Hs).
  - apply Forall_forall. intros e He. by apply (server_tx_entries _ _ _ _ _ Hs).
Qed.
Lemma full_joined_by_all addr m seq : full_measured addr m ->
  let c := fm_client m in
  let ip := ct_src_ip (rm_client c) in
  let port := ct_src_port (rm_client c) in
  let logs := full_logs (written (rm_main c)) (written (rm_tx c)) (written (fm_main m)) (written (fm_tx m)) in
  Forall (fun l => is_Some (last (of_client ip port seq (snd l)))) logs ->
  true_full_row m seq (join_commas ip (row_cells (joined_record ip port (log_files logs) seq) port MODE_ROUND_TRIP TARGET_CLIENT_SERVER)).
Proof.
  intros Hm c ip port logs ([em Hem] & ([et Het] & ([es Hes] & ([ev Hev] & _)%Forall_cons)%Forall_cons)%Forall_cons)%Forall_cons.
  cbn [snd] in *. pose proof (full_logs_kept addr m Hm) as ((_ & Wm & Sm) & (_ & Wt & St) & (_ & Ws & Ss) & (_ & Wv & Sv)).
  destruct Hm as [Hc Hs _ _]. pose proof Hc as [_ _ Hip Hport _ _ _ _ _ _].
  unfold logs. rewrite (full_joined_row _ _ _ _ _ _ _ em et es ev) by done.
  destruct (kept_last _ _ _ _ _ Hem) as (Im & _ & Qm). destruct (kept_last _ _ _ _ _ Het) as (It & _ & Qt).
  destruct (kept_last _ _ _ _ _ Hes) as (Is & [As Ps] & Qs). destruct (kept_last _ _ _ _ _ Hev) as (Iv & [Av Pv] & Qv).
  eapply elem_of_sublist in Im, It, Is, Iv; [|eassumption..].
  destruct (reply_logged addr _ em Hc Im) as (_ & _ & r & stamps & Hr & Ht).
  destruct (client_tx_log_entry _ addr Hip Hport _ _ It) as (Hin & _).
  destruct (server_main_entry _ _ _ _ _ Hs _ Is) as (_ & p & ts & Ha & T7 & T8 & T9 & T10).
  destruct (server_tx_entries _ _ _ _ _ Hs _ Iv) as (_ & Hv).
  rewrite As, Ps, Qs in Ha. rewrite Av, Pv, Qv in Hv. rewrite Qm in Hr. rewrite Qt in Hin.
  exists r, stamps, (ts_at et 2), p, ts, (ts_at ev 11). rewrite Ht, T7, T8, T9, T10. by split_and!.
Qed.

(** C1: the table of a round trip measured at both ends tells the truth.  The two
    threads of the client and the three of the server may interleave in any way in
    which a reply or a TX timestamp finds the stamps of its own packet in the
    correlation arrays; messages and log entries may be lost, repeated or out of order.
    Then each row of the joined file belongs to one sequence number: a packet whose
    reply the client handled, and which the server received from the client's address
    and answered; its cells are the stamps taken for this packet at both ends, the
    kernel stamps reported for it and for its answer, and the fourteen differences.
    Rows are in the order of the numbers, one for each. *)
Theorem full_latency_table (env : join_env) (fs : gmap cstr cstr) (config : config_t) (addr : Z) (m : full_measurement) :
  env_ok env -> full_measured addr m -> full_joins fs config m ->
  (sv_csv_buffer (tc_server (fm_end m)) = Some (csv_enqueue_all (fm_ring m) (map snd (tc_sent (fm_end m)))) /\
   sv_tx_csv_buffer (tc_server (fm_end m)) = Some (csv_enqueue_all (fm_tx_ring m) (map snd (tc_stamped (fm_end m))))) /\
  exists seqs rows,
    process_join_operation env fs config =
      Some (if (length seqs =? 0)%nat then fs else
            <[cfg_output_file config :=
                get_output_header MODE_ROUND_TRIP TARGET_CLIENT_SERVER ++ [NL] ++ concat (map (fun row => row ++ [NL]) rows)]> fs) /\
    StronglySorted Z.lt seqs /\ Forall2 (true_full_row m) seqs rows.
Proof.
  intros He Hm [Hf Hty Hi Hp Hmode Htar]. split; [split; apply (server_inv _ _ _ _ _ (fd_server _ _ Hm))|].
  pose proof (full_logs_kept addr m Hm) as ((Em & Wm & _) & (Et & Wt & _) & (Es & Ws & _) & (Ev & Wv & _)).
  rewrite Em, Et, Es, Ev in Hf. pose proof (fd_client _ _ Hm) as [_ _ Hip Hport _ _ _ _ _ _].
  destruct (joined_logs env fs config (full_logs (written (rm_main (fm_client m))) (written (rm_tx (fm_client m))) (written (fm_main m)) (written (fm_tx m))) addr)
    as (seqs & Hj & Hs & Hc); [done|done|by repeat constructor|exact Hf|exact Hty|by rewrite Hi|by rewrite Hp|].
  rewrite Hi, Hp, Hmode, Htar in *. eexists seqs, _. split; [exact Hj|]. split; [exact Hs|].
  apply Forall2_fmap_r, Forall_Forall2_diag, Forall_forall. intros q Hq%Hc. by apply (full_joined_by_all addr).
Qed.

(** The packets 0 and 1 of the measurement in MeasurementRt.v at the server: the first is
    answered before the second comes. *)
Definition demo_sv_datagram (k : Z) : rx_datagram :=
  RxDatagram (htonl_bytes k ++ htonl_bytes 7000 ++ [0; 0; 0; 0]) (SockAddr 167772167 5000)
    [CmsgTimestamping (Timespec 9 (4500 + 1000 * k)) ts_zero_spec (Timespec 9 (4000 + 1000 * k))] (Timespec 9 (5000 + 1000 * k)).
Definition demo_clock (k : Z) (i : nat) : timespec := Timespec 9 (6000 + 1000 * k + Z.of_nat i).
Definition demo_answer_message (k : Z) : errq_recv :=
  ErrqMsg (replicate 42 0 ++ htonl_bytes k) [CmsgTimestamping (Timespec 9 (8000 + 1000 * k)) ts_zero_spec ts_zero_spec; CmsgRecvErr 0].
Definition demo_sv_events : list sv_event :=
  [SvReceive (demo_sv_datagram 0); SvEnqueue; SvStore; SvSend (demo_clock 0) (SendCount 1); SvStats; SvReceive (demo_sv_datagram 1);
   SvStamps [demo_answer_message 0]; SvEnqueue; SvStore; SvSend (demo_clock 1) SendAgain; SvStats; SvReceive (demo_sv_datagram 1); SvEnqueue; SvStore;
   SvSend (demo_clock 1) (SendCount 1); SvStats; SvStamps [demo_answer_message 1]].
Definition demo_sv_start : sv_trace := SvTrace RxIdle demo_rt_server [] [] [] [].
Definition demo_sv_end : sv_trace := default demo_sv_start (run_steps sv_trace_step demo_sv_start demo_sv_events).

(** The conditions on the slots, decided. *)
Definition slot_check (t : sv_trace) (seq : Z) (n : nat) (ok : rt_packet -> bool) : bool :=
  match last_stored (take n (tc_stored t)) (get_circular_index seq) with Some p => (rk_seq_num p =? seq) && ok p | None => false end.
Lemma slot_check_of t seq n ok : slot_check t seq n ok = true -> exists p, slot_of t seq n p /\ ok p = true.
Proof.
  unfold slot_check, slot_of. destruct (last_stored _ _) as [p|]; [|done]. intros [H1%Z.eqb_eq H2]%andb_prop. by exists p.
Qed.
Lemma demo_server_history : server_history (sample_ring (2 ^ 3) 2) (sample_ring (2 ^ 3) 2) demo_rt_server demo_sv_events demo_sv_end.
Proof.
  split.
  - exact demo_rt_corr_full.
  - by split_and!.
  - repeat (apply Forall_cons_2; [cbn [event_ok]; by repeat constructor|]). apply Forall_nil_2.
  - assert (bool_decide (is_Some (run_steps sv_trace_step demo_sv_start demo_sv_events)) = true) as H by (vm_compute; reflexivity).
    apply bool_decide_eq_true in H as [t Ht]. unfold demo_sv_end. by rewrite Ht.
  - assert (tc_received demo_sv_end = [demo_sv_datagram 0; demo_sv_datagram 1; demo_sv_datagram 1]) as -> by (vm_compute; reflexivity).
    unfold datagram_wf, bytes_wf. apply (bool_decide_unpack _). vm_compute. exact I.
  - apply Forall_forall. intros [[[req ts] n] e] Hin.
    assert (forallb (fun '(req, _, n, _) => slot_check demo_sv_end (rq_seq_num req) n (fun p => sin_port (rk_src p) =? rq_original_client_src_port req))
      (tc_sent demo_sv_end) = true) as H by (vm_compute; reflexivity).
    rewrite forallb_forall in H. apply list_elem_of_In, H, slot_check_of in Hin as (p & Hp & Hq%Z.eqb_eq). by exists p.
  - apply Forall_forall. intros [[stamp n] e] Hin.
    assert (forallb (fun '(stamp, n, _) => slot_check demo_sv_end (fst stamp) n (fun _ => true)) (tc_stamped demo_sv_end) = true) as H by (vm_compute; reflexivity).
    rewrite forallb_forall in H. apply list_elem_of_In, H, slot_check_of in Hin as (p & Hp & _). by exists p.
Qed.
Definition demo_full_measurement : full_measurement :=
  FullMeasurement demo_rt_measurement demo_rt_server (sample_ring (2 ^ 3) 2) (sample_ring (2 ^ 3) 2) demo_sv_events demo_sv_end
    (demo_log_run CSV_SERVER_MAIN_ROUNDTRIP (map snd (tc_sent demo_sv_end))) (demo_log_run CSV_SERVER_TX (map snd (tc_stamped demo_sv_end))).
Lemma demo_full_measured : full_measured 167772167 demo_full_measurement.
Proof. split; try apply demo_log_of; [exact demo_rt_measured|exact demo_server_history]. Qed.
Definition demo_full_fs : gmap cstr cstr :=
  <[lit "main.csv" := run_file (rm_main demo_rt_measurement)]> (<[lit "tx.csv" := run_file (rm_tx demo_rt_measurement)]>
    (<[lit "server.csv" := run_file (fm_main demo_full_measurement)]> {[ lit "server_tx.csv" := run_file (fm_tx demo_full_measurement) ]})).
Definition demo_full_config : config_t :=
  Config (lit "10.0.0.7") 5000 MODE_ROUND_TRIP TARGET_CLIENT_SERVER [lit "main.csv"; lit "tx.csv"; lit "server.csv"; lit "server_tx.csv"] (lit "out.csv")
    [FILE_CLIENT_ROUNDTRIP_MAIN; FILE_CLIENT_ONEWAY_TX; FILE_SERVER_ROUNDTRIP_MAIN; FILE_SERVER_ROUNDTRIP_TX].
Lemma full_latency_table_witness :
  (exists seqs rows, StronglySorted Z.lt seqs /\ Forall2 (true_full_row demo_full_measurement) seqs rows) /\
  process_join_operation demo_env demo_full_fs demo_full_config =
    Some (<[lit "out.csv" := get_output_header MODE_ROUND_TRIP TARGET_CLIENT_SERVER ++ [NL] ++
            lit "10.0.0.7,5000,0,8.999999842,8.000000000,9.000000000,9.000004000,9.000004500,9.000005000,9.000006000,9.000008000,9.000000000,9.000000001,9.000000002,9.000000002,1000000.000,0.001,0.001,1000000.000,1000000.002,0.160,0.500,0.500,1.000,2.000,1.000,4.000,4.000,NULL" ++ [NL] ++
            lit "10.0.0.7,5000,1,8.999999843,8.000000001,9.000000001,9.000005000,9.000005500,9.000006000,9.000007000,9.000009000,9.000000000,9.000000001,9.000000002,9.000000002,1000000.000,0.001,0.001,999999.999,1000000.001,0.159,0.500,0.500,1.000,2.000,1.000,4.000,4.999,NULL" ++ [NL]]> demo_full_fs).
Proof.
  split; [|vm_compute; reflexivity].
  destruct (full_latency_table demo_env demo_full_fs demo_full_config 167772167 demo_full_measurement) as (_ & seqs & rows & _ & H1 & H2).
  - repeat split.
  - exact demo_full_measured.
  - split; [vm_compute; reflexivity..].
  - by exists seqs, rows.
Defined.
