(* ===== verification/JoinArgs.v ===== *)
(** Command line of timestamp_csvjoin.c: options, input file list, the check of
    the file combination, and the main program. *)

From S2P Require Import Prelude CText CsvLog JoinParse JoinSeq JoinTable JoinOut Join.

Definition MAX_IP_LENGTH : nat := 16.
Definition MAX_FILENAME_LENGTH : nat := 256.

(** safe_strncpy(dest, src, n) *)
Definition safe_strncpy (src : cstr) (n : nat) : cstr := take (n - 1) src.

(** trim_whitespace on a string of its own. *)
Definition trim_string (s : cstr) : cstr :=
  let '(buf, off) := trim_whitespace (s ++ [NUL]) 0 in c_str (drop off buf).

(** while (file && count < MAX_FILES) over the strtok pieces. *)
Fixpoint input_files_loop (tokens : list cstr) (input_files : list cstr) : list cstr :=
  match tokens with
  | [] => input_files
  | file :: tokens =>
      if (length input_files <? MAX_FILES)%nat then
        let file := trim_string file in
        input_files_loop tokens
          (if (0 <? length file)%nat then input_files ++ [safe_strncpy file MAX_FILENAME_LENGTH]
           else input_files)
      else input_files
  end.
Definition parse_input_files (files_str : cstr) (strdup_ok : bool) : option (list cstr) :=
  if negb strdup_ok then None else Some (input_files_loop (strtok_all COMMA files_str) []).

(** What getopt_long returns, with optarg. *)
Inductive join_option :=
  | OptOneWay | OptRoundTrip | OptClient | OptServer | OptClientServer
  | OptSrcIp (optarg : cstr) | OptSrcPort (optarg : cstr) | OptInputFiles (optarg : cstr)
  | OptOutput (optarg : cstr) | OptHelp | OptUnknown.

Record arg_state := ArgState {
  as_config : config_t;
  as_mode_set : bool; as_target_set : bool; as_ip_set : bool; as_port_set : bool; as_files_set : bool }.

Inductive arg_result {A} := ArgOk (a : A) | ArgError | ArgExit0.
Arguments arg_result : clear implicits.

Definition set_mode (m : operation_mode_t) (c : config_t) : config_t :=
  Config (cfg_target_ip c) (cfg_target_port c) m (cfg_target c) (cfg_input_files c) (cfg_output_file c) (cfg_detected_types c).
Definition set_target (t : target_type_t) (c : config_t) : config_t :=
  Config (cfg_target_ip c) (cfg_target_port c) (cfg_mode c) t (cfg_input_files c) (cfg_output_file c) (cfg_detected_types c).
Definition set_ip (ip : cstr) (c : config_t) : config_t :=
  Config ip (cfg_target_port c) (cfg_mode c) (cfg_target c) (cfg_input_files c) (cfg_output_file c) (cfg_detected_types c).
Definition set_port (p : Z) (c : config_t) : config_t :=
  Config (cfg_target_ip c) p (cfg_mode c) (cfg_target c) (cfg_input_files c) (cfg_output_file c) (cfg_detected_types c).
Definition set_files (f : list cstr) (c : config_t) : config_t :=
  Config (cfg_target_ip c) (cfg_target_port c) (cfg_mode c) (cfg_target c) f (cfg_output_file c) (cfg_detected_types c).
Definition set_output (o : cstr) (c : config_t) : config_t :=
  Config (cfg_target_ip c) (cfg_target_port c) (cfg_mode c) (cfg_target c) (cfg_input_files c) o (cfg_detected_types c).
Definition set_types (t : list file_type_t) (c : config_t) : config_t :=
  Config (cfg_target_ip c) (cfg_target_port c) (cfg_mode c) (cfg_target c) (cfg_input_files c) (cfg_output_file c) t.

Definition choose_mode (m : operation_mode_t) (s : arg_state) : arg_result arg_state :=
  if as_mode_set s then ArgError
  else ArgOk (ArgState (set_mode m (as_config s)) true (as_target_set s) (as_ip_set s) (as_port_set s) (as_files_set s)).
Definition choose_target (t : target_type_t) (s : arg_state) : arg_result arg_state :=
  if as_target_set s then ArgError
  else ArgOk (ArgState (set_target t (as_config s)) (as_mode_set s) true (as_ip_set s) (as_port_set s) (as_files_set s)).

(** One round of the getopt loop. *)
Definition parse_option (strdup_ok : bool) (o : join_option) (s : arg_state) : arg_result arg_state :=
  let '(ArgState c m t i p f) := s in
  match o with
  | OptOneWay => choose_mode MODE_ONE_WAY s
  | OptRoundTrip => choose_mode MODE_ROUND_TRIP s
  | OptClient => choose_target TARGET_CLIENT s
  | OptServer => choose_target TARGET_SERVER s
  | OptClientServer => choose_target TARGET_CLIENT_SERVER s
  | OptSrcIp optarg => ArgOk (ArgState (set_ip (safe_strncpy optarg MAX_IP_LENGTH) c) m t true p f)
  | OptSrcPort optarg =>
      let port := u16 (atoi optarg) in
      if port =? 0 then ArgError else ArgOk (ArgState (set_port port c) m t i true f)
  | OptInputFiles optarg =>
      match parse_input_files optarg strdup_ok with
      | None => ArgError
      | Some files => ArgOk (ArgState (set_files files c) m t i p true)
      end
  | OptOutput optarg => ArgOk (ArgState (set_output (safe_strncpy optarg MAX_FILENAME_LENGTH) c) m t i p f)
  | OptHelp => ArgExit0
  | OptUnknown => ArgError
  end.
Fixpoint parse_options (strdup_ok : bool) (opts : list join_option) (s : arg_state) : arg_result arg_state :=
  match opts with
  | [] => ArgOk s
  | o :: opts =>
      match parse_option strdup_ok o s with
      | ArgOk s => parse_options strdup_ok opts s
      | r => r
      end
  end.

Definition config_zero : config_t :=
  Config [] 0 MODE_ONE_WAY TARGET_CLIENT [] (lit "joined_output.csv") [].

Definition parse_arguments (strdup_ok : bool) (opts : list join_option) : arg_result config_t :=
  match parse_options strdup_ok opts (ArgState config_zero false false false false false) with
  | ArgOk (ArgState c mode_set target_set clt_ip_set clt_port_set input_files_set) =>
      if negb mode_set then ArgError
      else if negb target_set then ArgError
      else if negb clt_ip_set then ArgError
      else if negb clt_port_set then ArgError
      else if negb input_files_set then ArgError
      else ArgOk c
  | ArgError => ArgError
  | ArgExit0 => ArgExit0
  end.

(** ** File combination *)

Definition expected_files (mode : operation_mode_t) (target : target_type_t) : nat :=
  match mode, target with
  | MODE_ONE_WAY, TARGET_CLIENT => 2
  | MODE_ONE_WAY, TARGET_SERVER => 1
  | MODE_ONE_WAY, TARGET_CLIENT_SERVER => 3
  | MODE_ROUND_TRIP, TARGET_CLIENT => 2
  | MODE_ROUND_TRIP, TARGET_SERVER => 2
  | MODE_ROUND_TRIP, TARGET_CLIENT_SERVER => 4
  end.
(** The loop stops at the first file of unknown type. *)
Fixpoint detect_types (fs : gmap cstr cstr) (files : list cstr) : option (list file_type_t) :=
  match files with
  | [] => Some []
  | f :: files =>
      let t := detect_file_type fs f in
      if decide (t = FILE_TYPE_UNKNOWN) then None
      else match detect_types fs files with None => None | Some ts => Some (t :: ts) end
  end.
Definition is_client_main (t : file_type_t) : bool :=
  match t with FILE_CLIENT_ONEWAY_MAIN | FILE_CLIENT_ROUNDTRIP_MAIN => true | _ => false end.
Definition is_client_tx (t : file_type_t) : bool :=
  match t with FILE_CLIENT_ONEWAY_TX | FILE_CLIENT_ROUNDTRIP_TX => true | _ => false end.
Definition is_server_main (t : file_type_t) : bool :=
  match t with FILE_SERVER_ONEWAY_MAIN | FILE_SERVER_ROUNDTRIP_MAIN => true | _ => false end.
Definition is_server_tx (t : file_type_t) : bool :=
  match t with FILE_SERVER_ROUNDTRIP_TX => true | _ => false end.

(** None is the result -1; otherwise the configuration with the types. *)
Definition validate_file_combination (fs : gmap cstr cstr) (config : config_t) : option config_t :=
  if negb (length (cfg_input_files config) =? expected_files (cfg_mode config) (cfg_target config))%nat then None
  else match detect_types fs (cfg_input_files config) with
       | None => None
       | Some types =>
           let has_client_main := existsb is_client_main types in
           let has_client_tx := existsb is_client_tx types in
           let has_server_main := existsb is_server_main types in
           let has_server_tx := existsb is_server_tx types in
           if bool_decide (cfg_target config = TARGET_CLIENT) && (has_server_main || has_server_tx) then None
           else if bool_decide (cfg_target config = TARGET_SERVER) && (has_client_main || has_client_tx) then None
           else Some (set_types types config)
       end.

(** Exit status and file system after the run. *)
Definition join_main (env : join_env) (strdup_ok : bool) (fs : gmap cstr cstr) (opts : list join_option)
    : Z * gmap cstr cstr :=
  match parse_arguments strdup_ok opts with
  | ArgExit0 => (0, fs)
  | ArgError => (1, fs)
  | ArgOk config =>
      match validate_file_combination fs config with
      | None => (1, fs)
      | Some config =>
          match process_join_operation env fs config with
          | None => (1, fs)
          | Some fs => (0, fs)
          end
      end
  end.

(** ** The accepted command lines *)

Definition is_mode_opt (o : join_option) : bool :=
  match o with OptOneWay | OptRoundTrip => true | _ => false end.
Definition is_target_opt (o : join_option) : bool :=
  match o with OptClient | OptServer | OptClientServer => true | _ => false end.
Definition is_ip_opt (o : join_option) : bool := match o with OptSrcIp _ => true | _ => false end.
Definition is_port_opt (o : join_option) : bool := match o with OptSrcPort _ => true | _ => false end.
Definition is_files_opt (o : join_option) : bool := match o with OptInputFiles _ => true | _ => false end.
(** An option that is refused whatever came before it. *)
Definition bad_opt (o : join_option) : bool :=
  match o with OptHelp | OptUnknown => true | OptSrcPort a => u16 (atoi a) =? 0 | _ => false end.
Definition count_opts (p : join_option -> bool) (opts : list join_option) : nat :=
  length (List.filter p opts).

Definition accepted (opts : list join_option) : Prop :=
  count_opts is_mode_opt opts = 1%nat /\ count_opts is_target_opt opts = 1%nat /\
  existsb is_ip_opt opts = true /\ existsb is_port_opt opts = true /\ existsb is_files_opt opts = true /\
  existsb bad_opt opts = false.

Definition b2n (b : bool) : nat := if b then 1 else 0.

(** What the parsed configuration satisfies. *)
Definition arg_inv (s : arg_state) : Prop :=
  let c := as_config s in
  (as_port_set s = true -> 0 < cfg_target_port c < 65536) /\ (length (cfg_target_ip c) <= 15)%nat /\
  (length (cfg_input_files c) <= MAX_FILES)%nat /\ 0 <= cfg_target_port c < 65536.

Lemma input_files_loop_max tokens files :
  (length files <= MAX_FILES)%nat -> (length (input_files_loop tokens files) <= MAX_FILES)%nat.
Proof.
  revert files. induction tokens as [|f tokens IH]; intros files H; simpl; [done|].
  destruct (Nat.ltb_spec (length files) MAX_FILES); [|done]. apply IH.
  case_match; [|done]. rewrite length_app. simpl. lia.
Qed.

Lemma parse_option_spec o s :
  arg_inv s ->
  match parse_option true o s with
  | ArgOk s' =>
      arg_inv s' /\ bad_opt o = false /\
      b2n (as_mode_set s') = (b2n (as_mode_set s) + b2n (is_mode_opt o))%nat /\
      b2n (as_target_set s') = (b2n (as_target_set s) + b2n (is_target_opt o))%nat /\
      as_ip_set s' = as_ip_set s || is_ip_opt o /\ as_port_set s' = as_port_set s || is_port_opt o /\
      as_files_set s' = as_files_set s || is_files_opt o
  | _ => bad_opt o = true \/ (as_mode_set s = true /\ is_mode_opt o = true) \/
         (as_target_set s = true /\ is_target_opt o = true)
  end.
Proof.
  destruct s as [c m t i p f]. intros (H1 & H2 & H3 & H4). unfold arg_inv in *.
  destruct o; cbn -[u16 input_files_loop safe_strncpy]; cbn -[u16 input_files_loop safe_strncpy] in *.
  1-5: destruct m, t; simpl; rewrite ?orb_false_r; naive_solver.
  - unfold safe_strncpy. rewrite length_take. unfold MAX_IP_LENGTH.
    rewrite ?orb_false_r, ?orb_true_r, ?Nat.add_0_r. split_and!; try done; lia.
  - pose proof (u16_range (atoi optarg)). destruct (Z.eqb_spec (u16 (atoi optarg)) 0); simpl; [by left|].
    rewrite ?orb_false_r, ?orb_true_r, ?Nat.add_0_r. split_and!; try done; lia.
  - pose proof (input_files_loop_max (strtok_all COMMA optarg) [] ltac:(simpl; lia)).
    rewrite ?orb_false_r, ?orb_true_r, ?Nat.add_0_r. done.
  - rewrite ?orb_false_r, ?Nat.add_0_r. done.
  - by left.
  - by left.
Qed.

Lemma parse_options_spec opts s :
  arg_inv s ->
  match parse_options true opts s with
  | ArgOk s' =>
      arg_inv s' /\ existsb bad_opt opts = false /\
      b2n (as_mode_set s') = (b2n (as_mode_set s) + count_opts is_mode_opt opts)%nat /\
      b2n (as_target_set s') = (b2n (as_target_set s) + count_opts is_target_opt opts)%nat /\
      as_ip_set s' = as_ip_set s || existsb is_ip_opt opts /\
      as_port_set s' = as_port_set s || existsb is_port_opt opts /\
      as_files_set s' = as_files_set s || existsb is_files_opt opts
  | _ => existsb bad_opt opts = true \/ (2 <= b2n (as_mode_set s) + count_opts is_mode_opt opts)%nat \/
         (2 <= b2n (as_target_set s) + count_opts is_target_opt opts)%nat
  end.
Proof.
  revert s. induction opts as [|o opts IH]; intros s Hs.
  - simpl. rewrite !Nat.add_0_r, !orb_false_r. done.
  - cbn [parse_options existsb]. unfold count_opts in *. cbn [List.filter].
    assert (forall (b : bool) (l : list join_option), length (if b then o :: l else l) = (b2n b + length l)%nat) as Hb
      by (by intros []).
    rewrite !Hb. pose proof (parse_option_spec o s Hs) as Ho.
    destruct (parse_option true o s) as [s'| |].
    + destruct Ho as (Hi & Hbad & Hm & Ht & Hip & Hp & Hf). specialize (IH s' Hi).
      rewrite Hm, Ht, Hip, Hp, Hf in IH. rewrite !orb_assoc, !Nat.add_assoc, Hbad.
      cbn [orb]. destruct (parse_options true opts s'); exact IH.
    + rewrite orb_true_iff. destruct Ho as [?|[[-> ->]|[-> ->]]]; [by left; left|right; left|right; right]; simpl; lia.
    + rewrite orb_true_iff. destruct Ho as [?|[[-> ->]|[-> ->]]]; [by left; left|right; left|right; right]; simpl; lia.
Qed.

Lemma trim_string_trim s : nul_free s -> trim_string s = trim s.
Proof.
  intros Hn. unfold trim_string.
  destruct (trim_whitespace_spec [] s [] Hn) as (s' & off & E & _ & _ & _ & Hc & _).
  cbn [app length Nat.add] in E. rewrite E, app_nil_r. done.
Qed.

Lemma strtok_join f fs :
  Forall (fun g => clean g /\ g <> []) (f :: fs) -> strtok_all COMMA (join_commas f fs) = f :: fs.
Proof.
  unfold strtok_all, join_commas. revert f.
  induction fs as [|g fs IH]; intros f [[Hf Hne] Hfs]%Forall_cons; cbn [map concat].
  - rewrite strtok_go_run by (by apply clean_no_comma). rewrite app_nil_r. simpl.
    destruct (rev f) eqn:E; [by rewrite <- (rev_involutive f), E in Hne|].
    by rewrite <- E, rev_involutive.
  - rewrite strtok_go_run by (by apply clean_no_comma). rewrite app_nil_r. cbn [app strtok_go].
    rewrite decide_True by done. rewrite IH by done.
    destruct (rev f) eqn:E; [by rewrite <- (rev_involutive f), E in Hne|].
    by rewrite <- E, rev_involutive.
Qed.

Lemma input_files_loop_clean tokens files :
  Forall (fun g => clean g /\ g <> []) tokens -> Forall (fun g => (length g <= 255)%nat) tokens ->
  (length files + length tokens <= MAX_FILES)%nat ->
  input_files_loop tokens files = files ++ tokens.
Proof.
  intros Hc. revert files. induction Hc as [|g tokens [Hg Hne] _ IH]; intros files Hl Hm; simpl in *.
  - by rewrite app_nil_r.
  - apply Forall_cons in Hl as [Hl1 Hl2].
    rewrite (proj2 (Nat.ltb_lt _ _)) by lia.
    rewrite trim_string_trim by (by apply clean_nul_free). rewrite trim_clean by done.
    rewrite (proj2 (Nat.ltb_lt _ _)) by (destruct g; [done|simpl; lia]).
    unfold safe_strncpy. rewrite take_ge by (unfold MAX_FILENAME_LENGTH; lia).
    rewrite IH; [by rewrite <- app_assoc|done|]. rewrite length_app. simpl. lia.
Qed.

Lemma detect_types_spec fs files :
  match detect_types fs files with
  | Some ts => ts = map (detect_file_type fs) files /\ Forall (fun f => detect_file_type fs f <> FILE_TYPE_UNKNOWN) files
  | None => Exists (fun f => detect_file_type fs f = FILE_TYPE_UNKNOWN) files
  end.
Proof.
  induction files as [|f files IH]; simpl; [done|]. case_decide; [by left|].
  destruct (detect_types fs files); [|by right]. destruct IH as [-> ?]. split; [done|by constructor].
Qed.

(** ** Properties *)

(** The command line is accepted exactly when it names one mode, one target,
    an address, a port and input files, and no option is unknown, asks for help
    or gives a port that is 0 modulo 2^16; the configuration then has a port
    between 1 and 65535, an address of at most 15 characters and at most 10 files. *)
Theorem parse_arguments_accepts (opts : list join_option) :
  ((exists c, parse_arguments true opts = ArgOk c) <-> accepted opts) /\
  (forall c, parse_arguments true opts = ArgOk c ->
     0 < cfg_target_port c < 65536 /\ (length (cfg_target_ip c) <= 15)%nat /\
     (length (cfg_input_files c) <= MAX_FILES)%nat).
Proof.
  unfold parse_arguments, accepted.
  assert (arg_inv (ArgState config_zero false false false false false)) as H0
    by (unfold arg_inv; simpl; split_and!; lia || done).
  pose proof (parse_options_spec opts _ H0) as H. cbn [as_mode_set as_target_set as_ip_set as_port_set as_files_set b2n orb Nat.add] in H.
  destruct (parse_options true opts _) as [[c m t i p f]| |].
  - cbn [as_mode_set as_target_set as_ip_set as_port_set as_files_set] in H.
    destruct H as (Hi & Hb & Hm & Ht & <- & <- & <-). rewrite <- Hm, <- Ht, Hb.
    unfold arg_inv in Hi. cbn [as_config as_port_set] in Hi.
    destruct m, t, i, p, f; simpl; split; try naive_solver lia; intros c' [= <-]; naive_solver.
  - split; [|done]. split; [by intros [? ?]|]. intros (? & ? & _ & _ & _ & ?). exfalso. destruct H as [?|[?|?]]; [congruence|lia..].
  - split; [|done]. split; [by intros [? ?]|]. intros (? & ? & _ & _ & _ & ?). exfalso. destruct H as [?|[?|?]]; [congruence|lia..].
Qed.

Lemma parse_arguments_accepts_witness :
  exists c, parse_arguments true
    [OptRoundTrip; OptServer; OptSrcIp (lit "10.0.0.1"); OptSrcPort (lit "5000"); OptInputFiles (lit "a,b")] = ArgOk c.
Proof. apply (proj1 (parse_arguments_accepts _)). repeat split. Defined.

(** A comma separated list of at most 10 file names of at most 255 characters,
    free of blanks, is read back as those names. *)
Theorem parse_input_files_roundtrip (f : cstr) (fs : list cstr) :
  Forall (fun g => clean g /\ g <> []) (f :: fs) -> Forall (fun g => (length g <= 255)%nat) (f :: fs) ->
  (length (f :: fs) <= MAX_FILES)%nat ->
  parse_input_files (join_commas f fs) true = Some (f :: fs).
Proof.
  intros Hc Hl Hm. unfold parse_input_files. rewrite strtok_join by done. cbn [negb].
  by rewrite input_files_loop_clean.
Qed.

Lemma parse_input_files_roundtrip_witness :
  parse_input_files (lit "a.csv,b.csv") true = Some [lit "a.csv"; lit "b.csv"].
Proof.
  exact (parse_input_files_roundtrip (lit "a.csv") [lit "b.csv"]
    ltac:(repeat constructor; try (apply (bool_decide_unpack _); vm_compute; exact I); done)
    ltac:(repeat constructor; apply Nat.leb_le; reflexivity) ltac:(apply Nat.leb_le; reflexivity)).
Defined.

(** The file check accepts a configuration exactly when it has the number of
    files of its mode and target, every file has a known header, and no file
    comes from the side the target leaves out; it then records the detected type
    of every file and changes nothing else.  It does not compare the files' modes
    with the selected one, nor require one file of each kind. *)
Theorem validate_file_combination_correct (fs : gmap cstr cstr) (config : config_t) :
  let types := map (detect_file_type fs) (cfg_input_files config) in
  let ok :=
    length (cfg_input_files config) = expected_files (cfg_mode config) (cfg_target config) /\
    FILE_TYPE_UNKNOWN ∉ types /\
    (cfg_target config = TARGET_CLIENT -> Forall (fun t => is_server_main t || is_server_tx t = false) types) /\
    (cfg_target config = TARGET_SERVER -> Forall (fun t => is_client_main t || is_client_tx t = false) types) in
  (ok -> validate_file_combination fs config = Some (set_types types config)) /\
  (~ ok -> validate_file_combination fs config = None).
Proof.
  intros types ok. unfold validate_file_combination.
  assert (forall p q : file_type_t -> bool, existsb p types || existsb q types = false <->
    Forall (fun t => p t || q t = false) types) as Hex.
  { intros p q. rewrite orb_false_iff. induction types as [|t l IH]; simpl; [split; [constructor|done]|].
    rewrite Forall_cons, <- IH, !orb_false_iff. naive_solver. }
  destruct (Nat.eqb_spec (length (cfg_input_files config)) (expected_files (cfg_mode config) (cfg_target config))) as [Hn|Hn];
    cbn [negb]; [|split; [by intros [? _]|done]].
  pose proof (detect_types_spec fs (cfg_input_files config)) as Hd.
  destruct (detect_types fs (cfg_input_files config)) as [ts|].
  - destruct Hd as [-> Hk]. fold types.
    assert (FILE_TYPE_UNKNOWN ∉ types) as Hu.
    { unfold types. intros (f & Hf & Hin)%list_elem_of_fmap. eapply Forall_forall in Hk; [|done]. by apply Hk. }
    assert (ok <-> (cfg_target config = TARGET_CLIENT -> existsb is_server_main types || existsb is_server_tx types = false) /\
                   (cfg_target config = TARGET_SERVER -> existsb is_client_main types || existsb is_client_tx types = false)) as ->.
    { unfold ok. rewrite !Hex. naive_solver. }
    destruct (existsb is_server_main types || existsb is_server_tx types),
      (existsb is_client_main types || existsb is_client_tx types), (cfg_target config); simpl; naive_solver.
  - split; [|done]. intros (_ & Hu & _). exfalso. apply Hu. apply Exists_exists in Hd as (f & Hin & Hf).
    unfold types. rewrite <- Hf. by apply list_elem_of_fmap_2.
Qed.

Lemma validate_file_combination_correct_witness :
  validate_file_combination demo_fs (set_types [] demo_config) = Some demo_config /\
  validate_file_combination demo_fs (set_mode MODE_ROUND_TRIP (set_target TARGET_CLIENT_SERVER demo_config)) = None.
Proof.
  split.
  - refine (proj1 (validate_file_combination_correct demo_fs (set_types [] demo_config)) _).
    split; [reflexivity|]. split; [|split; [intros _; repeat constructor|intros H; discriminate H]].
    apply (bool_decide_unpack _). vm_compute. exact I.
  - refine (proj2 (validate_file_combination_correct demo_fs
      (set_mode MODE_ROUND_TRIP (set_target TARGET_CLIENT_SERVER demo_config))) _).
    intros [H _]. discriminate H.
Defined.
