(* ===== verification/XdpFilter.v ===== *)
(** The XDP program (unicast_filter.c of the AF_XDP benchmark): which packets it
    redirects to an AF_XDP socket, with every read of packet memory bounded.

    A packet is the list of bytes from data to data_end; a multi-byte field is
    loaded in the little-endian order of the machine, so that a value "in network
    byte order" is its bytes read that way round. *)

From S2P Require Import Prelude.

Inductive xdp_action := XDP_ABORTED | XDP_DROP | XDP_PASS | XDP_TX | XDP_REDIRECT.
#[export] Instance xdp_action_eq_dec : EqDecision xdp_action.
Proof. solve_decision. Defined.

Record unicast_config := UnicastConfig { target_ip : Z; target_port : Z }.

(** Loads at an offset; None is a read outside the packet. *)
Definition load8 (pkt : list Z) (off : Z) : option Z := zget pkt off.
Definition load16 (pkt : list Z) (off : Z) : option Z :=
  match load8 pkt off, load8 pkt (off + 1) with Some a, Some b => Some (a + 256 * b) | _, _ => None end.
Definition load32 (pkt : list Z) (off : Z) : option Z :=
  match load16 pkt off, load16 pkt (off + 2) with Some a, Some b => Some (a + 65536 * b) | _, _ => None end.

(** bpf_htons(ETH_P_IP): 0x0800 with its bytes exchanged. *)
Definition ETH_P_IP_be : Z := 8.
Definition IPPROTO_UDP : Z := 17.

(** The two maps are functions: the configuration, and the socket of a queue;
    [redirect] is bpf_redirect_map with the queue and the fallback action. *)
Definition unicast_filter (config_map : option unicast_config) (xsks_map : Z -> option Z)
    (redirect : Z -> xdp_action -> xdp_action) (rx_queue_index : Z) (pkt : list Z) : option xdp_action :=
  let data_end := zlen pkt in
  if data_end <? 14 then Some XDP_PASS
  else
    h_proto ← load16 pkt 12;
    if negb (h_proto =? ETH_P_IP_be) then Some XDP_PASS
    else if data_end <? 14 + 20 then Some XDP_PASS
    else
      protocol ← load8 pkt (14 + 9);
      if negb (protocol =? IPPROTO_UDP) then Some XDP_PASS
      else
        version_ihl ← load8 pkt 14;
        let ip_hdr_size := Z.land version_ihl 15 * 4 in
        if ip_hdr_size <? 20 then Some XDP_PASS
        else
          let udp_start := 14 + ip_hdr_size in
          if data_end <? udp_start + 8 then Some XDP_PASS
          else
            match config_map with
            | None => Some XDP_PASS
            | Some config =>
                dst_port ← load16 pkt (udp_start + 2);
                dst_ip ← load32 pkt (14 + 16);
                if negb (dst_ip =? target_ip config) || negb (dst_port =? target_port config) then Some XDP_PASS
                else
                  _ ← load16 pkt udp_start;
                  match xsks_map rx_queue_index with
                  | None => Some XDP_PASS
                  | Some _ => Some (redirect rx_queue_index XDP_DROP)
                  end
            end.

(** ** Specification *)

(** The packet is Ethernet, IPv4 with a header of [ihl] words, UDP, complete up to
    the UDP header, and goes to the configured address and port. *)
Definition udp_packet_to (config : unicast_config) (pkt : list Z) : Prop :=
  exists ihl, 5 <= ihl /\ 14 + ihl * 4 + 8 <= zlen pkt /\
    load16 pkt 12 = Some ETH_P_IP_be /\ load8 pkt 23 = Some IPPROTO_UDP /\
    (exists b, load8 pkt 14 = Some b /\ Z.land b 15 = ihl) /\
    load32 pkt 30 = Some (target_ip config) /\ load16 pkt (14 + ihl * 4 + 2) = Some (target_port config).

Lemma load8_some pkt off : 0 <= off < zlen pkt -> exists b, load8 pkt off = Some b.
Proof. apply zget_lt. Qed.
Lemma load16_some pkt off : 0 <= off -> off + 2 <= zlen pkt -> exists v, load16 pkt off = Some v.
Proof.
  intros H0 H2. unfold load16. destruct (load8_some pkt off) as [a ->]; [lia|].
  destruct (load8_some pkt (off + 1)) as [b ->]; [lia|]. eauto.
Qed.
Lemma load32_some pkt off : 0 <= off -> off + 4 <= zlen pkt -> exists v, load32 pkt off = Some v.
Proof.
  intros H0 H2. unfold load32. destruct (load16_some pkt off) as [a ->]; [lia..|].
  destruct (load16_some pkt (off + 2)) as [b ->]; [lia..|]. eauto.
Qed.

(** A branch that passes: one of the conditions of the specification fails. *)
Ltac passes :=
  right; split; [|reflexivity];
  intros ((cfg & Hcfg & ihl & H5 & Hlen & H1 & H2 & (b & H3 & <-) & H4 & H6) & Hs); simplify_eq; (lia || congruence).

Lemma unicast_filter_cases (config_map : option unicast_config) (xsks_map : Z -> option Z)
    (redirect : Z -> xdp_action -> xdp_action) (rx_queue_index : Z) (pkt : list Z) :
  let action := unicast_filter config_map xsks_map redirect rx_queue_index pkt in
  ((exists config, config_map = Some config /\ udp_packet_to config pkt) /\ xsks_map rx_queue_index <> None /\
     action = Some (redirect rx_queue_index XDP_DROP)) \/
  (~ ((exists config, config_map = Some config /\ udp_packet_to config pkt) /\ xsks_map rx_queue_index <> None) /\
     action = Some XDP_PASS).
Proof.
  cbn zeta. unfold unicast_filter. change (14 + 9) with 23. change (14 + 16) with 30.
  assert (forall b, 0 <= Z.land b 15) as Hland by (intros b; apply Z.land_nonneg; lia).
  destruct (Z.ltb_spec (zlen pkt) 14) as [L1|L1]; [passes|].
  destruct (load16_some pkt 12) as [h_proto E1]; [lia..|]. rewrite E1. cbn [mbind option_bind].
  destruct (Z.eqb_spec h_proto ETH_P_IP_be) as [->|N1]; cbn [negb]; [|passes].
  destruct (Z.ltb_spec (zlen pkt) (14 + 20)) as [L2|L2]; [passes|].
  destruct (load8_some pkt 23) as [protocol E2]; [lia|]. rewrite E2. cbn [mbind option_bind].
  destruct (Z.eqb_spec protocol IPPROTO_UDP) as [->|N2]; cbn [negb]; [|passes].
  destruct (load8_some pkt 14) as [vihl E3]; [lia|]. rewrite E3. cbn [mbind option_bind]. pose proof (Hland vihl) as Hv.
  destruct (Z.ltb_spec (Z.land vihl 15 * 4) 20) as [L3|L3]; [passes|].
  destruct (Z.ltb_spec (zlen pkt) (14 + Z.land vihl 15 * 4 + 8)) as [L4|L4]; [passes|].
  destruct config_map as [config|]; [|passes].
  destruct (load16_some pkt (14 + Z.land vihl 15 * 4 + 2)) as [dst_port E4]; [lia..|]. rewrite E4. cbn [mbind option_bind].
  destruct (load32_some pkt 30) as [dst_ip E5]; [lia..|]. rewrite E5. cbn [mbind option_bind].
  destruct (Z.eqb_spec dst_ip (target_ip config)) as [->|N3]; cbn [negb orb]; [|passes].
  destruct (Z.eqb_spec dst_port (target_port config)) as [->|N4]; cbn [negb orb]; [|passes].
  destruct (load16_some pkt (14 + Z.land vihl 15 * 4)) as [src E6]; [lia..|]. rewrite E6. cbn [mbind option_bind].
  destruct (xsks_map rx_queue_index) eqn:Ex; [|passes].
  left. split_and!; [|done|done]. exists config. split; [done|]. exists (Z.land vihl 15).
  split_and!; try done; [lia|]. by exists vihl.
Qed.

(** The two cases apart. *)
Lemma unicast_filter_redirects config_map xsks_map redirect rx_queue_index pkt config :
  config_map = Some config -> udp_packet_to config pkt -> xsks_map rx_queue_index <> None ->
  unicast_filter config_map xsks_map redirect rx_queue_index pkt = Some (redirect rx_queue_index XDP_DROP).
Proof.
  intros Hc Hp Hx. destruct (unicast_filter_cases config_map xsks_map redirect rx_queue_index pkt) as [(_ & _ & H)|[H _]]; [done|].
  destruct H. eauto.
Qed.
Lemma unicast_filter_passes config_map xsks_map redirect rx_queue_index pkt :
  ~ ((exists config, config_map = Some config /\ udp_packet_to config pkt) /\ xsks_map rx_queue_index <> None) ->
  unicast_filter config_map xsks_map redirect rx_queue_index pkt = Some XDP_PASS.
Proof.
  intros Hn. destruct (unicast_filter_cases config_map xsks_map redirect rx_queue_index pkt) as [(H1 & H2 & _)|[_ H]]; [|done].
  by destruct Hn.
Qed.

(** C18: the XDP program reads no byte outside the packet, whatever the packet; it
    redirects to the socket of the receiving queue exactly the UDP packets
    addressed to the configured address and port when that queue has a socket,
    and passes every other packet to the network stack. *)
Theorem unicast_filter_exact (config_map : option unicast_config) (xsks_map : Z -> option Z)
    (redirect : Z -> xdp_action -> xdp_action) (rx_queue_index : Z) (pkt : list Z) :
  let action := unicast_filter config_map xsks_map redirect rx_queue_index pkt in
  ((exists config, config_map = Some config /\ udp_packet_to config pkt) /\ xsks_map rx_queue_index <> None /\
     action = Some (redirect rx_queue_index XDP_DROP)) \/
  (~ ((exists config, config_map = Some config /\ udp_packet_to config pkt) /\ xsks_map rx_queue_index <> None) /\
     action = Some XDP_PASS).
Proof. apply unicast_filter_cases. Qed.

(** A UDP packet to 10.0.0.1:9000 and one to another port. *)
Definition demo_frame (port : Z) : list Z :=
  replicate 12 0 ++ [8; 0; 69] ++ replicate 8 0 ++ [17] ++ replicate 6 0 ++ [10; 0; 0; 1; 0; 0] ++
  [port / 256; port mod 256; 0; 8; 0; 0; 1; 2; 3; 4].
Example unicast_filter_examples :
  let run := unicast_filter (Some (UnicastConfig 16777226 10275)) (fun q => if q =? 3 then Some 7 else None)
               (fun _ _ => XDP_REDIRECT) in
  run 3 (demo_frame 9000) = Some XDP_REDIRECT /\ run 3 (demo_frame 9001) = Some XDP_PASS /\
  run 2 (demo_frame 9000) = Some XDP_PASS /\ run 3 (take 40 (demo_frame 9000)) = Some XDP_PASS.
Proof. vm_compute. repeat split. Qed.
