(* ===== verification/Logging.v ===== *)
(** The logging system (timestamp_logging.c, timestamp_logging.h) and its
    command line options (parse_log_level, parse_log_components of the client
    and the server).

    Levels and components are the values of the C enumerations.  A logging call
    returns the stream and the text it writes; the local time, the formatted
    message and the call site are arguments. *)

From S2P Require Import Prelude CText.


Definition HW_LOG_LEVEL_TRACE : Z := 0.
Definition HW_LOG_LEVEL_DEBUG : Z := 1.
Definition HW_LOG_LEVEL_INFO : Z := 2.
Definition HW_LOG_LEVEL_WARN : Z := 3.
Definition HW_LOG_LEVEL_ERROR : Z := 4.
Definition HW_LOG_LEVEL_FATAL : Z := 5.
Definition HW_LOG_LEVEL_OFF : Z := 6.
Definition HW_LOG_COMPILE_LEVEL : Z := HW_LOG_LEVEL_INFO.

Definition component_names : list cstr :=
  map lit ["MAIN"; "CLIENT"; "SERVER"; "STATS"; "CSV"; "NETWORK"; "SIGNAL"]%string.
Definition level_names : list cstr :=
  map lit ["TRACE"; "DEBUG"; "INFO"; "WARN"; "ERROR"; "FATAL"]%string.
Definition HW_LOG_COMPONENT_MAIN : Z := 0.

(** A chain of strcmp tests that returns the value of the matching name. *)
Fixpoint name_value (table : list (cstr * Z)) (s : cstr) : option Z :=
  match table with
  | [] => None
  | (name, v) :: table => if decide (s = name) then Some v else name_value table s
  end.

Record log_state := LogState {
  g_log_level : Z;
  g_component_mask : Z;
  hw_hotpath_error_count : Z;
  hw_hotpath_warn_count : Z }.

Definition log_state_init : log_state := LogState HW_LOG_LEVEL_INFO 18446744073709551615 0 0.

Definition env_levels : list (cstr * Z) :=
  [(lit "TRACE", HW_LOG_LEVEL_TRACE); (lit "DEBUG", HW_LOG_LEVEL_DEBUG); (lit "INFO", HW_LOG_LEVEL_INFO);
   (lit "WARN", HW_LOG_LEVEL_WARN); (lit "ERROR", HW_LOG_LEVEL_ERROR); (lit "FATAL", HW_LOG_LEVEL_FATAL);
   (lit "OFF", HW_LOG_LEVEL_OFF)].

(** hw_log_init with getenv("HW_LOG_LEVEL"). *)
Definition hw_log_init (env_level : option cstr) (s : log_state) : log_state :=
  LogState (match env_level with
            | Some name => default (g_log_level s) (name_value env_levels name)
            | None => g_log_level s
            end) (g_component_mask s) 0 0.
Definition hw_log_set_level (level : Z) (s : log_state) : log_state :=
  if level <=? HW_LOG_LEVEL_OFF
  then LogState level (g_component_mask s) (hw_hotpath_error_count s) (hw_hotpath_warn_count s)
  else s.
Definition hw_log_get_level (s : log_state) : Z := g_log_level s.
Definition set_mask (m : Z) (s : log_state) : log_state :=
  LogState (g_log_level s) m (hw_hotpath_error_count s) (hw_hotpath_warn_count s).
Definition hw_log_enable_component (component : Z) (s : log_state) : log_state :=
  if component <? 64 then set_mask (Z.lor (g_component_mask s) (Z.shiftl 1 component)) s else s.
Definition hw_log_disable_component (component : Z) (s : log_state) : log_state :=
  if component <? 64
  then set_mask (Z.land (g_component_mask s) (u64 (Z.lnot (Z.shiftl 1 component)))) s
  else s.
Definition is_component_enabled (component : Z) (s : log_state) : bool :=
  (component <? 64) && negb (Z.land (g_component_mask s) (Z.shiftl 1 component) =? 0).

(** HW_HOTPATH_COUNT_ERROR, HW_HOTPATH_COUNT_WARN and the reset. *)
Definition hw_hotpath_count_error (s : log_state) : log_state :=
  LogState (g_log_level s) (g_component_mask s) (u64 (hw_hotpath_error_count s + 1)) (hw_hotpath_warn_count s).
Definition hw_hotpath_count_warn (s : log_state) : log_state :=
  LogState (g_log_level s) (g_component_mask s) (hw_hotpath_error_count s) (u64 (hw_hotpath_warn_count s + 1)).
Definition hw_reset_hotpath_counters (s : log_state) : log_state :=
  LogState (g_log_level s) (g_component_mask s) 0 0.

Inductive out_stream := STDOUT | STDERR.
Definition bracket (s : cstr) : cstr := lit "[" ++ s ++ lit "]".

(** The text of a message that passes the filters; a call site is the function
    name, when there is one, and the line. *)
Definition log_record (level component : Z) (function : option cstr) (line : Z) (now msg : cstr) : out_stream * cstr :=
  let level_name := default (lit "UNKNOWN") (zget level_names level) in
  let comp_name := default (lit "UNKNOWN") (zget component_names component) in
  let output := if HW_LOG_LEVEL_WARN <=? level then STDERR else STDOUT in
  let prefix :=
    if level =? HW_LOG_LEVEL_INFO then bracket level_name ++ lit " "
    else
      let common := bracket now ++ lit " " ++ bracket level_name ++ lit " " ++ bracket comp_name ++ lit " " in
      match function with
      | Some f => if (HW_LOG_LEVEL_ERROR <=? level) && (0 <? line)
                  then common ++ bracket (f ++ lit ":" ++ fmt_u line) ++ lit " " else common
      | None => common
      end in
  (output, prefix ++ msg ++ [NL]).

Definition hw_log_internal (s : log_state) (level component : Z) (function : option cstr) (line : Z)
    (now msg : cstr) : option (out_stream * cstr) :=
  if (level <? g_log_level s) || (HW_LOG_LEVEL_FATAL <? level) then None
  else if negb (is_component_enabled component s) then None
  else Some (log_record level component function line now msg).

(** The macros HW_LOG_TRACE ... HW_LOG_FATAL, built with a compile-time level. *)
Definition HW_LOG (compile_level : Z) (s : log_state) (level component : Z) (function : cstr) (line : Z)
    (now msg : cstr) : option (out_stream * cstr) :=
  if compile_level <=? level then hw_log_internal s level component (Some function) line now msg else None.

(** hw_signal_safe_log: the three writes to standard error; gmtime_r gives the
    hour, minute and second, or fails. *)
Definition hw_signal_safe_log (gmtime : option (Z * Z * Z)) (message : option cstr) : list cstr :=
  match message with
  | None => []
  | Some message =>
      let simple_timestamp :=
        match gmtime with
        | Some (h, m, sec) =>
            snprintf_dst 16 (lit "[" ++ fmt_u0 2 h ++ lit ":" ++ fmt_u0 2 m ++ lit ":" ++ fmt_u0 2 sec ++ lit "] ")
        | None => lit "[??:??:??] "
        end in
      [simple_timestamp; message; [NL]]
  end.

(** ** Options *)

(** parse_log_level; None is the error exit. *)
Definition parse_log_level (level_str : cstr) : option Z :=
  name_value [(lit "DEBUG", HW_LOG_LEVEL_DEBUG); (lit "INFO", HW_LOG_LEVEL_INFO);
              (lit "WARN", HW_LOG_LEVEL_WARN); (lit "ERROR", HW_LOG_LEVEL_ERROR)] level_str.

Definition blank (c : ascii) : bool := (code c =? 32) || (code c =? 9).
(** while ( *token == ' ' || *token == '\t') token++ *)
Fixpoint skip_blanks (s : cstr) : cstr :=
  match s with
  | c :: t => if blank c then skip_blanks t else s
  | [] => []
  end.
(** while (end > token && blank) *end-- = NUL, on the reversed token: the first
    character stays. *)
Fixpoint drop_end (r : cstr) : cstr :=
  match r with
  | c :: (_ :: _) as t => if blank c then drop_end t else r
  | _ => r
  end.
Definition trim_token (token : cstr) : cstr := rev (drop_end (rev (skip_blanks token))).

Definition component_table : list (cstr * Z) := zip component_names [0; 1; 2; 3; 4; 5; 6].

Inductive components_result :=
  | ComponentsSet (s : log_state)
  | ComponentsExit (s : log_state) (message : option (out_stream * cstr)).

Definition report (line : Z) (now msg : cstr) (s : log_state) : option (out_stream * cstr) :=
  HW_LOG HW_LOG_COMPILE_LEVEL s HW_LOG_LEVEL_ERROR HW_LOG_COMPONENT_MAIN (lit "parse_log_components") line now msg.

(** while (token) over the pieces. *)
Fixpoint components_loop (line : Z) (now : cstr) (tokens : list cstr) (s : log_state) : components_result :=
  match tokens with
  | [] => ComponentsSet s
  | token :: tokens =>
      let token := trim_token token in
      match name_value component_table token with
      | Some component => components_loop line now tokens (hw_log_enable_component component s)
      | None => ComponentsExit s (report line now
          (lit "Unknown log component '" ++ token ++
           lit "'. Supported: MAIN|CLIENT|SERVER|STATS|CSV|NETWORK|SIGNAL") s)
      end
  end.

Definition parse_log_components (strdup_ok : bool) (line : Z) (now : cstr) (comp_str : option cstr) (s : log_state)
    : components_result :=
  match comp_str with
  | None => ComponentsSet s
  | Some comp_str =>
      let s := fold_left (fun s c => hw_log_disable_component c s) [0; 1; 2; 3; 4; 5; 6] s in
      if negb strdup_ok
      then ComponentsExit s (report line now (lit "Failed to allocate memory for component parsing") s)
      else components_loop line now (strtok_all COMMA comp_str) s
  end.

(** ** The filter as a level and a set of components *)

Inductive log_op :=
  | OpInit (env_level : option cstr)
  | OpSetLevel (level : Z)
  | OpEnable (component : Z)
  | OpDisable (component : Z)
  | OpCountError | OpCountWarn | OpReset.

Definition run_log_op (s : log_state) (o : log_op) : log_state :=
  match o with
  | OpInit env => hw_log_init env s
  | OpSetLevel l => hw_log_set_level l s
  | OpEnable c => hw_log_enable_component c s
  | OpDisable c => hw_log_disable_component c s
  | OpCountError => hw_hotpath_count_error s
  | OpCountWarn => hw_hotpath_count_warn s
  | OpReset => hw_reset_hotpath_counters s
  end.
Definition run_log_ops (ops : list log_op) (s : log_state) : log_state := fold_left run_log_op ops s.

(** The values a C enumeration can hold are not negative. *)
Definition log_op_ok (o : log_op) : Prop :=
  match o with OpSetLevel v | OpEnable v | OpDisable v => 0 <= v | _ => True end.

(** The set of the disabled components, and the level. *)
Record log_filter := LogFilter { lf_level : Z; lf_disabled : gset Z }.
Definition filter_op (a : log_filter) (o : log_op) : log_filter :=
  match o with
  | OpInit (Some name) => LogFilter (default (lf_level a) (name_value env_levels name)) (lf_disabled a)
  | OpSetLevel l => LogFilter (if decide (l <= 6) then l else lf_level a) (lf_disabled a)
  | OpEnable c => LogFilter (lf_level a) (lf_disabled a ∖ {[c]})
  | OpDisable c => LogFilter (lf_level a) ({[c]} ∪ lf_disabled a)
  | _ => a
  end.

Definition log_filter_of (s : log_state) (a : log_filter) : Prop :=
  g_log_level s = lf_level a /\ 0 <= lf_level a <= 6 /\ 0 <= g_component_mask s < 18446744073709551616 /\
  (forall c, 0 <= c < 64 -> is_component_enabled c s = negb (bool_decide (c ∈ lf_disabled a))).

Lemma testbit_one_shift c i : 0 <= c -> Z.testbit (Z.shiftl 1 c) i = bool_decide (i = c).
Proof.
  intros Hc. rewrite Z.shiftl_1_l. case_bool_decide as H.
  - subst. by apply Z.pow2_bits_true.
  - apply Z.pow2_bits_false. congruence.
Qed.

Lemma testbit_u64 x i : 0 <= i < 64 -> Z.testbit (u64 x) i = Z.testbit x i.
Proof. intros H. unfold u64. change 18446744073709551616 with (2 ^ 64). by rewrite Z.mod_pow2_bits_low by lia. Qed.

Lemma enabled_testbit c s : 0 <= c < 64 -> is_component_enabled c s = Z.testbit (g_component_mask s) c.
Proof.
  intros Hc. unfold is_component_enabled. rewrite (proj2 (Z.ltb_lt c 64)) by lia. cbn [andb].
  destruct (Z.eqb_spec (Z.land (g_component_mask s) (Z.shiftl 1 c)) 0) as [H|H]; cbn [negb].
  - apply (f_equal (fun z => Z.testbit z c)) in H.
    rewrite Z.land_spec, testbit_one_shift, bool_decide_true, andb_true_r, Z.bits_0 in H by (done || lia). done.
  - destruct (Z.testbit (g_component_mask s) c) eqn:Hb; [done|]. exfalso. apply H. apply Z.bits_inj'. intros i Hi.
    rewrite Z.land_spec, testbit_one_shift, Z.bits_0 by lia. case_bool_decide; subst; rewrite ?Hb; [done|apply andb_false_r].
Qed.

Lemma land_range a b : 0 <= a < 18446744073709551616 -> 0 <= Z.land a b < 18446744073709551616.
Proof.
  intros H. assert (0 <= Z.land a b) as H0 by (apply Z.land_nonneg; lia). split; [done|].
  change 18446744073709551616 with (2 ^ 64). rewrite <- (Z.mod_small a (2 ^ 64)) by (change (2 ^ 64) with 18446744073709551616; lia).
  rewrite <- Z.land_ones by lia. rewrite (Z.land_comm a), <- Z.land_assoc, Z.land_comm, Z.land_ones by lia.
  by apply Z.mod_pos_bound.
Qed.

Lemma lor_bit_range a c : 0 <= a < 18446744073709551616 -> 0 <= c < 64 ->
  0 <= Z.lor a (Z.shiftl 1 c) < 18446744073709551616.
Proof.
  intros H Hc. assert (0 <= Z.shiftl 1 c) by (apply Z.shiftl_nonneg; lia).
  assert (0 <= Z.lor a (Z.shiftl 1 c)) as Hp by (apply Z.lor_nonneg; lia). split; [done|].
  change 18446744073709551616 with (2 ^ 64).
  destruct (Z.eq_dec (Z.lor a (Z.shiftl 1 c)) 0) as [->|Hn]; [done|].
  apply Z.log2_lt_pow2; [lia|]. rewrite Z.log2_lor by lia. apply Z.max_lub_lt.
  - destruct (Z.eq_dec a 0) as [->|]; [by cbv|]. apply Z.log2_lt_pow2; [lia|]. change (2 ^ 64) with 18446744073709551616. lia.
  - rewrite Z.shiftl_1_l, Z.log2_pow2; lia.
Qed.

Lemma enable_spec c s c' :
  0 <= c -> 0 <= c' < 64 -> 0 <= g_component_mask s < 18446744073709551616 ->
  is_component_enabled c' (hw_log_enable_component c s) = bool_decide (c' = c) || is_component_enabled c' s /\
  0 <= g_component_mask (hw_log_enable_component c s) < 18446744073709551616 /\
  g_log_level (hw_log_enable_component c s) = g_log_level s.
Proof.
  intros Hc Hc' Hm. unfold hw_log_enable_component. destruct (Z.ltb_spec c 64) as [Hl|Hl].
  - rewrite !enabled_testbit by lia. cbn [set_mask g_component_mask g_log_level].
    rewrite Z.lor_spec, testbit_one_shift, orb_comm by lia. split; [done|]. split; [by apply lor_bit_range|done].
  - rewrite bool_decide_false by lia. done.
Qed.

Lemma disable_spec c s c' :
  0 <= c -> 0 <= c' < 64 -> 0 <= g_component_mask s < 18446744073709551616 ->
  is_component_enabled c' (hw_log_disable_component c s) = negb (bool_decide (c' = c)) && is_component_enabled c' s /\
  0 <= g_component_mask (hw_log_disable_component c s) < 18446744073709551616 /\
  g_log_level (hw_log_disable_component c s) = g_log_level s.
Proof.
  intros Hc Hc' Hm. unfold hw_log_disable_component. destruct (Z.ltb_spec c 64) as [Hl|Hl].
  - rewrite !enabled_testbit by lia. cbn [set_mask g_component_mask g_log_level].
    rewrite Z.land_spec, testbit_u64, Z.lnot_spec, testbit_one_shift, andb_comm by lia.
    split; [done|]. split; [by apply land_range|done].
  - rewrite bool_decide_false by lia. done.
Qed.

Lemma env_levels_range name l : name_value env_levels name = Some l -> 0 <= l <= 6.
Proof. unfold env_levels. cbn. repeat case_decide; intros [= <-]; unfold HW_LOG_LEVEL_TRACE, HW_LOG_LEVEL_DEBUG, HW_LOG_LEVEL_INFO, HW_LOG_LEVEL_WARN, HW_LOG_LEVEL_ERROR, HW_LOG_LEVEL_FATAL, HW_LOG_LEVEL_OFF; lia. Qed.

Lemma filter_op_refines s a o :
  log_op_ok o -> log_filter_of s a -> log_filter_of (run_log_op s o) (filter_op a o).
Proof.
  intros Ho (Hl & Hr & Hm & He). unfold log_filter_of. destruct o as [env|l|c|c| | |]; cbn [run_log_op filter_op lf_level lf_disabled] in *; try done.
  - unfold hw_log_init. destruct env as [name|]; [|done]. cbn [g_log_level g_component_mask lf_level lf_disabled].
    rewrite Hl. split; [done|]. split; [|done]. destruct (name_value env_levels name) eqn:Hn; [|done]. by eapply env_levels_range.
  - unfold hw_log_set_level, HW_LOG_LEVEL_OFF. simpl in Ho. destruct (Z.leb_spec l 6); case_decide; try lia; [|done].
    cbn [g_log_level g_component_mask]. split_and!; try done; lia.
  - destruct (enable_spec c s 0 Ho ltac:(lia) Hm) as (_ & Hm' & Hl'). rewrite Hl'.
    refine (conj Hl (conj Hr (conj Hm' _))). intros c' Hc'.
    rewrite (proj1 (enable_spec c s c' Ho Hc' Hm)), He by done.
    repeat case_bool_decide; done || (exfalso; set_solver).
  - destruct (disable_spec c s 0 Ho ltac:(lia) Hm) as (_ & Hm' & Hl'). rewrite Hl'.
    refine (conj Hl (conj Hr (conj Hm' _))). intros c' Hc'.
    rewrite (proj1 (disable_spec c s c' Ho Hc' Hm)), He by done.
    repeat case_bool_decide; done || (exfalso; set_solver).
Qed.

Lemma log_ops_refine ops s a :
  Forall log_op_ok ops -> log_filter_of s a ->
  log_filter_of (run_log_ops ops s) (fold_left filter_op ops a).
Proof.
  intros Ho. revert s a. induction Ho as [|o ops H _ IH]; intros s a Ha; [done|].
  apply IH. by apply filter_op_refines.
Qed.

Lemma init_filter : log_filter_of log_state_init (LogFilter HW_LOG_LEVEL_INFO ∅).
Proof.
  split; [done|]. split; [done|]. split; [done|]. intros c Hc. rewrite enabled_testbit by done.
  cbn [g_component_mask log_state_init lf_disabled]. rewrite bool_decide_false by set_solver.
  change 18446744073709551615 with (Z.ones 64). by apply Z.ones_spec_low.
Qed.

(** ** Properties *)

(** C38: after any sequence of configuration calls the level is the last one set,
    between TRACE and OFF, and bit c of the mask is set exactly when component c
    was not disabled since it was last enabled; a logging macro then writes its
    record, and nothing else, exactly when the level was compiled in, is between
    the current level and FATAL, and the component is enabled. *)
Theorem logging_filter_correct (ops : list log_op) :
  Forall log_op_ok ops ->
  let s := run_log_ops ops log_state_init in
  let a := fold_left filter_op ops (LogFilter HW_LOG_LEVEL_INFO ∅) in
  log_filter_of s a /\
  (forall compile_level level component function line now msg, 0 <= component < 64 ->
     HW_LOG compile_level s level component function line now msg =
     if decide (compile_level <= level /\ lf_level a <= level <= HW_LOG_LEVEL_FATAL /\ component ∉ lf_disabled a)
     then Some (log_record level component (Some function) line now msg) else None).
Proof.
  intros Ho s a. assert (log_filter_of s a) as Ha by (apply log_ops_refine; [done|apply init_filter]).
  split; [done|]. destruct Ha as (Hl & _ & _ & He). intros.
  unfold HW_LOG, hw_log_internal. rewrite He, Hl by done.
  destruct (Z.leb_spec compile_level level), (Z.ltb_spec level (lf_level a)), (Z.ltb_spec HW_LOG_LEVEL_FATAL level);
    cbn [orb negb]; repeat case_decide; try done; try lia; case_bool_decide; cbn [negb]; try done; naive_solver lia.
Qed.

Lemma logging_filter_correct_witness :
  let s := run_log_ops [OpDisable 4; OpInit (Some (lit "WARN")); OpEnable 4; OpDisable 1] log_state_init in
  HW_LOG HW_LOG_COMPILE_LEVEL s HW_LOG_LEVEL_ERROR 4 (lit "f") 12 (lit "t") (lit "m") =
    Some (STDERR, lit "[t] [ERROR] [CSV] [f:12] m" ++ [NL]) /\
  HW_LOG HW_LOG_COMPILE_LEVEL s HW_LOG_LEVEL_ERROR 1 (lit "f") 12 (lit "t") (lit "m") = None.
Proof.
  intros s.
  assert (Forall log_op_ok [OpDisable 4; OpInit (Some (lit "WARN")); OpEnable 4; OpDisable 1]) as Ho
    by (repeat constructor; simpl; lia).
  pose proof (proj2 (logging_filter_correct _ Ho) HW_LOG_COMPILE_LEVEL HW_LOG_LEVEL_ERROR) as H.
  split.
  - etransitivity; [exact (H 4 (lit "f") 12 (lit "t") (lit "m") ltac:(lia))|]. vm_compute. reflexivity.
  - etransitivity; [exact (H 1 (lit "f") 12 (lit "t") (lit "m") ltac:(lia))|]. vm_compute. reflexivity.
Defined.

Lemma name_value_component t c : name_value component_table t = Some c -> zget component_names c = Some t.
Proof. cbn. repeat case_decide; intros [= <-]; subst; reflexivity. Qed.
Lemma name_value_no_component t : name_value component_table t = None -> t ∉ component_names.
Proof. cbn. repeat case_decide; try done. intros _. unfold component_names. cbn. set_solver. Qed.

(** What the pieces read so far name. *)
Definition pieces_name (tokens : list cstr) (cs : list Z) : Prop :=
  Forall2 (fun token c => zget component_names c = Some (trim_token token)) tokens cs.

Lemma components_loop_spec line now tokens s :
  0 <= g_component_mask s < 18446744073709551616 ->
  match components_loop line now tokens s with
  | ComponentsSet s' =>
      exists cs, pieces_name tokens cs /\ g_log_level s' = g_log_level s /\
        forall c, 0 <= c < 64 -> is_component_enabled c s' = bool_decide (c ∈ cs) || is_component_enabled c s
  | ComponentsExit s' message =>
      exists pre token post cs, tokens = pre ++ token :: post /\ pieces_name pre cs /\
        trim_token token ∉ component_names /\ g_log_level s' = g_log_level s /\
        (forall c, 0 <= c < 64 -> is_component_enabled c s' = bool_decide (c ∈ cs) || is_component_enabled c s) /\
        message = report line now (lit "Unknown log component '" ++ trim_token token ++
           lit "'. Supported: MAIN|CLIENT|SERVER|STATS|CSV|NETWORK|SIGNAL") s'
  end.
Proof.
  revert s. induction tokens as [|token tokens IH]; intros s Hm; cbn [components_loop].
  { exists []. split; [by constructor|]. split; [done|]. intros c _. by rewrite bool_decide_false by set_solver. }
  destruct (name_value component_table (trim_token token)) as [k|] eqn:Hk.
  - apply name_value_component in Hk. pose proof (zget_range _ _ _ Hk) as Hk0. apply proj1 in Hk0.
    destruct (enable_spec k s 0 Hk0 ltac:(lia) Hm) as (_ & Hm' & Hl). specialize (IH _ Hm').
    assert (forall (b : bool) cs c, 0 <= c < 64 ->
      b = bool_decide (c ∈ cs) || is_component_enabled c (hw_log_enable_component k s) ->
      b = bool_decide (c ∈ k :: cs) || is_component_enabled c s) as Hb.
    { intros b cs c Hc ->. rewrite (proj1 (enable_spec k s c Hk0 Hc Hm)), orb_assoc. f_equal.
      repeat case_bool_decide; try done; exfalso; set_solver. }
    destruct (components_loop line now tokens (hw_log_enable_component k s)).
    + destruct IH as (cs & Hcs & Hl' & He). exists (k :: cs). split; [by constructor|]. split; [congruence|].
      intros c Hc. by apply Hb, He.
    + destruct IH as (pre & tok & post & cs & -> & Hcs & Hn & Hl' & He & Hmsg).
      exists (token :: pre), tok, post, (k :: cs). split; [done|]. split; [by constructor|]. split; [done|].
      split; [congruence|]. split; [|done]. intros c Hc. by apply Hb, He.
  - exists [], token, tokens, []. split; [done|]. split; [constructor|]. split; [by apply name_value_no_component|].
    split; [done|]. split; [|done]. intros c _. by rewrite bool_decide_false by set_solver.
Qed.

Lemma components_loop_mask line now tokens s s' :
  0 <= g_component_mask s < 18446744073709551616 -> components_loop line now tokens s = ComponentsSet s' ->
  0 <= g_component_mask s' < 18446744073709551616.
Proof.
  revert s. induction tokens as [|token tokens IH]; intros s Hm; cbn [components_loop]; [by intros [= <-]|].
  destruct (name_value component_table (trim_token token)) as [k|] eqn:Hk; [|done]. intros H.
  apply name_value_component, zget_range in Hk. apply IH in H; [done|].
  by apply (enable_spec k s 0 ltac:(lia) ltac:(lia) Hm).
Qed.

(** Whether the list is refused does not depend on the state. *)
Lemma components_loop_refused line now line' now' tokens s s' :
  (exists s1, components_loop line now tokens s = ComponentsSet s1) <->
  (exists s1, components_loop line' now' tokens s' = ComponentsSet s1).
Proof.
  revert s s'. induction tokens as [|token tokens IH]; intros s s'; cbn [components_loop]; [naive_solver|].
  case_match; [apply IH|naive_solver].
Qed.

Lemma disable_all_spec s :
  0 <= g_component_mask s < 18446744073709551616 ->
  let s' := fold_left (fun s c => hw_log_disable_component c s) [0; 1; 2; 3; 4; 5; 6] s in
  0 <= g_component_mask s' < 18446744073709551616 /\ g_log_level s' = g_log_level s /\
  forall c, 0 <= c < 64 -> is_component_enabled c s' = (7 <=? c) && is_component_enabled c s.
Proof.
  intros Hm.
  assert (forall l s, Forall (fun c => 0 <= c) l -> 0 <= g_component_mask s < 18446744073709551616 ->
    let s' := fold_left (fun s c => hw_log_disable_component c s) l s in
    0 <= g_component_mask s' < 18446744073709551616 /\ g_log_level s' = g_log_level s /\
    forall c, 0 <= c < 64 -> is_component_enabled c s' = negb (bool_decide (c ∈ l)) && is_component_enabled c s) as H.
  { clear s Hm. induction l as [|k l IH]; intros s Hk Hm; cbn zeta.
    - split; [done|]. split; [done|]. intros c _. by rewrite bool_decide_false by set_solver.
    - apply Forall_cons in Hk as [Hk Hl]. destruct (disable_spec k s 0 Hk ltac:(lia) Hm) as (_ & Hm' & Hl').
      destruct (IH _ Hl Hm') as (H1 & H2 & H3). cbn [fold_left]. split; [done|]. split; [congruence|].
      intros c Hc. rewrite H3, (proj1 (disable_spec k s c Hk Hc Hm)), andb_assoc by done. f_equal.
      repeat case_bool_decide; try done; exfalso; set_solver. }
  destruct (H [0; 1; 2; 3; 4; 5; 6] s ltac:(repeat constructor; lia) Hm) as (H1 & H2 & H3).
  split; [done|]. split; [done|]. intros c Hc. rewrite H3 by done. f_equal.
  rewrite bool_decide_decide. destruct (Z.leb_spec 7 c); case_decide as Hin; try done.
  - exfalso. set_unfold in Hin. lia.
  - exfalso. apply Hin. set_unfold. lia.
Qed.

Lemma parse_log_components_keeps line now comp_str s s' :
  0 <= g_component_mask s < 18446744073709551616 ->
  parse_log_components true line now (Some comp_str) s = ComponentsSet s' ->
  0 <= g_component_mask s' < 18446744073709551616 /\ g_log_level s' = g_log_level s.
Proof.
  intros Hm H. unfold parse_log_components in H. cbn [negb] in H.
  destruct (disable_all_spec s Hm) as (Hm' & Hl & _). split; [by eapply components_loop_mask|].
  pose proof (components_loop_spec line now (strtok_all COMMA comp_str) _ Hm') as Hs. rewrite H in Hs.
  destruct Hs as (_ & _ & -> & _). done.
Qed.

(** The component option enables exactly the components named by the pieces
    of the list, with the blanks around them removed, among the seven of the
    program, and leaves the level and the other bits alone.  The first unknown
    piece makes the program exit; its error message is lost when the list did
    not name MAIN before, because every component is disabled first. *)
Theorem parse_log_components_exact (line : Z) (now comp_str : cstr) (s : log_state) :
  0 <= g_component_mask s < 18446744073709551616 ->
  match parse_log_components true line now (Some comp_str) s with
  | ComponentsSet s' =>
      exists cs, pieces_name (strtok_all COMMA comp_str) cs /\ g_log_level s' = g_log_level s /\
        forall c, 0 <= c < 64 ->
          is_component_enabled c s' = if decide (c < 7) then bool_decide (c ∈ cs) else is_component_enabled c s
  | ComponentsExit s' message =>
      exists pre token post cs, strtok_all COMMA comp_str = pre ++ token :: post /\ pieces_name pre cs /\
        trim_token token ∉ component_names /\
        (message = None <-> g_log_level s > HW_LOG_LEVEL_ERROR \/ HW_LOG_COMPONENT_MAIN ∉ cs)
  end.
Proof.
  intros Hm. unfold parse_log_components. cbn [negb].
  destruct (disable_all_spec s Hm) as (Hm' & Hl & He). set (s0 := fold_left _ _ s) in *.
  pose proof (components_loop_spec line now (strtok_all COMMA comp_str) s0 Hm') as H.
  destruct (components_loop line now (strtok_all COMMA comp_str) s0) as [s'|s' message].
  - destruct H as (cs & Hcs & Hl' & He'). exists cs. split; [done|]. split; [congruence|]. intros c Hc.
    rewrite He', He by done. case_decide.
    + destruct (Z.leb_spec 7 c); [lia|]. by rewrite orb_false_r.
    + destruct (Z.leb_spec 7 c); [|lia]. cbn [andb]. rewrite bool_decide_false; [done|]. intros Hin.
      assert (Forall (fun c => c < 7) cs) as Hall.
      { eapply Forall2_Forall_r; [done|]. apply Forall_forall. intros token _ k Hk.
        apply zget_range in Hk. change (zlen component_names) with 7 in Hk. lia. }
      eapply Forall_forall in Hall; [|done]. lia.
  - destruct H as (pre & token & post & cs & Ht & Hcs & Hn & Hl' & He' & ->). exists pre, token, post, cs.
    split_and!; try done. unfold report, HW_LOG, hw_log_internal.
    rewrite He', He, Hl', Hl by (unfold HW_LOG_COMPONENT_MAIN; lia).
    change (HW_LOG_COMPILE_LEVEL <=? HW_LOG_LEVEL_ERROR) with true. change (HW_LOG_LEVEL_FATAL <? HW_LOG_LEVEL_ERROR) with false.
    change (7 <=? HW_LOG_COMPONENT_MAIN) with false. cbn [andb]. cbn match. rewrite !orb_false_r.
    destruct (Z.ltb_spec HW_LOG_LEVEL_ERROR (g_log_level s)); [split; [left; lia|done]|].
    case_bool_decide; cbn [negb]; split; try done; [intros [?|?]; [lia|done]|by right].
Qed.

Lemma parse_log_components_exact_witness :
  (exists s' cs, parse_log_components true 226 (lit "t") (Some (lit "MAIN, CSV ,NETWORK")) log_state_init = ComponentsSet s' /\
     pieces_name (strtok_all COMMA (lit "MAIN, CSV ,NETWORK")) cs /\ is_component_enabled 4 s' = bool_decide (4 ∈ cs)) /\
  (exists pre token post cs, strtok_all COMMA (lit "CSV,DISK") = pre ++ token :: post /\ pieces_name pre cs /\
     trim_token token ∉ component_names /\ HW_LOG_COMPONENT_MAIN ∉ cs).
Proof.
  assert (0 <= g_component_mask log_state_init < 18446744073709551616) as Hm by (vm_compute; split; congruence).
  split.
  - pose proof (parse_log_components_exact 226 (lit "t") (lit "MAIN, CSV ,NETWORK") log_state_init Hm) as H.
    destruct (parse_log_components true 226 (lit "t") (Some (lit "MAIN, CSV ,NETWORK")) log_state_init) as [s'|s' m] eqn:E;
      [|vm_compute in E; discriminate E].
    destruct H as (cs & Hcs & _ & He). exists s', cs. split; [exact eq_refl|]. split; [exact Hcs|]. exact (He 4 ltac:(lia)).
  - pose proof (parse_log_components_exact 226 (lit "t") (lit "CSV,DISK") log_state_init Hm) as H.
    destruct (parse_log_components true 226 (lit "t") (Some (lit "CSV,DISK")) log_state_init) as [s'|s' m] eqn:E;
      [vm_compute in E; discriminate E|].
    destruct H as (pre & token & post & cs & Ht & Hcs & Hn & Hmsg). exists pre, token, post, cs.
    split; [exact Ht|]. split; [exact Hcs|]. split; [exact Hn|].
    assert (m = None) as Hnone by (vm_compute in E; congruence).
    destruct (proj1 Hmsg Hnone) as [Hgt|Hno]; [exfalso; vm_compute in Hgt; discriminate Hgt|exact Hno].
Defined.
