(* ===== verification/Signals.v ===== *)
(** The signals of client and server: the shutdown handler of SIGINT and SIGTERM
    (timestamp_client.c, timestamp_server.c), and the alarm that drives the packet
    rates (timestamp_common.c).

    A signal without a handler ends the process; an alarm is delivered once after
    it was set. *)

From S2P Require Import Prelude CText PpsStats Logging.

Definition SIGINT : Z := 2.
Definition SIGALRM : Z := 14.
Definition SIGTERM : Z := 15.

Inductive disposition := SIG_DFL | ShutdownHandler | StatsHandler.
Record signal_state := SignalState {
  sg_dispositions : gmap Z disposition; sg_alarm : bool; sg_graceful_shutdown : bool; sg_stats_state : stats_state_t;
  sg_written : list cstr }.

(** A delivery: the time for the message, and what the alarm's handler reads. *)
Record delivery := Delivery { dl_signal : Z; dl_gmtime : option (Z * Z * Z); dl_sent : Z; dl_received : Z; dl_now : Z }.

(** signal and alarm; the disposition that was replaced is not used. *)
Definition set_signal (sig : Z) (d : disposition) (s : signal_state) : signal_state :=
  SignalState (<[sig := d]> (sg_dispositions s)) (sg_alarm s) (sg_graceful_shutdown s) (sg_stats_state s) (sg_written s).
Definition set_alarm (armed : bool) (s : signal_state) : signal_state :=
  SignalState (sg_dispositions s) armed (sg_graceful_shutdown s) (sg_stats_state s) (sg_written s).
Definition with_stats_state (st : stats_state_t) (s : signal_state) : signal_state :=
  SignalState (sg_dispositions s) (sg_alarm s) (sg_graceful_shutdown s) st (sg_written s).

Definition setup_signal_handling (s : signal_state) : signal_state :=
  set_signal SIGTERM ShutdownHandler (set_signal SIGINT ShutdownHandler s).
Definition start_stats_reporting (now : Z) (s : signal_state) : signal_state :=
  set_alarm true (set_signal SIGALRM StatsHandler (with_stats_state (setup_stats_reporting_hotpath now) s)).
Definition cleanup_stats_reporting_hotpath (s : signal_state) : signal_state := set_signal SIGALRM SIG_DFL (set_alarm false s).

Definition signal_handler (gmtime : option (Z * Z * Z)) (s : signal_state) : signal_state :=
  SignalState (sg_dispositions s) (sg_alarm s) true (sg_stats_state s)
    (sg_written s ++ hw_signal_safe_log gmtime (Some (lit "Graceful shutdown initiated"))).
(** The client's identical copies. *)
Definition client_setup_signal_handling : signal_state -> signal_state := setup_signal_handling.
Definition client_signal_handler : option (Z * Z * Z) -> signal_state -> signal_state := signal_handler.
(** The alarm is set again. *)
Definition stats_handler (d : delivery) (s : signal_state) : signal_state :=
  set_alarm true (with_stats_state (stats_signal_handler_hotpath (dl_sent d) (dl_received d) (dl_now d) (sg_stats_state s)) s).

(** None is the end of the process. *)
Definition deliver (s : signal_state) (d : delivery) : option signal_state :=
  if (dl_signal d =? SIGALRM) && negb (sg_alarm s) then Some s
  else
    let s := if dl_signal d =? SIGALRM then set_alarm false s else s in
    match default SIG_DFL (sg_dispositions s !! dl_signal d) with
    | SIG_DFL => None
    | ShutdownHandler => Some (signal_handler (dl_gmtime d) s)
    | StatsHandler => Some (stats_handler d s)
    end.
Definition deliver_all (s : signal_state) (ds : list delivery) : option signal_state :=
  fold_left (fun s d => s ← s; deliver s d) ds (Some s).

Definition asks_shutdown (d : delivery) : bool := (dl_signal d =? SIGINT) || (dl_signal d =? SIGTERM).
Definition handled (d : delivery) : Prop := dl_signal d = SIGINT \/ dl_signal d = SIGTERM \/ dl_signal d = SIGALRM.
(** The rates after the alarms among the signals. *)
Definition stats_after (st : stats_state_t) (ds : list delivery) : stats_state_t :=
  fold_left (fun st d => if dl_signal d =? SIGALRM then stats_signal_handler_hotpath (dl_sent d) (dl_received d) (dl_now d) st else st) ds st.

(** Both kinds of handlers are in place and the alarm is set. *)
Record reporting (s : signal_state) : Prop := {
  rp_int : sg_dispositions s !! SIGINT = Some ShutdownHandler;
  rp_term : sg_dispositions s !! SIGTERM = Some ShutdownHandler;
  rp_alrm : sg_dispositions s !! SIGALRM = Some StatsHandler;
  rp_alarm : sg_alarm s = true }.
Lemma start_reports now s : reporting (start_stats_reporting now (setup_signal_handling s)).
Proof. split; [..|done]; cbn; by simplify_map_eq. Qed.

Lemma deliver_reporting s d : reporting s -> handled d -> exists s', deliver s d = Some s' /\ reporting s' /\
  sg_graceful_shutdown s' = sg_graceful_shutdown s || asks_shutdown d /\ sg_stats_state s' = stats_after (sg_stats_state s) [d] /\
  length (sg_written s') = (length (sg_written s) + if asks_shutdown d then 3 else 0)%nat.
Proof.
  intros [H1 H2 H3 H4] Hd. unfold deliver, asks_shutdown, stats_after. cbn [fold_left].
  destruct Hd as [E|[E|E]]; rewrite E; cbn; rewrite ?H1, ?H2, ?H3, ?H4; cbn; rewrite ?H1, ?H2, ?H3; cbn; eexists; (split; [done|]).
  all: (split; [by split|]); rewrite ?orb_true_r, ?orb_false_r, ?Nat.add_0_r; split; [done|split; [done|]]; cbn; rewrite ?length_app; done.
Qed.

(** While client or server reports, no signal it has set up ends it: the flag for
    the shutdown is raised exactly when one of SIGINT and SIGTERM has come, with one
    message (three writes) each, every alarm is followed by the next, and the rates
    are those of the alarms in order.  After the reporting is over the alarm cannot
    come any more, and the two other signals still do not end the process. *)
Theorem signals_handled (s : signal_state) (now : Z) (ds late : list delivery) :
  sg_graceful_shutdown s = false -> sg_written s = [] -> Forall handled ds -> Forall handled late ->
  exists s1 s2, deliver_all (start_stats_reporting now (setup_signal_handling s)) ds = Some s1 /\
    sg_graceful_shutdown s1 = existsb asks_shutdown ds /\ sg_alarm s1 = true /\
    sg_stats_state s1 = stats_after (setup_stats_reporting_hotpath now) ds /\
    length (sg_written s1) = (3 * length (List.filter asks_shutdown ds))%nat /\
    deliver_all (cleanup_stats_reporting_hotpath s1) late = Some s2 /\
    sg_graceful_shutdown s2 = existsb asks_shutdown (ds ++ late) /\ sg_stats_state s2 = sg_stats_state s1.
Proof.
  intros Hg Hw Hds Hlate. set (s0 := start_stats_reporting now (setup_signal_handling s)).
  assert (reporting s0) as Hr by apply start_reports.
  assert (exists s1, deliver_all s0 ds = Some s1 /\ reporting s1 /\ sg_graceful_shutdown s1 = sg_graceful_shutdown s0 || existsb asks_shutdown ds /\
    sg_stats_state s1 = stats_after (sg_stats_state s0) ds /\
    length (sg_written s1) = (length (sg_written s0) + 3 * length (List.filter asks_shutdown ds))%nat) as (s1 & E1 & Hr1 & G1 & T1 & W1).
  { clearbody s0. clear Hg Hw. revert s0 Hr. induction Hds as [|d ds Hd Hds IH]; intros s0 Hr.
    { exists s0. cbn. rewrite orb_false_r, Nat.add_0_r. done. }
    destruct (deliver_reporting s0 d Hr Hd) as (s1 & E & Hr1 & G & T & W). destruct (IH s1 Hr1) as (s2 & E2 & Hr2 & G2 & T2 & W2).
    exists s2. unfold deliver_all in *. cbn [fold_left mbind option_bind]. rewrite E. split; [exact E2|]. split; [done|].
    rewrite G2, G, T2, T, W2, W. cbn [existsb List.filter]. rewrite orb_assoc. split; [done|]. split; [done|]. destruct (asks_shutdown d); cbn [length]; lia. }
  exists s1. assert (sg_graceful_shutdown s0 = false) as G0 by done. assert (sg_written s0 = []) as W0 by done.
  rewrite G0 in G1. rewrite W0 in W1. cbn [length Nat.add orb] in G1, W1.
  set (s1' := cleanup_stats_reporting_hotpath s1).
  assert (sg_dispositions s1' !! SIGINT = Some ShutdownHandler /\ sg_dispositions s1' !! SIGTERM = Some ShutdownHandler /\ sg_alarm s1' = false) as Hs1.
  { destruct Hr1. unfold s1'. cbn. by rewrite !lookup_insert_ne. }
  assert (exists s2, deliver_all s1' late = Some s2 /\ sg_graceful_shutdown s2 = sg_graceful_shutdown s1' || existsb asks_shutdown late /\
    sg_stats_state s2 = sg_stats_state s1') as (s2 & E2 & G2 & T2).
  { clearbody s1'. clear -Hlate Hs1. revert s1' Hs1. induction Hlate as [|d late Hd Hlate IH]; intros s0 (H1 & H2 & H3).
    { exists s0. cbn. by rewrite orb_false_r. }
    assert (exists s1, deliver s0 d = Some s1 /\ sg_dispositions s1 = sg_dispositions s0 /\ sg_alarm s1 = false /\
      sg_graceful_shutdown s1 = sg_graceful_shutdown s0 || asks_shutdown d /\ sg_stats_state s1 = sg_stats_state s0) as (s1 & E & D & A & G & T).
    { unfold deliver, asks_shutdown. destruct Hd as [E|[E|E]]; rewrite E; cbn; rewrite ?H1, ?H2, ?H3; cbn; eexists; (split; [done|]); cbn;
        rewrite ?orb_true_r, ?orb_false_r; done. }
    destruct (IH s1) as (s2 & E2 & G2 & T2); [by rewrite D|]. exists s2. unfold deliver_all in *. cbn [fold_left mbind option_bind]. rewrite E.
    split; [exact E2|]. rewrite G2, G, T2, T. cbn [existsb]. by rewrite orb_assoc. }
  exists s2. split; [exact E1|]. split; [exact G1|]. split; [apply Hr1|]. split; [exact T1|]. split; [exact W1|]. split; [exact E2|].
  rewrite G2, T2. unfold s1'. cbn. rewrite G1, existsb_app. done.
Qed.
