(* ===== verification/Frame.v ===== *)
(** Ethernet/IPv4/UDP frames of the packet replicator (PacketReplicator.cpp):
    reading the payload of a received frame, and writing a frame to a destination
    into the packet memory (UMEM), with the IPv4 header checksum. *)

From S2P Require Import Prelude CText Wire XdpFilter.

(** ** Packet memory *)

(** UMEM as bytes by address. *)
Definition umem := Z -> Z.
Definition mem_read (m : umem) (off : Z) (n : nat) : list Z := map (fun i => m (off + Z.of_nat i)) (seq 0 n).
Definition mem_write (m : umem) (off : Z) (bs : list Z) : umem :=
  fun a => if (off <=? a) && (a <? off + zlen bs) then default 0 (zget bs (a - off)) else m a.

Lemma mem_read_length m off n : length (mem_read m off n) = n.
Proof. unfold mem_read. by rewrite length_map, length_seq. Qed.

Lemma mem_read_write_same m off bs : mem_read (mem_write m off bs) off (length bs) = bs.
Proof.
  apply list_eq. intros i. unfold mem_read. rewrite list_lookup_fmap.
  destruct (decide (i < length bs)%nat) as [Hi|Hi].
  - rewrite lookup_seq_lt by done. cbn. unfold mem_write, zlen.
    rewrite (proj2 (Z.leb_le _ _)), (proj2 (Z.ltb_lt _ _)) by lia. cbn [andb].
    unfold zget. rewrite (proj2 (Z.ltb_ge _ _)) by lia. replace (Z.to_nat (off + Z.of_nat i - off)) with i by lia.
    destruct (lookup_lt_is_Some_2 bs i Hi) as [b ->]. done.
  - rewrite lookup_seq_ge by lia. cbn. symmetry. apply lookup_ge_None. lia.
Qed.

Lemma mem_read_write_other m off bs off' n :
  off' + Z.of_nat n <= off \/ off + zlen bs <= off' -> mem_read (mem_write m off bs) off' n = mem_read m off' n.
Proof.
  intros H. unfold mem_read. apply map_ext_in. intros i Hi%in_seq. unfold mem_write.
  destruct (Z.leb_spec off (off' + Z.of_nat i)), (Z.ltb_spec (off' + Z.of_nat i) (off + zlen bs)); try done. lia.
Qed.

Lemma mem_read_app m off n k :
  mem_read m off (n + k) = mem_read m off n ++ mem_read m (off + Z.of_nat n) k.
Proof.
  unfold mem_read. rewrite seq_app, map_app. f_equal.
  pose proof (fmap_add_seq n 0 k) as Hs. rewrite Nat.add_0_r in Hs. cbn [Nat.add]. rewrite <- Hs.
  change (Nat.add n <$> seq 0 k) with (map (Nat.add n) (seq 0 k)). rewrite map_map.
  apply map_ext. intros i. f_equal. lia.
Qed.
(** A write inside a range that is read. *)
Lemma mem_read_splice m off bs buffer n : buffer <= off -> off + zlen bs <= buffer + Z.of_nat n ->
  mem_read (mem_write m off bs) buffer n =
  take (Z.to_nat (off - buffer)) (mem_read m buffer n) ++ bs ++ drop (Z.to_nat (off - buffer) + length bs) (mem_read m buffer n).
Proof.
  intros H1 H2. unfold zlen in H2. set (k := Z.to_nat (off - buffer)).
  replace n with (k + (length bs + (n - k - length bs)))%nat by lia. rewrite !mem_read_app.
  replace (buffer + Z.of_nat k) with off by lia.
  rewrite (mem_read_write_other m off bs buffer k) by lia. rewrite mem_read_write_same, mem_read_write_other by (unfold zlen; lia).
  rewrite take_app_length' by (by rewrite mem_read_length). f_equal. f_equal.
  rewrite app_assoc, drop_app_length'; [done|]. by rewrite length_app, !mem_read_length.
Qed.

(** ** Byte order *)

(** ntohs of a value loaded in host (little-endian) order. *)
Definition ntohs (v : Z) : Z := (v mod 256) * 256 + v / 256 mod 256.
(** The two bytes in memory of htons(v). *)
Definition htons_bytes (v : Z) : list Z := [u8 (v / 256); u8 v].

(** ** Reading the payload *)

Definition ETH_HLEN : Z := 14.
Definition IP_HLEN : Z := 20.
Definition UDP_HLEN : Z := 8.
Definition ETH_P_IP : Z := 2048.

(** The offset and length of the payload; the outer None is a read outside the
    packet, the inner one the result false. *)
Definition extractUdpPayload (packet : list Z) : option (option (Z * Z)) :=
  let packetLen := zlen packet in
  if packetLen <? ETH_HLEN + IP_HLEN + UDP_HLEN then Some None
  else
    h_proto ← load16 packet 12;
    if negb (ntohs h_proto =? ETH_P_IP) then Some None
    else
      protocol ← load8 packet (ETH_HLEN + 9);
      if negb (protocol =? IPPROTO_UDP) then Some None
      else
        version_ihl ← load8 packet ETH_HLEN;
        let ip_hdr_len := Z.land version_ihl 15 * 4 in
        if ip_hdr_len <? 20 then Some None
        else
          let headers_len := ETH_HLEN + ip_hdr_len + UDP_HLEN in
          if packetLen <? headers_len then Some None
          else
            let payloadLen := packetLen - headers_len in
            len ← load16 packet (ETH_HLEN + ip_hdr_len + 4);
            let udp_len := ntohs len in
            if (udp_len <? UDP_HLEN) || (payloadLen + UDP_HLEN <? udp_len) then Some None
            else Some (Some (headers_len, udp_len - UDP_HLEN)).

(** The variant with branch hints, which does not look at the UDP length. *)
Definition extractUdpPayloadFast (packet : list Z) : option (option (Z * Z)) :=
  let packetLen := zlen packet in
  if packetLen <? 42 then Some None
  else
    h_proto ← load16 packet 12;
    if negb (h_proto =? ETH_P_IP_be) then Some None
    else
      protocol ← load8 packet (14 + 9);
      if negb (protocol =? IPPROTO_UDP) then Some None
      else
        version_ihl ← load8 packet 14;
        let ip_hdr_len := Z.shiftl (Z.land version_ihl 15) 2 in
        if ip_hdr_len <? 20 then Some None
        else
          let headers_len := 14 + ip_hdr_len + 8 in
          if packetLen <? headers_len then Some None
          else Some (Some (headers_len, packetLen - headers_len)).

(** ** The header checksum *)

(** Ten 16-bit words in host order. *)
Fixpoint le_words (bs : list Z) : list Z :=
  match bs with
  | a :: b :: bs => a + 256 * b :: le_words bs
  | _ => []
  end.
(** while (sum >> 16) sum = (sum and 0xFFFF) + (sum >> 16) *)
Fixpoint fold_carries (fuel : nat) (sum : Z) : Z :=
  match fuel with
  | O => sum
  | S fuel => if Z.shiftr sum 16 =? 0 then sum else fold_carries fuel (u32 (Z.land sum 65535 + Z.shiftr sum 16))
  end.
(** 4 rounds are enough for a 32-bit sum: [fold_carries_spec]. *)
Definition ip_sum (words : list Z) : Z := fold_carries 4 (fold_left (fun sum w => u32 (sum + w)) words 0).
(** ip->check = ~sum: the two bytes in memory. *)
Definition ip_checksum_bytes (header : list Z) : list Z :=
  let check := u16 (Z.lnot (ip_sum (le_words header))) in [u8 check; u8 (check / 256)].

(** ** Writing a frame *)

(** What the system tells about addresses: the interface's address and MAC, and
    the ARP table. *)
Record net_env := NetEnv {
  ne_listen_ip : cstr; ne_listen_port : Z;
  ne_interface_ip : option cstr; ne_interface_mac : option (list Z); ne_arp : cstr -> option (list Z) }.

(** PacketReplicator::Destination: text, port, and the address of the text. *)
Record Destination := Dest { d_ip : cstr; d_port : Z; d_addr : Z }.

Section Frame.
(** inet_aton: the address in host order, or failure. *)
Variable inet_aton : cstr -> option Z.

Definition source_addr (env : net_env) : Z :=
  default 0 (inet_aton (default (ne_listen_ip env) (ne_interface_ip env))).

Definition ethernet_header (env : net_env) (d : Destination) : list Z :=
  default (replicate 6 255) (ne_arp env (d_ip d)) ++ default [2; 0; 0; 0; 0; 1] (ne_interface_mac env) ++ htons_bytes ETH_P_IP.

(** The IPv4 header with [check] in its checksum field, and with an identification. *)
Definition ip_header_with_id (id : Z) (env : net_env) (d : Destination) (payloadLen : Z) (check : list Z) : list Z :=
  [69; 0] ++ htons_bytes (u16 (IP_HLEN + UDP_HLEN + payloadLen)) ++ htons_bytes id ++ [0; 0; 64; IPPROTO_UDP] ++ check ++
  htonl_bytes (source_addr env) ++ htonl_bytes (d_addr d).
Definition ip_header_id (id : Z) (env : net_env) (d : Destination) (payloadLen : Z) : list Z :=
  ip_header_with_id id env d payloadLen (ip_checksum_bytes (ip_header_with_id id env d payloadLen [0; 0])).
Definition ip_header : net_env -> Destination -> Z -> list Z := ip_header_id 12345.

Definition udp_header (env : net_env) (d : Destination) (payloadLen : Z) : list Z :=
  htons_bytes (ne_listen_port env) ++ htons_bytes (d_port d) ++ htons_bytes (u16 (UDP_HLEN + payloadLen)) ++ [0; 0].

Definition frame_headers_id (id : Z) (env : net_env) (d : Destination) (payloadLen : Z) : list Z :=
  ethernet_header env d ++ ip_header_id id env d payloadLen ++ udp_header env d payloadLen.
Definition frame_headers : net_env -> Destination -> Z -> list Z := frame_headers_id 12345.

Definition calculatePacketSize (payloadLen : Z) : Z := ETH_HLEN + IP_HLEN + UDP_HLEN + payloadLen.

(** createUdpPacket with the payload at [data] and the buffer at [buffer], both
    in [m]; the length is 0 when the frame does not fit.  The payload is copied
    after the buffer was cleared and the headers written. *)
Definition createUdpPacket (env : net_env) (m : umem) (d : Destination) (data payloadLen buffer bufferSize : Z) : umem * Z :=
  let total_len := ETH_HLEN + IP_HLEN + UDP_HLEN + payloadLen in
  if bufferSize <? total_len then (m, 0)
  else
    let m := mem_write m buffer (replicate (Z.to_nat total_len) 0) in
    let m := mem_write m buffer (frame_headers env d payloadLen) in
    let m := mem_write m (buffer + (ETH_HLEN + IP_HLEN + UDP_HLEN)) (mem_read m data (Z.to_nat payloadLen)) in
    (m, total_len).

(** The frame as one list. *)
Definition udp_frame_id (id : Z) (env : net_env) (d : Destination) (payload : list Z) : list Z :=
  frame_headers_id id env d (zlen payload) ++ payload.
Definition udp_frame : net_env -> Destination -> list Z -> list Z := udp_frame_id 12345.

(** ** Frames: proofs *)

Lemma udp_frame_app env d payload : udp_frame env d payload = frame_headers env d (zlen payload) ++ payload.
Proof. done. Qed.

(** MAC addresses have six bytes. *)
Definition env_wf (env : net_env) : Prop :=
  (forall mac, ne_interface_mac env = Some mac -> length mac = 6%nat) /\
  (forall ip mac, ne_arp env ip = Some mac -> length mac = 6%nat).

Lemma six {A} (l : list A) : length l = 6%nat -> exists a b c d e f, l = [a; b; c; d; e; f].
Proof. destruct l as [|a [|b [|c [|d [|e [|f [|]]]]]]]; try done. intros _. by eexists _, _, _, _, _, _. Qed.

Lemma ethernet_header_shape env d :
  env_wf env -> exists macs, length macs = 12%nat /\ ethernet_header env d = macs ++ htons_bytes ETH_P_IP.
Proof.
  intros [H1 H2]. unfold ethernet_header. rewrite app_assoc. eexists. split; [|done]. rewrite length_app.
  assert (length (default (replicate 6 255) (ne_arp env (d_ip d))) = 6%nat) as -> by (destruct (ne_arp _ _) eqn:E; [by eapply H2|done]).
  assert (length (default [2; 0; 0; 0; 0; 1] (ne_interface_mac env)) = 6%nat) as -> by (destruct (ne_interface_mac env) eqn:E; [by apply H1|done]).
  done.
Qed.

Lemma frame_headers_id_length id env d n : env_wf env -> length (frame_headers_id id env d n) = 42%nat.
Proof.
  intros H. unfold frame_headers_id. destruct (ethernet_header_shape env d H) as (macs & Hl & ->).
  rewrite !length_app, Hl. done.
Qed.
Lemma frame_headers_length env d n : env_wf env -> length (frame_headers env d n) = 42%nat.
Proof. apply frame_headers_id_length. Qed.

Lemma udp_frame_id_length id env d payload : env_wf env -> zlen (udp_frame_id id env d payload) = 42 + zlen payload.
Proof. intros H. unfold zlen, udp_frame_id. rewrite length_app, frame_headers_id_length by done. lia. Qed.
Lemma udp_frame_length env d payload : env_wf env -> zlen (udp_frame env d payload) = 42 + zlen payload.
Proof. apply udp_frame_id_length. Qed.

(** The frame is in the buffer, and no other byte changed, when the payload lies
    outside the buffer. *)
Lemma create_udp_packet_spec env m d data n buffer bufferSize :
  env_wf env -> 0 <= n -> 42 + n <= bufferSize ->
  data + n <= buffer \/ buffer + (42 + n) <= data ->
  let '(m', len) := createUdpPacket env m d data n buffer bufferSize in
  len = 42 + n /\
  mem_read m' buffer (Z.to_nat len) = udp_frame env d (mem_read m data (Z.to_nat n)) /\
  (forall off k, off + Z.of_nat k <= buffer \/ buffer + len <= off -> mem_read m' off k = mem_read m off k).
Proof.
  intros He Hn Hb Hd. unfold createUdpPacket. change (ETH_HLEN + IP_HLEN + UDP_HLEN) with 42.
  rewrite (proj2 (Z.ltb_ge _ _)) by lia.
  set (m1 := mem_write m buffer _). set (m2 := mem_write m1 buffer _).
  assert (zlen (replicate (Z.to_nat (42 + n)) 0) = 42 + n) as Hz by (unfold zlen; rewrite length_replicate; lia).
  assert (zlen (frame_headers env d n) = 42) as Hh by (unfold zlen; by rewrite frame_headers_length).
  assert (forall off k, off + Z.of_nat k <= buffer \/ buffer + (42 + n) <= off -> mem_read m2 off k = mem_read m off k) as Ho.
  { intros off k Hk. unfold m2, m1. by rewrite !mem_read_write_other by lia. }
  assert (mem_read m2 data (Z.to_nat n) = mem_read m data (Z.to_nat n)) as Hp by (apply Ho; lia).
  assert (zlen (mem_read m2 data (Z.to_nat n)) = n) as Hl by (unfold zlen; rewrite mem_read_length; lia).
  split; [done|]. split.
  - replace (Z.to_nat (42 + n)) with (42 + Z.to_nat n)%nat by lia. rewrite mem_read_app.
    rewrite mem_read_write_other by (left; lia). change (Z.of_nat 42) with 42.
    rewrite udp_frame_app. f_equal.
    + unfold m2. rewrite <- (frame_headers_length env d n He) at 1. rewrite mem_read_write_same.
      f_equal. unfold zlen. rewrite mem_read_length. lia.
    + rewrite <- Hp. pose proof (mem_read_write_same m2 (buffer + 42) (mem_read m2 data (Z.to_nat n))) as Hs.
      rewrite mem_read_length in Hs. exact Hs.
  - intros off k Hk. rewrite mem_read_write_other by lia. by apply Ho.
Qed.

(** *** Checksum *)

Lemma carry_step s : 65536 <= s < 4294967296 ->
  let s' := u32 (Z.land s 65535 + Z.shiftr s 16) in
  0 < s' < s /\ s' <= 65535 + s / 65536 /\ s' mod 65535 = s mod 65535.
Proof.
  intros Hs s'. assert (s' = s mod 65536 + s / 65536) as ->.
  { unfold s'. change 65535 with (Z.ones 16). rewrite Z.land_ones, Z.shiftr_div_pow2 by lia.
    change (2 ^ 16) with 65536. apply u32_small. zlia. }
  split; [zlia|]. split; [zlia|].
  replace s with (s mod 65536 + s / 65536 + (s / 65536) * 65535) at 3 by zlia.
  by rewrite Z.mod_add by lia.
Qed.

Lemma shiftr16 s : 0 <= s -> (Z.shiftr s 16 =? 0) = (s <? 65536).
Proof.
  intros H. rewrite Z.shiftr_div_pow2 by lia. change (2 ^ 16) with 65536.
  destruct (Z.eqb_spec (s / 65536) 0), (Z.ltb_spec s 65536); done || zlia.
Qed.

(** Folding the carries ends with a 16-bit value, congruent modulo 65535, and 0
    only for 0. *)
Lemma fold_carries_spec s : 0 <= s < 4294967296 ->
  let r := fold_carries 4 s in 0 <= r < 65536 /\ r mod 65535 = s mod 65535 /\ (r = 0 -> s = 0) /\ r <= s.
Proof.
  assert (forall f s, 0 <= s < 4294967296 -> let r := fold_carries f s in
    0 <= r <= s /\ r mod 65535 = s mod 65535 /\ (r = 0 -> s = 0)) as Hf.
  { induction f as [|f IH]; intros x Hx; cbn [fold_carries]; [by split; [lia|]|].
    rewrite shiftr16 by lia. destruct (Z.ltb_spec x 65536); [by split; [lia|]|].
    destruct (carry_step x ltac:(lia)) as (H1 & H2 & H3). cbn zeta in *. set (x' := u32 _) in *.
    destruct (IH x' ltac:(lia)) as (H4 & H5 & H6). split; [lia|]. split; [congruence|]. intros H0. apply H6 in H0. lia. }
  intros Hs. cbn zeta. destruct (Hf 4%nat s Hs) as (H1 & H2 & H3). split; [|split; [done|split; [done|lia]]].
  split; [lia|]. clear H1 H2 H3 Hf.
  assert (forall f x, 0 <= x -> fold_carries (S f) x =
    if x <? 65536 then x else fold_carries f (u32 (Z.land x 65535 + Z.shiftr x 16))) as Hu.
  { intros f x Hx. cbn [fold_carries]. by rewrite shiftr16. }
  assert (forall f x n, 65536 <= x < 4294967296 -> x / 65536 <= n -> n <= 65535 ->
    (forall y, 0 < y <= 65535 + n -> fold_carries f y < 65536) -> fold_carries (S f) x < 65536) as Hc.
  { intros f x n Hx Hn Hn' Hy. rewrite Hu by lia. rewrite (proj2 (Z.ltb_ge _ _)) by lia. apply Hy.
    destruct (carry_step x Hx) as (H1 & H2 & _). cbn zeta in *. lia. }
  assert (forall f x, 0 <= x < 65536 -> fold_carries f x < 65536) as Hsmall.
  { intros [|f] x Hx; [cbn; lia|]. rewrite Hu by lia. rewrite (proj2 (Z.ltb_lt _ _)) by lia. lia. }
  destruct (Z.ltb_spec s 65536); [by apply Hsmall; lia|]. apply (Hc 3%nat s 65535); [lia|zlia|lia|]. intros y Hy.
  destruct (Z.ltb_spec y 65536); [by apply Hsmall; lia|]. apply (Hc 2%nat y 1); [lia|zlia|lia|]. intros z Hz.
  destruct (Z.ltb_spec z 65536); [by apply Hsmall; lia|]. apply (Hc 1%nat z 1); [lia|zlia|lia|]. intros w Hw.
  destruct (Z.ltb_spec w 65536); [by apply Hsmall; lia|].
  assert (w = 65536) as -> by lia. vm_compute. done.
Qed.

Definition zsum (l : list Z) : Z := foldr Z.add 0 l.
Lemma zsum_app a b : zsum (a ++ b) = zsum a + zsum b.
Proof. unfold zsum. induction a as [|x a IH]; simpl; [done|]. rewrite IH. lia. Qed.
Lemma zsum_range l : Forall (fun w => 0 <= w < 65536) l -> 0 <= zsum l <= 65535 * zlen l.
Proof. unfold zlen, zsum. induction 1; simpl; lia. Qed.

Lemma fold_sum ws acc :
  Forall (fun w => 0 <= w < 65536) ws -> 0 <= acc -> acc + 65535 * zlen ws < 4294967296 ->
  fold_left (fun sum w => u32 (sum + w)) ws acc = acc + zsum ws.
Proof.
  intros H. revert acc. induction H as [|w ws Hw Hws IH]; intros acc Ha Hl; simpl; [lia|].
  unfold zlen in *. simpl in Hl. rewrite u32_small by lia. rewrite IH by lia. lia.
Qed.

Lemma word_range a b : 0 <= u8 a + 256 * u8 b < 65536.
Proof. pose proof (u8_range a). pose proof (u8_range b). lia. Qed.

(** The words of the header around its checksum. *)
Lemma ip_header_words id env d n :
  exists A B, Forall (fun w => 0 <= w < 65536) A /\ Forall (fun w => 0 <= w < 65536) B /\ zlen A + zlen B = 9 /\
    forall a b, le_words (ip_header_with_id id env d n [a; b]) = A ++ (a + 256 * b) :: B.
Proof.
  exists (take 5 (le_words (ip_header_with_id id env d n [0; 0]))), (drop 6 (le_words (ip_header_with_id id env d n [0; 0]))).
  split; [|split; [|split; [done|done]]].
  - cbn -[u8 u16 htonl_bytes]. repeat (apply Forall_cons; split; [try apply word_range; unfold IPPROTO_UDP; try lia|]). done.
  - cbn -[u8 u16]. repeat (apply Forall_cons; split; [apply word_range|]). done.
Qed.

Lemma u8_pair v : 0 <= v < 65536 -> u8 v + 256 * u8 (v / 256) = v.
Proof. intros H. unfold u8. zlia. Qed.

Lemma ip_header_sum id env d n : ip_sum (le_words (ip_header_id id env d n)) = 65535.
Proof.
  destruct (ip_header_words id env d n) as (A & B & HA & HB & Hl & Hw). unfold ip_header_id, ip_checksum_bytes.
  rewrite !Hw. pose proof (zsum_range A HA) as RA. pose proof (zsum_range B HB) as RB.
  assert (forall c, 0 <= c < 65536 ->
    ip_sum (A ++ c :: B) = fold_carries 4 (zsum A + c + zsum B) /\ 0 <= zsum A + c + zsum B < 4294967296) as Hs.
  { intros c Hc. unfold ip_sum. rewrite fold_sum.
    - rewrite zsum_app. cbn [zsum foldr]. split; [f_equal; unfold zsum; lia|lia].
    - apply Forall_app. split; [done|by constructor].
    - lia.
    - unfold zlen in *. rewrite length_app. simpl. lia. }
  destruct (Hs (0 + 256 * 0) ltac:(lia)) as [E0 R0]. rewrite E0.
  destruct (fold_carries_spec _ R0) as (F1 & F2 & F3 & F4). cbn zeta in *. set (r := fold_carries 4 _) in *. clearbody r.
  assert (u16 (Z.lnot r) = 65535 - r) as -> by (unfold u16; rewrite Z.lnot_eq_pred_opp; zlia).
  rewrite u8_pair by lia. destruct (Hs (65535 - r) ltac:(lia)) as [-> R1].
  destruct (fold_carries_spec _ R1) as (G1 & G2 & G3 & _). cbn zeta in *. set (q := fold_carries 4 _) in *. clearbody q.
  assert (q mod 65535 = 0) as Hq.
  { rewrite G2. replace (zsum A + (65535 - r) + zsum B) with ((zsum A + 256 * 0 + zsum B) - r + 1 * 65535) by lia.
    rewrite Z.mod_add, Zminus_mod, F2 by lia. replace (zsum A + (0 + 256 * 0) + zsum B) with (zsum A + 256 * 0 + zsum B) by lia.
    by rewrite Z.sub_diag. }
  zlia.
Qed.

(** *** Reading a frame *)

(** The configuration of the XDP program for an address and a port: the fields
    are in network byte order, loaded on a little-endian machine. *)
Definition net32 (a : Z) : Z :=
  (u8 (a / 16777216) + 256 * u8 (a / 65536)) + 65536 * (u8 (a / 256) + 256 * u8 a).
Definition net16 (p : Z) : Z := u8 (p / 256) + 256 * u8 p.
Definition config_for (d : Destination) : unicast_config := UnicastConfig (net32 (d_addr d)) (net16 (d_port d)).

Lemma ntohs_net16 v : 0 <= v < 65536 -> ntohs (net16 v) = v.
Proof. intros H. unfold ntohs, net16, u8. zlia. Qed.

Lemma udp_frame_loads id env d payload :
  env_wf env -> let f := udp_frame_id id env d payload in
  load16 f 12 = Some ETH_P_IP_be /\ load8 f 14 = Some 69 /\ load8 f 23 = Some IPPROTO_UDP /\
  load32 f 30 = Some (net32 (d_addr d)) /\ load16 f 36 = Some (net16 (d_port d)) /\
  load16 f 38 = Some (net16 (u16 (UDP_HLEN + zlen payload))) /\ take 20 (drop 14 f) = ip_header_id id env d (zlen payload).
Proof.
  intros He f. unfold f, udp_frame_id, frame_headers_id. destruct (ethernet_header_shape env d He) as (macs & Hl & ->).
  destruct macs as [|m0 [|m1 [|m2 [|m3 [|m4 [|m5 [|m6 [|m7 [|m8 [|m9 [|m10 [|m11 [|]]]]]]]]]]]]]; try done.
Qed.

Lemma udp_frame_id_accepted id env d payload :
  env_wf env -> udp_packet_to (config_for d) (udp_frame_id id env d payload).
Proof.
  intros He. destruct (udp_frame_loads id env d payload He) as (H1 & H2 & H3 & H4 & H5 & _).
  exists 5. rewrite udp_frame_id_length by done. pose proof (zlen_nonneg payload).
  split; [lia|]. split; [lia|]. split; [done|]. split; [done|]. split; [by exists 69|]. by split.
Qed.

Lemma udp_frame_id_extract id env d payload :
  env_wf env -> zlen payload <= 65507 ->
  extractUdpPayload (udp_frame_id id env d payload) = Some (Some (42, zlen payload)).
Proof.
  intros He Hp. destruct (udp_frame_loads id env d payload He) as (H1 & H2 & H3 & _ & _ & H6 & _).
  pose proof (zlen_nonneg payload). unfold extractUdpPayload.
  rewrite udp_frame_id_length by done. change (ETH_HLEN + IP_HLEN + UDP_HLEN) with 42.
  rewrite (proj2 (Z.ltb_ge _ _)), H1 by lia. cbn [mbind option_bind].
  change (negb (ntohs ETH_P_IP_be =? ETH_P_IP)) with false. cbn match.
  change (ETH_HLEN + 9) with 23. rewrite H3. cbn [mbind option_bind]. change (negb (IPPROTO_UDP =? IPPROTO_UDP)) with false. cbn match.
  change (load8 _ ETH_HLEN) with (load8 (udp_frame_id id env d payload) 14). rewrite H2. cbn [mbind option_bind].
  change (Z.land 69 15 * 4) with 20. change (20 <? 20) with false. cbn match.
  change (ETH_HLEN + 20 + UDP_HLEN) with 42. change (ETH_HLEN + 20 + 4) with 38.
  rewrite (proj2 (Z.ltb_ge _ _)), H6 by lia. cbn [mbind option_bind].
  unfold UDP_HLEN. rewrite u16_small by lia. rewrite ntohs_net16 by lia.
  destruct (Z.ltb_spec (8 + zlen payload) 8), (Z.ltb_spec (42 + zlen payload - 42 + 8) (8 + zlen payload)); try lia.
  cbn [orb]. do 3 f_equal. lia.
Qed.
Lemma udp_frame_accepted env d payload :
  env_wf env -> udp_packet_to (config_for d) (udp_frame env d payload).
Proof. apply udp_frame_id_accepted. Qed.
Lemma udp_frame_extract env d payload :
  env_wf env -> zlen payload <= 65507 ->
  extractUdpPayload (udp_frame env d payload) = Some (Some (42, zlen payload)).
Proof. apply udp_frame_id_extract. Qed.

(** ** Properties *)

(** C14: createUdpPacket writes, into a buffer that does not overlap the payload,
    a frame whose IPv4 header passes the checksum test, that carries the payload
    unchanged (reading it back with extractUdpPayload gives it), and that an XDP
    filter configured for the destination's address and port accepts; no byte
    outside the frame changes.  A payload that does not fit is refused and
    nothing is written. *)
Theorem created_frame_correct (env : net_env) (m : umem) (d : Destination) (data n buffer bufferSize : Z) :
  env_wf env -> 0 <= n <= 65507 -> (data + n <= buffer \/ buffer + (42 + n) <= data) ->
  let '(m', len) := createUdpPacket env m d data n buffer bufferSize in
  let frame := mem_read m' buffer (Z.to_nat len) in
  if decide (42 + n <= bufferSize) then
    len = 42 + n /\ (forall off k, off + Z.of_nat k <= buffer \/ buffer + len <= off -> mem_read m' off k = mem_read m off k) /\
    ip_sum (le_words (take 20 (drop 14 frame))) = 65535 /\
    extractUdpPayload frame = Some (Some (42, n)) /\ drop 42 frame = mem_read m data (Z.to_nat n) /\
    udp_packet_to (config_for d) frame
  else len = 0 /\ m' = m.
Proof.
  intros He Hn Hd. case_decide as Hb.
  - pose proof (create_udp_packet_spec env m d data n buffer bufferSize He ltac:(lia) Hb Hd) as H.
    destruct (createUdpPacket env m d data n buffer bufferSize) as [m' len]. destruct H as (-> & Hf & Ho).
    rewrite Hf. set (payload := mem_read m data (Z.to_nat n)).
    assert (zlen payload = n) as Hl by (unfold zlen, payload; rewrite mem_read_length; lia).
    destruct (udp_frame_loads 12345 env d payload He) as (_ & _ & _ & _ & _ & _ & Hip).
    change (udp_frame_id 12345 env d payload) with (udp_frame env d payload) in Hip.
    split; [done|]. split; [done|]. split; [rewrite Hip; apply ip_header_sum|].
    split; [rewrite udp_frame_extract by (done || lia); by rewrite Hl|]. split; [|by apply udp_frame_accepted].
    rewrite udp_frame_app. by rewrite <- (frame_headers_length env d (zlen payload) He), drop_app_length.
  - unfold createUdpPacket. change (ETH_HLEN + IP_HLEN + UDP_HLEN) with 42. by rewrite (proj2 (Z.ltb_lt _ _)) by lia.
Qed.
End Frame.

Lemma extract_bounds (packet : list Z) :
  exists r, extractUdpPayload packet = Some r /\
    match r with
    | Some (off, len) => 42 <= off /\ 0 <= len /\ off + len <= zlen packet
    | None => True
    end.
Proof.
  unfold extractUdpPayload. change (ETH_HLEN + IP_HLEN + UDP_HLEN) with 42. change (ETH_HLEN + 9) with 23.
  change (load8 packet ETH_HLEN) with (load8 packet 14).
  destruct (Z.ltb_spec (zlen packet) 42); [by eexists|].
  destruct (load16_some packet 12) as [h ->]; [lia..|]. cbn [mbind option_bind].
  case_match; [by eexists|]. destruct (load8_some packet 23) as [pr ->]; [lia|]. cbn [mbind option_bind].
  case_match; [by eexists|]. destruct (load8_some packet 14) as [v ->]; [lia|]. cbn [mbind option_bind].
  destruct (Z.ltb_spec (Z.land v 15 * 4) 20); [by eexists|]. unfold ETH_HLEN, UDP_HLEN.
  destruct (Z.ltb_spec (zlen packet) (14 + Z.land v 15 * 4 + 8)); [by eexists|].
  destruct (load16_some packet (14 + Z.land v 15 * 4 + 4)) as [u ->]; [lia..|]. cbn [mbind option_bind].
  destruct (Z.ltb_spec (ntohs u) 8), (Z.ltb_spec (zlen packet - (14 + Z.land v 15 * 4 + 8) + 8) (ntohs u)); cbn [orb]; try by eexists.
  eexists. split; [done|]. cbn. lia.
Qed.

(** C34: extractUdpPayload reads no byte outside the packet, whatever the packet;
    the payload it finds lies inside the packet, behind the headers. *)
Theorem extract_payload_in_bounds (packet : list Z) :
  exists r, extractUdpPayload packet = Some r /\
    match r with
    | Some (off, len) => 42 <= off /\ 0 <= len /\ off + len <= zlen packet
    | None => True
    end.
Proof. apply extract_bounds. Qed.

Lemma load16_range packet off h : bytes_wf packet -> load16 packet off = Some h -> 0 <= h < 65536.
Proof.
  intros Hb. unfold load16, load8. destruct (zget packet off) as [a|] eqn:Ea, (zget packet (off + 1)) as [b|] eqn:Eb; try done.
  intros [= <-]. unfold zget in *. repeat case_match; try done.
  eapply Forall_lookup_1 in Ea; [|done]. eapply Forall_lookup_1 in Eb; [|done]. cbn in *. lia.
Qed.

(** C35: the fast variant accepts every packet extractUdpPayload accepts, at the
    same offset; its payload runs to the end of the packet, so the two agree
    exactly when the UDP length says so (a padded frame keeps its padding).  It
    refuses fewer packets: only those whose headers are wrong, not those whose
    UDP length is. *)
Theorem extract_fast_agrees (packet : list Z) :
  bytes_wf packet ->
  exists r rf, extractUdpPayload packet = Some r /\ extractUdpPayloadFast packet = Some rf /\
    match r, rf with
    | Some (off, len), Some (off', len') =>
        off' = off /\ len <= len' /\ off + len' = zlen packet /\ (r = rf <-> off + len = zlen packet)
    | None, Some (off', len') => off' + len' = zlen packet /\
        exists u, load16 packet (off' - 4) = Some u /\ (ntohs u < 8 \/ len' + 8 < ntohs u)
    | Some _, None => False
    | None, None => True
    end.
Proof.
  intros Hb. unfold extractUdpPayload, extractUdpPayloadFast. change (ETH_HLEN + IP_HLEN + UDP_HLEN) with 42.
  change (ETH_HLEN + 9) with 23. change (14 + 9) with 23. change (load8 packet ETH_HLEN) with (load8 packet 14).
  destruct (Z.ltb_spec (zlen packet) 42); [by eexists _, _|].
  destruct (load16_some packet 12) as [h Eh]; [lia..|]. rewrite Eh. cbn [mbind option_bind].
  pose proof (load16_range packet 12 h Hb Eh) as Hh.
  assert ((ntohs h =? ETH_P_IP) = (h =? ETH_P_IP_be)) as ->.
  { unfold ntohs, ETH_P_IP, ETH_P_IP_be. destruct (Z.eqb_spec h 8) as [->|]; [done|]. apply Z.eqb_neq. zlia. }
  case_match; [by eexists _, _|]. destruct (load8_some packet 23) as [pr ->]; [lia|]. cbn [mbind option_bind].
  case_match; [by eexists _, _|]. destruct (load8_some packet 14) as [v ->]; [lia|]. cbn [mbind option_bind].
  rewrite Z.shiftl_mul_pow2 by lia. change (2 ^ 2) with 4.
  destruct (Z.ltb_spec (Z.land v 15 * 4) 20); [by eexists _, _|]. unfold ETH_HLEN, UDP_HLEN.
  destruct (Z.ltb_spec (zlen packet) (14 + Z.land v 15 * 4 + 8)); [by eexists _, _|].
  destruct (load16_some packet (14 + Z.land v 15 * 4 + 4)) as [u Eu]; [lia..|]. rewrite Eu. cbn [mbind option_bind].
  assert (load16 packet (14 + Z.land v 15 * 4 + 8 - 4) = Some u) as Eu' by (rewrite <- Eu; f_equal; lia).
  destruct (Z.ltb_spec (ntohs u) 8), (Z.ltb_spec (zlen packet - (14 + Z.land v 15 * 4 + 8) + 8) (ntohs u));
    cbn [orb]; eexists _, _; (split; [reflexivity|]; split; [reflexivity|]); cbn;
    try (split; [lia|]; exists u; split; [exact Eu'|lia]).
  split; [done|]. split; [lia|]. split; [lia|]. split; [intros [= Hq]; lia|]. intros Hq. do 2 f_equal. lia.
Qed.

(** A frame to 10.0.0.2:9001 with three bytes of payload. *)
Definition demo_net : net_env :=
  NetEnv (lit "10.0.0.1") 9000 (Some (lit "10.0.0.1")) (Some [2; 0; 0; 0; 0; 9]) (fun _ => None).
Definition demo_aton (s : cstr) : option Z :=
  if decide (s = lit "10.0.0.1") then Some 167772161 else if decide (s = lit "10.0.0.2") then Some 167772162 else None.
Definition demo_dest : Destination := Dest (lit "10.0.0.2") 9001 167772162.
Definition demo_umem : umem := mem_write (fun _ => 7) 8000 [1; 2; 3].

Lemma created_frame_correct_witness :
  let '(m', len) := createUdpPacket demo_aton demo_net demo_umem demo_dest 8000 3 0 4096 in
  len = 45 /\ drop 42 (mem_read m' 0 45) = [1; 2; 3] /\ udp_packet_to (config_for demo_dest) (mem_read m' 0 45).
Proof.
  assert (env_wf demo_net) as He by (split; [intros mac [= <-]; reflexivity|intros ip mac [=]]).
  pose proof (created_frame_correct demo_aton demo_net demo_umem demo_dest 8000 3 0 4096 He ltac:(lia) ltac:(lia)) as H.
  destruct (createUdpPacket demo_aton demo_net demo_umem demo_dest 8000 3 0 4096) as [m' len].
  rewrite decide_True in H by lia. destruct H as (-> & _ & _ & _ & Hp & Hx).
  split; [reflexivity|]. split; [exact Hp|exact Hx].
Defined.

Lemma extract_fast_agrees_witness :
  let packet := demo_frame 9000 ++ [0; 0; 0; 0] in
  exists r rf, extractUdpPayload packet = Some r /\ extractUdpPayloadFast packet = Some rf /\ r <> rf.
Proof.
  intros packet. assert (bytes_wf packet) as Hb by (unfold packet; vm_compute; repeat (constructor; [split; congruence|]); constructor).
  destruct (extract_fast_agrees packet Hb) as (r & rf & Hr & Hf & H). exists r, rf. split; [exact Hr|]. split; [exact Hf|].
  vm_compute in Hr, Hf. injection Hr as <-. injection Hf as <-.
  discriminate.
Defined.
