(* ===== verification/Batch.v ===== *)
(** The batches of client and server as they lie in memory (timestamp_client.c,
    timestamp_server.c): one buffer per message of sendmmsg, message headers that
    point to them, and the fields written into a buffer for each packet.

    The sending loops of Client.v and the TX thread of ServerRt.v speak of packets;
    here they are read from the memory that the kernel reads. *)

From S2P Require Import Prelude CText Wire Double CsvLog TxStamps MainLoop ServerQueue ServerRx ServerRt Client Frame.

(** A message with its vector: base, length, and the address it goes to. *)
Record mmsghdr := MMsgHdr { iov_base : Z; iov_len : Z; msg_name : option sockaddr_in }.
Definition message_bytes (m : umem) (h : mmsghdr) : list Z := mem_read m (iov_base h) (Z.to_nat (iov_len h)).

Definition BATCH : nat := Z.to_nat BATCH_SIZE.
(** Message [i] owns the [i]th part of the buffers. *)
Definition setup_messages (packet_buffers packet_size : Z) (name : option sockaddr_in) : list mmsghdr :=
  map (fun i => MMsgHdr (packet_buffers + Z.of_nat i * packet_size) packet_size name) (seq 0 BATCH).
(** The buffers after their allocation. *)
Definition clear_buffers (packet_buffers packet_size : Z) (m : umem) : umem :=
  mem_write m packet_buffers (replicate (Z.to_nat (BATCH_SIZE * packet_size)) 0).

(** The round-trip client's identical copies. *)
Definition roundtrip_setup_messages : Z -> Z -> option sockaddr_in -> list mmsghdr := setup_messages.
Definition roundtrip_clear_buffers : Z -> Z -> umem -> umem := clear_buffers.

Section batch.
Variable packet_buffers packet_size : Z.

Definition buffer_at (i : nat) : Z := packet_buffers + Z.of_nat i * packet_size.

(** What the loops write for packet [i]. *)
Definition fill_oneway (seq_num : Z) (m : umem) (i : nat) : umem :=
  mem_write m (buffer_at i) (htonl_bytes (u32 (seq_num + Z.of_nat i))).
Definition fill_roundtrip (rx_port seq_num : Z) (m : umem) (i : nat) : umem :=
  mem_write (mem_write m (buffer_at i) (htonl_bytes (u32 (seq_num + Z.of_nat i)))) (buffer_at i + 4) (htonl_bytes (u32 rx_port)).

(** The bodies of the sending loops over client and memory; the packets are those
    the messages point to. *)
Definition oneway_send_mem (name : option sockaddr_in) (pps : Z) (cm : client * umem)
    (input : tx_clocks * sendmmsg_result) : option (client * umem) :=
  let '(c, m) := cm in
  let '(clocks, result) := input in
  let m := fold_left (fill_oneway (ct_seq_num c)) (seq 0 (client_batch_count pps)) m in
  let messages := take (client_batch_count pps) (setup_messages packet_buffers packet_size name) in
  match result with
  | SentError => None
  | SentAgain => Some (c, m)
  | SentCount sent => Some (oneway_accepted clocks c (map (message_bytes m) messages) sent, m)
  end.
Definition roundtrip_send_mem (name : option sockaddr_in) (freq : double) (pps rx_port : Z) (cm : client * umem)
    (input : tx_clocks * sendmmsg_result) : option (client * umem) :=
  let '(c, m) := cm in
  let '(clocks, result) := input in
  let m := fold_left (fill_roundtrip rx_port (ct_seq_num c)) (seq 0 (client_batch_count pps)) m in
  let messages := take (client_batch_count pps) (setup_messages packet_buffers packet_size name) in
  match result with
  | SentError => None
  | SentAgain => Some (c, m)
  | SentCount sent =>
      let c1 := ct_with_wire c (take sent (map (message_bytes m) messages)) in
      Some (roundtrip_records freq clocks sent (roundtrip_stores clocks sent c1), m)
  end.

(** ** Lemmas *)

Context (Hsize : 0 <= packet_size).

(** A writer that stays in the buffer it is called for, and what it makes of it. *)
Definition writes (fill : umem -> nat -> umem) (g : nat -> list Z -> list Z) : Prop :=
  forall m i,
    mem_read (fill m i) (buffer_at i) (Z.to_nat packet_size) = g i (mem_read m (buffer_at i) (Z.to_nat packet_size)) /\
    forall off k, off + Z.of_nat k <= buffer_at i \/ buffer_at i + packet_size <= off -> mem_read (fill m i) off k = mem_read m off k.

Lemma buffers_apart i j : i <> j -> buffer_at i + packet_size <= buffer_at j \/ buffer_at j + packet_size <= buffer_at i.
Proof. unfold buffer_at. intros H. destruct (Nat.lt_ge_cases i j); [left|right]; nia. Qed.

Lemma fill_batch fill g n : writes fill g -> forall start m j,
  mem_read (fold_left fill (seq start n) m) (buffer_at j) (Z.to_nat packet_size) =
  (if decide (start <= j < start + n)%nat then g j else id) (mem_read m (buffer_at j) (Z.to_nat packet_size)).
Proof.
  intros Hw. induction n as [|n IH]; intros start m j; cbn [seq fold_left]; [rewrite decide_False by lia; done|].
  rewrite IH. destruct (Hw m start) as [H1 H2]. destruct (decide (j = start)) as [->|Hne].
  - rewrite decide_False, decide_True by lia. exact H1.
  - rewrite H2 by (destruct (buffers_apart start j); [done|right; lia|left; lia]).
    destruct (decide (S start <= j < S start + n)%nat); [rewrite decide_True by lia|rewrite decide_False by lia]; done.
Qed.
Lemma fill_batch_other fill g n : writes fill g -> forall start m off k,
  off + Z.of_nat k <= packet_buffers \/ packet_buffers + Z.of_nat (start + n) * packet_size <= off ->
  mem_read (fold_left fill (seq start n) m) off k = mem_read m off k.
Proof.
  intros Hw. induction n as [|n IH]; intros start m off k H; cbn [seq fold_left]; [done|]. rewrite IH.
  - destruct (Hw m start) as [_ H2]. apply H2. unfold buffer_at. nia.
  - nia.
Qed.

Lemma writes_oneway seq_num : 4 <= packet_size ->
  writes (fill_oneway seq_num) (fun i l => htonl_bytes (u32 (seq_num + Z.of_nat i)) ++ drop 4 l).
Proof.
  intros H m i. unfold fill_oneway. split.
  - rewrite mem_read_splice; [|lia|change (zlen (htonl_bytes _)) with 4; lia]. rewrite Z.sub_diag. done.
  - intros off k Ho. apply mem_read_write_other. change (zlen (htonl_bytes _)) with 4. lia.
Qed.
Lemma writes_roundtrip rx_port seq_num : 8 <= packet_size ->
  writes (fill_roundtrip rx_port seq_num) (fun i l => htonl_bytes (u32 (seq_num + Z.of_nat i)) ++ htonl_bytes (u32 rx_port) ++ drop 8 l).
Proof.
  intros H m i. unfold fill_roundtrip. split.
  - rewrite mem_read_splice; [|lia|change (zlen (htonl_bytes _)) with 4; lia].
    rewrite mem_read_splice; [|lia|change (zlen (htonl_bytes _)) with 4; lia]. rewrite Z.sub_diag.
    replace (Z.to_nat (buffer_at i + 4 - buffer_at i)) with 4%nat by lia. generalize (mem_read m (buffer_at i) (Z.to_nat packet_size)). intros l.
    assert (drop 8 l = drop 4 (drop 4 l)) as -> by (by rewrite drop_drop). reflexivity.
  - intros off k Ho. rewrite mem_read_write_other by (change (zlen (htonl_bytes _)) with 4; lia).
    apply mem_read_write_other. change (zlen (htonl_bytes _)) with 4. lia.
Qed.

(** Behind its header every buffer is zero. *)
Definition clean (header : Z) (m : umem) : Prop :=
  forall j, (j < BATCH)%nat -> drop (Z.to_nat header) (mem_read m (buffer_at j) (Z.to_nat packet_size)) = replicate (Z.to_nat (packet_size - header)) 0.

Lemma clean_oneway seq_num n m : 4 <= packet_size -> clean 4 m -> clean 4 (fold_left (fill_oneway seq_num) (seq 0 n) m).
Proof.
  intros H Hc j Hj. rewrite (fill_batch _ _ _ (writes_oneway seq_num H)). destruct (decide _); [|by apply Hc].
  rewrite <- (Hc j Hj). done.
Qed.
Lemma clean_roundtrip rx_port seq_num n m : 8 <= packet_size -> clean 8 m -> clean 8 (fold_left (fill_roundtrip rx_port seq_num) (seq 0 n) m).
Proof.
  intros H Hc j Hj. rewrite (fill_batch _ _ _ (writes_roundtrip rx_port seq_num H)). destruct (decide _); [|by apply Hc].
  rewrite <- (Hc j Hj). done.
Qed.
Lemma clean_cleared header m : 0 <= header <= packet_size -> clean header (clear_buffers packet_buffers packet_size m).
Proof.
  intros Hh j Hj. unfold clear_buffers.
  assert (mem_read (mem_write m packet_buffers (replicate (Z.to_nat (BATCH_SIZE * packet_size)) 0)) (buffer_at j) (Z.to_nat packet_size) =
    replicate (Z.to_nat packet_size) 0) as ->.
  { pose proof (mem_read_write_same m packet_buffers (replicate (Z.to_nat (BATCH_SIZE * packet_size)) 0)) as Hs. rewrite length_replicate in Hs.
    unfold buffer_at. replace (Z.of_nat j * packet_size) with (Z.of_nat (Z.to_nat (Z.of_nat j * packet_size))) by nia.
    unfold BATCH, BATCH_SIZE in *.
    assert (Z.to_nat (128 * packet_size) =
      Z.to_nat (Z.of_nat j * packet_size) + (Z.to_nat packet_size + Z.to_nat ((127 - Z.of_nat j) * packet_size)))%nat as E by nia.
    rewrite E in Hs |- *.
    rewrite !mem_read_app, !replicate_add in Hs. apply app_inj_1 in Hs as [_ Hs]; [|by rewrite mem_read_length, length_replicate].
    apply app_inj_1 in Hs as [Hs _]; [|by rewrite mem_read_length, length_replicate]. rewrite !replicate_add. exact Hs. }
  rewrite drop_replicate. f_equal. lia.
Qed.

Lemma batch_count_le pps : (client_batch_count pps <= BATCH)%nat.
Proof. unfold client_batch_count, BATCH, BATCH_SIZE. destruct (_ <=? _); lia. Qed.
Lemma setup_take name n : (n <= BATCH)%nat ->
  take n (setup_messages packet_buffers packet_size name) = map (fun i => MMsgHdr (buffer_at i) packet_size name) (seq 0 n).
Proof. intros H. unfold setup_messages. by rewrite take_map_seq. Qed.

Lemma oneway_messages name pps c m : 4 <= packet_size -> clean 4 m ->
  map (message_bytes (fold_left (fill_oneway (ct_seq_num c)) (seq 0 (client_batch_count pps)) m))
    (take (client_batch_count pps) (setup_messages packet_buffers packet_size name)) =
  map (fun i => oneway_packet packet_size (batch_seq c i)) (seq 0 (client_batch_count pps)).
Proof.
  intros H Hc. pose proof (batch_count_le pps) as Hb. rewrite setup_take, map_map by done. apply map_ext_in. intros i Hi%in_seq.
  unfold message_bytes. cbn [iov_base iov_len]. rewrite (fill_batch _ _ _ (writes_oneway (ct_seq_num c) H)).
  rewrite decide_True by lia. unfold oneway_packet, batch_seq. f_equal. apply (Hc i). lia.
Qed.
Lemma roundtrip_messages name pps rx_port c m : 8 <= packet_size -> clean 8 m ->
  map (message_bytes (fold_left (fill_roundtrip rx_port (ct_seq_num c)) (seq 0 (client_batch_count pps)) m))
    (take (client_batch_count pps) (setup_messages packet_buffers packet_size name)) =
  map (fun i => roundtrip_packet packet_size rx_port (batch_seq c i)) (seq 0 (client_batch_count pps)).
Proof.
  intros H Hc. pose proof (batch_count_le pps) as Hb. rewrite setup_take, map_map by done. apply map_ext_in. intros i Hi%in_seq.
  unfold message_bytes. cbn [iov_base iov_len]. rewrite (fill_batch _ _ _ (writes_roundtrip rx_port (ct_seq_num c) H)).
  rewrite decide_True by lia. unfold roundtrip_packet, batch_seq. do 2 f_equal. apply (Hc i). lia.
Qed.
End batch.

(** ** The sending loops *)

Section loops.
Variable packet_buffers packet_size : Z.
Variable name : option sockaddr_in.
Variable pps : Z.

(** Nothing outside the buffers has changed. *)
Definition outside_kept (m0 m : umem) : Prop :=
  forall off k, off + Z.of_nat k <= packet_buffers \/ packet_buffers + BATCH_SIZE * packet_size <= off -> mem_read m off k = mem_read m0 off k.
Lemma outside_filled fill g n m0 m : 0 <= packet_size -> writes packet_buffers packet_size fill g -> (n <= BATCH)%nat -> outside_kept m0 m ->
  outside_kept m0 (fold_left fill (seq 0 n) m).
Proof.
  intros Hs Hw Hn Ho off k H. rewrite (fill_batch_other packet_buffers packet_size Hs _ _ _ Hw); [by apply Ho|].
  unfold BATCH, BATCH_SIZE in *. nia.
Qed.

Lemma oneway_send_in_memory m0 c m input : 4 <= packet_size -> clean packet_buffers packet_size 4 m -> outside_kept m0 m ->
  match oneway_send_mem packet_buffers packet_size name pps (c, m) input with
  | Some (c', m') => oneway_send pps packet_size c input = Some c' /\ clean packet_buffers packet_size 4 m' /\ outside_kept m0 m'
  | None => oneway_send pps packet_size c input = None
  end.
Proof.
  intros H Hc Ho. destruct input as [clocks result]. cbn [oneway_send_mem oneway_send].
  rewrite (oneway_messages packet_buffers packet_size ltac:(lia) name pps c m H Hc).
  assert (clean packet_buffers packet_size 4 (fold_left (fill_oneway packet_buffers packet_size (ct_seq_num c)) (seq 0 (client_batch_count pps)) m)) by (by apply clean_oneway; [lia|..]).
  assert (outside_kept m0 (fold_left (fill_oneway packet_buffers packet_size (ct_seq_num c)) (seq 0 (client_batch_count pps)) m)).
  { eapply outside_filled; [lia|by apply writes_oneway|apply batch_count_le|done]. }
  by destruct result.
Qed.
Lemma roundtrip_send_in_memory freq rx_port m0 c m input : 8 <= packet_size -> clean packet_buffers packet_size 8 m -> outside_kept m0 m ->
  match roundtrip_send_mem packet_buffers packet_size name freq pps rx_port (c, m) input with
  | Some (c', m') => roundtrip_send freq pps packet_size rx_port c input = Some c' /\ clean packet_buffers packet_size 8 m' /\ outside_kept m0 m'
  | None => roundtrip_send freq pps packet_size rx_port c input = None
  end.
Proof.
  intros H Hc Ho. destruct input as [clocks result]. cbn [roundtrip_send_mem roundtrip_send]. unfold roundtrip_transmit.
  rewrite (roundtrip_messages packet_buffers packet_size ltac:(lia) name pps rx_port c m H Hc).
  assert (clean packet_buffers packet_size 8 (fold_left (fill_roundtrip packet_buffers packet_size rx_port (ct_seq_num c)) (seq 0 (client_batch_count pps)) m)) by (by apply clean_roundtrip; [lia|..]).
  assert (outside_kept m0 (fold_left (fill_roundtrip packet_buffers packet_size rx_port (ct_seq_num c)) (seq 0 (client_batch_count pps)) m)).
  { eapply outside_filled; [lia|by apply writes_roundtrip|apply batch_count_le|done]. }
  by destruct result.
Qed.
Lemma cleared_outside m : 0 <= packet_size -> outside_kept m (clear_buffers packet_buffers packet_size m).
Proof.
  intros H off k Ho. unfold clear_buffers. apply mem_read_write_other. unfold zlen, BATCH_SIZE in *. rewrite length_replicate. lia.
Qed.

(** C37: from freshly allocated buffers, for every packet size the command line
    accepts, the sending loops over memory do what the loops over packets do, for
    any run: what sendmmsg finds behind its message headers is the packet of its
    sequence number, never with bytes of an earlier one or of its neighbour, and the
    loops write only into their buffers. *)
Theorem sending_loops_in_memory (freq : double) (rx_port duration start max_cycles tsc : Z) (c : client) (m : umem)
    (ticks : list (loop_tick (tx_clocks * sendmmsg_result))) (Hsize : 12 <= packet_size) :
  let m1 := clear_buffers packet_buffers packet_size m in
  let oneway := client_loop (oneway_send_mem packet_buffers packet_size name pps) duration start max_cycles (LoopState 0 tsc) (c, m1) ticks in
  let roundtrip := client_loop (roundtrip_send_mem packet_buffers packet_size name freq pps rx_port) duration start max_cycles (LoopState 0 tsc) (c, m1) ticks in
  fst <$> oneway = oneway_loop pps packet_size duration start max_cycles tsc c ticks /\
  fst <$> roundtrip = roundtrip_loop freq pps packet_size rx_port duration start max_cycles tsc c ticks /\
  (forall c' m', oneway = Some (c', m') \/ roundtrip = Some (c', m') -> outside_kept m m').
Proof.
  intros m1 oneway roundtrip. unfold oneway, roundtrip, oneway_loop, roundtrip_loop, client_loop. cbv zeta.
  set (end_time := if 0 <? duration then _ else _).
  pose proof (main_loop_sim (oneway_send pps packet_size) (oneway_send_mem packet_buffers packet_size name pps) fst
    (fun cm => clean packet_buffers packet_size 4 (snd cm) /\ outside_kept m (snd cm))) as H1.
  pose proof (main_loop_sim (roundtrip_send freq pps packet_size rx_port) (roundtrip_send_mem packet_buffers packet_size name freq pps rx_port) fst
    (fun cm => clean packet_buffers packet_size 8 (snd cm) /\ outside_kept m (snd cm))) as H2.
  specialize (H1 ltac:(intros [d n] i [Hc Ho]; pose proof (oneway_send_in_memory m d n i ltac:(lia) Hc Ho) as H;
    destruct (oneway_send_mem _ _ _ _ (d, n) i) as [[d' n']|]; exact H)
    (0 <? end_time) (fun now => end_time <=? now) max_cycles ticks (LoopState 0 tsc) (c, m1)).
  specialize (H2 ltac:(intros [d n] i [Hc Ho]; pose proof (roundtrip_send_in_memory freq rx_port m d n i ltac:(lia) Hc Ho) as H;
    destruct (roundtrip_send_mem _ _ _ _ _ _ (d, n) i) as [[d' n']|]; exact H)
    (0 <? end_time) (fun now => end_time <=? now) max_cycles ticks (LoopState 0 tsc) (c, m1)).
  cbn [fst snd] in H1, H2.
  specialize (H1 ltac:(split; [apply clean_cleared; lia|apply cleared_outside; lia])).
  specialize (H2 ltac:(split; [apply clean_cleared; lia|apply cleared_outside; lia])).
  destruct (main_loop (oneway_send_mem _ _ _ _) _ _ _ _ _ _) as [[c1 n1]|]; destruct (main_loop (roundtrip_send_mem _ _ _ _ _ _) _ _ _ _ _ _) as [[c2 n2]|].
  all: cbn [fmap option_fmap option_map fst snd] in *; split; [symmetry; tauto|]; split; [symmetry; tauto|].
  all: intros c' m' [[= <- <-]|[= <- <-]]; tauto.
Qed.
End loops.

(** A batch of three, one accepted in part, and the shutdown. *)
Definition demo_ticks : list (loop_tick (tx_clocks * sendmmsg_result)) :=
  [LoopTick false 0 0 0 (demo_batch 3); LoopTick false 0 0 0 (demo_batch 2); LoopTick true 0 0 0 (demo_batch 1)].
Lemma sending_loops_in_memory_witness :
  exists c' m', client_loop (oneway_send_mem 4096 12 None 1000) 0 0 100 (LoopState 0 0) (demo_client, clear_buffers 4096 12 (fun _ => 7)) demo_ticks = Some (c', m') /\
    oneway_loop 1000 12 0 0 100 0 demo_client demo_ticks = Some c' /\ ct_seq_num c' = u32 (ct_seq_num demo_client + 5) /\ m' 4095 = 7.
Proof.
  destruct (sending_loops_in_memory 4096 12 None 1000 demo_freq 9000 0 0 100 0 demo_client (fun _ => 7) demo_ticks ltac:(lia)) as (H & _ & Ho).
  destruct (client_loop (oneway_send_mem 4096 12 None 1000) 0 0 100 (LoopState 0 0) (demo_client, clear_buffers 4096 12 (fun _ => 7)) demo_ticks) as [[c' m']|].
  - exists c', m'. split; [reflexivity|]. cbn [fmap option_fmap option_map fst] in H. split; [symmetry; exact H|]. split.
    + apply (f_equal (fmap ct_seq_num)) in H. revert H. vm_compute. intros H. injection H as ->. reflexivity.
    + specialize (Ho c' m' (or_introl eq_refl) 4095 1%nat ltac:(left; lia)). injection Ho as Ho. exact Ho.
  - exfalso. apply (f_equal (fmap ct_seq_num)) in H. revert H. vm_compute. discriminate.
Defined.

(** ** The TX thread of the server *)

Definition RETURN_PACKET_SIZE : Z := 4.
(** The messages of the thread have no address yet. *)
Definition server_setup_messages (tx_packet_buffers : Z) : list mmsghdr := setup_messages tx_packet_buffers RETURN_PACKET_SIZE None.
(** Packet [i] of a batch: its bytes, and the length and address of its message. *)
Definition prepare_return (packet_buffers : Z) (mh : umem * list mmsghdr) (x : ReturnPacketRequest * nat) : umem * list mmsghdr :=
  let '(m, msgs) := mh in
  let '(req, i) := x in
  let packet := construct_return_packet (rq_packet_data req) in
  (mem_write m (packet_buffers + Z.of_nat i * RETURN_PACKET_SIZE) packet,
   alter (fun h => MMsgHdr (iov_base h) (zlen packet) (Some (rq_return_addr req))) i msgs).
Definition prepare_batch (packet_buffers : Z) (batch : list ReturnPacketRequest) (mh : umem * list mmsghdr) : umem * list mmsghdr :=
  fold_left (prepare_return packet_buffers) (zip batch (seq 0 (length batch))) mh.

(** The messages keep their buffers. *)
Definition return_headers (packet_buffers : Z) (msgs : list mmsghdr) : Prop :=
  map iov_base msgs = map (fun i => packet_buffers + Z.of_nat i * RETURN_PACKET_SIZE) (seq 0 BATCH).
Lemma setup_return_headers packet_buffers name : return_headers packet_buffers (setup_messages packet_buffers RETURN_PACKET_SIZE name).
Proof. unfold return_headers, setup_messages. by rewrite map_map. Qed.
Lemma alter_headers packet_buffers msgs i len name : return_headers packet_buffers msgs ->
  return_headers packet_buffers (alter (fun h => MMsgHdr (iov_base h) len name) i msgs).
Proof.
  unfold return_headers. intros <-. apply list_eq. intros j. rewrite !list_lookup_fmap, list_lookup_alter.
  destruct (decide (i = j)) as [->|]; [|done]. destruct (msgs !! j); done.
Qed.
Lemma header_base packet_buffers msgs i : return_headers packet_buffers msgs -> (i < BATCH)%nat ->
  exists h, msgs !! i = Some h /\ iov_base h = packet_buffers + Z.of_nat i * RETURN_PACKET_SIZE.
Proof.
  unfold return_headers. intros H Hi. apply (f_equal (fun l => l !! i)) in H. rewrite !list_lookup_fmap, lookup_seq_lt in H by done.
  destruct (msgs !! i) as [h|]; [|done]. injection H as H. by exists h.
Qed.

Definition packet_of (mh : umem * list mmsghdr) (i : nat) : option (list Z * option sockaddr_in) :=
  (fun h => (message_bytes (fst mh) h, msg_name h)) <$> snd mh !! i.
Lemma prepare_from packet_buffers batch : forall k m msgs,
  return_headers packet_buffers msgs -> (k + length batch <= BATCH)%nat -> Forall (fun r => (4 <= length (rq_packet_data r))%nat) batch ->
  let mh := fold_left (prepare_return packet_buffers) (zip batch (seq k (length batch))) (m, msgs) in
  return_headers packet_buffers (snd mh) /\
  (forall i, (i < k)%nat -> snd mh !! i = msgs !! i) /\
  (forall i, (i < length batch)%nat -> packet_of mh (k + i) = (fun r => (fst (return_packet r), Some (snd (return_packet r)))) <$> batch !! i) /\
  (forall off n, off + Z.of_nat n <= packet_buffers + Z.of_nat k * 4 \/ packet_buffers + Z.of_nat (k + length batch) * 4 <= off ->
     mem_read (fst mh) off n = mem_read m off n).
Proof.
  induction batch as [|req batch IH]; intros k m msgs Hh Hk Hd mh.
  { unfold mh. cbn. split; [done|]. split; [auto|]. split; [intros i Hi; lia|done]. }
  apply Forall_cons in Hd as [Hd Hds]. cbn [length] in Hk. unfold mh. clear mh. cbn [length seq zip zip_with fold_left].
  set (packet := construct_return_packet (rq_packet_data req)).
  assert (length packet = 4%nat) as Hp by (unfold packet, construct_return_packet; rewrite length_take; lia).
  set (m1 := mem_write m (packet_buffers + Z.of_nat k * RETURN_PACKET_SIZE) packet).
  set (msgs1 := alter (fun h => MMsgHdr (iov_base h) (zlen packet) (Some (rq_return_addr req))) k msgs).
  assert (return_headers packet_buffers msgs1) as Hh1 by (by apply alter_headers).
  destruct (IH (S k) m1 msgs1 Hh1 ltac:(lia) Hds) as (I1 & I2 & I3 & I4).
  change (prepare_return packet_buffers (m, msgs) (req, k)) with (m1, msgs1).
  set (mh := fold_left _ _ (m1, msgs1)) in *. split; [exact I1|]. split; [|split].
  - intros i Hi. rewrite I2 by lia. by apply list_lookup_alter_ne; lia.
  - intros [|i] Hi; [|replace (k + S i)%nat with (S k + i)%nat by lia; rewrite I3 by (cbn in Hi; lia); done].
    rewrite Nat.add_0_r. unfold packet_of. rewrite I2 by lia. unfold msgs1. rewrite list_lookup_alter_eq.
    destruct (header_base packet_buffers msgs k Hh ltac:(lia)) as (h & -> & Hb). cbn. unfold message_bytes. cbn [iov_base iov_len].
    rewrite Hb. replace (Z.to_nat (zlen packet)) with (length packet) by (unfold zlen; lia).
    rewrite I4 by (unfold RETURN_PACKET_SIZE; lia). unfold m1. by rewrite mem_read_write_same.
  - intros off n Ho. rewrite I4 by lia. unfold m1. apply mem_read_write_other. unfold zlen, RETURN_PACKET_SIZE. lia.
Qed.

(** A batch of requests, each with at least four bytes of its datagram, gives
    exactly its return packets and addresses to sendmmsg, whatever was in the
    buffers, and stays inside them. *)
Theorem return_batch_in_memory packet_buffers batch m msgs :
  return_headers packet_buffers msgs -> (length batch <= BATCH)%nat -> Forall (fun r => (4 <= length (rq_packet_data r))%nat) batch ->
  let '(m', msgs') := prepare_batch packet_buffers batch (m, msgs) in
  map (fun h => (message_bytes m' h, msg_name h)) (take (length batch) msgs') =
    map (fun r => (fst (return_packet r), Some (snd (return_packet r)))) batch /\
  return_headers packet_buffers msgs' /\
  (forall off n, off + Z.of_nat n <= packet_buffers \/ packet_buffers + BATCH_SIZE * RETURN_PACKET_SIZE <= off -> mem_read m' off n = mem_read m off n).
Proof.
  intros Hh Hl Hd. unfold prepare_batch. pose proof (prepare_from packet_buffers batch 0 m msgs Hh Hl Hd) as H.
  destruct (fold_left _ _ _) as [m' msgs']. destruct H as (H1 & _ & H3 & H4). cbn [fst snd] in *. split; [|split; [done|]].
  - apply list_eq. intros i. rewrite !list_lookup_fmap. destruct (decide (i < length batch)%nat) as [Hi|Hi].
    + rewrite lookup_take_lt by done. apply H3. done.
    + rewrite lookup_take_ge, lookup_ge_None_2 by lia. done.
  - intros off n Ho. apply H4. unfold BATCH, BATCH_SIZE, RETURN_PACKET_SIZE in *. lia.
Qed.
