(* ===== verification/Arp.v ===== *)
(** Hardware addresses from the kernel's ARP table: getDestinationMac of
    PacketReplicator.cpp on the lines of /proc/net/arp. *)

From S2P Require Import Prelude CText Frame.

(** The words operator>> reads from a line. *)
Fixpoint words_go (cur : cstr) (s : cstr) : list cstr :=
  match s with
  | [] => match cur with [] => [] | _ => [cur] end
  | c :: s =>
      if isspace c then match cur with [] => words_go [] s | _ => cur :: words_go [] s end
      else words_go (cur ++ [c]) s
  end.
Definition words (line : cstr) : list cstr := words_go [] line.

Definition hex_val (c : ascii) : option Z :=
  if isdigit c then Some (digit_val c)
  else if (97 <=? code c) && (code c <=? 102) then Some (code c - 87)
  else if (65 <=? code c) && (code c <=? 70) then Some (code c - 55)
  else None.
Fixpoint hex_acc (acc : Z) (s : cstr) : Z * cstr :=
  match s with
  | c :: s' => match hex_val c with Some d => hex_acc (acc * 16 + d) s' | None => (acc, s) end
  | [] => (acc, [])
  end.
Definition skip_0x (s : cstr) : cstr :=
  match s with
  | z :: x :: s' => if bool_decide (z = "0"%char) && bool_decide (x ∈ ["x"; "X"]%char) then s' else s
  | _ => s
  end.
(** sscanf's %x: the value stored and the rest, None when nothing matches. *)
Definition scan_x (s : cstr) : option (Z * cstr) :=
  let '(neg, s) := take_sign (skip_spaces s) in
  match skip_0x s with
  | (c :: _) as digits =>
      match hex_val c with
      | None => None
      | Some _ =>
          let '(v, rest) := hex_acc 0 digits in
          Some (u32 (if ULONG_MAX <? v then ULONG_MAX else if (neg : bool) then u64 (- v) else v), rest)
      end
  | [] => None
  end.
Definition COLON : ascii := ":"%char.
(** %x:%x:... for [n] values. *)
Fixpoint scan_mac (n : nat) (s : cstr) : option (list Z) :=
  match n with
  | O => Some []
  | S n =>
      '(v, rest) ← scan_x s;
      match n, rest with
      | O, _ => Some [v]
      | S _, c :: rest => if decide (c = COLON) then vs ← scan_mac n rest; Some (v :: vs) else None
      | S _, [] => None
      end
  end.

Definition NO_MAC : cstr := lit "00:00:00:00:00:00".
(** One line of the table: the address when it is [ip_address]'s and complete. *)
Definition arp_line (ip_address : cstr) (line : cstr) : option (list Z) :=
  match words line with
  | ip :: hw_type :: flags :: mac :: mask :: device :: _ =>
      if bool_decide (ip = ip_address) && bool_decide (mac <> NO_MAC) then map u8 <$> scan_mac 6 mac else None
  | _ => None
  end.
Fixpoint find_mac (ip_address : cstr) (lines : list cstr) : option (list Z) :=
  match lines with
  | [] => None
  | line :: lines =>
      match arp_line ip_address line with
      | Some mac => Some mac
      | None => find_mac ip_address lines
      end
  end.
(** [arp_file] is the lines of the table, None when it cannot be opened; the
    header line is skipped. *)
Definition getDestinationMac (arp_file : option (list cstr)) (ip_address : cstr) : option (list Z) :=
  lines ← arp_file; find_mac ip_address (tail lines).

Lemma scan_mac_length n s vs : scan_mac n s = Some vs -> length vs = n.
Proof.
  revert s vs. induction n as [|n IH]; intros s vs; cbn [scan_mac]; [by intros [= <-]|].
  destruct (scan_x s) as [[v rest]|]; [|done]. cbn [mbind option_bind]. destruct n as [|n]; [by intros [= <-]|].
  destruct rest as [|c rest]; [done|]. case_decide; [|done]. destruct (scan_mac (S n) rest) as [ws|] eqn:E; [|done].
  cbn [mbind option_bind]. intros [= <-]. simpl. by rewrite (IH _ _ E).
Qed.

(** An address found has six bytes: the table is a well-formed [ne_arp]. *)
Lemma arp_table_wf arp_file ip mac : getDestinationMac arp_file ip = Some mac -> length mac = 6%nat /\ Forall (fun b => 0 <= b < 256) mac.
Proof.
  unfold getDestinationMac. destruct arp_file as [lines|]; [|done]. cbn [mbind option_bind].
  induction (tail lines) as [|line l IH]; cbn [find_mac]; [done|]. destruct (arp_line ip line) as [m|] eqn:E; [|exact IH].
  intros [= ->]. unfold arp_line in E.
  destruct (words line) as [|w0 [|w1 [|w2 [|w3 [|w4 [|w5 ws]]]]]]; try done. destruct (_ && _); [|done].
  destruct (scan_mac 6 w3) as [vs|] eqn:Es; [|done]. injection E as <-. split; [rewrite length_map; by eapply scan_mac_length|].
  apply Forall_forall. intros b (v & -> & _)%list_elem_of_fmap. apply u8_range.
Qed.

(** The environment of a replicator with the kernel's table. *)
Definition net_env_of (listen_ip : cstr) (listen_port : Z) (interface_ip : option cstr) (interface_mac : option (list Z))
    (arp_file : option (list cstr)) : net_env :=
  NetEnv listen_ip listen_port interface_ip interface_mac (getDestinationMac arp_file).
Lemma net_env_of_wf listen_ip listen_port interface_ip interface_mac arp_file :
  (forall mac, interface_mac = Some mac -> length mac = 6%nat) ->
  env_wf (net_env_of listen_ip listen_port interface_ip interface_mac arp_file).
Proof. intros H. split; [exact H|]. intros ip mac Hm. by apply arp_table_wf in Hm as [? _]. Qed.

Example arp_lookup :
  let table := [lit "IP address  HW type  Flags  HW address  Mask  Device";
                lit "10.0.0.1  0x1  0x2  0a:1b:2c:3d:4e:ff  *  eth0"; lit "10.0.0.2  0x1  0x0  00:00:00:00:00:00  *  eth0"] in
  getDestinationMac (Some table) (lit "10.0.0.1") = Some [10; 27; 44; 61; 78; 255] /\
  getDestinationMac (Some table) (lit "10.0.0.2") = None /\ getDestinationMac (Some table) (lit "10.0.0.3") = None.
Proof. vm_compute. done. Qed.
