(* ===== verification/NetIf.v ===== *)
(** What the replicator asks the system about addresses (getInterfaceIp,
    getInterfaceMac and triggerArpResolution of PacketReplicator.cpp), and the
    affinity of its threads: each opens a socket, asks, and closes it. *)

From S2P Require Import Prelude CText Wire Heap Process Frame Arp.

Definition IFNAMSIZ : nat := 16.
(** strncpy into a cleared ifr_name. *)
Definition ifr_name (interface : cstr) : cstr := take (IFNAMSIZ - 1) interface.

Section interface.
  Context (an : sys_answers).
  (** The ioctls SIOCGIFADDR and SIOCGIFHWADDR by interface name, or failure. *)
  Variable ifaddr : cstr -> option Z.
  Variable ifhwaddr : cstr -> option (list Z).

Definition getInterfaceIp (interface : cstr) : prog (option cstr) :=
  sock ← socket an;
  match sock with
  | None => mret None
  | Some sock =>
      match ifaddr (ifr_name interface) with
      | None => close sock;; mret None
      | Some addr => close sock;; mret (Some (inet_ntop addr))
      end
  end.
(** Six bytes of sa_data. *)
Definition getInterfaceMac (interface : cstr) : prog (option (list Z)) :=
  sock ← socket an;
  match sock with
  | None => mret None
  | Some sock =>
      match ifhwaddr (ifr_name interface) with
      | None => close sock;; mret None
      | Some sa_data => close sock;; mret (Some (take 6 sa_data))
      end
  end.

Variable inet_aton : cstr -> option Z.
Definition ARP_TRIGGER_PORT : Z := 12346.
(** The datagram sent, with its address and port, and what the ARP table says after
    the wait; a send that fails is only reported. *)
Definition triggerArpResolution (arp_file : option (list cstr)) (ip_address : cstr) :
    prog (option (Z * Z * cstr) * option (list Z)) :=
  temp_socket ← socket an;
  match temp_socket with
  | None => mret (None, None)
  | Some temp_socket =>
      match inet_aton ip_address with
      | None => close temp_socket;; mret (None, None)
      | Some addr =>
          sent ← call an;
          let mac := if (sent : bool) then getDestinationMac arp_file ip_address else None in
          close temp_socket;;
          mret (if sent then Some (addr, ARP_TRIGGER_PORT, lit "ARP") else None, mac)
      end
  end.

Definition setCpuAffinity (enable_cpu_affinity : bool) : prog bool :=
  if negb enable_cpu_affinity then mret true else call an.

(** The environment of a frame, as createUdpPacket gathers it. *)
Definition gather_env (listen_ip listen_interface : cstr) (listen_port : Z) (arp_file : option (list cstr)) : prog net_env :=
  mac ← getInterfaceMac listen_interface;
  ip ← getInterfaceIp listen_interface;
  mret (net_env_of listen_ip listen_port ip mac arp_file).

(** ** Proofs *)

Context (E : Z -> proc -> Prop).

Lemma wp_getInterfaceIp interface Q l ts fs p : owns l ts fs p -> uses ts ⊆ l ->
  (forall p', owns l ts fs p' -> Q (inet_ntop <$> ifaddr (ifr_name interface)) p') ->
  (~ all_good an -> forall p', owns l ts fs p' -> Q None p') ->
  wp (getInterfaceIp interface) Q E p.
Proof.
  intros Ho Hu H1 H2. unfold getInterfaceIp. do 2 run_step; [|run_step; auto].
  destruct (ifaddr (ifr_name interface)) as [addr|]; repeat run_step; by apply H1.
Qed.
Lemma wp_getInterfaceMac interface Q l ts fs p : owns l ts fs p -> uses ts ⊆ l ->
  (forall p', owns l ts fs p' -> Q (take 6 <$> ifhwaddr (ifr_name interface)) p') ->
  (~ all_good an -> forall p', owns l ts fs p' -> Q None p') ->
  wp (getInterfaceMac interface) Q E p.
Proof.
  intros Ho Hu H1 H2. unfold getInterfaceMac. do 2 run_step; [|run_step; auto].
  destruct (ifhwaddr (ifr_name interface)) as [addr|]; repeat run_step; by apply H1.
Qed.

(** Whatever fails, no socket stays open, nothing is asked of another interface,
    and the environment that frames are written with is well formed. *)
Lemma wp_gather_env listen_ip listen_interface listen_port arp_file Q l ts fs p :
  (forall name sa_data, ifhwaddr name = Some sa_data -> (6 <= length sa_data)%nat) ->
  owns l ts fs p -> uses ts ⊆ l ->
  (forall env p', owns l ts fs p' -> env_wf env -> ne_listen_port env = listen_port ->
     (all_good an -> ne_interface_ip env = inet_ntop <$> ifaddr (ifr_name listen_interface)) -> Q env p') ->
  wp (gather_env listen_ip listen_interface listen_port arp_file) Q E p.
Proof.
  intros Hmac Ho Hu HQ. unfold gather_env.
  assert (forall mac ip, (mac = None \/ mac = take 6 <$> ifhwaddr (ifr_name listen_interface)) ->
    env_wf (net_env_of listen_ip listen_port ip mac arp_file)) as Hwf.
  { intros mac ip Hm. apply net_env_of_wf. intros m ->. destruct Hm as [|Hm]; [done|].
    destruct (ifhwaddr _) as [sa|] eqn:Es; [|done]. injection Hm as ->. rewrite length_take. specialize (Hmac _ _ Es). lia. }
  run_step. eapply wp_getInterfaceMac; [exact Ho|done|..]; [intros p1 H1|intros Hg p1 H1]; run_step;
    (eapply wp_getInterfaceIp; [exact H1|done|..]; [intros p2 H2|intros Hg2 p2 H2]); run_step; apply HQ; try done;
    apply Hwf; auto.
Qed.

(** The socket of the ARP trigger is closed on every path; at most one datagram is
    sent, and none to an address that is none. *)
Lemma wp_triggerArpResolution arp_file ip Q l ts fs p : owns l ts fs p -> uses ts ⊆ l ->
  (forall packet mac p', owns l ts fs p' -> (forall x, packet = Some x -> exists a, inet_aton ip = Some a /\ x = (a, ARP_TRIGGER_PORT, lit "ARP")) ->
     (forall m, mac = Some m -> length m = 6%nat) -> Q (packet, mac) p') ->
  wp (triggerArpResolution arp_file ip) Q E p.
Proof.
  intros Ho Hu HQ. unfold triggerArpResolution. do 2 run_step; [|run_step; by apply HQ].
  destruct (inet_aton ip) as [a|] eqn:Ea; [|repeat run_step; by apply HQ].
  do 2 run_step; repeat run_step; apply HQ; try done.
  - intros x [= <-]. by exists a.
  - intros m Hm. by apply arp_table_wf in Hm as [? _].
Qed.
End interface.
