(* ===== verification/Xsk.v ===== *)
(** The AF_XDP socket (AFXDPSocket.cpp): the frames of the packet memory, the
    four rings shared with the kernel, and the counters of transmission.

    The rings are libxdp's.  A producer ring (fill, TX) is its slots by index and
    three indices: reserved by the program, submitted, taken by the kernel; a
    consumer ring (RX, completion) is what the kernel put into it.  How many
    slots a reservation or a peek grants is a parameter; the documented bounds
    are hypotheses of the proofs.  Indices are not reduced modulo the ring size
    and 2^32.  None is the exception of a closed socket or of a bad argument. *)

From stdpp Require Import sorting.
From S2P Require Import Prelude.

Definition TX_BATCH_SIZE : Z := 64.
Definition TX_FRAMES : Z := 2048.
Definition RX_FRAMES : Z := 2048.
Definition UMEM_RX_FIRST_FRAME_IX : Z := TX_FRAMES.

(** ** Producer rings *)

Record prod_ring (A : Type) := ProdRing {
  pr_size : Z; pr_taken : Z; pr_submitted : Z; pr_reserved : Z; pr_slot : Z -> A }.
Arguments ProdRing {A}.
Arguments pr_size {A}.
Arguments pr_taken {A}.
Arguments pr_submitted {A}.
Arguments pr_reserved {A}.
Arguments pr_slot {A}.

Definition ring_free {A} (r : prod_ring A) : Z := pr_size r - (pr_reserved r - pr_taken r).
Definition ring_add_reserved {A} (r : prod_ring A) (n : Z) : prod_ring A :=
  ProdRing (pr_size r) (pr_taken r) (pr_submitted r) (pr_reserved r + n) (pr_slot r).
Definition set_slot {A} (r : prod_ring A) (idx : Z) (v : A) : prod_ring A :=
  ProdRing (pr_size r) (pr_taken r) (pr_submitted r) (pr_reserved r) (fun i => if i =? idx then v else pr_slot r i).
Definition ring_submit {A} (r : prod_ring A) (n : Z) : prod_ring A :=
  ProdRing (pr_size r) (pr_taken r) (pr_submitted r + n) (pr_reserved r) (pr_slot r).
Definition ring_take {A} (r : prod_ring A) : prod_ring A :=
  ProdRing (pr_size r) (pr_taken r + 1) (pr_submitted r) (pr_reserved r) (pr_slot r).
(** The entries between two indices. *)
Definition slots_from {A} (r : prod_ring A) (from : Z) (n : nat) : list A := map (fun i => pr_slot r (from + Z.of_nat i)) (seq 0 n).
(** The entries the kernel has not taken. *)
Definition ring_queued {A} (r : prod_ring A) : list A := slots_from r (pr_taken r) (Z.to_nat (pr_submitted r - pr_taken r)).
Definition fill_slots {A} (r : prod_ring A) (idx : Z) (vs : list A) : prod_ring A :=
  fold_left (fun r '(i, v) => set_slot r (idx + Z.of_nat i) v) (zip (seq 0 (length vs)) vs) r.

(** ** The socket *)

(** A descriptor of the RX or TX ring. *)
Notation xdp_desc := (Z * Z)%type.

Record xsk := Xsk {
  xk_closed : bool;
  xk_chunk_size : Z;
  xk_prev_tx_frame : Z;          (* prev_umem_tx_frame_ *)
  xk_cached_completions : Z;
  xk_outstanding_tx : Z;
  xk_pending : list Z;           (* pending_recycle_addrs_ *)
  xk_fq : prod_ring Z;
  xk_tx : prod_ring xdp_desc;
  xk_rx : list xdp_desc;
  xk_cq : Z }.                   (* completions the program has not peeked at *)

Section Xsk.
(** xsk_ring_prod__reserve with the free slots, and xsk_ring_cons__peek with the
    entries available: how many entries are granted. *)
Variable reserve : Z -> Z -> Z.
Variable peek : Z -> Z -> Z.
(** xsk_umem__extract_addr *)
Variable extract_addr : Z -> Z.

Definition with_fq (s : xsk) (fq : prod_ring Z) : xsk :=
  Xsk (xk_closed s) (xk_chunk_size s) (xk_prev_tx_frame s) (xk_cached_completions s) (xk_outstanding_tx s) (xk_pending s)
    fq (xk_tx s) (xk_rx s) (xk_cq s).
Definition with_tx (s : xsk) (tx : prod_ring xdp_desc) : xsk :=
  Xsk (xk_closed s) (xk_chunk_size s) (xk_prev_tx_frame s) (xk_cached_completions s) (xk_outstanding_tx s) (xk_pending s)
    (xk_fq s) tx (xk_rx s) (xk_cq s).
Definition with_counters (s : xsk) (cached outstanding cq : Z) : xsk :=
  Xsk (xk_closed s) (xk_chunk_size s) (xk_prev_tx_frame s) cached outstanding (xk_pending s)
    (xk_fq s) (xk_tx s) (xk_rx s) cq.
Definition with_rx (s : xsk) (pending : list Z) (rx : list xdp_desc) : xsk :=
  Xsk (xk_closed s) (xk_chunk_size s) (xk_prev_tx_frame s) (xk_cached_completions s) (xk_outstanding_tx s) pending
    (xk_fq s) (xk_tx s) rx (xk_cq s).

(** The constructor and setupUMem: frameSize must be a power of two; too few
    frames are raised to the frames of both halves. *)
Definition new_socket (frameSize frameCount : Z) : option (xsk * Z) :=
  if negb (Z.land frameSize (frameSize - 1) =? 0) then None
  else
    let frameCount := if frameCount <? TX_FRAMES + RX_FRAMES then TX_FRAMES + RX_FRAMES else frameCount in
    Some (Xsk false frameSize 0 0 0 [] (ProdRing (RX_FRAMES * 2) 0 0 0 (fun _ => 0))
            (ProdRing TX_FRAMES 0 0 0 (fun _ => (0, 0))) [] 0, frameSize * frameCount).

(** bind, from the moment the socket exists: the RX frames go to the fill ring. *)
Definition bind_fill (s : xsk) : option xsk :=
  if xk_closed s then None
  else
    let fq := xk_fq s in
    let reserved := reserve (ring_free fq) RX_FRAMES in
    let idx := pr_reserved fq in
    let fq := ring_add_reserved fq reserved in
    let addrs := map (fun i => u32 ((UMEM_RX_FIRST_FRAME_IX + Z.of_nat i) * xk_chunk_size s)) (seq 0 (Z.to_nat reserved)) in
    Some (with_fq s (ring_submit (fill_slots fq idx addrs) reserved)).

Definition getNextTxFrame (s : xsk) : Z * xsk :=
  (xk_prev_tx_frame s mod TX_FRAMES,
   Xsk (xk_closed s) (xk_chunk_size s) (u32 (xk_prev_tx_frame s + 1)) (xk_cached_completions s) (xk_outstanding_tx s)
     (xk_pending s) (xk_fq s) (xk_tx s) (xk_rx s) (xk_cq s)).

Definition pollTxCompletions (s : xsk) : option xsk :=
  if xk_closed s then None
  else if xk_outstanding_tx s =? 0 then Some s
  else
    let new_completions := peek (xk_cq s) TX_FRAMES in
    if new_completions =? 0 then Some s
    else
      let cq := xk_cq s - new_completions in
      let cached := u32 (xk_cached_completions s + new_completions) in
      if cached <? TX_BATCH_SIZE then Some (with_counters s cached (xk_outstanding_tx s) cq)
      else Some (with_counters s 0 (u32 (xk_outstanding_tx s - cached)) cq).

(** requestDriverPoll wakes the driver up; it changes nothing here. *)
Definition requestDriverPoll (s : xsk) : option xsk := if xk_closed s then None else Some s.

(** The count granted and the index of the first slot. *)
Definition reserveTxRing (s : xsk) (count : Z) : option (Z * Z * xsk) :=
  if xk_closed s then None
  else let ret := reserve (ring_free (xk_tx s)) count in
       Some (ret, pr_reserved (xk_tx s), with_tx s (ring_add_reserved (xk_tx s) ret)).
Definition setTxDescriptor (s : xsk) (idx addr len : Z) : option xsk :=
  if xk_closed s then None else Some (with_tx s (set_slot (xk_tx s) idx (addr, len))).
Definition submitTxRing (s : xsk) (count : Z) : option xsk :=
  if xk_closed s then None
  else Some (with_counters (with_tx s (ring_submit (xk_tx s) count)) (xk_cached_completions s)
               (u32 (xk_outstanding_tx s + count)) (xk_cq s)).

Definition sendBatch (s : xsk) (offsets lengths : list Z) (batchSize : Z) : option (Z * xsk) :=
  if xk_closed s then None
  else if (zlen offsets <? batchSize) || (zlen lengths <? batchSize) then None
  else
    s ← pollTxCompletions s;
    if TX_FRAMES - TX_BATCH_SIZE <? xk_outstanding_tx s then Some (0, s)
    else
      let batchSize := Z.min batchSize TX_BATCH_SIZE in
      if batchSize <=? 0 then Some (0, s)
      else
        let ret := reserve (ring_free (xk_tx s)) batchSize in
        let tx_idx := pr_reserved (xk_tx s) in
        let s := with_tx s (ring_add_reserved (xk_tx s) ret) in
        if ret =? 0 then s ← requestDriverPoll s; Some (0, s)
        else
          let descs := take (Z.to_nat ret) (zip offsets lengths) in
          let s := with_tx s (ring_submit (fill_slots (xk_tx s) tx_idx descs) ret) in
          let s := with_counters s (xk_cached_completions s) (u32 (xk_outstanding_tx s + ret)) (xk_cq s) in
          s ← requestDriverPoll s; Some (ret, s).

Definition send (s : xsk) (offset length : Z) : option (Z * xsk) := sendBatch s [offset] [length] 1.
Definition sendBatchToSubscribers : xsk -> list Z -> list Z -> Z -> option (Z * xsk) := sendBatch.

(** receive with vectors of [max_entries] elements: offset and length of each packet. *)
Definition receive (s : xsk) (max_entries : Z) : option (list xdp_desc * xsk) :=
  if xk_closed s then None
  else
    let received := peek (zlen (xk_rx s)) max_entries in
    if received =? 0 then Some ([], s)
    else
      let descs := take (Z.to_nat received) (xk_rx s) in
      Some (map (fun '(addr, len) => (s32 (extract_addr addr), s32 len)) descs,
            with_rx s (map fst descs) (drop (Z.to_nat received) (xk_rx s))).

Definition recycleFrames (s : xsk) : option xsk :=
  if xk_closed s then None
  else match xk_pending s with
  | [] => Some s
  | pending =>
      let fq := xk_fq s in
      let free_capacity := reserve (ring_free fq) (zlen pending) in
      let idx_fq := pr_reserved fq in
      let fq := ring_add_reserved fq free_capacity in
      let fq := ring_submit (fill_slots fq idx_fq (map extract_addr (take (Z.to_nat free_capacity) pending))) free_capacity in
      Some (with_rx (with_fq s fq) [] (xk_rx s))
  end.

Definition close_socket (s : xsk) : xsk :=
  Xsk true (xk_chunk_size s) (xk_prev_tx_frame s) (xk_cached_completions s) (xk_outstanding_tx s) (xk_pending s)
    (xk_fq s) (xk_tx s) (xk_rx s) (xk_cq s).

(** ** Rings: proofs *)

Definition ring_ok {A} (r : prod_ring A) : Prop :=
  pr_taken r <= pr_submitted r /\ pr_submitted r = pr_reserved r /\ 0 <= pr_size r.

Lemma fill_slots_fields {A} (r : prod_ring A) idx vs :
  pr_size (fill_slots r idx vs) = pr_size r /\ pr_taken (fill_slots r idx vs) = pr_taken r /\
  pr_submitted (fill_slots r idx vs) = pr_submitted r /\ pr_reserved (fill_slots r idx vs) = pr_reserved r.
Proof.
  unfold fill_slots. generalize (zip (seq 0 (length vs)) vs) as l. intros l. revert r.
  induction l as [|[i v] l IH]; intros r; simpl; [done|]. destruct (IH (set_slot r (idx + Z.of_nat i) v)) as (-> & -> & -> & ->). done.
Qed.

Lemma fill_slots_slot {A} (r : prod_ring A) idx vs i :
  pr_slot (fill_slots r idx vs) i =
  if i <? idx then pr_slot r i else default (pr_slot r i) (zget vs (i - idx)).
Proof.
  unfold fill_slots.
  assert (forall k (r : prod_ring A), pr_slot (fold_left (fun r '(j, v) => set_slot r (idx + Z.of_nat j) v) (zip (seq k (length vs)) vs) r) i =
    if i <? idx + Z.of_nat k then pr_slot r i else default (pr_slot r i) (zget vs (i - idx - Z.of_nat k))) as H.
  { induction vs as [|v vs IH]; intros k r0; simpl.
    - unfold zget. repeat case_match; done.
    - rewrite IH. simpl. destruct (Z.ltb_spec i (idx + Z.of_nat k)), (Z.ltb_spec i (idx + Z.of_nat (S k))); try lia.
      + by rewrite (proj2 (Z.eqb_neq _ _)) by lia.
      + rewrite (proj2 (Z.eqb_eq _ _)) by lia. replace (i - idx - Z.of_nat k) with 0 by lia. done.
      + rewrite (proj2 (Z.eqb_neq _ _)) by lia. f_equal. unfold zget.
        rewrite !(proj2 (Z.ltb_ge _ _)) by lia. replace (Z.to_nat (i - idx - Z.of_nat k)) with (S (Z.to_nat (i - idx - Z.of_nat (S k)))) by lia.
        done. }
  rewrite H. by rewrite Z.add_0_r, Z.sub_0_r.
Qed.

Lemma slots_from_app {A} (r : prod_ring A) from n k :
  slots_from r from (n + k) = slots_from r from n ++ slots_from r (from + Z.of_nat n) k.
Proof.
  unfold slots_from. rewrite seq_app, map_app. f_equal.
  pose proof (fmap_add_seq n 0 k) as Hs. rewrite Nat.add_0_r in Hs. cbn [Nat.add]. rewrite <- Hs.
  change (Nat.add n <$> seq 0 k) with (map (Nat.add n) (seq 0 k)). rewrite map_map.
  apply map_ext. intros i. f_equal. lia.
Qed.

Lemma slots_from_ext {A} (r r' : prod_ring A) from n :
  (forall i, from <= i < from + Z.of_nat n -> pr_slot r' i = pr_slot r i) -> slots_from r' from n = slots_from r from n.
Proof. intros H. unfold slots_from. apply map_ext_in. intros i Hi%in_seq. apply H. lia. Qed.

Lemma slots_from_fill {A} (r : prod_ring A) idx vs : slots_from (fill_slots r idx vs) idx (length vs) = vs.
Proof.
  apply list_eq. intros i. unfold slots_from. rewrite list_lookup_fmap.
  destruct (decide (i < length vs)%nat) as [Hi|Hi].
  - rewrite lookup_seq_lt by done. cbn. rewrite fill_slots_slot. rewrite (proj2 (Z.ltb_ge _ _)) by lia.
    unfold zget. rewrite (proj2 (Z.ltb_ge _ _)) by lia. replace (Z.to_nat (idx + Z.of_nat i - idx)) with i by lia.
    by destruct (lookup_lt_is_Some_2 vs i Hi) as [v ->].
  - rewrite lookup_seq_ge by lia. symmetry. apply lookup_ge_None. lia.
Qed.

(** Reserving, filling and submitting appends the entries to the queue. *)
Lemma ring_push_spec {A} (r : prod_ring A) vs :
  ring_ok r -> let r' := ring_submit (fill_slots (ring_add_reserved r (zlen vs)) (pr_reserved r) vs) (zlen vs) in
  ring_ok r' /\ ring_queued r' = ring_queued r ++ vs /\ pr_size r' = pr_size r /\ pr_taken r' = pr_taken r /\
  pr_submitted r' = pr_submitted r + zlen vs /\
  (forall i, i < pr_reserved r -> pr_slot r' i = pr_slot r i).
Proof.
  intros (H1 & H2 & H3) r'. pose proof (zlen_nonneg vs).
  destruct (fill_slots_fields (ring_add_reserved r (zlen vs)) (pr_reserved r) vs) as (F1 & F2 & F3 & F4).
  assert (pr_size r' = pr_size r /\ pr_taken r' = pr_taken r /\ pr_submitted r' = pr_submitted r + zlen vs /\
          pr_reserved r' = pr_reserved r + zlen vs) as (E1 & E2 & E3 & E4).
  { unfold r', ring_submit. cbn [pr_size pr_taken pr_submitted pr_reserved]. rewrite F1, F2, F3, F4. done. }
  assert (forall i, i < pr_reserved r -> pr_slot r' i = pr_slot r i) as Hs.
  { intros i Hi. unfold r', ring_submit. cbn [pr_slot]. rewrite fill_slots_slot.
    by rewrite (proj2 (Z.ltb_lt _ _)) by lia. }
  split; [unfold ring_ok; rewrite E1, E2, E3, E4; lia|]. split_and!; try done.
  unfold ring_queued. rewrite E2, E3.
  replace (Z.to_nat (pr_submitted r + zlen vs - pr_taken r)) with (Z.to_nat (pr_submitted r - pr_taken r) + length vs)%nat
    by (unfold zlen; lia).
  rewrite slots_from_app. f_equal.
  - apply slots_from_ext. intros i Hi. apply Hs. lia.
  - replace (pr_taken r + Z.of_nat (Z.to_nat (pr_submitted r - pr_taken r))) with (pr_reserved r) by lia.
    apply (slots_from_fill (ring_add_reserved r (zlen vs))).
Qed.

Lemma ring_take_spec {A} (r : prod_ring A) :
  ring_ok r -> pr_taken r < pr_submitted r ->
  ring_ok (ring_take r) /\ ring_queued r = pr_slot r (pr_taken r) :: ring_queued (ring_take r).
Proof.
  intros (H1 & H2 & H3) Ht. split; [unfold ring_ok; simpl; lia|]. unfold ring_queued. simpl.
  replace (Z.to_nat (pr_submitted r - pr_taken r)) with (1 + Z.to_nat (pr_submitted r - (pr_taken r + 1)))%nat by lia.
  rewrite slots_from_app. change (slots_from r (pr_taken r) 1) with [pr_slot r (pr_taken r + 0)]. rewrite Z.add_0_r. done.
Qed.

Lemma ring_queued_length {A} (r : prod_ring A) : ring_ok r -> zlen (ring_queued r) = pr_submitted r - pr_taken r.
Proof. intros (H1 & _). unfold ring_queued, slots_from, zlen. rewrite length_map, length_seq. lia. Qed.

(** ** What libxdp documents *)

(** A reservation is granted in full when there is room, and never exceeds the
    request or the room; a peek grants at most what is there and what is asked for; the
    address of a descriptor in aligned mode is its low 48 bits. *)
Definition libxdp_ok : Prop :=
  (forall free n, 0 <= n -> 0 <= reserve free n <= n /\ (n <= free -> reserve free n = n) /\ (0 <= free -> reserve free n <= free)) /\
  (forall avail n, 0 <= avail -> 0 <= n -> 0 <= peek avail n <= Z.min avail n) /\
  (forall a, 0 <= a < 2 ^ 48 -> extract_addr a = a).

(** ** The frames of the receive side *)

(** The socket and the frames the driver holds. *)
Record rx_system := RxSystem { rx_sock : xsk; rx_driver : list Z }.

(** The driver takes a frame from the fill ring, and puts a packet that lies in a
    frame it holds into the RX ring; the thread of the queue receives, then
    recycles before it receives again. *)
Inductive rx_step : rx_system -> rx_system -> Prop :=
  | driver_takes s k :
      pr_taken (xk_fq s) < pr_submitted (xk_fq s) ->
      rx_step (RxSystem s k)
        (RxSystem (with_fq s (ring_take (xk_fq s))) (pr_slot (xk_fq s) (pr_taken (xk_fq s)) / xk_chunk_size s :: k))
  | driver_delivers s k1 f k2 addr len :
      f * xk_chunk_size s <= addr -> 0 < len -> addr + len <= (f + 1) * xk_chunk_size s ->
      rx_step (RxSystem s (k1 ++ f :: k2)) (RxSystem (with_rx s (xk_pending s) (xk_rx s ++ [(addr, len)])) (k1 ++ k2))
  | program_receives s k n pkts s' :
      xk_pending s = [] -> 0 <= n -> receive s n = Some (pkts, s') -> rx_step (RxSystem s k) (RxSystem s' k)
  | program_recycles s k s' :
      recycleFrames s = Some s' -> rx_step (RxSystem s k) (RxSystem s' k).

Definition frame_of (s : xsk) (addr : Z) : Z := addr / xk_chunk_size s.
(** The frames of the receive side, wherever they are. *)
Definition rx_frames (w : rx_system) : list Z :=
  let s := rx_sock w in
  map (frame_of s) (ring_queued (xk_fq s)) ++ rx_driver w ++ map (frame_of s) (map fst (xk_rx s)) ++ map (frame_of s) (xk_pending s).
Definition all_rx_frames : list Z := map (fun i => UMEM_RX_FIRST_FRAME_IX + Z.of_nat i) (seq 0 (Z.to_nat RX_FRAMES)).

Definition desc_in_frame (s : xsk) (d : xdp_desc) : Prop :=
  0 < snd d /\ frame_of s (fst d) * xk_chunk_size s <= fst d /\ fst d + snd d <= (frame_of s (fst d) + 1) * xk_chunk_size s.

Definition rx_inv (w : rx_system) : Prop :=
  let s := rx_sock w in
  ring_ok (xk_fq s) /\ pr_size (xk_fq s) = RX_FRAMES * 2 /\ 0 < xk_chunk_size s <= 2 ^ 20 /\
  rx_frames w ≡ₚ all_rx_frames /\ Forall (desc_in_frame s) (xk_rx s).

Lemma all_rx_frames_range f : f ∈ all_rx_frames -> TX_FRAMES <= f < TX_FRAMES + RX_FRAMES.
Proof.
  intros (i & -> & Hi)%list_elem_of_fmap. apply elem_of_seq in Hi. unfold UMEM_RX_FIRST_FRAME_IX, TX_FRAMES, RX_FRAMES in *. lia.
Qed.

Lemma rx_inv_addr w addr :
  rx_inv w -> frame_of (rx_sock w) addr ∈ rx_frames w ->
  TX_FRAMES * xk_chunk_size (rx_sock w) <= addr < (TX_FRAMES + RX_FRAMES) * xk_chunk_size (rx_sock w).
Proof.
  intros (_ & _ & Hc & Hp & _) Hin. rewrite Hp in Hin. apply all_rx_frames_range in Hin.
  unfold frame_of, TX_FRAMES, RX_FRAMES in *. cbn beta zeta in Hc.
  set (c := xk_chunk_size (rx_sock w)) in *. destruct Hc as [Hc _].
  pose proof (Z.div_mod addr c ltac:(lia)). pose proof (Z.mod_pos_bound addr c ltac:(lia)). nia.
Qed.

Lemma rx_frames_count w : rx_inv w ->
  zlen (ring_queued (xk_fq (rx_sock w))) + zlen (rx_driver w) + zlen (xk_rx (rx_sock w)) + zlen (xk_pending (rx_sock w)) = RX_FRAMES.
Proof.
  intros (_ & _ & _ & Hp & _). apply Permutation_length in Hp. unfold rx_frames, all_rx_frames in Hp.
  cbn zeta in Hp. rewrite !length_app, !length_map, length_seq in Hp.
  unfold zlen. unfold RX_FRAMES in *. lia.
Qed.

Lemma rx_take_inv s k :
  rx_inv (RxSystem s k) -> pr_taken (xk_fq s) < pr_submitted (xk_fq s) ->
  rx_inv (RxSystem (with_fq s (ring_take (xk_fq s))) (pr_slot (xk_fq s) (pr_taken (xk_fq s)) / xk_chunk_size s :: k)).
Proof.
  intros (H1 & H2 & H3 & H4 & H5) Ht. destruct (ring_take_spec (xk_fq s) H1 Ht) as [Hok Hq].
  cbn [rx_sock] in *. split; [done|]. split; [done|]. split; [done|]. split; [|done].
  rewrite <- H4. unfold rx_frames. cbn [rx_sock rx_driver]. rewrite Hq. cbn [map].
  change (frame_of s (pr_slot (xk_fq s) (pr_taken (xk_fq s)))) with (pr_slot (xk_fq s) (pr_taken (xk_fq s)) / xk_chunk_size s).
  cbn [app]. symmetry. apply Permutation_middle.
Qed.

Lemma rx_deliver_inv s k1 f k2 addr len :
  rx_inv (RxSystem s (k1 ++ f :: k2)) ->
  f * xk_chunk_size s <= addr -> 0 < len -> addr + len <= (f + 1) * xk_chunk_size s ->
  rx_inv (RxSystem (with_rx s (xk_pending s) (xk_rx s ++ [(addr, len)])) (k1 ++ k2)).
Proof.
  intros (H1 & H2 & H3 & H4 & H5) Ha Hl Hb. cbn [rx_sock] in *.
  assert (frame_of s addr = f) as Hf.
  { unfold frame_of. symmetry. apply (Z.div_unique_pos addr (xk_chunk_size s) f (addr - f * xk_chunk_size s)); lia. }
  split; [done|]. split; [done|]. split; [done|]. split.
  - rewrite <- H4. unfold rx_frames. cbn [rx_sock rx_driver with_rx xk_rx xk_fq xk_pending].
    rewrite !map_app. cbn [map fst]. change (frame_of (with_rx _ _ _)) with (frame_of s). rewrite Hf.
    apply Permutation_app_head, Permutation_sym. rewrite <- !app_assoc. cbn [app].
    rewrite <- Permutation_middle. symmetry.
    rewrite !(app_assoc k1), !(app_assoc (k1 ++ k2)). symmetry. apply Permutation_middle.
  - apply Forall_app. split; [done|]. apply Forall_singleton. unfold desc_in_frame.
    change (frame_of _ (fst (addr, len))) with (frame_of s addr). rewrite Hf. cbn. lia.
Qed.

Lemma rx_receive_inv s k n pkts s' :
  libxdp_ok -> rx_inv (RxSystem s k) -> xk_pending s = [] -> 0 <= n -> receive s n = Some (pkts, s') -> rx_inv (RxSystem s' k).
Proof.
  intros (_ & Hpk & _) (H1 & H2 & H3 & H4 & H5) Hp Hn. unfold receive. destruct (xk_closed s); [done|].
  set (r := peek (zlen (xk_rx s)) n). destruct (r =? 0); intros [= <- <-]; [done|]. cbn [rx_sock] in *.
  split; [done|]. split; [done|]. split; [done|]. split.
  - rewrite <- H4. unfold rx_frames. cbn [rx_sock rx_driver with_rx xk_rx xk_fq xk_pending].
    change (frame_of (with_rx _ _ _)) with (frame_of s). rewrite Hp. cbn [map]. rewrite app_nil_r.
    rewrite <- (take_drop (Z.to_nat r) (xk_rx s)) at 3. rewrite !map_app.
    do 2 apply Permutation_app_head. apply Permutation_app_comm.
  - rewrite <- (take_drop (Z.to_nat r) (xk_rx s)) in H5. by apply Forall_app in H5 as [_ H5].
Qed.

Lemma map_extract l c : libxdp_ok -> 0 < c <= 2 ^ 20 ->
  Forall (fun a => 0 <= a < (TX_FRAMES + RX_FRAMES) * c) l -> map extract_addr l = l.
Proof.
  intros (_ & _ & He) Hc H. induction H as [|a l Ha _ IH]; [done|]. cbn [map]. rewrite IH, He; [done|].
  unfold TX_FRAMES, RX_FRAMES in *. change (2 ^ 48) with (4096 * 68719476736). change (2 ^ 20) with 1048576 in *. lia.
Qed.

(** Recycling returns every pending frame to the fill ring. *)
Lemma rx_recycle_all s k s' :
  libxdp_ok -> rx_inv (RxSystem s k) -> recycleFrames s = Some s' ->
  xk_pending s' = [] /\ ring_queued (xk_fq s') = ring_queued (xk_fq s) ++ xk_pending s /\ ring_ok (xk_fq s') /\
  pr_size (xk_fq s') = pr_size (xk_fq s) /\ xk_rx s' = xk_rx s /\ xk_chunk_size s' = xk_chunk_size s.
Proof.
  intros Hx Hi. pose proof (rx_frames_count _ Hi) as Hn. pose proof Hi as (H1 & H2 & H3 & H4 & H5). cbn [rx_sock rx_driver] in *.
  unfold recycleFrames. destruct (xk_closed s); [done|]. destruct (xk_pending s) as [|p ps] eqn:Hp.
  { intros [= <-]. rewrite app_nil_r. done. }
  rewrite <- Hp in *. pose proof (ring_queued_length (xk_fq s) H1) as Hq.
  pose proof (zlen_nonneg k). pose proof (zlen_nonneg (xk_rx s)). pose proof (zlen_nonneg (xk_pending s)).
  destruct H1 as (T1 & T2 & T3). pose proof Hx as (Hres & _ & _).
  assert (reserve (ring_free (xk_fq s)) (zlen (xk_pending s)) = zlen (xk_pending s)) as ->.
  { apply Hres; [lia|]. unfold ring_free. rewrite H2. unfold RX_FRAMES in *. lia. }
  rewrite take_ge by (unfold zlen; lia).
  rewrite (map_extract (xk_pending s) (xk_chunk_size s)); [|done|done|].
  - intros [= <-]. destruct (ring_push_spec (xk_fq s) (xk_pending s) ltac:(done)) as (P1 & P2 & P3 & _). done.
  - apply Forall_forall. intros a Ha. assert (TX_FRAMES * xk_chunk_size s <= a < (TX_FRAMES + RX_FRAMES) * xk_chunk_size s); [|unfold TX_FRAMES in *; lia].
    apply (rx_inv_addr (RxSystem s k) a Hi). unfold rx_frames. cbn [rx_sock rx_driver]. rewrite !elem_of_app. do 3 right.
    apply list_elem_of_fmap. by exists a.
Qed.

Lemma rx_recycle_inv s k s' :
  libxdp_ok -> rx_inv (RxSystem s k) -> recycleFrames s = Some s' -> rx_inv (RxSystem s' k).
Proof.
  intros Hx Hi Hr. destruct (rx_recycle_all s k s' Hx Hi Hr) as (R1 & R2 & R3 & R4 & R5 & R6).
  destruct Hi as (H1 & H2 & H3 & H4 & H5). cbn [rx_sock] in *. unfold rx_inv. cbn [rx_sock]. rewrite R4, R5, R6.
  split; [done|]. split; [done|]. split; [done|]. split.
  - rewrite <- H4. unfold rx_frames, frame_of. cbn [rx_sock rx_driver]. rewrite R1, R2, R5, R6, map_app. cbn [map].
    rewrite app_nil_r, <- app_assoc. apply Permutation_app_head. rewrite (app_assoc k (map _ _) (map _ _)). apply Permutation_app_comm.
  - eapply Forall_impl; [exact H5|]. intros d. unfold desc_in_frame, frame_of. by rewrite R6.
Qed.

Lemma rx_step_inv w w' : libxdp_ok -> rx_inv w -> rx_step w w' -> rx_inv w'.
Proof.
  intros Hx Hi Hs. destruct Hs.
  - by apply rx_take_inv.
  - by eapply rx_deliver_inv.
  - by eapply rx_receive_inv.
  - by eapply rx_recycle_inv.
Qed.

Lemma bind_rx_inv frameSize frameCount s0 n s1 :
  libxdp_ok -> 0 < frameSize <= 2 ^ 20 ->
  new_socket frameSize frameCount = Some (s0, n) -> bind_fill s0 = Some s1 -> rx_inv (RxSystem s1 []).
Proof.
  intros (Hres & _ & _) Hf. unfold new_socket. destruct (negb _); [done|]. intros [= <- _].
  unfold bind_fill. cbn [xk_closed xk_fq xk_chunk_size pr_size pr_reserved].
  set (r0 := ProdRing (RX_FRAMES * 2) 0 0 0 (fun _ => 0)).
  assert (reserve (ring_free r0) RX_FRAMES = RX_FRAMES) as -> by (apply Hres; unfold ring_free, r0, RX_FRAMES; cbn; lia).
  set (addrs := map _ _). intros [= <-].
  assert (zlen addrs = RX_FRAMES) as Hl by (unfold zlen, addrs; rewrite length_map, length_seq; unfold RX_FRAMES; lia).
  assert (ring_ok r0) as Hok by (unfold ring_ok, r0, RX_FRAMES; cbn; lia).
  destruct (ring_push_spec r0 addrs Hok) as (P1 & P2 & P3 & _). rewrite Hl in P1, P2, P3.
  change (pr_reserved r0) with 0 in P1, P2, P3.
  unfold rx_inv, rx_frames. cbn [rx_sock rx_driver with_fq xk_fq xk_chunk_size xk_rx xk_pending].
  split; [exact P1|]. split; [rewrite P3; done|]. split; [done|]. split; [|constructor].
  rewrite P2. change (ring_queued r0 ++ addrs) with addrs.
  assert (forall s, xk_chunk_size s = frameSize -> map (frame_of s) addrs = all_rx_frames) as Hall.
  { intros s Hs. unfold addrs, all_rx_frames. rewrite map_map. apply map_ext_in. intros i Hi%in_seq.
    unfold frame_of. rewrite Hs. unfold RX_FRAMES, UMEM_RX_FIRST_FRAME_IX, TX_FRAMES in *.
    rewrite u32_small by nia. apply Z.div_mul. lia. }
  rewrite Hall by done. generalize all_rx_frames. intros l. simpl. by rewrite app_nil_r.
Qed.

Lemma rx_reachable_inv w w' : libxdp_ok -> rx_inv w -> rtc rx_step w w' -> rx_inv w'.
Proof. intros Hx Hi H. induction H; [done|]. eauto using rx_step_inv. Qed.

(** C11: however the driver and the thread of a queue interleave after bind, no
    receive frame is lost or held twice: the fill ring, the driver, the RX ring
    and the frames waiting to be recycled together hold each of the 2048 frames
    of the upper half of the packet memory exactly once; every packet of the RX
    ring lies inside one of these frames; and recycling always finds room, so it
    returns every waiting frame to the fill ring. *)
Theorem rx_frames_conserved (frameSize frameCount n : Z) (s0 s1 : xsk) (w : rx_system)
    (Hx : libxdp_ok) (Hf : 0 < frameSize <= 2 ^ 20) (H0 : new_socket frameSize frameCount = Some (s0, n))
    (H1 : bind_fill s0 = Some s1) (H : rtc rx_step (RxSystem s1 []) w) :
  rx_frames w ≡ₚ map (fun i => 2048 + Z.of_nat i) (seq 0 2048) /\
  Forall (fun '(addr, len) => 2048 * xk_chunk_size (rx_sock w) <= addr /\ addr + len <= 4096 * xk_chunk_size (rx_sock w)) (xk_rx (rx_sock w)) /\
  (forall s', recycleFrames (rx_sock w) = Some s' ->
     xk_pending s' = [] /\ ring_queued (xk_fq s') = ring_queued (xk_fq (rx_sock w)) ++ xk_pending (rx_sock w)).
Proof.
  pose proof (rx_reachable_inv _ _ Hx (bind_rx_inv _ _ _ _ _ Hx Hf H0 H1) H) as Hi. destruct w as [s k].
  pose proof Hi as (_ & _ & Hc & Hp & Hd). split_and!.
  - rewrite Hp. unfold all_rx_frames. by replace (Z.to_nat RX_FRAMES) with 2048%nat by (unfold RX_FRAMES; lia).
  - cbn [rx_sock] in *. apply Forall_forall. intros [addr len] Hin.
    assert (frame_of s addr ∈ all_rx_frames) as Hfr%all_rx_frames_range.
    { rewrite <- Hp. unfold rx_frames. cbn [rx_sock rx_driver]. rewrite !elem_of_app. do 2 right. left.
      apply list_elem_of_fmap. exists addr. split; [done|]. apply list_elem_of_fmap. by exists (addr, len). }
    rewrite Forall_forall in Hd. destruct (Hd _ Hin) as (L1 & L2 & L3). cbn [fst snd] in *.
    unfold TX_FRAMES, RX_FRAMES in Hfr. split; nia.
  - intros s' Hr. destruct (rx_recycle_all s k s' Hx Hi Hr) as (R1 & R2 & _). done.
Qed.

(** ** The frames of the transmit side *)

(** The socket and how many descriptors the driver has completed. *)
Record tx_system := TxSystem { tx_sock : xsk; tx_completed : Z }.

(** The completions given back to the kernel. *)
Definition tx_released (w : tx_system) : Z :=
  tx_completed w - xk_cq (tx_sock w) - xk_cached_completions (tx_sock w).

Definition COMP_SIZE : Z := TX_FRAMES * 2.

(** The kernel takes a descriptor only when its completion will have a place in
    the completion ring. *)
Inductive tx_step : tx_system -> tx_system -> Prop :=
  | tx_driver_takes s c :
      pr_taken (xk_tx s) < pr_submitted (xk_tx s) -> pr_taken (xk_tx s) - tx_released (TxSystem s c) < COMP_SIZE ->
      tx_step (TxSystem s c) (TxSystem (with_tx s (ring_take (xk_tx s))) c)
  | tx_driver_completes s c :
      c < pr_taken (xk_tx s) ->
      tx_step (TxSystem s c) (TxSystem (with_counters s (xk_cached_completions s) (xk_outstanding_tx s) (xk_cq s + 1)) (c + 1))
  | tx_program_polls s c s' : pollTxCompletions s = Some s' -> tx_step (TxSystem s c) (TxSystem s' c)
  | tx_program_frame s c : tx_step (TxSystem s c) (TxSystem (snd (getNextTxFrame s)) c)
  | tx_program_submits s c idx s1 addr len s2 s3 :
      reserveTxRing s 1 = Some (1, idx, s1) -> setTxDescriptor s1 idx addr len = Some s2 -> submitTxRing s2 1 = Some s3 ->
      tx_step (TxSystem s c) (TxSystem s3 c)
  | tx_program_batch s c offsets lengths n sent s' :
      sendBatch s offsets lengths n = Some (sent, s') -> tx_step (TxSystem s c) (TxSystem s' c).

Definition tx_inv (w : tx_system) : Prop :=
  let s := tx_sock w in let c := tx_completed w in
  ring_ok (xk_tx s) /\ pr_size (xk_tx s) = TX_FRAMES /\ pr_submitted (xk_tx s) - pr_taken (xk_tx s) <= TX_FRAMES /\
  c <= pr_taken (xk_tx s) /\ 0 <= xk_cq s /\ 0 <= xk_cached_completions s < TX_BATCH_SIZE /\
  0 <= tx_released w /\ pr_taken (xk_tx s) - tx_released w <= COMP_SIZE /\
  xk_outstanding_tx s = pr_submitted (xk_tx s) - tx_released w.

Ltac tx_unfold :=
  unfold tx_inv, tx_released, ring_ok, COMP_SIZE, TX_FRAMES, TX_BATCH_SIZE in *;
  cbn [tx_sock tx_completed with_counters with_tx xk_tx xk_cq xk_cached_completions xk_outstanding_tx ring_take ring_submit
       ring_add_reserved set_slot pr_size pr_taken pr_submitted pr_reserved pr_slot] in *.

Lemma tx_poll_inv s c s' : libxdp_ok -> tx_inv (TxSystem s c) -> pollTxCompletions s = Some s' -> tx_inv (TxSystem s' c).
Proof.
  intros (_ & Hpk & _) Hi. unfold pollTxCompletions. destruct (xk_closed s); [done|].
  destruct (xk_outstanding_tx s =? 0); [by intros [= <-]|]. pose proof Hi as Hi'. tx_unfold.
  destruct (Hpk (xk_cq s) 2048 ltac:(lia) ltac:(lia)) as [P1 P2].
  set (n := peek (xk_cq s) 2048) in *. destruct (n =? 0); [by intros [= <-]|].
  rewrite u32_small by lia. destruct (Z.ltb_spec (xk_cached_completions s + n) 64); intros [= <-]; tx_unfold; [lia|].
  rewrite u32_small by lia. lia.
Qed.

(** Appending [vs] to the TX ring and counting them. *)
Lemma tx_push_inv s c (vs : list xdp_desc) :
  tx_inv (TxSystem s c) -> zlen vs <= ring_free (xk_tx s) ->
  tx_inv (TxSystem (with_counters (with_tx s (ring_submit (fill_slots (ring_add_reserved (xk_tx s) (zlen vs)) (pr_reserved (xk_tx s)) vs) (zlen vs)))
    (xk_cached_completions s) (u32 (xk_outstanding_tx s + zlen vs)) (xk_cq s)) c).
Proof.
  intros Hi Hf. pose proof Hi as (Hok & _). destruct (ring_push_spec (xk_tx s) vs Hok) as (P1 & _ & P3 & P4 & P5 & _).
  pose proof (zlen_nonneg vs). unfold ring_free in Hf. cbn zeta in P1, P3, P4, P5. tx_unfold.
  set (r' := fill_slots _ _ _) in *. rewrite u32_small by lia. lia.
Qed.

Lemma set_slot_fill {A} (r : prod_ring A) idx v : set_slot r idx v = fill_slots r idx [v].
Proof. unfold fill_slots. cbn. by rewrite Z.add_0_r. Qed.

Lemma tx_submit_inv s c idx s1 addr len s2 s3 :
  libxdp_ok -> tx_inv (TxSystem s c) -> reserveTxRing s 1 = Some (1, idx, s1) ->
  setTxDescriptor s1 idx addr len = Some s2 -> submitTxRing s2 1 = Some s3 -> tx_inv (TxSystem s3 c).
Proof.
  intros (Hres & _) Hi. unfold reserveTxRing, setTxDescriptor, submitTxRing. destruct (xk_closed s) eqn:Hc; [done|].
  intros Hr. assert (reserve (ring_free (xk_tx s)) 1 = 1 /\ idx = pr_reserved (xk_tx s) /\
    s1 = with_tx s (ring_add_reserved (xk_tx s) 1)) as (R & -> & ->) by (injection Hr as E1 E2 E3; rewrite E1 in E3; done).
  cbn [with_tx xk_closed]. rewrite Hc. intros [= <-]. cbn [with_tx xk_closed]. rewrite Hc. intros [= <-].
  pose proof (Hres (ring_free (xk_tx s)) 1 ltac:(lia)) as (_ & _ & Hle). rewrite R in Hle.
  pose proof (tx_push_inv s c [(addr, len)] Hi) as Hp. change (zlen [(addr, len)]) with 1 in Hp.
  rewrite <- set_slot_fill in Hp. apply Hp, Hle.
  tx_unfold. unfold ring_free. lia.
Qed.

Lemma tx_batch_inv s c offsets lengths n sent s' :
  libxdp_ok -> tx_inv (TxSystem s c) -> sendBatch s offsets lengths n = Some (sent, s') -> tx_inv (TxSystem s' c).
Proof.
  intros Hx Hi. unfold sendBatch. destruct (xk_closed s); [done|].
  destruct ((zlen offsets <? n) || (zlen lengths <? n)) eqn:Hn; [done|]. apply orb_false_iff in Hn as [N1%Z.ltb_ge N2%Z.ltb_ge].
  destruct (pollTxCompletions s) as [t|] eqn:Ht; [|done]. cbn [mbind option_bind].
  pose proof (tx_poll_inv s c t Hx Hi Ht) as Hj. clear Hi Ht.
  destruct (_ <? xk_outstanding_tx t); [by intros [= _ <-]|]. set (b := Z.min n TX_BATCH_SIZE).
  destruct (Z.leb_spec b 0); [by intros [= _ <-]|]. pose proof Hx as (Hres & _).
  pose proof (Hres (ring_free (xk_tx t)) b ltac:(lia)) as (R1 & _ & R2).
  set (r := reserve (ring_free (xk_tx t)) b) in *.
  assert (0 <= ring_free (xk_tx t)) as Hfree by (tx_unfold; unfold ring_free; lia).
  destruct (r =? 0) eqn:Hr0.
  { apply Z.eqb_eq in Hr0. unfold requestDriverPoll. cbn [with_tx xk_closed]. destruct (xk_closed t); [done|].
    cbn [mbind option_bind]. intros [= _ <-]. rewrite Hr0. tx_unfold. rewrite Z.add_0_r. lia. }
  unfold requestDriverPoll. cbn [with_counters with_tx xk_closed]. destruct (xk_closed t); [done|].
  cbn [mbind option_bind]. intros [= _ <-].
  set (vs := take (Z.to_nat r) (zip offsets lengths)).
  assert (zlen vs = r) as Hv.
  { unfold vs, zlen in *. rewrite length_take, length_zip_with. lia. }
  pose proof (tx_push_inv t c vs Hj) as Hp. rewrite Hv in Hp. apply Hp. lia.
Qed.

Lemma tx_step_inv w w' : libxdp_ok -> tx_inv w -> tx_step w w' -> tx_inv w'.
Proof.
  intros Hx Hi Hs. destruct Hs; eauto using tx_poll_inv, tx_submit_inv, tx_batch_inv; tx_unfold; lia.
Qed.

Lemma tx_reachable_inv w w' : libxdp_ok -> tx_inv w -> rtc tx_step w w' -> tx_inv w'.
Proof. intros Hx Hi H. induction H; [done|]. eauto using tx_step_inv. Qed.

(** C22: for every interleaving of the program (polls, frame allocations, single
    and batch submissions) with a driver that respects the completion ring, the
    counters of transmission are exact and never wrap: outstanding_tx_ is the
    number of descriptors submitted and not yet given back, fewer than 64
    completions are held back, and a poll that sees 64 completions or more gives
    all of them back. *)
Theorem tx_accounting (frameSize frameCount n : Z) (s0 : xsk) (w : tx_system) (Hx : libxdp_ok)
    (H0 : new_socket frameSize frameCount = Some (s0, n)) (H : rtc tx_step (TxSystem s0 0) w) :
  xk_outstanding_tx (tx_sock w) = pr_submitted (xk_tx (tx_sock w)) - tx_released w /\
  0 <= tx_released w <= tx_completed w /\ tx_completed w <= pr_taken (xk_tx (tx_sock w)) /\
  pr_taken (xk_tx (tx_sock w)) <= pr_submitted (xk_tx (tx_sock w)) <= pr_taken (xk_tx (tx_sock w)) + 2048 /\
  0 <= xk_cached_completions (tx_sock w) < 64 /\
  (forall s', pollTxCompletions (tx_sock w) = Some s' -> 64 <= peek (xk_cq (tx_sock w)) 2048 ->
     xk_cached_completions s' = 0 /\
     xk_outstanding_tx s' = xk_outstanding_tx (tx_sock w) - xk_cached_completions (tx_sock w) - peek (xk_cq (tx_sock w)) 2048).
Proof.
  assert (tx_inv w) as Hi.
  { eapply tx_reachable_inv; [done| |exact H]. unfold new_socket in H0. destruct (negb _); [done|]. injection H0 as <- _. tx_unfold. lia. }
  destruct w as [s c]. cbn [tx_sock tx_completed].
  do 5 (split; [tx_unfold; lia|]). intros s' Hp H64. unfold pollTxCompletions in Hp. destruct (xk_closed s); [done|].
  destruct Hx as (_ & Hpk & _). tx_unfold.
  destruct (Hpk (xk_cq s) 2048 ltac:(lia) ltac:(lia)) as [P1 P2]. set (k := peek (xk_cq s) 2048) in *.
  rewrite (proj2 (Z.eqb_neq _ _)), (proj2 (Z.eqb_neq _ _)) in Hp by lia.
  rewrite u32_small, (proj2 (Z.ltb_ge _ _)) in Hp by lia. injection Hp as <-. cbn.
  rewrite u32_small by lia. lia.
Qed.
End Xsk.

(** libxdp reserves all or nothing, and a peek grants all it can. *)
Definition reserve_all (free n : Z) : Z := if free <? n then 0 else n.
Definition extract_low (a : Z) : Z := a mod 2 ^ 48.

Lemma libxdp_ok_demo : libxdp_ok reserve_all Z.min extract_low.
Proof.
  unfold libxdp_ok, reserve_all, extract_low. split_and!.
  - intros free n Hn. destruct (Z.ltb_spec free n); split_and!; lia.
  - intros; lia.
  - intros a Ha. by apply Z.mod_small.
Qed.

Definition demo_socket : xsk := Xsk false 4096 0 0 0 [] (ProdRing 4096 0 0 0 (fun _ => 0)) (ProdRing 2048 0 0 0 (fun _ => (0, 0))) [] 0.


Definition demo_bound : xsk := default demo_socket (bind_fill reserve_all demo_socket).
(** The driver took frame 2048, put a packet of 60 bytes into it, and the
    program received it. *)
Definition demo_taken : xsk := with_fq demo_bound (ring_take (xk_fq demo_bound)).
Definition demo_delivered : xsk := with_rx demo_taken [] [(8388608 + 256, 60)].
Definition demo_received : xsk := with_rx demo_delivered [8388608 + 256] [].

Lemma rx_frames_conserved_witness :
  rtc (rx_step reserve_all Z.min extract_low) (RxSystem demo_bound []) (RxSystem demo_received []) /\
  rx_frames (RxSystem demo_received []) ≡ₚ map (fun i => 2048 + Z.of_nat i) (seq 0 2048).
Proof.
  assert (new_socket 4096 4096 = Some (demo_socket, 16777216)) as Hn by reflexivity.
  assert (bind_fill reserve_all demo_socket = Some demo_bound) as Hb.
  { unfold demo_bound, bind_fill. cbn [xk_closed demo_socket default]. reflexivity. }
  assert (rtc (rx_step reserve_all Z.min extract_low) (RxSystem demo_bound []) (RxSystem demo_received [])) as Hr.
  { eapply rtc_l; [apply driver_takes; vm_compute; reflexivity|].
    eapply rtc_l.
    { apply (driver_delivers _ _ _ demo_taken [] _ [] (8388608 + 256) 60); vm_compute; done. }
    eapply rtc_l; [|apply rtc_refl].
    apply (program_receives _ _ _ demo_delivered [] 64 [(8388608 + 256, 60)]); [done..|]. reflexivity. }
  split; [exact Hr|].
  exact (proj1 (rx_frames_conserved reserve_all Z.min extract_low 4096 4096 16777216 demo_socket demo_bound _
    libxdp_ok_demo ltac:(lia) Hn Hb Hr)).
Defined.

(** 64 frames were sent and completed; the poll gives them back. *)
Definition demo_offsets : list Z := map (fun i => Z.of_nat i * 4096) (seq 0 64).
Definition demo_sent : xsk := default demo_socket (snd <$> sendBatch reserve_all Z.min demo_socket demo_offsets (replicate 64 60) 64).

Lemma tx_accounting_witness :
  rtc (tx_step reserve_all Z.min) (TxSystem demo_socket 0) (TxSystem demo_sent 0) /\
  xk_outstanding_tx demo_sent = 64 /\
  xk_outstanding_tx demo_sent = pr_submitted (xk_tx demo_sent) - tx_released (TxSystem demo_sent 0).
Proof.
  assert (new_socket 4096 4096 = Some (demo_socket, 16777216)) as Hn by reflexivity.
  assert (sendBatch reserve_all Z.min demo_socket demo_offsets (replicate 64 60) 64 = Some (64, demo_sent)) as Hs.
  { unfold demo_sent. reflexivity. }
  assert (rtc (tx_step reserve_all Z.min) (TxSystem demo_socket 0) (TxSystem demo_sent 0)) as Hr.
  { eapply rtc_l; [|apply rtc_refl]. by eapply tx_program_batch. }
  split; [exact Hr|]. split; [vm_compute; reflexivity|].
  exact (proj1 (tx_accounting reserve_all Z.min extract_low 4096 4096 16777216 demo_socket _ libxdp_ok_demo Hn Hr)).
Defined.
