(* ===== verification/Kernel.v ===== *)
(** What the packet replicator asks of the kernel and of libxdp (the calls of
    AFXDPSocket.cpp and PacketReplicator.cpp), the state of the process between
    calls, and the monad in which its start and stop are written.

    A call answers with a number: a descriptor, a handle or a status.  The kernel is a
    parameter, with its documented effect as hypotheses: on the resources the
    process holds ([res_effect]), and on descriptors and BPF maps ([map_effect]).
    A resource that is released twice or never appears as a difference
    between the resources of the kernel and those the program's objects name. *)

From stdpp Require Import gmultiset.
From S2P Require Import Prelude CText XdpFilter Xsk.

(** ** Calls *)

(** struct xdp_program *: libxdp reports errors in the pointer. *)
Inductive prog_ptr := PROG_NULL | PROG_ERROR | PROG (id : Z).
Inductive xdp_attach_mode := XDP_MODE_NATIVE | XDP_MODE_SKB.

Inductive sys_call :=
| SetrlimitMemlock | Getuid
| XdpProgramOpenFile (path : cstr)
| XdpProgramSetFrags (p : prog_ptr) (frags : bool)
| XdpProgramAttach (p : prog_ptr) (ifindex : Z) (mode : xdp_attach_mode)
| XdpProgramDetach (p : prog_ptr) (ifindex : Z) (mode : xdp_attach_mode)
| XdpProgramClose (p : prog_ptr)
| FindMapByName (p : prog_ptr) (name : cstr)
| MapUpdateConfig (fd key : Z) (config : unicast_config)
| MapUpdateXsk (fd key sock_fd : Z)
| MapLookup (fd key : Z)
| MapDelete (fd key : Z)
| Mmap (size : Z)
| Munmap (area size : Z)
| UmemCreate (area size fill_size comp_size frame_size headroom : Z)
| UmemDelete (u : Z)
| XskCreate (ifname : cstr) (queue umem rx_size tx_size libbpf_flags bind_flags : Z)
| XskFd (x : Z)
| XskDelete (x : Z)
| ConsPeek (x n : Z)
| NeedsWakeup (x : Z)
| Sendto (fd : Z)
| Socket
| SetReuseaddr (fd : Z)
| Bind (fd port : Z)
| Close (fd : Z)
| ThreadCreate
| ThreadJoin (t : Z)
| SetAffinity (t core : Z).

(** What a process can hold. *)
Inductive resource :=
| RProg (p : Z) | RAttached (ifindex p : Z) (mode : xdp_attach_mode)
| RMem (area : Z) | RUmem (u : Z) | RXsk (x : Z) | RFd (fd : Z) | RThread (t : Z).

#[export] Instance xdp_attach_mode_eq_dec : EqDecision xdp_attach_mode.
Proof. solve_decision. Defined.
#[export] Instance resource_eq_dec : EqDecision resource.
Proof. solve_decision. Defined.
#[export] Instance resource_countable : Countable resource.
Proof.
  refine (inj_countable'
    (fun r => match r with
     | RProg p => (0, p, 0, false)
     | RAttached i p XDP_MODE_NATIVE => (1, i, p, true) | RAttached i p XDP_MODE_SKB => (1, i, p, false)
     | RMem a => (2, a, 0, false) | RUmem u => (3, u, 0, false) | RXsk x => (4, x, 0, false)
     | RFd fd => (5, fd, 0, false) | RThread t => (6, t, 0, false) end)
    (fun '(tag, a, b, native) =>
       if tag =? 0 then RProg a
       else if tag =? 1 then RAttached a b (if (native : bool) then XDP_MODE_NATIVE else XDP_MODE_SKB)
       else if tag =? 2 then RMem a else if tag =? 3 then RUmem a else if tag =? 4 then RXsk a
       else if tag =? 5 then RFd a else RThread a) _).
  by intros [|? ? []| | | | |].
Defined.

(** ** The documented effect *)

Abbreviation resources := (gmultiset resource).
Definition acquires (r : resource) (l l' : resources) : Prop := l' = {[+ r +]} ⊎ l.
(** Nothing is promised of a release of what is not held. *)
Definition releases (r : resource) (l l' : resources) : Prop := r ∈ l -> l' = l ∖ {[+ r +]}.

(** The answers that acquire or release; every other call leaves the resources. *)
Definition res_effect (c : sys_call) (answer : Z) (l l' : resources) : Prop :=
  match c with
  | XdpProgramOpenFile _ => if 0 <? answer then acquires (RProg answer) l l' else l' = l
  | XdpProgramAttach (PROG p) i m => if answer =? 0 then acquires (RAttached i p m) l l' else l' = l
  | XdpProgramDetach (PROG p) i m => if answer =? 0 then releases (RAttached i p m) l l' else l' = l
  | XdpProgramClose (PROG p) => releases (RProg p) l l'
  | Mmap _ => if answer =? -1 then l' = l else acquires (RMem answer) l l'
  | Munmap area _ => releases (RMem area) l l'
  | UmemCreate _ _ _ _ _ _ => if 0 <? answer then acquires (RUmem answer) l l' else l' = l
  | UmemDelete u => releases (RUmem u) l l'
  | XskCreate _ _ _ _ _ _ _ => if 0 <? answer then acquires (RXsk answer) l l' else l' = l
  | XskDelete x => releases (RXsk x) l l'
  | Socket => if answer <? 0 then l' = l else acquires (RFd answer) l l'
  | Close fd => releases (RFd fd) l l'
  | ThreadCreate => if answer <? 0 then l' = l else acquires (RThread answer) l l'
  | ThreadJoin t => releases (RThread t) l l'
  | _ => l' = l
  end.

(** A descriptor: a BPF map with its name and identity, another BPF object (a
    program, a link, type information), an AF_XDP socket, or anything else.  The
    BPF objects have the information that bpf_obj_get_info_by_fd copies. *)
Inductive fd_object :=
| FdMap (name : cstr) (obj : Z) (info : list ascii) | FdBpf (info : list ascii) | FdXsk (x : Z) | FdOther.
Definition fd_info (o : fd_object) : option (list ascii) :=
  match o with FdMap _ _ info => Some info | FdBpf info => Some info | _ => None end.

(** The descriptors of the process and of each loaded program; the element of each
    configuration map; the sockets in each socket map; where a socket is bound. *)
Record maps := Maps {
  km_fds : gmap Z fd_object;
  km_progs : gmap Z (gmap Z fd_object);
  km_config : gmap Z unicast_config;
  km_entries : gmap (Z * Z) Z;
  km_bound : gmap Z (cstr * Z) }.

Definition config_map_name : cstr := lit "config_map".
Definition xsks_map_name : cstr := lit "xsks_map".

(** The descriptors of a program loaded from unicast_filter.o: one configuration
    map and one socket map. *)
Definition only_map (fds : gmap Z fd_object) (name : cstr) (fd obj : Z) : Prop :=
  (exists info, fds !! fd = Some (FdMap name obj info)) /\
  forall fd' obj' info', fds !! fd' = Some (FdMap name obj' info') -> fd' = fd.
Definition filter_maps (fds : gmap Z fd_object) (config_fd config xsks_fd xsks : Z) : Prop :=
  only_map fds config_map_name config_fd config /\ only_map fds xsks_map_name xsks_fd xsks.

Definition map_effect (c : sys_call) (answer : Z) (m m' : maps) : Prop :=
  match c with
  | XdpProgramAttach (PROG p) _ _ =>
      answer = 0 -> exists fds config_fd config xsks_fd xsks,
        filter_maps fds config_fd config xsks_fd xsks /\ 0 <= xsks_fd /\ fds ##ₘ km_fds m /\
        km_config m !! config = None /\ (forall k, km_entries m !! (xsks, k) = None) /\
        m' = Maps (fds ∪ km_fds m) (<[p := fds]> (km_progs m)) (<[config := UnicastConfig 0 0]> (km_config m))
               (km_entries m) (km_bound m)
  | FindMapByName (PROG p) name =>
      m' = m /\ forall fds fd obj, km_progs m !! p = Some fds -> only_map fds name fd obj -> 0 <= fd -> answer = fd
  | MapUpdateConfig fd key config =>
      answer = 0 -> forall name obj info, km_fds m !! fd = Some (FdMap name obj info) -> key = 0 ->
        m' = Maps (km_fds m) (km_progs m) (<[obj := config]> (km_config m)) (km_entries m) (km_bound m)
  | MapUpdateXsk fd key sock_fd =>
      answer = 0 -> forall name obj info x, km_fds m !! fd = Some (FdMap name obj info) ->
        km_fds m !! sock_fd = Some (FdXsk x) ->
        m' = Maps (km_fds m) (km_progs m) (km_config m) (<[(obj, key) := x]> (km_entries m)) (km_bound m)
  | XskCreate ifname queue _ _ _ _ _ =>
      0 < answer -> km_bound m !! answer = None /\ exists fd, 0 <= fd /\ km_fds m !! fd = None /\
        m' = Maps (<[fd := FdXsk answer]> (km_fds m)) (km_progs m) (km_config m) (km_entries m)
               (<[answer := (ifname, queue)]> (km_bound m))
  | XskFd x =>
      m' = m /\ forall fd, 0 <= fd -> km_fds m !! fd = Some (FdXsk x) -> km_fds m !! answer = Some (FdXsk x)
  | Socket =>
      0 <= answer -> km_fds m !! answer = None /\
        m' = Maps (<[answer := FdOther]> (km_fds m)) (km_progs m) (km_config m) (km_entries m) (km_bound m)
  | XdpProgramDetach _ _ _ | XdpProgramClose _ | MapDelete _ _ | XskDelete _ | Close _ | UmemDelete _ => True
  | _ => m' = m
  end.

(** A successful answer. *)
Definition success (c : sys_call) (answer : Z) : bool :=
  match c with
  | XdpProgramOpenFile _ | UmemCreate _ _ _ _ _ _ | XskCreate _ _ _ _ _ _ _ => 0 <? answer
  | Mmap _ => (0 <? answer) && (answer mod 4096 =? 0)
  | FindMapByName _ _ | XskFd _ | Socket | ThreadCreate | SetReuseaddr _ | Bind _ _ => 0 <=? answer
  | MapLookup _ _ | ConsPeek _ _ | NeedsWakeup _ | Sendto _ => true
  | _ => answer =? 0
  end.

(** ** The state of the process *)

(** An AFXDPSocket: its rings and counters (Xsk.v), the memory, and the wrapper
    with the handles of libxdp; None is a null pointer, -1 no map descriptor. *)
Record sock := Sock {
  so_rings : xsk;
  so_buffer : option Z; so_buffer_size : Z; so_headroom : Z;
  so_xsk : option Z; so_umem : option Z; so_umem_size : Z;
  so_map_fd : Z; so_ifindex : Z; so_wrapper_outstanding : Z }.

(** The static variables of AFXDPSocket.cpp and the members of the replicator that
    change with its start and stop. *)
Record host (W : Type) := Host {
  h_kernel : W;
  h_xdp_prog : prog_ptr;
  h_attach_mode : xdp_attach_mode;
  h_sockets : list (option sock);        (* xdp_sockets_ *)
  h_control_socket : Z;
  h_output_socket : Z;
  h_running : bool;
  h_queue_threads : list (option Z);     (* packet_processor_threads_ *)
  h_control_thread : option Z }.
Arguments Host {W}.
Arguments h_kernel {W}.
Arguments h_xdp_prog {W}.
Arguments h_attach_mode {W}.
Arguments h_sockets {W}.
Arguments h_control_socket {W}.
Arguments h_output_socket {W}.
Arguments h_running {W}.
Arguments h_queue_threads {W}.
Arguments h_control_thread {W}.

(** The exceptions of the code; Undefined is the use of a null pointer, Terminate
    the destruction of a thread that has not been joined. *)
Inductive exn := runtime_error | invalid_argument | out_of_range | system_error | Undefined | Terminate.

Definition action (W A : Type) : Type := host W -> (A + exn) * host W.
#[export] Instance action_ret W : MRet (action W) := fun A a h => (inl a, h).
#[export] Instance action_bind W : MBind (action W) := fun A B f m h =>
  match m h with (inl a, h) => f a h | (inr e, h) => (inr e, h) end.
Definition throw {W A} (e : exn) : action W A := fun h => (inr e, h).
Definition get {W A} (f : host W -> A) : action W A := fun h => (inl (f h), h).
Definition throw_if {W} (b : bool) (e : exn) : action W unit := if b then throw e else mret tt.
(** A handler for the standard exceptions. *)
Definition try_catch {W A} (m handler : action W A) : action W A := fun h =>
  match m h with
  | (inr (runtime_error | invalid_argument | out_of_range | system_error), h) => handler h
  | r => r
  end.
Definition when {W} (b : bool) (m : action W unit) : action W unit := if b then m else mret tt.
Fixpoint for_each {W A} (f : A -> action W unit) (l : list A) : action W unit :=
  match l with [] => mret tt | x :: l => f x;; for_each f l end.

Definition set_kernel {W} (w : W) (h : host W) : host W :=
  Host w (h_xdp_prog h) (h_attach_mode h) (h_sockets h) (h_control_socket h) (h_output_socket h) (h_running h)
    (h_queue_threads h) (h_control_thread h).
Definition set_prog {W} (p : prog_ptr) : action W unit := fun h =>
  (inl tt, Host (h_kernel h) p (h_attach_mode h) (h_sockets h) (h_control_socket h) (h_output_socket h) (h_running h)
    (h_queue_threads h) (h_control_thread h)).
Definition set_attach_mode {W} (m : xdp_attach_mode) : action W unit := fun h =>
  (inl tt, Host (h_kernel h) (h_xdp_prog h) m (h_sockets h) (h_control_socket h) (h_output_socket h) (h_running h)
    (h_queue_threads h) (h_control_thread h)).
Definition set_sockets {W} (ss : list (option sock)) : action W unit := fun h =>
  (inl tt, Host (h_kernel h) (h_xdp_prog h) (h_attach_mode h) ss (h_control_socket h) (h_output_socket h) (h_running h)
    (h_queue_threads h) (h_control_thread h)).
Definition set_control_socket {W} (fd : Z) : action W unit := fun h =>
  (inl tt, Host (h_kernel h) (h_xdp_prog h) (h_attach_mode h) (h_sockets h) fd (h_output_socket h) (h_running h)
    (h_queue_threads h) (h_control_thread h)).
Definition set_output_socket {W} (fd : Z) : action W unit := fun h =>
  (inl tt, Host (h_kernel h) (h_xdp_prog h) (h_attach_mode h) (h_sockets h) (h_control_socket h) fd (h_running h)
    (h_queue_threads h) (h_control_thread h)).
(** running_.exchange *)
Definition exchange_running {W} (b : bool) : action W bool := fun h =>
  (inl (h_running h), Host (h_kernel h) (h_xdp_prog h) (h_attach_mode h) (h_sockets h) (h_control_socket h)
    (h_output_socket h) b (h_queue_threads h) (h_control_thread h)).
Definition set_threads {W} (ts : list (option Z)) : action W unit := fun h =>
  (inl tt, Host (h_kernel h) (h_xdp_prog h) (h_attach_mode h) (h_sockets h) (h_control_socket h) (h_output_socket h)
    (h_running h) ts (h_control_thread h)).
Definition set_control_thread {W} (t : option Z) : action W unit := fun h =>
  (inl tt, Host (h_kernel h) (h_xdp_prog h) (h_attach_mode h) (h_sockets h) (h_control_socket h) (h_output_socket h)
    (h_running h) (h_queue_threads h) t).

(** Element of a vector of pointers, and its assignment. *)
Definition slot {W} (q : nat) : action W sock := fun h =>
  match h_sockets h !! q with Some (Some s) => (inl s, h) | _ => (inr Undefined, h) end.
Definition set_slot_to {W} (q : nat) (s : option sock) : action W unit :=
  ss ← get h_sockets; set_sockets (<[q := s]> ss).
(** vector::resize *)
Definition resize {A} (n : nat) (l : list (option A)) : list (option A) := take n l ++ replicate (n - length l) None.

Definition set_ks {W} (w : W) (ss : list (option sock)) (h : host W) : host W :=
  Host w (h_xdp_prog h) (h_attach_mode h) ss (h_control_socket h) (h_output_socket h) (h_running h)
    (h_queue_threads h) (h_control_thread h).

Section calls.
Context {W : Type} (sys : sys_call -> W -> Z * W).

Definition ask (c : sys_call) : action W Z := fun h =>
  let '(answer, w) := sys c (h_kernel h) in (inl answer, set_kernel w h).
Definition do_call (c : sys_call) : action W unit := _ ← ask c; mret tt.

(** What a program may rely on: the resources and the maps of every state of the
    kernel, changed by every call as documented. *)
Class Documented (held_by : W -> resources) (maps_of : W -> maps) : Prop := {
  doc_res : forall c w, res_effect c (fst (sys c w)) (held_by w) (held_by (snd (sys c w)));
  doc_maps : forall c w, map_effect c (fst (sys c w)) (maps_of w) (maps_of (snd (sys c w))) }.
(** No call fails. *)
Definition obliging : Prop := forall c w, success c (fst (sys c w)) = true.
End calls.

(** ** Rules

    [hwp m Q E h]: [m] run in [h] returns a value with [Q], or throws with [E]. *)

Definition hwp {W A} (m : action W A) (Q : A -> host W -> Prop) (E : exn -> host W -> Prop) (h : host W) : Prop :=
  match m h with (inl a, h') => Q a h' | (inr e, h') => E e h' end.

Section rules.
Context {W : Type} (sys : sys_call -> W -> Z * W).
Implicit Types E : exn -> host W -> Prop.

Lemma hwp_bind {A B} (m : action W A) (f : A -> action W B) Q E h :
  hwp m (fun a h => hwp (f a) Q E h) E h -> hwp (m ≫= f) Q E h.
Proof. unfold hwp, mbind, action_bind. by destruct (m h) as [[a|e] h']. Qed.
Lemma hwp_mono {A} (m : action W A) (Q Q' : A -> host W -> Prop) E (E' : exn -> host W -> Prop) h :
  hwp m Q E h -> (forall a h, Q a h -> Q' a h) -> (forall e h, E e h -> E' e h) -> hwp m Q' E' h.
Proof. unfold hwp. destruct (m h) as [[a|e] h']; auto. Qed.
Lemma hwp_call c Q E h :
  (forall answer w, sys c (h_kernel h) = (answer, w) -> Q answer (set_kernel w h)) -> hwp (ask sys c) Q E h.
Proof. intros H. unfold hwp, ask. destruct (sys c (h_kernel h)) as [answer w]. by apply H. Qed.
Lemma hwp_slot q s Q E h : h_sockets h !! q = Some (Some s) -> Q s h -> hwp (slot q) Q E h.
Proof. intros Hs HQ. unfold hwp, slot. by rewrite Hs. Qed.
Lemma hwp_try {A} (m handler : action W A) Q E E' h :
  hwp m Q E' h -> (forall e h, E' e h -> e <> Undefined /\ e <> Terminate /\ hwp handler Q E h) ->
  hwp (try_catch m handler) Q E h.
Proof.
  unfold hwp, try_catch. intros Hm H. destruct (m h) as [[a|e] h']; [done|].
  destruct (H e h' Hm) as (H1 & H2 & H3). by destruct e.
Qed.
Lemma hwp_for_each {A} (f : A -> action W unit) (I : list A -> host W -> Prop) E l h :
  (forall x l h, I (x :: l) h -> hwp (f x) (fun _ h => I l h) E h) -> I l h ->
  hwp (for_each f l) (fun _ h => I [] h) E h.
Proof.
  intros Hf. revert h. induction l as [|x l IH]; intros h Hi; [done|].
  cbn [for_each]. apply hwp_bind. eapply hwp_mono; [by apply Hf|intros; by apply IH|done].
Qed.
End rules.

Section documented.
Context {W : Type} (sys : sys_call -> W -> Z * W) (held_by : W -> resources) (maps_of : W -> maps).
Context `{!Documented sys held_by maps_of}.
Implicit Types E : exn -> host W -> Prop.

Lemma hwp_call_doc c Q E h :
  (forall answer w, sys c (h_kernel h) = (answer, w) ->
     res_effect c answer (held_by (h_kernel h)) (held_by w) -> (obliging sys -> success c answer = true) ->
     Q answer (set_kernel w h)) ->
  hwp (ask sys c) Q E h.
Proof.
  intros H. apply hwp_call. intros answer w Hs. pose proof (@doc_res _ _ held_by maps_of _ c (h_kernel h)) as Hr.
  rewrite Hs in Hr. apply H; [done|done|]. intros Ho. specialize (Ho c (h_kernel h)). by rewrite Hs in Ho.
Qed.
Lemma hwp_do_call c (Q : unit -> host W -> Prop) E h :
  (forall answer w, sys c (h_kernel h) = (answer, w) ->
     res_effect c answer (held_by (h_kernel h)) (held_by w) -> (obliging sys -> success c answer = true) ->
     Q tt (set_kernel w h)) ->
  hwp (do_call sys c) Q E h.
Proof. intros H. apply hwp_bind, hwp_call_doc. intros answer w H1 H2 H3. exact (H answer w H1 H2 H3). Qed.
End documented.

(** Both results of one run. *)
Lemma hwp_and {W A} (m : action W A) Q Q' E E' h :
  hwp m Q E h -> hwp m Q' E' h -> hwp m (fun a h => Q a h /\ Q' a h) (fun e h => E e h /\ E' e h) h.
Proof. unfold hwp. destruct (m h) as [[a|e] h']; auto. Qed.

(** ** What the objects of a process hold *)

Definition opt_res (f : Z -> resource) (o : option Z) : resources := match o with Some x => {[+ f x +]} | None => ∅ end.
Definition held_sock (s : sock) : resources := opt_res RXsk (so_xsk s) ⊎ opt_res RUmem (so_umem s) ⊎ opt_res RMem (so_buffer s).
Definition held_slot (o : option sock) : resources := match o with Some s => held_sock s | None => ∅ end.
Definition held_all {A} (f : A -> resources) (l : list A) : resources := foldr (fun x r => f x ⊎ r) ∅ l.
Abbreviation held_socks := (held_all held_slot).
Abbreviation held_threads := (held_all (opt_res RThread)).
Definition held_fd (fd : Z) : resources := if fd <? 0 then ∅ else {[+ RFd fd +]}.

Lemma held_none F : ∅ ⊎ F = F :> resources.
Proof. multiset_solver. Qed.
Lemma held_no_opt f F : opt_res f None ⊎ F = F.
Proof. apply held_none. Qed.
Lemma held_all_nil {A} (f : A -> resources) : held_all f [] = ∅.
Proof. done. Qed.
Lemma held_all_cons {A} (f : A -> resources) x l : held_all f (x :: l) = f x ⊎ held_all f l.
Proof. done. Qed.
Lemma held_all_app {A} (f : A -> resources) l k : held_all f (l ++ k) = held_all f l ⊎ held_all f k.
Proof.
  induction l as [|x l IH]; [by rewrite held_all_nil, held_none|].
  cbn [app]. rewrite !held_all_cons, IH. multiset_solver.
Qed.
Lemma held_all_replicate {A} (f : A -> resources) n x : f x = ∅ -> held_all f (replicate n x) = ∅.
Proof. intros Hx. induction n as [|n IH]; [done|]. cbn [replicate]. by rewrite held_all_cons, Hx, IH. Qed.
Lemma releases_spec r (l l' k : resources) : releases r l l' -> l = {[+ r +]} ⊎ k -> l' = k.
Proof. intros H ->. rewrite H by multiset_solver. multiset_solver. Qed.

(** One step of a run: a bind, a value, an access to the state, a guard. *)
Ltac host_cbn :=
  unfold set_kernel, set_ks in *;
  cbn [h_kernel h_xdp_prog h_attach_mode h_sockets h_control_socket h_output_socket h_running h_queue_threads
       h_control_thread] in *.
Ltac hwp_step :=
  cbv beta iota zeta;
  lazymatch goal with
  | |- hwp (mbind _ _) _ _ _ => apply hwp_bind
  | |- hwp (mret ?a) ?Q _ ?h => change (Q a h)
  | |- hwp (get ?f) ?Q _ ?h => change (Q (f h) h)
  | |- hwp (throw ?e) _ ?E ?h => change (E e h)
  | |- hwp (throw_if ?b ?e) ?Q ?E ?h => unfold throw_if; destruct b eqn:?; try discriminate
  | |- hwp (when ?b _) _ _ _ => unfold when; destruct b eqn:?; try discriminate
  | |- hwp (if ?b then _ else _) _ _ _ => destruct b eqn:?; try discriminate
  | |- hwp (set_prog ?p) ?Q _ (Host ?w _ ?m ?ss ?c ?o ?rn ?qt ?ct) => change (Q tt (Host w p m ss c o rn qt ct))
  | |- hwp (set_attach_mode ?m) ?Q _ (Host ?w ?p _ ?ss ?c ?o ?rn ?qt ?ct) => change (Q tt (Host w p m ss c o rn qt ct))
  | |- hwp (set_sockets ?ss) ?Q _ (Host ?w ?p ?m _ ?c ?o ?rn ?qt ?ct) => change (Q tt (Host w p m ss c o rn qt ct))
  | |- hwp (set_control_socket ?c) ?Q _ (Host ?w ?p ?m ?ss _ ?o ?rn ?qt ?ct) => change (Q tt (Host w p m ss c o rn qt ct))
  | |- hwp (set_output_socket ?o) ?Q _ (Host ?w ?p ?m ?ss ?c _ ?rn ?qt ?ct) => change (Q tt (Host w p m ss c o rn qt ct))
  | |- hwp (exchange_running ?b) ?Q _ (Host ?w ?p ?m ?ss ?c ?o ?rn ?qt ?ct) => change (Q rn (Host w p m ss c o b qt ct))
  | |- hwp (set_threads ?qt) ?Q _ (Host ?w ?p ?m ?ss ?c ?o ?rn _ ?ct) => change (Q tt (Host w p m ss c o rn qt ct))
  | |- hwp (set_control_thread ?ct) ?Q _ (Host ?w ?p ?m ?ss ?c ?o ?rn ?qt _) => change (Q tt (Host w p m ss c o rn qt ct))
  end; cbv beta zeta.
(** A step on an explicit state. *)
Ltac hstep := hwp_step; host_cbn.
