(* ===== verification/KernelDemo.v ===== *)
(** A kernel that behaves as Kernel.v documents and never fails: the concrete
    inputs on which the theorems about the replicator's life are applied. *)

From stdpp Require Import gmultiset.
From S2P Require Import Prelude CText XdpFilter Kernel.

Record demo_world := DemoWorld { dw_res : resources; dw_maps : maps }.

(** A key above 2 and above every key in use. *)
Definition next_key {A} (m : gmap Z A) : Z := 1 + foldr Z.max 2 (map fst (map_to_list m)).
Definition next_map (m : gmap (Z * Z) Z) : Z := 1 + foldr Z.max 2 (map (fun x => fst (fst x)) (map_to_list m)).

Lemma foldr_max_le (l : list Z) d x : x ∈ l \/ x = d -> x <= foldr Z.max d l.
Proof.
  induction l as [|y l IH]; cbn; [set_solver by lia|]. rewrite elem_of_cons. intros [[->|Hx]|Hx]; [lia|..]; pose proof IH; intuition lia.
Qed.
Lemma foldr_max_ge (l : list Z) d : d <= foldr Z.max d l.
Proof. apply foldr_max_le. by right. Qed.
Lemma next_key_fresh {A} (m : gmap Z A) k : next_key m <= k -> m !! k = None.
Proof.
  intros Hk. apply eq_None_not_Some. intros [x Hx]. apply elem_of_map_to_list in Hx.
  assert (k <= foldr Z.max 2 (map fst (map_to_list m))) as Hle.
  { apply foldr_max_le. left. apply list_elem_of_fmap. by exists (k, x). }
  unfold next_key in Hk. lia.
Qed.
Lemma next_key_ge {A} (m : gmap Z A) : 3 <= next_key m.
Proof. unfold next_key. pose proof (foldr_max_ge (map fst (map_to_list m)) 2). lia. Qed.
Lemma next_map_fresh m k : m !! (next_map m, k) = None.
Proof.
  apply eq_None_not_Some. intros [x Hx]. apply elem_of_map_to_list in Hx.
  assert (next_map m <= foldr Z.max 2 (map (fun x => fst (fst x)) (map_to_list m))) as Hle.
  { apply foldr_max_le. left. apply list_elem_of_fmap. by exists (next_map m, k, x). }
  unfold next_map in Hle. lia.
Qed.

(** struct bpf_map_info: the name in bytes 24 to 39. *)
Definition demo_info (name : cstr) : list ascii := replicate 24 NUL ++ name ++ replicate (64 - length name) NUL.
(** The descriptors of a loaded program; type information may come first. *)
Definition demo_fds (types_first : bool) (n config xsks : Z) : gmap Z fd_object :=
  let cm := FdMap config_map_name config (demo_info config_map_name) in
  let xm := FdMap xsks_map_name xsks (demo_info xsks_map_name) in
  if types_first then {[ n := FdBpf (replicate 32 NUL); n + 1 := cm; n + 2 := xm ]} else {[ n := cm; n + 1 := xm ]}.

Definition map_fd (fds : gmap Z fd_object) (name : cstr) : Z :=
  default 0 (head (omap (fun x => match x with
    | (fd, FdMap name' _ _) => if decide (name' = name) then if 0 <=? fd then Some fd else None else None
    | _ => None end) (map_to_list fds))).
Definition xsk_fd_of (fds : gmap Z fd_object) (x : Z) : Z :=
  default 0 (head (omap (fun y => match y with
    | (fd, FdXsk x') => if decide (x' = x) then if 0 <=? fd then Some fd else None else None
    | _ => None end) (map_to_list fds))).

Definition demo_answer (m : maps) (c : sys_call) : Z :=
  match c with
  | XdpProgramOpenFile _ => 7
  | FindMapByName (PROG p) name => map_fd (default ∅ (km_progs m !! p)) name
  | MapLookup _ _ => -1
  | Mmap _ => 4096
  | UmemCreate _ _ _ _ _ _ => 9
  | XskCreate _ _ _ _ _ _ _ => next_key (km_bound m)
  | XskFd x => xsk_fd_of (km_fds m) x
  | Socket => next_key (km_fds m)
  | ThreadCreate => 5
  | _ => 0
  end.

Definition demo_res (c : sys_call) (answer : Z) (l : resources) : resources :=
  match c with
  | XdpProgramOpenFile _ => {[+ RProg answer +]} ⊎ l
  | XdpProgramAttach (PROG p) i m => {[+ RAttached i p m +]} ⊎ l
  | XdpProgramDetach (PROG p) i m => l ∖ {[+ RAttached i p m +]}
  | XdpProgramClose (PROG p) => l ∖ {[+ RProg p +]}
  | Mmap _ => {[+ RMem answer +]} ⊎ l
  | Munmap area _ => l ∖ {[+ RMem area +]}
  | UmemCreate _ _ _ _ _ _ => {[+ RUmem answer +]} ⊎ l
  | UmemDelete u => l ∖ {[+ RUmem u +]}
  | XskCreate _ _ _ _ _ _ _ => {[+ RXsk answer +]} ⊎ l
  | XskDelete x => l ∖ {[+ RXsk x +]}
  | Socket => {[+ RFd answer +]} ⊎ l
  | Close fd => l ∖ {[+ RFd fd +]}
  | ThreadCreate => {[+ RThread answer +]} ⊎ l
  | ThreadJoin t => l ∖ {[+ RThread t +]}
  | _ => l
  end.

Section demo.
Context (types_first : bool).

Definition demo_maps (c : sys_call) (answer : Z) (m : maps) : maps :=
  match c with
  | XdpProgramAttach (PROG p) _ _ =>
      let config := next_key (km_config m) in
      let fds := demo_fds types_first (next_key (km_fds m)) config (next_map (km_entries m)) in
      Maps (fds ∪ km_fds m) (<[p := fds]> (km_progs m)) (<[config := UnicastConfig 0 0]> (km_config m)) (km_entries m) (km_bound m)
  | MapUpdateConfig fd key config =>
      match km_fds m !! fd with
      | Some (FdMap _ obj _) => Maps (km_fds m) (km_progs m) (<[obj := config]> (km_config m)) (km_entries m) (km_bound m)
      | _ => m
      end
  | MapUpdateXsk fd key sock_fd =>
      match km_fds m !! fd, km_fds m !! sock_fd with
      | Some (FdMap _ obj _), Some (FdXsk x) =>
          Maps (km_fds m) (km_progs m) (km_config m) (<[(obj, key) := x]> (km_entries m)) (km_bound m)
      | _, _ => m
      end
  | XskCreate ifname queue _ _ _ _ _ =>
      Maps (<[next_key (km_fds m) := FdXsk answer]> (km_fds m)) (km_progs m) (km_config m) (km_entries m)
        (<[answer := (ifname, queue)]> (km_bound m))
  | Socket => Maps (<[answer := FdOther]> (km_fds m)) (km_progs m) (km_config m) (km_entries m) (km_bound m)
  | _ => m
  end.

Definition demo_sys (c : sys_call) (w : demo_world) : Z * demo_world :=
  let answer := demo_answer (dw_maps w) c in
  (answer, DemoWorld (demo_res c answer (dw_res w)) (demo_maps c answer (dw_maps w))).
Definition demo_obj_info (w : demo_world) (fd : Z) (len : nat) : option (list ascii) :=
  take len <$> (km_fds (dw_maps w) !! fd ≫= fd_info).

Lemma found_fd (f : Z * fd_object -> option Z) (fds : gmap Z fd_object) fd o :
  fds !! fd = Some o -> f (fd, o) = Some fd ->
  exists k v, fds !! k = Some v /\ default 0 (head (omap f (map_to_list fds))) = default 0 (f (k, v)) /\ f (k, v) <> None.
Proof.
  intros Ho Hf. apply elem_of_map_to_list in Ho.
  assert (forall x, x ∈ map_to_list fds -> fds !! x.1 = Some x.2) as Hin by (intros [k v]; apply elem_of_map_to_list).
  revert Hin Ho. generalize (map_to_list fds). intros l Hin Ho. induction l as [|[k v] l IH]; [set_solver|].
  destruct (f (k, v)) as [z|] eqn:Ez.
  - exists k, v. rewrite (omap_cons_some _ _ _ _ Ez), Ez. split; [|done]. apply (Hin (k, v)). set_solver.
  - rewrite (omap_cons_none _ _ _ Ez). apply IH; [set_solver|]. apply list_elem_of_In in Ho. destruct Ho as [[= -> ->]|Ho]; [congruence|].
    by apply list_elem_of_In.
Qed.

Lemma map_fd_only fds name fd obj : only_map fds name fd obj -> 0 <= fd -> map_fd fds name = fd.
Proof.
  intros [(info & Hi) Hu] Hfd. unfold map_fd.
  edestruct (found_fd (fun x => match x with (fd, FdMap name' _ _) => if decide (name' = name) then if 0 <=? fd then Some fd else None else None | _ => None end)) as (k & v & Hk & -> & Hv);
    [exact Hi|cbv beta iota; rewrite decide_True by done; by rewrite (proj2 (Z.leb_le 0 fd))|].
  destruct v as [n' o' i'| | |]; try done. destruct (decide (n' = name)) as [->|]; [|done]. destruct (0 <=? k); [|done].
  by apply (Hu k o' i').
Qed.
Lemma xsk_fd_found fds fd x : fds !! fd = Some (FdXsk x) -> 0 <= fd -> fds !! xsk_fd_of fds x = Some (FdXsk x).
Proof.
  intros Hi Hfd. unfold xsk_fd_of.
  edestruct (found_fd (fun y => match y with (fd, FdXsk x') => if decide (x' = x) then if 0 <=? fd then Some fd else None else None | _ => None end)) as (k & v & Hk & -> & Hv);
    [exact Hi|cbv beta iota; rewrite decide_True by done; by rewrite (proj2 (Z.leb_le 0 fd))|].
  destruct v as [| |x'|]; try done. destruct (decide (x' = x)) as [->|]; [|done]. by destruct (0 <=? k).
Qed.
Lemma head_nonneg (l : list Z) : Forall (fun z => 0 <= z) l -> 0 <= default 0 (head l).
Proof. by intros [|]. Qed.
Lemma map_fd_nonneg fds name : 0 <= map_fd fds name.
Proof.
  apply head_nonneg, Forall_forall. intros z Hz. apply list_elem_of_omap in Hz as ([fd o] & _ & Hf).
  destruct o; try done. repeat case_match; simplify_eq; zb; done.
Qed.
Lemma xsk_fd_nonneg fds x : 0 <= xsk_fd_of fds x.
Proof.
  apply head_nonneg, Forall_forall. intros z Hz. apply list_elem_of_omap in Hz as ([fd o] & _ & Hf).
  destruct o; try done. repeat case_match; simplify_eq; zb; done.
Qed.

Lemma demo_fds_spec n config xsks (m : gmap Z fd_object) :
  (forall k, n <= k -> m !! k = None) ->
  demo_fds types_first n config xsks ##ₘ m /\
  exists cfd xfd, filter_maps (demo_fds types_first n config xsks) cfd config xfd xsks /\ n <= xfd.
Proof.
  intros Hf. split.
  { unfold demo_fds. destruct types_first; repeat (apply map_disjoint_insert_l; split; [apply Hf; lia|]);
      apply map_disjoint_empty_l. }
  exists (if types_first then n + 1 else n), (if types_first then n + 2 else n + 1). split; [|destruct types_first; lia].
  assert (xsks_map_name <> config_map_name) as Hne by done.
  unfold demo_fds, filter_maps, only_map. destruct types_first.
  - split; (split; [eexists; rewrite ?lookup_insert_ne by lia; first [apply lookup_insert_eq|apply lookup_singleton_eq]|]);
      intros fd' obj' info' H; rewrite !lookup_insert_Some, lookup_singleton_Some in H;
      destruct H as [[H1 H2]|[_ [[H1 H2]|[_ [H1 H2]]]]]; simplify_eq; done.
  - split; (split; [eexists; rewrite ?lookup_insert_ne by lia; first [apply lookup_insert_eq|apply lookup_singleton_eq]|]);
      intros fd' obj' info' H; rewrite !lookup_insert_Some, lookup_singleton_Some in H;
      destruct H as [[H1 H2]|[_ [H1 H2]]]; simplify_eq; done.
Qed.

#[export] Instance demo_documented : Documented demo_sys dw_res dw_maps.
Proof.
  split.
  - intros c w. destruct c as [| | | |[] ? ?|[] ? ?|[]|[] ?| | | | | | | | | | | | | | | | | | | | |]; cbn; try done.
    unfold acquires. pose proof (next_key_ge (km_bound (dw_maps w))). by rewrite (proj2 (Z.ltb_lt 0 _)) by lia.
    all: try (unfold acquires; pose proof (next_key_ge (km_fds (dw_maps w))); by rewrite (proj2 (Z.ltb_ge _ 0)) by lia).
  - intros c w. destruct w as [l m]. destruct c as [| | | |[] ? ?|[] ? ?|[]|[] ?| | | | | | | | | | | | | | | | | | | | |]; cbn; try done.
    + intros _. destruct (demo_fds_spec (next_key (km_fds m)) (next_key (km_config m)) (next_map (km_entries m)) (km_fds m))
        as (Hd & cfd & xfd & Hfm & Hx); [intros k; apply next_key_fresh|].
      eexists _, cfd, _, xfd, _. split; [exact Hfm|]. pose proof (next_key_ge (km_fds m)).
      split; [lia|]. split; [exact Hd|]. split; [by apply next_key_fresh|]. split; [apply next_map_fresh|done].
    + split; [done|]. intros fds fd obj Hp Ho Hfd. rewrite Hp. by eapply map_fd_only.
    + intros _ name obj info Hfd _. by rewrite Hfd.
    + intros _ name obj info x Hfd Hs. by rewrite Hfd, Hs.
    + intros _. split; [by apply next_key_fresh|]. pose proof (next_key_ge (km_fds m)).
      exists (next_key (km_fds m)). split; [lia|]. by split; [apply next_key_fresh|].
    + split; [done|]. intros fd Hfd Hx. by eapply xsk_fd_found.
    + intros _. split; [by apply next_key_fresh|done].
Qed.

Lemma demo_obliging : obliging demo_sys.
Proof.
  intros c w. unfold demo_sys. cbn [fst].
  pose proof (next_key_ge (km_bound (dw_maps w))). pose proof (next_key_ge (km_fds (dw_maps w))).
  destruct c as [| | | | | | |[] name| | | | | | | | | | |x| | | | | | | | | |]; cbn; try done.
  - apply Z.leb_le, map_fd_nonneg.
  - apply Z.ltb_lt. lia.
  - apply Z.leb_le, xsk_fd_nonneg.
  - apply Z.leb_le. lia.
Qed.
End demo.
