(* ===== verification/XskLife.v ===== *)
(** The life of an AF_XDP socket (AFXDPSocket.cpp): loading and unloading the XDP
    program, the packet memory, creation and registration of the socket, close,
    destruction and moves.  The rings and counters in between are Xsk.v.

    The sockets are the elements of the replicator's vector; a method works on one
    of them, so that what it changed before an exception stays. *)

From stdpp Require Import gmultiset.
From S2P Require Import Prelude XdpFilter Frame Xsk Kernel.

Definition PAGE_SIZE : Z := 4096.
Definition UMEM_FRAMES : Z := TX_FRAMES + RX_FRAMES.
Definition XDP_FLAGS_SKB_MODE : Z := 2.
Definition XDP_FLAGS_DRV_MODE : Z := 4.
Definition XDP_FLAGS_HW_MODE : Z := 8.
Definition XDP_FLAGS_ZERO_COPY : Z := 16.
(** linux/if_xdp.h and xsk.h *)
Definition XDP_COPY : Z := 2.
Definition XDP_ZEROCOPY : Z := 4.
Definition XDP_USE_NEED_WAKEUP : Z := 8.
Definition XSK_LIBBPF_FLAGS__INHIBIT_PROG_LOAD : Z := 1.

Section XskLife.
Context {W : Type} (sys : sys_call -> W -> Z * W).
(** xsk_ring_prod__reserve, as in Xsk.v; the index of an interface, 0 for none. *)
Variable reserve : Z -> Z -> Z.
Variable if_nametoindex : cstr -> Z.
Notation ask := (ask sys).
Notation do_call := (do_call sys).

(** ** The XDP program *)

Definition setResourceLimits : action W unit :=
  failed ← ask SetrlimitMemlock;
  throw_if (negb (failed =? 0)) runtime_error.

(** Detach and close the program, if there is one. *)
Definition drop_program (ifindex : Z) : action W unit :=
  prog ← get h_xdp_prog;
  match prog with
  | PROG_NULL => mret tt
  | _ =>
      mode ← get h_attach_mode;
      do_call (XdpProgramDetach prog ifindex mode);;
      do_call (XdpProgramClose prog);;
      set_prog PROG_NULL
  end.

Definition loadXdpProgram (ifName programPath : cstr) (nativeMode : bool) : action W unit :=
  when (negb nativeMode) (set_attach_mode XDP_MODE_SKB);;
  let ifindex := if_nametoindex ifName in
  drop_program ifindex;;
  handle ← ask (XdpProgramOpenFile programPath);
  let prog := if 0 <? handle then PROG handle else PROG_ERROR in
  set_prog prog;;
  throw_if (handle <=? 0) runtime_error;;
  err ← ask (XdpProgramSetFrags prog true);
  throw_if (negb (err =? 0)) runtime_error;;
  mode ← get h_attach_mode;
  err ← ask (XdpProgramAttach prog ifindex mode);
  if negb (err =? 0) then
    do_call (XdpProgramClose prog);; set_prog PROG_NULL;; throw runtime_error
  else mret tt.

Definition unloadXdpProgram (ifName : cstr) (nativeMode : bool) : action W unit :=
  when (negb nativeMode) (set_attach_mode XDP_MODE_SKB);;
  drop_program (if_nametoindex ifName).

(** ** Memory *)

Definition allocateAlignedBuffer (size : Z) : action W Z :=
  let size := s32 size in
  let alignedSize := u64 (Z.land (size + PAGE_SIZE - 1) (Z.lnot (PAGE_SIZE - 1))) in
  buffer ← ask (Mmap alignedSize);
  throw_if (buffer =? -1) runtime_error;;
  mret buffer.
Definition freeAlignedBuffer (buffer size : Z) : action W unit := do_call (Munmap buffer size).

(** ** Close and destruction *)

(** The loop over completions of close(): at most [retries] rounds. *)
Fixpoint complete_outstanding (retries : nat) (x outstanding : Z) : action W Z :=
  match retries with
  | O => mret outstanding
  | S retries =>
      if outstanding <=? 0 then mret outstanding
      else
        completed ← ask (ConsPeek x outstanding);
        let outstanding := if 0 <? completed then u32 (outstanding - completed) else outstanding in
        when (0 <? outstanding)
          (wakeup ← ask (NeedsWakeup x);
           when (negb (wakeup =? 0)) (fd ← ask (XskFd x); do_call (Sendto fd)));;
        complete_outstanding retries x outstanding
  end.

(** One round of the removal of this socket from the map. *)
Definition unregister (map_fd : Z) (x : option Z) (i : Z) : action W unit :=
  sock_fd ← ask (MapLookup map_fd i);
  when (0 <=? sock_fd)
    match x with
    | Some x => fd ← ask (XskFd x); when (sock_fd =? fd) (do_call (MapDelete map_fd i))
    | None => mret tt
    end.

Definition with_closed (s : sock) : sock :=
  Sock (close_socket (so_rings s)) (so_buffer s) (so_buffer_size s) (so_headroom s) (so_xsk s) (so_umem s)
    (so_umem_size s) (so_map_fd s) (so_ifindex s) (so_wrapper_outstanding s).
Definition without_handles (s : sock) (outstanding : Z) : sock :=
  Sock (so_rings s) (so_buffer s) (so_buffer_size s) (so_headroom s) None None
    (so_umem_size s) (so_map_fd s) (so_ifindex s) outstanding.

(** close(): the socket afterwards. *)
Definition close_sock (s : sock) : action W sock :=
  if xk_closed (so_rings s) then mret s
  else
    outstanding ←
      match so_xsk s with
      | Some x =>
          if 0 <? so_wrapper_outstanding s then complete_outstanding 10 x (so_wrapper_outstanding s)
          else mret (so_wrapper_outstanding s)
      | None => mret (so_wrapper_outstanding s)
      end;
    when (0 <=? so_map_fd s) (for_each (unregister (so_map_fd s) (so_xsk s)) (seqZ 0 256));;
    match so_xsk s with Some x => do_call (XskDelete x) | None => mret tt end;;
    match so_umem s with Some u => do_call (UmemDelete u) | None => mret tt end;;
    mret (without_handles (with_closed s) outstanding).

Definition destroy_sock (s : sock) : action W unit :=
  s ← close_sock s;
  match so_buffer s with
  | Some buffer => freeAlignedBuffer buffer (so_buffer_size s)
  | None => mret tt
  end.
Definition destroy_opt (s : option sock) : action W unit :=
  match s with Some s => destroy_sock s | None => mret tt end.

(** ** Moves *)

Definition moved_from (s : sock) : sock :=
  Sock (close_socket (so_rings s)) None 0 (so_headroom s) None None 0 (-1) (-1) 0.
(** The new socket and the old one. *)
Definition move_construct (other : sock) : sock * sock := (other, moved_from other).
(** The buffer of the target is not freed. *)
Definition move_assign (target other : sock) : action W (sock * sock) :=
  _ ← close_sock target; mret (other, moved_from other).

(** ** Set-up *)

(** The constructor, assigned to element [q] of the vector. *)
Definition new_AFXDPSocket (q : nat) (frameSize frameCount headroom : Z) : action W unit :=
  match new_socket frameSize frameCount with
  | None => throw invalid_argument
  | Some (rings, size) =>
      buffer ← allocateAlignedBuffer size;
      ss ← get h_sockets;
      set_slot_to q (Some (Sock rings (Some buffer) size headroom None None 0 (-1) (-1) 0));;
      destroy_opt (default None (ss !! q))
  end.

Definition getUmemBuffer (s : sock) : option Z := if xk_closed (so_rings s) then None else so_buffer s.

Definition with_umem_size (s : sock) : sock :=
  Sock (so_rings s) (so_buffer s) (so_buffer_size s) (so_headroom s) (so_xsk s) (so_umem s)
    (u32 (so_buffer_size s)) (so_map_fd s) (so_ifindex s) (so_wrapper_outstanding s).
Definition with_umem (s : sock) (u : Z) : sock :=
  Sock (so_rings s) (so_buffer s) (so_buffer_size s) (so_headroom s) (so_xsk s) (Some u)
    (so_umem_size s) (so_map_fd s) (so_ifindex s) (so_wrapper_outstanding s).
Definition with_ifindex (s : sock) (i : Z) : sock :=
  Sock (so_rings s) (so_buffer s) (so_buffer_size s) (so_headroom s) (so_xsk s) (so_umem s)
    (so_umem_size s) (so_map_fd s) i (so_wrapper_outstanding s).
Definition with_xsk (s : sock) (x : Z) : sock :=
  Sock (so_rings s) (so_buffer s) (so_buffer_size s) (so_headroom s) (Some x) (so_umem s)
    (so_umem_size s) (so_map_fd s) (so_ifindex s) (so_wrapper_outstanding s).
Definition with_rings (s : sock) (r : xsk) : sock :=
  Sock r (so_buffer s) (so_buffer_size s) (so_headroom s) (so_xsk s) (so_umem s)
    (so_umem_size s) (so_map_fd s) (so_ifindex s) (so_wrapper_outstanding s).
Definition with_map_fd (s : sock) (fd : Z) : sock :=
  Sock (so_rings s) (so_buffer s) (so_buffer_size s) (so_headroom s) (so_xsk s) (so_umem s)
    (so_umem_size s) fd (so_ifindex s) (so_wrapper_outstanding s).

Definition isClosed (s : sock) : bool := xk_closed (so_rings s).
Definition checkOpen (s : sock) : action W unit := throw_if (isClosed s) runtime_error.

Definition setupUMem (q : nat) : action W unit :=
  s ← slot q;
  checkOpen s;;
  match so_buffer s with
  | None => throw invalid_argument
  | Some area =>
      let s := with_umem_size s in
      set_slot_to q (Some s);;
      throw_if (negb (area mod PAGE_SIZE =? 0)) invalid_argument;;
      throw_if (so_umem_size s <? u32 (UMEM_FRAMES * u32 (xk_chunk_size (so_rings s)))) invalid_argument;;
      u ← ask (UmemCreate area (so_umem_size s) (RX_FRAMES * 2) (TX_FRAMES * 2)
                  (xk_chunk_size (so_rings s)) (so_headroom s));
      throw_if (u <=? 0) runtime_error;;
      set_slot_to q (Some (with_umem s u))
  end.

(** The bind flags of a mode; None is an invalid mode. *)
Definition bind_flags_of (flags : Z) : option Z :=
  if flags =? XDP_FLAGS_SKB_MODE then Some (Z.lor XDP_COPY XDP_USE_NEED_WAKEUP)
  else if flags =? XDP_FLAGS_DRV_MODE then Some XDP_USE_NEED_WAKEUP
  else if flags =? XDP_FLAGS_HW_MODE then Some XDP_USE_NEED_WAKEUP
  else if flags =? XDP_FLAGS_ZERO_COPY then Some (Z.lor XDP_ZEROCOPY XDP_USE_NEED_WAKEUP)
  else None.

Definition bind_socket (q : nat) (ifName : cstr) (queueId flags : Z) : action W unit :=
  s ← slot q;
  checkOpen s;;
  match so_umem s with
  | None => throw runtime_error
  | Some umem =>
      let ifindex := if_nametoindex ifName in
      throw_if (ifindex =? 0) invalid_argument;;
      let s := with_ifindex s ifindex in
      set_slot_to q (Some s);;
      match bind_flags_of flags with
      | None => throw invalid_argument
      | Some bind_flags =>
          x ← ask (XskCreate ifName queueId umem RX_FRAMES TX_FRAMES XSK_LIBBPF_FLAGS__INHIBIT_PROG_LOAD bind_flags);
          throw_if (x <=? 0) runtime_error;;
          let s := with_xsk s x in
          set_slot_to q (Some s);;
          match bind_fill reserve (so_rings s) with
          | None => throw runtime_error
          | Some rings => set_slot_to q (Some (with_rings s rings))
          end
      end
  end.

(** The descriptor of the libxdp socket; there is none for a null pointer. *)
Definition xsk_fd (x : option Z) : action W Z :=
  match x with Some x => ask (XskFd x) | None => mret (-1) end.
Definition getFd (q : nat) : action W Z :=
  s ← slot q;
  checkOpen s;;
  fd ← xsk_fd (so_xsk s);
  throw_if (fd <? 0) runtime_error;;
  mret fd.

(** A program without BPF object or without the map has no descriptor for it. *)
Definition registerXskMap (q : nat) (queueId : Z) : action W unit :=
  s ← slot q;
  checkOpen s;;
  prog ← get h_xdp_prog;
  throw_if (match prog with PROG_NULL => true | _ => false end) runtime_error;;
  xsks_map_fd ← ask (FindMapByName prog xsks_map_name);
  throw_if (xsks_map_fd <? 0) runtime_error;;
  set_slot_to q (Some (with_map_fd s xsks_map_fd));;
  sock_fd ← xsk_fd (so_xsk s);
  throw_if (sock_fd <? 0) runtime_error;;
  ret ← ask (MapUpdateXsk xsks_map_fd (u32 queueId) sock_fd);
  throw_if (negb (ret =? 0)) runtime_error.

(** copyUmemData: the copy into the packet memory, or the exception. *)
Definition copyUmemData (s : sock) (m : umem) (sourceBuffer : option (list Z)) (sourceOffset destOffset length : Z) : umem + exn :=
  if xk_closed (so_rings s) then inr runtime_error
  else match sourceBuffer with
  | None => inr invalid_argument
  | Some src => inl (mem_write m destOffset (take (Z.to_nat length) (drop (Z.to_nat sourceOffset) src)))
  end.
End XskLife.

(** ** Resources: proofs *)

Section resources.
Context {W : Type} (sys : sys_call -> W -> Z * W) (held_by : W -> resources) (maps_of : W -> maps).
Context `{!Documented sys held_by maps_of}.
Implicit Types (E : exn -> host W -> Prop) (F : resources).

(** A call that neither acquires nor releases. *)
Definition quiet_call (c : sys_call) : Prop := forall answer l l', res_effect c answer l l' -> l' = l.
Lemma hwp_quiet c (Q : Z -> host W -> Prop) E h :
  quiet_call c -> (forall answer w, held_by w = held_by (h_kernel h) -> (obliging sys -> success c answer = true) -> Q answer (set_kernel w h)) ->
  hwp (ask sys c) Q E h.
Proof. intros Hc H. apply (hwp_call_doc sys held_by maps_of). intros answer w _ Hr Ho. apply H; [by eapply Hc|done]. Qed.
Lemma hwp_do_quiet c (Q : unit -> host W -> Prop) E h :
  quiet_call c -> (forall w, held_by w = held_by (h_kernel h) -> Q tt (set_kernel w h)) -> hwp (do_call sys c) Q E h.
Proof. intros Hc H. apply hwp_bind, hwp_quiet; [done|]. intros answer w Hw _. by apply H. Qed.
(** A release of what is held. *)
Lemma hwp_release c r F (Q : unit -> host W -> Prop) E h :
  (forall answer l l', res_effect c answer l l' -> releases r l l') -> held_by (h_kernel h) = {[+ r +]} ⊎ F ->
  (forall w, held_by w = F -> Q tt (set_kernel w h)) -> hwp (do_call sys c) Q E h.
Proof.
  intros Hc Hh H. apply (hwp_do_call sys held_by maps_of). intros answer w _ Hr _. apply H.
  eapply releases_spec; [by eapply Hc|done].
Qed.

(** The whole state but the kernel, whose resources are [F], is as before. *)
Definition kernel_only F (h h' : host W) : Prop := exists w, h' = set_kernel w h /\ held_by w = F.
Lemma kernel_only_refl h : kernel_only (held_by (h_kernel h)) h h.
Proof. exists (h_kernel h). by destruct h. Qed.

Lemma hwp_complete_outstanding n x o E h :
  hwp (complete_outstanding sys n x o) (fun _ => kernel_only (held_by (h_kernel h)) h) E h.
Proof.
  revert o h. induction n as [|n IH]; intros o h; cbn [complete_outstanding]; [apply kernel_only_refl|].
  destruct (o <=? 0); [apply kernel_only_refl|].
  hwp_step. apply hwp_quiet; [by intros ???|]. intros completed w Hw _. hwp_step.
  apply (hwp_mono _ (fun _ => kernel_only (held_by (h_kernel h)) h) _ E).
  - hwp_step; [|by eexists]. hwp_step. apply hwp_quiet; [by intros ???|]. intros wakeup w1 Hw1 _.
    hwp_step; [|eexists; split; [done|by rewrite Hw1]]. hwp_step. apply hwp_quiet; [by intros ???|]. intros fd w2 Hw2 _.
    apply hwp_do_quiet; [by intros ???|]. intros w3 Hw3. eexists; split; [done|]. cbn in *. congruence.
  - intros _ h1 (w1 & -> & H1). eapply hwp_mono; [apply IH| |done].
    intros _ h2 (w2 & -> & H2). exists w2. split; [done|]. cbn in *. congruence.
  - done.
Qed.

Lemma hwp_unregister fd x l E h :
  hwp (for_each (unregister sys fd x) l) (fun _ => kernel_only (held_by (h_kernel h)) h) E h.
Proof.
  eapply (hwp_for_each _ (fun _ h' => kernel_only (held_by (h_kernel h)) h h')); [|apply kernel_only_refl].
  intros i _ h1 (w1 & -> & H1). unfold unregister. hwp_step.
  apply hwp_quiet; [by intros ???|]. intros sock_fd w2 H2 _. cbn in H2.
  hwp_step; [|exists w2; split; [done|congruence]].
  destruct x as [x|]; [|exists w2; split; [done|congruence]].
  hwp_step. apply hwp_quiet; [by intros ???|]. intros xfd w3 H3 _. cbn in H3.
  hwp_step; [|exists w3; split; [done|congruence]].
  apply hwp_do_quiet; [by intros ???|]. intros w4 H4. cbn in H4. exists w4. split; [done|congruence].
Qed.

(** A closed socket has no handles. *)
Definition sock_wf (s : sock) : Prop := xk_closed (so_rings s) = true -> so_xsk s = None /\ so_umem s = None.

Lemma hwp_release_handle (f : Z -> resource) (c : Z -> sys_call) o F E h :
  (forall x answer l l', res_effect (c x) answer l l' -> releases (f x) l l') ->
  held_by (h_kernel h) = opt_res f o ⊎ F ->
  hwp (match o with Some x => do_call sys (c x) | None => mret tt end) (fun _ => kernel_only F h) E h.
Proof.
  intros Hc Hh. destruct o as [x|].
  - eapply (hwp_release _ (f x) F); [exact (Hc x)|exact Hh|]. intros w Hw. by exists w.
  - rewrite held_no_opt in Hh. rewrite <- Hh. apply kernel_only_refl.
Qed.

Lemma hwp_close_sock s F E h :
  sock_wf s -> held_by (h_kernel h) = held_sock s ⊎ F ->
  hwp (close_sock sys s) (fun s' h' => so_buffer s' = so_buffer s /\ kernel_only (opt_res RMem (so_buffer s) ⊎ F) h h') E h.
Proof.
  intros Hs Hh. unfold close_sock. destruct (xk_closed (so_rings s)) eqn:Hc.
  { destruct (Hs Hc) as [Hx Hu]. unfold held_sock in Hh. rewrite Hx, Hu, !held_no_opt in Hh.
    split; [done|]. rewrite <- Hh. apply kernel_only_refl. }
  hwp_step. apply (hwp_mono _ (fun _ => kernel_only (held_by (h_kernel h)) h) _ E); [|intros out h1 H1|done].
  { destruct (so_xsk s); [|apply kernel_only_refl]. destruct (0 <? _); [apply hwp_complete_outstanding|apply kernel_only_refl]. }
  hwp_step. apply (hwp_mono _ (fun _ => kernel_only (held_by (h_kernel h)) h) _ E); [|intros [] h2 (w2 & -> & H2)|done].
  { hwp_step; [|done]. eapply hwp_mono; [apply hwp_unregister| |done]. intros [] h2 H2.
    destruct H1 as (w1 & E1 & H1), H2 as (w2 & E2 & H2). subst. exists w2. cbn in *. split; [done|congruence]. }
  hwp_step. eapply hwp_mono; [apply (hwp_release_handle RXsk XskDelete _ (opt_res RUmem (so_umem s) ⊎ opt_res RMem (so_buffer s) ⊎ F)); [by intros ????|]| |done].
  { cbn. rewrite H2, Hh. unfold held_sock. multiset_solver. }
  intros [] h3 (w3 & -> & H3). hwp_step.
  eapply hwp_mono; [apply (hwp_release_handle RUmem UmemDelete _ (opt_res RMem (so_buffer s) ⊎ F)); [by intros ????|]| |done].
  { cbn. rewrite H3. multiset_solver. }
  intros [] h4 (w4 & -> & H4). split; [done|]. by exists w4.
Qed.

Lemma hwp_destroy_opt o F E h :
  (forall s, o = Some s -> sock_wf s) -> held_by (h_kernel h) = held_slot o ⊎ F ->
  hwp (destroy_opt sys o) (fun _ => kernel_only F h) E h.
Proof.
  intros Hs Hh. destruct o as [s|]; cbn [destroy_opt].
  - unfold destroy_sock. hwp_step. eapply hwp_mono; [apply hwp_close_sock; [by apply Hs|done]| |done].
    intros s' h1 (Hb & w1 & -> & H1). rewrite Hb.
    eapply hwp_mono; [apply (hwp_release_handle RMem (fun a => Munmap a (so_buffer_size s')) _ F); [by intros ????|done]| |done].
    intros [] h2 (w2 & -> & H2). by exists w2.
  - rewrite (held_none F : held_slot None ⊎ F = F) in Hh. rewrite <- Hh. apply kernel_only_refl.
Qed.
End resources.

(** The exceptions a handler catches. *)
Definition standard (e : exn) : Prop := e <> Undefined /\ e <> Terminate.

(** ** One element of the vector: proofs *)

Section one_slot.
Context {W : Type} (sys : sys_call -> W -> Z * W) (held_by : W -> resources) (maps_of : W -> maps).
Context `{!Documented sys held_by maps_of}.
Variable reserve : Z -> Z -> Z.
Variable if_nametoindex : cstr -> Z.
(** The state before; the element; what the rest holds. *)
Context (h0 : host W) (q : nat) (Hq : (q < length (h_sockets h0))%nat) (F : resources).

(** [h0] with another kernel, element [o], and the resources that go with it. *)
Definition slot_state (P : option sock -> Prop) (h : host W) : Prop :=
  exists o w, h = set_ks w (<[q := o]> (h_sockets h0)) h0 /\ held_by w = held_slot o ⊎ F /\ P o.
Definition opened (o : option sock) : Prop := forall s, o = Some s -> xk_closed (so_rings s) = false.
(** An exception: the element is still as it should be, and [fine] does not hold. *)
Definition slot_error (fine : Prop) (e : exn) (h : host W) : Prop := standard e /\ ~ fine /\ slot_state opened h.

Lemma hwp_slot_at s w Q (E : exn -> host W -> Prop) :
  Q s (set_ks w (<[q := Some s]> (h_sockets h0)) h0) -> hwp (slot q) Q E (set_ks w (<[q := Some s]> (h_sockets h0)) h0).
Proof. intros H. apply (hwp_slot _ s); [|done]. cbn. by apply list_lookup_insert_eq. Qed.
Lemma hwp_set_at o o' w (Q : unit -> host W -> Prop) (E : exn -> host W -> Prop) :
  Q tt (set_ks w (<[q := o']> (h_sockets h0)) h0) -> hwp (set_slot_to q o') Q E (set_ks w (<[q := o]> (h_sockets h0)) h0).
Proof. intros H. unfold hwp, set_slot_to, mbind, action_bind, get, set_sockets. cbn. by rewrite list_insert_insert_eq. Qed.

(** After construction, after setupUMem, after bind. *)
Definition fresh_rings : xsk := match new_socket 4096 (TX_FRAMES + RX_FRAMES) with Some (r, _) => r | None => Xsk true 0 0 0 0 [] (ProdRing 0 0 0 0 (fun _ => 0)) (ProdRing 0 0 0 0 (fun _ => (0, 0))) [] 0 end.
Definition constructed (o : option sock) : Prop :=
  exists s a, o = Some s /\ so_rings s = fresh_rings /\ so_buffer_size s = 16777216 /\ so_buffer s = Some a /\
    so_xsk s = None /\ so_umem s = None /\ (obliging sys -> a mod PAGE_SIZE = 0).
Definition with_memory (o : option sock) : Prop :=
  exists s u, o = Some s /\ so_rings s = fresh_rings /\ so_xsk s = None /\ so_umem s = Some u.
Definition bound_socket (o : option sock) : Prop :=
  exists s x, o = Some s /\ bind_fill reserve fresh_rings = Some (so_rings s) /\ so_xsk s = Some x.

Lemma hwp_new_socket :
  h_sockets h0 !! q = Some None -> held_by (h_kernel h0) = F ->
  hwp (new_AFXDPSocket sys q 4096 (TX_FRAMES + RX_FRAMES) 0) (fun _ => slot_state constructed) (slot_error (obliging sys)) h0.
Proof.
  intros Hn Hh. unfold new_AFXDPSocket. change (new_socket 4096 (TX_FRAMES + RX_FRAMES)) with (Some (fresh_rings, 16777216)).
  hwp_step. unfold allocateAlignedBuffer. hwp_step. apply (hwp_call_doc sys held_by maps_of).
  intros a w _ Hr Ho. cbn [res_effect success] in *. repeat hwp_step.
  - split; [done|]. split; [intros Hg; specialize (Ho Hg); zb; lia|].
    exists None, w. rewrite list_insert_id by done. split; [by destruct h0|]. split; [by rewrite held_none, Hr|by intros s].
  - replace (a =? -1) with false in Hr. unfold acquires in Hr.
    unfold set_slot_to. repeat hwp_step. unfold set_sockets, hwp. cbn [h_sockets set_kernel]. rewrite Hn. cbn.
    eexists _, w. split; [reflexivity|]. split; [rewrite Hr, Hh; unfold held_slot, held_sock; cbn [so_xsk so_umem so_buffer opt_res]; multiset_solver|].
    eexists _, a. do 6 (split; [reflexivity|]). intros Hg. specialize (Ho Hg). unfold PAGE_SIZE. zb. lia.
Qed.

Lemma hwp_setupUMem h :
  slot_state constructed h -> hwp (setupUMem sys q) (fun _ => slot_state with_memory) (slot_error (obliging sys)) h.
Proof.
  intros (o & w & -> & Hh & s & a & -> & Hr & Hs & Hb & Hx & Hu & Ha). unfold setupUMem, checkOpen, isClosed.
  assert (opened (Some s)) as Hop by (intros s' [= <-]; by rewrite Hr).
  hwp_step. apply hwp_slot_at. hwp_step. rewrite Hr. hwp_step. hwp_step. rewrite Hb. hwp_step. apply hwp_set_at.
  assert (held_slot (Some (with_umem_size s)) = held_slot (Some s)) as Es by done.
  assert (opened (Some (with_umem_size s))) as Hop' by (intros s' [= <-]; cbn; by rewrite Hr).
  repeat hwp_step.
  - split; [done|]. split; [intros Hg; specialize (Ha Hg); zb; done|]. exists (Some (with_umem_size s)), w. by rewrite Es.
  - exfalso. cbn [with_umem_size so_umem_size so_rings] in *. rewrite Hs, Hr in *. done.
  - apply (hwp_call_doc sys held_by maps_of). intros u w' _ Hw Ho. cbn [res_effect success] in *. repeat hwp_step.
    + split; [done|]. split; [intros Hg; specialize (Ho Hg); zb; lia|].
      rewrite (proj2 (Z.ltb_ge 0 u)) in Hw by (zb; lia). exists (Some (with_umem_size s)), w'. by rewrite Es, Hw.
    + rewrite (proj2 (Z.ltb_lt 0 u)) in Hw by (zb; lia). change (set_kernel w' (set_ks ?w ?ss ?h)) with (set_ks w' ss h).
      apply hwp_set_at. eexists _, w'. split; [reflexivity|]. unfold acquires in Hw. cbn [h_kernel set_ks] in Hw. split.
      * rewrite Hw, Hh. unfold held_slot, held_sock. cbn [with_umem with_umem_size so_xsk so_umem so_buffer]. rewrite Hx, Hu.
        cbn [opt_res]. multiset_solver.
      * by exists (with_umem (with_umem_size s) u), u.
Qed.

Lemma bind_fill_fresh : exists r, bind_fill reserve fresh_rings = Some r /\ xk_closed r = false.
Proof. unfold bind_fill. eexists. split; reflexivity. Qed.

Lemma hwp_bind_socket h ifName queueId flags :
  bind_flags_of flags <> None -> slot_state with_memory h ->
  hwp (bind_socket sys reserve if_nametoindex q ifName queueId flags) (fun _ => slot_state bound_socket)
    (slot_error (obliging sys /\ if_nametoindex ifName <> 0)) h.
Proof.
  intros Hflags (o & w & -> & Hh & s & u & -> & Hr & Hx & Hu). unfold bind_socket, checkOpen, isClosed.
  hwp_step. apply hwp_slot_at. hwp_step. rewrite Hr. hwp_step. hwp_step. rewrite Hu. hwp_step.
  assert (opened (Some s)) as Hop by (intros s' [= <-]; by rewrite Hr).
  set (s1 := with_ifindex s (if_nametoindex ifName)).
  assert (held_slot (Some s1) = held_slot (Some s)) as Es by done.
  assert (opened (Some s1)) as Hop1 by (intros s' [= <-]; cbn; by rewrite Hr).
  hwp_step.
  - split; [done|]. split; [intros [_ Hi]; zb; done|]. by exists (Some s), w.
  - repeat hwp_step. apply hwp_set_at. destruct (bind_flags_of flags) as [bf|]; [|done].
    hwp_step. apply (hwp_call_doc sys held_by maps_of). intros x w' _ Hw Ho. cbn [res_effect success] in *. repeat hwp_step.
    + split; [done|]. split; [intros [Hg _]; specialize (Ho Hg); zb; lia|].
      rewrite (proj2 (Z.ltb_ge 0 x)) in Hw by (zb; lia). exists (Some s1), w'. by rewrite Es, Hw.
    + rewrite (proj2 (Z.ltb_lt 0 x)) in Hw by (zb; lia). change (set_kernel w' (set_ks ?w ?ss ?h)) with (set_ks w' ss h).
      apply hwp_set_at. change (so_rings (with_xsk s1 x)) with (so_rings s). rewrite Hr.
      destruct bind_fill_fresh as (r & Hf & _). rewrite Hf. apply hwp_set_at.
      eexists _, w'. split; [reflexivity|]. unfold acquires in Hw. cbn [h_kernel set_ks] in Hw. split.
      * rewrite Hw, Hh. unfold held_slot, held_sock. cbn [with_rings with_xsk with_ifindex so_xsk so_umem so_buffer s1]. rewrite Hx.
        cbn [opt_res]. multiset_solver.
      * by exists (with_rings (with_xsk s1 x) r), x.
Qed.

Lemma hwp_registerXskMap h queueId p :
  h_xdp_prog h0 = PROG p -> slot_state bound_socket h ->
  hwp (registerXskMap sys q queueId) (fun _ => slot_state bound_socket) (slot_error (obliging sys)) h.
Proof.
  intros Hp (o & w & -> & Hh & s & x & -> & Hr & Hx). unfold registerXskMap, checkOpen, isClosed.
  destruct bind_fill_fresh as (r & Hf & Hc). rewrite Hf in Hr. injection Hr as Hr.
  assert (opened (Some s)) as Hop by (intros s' [= <-]; cbn; by rewrite <- Hr).
  hwp_step. apply hwp_slot_at. hwp_step. rewrite <- Hr, Hc. do 4 hwp_step. cbn [set_ks h_xdp_prog]. rewrite Hp. do 3 hwp_step. apply (hwp_quiet sys held_by maps_of); [by intros ???|]. intros fd w1 Hw1 Ho1.
  cbn [success h_kernel set_ks] in *. repeat hwp_step.
  - split; [done|]. split; [intros Hg; specialize (Ho1 Hg); zb; lia|]. exists (Some s), w1. by rewrite Hw1.
  - change (set_kernel w1 (set_ks ?w ?ss ?h)) with (set_ks w1 ss h). apply hwp_set_at.
    set (s1 := with_map_fd s fd). assert (held_slot (Some s1) = held_slot (Some s)) as Es by done.
    assert (opened (Some s1)) as Hop1 by (intros s' [= <-]; cbn; by rewrite <- Hr).
    assert (bound_socket (Some s1)) as Hb1 by (exists s1, x; split; [done|]; split; [by rewrite Hf, Hr|done]).
    rewrite Hx. hwp_step. unfold xsk_fd. apply (hwp_quiet sys held_by maps_of); [by intros ???|]. intros sfd w2 Hw2 Ho2.
    cbn [success h_kernel set_ks set_kernel] in *. repeat hwp_step.
    + split; [done|]. split; [intros Hg; specialize (Ho2 Hg); zb; lia|]. exists (Some s1), w2. by rewrite Hw2, Hw1, Es.
    + apply (hwp_quiet sys held_by maps_of); [by intros ???|]. intros ret w3 Hw3 Ho3.
      cbn [success h_kernel set_ks set_kernel] in *. hwp_step.
      * split; [done|]. split; [intros Hg; specialize (Ho3 Hg); zb; done|]. exists (Some s1), w3. by rewrite Hw3, Hw2, Hw1, Es.
      * exists (Some s1), w3. by rewrite Hw3, Hw2, Hw1, Es.
Qed.
End one_slot.
