(* ===== verification/Control.v ===== *)
(** The destinations of the packet replicator and the UDP control protocol that
    changes them (PacketReplicator.cpp, ControlClient.cpp).

    The std::set is a list sorted by the text of the address, then by port.  The
    text of an address is libc's inet_ntop; inet_aton is a parameter. *)

From S2P Require Import Prelude CText Wire Frame.

Definition CTRL_ADD_DESTINATION : Z := 1.
Definition CTRL_REMOVE_DESTINATION : Z := 2.
Definition CTRL_LIST_DESTINATIONS : Z := 3.

(** ** The set of destinations *)

(** std::string's order: bytes as unsigned characters. *)
Fixpoint cstr_ltb (a b : cstr) : bool :=
  match a, b with
  | [], [] => false
  | [], _ :: _ => true
  | _ :: _, [] => false
  | x :: a, y :: b => (code x <? code y) || ((code x =? code y) && cstr_ltb a b)
  end.

(** Destination::operator< *)
Definition dest_lt (d e : Destination) : bool :=
  if decide (d_ip d = d_ip e) then d_port d <? d_port e else cstr_ltb (d_ip d) (d_ip e).

(** insert and erase of std::set. *)
Fixpoint set_insert (d : Destination) (l : list Destination) : list Destination :=
  match l with
  | [] => [d]
  | e :: l' => if dest_lt d e then d :: l else if dest_lt e d then e :: set_insert d l' else l
  end.
Fixpoint set_erase (d : Destination) (l : list Destination) : list Destination :=
  match l with
  | [] => []
  | e :: l' => if dest_lt d e then l else if dest_lt e d then e :: set_erase d l' else l'
  end.

Section Control.
Variable inet_aton : cstr -> option Z.

(** The constructor; None is the exception for a text that is no address. *)
Definition new_Destination (ip : cstr) (port : Z) : option Destination :=
  addr ← inet_aton ip; Some (Dest ip port addr).

Definition addDestination (dests : list Destination) (ip : cstr) (port : Z) : option (list Destination) :=
  dest ← new_Destination ip port; Some (set_insert dest dests).
Definition removeDestination (dests : list Destination) (ip : cstr) (port : Z) : option (list Destination) :=
  dest ← new_Destination ip port; Some (set_erase dest dests).
Definition getDestinations (dests : list Destination) : list Destination := dests.

(** ** The server *)

(** formatIpAddress of the four bytes at an offset, parseIpAddress to four bytes. *)
Definition formatIpAddress (message : list Z) (off : nat) : cstr := inet_ntop (ntohl_at message off).
Definition parseIpAddress (ipStr : cstr) : option (list Z) := htonl_bytes <$> inet_aton ipStr.
(** ntohs of the two bytes at an offset. *)
Definition port_at (message : list Z) (off : nat) : Z := byte_at message off * 256 + byte_at message (off + 1).

Definition list_entry (dest : Destination) : option (list Z) :=
  ip_addr ← parseIpAddress (d_ip dest); Some (ip_addr ++ htons_bytes (d_port dest)).

(** The destinations afterwards and the response; None is an exception that
    leaves the control thread. *)
Definition processControlMessage (dests : list Destination) (message : list Z) : option (list Destination * list Z) :=
  if zlen message <? 1 then Some (dests, [])
  else
    let command := byte_at message 0 in
    if command =? CTRL_ADD_DESTINATION then
      if 7 <=? zlen message then
        match addDestination dests (formatIpAddress message 1) (port_at message 5) with
        | Some dests => Some (dests, [1])
        | None => Some (dests, [0])
        end
      else Some (dests, [])
    else if command =? CTRL_REMOVE_DESTINATION then
      if 7 <=? zlen message then
        match removeDestination dests (formatIpAddress message 1) (port_at message 5) with
        | Some dests => Some (dests, [1])
        | None => Some (dests, [0])
        end
      else Some (dests, [])
    else if command =? CTRL_LIST_DESTINATIONS then
      let destinations := getDestinations dests in
      entries ← mapM list_entry destinations;
      Some (dests, u8 (zlen destinations) :: concat entries)
    else Some (dests, []).

(** handleControlProtocol: a datagram is read into 1024 bytes, an empty one is
    skipped, and an empty response is not sent. *)
Definition handle_datagram (dests : list Destination) (datagram : list Z) : option (list Destination * option (list Z)) :=
  let message := take 1024 datagram in
  if 0 <? zlen message then
    '(dests, response) ← processControlMessage dests message;
    Some (dests, match response with [] => None | _ => Some response end)
  else Some (dests, None).
Fixpoint handleControlProtocol (dests : list Destination) (datagrams : list (list Z)) : option (list Destination * list (option (list Z))) :=
  match datagrams with
  | [] => Some (dests, [])
  | datagram :: datagrams =>
      '(dests, response) ← handle_datagram dests datagram;
      '(dests, responses) ← handleControlProtocol dests datagrams;
      Some (dests, response :: responses)
  end.

(** ** The client *)

(** sendMessage: [send_ok] is sendto's success, [reply] the datagram that
    answers (None when recvfrom fails). *)
Definition sendMessage (server_address : cstr) (send_ok : bool) (reply : option (list Z)) (message : list Z) : bool :=
  match inet_aton server_address with
  | None => false
  | Some _ =>
      if negb send_ok then false
      else if (byte_at message 0 =? CTRL_ADD_DESTINATION) || (byte_at message 0 =? CTRL_REMOVE_DESTINATION) then
        match reply with
        | None => false
        | Some response => byte_at response 0 =? 1
        end
      else true
  end.

(** The message of addDestination and removeDestination, None when the client
    refuses the address. *)
Definition destination_message (command : Z) (ip : cstr) (port : Z) : option (list Z) :=
  addr ← inet_aton ip; Some (command :: htonl_bytes addr ++ htons_bytes port).
Definition client_addDestination (server_address : cstr) (send_ok : bool) (reply : option (list Z)) (ip : cstr) (port : Z) : bool :=
  match destination_message CTRL_ADD_DESTINATION ip port with
  | None => false
  | Some message => sendMessage server_address send_ok reply message
  end.
Definition client_removeDestination (server_address : cstr) (send_ok : bool) (reply : option (list Z)) (ip : cstr) (port : Z) : bool :=
  match destination_message CTRL_REMOVE_DESTINATION ip port with
  | None => false
  | Some message => sendMessage server_address send_ok reply message
  end.

(** The loop over the entries of a response: [fuel] counts down from count. *)
Fixpoint parse_entries (fuel : nat) (response : list Z) (offset : nat) : list (cstr * Z) :=
  match fuel with
  | O => []
  | S fuel =>
      if Z.of_nat offset + 6 <=? zlen response then
        (inet_ntop (ntohl_at response offset), port_at response (offset + 4)) :: parse_entries fuel response (offset + 6)
      else []
  end.
(** The destinations shown; None is a failure. *)
Definition listDestinations (server_address : cstr) (send_ok : bool) (reply : option (list Z)) : option (list (cstr * Z)) :=
  if negb (sendMessage server_address send_ok reply [CTRL_LIST_DESTINATIONS]) then None
  else
    datagram ← reply;
    let response := take 1024 datagram in
    if zlen response =? 0 then Some []
    else Some (parse_entries (Z.to_nat (byte_at response 0)) response 1).

Inductive control_command := CmdAdd (ip : cstr) (port : Z) | CmdRemove (ip : cstr) (port : Z) | CmdList | CmdUsage | CmdError.
(** main: the command of the arguments after the program's name. *)
Definition control_main (args : list cstr) : control_command :=
  match args with
  | _ :: command :: rest =>
      if decide (command = lit "add") then
        match rest with
        | [ip; port] => match stoi port with Some p => CmdAdd ip (u16 p) | None => CmdError end
        | _ => CmdUsage
        end
      else if decide (command = lit "remove") then
        match rest with
        | [ip; port] => match stoi port with Some p => CmdRemove ip (u16 p) | None => CmdError end
        | _ => CmdUsage
        end
      else if decide (command = lit "list") then CmdList
      else CmdUsage
  | _ => CmdUsage
  end.

(** ** The order *)

Lemma code_inj x y : code x = code y -> x = y.
Proof.
  unfold code. intros H%N2Z.inj. rewrite <- (ascii_N_embedding x), <- (ascii_N_embedding y). by rewrite H.
Qed.

Lemma cstr_ltb_irrefl a : cstr_ltb a a = false.
Proof. induction a as [|x a IH]; [done|]. simpl. rewrite Z.ltb_irrefl, Z.eqb_refl. done. Qed.

Lemma cstr_ltb_trans a b c : cstr_ltb a b = true -> cstr_ltb b c = true -> cstr_ltb a c = true.
Proof.
  revert b c. induction a as [|x a IH]; intros [|y b] [|z c]; simpl; try done.
  rewrite !orb_true_iff, !andb_true_iff, !Z.ltb_lt, !Z.eqb_eq. intros [H1|[H1 H2]] [H3|[H3 H4]]; [left; lia..|].
  right. split; [lia|]. eauto.
Qed.

Lemma cstr_ltb_total a b : cstr_ltb a b = false -> cstr_ltb b a = false -> a = b.
Proof.
  revert b. induction a as [|x a IH]; intros [|y b]; simpl; try done.
  rewrite !orb_false_iff, !andb_false_iff, !Z.ltb_ge, !Z.eqb_neq. intros [H1 H2] [H3 H4].
  assert (x = y) as -> by (apply code_inj; lia). f_equal. apply IH; [by destruct H2|by destruct H4].
Qed.

Lemma dest_lt_spec d e :
  dest_lt d e = true <-> d_ip d = d_ip e /\ d_port d < d_port e \/ cstr_ltb (d_ip d) (d_ip e) = true.
Proof.
  unfold dest_lt. destruct (decide _) as [He|He].
  - rewrite He, cstr_ltb_irrefl, Z.ltb_lt. naive_solver.
  - naive_solver.
Qed.

Lemma dest_lt_trans d e f : dest_lt d e = true -> dest_lt e f = true -> dest_lt d f = true.
Proof.
  rewrite !dest_lt_spec. intros [[H1 H2]|H1] [[H3 H4]|H3].
  - left. split; [congruence|lia].
  - right. by rewrite H1.
  - right. by rewrite <- H3.
  - right. eauto using cstr_ltb_trans.
Qed.

Lemma dest_lt_total d e : dest_lt d e = false -> dest_lt e d = false -> d_ip d = d_ip e /\ d_port d = d_port e.
Proof.
  intros H1%not_true_iff_false H2%not_true_iff_false. rewrite dest_lt_spec in H1, H2.
  assert (d_ip d = d_ip e) as He.
  { apply cstr_ltb_total; apply not_true_iff_false; intros H; [apply H1|apply H2]; by right. }
  split; [done|]. destruct (Z.lt_total (d_port d) (d_port e)) as [H|[H|H]]; [|done|].
  - exfalso. apply H1. by left.
  - exfalso. apply H2. by left.
Qed.

Lemma dest_lt_irrefl d : dest_lt d d = false.
Proof. apply not_true_iff_false. rewrite dest_lt_spec, cstr_ltb_irrefl. intros [[_ H]|H]; [lia|done]. Qed.

(** ** The set *)

(** Every text is the canonical one of its address. *)
Definition dest_ok (d : Destination) : Prop :=
  d_ip d = inet_ntop (d_addr d) /\ 0 <= d_addr d < 4294967296 /\ 0 <= d_port d < 65536.
Definition dests_ok (l : list Destination) : Prop :=
  StronglySorted (fun d e => dest_lt d e = true) l /\ Forall dest_ok l.
Definition dest_key (d : Destination) : Z * Z := (d_addr d, d_port d).
Definition dest_set (l : list Destination) : gset (Z * Z) := list_to_set (map dest_key l).

(** inet_aton reads back what inet_ntoa prints. *)
Definition aton_ok : Prop := forall a, 0 <= a < 4294967296 -> inet_aton (inet_ntop a) = Some a.

Lemma dest_set_cons d l : dest_set (d :: l) = {[dest_key d]} ∪ dest_set l.
Proof. done. Qed.
Lemma elem_of_dest_set k l : k ∈ dest_set l <-> exists d, k = dest_key d /\ d ∈ l.
Proof. unfold dest_set. rewrite elem_of_list_to_set. apply list_elem_of_fmap. Qed.

Lemma dest_key_eq d e : aton_ok -> dest_ok d -> dest_ok e -> dest_key d = dest_key e <-> d_ip d = d_ip e /\ d_port d = d_port e.
Proof.
  intros Ha (H1 & H2 & _) (H3 & H4 & _). unfold dest_key. rewrite H1, H3. split.
  - intros [= H5 ->]. by rewrite H5.
  - intros [H5 ->]. apply (f_equal inet_aton) in H5. rewrite !Ha in H5 by done. by injection H5 as ->.
Qed.

Lemma set_insert_elem d l e : e ∈ set_insert d l -> e = d \/ e ∈ l.
Proof.
  induction l as [|f l IH]; simpl; [set_solver|]. destruct (dest_lt d f), (dest_lt f d); set_solver.
Qed.
Lemma set_erase_elem d l e : e ∈ set_erase d l -> e ∈ l.
Proof. induction l as [|f l IH]; simpl; [done|]. destruct (dest_lt d f), (dest_lt f d); set_solver. Qed.

Lemma set_insert_ok d l : dest_ok d -> dests_ok l -> dests_ok (set_insert d l).
Proof.
  intros Hd [Hs Hf]. split.
  - induction Hs as [|e l Hs IH He]; simpl; [repeat constructor|]. inversion_clear Hf as [|? ? Hok Hrest].
    destruct (dest_lt d e) eqn:E1; [|destruct (dest_lt e d) eqn:E2].
    + constructor; [by constructor|]. constructor; [done|]. eapply Forall_impl; [exact He|]. eauto using dest_lt_trans.
    + constructor; [by apply IH|]. apply Forall_forall. intros f [->|Hin]%set_insert_elem; [done|].
      rewrite Forall_forall in He. by apply He.
    + by constructor.
  - apply Forall_forall. intros e [->|Hin]%set_insert_elem; [done|]. rewrite Forall_forall in Hf. by apply Hf.
Qed.

Lemma set_erase_ok d l : dests_ok l -> dests_ok (set_erase d l).
Proof.
  intros [Hs Hf]. split.
  - induction Hs as [|e l Hs IH He]; simpl; [constructor|]. inversion_clear Hf as [|? ? Hok Hrest].
    destruct (dest_lt d e) eqn:E1; [by constructor|]. destruct (dest_lt e d) eqn:E2; [|done].
    constructor; [by apply IH|]. apply Forall_forall. intros f Hin%set_erase_elem. rewrite Forall_forall in He. by apply He.
  - apply Forall_forall. intros e Hin%set_erase_elem. rewrite Forall_forall in Hf. by apply Hf.
Qed.

Lemma set_insert_set d l : aton_ok -> dest_ok d -> dests_ok l -> dest_set (set_insert d l) = {[dest_key d]} ∪ dest_set l.
Proof.
  intros Ha Hd [_ Hf]. induction Hf as [|e l He Hl IH]; [done|]. simpl.
  destruct (dest_lt d e) eqn:E1; [done|]. destruct (dest_lt e d) eqn:E2; rewrite !dest_set_cons.
  - rewrite IH. set_solver.
  - assert (dest_key d = dest_key e) as -> by (apply dest_key_eq; auto using dest_lt_total). set_solver.
Qed.

Lemma difference_absent (k : Z * Z) (S : gset (Z * Z)) : k ∉ S -> S = S ∖ {[k]}.
Proof. set_solver. Qed.
Lemma difference_head (k : Z * Z) (S : gset (Z * Z)) : k ∉ S -> S = ({[k]} ∪ S) ∖ {[k]}.
Proof. set_solver. Qed.
Lemma difference_other (k k' : Z * Z) (S : gset (Z * Z)) : k <> k' -> {[k']} ∪ S ∖ {[k]} = ({[k']} ∪ S) ∖ {[k]}.
Proof. set_solver. Qed.

Lemma set_erase_set d l : aton_ok -> dest_ok d -> dests_ok l -> dest_set (set_erase d l) = dest_set l ∖ {[dest_key d]}.
Proof.
  intros Ha Hd [Hs Hf]. induction Hs as [|e l Hs IH He]; [set_solver|]. inversion_clear Hf as [|? ? Hok Hrest]. simpl.
  assert (forall m, Forall dest_ok m -> Forall (fun f => dest_lt d f = true) m -> dest_key d ∉ dest_set m) as Hout.
  { intros m Hm Hlt (f & Hk & Hin)%elem_of_dest_set. rewrite Forall_forall in Hm, Hlt.
    destruct (proj1 (dest_key_eq d f Ha Hd (Hm _ Hin)) Hk) as [Hi Hp].
    specialize (Hlt f Hin). apply dest_lt_spec in Hlt as [[_ Hlt]|Hlt]; [lia|]. by rewrite Hi, cstr_ltb_irrefl in Hlt. }
  destruct (dest_lt d e) eqn:E1; [|destruct (dest_lt e d) eqn:E2].
  - apply difference_absent, Hout; [by constructor|]. constructor; [done|]. eapply Forall_impl; [exact He|]. eauto using dest_lt_trans.
  - rewrite !dest_set_cons, IH by done. apply difference_other. rewrite dest_key_eq by done. intros [Hi Hp]. apply dest_lt_spec in E2 as [[_ E2]|E2]; [lia|].
    by rewrite Hi, cstr_ltb_irrefl in E2.
  - assert (dest_key d = dest_key e) as Hk by (apply dest_key_eq; auto using dest_lt_total).
    rewrite dest_set_cons, <- Hk. apply difference_head, Hout; [done|]. apply dest_lt_total in E1 as [Hi Hp]; [|done].
    eapply Forall_impl; [exact He|]. intros f. rewrite !dest_lt_spec, Hi, Hp. done.
Qed.

Lemma dests_ok_NoDup l : aton_ok -> dests_ok l -> NoDup (map dest_key l).
Proof.
  intros Ha [Hs Hf]. induction Hs as [|e l Hs IH He]; [constructor|]. inversion_clear Hf as [|? ? Hok Hrest]. simpl.
  constructor; [|by apply IH]. intros (f & Hk & Hin)%list_elem_of_fmap. rewrite Forall_forall in Hrest, He.
  destruct (proj1 (dest_key_eq e f Ha Hok (Hrest _ Hin)) Hk) as [Hi Hp].
  specialize (He f Hin). apply dest_lt_spec in He as [[_ He]|He]; [lia|]. by rewrite Hi, cstr_ltb_irrefl in He.
Qed.

(** ** The protocol as operations on a set of addresses and ports *)

Definition entry_bytes (k : Z * Z) : list Z := htonl_bytes (fst k) ++ htons_bytes (snd k).
Definition msg_key (m : list Z) : Z * Z := (ntohl_at m 1, port_at m 5).

Inductive datagram_spec (S : gset (Z * Z)) (m : list Z) : gset (Z * Z) -> option (list Z) -> Prop :=
  | spec_add : byte_at m 0 = 1 -> 7 <= zlen m -> datagram_spec S m ({[msg_key m]} ∪ S) (Some [1])
  | spec_remove : byte_at m 0 = 2 -> 7 <= zlen m -> datagram_spec S m (S ∖ {[msg_key m]}) (Some [1])
  | spec_list l : byte_at m 0 = 3 -> NoDup l -> S = list_to_set l ->
      datagram_spec S m S (Some (u8 (zlen l) :: concat (map entry_bytes l)))
  | spec_ignored : zlen m = 0 \/ byte_at m 0 ∉ [1; 2; 3] \/ byte_at m 0 ∈ [1; 2] /\ zlen m < 7 -> datagram_spec S m S None.

Lemma datagram_spec_add S m S' r :
  datagram_spec S m S' r -> byte_at m 0 = 1 -> 7 <= zlen m -> S' = {[msg_key m]} ∪ S /\ r = Some [1].
Proof. intros H H0 H7. destruct H as [| | |[H|[H|[_ H]]]]; [done|lia|lia|lia|set_solver|lia]. Qed.
Lemma datagram_spec_remove S m S' r :
  datagram_spec S m S' r -> byte_at m 0 = 2 -> 7 <= zlen m -> S' = S ∖ {[msg_key m]} /\ r = Some [1].
Proof. intros H H0 H7. destruct H as [| | |[H|[H|[_ H]]]]; [lia|done|lia|lia|set_solver|lia]. Qed.

Inductive control_spec : gset (Z * Z) -> list (list Z) -> list (option (list Z)) -> gset (Z * Z) -> Prop :=
  | control_done S : control_spec S [] [] S
  | control_next S m ms r rs S1 S2 :
      datagram_spec S m S1 r -> control_spec S1 ms rs S2 -> control_spec S (m :: ms) (r :: rs) S2.

Lemma byte_at_take m i k : (i < k)%nat -> byte_at (take k m) i = byte_at m i.
Proof. intros H. unfold byte_at. by rewrite lookup_take_lt. Qed.
Lemma byte_at_app pre m i : byte_at (pre ++ m) (length pre + i) = byte_at m i.
Proof. unfold byte_at. by rewrite lookup_app_r, Nat.add_comm, Nat.add_sub by lia. Qed.

Lemma port_at_range m off : bytes_wf m -> 0 <= port_at m off < 65536.
Proof. intros H. unfold port_at. pose proof (byte_at_range m off H). pose proof (byte_at_range m (off + 1) H). lia. Qed.

(** The destination an ADD or REMOVE names. *)
Lemma named_destination m : aton_ok -> bytes_wf m ->
  exists d, new_Destination (formatIpAddress m 1) (port_at m 5) = Some d /\ dest_ok d /\ dest_key d = msg_key m.
Proof.
  intros Ha Hw. pose proof (ntohl_at_range m 1 Hw). pose proof (port_at_range m 5 Hw).
  exists (Dest (formatIpAddress m 1) (port_at m 5) (ntohl_at m 1)). unfold new_Destination, formatIpAddress.
  rewrite Ha by done. done.
Qed.

Lemma list_entries dests : aton_ok -> Forall dest_ok dests ->
  mapM list_entry dests = Some (map entry_bytes (map dest_key dests)).
Proof.
  intros Ha. induction 1 as [|d l (H1 & H2 & _) _ IH]; [done|]. cbn [map]. cbn [mapM].
  assert (list_entry d = Some (entry_bytes (dest_key d))) as -> by (unfold list_entry, parseIpAddress; by rewrite H1, Ha).
  cbn. by rewrite IH.
Qed.

Lemma take_short (m : list Z) : (7 <=? zlen (take 1024 m)) = (7 <=? zlen m) /\ (0 <? zlen (take 1024 m)) = (0 <? zlen m) /\
  (zlen (take 1024 m) <? 1) = (zlen m <? 1).
Proof. unfold zlen. rewrite length_take. split_and!; apply eq_true_iff_eq; rewrite ?Z.leb_le, ?Z.ltb_lt; lia. Qed.

Lemma handle_datagram_spec dests m : aton_ok -> dests_ok dests -> bytes_wf m ->
  exists dests' r, handle_datagram dests m = Some (dests', r) /\ dests_ok dests' /\ datagram_spec (dest_set dests) m (dest_set dests') r.
Proof.
  intros Ha Hd Hw. unfold handle_datagram, processControlMessage, getDestinations. destruct (take_short m) as (-> & -> & ->).
  destruct (Z.ltb_spec 0 (zlen m)) as [Hm|Hm].
  2: { eexists _, _. split; [done|]. split; [done|]. apply spec_ignored. left. pose proof (zlen_nonneg m). lia. }
  rewrite (proj2 (Z.ltb_ge _ _)) by lia. unfold formatIpAddress, port_at, ntohl_at, CTRL_ADD_DESTINATION, CTRL_REMOVE_DESTINATION, CTRL_LIST_DESTINATIONS.
  rewrite !byte_at_take by lia.
  destruct (named_destination m Ha Hw) as (d & Hn & Hok & Hk). unfold formatIpAddress, ntohl_at, port_at in Hn.
  unfold addDestination, removeDestination. rewrite Hn. cbn [mbind option_bind].
  destruct (Z.eqb_spec (byte_at m 0) 1) as [E1|E1].
  { destruct (Z.leb_spec 7 (zlen m)); (eexists _, _; split; [reflexivity|]).
    - split; [by apply set_insert_ok|]. rewrite set_insert_set, Hk by done. by apply spec_add.
    - split; [done|]. apply spec_ignored. right. right. rewrite E1. split; [set_solver|lia]. }
  destruct (Z.eqb_spec (byte_at m 0) 2) as [E2|E2].
  { destruct (Z.leb_spec 7 (zlen m)); (eexists _, _; split; [reflexivity|]).
    - split; [by apply set_erase_ok|]. rewrite set_erase_set, Hk by done. by apply spec_remove.
    - split; [done|]. apply spec_ignored. right. right. rewrite E2. split; [set_solver|lia]. }
  destruct (Z.eqb_spec (byte_at m 0) 3) as [E3|E3].
  - pose proof Hd as [_ Hf]. rewrite (list_entries dests Ha Hf). cbn [mbind option_bind].
    eexists _, _. split; [reflexivity|]. split; [done|].
    replace (zlen dests) with (zlen (map dest_key dests)) by (unfold zlen; by rewrite length_map).
    apply spec_list; [done|by apply dests_ok_NoDup|done].
  - eexists _, _. split; [reflexivity|]. split; [done|]. apply spec_ignored. right. left. set_solver.
Qed.

Lemma control_protocol_run dests ms : aton_ok -> dests_ok dests -> Forall bytes_wf ms ->
  exists dests' rs, handleControlProtocol dests ms = Some (dests', rs) /\ dests_ok dests' /\ control_spec (dest_set dests) ms rs (dest_set dests').
Proof.
  intros Ha Hd Hw. revert dests Hd. induction Hw as [|m ms Hm _ IH]; intros dests Hd.
  - exists dests, []. split; [done|]. split; [done|]. constructor.
  - destruct (handle_datagram_spec dests m Ha Hd Hm) as (d1 & r & E1 & Hd1 & Hs1).
    destruct (IH d1 Hd1) as (d2 & rs & E2 & Hd2 & Hs2). cbn [handleControlProtocol]. rewrite E1. cbn [mbind option_bind].
    rewrite E2. cbn [mbind option_bind]. eexists _, _. split; [reflexivity|]. split; [done|]. by econstructor.
Qed.

Lemma dests_ok_nil : dests_ok [].
Proof. split; constructor. Qed.

(** C8: for every sequence of datagrams the control thread neither stops nor
    throws, and its destinations and responses are those of a finite set of
    (address, port) pairs: ADD inserts and REMOVE deletes the pair the message
    names, both confirmed; LIST answers with the number of pairs modulo 256 and
    every pair exactly once; short, empty and unknown messages change nothing and
    are not answered. *)
Theorem control_refines_set (datagrams : list (list Z)) (Ha : aton_ok) (Hw : Forall bytes_wf datagrams) :
  exists dests responses, handleControlProtocol [] datagrams = Some (dests, responses) /\
    dests_ok dests /\ control_spec ∅ datagrams responses (dest_set dests).
Proof. exact (control_protocol_run [] datagrams Ha dests_ok_nil Hw). Qed.

(** ** The client against the server *)

Definition shown (d : Destination) : cstr * Z := (d_ip d, d_port d).

Lemma ntohl_at_app pre m : ntohl_at (pre ++ m) (length pre) = ntohl_at m 0.
Proof. unfold ntohl_at. rewrite <- (Nat.add_0_r (length pre)) at 1. rewrite !byte_at_app. done. Qed.
Lemma port_at_app pre m off : port_at (pre ++ m) (length pre + off) = port_at m off.
Proof. unfold port_at. rewrite <- Nat.add_assoc, !byte_at_app. done. Qed.

Lemma entry_bytes_port a p rest : 0 <= p < 65536 -> port_at (entry_bytes (a, p) ++ rest) 4 = p.
Proof. intros H. unfold port_at, byte_at, entry_bytes, htonl_bytes, htons_bytes, u8. simpl. zlia. Qed.

Lemma parse_entries_spec fuel l pre k : Forall dest_ok l ->
  parse_entries fuel (pre ++ take k (concat (map entry_bytes (map dest_key l)))) (length pre) =
  take (Nat.min fuel (k / 6)) (map shown l).
Proof.
  revert pre k l. induction fuel as [|fuel IH]; intros pre k l Hl; [done|]. cbn [parse_entries].
  destruct Hl as [|d l (Hi & Hr & Hp) Hl].
  { cbn [map concat]. rewrite take_nil, app_nil_r, take_nil. rewrite (proj2 (Z.leb_gt _ _)) by (unfold zlen; lia). done. }
  cbn [map concat]. set (rest := concat _).
  assert (length (entry_bytes (dest_key d)) = 6%nat) as He by done.
  destruct (decide (k < 6)%nat) as [Hk|Hk].
  - rewrite (Nat.div_small k 6) by lia. rewrite Nat.min_0_r. cbn [take].
    rewrite (proj2 (Z.leb_gt _ _)); [done|]. unfold zlen. rewrite length_app, length_take. lia.
  - rewrite take_app_ge by lia. rewrite He, (proj2 (Z.leb_le _ _)) by (unfold zlen; rewrite !length_app, He; lia).
    assert (k / 6 = S ((k - 6) / 6))%nat as ->.
    { replace k with (1 * 6 + (k - 6))%nat at 1 by lia. by rewrite Nat.div_add_l by lia. }
    cbn [Nat.min take map].
    f_equal.
    + unfold shown. rewrite ntohl_at_app, port_at_app, Hi. f_equal.
      * unfold entry_bytes. rewrite <- app_assoc, ntohl_htonl by done. done.
      * by apply entry_bytes_port.
    + rewrite app_assoc. replace (length pre + 6)%nat with (length (pre ++ entry_bytes (dest_key d))) by (rewrite length_app, He; done).
      by apply IH.
Qed.

(** The message of a client names its destination. *)
Lemma client_message c ip port a : 0 <= c < 256 -> inet_aton ip = Some a -> 0 <= a < 4294967296 -> 0 <= port < 65536 ->
  exists m, destination_message c ip port = Some m /\ bytes_wf m /\ zlen m = 7 /\ byte_at m 0 = c /\ msg_key m = (a, port).
Proof.
  intros Hc Hi Ha Hp. unfold destination_message. rewrite Hi. cbn [mbind option_bind]. eexists. split; [reflexivity|].
  assert (forall z, 0 <= u8 z < 256) as H8 by apply u8_range.
  split; [unfold bytes_wf, htonl_bytes, htons_bytes; cbn [app]; repeat apply Forall_cons_2; auto using Forall_nil_2|].
  split; [done|]. split; [done|]. unfold msg_key. f_equal.
  - change (c :: ?x) with ([c] ++ x). rewrite (ntohl_at_app [c]). by apply ntohl_htonl.
  - unfold port_at, byte_at, htonl_bytes, htons_bytes, u8. simpl. zlia.
Qed.

(** C29: client and server agree.  A client's add (remove) of an address libc can
    read is confirmed, and the server then serves exactly the old pairs and
    (without) the named one; a list shows the server's destinations in their
    order, but only the first (number modulo 256), and at most 170. *)
Theorem control_client_server (dests : list Destination) (server ip : cstr) (sa a port : Z)
    (Ha : aton_ok) (Hd : dests_ok dests) (Hs : inet_aton server = Some sa) (Hi : inet_aton ip = Some a)
    (Hr : 0 <= a < 4294967296) (Hp : 0 <= port < 65536) :
  (exists m dests' reply, destination_message CTRL_ADD_DESTINATION ip port = Some m /\
     handle_datagram dests m = Some (dests', reply) /\ client_addDestination server true reply ip port = true /\
     dest_set dests' = {[(a, port)]} ∪ dest_set dests) /\
  (exists m dests' reply, destination_message CTRL_REMOVE_DESTINATION ip port = Some m /\
     handle_datagram dests m = Some (dests', reply) /\ client_removeDestination server true reply ip port = true /\
     dest_set dests' = dest_set dests ∖ {[(a, port)]}) /\
  (exists reply, handle_datagram dests [CTRL_LIST_DESTINATIONS] = Some (dests, Some reply) /\
     listDestinations server true (Some reply) =
     Some (take (Nat.min (Z.to_nat (zlen dests mod 256)) 170) (map shown dests))).
Proof.
  split_and!.
  - destruct (client_message CTRL_ADD_DESTINATION ip port a ltac:(done) Hi Hr Hp) as (m & Hm & Hw & Hl & Hb & Hk).
    destruct (handle_datagram_spec dests m Ha Hd Hw) as (d' & r & E & _ & Hsp). exists m, d', r.
    split; [done|]. split; [done|]. unfold client_addDestination, sendMessage. rewrite Hm, Hs, Hb. cbn.
    destruct (datagram_spec_add _ _ _ _ Hsp Hb ltac:(lia)) as [-> ->]. by rewrite Hk.
  - destruct (client_message CTRL_REMOVE_DESTINATION ip port a ltac:(done) Hi Hr Hp) as (m & Hm & Hw & Hl & Hb & Hk).
    destruct (handle_datagram_spec dests m Ha Hd Hw) as (d' & r & E & _ & Hsp). exists m, d', r.
    split; [done|]. split; [done|]. unfold client_removeDestination, sendMessage. rewrite Hm, Hs, Hb. cbn.
    destruct (datagram_spec_remove _ _ _ _ Hsp Hb ltac:(lia)) as [-> ->]. by rewrite Hk.
  - pose proof Hd as [_ Hf]. eexists. split.
    + unfold handle_datagram, processControlMessage, getDestinations. cbn -[mapM u8]. rewrite (list_entries dests Ha Hf). reflexivity.
    + unfold listDestinations, sendMessage. rewrite Hs. cbn [negb orb byte_at]. cbn -[u8 take concat parse_entries Z.to_nat Nat.min Nat.modulo].
      set (es := concat _). change 1024%nat with (1 + 1023)%nat.
      change (take (1 + 1023) (u8 (zlen dests) :: es)) with ([u8 (zlen dests)] ++ take 1023 es).
      change (byte_at ([u8 (zlen dests)] ++ take 1023 es) 0) with (u8 (zlen dests)).
      rewrite (proj2 (Z.eqb_neq _ _)) by (unfold zlen; rewrite length_app; simpl; lia).
      pose proof (parse_entries_spec (Z.to_nat (u8 (zlen dests))) dests [u8 (zlen dests)] 1023 Hf) as Hparse.
      exact (f_equal Some Hparse).
Qed.
End Control.

(** A reader of dotted quads. *)
Definition demo_part (s : cstr) : option (Z * cstr) :=
  let '(v, rest) := strtoul s in if v <? 256 then Some (v, rest) else None.
Definition demo_dot (s : cstr) : option cstr :=
  match s with c :: s => if decide (c = DOT) then Some s else None | [] => None end.
Definition dotted_aton (s : cstr) : option Z :=
  '(a, s) ← demo_part s; s ← demo_dot s; '(b, s) ← demo_part s; s ← demo_dot s;
  '(c, s) ← demo_part s; s ← demo_dot s; '(d, s) ← demo_part s;
  Some (a * 16777216 + b * 65536 + c * 256 + d).

Lemma demo_part_dot n rest : demo_part (fmt_u (u8 n) ++ DOT :: rest) = Some (u8 n, DOT :: rest).
Proof.
  unfold demo_part. pose proof (u8_range n). rewrite strtoul_fmt_u by (done || (unfold LONG_MAX; lia)).
  rewrite (proj2 (Z.ltb_lt _ _)) by lia. done.
Qed.
Lemma demo_part_end n : demo_part (fmt_u (u8 n)) = Some (u8 n, []).
Proof.
  unfold demo_part. pose proof (u8_range n). rewrite <- (app_nil_r (fmt_u (u8 n))) at 1.
  rewrite strtoul_fmt_u by (done || (unfold LONG_MAX; lia)). rewrite (proj2 (Z.ltb_lt _ _)) by lia. done.
Qed.
Lemma demo_aton_ok : aton_ok dotted_aton.
Proof.
  intros a Ha. unfold dotted_aton, inet_ntop. repeat (rewrite demo_part_dot; cbn [mbind option_bind demo_dot]; rewrite decide_True by done; cbn [mbind option_bind]).
  rewrite demo_part_end. cbn [mbind option_bind]. f_equal. unfold u8. zlia.
Qed.

Definition demo_add : list Z := [1; 10; 0; 0; 5; 31; 144].

Lemma control_refines_set_witness :
  Forall bytes_wf [demo_add; [3]] /\
  exists dests responses, handleControlProtocol dotted_aton [] [demo_add; [3]] = Some (dests, responses) /\
    dests_ok dests /\ control_spec ∅ [demo_add; [3]] responses (dest_set dests).
Proof.
  assert (Forall bytes_wf [demo_add; [3]]) as Hw by (unfold bytes_wf, demo_add; repeat (apply Forall_nil_2 || apply Forall_cons_2); lia).
  split; [exact Hw|]. exact (control_refines_set dotted_aton _ demo_aton_ok Hw).
Defined.

Lemma control_client_server_witness :
  exists reply, handle_datagram dotted_aton [] [3] = Some ([], Some reply) /\
    listDestinations dotted_aton (lit "10.0.0.1") true (Some reply) = Some [].
Proof.
  destruct (proj2 (proj2 (control_client_server dotted_aton [] (lit "10.0.0.1") (lit "10.0.0.5") 167772161 167772165 8080
    demo_aton_ok dests_ok_nil ltac:(vm_compute; reflexivity) ltac:(vm_compute; reflexivity) ltac:(lia) ltac:(lia)))) as (reply & H1 & H2).
  exists reply. split; [exact H1|exact H2].
Defined.
