(* ===== verification/Replicator.v ===== *)
(** The packet replicator's data path (PacketReplicator.cpp): a queue's thread
    receives packets, sends the UDP payload of each to every destination from
    frames of the packet memory, and recycles the receive frames.

    The state is what one queue's thread owns (its socket and packet memory)
    with the counters, to which threads only add, and the datagrams given to the
    regular socket.  The destinations are read under the mutex once per packet,
    so each packet comes with its own list. *)

From S2P Require Import Prelude CText Wire XdpFilter Frame Xsk.

Definition BATCH_PACKETS : Z := 64.
Definition TX_FRAME_BYTES : Z := 4096.

(** The statistics: those of the queue and the totals. *)
Record counters := Counters {
  packets_received_per_queue : Z; packets_sent_per_queue : Z;
  packets_received : Z; packets_sent : Z; bytes_received : Z; bytes_sent : Z }.

Record qthread := QThread {
  qt_sock : option xsk;                          (* xdp_sockets_[queueId] *)
  qt_mem : umem;
  qt_counters : counters;
  qt_output : list (Destination * list Z) }.     (* sendto on output_socket_ *)

Section Replicator.
Variable inet_aton : cstr -> option Z.
Variable reserve : Z -> Z -> Z.
Variable peek : Z -> Z -> Z.
Variable extract_addr : Z -> Z.
Variable env : net_env.
Variable num_queues : Z.
(** What sendto returns. *)
Variable sendto : Destination -> list Z -> Z.

Definition with_sock (t : qthread) (s : xsk) (m : umem) : qthread := QThread (Some s) m (qt_counters t) (qt_output t).
Definition with_counts (t : qthread) (c : counters) : qthread := QThread (qt_sock t) (qt_mem t) c (qt_output t).

(** ** Sending *)

(** None is the exception of a closed socket. *)
Definition sendSinglePacketDirect (s : xsk) (m : umem) (d : Destination) (data length : Z) : option (bool * xsk * umem) :=
  s ← pollTxCompletions peek s;
  let '(tx_frame_number, s) := getNextTxFrame s in
  let tx_frame_addr := tx_frame_number * TX_FRAME_BYTES in
  let '(m, packet_len) := createUdpPacket inet_aton env m d data length tx_frame_addr TX_FRAME_BYTES in
  if packet_len =? 0 then Some (false, s, m)
  else
    '(ret, tx_idx, s) ← reserveTxRing reserve s 1;
    if negb (ret =? 1) then
      s ← (if ret =? 0 then requestDriverPoll s else Some s);
      Some (false, s, m)
    else
      s ← setTxDescriptor s tx_idx tx_frame_addr packet_len;
      s ← submitTxRing s 1;
      s ← requestDriverPoll s;
      Some (true, s, m).

Definition sendToDestinationFallback (t : qthread) (d : Destination) (data length : Z) : bool * qthread :=
  let payload := mem_read (qt_mem t) data (Z.to_nat length) in
  let sent := sendto d payload in
  (if sent <? 0 then false else sent =? length,
   QThread (qt_sock t) (qt_mem t) (qt_counters t) (qt_output t ++ [(d, payload)])).

Definition sendToDestinationWithQueue (t : qthread) (d : Destination) (data length queueId : Z) : bool * qthread :=
  if (queueId <? 0) || (num_queues <=? queueId) then sendToDestinationFallback t d data length
  else match qt_sock t with
  | None => sendToDestinationFallback t d data length
  | Some s =>
      match sendSinglePacketDirect s (qt_mem t) d data length with
      | Some (sent, s, m) => (sent, with_sock t s m)
      | None => sendToDestinationFallback t d data length
      end
  end.

(** ** Replicating *)

Definition count_sent (c : counters) (payload_len : Z) : counters :=
  Counters (packets_received_per_queue c) (packets_sent_per_queue c) (packets_received c)
    (u64 (packets_sent c + 1)) (bytes_received c) (u64 (bytes_sent c + payload_len)).

(** The loop over the destinations. *)
Fixpoint send_all (t : qthread) (dests : list Destination) (data length queueId sent_count : Z) : Z * qthread :=
  match dests with
  | [] => (sent_count, t)
  | dest :: dests =>
      let '(sent, t) := sendToDestinationWithQueue t dest data length queueId in
      if sent then send_all (with_counts t (count_sent (qt_counters t) length)) dests data length queueId (sent_count + 1)
      else send_all t dests data length queueId sent_count
  end.

(** The number sent; None is a read outside the packet. *)
Definition replicatePacket (t : qthread) (dests : list Destination) (packetData packetLen queueId : Z) : option (Z * qthread) :=
  r ← extractUdpPayload (mem_read (qt_mem t) packetData (Z.to_nat packetLen));
  match r with
  | None => Some (0, t)
  | Some (off, payload_len) =>
      match dests with
      | [] => Some (0, t)
      | _ => Some (send_all t dests (packetData + off) payload_len queueId 0)
      end
  end.

Definition count_received (c : counters) (packet_len : Z) : counters :=
  Counters (u64 (packets_received_per_queue c + 1)) (packets_sent_per_queue c) (u64 (packets_received c + 1))
    (packets_sent c) (u64 (bytes_received c + packet_len)) (bytes_sent c).
Definition count_queue_sent (c : counters) (sent_count : Z) : counters :=
  if 0 <? sent_count then
    Counters (packets_received_per_queue c) (u64 (packets_sent_per_queue c + sent_count)) (packets_received c)
      (packets_sent c) (bytes_received c) (bytes_sent c)
  else c.

(** The loop over the received packets; [dests i] is what the set holds when
    packet i is replicated. *)
Fixpoint process_packets (t : qthread) (dests : nat -> list Destination) (i : nat) (packets : list (Z * Z)) (queueId : Z) : option qthread :=
  match packets with
  | [] => Some t
  | (offset, len) :: packets =>
      let packet_len := u64 len in
      let t := with_counts t (count_received (qt_counters t) packet_len) in
      '(sent_count, t) ← replicatePacket t (dests i) offset packet_len queueId;
      process_packets (with_counts t (count_queue_sent (qt_counters t) sent_count)) dests (S i) packets queueId
  end.

(** One pass of processPacketsForQueue; an exception ends the pass and is only
    reported.  None is a null socket. *)
Definition queue_pass (t : qthread) (dests : nat -> list Destination) (queueId : Z) : option qthread :=
  s ← qt_sock t;
  match receive peek extract_addr s BATCH_PACKETS with
  | None => Some t
  | Some (packets, s) =>
      let t := with_sock t s (qt_mem t) in
      match packets with
      | [] => Some t
      | _ =>
          t ← process_packets t dests 0 packets queueId;
          s ← qt_sock t;
          match recycleFrames reserve extract_addr s with
          | Some s => Some (with_sock t s (qt_mem t))
          | None => Some t
          end
      end
  end.

(** processPacketsForQueue for as many passes as it finds running_ set. *)
Fixpoint processPacketsForQueue (t : qthread) (dests : nat -> nat -> list Destination) (passes : nat) (queueId : Z) : option qthread :=
  match passes with
  | O => Some t
  | S passes => t ← queue_pass t (dests passes) queueId; processPacketsForQueue t dests passes queueId
  end.

(** ** Sending: proofs *)

(** A packet to send: destination, payload address, payload length. *)
Notation job := (Destination * Z * Z)%type.

(** The transmit frame of the i-th send from now. *)
Definition tx_addr (s : xsk) (i : nat) : Z := (xk_prev_tx_frame s + Z.of_nat i) mod TX_FRAMES * TX_FRAME_BYTES.
Definition job_descs (s : xsk) (jobs : list job) : list (Z * Z) := imap (fun i '(_, _, n) => (tx_addr s i, 42 + n)) jobs.

(** The socket after [jobs] were queued. *)
Definition queued (s s' : xsk) (jobs : list job) : Prop :=
  xk_closed s' = false /\ xk_chunk_size s' = xk_chunk_size s /\ xk_fq s' = xk_fq s /\ xk_rx s' = xk_rx s /\
  xk_pending s' = xk_pending s /\ ring_ok (xk_tx s') /\ ring_free (xk_tx s') = ring_free (xk_tx s) - zlen jobs /\
  xk_prev_tx_frame s' = u32 (xk_prev_tx_frame s + zlen jobs) /\
  ring_queued (xk_tx s') = ring_queued (xk_tx s) ++ job_descs s jobs.

Definition apart (s : xsk) (n : nat) (off : Z) (k : nat) : Prop :=
  forall i, (i < n)%nat -> off + Z.of_nat k <= tx_addr s i \/ tx_addr s i + TX_FRAME_BYTES <= off.

(** The memory after the frames of [jobs] were written. *)
Definition frames_written (s : xsk) (m m' : umem) (jobs : list job) : Prop :=
  (forall i d data n, jobs !! i = Some (d, data, n) ->
     mem_read m' (tx_addr s i) (Z.to_nat (42 + n)) = udp_frame inet_aton env d (mem_read m data (Z.to_nat n))) /\
  (forall off k, apart s (length jobs) off k -> mem_read m' off k = mem_read m off k).

(** A payload in the receive half that fits into a frame. *)
Definition job_ok (j : job) : Prop := let '(_, data, n) := j in TX_FRAMES * TX_FRAME_BYTES <= data /\ 0 <= n <= 4054.

Lemma tx_addr_range s i : 0 <= tx_addr s i <= (TX_FRAMES - 1) * TX_FRAME_BYTES.
Proof. unfold tx_addr, TX_FRAMES, TX_FRAME_BYTES. zlia. Qed.

Lemma tx_addr_shift s s' n i : xk_prev_tx_frame s' = u32 (xk_prev_tx_frame s + Z.of_nat n) -> tx_addr s' i = tx_addr s (n + i).
Proof.
  intros H. unfold tx_addr. rewrite H. unfold u32, TX_FRAMES. f_equal.
  replace (xk_prev_tx_frame s + Z.of_nat (n + i)) with (xk_prev_tx_frame s + Z.of_nat n + Z.of_nat i) by lia.
  rewrite <- (Zplus_mod_idemp_l (_ mod 4294967296)), <- (Zplus_mod_idemp_l (xk_prev_tx_frame s + Z.of_nat n)).
  do 2 f_equal. zlia.
Qed.

(** Fewer than 2048 sends apart, two frames do not overlap. *)
Lemma tx_addr_distinct s i j : (i < j)%nat -> Z.of_nat j < Z.of_nat i + TX_FRAMES ->
  tx_addr s i + TX_FRAME_BYTES <= tx_addr s j \/ tx_addr s j + TX_FRAME_BYTES <= tx_addr s i.
Proof.
  unfold tx_addr, TX_FRAMES, TX_FRAME_BYTES. intros H1 H2.
  assert ((xk_prev_tx_frame s + Z.of_nat i) mod 2048 <> (xk_prev_tx_frame s + Z.of_nat j) mod 2048) by zlia. lia.
Qed.

Lemma rx_half_apart s n data k : TX_FRAMES * TX_FRAME_BYTES <= data -> apart s n data k.
Proof. intros H i _. right. pose proof (tx_addr_range s i). unfold TX_FRAMES, TX_FRAME_BYTES in *. lia. Qed.

Lemma queued_app s s1 s2 j1 j2 : queued s s1 j1 -> queued s1 s2 j2 -> queued s s2 (j1 ++ j2).
Proof.
  intros (A1 & A2 & A3 & A4 & A5 & A6 & A7 & A8 & A9) (B1 & B2 & B3 & B4 & B5 & B6 & B7 & B8 & B9).
  unfold queued. rewrite zlen_app. split_and!; try congruence.
  - rewrite B7, A7. lia.
  - rewrite B8, A8. unfold u32. rewrite Zplus_mod_idemp_l. f_equal. lia.
  - rewrite B9, A9, <- app_assoc. f_equal. unfold job_descs. rewrite imap_app. f_equal. apply imap_ext.
    intros i [[d data] n] _. cbn. by rewrite (tx_addr_shift s s1 (length j1)) by (rewrite A8; done).
Qed.

Lemma frames_written_app s s1 m m1 m2 j1 j2 :
  xk_prev_tx_frame s1 = u32 (xk_prev_tx_frame s + zlen j1) -> Forall job_ok j2 -> zlen j1 + zlen j2 <= TX_FRAMES ->
  Forall job_ok j1 -> frames_written s m m1 j1 -> frames_written s1 m1 m2 j2 -> frames_written s m m2 (j1 ++ j2).
Proof.
  intros Hs H2 Hn H1 [A1 A2] [B1 B2].
  assert (forall i, tx_addr s1 i = tx_addr s (length j1 + i)) as Hsh by (intros i; by apply tx_addr_shift).
  split.
  - intros i d data n Hi. apply lookup_app_Some in Hi as [Hi|[Hge Hi]].
    + rewrite B2; [by eapply A1|]. intros j Hj. rewrite Hsh.
      pose proof (lookup_lt_Some _ _ _ Hi). rewrite Forall_lookup in H1. pose proof (H1 _ _ Hi) as [_ Hlen].
      pose proof (tx_addr_distinct s i (length j1 + j) ltac:(lia)) as Hd. unfold zlen, TX_FRAMES, TX_FRAME_BYTES in *.
      destruct Hd; lia.
    + rewrite Forall_lookup in H2. pose proof (H2 _ _ Hi) as [Hdata _].
      replace i with (length j1 + (i - length j1))%nat at 1 by lia. rewrite <- Hsh.
      rewrite (B1 _ _ _ _ Hi). f_equal. by apply A2, rx_half_apart.
  - intros off k Hap. rewrite B2, A2; [done|..].
    + intros i Hi. apply Hap. rewrite length_app. lia.
    + intros i Hi. rewrite Hsh. apply Hap. rewrite length_app. lia.
Qed.

Lemma ring_free_set_slot (r : prod_ring (Z * Z)) idx v : ring_free (set_slot r idx v) = ring_free r.
Proof. done. Qed.

Lemma poll_spec s : xk_closed s = false -> exists s', pollTxCompletions peek s = Some s' /\
  xk_closed s' = false /\ xk_chunk_size s' = xk_chunk_size s /\ xk_fq s' = xk_fq s /\ xk_rx s' = xk_rx s /\
  xk_pending s' = xk_pending s /\ xk_tx s' = xk_tx s /\ xk_prev_tx_frame s' = xk_prev_tx_frame s.
Proof.
  intros Hc. unfold pollTxCompletions. rewrite Hc. destruct (_ =? 0); [by exists s|]. destruct (_ =? 0); [by exists s|].
  case_match; by eexists.
Qed.

Lemma send_direct_spec s m d data n :
  libxdp_ok reserve peek extract_addr -> env_wf env -> xk_closed s = false -> ring_ok (xk_tx s) -> 1 <= ring_free (xk_tx s) ->
  job_ok (d, data, n) ->
  exists s' m', sendSinglePacketDirect s m d data n = Some (true, s', m') /\
    queued s s' [(d, data, n)] /\ frames_written s m m' [(d, data, n)].
Proof.
  intros (Hres & _) He Hc Hok Hfree [Hdata Hn]. unfold sendSinglePacketDirect.
  destruct (poll_spec s Hc) as (t & -> & C & F1 & F2 & F3 & F4 & F5 & F6). cbn [mbind option_bind].
  unfold getNextTxFrame. cbn beta iota zeta. rewrite F6.
  assert (tx_addr s 0 = xk_prev_tx_frame s mod TX_FRAMES * TX_FRAME_BYTES) as Ha by (unfold tx_addr; by rewrite Z.add_0_r).
  rewrite <- Ha. pose proof (tx_addr_range s 0) as Hr. unfold TX_FRAMES, TX_FRAME_BYTES in Hr, Hdata.
  pose proof (create_udp_packet_spec inet_aton env m d data n (tx_addr s 0) TX_FRAME_BYTES He ltac:(lia)) as Hcreate.
  assert (42 + n <= TX_FRAME_BYTES) as Hfit by (unfold TX_FRAME_BYTES; lia).
  assert (data + n <= tx_addr s 0 \/ tx_addr s 0 + (42 + n) <= data) as Hapart by (right; lia).
  specialize (Hcreate Hfit Hapart). clear Hfit Hapart.
  destruct (createUdpPacket inet_aton env m d data n (tx_addr s 0) TX_FRAME_BYTES) as [m' len].
  destruct Hcreate as (-> & Hframe & Hother). rewrite (proj2 (Z.eqb_neq _ _)) by lia.
  unfold reserveTxRing, setTxDescriptor, submitTxRing, requestDriverPoll. cbn [xk_closed xk_tx]. rewrite C, F5.
  assert (reserve (ring_free (xk_tx s)) 1 = 1) as -> by (apply Hres; lia).
  cbn [mbind option_bind negb Z.eqb Pos.eqb].
  repeat (cbn [mbind option_bind with_tx with_counters xk_closed xk_tx]; rewrite ?C).
  cbn [mbind option_bind].
  eexists _, m'. split; [reflexivity|]. split.
  - pose proof (ring_push_spec (xk_tx s) [(tx_addr s 0, 42 + n)] Hok) as Hp. cbn zeta in Hp.
    change (zlen [(tx_addr s 0, 42 + n)]) with 1 in Hp. rewrite <- set_slot_fill in Hp. destruct Hp as (P1 & P2 & P3 & P4 & P5 & _).
    unfold queued. cbn [with_tx with_counters xk_closed xk_chunk_size xk_fq xk_rx xk_pending xk_tx xk_prev_tx_frame].
    split_and!; try done.
    unfold ring_free. cbn. unfold zlen. simpl. lia.
  - split.
    + intros [|i] d' data' n' Hi; [|by destruct i]. injection Hi as <- <- <-. done.
    + intros off k Hap. apply Hother. destruct (Hap 0%nat ltac:(simpl; lia)); unfold TX_FRAME_BYTES in *; lia.
Qed.

(** The counters after [jobs] were sent. *)
Definition counts_sent (c c' : counters) (jobs : list job) : Prop :=
  packets_received_per_queue c' = packets_received_per_queue c /\ packets_sent_per_queue c' = packets_sent_per_queue c /\
  packets_received c' = packets_received c /\ bytes_received c' = bytes_received c /\
  u64 (packets_sent c') = u64 (packets_sent c + zlen jobs) /\
  u64 (bytes_sent c') = u64 (bytes_sent c + foldr Z.add 0 (map snd jobs)).

(** Everything about sending [jobs] from a queue with room for them. *)
Definition sends (t t' : qthread) (jobs : list job) : Prop :=
  exists s s', qt_sock t = Some s /\ qt_sock t' = Some s' /\ queued s s' jobs /\
    frames_written s (qt_mem t) (qt_mem t') jobs /\ qt_output t' = qt_output t.
Definition can_send (t : qthread) (n : Z) : Prop :=
  exists s, qt_sock t = Some s /\ xk_closed s = false /\ ring_ok (xk_tx s) /\ n <= ring_free (xk_tx s) /\
    0 <= xk_prev_tx_frame s < 4294967296.

Definition jobs_for (dests : list Destination) (data n : Z) : list job := map (fun d => (d, data, n)) dests.

Lemma u64_idem_add a b : u64 (u64 a + b) = u64 (a + b).
Proof. unfold u64. by rewrite Zplus_mod_idemp_l. Qed.

Lemma sends_nil t n : can_send t n -> sends t t [].
Proof.
  intros (s & Hs & Hc & Hok & _ & Hp). exists s, s. split; [done|]. split; [done|]. split; [|split; [by split|done]].
  unfold queued. rewrite app_nil_r. unfold zlen. simpl. rewrite Z.sub_0_r, Z.add_0_r, u32_small by done. done.
Qed.

Lemma sends_app t t1 t2 j1 j2 : sends t t1 j1 -> sends t1 t2 j2 -> Forall job_ok j1 -> Forall job_ok j2 ->
  zlen j1 + zlen j2 <= TX_FRAMES -> sends t t2 (j1 ++ j2).
Proof.
  intros (s & s1 & H1 & H2 & Hq1 & Hf1 & Ho1) (s1' & s2 & H3 & H4 & Hq2 & Hf2 & Ho2) Hj1 Hj2 Hn.
  rewrite H2 in H3. injection H3 as <-. exists s, s2. split; [done|]. split; [done|]. split; [by eapply queued_app|].
  split; [|congruence]. eapply frames_written_app; try done. apply Hq1.
Qed.

Lemma sends_can t t' jobs n : sends t t' jobs -> can_send t n -> can_send t' (n - zlen jobs).
Proof.
  intros (s & s' & H1 & H2 & (Q1 & Q2 & Q3 & Q4 & Q5 & Q6 & Q7 & Q8 & _) & _) (s0 & H3 & _ & _ & Hn & _).
  rewrite H1 in H3. injection H3 as <-. exists s'. split_and!; try done; [lia|..]; rewrite Q8; apply u32_range.
Qed.

(** Packets in the receive half are not touched by sending. *)
Lemma sends_rx t t' jobs data k : sends t t' jobs -> TX_FRAMES * TX_FRAME_BYTES <= data ->
  mem_read (qt_mem t') data k = mem_read (qt_mem t) data k.
Proof. intros (s & s' & _ & _ & _ & [_ Hf] & _) Hd. by apply Hf, rx_half_apart. Qed.

Lemma sends_counts t t' jobs c : sends t t' jobs -> sends t (with_counts t' c) jobs.
Proof. done. Qed.
Lemma can_send_counts t n c : can_send t n -> can_send (with_counts t c) n.
Proof. done. Qed.

Lemma counts_sent_refl c : counts_sent c c [].
Proof. unfold counts_sent, zlen. simpl. by rewrite !Z.add_0_r. Qed.
Lemma counts_sent_app c c1 c2 j1 j2 : counts_sent c c1 j1 -> counts_sent c1 c2 j2 -> counts_sent c c2 (j1 ++ j2).
Proof.
  intros (A1 & A2 & A3 & A4 & A5 & A6) (B1 & B2 & B3 & B4 & B5 & B6). unfold counts_sent. split_and!; try congruence.
  - rewrite B5, <- u64_idem_add, A5, u64_idem_add, zlen_app. f_equal. lia.
  - rewrite B6, <- u64_idem_add, A6, u64_idem_add, map_app, foldr_app. f_equal.
    assert (forall z l, foldr Z.add z l = z + foldr Z.add 0 l) as Hz by (intros z l; induction l as [|x l IH]; simpl; lia).
    rewrite (Hz (foldr Z.add 0 (map snd j2))). lia.
Qed.

Section Sending.
Context (Hx : libxdp_ok reserve peek extract_addr) (He : env_wf env).

Lemma send_with_queue t d data n queueId room :
  0 <= queueId < num_queues -> can_send t room -> 1 <= room -> job_ok (d, data, n) ->
  exists t', sendToDestinationWithQueue t d data n queueId = (true, t') /\ sends t t' [(d, data, n)] /\ qt_counters t' = qt_counters t.
Proof.
  intros Hq (s & Hs & Hc & Hok & Hfree & _) Hr Hj. unfold sendToDestinationWithQueue.
  rewrite (proj2 (Z.ltb_ge _ _)), (proj2 (Z.leb_gt _ _)) by lia. cbn [orb]. rewrite Hs.
  destruct (send_direct_spec s (qt_mem t) d data n Hx He Hc Hok ltac:(lia) Hj) as (s' & m' & -> & Hqd & Hf).
  eexists. split; [reflexivity|]. split; [|done]. by exists s, s'.
Qed.

Lemma jobs_for_ok dests data n : TX_FRAMES * TX_FRAME_BYTES <= data -> 0 <= n <= 4054 -> Forall job_ok (jobs_for dests data n).
Proof. intros H1 H2. apply Forall_forall. intros j (d & -> & _)%list_elem_of_fmap. done. Qed.

Lemma send_all_spec dests data n queueId : 0 <= queueId < num_queues -> TX_FRAMES * TX_FRAME_BYTES <= data -> 0 <= n <= 4054 ->
  forall t c room, can_send t room -> zlen dests <= room -> room <= TX_FRAMES ->
  exists t', send_all t dests data n queueId c = (c + zlen dests, t') /\ sends t t' (jobs_for dests data n) /\
    counts_sent (qt_counters t) (qt_counters t') (jobs_for dests data n).
Proof.
  intros Hq Hd Hn. induction dests as [|d dests IH]; intros t c room Hcan Hroom Hmax.
  - exists t. split; [unfold zlen; simpl; f_equal; lia|]. split; [by eapply sends_nil|apply counts_sent_refl].
  - assert (zlen (d :: dests) = 1 + zlen dests) as Hl by (unfold zlen; simpl; lia). pose proof (zlen_nonneg dests).
    assert (job_ok (d, data, n)) as Hj by done.
    destruct (send_with_queue t d data n queueId room Hq Hcan ltac:(lia) Hj) as (t1 & E1 & S1 & C1). cbn [send_all]. rewrite E1.
    set (t1' := with_counts t1 _). pose proof (sends_can _ _ _ _ S1 Hcan) as Hcan1. unfold zlen in Hcan1 at 1. cbn [length] in Hcan1.
    destruct (IH t1' (c + 1) (room - Z.of_nat 1) Hcan1 ltac:(lia) ltac:(lia)) as (t2 & E2 & S2 & C2).
    exists t2. split; [rewrite E2; f_equal; lia|]. change (jobs_for (d :: dests) data n) with ([(d, data, n)] ++ jobs_for dests data n). split.
    + eapply sends_app; [exact S1|exact S2|by apply Forall_singleton|by apply jobs_for_ok|].
      unfold jobs_for, zlen in *. rewrite length_map. simpl in *. lia.
    + eapply counts_sent_app; [|exact C2]. unfold t1', counts_sent, zlen. cbn. rewrite C1. unfold u64. rewrite !Zmod_mod. by rewrite Z.add_0_r.
Qed.

(** The sends one packet asks for. *)
Definition packet_jobs (m : umem) (dests : list Destination) (packet : Z * Z) : list job :=
  match extractUdpPayload (mem_read m (fst packet) (Z.to_nat (snd packet))) with
  | Some (Some (off, n)) => jobs_for dests (fst packet + off) n
  | _ => []
  end.
(** A packet in the receive half. *)
Definition packet_ok (packet : Z * Z) : Prop :=
  let '(addr, len) := packet in TX_FRAMES * TX_FRAME_BYTES <= addr /\ 0 < len <= 4096 /\ addr + len <= (TX_FRAMES + RX_FRAMES) * TX_FRAME_BYTES.

Lemma packet_jobs_ok m dests packet : packet_ok packet -> Forall job_ok (packet_jobs m dests packet).
Proof.
  destruct packet as [addr len]. intros (H1 & H2 & _). unfold packet_jobs. cbn [fst snd].
  destruct (extract_bounds (mem_read m addr (Z.to_nat len))) as ([[off n]|] & -> & Hb); [|constructor].
  unfold zlen in Hb. rewrite mem_read_length in Hb. apply jobs_for_ok; lia.
Qed.

Lemma replicate_spec t dests packet queueId room : 0 <= queueId < num_queues -> packet_ok packet ->
  can_send t room -> zlen (packet_jobs (qt_mem t) dests packet) <= room -> room <= TX_FRAMES ->
  exists t', replicatePacket t dests (fst packet) (snd packet) queueId = Some (zlen (packet_jobs (qt_mem t) dests packet), t') /\
    sends t t' (packet_jobs (qt_mem t) dests packet) /\
    counts_sent (qt_counters t) (qt_counters t') (packet_jobs (qt_mem t) dests packet).
Proof.
  destruct packet as [addr len]. intros Hq (H1 & H2 & _) Hcan. unfold packet_jobs, replicatePacket. cbn [fst snd].
  destruct (extract_bounds (mem_read (qt_mem t) addr (Z.to_nat len))) as ([[off n]|] & -> & Hb); cbn [mbind option_bind]; intros Hroom Hmax.
  2: { exists t. split; [done|]. split; [by eapply sends_nil|apply counts_sent_refl]. }
  unfold zlen in Hb. rewrite mem_read_length in Hb. destruct dests as [|d dests].
  { exists t. split; [done|]. split; [by eapply sends_nil|apply counts_sent_refl]. }
  assert (zlen (jobs_for (d :: dests) (addr + off) n) = zlen (d :: dests)) as Hl by (unfold zlen, jobs_for; by rewrite length_map).
  rewrite Hl in *. destruct (send_all_spec (d :: dests) (addr + off) n queueId Hq ltac:(lia) ltac:(lia) t 0 room Hcan Hroom Hmax) as (t' & E & S & C).
  exists t'. rewrite E. done.
Qed.

(** *** A pass of the queue's thread *)

(** The sends all packets ask for, in order; [dests i] for packet i. *)
Fixpoint all_jobs (m : umem) (dests : nat -> list Destination) (i : nat) (packets : list (Z * Z)) : list job :=
  match packets with
  | [] => []
  | packet :: packets => packet_jobs m (dests i) packet ++ all_jobs m dests (S i) packets
  end.

(** The counters after a pass over [packets] that sent [jobs]. *)
Definition counts_pass (c c' : counters) (packets : list (Z * Z)) (jobs : list job) : Prop :=
  u64 (packets_received_per_queue c') = u64 (packets_received_per_queue c + zlen packets) /\
  u64 (packets_received c') = u64 (packets_received c + zlen packets) /\
  u64 (bytes_received c') = u64 (bytes_received c + foldr Z.add 0 (map snd packets)) /\
  u64 (packets_sent_per_queue c') = u64 (packets_sent_per_queue c + zlen jobs) /\
  u64 (packets_sent c') = u64 (packets_sent c + zlen jobs) /\
  u64 (bytes_sent c') = u64 (bytes_sent c + foldr Z.add 0 (map snd jobs)).

Lemma u64_twice z : u64 (u64 z) = u64 z.
Proof. unfold u64. by rewrite Zmod_mod. Qed.
Lemma foldr_add_app l k : foldr Z.add 0 (l ++ k) = foldr Z.add 0 l + foldr Z.add 0 k.
Proof. induction l as [|x l IH]; simpl; lia. Qed.
Lemma u64_add_eq a b c d : u64 a = u64 (b + c) -> u64 (a + d) = u64 (b + (c + d)).
Proof. intros H. rewrite <- u64_idem_add, H, u64_idem_add. f_equal. lia. Qed.

(** One packet, then the rest. *)
Lemma counts_pass_cons c c1 c' packet packets jobs jobs' :
  counts_sent (count_received c (snd packet)) c1 jobs -> counts_pass (count_queue_sent c1 (zlen jobs)) c' packets jobs' ->
  counts_pass c c' (packet :: packets) (jobs ++ jobs').
Proof.
  intros (A1 & A2 & A3 & A4 & A5 & A6) (B1 & B2 & B3 & B4 & B5 & B6).
  assert (u64 (packets_sent_per_queue (count_queue_sent c1 (zlen jobs))) = u64 (packets_sent_per_queue c + zlen jobs)) as HQ.
  { unfold count_queue_sent. destruct (Z.ltb_spec 0 (zlen jobs)); cbn [packets_sent_per_queue]; rewrite ?u64_twice, A2; [done|].
    pose proof (zlen_nonneg jobs). f_equal. cbn. lia. }
  assert (packets_received_per_queue (count_queue_sent c1 (zlen jobs)) = packets_received_per_queue c1 /\
    packets_received (count_queue_sent c1 (zlen jobs)) = packets_received c1 /\
    bytes_received (count_queue_sent c1 (zlen jobs)) = bytes_received c1 /\
    packets_sent (count_queue_sent c1 (zlen jobs)) = packets_sent c1 /\
    bytes_sent (count_queue_sent c1 (zlen jobs)) = bytes_sent c1) as (F1 & F2 & F3 & F4 & F5)
    by (unfold count_queue_sent; by case_match).
  rewrite F1 in B1. rewrite F2 in B2. rewrite F3 in B3. rewrite F4 in B5. rewrite F5 in B6.
  cbn in A1, A3, A4, A5, A6. unfold counts_pass.
  rewrite !zlen_app, !map_app, !foldr_add_app. cbn [map foldr].
  replace (zlen (packet :: packets)) with (1 + zlen packets) by (unfold zlen; simpl; lia).
  rewrite A1 in B1. rewrite A3 in B2. rewrite A4 in B3. rewrite u64_idem_add in B1, B2, B3.
  split_and!; [rewrite B1; f_equal; lia|rewrite B2; f_equal; lia|rewrite B3; f_equal; lia|..].
  - rewrite B4. by apply u64_add_eq.
  - rewrite B5. by apply u64_add_eq.
  - rewrite B6. by apply u64_add_eq.
Qed.

Lemma all_jobs_ok m dests i packets : Forall packet_ok packets -> Forall job_ok (all_jobs m dests i packets).
Proof.
  intros H. revert i. induction H as [|packet packets Hp _ IH]; intros i; [constructor|].
  apply Forall_app. split; [by apply packet_jobs_ok|apply IH].
Qed.

Lemma all_jobs_sends t t' jobs dests i packets : sends t t' jobs -> Forall packet_ok packets ->
  all_jobs (qt_mem t') dests i packets = all_jobs (qt_mem t) dests i packets.
Proof.
  intros Hs H. revert i. induction H as [|[addr len] packets Hp _ IH]; intros i; [done|]. cbn [all_jobs]. rewrite IH. f_equal.
  unfold packet_jobs. cbn [fst snd]. destruct Hp as (Hp & _). by rewrite (sends_rx t t' jobs addr _ Hs Hp).
Qed.

Lemma process_packets_spec dests queueId packets : 0 <= queueId < num_queues -> Forall packet_ok packets ->
  forall t i room, can_send t room -> zlen (all_jobs (qt_mem t) dests i packets) <= room -> room <= TX_FRAMES ->
  exists t', process_packets t dests i packets queueId = Some t' /\ sends t t' (all_jobs (qt_mem t) dests i packets) /\
    counts_pass (qt_counters t) (qt_counters t') packets (all_jobs (qt_mem t) dests i packets).
Proof.
  intros Hq H. induction H as [|[addr len] packets Hp Hps IH]; intros t i room Hcan Hroom Hmax.
  { exists t. split; [done|]. split; [by eapply sends_nil|]. unfold counts_pass, zlen. simpl. by rewrite !Z.add_0_r. }
  cbn [all_jobs process_packets] in *. rewrite zlen_app in Hroom.
  assert (u64 len = len) as Hlen by (apply u64_small; destruct Hp as (_ & Hp & _); lia). rewrite Hlen.
  set (t0 := with_counts t _). set (j1 := packet_jobs (qt_mem t) (dests i) (addr, len)) in *.
  set (j2 := all_jobs (qt_mem t) dests (S i) packets) in *. pose proof (zlen_nonneg j1). pose proof (zlen_nonneg j2).
  destruct (replicate_spec t0 (dests i) (addr, len) queueId room Hq Hp Hcan) as (t1 & E1 & S1 & C1);
    [change (zlen j1 <= room); lia|done|].
  change (packet_jobs (qt_mem t0) (dests i) (addr, len)) with j1 in *. cbn [fst snd] in E1. rewrite E1. cbn [mbind option_bind].
  set (t1' := with_counts t1 _).
  assert (all_jobs (qt_mem t1') dests (S i) packets = j2) as Hj2 by (apply (all_jobs_sends t0 t1 j1); done).
  destruct (IH t1' (S i) (room - zlen j1) (sends_can _ _ _ _ S1 Hcan)) as (t2 & E2 & S2 & C2); [rewrite Hj2; lia|lia|].
  rewrite Hj2 in S2, C2. exists t2. split; [done|]. split.
  - eapply sends_app; [exact S1|exact S2|by apply packet_jobs_ok|by apply all_jobs_ok|lia].
  - by eapply counts_pass_cons.
Qed.

Lemma map_s32_extract packets : Forall packet_ok packets ->
  map (fun '(addr, len) => (s32 (extract_addr addr), s32 len)) packets = packets /\ map extract_addr (map fst packets) = map fst packets.
Proof.
  destruct Hx as (_ & _ & Hex). induction 1 as [|[addr len] packets (H1 & H2 & H3) _ [IH1 IH2]]; [done|]. cbn [map fst].
  unfold TX_FRAMES, RX_FRAMES, TX_FRAME_BYTES in *. rewrite IH1, IH2, Hex by lia. by rewrite !s32_small by lia.
Qed.

(** The socket of a thread that recycles before it receives. *)
Record pass_ready (s : xsk) (n : Z) : Prop := {
  ready_open : xk_closed s = false;
  ready_tx : ring_ok (xk_tx s) /\ pr_size (xk_tx s) = TX_FRAMES;
  ready_fq : ring_ok (xk_fq s) /\ zlen (xk_rx s) <= ring_free (xk_fq s);
  ready_prev : 0 <= xk_prev_tx_frame s < 4294967296;
  ready_pending : xk_pending s = [];
  ready_rx : Forall packet_ok (xk_rx s);
  ready_room : n <= ring_free (xk_tx s) }.

(** The packets of the next pass. *)
Definition next_packets (s : xsk) : list (Z * Z) := take (Z.to_nat (peek (zlen (xk_rx s)) BATCH_PACKETS)) (xk_rx s).

Lemma next_packets_peek s : peek (zlen (xk_rx s)) BATCH_PACKETS = zlen (next_packets s).
Proof.
  destruct Hx as (_ & Hpk & _). destruct (Hpk (zlen (xk_rx s)) BATCH_PACKETS (zlen_nonneg _) ltac:(done)) as [P1 P2].
  unfold next_packets, zlen in *. rewrite length_take. lia.
Qed.

Lemma match_nonempty {A B} (l : list A) (x y : B) : l <> [] -> match l with [] => x | _ => y end = y.
Proof. by destruct l. Qed.

Lemma recycle_spec s packets : xk_closed s = false -> xk_pending s = map fst packets -> Forall packet_ok packets -> packets <> [] ->
  ring_ok (xk_fq s) -> zlen packets <= ring_free (xk_fq s) ->
  exists s', recycleFrames reserve extract_addr s = Some s' /\ xk_tx s' = xk_tx s /\ xk_rx s' = xk_rx s /\ xk_pending s' = [] /\
    ring_queued (xk_fq s') = ring_queued (xk_fq s) ++ map fst packets.
Proof.
  intros Hc Hp Hok Hne Hfq Hroom. unfold recycleFrames. rewrite Hc.
  destruct (xk_pending s) as [|q qs]; [by destruct packets|]. rewrite Hp.
  replace (zlen (map fst packets)) with (zlen packets) by (unfold zlen; by rewrite length_map).
  pose proof (zlen_nonneg packets). assert (reserve (ring_free (xk_fq s)) (zlen packets) = zlen packets) as -> by (apply Hx; lia).
  rewrite take_ge by (unfold zlen; rewrite length_map; lia). destruct (map_s32_extract packets Hok) as [_ ->].
  eexists. split; [reflexivity|]. split_and!; try done. pose proof (ring_push_spec (xk_fq s) (map fst packets) Hfq) as Hr.
  replace (zlen (map fst packets)) with (zlen packets) in Hr by (unfold zlen; by rewrite length_map). apply Hr.
Qed.

Lemma queue_pass_spec (t : qthread) (s : xsk) (dests : nat -> list Destination) (queueId : Z)
    (Hq : 0 <= queueId < num_queues) (Hs : qt_sock t = Some s)
    (Hr : pass_ready s (zlen (all_jobs (qt_mem t) dests 0 (next_packets s)))) :
  let jobs := all_jobs (qt_mem t) dests 0 (next_packets s) in
  exists t' s', queue_pass t dests queueId = Some t' /\ qt_sock t' = Some s' /\
    ring_queued (xk_tx s') = ring_queued (xk_tx s) ++ job_descs s jobs /\
    (forall i d data n, jobs !! i = Some (d, data, n) ->
       let frame := mem_read (qt_mem t') (tx_addr s i) (Z.to_nat (42 + n)) in
       frame = udp_frame inet_aton env d (mem_read (qt_mem t) data (Z.to_nat n)) /\
       extractUdpPayload frame = Some (Some (42, n)) /\ udp_packet_to (config_for d) frame) /\
    (forall off k, apart s (length jobs) off k -> mem_read (qt_mem t') off k = mem_read (qt_mem t) off k) /\
    qt_output t' = qt_output t /\ xk_rx s' = drop (length (next_packets s)) (xk_rx s) /\
    xk_pending s' = [] /\ ring_queued (xk_fq s') = ring_queued (xk_fq s) ++ map fst (next_packets s) /\
    counts_pass (qt_counters t) (qt_counters t') (next_packets s) jobs.
Proof.
  intros jobs. destruct Hr as [Hc [Htx Hsz] [Hfq Hfree] Hprev Hpend Hrx Hroom]. fold jobs in Hroom.
  assert (Forall packet_ok (next_packets s)) as Hok by (by apply Forall_take).
  assert (zlen (next_packets s) <= zlen (xk_rx s)) as Hlen by (unfold next_packets, zlen; rewrite length_take; lia).
  unfold queue_pass. rewrite Hs. cbn [mbind option_bind]. unfold receive. rewrite Hc, next_packets_peek.
  destruct (Z.eqb_spec (zlen (next_packets s)) 0) as [H0|H0].
  { unfold jobs in *. clear jobs. assert (next_packets s = []) as E by (destruct (next_packets s); [done|unfold zlen in H0; simpl in H0; lia]).
    rewrite E. cbn [all_jobs map]. eexists _, s. split; [reflexivity|]. unfold job_descs, counts_pass, zlen. cbn.
    rewrite !app_nil_r, !Z.add_0_r, drop_0. split_and!; try done. }
  assert (Z.to_nat (zlen (next_packets s)) = length (next_packets s)) as Hnat by (unfold zlen; lia). rewrite !Hnat.
  assert (take (length (next_packets s)) (xk_rx s) = next_packets s) as Htake.
  { unfold next_packets at 2. unfold next_packets. rewrite length_take.
    destruct (Nat.min_spec (Z.to_nat (peek (zlen (xk_rx s)) BATCH_PACKETS)) (length (xk_rx s))) as [[? ->]|[? ->]]; [done|].
    by rewrite !take_ge by lia. }
  rewrite !Htake. destruct (map_s32_extract _ Hok) as [-> _].
  assert (next_packets s <> []) as Hne by (intros E; by rewrite E in H0).
  set (s1 := with_rx s _ _). set (t1 := with_sock t s1 (qt_mem t)).
  assert (can_send t1 (zlen jobs)) as Hcan by (exists s1; done).
  assert (zlen jobs <= TX_FRAMES) as Hmax.
  { unfold ring_free in Hroom. destruct Htx as (T1 & T2 & _). rewrite Hsz in Hroom. lia. }
  destruct (process_packets_spec dests queueId (next_packets s) Hq Hok t1 0 (zlen jobs) Hcan) as (t2 & E2 & S2 & C2);
    [change (zlen jobs <= zlen jobs); lia|done|]. change (all_jobs (qt_mem t1) dests 0 (next_packets s)) with jobs in *.
  rewrite match_nonempty, E2 by done. cbn [mbind option_bind].
  destruct S2 as (s1' & s2 & G1 & G2 & (Q1 & Q2 & Q3 & Q4 & Q5 & Q6 & Q7 & Q8 & Q9) & [W1 W2] & Ho). injection G1 as <-.
  rewrite G2. cbn [mbind option_bind]. destruct (recycle_spec s2 (next_packets s)) as (s3 & -> & R1 & R2 & R3 & R4); [done..|by rewrite Q3|rewrite Q3; cbn; lia|].
  assert (Forall job_ok jobs) as Hjobs by (by apply all_jobs_ok).
  eexists _, s3. split; [reflexivity|]. split; [done|]. split; [by rewrite R1, Q9|]. split.
  { intros i d data n Hi. cbn [qt_mem with_sock]. set (frame := mem_read _ _ _). assert (frame = udp_frame inet_aton env d (mem_read (qt_mem t) data (Z.to_nat n))) as Hf by (exact (W1 _ _ _ _ Hi)).
    rewrite Forall_lookup in Hjobs. pose proof (Hjobs _ _ Hi) as [_ Hn].
    assert (zlen (mem_read (qt_mem t) data (Z.to_nat n)) = n) as Hpl by (unfold zlen; rewrite mem_read_length; lia).
    split; [exact Hf|]. rewrite Hf. split; [rewrite udp_frame_extract by (done || lia); by rewrite Hpl|by apply udp_frame_accepted]. }
  split; [exact W2|]. split; [exact Ho|]. split; [rewrite R2, Q4; done|]. split; [done|]. split; [by rewrite R4, Q3|exact C2].
Qed.

(** C4: one pass of a queue's thread, with room in the transmit ring, takes the
    next packets and sends exactly one frame per packet and destination, in order:
    each frame carries that packet's UDP payload unchanged, passes extraction with
    the same payload, and is a packet an XDP filter for the destination accepts.
    Nothing goes to the regular socket, no other transmit frame and no received
    byte is overwritten, every receive frame returns to the fill ring, and the
    counters grow by exactly these packets, frames and payload bytes (modulo
    2^64). *)
Theorem queue_pass_replicates (t : qthread) (s : xsk) (dests : nat -> list Destination) (queueId : Z)
    (Hq : 0 <= queueId < num_queues) (Hs : qt_sock t = Some s)
    (Hr : pass_ready s (zlen (all_jobs (qt_mem t) dests 0 (next_packets s)))) :
  let jobs := all_jobs (qt_mem t) dests 0 (next_packets s) in
  exists t' s', queue_pass t dests queueId = Some t' /\ qt_sock t' = Some s' /\
    ring_queued (xk_tx s') = ring_queued (xk_tx s) ++ job_descs s jobs /\
    (forall i d data n, jobs !! i = Some (d, data, n) ->
       let frame := mem_read (qt_mem t') (tx_addr s i) (Z.to_nat (42 + n)) in
       frame = udp_frame inet_aton env d (mem_read (qt_mem t) data (Z.to_nat n)) /\
       extractUdpPayload frame = Some (Some (42, n)) /\ udp_packet_to (config_for d) frame) /\
    (forall off k, apart s (length jobs) off k -> mem_read (qt_mem t') off k = mem_read (qt_mem t) off k) /\
    qt_output t' = qt_output t /\ xk_rx s' = drop (length (next_packets s)) (xk_rx s) /\
    xk_pending s' = [] /\ ring_queued (xk_fq s') = ring_queued (xk_fq s) ++ map fst (next_packets s) /\
    counts_pass (qt_counters t) (qt_counters t') (next_packets s) jobs.
Proof. by apply queue_pass_spec. Qed.

(** C31: when 2048 frames are queued and the driver has taken none, one more send
    reports failure and nothing is added to the ring, but the frame of the oldest
    queued descriptor has been overwritten: it now holds the new destination's
    packet, and the packet queued first is lost. *)
Theorem full_ring_send_overwrites (s0 s : xsk) (m : umem) (jobs : list job) (d d0 : Destination) (data n data0 n0 : Z)
    (Hq : queued s0 s jobs) (Hempty : ring_queued (xk_tx s0) = []) (Hl : zlen jobs = TX_FRAMES)
    (Hfull : ring_free (xk_tx s) = 0) (H0 : jobs !! 0%nat = Some (d0, data0, n0)) (Hj : job_ok (d, data, n)) :
  exists s' m', sendSinglePacketDirect s m d data n = Some (false, s', m') /\
    ring_queued (xk_tx s') = ring_queued (xk_tx s) /\ ring_queued (xk_tx s) !! 0%nat = Some (tx_addr s0 0, 42 + n0) /\
    mem_read m' (tx_addr s0 0) (Z.to_nat (42 + n)) = udp_frame inet_aton env d (mem_read m data (Z.to_nat n)).
Proof.
  pose proof Hq as (Hc & _ & _ & _ & _ & Hok & _ & Hprev & Hqueue). destruct Hj as [Hdata Hn].
  assert (tx_addr s0 0 = tx_addr s 0) as Ha.
  { rewrite (tx_addr_shift s0 s (length jobs) 0) by exact Hprev. unfold tx_addr. f_equal.
    unfold zlen in Hl. rewrite Nat.add_0_r, Hl, Z.add_0_r, <- Z.add_mod_idemp_r, Z_mod_same_full by done. by rewrite Z.add_0_r. }
  unfold sendSinglePacketDirect. destruct (poll_spec s Hc) as (t & -> & C & F1 & F2 & F3 & F4 & F5 & F6). cbn [mbind option_bind].
  unfold getNextTxFrame. cbn beta iota zeta. rewrite F6.
  assert (tx_addr s 0 = xk_prev_tx_frame s mod TX_FRAMES * TX_FRAME_BYTES) as Ht by (unfold tx_addr; by rewrite Z.add_0_r).
  rewrite <- Ht, <- Ha. pose proof (tx_addr_range s0 0) as Hr. unfold TX_FRAMES, TX_FRAME_BYTES in Hr, Hdata.
  pose proof (create_udp_packet_spec inet_aton env m d data n (tx_addr s0 0) TX_FRAME_BYTES He ltac:(lia)) as Hcreate.
  assert (42 + n <= TX_FRAME_BYTES) as Hfit by (unfold TX_FRAME_BYTES; lia).
  assert (data + n <= tx_addr s0 0 \/ tx_addr s0 0 + (42 + n) <= data) as Hapart by (right; lia).
  specialize (Hcreate Hfit Hapart). destruct (createUdpPacket inet_aton env m d data n (tx_addr s0 0) TX_FRAME_BYTES) as [m' len].
  destruct Hcreate as (-> & Hframe & _). rewrite (proj2 (Z.eqb_neq _ _)) by lia.
  unfold reserveTxRing, requestDriverPoll. cbn [xk_closed xk_tx]. rewrite C, F5, Hfull.
  destruct Hx as (Hres & _). destruct (Hres 0 1 ltac:(lia)) as (R1 & _ & R2). assert (reserve 0 1 = 0) as -> by lia.
  cbn. rewrite ?C. eexists _, m'. split; [reflexivity|]. split.
  { cbn. unfold ring_queued, ring_add_reserved. done. }
  split; [|exact Hframe]. rewrite Hqueue, Hempty. cbn [app]. unfold job_descs. rewrite list_lookup_imap, H0. done.
Qed.
End Sending.
End Replicator.

(** A socket that received one packet of three payload bytes; two destinations. *)
Definition demo_packet : list Z := udp_frame demo_aton demo_net demo_dest [1; 2; 3].
Definition demo_rx_socket : xsk :=
  Xsk false 4096 0 0 0 [] (ProdRing 4096 0 0 0 (fun _ => 0)) (ProdRing 2048 0 0 0 (fun _ => (0, 0))) [(8388864, 45)] 0.
Definition demo_thread : qthread :=
  QThread (Some demo_rx_socket) (mem_write (fun _ => 0) 8388864 demo_packet) (Counters 0 0 0 0 0 0) [].
Definition demo_dests : list Destination := [Dest (lit "10.0.0.2") 9001 167772162; Dest (lit "10.0.0.3") 9001 167772163].

Lemma demo_net_wf : env_wf demo_net.
Proof. split; [intros mac [= <-]; reflexivity|intros ip mac [=]]. Qed.

Lemma demo_jobs : all_jobs (qt_mem demo_thread) (fun _ => demo_dests) 0 (next_packets Z.min demo_rx_socket) =
  jobs_for demo_dests 8388906 3.
Proof. vm_compute. reflexivity. Qed.

Lemma demo_ready n : 0 <= n <= 2048 -> pass_ready demo_rx_socket n.
Proof.
  intros Hn. split; [done|done| |done|done| |].
  - split; [done|unfold zlen, ring_free; simpl; lia].
  - apply Forall_singleton. unfold packet_ok, TX_FRAMES, RX_FRAMES, TX_FRAME_BYTES. lia.
  - unfold ring_free. simpl. lia.
Qed.

Lemma queue_pass_replicates_witness :
  exists t', queue_pass demo_aton reserve_all Z.min extract_low demo_net 4 (fun _ _ => 0) demo_thread (fun _ => demo_dests) 1 = Some t' /\
    extractUdpPayload (mem_read (qt_mem t') (tx_addr demo_rx_socket 1) 45) = Some (Some (42, 3)) /\
    qt_output t' = [].
Proof.
  assert (pass_ready demo_rx_socket (zlen (all_jobs (qt_mem demo_thread) (fun _ => demo_dests) 0 (next_packets Z.min demo_rx_socket)))) as Hr.
  { rewrite demo_jobs. apply demo_ready. vm_compute. split; discriminate. }
  destruct (queue_pass_replicates demo_aton reserve_all Z.min extract_low demo_net 4 (fun _ _ => 0) libxdp_ok_demo demo_net_wf
    demo_thread demo_rx_socket (fun _ => demo_dests) 1 ltac:(lia) eq_refl Hr) as (t' & s' & H1 & _ & _ & H2 & _ & H3 & _).
  exists t'. split; [exact H1|]. split; [|exact H3]. rewrite demo_jobs in H2.
  exact (proj1 (proj2 (H2 1%nat (Dest (lit "10.0.0.3") 9001 167772163) 8388906 3 eq_refl))).
Defined.

Lemma full_ring_send_overwrites_witness :
  exists s m s' m', sendSinglePacketDirect demo_aton reserve_all Z.min demo_net s m demo_dest 8388906 3 = Some (false, s', m') /\
    mem_read m' 0 45 = udp_frame demo_aton demo_net demo_dest (mem_read m 8388906 3).
Proof.
  set (dests := replicate 2048 (Dest (lit "10.0.0.3") 9001 167772163)).
  assert (zlen dests = 2048) as Hd by (unfold dests, zlen; rewrite length_replicate; lia).
  assert (can_send demo_thread 2048) as Hcan.
  { exists demo_rx_socket. destruct (demo_ready 2048 ltac:(lia)) as [? [? ?] ? ? ? ? ?]. done. }
  assert (zlen dests <= 2048) as Hroom by lia. assert (2048 <= TX_FRAMES) as Hmax by (unfold TX_FRAMES; lia).
  assert (TX_FRAMES * TX_FRAME_BYTES <= 8388906) as Hdata by (unfold TX_FRAMES, TX_FRAME_BYTES; lia).
  destruct (send_all_spec demo_aton reserve_all Z.min extract_low demo_net 4 (fun _ _ => 0) libxdp_ok_demo demo_net_wf
    dests 8388906 3 1 ltac:(lia) Hdata ltac:(lia) demo_thread 0 2048 Hcan Hroom Hmax)
    as (t & _ & (s0 & s & Hs0 & Hs & Hq & _) & _). injection Hs0 as <-.
  assert (zlen (jobs_for dests 8388906 3) = TX_FRAMES) as Hj by (unfold jobs_for, zlen in *; rewrite length_map; exact Hd).
  assert (ring_free (xk_tx s) = 0) as Hfree.
  { destruct Hq as (_ & _ & _ & _ & _ & _ & Hq & _). rewrite Hq, Hj. reflexivity. }
  assert (job_ok (demo_dest, 8388906, 3)) as Hok by (split; [exact Hdata|lia]).
  destruct (full_ring_send_overwrites demo_aton reserve_all Z.min extract_low demo_net libxdp_ok_demo demo_net_wf
    demo_rx_socket s (qt_mem demo_thread) (jobs_for dests 8388906 3) demo_dest (Dest (lit "10.0.0.3") 9001 167772163) 8388906 3 8388906 3
    Hq eq_refl Hj Hfree eq_refl Hok) as (s' & m' & H1 & _ & _ & H2).
  exists s, (qt_mem demo_thread), s', m'. split; [exact H1|]. exact H2.
Defined.
