(* ===== verification/Template.v ===== *)
(** Parts of the replicator that nothing calls (PacketReplicator.cpp): packet
    templates that are written once per frame and completed per destination, the
    zero-copy send, and the copies of the destinations that threads keep. *)

From S2P Require Import Prelude CText Wire XdpFilter Frame Xsk Replicator.

(** ** Templates *)

Section Template.
Variable inet_aton : cstr -> option Z.

(** The headers of a template: only the source port is filled in. *)
Definition template_headers (env : net_env) : list Z :=
  replicate 6 255 ++ replicate 6 0 ++ htons_bytes ETH_P_IP ++
  [69; 0] ++ [0; 0] ++ [0; 0] ++ [0; 0] ++ [64; IPPROTO_UDP] ++ [0; 0] ++ [0; 0; 0; 0] ++ [0; 0; 0; 0] ++
  htons_bytes (ne_listen_port env) ++ [0; 0] ++ [0; 0] ++ [0; 0].
Definition createBasePacketTemplate (env : net_env) (m : umem) (buffer : Z) : umem * Z :=
  let base_len := ETH_HLEN + IP_HLEN + UDP_HLEN in
  (mem_write (mem_write m buffer (replicate (Z.to_nat base_len) 0)) buffer (template_headers env), base_len).
(** The packet memory of the output socket, when there is one. *)
Definition prePopulateTxFrames (env : net_env) (output : option umem) : option umem :=
  match output with
  | None => None
  | Some m => Some (fold_left (fun m i => fst (createBasePacketTemplate env m (Z.of_nat i * 4096))) (seq 0 (Z.to_nat TX_FRAMES)) m)
  end.

(** The field at an offset of the IP or UDP header in the buffer. *)
Definition put_ip (buffer off : Z) (bs : list Z) (m : umem) : umem := mem_write m (buffer + ETH_HLEN + off) bs.
Definition put_udp (buffer off : Z) (bs : list Z) (m : umem) : umem := mem_write m (buffer + ETH_HLEN + IP_HLEN + off) bs.

(** The fields are written one after the other; [random] is rand().  Nothing
    compares the length with the size of the buffer. *)
Definition updatePacketForDestination (m : umem) (buffer : Z) (d : Destination) (payload payloadLen random : Z) : umem * Z :=
  let total_len := ETH_HLEN + IP_HLEN + UDP_HLEN + payloadLen in
  let m := put_ip buffer 2 (htons_bytes (u16 (IP_HLEN + UDP_HLEN + payloadLen))) m in
  let m := put_ip buffer 4 (htons_bytes (random mod 65536)) m in
  let m := match inet_aton (lit "127.0.0.1") with Some addr => put_ip buffer 12 (htonl_bytes addr) m | None => m end in
  let m := put_ip buffer 16 (htonl_bytes (d_addr d)) m in
  let m := put_ip buffer 10 [0; 0] m in
  let m := put_ip buffer 10 (ip_checksum_bytes (mem_read m (buffer + ETH_HLEN) 20)) m in
  let m := put_udp buffer 2 (htons_bytes (d_port d)) m in
  let m := put_udp buffer 4 (htons_bytes (u16 (UDP_HLEN + payloadLen))) m in
  let m := if 0 <? payloadLen then put_udp buffer 8 (mem_read m payload (Z.to_nat payloadLen)) m else m in
  (m, total_len).

(** *** Proofs *)

Lemma mem_write_nil m off buffer n : mem_read (mem_write m off []) buffer n = mem_read m buffer n.
Proof.
  apply map_ext. intros i. unfold mem_write. change (zlen []) with 0.
  destruct (Z.leb_spec off (buffer + Z.of_nat i)), (Z.ltb_spec (buffer + Z.of_nat i) (off + 0)); done || lia.
Qed.
Lemma mem_read_part m buffer n k j : (k + j <= n)%nat -> mem_read m (buffer + Z.of_nat k) j = take j (drop k (mem_read m buffer n)).
Proof.
  intros H. replace n with (k + (j + (n - k - j)))%nat by lia. rewrite !mem_read_app, drop_app_length' by (by rewrite mem_read_length).
  by rewrite take_app_length' by (by rewrite mem_read_length).
Qed.

(** The addresses a completed template carries: broadcast, no source MAC, and the
    loopback address. *)
Definition template_env (env : net_env) : net_env :=
  NetEnv (lit "127.0.0.1") (ne_listen_port env) None (Some (replicate 6 0)) (fun _ => None).
Lemma template_env_wf env : env_wf (template_env env).
Proof. split; [by intros mac [= <-]|done]. Qed.

Lemma template_read env m buffer : mem_read (fst (createBasePacketTemplate env m buffer)) buffer 42 = template_headers env.
Proof. unfold createBasePacketTemplate. cbn [fst]. exact (mem_read_write_same _ buffer (template_headers env)). Qed.
Lemma template_other env m buffer off k : off + Z.of_nat k <= buffer \/ buffer + 42 <= off ->
  mem_read (fst (createBasePacketTemplate env m buffer)) off k = mem_read m off k.
Proof.
  intros H. unfold createBasePacketTemplate. cbn [fst].
  assert (zlen (template_headers env) = 42) as Ht by done.
  assert (zlen (replicate (Z.to_nat (ETH_HLEN + IP_HLEN + UDP_HLEN)) 0) = 42) as Hr by done.
  rewrite mem_read_write_other by lia. by rewrite mem_read_write_other by lia.
Qed.

Lemma put_read m buffer n k bs l : mem_read m buffer n = l -> (k + length bs <= n)%nat ->
  mem_read (mem_write m (buffer + Z.of_nat k) bs) buffer n = take k l ++ bs ++ drop (k + length bs) l.
Proof. intros <- H. rewrite mem_read_splice by (unfold zlen; lia). by replace (Z.to_nat (buffer + Z.of_nat k - buffer)) with k by lia. Qed.

(** The fields before the payload. *)
Definition put_fields (addr : Z) (m : umem) (buffer : Z) (d : Destination) (n random : Z) : umem :=
  let m := put_ip buffer 2 (htons_bytes (u16 (IP_HLEN + UDP_HLEN + n))) m in
  let m := put_ip buffer 4 (htons_bytes (random mod 65536)) m in
  let m := put_ip buffer 12 (htonl_bytes addr) m in
  let m := put_ip buffer 16 (htonl_bytes (d_addr d)) m in
  let m := put_ip buffer 10 [0; 0] m in
  let m := put_ip buffer 10 (ip_checksum_bytes (mem_read m (buffer + ETH_HLEN) 20)) m in
  let m := put_udp buffer 2 (htons_bytes (d_port d)) m in
  put_udp buffer 4 (htons_bytes (u16 (UDP_HLEN + n))) m.

Lemma put_ip_read m buffer off bs l : mem_read m buffer 42 = l -> 0 <= off -> off + zlen bs <= 28 ->
  mem_read (put_ip buffer off bs m) buffer 42 = take (14 + Z.to_nat off) l ++ bs ++ drop (14 + Z.to_nat off + length bs) l.
Proof.
  intros Hm H1 H2. unfold put_ip, zlen in *. replace (buffer + ETH_HLEN + off) with (buffer + Z.of_nat (14 + Z.to_nat off)) by (unfold ETH_HLEN; lia).
  apply put_read; [done|lia].
Qed.
Lemma put_udp_read m buffer off bs l : mem_read m buffer 42 = l -> 0 <= off -> off + zlen bs <= 8 ->
  mem_read (put_udp buffer off bs m) buffer 42 = take (34 + Z.to_nat off) l ++ bs ++ drop (34 + Z.to_nat off + length bs) l.
Proof.
  intros Hm H1 H2. unfold put_udp, zlen in *. replace (buffer + ETH_HLEN + IP_HLEN + off) with (buffer + Z.of_nat (34 + Z.to_nat off)) by (unfold ETH_HLEN, IP_HLEN; lia).
  apply put_read; [done|lia].
Qed.

(** Completing the headers of a template gives those of a frame with the addresses
    of the template. *)
Lemma put_fields_headers env m buffer d n random addr :
  mem_read m buffer 42 = template_headers env -> inet_aton (lit "127.0.0.1") = Some addr ->
  mem_read (put_fields addr m buffer d n random) buffer 42 = frame_headers_id inet_aton (random mod 65536) (template_env env) d n.
Proof.
  intros Hm Ha. unfold put_fields. cbv zeta.
  assert (source_addr inet_aton (template_env env) = addr) as Hsrc by (unfold source_addr, template_env; cbn [ne_interface_ip ne_listen_ip default]; by rewrite Ha).
  assert (mem_read (put_ip buffer 10 [0; 0] (put_ip buffer 16 (htonl_bytes (d_addr d)) (put_ip buffer 12 (htonl_bytes addr)
      (put_ip buffer 4 (htons_bytes (random mod 65536)) (put_ip buffer 2 (htons_bytes (u16 (IP_HLEN + UDP_HLEN + n))) m))))) buffer 42
    = ethernet_header (template_env env) d ++ ip_header_with_id inet_aton (random mod 65536) (template_env env) d n [0; 0] ++
      htons_bytes (ne_listen_port env) ++ [0; 0; 0; 0; 0; 0]) as H.
  { erewrite put_ip_read; [|erewrite put_ip_read; [|erewrite put_ip_read; [|erewrite put_ip_read; [|erewrite put_ip_read; [|exact Hm|..]|..]|..]|..]|..];
      try reflexivity; try done.
    unfold ip_header_with_id. rewrite Hsrc. reflexivity. }
  set (m1 := put_ip buffer 10 [0; 0] _) in *. clearbody m1.
  assert (mem_read m1 (buffer + ETH_HLEN) 20 = ip_header_with_id inet_aton (random mod 65536) (template_env env) d n [0; 0]) as Hip.
  { change ETH_HLEN with (Z.of_nat 14). rewrite (mem_read_part m1 buffer 42 14 20), H by lia. done. }
  rewrite Hip. erewrite put_udp_read; [|erewrite put_udp_read; [|erewrite put_ip_read; [|exact H|..]|..]|..]; try reflexivity; try done.
Qed.

Lemma put_fields_other m buffer d n random addr off k : off + Z.of_nat k <= buffer \/ buffer + 42 <= off ->
  mem_read (put_fields addr m buffer d n random) off k = mem_read m off k.
Proof.
  intros H. unfold put_fields, put_ip, put_udp. cbv zeta.
  repeat (rewrite mem_read_write_other; [|unfold ETH_HLEN, IP_HLEN, zlen; cbn [length htons_bytes htonl_bytes ip_checksum_bytes]; lia]).
  done.
Qed.

(** A template completed for a destination, with a payload that lies elsewhere, is
    a valid frame: its IPv4 header passes the checksum test, the payload is read
    back unchanged, and a filter configured for the destination accepts it.  It
    differs from the frame of createUdpPacket in the addresses of the sender, the
    broadcast MAC and the identification.  No byte outside the frame changes, but
    the length of the frame is not compared with the size of the buffer. *)
Theorem completed_template_correct env m buffer d data n random addr :
  inet_aton (lit "127.0.0.1") = Some addr -> 0 <= n <= 65507 -> mem_read m buffer 42 = template_headers env ->
  data + n <= buffer \/ buffer + (42 + n) <= data ->
  let '(m', len) := updatePacketForDestination m buffer d data n random in
  let payload := mem_read m data (Z.to_nat n) in
  let frame := mem_read m' buffer (Z.to_nat len) in
  len = 42 + n /\ frame = udp_frame_id inet_aton (random mod 65536) (template_env env) d payload /\
  (forall off k, off + Z.of_nat k <= buffer \/ buffer + len <= off -> mem_read m' off k = mem_read m off k) /\
  ip_sum (le_words (take 20 (drop 14 frame))) = 65535 /\ extractUdpPayload frame = Some (Some (42, n)) /\
  udp_packet_to (config_for d) frame.
Proof.
  intros Ha Hn Hm Hd. set (payload := mem_read m data (Z.to_nat n)).
  assert (zlen payload = n) as Hl by (unfold zlen, payload; rewrite mem_read_length; lia).
  pose proof (put_fields_headers env m buffer d n random addr Hm Ha) as Hh.
  assert (mem_read (put_fields addr m buffer d n random) data (Z.to_nat n) = payload \/ n = 0) as Hp.
  { destruct (decide (n = 0)); [by right|]. left. apply put_fields_other. lia. }
  assert (exists m', updatePacketForDestination m buffer d data n random = (m', 42 + n) /\
    forall off k, mem_read m' off k = mem_read (mem_write (put_fields addr m buffer d n random) (buffer + 42) payload) off k) as (m' & -> & Hm').
  { unfold updatePacketForDestination. rewrite Ha. change (ETH_HLEN + IP_HLEN + UDP_HLEN) with 42. eexists. split; [done|]. intros off k.
    change (put_udp buffer 4 _ _) with (put_fields addr m buffer d n random).
    destruct (Z.ltb_spec 0 n).
    - destruct Hp as [->|]; [|lia]. unfold put_udp, ETH_HLEN, IP_HLEN. by replace (buffer + 14 + 20 + 8) with (buffer + 42) by lia.
    - assert (payload = []) as -> by (destruct payload; [done|unfold zlen in Hl; cbn in Hl; lia]). by rewrite mem_write_nil. }
  cbv zeta beta. rewrite Hm'.
  assert (mem_read (mem_write (put_fields addr m buffer d n random) (buffer + 42) payload) buffer (Z.to_nat (42 + n)) =
    udp_frame_id inet_aton (random mod 65536) (template_env env) d payload) as ->.
  { replace (Z.to_nat (42 + n)) with (42 + length payload)%nat by (unfold zlen in Hl; lia). rewrite mem_read_app.
    change (Z.of_nat 42) with 42. rewrite mem_read_write_other, Hh by (left; lia). by rewrite mem_read_write_same; unfold udp_frame_id; rewrite Hl. }
  split; [done|]. split; [done|]. split.
  { intros off k Ho. rewrite Hm', mem_read_write_other by lia. apply put_fields_other. lia. }
  pose proof (template_env_wf env) as Hw.
  destruct (udp_frame_loads inet_aton (random mod 65536) (template_env env) d payload Hw) as (_ & _ & _ & _ & _ & _ & Hip).
  split; [rewrite Hip; apply ip_header_sum|]. split; [|by apply udp_frame_id_accepted].
  rewrite udp_frame_id_extract by (done || lia). by rewrite Hl.
Qed.

(** Every transmit frame starts with the template, and nothing beyond them changes. *)
Lemma prepopulate_spec env m : exists m', prePopulateTxFrames env (Some m) = Some m' /\
  (forall i, (i < Z.to_nat TX_FRAMES)%nat -> mem_read m' (Z.of_nat i * 4096) 42 = template_headers env) /\
  (forall off k, TX_FRAMES * 4096 <= off -> mem_read m' off k = mem_read m off k).
Proof.
  eexists. split; [done|]. set (write := fun m i => fst (createBasePacketTemplate env m (Z.of_nat i * 4096))).
  assert (forall n start m0,
    (forall i, (start <= i < start + n)%nat -> mem_read (fold_left write (seq start n) m0) (Z.of_nat i * 4096) 42 = template_headers env) /\
    (forall off k, off + Z.of_nat k <= Z.of_nat start * 4096 \/ Z.of_nat (start + n) * 4096 <= off ->
       mem_read (fold_left write (seq start n) m0) off k = mem_read m0 off k)) as H.
  { induction n as [|n IH]; intros start m0; cbn [seq fold_left]; [split; [lia|done]|].
    destruct (IH (S start) (write m0 start)) as [H1 H2]. split.
    - intros i Hi. destruct (decide (i = start)) as [->|Hne]; [|apply H1; lia].
      rewrite H2 by lia. apply template_read.
    - intros off k Ho. rewrite H2 by lia. apply template_other. lia. }
  destruct (H (Z.to_nat TX_FRAMES) 0%nat m) as [H1 H2]. split.
  - intros i Hi. apply H1. lia.
  - intros off k Ho. apply H2. right. change (Z.of_nat (0 + Z.to_nat TX_FRAMES)) with TX_FRAMES. done.
Qed.
End Template.

(** ** The zero-copy send *)

Section ZeroCopy.
Variable inet_aton : cstr -> option Z.
Variable reserve : Z -> Z -> Z.
Variable peek : Z -> Z -> Z.
Variable env : net_env.
Variable sendto : Destination -> list Z -> Z.

(** Through the first socket; None is an exception, after which the frame counter
    and the packet memory stay as they are.  The number of the frame is used as
    its address. *)
Definition sendToDestinationZeroCopy (t : qthread) (d : Destination) (data length : Z) : option bool * qthread :=
  match qt_sock t with
  | None => (None, t)
  | Some s =>
      let '(tx_frame, s) := getNextTxFrame s in
      let tx_frame_offset := s32 tx_frame in
      if tx_frame_offset <? 0 then (None, with_sock t s (qt_mem t))
      else
        let '(m, packet_len) := createUdpPacket inet_aton env (qt_mem t) d data length tx_frame_offset 4096 in
        if packet_len =? 0 then (None, with_sock t s m)
        else
          match send reserve peek s tx_frame_offset (s32 packet_len) with
          | None => (None, with_sock t s m)
          | Some (sent, s) => if sent <? 0 then (None, with_sock t s m) else (Some (0 <? sent), with_sock t s m)
          end
  end.
Definition sendToDestination (t : qthread) (d : Destination) (data length : Z) : bool * qthread :=
  match qt_sock t with
  | None => sendToDestinationFallback sendto t d data length
  | Some _ =>
      match sendToDestinationZeroCopy t d data length with
      | (Some sent, t) => (sent, t)
      | (None, t) => sendToDestinationFallback sendto t d data length
      end
  end.

Lemma poll_keeps_frame s s' : pollTxCompletions peek s = Some s' -> xk_prev_tx_frame s' = xk_prev_tx_frame s.
Proof. unfold pollTxCompletions. repeat (case_match; try done); by intros [= <-]. Qed.
Lemma send_keeps_frame s off len sent s' : send reserve peek s off len = Some (sent, s') -> xk_prev_tx_frame s' = xk_prev_tx_frame s.
Proof.
  unfold send, sendBatch. case_match; [done|]. case_match; [done|].
  destruct (pollTxCompletions peek s) as [s1|] eqn:Ep; [|done]. apply poll_keeps_frame in Ep. rewrite <- Ep. cbn [mbind option_bind].
  unfold requestDriverPoll. repeat (case_match; try done); cbn [mbind option_bind]; intros [= <- <-]; done.
Qed.

(** The frames of two successive sends are one byte apart: the second send has
    overwritten the frame of the first from its second byte on. *)
Lemma zero_copy_frames_overlap t s d1 d2 data n t1 t2 sent1 sent2 :
  qt_sock t = Some s -> xk_prev_tx_frame s + 1 < TX_FRAMES -> 0 <= xk_prev_tx_frame s -> env_wf env ->
  0 <= n -> 42 + n <= 4096 -> TX_FRAMES + 4096 <= data ->
  sendToDestinationZeroCopy t d1 data n = (Some sent1, t1) -> sendToDestinationZeroCopy t1 d2 data n = (Some sent2, t2) ->
  let k := xk_prev_tx_frame s in
  mem_read (qt_mem t2) (k + 1) (Z.to_nat (42 + n)) = udp_frame inet_aton env d2 (mem_read (qt_mem t1) data (Z.to_nat n)).
Proof.
  intros Hs Hk Hk0 He Hn Hfit Hd E1 E2 k.
  assert (exists s1, qt_sock t1 = Some s1 /\ xk_prev_tx_frame s1 = k + 1) as (s1 & Hs1 & Hp1).
  { revert E1. unfold sendToDestinationZeroCopy. rewrite Hs. unfold getNextTxFrame at 1.
    set (s0 := Xsk _ _ _ _ _ _ _ _ _ _). destruct (s32 _ <? 0); [done|]. destruct (createUdpPacket _ _ _ _ _ _ _ _) as [m len].
    destruct (len =? 0); [done|]. destruct (send reserve peek s0 _ _) as [[sent s1]|] eqn:Es; [|done].
    destruct (sent <? 0); [done|]. intros [= <- <-]. exists s1. split; [done|].
    assert (xk_prev_tx_frame s0 = k + 1) as H0 by (unfold s0, k, TX_FRAMES in *; cbn; rewrite u32_small; lia).
    rewrite <- H0. by eapply send_keeps_frame. }
  revert E2. unfold sendToDestinationZeroCopy. rewrite Hs1. unfold getNextTxFrame. rewrite Hp1.
  rewrite Z.mod_small by (unfold TX_FRAMES, k in *; lia). rewrite s32_small by (unfold TX_FRAMES, k in *; lia).
  rewrite (proj2 (Z.ltb_ge _ _)) by (unfold k; lia).
  pose proof (create_udp_packet_spec inet_aton env (qt_mem t1) d2 data n (k + 1) 4096 He Hn Hfit) as Hc.
  destruct (createUdpPacket _ _ _ _ _ _ _ _) as [m len]. destruct Hc as (-> & Hf & _); [unfold k, TX_FRAMES in *; lia|].
  destruct (42 + n =? 0); [done|]. destruct (send _ _ _ _ _) as [[sent s2]|]; [|done]. destruct (sent <? 0); [done|].
  intros [= _ <-]. done.
Qed.
End ZeroCopy.

(** ** Copies of the destinations *)

Definition CACHE_TIMEOUT_NS : Z := 100000000.
(** A thread's copy, with the time of its last update in nanoseconds. *)
Record dest_cache := DestCache { cached_destinations : list Destination; last_update : Z }.
(** The copy is taken under the lock; the clock is read afterwards. *)
Definition updateDestinationCache (destinations : list Destination) (now : Z) : dest_cache := DestCache destinations now.
(** [now] is read at the call, [after] after an update. *)
Definition getCachedDestinations (cache : dest_cache) (destinations : list Destination) (now after : Z) : list Destination * dest_cache :=
  let cache :=
    if match cached_destinations cache with [] => true | _ => false end || (CACHE_TIMEOUT_NS <? now - last_update cache)
    then updateDestinationCache destinations after
    else cache in
  (cached_destinations cache, cache).

(** A copy is older than its time stamp by at most [delay], and then as they were. *)
Definition cache_from (history : Z -> list Destination) (delay : Z) (cache : dest_cache) : Prop :=
  cached_destinations cache = [] \/
  exists t, last_update cache - delay <= t <= last_update cache /\ cached_destinations cache = history t.

(** The destinations a thread gets are those of some moment in the last 100 ms,
    and of the time an update took, whatever the history of the destinations; a
    destination added or removed before that is seen. *)
Lemma cached_destinations_recent history delay cache now read after :
  cache_from history delay cache -> now <= read <= after -> after <= read + delay -> 0 <= delay -> last_update cache <= now ->
  let '(dests, cache') := getCachedDestinations cache (history read) now after in
  (exists t, now - CACHE_TIMEOUT_NS - delay <= t <= after /\ dests = history t) /\
  cache_from history delay cache' /\ last_update cache' <= after.
Proof.
  intros Hc H1 H2 H3 H4. unfold getCachedDestinations, updateDestinationCache.
  destruct (cached_destinations cache) as [|d l] eqn:El; cbn [orb].
  { cbn. unfold CACHE_TIMEOUT_NS. split; [exists read; split; [lia|done]|]. split; [right; exists read; cbn; split; [lia|done]|lia]. }
  destruct (Z.ltb_spec CACHE_TIMEOUT_NS (now - last_update cache)); cbn.
  { unfold CACHE_TIMEOUT_NS. split; [exists read; split; [lia|done]|]. split; [right; exists read; cbn; split; [lia|done]|lia]. }
  destruct Hc as [Hc|(t & Ht & Hc)]; [congruence|].
  split; [exists t; split; [unfold CACHE_TIMEOUT_NS in *; lia|congruence]|]. split; [|lia]. right. by exists t.
Qed.

(** ** Statistics and frame numbers *)

Record Statistics := Stats {
  st_packets_received : Z; st_packets_sent : Z; st_bytes_received : Z; st_bytes_sent : Z; st_destinations_count : Z }.
Definition getStatistics (c : counters) (destinations : list Destination) : Statistics :=
  Stats (packets_received c) (packets_sent c) (bytes_received c) (bytes_sent c) (zlen destinations).

(** The frame and the counter after it. *)
Definition getNextFrameIndexFast (tx_frame_counter tx_frames : Z) : Z * Z :=
  (Z.land tx_frame_counter (u32 (tx_frames - 1)), u32 (tx_frame_counter + 1)).
(** Like getNextTxFrame it counts through the frames, for a power of two. *)
Lemma next_frame_fast c k : 0 <= k < 32 -> getNextFrameIndexFast c (2 ^ k) = (c mod 2 ^ k, u32 (c + 1)).
Proof.
  intros H. unfold getNextFrameIndexFast.
  assert (0 < 2 ^ k < 4294967296) as Hk.
  { split; [lia|]. change 4294967296 with (2 ^ 32). apply Z.pow_lt_mono_r; lia. }
  rewrite (u32_small (2 ^ k - 1)), land_mask by lia. done.
Qed.
