(* ===== verification/Pool.v ===== *)
(** The replicator's packet buffers and cached destinations (PacketReplicator.cpp):
    a pool from which any thread takes a buffer by compare-and-swap, and each
    thread's copy of the destinations.  Nothing in the program calls them yet.

    The atomic operations are functions on the pool; getBufferFromPool composes
    them for one thread, and a step relation interleaves them for many.  Memory is
    sequentially consistent. *)

From S2P Require Import Prelude Frame.

Definition BUFFER_POOL_SIZE : Z := 1024.
Record PacketBuffer := Buffer { pb_data : list Z; in_use : bool; timestamp : Z }.
Record pool := Pool { buffer_pool_index : Z; buffer_pool : list PacketBuffer }.
(** The constructor's loop over the buffers. *)
Definition new_pool (data : nat -> list Z) : pool :=
  Pool 0 (map (fun i => Buffer (data i) false 0) (seq 0 (Z.to_nat BUFFER_POOL_SIZE))).

(** ** The atomic operations *)

Definition with_buffer (p : pool) (i : Z) (f : PacketBuffer -> PacketBuffer) : pool :=
  match zget (buffer_pool p) i with
  | Some b => Pool (buffer_pool_index p) (zset (buffer_pool p) i (f b))
  | None => p
  end.
(** fetch_add and the mask. *)
Definition fetch_index (p : pool) : Z * pool :=
  (Z.land (buffer_pool_index p) (BUFFER_POOL_SIZE - 1), Pool (u32 (buffer_pool_index p + 1)) (buffer_pool p)).
(** compare_exchange_weak from false to true, which may fail spuriously. *)
Definition acquire_buffer (p : pool) (i : Z) (spurious : bool) : bool * pool :=
  match zget (buffer_pool p) i with
  | Some b =>
      if in_use b || spurious then (false, p)
      else (true, with_buffer p i (fun b => Buffer (pb_data b) true (timestamp b)))
  | None => (false, p)
  end.
Definition set_timestamp (p : pool) (i now : Z) : pool := with_buffer p i (fun b => Buffer (pb_data b) (in_use b) now).
Definition write_data (p : pool) (i : Z) (data : list Z) : pool := with_buffer p i (fun b => Buffer data (in_use b) (timestamp b)).
Definition release_buffer (p : pool) (i : Z) : pool := with_buffer p i (fun b => Buffer (pb_data b) false (timestamp b)).

(** ** One thread *)

(** The attempts, for one thread alone; [now] is the clock. *)
Fixpoint acquire_loop (attempts : nat) (spurious : nat -> bool) (now : Z) (p : pool) : option Z * pool :=
  match attempts with
  | O => (None, p)
  | S attempts =>
      let '(index, p) := fetch_index p in
      let '(acquired, p) := acquire_buffer p index (spurious attempts) in
      if acquired then (Some index, set_timestamp p index now)
      else acquire_loop attempts spurious now p
  end.
Definition getBufferFromPool (spurious : nat -> bool) (now : Z) (p : pool) : option Z * pool :=
  acquire_loop (Z.to_nat BUFFER_POOL_SIZE) spurious now p.
(** A null pointer is ignored. *)
Definition returnBufferToPool (p : pool) (buffer : option Z) : pool :=
  match buffer with Some i => release_buffer p i | None => p end.

(** ** Many threads *)

(** Where a thread is in getBufferFromPool: its attempt, and the index it has
    fetched, or the buffer it has acquired and not stamped yet. *)
Inductive pool_pc := Outside | Attempting (attempt : Z) | Comparing (attempt index : Z) | Stamping (index : Z).
Record pool_thread := PoolThread { pt_pc : pool_pc; pt_held : list Z }.
Record pool_system := PoolSystem { ps_pool : pool; ps_threads : list pool_thread }.

Definition set_thread (s : pool_system) (t : nat) (p : pool) (th : pool_thread) : pool_system :=
  PoolSystem p (<[t := th]> (ps_threads s)).

(** A step of thread [t].  A thread returns and writes only what it holds. *)
Inductive pool_step (t : nat) (s : pool_system) : pool_system -> Prop :=
| step_call held :
    ps_threads s !! t = Some (PoolThread Outside held) ->
    pool_step t s (set_thread s t (ps_pool s) (PoolThread (Attempting 0) held))
| step_fetch attempt held index p :
    ps_threads s !! t = Some (PoolThread (Attempting attempt) held) -> attempt < BUFFER_POOL_SIZE ->
    fetch_index (ps_pool s) = (index, p) ->
    pool_step t s (set_thread s t p (PoolThread (Comparing attempt index) held))
| step_null attempt held :
    ps_threads s !! t = Some (PoolThread (Attempting attempt) held) -> BUFFER_POOL_SIZE <= attempt ->
    pool_step t s (set_thread s t (ps_pool s) (PoolThread Outside held))
| step_compare attempt index held spurious acquired p :
    ps_threads s !! t = Some (PoolThread (Comparing attempt index) held) ->
    acquire_buffer (ps_pool s) index spurious = (acquired, p) ->
    pool_step t s (set_thread s t p
      (PoolThread (if (acquired : bool) then Stamping index else Attempting (u32 (attempt + 1))) held))
| step_stamp index held now :
    ps_threads s !! t = Some (PoolThread (Stamping index) held) ->
    pool_step t s (set_thread s t (set_timestamp (ps_pool s) index now) (PoolThread Outside (index :: held)))
| step_write held index data :
    ps_threads s !! t = Some (PoolThread Outside held) -> index ∈ held ->
    pool_step t s (set_thread s t (write_data (ps_pool s) index data) (PoolThread Outside held))
| step_return held1 index held2 :
    ps_threads s !! t = Some (PoolThread Outside (held1 ++ index :: held2)) ->
    pool_step t s (set_thread s t (returnBufferToPool (ps_pool s) (Some index)) (PoolThread Outside (held1 ++ held2))).

Inductive pool_reachable (data : nat -> list Z) (threads : nat) : pool_system -> Prop :=
| reach_start : pool_reachable data threads (PoolSystem (new_pool data) (replicate threads (PoolThread Outside [])))
| reach_step s t s' : pool_reachable data threads s -> pool_step t s s' -> pool_reachable data threads s'.

(** ** Ownership *)

(** The buffers a thread has: held, or acquired and not stamped yet. *)
Definition owned (th : pool_thread) : list Z :=
  match pt_pc th with Stamping i => i :: pt_held th | _ => pt_held th end.
Definition all_owned (ths : list pool_thread) : list Z := concat (map owned ths).

Definition flag (p : pool) (i : Z) : option bool := in_use <$> zget (buffer_pool p) i.

Record pool_inv (s : pool_system) : Prop := {
  pi_length : zlen (buffer_pool (ps_pool s)) = BUFFER_POOL_SIZE;
  pi_once : NoDup (all_owned (ps_threads s));
  pi_used : forall i, 0 <= i < BUFFER_POOL_SIZE -> flag (ps_pool s) i = Some (bool_decide (i ∈ all_owned (ps_threads s)));
  pi_index : forall th attempt i, th ∈ ps_threads s -> pt_pc th = Comparing attempt i -> 0 <= i < BUFFER_POOL_SIZE;
  pi_bound : forall i, i ∈ all_owned (ps_threads s) -> 0 <= i < BUFFER_POOL_SIZE }.

(** The owners seen from one thread. *)
Lemma all_owned_split ths t th : ths !! t = Some th -> exists rest, forall th',
  all_owned (<[t := th']> ths) ≡ₚ owned th' ++ rest /\ all_owned ths ≡ₚ owned th ++ rest /\
  (forall t2 th2, t2 <> t -> ths !! t2 = Some th2 -> forall i, i ∈ owned th2 -> i ∈ rest).
Proof.
  intros Ht. exists (all_owned (take t ths) ++ all_owned (drop (S t) ths)). intros th'.
  assert (forall l1 x l2, all_owned (l1 ++ x :: l2) ≡ₚ owned x ++ all_owned l1 ++ all_owned l2) as Hp.
  { intros l1 x l2. unfold all_owned. rewrite map_app, concat_app. cbn [map concat]. solve_Permutation. }
  split; [|split].
  - rewrite insert_take_drop by (by eapply lookup_lt_Some). apply Hp.
  - rewrite <- (take_drop_middle ths t th Ht) at 1. apply Hp.
  - intros t2 th2 Hne H2 i Hi. unfold all_owned. rewrite <- concat_app, <- map_app. apply list_elem_of_In, in_concat.
    exists (owned th2). split; [|by apply list_elem_of_In]. apply list_elem_of_In, list_elem_of_fmap. exists th2. split; [done|].
    apply elem_of_app. destruct (decide (t2 < t)%nat).
    + left. apply (list_elem_of_lookup_2 _ t2). rewrite lookup_take_lt by done. done.
    + right. apply (list_elem_of_lookup_2 _ (t2 - S t)). rewrite lookup_drop. rewrite <- H2. f_equal. lia.
Qed.

Lemma zget_with_buffer p i f j :
  zget (buffer_pool (with_buffer p i f)) j = (if decide (j = i) then f <$> zget (buffer_pool p) i else zget (buffer_pool p) j) /\
  zlen (buffer_pool (with_buffer p i f)) = zlen (buffer_pool p).
Proof.
  unfold with_buffer. destruct (zget (buffer_pool p) i) as [b|] eqn:E; cbn [buffer_pool].
  - rewrite zlen_zset. split; [|done]. destruct (decide (j = i)) as [->|Hne].
    + by rewrite zget_zset_eq by (by eapply zget_range).
    + by rewrite zget_zset_ne.
  - split; [|done]. destruct (decide (j = i)) as [->|]; done.
Qed.
Lemma flag_with_buffer p i f b j : (forall x, in_use (f x) = b) ->
  flag (with_buffer p i f) j = if decide (j = i) then (fun _ => b) <$> zget (buffer_pool p) i else flag p j.
Proof.
  intros Hf. unfold flag. rewrite (proj1 (zget_with_buffer p i f j)). destruct (decide (j = i)); [|done].
  destruct (zget (buffer_pool p) i); cbn; [by rewrite Hf|done].
Qed.
Lemma flag_with_same p i f j : (forall x, in_use (f x) = in_use x) -> flag (with_buffer p i f) j = flag p j.
Proof.
  intros Hf. unfold flag. rewrite (proj1 (zget_with_buffer p i f j)). destruct (decide (j = i)) as [->|]; [|done].
  destruct (zget (buffer_pool p) i); cbn; [by rewrite Hf|done].
Qed.

Lemma fetch_range p index p' : fetch_index p = (index, p') ->
  0 <= index < BUFFER_POOL_SIZE /\ buffer_pool p' = buffer_pool p.
Proof.
  intros [= <- <-]. change (BUFFER_POOL_SIZE - 1) with (2 ^ 10 - 1). rewrite land_mask by lia. unfold BUFFER_POOL_SIZE.
  split; [|done]. change 1024 with (2 ^ 10). apply Z.mod_pos_bound. lia.
Qed.

(** A step keeps the invariant when it keeps the owned buffers, adds a free one or
    gives one up, with the flags changed to match. *)
Lemma inv_step s t th th' p' :
  pool_inv s -> ps_threads s !! t = Some th -> zlen (buffer_pool p') = zlen (buffer_pool (ps_pool s)) ->
  (forall attempt i, pt_pc th' = Comparing attempt i -> 0 <= i < BUFFER_POOL_SIZE) ->
  (owned th' ≡ₚ owned th /\ (forall j, flag p' j = flag (ps_pool s) j) \/
   (exists i, owned th' ≡ₚ i :: owned th /\ 0 <= i < BUFFER_POOL_SIZE /\ flag (ps_pool s) i = Some false /\
      forall j, flag p' j = if decide (j = i) then Some true else flag (ps_pool s) j) \/
   (exists i, owned th ≡ₚ i :: owned th' /\ forall j, 0 <= j < BUFFER_POOL_SIZE -> flag p' j = if decide (j = i) then Some false else flag (ps_pool s) j)) ->
  pool_inv (set_thread s t p' th').
Proof.
  intros [H1 H2 H3 H4 H5] Ht Hl Hc Hcase.
  destruct (all_owned_split _ _ _ Ht) as (rest & Hrest). destruct (Hrest th') as (E1 & E0 & _).
  unfold set_thread. split; cbn [ps_pool ps_threads]; [by rewrite Hl| | |intros th2 attempt i Hin Hpc|].
  3:{ apply list_elem_of_lookup in Hin as [t2 Ht2]. apply list_lookup_insert_Some in Ht2 as [(_ & <- & _)|[_ Ht2]]; [by eapply Hc|].
      eapply H4; [|exact Hpc]. by eapply list_elem_of_lookup_2. }
  all: rewrite E0 in H2; assert (forall i, i ∈ owned th ++ rest -> 0 <= i < BUFFER_POOL_SIZE) as Hin by (intros i; rewrite <- E0; apply H5);
    assert (forall i, bool_decide (i ∈ all_owned (ps_threads s)) = bool_decide (i ∈ owned th ++ rest)) as Hb
      by (intros i; apply bool_decide_ext; by rewrite E0).
  - rewrite E1. destruct Hcase as [[-> _]|[(i & -> & Hi & Hf & _)|(i & Hi & _)]]; [done| |].
    + cbn [app]. constructor; [|done]. rewrite H3, Hb in Hf by done. injection Hf as Hf%bool_decide_eq_false. done.
    + rewrite Hi in H2. cbn [app] in H2. by apply NoDup_cons in H2 as [_ H2].
  - intros i Hi. rewrite (bool_decide_ext _ (i ∈ owned th' ++ rest)) by (by rewrite E1). specialize (H3 i Hi). rewrite Hb in H3.
    destruct Hcase as [[Hp Hf]|[(k & Hp & Hk & _ & Hf)|(k & Hp & Hf)]].
    + rewrite Hf, H3. f_equal. apply bool_decide_ext. by rewrite Hp.
    + rewrite Hf. destruct (decide (i = k)) as [->|Hne].
      * rewrite bool_decide_eq_true_2; [done|]. rewrite Hp. set_solver.
      * rewrite H3. f_equal. apply bool_decide_ext. rewrite Hp. set_solver.
    + rewrite Hf by done. rewrite Hp in H2. cbn [app] in H2. apply NoDup_cons in H2 as [H2 _]. destruct (decide (i = k)) as [->|Hne].
      * by rewrite bool_decide_eq_false_2.
      * rewrite H3. f_equal. apply bool_decide_ext. rewrite Hp. set_solver.
  - intros i. rewrite E1. destruct Hcase as [[-> _]|[(k & -> & Hk & _)|(k & Hp & _)]]; [auto| |].
    + cbn [app]. rewrite elem_of_cons. intros [->|]; auto.
    + intros Hi. apply Hin. rewrite Hp. set_solver.
Qed.

Lemma pool_inv_start data threads : pool_inv (PoolSystem (new_pool data) (replicate threads (PoolThread Outside []))).
Proof.
  assert (all_owned (replicate threads (PoolThread Outside [])) = []) as He.
  { induction threads as [|n IH]; [done|]. cbn [replicate]. unfold all_owned in *. cbn [map concat]. by rewrite IH. }
  split; cbn [ps_pool ps_threads]; rewrite ?He.
  - unfold new_pool, zlen. cbn [buffer_pool]. rewrite length_map, length_seq. done.
  - constructor.
  - intros i Hi. unfold flag, zget, new_pool. rewrite (proj2 (Z.ltb_ge _ _)) by lia. cbn [buffer_pool].
    rewrite list_lookup_fmap, lookup_seq_lt by lia. done.
  - intros th attempt i Hin. apply elem_of_replicate in Hin as [-> _]. done.
  - intros i Hi. by apply not_elem_of_nil in Hi.
Qed.

Lemma in_pool p i : zlen (buffer_pool p) = BUFFER_POOL_SIZE -> 0 <= i < BUFFER_POOL_SIZE -> exists b, zget (buffer_pool p) i = Some b.
Proof. intros Hl Hi. apply zget_lt. by rewrite Hl. Qed.

Lemma pool_step_inv t s s' : pool_inv s -> pool_step t s s' -> pool_inv s'.
Proof.
  intros Hi Hs. destruct Hs as [held Ht|attempt held index p Ht Ha Hf|attempt held Ht Ha|attempt index held spurious acquired p Ht Hc
    |index held now Ht|held index data Ht Hin|held1 index held2 Ht].
  - eapply inv_step; [done|exact Ht|done|done|by left].
  - destruct (fetch_range _ _ _ Hf) as [Hr Hb]. eapply inv_step; [done|exact Ht|by rewrite Hb|by intros ?? [= _ <-]|].
    left. split; [done|]. intros j. unfold flag. by rewrite Hb.
  - eapply inv_step; [done|exact Ht|done|done|by left].
  - pose proof (pi_index s Hi _ _ _ (list_elem_of_lookup_2 _ _ _ Ht) eq_refl) as Hr. revert Hc. unfold acquire_buffer.
    destruct (in_pool (ps_pool s) index (pi_length s Hi) Hr) as [b Hb]. rewrite Hb.
    destruct (in_use b || spurious) eqn:Eu; intros [= <- <-].
    + eapply inv_step; [done|exact Ht|done|done|by left].
    + apply orb_false_iff in Eu as [Eu _]. eapply inv_step; [done|exact Ht|apply zget_with_buffer; exact index|done|].
      right. left. exists index. split; [done|]. split; [done|]. split; [unfold flag; by rewrite Hb; cbn; rewrite Eu|].
      intros j. rewrite (flag_with_buffer _ _ _ true) by done. destruct (decide (j = index)); [by rewrite Hb|done].
  - eapply inv_step; [done|exact Ht|apply zget_with_buffer; exact index|done|]. left. split; [done|]. intros j. by apply flag_with_same.
  - eapply inv_step; [done|exact Ht|apply zget_with_buffer; exact index|done|]. left. split; [done|]. intros j. by apply flag_with_same.
  - eapply inv_step; [done|exact Ht|apply zget_with_buffer; exact index|done|]. right. right. exists index.
    split; [unfold owned; cbn; solve_Permutation|]. intros j Hj. cbn [returnBufferToPool]. unfold release_buffer.
    rewrite (flag_with_buffer _ _ _ false) by done. destruct (decide (j = index)) as [->|]; [|done].
    destruct (in_pool (ps_pool s) index (pi_length s Hi) Hj) as [b ->]. done.
Qed.

Lemma pool_reachable_inv data threads s : pool_reachable data threads s -> pool_inv s.
Proof. induction 1 as [|s t s' _ IH Hs]; [apply pool_inv_start|by eapply pool_step_inv]. Qed.

Lemma owned_apart s t1 t2 th1 th2 i : pool_inv s -> t1 <> t2 -> ps_threads s !! t1 = Some th1 -> ps_threads s !! t2 = Some th2 ->
  i ∈ owned th1 -> i ∉ owned th2.
Proof.
  intros Hi Hne H1 H2 Hi1 Hi2. destruct (all_owned_split _ _ _ H1) as (rest & Hr). destruct (Hr th1) as (_ & E & Hrest).
  pose proof (pi_once s Hi) as Hn. rewrite E in Hn. apply NoDup_app in Hn as (_ & Hd & _).
  apply (Hd i Hi1). by apply (Hrest t2 th2).
Qed.

(** A step changes only buffers that are free or the thread's own. *)
Lemma step_others t s s' t2 th2 i : pool_inv s -> pool_step t s s' -> t2 <> t -> ps_threads s !! t2 = Some th2 -> i ∈ owned th2 ->
  zget (buffer_pool (ps_pool s')) i = zget (buffer_pool (ps_pool s)) i /\ ps_threads s' !! t2 = Some th2.
Proof.
  intros Hi Hs Hne H2 Hown.
  assert (forall th, ps_threads s !! t = Some th -> i ∉ owned th) as Hout by (intros th Ht; by eapply owned_apart).
  assert (flag (ps_pool s) i = Some true) as Hflag.
  { rewrite (pi_used s Hi); [f_equal; apply bool_decide_eq_true_2|apply (pi_bound s Hi)];
      (destruct (all_owned_split _ _ _ H2) as (rest & Hr); destruct (Hr th2) as (_ & E & _); rewrite E; set_solver). }
  assert (forall j f, j <> i -> zget (buffer_pool (with_buffer (ps_pool s) j f)) i = zget (buffer_pool (ps_pool s)) i) as Hw.
  { intros j f Hj. rewrite (proj1 (zget_with_buffer _ _ _ _)). by rewrite decide_False. }
  destruct Hs as [held Ht|attempt held index p Ht Ha Hf|attempt held Ht Ha|attempt index held spurious acquired p Ht Hc
    |index held now Ht|held index data Ht Hin|held1 index held2 Ht]; cbn [set_thread ps_pool ps_threads];
    (split; [|by rewrite list_lookup_insert_ne by done]); specialize (Hout _ Ht); unfold owned in Hout; cbn in Hout.
  - done.
  - by rewrite (proj2 (fetch_range _ _ _ Hf)).
  - done.
  - revert Hc. unfold acquire_buffer. destruct (zget (buffer_pool (ps_pool s)) index) as [b|] eqn:Eb; [|by intros [= <- <-]].
    destruct (in_use b || spurious) eqn:Eu; intros [= <- <-]; [done|]. apply Hw. intros ->.
    unfold flag in Hflag. rewrite Eb in Hflag. cbn in Hflag. apply orb_false_iff in Eu as [Eu _]. congruence.
  - apply Hw. intros ->. set_solver.
  - apply Hw. intros ->. set_solver.
  - apply Hw. intros ->. set_solver.
Qed.

(** However threads interleave their attempts on the pool, a buffer is in use
    exactly when some thread has it, no two threads have the same buffer and none
    has it twice, and no step of a thread changes a buffer that another one has. *)
Theorem pool_exclusive (data : nat -> list Z) (threads : nat) (s : pool_system) (Hr : pool_reachable data threads s) :
  (forall t1 t2 th1 th2 i, t1 <> t2 -> ps_threads s !! t1 = Some th1 -> ps_threads s !! t2 = Some th2 ->
     i ∈ owned th1 -> i ∉ owned th2) /\
  (forall th, th ∈ ps_threads s -> NoDup (owned th)) /\
  (forall i, 0 <= i < BUFFER_POOL_SIZE ->
     flag (ps_pool s) i = Some true <-> exists th, th ∈ ps_threads s /\ i ∈ owned th) /\
  (forall t s' t2 th2 i, pool_step t s s' -> t2 <> t -> ps_threads s !! t2 = Some th2 -> i ∈ owned th2 ->
     zget (buffer_pool (ps_pool s')) i = zget (buffer_pool (ps_pool s)) i /\ ps_threads s' !! t2 = Some th2).
Proof.
  apply pool_reachable_inv in Hr as Hi. split; [|split; [|split]].
  - intros t1 t2 th1 th2 i. by apply owned_apart.
  - intros th [t Ht]%list_elem_of_lookup. destruct (all_owned_split _ _ _ Ht) as (rest & H). destruct (H th) as (_ & E & _).
    pose proof (pi_once s Hi) as Hn. rewrite E in Hn. by apply NoDup_app in Hn as (? & _).
  - intros i Hi'. rewrite (pi_used s Hi i Hi'). split.
    + intros [= H%bool_decide_eq_true]. apply list_elem_of_In, in_concat in H as (l & Hl & Hil).
      apply list_elem_of_In, list_elem_of_fmap in Hl as (th & -> & Hth). exists th. split; [done|]. by apply list_elem_of_In.
    + intros (th & Hth & Hin). f_equal. apply bool_decide_eq_true_2. apply list_elem_of_In, in_concat. exists (owned th).
      split; [|by apply list_elem_of_In]. apply list_elem_of_In, list_elem_of_fmap. by exists th.
  - intros t s' t2 th2 i. by apply step_others.
Qed.

(** ** One thread alone *)

Definition pool_wf (p : pool) : Prop := zlen (buffer_pool p) = BUFFER_POOL_SIZE /\ 0 <= buffer_pool_index p < 4294967296.
(** The k-th index tried. *)
Definition tried (p : pool) (k : nat) : Z := (buffer_pool_index p + Z.of_nat k) mod BUFFER_POOL_SIZE.

Lemma tried_fetch p index p' k : pool_wf p -> fetch_index p = (index, p') ->
  pool_wf p' /\ index = tried p 0 /\ tried p' k = tried p (S k).
Proof.
  intros [Hl Hi] Hf. pose proof (fetch_range _ _ _ Hf) as [_ Hb]. revert Hf. unfold fetch_index. intros [= <- <-].
  split; [|split].
  - split; [done|]. apply u32_range.
  - unfold tried. change (BUFFER_POOL_SIZE - 1) with (2 ^ 10 - 1). rewrite land_mask by lia. by rewrite Z.add_0_r.
  - unfold tried, u32, BUFFER_POOL_SIZE. cbn [buffer_pool_index].
    replace (buffer_pool_index p + Z.of_nat (S k)) with (buffer_pool_index p + 1 + Z.of_nat k) by lia. zlia.
Qed.

Lemma acquire_loop_spec n now p : pool_wf p ->
  let '(r, p') := acquire_loop n (fun _ => false) now p in
  (exists k b, (k < n)%nat /\ r = Some (tried p k) /\ zget (buffer_pool p) (tried p k) = Some b /\ in_use b = false /\
     (forall j, (j < k)%nat -> flag p (tried p j) = Some true) /\
     forall i, zget (buffer_pool p') i = if decide (i = tried p k) then Some (Buffer (pb_data b) true now) else zget (buffer_pool p) i) \/
  (r = None /\ buffer_pool p' = buffer_pool p /\ forall j, (j < n)%nat -> flag p (tried p j) = Some true).
Proof.
  revert p. induction n as [|n IH]; intros p Hw; cbn [acquire_loop]; [right; split; [done|split; [done|lia]]|].
  destruct (fetch_index p) as [index p1] eqn:Ef. pose proof (fetch_range _ _ _ Ef) as [Hr Hb].
  destruct (tried_fetch p index p1 0 Hw Ef) as (Hw1 & -> & _).
  assert (forall k, tried p1 k = tried p (S k)) as Ht by (intros k; by apply (tried_fetch p (tried p 0) p1 k)).
  destruct (in_pool p (tried p 0) (proj1 Hw) Hr) as [b Eb]. unfold acquire_buffer. rewrite Hb, Eb, orb_false_r.
  destruct (in_use b) eqn:Eu.
  - specialize (IH p1 Hw1). destruct (acquire_loop n (fun _ => false) now p1) as [r p2].
    assert (forall j, (forall k, (k < j)%nat -> flag p1 (tried p1 k) = Some true) -> forall k, (k < S j)%nat -> flag p (tried p k) = Some true) as Hall.
    { intros j H [|k] Hk; [unfold flag; rewrite Eb; cbn; by rewrite Eu|]. rewrite <- Ht. unfold flag in *. rewrite <- Hb. apply H. lia. }
    destruct IH as [(k & b' & Hk & -> & H1 & H2 & H3 & H4)|(-> & H1 & H2)].
    + left. exists (S k), b'. rewrite <- Ht, <- Hb. split; [lia|]. split; [done|]. split; [done|]. split; [done|].
      split; [|done]. intros j Hj. by apply (Hall k).
    + right. split; [done|]. split; [by rewrite H1|]. by apply Hall.
  - left. exists 0%nat, b. split; [lia|]. split; [done|]. split; [done|]. split; [done|]. split; [lia|].
    intros i. unfold set_timestamp. rewrite (proj1 (zget_with_buffer _ _ _ _)), !(proj1 (zget_with_buffer _ _ _ _)), Hb.
    repeat case_decide; simplify_eq; by rewrite ?Eb.
Qed.

Lemma tried_onto p i : pool_wf p -> 0 <= i < BUFFER_POOL_SIZE -> exists k, (k < Z.to_nat BUFFER_POOL_SIZE)%nat /\ tried p k = i.
Proof.
  intros [_ Hp] Hi. exists (Z.to_nat ((i - buffer_pool_index p) mod BUFFER_POOL_SIZE)). unfold tried, BUFFER_POOL_SIZE in *.
  pose proof (Z.mod_pos_bound (i - buffer_pool_index p) 1024 ltac:(lia)). split; [lia|]. rewrite Z2Nat.id by lia. zlia.
Qed.

(** A thread alone, when compare-and-swap does not fail spuriously, gets a buffer
    exactly when one is free: the first free one from the rotating index on, marked
    and stamped, with its data; giving it back frees it again. *)
Theorem get_buffer_finds_free (now : Z) (p : pool) (Hw : pool_wf p) :
  let '(r, p') := getBufferFromPool (fun _ => false) now p in
  match r with
  | None => (forall i, 0 <= i < BUFFER_POOL_SIZE -> flag p i = Some true) /\ buffer_pool p' = buffer_pool p
  | Some i => flag p i = Some false /\ 0 <= i < BUFFER_POOL_SIZE /\
      (exists k, i = tried p k /\ forall j, (j < k)%nat -> flag p (tried p j) = Some true) /\
      (forall j, flag p' j = if decide (j = i) then Some true else flag p j) /\
      (forall j, flag (returnBufferToPool p' r) j = flag p j)
  end.
Proof.
  unfold getBufferFromPool. pose proof (acquire_loop_spec (Z.to_nat BUFFER_POOL_SIZE) now p Hw) as H.
  destruct (acquire_loop _ _ now p) as [r p']. destruct H as [(k & b & Hk & -> & Hb & Hu & Hall & Hp)|(-> & Hp & Hall)].
  - assert (forall j, flag p' j = if decide (j = tried p k) then Some true else flag p j) as Hf.
    { intros j. unfold flag. rewrite Hp. by destruct (decide (j = tried p k)). }
    split; [unfold flag; rewrite Hb; cbn; by rewrite Hu|]. split; [apply Z.mod_pos_bound; done|]. split; [by exists k|]. split; [done|].
    intros j. cbn [returnBufferToPool]. unfold release_buffer. rewrite (flag_with_buffer _ _ _ false) by done. rewrite Hp.
    destruct (decide (j = tried p k)) as [->|Hne].
    + rewrite decide_True by done. unfold flag. rewrite Hb. cbn. by rewrite Hu.
    + by rewrite Hf, decide_False.
  - split; [|done]. intros i Hi. destruct (tried_onto p i Hw Hi) as (k & Hk & <-). by apply Hall.
Qed.
