(* ===== verification/Deploy.v ===== *)
(** The replicator's life (PacketReplicator.cpp, PacketReplicatorMain.cpp):
    configuration of the XDP program, set-up of the sockets, start, stop,
    destruction, and main. *)

From stdpp Require Import gmultiset.
From S2P Require Import Prelude CText XdpFilter Frame Xsk Kernel KernelDemo XskLife.

Definition CONTROL_PORT : Z := 12345.
Definition DEFAULT_UMEM_FRAMES : Z := TX_FRAMES + RX_FRAMES.
Definition num_queues : nat := 4.

(** The constructor's arguments, and the processors found (initializeCpuCores). *)
Record replicator := Replicator { listen_interface : cstr; listen_ip : cstr; listen_port : Z; num_cores : Z }.

Section Deploy.
Context {W : Type} (sys : sys_call -> W -> Z * W).
Variable reserve : Z -> Z -> Z.
Variable if_nametoindex : cstr -> Z.
Variable inet_aton : cstr -> option Z.
(** bpf_obj_get_info_by_fd: the bytes it writes into a buffer of the given size;
    None when the descriptor is not a BPF object. *)
Variable obj_info : W -> Z -> nat -> option (list ascii).
(** sizeof(struct bpf_map_info), a matter of the kernel headers. *)
Variable map_info_size : nat.
Notation ask := (ask sys).
Notation do_call := (do_call sys).

(** CPU 0 is left alone. *)
Definition initializeCpuCores (num_cores : Z) : list Z :=
  map (fun i => Z.of_nat i + 1) (base.filter (fun i => Z.of_nat i + 1 < num_cores) (seq 0 num_queues)).

(** ** Configuration of the XDP program *)

(** map_info.name, in bytes 24 to 39 of the structure, up to its NUL. *)
Definition info_name (buffer : list ascii) : cstr := c_str (drop 24 buffer).
(** The search from descriptor [fd] on: the structure keeps what earlier
    descriptors wrote, and [info_len] becomes what the last BPF object gave. *)
Fixpoint find_config_map (fuel : nat) (w : W) (fd : Z) (map_info : list ascii) (info_len : nat) : option Z :=
  match fuel with
  | O => None
  | S fuel =>
      match obj_info w fd info_len with
      | None => find_config_map fuel w (fd + 1) map_info info_len
      | Some written =>
          let map_info := written ++ drop (length written) map_info in
          if strstr (info_name map_info) config_map_name then Some fd
          else find_config_map fuel w (fd + 1) map_info (length written)
      end
  end.
(** Descriptors 3 to 1023. *)
Definition search_config_map (w : W) : option Z :=
  find_config_map 1021 w 3 (replicate map_info_size NUL) map_info_size.

Definition configureXdpProgram (r : replicator) : action W unit :=
  w ← get h_kernel;
  match search_config_map w with
  | None => mret tt
  | Some config_map_fd =>
      match inet_aton (listen_ip r) with
      | None => throw invalid_argument
      | Some addr => do_call (MapUpdateConfig config_map_fd 0 (UnicastConfig (net32 addr) (net16 (listen_port r))))
      end
  end.

(** ** initialize *)

Definition xdp_program_path : cstr := lit "./unicast_filter.o".
Definition setup_queue (r : replicator) (xdp_flags : Z) (queue_id : nat) : action W unit :=
  new_AFXDPSocket sys queue_id 4096 DEFAULT_UMEM_FRAMES 0;;
  setupUMem sys queue_id;;
  bind_socket sys reserve if_nametoindex queue_id (listen_interface r) (Z.of_nat queue_id) xdp_flags;;
  registerXskMap sys queue_id (Z.of_nat queue_id).

Definition setup_control : action W unit :=
  control_socket ← ask Socket;
  set_control_socket control_socket;;
  throw_if (control_socket <? 0) runtime_error;;
  ret ← ask (SetReuseaddr control_socket);
  throw_if (ret <? 0) runtime_error;;
  ret ← ask (Bind control_socket CONTROL_PORT);
  throw_if (ret <? 0) runtime_error.
Definition setup_output : action W unit :=
  output_socket ← ask Socket;
  set_output_socket output_socket;;
  throw_if (output_socket <? 0) runtime_error.

Definition initialize (r : replicator) (useZeroCopy : bool) : action W unit :=
  setResourceLimits sys;;
  ss ← get h_sockets;
  set_sockets (resize num_queues ss);;
  loadXdpProgram sys if_nametoindex (listen_interface r) xdp_program_path useZeroCopy;;
  configureXdpProgram r;;
  let xdp_flags := if useZeroCopy then XDP_FLAGS_ZERO_COPY else XDP_FLAGS_DRV_MODE in
  for_each (setup_queue r xdp_flags) (seq 0 num_queues);;
  setup_control;;
  setup_output.

(** ** start and stop *)

(** new std::thread: fails with an exception. *)
Definition new_thread : action W Z :=
  t ← ask ThreadCreate;
  throw_if (t <? 0) system_error;;
  mret t.

(** The affinity is only reported. *)
Definition start_queue_thread (cpu_cores : list Z) (queue_id : nat) : action W unit :=
  t ← new_thread;
  ts ← get h_queue_threads;
  set_threads (<[queue_id := Some t]> ts);;
  match cpu_cores !! queue_id with
  | Some core => do_call (SetAffinity t core)
  | None => mret tt
  end.

Definition start (r : replicator) : action W unit :=
  was_running ← exchange_running true;
  if (was_running : bool) then mret tt
  else
    ts ← get h_queue_threads;
    set_threads (resize num_queues ts);;
    for_each (start_queue_thread (initializeCpuCores (num_cores r))) (seq 0 num_queues);;
    t ← new_thread;
    set_control_thread (Some t).

Definition join_opt (t : option Z) : action W unit :=
  match t with Some t => do_call (ThreadJoin t) | None => mret tt end.
Definition stop (r : replicator) : action W unit :=
  was_running ← exchange_running false;
  if (was_running : bool) then
    ts ← get h_queue_threads;
    for_each join_opt ts;;
    set_threads [];;
    t ← get h_control_thread;
    join_opt t;;
    set_control_thread None;;
    unloadXdpProgram sys if_nametoindex (listen_interface r) true
  else mret tt.

Definition close_opt (fd : Z) : action W unit := when (0 <=? fd) (do_call (Close fd)).
(** The destructor after the call of stop: the plain sockets, then the members in
    reverse order; a thread that is still joinable ends the process. *)
Definition destroy_members : action W unit :=
  control_socket ← get h_control_socket;
  close_opt control_socket;;
  output_socket ← get h_output_socket;
  close_opt output_socket;;
  ts ← get h_queue_threads;
  t ← get h_control_thread;
  throw_if (existsb (fun t => bool_decide (t <> None)) (t :: ts)) Terminate;;
  ss ← get h_sockets;
  for_each (destroy_opt sys) ss;;
  set_sockets [].
Definition destroy (r : replicator) : action W unit := stop r;; destroy_members.

(** The public operations of an initialised replicator. *)
Inductive life_op := OpStart | OpStop.
Definition run_op (r : replicator) (op : life_op) : action W unit :=
  match op with OpStart => start r | OpStop => stop r end.

(** ** main *)

(** The signal handler, while main waits. *)
Definition signalHandler (r : replicator) : action W unit := stop r.
(** The wait: a signal comes in round [rounds], unless the replicator has stopped. *)
Fixpoint replicator_loop (rounds : nat) (r : replicator) : action W unit :=
  match rounds with
  | O => signalHandler r
  | S rounds =>
      running ← get h_running;
      if negb (running : bool) then mret tt else replicator_loop rounds r
  end.

(** The body of the try block: the statistics thread ends with g_running. *)
Definition serve (rounds : nat) (r : replicator) (use_zero_copy : bool) : action W unit :=
  initialize r use_zero_copy;;
  start r;;
  stats_thread ← new_thread;
  replicator_loop rounds r;;
  stop r;;
  do_call (ThreadJoin stats_thread).

Definition true_texts : list cstr := [lit "true"; lit "1"].
(** main, and the destruction of the static replicator at exit. *)
Definition replicator_main (args : list cstr) (cores : Z) (rounds : nat) : action W Z :=
  match args with
  | _ :: interface :: ip :: port :: rest =>
      if 1 <? zlen rest then mret 1
      else
        uid ← ask Getuid;
        if negb (uid =? 0) then mret 1
        else
          match stoi port with
          | None => throw invalid_argument
          | Some port =>
              let use_zero_copy := match rest with zero_copy :: _ => bool_decide (zero_copy ∈ true_texts) | [] => true end in
              let r := Replicator interface ip (u16 port) cores in
              code ← try_catch (serve rounds r use_zero_copy;; mret 0) (mret 1);
              destroy r;;
              mret code
          end
  | _ => mret 1
  end.
End Deploy.

(** ** Resources: proofs *)

Section resources.
Context {W : Type} (sys : sys_call -> W -> Z * W) (held_by : W -> resources) (maps_of : W -> maps).
Context `{!Documented sys held_by maps_of}.
Variable if_nametoindex : cstr -> Z.
Variable r : replicator.
Notation ifindex := (if_nametoindex (listen_interface r)).

(** The program, as it is when it serves; and what may be left of it otherwise. *)
Definition attached (p : Z) (mode : xdp_attach_mode) : resources := {[+ RAttached ifindex p mode +]} ⊎ {[+ RProg p +]}.
(** A detach of the attached program fails. *)
Definition detach_fails (p : Z) (mode : xdp_attach_mode) : Prop :=
  exists w, RAttached ifindex p mode ∈ held_by w /\ fst (sys (XdpProgramDetach (PROG p) ifindex mode) w) <> 0.
(** Unloaded: nothing is left, or, as the answer of the detach is ignored, the
    program is closed but still attached. *)
Definition dropped (prog : prog_ptr) (mode : xdp_attach_mode) (l : resources) : Prop :=
  prog = PROG_NULL /\ (l = ∅ \/ exists p, l = {[+ RAttached ifindex p mode +]} /\ detach_fails p mode).
Definition left_over (prog : prog_ptr) (mode : xdp_attach_mode) (l : resources) : Prop :=
  match prog with
  | PROG p => l = {[+ RProg p +]} \/ l = attached p mode
  | PROG_ERROR => l = ∅
  | PROG_NULL => dropped prog mode l
  end.
Lemma dropped_left p m l : dropped p m l -> left_over p m l.
Proof. intros H. pose proof H as [-> _]. exact H. Qed.
Lemma nothing_left m : left_over PROG_NULL m ∅.
Proof. split; [done|by left]. Qed.
Lemma dropped_obliging p m l : obliging sys -> dropped p m l -> p = PROG_NULL /\ l = ∅.
Proof.
  intros Hob [-> [->|(id & _ & w & _ & Hf)]]; [done|]. destruct Hf.
  pose proof (Hob (XdpProgramDetach (PROG id) ifindex m) w) as H. by apply Z.eqb_eq in H.
Qed.

(** A call: its effect on the resources, and that it succeeds when all do. *)
Ltac kcall answer w H Ho :=
  first [apply (hwp_call_doc sys held_by maps_of)|apply (hwp_do_call sys held_by maps_of)];
  intros answer w _ H Ho; cbn [res_effect success] in H, Ho; unfold acquires in H; host_cbn.

Ltac not_obliging Ho := intros Hg; specialize (Ho Hg); zb; (done || lia).

Lemma hwp_load_program path native F w m ss c o rn qt ct :
  held_by w = F ->
  hwp (loadXdpProgram sys if_nametoindex (listen_interface r) path native)
    (fun _ h' => exists w p m, h' = Host w (PROG p) m ss c o rn qt ct /\ held_by w = attached p m ⊎ F)
    (fun e h' => standard e /\ ~ obliging sys /\ exists w p m l, h' = Host w p m ss c o rn qt ct /\ left_over p m l /\ held_by w = l ⊎ F)
    (Host w PROG_NULL m ss c o rn qt ct).
Proof.
  intros Hh. unfold loadXdpProgram. hstep.
  apply (hwp_mono _ (fun _ h' => exists m, h' = Host w PROG_NULL m ss c o rn qt ct) _ (fun _ _ => False));
    [repeat hstep; eauto|intros [] h1 (m1 & ->)|done].
  unfold drop_program. repeat hstep.
  kcall p w1 H1 Ho1. destruct (Z.ltb_spec 0 p) as [Lp|Lp].
  2:{ repeat hstep; [|zb; lia]. split; [done|]. split; [not_obliging Ho1|].
      exists w1, PROG_ERROR, m1, ∅. by rewrite held_none, H1. }
  repeat hstep; [zb; lia|]. kcall err w2 H2 Ho2. repeat hstep.
  { split; [done|]. split; [not_obliging Ho2|]. exists w2, (PROG p), m1, {[+ RProg p +]}.
    split; [done|]. split; [by left|]. by rewrite H2, H1, Hh. }
  kcall err2 w3 H3 Ho3. repeat hstep.
  - rewrite (proj1 (negb_true_iff _)) in H3 by done. kcall ret w4 H4 Ho4. repeat hstep.
    split; [done|]. split; [not_obliging Ho3|]. exists w4, PROG_NULL, m1, ∅. split; [done|]. split; [apply nothing_left|].
    rewrite held_none. eapply releases_spec; [exact H4|]. by rewrite H3, H2, H1, Hh.
  - rewrite (proj1 (negb_false_iff _)) in H3 by done. exists w3, p, m1. split; [done|].
    rewrite H3, H2, H1, Hh. unfold attached. multiset_solver.
Qed.

(** ** The states between operations *)

Definition extras ss c o qt ct : resources := held_socks ss ⊎ held_fd c ⊎ held_fd o ⊎ held_threads qt ⊎ opt_res RThread ct.
Ltac res_solve :=
  unfold extras; cbn [app]; rewrite ?held_all_app, ?held_all_nil, ?held_all_replicate by done;
  change (held_fd (-1)) with (∅ : resources); change (opt_res RThread None) with (∅ : resources); multiset_solver.
(** The replicator runs; [L] says what the program holds, [X] is what others hold. *)
Definition running_state (L : prog_ptr -> xdp_attach_mode -> resources -> Prop) (X : resources) (h : host W) : Prop :=
  exists w p m l ss c o qt ct, h = Host w p m ss c o true qt ct /\ Forall opened ss /\ L p m l /\
    held_by w = l ⊎ extras ss c o qt ct ⊎ X.
(** It does not run, and has no threads. *)
Definition idle_state (L : prog_ptr -> xdp_attach_mode -> resources -> Prop) (X : resources) (h : host W) : Prop :=
  exists w p m l ss c o, h = Host w p m ss c o false [] None /\ Forall opened ss /\ L p m l /\
    held_by w = l ⊎ extras ss c o [] None ⊎ X.
Definition serving (p : prog_ptr) (m : xdp_attach_mode) (l : resources) : Prop :=
  match p with PROG id => l = attached id m | _ => False end.
Definition unloaded (p : prog_ptr) (m : xdp_attach_mode) (l : resources) : Prop := p = PROG_NULL /\ l = ∅.
(** With its program, or after it has been unloaded. *)
Definition usable (p : prog_ptr) (m : xdp_attach_mode) (l : resources) : Prop := serving p m l \/ dropped p m l.
(** Four queue threads and the control thread. *)
Definition threads_up (h : host W) : Prop :=
  length (h_queue_threads h) = num_queues /\ Forall is_Some (h_queue_threads h) /\ is_Some (h_control_thread h).
Lemma serving_left p m l : serving p m l -> left_over p m l.
Proof. destruct p; [done..|]. by right. Qed.
Lemma unloaded_dropped p m l : unloaded p m l -> dropped p m l.
Proof. intros [-> ->]. split; [done|by left]. Qed.
Lemma idle_weaken (L L' : prog_ptr -> xdp_attach_mode -> resources -> Prop) X h :
  (forall p m l, L p m l -> L' p m l) -> idle_state L X h -> idle_state L' X h.
Proof. intros HL (w & p & m & l & ss & c & o & H1 & H2 & H3 & H4). exists w, p, m, l, ss, c, o. auto. Qed.

Definition fresh_host (w : W) : host W := Host w PROG_NULL XDP_MODE_NATIVE [] (-1) (-1) false [] None.
Lemma running_weaken (L L' : prog_ptr -> xdp_attach_mode -> resources -> Prop) X h :
  (forall p m l, L p m l -> L' p m l) -> running_state L X h -> running_state L' X h.
Proof.
  intros HL (w & p & m & l & ss & c & o & qt & ct & H1 & H2 & H3 & H4).
  exists w, p, m, l, ss, c, o, qt, ct. auto.
Qed.

(** The destructor leaves nothing but, perhaps, the program. *)
Definition gone (L : prog_ptr -> xdp_attach_mode -> resources -> Prop) (h : host W) : Prop :=
  L (h_xdp_prog h) (h_attach_mode h) (held_by (h_kernel h)) /\ h_running h = false /\ h_sockets h = [].

(** ** start *)

Lemma hwp_new_thread F w p m ss c o rn qt ct :
  held_by w = F ->
  hwp (new_thread sys) (fun t h => exists w', h = Host w' p m ss c o rn qt ct /\ held_by w' = {[+ RThread t +]} ⊎ F)
    (fun e h => standard e /\ ~ obliging sys /\ exists w', h = Host w' p m ss c o rn qt ct /\ held_by w' = F)
    (Host w p m ss c o rn qt ct).
Proof.
  intros Hh. unfold new_thread. repeat hstep. kcall t w1 H1 Ho1. repeat hstep.
  - split; [done|]. split; [not_obliging Ho1|]. exists w1. by rewrite H1.
  - exists w1. by rewrite H1, Hh.
Qed.

(** The state after some queue threads have been created; the rest is fixed. *)
Definition threads_state (F : resources) p m ss c o ct (P : list (option Z) -> Prop) (h : host W) : Prop :=
  exists w qt, h = Host w p m ss c o true qt ct /\ held_by w = held_threads qt ⊎ F /\ P qt.
Lemma hwp_start_queue_threads F p m ss c o ct cores n done w :
  Forall is_Some done -> held_by w = held_threads (done ++ replicate n None) ⊎ F ->
  hwp (for_each (start_queue_thread sys cores) (seq (length done) n))
    (fun _ => threads_state F p m ss c o ct (fun qt => length qt = length done + n /\ Forall is_Some qt)%nat)
    (fun e h => standard e /\ ~ obliging sys /\ threads_state F p m ss c o ct (fun _ => True) h)
    (Host w p m ss c o true (done ++ replicate n None) ct).
Proof.
  revert done w. induction n as [|n IH]; intros done w Hd Hh; cbn [seq for_each].
  - hwp_step. change (replicate 0 None) with (@nil (option Z)) in *. rewrite app_nil_r in *. exists w, done.
    split; [done|]. split; [done|]. split; [lia|done].
  - hwp_step. unfold start_queue_thread at 1. hwp_step.
    eapply hwp_mono; [by apply (hwp_new_thread (held_by w))| |].
    + intros t h (w1 & -> & H1). repeat hstep. rewrite insert_app_r_alt, Nat.sub_diag by lia. cbn [replicate list_insert].
      assert (held_by w1 = held_threads ((done ++ [Some t]) ++ replicate n None) ⊎ F) as H2.
      { rewrite H1, Hh. cbn [replicate]. rewrite !held_all_app, !held_all_cons, held_all_nil.
        change (opt_res RThread None) with (∅ : resources). change (opt_res RThread (Some t)) with ({[+ RThread t +]} : resources).
        multiset_solver. }
      eapply (hwp_mono _ (fun _ h => exists w', h = Host w' p m ss c o true ((done ++ [Some t]) ++ replicate n None) ct /\
        held_by w' = held_by w1) _ (fun _ _ => False)); [|intros [] h (w2 & -> & H3)|done].
      { change (<[0%nat := Some t]> (None :: replicate n None)) with (Some t :: replicate n None).
        assert ((done ++ [Some t]) ++ replicate n None = done ++ Some t :: replicate n None) as -> by (by rewrite <- app_assoc).
        destruct (cores !! length done); [kcall a w2 H3 Ho3; by exists w2|hstep; by exists w1]. }
      replace (S (length done)) with (length (done ++ [Some t])) by (rewrite length_app; cbn; lia).
      eapply hwp_mono; [apply IH; [apply Forall_app; by repeat constructor|by rewrite H3]|intros [] h (w4 & qt & -> & H4 & H5 & H6)|done].
      exists w4, qt. split; [done|]. split; [done|]. split; [rewrite H5, length_app; cbn; lia|done].
    + intros e h (He & Hg & w1 & -> & H1). split; [done|]. split; [done|]. exists w1. eexists. split; [done|]. by rewrite H1, Hh.
Qed.

Lemma hwp_start L X h :
  idle_state L X h ->
  hwp (start sys r) (fun _ h => running_state L X h /\ threads_up h) (fun e h => standard e /\ ~ obliging sys /\ running_state L X h) h.
Proof.
  intros (w & p & m & l & ss & c & o & -> & Hop & Hl & Hh).
  unfold start. repeat hstep. change (resize num_queues []) with ([] ++ replicate 4 (@None Z)).
  set (F := l ⊎ extras ss c o [] None ⊎ X) in *.
  eapply hwp_mono; [apply (hwp_start_queue_threads F _ _ _ _ _ None _ 4 [] w)| |].
  { done. } { rewrite Hh. res_solve. }
  - intros [] h (w1 & qt & -> & H1 & Hlen & Hqt). hstep. eapply hwp_mono; [by apply (hwp_new_thread (held_by w1))| |].
    + intros t h (w2 & -> & H2). hstep. split; [|split; [done|split; [done|by exists t]]].
      exists w2, p, m, l, ss, c, o, qt, (Some t). do 3 (split; [done|]).
      rewrite H2, H1. unfold F, extras. change (opt_res RThread (Some t)) with ({[+ RThread t +]} : resources).
      change (opt_res RThread None) with (∅ : resources). rewrite held_all_nil. multiset_solver.
    + intros e h (He & Hg & w2 & -> & H2). do 2 (split; [done|]). exists w2, p, m, l, ss, c, o, qt, None. do 3 (split; [done|]).
      rewrite H2, H1. unfold F, extras. rewrite held_all_nil. multiset_solver.
  - intros e h (He & Hg & w1 & qt & -> & H1 & _). do 2 (split; [done|]). exists w1, p, m, l, ss, c, o, qt, None.
    do 3 (split; [done|]). rewrite H1. unfold F, extras. rewrite held_all_nil. multiset_solver.
Qed.

(** ** stop and destruction *)

Lemma hwp_join_opt t F w p m ss c o rn qt ct :
  held_by w = opt_res RThread t ⊎ F ->
  hwp (join_opt sys t) (fun _ h => exists w', h = Host w' p m ss c o rn qt ct /\ held_by w' = F) (fun _ _ => False)
    (Host w p m ss c o rn qt ct).
Proof.
  intros Hh. destruct t as [t|]; cbn [join_opt].
  - kcall a w1 H1 Ho1. exists w1. split; [done|]. by eapply releases_spec.
  - hstep. exists w. rewrite held_no_opt in Hh. done.
Qed.
Lemma hwp_join_all ts F w p m ss c o rn qt ct :
  held_by w = held_threads ts ⊎ F ->
  hwp (for_each (join_opt sys) ts) (fun _ h => exists w', h = Host w' p m ss c o rn qt ct /\ held_by w' = F) (fun _ _ => False)
    (Host w p m ss c o rn qt ct).
Proof.
  revert w. induction ts as [|t ts IH]; intros w Hh; cbn [for_each].
  - hstep. exists w. by rewrite held_all_nil, held_none in Hh.
  - hwp_step. eapply hwp_mono; [apply (hwp_join_opt t (held_threads ts ⊎ F))| |done].
    + rewrite Hh, held_all_cons. multiset_solver.
    + intros [] h (w1 & -> & H1). by apply IH.
Qed.

Lemma hwp_stop_idle L X h :
  idle_state L X h -> hwp (stop sys if_nametoindex r) (fun _ => idle_state L X) (fun _ _ => False) h.
Proof. intros Hi. pose proof Hi as (w & p & m & l & ss & c & o & -> & _). unfold stop. repeat hstep. exact Hi. Qed.

Lemma hwp_close_opt fd F w p m ss c o rn qt ct :
  held_by w = held_fd fd ⊎ F ->
  hwp (close_opt sys fd) (fun _ h => exists w', h = Host w' p m ss c o rn qt ct /\ held_by w' = F) (fun _ _ => False)
    (Host w p m ss c o rn qt ct).
Proof.
  unfold close_opt, held_fd. intros Hh. hstep; zb.
  - rewrite (proj2 (Z.ltb_ge fd 0)) in Hh by lia. kcall a w1 H1 Ho1. exists w1. split; [done|]. by eapply releases_spec.
  - rewrite (proj2 (Z.ltb_lt fd 0)) in Hh by lia. hstep. exists w. by rewrite held_none in Hh.
Qed.

Lemma hwp_destroy_socks ss F w p m ss0 c o rn qt ct :
  Forall opened ss -> held_by w = held_socks ss ⊎ F ->
  hwp (for_each (destroy_opt sys) ss) (fun _ h => exists w', h = Host w' p m ss0 c o rn qt ct /\ held_by w' = F) (fun _ _ => False)
    (Host w p m ss0 c o rn qt ct).
Proof.
  intros Hss. revert w. induction Hss as [|s ss Hs Hss IH]; intros w Hh; cbn [for_each].
  - hstep. exists w. by rewrite held_all_nil, held_none in Hh.
  - hwp_step. eapply (hwp_mono _ _ _ (fun _ _ => False)); [apply (hwp_destroy_opt sys held_by maps_of s (held_socks ss ⊎ F))| |done].
    + intros s' Es Hc. by rewrite (Hs s' Es) in Hc.
    + host_cbn. rewrite Hh, held_all_cons. multiset_solver.
    + intros [] h (w1 & -> & H1). host_cbn. by apply IH.
Qed.

Lemma hwp_destroy_members (L : prog_ptr -> xdp_attach_mode -> resources -> Prop) h :
  idle_state L ∅ h -> hwp (destroy_members sys) (fun _ => gone L) (fun _ _ => False) h.
Proof.
  intros (w & p & m & l & ss & c & o & -> & Hop & Hl & Hh). unfold destroy_members. repeat hstep.
  eapply hwp_mono; [apply (hwp_close_opt c (l ⊎ extras ss (-1) o [] None))| |done]; [rewrite Hh; res_solve|].
  intros [] h2 (w2 & -> & H2). repeat hstep.
  eapply hwp_mono; [apply (hwp_close_opt o (l ⊎ extras ss (-1) (-1) [] None))| |done]; [rewrite H2; res_solve|].
  intros [] h3 (w3 & -> & H3). repeat hstep.
  eapply hwp_mono; [apply (hwp_destroy_socks ss l); [done|rewrite H3; res_solve]| |done].
  intros [] h4 (w4 & -> & H4). hstep. unfold gone. host_cbn. by rewrite H4.
Qed.
Definition alive (h : host W) : Prop := running_state usable ∅ h \/ idle_state left_over ∅ h.

Lemma hwp_drop_program p F w m ss c o rn qt ct :
  held_by w = attached p m ⊎ F ->
  hwp (drop_program sys ifindex) (fun _ h' => exists w' l, h' = Host w' PROG_NULL m ss c o rn qt ct /\
      dropped PROG_NULL m l /\ held_by w' = l ⊎ F)
    (fun _ _ => False) (Host w (PROG p) m ss c o rn qt ct).
Proof.
  intros Hh. unfold drop_program. repeat hstep.
  apply (hwp_do_call sys held_by maps_of). intros answer w1 Hs H1 _. host_cbn.
  cbn in H1. repeat hstep. kcall ret w2 H2 Ho2. repeat hstep.
  destruct (Z.eqb_spec answer 0) as [->|Ha].
  - exists w2, ∅. split; [done|]. split; [split; [done|by left]|]. rewrite held_none.
    eapply releases_spec; [exact H2|]. eapply releases_spec; [exact H1|]. rewrite Hh. unfold attached. multiset_solver.
  - exists w2, {[+ RAttached ifindex p m +]}. split; [done|]. split.
    + split; [done|]. right. exists p. split; [done|]. exists w. rewrite Hs, Hh. split; [unfold attached; multiset_solver|exact Ha].
    + eapply releases_spec; [exact H2|]. rewrite H1, Hh. unfold attached. multiset_solver.
Qed.

Lemma hwp_stop_running X h :
  running_state usable X h -> hwp (stop sys if_nametoindex r) (fun _ => idle_state dropped X) (fun _ _ => False) h.
Proof.
  intros (w & p & m & l & ss & c & o & qt & ct & -> & Hop & Hl & Hh). unfold stop. repeat hstep.
  eapply hwp_mono; [apply (hwp_join_all qt (l ⊎ extras ss c o [] ct ⊎ X))| |done].
  { rewrite Hh. unfold extras. rewrite held_all_nil. multiset_solver. }
  intros [] h (w1 & -> & H1). repeat hstep.
  eapply hwp_mono; [apply (hwp_join_opt ct (l ⊎ extras ss c o [] None ⊎ X))| |done].
  { rewrite H1. unfold extras. rewrite held_all_nil. change (opt_res RThread None) with (∅ : resources). multiset_solver. }
  intros [] h (w2 & -> & H2). unfold unloadXdpProgram. repeat hstep. destruct Hl as [Hl|[-> Hl]].
  - destruct p as [| |p]; [done..|]. unfold serving in Hl. subst l.
    eapply hwp_mono; [apply (hwp_drop_program p (extras ss c o [] None ⊎ X))| |done]; [rewrite H2; multiset_solver|].
    intros [] h (w3 & k & -> & Hk & H3). exists w3, PROG_NULL, m, k, ss, c, o. do 3 (split; [done|]). rewrite H3. multiset_solver.
  - unfold drop_program. repeat hstep. exists w2, PROG_NULL, m, l, ss, c, o. by do 3 (split; [done|]).
Qed.
Lemma hwp_stop_alive h : alive h -> hwp (stop sys if_nametoindex r) (fun _ => idle_state left_over ∅) (fun _ _ => False) h.
Proof.
  intros [H|H]; [|by apply hwp_stop_idle]. eapply hwp_mono; [by apply hwp_stop_running| |done].
  intros [] h'. apply idle_weaken, dropped_left.
Qed.

Lemma hwp_destroy h : alive h -> hwp (destroy sys if_nametoindex r) (fun _ => gone left_over) (fun _ _ => False) h.
Proof.
  intros Ha. unfold destroy. hwp_step. eapply hwp_mono; [by apply hwp_stop_alive| |done]. intros []. apply hwp_destroy_members.
Qed.
Lemma hwp_destroy_dropped h :
  idle_state dropped ∅ h -> hwp (destroy sys if_nametoindex r) (fun _ => gone dropped) (fun _ _ => False) h.
Proof.
  intros Hi. unfold destroy. hwp_step. eapply hwp_mono; [by apply hwp_stop_idle| |done]. intros []. apply hwp_destroy_members.
Qed.

Lemma hwp_replicator_loop rounds X h :
  running_state usable X h -> hwp (replicator_loop sys if_nametoindex rounds r) (fun _ => idle_state dropped X) (fun _ _ => False) h.
Proof.
  intros Hr. induction rounds as [|n IH]; cbn [replicator_loop]; [by apply hwp_stop_running|].
  pose proof Hr as (w & p & m & l & ss & c & o & qt & ct & -> & _). repeat hstep. exact IH.
Qed.

(** ** Set-up *)

Section setting_up.
Variable reserve : Z -> Z -> Z.
Variable inet_aton : cstr -> option Z.
Variable obj_info : W -> Z -> nat -> option (list ascii).
Variable map_info_size : nat.

(** Nothing fails, the interface exists, and the address is one. *)
Definition fine : Prop := obliging sys /\ ifindex <> 0 /\ inet_aton (listen_ip r) <> None.

Notation bound_socket := (bound_socket reserve).
Lemma bound_opened s : bound_socket s -> opened s.
Proof.
  intros (s' & x & -> & Hf & _) s1 [= <-]. destruct (bind_fill_fresh reserve) as (rings & Hf' & Hc).
  rewrite Hf in Hf'. by injection Hf' as <-.
Qed.

Lemma hwp_setup_queue flags q F w p m ss c o rn qt ct (h := Host w (PROG p) m ss c o rn qt ct) :
  bind_flags_of flags <> None -> ss !! q = Some None -> held_by w = F ->
  hwp (setup_queue sys reserve if_nametoindex r flags q) (fun _ => slot_state held_by h q F bound_socket)
    (slot_error held_by h q F fine) h.
Proof.
  intros Hflags Hq Hh. unfold setup_queue. assert (q < length (h_sockets h))%nat as Hlen by (by eapply lookup_lt_Some).
  assert (forall (P : Prop), (fine -> P) -> forall e h', slot_error held_by h q F P e h' -> slot_error held_by h q F fine e h') as Hweak.
  { intros P HP e h' (H1 & H2 & H3). split; [done|]. split; [tauto|done]. }
  hwp_step. eapply hwp_mono; [by eapply hwp_new_socket| |apply Hweak; by intros []]. intros [] h1 H1.
  hwp_step. eapply hwp_mono; [by eapply hwp_setupUMem| |apply Hweak; by intros []]. intros [] h2 H2.
  hwp_step. eapply hwp_mono; [by eapply hwp_bind_socket| |apply Hweak; by intros (? & ? & ?)]. intros [] h3 H3.
  eapply hwp_mono; [by eapply hwp_registerXskMap|done|apply Hweak; by intros []].
Qed.

(** Some resources besides those of the sockets; the rest of the state is fixed. *)
Definition sockets_state (F : resources) (p : Z) (m : xdp_attach_mode) c o rn qt ct (P : list (option sock) -> Prop) (h : host W) : Prop :=
  exists w ss, h = Host w (PROG p) m ss c o rn qt ct /\ held_by w = held_socks ss ⊎ F /\ P ss.

Lemma hwp_setup_queues flags F p m c o rn qt ct n done w :
  bind_flags_of flags <> None -> Forall bound_socket done ->
  held_by w = held_socks (done ++ replicate n None) ⊎ F ->
  hwp (for_each (setup_queue sys reserve if_nametoindex r flags) (seq (length done) n))
    (fun _ => sockets_state F p m c o rn qt ct (fun ss => Forall bound_socket ss /\ length ss = length done + n)%nat)
    (fun e h => standard e /\ ~ fine /\ sockets_state F p m c o rn qt ct (Forall opened) h)
    (Host w (PROG p) m (done ++ replicate n None) c o rn qt ct).
Proof.
  intros Hflags. revert done w. induction n as [|n IH]; intros done w Hd Hh; cbn [seq for_each].
  - hwp_step. change (replicate 0 None) with (@nil (option sock)) in *. rewrite app_nil_r in *. exists w, done.
    split; [done|]. split; [done|]. split; [done|lia].
  - set (ss := done ++ replicate (S n) None).
    assert (ss !! length done = Some None) as Hq by (unfold ss; by rewrite lookup_app_r, Nat.sub_diag by lia).
    assert (forall s, <[length done := s]> ss = done ++ s :: replicate n None) as Hset.
    { intros s. unfold ss. rewrite insert_app_r_alt, Nat.sub_diag by lia. done. }
    assert (forall s F', F' = held_socks ss ⊎ F -> held_slot s ⊎ F' = held_socks (done ++ s :: replicate n None) ⊎ F) as Hx.
    { intros s F' ->. unfold ss. cbn [replicate].
      rewrite !held_all_app, !held_all_cons. change (held_slot None) with (∅ : resources). multiset_solver. }
    hwp_step. eapply hwp_mono; [exact (hwp_setup_queue flags (length done) _ w p m ss c o rn qt ct Hflags Hq eq_refl)| |].
    + intros [] h (s & w1 & -> & H1 & Hs). host_cbn. rewrite Hset, cons_middle, app_assoc.
      replace (S (length done)) with (length (done ++ [s])) by (rewrite length_app; cbn; lia).
      eapply hwp_mono; [apply IH|intros [] h' (w2 & ss2 & -> & H2 & H3 & H4)|done].
      * apply Forall_app. by repeat constructor.
      * rewrite <- app_assoc. cbn. rewrite H1. by apply Hx.
      * exists w2, ss2. split; [done|]. split; [done|]. split; [done|]. rewrite H4, length_app. cbn. lia.
    + intros e h (H1 & H2 & s & w1 & -> & H3 & H4). split; [done|]. split; [done|]. host_cbn. rewrite Hset.
      exists w1, (done ++ s :: replicate n None). split; [done|]. split; [rewrite H3; by apply Hx|].
      apply Forall_app. split; [by eapply Forall_impl; [|apply bound_opened]|]. constructor; [done|]. apply Forall_replicate. by intros ?.
Qed.

Lemma hwp_setup_control F w p m ss c o rn qt ct :
  held_by w = F -> c < 0 ->
  hwp (setup_control sys) (fun _ h => exists w' c', h = Host w' p m ss c' o rn qt ct /\ held_by w' = held_fd c' ⊎ F)
    (fun e h => standard e /\ ~ obliging sys /\ exists w' c', h = Host w' p m ss c' o rn qt ct /\ held_by w' = held_fd c' ⊎ F)
    (Host w p m ss c o rn qt ct).
Proof.
  intros Hh Hc. unfold setup_control. repeat hstep. kcall fd w1 H1 Ho1.
  assert (held_by w1 = held_fd fd ⊎ F) as Hw1.
  { unfold held_fd. destruct (fd <? 0); [by rewrite held_none, H1|by rewrite H1, Hh]. }
  repeat hstep; [split; [done|split; [not_obliging Ho1|by exists w1, fd]]|].
  kcall a w2 H2 Ho2. rewrite <- H2 in Hw1.
  repeat hstep; [split; [done|split; [not_obliging Ho2|by exists w2, fd]]|].
  kcall b w3 H3 Ho3. rewrite <- H3 in Hw1.
  repeat hstep; [split; [done|split; [not_obliging Ho3|by exists w3, fd]]|by exists w3, fd].
Qed.
Lemma hwp_setup_output F w p m ss c o rn qt ct :
  held_by w = F ->
  hwp (setup_output sys) (fun _ h => exists w' o', h = Host w' p m ss c o' rn qt ct /\ held_by w' = held_fd o' ⊎ F)
    (fun e h => standard e /\ ~ obliging sys /\ exists w' o', h = Host w' p m ss c o' rn qt ct /\ held_by w' = held_fd o' ⊎ F)
    (Host w p m ss c o rn qt ct).
Proof.
  intros Hh. unfold setup_output. repeat hstep. kcall fd w1 H1 Ho1.
  assert (held_by w1 = held_fd fd ⊎ F) as Hw1.
  { unfold held_fd. destruct (fd <? 0); [by rewrite held_none, H1|by rewrite H1, Hh]. }
  repeat hstep; [split; [done|split; [not_obliging Ho1|by exists w1, fd]]|by exists w1, fd].
Qed.

Definition init_error (e : exn) (h : host W) : Prop := standard e /\ ~ fine /\ idle_state left_over ∅ h.

Lemma hwp_configure w p m ss :
  let h := Host w (PROG p) m ss (-1) (-1) false [] None in
  hwp (configureXdpProgram sys inet_aton obj_info map_info_size r)
    (fun _ h' => exists w', h' = Host w' (PROG p) m ss (-1) (-1) false [] None /\ held_by w' = held_by w)
    (fun e h' => standard e /\ ~ fine /\ h' = h) h.
Proof.
  intros h. subst h. unfold configureXdpProgram. repeat hstep. destruct (search_config_map obj_info map_info_size w) as [fd|]; [|hstep; by exists w].
  destruct (inet_aton (listen_ip r)) as [a|] eqn:Ha; [|hstep; split; [done|]; split; [by intros (_ & _ & Hx)|done]].
  kcall answer w1 H1 Ho1. by exists w1.
Qed.

Lemma hwp_initialize useZeroCopy w :
  held_by w = ∅ ->
  hwp (initialize sys reserve if_nametoindex inet_aton obj_info map_info_size r useZeroCopy) (fun _ => idle_state serving ∅)
    init_error (fresh_host w).
Proof.
  intros Hw. unfold initialize, setResourceLimits, fresh_host. repeat hstep. kcall failed w1 H1 Ho1. rewrite Hw in H1. repeat hstep.
  { split; [done|]. split; [intros [Hg _]; specialize (Ho1 Hg); by zb|].
    exists w1, PROG_NULL, XDP_MODE_NATIVE, ∅, [], (-1), (-1). split; [done|]. split; [done|]. split; [apply nothing_left|].
    rewrite H1. res_solve. }
  change (resize num_queues []) with ([] ++ replicate 4 (@None sock)).
  eapply hwp_mono; [by apply (hwp_load_program _ _ ∅)| |].
  2:{ intros e h (He & Hg & w2 & p & m & l & -> & Hl & H2). split; [done|]. split; [by intros []|].
      eexists w2, p, m, l, _, (-1), (-1). split; [done|]. split; [by repeat constructor|]. split; [done|].
      rewrite H2. res_solve. }
  intros [] h (w2 & p & m & -> & H2). hstep.
  eapply hwp_mono; [apply hwp_configure| |].
  2:{ intros e h' (He & Hg & ->). split; [done|]. split; [done|].
      eexists w2, (PROG p), m, _, _, (-1), (-1). split; [done|]. split; [by repeat constructor|]. split; [by right|].
      rewrite H2. res_solve. }
  intros [] h (w3 & -> & H3). hstep.
  eapply hwp_mono; [apply (hwp_setup_queues _ (attached p m) p m (-1) (-1) false [] None 4 [])| |].
  { by destruct useZeroCopy. } { done. } { rewrite H3, H2. res_solve. }
  2:{ intros e h (He & Hg & w4 & ss & -> & H4 & Hss). split; [done|]. split; [done|].
      exists w4, (PROG p), m, (attached p m), ss, (-1), (-1). split; [done|]. split; [done|]. split; [by right|].
      rewrite H4. res_solve. }
  intros [] h (w4 & ss & -> & H4 & Hss & _). hstep.
  assert (Forall opened ss) as Hop by (eapply Forall_impl; [done|apply bound_opened]).
  eapply hwp_mono; [by apply (hwp_setup_control (held_by w4))| |].
  2:{ intros e h (He & Hg & w5 & c & -> & H5). split; [done|]. split; [by intros []|].
      exists w5, (PROG p), m, (attached p m), ss, c, (-1). split; [done|]. split; [done|]. split; [by right|].
      rewrite H5, H4. res_solve. }
  intros [] h (w5 & c & -> & H5).
  eapply hwp_mono; [by apply (hwp_setup_output (held_by w5))| |].
  - intros [] h (w6 & o & -> & H6). exists w6, (PROG p), m, (attached p m), ss, c, o.
    do 3 (split; [done|]). rewrite H6, H5, H4. res_solve.
  - intros e h (He & Hg & w6 & o & -> & H6). split; [done|]. split; [by intros []|].
    exists w6, (PROG p), m, (attached p m), ss, c, o. split; [done|]. split; [done|]. split; [by right|].
    rewrite H6, H5, H4. res_solve.
Qed.


(** ** The whole of main's try block *)

Lemma hwp_serve rounds zc w :
  held_by w = ∅ ->
  hwp (serve sys reserve if_nametoindex inet_aton obj_info map_info_size rounds r zc) (fun _ => idle_state dropped ∅)
    (fun e h => standard e /\ ~ fine /\ alive h) (fresh_host w).
Proof.
  intros Hw. unfold serve. hwp_step. eapply hwp_mono; [by apply hwp_initialize| |].
  2:{ intros e h (He & Hg & Hi). split; [done|]. split; [done|]. by right. }
  intros [] h1 H1. hwp_step. eapply hwp_mono; [by apply hwp_start| |].
  2:{ intros e h (He & Hg & Hi). split; [done|]. split; [by intros []|]. left. eapply running_weaken; [|done]. by left. }
  intros [] h2 [H2 _]. pose proof H2 as (w2 & p & m & l & ss & c & o & qt & ct & -> & Hop & Hl & Hh). hwp_step.
  eapply hwp_mono; [by apply (hwp_new_thread (held_by w2))| |].
  2:{ intros e h (He & Hg & w3 & -> & H3). split; [done|]. split; [by intros []|]. left.
      exists w3, p, m, l, ss, c, o, qt, ct. split; [done|]. split; [done|]. split; [by left|]. by rewrite H3. }
  intros t h3 (w3 & -> & H3). hwp_step. eapply hwp_mono; [apply (hwp_replicator_loop _ {[+ RThread t +]})| |done].
  { exists w3, p, m, l, ss, c, o, qt, ct. split; [done|]. split; [done|]. split; [by left|]. rewrite H3, Hh. multiset_solver. }
  intros [] h4 H4. hwp_step. eapply hwp_mono; [by apply hwp_stop_idle| |done].
  intros [] h5 (w5 & p5 & m5 & l5 & ss5 & c5 & o5 & -> & Hop5 & Hl5 & H5).
  kcall a w6 H6 Ho6. exists w6, p5, m5, l5, ss5, c5, o5. do 2 (split; [done|]). split; [done|].
  eapply releases_spec; [exact H6|]. rewrite H5. multiset_solver.
Qed.
End setting_up.
End resources.

(** ** Properties *)

Section main.
Context {W : Type} (sys : sys_call -> W -> Z * W) (held_by : W -> resources) (maps_of : W -> maps).
Context `{!Documented sys held_by maps_of}.
Variable reserve : Z -> Z -> Z.
Variable if_nametoindex : cstr -> Z.
Variable inet_aton : cstr -> option Z.
Variable obj_info : W -> Z -> nat -> option (list ascii).
Variable map_info_size : nat.

(** The specification of start and stop: stopping unloads the program, which
    starting does not load again. *)
Record life := Life { lf_running : bool; lf_loaded : bool }.
Definition life_step (s : life) (op : life_op) : life :=
  match op with
  | OpStart => Life true (lf_loaded s)
  | OpStop => if lf_running s then Life false false else s
  end.
Definition life_rel (r : replicator) (s : life) (h : host W) : Prop :=
  let L := if lf_loaded s then serving if_nametoindex r else unloaded in
  if lf_running s then running_state held_by L ∅ h /\ threads_up h else idle_state held_by L ∅ h.

Lemma life_step_rel r s op h :
  obliging sys -> life_rel r s h ->
  exists h', run_op sys if_nametoindex r op h = (inl tt, h') /\ life_rel r (life_step s op) h'.
Proof.
  intros Hob Hr.
  assert (forall m Q E, hwp m Q E h -> (forall e h', E e h' -> False) -> exists h', m h = (inl tt, h') /\ Q tt h') as Hx.
  { unfold hwp. intros m Q E Hm HE. destruct (m h) as [[[]|e] h']; [by eauto|by destruct (HE e h')]. }
  destruct s as [[] loaded], op; unfold life_rel in *; cbn [lf_running lf_loaded life_step run_op] in *.
  - exists h. split; [|done]. destruct Hr as [(w & p & m & l & ss & c & o & qt & ct & -> & _) _]. done.
  - destruct Hr as [Hr _]. apply (Hx _ (fun _ => idle_state held_by unloaded ∅) (fun _ _ => False)); [|done].
    eapply hwp_mono; [apply (hwp_stop_running sys held_by maps_of if_nametoindex r)| |done].
    + eapply running_weaken; [|exact Hr]. intros p m l. destruct loaded; [by left|right; by apply unloaded_dropped].
    + intros [] h'. apply idle_weaken. intros p m l Hd. by eapply dropped_obliging.
  - set (L := if loaded then _ else _) in *.
    apply (Hx _ (fun _ h => running_state held_by L ∅ h /\ threads_up h) (fun e h => standard e /\ ~ obliging sys /\ running_state held_by L ∅ h));
      [by apply (hwp_start sys held_by maps_of)|]. by intros e h' (_ & Hg & _).
  - set (L := if loaded then _ else _) in *.
    apply (Hx _ (fun _ => idle_state held_by L ∅) (fun _ _ => False)); [by apply hwp_stop_idle|done].
Qed.

Lemma held_all_no_attached {A} (f : A -> resources) l i p m :
  (forall x, RAttached i p m ∉ f x) -> RAttached i p m ∉ held_all f l.
Proof.
  intros Hf. induction l as [|x l IH]; [by rewrite held_all_nil; multiset_solver|].
  rewrite held_all_cons. specialize (Hf x). multiset_solver.
Qed.
Lemma extras_no_attached ss c o qt ct i p m : RAttached i p m ∉ extras ss c o qt ct.
Proof.
  assert (forall f z, (forall x, f x <> RAttached i p m) -> RAttached i p m ∉ opt_res f z) as Ho.
  { intros f [x|] Hf; cbn [opt_res]; [|multiset_solver]. specialize (Hf x). multiset_solver. }
  assert (forall fd, RAttached i p m ∉ held_fd fd) as Hfd by (intros fd; unfold held_fd; case_match; multiset_solver).
  assert (RAttached i p m ∉ held_socks ss) as H1.
  { apply held_all_no_attached. intros [s|]; [|multiset_solver]. cbn [held_slot]. unfold held_sock.
    pose proof (Ho RXsk (so_xsk s)). pose proof (Ho RUmem (so_umem s)). pose proof (Ho RMem (so_buffer s)). multiset_solver. }
  assert (RAttached i p m ∉ held_threads qt) as H2 by (apply held_all_no_attached; intros x; by apply Ho).
  pose proof (Hfd c). pose proof (Hfd o). assert (RAttached i p m ∉ opt_res RThread ct) by by apply Ho.
  unfold extras. multiset_solver.
Qed.

(** C19: start and stop of an initialised replicator, in any order and number, when
    no call fails: they return, the replicator runs exactly when the last effective
    operation was a start, it then has its four queue threads and the control
    thread and otherwise none, and its XDP program is attached exactly until the
    first stop of a running replicator: a replicator started again runs all its
    threads without the program. *)
Theorem start_stop_lifecycle (r : replicator) (zc : bool) (ops : list life_op) (w : W) (h : host W)
    (Hob : obliging sys) (Hw : held_by w = ∅)
    (Hi : initialize sys reserve if_nametoindex inet_aton obj_info map_info_size r zc (fresh_host w) = (inl tt, h)) :
  let s := fold_left life_step ops (Life false true) in
  exists h', for_each (run_op sys if_nametoindex r) ops h = (inl tt, h') /\ h_running h' = lf_running s /\
    (if lf_running s then threads_up h' else h_queue_threads h' = [] /\ h_control_thread h' = None) /\
    (if lf_loaded s
     then exists p, h_xdp_prog h' = PROG p /\ RAttached (if_nametoindex (listen_interface r)) p (h_attach_mode h') ∈ held_by (h_kernel h')
     else h_xdp_prog h' = PROG_NULL /\ forall i p m, RAttached i p m ∉ held_by (h_kernel h')).
Proof.
  intros s.
  pose proof (hwp_initialize sys held_by maps_of if_nametoindex r reserve inet_aton obj_info map_info_size zc w Hw) as H0.
  unfold hwp in H0. rewrite Hi in H0. change (life_rel r (Life false true) h) in H0. clear Hi Hw.
  assert (exists h', for_each (run_op sys if_nametoindex r) ops h = (inl tt, h') /\ life_rel r s h') as (h' & Hr & Hl).
  { subst s. revert H0. generalize (Life false true) as s0. revert h. induction ops as [|op ops IH]; intros h s0 H0; [by eauto|].
    destruct (life_step_rel r s0 op h Hob H0) as (h1 & E1 & H1). destruct (IH h1 _ H1) as (h2 & E2 & H2).
    exists h2. split; [|exact H2]. cbn [for_each]. unfold mbind, action_bind. by rewrite E1. }
  exists h'. split; [done|]. unfold life_rel in Hl. destruct (lf_running s).
  - destruct Hl as [(w1 & p & m & l & ss & c & o & qt & ct & -> & _ & Hp & Hh) Ht]. split; [done|]. split; [done|]. host_cbn.
    rewrite Hh. destruct (lf_loaded s).
    + destruct p as [| |p]; [done..|]. unfold serving in Hp. subst l. exists p. split; [done|]. unfold attached. multiset_solver.
    + destruct Hp as [-> ->]. split; [done|]. intros i p m'. pose proof (extras_no_attached ss c o qt ct i p m'). multiset_solver.
  - destruct Hl as (w1 & p & m & l & ss & c & o & -> & _ & Hp & Hh). split; [done|]. split; [done|]. host_cbn.
    rewrite Hh. destruct (lf_loaded s).
    + destruct p as [| |p]; [done..|]. unfold serving in Hp. subst l. exists p. split; [done|]. unfold attached. multiset_solver.
    + destruct Hp as [-> ->]. split; [done|]. intros i p m'. pose proof (extras_no_attached ss c o [] None i p m'). multiset_solver.
Qed.

(** C12: the replicator program from start to exit, with at most one argument after
    the port and a number as the port, whatever the kernel answers, each call having
    its documented effect (Kernel.v: closing, deleting, unmapping and joining release
    what they are given, a detach when it answers 0), and whenever the
    signal comes while main waits: every thread is joined, and every socket,
    descriptor, memory area and packet memory it acquired is released, each once.
    When no call fails, the interface exists and the address is valid, it exits with 0
    and nothing is left.  In any other case it exits with 0 or 1, and the only thing
    that can be left is the XDP program: after exit code 0 attached, when its detach
    failed, whose answer is ignored; after exit code 1 also open, attached or not. *)
Theorem replicator_main_cleans_up (program interface ip port : cstr) (rest : list cstr) (n cores : Z) (rounds : nat) (w : W)
    (Hrest : zlen rest <= 1) (Hport : stoi port = Some n) (Hw : held_by w = ∅) :
  let r := Replicator interface ip (u16 n) cores in
  let '(result, h) := replicator_main sys reserve if_nametoindex inet_aton obj_info map_info_size
                        (program :: interface :: ip :: port :: rest) cores rounds (fresh_host w) in
  h_running h = false /\ h_sockets h = [] /\
  ((result = inl 0 /\ dropped sys held_by if_nametoindex r (h_xdp_prog h) (h_attach_mode h) (held_by (h_kernel h))) \/
   (result = inl 1 /\ ~ fine sys if_nametoindex r inet_aton /\
    left_over sys held_by if_nametoindex r (h_xdp_prog h) (h_attach_mode h) (held_by (h_kernel h)))) /\
  (fine sys if_nametoindex r inet_aton -> result = inl 0 /\ held_by (h_kernel h) = ∅).
Proof.
  intros r. set (main := replicator_main _ _ _ _ _ _ _ _ _).
  set (Lost := left_over sys held_by if_nametoindex r). set (Gone := dropped sys held_by if_nametoindex r).
  cut (hwp main (fun code h => (h_running h = false /\ h_sockets h = []) /\
    ((code = 0 /\ Gone (h_xdp_prog h) (h_attach_mode h) (held_by (h_kernel h))) \/
     (code = 1 /\ ~ fine sys if_nametoindex r inet_aton /\ Lost (h_xdp_prog h) (h_attach_mode h) (held_by (h_kernel h)))))
    (fun _ _ => False) (fresh_host w)).
  { unfold hwp. destruct (main (fresh_host w)) as [[code|e] h]; [|done]. intros ((H1 & H2) & H).
    split; [done|]. split; [done|]. destruct H as [(-> & H)|(-> & Hg & H)]; (split; [auto|]); [|tauto].
    intros [Hob _]. split; [done|]. by eapply dropped_obliging. }
  unfold main, replicator_main. rewrite (proj2 (Z.ltb_ge _ _)), Hport by done. unfold fresh_host. hwp_step.
  apply (hwp_call_doc sys held_by maps_of). intros uid w1 _ H1 Ho1. cbn [res_effect success] in H1, Ho1. host_cbn.
  rewrite Hw in H1. hwp_step.
  { hwp_step. split; [done|]. right. split; [done|]. split; [intros [Hg _]; specialize (Ho1 Hg); by zb|].
    cbn. rewrite H1. apply nothing_left. }
  fold r. set (zc := match rest with [] => true | _ => _ end). hwp_step.
  apply (hwp_mono _ (fun code h => (code = 0 /\ idle_state held_by Gone ∅ h) \/
    (code = 1 /\ ~ fine sys if_nametoindex r inet_aton /\ alive sys held_by if_nametoindex r h)) _ (fun _ _ => False)); [|intros code h Hc|done].
  - eapply hwp_try; [hwp_step; eapply hwp_mono; [by apply (hwp_serve sys held_by maps_of if_nametoindex r reserve inet_aton obj_info map_info_size)|intros [] h Hi; hwp_step; left; by split|exact (fun _ _ H => H)]|].
    intros e h ([H2 H3] & Hg & Ha). split; [done|]. split; [done|]. hwp_step. by right.
  - hwp_step. destruct Hc as [[-> Hi]|(-> & Hg & Ha)].
    + eapply hwp_mono; [by apply (hwp_destroy_dropped sys held_by maps_of)| |done]. intros [] h' (H2 & H3 & H4). hwp_step. split; [done|]. by left.
    + eapply hwp_mono; [by apply (hwp_destroy sys held_by maps_of if_nametoindex r)| |done]. intros [] h' (H2 & H3). hwp_step. split; [done|]. by right.
Qed.
End main.

(** ** Witnesses *)

Definition demo_reserve : Z -> Z -> Z := reserve_all.
Definition demo_ifindex (name : cstr) : Z := if decide (name = lit "eth0") then 2 else 0.
Definition demo_ip (ip : cstr) : option Z := if decide (ip = lit "10.0.0.1") then Some 167772161 else None.
Definition demo_start : demo_world := DemoWorld ∅ (Maps ∅ ∅ ∅ ∅ ∅).

(** A kernel that refuses to detach. *)
Definition stuck_sys (c : sys_call) (w : demo_world) : Z * demo_world :=
  match c with XdpProgramDetach _ _ _ => (-1, w) | _ => demo_sys false c w end.
#[export] Instance stuck_documented : Documented stuck_sys dw_res dw_maps.
Proof.
  pose proof (demo_documented false) as [Hr Hm].
  split; intros c w; [specialize (Hr c w)|specialize (Hm c w)]; destruct c as [| | | | |[] ? ?| | | | | | | | | | | | | | | | | | | | | | |]; done.
Qed.
Definition demo_replicator_main (sys : sys_call -> demo_world -> Z * demo_world) (ip : string) :=
  replicator_main sys demo_reserve demo_ifindex demo_ip demo_obj_info 88
    [lit "packet_replicator"; lit "eth0"; lit ip; lit "9000"] 8 3 (fresh_host demo_start).

(** A good address leaves nothing; a bad one leaves the program attached, and so does
    a detach that fails, with exit code 0. *)
Lemma replicator_main_cleans_up_witness :
  (let '(result, h) := demo_replicator_main (demo_sys false) "10.0.0.1" in result = inl 0 /\ dw_res (h_kernel h) = ∅) /\
  (fst (demo_replicator_main (demo_sys false) "10.0.0") = inl 1 /\
   dw_res (h_kernel (snd (demo_replicator_main (demo_sys false) "10.0.0"))) = {[+ RAttached 2 7 XDP_MODE_NATIVE +]} ⊎ {[+ RProg 7 +]}) /\
  fst (demo_replicator_main stuck_sys "10.0.0.1") = inl 0 /\
  dw_res (h_kernel (snd (demo_replicator_main stuck_sys "10.0.0.1"))) = {[+ RAttached 2 7 XDP_MODE_NATIVE +]} /\
  (let '(result, h) := demo_replicator_main stuck_sys "10.0.0.1" in h_running h = false /\ h_sockets h = []).
Proof.
  assert (zlen (@nil cstr) <= 1) as Hr by (vm_compute; discriminate).
  assert (stoi (lit "9000") = Some 9000) as Hp by reflexivity.
  split; [|split; [|split; [vm_compute; reflexivity|split; [apply (bool_decide_unpack _); vm_compute; exact I|]]]].
  - pose proof (replicator_main_cleans_up (demo_sys false) dw_res dw_maps demo_reserve demo_ifindex
      demo_ip demo_obj_info 88 (lit "packet_replicator") (lit "eth0") (lit "10.0.0.1") (lit "9000") [] 9000 8 3 demo_start Hr Hp eq_refl) as H.
    unfold demo_replicator_main. cbv zeta in H. destruct (replicator_main _ _ _ _ _ _ _ _ _ _) as [result h].
    destruct H as (_ & _ & _ & H). apply H.
    split; [apply demo_obliging|]. split; [discriminate|]. discriminate.
  - split; [vm_compute; reflexivity|]. apply (bool_decide_unpack _). vm_compute. exact I.
  - pose proof (replicator_main_cleans_up stuck_sys dw_res dw_maps demo_reserve demo_ifindex
      demo_ip demo_obj_info 88 (lit "packet_replicator") (lit "eth0") (lit "10.0.0.1") (lit "9000") [] 9000 8 3 demo_start Hr Hp eq_refl) as H.
    unfold demo_replicator_main. cbv zeta in H. destruct (replicator_main _ _ _ _ _ _ _ _ _ _) as [result h].
    destruct H as (H1 & H2 & _). exact (conj H1 H2).
Defined.

Definition demo_replicator : replicator := Replicator (lit "eth0") (lit "10.0.0.1") 9000 8.
Definition demo_init (types_first : bool) :=
  initialize (demo_sys types_first) demo_reserve demo_ifindex demo_ip demo_obj_info 88 demo_replicator true (fresh_host demo_start).
Definition demo_initialised (types_first : bool) : host demo_world := snd (demo_init types_first).
Lemma pair_of_fst {A B} (x : A * B) a : fst x = a -> x = (a, snd x).
Proof. destruct x. by intros <-. Qed.
Lemma demo_init_ok types_first :
  initialize (demo_sys types_first) demo_reserve demo_ifindex demo_ip demo_obj_info 88 demo_replicator true
    (fresh_host demo_start) = (inl tt, demo_initialised types_first).
Proof. unfold demo_initialised, demo_init. apply pair_of_fst. destruct types_first; vm_compute; reflexivity. Qed.

Lemma start_stop_lifecycle_witness :
  exists h', for_each (run_op (demo_sys false) demo_ifindex demo_replicator) [OpStart; OpStop; OpStart] (demo_initialised false) = (inl tt, h') /\
    h_running h' = true /\ length (h_queue_threads h') = 4%nat /\ h_xdp_prog h' = PROG_NULL.
Proof.
  destruct (start_stop_lifecycle (demo_sys false) dw_res dw_maps demo_reserve demo_ifindex demo_ip
    demo_obj_info 88 demo_replicator true [OpStart; OpStop; OpStart] demo_start (demo_initialised false) (demo_obliging false) eq_refl (demo_init_ok false))
    as (h' & H1 & H2 & (H3 & _) & H4 & _).
  exists h'. exact (conj H1 (conj H2 (conj H3 H4))).
Defined.
