(* ===== verification/Moves.v ===== *)
(** Moving a replicator (the move constructor and assignment of PacketReplicator),
    which nothing in the program calls.

    The object that is assigned to is the host of Deploy.v; the other one is a
    record of what it holds. *)

From stdpp Require Import gmultiset.
From S2P Require Import Prelude CText Frame Xsk Kernel KernelDemo XskLife Deploy.

Record move_counts := MoveCounts {
  mc_packets_received : Z; mc_packets_sent : Z; mc_bytes_received : Z; mc_bytes_sent : Z;
  mc_received_per_queue : list Z; mc_sent_per_queue : list Z }.
Record repl_object := ReplObject {
  ro_config : replicator; ro_sockets : list (option sock); ro_control_socket : Z; ro_output_socket : Z; ro_running : bool;
  ro_threads : list (option Z); ro_control_thread : option Z; ro_destinations : list Destination; ro_counts : move_counts }.

(** The moved object: strings, vectors and sets are empty, numbers stay. *)
Definition moved_object (o : repl_object) : repl_object :=
  ReplObject (Replicator [] [] (listen_port (ro_config o)) (num_cores (ro_config o))) [] (-1) (-1) false [] None [] (ro_counts o).
(** The new object and the moved one.  The list of processors is not moved: the new
    object has none, as with a single processor. *)
Definition move_construct_object (o : repl_object) : repl_object * repl_object :=
  let c := ro_config o in
  (ReplObject (Replicator (listen_interface c) (listen_ip c) (listen_port c) 0) (ro_sockets o) (ro_control_socket o)
     (ro_output_socket o) (ro_running o) (ro_threads o) (ro_control_thread o) (ro_destinations o) (ro_counts o),
   moved_object o).

Definition object_host {W} (w : W) (p : prog_ptr) (m : xdp_attach_mode) (o : repl_object) : host W :=
  Host w p m (ro_sockets o) (ro_control_socket o) (ro_output_socket o) (ro_running o) (ro_threads o) (ro_control_thread o).

Section Moves.
Context {W : Type} (sys : sys_call -> W -> Z * W) (held_by : W -> resources) (maps_of : W -> maps).
Variable if_nametoindex : cstr -> Z.

(** Assignment from another object, whose state afterwards is the result.  The
    sockets of the queues are destroyed when their vector is replaced; a thread
    that is still joinable ends the process. *)
Definition move_assign_object (r : replicator) (other : repl_object) : action W repl_object :=
  stop sys if_nametoindex r;;
  ss ← get h_sockets;
  for_each (destroy_opt sys) ss;;
  set_sockets (ro_sockets other);;
  set_control_socket (ro_control_socket other);;
  set_output_socket (ro_output_socket other);;
  _ ← exchange_running (ro_running other);
  ts ← get h_queue_threads;
  throw_if (existsb (fun t => bool_decide (t <> None)) ts) Terminate;;
  set_threads (ro_threads other);;
  t ← get h_control_thread;
  throw_if (bool_decide (t <> None)) Terminate;;
  set_control_thread (ro_control_thread other);;
  mret (moved_object other).

(** Destroying a moved object releases nothing. *)
Lemma moved_destroy_nothing r w p m o : destroy sys if_nametoindex r (object_host w p m (moved_object o)) = (inl tt, object_host w p m (moved_object o)).
Proof. done. Qed.

(** What an object holds. *)
Definition held_object (o : repl_object) : resources :=
  extras (ro_sockets o) (ro_control_socket o) (ro_output_socket o) (ro_threads o) (ro_control_thread o).
Lemma move_construct_holds o :
  let '(new, moved) := move_construct_object o in held_object new = held_object o /\ held_object moved = ∅.
Proof. split; [done|]. done. Qed.

(** *** Proofs *)

(** stop keeps the plain sockets, whatever the kernel does. *)
Definition plain (c o : Z) (h : host W) : Prop := h_control_socket h = c /\ h_output_socket h = o.
Lemma plain_call c o x h : plain c o h -> hwp (do_call sys x) (fun _ => plain c o) (fun _ => plain c o) h.
Proof. intros H. apply hwp_bind, hwp_call. intros answer w _. exact H. Qed.
Lemma plain_join c o t h : plain c o h -> hwp (join_opt sys t) (fun _ => plain c o) (fun _ => plain c o) h.
Proof. intros H. destruct t as [t|]; [by apply plain_call|done]. Qed.
Lemma plain_joins c o ts h : plain c o h -> hwp (for_each (join_opt sys) ts) (fun _ => plain c o) (fun _ => plain c o) h.
Proof.
  revert h. induction ts as [|t ts IH]; intros h H; [done|]. cbn [for_each]. apply hwp_bind.
  eapply hwp_mono; [by apply (plain_join c o)| |done]. intros [] h'. apply IH.
Qed.
Lemma plain_drop c o i h : plain c o h -> hwp (drop_program sys i) (fun _ => plain c o) (fun _ => plain c o) h.
Proof.
  intros H. unfold drop_program. hstep. hstep. destruct (h_xdp_prog h) as [| |p]; [done|..].
  all: repeat hstep; eapply hwp_mono; [by apply (plain_call c o)| |done]; intros [] h1 H1; repeat hstep.
  all: eapply hwp_mono; [by apply (plain_call c o)| |done]; intros [] h2 H2; repeat hstep; done.
Qed.
Lemma stop_plain r c o h : plain c o h -> hwp (stop sys if_nametoindex r) (fun _ => plain c o) (fun _ => plain c o) h.
Proof.
  destruct h as [w p m ss c0 o0 rn qt ct]. intros H. unfold stop. hstep. hstep. destruct rn; [|done]. repeat hstep.
  eapply hwp_mono; [by apply (plain_joins c o)| |done]. intros [] [w1 p1 m1 ss1 c1 o1 rn1 qt1 ct1] H1. repeat hstep.
  eapply hwp_mono; [by apply (plain_join c o)| |done]. intros [] [w2 p2 m2 ss2 c2 o2 rn2 qt2 ct2] H2. unfold unloadXdpProgram. repeat hstep.
  by apply plain_drop.
Qed.

Context `{!Documented sys held_by maps_of}.

(** Assignment to a replicator in any state takes over what the other object held
    and releases the target's threads, queue sockets and program, but the control
    and the output socket of the target stay open without an owner. *)
Lemma move_assign_leaks r other X h :
  running_state held_by (usable sys held_by if_nametoindex r) (held_object other ⊎ X) h \/
  idle_state held_by (left_over sys held_by if_nametoindex r) (held_object other ⊎ X) h ->
  hwp (move_assign_object r other)
    (fun moved h' => moved = moved_object other /\ exists w p m l, h' = object_host w p m other /\ left_over sys held_by if_nametoindex r p m l /\
       held_by w = l ⊎ held_object other ⊎ held_fd (h_control_socket h) ⊎ held_fd (h_output_socket h) ⊎ X)
    (fun _ _ => False) h.
Proof.
  intros Hh. assert (hwp (stop sys if_nametoindex r) (fun _ => idle_state held_by (left_over sys held_by if_nametoindex r) (held_object other ⊎ X)) (fun _ _ => False) h) as Hs.
  { destruct Hh as [Hr|Hi]; [|by eapply hwp_stop_idle]. eapply hwp_mono; [by eapply hwp_stop_running| |done].
    intros [] h'. apply idle_weaken, dropped_left. }
  pose proof (stop_plain r (h_control_socket h) (h_output_socket h) h (conj eq_refl eq_refl)) as Hk.
  set (c := h_control_socket h) in *. set (o := h_output_socket h) in *.
  unfold move_assign_object. apply hwp_bind. eapply hwp_mono; [exact (hwp_and _ _ _ _ _ _ Hs Hk)| |by intros e h' [[] _]].
  intros [] h1 [(w & p & m & l & ss & c' & o' & -> & Hop & Hl & Hw) [Hc Ho]]. host_cbn. subst c' o'. repeat hstep.
  eapply hwp_mono; [apply (hwp_destroy_socks sys held_by maps_of ss (l ⊎ held_object other ⊎ held_fd c ⊎ held_fd o ⊎ X)); [done|]| |done].
  { rewrite Hw. unfold extras. rewrite held_all_nil. change (opt_res RThread None) with (∅ : resources). multiset_solver. }
  intros [] h2 (w2 & -> & H2). repeat hstep. split; [done|]. exists w2, p, m, l. done.
Qed.
End Moves.
