(* ===== verification/DeployFilter.v ===== *)
(** What the replicator's set-up makes of the XDP program: which packets the
    filter hands to which socket once initialize has returned. *)

From stdpp Require Import gmultiset.
From S2P Require Import Prelude CText XdpFilter Frame Xsk Kernel KernelDemo XskLife Deploy.

(** ** The search for the configuration map *)

(** The information of a map reaches past the name's bytes, which hold a NUL. *)
Definition full_info (info : list ascii) : Prop := (40 <= length info)%nat /\ NUL ∈ take 16 (drop 24 info).
Definition names_config (info : list ascii) : bool := strstr (info_name info) config_map_name.
(** The first BPF object that names the configuration map is the map, and the
    objects before it have full information. *)
Definition config_visible (fds : gmap Z fd_object) (c obj : Z) : Prop :=
  3 <= c < 1024 /\
  (exists info, fds !! c = Some (FdMap config_map_name obj info) /\ full_info info /\ names_config info = true) /\
  forall fd o info, 3 <= fd < c -> fds !! fd = Some o -> fd_info o = Some info -> full_info info /\ names_config info = false.
(** The first BPF object has so little information that names are cut off after it:
    the information of a BTF object has 32 bytes. *)
Definition config_hidden (fds : gmap Z fd_object) : Prop :=
  exists b o info, 3 <= b /\ fds !! b = Some o /\ fd_info o = Some info /\ (length info <= 32)%nat /\
    forall fd o', 3 <= fd < b -> fds !! fd = Some o' -> fd_info o' = None.

Lemma c_str_app_terminated (l k : list ascii) : NUL ∈ l -> c_str (l ++ k) = c_str l.
Proof.
  induction l as [|a l IH]; [set_solver|]. cbn. destruct (decide (a = NUL)); [done|].
  intros [?|H]%elem_of_cons; [congruence|]. by rewrite IH.
Qed.
Lemma c_str_short (l : list ascii) k : c_str (drop k l) = [] -> (length (c_str l) <= k)%nat.
Proof.
  revert l. induction k as [|k IH]; intros [|a l] H; [cbn; lia| |cbn; lia|].
  - cbn [drop] in H. rewrite H. cbn. lia.
  - cbn. destruct (decide (a = NUL)); cbn; [lia|]. specialize (IH l H). lia.
Qed.
Lemma starts_with_length p s : starts_with p s = true -> (length p <= length s)%nat.
Proof.
  revert s. induction p as [|a p IH]; intros [|b s] H; cbn in *; try done; [lia..|]. apply andb_true_iff in H as [_ H]. specialize (IH s H). lia.
Qed.
Lemma strstr_short s p : (length s < length p)%nat -> strstr s p = false.
Proof.
  induction s as [|a s IH]; intros Hl; cbn [strstr]; apply orb_false_iff.
  - split; [|done]. destruct (starts_with p []) eqn:E; [|done]. apply starts_with_length in E. lia.
  - split; [|apply IH; cbn in Hl; lia]. destruct (starts_with p (a :: s)) eqn:E; [|done]. apply starts_with_length in E. lia.
Qed.

Lemma info_name_full info len junk :
  full_info info -> (40 <= len)%nat -> info_name (take len info ++ junk) = info_name info.
Proof.
  intros [Hl Hn] Hlen. unfold info_name.
  assert (forall k, (40 <= k)%nat -> exists r, drop 24 (take k info ++ junk) = take 16 (drop 24 info) ++ r) as Hx.
  { intros k Hk. rewrite drop_app_le by (rewrite length_take; lia). rewrite <- (take_drop 16 (drop 24 (take k info))).
    eexists. rewrite <- app_assoc. f_equal. rewrite skipn_firstn_comm, take_take.
    by replace (Nat.min 16 (k - 24)) with 16%nat by lia. }
  destruct (Hx len Hlen) as [r ->]. rewrite <- (take_drop 16 (drop 24 info)) at 2. by rewrite !c_str_app_terminated.
Qed.

Section search.
Context {W : Type} (maps_of : W -> maps) (obj_info : W -> Z -> nat -> option (list ascii)).
(** bpf_obj_get_info_by_fd copies as much of the information as there is room for. *)
Definition copies_info : Prop := forall w fd len, obj_info w fd len = take len <$> (km_fds (maps_of w) !! fd ≫= fd_info).
Context (Hinfo : copies_info).

Ltac opt_cbn := cbn [mbind option_bind fmap option_fmap option_map fd_info].
Lemma find_visible w c obj fuel fd buffer len :
  config_visible (km_fds (maps_of w)) c obj -> (40 <= len)%nat -> 3 <= fd <= c -> c - fd < Z.of_nat fuel ->
  find_config_map obj_info fuel w fd buffer len = Some c.
Proof.
  intros (Hc & (info & Hm & Hfull & Hname) & Hbefore) Hlen. revert fd buffer len Hlen.
  induction fuel as [|fuel IH]; intros fd buffer len Hlen Hfd Hf; [lia|]. cbn [find_config_map]. rewrite Hinfo.
  destruct (decide (fd = c)) as [->|Hne].
  - rewrite Hm. opt_cbn. rewrite info_name_full by done. unfold names_config in Hname. by rewrite Hname.
  - destruct (km_fds (maps_of w) !! fd) as [o|] eqn:Eo; opt_cbn; [|apply IH; lia].
    destruct (fd_info o) as [i|] eqn:Ei; opt_cbn; [|apply IH; lia].
    destruct (Hbefore fd o i) as [Hi Hn]; [lia|done|done|]. rewrite info_name_full by done. unfold names_config in Hn. rewrite Hn.
    apply IH; [|lia..]. rewrite length_take. destruct Hi. lia.
Qed.

Lemma find_truncated w fuel fd buffer len :
  (len <= 32)%nat -> c_str (drop 32 buffer) = [] -> find_config_map obj_info fuel w fd buffer len = None.
Proof.
  intros Hlen Hb. revert fd buffer len Hlen Hb. induction fuel as [|fuel IH]; intros fd buffer len Hlen Hb; [done|]. cbn [find_config_map].
  rewrite Hinfo. destruct (km_fds (maps_of w) !! fd ≫= fd_info) as [info|]; opt_cbn; [|by apply IH].
  set (k := length (take len info)). assert (k <= 32)%nat as Hk by (unfold k; rewrite length_take; lia).
  assert (c_str (drop 32 (take len info ++ drop k buffer)) = []) as Hb'.
  { rewrite drop_app_ge by (fold k; lia). fold k. rewrite drop_drop. by replace (k + (32 - k))%nat with 32%nat by lia. }
  rewrite strstr_short; [by apply IH|].
  assert (length (info_name (take len info ++ drop k buffer)) <= 8)%nat as Hs; [|change (length config_map_name) with 10%nat; lia].
  apply c_str_short. by rewrite drop_drop.
Qed.

Lemma find_hidden w n fuel fd b :
  (forall fd' o', 3 <= fd' < b -> km_fds (maps_of w) !! fd' = Some o' -> fd_info o' = None) ->
  (exists o info, km_fds (maps_of w) !! b = Some o /\ fd_info o = Some info /\ (length info <= 32)%nat) ->
  3 <= fd <= b -> find_config_map obj_info fuel w fd (replicate n NUL) n = None.
Proof.
  intros Hbefore (o & info & Ho & Hi & Hl). revert fd. induction fuel as [|fuel IH]; intros fd Hfd; [done|]. cbn [find_config_map].
  rewrite Hinfo. destruct (decide (fd = b)) as [->|Hne].
  - rewrite Ho. opt_cbn. rewrite Hi. opt_cbn. set (k := length (take n info)). assert (k <= 32)%nat as Hk by (unfold k; rewrite length_take; lia).
    assert (c_str (drop 32 (take n info ++ drop k (replicate n NUL))) = []) as Hb'.
    { rewrite drop_app_ge by (fold k; lia). rewrite drop_replicate, drop_replicate. by destruct (n - k - _)%nat. }
    rewrite strstr_short; [by apply find_truncated|].
    assert (length (info_name (take n info ++ drop k (replicate n NUL))) <= 8)%nat as Hs; [|change (length config_map_name) with 10%nat; lia].
    apply c_str_short. by rewrite drop_drop.
  - destruct (km_fds (maps_of w) !! fd) as [o'|] eqn:Eo; opt_cbn; [|apply IH; lia]. rewrite (Hbefore fd o') by (done || lia). opt_cbn. apply IH. lia.
Qed.

Lemma search_visible w c obj size :
  config_visible (km_fds (maps_of w)) c obj -> (40 <= size)%nat -> search_config_map obj_info size w = Some c.
Proof.
  intros Hv Hs. pose proof Hv as [Hc _]. unfold search_config_map. apply (find_visible w c obj); [done|done|lia|lia].
Qed.
Lemma search_hidden w size : config_hidden (km_fds (maps_of w)) -> search_config_map obj_info size w = None.
Proof.
  intros (b & o & info & Hb & Ho & Hi & Hl & Hbefore). unfold search_config_map. apply (find_hidden w size _ 3 b); [done|eauto|lia].
Qed.
End search.

(** ** A set-up in which nothing fails *)

Section good_run.
Context {W : Type} (sys : sys_call -> W -> Z * W) (held_by : W -> resources) (maps_of : W -> maps).
Context `{!Documented sys held_by maps_of} (Hob : obliging sys).
Variable if_nametoindex : cstr -> Z.
Variable r : replicator.
Hypothesis Hif : if_nametoindex (listen_interface r) <> 0.

Definition never {W} : exn -> host W -> Prop := fun _ _ => False.
Lemma hwp_good c (Q : Z -> host W -> Prop) h :
  (forall answer w, success c answer = true -> map_effect c answer (maps_of (h_kernel h)) (maps_of w) -> Q answer (set_kernel w h)) ->
  hwp (ask sys c) Q never h.
Proof.
  intros H. apply hwp_call. intros answer w Hs. pose proof (@doc_maps _ _ held_by maps_of _ c (h_kernel h)) as Hm.
  pose proof (Hob c (h_kernel h)) as Ho. rewrite Hs in Hm, Ho. exact (H answer w Ho Hm).
Qed.
Ltac gcall answer w Hs Hm := unfold do_call; try hstep; apply hwp_good; intros answer w Hs Hm; cbn [success map_effect] in Hs, Hm; zb; host_cbn.
Ltac gsteps := repeat (hwp_step; host_cbn); zb; try lia.

Lemma run_load path native w m0 ss c o rn qt ct :
  hwp (loadXdpProgram sys if_nametoindex (listen_interface r) path native)
    (fun _ h => exists w' p m fds config_fd config xsks_fd xsks, h = Host w' (PROG p) m ss c o rn qt ct /\
       filter_maps fds config_fd config xsks_fd xsks /\ 0 <= xsks_fd /\ fds ##ₘ km_fds (maps_of w) /\
       (forall k, km_entries (maps_of w) !! (xsks, k) = None) /\
       maps_of w' = Maps (fds ∪ km_fds (maps_of w)) (<[p := fds]> (km_progs (maps_of w)))
         (<[config := UnicastConfig 0 0]> (km_config (maps_of w))) (km_entries (maps_of w)) (km_bound (maps_of w)) /\
       exists w1 i, sys (XdpProgramAttach (PROG p) i m) w1 = (0, w') /\ maps_of w1 = maps_of w)
    never (Host w PROG_NULL m0 ss c o rn qt ct).
Proof.
  unfold loadXdpProgram. hstep.
  apply (hwp_mono _ (fun _ h' => exists m, h' = Host w PROG_NULL m ss c o rn qt ct) _ never);
    [repeat hstep; eauto|intros [] h1 (m1 & ->)|done].
  unfold drop_program. repeat hstep. gcall p w1 Hp Hm1. rewrite (proj2 (Z.ltb_lt 0 p)) by lia. gsteps.
  gcall err w2 He Hm2. gsteps. apply hwp_call. intros err2 w3 Hs. host_cbn.
  pose proof (@doc_maps _ _ held_by maps_of _ (XdpProgramAttach (PROG p) (if_nametoindex (listen_interface r)) m1) w2) as Hm.
  pose proof (Hob (XdpProgramAttach (PROG p) (if_nametoindex (listen_interface r)) m1) w2) as Ho. rewrite Hs in Hm, Ho.
  cbn [success map_effect fst snd] in Hm, Ho. zb. gsteps. destruct (Hm Ho) as (fds & cfd & config & xfd & xsks & H1 & H2 & H3 & H4 & H5 & H6).
  rewrite Hm2, Hm1 in *. eexists w3, p, m1, fds, cfd, config, xfd, xsks. do 6 (split; [done|]). exists w2, (if_nametoindex (listen_interface r)).
  split; [by rewrite Hs, Ho|congruence].
Qed.

Variable reserve : Z -> Z -> Z.

(** Construction and memory of the socket of a queue. *)
Lemma run_new_socket q w p m ss c o rn qt ct :
  ss !! q = Some None ->
  hwp (new_AFXDPSocket sys q 4096 DEFAULT_UMEM_FRAMES 0)
    (fun _ h => exists w' a, h = Host w' p m (<[q := Some (Sock fresh_rings (Some a) 16777216 0 None None 0 (-1) (-1) 0)]> ss) c o rn qt ct /\
       a mod PAGE_SIZE = 0 /\ maps_of w' = maps_of w)
    never (Host w p m ss c o rn qt ct).
Proof.
  intros Hq. unfold new_AFXDPSocket. change DEFAULT_UMEM_FRAMES with (TX_FRAMES + RX_FRAMES).
  change (new_socket 4096 (TX_FRAMES + RX_FRAMES)) with (Some (fresh_rings, 16777216)). hstep.
  unfold allocateAlignedBuffer. hstep. gcall a w1 Ha Hm1. gsteps. unfold set_slot_to at 1. gsteps. rewrite Hq.
  change (destroy_opt sys (default None (Some None))) with (mret tt : action W unit). gsteps. by exists w1, a.
Qed.
Lemma run_setupUMem q a w p m ss c o rn qt ct :
  (q < length ss)%nat -> a mod PAGE_SIZE = 0 ->
  hwp (setupUMem sys q)
    (fun _ h => exists w' s u, h = Host w' p m (<[q := Some s]> ss) c o rn qt ct /\
       so_rings s = fresh_rings /\ so_umem s = Some u /\ so_xsk s = None /\ maps_of w' = maps_of w)
    never (Host w p m (<[q := Some (Sock fresh_rings (Some a) 16777216 0 None None 0 (-1) (-1) 0)]> ss) c o rn qt ct).
Proof.
  intros Hq Ha. unfold setupUMem, checkOpen, isClosed. gsteps. eapply hwp_slot; [by apply list_lookup_insert_eq|]. gsteps. cbn [so_rings so_buffer]. gsteps.
  unfold set_slot_to at 1. gsteps. cbn [so_rings so_buffer so_umem_size with_umem_size] in *. gsteps.
  gcall u w2 Hu Hm2. gsteps. unfold set_slot_to at 1. gsteps. rewrite !list_insert_insert_eq. by eexists w2, _, u.
Qed.
Lemma run_bind_socket q queueId flags s u w p m ss c o rn qt ct :
  let M := maps_of w in
  (q < length ss)%nat -> bind_flags_of flags <> None ->
  so_rings s = fresh_rings -> so_umem s = Some u ->
  hwp (bind_socket sys reserve if_nametoindex q (listen_interface r) queueId flags)
    (fun _ h => exists w' s x fd, h = Host w' p m (<[q := Some s]> ss) c o rn qt ct /\
       bind_fill reserve fresh_rings = Some (so_rings s) /\ so_xsk s = Some x /\
       km_bound M !! x = None /\ 0 <= fd /\ km_fds M !! fd = None /\
       maps_of w' = Maps (<[fd := FdXsk x]> (km_fds M)) (km_progs M) (km_config M) (km_entries M)
                      (<[x := (listen_interface r, queueId)]> (km_bound M)))
    never (Host w p m (<[q := Some s]> ss) c o rn qt ct).
Proof.
  intros M Hq Hflags Hr Hu. unfold bind_socket, checkOpen, isClosed. gsteps. eapply hwp_slot; [by apply list_lookup_insert_eq|]. rewrite Hr, Hu. gsteps.
  unfold set_slot_to at 1. gsteps. destruct (bind_flags_of flags) as [bf|]; [|done].
  gcall x w1 Hx Hm. gsteps. unfold set_slot_to at 1. gsteps.
  change (so_rings (with_xsk (with_ifindex s _) x)) with (so_rings s). rewrite Hr.
  destruct (bind_fill_fresh reserve) as (rings & Hf & _). rewrite Hf. unfold set_slot_to at 1. gsteps. rewrite !list_insert_insert_eq.
  destruct (Hm Hx) as (H1 & fd & H2 & H3 & H4). by eexists w1, _, x, fd.
Qed.
Lemma run_registerXskMap q queueId s x fd w p m ss c o rn qt ct fds xsks_fd xsks :
  let M := maps_of w in
  (q < length ss)%nat -> 0 <= queueId < 4294967296 -> xk_closed (so_rings s) = false -> so_xsk s = Some x -> 0 <= fd -> km_fds M !! fd = Some (FdXsk x) ->
  km_progs M !! p = Some fds -> only_map fds xsks_map_name xsks_fd xsks -> 0 <= xsks_fd -> fds ⊆ km_fds M ->
  hwp (registerXskMap sys q queueId)
    (fun _ h => exists w' s', h = Host w' (PROG p) m (<[q := Some s']> ss) c o rn qt ct /\ so_rings s' = so_rings s /\ so_xsk s' = Some x /\
       maps_of w' = Maps (km_fds M) (km_progs M) (km_config M) (<[(xsks, queueId) := x]> (km_entries M)) (km_bound M))
    never (Host w (PROG p) m (<[q := Some s]> ss) c o rn qt ct).
Proof.
  intros M Hq Hid Hc Hx Hfd Hxfd Hp Ho Hpos Hsub. unfold registerXskMap, checkOpen, isClosed. gsteps. eapply hwp_slot; [by apply list_lookup_insert_eq|].
  gsteps. gcall mfd w1 Hmf Hm1. gsteps. destruct Hm1 as [Hm1 Hfind]. specialize (Hfind fds xsks_fd xsks Hp Ho Hpos). subst mfd.
  unfold set_slot_to at 1. gsteps. rewrite !list_insert_insert_eq, Hx. unfold xsk_fd. gcall sfd w2 Hsf Hm2. gsteps.
  destruct Hm2 as [Hm2 Hsfd]. rewrite Hm1 in Hsfd. specialize (Hsfd fd Hfd Hxfd).
  gcall ret w3 Hret Hm3. gsteps. destruct Ho as [(info & Hi) _].
  assert (km_fds M !! xsks_fd = Some (FdMap xsks_map_name xsks info)) as Hmfd by (by eapply lookup_weaken).
  specialize (Hm3 Hret xsks_map_name xsks info x). rewrite Hm2, Hm1, u32_small in Hm3 by done.
  eexists w3, (with_map_fd s xsks_fd). split; [done|]. split; [done|]. split; [done|]. by apply Hm3.
Qed.

(** One queue. *)
Lemma run_setup_queue flags q w p m ss c o rn qt ct fds xsks_fd xsks :
  let M := maps_of w in
  bind_flags_of flags <> None -> ss !! q = Some None -> (q < num_queues)%nat ->
  km_progs M !! p = Some fds -> only_map fds xsks_map_name xsks_fd xsks -> 0 <= xsks_fd -> fds ⊆ km_fds M ->
  hwp (setup_queue sys reserve if_nametoindex r flags q)
    (fun _ h => exists w' s x fd, h = Host w' (PROG p) m (<[q := Some s]> ss) c o rn qt ct /\
       so_xsk s = Some x /\ bind_fill reserve fresh_rings = Some (so_rings s) /\
       km_bound M !! x = None /\ km_fds M !! fd = None /\
       maps_of w' = Maps (<[fd := FdXsk x]> (km_fds M)) (km_progs M) (km_config M)
         (<[(xsks, Z.of_nat q) := x]> (km_entries M)) (<[x := (listen_interface r, Z.of_nat q)]> (km_bound M)))
    never (Host w (PROG p) m ss c o rn qt ct).
Proof.
  intros M Hflags Hq Hqn Hp Ho Hx Hsub. unfold setup_queue. assert (q < length ss)%nat as Hlen by (by eapply lookup_lt_Some).
  hwp_step. eapply hwp_mono; [by apply run_new_socket|intros [] h (w1 & a & -> & Ha & H1)|done].
  hwp_step. eapply hwp_mono; [by apply run_setupUMem|intros [] h (w2 & s2 & u & -> & Hr2 & Hu2 & _ & H2)|done].
  hwp_step. eapply hwp_mono; [by apply (run_bind_socket _ _ _ _ u)|intros [] h (w3 & s3 & x & fd & -> & Hf & Hx3 & H3 & H4 & H5 & H6)|done].
  rewrite H2, H1 in H3, H5, H6. fold M in H3, H5, H6. destruct (bind_fill_fresh reserve) as (rings & Hf' & Hc).
  eapply hwp_mono; [apply (run_registerXskMap _ _ _ x fd _ _ _ _ _ _ _ _ _ fds xsks_fd xsks); try done|intros [] h (w4 & s4 & -> & Hr4 & Hx4 & H7)|done].
  - unfold num_queues in Hqn. lia.
  - congruence.
  - rewrite H6. apply lookup_insert_eq.
  - by rewrite H6.
  - rewrite H6. cbn [km_fds]. etrans; [exact Hsub|by apply insert_subseteq].
  - exists w4, s4, x, fd. split; [done|]. split; [done|]. split; [by rewrite Hr4|]. split; [done|]. split; [done|]. by rewrite H7, H6.
Qed.

(** ** The sockets of the first [n] queues are in place *)

Record filter_set (m : maps) (p : Z) (fds : gmap Z fd_object) (config xsks : Z) (c0 : unicast_config) (n : nat) (ss : list (option sock)) : Prop := {
  fs_prog : km_progs m !! p = Some fds;
  fs_fds : fds ⊆ km_fds m;
  fs_config : km_config m !! config = Some c0;
  fs_out : forall k, ~ (0 <= k < Z.of_nat n) -> km_entries m !! (xsks, k) = None;
  fs_in : forall q, (q < n)%nat -> exists s x, ss !! q = Some (Some s) /\ so_xsk s = Some x /\
    bind_fill reserve fresh_rings = Some (so_rings s) /\ km_entries m !! (xsks, Z.of_nat q) = Some x /\
    km_bound m !! x = Some (listen_interface r, Z.of_nat q) }.

Lemma filter_set_fd m p fds config xsks c0 n ss fd o :
  filter_set m p fds config xsks c0 n ss -> km_fds m !! fd = None ->
  filter_set (Maps (<[fd := o]> (km_fds m)) (km_progs m) (km_config m) (km_entries m) (km_bound m)) p fds config xsks c0 n ss.
Proof. intros [H1 H2 H3 H4 H5] Hf. split; try done. cbn. etrans; [exact H2|by apply insert_subseteq]. Qed.

Lemma filter_set_next m p fds config xsks c0 n ss s x fd :
  filter_set m p fds config xsks c0 n ss -> (n < length ss)%nat -> so_xsk s = Some x ->
  bind_fill reserve fresh_rings = Some (so_rings s) -> km_bound m !! x = None -> km_fds m !! fd = None ->
  filter_set (Maps (<[fd := FdXsk x]> (km_fds m)) (km_progs m) (km_config m) (<[(xsks, Z.of_nat n) := x]> (km_entries m))
    (<[x := (listen_interface r, Z.of_nat n)]> (km_bound m))) p fds config xsks c0 (S n) (<[n := Some s]> ss).
Proof.
  intros [H1 H2 H3 H4 H5] Hn Hx Hf Hb Hfd. split; cbn [km_fds km_progs km_config km_entries km_bound]; try done.
  - etrans; [exact H2|by apply insert_subseteq].
  - intros k Hk. rewrite lookup_insert_ne; [apply H4; lia|]. intros [= <-]. lia.
  - intros q Hq. destruct (decide (q = n)) as [->|Hne].
    + exists s, x. split; [by apply list_lookup_insert_eq|]. split; [done|]. split; [done|]. by rewrite !lookup_insert_eq.
    + destruct (H5 q) as (s' & x' & E1 & E2 & E3 & E4 & E5); [lia|]. exists s', x'.
      split; [by rewrite list_lookup_insert_ne|]. split; [done|]. split; [done|].
      rewrite !lookup_insert_ne by (congruence || intros [= ?]; lia). done.
Qed.

Lemma run_setup_queues flags n j w p m ss c o rn qt ct fds config xsks_fd xsks c0 :
  bind_flags_of flags <> None -> only_map fds xsks_map_name xsks_fd xsks -> 0 <= xsks_fd -> (j + n <= num_queues)%nat ->
  (forall i, (j <= i < j + n)%nat -> ss !! i = Some None) -> filter_set (maps_of w) p fds config xsks c0 j ss ->
  hwp (for_each (setup_queue sys reserve if_nametoindex r flags) (seq j n))
    (fun _ h => exists w' ss', h = Host w' (PROG p) m ss' c o rn qt ct /\ filter_set (maps_of w') p fds config xsks c0 (j + n) ss')
    never (Host w (PROG p) m ss c o rn qt ct).
Proof.
  intros Hflags Ho Hx. revert j w ss. induction n as [|n IH]; intros j w ss Hj Hss Hfs; cbn [seq for_each].
  - hwp_step. exists w, ss. by rewrite Nat.add_0_r.
  - hwp_step. pose proof (Hss j ltac:(lia)) as Hjn. eapply hwp_mono; [apply (run_setup_queue _ _ _ _ _ _ _ _ _ _ _ fds xsks_fd xsks);
      [done|done|lia|apply Hfs|done|done|apply Hfs]|intros [] h (w1 & s & x & fd & -> & H1 & H2 & H3 & H4 & H5)|done].
    replace (j + S n)%nat with (S j + n)%nat by lia. apply IH; [lia| |].
    + intros i Hi. rewrite list_lookup_insert_ne by lia. apply Hss. lia.
    + rewrite H5. apply filter_set_next; try done. by eapply lookup_lt_Some.
Qed.

Lemma run_setup_control w p m ss c o rn qt ct fds config xsks c0 n :
  filter_set (maps_of w) p fds config xsks c0 n ss ->
  hwp (setup_control sys)
    (fun _ h => exists w' c', h = Host w' (PROG p) m ss c' o rn qt ct /\ filter_set (maps_of w') p fds config xsks c0 n ss)
    never (Host w (PROG p) m ss c o rn qt ct).
Proof.
  intros Hfs. unfold setup_control. gcall fd w1 H1 Hm1. gsteps. gcall a w2 H2 Hm2. gsteps. gcall b w3 H3 Hm3. gsteps.
  exists w3, fd. split; [done|]. destruct (Hm1 H1) as [Hf Hm]. rewrite Hm3, Hm2, Hm. by apply filter_set_fd.
Qed.
Lemma run_setup_output w p m ss c o rn qt ct fds config xsks c0 n :
  filter_set (maps_of w) p fds config xsks c0 n ss ->
  hwp (setup_output sys)
    (fun _ h => exists w' o', h = Host w' (PROG p) m ss c o' rn qt ct /\ filter_set (maps_of w') p fds config xsks c0 n ss)
    never (Host w (PROG p) m ss c o rn qt ct).
Proof.
  intros Hfs. unfold setup_output. gcall fd w1 H1 Hm1. gsteps.
  exists w1, fd. split; [done|]. destruct (Hm1 H1) as [Hf Hm]. rewrite Hm. by apply filter_set_fd.
Qed.

Variable inet_aton : cstr -> option Z.
Variable obj_info : W -> Z -> nat -> option (list ascii).
Variable map_info_size : nat.

(** What configureXdpProgram leaves in the map, given what the search finds. *)
Lemma run_configure w p m ss c o rn qt ct addr :
  inet_aton (listen_ip r) = Some addr ->
  let c1 := UnicastConfig (net32 addr) (net16 (listen_port r)) in
  hwp (configureXdpProgram sys inet_aton obj_info map_info_size r)
    (fun _ h => exists w', h = Host w' (PROG p) m ss c o rn qt ct /\
       match search_config_map obj_info map_info_size w with
       | None => w' = w
       | Some fd => forall name obj info, km_fds (maps_of w) !! fd = Some (FdMap name obj info) ->
           maps_of w' = Maps (km_fds (maps_of w)) (km_progs (maps_of w)) (<[obj := c1]> (km_config (maps_of w)))
             (km_entries (maps_of w)) (km_bound (maps_of w))
       end) never (Host w (PROG p) m ss c o rn qt ct).
Proof.
  intros Ha c1. unfold configureXdpProgram. gsteps. destruct (search_config_map obj_info map_info_size w) as [fd|]; [|hstep; by exists w].
  rewrite Ha. gcall a w1 H1 Hm1. gsteps. exists w1. split; [done|]. intros name obj info Hfd. by apply (Hm1 H1 name obj info).
Qed.

(** Descriptors of a new process, and what a kernel gives to a program it loads in one. *)
Definition fresh_fds (m : maps) : Prop := forall fd o, km_fds m !! fd = Some o -> fd < 3.
Definition after_load (P : maps -> Z -> Prop) : Prop := forall p i m w w',
  fresh_fds (maps_of w) -> sys (XdpProgramAttach (PROG p) i m) w = (0, w') -> P (maps_of w') p.
Definition own_map_visible (m : maps) (p : Z) : Prop :=
  exists c obj fds, km_progs m !! p = Some fds /\ only_map fds config_map_name c obj /\ config_visible (km_fds m) c obj.
Definition own_map_hidden (m : maps) (p : Z) : Prop := config_hidden (km_fds m).

(** The state after initialize: [found] says whether the search succeeded. *)
Lemma run_initialize (found : bool) zc w addr :
  copies_info maps_of obj_info -> (40 <= map_info_size)%nat -> inet_aton (listen_ip r) = Some addr ->
  fresh_fds (maps_of w) -> after_load (if found then own_map_visible else own_map_hidden) ->
  hwp (initialize sys reserve if_nametoindex inet_aton obj_info map_info_size r zc)
    (fun _ h => exists p fds config_fd config xsks_fd xsks, h_xdp_prog h = PROG p /\
       filter_maps fds config_fd config xsks_fd xsks /\
       filter_set (maps_of (h_kernel h)) p fds config xsks
         (if found then UnicastConfig (net32 addr) (net16 (listen_port r)) else UnicastConfig 0 0) num_queues (h_sockets h))
    never (fresh_host w).
Proof.
  intros Hinfo Hsize Ha Hfresh Hafter. unfold initialize, setResourceLimits, fresh_host. repeat hstep.
  gcall failed w1 H1 Hm1. gsteps. change (resize num_queues []) with (replicate 4 (@None sock)).
  eapply hwp_mono; [apply run_load|intros [] h (w2 & p & m & fds & cfd & config & xfd & xsks & -> & Hfm & Hx & Hd & Hent & Hm2 & wa & i & Hatt & Hwa)|done].
  assert (fresh_fds (maps_of wa)) as Hfa by (rewrite Hwa, Hm1; exact Hfresh). specialize (Hafter p i m wa w2 Hfa Hatt).
  hstep. eapply hwp_mono; [by apply run_configure|intros [] h (w3 & -> & Hm3)|done].
  assert (filter_set (maps_of w3) p fds config xsks (if found then UnicastConfig (net32 addr) (net16 (listen_port r)) else UnicastConfig 0 0)
            0 (replicate 4 None)) as Hfs.
  { destruct found.
    - destruct Hafter as (c & obj & fds' & Hp & Ho & Hv).
      rewrite (search_visible maps_of obj_info Hinfo w2 c obj map_info_size Hv Hsize) in Hm3.
      rewrite Hm2 in Hp. cbn [km_progs] in Hp. rewrite lookup_insert_eq in Hp. injection Hp as <-.
      destruct Hfm as [[(info0 & Hi0) Huniq] _]. destruct Ho as [(info1 & Hi1) _]. pose proof (Huniq c obj info1 Hi1) as ->.
      rewrite Hi0 in Hi1. injection Hi1 as <- <-.
      rewrite (Hm3 config_map_name config info0) by (rewrite Hm2; cbn [km_fds]; by apply lookup_union_Some_l).
      rewrite Hm2. split; cbn [km_fds km_progs km_config km_entries km_bound]; try by rewrite lookup_insert_eq.
      + by apply map_union_subseteq_l.
      + intros k _. apply Hent.
      + intros q Hq. lia.
    - rewrite (search_hidden maps_of obj_info Hinfo w2 map_info_size Hafter) in Hm3. subst w3.
      rewrite Hm2. split; cbn [km_fds km_progs km_config km_entries km_bound]; try by rewrite lookup_insert_eq.
      + by apply map_union_subseteq_l.
      + intros k _. apply Hent.
      + intros q Hq. lia. }
  hstep. eapply hwp_mono; [apply (run_setup_queues _ 4 0 _ _ _ _ _ _ _ _ _ fds config xfd xsks); [by destruct zc|apply Hfm|done|done| |exact Hfs]
    |intros [] h (w4 & ss & -> & Hfs4)|done].
  { intros j Hj. by apply lookup_replicate_2; lia. }
  hstep. eapply hwp_mono; [by apply run_setup_control|intros [] h (w5 & c & -> & Hfs5)|done].
  eapply hwp_mono; [by apply run_setup_output|intros [] h (w6 & o & -> & Hfs6)|done].
  by exists p, fds, cfd, config, xfd, xsks.
Qed.
End good_run.

(** ** Properties *)

Lemma config_determined c1 c2 pkt : udp_packet_to c1 pkt -> udp_packet_to c2 pkt -> c1 = c2.
Proof.
  intros (i1 & _ & _ & _ & _ & (b1 & Hb1 & <-) & Hip1 & Hp1) (i2 & _ & _ & _ & _ & (b2 & Hb2 & <-) & Hip2 & Hp2).
  rewrite Hb1 in Hb2. injection Hb2 as <-. destruct c1, c2. cbn in *. congruence.
Qed.

Section deployed.
Context {W : Type} (sys : sys_call -> W -> Z * W) (held_by : W -> resources) (maps_of : W -> maps).
Context `{!Documented sys held_by maps_of}.
Variable reserve : Z -> Z -> Z.
Variable if_nametoindex : cstr -> Z.
Variable inet_aton : cstr -> option Z.
Variable obj_info : W -> Z -> nat -> option (list ascii).
Variable map_info_size : nat.

(** The filter of the program as the kernel runs it: the configuration and the
    sockets are those of the program's maps. *)
Definition deployed_filter (h : host W) (redirect : Z -> xdp_action -> xdp_action) (action_of : Z -> list Z -> option xdp_action) : Prop :=
  exists p fds config_fd config xsks_fd xsks, h_xdp_prog h = PROG p /\
    km_progs (maps_of (h_kernel h)) !! p = Some fds /\ filter_maps fds config_fd config xsks_fd xsks /\
    action_of = unicast_filter (km_config (maps_of (h_kernel h)) !! config)
                  (fun q => km_entries (maps_of (h_kernel h)) !! (xsks, q)) redirect.
(** It is attached to the replicator's interface. *)
Definition filter_attached (r : replicator) (h : host W) : Prop :=
  exists p, h_xdp_prog h = PROG p /\ RAttached (if_nametoindex (listen_interface r)) p (h_attach_mode h) ∈ held_by (h_kernel h).
(** The socket of queue [q], bound to that queue of the interface. *)
Definition queue_served (r : replicator) (h : host W) (q : nat) : Prop :=
  exists s x, h_sockets h !! q = Some (Some s) /\ so_xsk s = Some x /\
    bind_fill reserve fresh_rings = Some (so_rings s) /\
    km_bound (maps_of (h_kernel h)) !! x = Some (listen_interface r, Z.of_nat q).

Lemma initialize_attached r zc w h :
  held_by w = ∅ ->
  initialize sys reserve if_nametoindex inet_aton obj_info map_info_size r zc (fresh_host w) = (inl tt, h) -> filter_attached r h.
Proof.
  intros Hw Hi.
  pose proof (hwp_initialize sys held_by maps_of if_nametoindex r reserve inet_aton obj_info map_info_size zc w Hw) as H.
  unfold hwp in H. rewrite Hi in H. destruct H as (w1 & p & m & l & ss & c & o & -> & _ & Hl & Hh).
  destruct p as [| |p]; [done..|]. unfold serving in Hl. subst l. exists p. split; [done|]. host_cbn. rewrite Hh. unfold attached. multiset_solver.
Qed.

(** C7: after initialize, in a new process in which no call fails and the
    program's configuration map is the first that the search finds, the attached
    filter hands to the replicator exactly the UDP packets to the listening
    address and port: on each of the four queues, to the AF_XDP socket bound to
    that queue, whose fill ring has the receive frames; every other packet, and
    every packet of another queue, goes to the network stack. *)
Theorem initialize_filters (r : replicator) (zc : bool) (addr : Z) (w : W) (redirect : Z -> xdp_action -> xdp_action)
    (Hob : obliging sys) (Hif : if_nametoindex (listen_interface r) <> 0) (Ha : inet_aton (listen_ip r) = Some addr)
    (Hinfo : copies_info maps_of obj_info) (Hsize : (40 <= map_info_size)%nat)
    (Hw : held_by w = ∅) (Hfresh : fresh_fds (maps_of w)) (Hvisible : after_load sys maps_of own_map_visible) :
  let listening := UnicastConfig (net32 addr) (net16 (listen_port r)) in
  exists h action_of,
    initialize sys reserve if_nametoindex inet_aton obj_info map_info_size r zc (fresh_host w) = (inl tt, h) /\
    filter_attached r h /\ deployed_filter h redirect action_of /\
    (forall q, (q < num_queues)%nat -> queue_served r h q) /\
    (forall q pkt, 0 <= q < 4 -> udp_packet_to listening pkt -> action_of q pkt = Some (redirect q XDP_DROP)) /\
    (forall q pkt, ~ (0 <= q < 4 /\ udp_packet_to listening pkt) -> action_of q pkt = Some XDP_PASS).
Proof.
  intros listening.
  pose proof (run_initialize sys held_by maps_of Hob if_nametoindex r Hif reserve inet_aton obj_info map_info_size
    true zc w addr Hinfo Hsize Ha Hfresh Hvisible) as H.
  unfold hwp in H. destruct (initialize _ _ _ _ _ _ r zc (fresh_host w)) as [[[]|e] h] eqn:Hi; [|done].
  destruct H as (p & fds & cfd & config & xfd & xsks & Hp & Hfm & Hfs). pose proof Hfs as [H1 H2 H3 H4 H5].
  eexists h, _. split; [done|]. split; [by eapply initialize_attached|]. split; [by eexists p, fds, cfd, config, xfd, xsks|].
  split; [|split].
  - intros q Hq. destruct (H5 q Hq) as (s & x & E1 & E2 & E3 & _ & E4). by exists s, x.
  - intros q pkt Hq Hpkt. apply (unicast_filter_redirects _ _ _ _ _ listening); [done|done|].
    destruct (H5 (Z.to_nat q)) as (s & x & _ & _ & _ & E & _); [unfold num_queues; lia|]. rewrite Z2Nat.id in E by lia. by rewrite E.
  - intros q pkt Hn. apply unicast_filter_passes. intros ((c & Hc & Hpkt) & Hx). rewrite H3 in Hc. injection Hc as <-. apply Hn.
    split; [|done]. destruct (decide (0 <= q < 4)); [done|]. destruct Hx. apply H4. unfold num_queues. lia.
Qed.

(** C26: when the first BPF descriptor of the process is one whose information is
    shorter than a map's (a BTF object: 32 bytes), the search shrinks its buffer
    length and never sees the name of the configuration map: initialize still
    succeeds, the program is attached, the sockets are in place, but every packet
    to the listening address goes to the network stack. *)
Theorem truncated_info_hides_config (r : replicator) (zc : bool) (addr : Z) (w : W) (redirect : Z -> xdp_action -> xdp_action)
    (Hob : obliging sys) (Hif : if_nametoindex (listen_interface r) <> 0) (Ha : inet_aton (listen_ip r) = Some addr)
    (Hinfo : copies_info maps_of obj_info) (Hsize : (40 <= map_info_size)%nat)
    (Hw : held_by w = ∅) (Hfresh : fresh_fds (maps_of w)) (Hhidden : after_load sys maps_of own_map_hidden) :
  let listening := UnicastConfig (net32 addr) (net16 (listen_port r)) in
  listening <> UnicastConfig 0 0 ->
  exists h action_of,
    initialize sys reserve if_nametoindex inet_aton obj_info map_info_size r zc (fresh_host w) = (inl tt, h) /\
    filter_attached r h /\ deployed_filter h redirect action_of /\
    (forall q, (q < num_queues)%nat -> queue_served r h q) /\
    (forall q pkt, udp_packet_to listening pkt -> action_of q pkt = Some XDP_PASS).
Proof.
  intros listening Hl.
  pose proof (run_initialize sys held_by maps_of Hob if_nametoindex r Hif reserve inet_aton obj_info map_info_size
    false zc w addr Hinfo Hsize Ha Hfresh Hhidden) as H.
  unfold hwp in H. destruct (initialize _ _ _ _ _ _ r zc (fresh_host w)) as [[[]|e] h] eqn:Hi; [|done].
  destruct H as (p & fds & cfd & config & xfd & xsks & Hp & Hfm & Hfs). pose proof Hfs as [H1 H2 H3 H4 H5].
  eexists h, _. split; [done|]. split; [by eapply initialize_attached|]. split; [by eexists p, fds, cfd, config, xfd, xsks|].
  split.
  - intros q Hq. destruct (H5 q Hq) as (s & x & E1 & E2 & E3 & _ & E4). by exists s, x.
  - intros q pkt Hpkt. apply unicast_filter_passes. intros ((c & Hc & Hpkt') & _). rewrite H3 in Hc. injection Hc as <-.
    by destruct Hl; eapply config_determined.
Qed.
End deployed.

(** ** Witnesses *)

Lemma demo_copies : copies_info dw_maps demo_obj_info.
Proof. done. Qed.
Lemma demo_fresh m : fresh_fds m -> next_key (km_fds m) = 3.
Proof.
  intros Hf. unfold next_key.
  assert (forall l, (forall x, x ∈ l -> x <= 2) -> foldr Z.max 2 l = 2) as Hx.
  { induction l as [|x l IH]; intros Hl; [done|]. cbn. rewrite IH by set_solver. pose proof (Hl x ltac:(set_solver)). lia. }
  rewrite Hx; [done|]. intros x Hi. apply list_elem_of_fmap in Hi as ((k & o) & -> & Hk). apply elem_of_map_to_list in Hk.
  specialize (Hf k o Hk). cbn. lia.
Qed.

Lemma demo_visible : after_load (demo_sys false) dw_maps own_map_visible.
Proof.
  intros p i m w w' Hf [= <-]. cbn [dw_maps demo_maps]. set (n := next_key (km_fds (dw_maps w))). pose proof (demo_fresh _ Hf) as Hn. fold n in Hn.
  set (config := next_key _). set (xsks := next_map _).
  assert (demo_fds false n config xsks !! n = Some (FdMap config_map_name config (demo_info config_map_name))) as Hc.
  { unfold demo_fds. apply lookup_insert_eq. }
  exists n, config, (demo_fds false n config xsks). cbn [km_progs km_fds]. split; [apply lookup_insert_eq|]. split.
  - split; [by eexists|]. intros fd' obj' info' H. unfold demo_fds in H. rewrite lookup_insert_Some, lookup_singleton_Some in H.
    destruct H as [[<- _]|(_ & _ & H)]; [done|]. injection H as H _ _. by vm_compute in H.
  - split; [lia|]. split; [|intros fd; lia]. exists (demo_info config_map_name). split; [by apply lookup_union_Some_l|].
    split; [split; [cbn; lia|]|vm_compute; reflexivity].
    change (take 16 (drop 24 (demo_info config_map_name))) with (config_map_name ++ replicate 6 NUL). set_solver.
Qed.
Lemma demo_hidden : after_load (demo_sys true) dw_maps own_map_hidden.
Proof.
  intros p i m w w' Hf [= <-]. cbn [dw_maps demo_maps]. set (n := next_key (km_fds (dw_maps w))). pose proof (demo_fresh _ Hf) as Hn. fold n in Hn.
  exists n, (FdBpf (replicate 32 NUL)), (replicate 32 NUL). split; [lia|]. split; [|split; [done|split; [cbn; lia|intros fd; lia]]].
  apply lookup_union_Some_l. unfold demo_fds. apply lookup_insert_eq.
Qed.

Lemma demo_ifindex_ok : demo_ifindex (listen_interface demo_replicator) <> 0.
Proof. vm_compute. discriminate. Qed.
Lemma demo_ip_ok : demo_ip (listen_ip demo_replicator) = Some 167772161.
Proof. vm_compute. reflexivity. Qed.
Lemma demo_start_fresh : fresh_fds (dw_maps demo_start).
Proof. intros fd o H. cbn in H. by rewrite lookup_empty in H. Qed.
Lemma demo_listened_packet : udp_packet_to (UnicastConfig (net32 167772161) (net16 (listen_port demo_replicator))) (demo_frame 9000).
Proof. exists 5. vm_compute. repeat split; try discriminate. by exists 69. Qed.

Lemma initialize_filters_witness :
  exists h action_of,
    initialize (demo_sys false) demo_reserve demo_ifindex demo_ip demo_obj_info 88 demo_replicator true (fresh_host demo_start) = (inl tt, h) /\
    action_of 3 (demo_frame 9000) = Some XDP_REDIRECT /\ action_of 4 (demo_frame 9000) = Some XDP_PASS.
Proof.
  destruct (initialize_filters (demo_sys false) dw_res dw_maps demo_reserve demo_ifindex demo_ip demo_obj_info 88
    demo_replicator true 167772161 demo_start (fun _ _ => XDP_REDIRECT) (demo_obliging false) demo_ifindex_ok demo_ip_ok
    demo_copies ltac:(lia) eq_refl demo_start_fresh demo_visible) as (h & action_of & H1 & _ & _ & _ & H2 & H3).
  exists h, action_of. split; [exact H1|]. split.
  - exact (H2 3 _ ltac:(lia) demo_listened_packet).
  - apply H3. intros [Hq _]. lia.
Defined.
Lemma truncated_info_hides_config_witness :
  exists h action_of,
    initialize (demo_sys true) demo_reserve demo_ifindex demo_ip demo_obj_info 88 demo_replicator true (fresh_host demo_start) = (inl tt, h) /\
    action_of 3 (demo_frame 9000) = Some XDP_PASS.
Proof.
  destruct (truncated_info_hides_config (demo_sys true) dw_res dw_maps demo_reserve demo_ifindex demo_ip demo_obj_info 88
    demo_replicator true 167772161 demo_start (fun _ _ => XDP_REDIRECT) (demo_obliging true) demo_ifindex_ok demo_ip_ok
    demo_copies ltac:(lia) eq_refl demo_start_fresh demo_hidden ltac:(by vm_compute)) as (h & action_of & H1 & _ & _ & _ & H2).
  exists h, action_of. split; [exact H1|]. exact (H2 3 _ demo_listened_packet).
Defined.
