(* ===== verification/MarketData.v ===== *)
(** The round-trip benchmark of the packet replicator
    (MarketDataProviderClient.cpp): trade messages that carry an identifier, the
    table of send times, and the statistics of the answers.

    Times are nanoseconds of high_resolution_clock.  The send loop and the
    receiver thread interleave under the mutex, so a run is a sequence of sends
    and received datagrams.  None is an access outside the histogram. *)

From S2P Require Import Prelude CText Double.

(** ** Messages *)

Definition message_template : cstr :=
  quoted "{'e':'trade','E':1234567890123,'s':'BTC-USDT','t':0000000000,'p':'45000','q':'1.5','b':1000000001,'a':1000000002,'T':1234567890000,'S':'1','X':'MARKET'}".
Definition trade_id_offset : nat := 38.

(** The loop over the digits, from the last one. *)
Fixpoint write_digits (k : nat) (buffer : list ascii) (trade_id : Z) : list ascii :=
  match k with
  | O => buffer
  | S i => write_digits i (<[(trade_id_offset + i)%nat := digit_chr (trade_id mod 10)]> buffer) (trade_id / 10)
  end.
(** The buffer and the length of the message. *)
Definition generateTradeMessage (trade_id : Z) (buffer : list ascii) : list ascii * nat :=
  let length := length message_template in
  let buffer := message_template ++ drop length buffer in
  (<[length := NUL]> (write_digits 10 buffer trade_id), length).

Fixpoint read_digits (k : nat) (id_pos : cstr) (trade_id : Z) : Z :=
  match k with
  | O => trade_id
  | S k =>
      match id_pos with
      | c :: id_pos => if isdigit c then read_digits k id_pos (u64 (trade_id * 10 + digit_val c)) else 0
      | [] => 0
      end
  end.
Definition extractTradeId (message : cstr) : Z :=
  if (length message <? trade_id_offset + 10)%nat then 0 else read_digits 10 (drop trade_id_offset message) 0.

(** ** The table of send times and the histogram *)

Record TradeTimingInfo := TradeTiming { send_time : Z; received : bool; rtt_us : Z }.
Record benchmark := Benchmark {
  timing_map : gmap Z TradeTimingInfo;
  next_trade_id : Z;             (* trade_id of the send loop *)
  total_sent : Z;
  total_received : Z;
  latency_histogram : list Z;    (* 10000 counts, by microsecond *)
  latency_over_10ms : Z }.
Definition initial_benchmark : benchmark := Benchmark ∅ 1 0 0 (replicate 10000 0) 0.

(** One turn of the send loop at time [now]; [sent] is sendto's success. *)
Definition send_trade (b : benchmark) (now : Z) (sent : bool) : benchmark :=
  Benchmark (<[next_trade_id b := TradeTiming now false 0]> (timing_map b)) (u64 (next_trade_id b + 1))
    (if sent then u64 (total_sent b + 1) else total_sent b) (total_received b) (latency_histogram b) (latency_over_10ms b).

Definition processReceivedMessage (b : benchmark) (trade_id recv_time : Z) : option benchmark :=
  match timing_map b !! trade_id with
  | Some (TradeTiming st false _) =>
      let rtt := Z.quot (recv_time - st) 1000 in
      let timing := <[trade_id := TradeTiming st true (u64 rtt)]> (timing_map b) in
      if rtt <? 10000 then
        count ← zget (latency_histogram b) rtt;
        Some (Benchmark timing (next_trade_id b) (total_sent b) (u64 (total_received b + 1))
                (zset (latency_histogram b) rtt (u64 (count + 1))) (latency_over_10ms b))
      else
        Some (Benchmark timing (next_trade_id b) (total_sent b) (u64 (total_received b + 1))
                (latency_histogram b) (u64 (latency_over_10ms b + 1)))
  | _ => Some b
  end.

(** A datagram of the receiver thread, read into 2048 bytes less one. *)
Definition receive_datagram (b : benchmark) (datagram : cstr) (recv_time : Z) : option benchmark :=
  let message := take 2047 datagram in
  match message with
  | [] => Some b
  | _ =>
      let trade_id := extractTradeId message in
      if 0 <? trade_id then processReceivedMessage b trade_id recv_time else Some b
  end.

Inductive event :=
  | Sent (now : Z) (ok : bool)
  | Received (datagram : cstr) (now : Z).
Definition event_time (e : event) : Z := match e with Sent now _ => now | Received _ now => now end.
Definition step (b : benchmark) (e : event) : option benchmark :=
  match e with
  | Sent now ok => Some (send_trade b now ok)
  | Received datagram now => receive_datagram b datagram now
  end.
Fixpoint run (b : benchmark) (events : list event) : option benchmark :=
  match events with
  | [] => Some b
  | e :: events => b ← step b e; run b events
  end.

(** ** Statistics *)

Record statistics := Stats {
  st_lost : Z; st_total_rtt : Z; st_min_rtt : Z; st_max_rtt : Z; st_percentiles : list Z }.

(** The loop over the map, in the map's order. *)
Fixpoint collect_rtts (infos : list TradeTimingInfo) (lost total min_rtt max_rtt : Z) (all_rtts : list Z) : Z * Z * Z * Z * list Z :=
  match infos with
  | [] => (lost, total, min_rtt, max_rtt, all_rtts)
  | info :: infos =>
      if received info then
        let rtt := rtt_us info in
        collect_rtts infos lost (u64 (total + rtt)) (Z.min min_rtt rtt) (Z.max max_rtt rtt) (all_rtts ++ [rtt])
      else collect_rtts infos (u64 (lost + 1)) total min_rtt max_rtt all_rtts
  end.

(** The lambda percentile(p) of the sorted times. *)
Definition percentile (all_rtts : list Z) (p : double) : Z :=
  let n := zlen all_rtts in
  let idx := Z.min (n - 1) (u64 (trunc (ddiv (dmul (of_Z n) p) (of_Z 100)))) in
  default 0 (zget all_rtts idx).
Definition percentile_list : list double := [of_Z 50; of_Z 90; of_Z 95; of_Z 99; ddiv (of_Z 999) (of_Z 10)].

Definition calculateStatistics (b : benchmark) (infos : list TradeTimingInfo) : statistics :=
  let '(lost, total_rtt, min_rtt, max_rtt, all_rtts) := collect_rtts infos 0 0 ULONG_MAX 0 [] in
  let sorted := merge_sort Z.le all_rtts in
  Stats lost total_rtt min_rtt max_rtt
    (if (0 <? total_received b) && (0 <? zlen all_rtts) then map (percentile sorted) percentile_list else []).

(** The buckets printed: not empty, by count, at most ten (std::sort leaves the
    order of equal counts open; here it is that of the latencies). *)
Definition bucket_before (a b : Z * Z) : Prop := snd b <= snd a.
#[export] Instance bucket_before_dec a b : Decision (bucket_before a b).
Proof. unfold bucket_before. apply _. Defined.
Definition histogram_buckets (b : benchmark) : list (Z * Z) :=
  List.filter (fun '(_, count) => 0 <? count) (imap (fun i count => (Z.of_nat i, count)) (latency_histogram b)).
Definition printHistogram (b : benchmark) : list (Z * Z) := take 10 (merge_sort bucket_before (histogram_buckets b)).

(** ** Messages: proofs *)

(** The last k decimal digits. *)
Fixpoint digits (k : nat) (n : Z) : cstr :=
  match k with O => [] | S k => digits k (n / 10) ++ [digit_chr (n mod 10)] end.

Lemma digits_length k n : length (digits k n) = k.
Proof. revert n. induction k as [|k IH]; intros n; simpl; [done|]. rewrite length_app, IH. simpl. lia. Qed.

Lemma write_digits_spec k buffer n : (trade_id_offset + k <= length buffer)%nat ->
  write_digits k buffer n = take trade_id_offset buffer ++ digits k n ++ drop (trade_id_offset + k) buffer.
Proof.
  revert buffer n. induction k as [|k IH]; intros buffer n Hl.
  - cbn [write_digits digits app]. by rewrite Nat.add_0_r, take_drop.
  - cbn [write_digits digits]. rewrite IH by (rewrite length_insert; lia).
    rewrite take_insert_ge by lia. f_equal. rewrite <- app_assoc. f_equal. cbn [app].
    apply list_eq. intros i. rewrite lookup_drop. destruct i as [|i].
    + rewrite Nat.add_0_r, list_lookup_insert_eq by lia. done.
    + rewrite list_lookup_insert_ne by lia. rewrite lookup_cons_ne_0 by lia. cbn [Nat.pred]. rewrite lookup_drop. f_equal. lia.
Qed.

Lemma read_digits_digits k n rest acc :
  0 <= n -> 0 <= acc -> (acc + 1) * 10 ^ Z.of_nat k <= 10 ^ 10 ->
  read_digits k (digits k n ++ rest) acc = acc * 10 ^ Z.of_nat k + n mod 10 ^ Z.of_nat k.
Proof.
  assert (forall k n rest acc, 0 <= n -> 0 <= acc -> (acc + 1) * 10 ^ Z.of_nat k <= 10 ^ 10 ->
    forall j, read_digits (k + j) (digits k n ++ rest) acc = read_digits j rest (acc * 10 ^ Z.of_nat k + n mod 10 ^ Z.of_nat k)) as H.
  { clear. intros k. induction k as [|k IH]; intros n rest acc Hn Ha Hb j.
    - simpl. rewrite Z.mod_1_r. f_equal. lia.
    - cbn [digits]. rewrite <- app_assoc. replace (S k + j)%nat with (k + S j)%nat by lia.
      rewrite Nat2Z.inj_succ, Z.pow_succ_r in * by lia. pose proof (Z.pow_pos_nonneg 10 (Z.of_nat k) ltac:(lia) ltac:(lia)).
      rewrite IH by (try apply Z.div_pos; nia). cbn [app read_digits].
      rewrite isdigit_digit_chr, digit_val_chr by zlia.
      pose proof (Z.mod_pos_bound (n / 10) (10 ^ Z.of_nat k) ltac:(lia)). pose proof (Z.mod_pos_bound n 10 ltac:(lia)).
      rewrite u64_small by nia. f_equal. rewrite Z.rem_mul_r by lia. lia. }
  intros Hn Ha Hb. rewrite <- (Nat.add_0_r k) at 1. rewrite H by done. done.
Qed.

Lemma template_length : length message_template = 152%nat.
Proof. vm_compute. reflexivity. Qed.

Lemma trade_message_spec (trade_id : Z) (buffer : list ascii) (Hid : 0 <= trade_id) (Hb : length buffer = 512%nat) :
  let '(buffer', len) := generateTradeMessage trade_id buffer in
  let message := take len buffer' in
  length buffer' = 512%nat /\ (len < 512)%nat /\ buffer' !! len = Some NUL /\
  extractTradeId message = trade_id mod 10 ^ 10 /\
  message = quoted "{'e':'trade','E':1234567890123,'s':'BT" ++ digits 10 trade_id ++ quoted "':0000000000,'p':'45000','q':'1.5','b':1000000001,'a':1000000002,'T':1234567890000,'S':'1','X':'MARKET'}".
Proof.
  unfold generateTradeMessage. rewrite template_length.
  set (b0 := message_template ++ drop 152 buffer).
  assert (length b0 = 512%nat) as Hl by (unfold b0; rewrite length_app, template_length, length_drop; lia).
  rewrite write_digits_spec by (rewrite Hl; unfold trade_id_offset; lia).
  set (b1 := take trade_id_offset b0 ++ digits 10 trade_id ++ drop (trade_id_offset + 10) b0).
  assert (length b1 = 512%nat) as Hl1.
  { unfold b1. rewrite !length_app, digits_length, length_take, length_drop, Hl. unfold trade_id_offset. lia. }
  assert (take 152 b1 = take 38 message_template ++ digits 10 trade_id ++ drop 48 message_template) as Hm.
  { unfold b1, b0, trade_id_offset. rewrite take_app_ge by (rewrite length_take, length_app, template_length; lia).
    rewrite length_take, length_app, template_length. rewrite Nat.min_l by lia.
    rewrite take_app_le by (rewrite template_length; lia). f_equal. }
  rewrite take_insert_ge by lia. rewrite Hm. split; [by rewrite length_insert|]. split; [lia|].
  split; [apply list_lookup_insert_eq; lia|]. split.
  - unfold extractTradeId. rewrite !length_app, digits_length, length_take, length_drop, template_length.
    unfold trade_id_offset. cbn [Nat.min Nat.add Nat.sub Nat.ltb Nat.leb].
    rewrite drop_app_ge by (rewrite length_take, template_length; lia). rewrite length_take, template_length.
    cbn [Nat.min Nat.sub]. rewrite drop_0, read_digits_digits by (simpl; lia). simpl. lia.
  - f_equal.
Qed.

(** For every identifier a generated message fits the 512-byte buffer and is
    read back as the identifier modulo 10^10.  But the ten digits are not where
    the template has its identifier: they replace the end of the symbol, its
    closing quote and the key of the identifier, which keeps its ten zeros. *)
Theorem trade_message_roundtrip (trade_id : Z) (buffer : list ascii) (Hid : 0 <= trade_id) (Hb : length buffer = 512%nat) :
  let '(buffer', len) := generateTradeMessage trade_id buffer in
  let message := take len buffer' in
  length buffer' = 512%nat /\ (len < 512)%nat /\ buffer' !! len = Some NUL /\
  extractTradeId message = trade_id mod 10 ^ 10 /\
  message = quoted "{'e':'trade','E':1234567890123,'s':'BT" ++ digits 10 trade_id ++ quoted "':0000000000,'p':'45000','q':'1.5','b':1000000001,'a':1000000002,'T':1234567890000,'S':'1','X':'MARKET'}".
Proof. by apply trade_message_spec. Qed.

(** ** Accounting: proofs *)

Definition infos_of (b : benchmark) : list TradeTimingInfo := (map_to_list (timing_map b)).*2.
Definition received_rtts (infos : list TradeTimingInfo) : list Z := map rtt_us (List.filter received infos).
Definition received_count (m : gmap Z TradeTimingInfo) : Z := zlen (List.filter received (map_to_list m).*2).
Definition sum (l : list Z) : Z := foldr Z.add 0 l.

Lemma filter_perm {A} (p : A -> bool) l k : l ≡ₚ k -> List.filter p l ≡ₚ List.filter p k.
Proof.
  induction 1 as [|x l k _ IH|x y l|l k m _ IH1 _ IH2]; simpl; [done|by case_match; rewrite IH| |by rewrite IH1].
  repeat case_match; try done. constructor.
Qed.

#[local] Instance filter_proper {A} (p : A -> bool) : Proper (Permutation ==> Permutation) (List.filter p).
Proof. intros l k. apply filter_perm. Qed.
#[local] Instance zlen_proper {A} : Proper (Permutation ==> eq) (@zlen A).
Proof. intros l k H. unfold zlen. by rewrite H. Qed.

Lemma received_count_insert m i x : m !! i = None ->
  received_count (<[i := x]> m) = (if received x then 1 else 0) + received_count m.
Proof.
  intros H. unfold received_count. rewrite (map_to_list_insert m i x H). rewrite fmap_cons. cbn [List.filter snd].
  case_match; unfold zlen; simpl; lia.
Qed.
Lemma received_count_update m i x y : m !! i = Some x -> received x = false -> received y = true ->
  received_count (<[i := y]> m) = 1 + received_count m.
Proof.
  intros H Hx Hy. rewrite <- (insert_delete_id m i x H) at 2. rewrite <- insert_delete_eq.
  rewrite !received_count_insert by apply lookup_delete_eq. by rewrite Hx, Hy.
Qed.
Lemma received_count_nonneg m : 0 <= received_count m <= Z.of_nat (size m).
Proof.
  unfold received_count. split; [apply zlen_nonneg|]. rewrite <- (length_map_to_list m). unfold zlen.
  pose proof (List.filter_length_le received (map_to_list m).*2) as H. rewrite length_fmap in H. lia.
Qed.

Lemma sum_zset l i c : zget l i = Some c -> sum (zset l i (c + 1)) = sum l + 1.
Proof.
  unfold zget, zset. case_match; [done|]. generalize (Z.to_nat i) as n. clear.
  induction l as [|x l IH]; intros [|n]; simpl; try done; [intros [= ->]; lia|]. intros H%IH. unfold sum in *. simpl. lia.
Qed.
Lemma sum_ge l i c : Forall (fun x => 0 <= x) l -> zget l i = Some c -> c <= sum l.
Proof.
  unfold zget. case_match; [done|]. generalize (Z.to_nat i) as n. clear. unfold sum. intros n Hl. revert n.
  induction Hl as [|x l Hx Hl IH]; intros [|n]; simpl; try done.
  - intros [= ->]. assert (0 <= foldr Z.add 0 l) by (clear -Hl; induction Hl; simpl; lia). lia.
  - intros H%IH. lia.
Qed.

(** The state after [sends] sends up to time [now]. *)
Record bench_inv (sends ok now : Z) (b : benchmark) : Prop := {
  inv_next : next_trade_id b = 1 + sends;
  inv_size : Z.of_nat (size (timing_map b)) = sends;
  inv_ids : forall id info, timing_map b !! id = Some info -> 1 <= id <= sends /\ send_time info <= now /\ 0 <= rtt_us info <= ULONG_MAX;
  inv_sent : total_sent b = ok /\ 0 <= ok <= sends;
  inv_hist : zlen (latency_histogram b) = 10000 /\ Forall (fun x => 0 <= x) (latency_histogram b) /\ 0 <= latency_over_10ms b;
  inv_received : total_received b = received_count (timing_map b) /\
    sum (latency_histogram b) + latency_over_10ms b = received_count (timing_map b) }.

Lemma initial_inv : bench_inv 0 0 0 initial_benchmark.
Proof.
  split; try done. split; [vm_compute; reflexivity|]. split; [|done]. cbn [latency_histogram initial_benchmark].
  by apply Forall_replicate.
Qed.

Definition sends_of (e : event) : Z := match e with Sent _ _ => 1 | Received _ _ => 0 end.
Definition ok_of (e : event) : Z := match e with Sent _ true => 1 | _ => 0 end.

Lemma send_inv sends ok now b t (sent : bool) : bench_inv sends ok now b -> now <= t -> sends < 2 ^ 63 ->
  bench_inv (sends + 1) (ok + (if sent then 1 else 0)) t (send_trade b t sent).
Proof.
  intros [H1 H2 H3 [H4 H4'] H5 [H6 H7]] Ht Hs.
  assert (timing_map b !! next_trade_id b = None) as Hnew.
  { destruct (timing_map b !! next_trade_id b) as [i|] eqn:E; [|done]. apply H3 in E as [E _]. lia. }
  unfold send_trade. split; cbn [next_trade_id timing_map total_sent total_received latency_histogram latency_over_10ms].
  - rewrite u64_small; lia.
  - rewrite map_size_insert_None by done. lia.
  - intros id info. destruct (decide (id = next_trade_id b)) as [->|Hne].
    + rewrite lookup_insert_eq. intros [= <-]. cbn. unfold ULONG_MAX. lia.
    + rewrite lookup_insert_ne by done. intros (E1 & E2 & E3)%H3. lia.
  - destruct sent; [rewrite u64_small|]; lia.
  - done.
  - rewrite received_count_insert by done. cbn [received]. lia.
Qed.

Lemma Forall_zset (P : Z -> Prop) l i x : Forall P l -> P x -> Forall P (zset l i x).
Proof. intros Hl Hx. unfold zset. case_match; [done|]. by apply Forall_insert. Qed.

Lemma process_inv sends ok now b id t : bench_inv sends ok now b -> now <= t -> sends < 2 ^ 63 ->
  exists b', processReceivedMessage b id t = Some b' /\ bench_inv sends ok t b'.
Proof.
  intros [H1 H2 H3 H4 (H5 & H5' & H5'') [H6 H7]] Ht Hs. unfold processReceivedMessage.
  assert (forall id info, timing_map b !! id = Some info -> 1 <= id <= sends /\ send_time info <= t /\ 0 <= rtt_us info <= ULONG_MAX) as H3'.
  { intros id' info (E1 & E2 & E3)%H3. lia. }
  destruct (timing_map b !! id) as [[st [] rt]|] eqn:E; [by exists b| |by exists b].
  pose proof (H3 _ _ E) as (E1 & E2 & _). cbn in E2. set (rtt := Z.quot (t - st) 1000).
  assert (0 <= rtt) as Hr by (unfold rtt; apply Z.quot_pos; lia).
  pose proof (received_count_nonneg (timing_map b)) as Hc.
  assert (forall id' info, <[id := TradeTiming st true (u64 rtt)]> (timing_map b) !! id' = Some info ->
    1 <= id' <= sends /\ send_time info <= t /\ 0 <= rtt_us info <= ULONG_MAX) as Hmap.
  { intros id' info. destruct (decide (id' = id)) as [->|Hne].
    - rewrite lookup_insert_eq. intros [= <-]. cbn. pose proof (u64_range rtt). unfold ULONG_MAX. lia.
    - rewrite lookup_insert_ne by done. apply H3'. }
  assert (size (<[id := TradeTiming st true (u64 rtt)]> (timing_map b)) = size (timing_map b)) as Hsz by (by eapply map_size_insert_Some).
  pose proof (received_count_update (timing_map b) id _ (TradeTiming st true (u64 rtt)) E eq_refl eq_refl) as Hup.
  destruct (Z.ltb_spec rtt 10000) as [Hlt|Hge].
  - destruct (zget_lt (latency_histogram b) rtt) as [c Hz]; [lia|]. rewrite Hz. cbn [mbind option_bind].
    assert (0 <= c) as Hc0.
    { unfold zget in Hz. case_match; [done|]. eapply Forall_lookup_1 in Hz; [|exact H5']. done. }
    pose proof (sum_ge _ _ _ H5' Hz). rewrite (u64_small (c + 1)), (u64_small (total_received b + 1)) by lia.
    eexists. split; [reflexivity|]. split; cbn [next_trade_id timing_map total_sent total_received latency_histogram latency_over_10ms]; try done.
    + by rewrite Hsz.
    + rewrite zlen_zset. split; [done|]. split; [apply Forall_zset; [done|lia]|done].
    + rewrite (sum_zset _ _ _ Hz), Hup. lia.
  - assert (0 <= sum (latency_histogram b)) as Hs0.
    { clear -H5'. induction H5'; unfold sum in *; simpl; lia. }
    rewrite (u64_small (latency_over_10ms b + 1)), (u64_small (total_received b + 1)) by lia.
    eexists. split; [reflexivity|]. split; cbn [next_trade_id timing_map total_sent total_received latency_histogram latency_over_10ms]; try done.
    + by rewrite Hsz.
    + split; [done|]. split; [done|lia].
    + rewrite Hup. lia.
Qed.

Lemma step_inv sends ok now b e : bench_inv sends ok now b -> now <= event_time e -> sends < 2 ^ 63 ->
  exists b', step b e = Some b' /\ bench_inv (sends + sends_of e) (ok + ok_of e) (event_time e) b'.
Proof.
  intros Hi Ht Hs. destruct e as [t sent|datagram t]; cbn [step sends_of ok_of event_time] in *.
  - eexists. split; [reflexivity|]. pose proof (send_inv _ _ _ _ t sent Hi Ht Hs). by destruct sent.
  - rewrite !Z.add_0_r. unfold receive_datagram. assert (bench_inv sends ok t b) as Hsame.
    { destruct Hi as [? ? H3 ? ? ?]. split; try done. intros id info (E1 & E2 & E3)%H3. lia. }
    destruct (take 2047 datagram); [by exists b|]. case_match; [|by exists b]. by eapply process_inv.
Qed.

Lemma collect_rtts_spec infos lost total mn mx acc :
  0 <= lost -> lost + zlen infos < 2 ^ 64 -> 0 <= total < 2 ^ 64 ->
  let '(lost', total', mn', mx', all) := collect_rtts infos lost total mn mx acc in
  let rtts := received_rtts infos in
  lost' = lost + (zlen infos - zlen rtts) /\ total' = u64 (total + sum rtts) /\ all = acc ++ rtts /\
  (mn' = mn \/ mn' ∈ rtts) /\ mn' <= mn /\ (mx' = mx \/ mx' ∈ rtts) /\ mx <= mx' /\
  Forall (fun r => mn' <= r <= mx') rtts.
Proof.
  revert lost total mn mx acc. induction infos as [|info infos IH]; intros lost total mn mx acc Hl Hn Ht; cbn [collect_rtts].
  { unfold received_rtts, zlen. simpl. rewrite app_nil_r, Z.add_0_r, u64_small by lia. split_and!; auto; lia. }
  assert (zlen (info :: infos) = 1 + zlen infos) as Hlen by (unfold zlen; simpl; lia). rewrite Hlen in *.
  pose proof (zlen_nonneg infos). unfold received_rtts. cbn [List.filter]. destruct (received info).
  - pose proof (u64_range (total + rtt_us info)).
    specialize (IH lost (u64 (total + rtt_us info)) (Z.min mn (rtt_us info)) (Z.max mx (rtt_us info)) (acc ++ [rtt_us info]) Hl ltac:(lia) ltac:(lia)).
    destruct (collect_rtts infos _ _ _ _ _) as [[[[lost' total'] mn'] mx'] all]. fold (received_rtts infos) in *. cbn zeta in *.
    destruct IH as (-> & -> & -> & I1 & I2 & I3 & I4 & I5). cbn [map]. fold (received_rtts infos).
    assert (zlen (rtt_us info :: received_rtts infos) = 1 + zlen (received_rtts infos)) as -> by (unfold zlen; simpl; lia).
    split_and!; [lia| |by rewrite <- app_assoc|..]; try lia.
    + unfold sum, u64. cbn [foldr]. rewrite Zplus_mod_idemp_l. f_equal. lia.
    + destruct I1 as [->|I1]; [|set_solver]. destruct (Z.min_spec mn (rtt_us info)) as [[_ ->]|[_ ->]]; set_solver.
    + destruct I3 as [->|I3]; [|set_solver]. destruct (Z.max_spec mx (rtt_us info)) as [[_ ->]|[_ ->]]; set_solver.
    + constructor; [lia|done].
  - rewrite u64_small by lia. specialize (IH (lost + 1) total mn mx acc ltac:(lia) ltac:(lia) Ht).
    destruct (collect_rtts infos _ _ _ _ _) as [[[[lost' total'] mn'] mx'] all]. fold (received_rtts infos) in *. cbn zeta in *.
    destruct IH as (-> & -> & -> & I). split_and!; [lia|done|done|..]; apply I.
Qed.

Lemma percentile_elem l p : l <> [] -> percentile l p ∈ l.
Proof.
  intros Hl. unfold percentile. set (i := Z.min _ _). assert (0 < zlen l) by (destruct l; [done|unfold zlen; simpl; lia]).
  pose proof (u64_range (trunc (ddiv (dmul (of_Z (zlen l)) p) (of_Z 100)))).
  destruct (zget_lt l i) as [x Hx]; [unfold i; lia|]. rewrite Hx. cbn. unfold zget in Hx. case_match; [done|].
  by eapply list_elem_of_lookup_2.
Qed.

(** The counters and the statistics tell what happened. *)
Lemma run_inv events sends ok now b : bench_inv sends ok now b -> sends + zlen events < 2 ^ 63 ->
  Sorted Z.le (now :: map event_time events) ->
  exists b' t, run b events = Some b' /\ bench_inv (sends + sum (map sends_of events)) (ok + sum (map ok_of events)) t b'.
Proof.
  revert sends ok now b. induction events as [|e events IH]; intros sends ok now b Hi Hn Hs; cbn [run].
  - exists b, now. split; [done|]. unfold sum. simpl. by rewrite !Z.add_0_r.
  - assert (zlen (e :: events) = 1 + zlen events) as Hl by (unfold zlen; simpl; lia). pose proof (zlen_nonneg events).
    assert (0 <= sends_of e <= 1) by (by destruct e).
    inversion_clear Hs as [|? ? Hs' Hhd]. inversion_clear Hhd as [|? ? Hle].
    destruct (step_inv sends ok now b e Hi Hle ltac:(lia)) as (b1 & E1 & Hi1). rewrite E1. cbn [mbind option_bind].
    destruct (IH _ _ _ _ Hi1 ltac:(lia) Hs') as (b2 & t & E2 & Hi2). exists b2, t. split; [done|].
    cbn [map]. unfold sum in *. cbn [foldr]. by rewrite !Z.add_assoc.
Qed.

(** C24: for every interleaving of sends and received datagrams with a clock that
    does not go back, no access leaves the histogram, every identifier is counted
    at most once however often it comes back, and the counters agree: messages
    received are those marked in the table and those in the histogram and its
    overflow; sent counts the successful sends.  The loss reported is the number
    of messages not seen again, which includes those whose send failed.  Minimum,
    maximum and every percentile are measured times and bound the others. *)
Theorem benchmark_accounting (events : list event) (Hn : zlen events < 2 ^ 63)
    (Ht : Sorted Z.le (0 :: map event_time events)) :
  exists b, run initial_benchmark events = Some b /\
    total_sent b = sum (map ok_of events) /\
    total_received b = zlen (received_rtts (infos_of b)) /\
    sum (latency_histogram b) + latency_over_10ms b = total_received b /\
    forall infos, infos ≡ₚ infos_of b ->
      let s := calculateStatistics b infos in
      st_lost s = sum (map sends_of events) - total_received b /\
      st_total_rtt s = u64 (sum (received_rtts infos)) /\
      (0 < total_received b -> st_min_rtt s ∈ received_rtts infos /\ st_max_rtt s ∈ received_rtts infos /\ length (st_percentiles s) = 5%nat) /\
      Forall (fun r => st_min_rtt s <= r <= st_max_rtt s) (received_rtts infos) /\
      Forall (fun r => r ∈ received_rtts infos) (st_percentiles s).
Proof.
  destruct (run_inv events 0 0 0 initial_benchmark initial_inv ltac:(lia) Ht) as (b & t & E & [I1 I2 I3 [I4 _] _ [I5 I6]]).
  exists b. split; [exact E|]. rewrite !Z.add_0_l in *. pose proof (received_count_nonneg (timing_map b)) as Hc.
  assert (forall infos, infos ≡ₚ infos_of b -> zlen (received_rtts infos) = total_received b) as Hr.
  { intros infos Hp. unfold received_rtts. rewrite I5. unfold received_count. rewrite <- Hp. unfold zlen. by rewrite length_map. }
  split; [exact I4|]. split; [by rewrite Hr|]. split; [by rewrite I5|]. intros infos Hp s.
  assert (zlen infos = sum (map sends_of events)) as Hz.
  { rewrite Hp. unfold infos_of, zlen. by rewrite length_fmap, length_map_to_list. }
  specialize (Hr infos Hp). unfold s, calculateStatistics.
  assert (sum (map sends_of events) <= zlen events) as Hle.
  { unfold sum, zlen. clear. induction events as [|[] events IH]; cbn [map foldr length sends_of]; lia. }
  pose proof (collect_rtts_spec infos 0 0 ULONG_MAX 0 [] ltac:(lia) ltac:(lia) ltac:(lia)) as Hcol.
  destruct (collect_rtts infos 0 0 ULONG_MAX 0 []) as [[[[lost total] mn] mx] all]. cbn zeta in Hcol.
  destruct Hcol as (-> & -> & -> & C1 & C2 & C3 & C4 & C5). cbn [st_lost st_total_rtt st_min_rtt st_max_rtt st_percentiles app].
  assert (Forall (fun r => 0 <= r <= ULONG_MAX) (received_rtts infos)) as Hrange.
  { apply Forall_forall. intros r (info & -> & Hin)%list_elem_of_fmap. apply list_elem_of_In, List.filter_In in Hin as [Hin _].
    assert (info ∈ infos) as Hin' by (by apply list_elem_of_In). rewrite Hp in Hin'. apply list_elem_of_fmap in Hin' as ([id i] & -> & Hin').
    apply elem_of_map_to_list in Hin'. by apply I3 in Hin' as (_ & _ & Hin'). }
  split; [lia|]. split; [f_equal; lia|]. split.
  - intros Hpos. assert (received_rtts infos <> []) as Hne by (intros Hnil; rewrite Hnil in Hr; unfold zlen in Hr; simpl in Hr; lia).
    destruct (received_rtts infos) as [|r rs] eqn:Er; [done|]. rewrite Hr, !(proj2 (Z.ltb_lt _ _)) by lia. cbn [andb].
    apply Forall_cons in C5 as [C5 _]. apply Forall_cons in Hrange as [Hrange _]. split; [|split; [|done]].
    + destruct C1 as [->|C1]; [|done]. assert (r = ULONG_MAX) as -> by lia. left.
    + destruct C3 as [->|C3]; [|done]. assert (r = 0) as -> by lia. left.
  - split; [exact C5|]. case_match eqn:Hb; [|constructor]. apply andb_true_iff in Hb as [_ Hb%Z.ltb_lt].
    assert (received_rtts infos <> []) as Hne by (intros Hnil; rewrite Hnil in Hb; unfold zlen in Hb; simpl in Hb; lia).
    apply Forall_forall. intros r (p & -> & _)%list_elem_of_fmap. rewrite <- (merge_sort_Permutation Z.le (received_rtts infos)) at 2.
    apply percentile_elem. intros Hnil. apply Hne. apply Permutation_nil. rewrite <- Hnil. apply merge_sort_Permutation.
Qed.

(** Two messages, the second of which is not sent; the first comes back twice. *)
Definition demo_message (id : Z) : cstr := let '(buffer, len) := generateTradeMessage id (replicate 512 NUL) in take len buffer.
Definition demo_events : list event :=
  [Sent 1000 true; Sent 5000 false; Received (demo_message 1) 90000; Received (demo_message 1) 95000].

Lemma trade_message_roundtrip_witness :
  let '(buffer', len) := generateTradeMessage 1234567890 (replicate 512 NUL) in
  extractTradeId (take len buffer') = 1234567890.
Proof.
  pose proof (trade_message_roundtrip 1234567890 (replicate 512 NUL) ltac:(lia) ltac:(reflexivity)) as H.
  destruct (generateTradeMessage 1234567890 (replicate 512 NUL)) as [buffer' len].
  exact (proj1 (proj2 (proj2 (proj2 H)))).
Defined.

Lemma benchmark_accounting_witness :
  exists b, run initial_benchmark demo_events = Some b /\ total_sent b = 1 /\
    sum (latency_histogram b) + latency_over_10ms b = total_received b.
Proof.
  assert (Sorted Z.le (0 :: map event_time demo_events)) as Hs by (repeat constructor; simpl; lia).
  destruct (benchmark_accounting demo_events ltac:(vm_compute; reflexivity) Hs) as (b & H1 & H2 & _ & H3 & _).
  exists b. split; [exact H1|]. split; [exact H2|exact H3].
Defined.
Example demo_events_run : option_map (fun b => (total_received b, zget (latency_histogram b) 89)) (run initial_benchmark demo_events) = Some (1, Some 1).
Proof. vm_compute. reflexivity. Qed.
