(* ===== verification/EndToEnd.v ===== *)
(** The market-data benchmark through the packet replicator: the subscription
    (ControlClient.cpp, PacketReplicator.cpp), the XDP filter (unicast_filter.c),
    one pass of a queue's thread (PacketReplicator.cpp, AFXDPSocket.cpp), and the
    answer at the benchmark (MarketDataProviderClient.cpp), composed. *)

From S2P Require Import Prelude CText Wire XdpFilter Frame Xsk Control Replicator MarketData.

(** Characters as bytes of a datagram, and back. *)
Definition bytes_of (s : cstr) : list Z := map code s.
Definition chars_of (bs : list Z) : cstr := map (fun b => ascii_of_N (Z.to_N b)) bs.
Lemma chars_of_bytes s : chars_of (bytes_of s) = s.
Proof.
  unfold chars_of, bytes_of. rewrite map_map. induction s as [|c s IH]; [done|]. cbn [map]. rewrite IH. f_equal.
  unfold code. by rewrite N2Z.id, ascii_N_embedding.
Qed.
Lemma bytes_of_length s : length (bytes_of s) = length s.
Proof. apply length_map. Qed.

(** The message of a trade, as sendto is given it. *)
Definition trade_message (trade_id : Z) (buffer : list ascii) : cstr :=
  let '(buffer, len) := generateTradeMessage trade_id buffer in take len buffer.

Lemma trade_message_read id buffer : 0 <= id < 10 ^ 10 -> length buffer = 512%nat ->
  length (trade_message id buffer) = 152%nat /\ extractTradeId (trade_message id buffer) = id.
Proof.
  intros Hid Hb. pose proof (trade_message_spec id buffer ltac:(lia) Hb) as H.
  unfold trade_message. destruct (generateTradeMessage id buffer) as [b len] eqn:E. destruct H as (H1 & H2 & _ & H4 & _).
  assert (len = 152%nat) as -> by (change len with (snd (b, len)); rewrite <- E; exact template_length).
  rewrite H4, Z.mod_small by lia. split; [|done]. rewrite length_take, H1. done.
Qed.

Lemma run_app b l k : run b (l ++ k) = (b' ← run b l; run b' k).
Proof. revert b. induction l as [|e l IH]; intros b; [done|]. cbn [app run]. destruct (step b e); [apply IH|done]. Qed.

Lemma sorted_before (x : Z) l k : Sorted Z.le (x :: l ++ k) -> Sorted Z.le (x :: l).
Proof.
  intros Hs. apply Sorted_StronglySorted in Hs; [|intros ? ? ?; lia].
  rewrite app_comm_cons in Hs. by eapply StronglySorted_Sorted, StronglySorted_app_1_l.
Qed.

(** The identifier sent last comes back: it is counted and its time recorded; a
    second copy changes nothing. *)
Lemma answer_counted events b t0 t1 t2 message :
  run initial_benchmark events = Some b -> Sorted Z.le (0 :: map event_time events ++ [t0; t1]) -> zlen events < 2 ^ 62 ->
  (length message < 2047)%nat -> message <> [] -> extractTradeId message = next_trade_id b ->
  exists b', run b [Sent t0 true; Received message t1; Received message t2] = Some b' /\
    total_received b' = total_received b + 1 /\ total_sent b' = total_sent b + 1 /\
    timing_map b' !! next_trade_id b = Some (TradeTiming t0 true (u64 (Z.quot (t1 - t0) 1000))).
Proof.
  intros Hrun Hs Hn Hl Hne Hid. pose proof (zlen_nonneg events) as Hz.
  assert (Sorted Z.le (0 :: map event_time (events ++ [Sent t0 true; Received message t1]))) as Hs' by (by rewrite map_app).
  assert (Sorted Z.le (0 :: map event_time events)) as Hs0 by (by apply sorted_before in Hs).
  destruct (run_inv events 0 0 0 initial_benchmark initial_inv ltac:(lia) Hs0) as (b0 & t & E0 & [I1 I2 I3 [I4 I4'] I5 [I6 I7]]).
  rewrite Hrun in E0. injection E0 as <-. pose proof (received_count_nonneg (timing_map b)) as Hc.
  assert (sum (map sends_of events) <= zlen events) as Hle.
  { unfold sum, zlen. clear. induction events as [|[] events IH]; cbn [map foldr length sends_of]; lia. }
  destruct (run_inv (events ++ [Sent t0 true; Received message t1]) 0 0 0 initial_benchmark initial_inv) as (b' & _ & E & _);
    [rewrite zlen_app; change (zlen [_; _]) with 2; lia|done|].
  rewrite run_app, Hrun in E. cbn [mbind option_bind] in E. clear Hrun Hs Hs' Hs0.
  assert (forall b0 t, receive_datagram b0 message t = processReceivedMessage b0 (next_trade_id b) t) as Hr.
  { intros b0 t'. unfold receive_datagram. rewrite take_ge by lia. destruct message as [|c message]; [done|].
    rewrite Hid. by rewrite (proj2 (Z.ltb_lt _ _)) by lia. }
  cbn [run step mbind option_bind] in *. rewrite Hr in *. set (b1 := send_trade b t0 true) in *.
  destruct (processReceivedMessage b1 (next_trade_id b) t1) as [b2|] eqn:E2; [|done]. cbn [mbind option_bind] in *. injection E as ->.
  rewrite Hr.
  assert (timing_map b' !! next_trade_id b = Some (TradeTiming t0 true (u64 (Z.quot (t1 - t0) 1000))) /\
    total_received b' = total_received b + 1 /\ total_sent b' = total_sent b + 1) as (F1 & F2 & F3).
  { revert E2. unfold processReceivedMessage, b1, send_trade.
    cbn [timing_map total_sent total_received latency_histogram latency_over_10ms]. rewrite lookup_insert_eq, (u64_small (total_received b + 1)), (u64_small (total_sent b + 1)) by lia.
    destruct (_ <? 10000); [destruct (zget _ _) as [c|]; [|done]; cbn [mbind option_bind]|]; intros [= <-]; cbn; by rewrite lookup_insert_eq. }
  exists b'. split; [|done]. unfold processReceivedMessage. by rewrite F1.
Qed.

Lemma next_id_nonneg events b l : run initial_benchmark events = Some b -> Sorted Z.le (0 :: map event_time events ++ l) ->
  zlen events < 2 ^ 62 -> 0 <= next_trade_id b.
Proof.
  intros Hrun Hs Hn. apply sorted_before in Hs.
  destruct (run_inv events 0 0 0 initial_benchmark initial_inv ltac:(lia) Hs) as (b0 & t & E & [I1 I2 _ _ _ _]).
  rewrite Hrun in E. injection E as <-. lia.
Qed.

(** The new destination is in the set, once, and nothing else is new. *)
Lemma set_insert_length d l : (length (set_insert d l) <= S (length l))%nat.
Proof.
  induction l as [|e l IH]; simpl; [done|]. destruct (dest_lt d e); [done|]. destruct (dest_lt e d); simpl; lia.
Qed.

Section Feed.
Variable inet_aton : cstr -> option Z.
Variable reserve : Z -> Z -> Z.
Variable peek : Z -> Z -> Z.
Variable extract_addr : Z -> Z.
Context (Ha : aton_ok inet_aton) (Hx : libxdp_ok reserve peek extract_addr).
Variable env : net_env.
Context (He : env_wf env).
Variable num_queues : Z.

(** What the subscription does to the destinations. *)
Lemma subscribed dests ip a port : dests_ok dests -> inet_aton ip = Some a -> 0 <= a < 4294967296 -> 0 <= port < 65536 ->
  exists m dests' i d, destination_message inet_aton CTRL_ADD_DESTINATION ip port = Some m /\
    handle_datagram inet_aton dests m = Some (dests', Some [1]) /\ dests_ok dests' /\ (length dests' <= S (length dests))%nat /\
    dests' !! i = Some d /\ dest_key d = (a, port) /\
    (forall j d', dests' !! j = Some d' -> dest_key d' = (a, port) -> j = i).
Proof.
  intros Hd Hi Hr Hp.
  destruct (client_message inet_aton CTRL_ADD_DESTINATION ip port a ltac:(done) Hi Hr Hp) as (m & Hm & Hw & Hl & Hb & Hk).
  destruct (handle_datagram_spec inet_aton dests m Ha Hd Hw) as (dests' & r & E & Hd' & Hsp).
  destruct (datagram_spec_add _ _ _ _ Hsp Hb ltac:(lia)) as [HS ->]. rewrite Hk in HS.
  assert ((a, port) ∈ dest_set dests') as Hin by (rewrite HS; set_solver).
  apply elem_of_dest_set in Hin as (d & Hkd & Hin). apply list_elem_of_lookup_1 in Hin as [i Hi'].
  exists m, dests', i, d. split; [done|]. split; [done|]. split; [done|]. split.
  { revert E. unfold handle_datagram, processControlMessage. destruct (take_short m) as (-> & -> & ->). rewrite Hl. cbn [Z.ltb Z.leb Z.compare Pos.compare Pos.compare_cont].
    rewrite !byte_at_take, Hb by lia. cbn -[formatIpAddress port_at addDestination take].
    unfold addDestination. destruct (new_Destination inet_aton _ _) as [d'|]; cbn [mbind option_bind]; intros [= <-].
    apply set_insert_length. }
  split; [done|]. split; [done|]. intros j d' Hj Hkj.
  pose proof (dests_ok_NoDup inet_aton dests' Ha Hd') as Hnd. apply (NoDup_lookup _ j i (a, port) Hnd); rewrite list_lookup_fmap;
    [by rewrite Hj; cbn; rewrite Hkj|by rewrite Hi'; cbn; rewrite <- Hkd].
Qed.

(** The payload of a received packet, where it is in the packet memory. *)
Lemma payload_in_memory m addr (len : Z) off n : 0 <= off -> 0 <= n -> off + n <= len ->
  take (Z.to_nat n) (drop (Z.to_nat off) (mem_read m addr (Z.to_nat len))) = mem_read m (addr + off) (Z.to_nat n).
Proof.
  intros H1 H2 H3. replace (Z.to_nat len) with (Z.to_nat off + (Z.to_nat n + Z.to_nat (len - off - n)))%nat by lia.
  rewrite mem_read_app, drop_app_length' by (by rewrite mem_read_length). rewrite Z2Nat.id, mem_read_app by done.
  apply take_app_length'. by rewrite mem_read_length.
Qed.

Lemma pass_ready_le s n k : n <= k -> pass_ready s k -> pass_ready s n.
Proof. intros H [H1 H2 H3 H4 H5 H6 H7]. split; try done. lia. Qed.

Variable sendto : Destination -> list Z -> Z.

(** A pass with one packet: one frame with its payload per destination. *)
Lemma one_packet_pass t s q dests addr len off n :
  0 <= q < num_queues -> qt_sock t = Some s -> next_packets peek s = [(addr, len)] ->
  extractUdpPayload (mem_read (qt_mem t) addr (Z.to_nat len)) = Some (Some (off, n)) ->
  pass_ready s (zlen dests) ->
  exists t' s', queue_pass inet_aton reserve peek extract_addr env num_queues sendto t (fun _ => dests) q = Some t' /\
    qt_sock t' = Some s' /\
    ring_queued (xk_tx s') = ring_queued (xk_tx s) ++ imap (fun i _ => (tx_addr s i, 42 + n)) dests /\
    (forall i d, dests !! i = Some d ->
       let frame := mem_read (qt_mem t') (tx_addr s i) (Z.to_nat (42 + n)) in
       frame = udp_frame inet_aton env d (mem_read (qt_mem t) (addr + off) (Z.to_nat n)) /\
       extractUdpPayload frame = Some (Some (42, n)) /\ udp_packet_to (config_for d) frame).
Proof.
  intros Hq Hs Hp Hf Hr.
  assert (all_jobs (qt_mem t) (fun _ => dests) 0 (next_packets peek s) = jobs_for dests (addr + off) n) as Hj.
  { rewrite Hp. cbn [all_jobs]. unfold packet_jobs. cbn [fst snd]. by rewrite Hf, app_nil_r. }
  assert (pass_ready s (zlen (all_jobs (qt_mem t) (fun _ => dests) 0 (next_packets peek s)))) as Hr'.
  { rewrite Hj. unfold jobs_for, zlen. by rewrite length_map. }
  destruct (queue_pass_spec inet_aton reserve peek extract_addr env num_queues sendto Hx He t s (fun _ => dests) q Hq Hs Hr')
    as (t' & s' & H1 & H2 & H3 & H4 & _). rewrite Hj in H3, H4. exists t', s'. split; [done|]. split; [done|]. split.
  - rewrite H3. f_equal. unfold job_descs, jobs_for. rewrite imap_fmap. by apply imap_ext.
  - intros i d Hi. apply H4. unfold jobs_for. by rewrite list_lookup_fmap, Hi.
Qed.

(** C5: The market-data benchmark through the replicator.  A benchmark that
    subscribes with its address and port is then, whatever was registered before,
    exactly one of the replicator's destinations.  When its next trade message
    arrives as a UDP packet to the listening address, the XDP filter hands the
    packet to the queue's socket, and one pass of the queue's thread sends one frame
    per destination; the benchmark's is a valid frame to its address and port with
    the message unchanged.  When that message is received the benchmark finds the
    trade, counts it once and records the time since it was sent; a second copy
    changes nothing. *)
Theorem trade_through_replicator (dests : list Destination) (server ip : cstr) (sa a port : Z)
    (events : list event) (b : benchmark) (buffer : list ascii) (t0 t1 t2 : Z)
    (listening : unicast_config) (xsks_map : Z -> option Z) (redirect : Z -> xdp_action -> xdp_action)
    (t : qthread) (s : xsk) (q addr len off : Z)
    (Hd : dests_ok dests) (Hsrv : inet_aton server = Some sa) (Hip : inet_aton ip = Some a)
    (Har : 0 <= a < 4294967296) (Hport : 0 <= port < 65536)
    (Hrun : run initial_benchmark events = Some b) (Ht : Sorted Z.le (0 :: map event_time events ++ [t0; t1]))
    (Hn : zlen events < 2 ^ 62) (Hid : next_trade_id b < 10 ^ 10) (Hbuf : length buffer = 512%nat)
    (Hq : 0 <= q < num_queues) (Hxsk : xsks_map q <> None) (Hs : qt_sock t = Some s)
    (Hp : next_packets peek s = [(addr, len)]) (Hready : pass_ready s (zlen dests + 1)) :
  let message := trade_message (next_trade_id b) buffer in
  let packet := mem_read (qt_mem t) addr (Z.to_nat len) in
  udp_packet_to listening packet -> extractUdpPayload packet = Some (Some (off, zlen message)) ->
  take (length message) (drop (Z.to_nat off) packet) = bytes_of message ->
  exists m dests' i d t' s' b',
    destination_message inet_aton CTRL_ADD_DESTINATION ip port = Some m /\
    handle_datagram inet_aton dests m = Some (dests', Some [1]) /\
    client_addDestination inet_aton server true (Some [1]) ip port = true /\
    dests' !! i = Some d /\ dest_key d = (a, port) /\
    (forall j d', dests' !! j = Some d' -> dest_key d' = (a, port) -> j = i) /\
    unicast_filter (Some listening) xsks_map redirect q packet = Some (redirect q XDP_DROP) /\
    queue_pass inet_aton reserve peek extract_addr env num_queues sendto t (fun _ => dests') q = Some t' /\
    qt_sock t' = Some s' /\
    ring_queued (xk_tx s') = ring_queued (xk_tx s) ++ imap (fun i _ => (tx_addr s i, 42 + zlen message)) dests' /\
    let frame := mem_read (qt_mem t') (tx_addr s i) (Z.to_nat (42 + zlen message)) in
    udp_packet_to (config_for d) frame /\ extractUdpPayload frame = Some (Some (42, zlen message)) /\
    let answer := chars_of (drop 42 frame) in
    run b [Sent t0 true; Received answer t1; Received answer t2] = Some b' /\
    total_received b' = total_received b + 1 /\ total_sent b' = total_sent b + 1 /\
    timing_map b' !! next_trade_id b = Some (TradeTiming t0 true (u64 (Z.quot (t1 - t0) 1000))).
Proof.
  intros message packet Hlisten Hpay Hmsg.
  destruct (subscribed dests ip a port Hd Hip Har Hport) as (m & dests' & i & d & M1 & M2 & _ & M4 & M5 & M6 & M7).
  pose proof (zlen_nonneg events) as Hz.
  assert (0 <= next_trade_id b) as Hid0 by (eapply next_id_nonneg; [exact Hrun|exact Ht|lia]).
  destruct (trade_message_read (next_trade_id b) buffer ltac:(lia) Hbuf) as [Hl Hx'].
  fold message in Hl, Hx'.
  assert (zlen message = 152) as Hzl by (unfold zlen; by rewrite Hl).
  assert (pass_ready s (zlen dests')) as Hr by (eapply pass_ready_le; [|exact Hready]; unfold zlen; lia).
  destruct (one_packet_pass t s q dests' addr len off (zlen message) Hq Hs Hp Hpay Hr) as (t' & s' & Q1 & Q2 & Q3 & Q4).
  destruct (Q4 i d M5) as (F1 & F2 & F3). clear Q4.
  pose proof (extract_bounds packet) as (r & Hr' & Hb). rewrite Hpay in Hr'. injection Hr' as <-.
  unfold packet in Hb. unfold zlen in Hb at 3. rewrite mem_read_length in Hb.
  assert (chars_of (drop 42 (mem_read (qt_mem t') (tx_addr s i) (Z.to_nat (42 + zlen message)))) = message) as Hans.
  { rewrite F1, udp_frame_app. rewrite drop_app_length' by (by rewrite frame_headers_length).
    rewrite <- (payload_in_memory (qt_mem t) addr len off (zlen message)) by lia.
    replace (Z.to_nat (zlen message)) with (length message) by (unfold zlen; lia).
    fold packet. rewrite Hmsg. apply chars_of_bytes. }
  destruct (answer_counted events b t0 t1 t2 message Hrun Ht Hn ltac:(lia)) as (b' & B1 & B2 & B3 & B4);
    [by intros ->|done|].
  exists m, dests', i, d, t', s', b'. split; [done|]. split; [done|]. split.
  { unfold client_addDestination, sendMessage. rewrite M1, Hsrv. cbn [negb].
    revert M1. unfold destination_message. rewrite Hip. cbn [mbind option_bind]. by intros [= <-]. }
  split; [done|]. split; [done|]. split; [done|]. split; [by eapply unicast_filter_redirects|].
  split; [done|]. split; [done|]. split; [done|]. cbv zeta. rewrite Hans. done.
Qed.
End Feed.

(** A first trade, received in one packet; nobody else is registered. *)
Definition feed_message : cstr := trade_message 1 (replicate 512 NUL).
Definition feed_listener : Destination := Dest (lit "10.0.0.1") 9000 167772161.
Definition feed_packet : list Z := udp_frame dotted_aton demo_net feed_listener (bytes_of feed_message).
Definition feed_socket : xsk :=
  Xsk false 4096 0 0 0 [] (ProdRing 4096 0 0 0 (fun _ => 0)) (ProdRing 2048 0 0 0 (fun _ => (0, 0))) [(8388864, 194)] 0.
Definition feed_thread : qthread :=
  QThread (Some feed_socket) (mem_write (fun _ => 0) 8388864 feed_packet) (Counters 0 0 0 0 0 0) [].

Lemma feed_ready : pass_ready feed_socket 1.
Proof.
  split; [done|done| |done|done| |].
  - split; [done|unfold zlen, ring_free; simpl; lia].
  - apply Forall_singleton. unfold packet_ok, TX_FRAMES, RX_FRAMES, TX_FRAME_BYTES. lia.
  - unfold ring_free. simpl. lia.
Qed.
Lemma feed_received : mem_read (qt_mem feed_thread) 8388864 (Z.to_nat 194) = feed_packet.
Proof.
  assert (Z.to_nat 194 = length feed_packet) as -> by (vm_compute; reflexivity). apply mem_read_write_same.
Qed.
Lemma feed_extracted : extractUdpPayload feed_packet = Some (Some (42, zlen feed_message)).
Proof. vm_compute. reflexivity. Qed.
Lemma feed_payload : take (length feed_message) (drop (Z.to_nat 42) feed_packet) = bytes_of feed_message.
Proof. vm_compute. reflexivity. Qed.
Lemma feed_packets : next_packets Z.min feed_socket = [(8388864, 194)].
Proof. vm_compute. reflexivity. Qed.

Definition feed_dests : list Destination := [Dest (lit "10.0.0.5") 9001 167772165].
Lemma feed_subscription m dests' reply :
  destination_message dotted_aton CTRL_ADD_DESTINATION (lit "10.0.0.5") 9001 = Some m ->
  handle_datagram dotted_aton [] m = Some (dests', reply) -> dests' = feed_dests.
Proof.
  assert (destination_message dotted_aton CTRL_ADD_DESTINATION (lit "10.0.0.5") 9001 = Some [1; 10; 0; 0; 5; 35; 41]) as -> by (vm_compute; reflexivity).
  intros [= <-]. assert (handle_datagram dotted_aton [] [1; 10; 0; 0; 5; 35; 41] = Some (feed_dests, Some [1])) as -> by (vm_compute; reflexivity).
  by intros [= <- <-].
Qed.

Lemma trade_through_replicator_witness :
  exists t' answer b', queue_pass dotted_aton reserve_all Z.min extract_low demo_net 4 (fun _ _ => 0) feed_thread (fun _ => feed_dests) 1 = Some t' /\
    run initial_benchmark [Sent 1000 true; Received answer 61000; Received answer 90000] = Some b' /\
    total_received b' = 1 /\ timing_map b' !! 1 = Some (TradeTiming 1000 true 60).
Proof.
  assert (Sorted Z.le (0 :: map event_time [] ++ [1000; 61000])) as Hs by (repeat constructor; simpl; lia).
  pose proof (trade_through_replicator dotted_aton reserve_all Z.min extract_low demo_aton_ok libxdp_ok_demo demo_net demo_net_wf 4
    (fun _ _ => 0) [] (lit "10.0.0.1") (lit "10.0.0.5") 167772161 167772165 9001 [] initial_benchmark (replicate 512 NUL)
    1000 61000 90000 (config_for feed_listener) (fun q => Some q) (fun q _ => XDP_REDIRECT) feed_thread feed_socket 1 8388864 194 42
    dests_ok_nil ltac:(vm_compute; reflexivity) ltac:(vm_compute; reflexivity) ltac:(lia) ltac:(lia) eq_refl Hs
    ltac:(vm_compute; reflexivity) ltac:(vm_compute; reflexivity) eq_refl ltac:(lia) ltac:(discriminate) eq_refl feed_packets feed_ready) as H.
  cbv zeta in H. rewrite feed_received in H.
  specialize (H (udp_frame_accepted dotted_aton demo_net feed_listener (bytes_of feed_message) demo_net_wf) feed_extracted feed_payload).
  destruct H as (m & dests' & i & d & t' & s' & b' & M & E & _ & _ & _ & _ & _ & Hp & _ & _ & _ & _ & Hrun & Hr & _ & Hm).
  rewrite (feed_subscription m dests' _ M E) in Hp.
  exists t'. eexists. exists b'. split; [exact Hp|]. split; [exact Hrun|]. split; [exact Hr|exact Hm].
Defined.
