(* ===== verification/Bench.v ===== *)
(** The benchmark program from start to exit (RoundTripBenchmark and main of
    MarketDataProviderClient.cpp): its sockets and its receiver thread, the
    subscription through a shell command, and the exit code.  What is sent and
    received in between is MarketData.v. *)

From S2P Require Import Prelude CText Heap Process Arp Control MarketData.

(** std::stoull: an exception without digits or beyond 64 bits; a minus sign is
    accepted and wraps. *)
Definition stoull (s : cstr) : option Z :=
  let '(neg, s2) := take_sign (skip_spaces s) in
  if starts_with_digit s2 then
    let '(v, _) := digits_acc 0 s2 in
    if ULONG_MAX <? v then None else Some (if (neg : bool) then u64 (- v) else v)
  else None.
(** The exit code of a process that ends with an uncaught exception (SIGABRT). *)
Definition ABORTED : Z := 134.

Record bench_config := BenchConfig { multiplexer_ip : cstr; multiplexer_port : Z; local_ip : cstr; local_port : Z }.
Record bench_sockets := BenchSockets { send_socket : option nat; recv_socket : option nat }.

Section bench.
  Context (an : sys_answers).
  Variable inet_aton : cstr -> option Z.
  (** system(): the status of a command. *)
  Variable shell : cstr -> Z.

Definition subscribe_command (c : bench_config) : cstr :=
  lit "./control_client " ++ multiplexer_ip c ++ lit " add " ++ local_ip c ++ lit " " ++ fmt_u (local_port c).
Definition addSelfAsSubscriber (c : bench_config) : bool := shell (subscribe_command c) =? 0.

(** Whether it succeeded, and the sockets the object has then. *)
Definition bench_initialize (c : bench_config) : prog (bool * bench_sockets) :=
  send ← socket an;
  match send with
  | None => mret (false, BenchSockets None None)
  | Some send_sock =>
      match inet_aton (multiplexer_ip c) with
      | None => mret (false, BenchSockets (Some send_sock) None)
      | Some _ =>
          recv ← socket an;
          match recv with
          | None => mret (false, BenchSockets (Some send_sock) None)
          | Some recv_sock =>
              let socks := BenchSockets (Some send_sock) (Some recv_sock) in
              match inet_aton (local_ip c) with
              | None => mret (false, socks)
              | Some _ =>
                  bound ← call an;
                  if negb bound then mret (false, socks) else mret (addSelfAsSubscriber c, socks)
              end
          end
      end
  end.
(** The destructor. *)
Definition bench_destroy (socks : bench_sockets) : prog unit :=
  release_opt (send_socket socks);;
  release_opt (recv_socket socks).

(** runBenchmark: the receiver thread runs while [events] happen; joining it does
    not fail.  None is the
    exception of a thread that cannot be created; the inner None an access outside
    the histogram. *)
Definition runBenchmark (socks : bench_sockets) (events : list event) : prog (option (option benchmark)) :=
  thread ← pthread_create an (option_list (recv_socket socks));
  match thread with
  | None => mret None
  | Some t =>
      let b := run initial_benchmark events in
      reap t;;
      mret (Some b)
  end.

(** main: the exit code and the benchmark whose statistics are printed. *)
Definition bench_main (args : list cstr) (events : list event) : prog (Z * option (option benchmark)) :=
  match args with
  | [_; ip; port; local; local_port; total; rate] =>
      match stoi port, stoi local_port, stoull total, stoull rate with
      | Some port, Some local_port, Some total_messages, Some messages_per_sec =>
          if (total_messages =? 0) || (messages_per_sec =? 0) then mret (1, None)
          else
            '(ok, socks) ← bench_initialize (BenchConfig ip (u16 port) local (u16 local_port));
            if negb ok then bench_destroy socks;; mret (1, None)
            else
              report ← runBenchmark socks events;
              bench_destroy socks;;
              mret (match report with Some _ => 0 | None => 1 end, report)
      | _, _, _, _ => exit ABORTED
      end
  | _ => mret (1, None)
  end.
End bench.

(** ** The subscription *)

Lemma words_go_word w rest cur : Forall (fun c => isspace c = false) w -> words_go cur (w ++ rest) = words_go (cur ++ w) rest.
Proof.
  intros Hw. revert cur. induction Hw as [|c w Hc _ IH]; intros cur; [by rewrite app_nil_r|]. cbn [app words_go].
  rewrite Hc, IH. by rewrite <- app_assoc.
Qed.
Lemma words_word w rest : w <> [] -> Forall (fun c => isspace c = false) w -> words_go [] (w ++ " "%char :: rest) = w :: words_go [] rest.
Proof.
  intros Hne Hw. rewrite words_go_word by done. cbn [app words_go]. change (isspace " ") with true. by destruct w.
Qed.
Lemma words_last w : w <> [] -> Forall (fun c => isspace c = false) w -> words_go [] w = [w].
Proof. intros Hne Hw. rewrite <- (app_nil_r w) at 1. rewrite words_go_word by done. by destruct w. Qed.

(** A word that the shell's splitting at blanks leaves whole. *)
Definition plain_word (w : cstr) : Prop := w <> [] /\ Forall (fun c => isspace c = false) w.
Lemma digit_no_space c : isdigit c = true -> isspace c = false.
Proof.
  unfold isdigit, isspace. rewrite andb_true_iff, !Z.leb_le. intros [H1 H2].
  apply orb_false_iff. split; [apply Z.eqb_neq; lia|]. apply andb_false_iff. right. apply Z.leb_gt. lia.
Qed.
Lemma fmt_u_plain n : 0 <= n -> plain_word (fmt_u n).
Proof.
  intros Hn. split; [apply fmt_u_nonempty|]. eapply Forall_impl; [by apply fmt_u_digits|]. apply digit_no_space.
Qed.
Lemma stoi_fmt_u n : 0 <= n < 2147483648 -> stoi (fmt_u n) = Some n.
Proof.
  intros Hn. unfold stoi. rewrite strtol_fmt_u_end by (unfold LONG_MAX; lia).
  rewrite decide_False by (intros H; by apply (fmt_u_nonempty n)).
  by rewrite !(proj2 (Z.leb_le _ _)) by lia.
Qed.

(** The command, split into words, is for the control client the addition of the
    benchmark's own address and port. *)
Lemma subscribe_command_understood (c : bench_config) :
  plain_word (multiplexer_ip c) -> plain_word (local_ip c) -> 0 <= local_port c < 65536 ->
  exists arguments, words (subscribe_command c) = lit "./control_client" :: arguments /\
    control_main arguments = CmdAdd (local_ip c) (local_port c).
Proof.
  intros [Hm Hm'] [Hl Hl'] Hp. exists [multiplexer_ip c; lit "add"; local_ip c; fmt_u (local_port c)]. split.
  - unfold words, subscribe_command.
    change (lit "./control_client ") with (lit "./control_client" ++ [" "%char]). rewrite <- app_assoc. cbn [app].
    assert (plain_word (lit "./control_client")) as [H1 H2] by (split; [done|vm_compute; repeat constructor]).
    rewrite words_word by done. f_equal.
    change (lit " add ") with (" "%char :: lit "add" ++ [" "%char]). cbn [app]. rewrite words_word by done. f_equal.
    rewrite <- app_assoc. cbn [app].
    assert (plain_word (lit "add")) as [H3 H4] by (split; [done|vm_compute; repeat constructor]).
    rewrite words_word by done. f_equal.
    change (lit " ") with [" "%char]. cbn [app]. rewrite words_word by done. f_equal.
    destruct (fmt_u_plain (local_port c)) as [H5 H6]; [lia|]. by apply words_last.
  - cbn [control_main]. rewrite decide_True by done. rewrite stoi_fmt_u by lia. by rewrite u16_small.
Qed.

(** ** From start to exit *)

Section running.
  Context (an : sys_answers) (inet_aton : cstr -> option Z) (shell : cstr -> Z) (E : Z -> proc -> Prop).

Definition socks_list (socks : bench_sockets) : list nat := option_list (send_socket socks) ++ option_list (recv_socket socks).
(** Everything the set-up needs. *)
Definition bench_fine (c : bench_config) : Prop :=
  all_good an /\ inet_aton (multiplexer_ip c) <> None /\ inet_aton (local_ip c) <> None /\ shell (subscribe_command c) = 0.

Lemma wp_bench_initialize c base Q p :
  owns base [] [] p ->
  (forall ok socks p', owns (socks_list socks ++ base) [] [] p' ->
     (ok = true -> is_Some (recv_socket socks)) -> (bench_fine c -> ok = true) -> Q (ok, socks) p') ->
  wp (bench_initialize an inet_aton shell c) Q E p.
Proof.
  intros Ho HQ. unfold bench_initialize. do 2 run_step.
  2:{ run_step. apply HQ; [done|done|]. by intros (? & _). }
  destruct (inet_aton (multiplexer_ip c)) as [ma|] eqn:Em.
  2:{ run_step. apply HQ; [done|done|]. intros (_ & ? & _). by rewrite Em in *. }
  do 2 run_step.
  2:{ run_step. apply HQ; [done|done|]. by intros (? & _). }
  destruct (inet_aton (local_ip c)) as [la|] eqn:El.
  2:{ run_step. apply HQ; [|done|]; [eapply owns_perm; [|eassumption]; unfold socks_list; simpl; solve_Permutation|]. intros (_ & _ & ? & _). by rewrite El in *. }
  do 2 run_step; run_step.
  - apply HQ; [eapply owns_perm; [|eassumption]; unfold socks_list; simpl; solve_Permutation|by eexists|]. intros (_ & _ & _ & Hs). unfold addSelfAsSubscriber. by rewrite Hs.
  - apply HQ; [eapply owns_perm; [|eassumption]; unfold socks_list; simpl; solve_Permutation|done|]. by intros (? & _).
Qed.

Lemma wp_bench_destroy socks base Q p :
  owns (socks_list socks ++ base) [] [] p -> (forall p', owns base [] [] p' -> Q tt p') -> wp (bench_destroy socks) Q E p.
Proof.
  intros Ho HQ. unfold bench_destroy. run_step. unfold socks_list in Ho. rewrite <- app_assoc in Ho.
  eapply wp_release_opt; [exact Ho|set_solver|]. intros p1 H1. eapply wp_release_opt; [exact H1|set_solver|exact HQ].
Qed.

Lemma wp_runBenchmark socks events base Q p :
  owns (socks_list socks ++ base) [] [] p -> is_Some (recv_socket socks) ->
  (forall p', owns (socks_list socks ++ base) [] [] p' -> Q (Some (run initial_benchmark events)) p') ->
  (~ all_good an -> forall p', owns (socks_list socks ++ base) [] [] p' -> Q None p') ->
  wp (runBenchmark an socks events) Q E p.
Proof.
  intros Ho [r Hr] H1 H2. unfold runBenchmark. rewrite Hr. do 2 run_step; [|run_step; auto].
  run_step. eapply (wp_reap _ _ [r] [] []); [eassumption|set_solver|]. intros p2 Ho2. run_step. by apply H1.
Qed.
End running.

(** The benchmark program, whatever call fails and whatever happens in between:
    its sockets are closed once, its thread is joined, and it exits with 0 exactly
    when the run took place; with a valid command line and no failure it does. *)
Theorem benchmark_start_to_exit (an : sys_answers) (inet_aton : cstr -> option Z) (shell : cstr -> Z) (args : list cstr)
    (events : list event) (base : list nat) (p : proc) (Ho : owns base [] [] p) :
  match bench_main an inet_aton shell args events p with
  | (inl (code, report), p') =>
      owns base [] [] p' /\ ((code = 0 /\ report = Some (run initial_benchmark events)) \/ (code = 1 /\ report = None))
  | (inr code, p') => code = ABORTED /\ owns base [] [] p'
  end /\
  (forall program ip port local lport total rate np nl nt nr,
     args = [program; ip; port; local; lport; total; rate] ->
     stoi port = Some np -> stoi lport = Some nl -> stoull total = Some nt -> stoull rate = Some nr -> nt <> 0 -> nr <> 0 ->
     bench_fine an inet_aton shell (BenchConfig ip (u16 np) local (u16 nl)) ->
     exists p', bench_main an inet_aton shell args events p = (inl (0, Some (run initial_benchmark events)), p')).
Proof.
  set (R := fun (r : Z * option (option benchmark)) p' =>
    owns base [] [] p' /\ ((r.1 = 0 /\ r.2 = Some (run initial_benchmark events)) \/ (r.1 = 1 /\ r.2 = None))).
  assert (forall (program ip port local lport total rate : cstr) np nl nt nr,
    stoi port = Some np -> stoi lport = Some nl -> stoull total = Some nt -> stoull rate = Some nr -> nt <> 0 -> nr <> 0 ->
    wp (bench_main an inet_aton shell [program; ip; port; local; lport; total; rate] events)
      (fun r p' => R r p' /\ (bench_fine an inet_aton shell (BenchConfig ip (u16 np) local (u16 nl)) -> r.1 = 0)) (fun _ _ => False) p) as Hrun.
  { intros program ip port local lport total rate np nl nt nr E1 E2 E3 E4 N1 N2. unfold bench_main.
    rewrite E1, E2, E3, E4, !(proj2 (Z.eqb_neq _ _)) by done. cbn [orb]. run_step.
    eapply wp_bench_initialize; [exact Ho|]. intros ok socks p1 H1 Hs Hf. run_simpl.
    destruct ok; run_simpl; run_step.
    - eapply wp_runBenchmark; [exact H1|by apply Hs|..]; [intros p2 H2|intros Hb p2 H2]; run_step;
        (eapply wp_bench_destroy; [exact H2|]); intros p3 H3; run_step; (split; [split; [done|]|]).
      + by left.
      + done.
      + by right.
      + by intros (? & _).
    - eapply wp_bench_destroy; [exact H1|]. intros p2 H2. run_step. split; [split; [done|by right]|].
      intros Hg. by specialize (Hf Hg). }
  split.
  - assert (wp (bench_main an inet_aton shell args events) R (fun code p' => code = ABORTED /\ owns base [] [] p') p) as H.
    { destruct args as [|a0 [|a1 [|a2 [|a3 [|a4 [|a5 [|a6 [|]]]]]]]]; try (split; [exact Ho|by right]).
      destruct (stoi a2) as [np|] eqn:E1, (stoi a4) as [nl|] eqn:E2, (stoull a5) as [nt|] eqn:E3, (stoull a6) as [nr|] eqn:E4;
        try (unfold bench_main; rewrite ?E1, ?E2, ?E3, ?E4; by split).
      destruct (decide (nt = 0 \/ nr = 0)) as [Hz|Hz].
      - unfold bench_main. rewrite E1, E2, E3, E4. assert ((nt =? 0) || (nr =? 0) = true) as ->.
        { apply orb_true_iff. by rewrite !Z.eqb_eq. }
        split; [exact Ho|by right].
      - specialize (Hrun a0 a1 a2 a3 a4 a5 a6 np nl nt nr E1 E2 E3 E4 ltac:(auto) ltac:(auto)). unfold wp in *.
        destruct (bench_main _ _ _ _ _ p) as [[r|code] p']; [by destruct Hrun|done]. }
    unfold wp in H. destruct (bench_main _ _ _ _ _ p) as [[[code report]|code] p']; exact H.
  - intros program ip port local lport total rate np nl nt nr -> E1 E2 E3 E4 N1 N2 Hg.
    specialize (Hrun program ip port local lport total rate np nl nt nr E1 E2 E3 E4 N1 N2). unfold wp in Hrun.
    destruct (bench_main _ _ _ _ _ p) as [[[code report]|code] p']; [|done]. destruct Hrun as [(_ & Hc) Hf]. specialize (Hf Hg). cbn in *.
    exists p'. destruct Hc as [[-> ->]|[-> _]]; [done|discriminate].
Qed.

(** ** The sending loop *)

(** One turn: whether the program still runs, the clock before the send, whether it
    succeeded, and the clock after the wait. *)
Record send_turn := SendTurn { sn_running : bool; sn_now : Z; sn_ok : bool; sn_wake : Z }.
Definition interval_us (messages_per_sec : Z) : Z := 1000000 / messages_per_sec.
(** The events, with [next_send_time]; a send that fails is not followed by a wait. *)
Fixpoint send_loop (interval total_messages trade_id next_send_time : Z) (turns : list send_turn) : list event :=
  match turns with
  | [] => []
  | t :: turns =>
      if (trade_id <=? total_messages) && sn_running t then
        Sent (sn_now t) (sn_ok t) ::
        send_loop interval total_messages (trade_id + 1) (if sn_ok t then next_send_time + interval else next_send_time) turns
      else []
  end.
Definition benchmark_sends (total_messages messages_per_sec start_time : Z) (turns : list send_turn) : list event :=
  send_loop (interval_us messages_per_sec) total_messages 1 start_time turns.

(** The clock goes on, and sleep_until returns at its time or later. *)
Fixpoint turns_ok (interval clock next_send_time : Z) (turns : list send_turn) : Prop :=
  match turns with
  | [] => True
  | t :: turns =>
      clock <= sn_now t /\
      if sn_ok t then sn_now t <= sn_wake t /\ next_send_time + interval <= sn_wake t /\ turns_ok interval (sn_wake t) (next_send_time + interval) turns
      else turns_ok interval (sn_now t) next_send_time turns
  end.
(** The messages sent before, [n] of them, set the earliest time of the next. *)
Fixpoint sends_after (interval next : Z) (events : list event) : Prop :=
  match events with
  | Sent now ok :: events => next <= now /\ sends_after interval (if (ok : bool) then next + interval else next) events
  | Received _ _ :: events => sends_after interval next events
  | [] => True
  end.

(** No more than the messages asked for are sent, and never faster than one per
    interval from the start; only sends that fail can follow one another without a
    wait. *)
Lemma benchmark_sends_paced total rate start turns : 0 <= total -> 0 < rate -> turns_ok (interval_us rate) start start turns ->
  let events := benchmark_sends total rate start turns in
  zlen events <= total /\ sends_after (interval_us rate) start events.
Proof.
  intros Ht Hr. unfold benchmark_sends. assert (0 <= interval_us rate) as Hi by (apply Z.div_pos; lia).
  assert (forall turns id clock next, next <= clock -> turns_ok (interval_us rate) clock next turns -> id <= total + 1 ->
    zlen (send_loop (interval_us rate) total id next turns) <= total + 1 - id /\
    sends_after (interval_us rate) next (send_loop (interval_us rate) total id next turns)) as H.
  { clear turns. induction turns as [|t turns IH]; intros id clock next Hn Hok Hid; cbn [send_loop]; [split; [unfold zlen; cbn; lia|done]|].
    destruct ((id <=? total) && sn_running t) eqn:E; [|split; [unfold zlen; cbn; lia|done]].
    apply andb_true_iff in E as [E%Z.leb_le _]. destruct Hok as [H1 Hok]. cbn [sends_after].
    assert (forall k (l : list event), zlen l <= k -> forall e, zlen (e :: l) <= k + 1) as Hz by (unfold zlen; cbn [length]; lia).
    destruct (sn_ok t).
    - destruct Hok as (H2 & H3 & Hok). destruct (IH (id + 1) (sn_wake t) (next + interval_us rate) ltac:(lia) Hok ltac:(lia)) as [I1 I2].
      split; [apply (Hz _ _ I1 (Sent (sn_now t) true)) || (unfold zlen in *; cbn [length]; lia)|]. split; [lia|exact I2].
    - destruct (IH (id + 1) (sn_now t) next ltac:(lia) Hok ltac:(lia)) as [I1 I2].
      split; [unfold zlen in *; cbn [length]; lia|]. split; [lia|exact I2]. }
  intros Hok. destruct (H turns 1 start start ltac:(lia) Hok ltac:(lia)) as [H1 H2]. split; [lia|exact H2].
Qed.
