(* ===== verification/Tools.v ===== *)
(** Two small programs beside the replicator: the test client that sends numbered
    datagrams (TestClient.cpp), and the interface configurator that runs shell
    commands (NetworkInterfaceConfigurator.cpp). *)

From S2P Require Import Prelude CText Heap Process Bench.

(** ** The test client *)

Definition test_packet (message : cstr) (n : Z) : cstr := message ++ lit " #" ++ fmt_u n.

(** The loop: one result of sendto per turn, until the signal ends the list. *)
Fixpoint test_send_loop (message : cstr) (results : list bool) (packet_count : Z) : list cstr * Z :=
  match results with
  | [] => ([], packet_count)
  | sent :: results =>
      let packet_data := test_packet message (u64 (packet_count + 1)) in
      if sent then
        let '(packets, n) := test_send_loop message results (u64 (packet_count + 1)) in (packet_data :: packets, n)
      else ([], packet_count)
  end.

Section test_client.
  Context (an : sys_answers).
  Variable inet_aton : cstr -> option Z.

(** main: the exit code, and the datagrams sent with their address and port.  The
    socket stays open when the address is invalid. *)
Definition test_client_main (args : list cstr) (results : list bool) : prog (Z * list (Z * Z * cstr)) :=
  match args with
  | _ :: target_ip :: target_port :: rest =>
      if 2 <? zlen rest then mret (1, [])
      else
        match stoi target_port, match rest with interval :: _ => stoi interval | [] => Some 1000 end with
        | Some port, Some interval_ms =>
            let message := match rest with _ :: message :: _ => message | _ => lit "Test packet" end in
            sock ← socket an;
            match sock with
            | None => mret (1, [])
            | Some socket_fd =>
                match inet_aton target_ip with
                | None => mret (1, [])
                | Some addr =>
                    let '(packets, packet_count) := test_send_loop message results 0 in
                    close socket_fd;;
                    mret (0, map (fun packet => (addr, u16 port, packet)) packets)
                end
            end
        | _, _ => exit ABORTED
        end
  | _ => mret (1, [])
  end.
End test_client.

(** The sends before the first failure. *)
Fixpoint successes (results : list bool) : nat :=
  match results with true :: results => S (successes results) | _ => O end.

Lemma test_send_loop_spec message results c : 0 <= c -> c + zlen results < 2 ^ 64 ->
  test_send_loop message results c =
  (map (fun i => test_packet message (c + 1 + Z.of_nat i)) (seq 0 (successes results)), c + Z.of_nat (successes results)).
Proof.
  revert c. induction results as [|[] results IH]; intros c Hc Hn; cbn [test_send_loop successes seq map]; [by rewrite Z.add_0_r| |by rewrite Z.add_0_r].
  assert (zlen (true :: results) = 1 + zlen results) as Hl by (unfold zlen; simpl; lia). pose proof (zlen_nonneg results).
  rewrite u64_small by lia. rewrite IH by lia. f_equal; [|lia]. f_equal; [f_equal; lia|].
  rewrite <- seq_shift, map_map. apply map_ext. intros i. f_equal. lia.
Qed.

(** The test client sends the message numbered from 1 on, in order, until a send
    fails or the signal comes, to the address and port of its command line; it
    closes its socket, except when the address is invalid. *)
Theorem test_client_sends (an : sys_answers) (inet_aton : cstr -> option Z) (program ip port interval message : cstr)
    (results : list bool) (np ni : Z) (base : list nat) (p : proc)
    (Ho : owns base [] [] p) (Hp : stoi port = Some np) (Hi : stoi interval = Some ni) (Hn : zlen results < 2 ^ 64) :
  match test_client_main an inet_aton [program; ip; port; interval; message] results p with
  | (inl (code, sent), p') =>
      (exists addr, inet_aton ip = Some addr /\ code = 0 /\ owns base [] [] p' /\
         sent = map (fun i => (addr, u16 np, test_packet message (1 + Z.of_nat i))) (seq 0 (successes results))) \/
      (code = 1 /\ sent = [] /\
       ((~ all_good an /\ owns base [] [] p') \/ (inet_aton ip = None /\ exists socket_fd, owns (socket_fd :: base) [] [] p')))
  | (inr _, _) => False
  end.
Proof.
  set (R := fun (r : Z * list (Z * Z * cstr)) p' =>
    (exists addr, inet_aton ip = Some addr /\ r.1 = 0 /\ owns base [] [] p' /\
       r.2 = map (fun i => (addr, u16 np, test_packet message (1 + Z.of_nat i))) (seq 0 (successes results))) \/
    (r.1 = 1 /\ r.2 = [] /\
     ((~ all_good an /\ owns base [] [] p') \/ (inet_aton ip = None /\ exists socket_fd, owns (socket_fd :: base) [] [] p')))).
  assert (wp (test_client_main an inet_aton [program; ip; port; interval; message] results) R (fun _ _ => False) p) as H.
  { unfold test_client_main. rewrite Hp, Hi. change (2 <? zlen [interval; message]) with false. cbv iota.
    do 2 run_step; [|run_step; right; auto]. destruct (inet_aton ip) as [addr|] eqn:Ea.
    - rewrite test_send_loop_spec by lia. repeat run_step. left. exists addr. split; [done|]. split; [done|]. split; [done|].
      cbn. by rewrite map_map.
    - run_step. right. split; [done|]. split; [done|]. right. eauto. }
  unfold wp in H. by destruct (test_client_main _ _ _ _ p) as [[[code sent]|code] p'].
Qed.

(** ** The interface configurator *)

Section configurator.
  (** std::system: the wait status of the command, or -1; popen: the output, or
      nothing when it fails. *)
  Variable system : cstr -> Z.
  Variable popen : cstr -> option cstr.

Definition WEXITSTATUS (status : Z) : Z := Z.land (Z.shiftr status 8) 255.
Definition executeCommand (command : cstr) : Z :=
  let result := system command in
  if result =? -1 then -1 else WEXITSTATUS result.

(** fgets: up to [n] characters, or to the end of a line. *)
Fixpoint fgets (n : nat) (s : cstr) : cstr * cstr :=
  match n, s with
  | S n, c :: s => if decide (c = NL) then ([c], s) else let '(line, rest) := fgets n s in (c :: line, rest)
  | _, _ => ([], s)
  end.
(** The loop: each piece is appended up to its first NUL. *)
Fixpoint read_pipe (fuel : nat) (output result : cstr) : cstr :=
  match fuel, output with
  | S fuel, _ :: _ => let '(buffer, rest) := fgets 127 output in read_pipe fuel rest (result ++ c_str buffer)
  | _, _ => result
  end.
(** The length of the output is enough: [read_pipe_all]. *)
Definition executeCommandWithOutput (command : cstr) : cstr :=
  match popen command with
  | None => []
  | Some output => read_pipe (length output) output []
  end.

Definition driver_command (interfaceName : cstr) : cstr :=
  lit "ethtool -i " ++ interfaceName ++ lit " 2>/dev/null | grep '^driver:' | cut -d: -f2 | tr -d ' '".
Definition getDriverName (interfaceName : cstr) : cstr :=
  let output := executeCommandWithOutput (driver_command interfaceName) in
  match last output with
  | None => lit "unknown"
  | Some c => if decide (c = NL) then take (length output - 1) output else output
  end.
Definition determineHeadroom (driverName : cstr) : Z :=
  if bool_decide (driverName ∈ [lit "i40e"; lit "ixgbe"; lit "ixgbevf"]) then 256
  else if bool_decide (driverName = lit "ena") then 0
  else if bool_decide (driverName = lit "mlx5_core") then 192
  else if bool_decide (driverName = lit "ice") then 128
  else if bool_decide (driverName ∈ [lit "e1000"; lit "e1000e"]) then 32
  else 0.

Definition check_command (interfaceName : cstr) : cstr := lit "ip link show " ++ interfaceName ++ lit " > /dev/null 2>&1".
(** The commands run, and the headroom; None is the exception for an interface
    that does not exist.  Missing privileges are only reported. *)
Definition configureForXdp (interfaceName : cstr) : list cstr * option Z :=
  if negb (executeCommand (check_command interfaceName) =? 0) then ([check_command interfaceName], None)
  else
    ([check_command interfaceName;
      lit "ip link set " ++ interfaceName ++ lit " multicast on";
      lit "sysctl -w net.ipv4.conf." ++ interfaceName ++ lit ".mc_forwarding=1 > /dev/null 2>&1";
      driver_command interfaceName],
     Some (determineHeadroom (getDriverName interfaceName))).
(** The commands run, all of which may fail. *)
Definition optimizeForXdp (root : bool) (interfaceName : cstr) : list cstr :=
  if negb root then []
  else
    [lit "ethtool -G " ++ interfaceName ++ lit " rx 4096 > /dev/null 2>&1";
     lit "ethtool -K " ++ interfaceName ++ lit " gro off > /dev/null 2>&1";
     lit "ethtool -K " ++ interfaceName ++ lit " gso off > /dev/null 2>&1";
     lit "ethtool -K " ++ interfaceName ++ lit " tso off > /dev/null 2>&1";
     lit "ethtool -K " ++ interfaceName ++ lit " lro off > /dev/null 2>&1"].

Lemma fgets_spec n s : let '(line, rest) := fgets n s in s = line ++ rest /\ (n <> O -> s <> [] -> line <> []).
Proof.
  revert s. induction n as [|n IH]; intros [|c s]; cbn [fgets]; try done. destruct (decide (c = NL)); [done|].
  specialize (IH s). destruct (fgets n s) as [line rest]. destruct IH as [-> _]. done.
Qed.
(** Output without NUL is read whole. *)
Lemma read_pipe_all fuel output result : (length output <= fuel)%nat -> Forall (fun c => c <> NUL) output ->
  read_pipe fuel output result = result ++ output.
Proof.
  revert output result. induction fuel as [|fuel IH]; intros [|c output] result Hf Hn; cbn [read_pipe];
    [by rewrite app_nil_r|simpl in Hf; lia|by rewrite app_nil_r|].
  pose proof (fgets_spec 127 (c :: output)) as Hg. destruct (fgets 127 (c :: output)) as [line rest]. destruct Hg as [Hl Hne].
  specialize (Hne ltac:(done) ltac:(done)). rewrite Hl in Hf, Hn |- *. apply Forall_app in Hn as [Hn1 Hn2].
  assert (c_str line = line) as ->.
  { clear -Hn1. induction Hn1 as [|c l Hc _ IH]; [done|]. cbn [c_str]. by rewrite decide_False, IH by done. }
  rewrite IH; [by rewrite <- app_assoc| |done]. rewrite length_app in Hf. destruct line; [done|]. simpl in Hf. lia.
Qed.

(** A command that a signal has killed (its status is the signal's number) counts
    as one that succeeded. *)
Lemma killed_command_succeeds command signal : system command = signal -> 0 < signal < 128 -> executeCommand command = 0.
Proof.
  intros Hs Hr. unfold executeCommand, WEXITSTATUS. rewrite Hs, (proj2 (Z.eqb_neq _ _)) by lia.
  rewrite Z.shiftr_div_pow2 by lia. change (2 ^ 8) with 256. by rewrite Z.div_small by lia.
Qed.
Lemma exit_status_read command code : system command = code * 256 -> 0 <= code < 256 -> executeCommand command = code.
Proof.
  intros Hs Hr. unfold executeCommand, WEXITSTATUS. rewrite Hs, (proj2 (Z.eqb_neq _ _)) by lia.
  rewrite Z.shiftr_div_pow2 by lia. change (2 ^ 8) with 256. rewrite Z.div_mul by lia.
  change 255 with (Z.ones 8). rewrite Z.land_ones by lia. by apply Z.mod_small.
Qed.

(** A driver named on one line of output, with or without its newline. *)
Lemma driver_name_read interfaceName name : Forall (fun c => c <> NUL /\ c <> NL) name -> name <> [] ->
  popen (driver_command interfaceName) = Some (name ++ [NL]) \/ popen (driver_command interfaceName) = Some name ->
  getDriverName interfaceName = name.
Proof.
  intros Hn Hne Hp. unfold getDriverName, executeCommandWithOutput.
  assert (Forall (fun c => c <> NUL) name) as Hn' by (eapply Forall_impl; [exact Hn|]; by intros c [? _]).
  destruct Hp as [-> | ->].
  - rewrite read_pipe_all; [|done|]. 2:{ apply Forall_app. split; [done|by apply Forall_singleton]. }
    cbn [app]. rewrite last_snoc, decide_True, length_app by done. apply take_app_length'. simpl. lia.
  - rewrite read_pipe_all by done. cbn [app]. destruct (last name) as [c|] eqn:El; [|by apply last_None in El].
    rewrite decide_False; [done|]. intros ->. apply last_Some_elem_of in El. rewrite Forall_forall in Hn. by apply Hn in El as [_ ?].
Qed.
End configurator.
