(* ===== verification/Hft.v ===== *)
(** The exchange latency client (hft_client/cpp-client): the order and cancel
    messages built in fixed buffers (ExchangeProtocol.cpp), the configuration
    (Config.cpp), and the handler that exchanges orders and cancels and measures
    round trips (ExchangeClientLatencyTestHandler.cpp).

    The websocket, the JSON parser and the histogram are libraries: a message
    comes as its parsed fields, a send is an output, the histogram is the values
    recorded; which values it takes is a parameter.  None is an exception, a
    division by zero or a write behind a buffer. *)

From S2P Require Import Prelude CText Wire.

(** ** ExchangeProtocol *)

Definition AUTH_MSG_HEADER : cstr := quoted "{'type':'AUTHENTICATE','api_token':'".
Definition HEADER : cstr := quoted "{'type':'CREATE_ORDER','order':{'instrument_code':'".
Definition SYMBOL_END : cstr := quoted "','client_id':'".
Definition CLIENT_ID_END : cstr := quoted "','side':'".
Definition BUY_SIDE : cstr := lit "BUY".
Definition SELL_SIDE : cstr := lit "SELL".
Definition SIDE_END : cstr := quoted "','type':'".
Definition DUMMY_TYPE : cstr := lit "LIMIT".
Definition TYPE_END : cstr := quoted "','price':'".
Definition DUMMY_BUY_PRICE : cstr := lit "1".
Definition DUMMY_SELL_PRICE : cstr := lit "2".
Definition PRICE_END : cstr := quoted "','amount':'".
Definition DUMMY_AMOUNT : cstr := lit "1".
Definition AMOUNT_END : cstr := quoted "','time_in_force':'".
Definition DUMMY_TIME_IN_FORCE : cstr := lit "GOOD_TILL_CANCELLED".
Definition TIME_IN_FORCE_END : cstr := quoted "'}}".
Definition CANCEL_ORDER_HEADER : cstr := quoted "{'type':'CANCEL_ORDER','client_id':'".
Definition CANCEL_ORDER_CLIENT_ID_END : cstr := quoted "','instrument_code':'".
Definition MSG_END : cstr := quoted "'}".
Definition SUBSCRIBE_MSG : cstr := quoted "{'type':'SUBSCRIBE','channels':[{'name':'ORDERS'}]}".
Definition MAX_ORDER_SIZE : Z := 256.
Definition MAX_CANCEL_ORDER_SIZE : Z := 128.

(** The calls of write into a buffer of [size] characters. *)
Fixpoint write_parts (size : Z) (buffer : cstr) (parts : list cstr) : option cstr :=
  match parts with
  | [] => Some buffer
  | str :: parts =>
      let buffer := buffer ++ str in
      if size <? zlen buffer then None else write_parts size buffer parts
  end.

Definition createBuyOrder (pair clientId : cstr) : option cstr :=
  write_parts MAX_ORDER_SIZE []
    [HEADER; pair; SYMBOL_END; clientId; CLIENT_ID_END; BUY_SIDE; SIDE_END; DUMMY_TYPE; TYPE_END; DUMMY_BUY_PRICE;
     PRICE_END; DUMMY_AMOUNT; AMOUNT_END; DUMMY_TIME_IN_FORCE; TIME_IN_FORCE_END].
Definition createSellOrder (pair clientId : cstr) : option cstr :=
  write_parts MAX_ORDER_SIZE []
    [HEADER; pair; SYMBOL_END; clientId; CLIENT_ID_END; SELL_SIDE; SIDE_END; DUMMY_TYPE; TYPE_END; DUMMY_SELL_PRICE;
     PRICE_END; DUMMY_AMOUNT; AMOUNT_END; DUMMY_TIME_IN_FORCE; TIME_IN_FORCE_END].
Definition createOrder (pair type uuid side price qty : cstr) : option cstr :=
  write_parts MAX_ORDER_SIZE []
    [HEADER; pair; SYMBOL_END; uuid; CLIENT_ID_END; side; SIDE_END; type; TYPE_END; price;
     PRICE_END; qty; AMOUNT_END; DUMMY_TIME_IN_FORCE; TIME_IN_FORCE_END].
Definition createCancelOrder (pair clientId : cstr) : option cstr :=
  write_parts MAX_CANCEL_ORDER_SIZE []
    [CANCEL_ORDER_HEADER; clientId; CANCEL_ORDER_CLIENT_ID_END; pair; MSG_END].

(** ** Identifiers *)

Definition hex_chr (d : Z) : ascii := if d <? 10 then digit_chr d else ascii_of_N (Z.to_N (87 + d)).
(** The last [w] hexadecimal digits: %0[w]x of a value that fits. *)
Fixpoint hex_digits (w : nat) (n : Z) : cstr :=
  match w with O => [] | S w => hex_digits w (n / 16) ++ [hex_chr (n mod 16)] end.
(** Little-endian fields of the union. *)
Definition le16_at (b : list Z) (i : nat) : Z := byte_at b i + 256 * byte_at b (i + 1).
Definition le32_at (b : list Z) (i : nat) : Z := le16_at b i + 65536 * le16_at b (i + 2).

Definition DASH : ascii := "-"%char.
(** uuid_v4_gen of 16 random bytes. *)
Definition uuid_v4_gen (rnd : list Z) : cstr :=
  let clk_seq_hi_res := Z.lor (Z.land (byte_at rnd 8) 63) 128 in
  let time_hi_and_version := Z.lor (Z.land (le16_at rnd 6) 4095) 16384 in
  hex_digits 8 (le32_at rnd 0) ++ DASH :: hex_digits 4 (le16_at rnd 4) ++ DASH :: hex_digits 4 time_hi_and_version ++ DASH ::
  hex_digits 2 clk_seq_hi_res ++ hex_digits 2 (byte_at rnd 9) ++ DASH ::
  concat (map (fun i => hex_digits 2 (byte_at rnd i)) (seq 10 6)).

(** ** Config *)

(** getline(iss, configKey, '='), then the rest of the line. *)
Fixpoint split_key (line : cstr) : cstr * option cstr :=
  match line with
  | [] => ([], None)
  | c :: line =>
      if decide (c = "="%char) then ([], Some line)
      else let '(k, v) := split_key line in (c :: k, v)
  end.
(** The loop over the lines of config.properties. *)
Fixpoint find_property (lines : list cstr) (key : cstr) : cstr :=
  match lines with
  | [] => []
  | line :: lines =>
      match line with
      | [] => find_property lines key
      | _ => let '(configKey, value) := split_key line in
             if decide (configKey = key) then default [] value else find_property lines key
      end
  end.
(** [file] is the lines of the file, None when it cannot be opened. *)
Definition getProperty (file : option (list cstr)) (key defaultValue : cstr) : cstr :=
  let value := match file with Some lines => find_property lines key | None => [] end in
  match value with [] => defaultValue | _ => value end.
(** getline with ',' until it fails: no token after a last comma. *)
Fixpoint list_tokens (cur s : cstr) : list cstr :=
  match s with
  | [] => match cur with [] => [] | _ => [cur] end
  | c :: s => if decide (c = ","%char) then cur :: list_tokens [] s else list_tokens (cur ++ [c]) s
  end.
Definition getListProperty (file : option (list cstr)) (key defaultValue : cstr) : list cstr :=
  list_tokens [] (getProperty file key defaultValue).
Definition getIntegerProperty (file : option (list cstr)) (key defaultValue : cstr) : option Z :=
  stoi (getProperty file key defaultValue).
Definition tolower (c : ascii) : ascii := if (65 <=? code c) && (code c <=? 90) then ascii_of_N (Z.to_N (code c + 32)) else c.
Definition getBooleanProperty (file : option (list cstr)) (key defaultValue : cstr) : bool :=
  bool_decide (map tolower (getProperty file key defaultValue) = lit "true").

(** ** The handler *)

(** The fields of a parsed message that the handler reads. *)
Record message := Message { m_type : option cstr; m_client_id : option cstr; m_instrument_code : option cstr }.
(** The clock and the random bytes of one call. *)
Record moment := Moment { at_receive : Z; at_send : Z; rnd : list Z }.

Inductive output :=
  | OutSend (text : cstr)
  | OutPrint (histogram : list Z)    (* hdrPrint: printed and saved *)
  | OutClose.

Record handler := Handler {
  orderSentTimeMap : gmap cstr Z;
  cancelSentTimeMap : gmap cstr Z;
  orderResponseCount : Z;
  histogram : list Z;               (* values recorded *)
  outputs : list output }.
Definition new_handler : handler := Handler ∅ ∅ 0 [] [].

Section Handler.
Variable API_TOKEN : Z.
Variable COIN_PAIR : cstr.          (* Config::COIN_PAIRS[0] *)
Variable TEST_SIZE : Z.
(** hdr_record_value answers whether the histogram takes the value: hdr_init asked
    for 1 to 3600000000000, and what is out of range is dropped. *)
Variable hdr_record_value : Z -> bool.

Definition put (h : handler) (o : output) : handler :=
  Handler (orderSentTimeMap h) (cancelSentTimeMap h) (orderResponseCount h) (histogram h) (outputs h ++ [o]).
(** insert of unordered_map keeps an existing entry. *)
Definition map_insert (m : gmap cstr Z) (k : cstr) (v : Z) : gmap cstr Z :=
  match m !! k with Some _ => m | None => <[k := v]> m end.

(** std::to_string of an int. *)
Definition to_string (z : Z) : cstr := if z <? 0 then DASH :: fmt_u (- z) else fmt_u z.
Definition on_open (h : handler) : handler := put h (OutSend (AUTH_MSG_HEADER ++ to_string API_TOKEN ++ MSG_END)).

Definition record_value (hist : list Z) (value : Z) : list Z := if hdr_record_value value then hist ++ [value] else hist.
(** Whether the message is to be ignored, the map and the histogram. *)
Definition calculateRoundTrip (eventReceiveTime : Z) (clientId : cstr) (sentTimeMap : gmap cstr Z) (hist : list Z)
    : bool * gmap cstr Z * list Z :=
  match sentTimeMap !! clientId with
  | None => (true, sentTimeMap, hist)
  | Some sent =>
      if eventReceiveTime <? sent then (true, sentTimeMap, hist)
      else
        let roundTripTime := eventReceiveTime - sent in
        (false, delete clientId sentTimeMap, if 0 <? roundTripTime then record_value hist roundTripTime else hist)
  end.

Definition sendOrder (h : handler) (mo : moment) : option handler :=
  let clientId := uuid_v4_gen (rnd mo) in
  order ← createBuyOrder COIN_PAIR clientId;
  Some (Handler (map_insert (orderSentTimeMap h) clientId (at_send mo)) (cancelSentTimeMap h)
          (u64 (orderResponseCount h + 1)) (histogram h) (outputs h ++ [OutSend order])).
Definition sendCancelOrder (h : handler) (mo : moment) (clientId pair : cstr) : option handler :=
  cancelOrder ← createCancelOrder pair clientId;
  Some (Handler (orderSentTimeMap h) (map_insert (cancelSentTimeMap h) clientId (at_send mo))
          (u64 (orderResponseCount h + 1)) (histogram h) (outputs h ++ [OutSend cancelOrder])).

Definition hdrPrint (h : handler) : handler :=
  Handler (orderSentTimeMap h) (cancelSentTimeMap h) (orderResponseCount h) [] (outputs h ++ [OutPrint (histogram h)]).
(** The end of a BOOKED or DONE message. *)
Definition check_complete (h : handler) : option handler :=
  if u64 TEST_SIZE =? 0 then None
  else if orderResponseCount h mod u64 TEST_SIZE =? 0 then Some (put (hdrPrint h) OutClose)
  else Some h.

Definition on_message (h : handler) (msg : message) (mo : moment) : option handler :=
  type ← m_type msg;
  if decide (type = lit "BOOKED") then
    clientId ← m_client_id msg;
    let '(ignore, orders, hist) := calculateRoundTrip (at_receive mo) clientId (orderSentTimeMap h) (histogram h) in
    let h := Handler orders (cancelSentTimeMap h) (orderResponseCount h) hist (outputs h) in
    if (ignore : bool) then Some h
    else
      pair ← m_instrument_code msg;
      h ← sendCancelOrder h mo clientId pair;
      check_complete h
  else if decide (type = lit "DONE") then
    clientId ← m_client_id msg;
    let '(ignore, cancels, hist) := calculateRoundTrip (at_receive mo) clientId (cancelSentTimeMap h) (histogram h) in
    let h := Handler (orderSentTimeMap h) cancels (orderResponseCount h) hist (outputs h) in
    if (ignore : bool) then Some h
    else
      h ← sendOrder h mo;
      check_complete h
  else if decide (type = lit "AUTHENTICATED") then Some (put h (OutSend SUBSCRIBE_MSG))
  else if decide (type = lit "SUBSCRIPTIONS") then sendOrder h mo
  else Some h.

Fixpoint run_handler (h : handler) (msgs : list (message * moment)) : option handler :=
  match msgs with
  | [] => Some h
  | (msg, mo) :: msgs => h ← on_message h msg mo; run_handler h msgs
  end.
End Handler.

(** ** Messages: proofs *)

Lemma write_parts_spec size buffer parts : zlen buffer <= size ->
  write_parts size buffer parts = if size <? zlen buffer + zlen (concat parts) then None else Some (buffer ++ concat parts).
Proof.
  revert buffer. induction parts as [|str parts IH]; intros buffer Hb; cbn [write_parts concat].
  - rewrite app_nil_r. rewrite (proj2 (Z.ltb_ge _ _)); [done|unfold zlen in *; simpl; lia].
  - rewrite !zlen_app. pose proof (zlen_nonneg (concat parts)). destruct (Z.ltb_spec size (zlen buffer + zlen str)).
    + by rewrite (proj2 (Z.ltb_lt _ _)) by lia.
    + rewrite IH by (rewrite zlen_app; lia). rewrite zlen_app, Z.add_assoc, <- app_assoc. done.
Qed.

Lemma hex_digits_length w n : length (hex_digits w n) = w.
Proof. revert n. induction w as [|w IH]; intros n; [done|]. simpl. rewrite length_app, IH. simpl. lia. Qed.

(** Replace the lengths of constant texts by their values. *)
Ltac const_lengths :=
  repeat match goal with
  | |- context [zlen ?c] => let n := eval vm_compute in (zlen c) in match n with Z0 => idtac | Zpos _ => idtac end; change (zlen c) with n
  end.

Lemma uuid_length r : length (uuid_v4_gen r) = 36%nat.
Proof. unfold uuid_v4_gen. cbn [seq map concat]. repeat (rewrite ?length_app; cbn [length]). rewrite !hex_digits_length. done. Qed.

(** C36: an order fits its 256-byte buffer exactly when the symbol has at most 60
    characters, a cancellation fits its 128-byte buffer exactly when the symbol,
    which is the one the server sent, has at most 33; then the message is the
    JSON text with the symbol and the identifier in their places.  A longer
    symbol is written behind the buffer. *)
Theorem order_messages_fit (pair : cstr) (r : list Z) :
  let id := uuid_v4_gen r in
  createBuyOrder pair id =
    (if zlen pair <=? 60 then
       Some (quoted "{'type':'CREATE_ORDER','order':{'instrument_code':'" ++ pair ++ quoted "','client_id':'" ++ id ++
             quoted "','side':'BUY','type':'LIMIT','price':'1','amount':'1','time_in_force':'GOOD_TILL_CANCELLED'}}")
     else None) /\
  createCancelOrder pair id =
    (if zlen pair <=? 33 then
       Some (quoted "{'type':'CANCEL_ORDER','client_id':'" ++ id ++ quoted "','instrument_code':'" ++ pair ++ quoted "'}")
     else None).
Proof.
  intros id. assert (zlen id = 36) as Hid by (unfold zlen, id; by rewrite uuid_length). pose proof (zlen_nonneg pair).
  unfold createBuyOrder, createCancelOrder, MAX_ORDER_SIZE, MAX_CANCEL_ORDER_SIZE.
  rewrite !write_parts_spec by done. cbn [concat app]. rewrite !zlen_app, Hid. const_lengths. split.
  - destruct (Z.leb_spec (zlen pair) 60); [rewrite (proj2 (Z.ltb_ge _ _)) by lia; done|by rewrite (proj2 (Z.ltb_lt _ _)) by lia].
  - destruct (Z.leb_spec (zlen pair) 33); [rewrite (proj2 (Z.ltb_ge _ _)) by lia|by rewrite (proj2 (Z.ltb_lt _ _)) by lia].
    by rewrite ?app_nil_r.
Qed.

Lemma hex_chr_ok n : isdigit (hex_chr (n mod 16)) = true \/ 97 <= code (hex_chr (n mod 16)) <= 102.
Proof.
  pose proof (Z.mod_pos_bound n 16 ltac:(lia)) as H. revert H. generalize (n mod 16). intros d Hd.
  unfold hex_chr. destruct (Z.ltb_spec d 10); [left; apply isdigit_digit_chr; lia|]. right.
  assert (d = 10 \/ d = 11 \/ d = 12 \/ d = 13 \/ d = 14 \/ d = 15) as Hc by lia.
  by destruct_or! Hc; subst d.
Qed.

(** Setting a bit above a number. *)
Lemma lor_above y k : 0 <= k -> 0 <= y < 2 ^ k -> Z.lor y (2 ^ k) = y + 2 ^ k.
Proof.
  intros Hk Hy. symmetry. rewrite <- Z.lxor_lor; [apply Z.add_nocarry_lxor|]; apply Z.bits_inj'; intros n Hn;
    rewrite Z.land_spec, Z.bits_0, Z.pow2_bits_eqb by lia; destruct (Z.eqb_spec k n) as [->|]; rewrite ?andb_false_r; try done;
    rewrite andb_true_r; rewrite <- (Z.mod_small y (2 ^ n)) by lia; apply Z.mod_pow2_bits_high; lia.
Qed.

(** Membership in a list written out. *)
Ltac elem_list := solve [repeat first [apply list_elem_of_here | apply list_elem_of_further]].

(** C40: from any 16 random bytes the identifier is a version 4 UUID in text: 36
    characters, dashes at 8, 13, 18 and 23, lower-case hexadecimal digits
    elsewhere, version digit 4, variant digit 8, 9, a or b. *)
Theorem uuid_shape (r : list Z) :
  let id := uuid_v4_gen r in
  length id = 36%nat /\
  id !! 8%nat = Some DASH /\ id !! 13%nat = Some DASH /\ id !! 18%nat = Some DASH /\ id !! 23%nat = Some DASH /\
  (forall i c, id !! i = Some c -> i ∉ [8; 13; 18; 23]%nat -> isdigit c = true \/ 97 <= code c <= 102) /\
  id !! 14%nat = Some "4"%char /\ exists c, id !! 19%nat = Some c /\ c ∈ ["8"; "9"; "a"; "b"]%char.
Proof.
  intros id. unfold id, uuid_v4_gen. cbn [hex_digits app seq map concat].
  assert (Z.lor (Z.land (le16_at r 6) 4095) 16384 = le16_at r 6 mod 4096 + 16384) as ->.
  { rewrite (land_mask _ 12) by lia. apply (lor_above _ 14); [lia|]. zlia. }
  assert (Z.lor (Z.land (byte_at r 8) 63) 128 = byte_at r 8 mod 64 + 128) as ->.
  { rewrite (land_mask _ 6) by lia. apply (lor_above _ 7); [lia|]. zlia. }
  split; [done|]. do 4 (split; [done|]). split; [|split].
  - intros i c Hi Hn. do 36 (destruct i as [|i]; [first [by exfalso; apply Hn; elem_list|injection Hi as <-; apply hex_chr_ok]|]). done.
  - cbn. do 2 f_equal. assert ((le16_at r 6 mod 4096 + 16384) / 16 / 16 / 16 mod 16 = 4) as -> by zlia. done.
  - eexists. split; [reflexivity|].
    assert (8 <= (byte_at r 8 mod 64 + 128) / 16 mod 16 <= 11) as H by zlia. revert H. generalize ((byte_at r 8 mod 64 + 128) / 16 mod 16).
    intros d Hd. assert (d = 8 \/ d = 9 \/ d = 10 \/ d = 11) as Hc by lia. destruct_or! Hc; subst d; elem_list.
Qed.

(** ** The handler: proofs *)

Section HandlerProofs.
Variable COIN_PAIR : cstr.
Variable TEST_SIZE : Z.
Variable hdr_record_value : Z -> bool.
Context (Hpair : zlen COIN_PAIR <= 60) (Htest : 1 <= TEST_SIZE < 2147483648).
Notation calculateRoundTrip := (calculateRoundTrip hdr_record_value).
Notation on_message := (on_message COIN_PAIR TEST_SIZE hdr_record_value).

(** The intervals printed and cleared; the round trips recorded so far, those
    included; the requests that wait. *)
Definition intervals (out : list output) : list (list Z) := omap (fun o => match o with OutPrint l => Some l | _ => None end) out.
Definition recorded (h : handler) : list Z := concat (intervals (outputs h)) ++ histogram h.
Definition outstanding (h : handler) : Z := Z.of_nat (size (orderSentTimeMap h)) + Z.of_nat (size (cancelSentTimeMap h)).

(** The round trips that are recorded. *)
Definition keeps (v : Z) : bool := (0 <? v) && hdr_record_value v.
(** The round trip that a message ends, in ns. *)
Definition round_trip_of (h : handler) (msg : message) (mo : moment) : list Z :=
  match m_type msg, m_client_id msg with
  | Some type, Some id =>
      let sent :=
        if decide (type = lit "BOOKED") then orderSentTimeMap h !! id
        else if decide (type = lit "DONE") then cancelSentTimeMap h !! id else None in
      match sent with Some t => if at_receive mo <? t then [] else [at_receive mo - t] | None => [] end
  | _, _ => []
  end.

(** A message with the fields its type needs, and a symbol that fits. *)
Definition message_ok (msg : message) : Prop :=
  exists type, m_type msg = Some type /\
    (type = lit "BOOKED" -> exists id pair, m_client_id msg = Some id /\ m_instrument_code msg = Some pair /\ zlen pair <= 33) /\
    (type = lit "DONE" -> exists id, m_client_id msg = Some id).

(** [used] are the identifiers generated so far, [now] the last send, [ms] the
    round trips measured. *)
Record handler_inv (used : list cstr) (now : Z) (ms : list Z) (h : handler) : Prop := {
  hi_orders : forall id t, orderSentTimeMap h !! id = Some t -> id ∈ used /\ t <= now;
  hi_cancels : forall id t, cancelSentTimeMap h !! id = Some t -> id ∈ used /\ t <= now;
  hi_disjoint : forall id, orderSentTimeMap h !! id = None \/ cancelSentTimeMap h !! id = None;
  hi_count : orderResponseCount h = zlen ms + outstanding h;
  hi_recorded : recorded h = List.filter keeps ms }.

Lemma intervals_app a b : intervals (a ++ b) = intervals a ++ intervals b.
Proof. apply omap_app. Qed.
(** What is sent or closed is no interval. *)
Lemma recorded_put orders cancels c hist out o : (forall l, o <> OutPrint l) ->
  recorded (Handler orders cancels c hist (out ++ [o])) = concat (intervals out) ++ hist.
Proof.
  intros Ho. unfold recorded. cbn [outputs histogram]. rewrite intervals_app.
  destruct o as [text|l|]; [|by destruct (Ho l)|]; cbn; by rewrite app_nil_r.
Qed.
Lemma record_keeps hist v : (if 0 <? v then record_value hdr_record_value hist v else hist) = hist ++ List.filter keeps [v].
Proof.
  unfold record_value, keeps. cbn [List.filter]. destruct (0 <? v); cbn [andb]; [|by rewrite app_nil_r].
  destruct (hdr_record_value v); [done|by rewrite app_nil_r].
Qed.

Lemma check_complete_inv used now ms h : handler_inv used now ms h ->
  exists h', check_complete TEST_SIZE h = Some h' /\ handler_inv used now ms h' /\ orderResponseCount h' = orderResponseCount h.
Proof.
  intros Hi. unfold check_complete. rewrite u64_small by lia. rewrite (proj2 (Z.eqb_neq _ _)) by lia.
  destruct (_ =? 0); [|by exists h]. eexists. split; [reflexivity|]. split; [|done].
  destruct Hi as [H1 H2 H3 H4 H5]. split; try done. rewrite <- H5. unfold put, hdrPrint.
  cbn [orderSentTimeMap cancelSentTimeMap orderResponseCount histogram outputs]. rewrite recorded_put by done.
  unfold recorded. rewrite intervals_app, concat_app. cbn. by rewrite !app_nil_r.
Qed.

Lemma send_order_inv used now ms h mo : handler_inv used now ms h -> now <= at_send mo ->
  uuid_v4_gen (rnd mo) ∉ used -> orderResponseCount h < 2 ^ 63 ->
  exists h', sendOrder COIN_PAIR h mo = Some h' /\ handler_inv (uuid_v4_gen (rnd mo) :: used) (at_send mo) ms h' /\
    orderResponseCount h' = orderResponseCount h + 1.
Proof.
  intros [H1 H2 H3 H4 H5] Ht Hnew Hc. pose proof (zlen_nonneg ms) as Hr. unfold outstanding in H4. unfold sendOrder. set (id := uuid_v4_gen (rnd mo)) in *.
  assert (exists order, createBuyOrder COIN_PAIR id = Some order) as [order ->].
  { unfold createBuyOrder. rewrite write_parts_spec by done. cbn [concat app]. rewrite !zlen_app.
    assert (zlen id = 36) as -> by (unfold zlen, id; by rewrite uuid_length). const_lengths.
    rewrite (proj2 (Z.ltb_ge _ _)); [by eexists|unfold MAX_ORDER_SIZE; lia]. }
  assert (orderSentTimeMap h !! id = None) as Ho by (destruct (orderSentTimeMap h !! id) eqn:E; [by apply H1 in E as [? _]|done]).
  assert (cancelSentTimeMap h !! id = None) as Hca by (destruct (cancelSentTimeMap h !! id) eqn:E; [by apply H2 in E as [? _]|done]).
  cbn [mbind option_bind]. eexists. split; [reflexivity|]. unfold map_insert. rewrite Ho, u64_small by lia. split; [|done].
  split; cbn [orderSentTimeMap cancelSentTimeMap orderResponseCount].
  - intros id' t. destruct (decide (id' = id)) as [->|Hne].
    + rewrite lookup_insert_eq. intros [= <-]. split; [left|lia].
    + rewrite lookup_insert_ne by done. intros [E1 E2]%H1. split; [by right|lia].
  - intros id' t [E1 E2]%H2. split; [by right|lia].
  - intros id'. destruct (decide (id' = id)) as [->|Hne]; [by right|]. rewrite lookup_insert_ne by done. apply H3.
  - unfold outstanding. cbn [orderSentTimeMap cancelSentTimeMap]. rewrite map_size_insert_None by done. lia.
  - by rewrite recorded_put.
Qed.

Lemma send_cancel_inv used now ms h mo id pair : handler_inv used now ms h -> now <= at_send mo -> id ∈ used -> zlen id = 36 ->
  orderSentTimeMap h !! id = None -> cancelSentTimeMap h !! id = None -> zlen pair <= 33 -> orderResponseCount h < 2 ^ 63 ->
  exists h', sendCancelOrder h mo id pair = Some h' /\ handler_inv used (at_send mo) ms h' /\
    orderResponseCount h' = orderResponseCount h + 1.
Proof.
  intros [H1 H2 H3 H4 H5] Ht Hid Hl Ho Hca Hp Hc. pose proof (zlen_nonneg ms) as Hr. unfold outstanding in H4. unfold sendCancelOrder.
  assert (exists order, createCancelOrder pair id = Some order) as [order ->].
  { unfold createCancelOrder. rewrite write_parts_spec by done. cbn [concat app]. rewrite !zlen_app, Hl. const_lengths.
    rewrite (proj2 (Z.ltb_ge _ _)); [by eexists|unfold MAX_CANCEL_ORDER_SIZE; lia]. }
  cbn [mbind option_bind]. eexists. split; [reflexivity|]. unfold map_insert. rewrite Hca, u64_small by lia. split; [|done].
  split; cbn [orderSentTimeMap cancelSentTimeMap orderResponseCount].
  - intros id' t [E1 E2]%H1. split; [done|lia].
  - intros id' t. destruct (decide (id' = id)) as [->|Hne].
    + rewrite lookup_insert_eq. intros [= <-]. split; [done|lia].
    + rewrite lookup_insert_ne by done. intros [E1 E2]%H2. split; [done|lia].
  - intros id'. destruct (decide (id' = id)) as [->|Hne]; [by left|]. rewrite lookup_insert_ne by done. apply H3.
  - unfold outstanding. cbn [orderSentTimeMap cancelSentTimeMap]. rewrite map_size_insert_None by done. lia.
  - by rewrite recorded_put.
Qed.

(** A round trip that ends: its entry leaves the map, and its time is recorded when
    it is positive and the histogram takes it. *)
Lemma order_acked used now ms h id t tr : handler_inv used now ms h -> orderSentTimeMap h !! id = Some t -> now <= tr ->
  let hist := histogram h ++ List.filter keeps [tr - t] in
  calculateRoundTrip tr id (orderSentTimeMap h) (histogram h) = (false, delete id (orderSentTimeMap h), hist) /\
  handler_inv used now (ms ++ [tr - t]) (Handler (delete id (orderSentTimeMap h)) (cancelSentTimeMap h) (orderResponseCount h) hist (outputs h)).
Proof.
  intros [H1 H2 H3 H4 H5] E Ht hist. pose proof (H1 _ _ E) as [_ Hle]. unfold Hft.calculateRoundTrip. rewrite E.
  rewrite (proj2 (Z.ltb_ge _ _)) by lia. cbv zeta. rewrite record_keeps. split; [done|].
  split; cbn [orderSentTimeMap cancelSentTimeMap orderResponseCount].
  - intros id' t' [_ E']%lookup_delete_Some. eauto.
  - done.
  - intros id'. destruct (H3 id') as [Hn|Hn]; [left|by right]. apply lookup_delete_None. by right.
  - rewrite H4. unfold outstanding. cbn [orderSentTimeMap cancelSentTimeMap].
    rewrite zlen_app, map_size_delete_Some by done. change (zlen [tr - t]) with 1.
    assert (size (orderSentTimeMap h) <> 0%nat); [|lia]. intros Hs%map_size_empty_inv. by rewrite Hs in E.
  - rewrite List.filter_app, <- H5. unfold recorded, hist. cbn [outputs histogram]. by rewrite app_assoc.
Qed.
Lemma cancel_acked used now ms h id t tr : handler_inv used now ms h -> cancelSentTimeMap h !! id = Some t -> now <= tr ->
  let hist := histogram h ++ List.filter keeps [tr - t] in
  calculateRoundTrip tr id (cancelSentTimeMap h) (histogram h) = (false, delete id (cancelSentTimeMap h), hist) /\
  handler_inv used now (ms ++ [tr - t]) (Handler (orderSentTimeMap h) (delete id (cancelSentTimeMap h)) (orderResponseCount h) hist (outputs h)).
Proof.
  intros [H1 H2 H3 H4 H5] E Ht hist. pose proof (H2 _ _ E) as [_ Hle]. unfold Hft.calculateRoundTrip. rewrite E.
  rewrite (proj2 (Z.ltb_ge _ _)) by lia. cbv zeta. rewrite record_keeps. split; [done|].
  split; cbn [orderSentTimeMap cancelSentTimeMap orderResponseCount].
  - done.
  - intros id' t' [_ E']%lookup_delete_Some. eauto.
  - intros id'. destruct (H3 id') as [Hn|Hn]; [by left|right]. apply lookup_delete_None. by right.
  - rewrite H4. unfold outstanding. cbn [orderSentTimeMap cancelSentTimeMap].
    rewrite zlen_app, map_size_delete_Some by done. change (zlen [tr - t]) with 1.
    assert (size (cancelSentTimeMap h) <> 0%nat); [|lia]. intros Hs%map_size_empty_inv. by rewrite Hs in E.
  - rewrite List.filter_app, <- H5. unfold recorded, hist. cbn [outputs histogram]. by rewrite app_assoc.
Qed.

Lemma round_trip_unknown tr id m hist : m !! id = None -> calculateRoundTrip tr id m hist = (true, m, hist).
Proof. intros H. unfold Hft.calculateRoundTrip. by rewrite H. Qed.

Lemma handler_inv_later used now ms h id t : handler_inv used now ms h -> now <= t -> handler_inv (id :: used) t ms h.
Proof.
  intros [H1 H2 H3 H4 H5] Ht. split; [| |done|done|done]; intros id' t' E; [apply H1 in E as [E1 E2]|apply H2 in E as [E1 E2]];
    (split; [by right|lia]).
Qed.
Lemma handler_inv_more used now ms h id : handler_inv used now ms h -> handler_inv (id :: used) now ms h.
Proof. intros H. eapply handler_inv_later; [exact H|lia]. Qed.
Lemma handler_eta h : Handler (orderSentTimeMap h) (cancelSentTimeMap h) (orderResponseCount h) (histogram h) (outputs h) = h.
Proof. by destruct h. Qed.

Definition is_uuid (id : cstr) : Prop := zlen id = 36.

Lemma on_message_inv used now ms h msg mo : handler_inv used now ms h -> Forall is_uuid used -> message_ok msg ->
  now <= at_receive mo <= at_send mo -> uuid_v4_gen (rnd mo) ∉ used -> orderResponseCount h < 2 ^ 63 ->
  exists h', on_message h msg mo = Some h' /\
    handler_inv (uuid_v4_gen (rnd mo) :: used) (at_send mo) (ms ++ round_trip_of h msg mo) h' /\
    orderResponseCount h' <= orderResponseCount h + 1.
Proof.
  intros Hi Hu (type & Htype & Hb & Hd) Ht Hnew Hc. unfold Hft.on_message, round_trip_of. rewrite Htype. cbn [mbind option_bind].
  assert (handler_inv (uuid_v4_gen (rnd mo) :: used) (at_send mo) ms h) as Hsame by (eapply handler_inv_later; [exact Hi|lia]).
  case_decide as Eb.
  { destruct (Hb Eb) as (id & pair & -> & -> & Hp). cbn [mbind option_bind].
    destruct (orderSentTimeMap h !! id) as [t|] eqn:E.
    2: { rewrite round_trip_unknown, handler_eta, app_nil_r by done. exists h. split; [done|]. split; [done|lia]. }
    pose proof (hi_orders _ _ _ _ Hi _ _ E) as [Hin Hle]. rewrite (proj2 (Z.ltb_ge (at_receive mo) t)) by lia.
    destruct (order_acked used now ms h id t (at_receive mo) Hi E ltac:(lia)) as [-> Hi1]. set (h1 := Handler _ _ _ _ _) in *.
    assert (orderSentTimeMap h1 !! id = None) as Ho by apply lookup_delete_eq.
    assert (cancelSentTimeMap h1 !! id = None) as Hca by (destruct (hi_disjoint _ _ _ _ Hi id); [congruence|done]).
    assert (zlen id = 36) as Hl by (rewrite Forall_forall in Hu; by apply Hu).
    destruct (send_cancel_inv used now _ h1 mo id pair Hi1 ltac:(lia) Hin Hl Ho Hca Hp Hc) as (h2 & -> & Hi2 & Hc2). cbn [mbind option_bind].
    destruct (check_complete_inv _ _ _ _ Hi2) as (h3 & -> & Hi3 & Hc3). exists h3. split; [done|]. split; [by apply handler_inv_more|].
    rewrite Hc3, Hc2. cbn. lia. }
  case_decide as Ed.
  { destruct (Hd Ed) as (id & ->). cbn [mbind option_bind]. destruct (cancelSentTimeMap h !! id) as [t|] eqn:E.
    2: { rewrite round_trip_unknown, handler_eta, app_nil_r by done. exists h. split; [done|]. split; [done|lia]. }
    pose proof (hi_cancels _ _ _ _ Hi _ _ E) as [Hin Hle]. rewrite (proj2 (Z.ltb_ge (at_receive mo) t)) by lia.
    destruct (cancel_acked used now ms h id t (at_receive mo) Hi E ltac:(lia)) as [-> Hi1]. set (h1 := Handler _ _ _ _ _) in *.
    destruct (send_order_inv used now _ h1 mo Hi1 ltac:(lia) Hnew Hc) as (h2 & -> & Hi2 & Hc2). cbn [mbind option_bind].
    destruct (check_complete_inv _ _ _ _ Hi2) as (h3 & -> & Hi3 & Hc3). exists h3. split; [done|]. split; [done|]. rewrite Hc3, Hc2. cbn. lia. }
  assert (ms ++ match m_client_id msg with Some _ => [] | None => [] end = ms) as -> by (destruct (m_client_id msg); by rewrite app_nil_r).
  case_decide.
  { eexists. split; [reflexivity|]. split; [|cbn; lia]. destruct Hsame as [H1 H2 H3 H4 H5]. split; try done.
    unfold put. by rewrite recorded_put. }
  case_decide; [|exists h; split; [done|split; [done|lia]]].
  destruct (send_order_inv used now ms h mo Hi ltac:(lia) Hnew Hc) as (h2 & -> & Hi2 & Hc2). exists h2. split; [done|]. split; [done|lia].
Qed.

(** No message comes before the sends of the one before: the clock is steady. *)
Fixpoint times_ok (now : Z) (msgs : list (message * moment)) : Prop :=
  match msgs with
  | [] => True
  | (_, mo) :: msgs => now <= at_receive mo <= at_send mo /\ times_ok (at_send mo) msgs
  end.
Definition uuid_of (m : message * moment) : cstr := uuid_v4_gen (rnd (snd m)).

(** The round trips measured over a run. *)
Fixpoint measured_in (h : handler) (msgs : list (message * moment)) : list Z :=
  match msgs with
  | [] => []
  | (msg, mo) :: msgs =>
      round_trip_of h msg mo ++ match on_message h msg mo with Some h => measured_in h msgs | None => [] end
  end.
Lemma run_handler_inv msgs : forall used now ms h, handler_inv used now ms h -> Forall is_uuid used ->
  Forall (fun m => message_ok (fst m)) msgs -> times_ok now msgs -> NoDup (map uuid_of msgs) -> (forall m, m ∈ msgs -> uuid_of m ∉ used) ->
  orderResponseCount h + zlen msgs < 2 ^ 63 ->
  exists h' used' now', run_handler COIN_PAIR TEST_SIZE hdr_record_value h msgs = Some h' /\ handler_inv used' now' (ms ++ measured_in h msgs) h'.
Proof.
  induction msgs as [|[msg mo] msgs IH]; intros used now ms h Hi Hu Hok Ht Hnd Hfresh Hc; cbn [run_handler measured_in].
  { exists h, used, now. by rewrite app_nil_r. }
  apply Forall_cons in Hok as [Hok Hoks]. destruct Ht as [Ht Hts]. cbn [map] in Hnd. apply NoDup_cons in Hnd as [Hn Hnd].
  assert (zlen ((msg, mo) :: msgs) = 1 + zlen msgs) as Hl by (unfold zlen; simpl; lia). pose proof (zlen_nonneg msgs).
  destruct (on_message_inv used now ms h msg mo Hi Hu Hok Ht (Hfresh _ (list_elem_of_here _ _)) ltac:(lia)) as (h1 & -> & Hi1 & Hc1).
  cbn [mbind option_bind]. rewrite app_assoc. apply (IH (uuid_v4_gen (rnd mo) :: used) (at_send mo) _ h1 Hi1); try done.
  - constructor; [unfold is_uuid, zlen; by rewrite uuid_length|done].
  - intros m Hm [He|He]%elem_of_cons; [|by apply (Hfresh m); [right|]].
    apply Hn. change (uuid_of (msg, mo)) with (uuid_v4_gen (rnd mo)). rewrite <- He. apply list_elem_of_fmap. by exists m.
  - lia.
Qed.

Lemma new_handler_inv now : handler_inv [] now [] new_handler.
Proof. split; try done. intros id. by left. Qed.

(** Messages with the fields of their type and symbols that fit, in any order, with
    distinct identifiers and a steady clock: the handler neither fails nor writes
    behind a buffer, and its bookkeeping is exact.  The requests sent are the round
    trips measured and the entries of the two maps, no identifier waits in both
    maps, and what was printed and what the histogram holds are the measured round
    trips that are positive and that it takes, in order.  So answers that repeat,
    are unknown or come out of order are never measured. *)
Theorem handler_accounting (msgs : list (message * moment)) (Hok : Forall (fun m => message_ok (fst m)) msgs)
    (Ht : times_ok 0 msgs) (Hnd : NoDup (map uuid_of msgs)) (Hn : zlen msgs < 2 ^ 63) :
  exists h, run_handler COIN_PAIR TEST_SIZE hdr_record_value new_handler msgs = Some h /\
    orderResponseCount h = zlen (measured_in new_handler msgs) + outstanding h /\
    recorded h = List.filter keeps (measured_in new_handler msgs) /\
    (forall id, orderSentTimeMap h !! id = None \/ cancelSentTimeMap h !! id = None).
Proof.
  destruct (run_handler_inv msgs [] 0 [] new_handler (new_handler_inv 0)) as (h & used & now & E & [_ _ H3 H4 H5]);
    [constructor|done|done|done|set_solver|cbn; lia|].
  exists h. done.
Qed.

(** *** A server that answers each request once *)

Definition one_outstanding (h : handler) (id : cstr) (t : Z) : Prop :=
  orderSentTimeMap h = {[id := t]} /\ cancelSentTimeMap h = ∅ \/ orderSentTimeMap h = ∅ /\ cancelSentTimeMap h = {[id := t]}.
(** BOOKED, with any symbol, for the order that waits, DONE for the cancellation
    that waits; the request was sent at [t]. *)
Definition answers (h : handler) (msg : message) (t : Z) : Prop :=
  exists id pair,
    orderSentTimeMap h = {[id := t]} /\ cancelSentTimeMap h = ∅ /\ msg = Message (Some (lit "BOOKED")) (Some id) (Some pair) \/
    orderSentTimeMap h = ∅ /\ cancelSentTimeMap h = {[id := t]} /\ msg = Message (Some (lit "DONE")) (Some id) (Some pair).
(** A symbol that does not fit the cancellation. *)
Definition too_long (msg : message) : bool :=
  bool_decide (m_type msg = Some (lit "BOOKED")) && match m_instrument_code msg with Some symbol => 33 <? zlen symbol | None => false end.
(** The requests of a test: with TEST_SIZE 1 the check comes after the second. *)
Definition test_requests : Z := Z.max 2 TEST_SIZE.

Definition quiet (out : list output) : Prop := Forall (fun o => exists text, o = OutSend text) out.
Lemma quiet_intervals out : quiet out -> intervals out = [].
Proof. induction 1 as [|o out [text ->] _ IH]; [done|exact IH]. Qed.
Lemma quiet_snoc out text : quiet out -> quiet (out ++ [OutSend text]).
Proof. intros H. apply Forall_app. split; [exact H|]. apply Forall_singleton. by eexists. Qed.

(** After the answers whose round trips are [rts]. *)
Record session (rts : list Z) (now : Z) (h : handler) : Prop := {
  se_inv : exists id t, handler_inv [id] now rts h /\ is_uuid id /\ one_outstanding h id t;
  se_running : zlen rts + 1 < test_requests -> quiet (outputs h);
  se_done : zlen rts + 1 = test_requests ->
    exists sends, outputs h = sends ++ [OutPrint (List.filter keeps rts); OutClose] /\ quiet sends }.

Lemma send_cancel_fields h mo id pair h' : sendCancelOrder h mo id pair = Some h' ->
  orderSentTimeMap h' = orderSentTimeMap h /\ cancelSentTimeMap h' = map_insert (cancelSentTimeMap h) id (at_send mo) /\
  histogram h' = histogram h /\ exists text, outputs h' = outputs h ++ [OutSend text].
Proof. unfold sendCancelOrder. destruct (createCancelOrder _ _); [|done]. intros [= <-]. split_and!; eauto. Qed.
Lemma send_order_fields h mo h' : sendOrder COIN_PAIR h mo = Some h' ->
  orderSentTimeMap h' = map_insert (orderSentTimeMap h) (uuid_v4_gen (rnd mo)) (at_send mo) /\ cancelSentTimeMap h' = cancelSentTimeMap h /\
  histogram h' = histogram h /\ exists text, outputs h' = outputs h ++ [OutSend text].
Proof. unfold sendOrder. destruct (createBuyOrder _ _); [|done]. intros [= <-]. split_and!; eauto. Qed.
(** The message to a symbol that is too long is written behind its buffer. *)
Lemma send_cancel_too_long h mo id pair : zlen id = 36 -> 33 < zlen pair -> sendCancelOrder h mo id pair = None.
Proof.
  intros Hl Hp. unfold sendCancelOrder, createCancelOrder. rewrite write_parts_spec by done. cbn [concat app].
  rewrite !zlen_app, Hl. const_lengths. by rewrite (proj2 (Z.ltb_lt _ _)) by (unfold MAX_CANCEL_ORDER_SIZE; lia).
Qed.

Lemma waiting_count used now rts h id t : handler_inv used now rts h -> one_outstanding h id t -> orderResponseCount h = zlen rts + 1.
Proof.
  intros Hi Ho. rewrite (hi_count _ _ _ _ Hi). unfold outstanding.
  destruct Ho as [[-> ->]|[-> ->]]; rewrite map_size_singleton, map_size_empty; lia.
Qed.

(** The check at the end of an answer, from a state that is still running. *)
Lemma session_check rts now h id t : handler_inv [id] now rts h -> is_uuid id -> one_outstanding h id t -> quiet (outputs h) ->
  1 <= zlen rts -> zlen rts + 1 <= test_requests ->
  exists h', check_complete TEST_SIZE h = Some h' /\ session rts now h'.
Proof.
  intros Hi Hu Ho Hq Hn Hle. destruct (check_complete_inv _ _ _ _ Hi) as (h' & E & Hi' & _).
  assert (histogram h = List.filter keeps rts) as Hh.
  { rewrite <- (hi_recorded _ _ _ _ Hi). unfold recorded. by rewrite quiet_intervals. }
  exists h'. split; [done|]. unfold check_complete in E. rewrite u64_small, (proj2 (Z.eqb_neq TEST_SIZE 0)) in E by lia.
  rewrite (waiting_count _ _ _ _ _ _ Hi Ho) in E. unfold test_requests in *.
  assert ((zlen rts + 1) mod TEST_SIZE = 0 <-> zlen rts + 1 = Z.max 2 TEST_SIZE) as Hmod.
  { destruct (decide (TEST_SIZE = 1)) as [->|]; [rewrite Z.mod_1_r; lia|].
    destruct (decide (zlen rts + 1 = TEST_SIZE)) as [->|]; [rewrite Z_mod_same_full; lia|]. rewrite Z.mod_small by lia. lia. }
  destruct (Z.eqb_spec ((zlen rts + 1) mod TEST_SIZE) 0) as [Hz|Hz]; injection E as <-.
  - apply Hmod in Hz. split; [by exists id, t|unfold test_requests; lia|]. intros _. exists (outputs h). unfold put, hdrPrint. cbn [outputs]. by rewrite <- app_assoc, Hh.
  - split; [by exists id, t|done|]. intros Hd. by destruct Hz; apply Hmod.
Qed.

Lemma session_step rts now h msg t mo : session rts now h -> zlen rts + 1 < test_requests -> answers h msg t -> now <= at_receive mo <= at_send mo ->
  if too_long msg then on_message h msg mo = None
  else exists h', on_message h msg mo = Some h' /\ session (rts ++ [at_receive mo - t]) (at_send mo) h'.
Proof.
  intros [(id0 & t0 & Hi & Hu & _) Hrun _] Hlt Hans Ht. specialize (Hrun Hlt). rename Hrun into Hq.
  assert (zlen (rts ++ [at_receive mo - t]) = zlen rts + 1) as Hz by (by rewrite zlen_app). pose proof (zlen_nonneg rts).
  assert (orderResponseCount h < 2 ^ 63) as Hc.
  { rewrite (hi_count _ _ _ _ Hi). unfold outstanding, test_requests in *. destruct Hans as (id & pair & [(-> & -> & _)|(-> & -> & _)]);
      rewrite map_size_singleton, map_size_empty; lia. }
  destruct Hans as (id & pair & [(Ho & Hca & ->)|(Ho & Hca & ->)]).
  - assert (orderSentTimeMap h !! id = Some t) as E by (rewrite Ho; apply lookup_insert_eq).
    assert (id = id0) as ->. { apply (hi_orders _ _ _ _ Hi) in E as [E _]. set_solver. }
    destruct (order_acked _ _ _ _ _ _ (at_receive mo) Hi E ltac:(lia)) as [Hrt Hi1]. set (h1 := Handler _ _ _ _ _) in *.
    assert (orderSentTimeMap h1 = ∅) as Ho1 by (cbn; rewrite Ho; apply delete_singleton_eq).
    unfold Hft.on_message. cbn [m_type m_client_id m_instrument_code mbind option_bind].
    rewrite decide_True by done. rewrite Hrt. fold h1. unfold too_long. cbn [m_type m_instrument_code].
    rewrite bool_decide_true by done. cbn [andb]. destruct (Z.ltb_spec 33 (zlen pair)) as [Hp|Hp]; [by rewrite send_cancel_too_long|].
    destruct (send_cancel_inv [id0] now _ h1 mo id0 pair Hi1 ltac:(lia) (list_elem_of_here _ _) Hu) as (h2 & E2 & Hi2 & _);
      [by rewrite Ho1|cbn; by rewrite Hca|done|done|].
    destruct (send_cancel_fields _ _ _ _ _ E2) as (F1 & F2 & F3 & text & F4). rewrite E2.
    apply (session_check _ (at_send mo) h2 id0 (at_send mo)); [done|done| | |lia|lia].
    + right. rewrite F1, F2, Ho1. split; [done|]. cbn. rewrite Hca. unfold map_insert. by rewrite lookup_empty.
    + rewrite F4. by apply quiet_snoc.
  - assert (cancelSentTimeMap h !! id = Some t) as E by (rewrite Hca; apply lookup_insert_eq).
    destruct (cancel_acked _ _ _ _ _ _ (at_receive mo) Hi E ltac:(lia)) as [Hrt Hi1]. set (h1 := Handler _ _ _ _ _) in *.
    assert (cancelSentTimeMap h1 = ∅) as Hca1 by (cbn; rewrite Hca; apply delete_singleton_eq).
    assert (handler_inv [] now (rts ++ [at_receive mo - t]) h1) as Hi1'.
    { destruct Hi1 as [H1 H2 H3 H4 H5]. split; [|by rewrite Hca1|done|done|done]. cbn. by rewrite Ho. }
    destruct (send_order_inv [] now _ h1 mo Hi1' ltac:(lia) ltac:(set_solver) Hc) as (h2 & E2 & Hi2 & _).
    destruct (send_order_fields _ _ _ E2) as (F1 & F2 & F3 & text & F4).
    unfold Hft.on_message. cbn [m_type m_client_id m_instrument_code mbind option_bind].
    rewrite decide_False, decide_True by done. cbn [mbind option_bind]. rewrite Hrt. fold h1. rewrite E2. cbn [too_long m_type].
    unfold too_long. cbn [m_type]. rewrite bool_decide_false by done. cbn [andb].
    apply (session_check _ (at_send mo) h2 (uuid_v4_gen (rnd mo)) (at_send mo));
      [done|unfold is_uuid, zlen; by rewrite uuid_length| | |lia|lia].
    + left. rewrite F1, F2, Hca1. split; [|done]. cbn. rewrite Ho. unfold map_insert. by rewrite lookup_empty.
    + rewrite F4. by apply quiet_snoc.
Qed.
End HandlerProofs.

(** *** The test *)

Section Test.
Variable COIN_PAIR : cstr.
Variable TEST_SIZE : Z.
Variable hdr_record_value : Z -> bool.
Variable API_TOKEN : Z.
Notation on_message := (on_message COIN_PAIR TEST_SIZE hdr_record_value).

(** The connection opens, the server authenticates and confirms the
    subscription, and then answers the waiting request each time. *)
Inductive exchange_run : list Z -> Z -> handler -> Prop :=
  | exchange_start id1 pair1 mo1 id2 pair2 mo2 h1 h2 :
      on_message (on_open API_TOKEN new_handler) (Message (Some (lit "AUTHENTICATED")) id1 pair1) mo1 = Some h1 ->
      on_message h1 (Message (Some (lit "SUBSCRIPTIONS")) id2 pair2) mo2 = Some h2 ->
      exchange_run [] (at_send mo2) h2
  | exchange_answer rts now h msg t mo h' :
      exchange_run rts now h -> answers h msg t -> now <= at_receive mo <= at_send mo ->
      on_message h msg mo = Some h' -> exchange_run (rts ++ [at_receive mo - t]) (at_send mo) h'.

Lemma order_fits h mo : (exists h', sendOrder COIN_PAIR h mo = Some h') <-> zlen COIN_PAIR <= 60.
Proof.
  unfold sendOrder, createBuyOrder, MAX_ORDER_SIZE. rewrite write_parts_spec by done. cbn [concat app]. rewrite !zlen_app.
  replace (zlen (uuid_v4_gen (rnd mo))) with 36 by (unfold zlen; by rewrite uuid_length). const_lengths.
  case_match; zb; cbn [mbind option_bind]; (split; [intros [h' Hx]; try done; lia|intros Hx; try lia; by eexists]).
Qed.
Lemma subscription_sends h id pair mo : on_message h (Message (Some (lit "SUBSCRIPTIONS")) id pair) mo = sendOrder COIN_PAIR h mo.
Proof. done. Qed.
(** There is a test exactly when the first order fits its buffer. *)
Lemma exchange_starts : (exists rts now h, exchange_run rts now h) <-> zlen COIN_PAIR <= 60.
Proof.
  split.
  - intros (rts & now & h & Hr). induction Hr as [id1 pair1 mo1 id2 pair2 mo2 h1 h2 _ E|]; [|done].
    rewrite subscription_sends in E. by apply (order_fits h1 mo2); exists h2.
  - intros H. set (mo := Moment 0 0 []). set (h1 := put (on_open API_TOKEN new_handler) (OutSend SUBSCRIBE_MSG)).
    destruct (proj2 (order_fits h1 mo) H) as [h2 E]. exists [], 0, h2. by apply (exchange_start None None mo None None mo h1 h2).
Qed.

Lemma exchange_session rts now h : 1 <= TEST_SIZE < 2147483648 -> exchange_run rts now h ->
  zlen rts + 1 <= test_requests TEST_SIZE -> session TEST_SIZE hdr_record_value rts now h.
Proof.
  intros Htest Hr. pose proof (proj1 exchange_starts (ex_intro _ _ (ex_intro _ _ (ex_intro _ _ Hr)))) as Hpair.
  induction Hr as [id1 pair1 mo1 id2 pair2 mo2 h1 h2 E1 E2|rts now h msg t mo h' Hr IH Ha Ht E]; intros Hle.
  - injection E1 as <-. rewrite subscription_sends in E2.
    set (h0 := put _ _) in E2. assert (handler_inv hdr_record_value [] (at_send mo2) [] h0) as Hi by (split; try done; intros id; by left).
    destruct (send_order_inv COIN_PAIR hdr_record_value Hpair [] (at_send mo2) [] h0 mo2 Hi ltac:(lia) ltac:(set_solver) ltac:(cbn; lia)) as (h3 & E3 & Hi3 & _).
    rewrite E2 in E3. injection E3 as <-. destruct (send_order_fields _ _ _ _ E2) as (F1 & F2 & _ & text & F4). split.
    + exists (uuid_v4_gen (rnd mo2)), (at_send mo2). split; [done|]. split; [unfold is_uuid, zlen; by rewrite uuid_length|]. left.
      rewrite F1, F2. split; [|done]. cbn. unfold map_insert. by rewrite lookup_empty.
    + intros _. rewrite F4. apply quiet_snoc. unfold h0, put, on_open. cbn. repeat (apply Forall_cons_2; [by eexists|]). apply Forall_nil_2.
    + unfold test_requests. change (zlen (@nil Z)) with 0. lia.
  - rewrite zlen_app in Hle. change (zlen [at_receive mo - t]) with 1 in Hle.
    pose proof (session_step COIN_PAIR TEST_SIZE hdr_record_value Hpair Htest rts now h msg t mo (IH ltac:(lia)) ltac:(lia) Ha Ht) as Hs.
    destruct (too_long msg); [by rewrite Hs in E|]. destruct Hs as (h'' & E' & Hs). rewrite E in E'. by injection E' as <-.
Qed.

(** C23: a test of TEST_SIZE requests, at least 1, against a server that answers each
    request once.  There is one exactly when the configured symbol has at most 60
    characters (exchange_starts; a longer one is written behind its buffer).  The
    handler always has exactly one request waiting, and after n answers it has sent
    n + 1 orders and cancellations.  It takes every answer but a confirmation
    whose symbol is longer than 33 characters, which it writes behind a buffer.  It prints,
    saves and closes exactly when it has sent TEST_SIZE requests, not before, or two
    with a TEST_SIZE of 1, as only an answer leads to the check.  What it prints are
    the round trips of the answers, in order, that are positive and that the
    histogram takes: one less than the requests at most, for the last request is not
    waited for. *)
Theorem test_completes (rts : list Z) (now : Z) (h : handler) (Htest : 1 <= TEST_SIZE < 2147483648)
    (Hrun : exchange_run rts now h) (Hle : zlen rts + 1 <= Z.max 2 TEST_SIZE) :
  orderResponseCount h = zlen rts + 1 /\ (exists id t, one_outstanding h id t) /\
  (zlen rts + 1 < Z.max 2 TEST_SIZE -> quiet (outputs h) /\
     forall msg t mo, answers h msg t -> now <= at_receive mo <= at_send mo ->
       if too_long msg then on_message h msg mo = None
       else exists h', on_message h msg mo = Some h' /\ exchange_run (rts ++ [at_receive mo - t]) (at_send mo) h') /\
  (zlen rts + 1 = Z.max 2 TEST_SIZE ->
     exists sends, outputs h = sends ++ [OutPrint (List.filter (keeps hdr_record_value) rts); OutClose] /\ quiet sends).
Proof.
  pose proof (exchange_session rts now h Htest Hrun Hle) as Hs. pose proof Hs as [(id & t & Hi & _ & Ho) Hq Hd].
  pose proof (proj1 exchange_starts (ex_intro _ _ (ex_intro _ _ (ex_intro _ _ Hrun)))) as Hpair.
  split; [by eapply waiting_count|]. split; [by exists id, t|]. split; [|exact Hd].
  intros Hlt. split; [exact (Hq Hlt)|]. intros msg t' mo Ha Ht.
  pose proof (session_step COIN_PAIR TEST_SIZE hdr_record_value Hpair Htest rts now h msg t' mo Hs Hlt Ha Ht) as Hm.
  destruct (too_long msg); [exact Hm|]. destruct Hm as (h' & E & _). exists h'. split; [done|]. by eapply exchange_answer.
Qed.
End Test.

Definition demo_rnd (k : Z) : list Z := map (fun i => (k + Z.of_nat i) mod 256) (seq 0 16).
Definition demo_moment (k : Z) : moment := Moment (k * 100) (k * 100 + 10) (demo_rnd k).
Definition demo_subscribed : message := Message (Some (lit "SUBSCRIPTIONS")) None None.
Definition demo_booked : message := Message (Some (lit "BOOKED")) (Some (uuid_v4_gen (demo_rnd 1))) (Some (lit "BTC_EUR")).

(** A histogram of one hour. *)
Definition demo_takes (v : Z) : bool := (1 <=? v) && (v <=? 3600000000000).
Lemma handler_accounting_witness :
  exists h, run_handler (lit "BTC_EUR") 10 demo_takes new_handler [(demo_subscribed, demo_moment 1); (demo_booked, demo_moment 2); (demo_booked, demo_moment 3)] = Some h /\
    orderResponseCount h = 1 + outstanding h /\ recorded h = [90].
Proof.
  set (msgs := [(demo_subscribed, demo_moment 1); (demo_booked, demo_moment 2); (demo_booked, demo_moment 3)]).
  assert (Forall (fun m => message_ok (fst m)) msgs) as Hok.
  { unfold msgs. apply Forall_cons_2; [eexists; split; [reflexivity|split; discriminate]|].
    assert (message_ok demo_booked).
    { eexists. split; [reflexivity|]. split; [|discriminate]. intros _. eexists _, _. split; [reflexivity|]. split; [reflexivity|]. vm_compute. discriminate. }
    apply Forall_cons_2; [done|]. apply Forall_cons_2; [done|]. apply Forall_nil_2. }
  assert (times_ok 0 msgs) as Ht by (cbn; lia).
  assert (NoDup (map uuid_of msgs)) as Hnd by (apply (bool_decide_unpack _); vm_compute; exact I).
  destruct (handler_accounting (lit "BTC_EUR") 10 demo_takes ltac:(vm_compute; discriminate) ltac:(lia) msgs Hok Ht Hnd ltac:(vm_compute; reflexivity)) as (h & H1 & H2 & H3 & _).
  assert (measured_in (lit "BTC_EUR") 10 demo_takes new_handler msgs = [90]) as Em by (vm_compute; reflexivity).
  rewrite Em in H2, H3. exists h. split; [exact H1|]. split; [exact H2|exact H3].
Defined.

(** A test of one request, which sends two: the order, and the cancellation after its
    confirmation.  A longer test is stuck on a symbol of 34 characters. *)
Definition demo_opened (n : Z) : handler := default new_handler (on_message (lit "BTC_EUR") n demo_takes (on_open 3002 new_handler) (Message (Some (lit "AUTHENTICATED")) None None) (demo_moment 0)).
Definition demo_started (n : Z) : handler := default new_handler (on_message (lit "BTC_EUR") n demo_takes (demo_opened n) demo_subscribed (demo_moment 1)).
Definition demo_finished : handler := default new_handler (on_message (lit "BTC_EUR") 1 demo_takes (demo_started 1) demo_booked (demo_moment 2)).
Definition demo_long_symbol : message := Message (Some (lit "BOOKED")) (Some (uuid_v4_gen (demo_rnd 1))) (Some (replicate 34 "X"%char)).
Lemma demo_run_start n : exchange_run (lit "BTC_EUR") n demo_takes 3002 [] 110 (demo_started n).
Proof. by apply (exchange_start (lit "BTC_EUR") n demo_takes 3002 None None (demo_moment 0) None None (demo_moment 1) (demo_opened n)). Qed.
Lemma demo_answers n pair : answers (demo_started n) (Message (Some (lit "BOOKED")) (Some (uuid_v4_gen (demo_rnd 1))) (Some pair)) 110.
Proof. by exists (uuid_v4_gen (demo_rnd 1)), pair; left. Qed.

Lemma test_completes_witness :
  (exists sends, outputs demo_finished = sends ++ [OutPrint [90]; OutClose] /\ quiet sends /\ length sends = 4%nat) /\
  on_message (lit "BTC_EUR") 10 demo_takes (demo_started 10) demo_long_symbol (demo_moment 2) = None.
Proof.
  split.
  - assert (exchange_run (lit "BTC_EUR") 1 demo_takes 3002 [90] 210 demo_finished) as Hrun.
    { apply (exchange_answer (lit "BTC_EUR") 1 demo_takes 3002 [] 110 (demo_started 1) demo_booked 110 (demo_moment 2));
        [apply demo_run_start|apply demo_answers|cbn; lia|vm_compute; reflexivity]. }
    destruct (test_completes (lit "BTC_EUR") 1 demo_takes 3002 [90] 210 demo_finished ltac:(lia) Hrun ltac:(vm_compute; discriminate)) as (_ & _ & _ & H).
    destruct (H eq_refl) as (sends & H1 & H2). exists sends. split; [exact H1|]. split; [exact H2|].
    assert (length (outputs demo_finished) = 6%nat) as Hl by (vm_compute; reflexivity). rewrite H1, length_app in Hl. cbn [length] in Hl. lia.
  - destruct (test_completes (lit "BTC_EUR") 10 demo_takes 3002 [] 110 (demo_started 10) ltac:(lia) (demo_run_start 10) ltac:(vm_compute; discriminate))
      as (_ & _ & H & _).
    destruct (H ltac:(vm_compute; reflexivity)) as [_ Hm].
    exact (Hm demo_long_symbol 110 (demo_moment 2) (demo_answers 10 _) ltac:(cbn; lia)).
Defined.
