(* ===== verification/HftMain.v ===== *)
(** The exchange client from its configuration to its exit: the values of
    Config.cpp, the histogram log (saveHistogramToFile), ExchangeClient.cpp and
    main.cpp, around the handler of Hft.v.

    The websocket library is seen through the calls the program makes on an
    endpoint, in order, and the events it delivers from run().  An exception that
    leaves a handler leaves run(), and nothing in the program catches it. *)

From S2P Require Import Prelude CText Wire Hft.

(** ** Configuration *)

Definition stol (s : cstr) : option Z :=
  let '(neg, s2) := take_sign (skip_spaces s) in
  if starts_with_digit s2 then
    let v := if (neg : bool) then - fst (digits_acc 0 s2) else fst (digits_acc 0 s2) in
    if (LONG_MIN <=? v) && (v <=? LONG_MAX) then Some v else None
  else None.
Definition getLongProperty (file : option (list cstr)) (key defaultValue : cstr) : option Z := stol (getProperty file key defaultValue).

Record config := Config {
  COIN_PAIRS : list cstr; API_TOKEN : Z; HOST : cstr; HTTP_PORT : Z; WEBSOCKET_PORT : Z; TEST_SIZE : Z; WARMUP_COUNT : Z;
  USE_IOURING : bool; EXCHANGE_CLIENT_COUNT : Z; USE_SSL : bool; KEY_STORE_PASSWORD : cstr; KEY_STORE_PATH : cstr; CIPHERS : cstr }.
(** The static members, before main; None is an exception of stoi or stol. *)
Definition load_config (file : option (list cstr)) : option config :=
  let COIN_PAIRS := getListProperty file (lit "COINPAIRS") (lit "BTC_EUR") in
  API_TOKEN ← getIntegerProperty file (lit "API_TOKEN") (lit "3002");
  let HOST := getProperty file (lit "HOST") (lit "localhost") in
  HTTP_PORT ← getIntegerProperty file (lit "HTTP_PORT") (lit "8888");
  WEBSOCKET_PORT ← getIntegerProperty file (lit "WEBSOCKET_PORT") (lit "8888");
  TEST_SIZE ← getIntegerProperty file (lit "TEST_SIZE") (lit "10000");
  WARMUP_COUNT ← getLongProperty file (lit "WARMUP_COUNT") (lit "5");
  let USE_IOURING := getBooleanProperty file (lit "USE_IOURING") (lit "false") in
  EXCHANGE_CLIENT_COUNT ← getIntegerProperty file (lit "EXCHANGE_CLIENT_COUNT") (lit "16");
  let USE_SSL := getBooleanProperty file (lit "USE_SSL") (lit "false") in
  let KEY_STORE_PASSWORD := getProperty file (lit "KEY_STORE_PASSWORD") (lit "123456") in
  let KEY_STORE_PATH := getProperty file (lit "KEY_STORE_PATH") (lit "keystore.p12") in
  let CIPHERS := getProperty file (lit "CIPHERS") (lit "AES256-GCM-SHA384") in
  Some (Config COIN_PAIRS API_TOKEN HOST HTTP_PORT WEBSOCKET_PORT TEST_SIZE WARMUP_COUNT USE_IOURING EXCHANGE_CLIENT_COUNT
          USE_SSL KEY_STORE_PASSWORD KEY_STORE_PATH CIPHERS).

(** ** The histogram log *)

Inductive log_item :=
  | LogHeader (tool : cstr) (start : Z)
  | LogInterval (start : option Z) (stop : Z) (values : list Z).
(** histogramStartTimeSpec, None before it is first written, and what was appended to
    the file. *)
Record hdr_log := HdrLog { histogramStartTime : option Z; log_items : list log_item }.
Definition log_path (host : cstr) : cstr := map (fun c => if decide (c = "."%char) then "_"%char else c) host ++ lit "/histogram_cpp.hlog".
Definition saveHistogramToFile (opened : bool) (now : Z) (values : list Z) (l : hdr_log) : hdr_log :=
  if negb opened then l
  else HdrLog (Some now) (log_items l ++ [LogHeader (lit "C++ HFT Client 0.0.1") now; LogInterval (histogramStartTime l) now values]).

(** ** The endpoint *)

Inductive ws_call :=
  | SetTlsInitHandler | InitAsio | SetOpenHandler | SetCloseHandler | SetMessageHandler | ClearChannels
  | GetConnection (uri : cstr) | Connect | Run | Stop.
(** A null pointer, or an exception or what else is None in Hft.v. *)
Inductive fault := NullPointer | Exception.
#[export] Instance ws_call_eq_dec : EqDecision ws_call.
Proof. solve_decision. Defined.
Notation endpoint := (list ws_call).

(** The members, with those of the handler, its log among them.  Nothing assigns
    the handler's connection handle: get_hdl returns an empty one. *)
Record exchange_client := ExchangeClient {
  ec_apiToken : Z; ec_uri : cstr; ec_handler : handler; ec_log : hdr_log;
  ec_ssl_client : option endpoint; ec_non_ssl_client : option endpoint }.
Definition get_hdl (c : exchange_client) : option nat := None.

Section client.
Variable cfg : config.
(** The histogram of the handler, as in Hft.v. *)
Variable hdr_record_value : Z -> bool.

(** m_ssl_client or m_non_ssl_client, as USE_SSL says. *)
Definition endpoint_of (c : exchange_client) : option endpoint := if USE_SSL cfg then ec_ssl_client c else ec_non_ssl_client c.
Definition ws (calls : list ws_call) (c : exchange_client) : exchange_client + fault :=
  match endpoint_of c with
  | None => inr NullPointer
  | Some ep =>
      let ep := Some (ep ++ calls) in
      inl (if USE_SSL cfg then ExchangeClient (ec_apiToken c) (ec_uri c) (ec_handler c) (ec_log c) ep (ec_non_ssl_client c)
           else ExchangeClient (ec_apiToken c) (ec_uri c) (ec_handler c) (ec_log c) (ec_ssl_client c) ep)
  end.

(** The members are constructed first: the maps of the handler get TEST_SIZE
    buckets, converted to size_t, which fails for a negative number ([memory] is
    whether a positive one is available). *)
Definition new_ExchangeClient (memory : bool) (apiToken : Z) (uri : cstr) : exchange_client + fault :=
  if (TEST_SIZE cfg <? 0) || negb memory then inr Exception
  else
    let c := ExchangeClient apiToken uri new_handler (HdrLog None []) in
    if USE_SSL cfg then
      ws [SetTlsInitHandler; InitAsio; SetOpenHandler; SetCloseHandler; SetMessageHandler; ClearChannels] (c (Some []) None)
    else ws [InitAsio; SetOpenHandler; SetCloseHandler; SetMessageHandler; ClearChannels] (c None (Some [])).
(** m_thread is never started, so that there is nothing to join. *)
Definition destroy_ExchangeClient (c : exchange_client) : exchange_client + fault := ws [Stop] c.

(** What run() delivers; a message with the clocks of its handling and whether the
    log can be opened then. *)
Inductive ws_event :=
  | EvOpen
  | EvMessage (msg : message) (mo : moment) (realtime : Z) (opened : bool)
  | EvClose.

Definition with_handler (c : exchange_client) (h : handler) (l : hdr_log) : exchange_client :=
  ExchangeClient (ec_apiToken c) (ec_uri c) h l (ec_ssl_client c) (ec_non_ssl_client c).
(** The log after a message: SUBSCRIPTIONS sets the start time, and each histogram
    printed is saved. *)
Definition log_message (msg : message) (realtime : Z) (opened : bool) (printed : list output) (l : hdr_log) : hdr_log :=
  let l := if decide (m_type msg = Some (lit "SUBSCRIPTIONS")) then HdrLog (Some realtime) (log_items l) else l in
  fold_left (fun l o => match o with OutPrint values => saveHistogramToFile opened realtime values l | _ => l end) printed l.

(** A handler runs when it was registered. *)
Definition dispatch (c : exchange_client) (ev : ws_event) : exchange_client + fault :=
  match endpoint_of c with
  | None => inr NullPointer
  | Some ep =>
      match ev with
      | EvOpen => inl (if decide (SetOpenHandler ∈ ep) then with_handler c (on_open (ec_apiToken c) (ec_handler c)) (ec_log c) else c)
      | EvClose => inl c
      | EvMessage msg mo realtime opened =>
          if decide (SetMessageHandler ∈ ep) then
            match COIN_PAIRS cfg with
            | [] => inr NullPointer
            | coin_pair :: _ =>
                match on_message coin_pair (TEST_SIZE cfg) hdr_record_value (ec_handler c) msg mo with
                | None => inr Exception
                | Some h =>
                    inl (with_handler c h (log_message msg realtime opened (drop (length (outputs (ec_handler c))) (outputs h)) (ec_log c)))
                end
            end
          else inl c
      end
  end.
Fixpoint run_events (c : exchange_client) (events : list ws_event) : exchange_client + fault :=
  match events with
  | [] => inl c
  | ev :: events => match dispatch c ev with inl c => run_events c events | inr e => inr e end
  end.

(** [failed] is the error code of get_connection. *)
Definition connect (failed : bool) (events : list ws_event) (c : exchange_client) : exchange_client + fault :=
  let uri := (if USE_SSL cfg then lit "wss://" else lit "ws://") ++ ec_uri c in
  match ws [GetConnection uri] c with
  | inr e => inr e
  | inl c =>
      if failed then inl c
      else match ws [Connect; Run] c with inl c => run_events c events | inr e => inr e end
  end.

(** Closing through an empty handle throws. *)
Definition close (c : exchange_client) : exchange_client + fault :=
  match endpoint_of c with
  | None => inr NullPointer
  | Some _ => match get_hdl c with Some _ => inl c | None => inr Exception end
  end.
(** get_con_from_hdl throws as well. *)
Definition disconnect (c : exchange_client) : exchange_client + fault :=
  match endpoint_of c with
  | None => inr NullPointer
  | Some _ => match get_hdl c with Some _ => inl c | None => inr Exception end
  end.

(** The TLS context: what the options and the cipher list are set to; a refused
    list leaves the default. *)
Record tls_context := TlsContext { default_workarounds : bool; cipher_list : option cstr }.
Definition tls_init_handler (options_ok : bool) (accepted : cstr -> bool) : tls_context :=
  TlsContext options_ok (if accepted (CIPHERS cfg) then Some (CIPHERS cfg) else None).

(** string::find, npos when there is none, and substr, None when it throws. *)
Definition npos : Z := ULONG_MAX.
Fixpoint find_from (i : Z) (p s : cstr) : Z :=
  if starts_with p s then i else match s with [] => npos | _ :: s => find_from (i + 1) p s end.
Definition substr (s : cstr) (pos n : Z) : option cstr :=
  if zlen s <? pos then None else Some (take (Z.to_nat n) (drop (Z.to_nat pos) s)).
(** The text of the request, which is not sent; None is the exception caught. *)
Definition addBalances (uri : cstr) (apiToken : Z) (qt : cstr) : option cstr :=
  let after_scheme := u64 (find_from 0 (lit "://") uri + 3) in
  scheme ← substr uri 0 after_scheme;
  rest ← substr uri after_scheme npos;
  Some (scheme ++ rest ++ lit "/private/account/user/balances/" ++ to_string apiToken ++ lit "/" ++ qt ++ lit "/" ++ to_string 100000000).
End client.

(** ** main *)

Inductive main_result := Exit (code : Z) (c : exchange_client) | Terminated (e : fault).
Definition exchange_main (hdr_record_value : Z -> bool) (file : option (list cstr)) (memory failed : bool) (events : list ws_event) : main_result :=
  match load_config file with
  | None => Terminated Exception
  | Some cfg =>
      let uri := HOST cfg ++ lit ":" ++ to_string (WEBSOCKET_PORT cfg) in
      match new_ExchangeClient cfg memory (API_TOKEN cfg) uri with
      | inr e => Terminated e
      | inl c =>
          match connect cfg hdr_record_value failed events c with
          | inr e => Terminated e
          | inl c =>
              match destroy_ExchangeClient cfg c with inl c => Exit 0 c | inr e => Terminated e end
          end
      end
  end.

(** ** Proofs *)

Lemma coin_pairs_nonempty file cfg : load_config file = Some cfg -> COIN_PAIRS cfg <> [].
Proof.
  unfold load_config. intros H. case_hyp H. unfold mbind, option_bind in H. case_hyp H.
  unfold getListProperty, getProperty. set (v := match file with Some _ => _ | None => _ end).
  assert (forall cur s, cur ++ s <> [] -> list_tokens cur s <> []) as Hl.
  { intros cur t. revert cur. induction t as [|c t IH]; intros cur Hc; cbn [list_tokens].
    - rewrite app_nil_r in Hc. by destruct cur.
    - destruct (decide (c = ","%char)); [done|]. apply IH. by destruct cur. }
  apply Hl. by destruct v.
Qed.

Section steps.
Variable cfg : config.



(** Intervals that follow one another, the last one over by [last]. *)
Inductive log_wf : list log_item -> Z -> Prop :=
  | log_empty last : log_wf [] last
  | log_saved items last start now tool values : log_wf items last -> last <= start <= now ->
      log_wf (items ++ [LogHeader tool now; LogInterval (Some start) now values]) now.
(** The start time is set as soon as a request can wait. *)
Definition log_ok (clock : Z) (h : handler) (l : hdr_log) : Prop :=
  match histogramStartTime l with
  | None => log_items l = [] /\ orderSentTimeMap h = ∅ /\ cancelSentTimeMap h = ∅
  | Some start => start <= clock /\ exists last, log_wf (log_items l) last /\ last <= start
  end.
Lemma log_wf_later items last last' : log_wf items last -> last <= last' -> exists l, log_wf items l /\ l <= last'.
Proof. intros H Hl. by exists last. Qed.

End steps.

(** *** A session *)



Section session.
Variable cfg : config.
Variable takes : Z -> bool.
Variable ep : endpoint.
Context (Hopen : SetOpenHandler ∈ ep) (Hmessage : SetMessageHandler ∈ ep).
Variable coin_pair : cstr.
Variable more : list cstr.
Context (Hpairs : COIN_PAIRS cfg = coin_pair :: more) (Hpair : zlen coin_pair <= 60) (Htest : 1 <= TEST_SIZE cfg < 2147483648).



Lemma on_open_log token clock h l : log_ok clock h l -> log_ok clock (on_open token h) l.
Proof. done. Qed.

End session.

(** *** From main *)

Definition setup_calls (ssl : bool) : list ws_call :=
  (if ssl then [SetTlsInitHandler] else []) ++ [InitAsio; SetOpenHandler; SetCloseHandler; SetMessageHandler; ClearChannels].

Lemma ws_spec cfg c ep calls : endpoint_of cfg c = Some ep ->
  exists c', ws cfg calls c = inl c' /\ endpoint_of cfg c' = Some (ep ++ calls) /\
    ec_handler c' = ec_handler c /\ ec_log c' = ec_log c /\ ec_uri c' = ec_uri c /\ ec_apiToken c' = ec_apiToken c.
Proof. intros H. unfold ws. rewrite H. eexists. split; [done|]. unfold endpoint_of. by destruct (USE_SSL cfg). Qed.
Lemma new_client_spec cfg token uri : 0 <= TEST_SIZE cfg ->
  exists c, new_ExchangeClient cfg true token uri = inl c /\ endpoint_of cfg c = Some (setup_calls (USE_SSL cfg)) /\
    ec_handler c = new_handler /\ ec_log c = HdrLog None [] /\ ec_uri c = uri /\ ec_apiToken c = token.
Proof.
  intros H. unfold new_ExchangeClient. rewrite (proj2 (Z.ltb_ge _ _)) by done. cbn [negb orb]. unfold ws, endpoint_of, setup_calls.
  destruct (USE_SSL cfg) eqn:E; cbn; eexists; (split; [done|]); by rewrite ?E.
Qed.



(** *** What cannot happen, and what always does *)

Lemma with_handler_endpoint cfg c h l : endpoint_of cfg (with_handler c h l) = endpoint_of cfg c.
Proof. done. Qed.
Lemma dispatch_endpoint cfg takes c ev ep : COIN_PAIRS cfg <> [] -> endpoint_of cfg c = Some ep ->
  match dispatch cfg takes c ev with inl c' => endpoint_of cfg c' = Some ep | inr e => e = Exception end.
Proof.
  intros Hp H. unfold dispatch. rewrite H. destruct ev as [|msg mo realtime opened|]; [by case_decide| |done]. case_decide; [|done].
  destruct (COIN_PAIRS cfg); [done|]. by destruct (on_message _ _ _ _ _ _).
Qed.
Lemma run_events_endpoint cfg takes events : COIN_PAIRS cfg <> [] -> forall c ep, endpoint_of cfg c = Some ep ->
  match run_events cfg takes c events with inl c' => endpoint_of cfg c' = Some ep | inr e => e = Exception end.
Proof.
  intros Hp. induction events as [|ev events IH]; intros c ep H; [done|]. cbn [run_events].
  pose proof (dispatch_endpoint cfg takes c ev ep Hp H). destruct (dispatch cfg takes c ev); [by apply IH|done].
Qed.
(** The program never follows the pointer to the endpoint that it has not made, and
    always has a symbol to trade, whatever its configuration and the events. *)
Lemma main_no_null_pointer takes file memory failed events : exchange_main takes file memory failed events <> Terminated NullPointer.
Proof.
  unfold exchange_main. destruct (load_config file) as [cfg|] eqn:Ec; [|discriminate]. pose proof (coin_pairs_nonempty _ _ Ec) as Hp.
  set (uri := HOST cfg ++ _).
  destruct (decide (TEST_SIZE cfg < 0 \/ memory = false)) as [Hb|Hb].
  { unfold new_ExchangeClient. replace ((TEST_SIZE cfg <? 0) || negb memory) with true; [discriminate|]. destruct Hb as [H| ->].
    - by rewrite (proj2 (Z.ltb_lt _ _) H).
    - by rewrite orb_true_r. }
  assert (memory = true) as -> by (destruct memory; tauto).
  destruct (new_client_spec cfg (API_TOKEN cfg) uri ltac:(lia)) as (c0 & -> & H0 & _). unfold connect.
  destruct (ws_spec cfg c0 _ [GetConnection ((if USE_SSL cfg then lit "wss://" else lit "ws://") ++ ec_uri c0)] H0) as (c1 & -> & H1 & _).
  unfold destroy_ExchangeClient. destruct failed; [destruct (ws_spec cfg c1 _ [Stop] H1) as (c2 & -> & _); discriminate|].
  destruct (ws_spec cfg c1 _ [Connect; Run] H1) as (c2 & -> & H2 & _).
  pose proof (run_events_endpoint cfg takes events Hp c2 _ H2). destruct (run_events cfg takes c2 events) as [c3|e]; [|subst e; discriminate].
  destruct (ws_spec cfg c3 _ [Stop] H) as (c4 & -> & _). discriminate.
Qed.

(** No client can be closed or disconnected: the handle they use is never set. *)
Lemma close_always_throws cfg c ep : endpoint_of cfg c = Some ep -> close cfg c = inr Exception /\ disconnect cfg c = inr Exception.
Proof. intros H. unfold close, disconnect. by rewrite H. Qed.

(** The position found, if any, is that of an occurrence. *)
Lemma find_from_spec p s : forall i, find_from i p s = npos \/ i <= find_from i p s /\ find_from i p s + zlen p <= i + zlen s.
Proof.
  induction s as [|c s IH]; intros i; cbn [find_from].
  - destruct p; [right; cbn; unfold zlen; cbn; lia|by left].
  - destruct (starts_with p (c :: s)) eqn:E.
    + right. split; [lia|]. assert (zlen p <= zlen (c :: s)); [|lia]. clear IH. revert E. generalize (c :: s).
      induction p as [|d p IHp]; intros t Ht; [apply zlen_nonneg|]. destruct t as [|e t]; [done|]. cbn in Ht.
      apply andb_true_iff in Ht as [_ Ht]. specialize (IHp t Ht). unfold zlen in *. cbn [length]. lia.
    + destruct (IH (i + 1)) as [H|H]; [by left|]. right. unfold zlen in *. cbn [length]. lia.
Qed.
(** The wrap-around of npos + 3 does no harm: the text starts with the whole URI,
    with or without a scheme. *)
Lemma add_balances_text uri token qt : 2 <= zlen uri < 2 ^ 63 ->
  addBalances uri token qt = Some (uri ++ lit "/private/account/user/balances/" ++ to_string token ++ lit "/" ++ qt ++ lit "/100000000").
Proof.
  intros H. unfold addBalances. cbv zeta. assert (0 <= u64 (find_from 0 (lit "://") uri + 3) <= zlen uri) as Hk.
  { destruct (find_from_spec (lit "://") uri 0) as [->|H2]; [change (u64 (npos + 3)) with 2; lia|].
    change (zlen (lit "://")) with 3 in H2. rewrite u64_small; [lia|]. change (2 ^ 63) with 9223372036854775808 in H. lia. }
  set (k := u64 _) in *. clearbody k. unfold substr. rewrite !(proj2 (Z.ltb_ge _ _)) by lia. cbn [mbind option_bind].
  change (drop (Z.to_nat 0) uri) with uri. rewrite (take_ge (drop _ _)).
  2: { rewrite length_drop. unfold npos, ULONG_MAX, zlen in *. change (2 ^ 63) with 9223372036854775808 in H. lia. }
  rewrite (app_assoc (take _ _)), take_drop. done.
Qed.
