(* ===== verification/Args.v ===== *)
(** Command lines of timestamp_client.c and timestamp_server.c: the options both
    programs have, the client's and the server's own options, the checks made
    before the program starts, and the dispatch to the modes.

    getopt_long is given by the list of what it returns.  None is an exit with
    EXIT_FAILURE, which every error and --help take. *)

From S2P Require Import Prelude CText Ring Heap StatsCollector Logging.

(** ** Options of both programs *)

Record csv_config_t := CsvConfig {
  cc_enabled : bool; cc_filename : cstr; cc_tx_filename : cstr; cc_log_cpu : Z }.

(** The sizes of the two file name arrays. *)
Definition FILENAME_SIZE : Z := 256.

(** The suffix of the buffer size. *)
Definition apply_suffix (size : Z) (rest : cstr) : option Z :=
  match rest with
  | [] => Some size
  | c :: _ =>
      if bool_decide (c ∈ lit "Mm") then Some (u64 (size * 1000000))
      else if bool_decide (c ∈ lit "Kk") then Some (u64 (size * 1000))
      else None
  end.
Definition in_range (lo hi v : Z) : bool := negb ((v <? lo) || (hi <? v)).

Definition parse_buffer_size (token : cstr) (config : stats_config_t) : option stats_config_t :=
  let '(size, endptr) := strtoul token in
  size ← apply_suffix size endptr;
  if in_range 10000 10000000 size
  then Some (StatsConfig (sf_enabled config) (u32 size) (sf_bin_width_us config) (sf_max_bins config))
  else None.

(** The tokens after the first. *)
Fixpoint parse_stats_parameters (tokens : list cstr) (config : stats_config_t) : option stats_config_t :=
  match tokens with
  | [] => Some config
  | token :: tokens =>
      let '(StatsConfig enabled size bw bn) := config in
      if starts_with (lit "bw=") token then
        let bin_width := fst (strtoul (drop 3 token)) in
        if in_range 1 1000 bin_width
        then parse_stats_parameters tokens (StatsConfig enabled size (u32 bin_width) bn) else None
      else if starts_with (lit "bn=") token then
        let bin_count := fst (strtoul (drop 3 token)) in
        if in_range 10 10000 bin_count
        then parse_stats_parameters tokens (StatsConfig enabled size bw (u32 bin_count)) else None
      else None
  end.
Definition parse_stats_argument (strdup_ok : bool) (arg : cstr) (config : stats_config_t) : option stats_config_t :=
  if negb strdup_ok then None
  else match strtok_all COMMA arg with
       | [] => Some config
       | token :: tokens => config ← parse_buffer_size token config; parse_stats_parameters tokens config
       end.
(** timestamp_server.c has its own copy of this function and of the two that read
    the logging options, with the same text. *)
Definition server_parse_stats_argument : bool -> cstr -> stats_config_t -> option stats_config_t := parse_stats_argument.
Definition server_parse_log_level : cstr -> option Z := parse_log_level.
Definition server_parse_log_components : bool -> Z -> cstr -> option cstr -> log_state -> components_result := parse_log_components.

(** The name of the TX timestamp file. *)
Definition derive_tx_filename (csv_filename : cstr) : cstr :=
  match strrchr_off csv_filename DOT with
  | Some dot => snprintf_dst FILENAME_SIZE (take dot csv_filename ++ lit "_tx" ++ drop dot csv_filename)
  | None => snprintf_dst FILENAME_SIZE (csv_filename ++ lit "_tx.csv")
  end.

Inductive common_option :=
  | OptOutputCsv (optarg : option cstr) | OptLogCpu (optarg : cstr) | OptStats (optarg : option cstr)
  | OptLogLevel (optarg : cstr) | OptLogComponent (optarg : cstr) | OptTxTimestampCpu (optarg : cstr)
  | OptHelp | OptUnknown.

Record common_args := CommonArgs {
  ca_csv : csv_config_t; ca_stats : stats_config_t; ca_log : log_state; ca_tx_timestamp_cpu : Z }.
Definition common_args_init : common_args :=
  CommonArgs (CsvConfig false [] [] 0) (StatsConfig false 5000000 10 1000) log_state_init 0.

(** Name of the program in the default file name, process id, and whether
    strdup succeeds. *)
Record prog_env := ProgEnv { pe_default_name : cstr; pe_pid : Z; pe_strdup_ok : bool; pe_now : cstr; pe_line : Z }.

Definition parse_common (env : prog_env) (o : common_option) (a : common_args) : option common_args :=
  let '(CommonArgs csv stats log tx_cpu) := a in
  match o with
  | OptOutputCsv optarg =>
      let csv_filename :=
        match optarg with
        | Some optarg => strncpy optarg (Z.to_nat (FILENAME_SIZE - 1))
        | None => snprintf_dst FILENAME_SIZE (pe_default_name env ++ fmt_u (pe_pid env) ++ lit ".csv")
        end in
      Some (CommonArgs (CsvConfig true csv_filename (derive_tx_filename csv_filename) (cc_log_cpu csv)) stats log tx_cpu)
  | OptLogCpu optarg =>
      let log_cpu := atoi optarg in
      if log_cpu <? 0 then None
      else Some (CommonArgs (CsvConfig (cc_enabled csv) (cc_filename csv) (cc_tx_filename csv) log_cpu) stats log tx_cpu)
  | OptStats optarg =>
      let stats := StatsConfig true (sf_buffer_size stats) (sf_bin_width_us stats) (sf_max_bins stats) in
      stats ← match optarg with
              | Some optarg => parse_stats_argument (pe_strdup_ok env) optarg stats
              | None => Some (StatsConfig true 5000000 10 1000)
              end;
      Some (CommonArgs csv stats log tx_cpu)
  | OptLogLevel optarg =>
      level ← parse_log_level optarg;
      Some (CommonArgs csv stats (hw_log_set_level level log) tx_cpu)
  | OptLogComponent optarg =>
      match parse_log_components (pe_strdup_ok env) (pe_line env) (pe_now env) (Some optarg) log with
      | ComponentsSet log => Some (CommonArgs csv stats log tx_cpu)
      | ComponentsExit _ _ => None
      end
  | OptTxTimestampCpu optarg =>
      let cpu := atoi optarg in
      if cpu <? 0 then None else Some (CommonArgs csv stats log cpu)
  | OptHelp | OptUnknown => None
  end.

(** ** The client *)

Inductive client_option :=
  | CDstIp (optarg : cstr) | CDstPort (optarg : cstr) | CPps (optarg : cstr) | CPktSize (optarg : cstr)
  | CTxInterface (optarg : cstr) | CTime (optarg : cstr) | CTxCpu (optarg : cstr) | CRxCpu (optarg : cstr)
  | CRxPort (optarg : cstr) | CRoundTrip | COneWay | CRxInterface (optarg : cstr)
  | CCommon (o : common_option).

Record client_args := ClientArgs {
  cl_dest_ip : option cstr; cl_dest_port : Z; cl_pps : Z; cl_packet_size : Z; cl_duration_seconds : Z;
  cl_tx_cpu : Z; cl_rx_cpu : Z; cl_rx_port : Z; cl_round_trip_mode : bool; cl_one_way_mode : bool;
  cl_tx_interface : option cstr; cl_rx_interface : option cstr; cl_common : common_args }.
Definition client_args_init : client_args :=
  ClientArgs None 0 0 0 0 4 5 0 false false None None common_args_init.

Definition client_option_step (env : prog_env) (o : client_option) (a : client_args) : option client_args :=
  let '(ClientArgs ip port pps size dur tx rx rxp rt ow txi rxi com) := a in
  match o with
  | CDstIp optarg => Some (ClientArgs (Some optarg) port pps size dur tx rx rxp rt ow txi rxi com)
  | CDstPort optarg => Some (ClientArgs ip (atoi optarg) pps size dur tx rx rxp rt ow txi rxi com)
  | CPps optarg => Some (ClientArgs ip port (atoi optarg) size dur tx rx rxp rt ow txi rxi com)
  | CPktSize optarg => Some (ClientArgs ip port pps (atoi optarg) dur tx rx rxp rt ow txi rxi com)
  | CTxInterface optarg => Some (ClientArgs ip port pps size dur tx rx rxp rt ow (Some optarg) rxi com)
  | CTime optarg => Some (ClientArgs ip port pps size (atoi optarg) tx rx rxp rt ow txi rxi com)
  | CTxCpu optarg => Some (ClientArgs ip port pps size dur (atoi optarg) rx rxp rt ow txi rxi com)
  | CRxCpu optarg => Some (ClientArgs ip port pps size dur tx (atoi optarg) rxp rt ow txi rxi com)
  | CRxPort optarg => Some (ClientArgs ip port pps size dur tx rx (atoi optarg) rt ow txi rxi com)
  | CRoundTrip => Some (ClientArgs ip port pps size dur tx rx rxp true ow txi rxi com)
  | COneWay => Some (ClientArgs ip port pps size dur tx rx rxp rt true txi rxi com)
  | CRxInterface optarg => Some (ClientArgs ip port pps size dur tx rx rxp rt ow txi (Some optarg) com)
  | CCommon o => com ← parse_common env o com; Some (ClientArgs ip port pps size dur tx rx rxp rt ow txi rxi com)
  end.
Fixpoint parse_opts {O A} (step : O -> A -> option A) (opts : list O) (a : A) : option A :=
  match opts with
  | [] => Some a
  | o :: opts => a ← step o a; parse_opts step opts a
  end.

Definition MAX_PACKET_SIZE : Z := 1500.
Definition is_none {A} (o : option A) : bool := match o with None => true | Some _ => false end.

(** The checks after the options, in their order. *)
Definition client_checks (a : client_args) : option client_args :=
  let csv := ca_csv (cl_common a) in
  if negb (cc_log_cpu csv =? 0) && negb (cc_enabled csv) then None
  else if negb (cl_one_way_mode a) && negb (cl_round_trip_mode a) then None
  else if cl_one_way_mode a && cl_round_trip_mode a then None
  else if is_none (cl_dest_ip a) || (cl_dest_port a =? 0) || (cl_pps a =? 0) || (cl_packet_size a =? 0) then None
  else if (cl_dest_port a <=? 0) || (65535 <? cl_dest_port a) then None
  else if (cl_pps a <=? 0) || (cl_packet_size a <? 12) then None
  else if MAX_PACKET_SIZE <? cl_packet_size a then None
  else if cl_duration_seconds a <? 0 then None
  else if (0 <? cl_rx_port a) && ((cl_rx_port a <=? 0) || (65535 <? cl_rx_port a)) then None
  else if cl_one_way_mode a && negb (cl_rx_cpu a =? 5) then None
  else if cl_one_way_mode a && (0 <? cl_rx_port a) then None
  else if cl_one_way_mode a && negb (is_none (cl_rx_interface a)) then None
  else if cl_round_trip_mode a && (cl_rx_port a =? 0) then None
  else if cl_round_trip_mode a && is_none (cl_rx_interface a) then None
  else
    let tx_cpu_specified := negb (cl_tx_cpu a =? 4) in
    let rx_cpu_specified := negb (cl_rx_cpu a =? 5) in
    if cl_one_way_mode a then
      let '(ClientArgs ip port pps size dur tx rx rxp rt ow txi rxi com) := a in
      Some (ClientArgs ip port pps size dur tx (if tx_cpu_specified then 5 else rx) rxp rt ow txi rxi com)
    else if cl_round_trip_mode a then
      if tx_cpu_specified && negb rx_cpu_specified then None
      else if negb tx_cpu_specified && rx_cpu_specified then None
      else Some a
    else Some a.

(** What main calls, with its arguments. *)
Inductive client_run :=
  | RunClientOneway (dest_ip : option cstr) (dest_port pps packet_size duration_seconds tx_cpu : Z)
      (tx_interface : option cstr)
  | RunClientRoundtrip (dest_ip : option cstr) (dest_port pps packet_size duration_seconds tx_cpu rx_cpu rx_port : Z)
      (tx_interface rx_interface : option cstr).

(** The collector, when statistics are on. *)
Definition start_stats (ok : nat -> bool) (h : heap) (config : stats_config_t) (mode : stats_mode_type_t)
    : option (option stats_collector_t) * heap :=
  if sf_enabled config then
    match create_stats_collector ok h (sf_buffer_size config) mode with
    | (None, h) => (None, h)
    | (Some stats, h) => (Some (Some stats), h)
    end
  else (Some None, h).

(** Configuration, logging state and collector the mode starts with. *)
Record started {R} := Started { sd_run : R; sd_common : common_args; sd_stats : option stats_collector_t; sd_heap : heap }.
Arguments started : clear implicits.

Definition client_dispatch (a : client_args) : client_run :=
  if cl_one_way_mode a
  then RunClientOneway (cl_dest_ip a) (cl_dest_port a) (cl_pps a) (cl_packet_size a) (cl_duration_seconds a)
         (cl_tx_cpu a) (cl_tx_interface a)
  else RunClientRoundtrip (cl_dest_ip a) (cl_dest_port a) (cl_pps a) (cl_packet_size a) (cl_duration_seconds a)
         (cl_tx_cpu a) (cl_rx_cpu a) (cl_rx_port a) (cl_tx_interface a) (cl_rx_interface a).

(** hw_log_init, after the options. *)
Definition init_logging (env_level : option cstr) (com : common_args) : common_args :=
  CommonArgs (ca_csv com) (ca_stats com) (hw_log_init env_level (ca_log com)) (ca_tx_timestamp_cpu com).

Definition client_main (env : prog_env) (env_level : option cstr) (ok : nat -> bool) (h : heap)
    (opts : list client_option) : option (started client_run) :=
  a ← parse_opts (client_option_step env) opts client_args_init;
  a ← client_checks a;
  let com := init_logging env_level (cl_common a) in
  let mode := if cl_one_way_mode a then STATS_CLIENT_ONEWAY else STATS_CLIENT_ROUNDTRIP in
  let '(stats, h) := start_stats ok h (ca_stats com) mode in
  stats ← stats;
  Some (Started _ (client_dispatch a) com stats h).

(** ** The server *)

Inductive server_option :=
  | SRxInterface (optarg : cstr) | SPort (optarg : cstr) | SOneWay | SRoundTrip | STxInterface (optarg : cstr)
  | SRxCpu (optarg : cstr) | STxCpu (optarg : cstr) | STime (optarg : cstr) | SCommon (o : common_option).

Record server_args := ServerArgs {
  sa_rx_if_name : option cstr; sa_tx_if_name : option cstr; sa_port : Z; sa_one_way_mode : bool;
  sa_round_trip_mode : bool; sa_rx_cpu : Z; sa_tx_cpu : Z; sa_time_seconds : Z; sa_common : common_args }.
Definition server_args_init : server_args := ServerArgs None None 0 false false 4 5 0 common_args_init.

Definition server_option_step (env : prog_env) (o : server_option) (a : server_args) : option server_args :=
  let '(ServerArgs rxi txi port ow rt rx tx time com) := a in
  match o with
  | SRxInterface optarg => Some (ServerArgs (Some optarg) txi port ow rt rx tx time com)
  | SPort optarg => Some (ServerArgs rxi txi (atoi optarg) ow rt rx tx time com)
  | SOneWay => Some (ServerArgs rxi txi port true rt rx tx time com)
  | SRoundTrip => Some (ServerArgs rxi txi port ow true rx tx time com)
  | STxInterface optarg => Some (ServerArgs rxi (Some optarg) port ow rt rx tx time com)
  | SRxCpu optarg => Some (ServerArgs rxi txi port ow rt (atoi optarg) tx time com)
  | STxCpu optarg => Some (ServerArgs rxi txi port ow rt rx (atoi optarg) time com)
  | STime optarg => Some (ServerArgs rxi txi port ow rt rx tx (atoi optarg) com)
  | SCommon o => com ← parse_common env o com; Some (ServerArgs rxi txi port ow rt rx tx time com)
  end.

Definition server_checks (a : server_args) : option server_args :=
  let csv := ca_csv (sa_common a) in
  if negb (cc_log_cpu csv =? 0) && negb (cc_enabled csv) then None
  else if is_none (sa_rx_if_name a) || (sa_port a =? 0) then None
  else if sa_time_seconds a <? 0 then None
  else if sa_one_way_mode a && sa_round_trip_mode a then None
  else if negb (sa_one_way_mode a) && negb (sa_round_trip_mode a) then None
  else if sa_round_trip_mode a && is_none (sa_tx_if_name a) then None
  else if (sa_port a <=? 0) || (65535 <? sa_port a) then None
  else
    let rx_cpu_specified := negb (sa_rx_cpu a =? 4) in
    let tx_cpu_specified := negb (sa_tx_cpu a =? 5) in
    if sa_one_way_mode a then
      if tx_cpu_specified then None
      else if negb (ca_tx_timestamp_cpu (sa_common a) =? 0) then None
      else Some a
    else if sa_round_trip_mode a then
      if rx_cpu_specified && negb tx_cpu_specified then None
      else if tx_cpu_specified && negb rx_cpu_specified then None
      else Some a
    else Some a.

Inductive server_run :=
  | RunServerOneway (rx_if_name : option cstr) (port rx_cpu : Z)
  | RunServerRoundtrip (rx_if_name tx_if_name : option cstr) (port rx_cpu tx_cpu : Z).

Definition server_dispatch (a : server_args) : server_run :=
  if sa_one_way_mode a then RunServerOneway (sa_rx_if_name a) (sa_port a) (sa_rx_cpu a)
  else RunServerRoundtrip (sa_rx_if_name a) (sa_tx_if_name a) (sa_port a) (sa_rx_cpu a) (sa_tx_cpu a).

(** From the checks on: logging, statistics and the mode. *)
Definition server_start (env_level : option cstr) (ok : nat -> bool) (h : heap) (a : server_args) : option (started server_run) :=
  let com := init_logging env_level (sa_common a) in
  let mode := if sa_one_way_mode a then STATS_SERVER_ONEWAY else STATS_SERVER_ROUNDTRIP in
  let '(stats, h) := start_stats ok h (ca_stats com) mode in
  stats ← stats;
  Some (Started _ (server_dispatch a) com stats h).
Definition server_main (env : prog_env) (env_level : option cstr) (ok : nat -> bool) (h : heap)
    (opts : list server_option) : option (started server_run) :=
  a ← parse_opts (server_option_step env) opts server_args_init;
  a ← server_checks a;
  server_start env_level ok h a.

(** ** Statistics argument *)

Definition stats_config_ok (c : stats_config_t) : Prop :=
  10000 <= sf_buffer_size c <= 10000000 /\ 1 <= sf_bin_width_us c <= 1000 /\ 10 <= sf_max_bins c <= 10000.

Lemma in_range_spec lo hi v : in_range lo hi v = true <-> lo <= v <= hi.
Proof. unfold in_range. destruct (Z.ltb_spec v lo), (Z.ltb_spec hi v); simpl; split; done || lia. Qed.

Lemma parse_stats_parameters_ok tokens c c' :
  stats_config_ok c -> parse_stats_parameters tokens c = Some c' ->
  stats_config_ok c' /\ sf_buffer_size c' = sf_buffer_size c /\ sf_enabled c' = sf_enabled c.
Proof.
  revert c. induction tokens as [|token tokens IH]; intros [enabled size bw bn] Hc.
  { cbn. by intros [= <-]. }
  cbn -[in_range strtoul starts_with u32]. destruct Hc as (H1 & H2 & H3).
  cbn [sf_buffer_size sf_bin_width_us sf_max_bins] in H1, H2, H3.
  repeat case_match; try done; intros Hp; apply IH in Hp;
    match goal with Hr : in_range _ _ _ = true |- _ => apply in_range_spec in Hr end; try done;
    unfold stats_config_ok; cbn [sf_buffer_size sf_bin_width_us sf_max_bins]; rewrite u32_small by lia;
    refine (conj _ (conj _ _)); lia.
Qed.

Lemma parse_stats_argument_ok arg c c' :
  stats_config_ok c -> parse_stats_argument true arg c = Some c' -> stats_config_ok c' /\ sf_enabled c' = sf_enabled c.
Proof.
  intros Hc. unfold parse_stats_argument. cbn [negb]. destruct (strtok_all COMMA arg) as [|token tokens]; [by intros [= <-]|].
  unfold parse_buffer_size. destruct (strtoul token) as [v endptr].
  destruct (apply_suffix v endptr) as [size|]; cbn [mbind option_bind]; [|done].
  destruct (in_range 10000 10000000 size) eqn:Hr; cbn [mbind option_bind]; [|done]. apply in_range_spec in Hr.
  destruct Hc as (_ & H2 & H3). intros Hp. apply parse_stats_parameters_ok in Hp as (Hp & _ & ?); [by split|].
  refine (conj _ (conj H2 H3)). cbn [sf_buffer_size]. rewrite u32_small by lia. lia.
Qed.

(** A number with one of the suffixes, and what it stands for. *)
Inductive suffixed (n : Z) : cstr -> Z -> Prop :=
  | suffix_none : suffixed n (fmt_u n) n
  | suffix_k c : c ∈ lit "Kk" -> suffixed n (fmt_u n ++ [c]) (n * 1000)
  | suffix_m c : c ∈ lit "Mm" -> suffixed n (fmt_u n ++ [c]) (n * 1000000).

Lemma suffix_char c : c ∈ lit "KkMm" -> isdigit c = false /\ c <> COMMA.
Proof. intros H. set_unfold in H. destruct H as [->|[->|[->|[->|[]]]]]; by vm_compute. Qed.

Lemma suffixed_token n token size :
  0 <= n <= LONG_MAX -> suffixed n token size -> 0 <= size <= 10000000 ->
  COMMA ∉ token /\ token <> [] /\
  (let '(v, endptr) := strtoul token in apply_suffix v endptr) = Some size.
Proof.
  intros Hn Hs Hsize. pose proof (fmt_u_nonempty n) as Hne.
  assert (COMMA ∉ fmt_u n) as Hc by (apply digits_no_char, fmt_u_digits; [done|lia]).
  assert (forall c, c ∈ lit "KkMm" -> strtoul (fmt_u n ++ [c]) = (n, [c])) as Hu.
  { intros c Hin. apply strtoul_fmt_u; [done|]. apply suffix_char, Hin. }
  destruct Hs as [|c Hin|c Hin].
  - split; [done|]. split; [done|]. rewrite <- (app_nil_r (fmt_u n)), strtoul_fmt_u by done. done.
  - assert (c ∈ lit "KkMm") as Hin' by (set_unfold in Hin; set_unfold; naive_solver).
    destruct (suffix_char c Hin') as [_ Hcc]. split; [set_solver|]. split; [by destruct (fmt_u n)|].
    rewrite Hu by done. unfold apply_suffix. rewrite bool_decide_false, bool_decide_true, u64_small; [done|lia|done|].
    intros Hm. set_unfold in Hin. set_unfold in Hm. naive_solver.
  - assert (c ∈ lit "KkMm") as Hin' by (set_unfold in Hin; set_unfold; naive_solver).
    destruct (suffix_char c Hin') as [_ Hcc]. split; [set_solver|]. split; [by destruct (fmt_u n)|].
    rewrite Hu by done. unfold apply_suffix. rewrite bool_decide_true, u64_small; [done|lia|done].
Qed.

(** A statistics argument written as the usage text says (a number of
    entries with an optional K or M, a bin width, a number of bins) is read back
    exactly when the values are in their ranges; and whatever the argument, the
    program goes on only with a buffer of 10,000 to 10,000,000 entries, bins of
    1 to 1000 microseconds and 10 to 10,000 bins. *)
Theorem parse_stats_argument_correct (config : stats_config_t) :
  (forall n token size bw bn, 0 <= n <= LONG_MAX -> suffixed n token size ->
     10000 <= size <= 10000000 -> 1 <= bw <= 1000 -> 10 <= bn <= 10000 ->
     parse_stats_argument true token config =
       Some (StatsConfig (sf_enabled config) size (sf_bin_width_us config) (sf_max_bins config)) /\
     parse_stats_argument true (token ++ lit ",bw=" ++ fmt_u bw ++ lit ",bn=" ++ fmt_u bn) config =
       Some (StatsConfig (sf_enabled config) size bw bn)) /\
  (forall arg config', stats_config_ok config -> parse_stats_argument true arg config = Some config' ->
     stats_config_ok config' /\ sf_enabled config' = sf_enabled config).
Proof.
  split; [|intros arg config'; apply parse_stats_argument_ok].
  intros n token size bw bn Hn Hs Hsize Hbw Hbn.
  destruct (suffixed_token n token size Hn Hs ltac:(lia)) as (Hc & Hne & Hp).
  assert (in_range 10000 10000000 size = true) as Hr by (by apply in_range_spec).
  assert (parse_buffer_size token config =
    Some (StatsConfig (sf_enabled config) size (sf_bin_width_us config) (sf_max_bins config))) as Hb.
  { unfold parse_buffer_size. destruct (strtoul token) as [v endptr]. rewrite Hp. cbn [mbind option_bind].
    by rewrite Hr, u32_small by lia. }
  unfold parse_stats_argument, strtok_all. cbn [negb]. split.
  - rewrite strtok_go_last, Hb by done. done.
  - assert (forall k v, 0 <= v -> COMMA ∉ lit k -> COMMA ∉ lit k ++ fmt_u v) as Hk.
    { intros k v Hv Hk. assert (COMMA ∉ fmt_u v) by (apply digits_no_char, fmt_u_digits; done). set_solver. }
    change (lit ",bw=") with (COMMA :: lit "bw="). change (lit ",bn=") with (COMMA :: lit "bn=").
    cbn [app]. rewrite strtok_go_piece by done.
    change ((COMMA :: lit "bn=") ++ fmt_u bn) with (COMMA :: lit "bn=" ++ fmt_u bn).
    rewrite (app_assoc (lit "bw=")), strtok_go_piece, strtok_go_last by (done || (apply Hk; [lia|by apply (bool_decide_unpack _)])).
    rewrite Hb. cbn [mbind option_bind parse_stats_parameters].
    assert (forall s, starts_with (lit "bw=") (lit "bw=" ++ s) = true) as -> by done.
    assert (forall s, starts_with (lit "bw=") (lit "bn=" ++ s) = false) as -> by done.
    assert (forall s, starts_with (lit "bn=") (lit "bn=" ++ s) = true) as -> by done.
    change (drop 3 (lit "bw=" ++ fmt_u bw)) with (fmt_u bw). change (drop 3 (lit "bn=" ++ fmt_u bn)) with (fmt_u bn).
    rewrite <- (app_nil_r (fmt_u bw)), <- (app_nil_r (fmt_u bn)), !strtoul_fmt_u by (unfold LONG_MAX; done || lia).
    cbn [fst]. rewrite (proj2 (in_range_spec 1 1000 bw)), (proj2 (in_range_spec 10 10000 bn)), !u32_small by lia. done.
Qed.

Lemma parse_stats_argument_correct_witness :
  parse_stats_argument true (lit "1M,bw=5,bn=100") (StatsConfig true 5000000 10 1000) =
    Some (StatsConfig true 1000000 5 100).
Proof.
  assert (LONG_MAX >= 1) as Hm by (vm_compute; discriminate).
  exact (proj2 (proj1 (parse_stats_argument_correct (StatsConfig true 5000000 10 1000)) 1 (lit "1M") 1000000 5 100
    ltac:(lia) (suffix_m 1 "M"%char ltac:(set_solver)) ltac:(lia) ltac:(lia) ltac:(lia))).
Defined.

(** ** File names *)

Lemma strrchr_off_spec s ch :
  match strrchr_off s ch with
  | Some i => exists a b, s = a ++ ch :: b /\ length a = i /\ ch ∉ b
  | None => ch ∉ s
  end.
Proof.
  induction s as [|c t IH]; cbn [strrchr_off]; [set_solver|].
  destruct (strrchr_off t ch) as [i|].
  - destruct IH as (a & b & -> & <- & Hb). by exists (c :: a), b.
  - case_decide as Hc; [|set_solver]. subst. by exists [], t.
Qed.

Lemma strrchr_off_eq a b ch : ch ∉ b -> strrchr_off (a ++ ch :: b) ch = Some (length a).
Proof.
  intros Hb. assert (strrchr_off b ch = None) as Hn.
  { pose proof (strrchr_off_spec b ch) as H. destruct (strrchr_off b ch); [|done].
    destruct H as (a' & b' & -> & _). set_solver. }
  induction a as [|c a IH]; cbn [app strrchr_off length]; [by rewrite Hn, decide_True|by rewrite IH].
Qed.

Lemma snprintf_dst_fits text : (length text <= 255)%nat -> snprintf_dst FILENAME_SIZE text = text.
Proof. intros H. unfold snprintf_dst. apply take_ge. change (Z.to_nat (FILENAME_SIZE - 1)) with 255%nat. lia. Qed.

(** The TX timestamp file is named after the CSV file with _tx before the
    last dot of the path, or with _tx.csv appended when there is no dot, as far
    as the array of 256 characters allows; the two names differ unless the CSV
    file name has 255 characters and no dot, when both logs go to one file. *)
Theorem tx_filename_correct (csv_filename : cstr) :
  (length csv_filename <= 255)%nat ->
  (length (derive_tx_filename csv_filename) <= 255)%nat /\
  (derive_tx_filename csv_filename = csv_filename <-> length csv_filename = 255%nat /\ DOT ∉ csv_filename) /\
  (forall base ext, csv_filename = base ++ DOT :: ext -> DOT ∉ ext -> (length csv_filename <= 252)%nat ->
     derive_tx_filename csv_filename = base ++ lit "_tx" ++ DOT :: ext) /\
  (DOT ∉ csv_filename -> (length csv_filename <= 248)%nat ->
     derive_tx_filename csv_filename = csv_filename ++ lit "_tx.csv").
Proof.
  intros Hl.
  assert (forall text, (length (snprintf_dst FILENAME_SIZE text) <= 255)%nat) as Hs.
  { intros text. unfold snprintf_dst. rewrite length_take. change (Z.to_nat (FILENAME_SIZE - 1)) with 255%nat. lia. }
  split; [unfold derive_tx_filename; by case_match|]. split; [|split].
  - unfold derive_tx_filename. pose proof (strrchr_off_spec csv_filename DOT) as H.
    destruct (strrchr_off csv_filename DOT) as [i|].
    + destruct H as (a & b & -> & <- & Hb). split; [|intros [_ Hd]; exfalso; set_solver].
      intros H. exfalso. rewrite take_app_length in H. apply (f_equal (fun l => l !! length a)) in H.
      rewrite length_app in Hl. simpl in Hl. unfold snprintf_dst in H.
      rewrite lookup_take_lt in H by (change (Z.to_nat (FILENAME_SIZE - 1)) with 255%nat; lia).
      rewrite lookup_app_r, Nat.sub_diag in H by lia. rewrite list_lookup_middle in H by done. discriminate H.
    + split.
      * intros Heq. split; [|done]. apply (f_equal (@length _)) in Heq. unfold snprintf_dst in Heq.
        rewrite length_take, length_app in Heq. change (Z.to_nat (FILENAME_SIZE - 1)) with 255%nat in Heq. change (length (lit "_tx.csv")) with 7%nat in Heq. lia.
      * intros [He _]. unfold snprintf_dst. change (Z.to_nat (FILENAME_SIZE - 1)) with 255%nat.
        rewrite <- He. apply take_app_length.
  - intros base ext -> Hd Hb. unfold derive_tx_filename. rewrite strrchr_off_eq, take_app_length, drop_app_length by done.
    apply snprintf_dst_fits. rewrite length_app in *. simpl in *. lia.
  - intros Hd Hb. unfold derive_tx_filename. pose proof (strrchr_off_spec csv_filename DOT) as H.
    destruct (strrchr_off csv_filename DOT) as [i|]; [destruct H as (a & b & -> & _); set_solver|].
    apply snprintf_dst_fits. rewrite length_app. simpl. lia.
Qed.

Lemma tx_filename_correct_witness :
  derive_tx_filename (lit "run.1/log.csv") = lit "run.1/log_tx.csv" /\
  derive_tx_filename (lit "run.1/log") = lit "run_tx.1/log" /\
  derive_tx_filename (replicate 255 "a"%char) = replicate 255 "a"%char.
Proof.
  split; [|split].
  - exact (proj1 (proj2 (proj2 (tx_filename_correct (lit "run.1/log.csv") ltac:(simpl; lia))))
      (lit "run.1/log") (lit "csv") eq_refl ltac:(apply (bool_decide_unpack _); exact I) ltac:(simpl; lia)).
  - exact (proj1 (proj2 (proj2 (tx_filename_correct (lit "run.1/log") ltac:(simpl; lia))))
      (lit "run") (lit "1/log") eq_refl ltac:(apply (bool_decide_unpack _); exact I) ltac:(simpl; lia)).
  - refine (proj2 (proj1 (proj2 (tx_filename_correct (replicate 255 "a"%char) ltac:(rewrite length_replicate; lia)))) _).
    split; [apply length_replicate|]. apply (bool_decide_unpack _). exact I.
Defined.

(** ** The configuration after the options *)

(** The value of the last option that sets a field. *)
Definition last_value {O V} (f : O -> option V) (opts : list O) (d : V) : V :=
  fold_left (fun v o => default v (f o)) opts d.

Lemma parse_opts_last {O A V} (step : O -> A -> option A) (field : A -> V) (f : O -> option V) opts a a' :
  (forall o a a', step o a = Some a' -> field a' = default (field a) (f o)) ->
  parse_opts step opts a = Some a' -> field a' = last_value f opts (field a).
Proof.
  intros Hs. revert a. induction opts as [|o opts IH]; intros a; cbn [parse_opts]; [by intros [= <-]|].
  destruct (step o a) as [a1|] eqn:E; cbn [mbind option_bind]; [|done]. intros H.
  cbn. rewrite <- (Hs _ _ _ E). by apply IH.
Qed.

Lemma parse_opts_invariant {O A} (step : O -> A -> option A) (P : A -> Prop) opts a a' :
  (forall o a a', P a -> step o a = Some a' -> P a') -> P a -> parse_opts step opts a = Some a' -> P a'.
Proof.
  intros Hs. revert a. induction opts as [|o opts IH]; intros a Ha; cbn [parse_opts]; [by intros [= <-]|].
  destruct (step o a) as [a1|] eqn:E; cbn [mbind option_bind]; [|done]. intros H. eapply IH; [|done]. by eapply Hs.
Qed.

Lemma parse_opts_refused {O A} (step : O -> A -> option A) (refused : O -> bool) opts a :
  (forall o a, refused o = is_none (step o a)) ->
  is_none (parse_opts step opts a) = existsb refused opts.
Proof.
  intros Hs. revert a. induction opts as [|o opts IH]; intros a; cbn [parse_opts existsb]; [done|].
  rewrite (Hs o a). destruct (step o a); cbn [mbind option_bind is_none orb]; [apply IH|done].
Qed.

(** An option the programs refuse, whatever came before it. *)
Definition common_refused (env : prog_env) (o : common_option) : bool := is_none (parse_common env o common_args_init).

Lemma parse_stats_refused ok arg c c' :
  is_none (parse_stats_argument ok arg c) = is_none (parse_stats_argument ok arg c').
Proof.
  assert (forall tokens c c', is_none (parse_stats_parameters tokens c) = is_none (parse_stats_parameters tokens c')) as H.
  { induction tokens as [|token tokens IH]; intros [] []; cbn -[starts_with strtoul in_range u32]; [done|].
    repeat case_match; done || apply IH. }
  unfold parse_stats_argument. destruct ok; cbn [negb]; [|done]. destruct (strtok_all COMMA arg) as [|token tokens]; [done|].
  unfold parse_buffer_size. destruct (strtoul token) as [v endptr]. destruct (apply_suffix v endptr); cbn [mbind option_bind]; [|done].
  case_match; cbn [mbind option_bind]; [apply H|done].
Qed.

Lemma parse_common_refused env o a : common_refused env o = is_none (parse_common env o a).
Proof.
  destruct a as [csv st log cpu]. unfold common_refused, common_args_init.
  destruct o as [f|s|[s|]|s|s|s| |]; cbn [parse_common]; try done.
  - by case_match.
  - assert (forall A B (x : option A) (f : A -> B), is_none (y ← x; Some (f y)) = is_none x) as Hb by (by intros ?? []).
    rewrite !Hb. apply parse_stats_refused.
  - by destruct (parse_log_level s).
  - unfold parse_log_components. destruct (pe_strdup_ok env); cbn [negb]; [|done].
    set (s1 := fold_left _ _ log_state_init). set (s2 := fold_left _ _ log).
    pose proof (components_loop_refused (pe_line env) (pe_now env) (pe_line env) (pe_now env) (strtok_all COMMA s) s1 s2) as H.
    destruct (components_loop _ _ _ s1), (components_loop _ _ _ s2); try done; exfalso; naive_solver.
  - by case_match.
Qed.

(** What every accepted command line guarantees. *)
Record common_ok (a : common_args) : Prop := {
  co_log_cpu : 0 <= cc_log_cpu (ca_csv a);
  co_names : (length (cc_filename (ca_csv a)) <= 255)%nat /\
    (cc_enabled (ca_csv a) = true -> cc_tx_filename (ca_csv a) = derive_tx_filename (cc_filename (ca_csv a)));
  co_stats : stats_config_ok (ca_stats a);
  co_log : 0 <= g_log_level (ca_log a) <= 6 /\ 0 <= g_component_mask (ca_log a) < 18446744073709551616;
  co_cpu : 0 <= ca_tx_timestamp_cpu a }.

Lemma default_stats_ok b : stats_config_ok (StatsConfig b 5000000 10 1000).
Proof. unfold stats_config_ok; cbn. lia. Qed.

Lemma common_args_init_ok : common_ok common_args_init.
Proof.
  constructor; cbn -[u64]; [lia|split; [lia|done]|apply default_stats_ok| |lia].
  unfold HW_LOG_LEVEL_INFO. lia.
Qed.

Lemma parse_log_level_range s l : parse_log_level s = Some l -> 0 <= l <= 6.
Proof.
  unfold parse_log_level. cbn. intros. repeat case_decide; simplify_eq;
    unfold HW_LOG_LEVEL_DEBUG, HW_LOG_LEVEL_INFO, HW_LOG_LEVEL_WARN, HW_LOG_LEVEL_ERROR; lia.
Qed.

Lemma parse_common_ok env o a a' :
  pe_strdup_ok env = true -> common_ok a -> parse_common env o a = Some a' -> common_ok a'.
Proof.
  intros Henv [H1 H2 H3 H4 H5]. destruct a as [csv st log cpu].
  cbn [ca_csv ca_stats ca_log ca_tx_timestamp_cpu] in *.
  destruct o as [f|s|s|s|s|s| |]; cbn [parse_common]; try done.
  - intros [= <-]. constructor; try done. split; [|done].
    cbn [ca_csv cc_filename]. change (Z.to_nat (FILENAME_SIZE - 1)) with 255%nat.
    assert (forall l : cstr, (length (take 255 l) <= 255)%nat) as Ht by (intros l; rewrite length_take; lia).
    destruct f; apply Ht.
  - destruct (Z.ltb_spec (atoi s) 0); [done|]. intros [= <-]. by constructor.
  - destruct s as [s|]; [|intros [= <-]; constructor; try done; apply default_stats_ok].
    rewrite Henv. destruct (parse_stats_argument true s _) as [st'|] eqn:E; cbn [mbind option_bind]; [|done]. intros [= <-].
    apply parse_stats_argument_ok in E as [E _]; [|done]. by constructor.
  - destruct (parse_log_level s) as [l|] eqn:E; cbn [mbind option_bind]; [|done]. intros [= <-].
    apply parse_log_level_range in E. constructor; try done. cbn [ca_log]. unfold hw_log_set_level.
    case_match; [|done]. by split; [|apply H4].
  - rewrite Henv. destruct (parse_log_components true _ _ _ log) as [log'|] eqn:E; [|done]. intros [= <-].
    apply parse_log_components_keeps in E as [Hm Hl]; [|apply H4]. constructor; try done. cbn [ca_log]. rewrite Hl. by split; [apply H4|].
  - destruct (Z.ltb_spec (atoi s) 0); [done|]. intros [= <-]. by constructor.
Qed.

(** The fields the common options set, as the last option of each kind. *)
Definition common_values {O} (com : O -> option common_option) (opts : list O) (a : common_args) : Prop :=
  cc_enabled (ca_csv a) = last_value (fun o => match com o with Some (OptOutputCsv _) => Some true | _ => None end) opts false /\
  cc_log_cpu (ca_csv a) = last_value (fun o => match com o with Some (OptLogCpu s) => Some (atoi s) | _ => None end) opts 0 /\
  sf_enabled (ca_stats a) = last_value (fun o => match com o with Some (OptStats _) => Some true | _ => None end) opts false /\
  ca_tx_timestamp_cpu a = last_value (fun o => match com o with Some (OptTxTimestampCpu s) => Some (atoi s) | _ => None end) opts 0.

Lemma parse_stats_enabled ok arg c c' : parse_stats_argument ok arg c = Some c' -> sf_enabled c' = sf_enabled c.
Proof.
  assert (forall tokens c c', parse_stats_parameters tokens c = Some c' -> sf_enabled c' = sf_enabled c) as H.
  { induction tokens as [|token tokens IH]; intros [e sz bw bn] c1; cbn [parse_stats_parameters]; [by intros [= <-]|].
    repeat case_match; try done; intros ->%IH; done. }
  unfold parse_stats_argument. destruct ok; cbn [negb]; [|done]. destruct (strtok_all COMMA arg) as [|token tokens]; [by intros [= <-]|].
  unfold parse_buffer_size. destruct (strtoul token) as [v endptr]. destruct (apply_suffix v endptr); cbn [mbind option_bind]; [|done].
  case_match; cbn [mbind option_bind]; [|done]. by intros ->%H.
Qed.

Lemma parse_common_fields env o a a' :
  parse_common env o a = Some a' ->
  cc_enabled (ca_csv a') = default (cc_enabled (ca_csv a)) (match o with OptOutputCsv _ => Some true | _ => None end) /\
  cc_log_cpu (ca_csv a') = default (cc_log_cpu (ca_csv a)) (match o with OptLogCpu s => Some (atoi s) | _ => None end) /\
  sf_enabled (ca_stats a') = default (sf_enabled (ca_stats a)) (match o with OptStats _ => Some true | _ => None end) /\
  ca_tx_timestamp_cpu a' = default (ca_tx_timestamp_cpu a) (match o with OptTxTimestampCpu s => Some (atoi s) | _ => None end).
Proof.
  destruct a as [csv st log cpu]. destruct o as [f|s|[s|]|s|s|s| |]; cbn [parse_common]; intros H; simplify_eq/=; try done.
  - by case_match; simplify_eq/=.
  - destruct (parse_stats_argument _ _ _) eqn:E; simplify_eq/=. apply parse_stats_enabled in E. done.
  - by destruct (parse_log_level s); simplify_eq/=.
  - by case_match; simplify_eq/=.
  - by case_match; simplify_eq/=.
Qed.

(** ** The client's command line *)

Definition client_common (o : client_option) : option common_option := match o with CCommon o => Some o | _ => None end.
Definition client_refused (env : prog_env) (o : client_option) : bool :=
  match o with CCommon o => common_refused env o | _ => false end.

(** Every field is the one of the last option that sets it. *)
Record client_values (opts : list client_option) (a : client_args) : Prop := {
  cv_ip : cl_dest_ip a = last_value (fun o => match o with CDstIp s => Some (Some s) | _ => None end) opts None;
  cv_port : cl_dest_port a = last_value (fun o => match o with CDstPort s => Some (atoi s) | _ => None end) opts 0;
  cv_pps : cl_pps a = last_value (fun o => match o with CPps s => Some (atoi s) | _ => None end) opts 0;
  cv_size : cl_packet_size a = last_value (fun o => match o with CPktSize s => Some (atoi s) | _ => None end) opts 0;
  cv_time : cl_duration_seconds a = last_value (fun o => match o with CTime s => Some (atoi s) | _ => None end) opts 0;
  cv_tx_cpu : cl_tx_cpu a = last_value (fun o => match o with CTxCpu s => Some (atoi s) | _ => None end) opts 4;
  cv_rx_cpu : cl_rx_cpu a = last_value (fun o => match o with CRxCpu s => Some (atoi s) | _ => None end) opts 5;
  cv_rx_port : cl_rx_port a = last_value (fun o => match o with CRxPort s => Some (atoi s) | _ => None end) opts 0;
  cv_round : cl_round_trip_mode a = last_value (fun o => match o with CRoundTrip => Some true | _ => None end) opts false;
  cv_oneway : cl_one_way_mode a = last_value (fun o => match o with COneWay => Some true | _ => None end) opts false;
  cv_txi : cl_tx_interface a = last_value (fun o => match o with CTxInterface s => Some (Some s) | _ => None end) opts None;
  cv_rxi : cl_rx_interface a = last_value (fun o => match o with CRxInterface s => Some (Some s) | _ => None end) opts None;
  cv_common : common_values client_common opts (cl_common a) }.

Ltac last_field field H :=
  refine (parse_opts_last _ field _ _ _ _ _ H);
  intros o a0 a1 Hstep; destruct a0, o; cbn [client_option_step server_option_step] in Hstep;
  try (destruct (parse_common _ _ _) eqn:Hcom; cbn [mbind option_bind] in Hstep; [apply parse_common_fields in Hcom|done]);
  simplify_eq/=; first [reflexivity | tauto].

Lemma client_parse_values env opts a :
  parse_opts (client_option_step env) opts client_args_init = Some a -> client_values opts a.
Proof.
  intros H. constructor.
  - last_field cl_dest_ip H.
  - last_field cl_dest_port H.
  - last_field cl_pps H.
  - last_field cl_packet_size H.
  - last_field cl_duration_seconds H.
  - last_field cl_tx_cpu H.
  - last_field cl_rx_cpu H.
  - last_field cl_rx_port H.
  - last_field cl_round_trip_mode H.
  - last_field cl_one_way_mode H.
  - last_field cl_tx_interface H.
  - last_field cl_rx_interface H.
  - split; [|split; [|split]].
    + last_field (fun a => cc_enabled (ca_csv (cl_common a))) H.
    + last_field (fun a => cc_log_cpu (ca_csv (cl_common a))) H.
    + last_field (fun a => sf_enabled (ca_stats (cl_common a))) H.
    + last_field (fun a => ca_tx_timestamp_cpu (cl_common a)) H.
Qed.

Lemma client_step_refused env o a : client_refused env o = is_none (client_option_step env o a).
Proof.
  destruct a, o; try done. cbn [client_refused client_option_step].
  rewrite (parse_common_refused env o cl_common0). by destruct (parse_common _ _ _).
Qed.

Lemma client_parse_common env opts a :
  pe_strdup_ok env = true -> parse_opts (client_option_step env) opts client_args_init = Some a -> common_ok (cl_common a).
Proof.
  intros Henv. refine (parse_opts_invariant _ (fun a => common_ok (cl_common a)) _ client_args_init _ _ common_args_init_ok).
  intros o a0 a1 H Hs. destruct a0, o; cbn [client_option_step] in Hs; simplify_eq/=; try done.
  destruct (parse_common _ _ _) eqn:E; simplify_eq/=. by eapply parse_common_ok.
Qed.

(** What the checks require. *)
Record client_ready (a : client_args) : Prop := {
  cr_log : cc_log_cpu (ca_csv (cl_common a)) <> 0 -> cc_enabled (ca_csv (cl_common a)) = true;
  cr_mode : cl_one_way_mode a = negb (cl_round_trip_mode a);
  cr_ip : cl_dest_ip a <> None;
  cr_port : 1 <= cl_dest_port a <= 65535;
  cr_pps : 1 <= cl_pps a;
  cr_size : 12 <= cl_packet_size a <= MAX_PACKET_SIZE;
  cr_time : 0 <= cl_duration_seconds a;
  cr_oneway : cl_one_way_mode a = true -> cl_rx_cpu a = 5 /\ cl_rx_port a <= 0 /\ cl_rx_interface a = None;
  cr_round : cl_round_trip_mode a = true ->
    cl_rx_port a <> 0 /\ cl_rx_port a <= 65535 /\ cl_rx_interface a <> None /\ (cl_tx_cpu a = 4 <-> cl_rx_cpu a = 5) }.

Lemma is_none_true {A} (o : option A) : is_none o = true <-> o = None.
Proof. by destruct o. Qed.
Lemma is_none_false {A} (o : option A) : is_none o = false <-> o <> None.
Proof. by destruct o. Qed.

(** Reads the boolean tests of a chain of checks. *)
Ltac read_tests :=
  rewrite ?andb_true_iff, ?andb_false_iff, ?orb_true_iff, ?orb_false_iff, ?negb_true_iff, ?negb_false_iff,
    ?Z.eqb_eq, ?Z.eqb_neq, ?Z.ltb_lt, ?Z.ltb_ge, ?Z.leb_le, ?Z.leb_gt, ?is_none_true, ?is_none_false in *.

(** A failed test contradicts a requirement. *)
Ltac refute_ready :=
  intros []; simpl in *; read_tests; destruct_and?;
  repeat match goal with
  | H : true = true -> _ |- _ => specialize (H eq_refl)
  | H : ?P -> _, H' : ?P |- _ => specialize (H H')
  end;
  destruct_and?; unfold MAX_PACKET_SIZE in *; (congruence || lia).

(** The tests that passed are the requirements. *)
Ltac confirm_ready :=
  constructor; simpl; read_tests; unfold MAX_PACKET_SIZE in *; intros; destruct_and?;
  first [congruence | lia | tauto | by (split_and?; congruence || lia)].

Lemma client_checks_spec a :
  (client_checks a = Some a /\ client_ready a) \/ (client_checks a = None /\ ~ client_ready a).
Proof.
  destruct a as [ip port pps size dur tx rx rxp rt ow txi rxi com]. unfold client_checks; simpl.
  destruct ow, rt, ip as [ip|], rxi as [rxi|]; simpl; rewrite ?orb_false_r, ?orb_true_r; cbn [orb];
  repeat match goal with
  | |- context [if ?b then None else _] => destruct b eqn:?; [right; split; [done|refute_ready]|]
  end; first [right; split; [done|refute_ready] | left; split; [|confirm_ready]].
  assert (rx = 5) as -> by (read_tests; lia). by destruct (negb (tx =? 4)).
  all: done.
Qed.

Lemma start_stats_spec ok h config mode :
  heap_wf h -> (forall n, ok n = true) -> stats_config_ok config ->
  exists stats h', start_stats ok h config mode = (Some stats, h') /\
    match stats with
    | Some s => sf_enabled config = true /\ ring_wf s /\ ring_contents s = [] /\
                st_capacity s = 2 ^ Z.log2_up (sf_buffer_size config)
    | None => sf_enabled config = false /\ h' = h
    end.
Proof.
  intros Hw Hok (Hs & _). unfold start_stats. destruct (sf_enabled config); [|by exists None, h].
  destruct (stats_collector_lifecycle ok h (sf_buffer_size config) mode Hw ltac:(lia)) as [H1 H2].
  destruct (H2 ltac:(lia) Hok) as [s Hc]. destruct (create_stats_collector ok h (sf_buffer_size config) mode) as [[s'|] h'];
    simplify_eq/=. exists (Some s), h'. split; [done|]. tauto.
Qed.

(** The client starts exactly when every option is accepted and the values
    that result (each the one of the last option that sets it) pass the checks:
    one mode, an address, a port in 1..65535, at least one packet a second,
    packets of 12 to 1500 bytes, and the options of the mode.  It then calls the
    function of the mode with those values, with an empty statistics ring of the
    next power of two when statistics are on; the log level given by the
    environment replaces the one of the command line. *)
Theorem client_main_correct (env : prog_env) (env_level : option cstr) (ok : nat -> bool) (h : heap)
    (opts : list client_option) :
  pe_strdup_ok env = true -> heap_wf h -> (forall n, ok n = true) ->
  match client_main env env_level ok h opts with
  | Some s =>
      existsb (client_refused env) opts = false /\
      exists a, client_values opts a /\ client_ready a /\ common_ok (cl_common a) /\
        sd_run s = client_dispatch a /\ sd_common s = init_logging env_level (cl_common a) /\
        match sd_stats s with
        | Some st => sf_enabled (ca_stats (cl_common a)) = true /\ ring_wf st /\ ring_contents st = [] /\
                     st_capacity st = 2 ^ Z.log2_up (sf_buffer_size (ca_stats (cl_common a)))
        | None => sf_enabled (ca_stats (cl_common a)) = false /\ sd_heap s = h
        end
  | None =>
      existsb (client_refused env) opts = true \/ exists a, client_values opts a /\ ~ client_ready a
  end.
Proof.
  intros Henv Hw Hok. unfold client_main.
  pose proof (parse_opts_refused _ _ opts client_args_init (client_step_refused env)) as Hr.
  destruct (parse_opts (client_option_step env) opts client_args_init) as [a|] eqn:Hp; [|by left].
  pose proof (client_parse_values env opts a Hp) as Hv. pose proof (client_parse_common env opts a Henv Hp) as Hc.
  cbn [mbind option_bind is_none] in *. destruct (client_checks_spec a) as [[-> Ha]|[-> Ha]]; [|right; by exists a].
  cbn [mbind option_bind].
  destruct (start_stats_spec ok h (ca_stats (cl_common a)) (if cl_one_way_mode a then STATS_CLIENT_ONEWAY else STATS_CLIENT_ROUNDTRIP)
    Hw Hok (co_stats _ Hc)) as (stats & h' & Hs & Hm).
  cbn [init_logging ca_stats] in *. rewrite Hs. cbn [mbind option_bind]. split; [done|]. exists a. tauto.
Qed.

Definition demo_env (name : string) : prog_env := ProgEnv (lit name) 42 true (lit "now") 226.
Definition demo_heap : heap := Heap 0 [].

Lemma client_main_correct_witness :
  let opts := [COneWay; CDstIp (lit "10.0.0.2"); CDstPort (lit "80"); CDstPort (lit "9000"); CPps (lit "1000");
               CPktSize (lit "64"); CCommon (OptOutputCsv None)] in
  (exists a, client_values opts a /\ client_ready a /\
     client_dispatch a = RunClientOneway (Some (lit "10.0.0.2")) 9000 1000 64 0 4 None /\
     cc_tx_filename (ca_csv (cl_common a)) = lit "client_timestamps_42_tx.csv") /\
  (exists a, client_values (CRxPort (lit "7") :: opts) a /\ ~ client_ready a).
Proof.
  intros opts. pose (env := demo_env "client_timestamps_"). split.
  - pose proof (client_main_correct env None (fun _ => true) demo_heap opts eq_refl ltac:(split; constructor) (fun _ => eq_refl)) as H.
    cbv in H. destruct H as (_ & a & Hv & Ha & _ & Hr & Hc & _). exists a. split; [exact Hv|]. split; [exact Ha|].
    split; [symmetry; exact Hr|]. apply (f_equal (fun c => cc_tx_filename (ca_csv c))) in Hc. symmetry. exact Hc.
  - pose proof (client_main_correct env None (fun _ => true) demo_heap (CRxPort (lit "7") :: opts) eq_refl ltac:(split; constructor) (fun _ => eq_refl)) as H.
    cbv in H. destruct H as [H|H]; [discriminate H|exact H].
Defined.

(** ** The server's command line *)

Definition server_common (o : server_option) : option common_option := match o with SCommon o => Some o | _ => None end.
Definition server_refused (env : prog_env) (o : server_option) : bool :=
  match o with SCommon o => common_refused env o | _ => false end.

Record server_values (opts : list server_option) (a : server_args) : Prop := {
  sv_rxi : sa_rx_if_name a = last_value (fun o => match o with SRxInterface s => Some (Some s) | _ => None end) opts None;
  sv_txi : sa_tx_if_name a = last_value (fun o => match o with STxInterface s => Some (Some s) | _ => None end) opts None;
  sv_port : sa_port a = last_value (fun o => match o with SPort s => Some (atoi s) | _ => None end) opts 0;
  sv_oneway : sa_one_way_mode a = last_value (fun o => match o with SOneWay => Some true | _ => None end) opts false;
  sv_round : sa_round_trip_mode a = last_value (fun o => match o with SRoundTrip => Some true | _ => None end) opts false;
  sv_rx_cpu : sa_rx_cpu a = last_value (fun o => match o with SRxCpu s => Some (atoi s) | _ => None end) opts 4;
  sv_tx_cpu : sa_tx_cpu a = last_value (fun o => match o with STxCpu s => Some (atoi s) | _ => None end) opts 5;
  sv_time : sa_time_seconds a = last_value (fun o => match o with STime s => Some (atoi s) | _ => None end) opts 0;
  sv_common : common_values server_common opts (sa_common a) }.

Lemma server_parse_values env opts a :
  parse_opts (server_option_step env) opts server_args_init = Some a -> server_values opts a.
Proof.
  intros H. constructor.
  - last_field sa_rx_if_name H.
  - last_field sa_tx_if_name H.
  - last_field sa_port H.
  - last_field sa_one_way_mode H.
  - last_field sa_round_trip_mode H.
  - last_field sa_rx_cpu H.
  - last_field sa_tx_cpu H.
  - last_field sa_time_seconds H.
  - split; [|split; [|split]].
    + last_field (fun a => cc_enabled (ca_csv (sa_common a))) H.
    + last_field (fun a => cc_log_cpu (ca_csv (sa_common a))) H.
    + last_field (fun a => sf_enabled (ca_stats (sa_common a))) H.
    + last_field (fun a => ca_tx_timestamp_cpu (sa_common a)) H.
Qed.

Lemma server_step_refused env o a : server_refused env o = is_none (server_option_step env o a).
Proof.
  destruct a, o; try done. cbn [server_refused server_option_step].
  rewrite (parse_common_refused env o sa_common0). by destruct (parse_common _ _ _).
Qed.

Lemma server_parse_common env opts a :
  pe_strdup_ok env = true -> parse_opts (server_option_step env) opts server_args_init = Some a -> common_ok (sa_common a).
Proof.
  intros Henv. refine (parse_opts_invariant _ (fun a => common_ok (sa_common a)) _ server_args_init _ _ common_args_init_ok).
  intros o a0 a1 H Hs. destruct a0, o; cbn [server_option_step] in Hs; simplify_eq/=; try done.
  destruct (parse_common _ _ _) eqn:E; simplify_eq/=. by eapply parse_common_ok.
Qed.

Record server_ready (a : server_args) : Prop := {
  sr_log : cc_log_cpu (ca_csv (sa_common a)) <> 0 -> cc_enabled (ca_csv (sa_common a)) = true;
  sr_mode : sa_one_way_mode a = negb (sa_round_trip_mode a);
  sr_rx_if : sa_rx_if_name a <> None;
  sr_port : 1 <= sa_port a <= 65535;
  sr_time : 0 <= sa_time_seconds a;
  sr_oneway : sa_one_way_mode a = true -> sa_tx_cpu a = 5 /\ ca_tx_timestamp_cpu (sa_common a) = 0;
  sr_round : sa_round_trip_mode a = true -> sa_tx_if_name a <> None /\ (sa_rx_cpu a = 4 <-> sa_tx_cpu a = 5) }.

Lemma server_checks_spec a :
  (server_checks a = Some a /\ server_ready a) \/ (server_checks a = None /\ ~ server_ready a).
Proof.
  destruct a as [rxi txi port ow rt rx tx time com]. unfold server_checks; simpl.
  destruct ow, rt, rxi as [rxi|], txi as [txi|]; simpl; rewrite ?orb_false_r, ?orb_true_r; cbn [orb];
  repeat match goal with
  | |- context [if ?b then None else _] => destruct b eqn:?; [right; split; [done|refute_ready]|]
  end; first [right; split; [done|refute_ready] | left; split; [done|confirm_ready]].
Qed.

(** The server starts exactly when every option is accepted and the values
    that result (each the one of the last option that sets it) pass the checks:
    a receiving interface, a port in 1..65535, a run time that is not negative,
    one mode, and the options of the mode.  It then calls the function of the
    mode with those values and an empty statistics ring when statistics are on. *)
Theorem server_main_correct (env : prog_env) (env_level : option cstr) (ok : nat -> bool) (h : heap)
    (opts : list server_option) :
  pe_strdup_ok env = true -> heap_wf h -> (forall n, ok n = true) ->
  match server_main env env_level ok h opts with
  | Some s =>
      existsb (server_refused env) opts = false /\
      exists a, server_values opts a /\ server_ready a /\ common_ok (sa_common a) /\
        sd_run s = server_dispatch a /\ sd_common s = init_logging env_level (sa_common a) /\
        match sd_stats s with
        | Some st => sf_enabled (ca_stats (sa_common a)) = true /\ ring_wf st /\ ring_contents st = [] /\
                     st_capacity st = 2 ^ Z.log2_up (sf_buffer_size (ca_stats (sa_common a)))
        | None => sf_enabled (ca_stats (sa_common a)) = false /\ sd_heap s = h
        end
  | None =>
      existsb (server_refused env) opts = true \/ exists a, server_values opts a /\ ~ server_ready a
  end.
Proof.
  intros Henv Hw Hok. unfold server_main, server_start.
  pose proof (parse_opts_refused _ _ opts server_args_init (server_step_refused env)) as Hr.
  destruct (parse_opts (server_option_step env) opts server_args_init) as [a|] eqn:Hp; [|by left].
  pose proof (server_parse_values env opts a Hp) as Hv. pose proof (server_parse_common env opts a Henv Hp) as Hc.
  cbn [mbind option_bind is_none] in *. destruct (server_checks_spec a) as [[-> Ha]|[-> Ha]]; [|right; by exists a].
  cbn [mbind option_bind].
  destruct (start_stats_spec ok h (ca_stats (sa_common a)) (if sa_one_way_mode a then STATS_SERVER_ONEWAY else STATS_SERVER_ROUNDTRIP)
    Hw Hok (co_stats _ Hc)) as (stats & h' & Hs & Hm).
  cbn [init_logging ca_stats] in *. rewrite Hs. cbn [mbind option_bind]. split; [done|]. exists a. tauto.
Qed.

Lemma server_main_correct_witness :
  let opts := [SRoundTrip; SRxInterface (lit "ens1"); STxInterface (lit "ens2"); SPort (lit "9000")] in
  (exists a, server_values opts a /\ server_ready a /\
     server_dispatch a = RunServerRoundtrip (Some (lit "ens1")) (Some (lit "ens2")) 9000 4 5) /\
  (exists a, server_values (opts ++ [STxCpu (lit "6")]) a /\ ~ server_ready a).
Proof.
  intros opts. pose (env := demo_env "server_timestamps_"). split.
  - pose proof (server_main_correct env None (fun _ => true) demo_heap opts eq_refl ltac:(split; constructor) (fun _ => eq_refl)) as H.
    cbv in H. destruct H as (_ & a & Hv & Ha & _ & Hr & _). exists a. split; [exact Hv|]. split; [exact Ha|].
    symmetry; exact Hr.
  - pose proof (server_main_correct env None (fun _ => true) demo_heap (opts ++ [STxCpu (lit "6")]) eq_refl ltac:(split; constructor) (fun _ => eq_refl)) as H.
    cbv in H. destruct H as [H|H]; [discriminate H|exact H].
Defined.
